(* ===== verification/_CoqProject ===== *)
-Q . S2P
Prelude.v
PyStr.v
Uuid.v
Ipaddr.v
Models.v
Config.v
UpstreamGuard.v
Proto.v
WorkersSvc.v
Scheduler.v
Scaling.v
Autoscaling.v
GrpcServer.v
Usage.v
Json.v
JsonText.v
PrefixCache.v
AdminApi.v
Gateway.v
OpenApi.v
Engine.v
Manager.v
Schemas.v
Instances.v
Accounts.v
Catalog.v
UsageApi.v
Gpu.v
Agent.v
ControlLoop.v
Migrations.v
Downgrades.v
Telemetry.v
Metrics.v
Bench.v
Fixture.v
Coding.v
Reconcile.v
Soak.v
Harness.v
Trace.v
Report.v
Responses.v
Ddl.v
Revisions.v
SchemaRows.v
Api.v
System.v
Startup.v
