(* ===== verification/Prelude.v ===== *)
(** * Inferna Next: a verification library

    Inferna Next serves language models on a cluster of GPU hosts.  A server
    (FastAPI and gRPC over an SQL database) keeps what should run; a worker on each
    host reports what does and carries out the server's commands; a gateway on the
    server routes OpenAI requests to the instances.  This library models the Python
    of [src/server/inferna_server], [src/worker/inferna_worker], the migrations, the
    benchmark and three operational scripts, and proves what makes it correct.

    ** How the parts interact

    Handlers, RPCs and background loops of the server share the database and nothing
    else but the gateway's in-memory tables.  Each runs in a session ([Models]): it
    sees its own writes, and a commit applies them all or raises and applies none.
    A worker registers once, then calls [Sync] again and again: the server stores
    its report and answers with the commands that the difference between the desired
    and the reported state calls for ([WorkersSvc]); the worker reconciles
    ([Manager]).  [ControlLoop] puts both sides together, [System] puts everything
    that writes the database into one transition system.

    ** Files and what they model

    Shared ground, not code of the repository:
    - [Prelude]: identifiers, exceptions, the error monad [result], the
      state-and-error monad [M] (its state survives an exception, as Python's
      objects and the session do), lists, dicts, and their lemmas and automation.
    - [PyStr], [Uuid], [Ipaddr], [Json]: the parts of Python's standard library the
      code uses: [str] methods, [uuid.UUID], SHA-256, [ipaddress], [urlsplit],
      [json.loads] and [json.dumps].  [JsonText] proves that what is written is read
      back.

    The server:
    - [Models] (models.py, db.py): a record per ORM class, the CHECK, UNIQUE and
      foreign-key constraints ([constraints_ok]), the session.
    - [Config] (config.py), [Proto] (cluster.proto), [Schemas] and [Responses]
      (the request and the response bodies of schemas.py).
    - [UpstreamGuard] (services/upstream_guard.py): which upstream may be dialled.
    - [Scheduler] (services/scheduler.py), [Scaling] (services/scaling.py),
      [Autoscaling] (services/autoscaling.py): where replicas go and how many.
    - [WorkersSvc] (services/workers_svc.py, grpc_server.py): registration,
      synchronisation, catalog seeding, the disconnect watchdog; [GrpcServer]
      (grpc_server.py): the port's credentials and the server from start to end.
    - [Usage] (services/usage.py), [PrefixCache] (services/prefix_cache.py),
      [Gateway] (api/gateway.py), [Telemetry] (the latencies the gateway observes and
      what the autoscaler reads of them), [Metrics] (services/metrics.py).
    - [Instances] (api/instances.py, api/deployments.py, services/logs.py),
      [Accounts] (auth.py, api/auth.py, users.py, keys.py), [Catalog] (api/clusters.py,
      workers.py, models.py, dashboard.py, compatibility.py), [UsageApi]
      (api/usage.py), [Api] (api/__init__.py): every REST handler and the router.
    - [OpenApi] (the tables of api/gateway.py, scripts/export-openapi.py): the
      contract of the gateway, as declared and as exported.
    - [System] (main.py): schema check, seeding, the loops, shutdown; [Startup]
      (main.py): the start of [lifespan], the application, what [/readyz] answers.
    - [Migrations], [Downgrades] (alembic/versions): what the upgrades and the
      downgrades do to the rows.  [Ddl]: schemas, CHECK expressions in SQL's three
      truth values, Alembic's operations and their transaction; [Revisions]
      (models.py, alembic/versions, alembic/env.py): the schema the classes declare,
      what each revision does to one, and the chain; [SchemaRows]: what a schema asks
      of the rows of [Models].

    The worker:
    - [Engine] (engines/base.py, config.py): the command line of a container.
    - [Manager] (engines/manager.py): reconciliation, batches, probes, reports.
    - [Gpu] (gpu.py): detection.  [Agent] (main.py): registration, the loop, the process.
    - [ControlLoop]: the two sides together.

    The benchmark (bench/bench) and the scripts:
    - [Bench] (metrics.py, client.py, report.py, the verdict of parity.py), [Harness]
      (scenarios.py, the runs of __main__.py and parity.py), [Trace] (trace.py and the
      program of __main__.py), [Fixture] (fake_upstream.py, and its stream's way through
      the gateway to the client), [Coding] (coding.py), [Report] (the tables and the
      raw files of all of them).
    - [Reconcile] (scripts/usage-reconcile.py), [Soak] (scripts/soak_multinode.py);
      [AdminApi]: how the scripts call the control plane.

    ** What the theorems show

    - Placement never over-commits a GPU, hands out ports that are free and distinct,
      and builds a parallel group with one rank per host ([Scheduler]); a scale
      reaches its target, touches only its deployment and is atomic ([Scaling]); the
      autoscaler moves by one replica inside its window, and only when the policy and
      the cooldown allow ([Autoscaling]).
    - The commands and the writes of a synchronisation are exactly those the desired
      and reported states call for ([WorkersSvc]); after one round the next report
      calls for none ([ControlLoop]); a batch of commands settles every command and a
      probe ends by its deadline, whatever Docker answers ([Manager]); registration
      retries with a bounded backoff ([Agent]); detection always answers with rows
      the server accepts ([Gpu]).
    - The gateway releases each slot it reserves, counts requests in flight, routes by
      its policy, relays what the upstream sends, lets in exactly the bearers of a
      valid key, and connects only to addresses the guard accepts ([Gateway],
      [UpstreamGuard], [PrefixCache]); accounting loses no traffic and rejects at the
      quota ([Usage], [UsageApi]).  What an inference endpoint raises for its client is
      in the contract, which the export does not change a second time ([OpenApi]).
    - Each handler has its effect on every branch; nothing is written without
      authority ([Instances], [Accounts], [Catalog], [Api]); whatever the process runs
      in whatever order, references hold, a port has one owner, every deployment has
      instances and an administrator exists ([System]); the migrations reach a
      database that satisfies the constraints ([Migrations]), also after a downgrade to
      the initial schema ([Downgrades]).
    - The migrations build the schema the models declare, but for one CHECK, and each
      downgrade leads back to the schema of its revision ([Revisions]).  The schema so
      built accepts the rows of a database exactly when [constraints_ok] holds, on
      which every commit of the other files rests, that CHECK apart ([SchemaRows]).  A
      server starts on the last revision only, and is ready only while its checks
      find it there; neither the migrations nor the server leave rows that the migrated
      schema refuses ([Startup]).
    - No secret has any influence on a listing ([Responses]); the gauges show the
      database ([Metrics]); the autoscaler's signal brackets what the gateway observed
      ([Telemetry]).
    - The benchmark's percentiles are in order, and its histogram quantile is the
      autoscaler's ([Bench]); a recorded run is read back and replayed as it was
      ([Trace]); from upstream to client all token counts agree ([Fixture]); the exit
      codes of the coding validation and of the reconciliation say what they stand for
      ([Coding], [Reconcile]); each failure of a soak is logged, its waits and
      its run end, and the exit code says which it was ([Soak]).  A printed number is
      within half a unit of its last digit, a report has one row per case or cell, and
      the raw results are read back ([Report]).

    Lemmas beside the theorems show where the code departs from what it means to do.

    ** Conventions and bounds

    - Identifiers are binary naturals, of which only equality is used; where the text
      of a UUID matters, [Uuid] gives it, for identifiers below 2^128 ([wide]).
      Clocks are microseconds in [Z]; floats are exact rationals, or their JSON
      literal; [gpu_seconds] is in thousandths of a second.  Python's integers are
      unbounded and so is [Z].  Strings are the bytes of their UTF-8 form; [PyStr]'s
      case and digit tests are those of ASCII.
    - A table is the list of its rows in storage order.  Deletes follow ON DELETE of
      PostgreSQL, after the ORM set the references of loaded children to NULL.
      [updated_at] and the float [params_b] are left out.
    - Recursion is on the data where it can be.  Fuel: the JSON parser takes twice the
      length of the text plus one, since each call consumes a character or closes a
      value; block digests take the length of the prompt; a status report takes one
      step more than the instances tracked; a wait of the soak takes one poll per ten
      seconds of its timeout and two more, since each poll sleeps ten ([polls],
      [wait_group_decides]).  Probes and other waits take the list of the clock readings
      they make, and end with it or before.

    ** Parameters

    Code outside [src] (Alembic's operations and SQL's constraints are [Ddl]'s, the
    rest parameters): name resolution, the HTTP client and its stream, the multipart
    parser, bcrypt, PyJWT, the Prometheus registry, the Docker daemon (a record of
    operations on an unspecified world, each free to fail), NVML, rocm-smi, pytest,
    random draws and fresh identifiers, the files, HTTP calls and subprocesses of the
    benchmark and the scripts; and of Python, [re], the text of an exception and of a
    float.  What is assumed of them is a hypothesis where it is used.

    ** Not modelled

    The dashboard (TypeScript), deployment files, shell scripts; generated protobuf and
    gRPC stubs; logging; the CORS middleware and the instrumentation, of which
    [Startup] keeps what they are given; the generation of the specification by FastAPI;
    Alembic's offline mode, and the downgrades on SQLite, whose refusals to drop a
    column in place [Ddl] does not have; of the benchmark and the scripts, the
    declaration of their arguments.  They are libraries, input and output, or carry no
    state the theorems are about.  Concurrency is by interleaving of whole sessions
    ([System]) and, where a component awaits in the middle of an operation (the
    flusher, the status report, the relay), by what arrives meanwhile as an argument. *)

From Stdlib Require Export ZArith Lia.
From stdpp Require Export base tactics option list gmap strings pretty sorting fin_maps.

(** ** Identifiers and numbers of the program

    UUID columns and dict keys are 128-bit identifiers; only equality is used on
    them, so they are binary naturals.  Timestamps ([datetime] has microsecond
    resolution) are integers, in microseconds since the epoch. *)
Notation uuid := N (only parsing).
Notation datetime := Z (only parsing).

(** ** Exceptions

    The exceptions the modelled code raises, catches or lets escape. *)
Inductive grpc_code :=
  | PERMISSION_DENIED | FAILED_PRECONDITION | NOT_FOUND | INVALID_ARGUMENT
  | ALREADY_EXISTS | UNAUTHENTICATED | INTERNAL.

Inductive exn :=
  | HTTPException (status_code : Z) (detail : string)
  | OpenAIError (status_code : Z) (message type_ code : string)
  | AioRpcError (code : grpc_code) (detail : string)
  | IntegrityError
  | NoResultFound
  | ValueError (message : string)
  | KeyError
  | IndexError
  | TypeError
  | AttributeError
  | AssertionError
  | RuntimeError (message : string)
  | TransportError
  | CancelledError
  | OSError (message : string)
  | NotImplementedError
  | OperationalError (message : string)
  | ProgrammingError (message : string).

#[export] Instance grpc_code_eq_dec : EqDecision grpc_code.
Proof. solve_decision. Defined.
#[export] Instance exn_eq_dec : EqDecision exn.
Proof. solve_decision. Defined.

(** ** The error monad: a computation that returns or raises. *)
Inductive result (A : Type) :=
  | Ok (a : A)
  | Raise (e : exn).
Arguments Ok {A} a.
Arguments Raise {A} e.

#[export] Instance result_ret : MRet result := fun A a => Ok a.
#[export] Instance result_bind : MBind result := fun A B f m =>
  match m with Ok a => f a | Raise e => Raise e end.
#[export] Instance result_fmap : FMap result := fun A B f m =>
  match m with Ok a => Ok (f a) | Raise e => Raise e end.

#[export] Instance result_eq_dec `{EqDecision A} : EqDecision (result A).
Proof. solve_decision. Defined.

(** ** The state-and-error monad of the handlers

    The state survives an exception, as Python's objects and the ORM session do:
    what a handler wrote before it raised is still there for its caller. *)
Definition M (S A : Type) : Type := S -> result A * S.

#[export] Instance M_ret {S} : MRet (M S) := fun A a s => (Ok a, s).
#[export] Instance M_bind {S} : MBind (M S) := fun A B f m s =>
  match m s with
  | (Ok a, s') => f a s'
  | (Raise e, s') => (Raise e, s')
  end.

Definition get {S} : M S S := fun s => (Ok s, s).
Definition gets {S A} (f : S -> A) : M S A := fun s => (Ok (f s), s).
Definition modify {S} (f : S -> S) : M S unit := fun s => (Ok tt, f s).
Definition raise {S A} (e : exn) : M S A := fun s => (Raise e, s).
Definition lift_result {S A} (r : result A) : M S A := fun s => (r, s).
(** [try_ m h]: Python's [try: m except: h]; [h e] runs on the state [m] left. *)
Definition try_ {S A} (m : M S A) (h : exn -> M S A) : M S A := fun s =>
  match m s with
  | (Ok a, s') => (Ok a, s')
  | (Raise e, s') => h e s'
  end.

Lemma forallb_elem {A} (p : A → bool) l : forallb p l = true ↔ ∀ x, x ∈ l → p x = true.
Proof. rewrite forallb_forall. by setoid_rewrite list_elem_of_In. Qed.

(** [for x in l: ...] with an accumulator. *)
Fixpoint foldM {S A B} (f : B -> A -> M S B) (b : B) (l : list A) : M S B :=
  match l with
  | [] => mret b
  | x :: l' => b' ← f b x; foldM f b' l'
  end.

Fixpoint foldR {A B} (f : B -> A -> result B) (b : B) (l : list A) : result B :=
  match l with
  | [] => Ok b
  | x :: l' => b' ← f b x; foldR f b' l'
  end.

(** Comprehensions and searches whose body can raise. *)
Fixpoint mapR {A B} (f : A -> result B) (l : list A) : result (list B) :=
  match l with [] => Ok [] | x :: l => y ← f x; ys ← mapR f l; Ok (y :: ys) end.
Fixpoint filterR {A} (p : A -> result bool) (l : list A) : result (list A) :=
  match l with
  | [] => Ok []
  | x :: l => b ← p x; rest ← filterR p l; Ok (if b : bool then x :: rest else rest)
  end.
Fixpoint findR {A} (p : A -> result bool) (l : list A) : result (option A) :=
  match l with
  | [] => Ok None
  | x :: l => b ← p x; if b : bool then Ok (Some x) else findR p l
  end.

(** ** Record update

    [field_update eta proj v] rebuilds the record whose eta-expansion is [eta]
    with the field read by [proj] replaced by [v]. *)
Ltac set_field eta proj v r :=
  let body := eval cbv beta delta [eta] in (eta r) in
  let abs := eval pattern (proj r) in body in
  lazymatch abs with
  | ?f _ => let b := eval cbv beta in (f v) in exact b
  end.

(** Closes a decidable goal on concrete data by evaluation. *)
Ltac vm_decide := apply (bool_decide_unpack _); vm_compute; exact I.

(** ** Lists *)
Section lists.
Context {A : Type}.

(** Python's [sorted(l, key=...)]: stable, smallest first; [leb x y] holds when
    the key of [x] is at most the key of [y]. *)
Fixpoint insert_by (leb : A -> A -> bool) (x : A) (l : list A) : list A :=
  match l with
  | [] => [x]
  | y :: l' => if leb x y then x :: y :: l' else y :: insert_by leb x l'
  end.

Definition sorted_by (leb : A -> A -> bool) (l : list A) : list A :=
  foldr (insert_by leb) [] l.

(** [next((x for x in l if p x), None)], and SQL's [scalar_one_or_none] on a
    query that returns at most one row. *)
Fixpoint find_by (p : A -> bool) (l : list A) : option A :=
  match l with
  | [] => None
  | x :: l' => if p x then Some x else find_by p l'
  end.

(** SQL's [WHERE p]; keeps the order of the rows. *)
Definition where_ (p : A -> bool) (l : list A) : list A := List.filter p l.

(** UPDATE ... WHERE p. *)
Definition update_where (p : A -> bool) (f : A -> A) (l : list A) : list A :=
  map (fun x => if p x then f x else x) l.

(** A loop that keeps the best element seen so far: [better x b] says the new
    element replaces the current best; the first of equals stays. *)
Definition keep_best (better : A -> A -> bool) (best : option A) (x : A) : option A :=
  match best with
  | None => Some x
  | Some b => if better x b then Some x else best
  end.
End lists.

(** Truthiness of an optional string ([x or y], [if x:]). *)
Definition truthy (s : option string) : bool :=
  match s with Some s => negb (String.eqb s "") | None => false end.
Definition or_none (s : string) : option string :=
  if String.eqb s "" then None else Some s.
Definition or_none_Z (z : Z) : option Z := if (z =? 0)%Z then None else Some z.

(** [str(n)] *)
Definition str_Z (z : Z) : string := pretty z.

(** ** Lemmas on the monads *)
Lemma result_bind_eq {A B} (x : A) (f : A → result B) : (Ok x ≫= f) = f x.
Proof. done. Qed.
Lemma result_bind_Ok {A B} (m : result A) (f : A → result B) b :
  m ≫= f = Ok b ↔ ∃ a, m = Ok a ∧ f a = Ok b.
Proof. destruct m; cbn; naive_solver. Qed.

Lemma result_bind_Raise {A B} (m : result A) (f : A → result B) e :
  m ≫= f = Raise e ↔ m = Raise e ∨ ∃ a, m = Ok a ∧ f a = Raise e.
Proof. destruct m; cbn; naive_solver. Qed.

Lemma M_bind_Ok {S A B} (m : M S A) (f : A → M S B) s b s'' :
  (m ≫= f) s = (Ok b, s'') ↔ ∃ a s', m s = (Ok a, s') ∧ f a s' = (Ok b, s'').
Proof. unfold mbind, M_bind. destruct (m s) as [[a|e] s']; naive_solver. Qed.

Lemma M_bind_step {S A B} (m : M S A) (f : A → M S B) s a s' : m s = (Ok a, s') → (m ≫= f) s = f a s'.
Proof. intros E. unfold mbind, M_bind. by rewrite E. Qed.

(** An invariant that each iteration preserves holds after the loop. *)
Lemma foldR_inv {A B} (P : list A → B → Prop) (f : B → A → result B) (l : list A) b b' :
  P [] b →
  (∀ l1 x b0 b1, l1 ++ [x] `prefix_of` l → P l1 b0 → f b0 x = Ok b1 → P (l1 ++ [x]) b1) →
  foldR f b l = Ok b' → P l b'.
Proof.
  intros Hb Hstep.
  enough (∀ l2 l1 b0, l = l1 ++ l2 → P l1 b0 → foldR f b0 l2 = Ok b' → P l b') as H.
  { intros. by eapply (H l []). }
  induction l2 as [|x l2 IH]; intros l1 b0 Hl HP Hf; simpl in Hf.
  - simplify_eq. by rewrite app_nil_r.
  - apply result_bind_Ok in Hf as (b1 & Hx & Hf).
    eapply (IH (l1 ++ [x])); [by rewrite <-app_assoc| |done].
    eapply Hstep; [|done|done]. exists l2. by rewrite <-app_assoc.
Qed.

(** ** Lemmas on the list operations *)
Section list_lemmas.
Context {A : Type}.
Implicit Types (l : list A) (p : A → bool).

Lemma insert_by_perm leb x l : insert_by leb x l ≡ₚ x :: l.
Proof. induction l as [|y l IH]; simpl; [done|]. case_match; [done|]. rewrite IH. apply Permutation_swap. Qed.

Lemma sorted_by_perm leb l : sorted_by leb l ≡ₚ l.
Proof. induction l as [|x l IH]; simpl; [done|]. by rewrite insert_by_perm, IH. Qed.

Lemma sorted_by_elem leb x l : x ∈ sorted_by leb l ↔ x ∈ l.
Proof. by rewrite sorted_by_perm. Qed.

Lemma length_sorted_by leb l : length (sorted_by leb l) = length l.
Proof. apply Permutation_length, sorted_by_perm. Qed.

Lemma insert_by_sorted leb x l :
  (∀ a b, leb a b = false → leb b a = true) →
  (∀ a b c, leb a b = true → leb b c = true → leb a c = true) →
  StronglySorted leb l → StronglySorted leb (insert_by leb x l).
Proof.
  intros Htot Htr. induction 1 as [|y l Hl IH Hy]; simpl; [repeat constructor|].
  destruct (leb x y) eqn:Hxy.
  - constructor; [by constructor|]. constructor; [by rewrite Hxy|].
    eapply Forall_impl; [exact Hy|]. simpl. intros z Hz.
    apply Is_true_true in Hz. apply Is_true_true. by eapply Htr.
  - constructor; [done|]. rewrite insert_by_perm. constructor; [|done].
    apply Is_true_true. by apply Htot.
Qed.

Lemma sorted_by_sorted leb l :
  (∀ a b, leb a b = false → leb b a = true) →
  (∀ a b c, leb a b = true → leb b c = true → leb a c = true) →
  StronglySorted leb (sorted_by leb l).
Proof. intros. induction l; simpl; [constructor|]. by apply insert_by_sorted. Qed.

(** The sort is stable: elements that are pairwise in order stay as they were. *)
Lemma sorted_by_stable leb p l :
  (∀ a b, p a = true → p b = true → leb a b = true) → where_ p (sorted_by leb l) = where_ p l.
Proof.
  intros H. assert (∀ x l, where_ p (insert_by leb x l) = where_ p (x :: l)) as Hins.
  { intros x l0. induction l0 as [|y l0 IH]; simpl in *; [done|]. destruct (leb x y) eqn:E; [done|].
    simpl. rewrite IH. destruct (p x) eqn:Ex, (p y) eqn:Ey; try done. by rewrite (H x y) in E. }
  induction l as [|x l IH]; [done|].
  change (sorted_by leb (x :: l)) with (insert_by leb x (sorted_by leb l)). rewrite Hins.
  unfold where_ in *. cbn. by rewrite IH.
Qed.

Lemma find_by_Some p l x : find_by p l = Some x → x ∈ l ∧ p x = true.
Proof.
  induction l as [|y l IH]; simpl; [done|]. case_match; intros; simplify_eq; [by repeat constructor|].
  destruct IH; [done|]. split; [by constructor|done].
Qed.

Lemma find_by_None p l : find_by p l = None ↔ ∀ x, x ∈ l → p x = false.
Proof.
  induction l as [|y l IH]; simpl; [split; [intros _ x Hx; by apply elem_of_nil in Hx|done]|].
  case_match eqn:E.
  - split; [done|]. intros H. rewrite (H y) in E; [done|by constructor].
  - rewrite IH. setoid_rewrite elem_of_cons. naive_solver.
Qed.

Lemma find_by_is_Some p l : is_Some (find_by p l) ↔ ∃ x, x ∈ l ∧ p x = true.
Proof.
  split.
  - intros [x Hx]. exists x. by apply find_by_Some in Hx.
  - intros (x & Hx & Hp). destruct (find_by p l) eqn:E; [by eexists|].
    rewrite (proj1 (find_by_None p l) E x Hx) in Hp. done.
Qed.

Lemma elem_of_where p l x : x ∈ where_ p l ↔ x ∈ l ∧ p x = true.
Proof. unfold where_. rewrite !list_elem_of_In. apply filter_In. Qed.

Lemma where_app p l1 l2 : where_ p (l1 ++ l2) = where_ p l1 ++ where_ p l2.
Proof. apply List.filter_app. Qed.

Lemma where_where p q l : where_ p (where_ q l) = where_ (λ x, q x && p x) l.
Proof. induction l as [|x l IH]; simpl; [done|]. destruct (q x) eqn:?; simpl; [|done]. destruct (p x); by rewrite <-IH. Qed.

Lemma where_perm p l1 l2 : l1 ≡ₚ l2 → where_ p l1 ≡ₚ where_ p l2.
Proof.
  induction 1 as [|x l1 l2 _ IH|x y l|l1 l2 l3 _ IH1 _ IH2]; simpl; [done| | |by rewrite IH1].
  - destruct (p x); by rewrite IH.
  - destruct (p x), (p y); try done. apply Permutation_swap.
Qed.

Lemma where_all p l : (∀ x, x ∈ l → p x = true) → where_ p l = l.
Proof.
  induction l as [|x l IH]; intros H; simpl; [done|].
  rewrite (H x) by by constructor. f_equal. apply IH. intros; apply H; by constructor.
Qed.

Lemma where_ext p q l : (∀ x, x ∈ l → p x = q x) → where_ p l = where_ q l.
Proof.
  induction l as [|x l IH]; intros H; simpl; [done|].
  rewrite (H x) by by constructor. rewrite IH; [done|]. intros; apply H; by constructor.
Qed.

Lemma where_map (f : A → A) p l : where_ p (map f l) = map f (where_ (λ x, p (f x)) l).
Proof. induction l as [|x l IH]; simpl; [done|]. destruct (p (f x)); by rewrite IH. Qed.

Lemma where_length p l : length (where_ p l) ≤ length l.
Proof. induction l as [|x l IH]; simpl; [done|]. case_match; simpl; lia. Qed.
Lemma length_where_all p l : length (where_ p l) = length l ↔ Forall (λ x, p x = true) l.
Proof.
  induction l as [|x l IH]; [done|]. rewrite Forall_cons, <-IH. unfold where_ in *. cbn.
  pose proof (where_length p l) as Hl. unfold where_ in Hl. destruct (p x); cbn; [|split; [lia|naive_solver]].
  split; [|naive_solver lia]. intros H. split; [done|lia].
Qed.
Lemma where_nil p l : where_ p l = [] ↔ Forall (λ x, p x = false) l.
Proof.
  induction l as [|x l IH]; [done|]. rewrite Forall_cons, <-IH. unfold where_. cbn. by destruct (p x); naive_solver.
Qed.

Lemma elem_of_update_where p f l y :
  y ∈ update_where p f l ↔ ∃ x, x ∈ l ∧ y = (if p x then f x else x).
Proof. unfold update_where. rewrite list_elem_of_fmap. naive_solver. Qed.

Lemma length_update_where p f l : length (update_where p f l) = length l.
Proof. apply length_map. Qed.

Lemma update_where_id p f l : (∀ x, x ∈ l → p x = false) → update_where p f l = l.
Proof.
  induction l as [|x l IH]; intros H; [done|]. cbn.
  rewrite (H x) by by constructor. f_equal. apply IH. intros; apply H; by constructor.
Qed.

(** Updating rows keeps every attribute the update does not touch. *)
Lemma update_where_attr {B} (g : A → B) p f l :
  (∀ x, g (f x) = g x) → map g (update_where p f l) = map g l.
Proof. intros H. unfold update_where. rewrite map_map. apply map_ext. intros x. by destruct (p x). Qed.

Lemma where_update p q f l :
  (∀ x, q (f x) = q x) → where_ q (update_where p f l) = update_where p f (where_ q l).
Proof.
  intros H. unfold where_, update_where. induction l as [|x l IH]; [done|]. cbn.
  assert (q (if p x then f x else x) = q x) as -> by (by destruct (p x)).
  destruct (q x); cbn; by rewrite IH.
Qed.
End list_lemmas.

(** ** The best element of a list: [keep_best] folds to an optimum. *)
Section keep_best.
Context {A : Type} (better : A → A → bool).
Context (better_trans : ∀ x y z, better x y = false → better y z = false → better x z = false)
        (better_asym : ∀ x y, better x y = true → better y x = false).

Lemma keep_best_some b l :
  ∃ r, foldl (keep_best better) (Some b) l = Some r ∧ (r = b ∨ r ∈ l) ∧
       better b r = false ∧ ∀ x, x ∈ l → better x r = false.
Proof.
  assert (∀ x, better x x = false) as Hirr.
  { intros x. destruct (better x x) eqn:E; [|done]. by rewrite (better_asym _ _ E) in E. }
  revert b. induction l as [|y l IH]; intros b; simpl.
  - exists b. split_and!; [done|by left|done|]. intros x Hx. by apply elem_of_nil in Hx.
  - destruct (better y b) eqn:E.
    + destruct (IH y) as (r & -> & Hr & Hyr & Hl). exists r. split_and!; [done| | |].
      * right. rewrite elem_of_cons. naive_solver.
      * eapply better_trans; [by apply better_asym|done].
      * intros x [->|Hx]%elem_of_cons; [done|by apply Hl].
    + destruct (IH b) as (r & -> & Hr & Hbr & Hl). exists r. split_and!; [done| |done|].
      * rewrite elem_of_cons. naive_solver.
      * intros x [->|Hx]%elem_of_cons; [|by apply Hl]. by eapply better_trans.
Qed.

Lemma keep_best_spec l r :
  foldl (keep_best better) None l = Some r → r ∈ l ∧ ∀ x, x ∈ l → better x r = false.
Proof.
  assert (∀ x, better x x = false) as Hirr.
  { intros x. destruct (better x x) eqn:E; [|done]. by rewrite (better_asym _ _ E) in E. }
  destruct l as [|y l]; simpl; [done|]. intros H.
  destruct (keep_best_some y l) as (r' & H' & Hr & Hy & Hl). rewrite H in H'. simplify_eq.
  rewrite elem_of_cons. split; [naive_solver|].
  intros x [->|Hx]%elem_of_cons; [done|by apply Hl].
Qed.

Lemma keep_best_None l : foldl (keep_best better) None l = None ↔ l = [].
Proof.
  destruct l as [|y l]; simpl; [done|].
  destruct (keep_best_some y l) as (r & -> & _). done.
Qed.
End keep_best.

Create HintDb inferna.
#[export] Hint Rewrite @elem_of_where @sorted_by_elem @length_sorted_by @length_update_where : inferna.
#[export] Hint Resolve find_by_Some : inferna.

(** ** Nested loops that keep the best candidate *)
Section nested.
Context {W G P : Type} (better : P → P → bool) (cand : W → G → option P) (gs : W → list G).

Definition keep_cand (w : W) (best : option P) (g : G) : option P :=
  match cand w g with Some p => keep_best better best p | None => best end.

Lemma foldl_keep_cand w l best :
  foldl (keep_cand w) best l = foldl (keep_best better) best (omap (cand w) l).
Proof.
  revert best. induction l as [|g l IH]; intros best; [done|]. simpl.
  unfold keep_cand at 2. by destruct (cand w g); rewrite IH.
Qed.

Lemma foldl_nested ws best :
  foldl (λ b w, foldl (keep_cand w) b (gs w)) best ws =
  foldl (keep_best better) best (ws ≫= λ w, omap (cand w) (gs w)).
Proof.
  revert best. induction ws as [|w ws IH]; intros best; [done|]. simpl.
  by rewrite IH, foldl_app, foldl_keep_cand.
Qed.
End nested.

Lemma foldl_ext_In {A B} (f g : A → B → A) l a :
  (∀ a x, x ∈ l → f a x = g a x) → foldl f a l = foldl g a l.
Proof.
  revert a. induction l as [|x l IH]; intros a H; [done|]. simpl.
  rewrite H by by constructor. apply IH. intros; apply H. by constructor.
Qed.

Lemma find_by_first {A} (p : A → bool) l x :
  find_by p l = Some x ↔ ∃ l1 l2, l = l1 ++ x :: l2 ∧ p x = true ∧ Forall (λ y, p y = false) l1.
Proof.
  split.
  - induction l as [|y l IH]; simpl; [done|]. destruct (p y) eqn:E; intros H; simplify_eq.
    + by exists [], l.
    + destruct (IH H) as (l1 & l2 & -> & Hx & Hl). exists (y :: l1), l2. by split_and!; [|done|constructor].
  - intros (l1 & l2 & -> & Hx & Hl). induction Hl as [|y l1 Hy Hl IH]; simpl; [by rewrite Hx|by rewrite Hy].
Qed.

(** A list without duplicates mapped by a function is duplicate free when the
    keys of its elements are. *)
Lemma NoDup_map_where {A K} (key : A → K) (p : A → bool) l :
  NoDup (map key l) → NoDup (map key (where_ p l)).
Proof.
  induction l as [|x l IH]; [done|]. simpl. rewrite NoDup_cons. intros [Hx Hl].
  destruct (p x); simpl; [|by apply IH]. apply NoDup_cons. split; [|by apply IH].
  intros (y & Hy & Hy')%list_elem_of_fmap. apply Hx. apply list_elem_of_fmap. exists y.
  split; [done|]. by apply elem_of_where in Hy' as [? _].
Qed.

Lemma NoDup_map_perm {A K} (key : A → K) l1 l2 : l1 ≡ₚ l2 → NoDup (map key l1) → NoDup (map key l2).
Proof. intros H. by rewrite H. Qed.

Lemma NoDup_map_inj_key {A K} (key : A → K) l x y :
  NoDup (map key l) → x ∈ l → y ∈ l → key x = key y → x = y.
Proof.
  induction l as [|z l IH]; simpl; [intros _ H; by apply elem_of_nil in H|].
  rewrite NoDup_cons, !elem_of_cons. intros [Hz Hl] [->|Hx] [->|Hy] E; [done| | |by apply IH].
  - destruct Hz. rewrite E. apply list_elem_of_fmap. eauto.
  - destruct Hz. rewrite <-E. apply list_elem_of_fmap. eauto.
Qed.

Lemma NoDup_omap_fst {A K B} (key : A → K) (key' : B → K) (f : A → option B) l :
  (∀ x y, f x = Some y → key' y = key x) → NoDup (map key l) → NoDup (map key' (omap f l)).
Proof.
  intros Hf. induction l as [|x l IH]; [done|]. simpl. rewrite NoDup_cons. intros [Hx Hl].
  destruct (f x) as [y|] eqn:E; simpl; [|by apply IH]. apply NoDup_cons. split; [|by apply IH].
  intros (y' & Hy & (x' & Hx' & Hfx')%list_elem_of_omap)%list_elem_of_fmap. apply Hx.
  apply list_elem_of_fmap. exists x'. split; [|done].
  rewrite <-(Hf _ _ E), Hy. by apply Hf.
Qed.

(** A validation loop: every element passes, or the first failure is raised. *)
Lemma foldR_check {A} (f : A → result unit) l :
  foldR (λ _ x, f x) tt l = Ok tt ↔ ∀ x, x ∈ l → f x = Ok tt.
Proof.
  induction l as [|x l IH]; simpl.
  - split; [|done]. intros _ x Hx. by apply elem_of_nil in Hx.
  - rewrite result_bind_Ok. setoid_rewrite elem_of_cons. split.
    + intros ([] & Hx & Hl) y [->|Hy]; [done|]. by apply IH.
    + intros H. exists tt. split; [by apply H; left|]. apply IH. auto.
Qed.

(** *** Loops in the state monad *)
Lemma foldM_inv {S A B} (P : list A → B → S → Prop) (f : B → A → M S B) (l : list A) b s b' s' :
  P [] b s →
  (∀ l1 x b0 s0 b1 s1, l1 ++ [x] `prefix_of` l → P l1 b0 s0 → f b0 x s0 = (Ok b1, s1) →
     P (l1 ++ [x]) b1 s1) →
  foldM f b l s = (Ok b', s') → P l b' s'.
Proof.
  intros Hb Hstep.
  enough (∀ l2 l1 b0 s0, l = l1 ++ l2 → P l1 b0 s0 → foldM f b0 l2 s0 = (Ok b', s') → P l b' s') as H.
  { intros. by eapply (H l []). }
  induction l2 as [|x l2 IH]; intros l1 b0 s0 Hl HP Hf; simpl in Hf.
  - unfold mret, M_ret in Hf. simplify_eq. by rewrite app_nil_r.
  - apply M_bind_Ok in Hf as (b1 & s1 & Hx & Hf).
    eapply (IH (l1 ++ [x])); [by rewrite <-app_assoc| |done].
    eapply Hstep; [|done|done]. exists l2. by rewrite <-app_assoc.
Qed.

Lemma lift_result_Ok {S A} (r : result A) (s : S) a s' :
  lift_result r s = (Ok a, s') ↔ r = Ok a ∧ s' = s.
Proof. unfold lift_result. split; intros; destruct_and?; simplify_eq; done. Qed.

Lemma NoDup_where {A} (p : A → bool) l : NoDup l → NoDup (where_ p l).
Proof.
  induction 1 as [|x l Hx Hl IH]; simpl; [constructor|]. destruct (p x); [|done].
  constructor; [|done]. intros [??]%elem_of_where. done.
Qed.

(** Splitting a list by a boolean. *)
Lemma where_partition_length {A} (p q : A → bool) l :
  (∀ x, p x = true → q x = false) →
  (length (where_ p l) + length (where_ q l))%nat = length (where_ (λ x, p x || q x) l).
Proof.
  intros H. induction l as [|x l IH]; [done|]. simpl. specialize (H x).
  destruct (p x), (q x); simpl in *; lia || (discriminate (H eq_refl)).
Qed.

(** *** Mapping commutes with selecting and sorting *)
Lemma where_fmap {A B} (f : A → B) p l : where_ p (map f l) = map f (where_ (λ x, p (f x)) l).
Proof. induction l as [|x l IH]; simpl; [done|]. destruct (p (f x)); by rewrite IH. Qed.
Lemma insert_by_map {A B} (f : A → B) leb x l :
  insert_by leb (f x) (map f l) = map f (insert_by (λ a b, leb (f a) (f b)) x l).
Proof. induction l as [|y l IH]; simpl; [done|]. destruct (leb (f x) (f y)); simpl; by rewrite ?IH. Qed.
Lemma sorted_by_map {A B} (f : A → B) leb l :
  sorted_by leb (map f l) = map f (sorted_by (λ a b, leb (f a) (f b)) l).
Proof. induction l as [|x l IH]; simpl; [done|]. by rewrite IH, insert_by_map. Qed.
Lemma insert_by_ext {A} (leb1 leb2 : A → A → bool) x l :
  (∀ a b, leb1 a b = leb2 a b) → insert_by leb1 x l = insert_by leb2 x l.
Proof. intros H. induction l as [|y l IH]; simpl; [done|]. by rewrite H, IH. Qed.
Lemma sorted_by_ext {A} (leb1 leb2 : A → A → bool) l :
  (∀ a b, leb1 a b = leb2 a b) → sorted_by leb1 l = sorted_by leb2 l.
Proof. intros H. induction l as [|x l IH]; simpl; [done|]. by rewrite IH, (insert_by_ext leb1 leb2). Qed.

(** An update that does not touch what a list is sorted by. *)
Lemma sorted_by_update {A} leb (p : A → bool) f l :
  (∀ a b, leb (f a) b = leb a b) → (∀ a b, leb a (f b) = leb a b) →
  sorted_by leb (update_where p f l) = update_where p f (sorted_by leb l).
Proof.
  intros H1 H2. unfold update_where. rewrite sorted_by_map. f_equal. apply sorted_by_ext.
  intros a b. destruct (p a), (p b); by rewrite ?H1, ?H2.
Qed.

Lemma update_where_ext {A} (p q : A → bool) f l :
  (∀ x, x ∈ l → p x = q x) → update_where p f l = update_where q f l.
Proof. intros H. apply map_ext_in. intros x Hx%list_elem_of_In. by rewrite H. Qed.

(** *** Congruence of connectives *)
Lemma exists_iff_compat {A} (P Q : A → Prop) : (∀ x, P x ↔ Q x) → (∃ x, P x) ↔ (∃ x, Q x).
Proof. firstorder. Qed.
Lemma or_iff_compat_iff (P P' Q Q' : Prop) : (P ↔ P') → (Q ↔ Q') → (P ∨ Q) ↔ (P' ∨ Q').
Proof. tauto. Qed.

(** An update touches only rows of the table. *)
Lemma update_where_guard {A} `{EqDecision A} (p : A → bool) f l :
  update_where p f l = update_where (λ x, p x && bool_decide (x ∈ l)) f l.
Proof.
  apply update_where_ext. intros x Hx. by rewrite (bool_decide_eq_true_2 _ Hx), andb_true_r.
Qed.

(** ** Insertion-ordered dicts

    A Python dict that is iterated: [d[k] = v] replaces in place or appends. *)
Section dict.
Context {K V : Type} `{EqDecision K}.

Fixpoint dict_get (k : K) (l : list (K * V)) : option V :=
  match l with
  | [] => None
  | (k', v) :: l' => if decide (k = k') then Some v else dict_get k l'
  end.
Fixpoint dict_set (k : K) (v : V) (l : list (K * V)) : list (K * V) :=
  match l with
  | [] => [(k, v)]
  | (k', v') :: l' => if decide (k = k') then (k', v) :: l' else (k', v') :: dict_set k v l'
  end.

Lemma dict_get_mid k v l1 l2 : k ∉ l1.*1 → dict_get k (l1 ++ (k, v) :: l2) = Some v.
Proof.
  induction l1 as [|[k1 v1] l1 IH]; csimpl; [by rewrite decide_True|].
  rewrite not_elem_of_cons. intros [? ?]. rewrite decide_False by done. by apply IH.
Qed.
Lemma dict_set_mid k v v' l1 l2 : k ∉ l1.*1 → dict_set k v' (l1 ++ (k, v) :: l2) = l1 ++ (k, v') :: l2.
Proof.
  induction l1 as [|[k1 v1] l1 IH]; csimpl; [by rewrite decide_True|].
  rewrite not_elem_of_cons. intros [? ?]. rewrite decide_False by done. by rewrite IH.
Qed.

(** [d.pop(k, None)] *)
Definition dict_del (k : K) (l : list (K * V)) : list (K * V) :=
  where_ (λ kv, negb (bool_decide (kv.1 = k))) l.

Lemma dict_get_del k k' l : dict_get k (dict_del k' l) = if decide (k = k') then None else dict_get k l.
Proof.
  unfold dict_del. induction l as [|[k1 v1] l IH]; simpl; [by case_decide|].
  destruct (bool_decide_reflect (k1 = k')) as [->|Hne]; simpl.
  - rewrite IH. by repeat case_decide.
  - rewrite IH. repeat case_decide; congruence.
Qed.
Lemma dict_del_NoDup k l : NoDup l.*1 → NoDup (dict_del k l).*1.
Proof. apply (NoDup_map_where fst). Qed.

Lemma dict_get_None k l : dict_get k l = None ↔ k ∉ l.*1.
Proof.
  induction l as [|[k' v] l IH]; simpl; [split; [|done]; intros _ H; by apply elem_of_nil in H|].
  rewrite elem_of_cons. case_decide as E; [split; [done|]; intros H; destruct H; by left|].
  rewrite IH. tauto.
Qed.
Lemma dict_get_Some_elem k v l : dict_get k l = Some v → (k, v) ∈ l.
Proof.
  induction l as [|[k' v'] l IH]; simpl; [done|]. rewrite elem_of_cons.
  case_decide; intros; simplify_eq; auto.
Qed.
Lemma dict_get_elem k v l : NoDup l.*1 → (k, v) ∈ l → dict_get k l = Some v.
Proof.
  induction l as [|[k' v'] l IH]; simpl; [intros _ H; by apply elem_of_nil in H|].
  rewrite NoDup_cons, elem_of_cons. intros [Hk Hl] [E|Hin]; simplify_eq; [by rewrite decide_True|].
  rewrite decide_False; [auto|]. intros ->. apply Hk, list_elem_of_fmap.
  by exists (k', v).
Qed.
Lemma dict_set_keys k v l :
  (dict_set k v l).*1 = match dict_get k l with Some _ => l.*1 | None => l.*1 ++ [k] end.
Proof.
  induction l as [|[k' v'] l IH]; csimpl; [done|]. case_decide; csimpl; [by subst|].
  rewrite IH. by destruct (dict_get k l).
Qed.
Lemma dict_set_length k v l :
  length (dict_set k v l) = match dict_get k l with Some _ => length l | None => S (length l) end.
Proof.
  rewrite <-(length_fmap fst), dict_set_keys. destruct (dict_get k l); [by rewrite length_fmap|].
  rewrite length_app, length_fmap. simpl. lia.
Qed.
Lemma dict_set_NoDup k v l : NoDup l.*1 → NoDup (dict_set k v l).*1.
Proof.
  intros H. rewrite dict_set_keys. destruct (dict_get k l) eqn:E; [done|].
  apply NoDup_app. split_and!; [done| |apply NoDup_singleton].
  intros x Hx ->%list_elem_of_singleton. by apply dict_get_None in E.
Qed.
Lemma dict_get_set k k' v l : dict_get k (dict_set k' v l) = if decide (k = k') then Some v else dict_get k l.
Proof.
  induction l as [|[k1 v1] l IH]; simpl; [done|].
  destruct (decide (k' = k1)) as [->|]; simpl; [by case_decide|]. rewrite IH. repeat case_decide; congruence.
Qed.
End dict.

(** ** What a computation preserves, whether it returns or raises *)
Definition preserves {S A} (R : S → Prop) (m : M S A) : Prop := ∀ s, R s → R (m s).2.

Section preserves.
Context {S : Type} (R : S → Prop).
Lemma preserves_lift {A} (r : result A) : preserves R (lift_result r).
Proof. by intros s H. Qed.
Lemma preserves_raise {A} e : preserves R (raise (A:=A) e).
Proof. by intros s H. Qed.
Lemma preserves_ret {A} (a : A) : preserves R (mret a).
Proof. by intros s H. Qed.
Lemma preserves_gets {A} (f : S → A) : preserves R (gets f).
Proof. by intros s H. Qed.
Lemma preserves_modify (f : S → S) : (∀ s, R s → R (f s)) → preserves R (modify f).
Proof. intros H s. apply H. Qed.
Lemma preserves_bind {A B} (m : M S A) (f : A → M S B) :
  preserves R m → (∀ a, preserves R (f a)) → preserves R (m ≫= f).
Proof.
  intros Hm Hf s H. unfold mbind, M_bind. specialize (Hm s H). destruct (m s) as [[a|e] s1]; [by apply Hf|done].
Qed.
Lemma preserves_try {A} (m : M S A) h : preserves R m → (∀ e, preserves R (h e)) → preserves R (try_ m h).
Proof.
  intros Hm Hh s H. unfold try_. specialize (Hm s H). destruct (m s) as [[a|e] s1]; [done|by apply Hh].
Qed.
Lemma preserves_foldM {A B} (f : B → A → M S B) l b :
  (∀ b x, preserves R (f b x)) → preserves R (foldM f b l).
Proof. intros Hf. revert b. induction l; intros; [apply preserves_ret|]. by apply preserves_bind. Qed.
End preserves.
Create HintDb preserve.
Create HintDb sane.
#[export] Hint Resolve preserves_lift preserves_raise preserves_ret preserves_gets : sane.
(** Steps through a computation, statement by statement; the database [sane] holds
    what preserves what. *)
Ltac walk_step :=
  lazymatch goal with
  | |- preserves _ (_ ≫= _) => apply preserves_bind; [|intros ?]
  | |- preserves _ (foldM _ _ _) => apply preserves_foldM; intros
  | |- preserves _ (try_ _ _) => apply preserves_try; [|intros ?]
  | |- preserves _ (if ?b then _ else _) => destruct b
  | |- preserves _ (match ?x with _ => _ end) => destruct x
  | |- preserves _ (let _ := _ in _) => cbv zeta
  | |- preserves _ _ => solve [auto with sane nocore]
  end.
Ltac walk := repeat walk_step.
