(* ===== verification/PyStr.v ===== *)
(** * Python's [str] methods

    The string operations of Python's standard library that the program uses,
    on the bytes of a UTF-8 string (one Rocq [ascii] per byte); case, blanks and
    digits are those of ASCII, which identifiers, hosts, ports, labels and header
    names keep to; with the lemmas the components share.  Nothing here models a line of the repository. *)

From Stdlib Require Export Ascii.
From S2P Require Import Prelude.
Local Open Scope Z_scope.

Definition code (c : ascii) : Z := Z.of_N (N_of_ascii c).

(** [str.isspace] on one ASCII character: what [strip] removes. *)
Definition is_space (c : ascii) : bool :=
  let n := code c in ((9 <=? n) && (n <=? 13)) || ((28 <=? n) && (n <=? 32)).
Definition is_digit (c : ascii) : bool := (48 <=? code c) && (code c <=? 57).
Definition lower_char (c : ascii) : ascii :=
  if (65 <=? code c) && (code c <=? 90) then ascii_of_N (Z.to_N (code c + 32)) else c.
Definition upper_char (c : ascii) : ascii :=
  if (97 <=? code c) && (code c <=? 122) then ascii_of_N (Z.to_N (code c - 32)) else c.

Fixpoint map_str (f : ascii → ascii) (s : string) : string :=
  match s with EmptyString => EmptyString | String c s => String (f c) (map_str f s) end.
Fixpoint forall_str (p : ascii → bool) (s : string) : bool :=
  match s with EmptyString => true | String c s => p c && forall_str p s end.
Fixpoint rev_append_str (s acc : string) : string :=
  match s with EmptyString => acc | String c s => rev_append_str s (String c acc) end.
Definition rev_str (s : string) : string := rev_append_str s "".

Definition lower (s : string) : string := map_str lower_char s.
Definition upper (s : string) : string := map_str upper_char s.

Fixpoint lstrip_by (p : ascii → bool) (s : string) : string :=
  match s with String c s' => if p c then lstrip_by p s' else s | EmptyString => s end.
Definition rstrip_by (p : ascii → bool) (s : string) : string :=
  rev_str (lstrip_by p (rev_str s)).
Definition strip (s : string) : string := rstrip_by is_space (lstrip_by is_space s).
Definition rstrip_char (c : ascii) (s : string) : string := rstrip_by (Ascii.eqb c) s.

Definition startswith (prefix s : string) : bool := String.prefix prefix s.
(** [s[n:]] and [s[:n]] for [n >= 0]. *)
Fixpoint drop_str (n : nat) (s : string) : string :=
  match n, s with S n, String _ s => drop_str n s | _, _ => s end.
Fixpoint take_str (n : nat) (s : string) : string :=
  match n, s with S n, String c s => String c (take_str n s) | _, _ => EmptyString end.

(** [len], [s[:n]] and [s[n:]] count characters, not bytes: a byte that continues
    one goes with the byte that starts it. *)
Definition is_cont (c : ascii) : bool := (128 <=? code c) && (code c <=? 191).
Fixpoint take_chars (n : nat) (s : string) : string :=
  match s with
  | "" => ""
  | String c r =>
      if is_cont c then String c (take_chars n r)
      else match n with O => "" | S n => String c (take_chars n r) end
  end.
Fixpoint drop_chars (n : nat) (s : string) : string :=
  match s with
  | "" => ""
  | String c r => if is_cont c then drop_chars n r else match n with O => s | S n => drop_chars n r end
  end.
Fixpoint char_count (s : string) : nat :=
  match s with "" => O | String c r => if is_cont c then char_count r else S (char_count r) end.
(** [s[-n:]] for [n > 0]. *)
Definition last_chars (n : nat) (s : string) : string := drop_chars (char_count s - n) s.

(** UTF-8 well-formedness ('surrogatepass': encoded surrogates are accepted). *)
Fixpoint utf8_valid_go (need : nat) (s : string) : bool :=
  match need, s with
  | O, "" => true
  | S _, "" => false
  | S need, String c r => is_cont c && utf8_valid_go need r
  | O, String c r =>
      let n := code c in
      if n <? 128 then utf8_valid_go 0 r
      else match r with
           | "" => false
           | String d _ =>
               if (194 <=? n) && (n <=? 223) then utf8_valid_go 1 r
               else if (224 <=? n) && (n <=? 239)
                    then negb ((n =? 224) && (code d <? 160)) && utf8_valid_go 2 r
               else if (240 <=? n) && (n <=? 244)
                    then negb ((n =? 240) && (code d <? 144)) && negb ((n =? 244) && (143 <? code d))
                         && utf8_valid_go 3 r
               else false
           end
  end.
Definition utf8_valid (s : string) : bool := utf8_valid_go 0 s.

(** A lone surrogate, which [str.encode] refuses. *)
Fixpoint has_surrogate (s : string) : bool :=
  match s with
  | "" => false
  | String c r => (code c =? 237) && match r with String d _ => 160 <=? code d | "" => false end || has_surrogate r
  end.

(** [bytes.decode("utf-8", "replace")]: each maximal ill-formed part becomes one
    U+FFFD.  [pend] holds the bytes of a character that is not complete, which still
    needs [need] bytes, the next of them between [lo] and [hi]. *)
Definition replacement : string := String "239" (String "191" (String "189" "")).
Definition lead_byte (n : Z) : option (nat * Z * Z) :=
  if (194 <=? n) && (n <=? 223) then Some (1%nat, 128, 191)
  else if (224 <=? n) && (n <=? 239)
       then Some (2%nat, (if n =? 224 then 160 else 128), (if n =? 237 then 159 else 191))
  else if (240 <=? n) && (n <=? 244)
       then Some (3%nat, (if n =? 240 then 144 else 128), (if n =? 244 then 143 else 191))
  else None.
Fixpoint decode_go (need : nat) (lo hi : Z) (pend s : string) : string :=
  match s with
  | "" => match need with O => "" | S _ => replacement end
  | String c r =>
      let n := code c in
      let fresh :=
        if n <? 128 then String c (decode_go 0 0 0 "" r)
        else match lead_byte n with
             | Some (k, lo', hi') => decode_go k lo' hi' (String c "") r
             | None => replacement +:+ decode_go 0 0 0 "" r
             end in
      match need with
      | O => fresh
      | S k =>
          if (lo <=? n) && (n <=? hi) then
            match k with
            | O => pend +:+ String c (decode_go 0 0 0 "" r)
            | S _ => decode_go k 128 191 (pend +:+ String c "") r
            end
          else replacement +:+ fresh
      end
  end.
Definition decode_replace (s : string) : string := decode_go 0 0 0 "" s.

Fixpoint contains_char (c : ascii) (s : string) : bool :=
  match s with EmptyString => false | String d s => Ascii.eqb c d || contains_char c s end.
Fixpoint count_char (c : ascii) (s : string) : Z :=
  match s with EmptyString => 0 | String d s => (if Ascii.eqb c d then 1 else 0) + count_char c s end.
Fixpoint contains (sub s : string) : bool :=
  String.prefix sub s || match s with EmptyString => false | String _ s' => contains sub s' end.

(** What a text column of PostgreSQL can hold: UTF-8 without a NUL; and one of at
    most [n] characters. *)
Definition storable (s : string) : bool := utf8_valid s && negb (has_surrogate s) && negb (contains_char "000" s).
Definition str_fits (n : Z) (s : string) : bool := (Z.of_nat (char_count s) <=? n) && storable s.
(** What an integer column can. *)
Definition int32 (z : Z) : bool := (- 2 ^ 31 <=? z) && (z <? 2 ^ 31).

(** [s.split(sep, 1)] / [s.partition(sep)] for a one-character separator:
    [None] when it does not occur. *)
Fixpoint split1 (sep : ascii) (s : string) : option (string * string) :=
  match s with
  | EmptyString => None
  | String c s' =>
      if Ascii.eqb sep c then Some ("", s')
      else match split1 sep s' with Some (a, b) => Some (String c a, b) | None => None end
  end.
Definition before (sep : ascii) (s : string) : string :=
  match split1 sep s with Some (a, _) => a | None => s end.

(** [s.rpartition(sep)]: [("", "", s)] when the separator does not occur. *)
Fixpoint rsplit1 (sep : ascii) (s : string) : option (string * string) :=
  match s with
  | EmptyString => None
  | String c s' =>
      match rsplit1 sep s' with
      | Some (a, b) => Some (String c a, b)
      | None => if Ascii.eqb sep c then Some ("", s') else None
      end
  end.
Definition rpartition (sep : ascii) (s : string) : string * string * string :=
  match rsplit1 sep s with
  | Some (a, b) => (a, String sep "", b)
  | None => ("", "", s)
  end.

(** [s.split("://", 1)] and the like: first occurrence of a substring. *)
Fixpoint split1_str (sep s : string) : option (string * string) :=
  if String.prefix sep s then Some ("", drop_str (String.length sep) s)
  else match s with
       | EmptyString => None
       | String c s' =>
           match split1_str sep s' with Some (a, b) => Some (String c a, b) | None => None end
       end.

(** [s.split(sep)] *)
Fixpoint split (sep : ascii) (s : string) : list string :=
  match s with
  | EmptyString => [""]
  | String c s' =>
      if Ascii.eqb sep c then "" :: split sep s'
      else match split sep s' with
           | x :: l => String c x :: l
           | [] => [String c ""]
           end
  end.

Fixpoint join (sep : string) (l : list string) : string :=
  match l with
  | [] => ""
  | [x] => x
  | x :: l => x +:+ sep +:+ join sep l
  end.

Definition isdigit (s : string) : bool := negb (String.eqb s "") && forall_str is_digit s.

(** [str.splitlines()]: the ASCII line boundaries, and U+0085, U+2028 and U+2029. *)
Definition is_line_break (c : ascii) : bool :=
  let n := code c in ((10 <=? n) && (n <=? 13)) || ((28 <=? n) && (n <=? 30)).
Fixpoint splitlines_go (cur : string) (s : string) : list string :=
  match s with
  | EmptyString => if String.eqb cur "" then [] else [rev_str cur]
  | String c s' =>
      if is_line_break c then
        match s' with
        | String d s'' =>
            if (code c =? 13) && (code d =? 10)
            then rev_str cur :: splitlines_go "" s''
            else rev_str cur :: splitlines_go "" s'
        | EmptyString => [rev_str cur]
        end
      else match s' with
           | String d s2 =>
               if (code c =? 194) && (code d =? 133) then rev_str cur :: splitlines_go "" s2
               else match s2 with
                    | String e s3 =>
                        if (code c =? 226) && (code d =? 128) && ((code e =? 168) || (code e =? 169))
                        then rev_str cur :: splitlines_go "" s3
                        else splitlines_go (String c cur) s'
                    | EmptyString => splitlines_go (String c cur) s'
                    end
           | EmptyString => splitlines_go (String c cur) s'
           end
  end.
Definition splitlines (s : string) : list string := splitlines_go "" s.
Lemma splitlines_go_char c cur s :
  is_line_break c = false → code c < 128 → splitlines_go cur (String c s) = splitlines_go (String c cur) s.
Proof.
  intros Hb Hc. cbn [splitlines_go]. rewrite Hb. assert (code c =? 194 = false) as -> by lia.
  assert (code c =? 226 = false) as -> by lia. cbn [andb]. destruct s as [|d [|e s]]; done.
Qed.

(** [int(s)] in base [base <= 16]: surrounding whitespace, one sign, digits with
    single underscores between them; [None] is the [ValueError]. *)
Definition digit_val (c : ascii) : option Z :=
  let n := code c in
  if (48 <=? n) && (n <=? 57) then Some (n - 48)
  else if (97 <=? n) && (n <=? 122) then Some (n - 87)
  else if (65 <=? n) && (n <=? 90) then Some (n - 55)
  else None.
Definition digit_in (base : Z) (c : ascii) : option Z :=
  match digit_val c with Some d => if d <? base then Some d else None | None => None end.
(** [prev] says whether the previous character was a digit. *)
Fixpoint digits_go (base acc : Z) (prev : bool) (s : string) : option Z :=
  match s with
  | EmptyString => if prev then Some acc else None
  | String c s' =>
      if Ascii.eqb c "_" then if prev then digits_go base acc false s' else None
      else match digit_in base c with
           | Some d => digits_go base (base * acc + d) true s'
           | None => None
           end
  end.
Definition py_int_base (base : Z) (s : string) : option Z :=
  let s := strip s in
  match s with
  | String c s' =>
      if Ascii.eqb c "-" then Z.opp <$> digits_go base 0 false s'
      else if Ascii.eqb c "+" then digits_go base 0 false s'
      else digits_go base 0 false s
  | EmptyString => None
  end.
Definition py_int (s : string) : option Z := py_int_base 10 s.

(** ** Lemmas *)
Lemma append_cons c s t : String c s +:+ t = String c (s +:+ t).
Proof. done. Qed.

Lemma contains_char_app c s t :
  contains_char c (s +:+ t) = contains_char c s || contains_char c t.
Proof. induction s as [|d s IH]; [done|]. rewrite append_cons. simpl. by rewrite IH, orb_assoc. Qed.

Lemma rsplit1_None sep s : contains_char sep s = false → rsplit1 sep s = None.
Proof.
  induction s as [|c s IH]; simpl; [done|]. intros [H1 H2]%orb_false_iff.
  by rewrite (IH H2), H1.
Qed.

(** The last separator splits [a sep b] when [b] holds none. *)
Lemma rsplit1_app sep a b :
  contains_char sep b = false → rsplit1 sep (a +:+ String sep b) = Some (a, b).
Proof.
  intros Hb. induction a as [|c a IH].
  - simpl. by rewrite (rsplit1_None _ _ Hb), Ascii.eqb_refl.
  - rewrite append_cons. simpl. by rewrite IH.
Qed.

Lemma rpartition_app sep a b :
  contains_char sep b = false → rpartition sep (a +:+ String sep b) = (a, String sep "", b).
Proof. intros. unfold rpartition. by rewrite rsplit1_app. Qed.

Lemma forall_str_app p s t : forall_str p (s +:+ t) = forall_str p s && forall_str p t.
Proof. induction s as [|c s IH]; [done|]. rewrite append_cons. simpl. by rewrite IH, andb_assoc. Qed.

Lemma forall_str_not_contains p c s :
  p c = false → forall_str p s = true → contains_char c s = false.
Proof.
  intros Hc. induction s as [|d s IH]; simpl; [done|]. intros [H1 H2]%andb_true_iff.
  rewrite (IH H2), orb_false_r. apply Ascii.eqb_neq. intros ->. congruence.
Qed.

Lemma append_assoc_str (s t u : string) : (s +:+ t) +:+ u = s +:+ (t +:+ u).
Proof. induction s as [|c s IH]; [done|]. by rewrite !append_cons, IH. Qed.

Lemma append_nil_r (s : string) : s +:+ "" = s.
Proof. induction s as [|c s IH]; [done|]. by rewrite append_cons, IH. Qed.

(** *** Stripping *)
Lemma rev_append_str_app s t acc : rev_append_str (s +:+ t) acc = rev_append_str t (rev_append_str s acc).
Proof. revert acc. induction s as [|c s IH]; intros; [done|]. rewrite append_cons. simpl. by rewrite IH. Qed.

Lemma rev_append_str_spec s acc : rev_append_str s acc = rev_str s +:+ acc.
Proof.
  unfold rev_str. revert acc. induction s as [|c s IH]; intros; simpl; [done|].
  rewrite (IH (String c acc)), (IH (String c "")). by rewrite append_assoc_str.
Qed.

Lemma rev_str_cons c s : rev_str (String c s) = rev_str s +:+ String c "".
Proof. unfold rev_str at 1. simpl. apply rev_append_str_spec. Qed.

Lemma rev_str_app s t : rev_str (s +:+ t) = rev_str t +:+ rev_str s.
Proof. unfold rev_str at 1. rewrite rev_append_str_app, rev_append_str_spec. done. Qed.

Lemma rev_str_involutive s : rev_str (rev_str s) = s.
Proof. induction s as [|c s IH]; [done|]. by rewrite rev_str_cons, rev_str_app, IH. Qed.

Lemma forall_str_rev p s : forall_str p (rev_str s) = forall_str p s.
Proof. induction s as [|c s IH]; [done|]. rewrite rev_str_cons, forall_str_app, IH. simpl. rewrite andb_true_r. apply andb_comm. Qed.

Lemma lstrip_by_id p s : forall_str (λ c, negb (p c)) s = true → lstrip_by p s = s.
Proof. destruct s as [|c s]; simpl; [done|]. intros [->%negb_true_iff _]%andb_true_iff. done. Qed.

Lemma strip_id s : forall_str (λ c, negb (is_space c)) s = true → strip s = s.
Proof.
  intros H. unfold strip, rstrip_by. rewrite (lstrip_by_id _ _ H).
  rewrite lstrip_by_id by by rewrite forall_str_rev. apply rev_str_involutive.
Qed.

Lemma forall_str_impl (p q : ascii → bool) s :
  (∀ c, p c = true → q c = true) → forall_str p s = true → forall_str q s = true.
Proof.
  intros H. induction s as [|c s IH]; simpl; [done|]. rewrite !andb_true_iff. naive_solver.
Qed.

Lemma digit_not_space c : is_digit c = true → negb (is_space c) = true.
Proof. unfold is_digit, is_space. intros. lia. Qed.

(** *** Decimal numerals: [int(str(n)) = n], and [str(n)] is all digits *)
Lemma pretty_N_char_digit x :
  (x < 10)%N → digit_in 10 (pretty_N_char x) = Some (Z.of_N x) ∧
  is_digit (pretty_N_char x) = true ∧ Ascii.eqb (pretty_N_char x) "_" = false.
Proof.
  intros Hx. assert (x ∈ [0; 1; 2; 3; 4; 5; 6; 7; 8; 9]%N) as Hin.
  { rewrite !elem_of_cons. lia. }
  repeat (apply elem_of_cons in Hin as [->|Hin]; [vm_compute; done|]). by apply elem_of_nil in Hin.
Qed.

Lemma digits_go_pretty_N x s prev :
  digits_go 10 0 prev (pretty_N_go x s) =
  if decide (x = 0%N) then digits_go 10 0 prev s else digits_go 10 (Z.of_N x) true s.
Proof.
  revert s prev. induction (N.lt_wf_0 x) as [x _ IH]; intros s prev.
  case_decide as Hx; [subst; by rewrite pretty_N_go_0|].
  rewrite pretty_N_go_step by lia.
  assert (x mod 10 < 10)%N as Hm by (apply N.mod_lt; lia).
  destruct (pretty_N_char_digit _ Hm) as (Hd & _ & Hu).
  rewrite IH by (apply N.div_lt; lia).
  assert (Z.of_N x = 10 * Z.of_N (x `div` 10) + Z.of_N (x `mod` 10))%Z as Hdm.
  { rewrite (N.div_mod x 10) at 1 by lia. lia. }
  case_decide as Hq; simpl; rewrite Hu, Hd; do 2 f_equal; lia.
Qed.

Lemma forall_str_pretty_N x s :
  forall_str is_digit (pretty_N_go x s) = forall_str is_digit s.
Proof.
  revert s. induction (N.lt_wf_0 x) as [x _ IH]; intros s.
  destruct (decide (x = 0%N)) as [->|Hx]; [by rewrite pretty_N_go_0|].
  rewrite pretty_N_go_step by lia. rewrite IH by (apply N.div_lt; lia). simpl.
  assert (x mod 10 < 10)%N as Hm by (apply N.mod_lt; lia).
  by destruct (pretty_N_char_digit _ Hm) as (_ & -> & _).
Qed.

Lemma str_Z_digits n : 0 <= n → forall_str is_digit (str_Z n) = true ∧ str_Z n ≠ "".
Proof.
  intros Hn. unfold str_Z. destruct n as [|p|]; [done| |lia].
  change (pretty (Z.pos p)) with (if decide (N.pos p = 0%N) then "0" else pretty_N_go (N.pos p) ""). rewrite decide_False by done. split.
  - by rewrite forall_str_pretty_N.
  - intros E. pose proof (digits_go_pretty_N (N.pos p) "" false) as D.
    rewrite E, decide_False in D by done. done.
Qed.

Lemma str_Z_isdigit n : 0 <= n → isdigit (str_Z n) = true.
Proof.
  intros Hn. destruct (str_Z_digits n Hn) as [H1 H2]. unfold isdigit. rewrite H1, andb_true_r.
  by apply negb_true_iff, String.eqb_neq.
Qed.

Lemma str_Z_no_colon n : 0 <= n → contains_char ":" (str_Z n) = false.
Proof. intros Hn. eapply forall_str_not_contains; [|by apply str_Z_digits]. done. Qed.

Lemma py_int_str_Z n : 0 <= n → py_int (str_Z n) = Some n.
Proof.
  intros Hn. pose proof (str_Z_digits n Hn) as [Hd Hne].
  unfold py_int, py_int_base.
  rewrite strip_id by (eapply forall_str_impl; [apply digit_not_space|done]).
  destruct (str_Z n) as [|c s] eqn:E; [done|]. simpl in Hd. apply andb_true_iff in Hd as [Hc _].
  assert (Ascii.eqb c "-" = false ∧ Ascii.eqb c "+" = false) as [-> ->].
  { split; apply Ascii.eqb_neq; intros ->; done. }
  rewrite <-E. unfold str_Z. destruct n as [|p|]; [done| |lia].
  change (pretty (Z.pos p)) with (if decide (N.pos p = 0%N) then "0" else pretty_N_go (N.pos p) ""). rewrite decide_False by done.
  rewrite digits_go_pretty_N. by rewrite decide_False by done.
Qed.
#[export] Hint Rewrite rev_str_involutive : inferna.
#[export] Hint Resolve str_Z_no_colon str_Z_isdigit py_int_str_Z : inferna.

(** *** Text before a separator *)
Lemma split1_None sep s : contains_char sep s = false → split1 sep s = None.
Proof.
  induction s as [|c s IH]; simpl; [done|]. intros [-> Hs]%orb_false_iff. by rewrite IH.
Qed.
Lemma split1_app sep a b :
  contains_char sep a = false → split1 sep (a +:+ String sep b) = Some (a, b).
Proof.
  induction a as [|c a IH]; intros H.
  - simpl. by rewrite Ascii.eqb_refl.
  - rewrite append_cons. simpl in *. apply orb_false_iff in H as [-> H]. by rewrite IH.
Qed.
Lemma before_id sep s : contains_char sep s = false → before sep s = s.
Proof. intros H. unfold before. by rewrite split1_None. Qed.
Lemma before_app sep a b : contains_char sep a = false → before sep (a +:+ String sep b) = a.
Proof. intros H. unfold before. by rewrite split1_app. Qed.

Lemma startswith_contains prefix s c :
  contains_char c prefix = true → startswith prefix s = true → contains_char c s = true.
Proof.
  unfold startswith. revert s. induction prefix as [|d p IH]; intros [|e s]; simpl; try done.
  intros Hc. destruct (Ascii.ascii_dec d e) as [<-|]; [|done]. intros Hp.
  apply orb_true_iff in Hc as [->|Hc]; [done|]. rewrite (IH s Hc Hp). apply orb_true_r.
Qed.
Lemma startswith_app p s : startswith p (p +:+ s) = true.
Proof.
  unfold startswith. induction p as [|c p IH]; [by destruct s|]. rewrite append_cons. simpl.
  by destruct (Ascii.ascii_dec c c).
Qed.
Lemma drop_str_app p s : drop_str (String.length p) (p +:+ s) = s.
Proof. induction p as [|c p IH]; [by destruct s|]. rewrite append_cons. done. Qed.

Lemma lower_app s t : lower (s +:+ t) = lower s +:+ lower t.
Proof. unfold lower. induction s as [|c s IH]; [done|]. rewrite append_cons. simpl. by rewrite IH. Qed.
Lemma contains_char_lower c s :
  (∀ d, Ascii.eqb c d = false → Ascii.eqb c (lower_char d) = false) →
  contains_char c s = false → contains_char c (lower s) = false.
Proof.
  intros Hc. unfold lower. induction s as [|d s IH]; simpl; [done|].
  intros [H1 H2]%orb_false_iff. by rewrite Hc, IH.
Qed.
Lemma startswith_split p s : startswith p s = true → s = p +:+ drop_str (String.length p) s.
Proof.
  unfold startswith. revert s. induction p as [|c p IH]; intros [|d s]; simpl; try done.
  destruct (Ascii.ascii_dec c d) as [<-|]; [|done]. intros H. rewrite append_cons. by rewrite <-IH.
Qed.
(** Lower-casing moves no character onto or off a separator. *)
Lemma lower_char_sep c d :
  65 <=? code c = false → Ascii.eqb c d = false → Ascii.eqb c (lower_char d) = false.
Proof.
  intros Hc H%Ascii.eqb_neq. apply Ascii.eqb_neq. unfold lower_char. case_match; [|done].
  intros E. apply (f_equal code) in E. unfold code in E at 2.
  rewrite N_ascii_embedding in E by (unfold code in *; lia). lia.
Qed.

(** *** Characters *)
Lemma take_chars_add n m s : take_chars (n + m) s = take_chars n s +:+ take_chars m (drop_chars n s).
Proof.
  revert n. induction s as [|c s IH]; intros n; [by destruct m|]. cbn [take_chars drop_chars]. destruct (is_cont c) eqn:E.
  - by rewrite IH.
  - destruct n as [|n]; [|by rewrite Nat.add_succ_l, IH]. cbn. by rewrite E.
Qed.
Lemma take_take_chars n m s : take_chars n (take_chars (n + m) s) = take_chars n s.
Proof.
  revert n. induction s as [|c s IH]; intros n; [done|]. cbn [take_chars]. destruct (is_cont c) eqn:E.
  - cbn [take_chars]. by rewrite E, IH.
  - destruct n as [|n]; [destruct m; cbn; by rewrite ?E|]. cbn. by rewrite E, IH.
Qed.
Lemma drop_take_chars n m s : drop_chars n (take_chars (n + m) s) = take_chars m (drop_chars n s).
Proof.
  revert n. induction s as [|c s IH]; intros n; [done|]. cbn [take_chars drop_chars]. destruct (is_cont c) eqn:E.
  - cbn [drop_chars]. by rewrite E, IH.
  - destruct n as [|n]; [|cbn; by rewrite E, IH]. cbn [Nat.add]. cbn [take_chars]. rewrite E. destruct m; [done|]. cbn. by rewrite E.
Qed.
Lemma drop_chars_length n s : (String.length (drop_chars n s) <= String.length s)%nat.
Proof.
  revert n. induction s as [|c s IH]; intros n; cbn; [done|].
  destruct (is_cont c); [specialize (IH n)|destruct n as [|n]; [done|specialize (IH n)]]; lia.
Qed.
Lemma drop_chars_shorter n s : (0 < n)%nat → s ≠ "" → (String.length (drop_chars n s) < String.length s)%nat.
Proof.
  intros Hn Hs. destruct s as [|c s]; [done|]. destruct n as [|n]; [lia|]. cbn.
  pose proof (drop_chars_length (S n) s). pose proof (drop_chars_length n s). destruct (is_cont c); lia.
Qed.
Lemma take_chars_0_drop n s : take_chars 0 (drop_chars n s) = "".
Proof.
  revert n. induction s as [|c s IH]; intros n; [done|]. cbn [drop_chars]. destruct (is_cont c) eqn:E; [apply IH|].
  destruct n as [|n]; [cbn; by rewrite E|apply IH].
Qed.
Lemma char_count_drop n s : char_count (drop_chars n s) = (char_count s - n)%nat.
Proof.
  revert n. induction s as [|c s IH]; intros n; [done|]. cbn [char_count drop_chars]. destruct (is_cont c) eqn:E; [apply IH|].
  destruct n as [|n]; [cbn; by rewrite E|]. apply IH.
Qed.
Lemma char_count_nonempty s : (0 < char_count s)%nat → s ≠ "".
Proof. intros H ->. cbn in H. lia. Qed.
Lemma char_count_last n s : (char_count (last_chars n s) ≤ n)%nat.
Proof. unfold last_chars. rewrite char_count_drop. lia. Qed.
Lemma last_chars_short n s : (char_count s ≤ n)%nat → take_chars 0 s = "" → last_chars n s = s.
Proof.
  intros H Hs. unfold last_chars. replace (char_count s - n)%nat with 0%nat by lia.
  destruct s as [|c s]; [done|]. cbn in *. by destruct (is_cont c).
Qed.
Lemma decode_ascii s : forall_str (λ c, code c <? 128) s = true → decode_replace s = s.
Proof. unfold decode_replace. induction s as [|c s IH]; [done|]. cbn. intros [-> Hs]%andb_true_iff. by rewrite IH. Qed.
Lemma char_count_length s : (char_count s ≤ String.length s)%nat.
Proof. induction s as [|c s IH]; [done|]. cbn. case_match; lia. Qed.
(** Printable ASCII is storable. *)
Definition visible (c : ascii) : bool := (1 <=? code c) && (code c <=? 127).
Lemma visible_storable s : forall_str visible s = true → storable s = true.
Proof.
  intros H. unfold storable.
  assert (utf8_valid s = true ∧ has_surrogate s = false ∧ contains_char "000" s = false) as (-> & -> & ->); [|done].
  unfold utf8_valid. induction s as [|c s IH]; [done|]. cbn in H. apply andb_true_iff in H as [Hc H].
  unfold visible in Hc. destruct (IH H) as (H1 & H2 & H3). cbn [utf8_valid_go has_surrogate contains_char].
  assert (code c <? 128 = true) as -> by lia. assert (code c =? 237 = false) as -> by lia. rewrite H1, H2, H3.
  destruct (Ascii.eqb_spec "000" c) as [<-|]; [done|]. done.
Qed.
Lemma str_fits_visible n s : forall_str visible s = true → Z.of_nat (String.length s) <= n → str_fits n s = true.
Proof.
  intros H Hn. unfold str_fits. rewrite (visible_storable s H). pose proof (char_count_length s).
  rewrite andb_true_r. apply Z.leb_le. lia.
Qed.
