(* ===== verification/Uuid.v ===== *)
(** * UUIDs and SHA-256 as text ([uuid.UUID], [str(uuid)], [hashlib.sha256])

    The parts of the Python standard library the services use to turn identifiers
    and secrets into text: the canonical form of a UUID and its parser, and the
    hexadecimal SHA-256 digest of a string. *)

From S2P Require Import Prelude PyStr.
Local Open Scope Z_scope.

(** ** Hexadecimal *)
Definition hex_digit (n : Z) : ascii :=
  ascii_of_N (Z.to_N (if n <? 10 then 48 + n else 87 + n)).
(** The [k] lowest hexadecimal digits of [n], most significant first. *)
Fixpoint to_hex (k : nat) (n : Z) (acc : string) : string :=
  match k with
  | O => acc
  | S k' => to_hex k' (n / 16) (String (hex_digit (n mod 16)) acc)
  end.

(** ** UUIDs *)
(** [str(u)]: 8-4-4-4-12 digits. *)
Definition str_uuid (u : uuid) : string :=
  let h := to_hex 32 (Z.of_N u) "" in
  take_str 8 h +:+ "-" +:+ take_str 4 (drop_str 8 h) +:+ "-" +:+ take_str 4 (drop_str 12 h)
  +:+ "-" +:+ take_str 4 (drop_str 16 h) +:+ "-" +:+ drop_str 20 h.

(** [s.replace(sub, "")]; structural on the text through a skip counter. *)
Fixpoint remove_go (sub : string) (skip : nat) (s : string) : string :=
  match s with
  | "" => ""
  | String c s' =>
      match skip with
      | S skip' => remove_go sub skip' s'
      | O => if String.prefix sub s then remove_go sub (String.length sub - 1) s'
             else String c (remove_go sub 0 s')
      end
  end.
Definition remove_sub (sub s : string) : string := remove_go sub 0 s.
(** [s.strip("{}")] *)
Definition is_brace (c : ascii) : bool := Ascii.eqb c "{" || Ascii.eqb c "}".
Definition strip_braces (s : string) : string := rstrip_by is_brace (lstrip_by is_brace s).

(** [int(s, 16)], which also takes an "0x" prefix. *)
Definition digits16 (s : string) : option Z :=
  if startswith "0x" (lower s) then
    match drop_str 2 s with
    | String c r => if Ascii.eqb c "_" then digits_go 16 0 false r else digits_go 16 0 false (String c r)
    | "" => None
    end
  else digits_go 16 0 false s.
Definition py_int16 (s : string) : option Z :=
  match strip s with
  | String c s' as t =>
      if Ascii.eqb c "-" then Z.opp <$> digits16 s'
      else if Ascii.eqb c "+" then digits16 s'
      else digits16 t
  | "" => None
  end.

(** [uuid.UUID(hex)]; [None] is its [ValueError]. *)
Definition uuid_of_string (s : string) : option uuid :=
  let hex := remove_sub "-" (strip_braces (remove_sub "uuid:" (remove_sub "urn:" s))) in
  if negb (String.length hex =? 32)%nat then None
  else match py_int16 hex with
       | Some n => if (0 <=? n) && (n <? 2 ^ 128) then Some (Z.to_N n) else None
       | None => None
       end.

(** ** SHA-256 *)
Module Sha256.
Definition w32 (n : Z) : Z := n mod 2 ^ 32.
Definition rotr (n x : Z) : Z := Z.lor (Z.shiftr x n) (w32 (Z.shiftl x (32 - n))).
(** The constants of the standard are the first 32 bits of the fractional parts of
    the cube roots (of the square roots) of the first primes. *)
Definition is_prime (p : Z) : bool :=
  forallb (λ k, negb (p mod Z.of_nat k =? 0)) (seq 2 (Z.to_nat (p - 2))).
Definition first_primes (n : nat) : list Z := take n (where_ is_prime (map Z.of_nat (seq 2 311))).
(** The largest [r] with [r^3 <= n] below [lo + 2^k]. *)
Fixpoint cbrt_from (k : nat) (lo n : Z) : Z :=
  match k with
  | O => lo
  | S k' => let mid := lo + 2 ^ Z.of_nat k' in
            cbrt_from k' (if mid * mid * mid <=? n then mid else lo) n
  end.
Definition K : list Z :=
  Eval vm_compute in map (λ p, w32 (cbrt_from 36 0 (p * 2 ^ 96))) (first_primes 64).
Definition H0 : list Z :=
  Eval vm_compute in map (λ p, w32 (Z.sqrt (p * 2 ^ 64))) (first_primes 8).

(** Big-endian bytes of a [k]-byte number. *)
Fixpoint be_bytes (k : nat) (n : Z) (acc : list Z) : list Z :=
  match k with O => acc | S k' => be_bytes k' (n / 256) (n mod 256 :: acc) end.
Definition pad (msg : list Z) : list Z :=
  let len := Z.of_nat (length msg) in
  msg ++ [128] ++ replicate (Z.to_nat ((55 - len) mod 64)) 0 ++ be_bytes 8 (8 * len) [].

Fixpoint words (l : list Z) : list Z :=
  match l with
  | a :: b :: c :: d :: l' => a * 2 ^ 24 + b * 2 ^ 16 + c * 2 ^ 8 + d :: words l'
  | _ => []
  end.

(** The message schedule, latest word first. *)
Definition next_word (w : list Z) : Z :=
  let at_ n := nth n w 0 in
  let s0 := let x := at_ 14%nat in Z.lxor (Z.lxor (rotr 7 x) (rotr 18 x)) (Z.shiftr x 3) in
  let s1 := let x := at_ 1%nat in Z.lxor (Z.lxor (rotr 17 x) (rotr 19 x)) (Z.shiftr x 10) in
  w32 (at_ 15%nat + s0 + at_ 6%nat + s1).
Fixpoint schedule (n : nat) (w : list Z) : list Z :=
  match n with O => rev w | S n' => schedule n' (next_word w :: w) end.

Definition round (st : list Z) (kw : Z * Z) : list Z :=
  match st with
  | [a; b; c; d; e; f; g; h] =>
      let S1 := Z.lxor (Z.lxor (rotr 6 e) (rotr 11 e)) (rotr 25 e) in
      let ch := Z.lxor (Z.land e f) (Z.land (Z.lxor e (2 ^ 32 - 1)) g) in
      let t1 := w32 (h + S1 + ch + kw.1 + kw.2) in
      let S0 := Z.lxor (Z.lxor (rotr 2 a) (rotr 13 a)) (rotr 22 a) in
      let maj := Z.lxor (Z.lxor (Z.land a b) (Z.land a c)) (Z.land b c) in
      [w32 (t1 + w32 (S0 + maj)); a; b; c; w32 (d + t1); e; f; g]
  | _ => st
  end.
Definition compress (h block : list Z) : list Z :=
  zip_with (λ x y, w32 (x + y)) h (foldl round h (combine K (schedule 48 (rev block)))).
Fixpoint blocks (n : nat) (ws : list Z) (h : list Z) : list Z :=
  match n with O => h | S n' => blocks n' (drop 16 ws) (compress h (take 16 ws)) end.
Definition digest (msg : list Z) : list Z :=
  let ws := words (pad msg) in blocks (length ws / 16)%nat ws H0.
End Sha256.

Fixpoint bytes_of (s : string) : list Z :=
  match s with "" => [] | String c s' => code c :: bytes_of s' end.
(** [hashlib.sha256(value.encode("utf-8")).hexdigest()] on text held as UTF-8 bytes. *)
Definition sha256_hex (value : string) : string :=
  foldr (λ w acc, to_hex 8 w acc) "" (Sha256.digest (bytes_of value)).

Example sha256_empty :
  sha256_hex "" = "e3b0c44298fc1c149afbf4c8996fb92427ae41e4649b934ca495991b7852b855".
Proof. vm_compute. reflexivity. Qed.
Example sha256_abc :
  sha256_hex "abc" = "ba7816bf8f01cfea414140de5dae2223b00361a396177a9cb410ff61f20015ad".
Proof. vm_compute. reflexivity. Qed.
Example sha256_two_blocks :
  sha256_hex "abcdbcdecdefdefgefghfghighijhijkijkljklmklmnlmnomnopnopq"
  = "248d6a61d20638b8e5c026930c3e6039a33ce45964ff2167f6ecedd419db06c1".
Proof. vm_compute. reflexivity. Qed.

(** ** The round trip of identifiers *)
Definition is_hex (c : ascii) : bool :=
  is_digit c || ((97 <=? code c) && (code c <=? 102)).

Lemma hex_digit_spec n :
  0 <= n < 16 → is_hex (hex_digit n) = true ∧ digit_in 16 (hex_digit n) = Some n ∧
  Ascii.eqb (hex_digit n) "_" = false.
Proof.
  intros Hn. assert (n ∈ seqZ 0 16) as Hin by (apply elem_of_seqZ; lia).
  change (seqZ 0 16) with [0; 1; 2; 3; 4; 5; 6; 7; 8; 9; 10; 11; 12; 13; 14; 15] in Hin.
  repeat (apply elem_of_cons in Hin as [->|Hin]; [vm_compute; done|]). by apply elem_of_nil in Hin.
Qed.

Lemma to_hex_forall k n acc : forall_str is_hex (to_hex k n acc) = forall_str is_hex acc.
Proof.
  revert n acc. induction k as [|k IH]; intros n acc; [done|]. simpl. rewrite IH. simpl.
  destruct (hex_digit_spec (n mod 16)) as [-> _]; [apply Z.mod_pos_bound; lia|done].
Qed.
Lemma to_hex_length k n acc : String.length (to_hex k n acc) = (k + String.length acc)%nat.
Proof. revert n acc. induction k as [|k IH]; intros n acc; [done|]. simpl. rewrite IH. simpl. lia. Qed.

Lemma to_hex_value k n a acc prev :
  digits_go 16 a prev (to_hex (S k) n acc) = digits_go 16 (a * 16 ^ Z.of_nat (S k) + n mod 16 ^ Z.of_nat (S k)) true acc.
Proof.
  revert n acc. induction k as [|k IH]; intros n acc.
  - cbn [to_hex]. pose proof (Z.mod_pos_bound n 16 ltac:(lia)) as Hm.
    destruct (hex_digit_spec (n mod 16) Hm) as (_ & Hd & Hu). cbn [digits_go]. rewrite Hu, Hd.
    f_equal. change (16 ^ Z.of_nat 1) with 16. lia.
  - change (to_hex (S (S k)) n acc) with (to_hex (S k) (n / 16) (String (hex_digit (n mod 16)) acc)).
    rewrite IH. pose proof (Z.mod_pos_bound n 16 ltac:(lia)) as Hm.
    destruct (hex_digit_spec (n mod 16) Hm) as (_ & Hd & Hu). cbn [digits_go]. rewrite Hu, Hd. f_equal.
    rewrite (Nat2Z.inj_succ (S k)), Z.pow_succ_r by lia.
    rewrite Z.rem_mul_r; lia.
Qed.

Lemma take_drop_str n s : take_str n s +:+ drop_str n s = s.
Proof. revert s. induction n as [|n IH]; intros [|c s]; try done.
  cbn [take_str drop_str]. by rewrite append_cons, IH.
Qed.
Lemma drop_drop_str n m s : drop_str n (drop_str m s) = drop_str (m + n) s.
Proof. revert s. induction m as [|m IH]; intros s; [done|]. destruct s; simpl; [by destruct n|apply IH]. Qed.

Lemma remove_absent c sub s :
  contains_char c sub = true → contains_char c s = false → remove_sub sub s = s.
Proof.
  intros Hc. unfold remove_sub. induction s as [|d s IH]; [done|]. intros H.
  cbn [remove_go]. destruct (String.prefix sub (String d s)) eqn:E.
  - pose proof (startswith_contains sub (String d s) c Hc E). congruence.
  - f_equal. apply IH. simpl in H. by apply orb_false_iff in H as [_ ?].
Qed.
Lemma remove_char_app c s t :
  remove_sub (String c "") (s +:+ t) = remove_sub (String c "") s +:+ remove_sub (String c "") t.
Proof.
  unfold remove_sub. induction s as [|d s IH]; [done|]. rewrite append_cons. cbn [remove_go].
  assert (∀ r, String.prefix (String c "") (String d r) = bool_decide (c = d)) as Hp.
  { intros r. cbn [String.prefix]. destruct (Ascii.ascii_dec c d) as [<-|Hne].
    - rewrite bool_decide_eq_true_2 by done. by destruct r.
    - by rewrite bool_decide_eq_false_2. }
  rewrite !Hp. cbn [String.length Nat.sub]. case_bool_decide; rewrite IH; [done|]. by rewrite append_cons.
Qed.

Lemma hex_no c s : is_hex c = false → forall_str is_hex s = true → contains_char c s = false.
Proof. apply forall_str_not_contains. Qed.

Lemma forall_str_take p n s : forall_str p s = true → forall_str p (take_str n s) = true.
Proof. revert s. induction n as [|n IH]; intros [|c s]; simpl; try done. rewrite !andb_true_iff. naive_solver. Qed.
Lemma forall_str_drop p n s : forall_str p s = true → forall_str p (drop_str n s) = true.
Proof. revert s. induction n as [|n IH]; intros [|c s]; simpl; try done. rewrite andb_true_iff. naive_solver. Qed.

Lemma str_uuid_chars u : forall_str (λ c, is_hex c || Ascii.eqb c "-") (str_uuid u) = true.
Proof.
  unfold str_uuid. set (h := to_hex 32 _ _).
  assert (forall_str is_hex h = true) as Hh by apply to_hex_forall. clearbody h.
  assert (∀ s, forall_str is_hex s = true → forall_str (λ c, is_hex c || Ascii.eqb c "-") s = true) as Himp.
  { intros s. apply forall_str_impl. intros c ->. done. }
  rewrite !forall_str_app. repeat (apply andb_true_iff; split); try done; apply Himp;
    repeat (apply forall_str_take || apply forall_str_drop); done.
Qed.

Lemma remove_dashes u : remove_sub "-" (str_uuid u) = to_hex 32 (Z.of_N u) "".
Proof.
  unfold str_uuid. set (h := to_hex 32 _ _).
  assert (forall_str is_hex h = true) as Hh by apply to_hex_forall. clearbody h.
  assert (∀ s, forall_str is_hex s = true → remove_sub "-" s = s) as Hid.
  { intros s Hs. apply (remove_absent "-"); [done|]. by eapply hex_no. }
  rewrite !remove_char_app. change (remove_sub "-" "-") with "".
  rewrite (Hid (take_str 8 h)), (Hid (take_str 4 (drop_str 8 h))), (Hid (take_str 4 (drop_str 12 h))),
    (Hid (take_str 4 (drop_str 16 h))), (Hid (drop_str 20 h))
    by (repeat (apply forall_str_take || apply forall_str_drop); done).
  assert (∀ n m, m = (n + 4)%nat → take_str 4 (drop_str n h) +:+ "" +:+ drop_str m h = drop_str n h) as Hstep.
  { intros n m ->. rewrite <-drop_drop_str. apply take_drop_str. }
  rewrite (Hstep 16%nat 20%nat), (Hstep 12%nat 16%nat), (Hstep 8%nat 12%nat) by done. apply take_drop_str.
Qed.

Lemma hex_lower s : forall_str is_hex s = true → lower s = s.
Proof.
  unfold lower. induction s as [|c s IH]; simpl; [done|]. intros [Hc Hs]%andb_true_iff.
  rewrite IH by done. f_equal. unfold lower_char. unfold is_hex, is_digit in Hc. case_match; [lia|done].
Qed.

Lemma uuid_round_trip_holds u : (u < 2 ^ 128)%N → uuid_of_string (str_uuid u) = Some u.
Proof.
  intros Hu. unfold uuid_of_string. pose proof (str_uuid_chars u) as Hc.
  assert (∀ c, is_hex c || Ascii.eqb c "-" = false → contains_char c (str_uuid u) = false) as Hno.
  { intros c H. exact (forall_str_not_contains _ c _ H Hc). }
  rewrite (remove_absent ":" "urn:"), (remove_absent ":" "uuid:") by (done || by apply Hno).
  assert (strip_braces (str_uuid u) = str_uuid u) as ->.
  { assert (forall_str (λ c, negb (is_brace c)) (str_uuid u) = true) as Hb.
    { eapply forall_str_impl; [|exact Hc]. intros c. unfold is_brace. cbv beta.
      destruct (Ascii.eqb_spec c "{") as [->|]; [done|]. by destruct (Ascii.eqb_spec c "}") as [->|]. }
    unfold strip_braces, rstrip_by. rewrite (lstrip_by_id _ _ Hb), lstrip_by_id, rev_str_involutive; [done|].
    by rewrite forall_str_rev. }
  rewrite remove_dashes, to_hex_length. cbn [Nat.add String.length Nat.eqb negb].
  set (h := to_hex 32 (Z.of_N u) "").
  assert (forall_str is_hex h = true) as Hh by apply to_hex_forall.
  assert (py_int16 h = Some (Z.of_N u)) as ->.
  { unfold py_int16. rewrite strip_id.
    2:{ eapply forall_str_impl; [|exact Hh]. intros c. unfold is_hex, is_space, is_digit. lia. }
    pose proof (to_hex_length 32 (Z.of_N u) "" : String.length h = _) as Hlen.
    pose proof (to_hex_value 31 (Z.of_N u) 0 "" false : digits_go 16 0 false h = _) as Hval. clearbody h.
    destruct h as [|c h']; [done|].
    assert (is_hex c = true) as Hx by (by apply andb_true_iff in Hh as [? _]).
    destruct (Ascii.eqb_spec c "-") as [->|_]; [done|]. destruct (Ascii.eqb_spec c "+") as [->|_]; [done|].
    unfold digits16. destruct (startswith "0x" (lower (String c h'))) eqn:Ex.
    - exfalso. apply (startswith_contains _ _ "x") in Ex; [|done].
      rewrite (hex_lower (String c h') Hh), (hex_no "x") in Ex; done.
    - rewrite Hval. cbn [digits_go]. f_equal. change (16 ^ Z.of_nat 32) with (2 ^ 128).
      rewrite Z.mod_small; lia. }
  rewrite (proj2 (Z.leb_le 0 _)), (proj2 (Z.ltb_lt _ _)) by lia. by rewrite N2Z.id.
Qed.

(** The text form of a 128-bit identifier parses back to it: the ids the server
    hands to a worker come back as the rows they name, and distinct ids print
    differently. *)
Theorem uuid_round_trip u v :
  (u < 2 ^ 128)%N → (v < 2 ^ 128)%N →
  uuid_of_string (str_uuid u) = Some u ∧ (str_uuid u = str_uuid v → u = v).
Proof.
  intros Hu Hv. split; [by apply uuid_round_trip_holds|]. intros E.
  apply uuid_round_trip_holds in Hu, Hv. rewrite E in Hu. congruence.
Qed.

Lemma uuid_round_trip_witness :
  uuid_of_string (str_uuid 0x123e4567e89b12d3a456426614174000) = Some 0x123e4567e89b12d3a456426614174000%N.
Proof. apply (uuid_round_trip 0x123e4567e89b12d3a456426614174000 0); reflexivity. Defined.

(** *** Hashes *)
Lemma sha_round_length st l : length (foldl Sha256.round st l) = length st.
Proof.
  revert st. induction l as [|kw l IH]; intros st; simpl; [done|]. rewrite IH.
  unfold Sha256.round. by repeat case_match.
Qed.
Lemma sha_blocks_length n ws h : length (Sha256.blocks n ws h) = length h.
Proof.
  revert ws h. induction n; intros ws h; [done|]. cbn [Sha256.blocks]. rewrite IHn.
  unfold Sha256.compress. rewrite length_zip_with, sha_round_length. lia.
Qed.
Lemma sha256_hex_length s : String.length (sha256_hex s) = 64%nat.
Proof.
  unfold sha256_hex, Sha256.digest.
  assert (∀ l, String.length (foldr (λ w acc, to_hex 8 w acc) "" l) = (8 * length l)%nat) as ->.
  { induction l as [|w l IH]; [done|]. cbn [foldr length]. rewrite to_hex_length, IH. lia. }
  by rewrite sha_blocks_length.
Qed.
(** A hash is 64 hexadecimal digits: it fits its column. *)
Lemma sha256_hex_fits s : str_fits 64 (sha256_hex s) = true.
Proof.
  apply str_fits_visible; [|by rewrite sha256_hex_length]. apply (forall_str_impl is_hex).
  - intros c Hc. unfold is_hex, is_digit, visible in *. lia.
  - unfold sha256_hex. induction (Sha256.digest (bytes_of s)) as [|w l IH]; [done|]. cbn [foldr]. by rewrite to_hex_forall.
Qed.
