(* ===== verification/Ipaddr.v ===== *)
(** * IP addresses and URLs ([ipaddress], [urllib.parse.urlsplit])

    The parts of the Python 3.12 standard library the SSRF guard is built on:
    parsing and printing of IPv4 and IPv6 addresses, networks and membership, and
    the splitting of a URL into its components. *)

From S2P Require Import Prelude PyStr Uuid.
Local Open Scope Z_scope.

(** ** Addresses *)
Inductive ip :=
  | IPv4 (n : Z)
  | IPv6 (n : Z) (scope_id : option string).
#[export] Instance ip_eq_dec : EqDecision ip.
Proof. solve_decision. Defined.

(** [_BaseV4._parse_octet] *)
Definition parse_octet (s : string) : option Z :=
  if negb (isdigit s) then None
  else if (3 <? String.length s)%nat then None
  else if negb (String.eqb s "0") && startswith "0" s then None
  else n ← py_int s; if 255 <? n then None else Some n.
(** [_BaseV4._ip_int_from_string] *)
Definition parse_ipv4 (s : string) : option Z :=
  match split "." s with
  | [a; b; c; d] =>
      a ← parse_octet a; b ← parse_octet b; c ← parse_octet c; d ← parse_octet d;
      Some (((a * 256 + b) * 256 + c) * 256 + d)
  | _ => None
  end.

Definition is_hex_digit (c : ascii) : bool :=
  match digit_in 16 c with Some _ => true | None => false end.
(** [_BaseV6._parse_hextet] *)
Definition parse_hextet (s : string) : option Z :=
  if negb (forall_str is_hex_digit s) then None
  else if (4 <? String.length s)%nat then None
  else py_int16 s.

(** ['%x' % n] *)
Fixpoint drop_zeros (s : string) : string :=
  match s with
  | String c s' => if Ascii.eqb c "0" && negb (String.eqb s' "") then drop_zeros s' else s
  | "" => ""
  end.
Definition hex16 (n : Z) : string := drop_zeros (to_hex 4 n "").

Definition parse_hextets (l : list string) (acc : Z) : option Z :=
  foldl (λ r s, acc ← r; h ← parse_hextet s; Some (Z.lor (Z.shiftl acc 16) h)) (Some acc) l.

(** Indexes [1 <= i < len - 1] of the empty parts. *)
Definition empty_inside (parts : list string) : list nat :=
  List.filter (λ i, String.eqb (nth i parts "") "") (seq 1 (length parts - 2)).
Definition first_empty (l : list string) : bool := String.eqb (hd "" l) "".
Definition last_empty (l : list string) : bool := String.eqb (List.last l "") "".

(** The IPv4 suffix of a part list, as two hextets. *)
Definition expand_ipv4_suffix (parts : list string) : option (list string) :=
  let suffix := List.last parts "" in
  if contains_char "." suffix then
    n ← parse_ipv4 suffix;
    Some (removelast parts ++ [hex16 (Z.land (Z.shiftr n 16) 0xFFFF); hex16 (Z.land n 0xFFFF)])
  else Some parts.

(** [_BaseV6._ip_int_from_string] *)
Definition parse_ipv6_int (s : string) : option Z :=
  let parts := split ":" s in
  if (length parts <? 3)%nat then None
  else
    parts ← expand_ipv4_suffix parts;
    let n := length parts in
    if (9 <? n)%nat then None
    else match empty_inside parts with
         | [] =>
             if negb (n =? 8)%nat || first_empty parts || last_empty parts then None
             else parse_hextets parts 0
         | [skip] =>
             let parts_hi := if first_empty parts then (skip - 1)%nat else skip in
             let parts_lo := if last_empty parts then (n - skip - 2)%nat else (n - skip - 1)%nat in
             if first_empty parts && negb (parts_hi =? 0)%nat then None
             else if last_empty parts && negb (parts_lo =? 0)%nat then None
             else if (7 <? parts_hi + parts_lo)%nat then None
             else
               hi ← parse_hextets (take parts_hi parts) 0;
               parse_hextets (drop (n - parts_lo) parts)
                 (Z.shiftl hi (16 * Z.of_nat (8 - (parts_hi + parts_lo))))
         | _ => None
         end.
(** [IPv6Address(s)]: the scope after "%", no "/" *)
Definition parse_ipv6 (s : string) : option ip :=
  if contains_char "/" s then None
  else match split1 "%" s with
       | None => (λ n, IPv6 n None) <$> parse_ipv6_int s
       | Some (addr, scope) =>
           if String.eqb scope "" || contains_char "%" scope then None
           else (λ n, IPv6 n (Some scope)) <$> parse_ipv6_int addr
       end.
(** [ipaddress.ip_address(s)]; [None] is its [ValueError]. *)
Definition ip_address (s : string) : option ip :=
  match parse_ipv4 s with
  | Some n => Some (IPv4 n)
  | None => parse_ipv6 s
  end.

(** ** Printing *)
Definition str_ipv4 (n : Z) : string :=
  str_Z (n / 2 ^ 24) +:+ "." +:+ str_Z (n / 2 ^ 16 mod 256) +:+ "."
  +:+ str_Z (n / 2 ^ 8 mod 256) +:+ "." +:+ str_Z (n mod 256).

(** [_compress_hextets]: the first longest run of "0", if longer than one. *)
Record run := Run { cur_start : option nat; cur_len : nat; best_start : nat; best_len : nat }.
Definition scan_hextet (r : run) (ih : nat * string) : run :=
  let '(index, hextet) := ih in
  if String.eqb hextet "0" then
    let len := S (cur_len r) in
    let start := default index (cur_start r) in
    if (best_len r <? len)%nat then Run (Some start) len start len
    else Run (Some start) len (best_start r) (best_len r)
  else Run None 0 (best_start r) (best_len r).
Definition compress_hextets (hextets : list string) : list string :=
  let r := foldl scan_hextet (Run None 0 0 0) (imap (λ i h, (i, h)) hextets) in
  if (1 <? best_len r)%nat then
    let stop := (best_start r + best_len r)%nat in
    let tail := if (stop =? length hextets)%nat then drop stop hextets ++ [""] else drop stop hextets in
    let body := take (best_start r) hextets ++ [""] ++ tail in
    if (best_start r =? 0)%nat then "" :: body else body
  else hextets.
Definition hextets_of (n : Z) : list string :=
  map (λ i, hex16 (Z.land (Z.shiftr n (16 * i)) 0xFFFF)) [7; 6; 5; 4; 3; 2; 1; 0].
Definition str_ip (a : ip) : string :=
  match a with
  | IPv4 n => str_ipv4 n
  | IPv6 n scope =>
      join ":" (compress_hextets (hextets_of n))
      +:+ match scope with Some s => "%" +:+ s | None => "" end
  end.

(** [IPv6Address.ipv4_mapped] *)
Definition ipv4_mapped (a : ip) : option ip :=
  match a with
  | IPv6 n _ => if Z.shiftr n 32 =? 0xFFFF then Some (IPv4 (Z.land n 0xFFFFFFFF)) else None
  | IPv4 _ => None
  end.

(** ** Networks *)
Inductive version := V4 | V6.
Record network := Network { net_version : version; network_address : Z; netmask : Z }.
Definition max_prefixlen (v : version) : Z := match v with V4 => 32 | V6 => 128 end.
(** The netmask of a prefix length. *)
Definition mask_of (v : version) (prefixlen : Z) : Z :=
  2 ^ max_prefixlen v - 2 ^ (max_prefixlen v - prefixlen).
Definition make_network (v : version) (address prefixlen : Z) : network :=
  Network v (Z.land address (mask_of v prefixlen)) (mask_of v prefixlen).
(** [ip in net] *)
Definition in_network (a : ip) (net : network) : bool :=
  match a, net_version net with
  | IPv4 n, V4 | IPv6 n _, V6 => Z.land n (netmask net) =? network_address net
  | _, _ => false
  end.

(** [_prefix_from_prefix_string] and [_prefix_from_ip_string] *)
Definition prefix_from_string (v : version) (s : string) : option Z :=
  if isdigit s then p ← py_int s; if p <=? max_prefixlen v then Some p else None else None.
Definition prefix_from_mask (n : Z) : option Z :=
  find_by (λ p, mask_of V4 p =? n) (seqZ 0 33).
Definition prefix_from_ip_string (s : string) : option Z :=
  n ← parse_ipv4 s;
  match prefix_from_mask n with
  | Some p => Some p
  | None => prefix_from_mask (Z.lxor n 0xFFFFFFFF)
  end.
(** [ip_network(entry, strict=False)] of an entry with a "/". *)
Definition ip_network (entry : string) : option network :=
  match split "/" entry with
  | [addr; mask] =>
      match parse_ipv4 addr with
      | Some n =>
          p ← match prefix_from_string V4 mask with
              | Some p => Some p | None => prefix_from_ip_string mask end;
          Some (make_network V4 n p)
      | None =>
          match parse_ipv6 addr with
          | Some (IPv6 n _) => p ← prefix_from_string V6 mask; Some (make_network V6 n p)
          | _ => None
          end
      end
  | _ => None
  end.

(** ** URLs *)
Module SplitResult.
Record t := mk { scheme : string; netloc : string; path : string; query : string; fragment : string }.
End SplitResult.

(** Characters up to and including the space are stripped on the left; tab, CR
    and LF are removed everywhere. *)
Definition is_c0_or_space (c : ascii) : bool := code c <=? 32.
Fixpoint filter_str (p : ascii → bool) (s : string) : string :=
  match s with "" => "" | String c s' => if p c then String c (filter_str p s') else filter_str p s' end.
Definition is_alpha (c : ascii) : bool :=
  ((65 <=? code c) && (code c <=? 90)) || ((97 <=? code c) && (code c <=? 122)).
Definition is_scheme_char (c : ascii) : bool :=
  is_alpha c || is_digit c || Ascii.eqb c "+" || Ascii.eqb c "-" || Ascii.eqb c ".".
Definition split_scheme (url : string) : string * string :=
  match split1 ":" url with
  | Some (String c pre, rest) =>
      if is_alpha c && forall_str is_scheme_char (String c pre) then (lower (String c pre), rest) else ("", url)
  | _ => ("", url)
  end.

(** Where the network location ends: the first of "/", "?" and "#". *)
Fixpoint split_netloc (s : string) : string * string :=
  match s with
  | "" => ("", "")
  | String c s' =>
      if Ascii.eqb c "/" || Ascii.eqb c "?" || Ascii.eqb c "#" then ("", s)
      else let '(a, b) := split_netloc s' in (String c a, b)
  end.

Definition is_ip_future (s : string) : bool :=
  match s with
  | String c s' =>
      Ascii.eqb c "v" &&
      match split1 "." s' with
      | Some (h, rest) => negb (String.eqb h "") && forall_str is_hex_digit h && negb (String.eqb rest "")
      | None => false
      end
  | "" => false
  end.
Definition check_bracketed_host (h : string) : bool :=
  if startswith "v" h then is_ip_future h
  else match ip_address h with Some (IPv6 _ _) => true | _ => false end.
Definition after (sep : ascii) (s : string) : string :=
  match split1 sep s with Some (_, b) => b | None => "" end.
(** [_check_bracketed_netloc], which mirrors [hostinfo] *)
Definition check_bracketed_netloc (netloc : string) : bool :=
  let '(_, _, info) := rpartition "@" netloc in
  if contains_char "[" info then
    let bracketed := after "[" info in
    let port := after "]" bracketed in
    String.eqb (before "[" info) "" && (String.eqb port "" || startswith ":" port)
    && check_bracketed_host (before "]" bracketed)
  else check_bracketed_host (before ":" info).
Definition netloc_ok (netloc : string) : bool :=
  let o := contains_char "[" netloc in let c := contains_char "]" netloc in
  if xorb o c then false else if o && c then check_bracketed_netloc netloc else true.

(** [urlsplit(url)]; [None] is its [ValueError]. *)
Definition urlsplit (url : string) : option SplitResult.t :=
  let url := filter_str (λ c, negb (Ascii.eqb c "009" || Ascii.eqb c "010" || Ascii.eqb c "013"))
               (lstrip_by is_c0_or_space url) in
  let '(scheme, url) := split_scheme url in
  let '(netloc, url) := if startswith "//" url then split_netloc (drop_str 2 url) else ("", url) in
  if negb (netloc_ok netloc) then None
  else
    let fragment := after "#" url in
    let url := before "#" url in
    Some (SplitResult.mk scheme netloc (before "?" url) (after "?" url) fragment).

(** [SplitResult._hostinfo]: host and port text. *)
Definition hostinfo (p : SplitResult.t) : string * option string :=
  let '(_, _, info) := rpartition "@" (SplitResult.netloc p) in
  let '(host, port) :=
    if contains_char "[" info then
      let bracketed := after "[" info in
      (before "]" bracketed, after ":" (after "]" bracketed))
    else (before ":" info, after ":" info) in
  (host, or_none port).
Definition hostname_of (p : SplitResult.t) : option string :=
  match (hostinfo p).1 with
  | "" => None
  | h => Some match split1 "%" h with
              | Some (a, zone) => lower a +:+ "%" +:+ zone
              | None => lower h end
  end.
(** [.port]: [Ok None] without a port. *)
Definition port_of (p : SplitResult.t) : result (option Z) :=
  match (hostinfo p).2 with
  | None => Ok None
  | Some port =>
      match (if isdigit port then py_int port else None) with
      | Some n => if n <=? 65535 then Ok (Some n) else Raise (ValueError "Port out of range 0-65535")
      | None => Raise (ValueError ("Port could not be cast to integer value as '" +:+ port +:+ "'"))
      end
  end.
(** [.username] and [.password], as a pair. *)
Definition userinfo (p : SplitResult.t) : option string * option string :=
  let '(info, sep, _) := rpartition "@" (SplitResult.netloc p) in
  if String.eqb sep "" then (None, None)
  else match split1 ":" info with
       | Some (u, pw) => (Some u, Some pw)
       | None => (Some info, None)
       end.
