(* ===== verification/Models.v ===== *)
(** * Database model ([server/inferna_server/models.py], [db.py])

    One module per ORM class: its columns as a record, with the setters the
    handlers use; then the database as one list of rows per table, the CHECK,
    UNIQUE and foreign-key constraints a commit enforces, and the session a
    handler works in.  A table is the list of its rows in storage order, which is
    the order an unordered SELECT returns them in; [created_at] columns are kept
    because queries order by them, [updated_at] (refreshed by the ORM, never read
    by the modelled code) is left out. *)

From S2P Require Import Prelude PyStr.
Local Open Scope Z_scope.

(** Instance states that consume GPU/VRAM. *)
Definition LIVE_STATES : list string := ["scheduled"; "starting"; "running"].
Definition in_live_states (s : string) : bool := existsb (String.eqb s) LIVE_STATES.

Module User.
Record t := mk {
  id : uuid; username : string; email : option string; password_hash : string;
  role : string; is_active : bool; token_limit : option Z; request_limit : option Z }.
Definition eta (r : t) : t :=
  mk (id r) (username r) (email r) (password_hash r) (role r) (is_active r) (token_limit r)
     (request_limit r).
Definition set_password_hash (v : string) (r : t) : t := ltac:(set_field eta password_hash v r).
Definition set_token_limit (v : option Z) (r : t) : t := ltac:(set_field eta token_limit v r).
Definition set_request_limit (v : option Z) (r : t) : t := ltac:(set_field eta request_limit v r).
#[global] Instance eq_dec : EqDecision t.
Proof. solve_decision. Defined.
End User.

Module Cluster.
Record t := mk { id : uuid; name : string; description : option string; created_at : datetime }.
#[global] Instance eq_dec : EqDecision t.
Proof. solve_decision. Defined.
End Cluster.

Module Worker.
Record t := mk {
  id : uuid; cluster_id : uuid; name : string; hostname : string; state : string;
  version : option string; os : option string; cpu_cores : option Z; memory_mb : option Z;
  token_hash : string; address : option string; last_seen_at : option datetime;
  created_at : datetime }.
Definition eta (r : t) : t :=
  mk (id r) (cluster_id r) (name r) (hostname r) (state r) (version r) (os r) (cpu_cores r)
     (memory_mb r) (token_hash r) (address r) (last_seen_at r) (created_at r).
Definition set_name (v : string) (r : t) : t := ltac:(set_field eta name v r).
Definition set_hostname (v : string) (r : t) : t := ltac:(set_field eta hostname v r).
Definition set_state (v : string) (r : t) : t := ltac:(set_field eta state v r).
Definition set_version (v : option string) (r : t) : t := ltac:(set_field eta version v r).
Definition set_os (v : option string) (r : t) : t := ltac:(set_field eta os v r).
Definition set_cpu_cores (v : option Z) (r : t) : t := ltac:(set_field eta cpu_cores v r).
Definition set_memory_mb (v : option Z) (r : t) : t := ltac:(set_field eta memory_mb v r).
Definition set_token_hash (v : string) (r : t) : t := ltac:(set_field eta token_hash v r).
Definition set_address (v : option string) (r : t) : t := ltac:(set_field eta address v r).
Definition set_last_seen_at (v : option datetime) (r : t) : t := ltac:(set_field eta last_seen_at v r).
#[global] Instance eq_dec : EqDecision t.
Proof. solve_decision. Defined.
End Worker.

(** The autoincrement key of [worker_gpus] is never read and is left out; rows
    are identified by (worker_id, index). *)
Module WorkerGPU.
Record t := mk {
  worker_id : uuid; index : Z; vendor : string; name : string; vram_mb : Z;
  used_vram_mb : Z; utilization_pct : Z; gpu_uuid : option string; driver_version : option string }.
#[global] Instance eq_dec : EqDecision t.
Proof. solve_decision. Defined.
End WorkerGPU.

(** [params_b] (a float shown in the catalog) is left out. *)
Module Model.
Record t := mk {
  id : uuid; name : string; display_name : string; category : string;
  description : option string; vram_required_mb : Z; requires_hf_token : bool;
  license : option string; is_builtin : bool; supported_engines : list string;
  created_at : datetime }.
#[global] Instance eq_dec : EqDecision t.
Proof. solve_decision. Defined.
End Model.

Module ApiKey.
Record t := mk {
  id : uuid; user_id : uuid; name : string; key_hash : string; scopes : list string;
  last_used_at : option datetime; revoked_at : option datetime; created_at : datetime }.
Definition eta (r : t) : t :=
  mk (id r) (user_id r) (name r) (key_hash r) (scopes r) (last_used_at r) (revoked_at r)
     (created_at r).
Definition set_last_used_at (v : option datetime) (r : t) : t := ltac:(set_field eta last_used_at v r).
Definition set_revoked_at (v : option datetime) (r : t) : t := ltac:(set_field eta revoked_at v r).
#[global] Instance eq_dec : EqDecision t.
Proof. solve_decision. Defined.
End ApiKey.

Module Deployment.
Record t := mk {
  id : uuid; model_id : uuid; cluster_id : uuid; engine : string; profile : string;
  min_replicas : Z; max_replicas : Z; nodes_per_replica : Z; parallel_mode : option string;
  created_at : datetime; last_scaled_at : option datetime }.
Definition eta (r : t) : t :=
  mk (id r) (model_id r) (cluster_id r) (engine r) (profile r) (min_replicas r) (max_replicas r)
     (nodes_per_replica r) (parallel_mode r) (created_at r) (last_scaled_at r).
Definition set_min_replicas (v : Z) (r : t) : t := ltac:(set_field eta min_replicas v r).
Definition set_max_replicas (v : Z) (r : t) : t := ltac:(set_field eta max_replicas v r).
Definition set_last_scaled_at (v : option datetime) (r : t) : t := ltac:(set_field eta last_scaled_at v r).
#[global] Instance eq_dec : EqDecision t.
Proof. solve_decision. Defined.
End Deployment.

Module ModelInstance.
Record t := mk {
  id : uuid; model_id : uuid; cluster_id : uuid; worker_id : option uuid; deployment_id : uuid;
  engine : string; profile : string; gpu_indexes : list Z; state : string;
  desired_state : string; generation : Z; port : option Z; error_detail : option string;
  log_tail : option string; parallel_group_id : option uuid; node_rank : option Z;
  world_size : option Z; parallel_mode : option string; rendezvous : option string;
  created_at : datetime }.
Definition eta (r : t) : t :=
  mk (id r) (model_id r) (cluster_id r) (worker_id r) (deployment_id r) (engine r) (profile r)
     (gpu_indexes r) (state r) (desired_state r) (generation r) (port r) (error_detail r)
     (log_tail r) (parallel_group_id r) (node_rank r) (world_size r) (parallel_mode r)
     (rendezvous r) (created_at r).
Definition set_worker_id (v : option uuid) (r : t) : t := ltac:(set_field eta worker_id v r).
Definition set_state (v : string) (r : t) : t := ltac:(set_field eta state v r).
Definition set_desired_state (v : string) (r : t) : t := ltac:(set_field eta desired_state v r).
Definition set_generation (v : Z) (r : t) : t := ltac:(set_field eta generation v r).
Definition set_port (v : option Z) (r : t) : t := ltac:(set_field eta port v r).
Definition set_error_detail (v : option string) (r : t) : t := ltac:(set_field eta error_detail v r).
Definition set_log_tail (v : option string) (r : t) : t := ltac:(set_field eta log_tail v r).
#[global] Instance eq_dec : EqDecision t.
Proof. solve_decision. Defined.
End ModelInstance.

Module UsageRecord.
Record t := mk {
  user_id : uuid; api_key_id : uuid; model_id : uuid; period_start : Z;
  requests : Z; tokens_in : Z; tokens_out : Z; latency_ms_sum : Z }.
#[global] Instance eq_dec : EqDecision t.
Proof. solve_decision. Defined.
End UsageRecord.

(** [gpu_seconds] is a float that only ever receives sums of
    [interval * gpu_count]; it is kept in thousandths of a second. *)
Module GpuUsageRecord.
Record t := mk {
  model_id : uuid; cluster_id : uuid; period_start : Z; gpu_seconds : Z }.
#[global] Instance eq_dec : EqDecision t.
Proof. solve_decision. Defined.
End GpuUsageRecord.

(** ** The database: one list of rows per table. *)
Module Db.
Record t := mk {
  users : list User.t; api_keys : list ApiKey.t; clusters : list Cluster.t;
  workers : list Worker.t; worker_gpus : list WorkerGPU.t; models : list Model.t;
  deployments : list Deployment.t; instances : list ModelInstance.t;
  usage_records : list UsageRecord.t; gpu_usage_records : list GpuUsageRecord.t }.
Definition eta (d : t) : t :=
  mk (users d) (api_keys d) (clusters d) (workers d) (worker_gpus d) (models d) (deployments d)
     (instances d) (usage_records d) (gpu_usage_records d).
Definition set_users v (d : t) : t := ltac:(set_field eta users v d).
Definition set_api_keys v (d : t) : t := ltac:(set_field eta api_keys v d).
Definition set_clusters v (d : t) : t := ltac:(set_field eta clusters v d).
Definition set_workers v (d : t) : t := ltac:(set_field eta workers v d).
Definition set_worker_gpus v (d : t) : t := ltac:(set_field eta worker_gpus v d).
Definition set_models v (d : t) : t := ltac:(set_field eta models v d).
Definition set_deployments v (d : t) : t := ltac:(set_field eta deployments v d).
Definition set_instances v (d : t) : t := ltac:(set_field eta instances v d).
Definition set_usage_records v (d : t) : t := ltac:(set_field eta usage_records v d).
Definition set_gpu_usage_records v (d : t) : t := ltac:(set_field eta gpu_usage_records v d).
Definition empty : t := mk [] [] [] [] [] [] [] [] [] [].
End Db.

(** ** Lookups by primary key ([db.get], [scalar_one_or_none] on an id). *)
Definition find_user (d : Db.t) (i : uuid) := find_by (λ r, (User.id r =? i)%N) (Db.users d).
Definition find_cluster (d : Db.t) (i : uuid) := find_by (λ r, (Cluster.id r =? i)%N) (Db.clusters d).
Definition find_worker (d : Db.t) (i : uuid) := find_by (λ r, (Worker.id r =? i)%N) (Db.workers d).
Definition find_model (d : Db.t) (i : uuid) := find_by (λ r, (Model.id r =? i)%N) (Db.models d).
Definition find_api_key (d : Db.t) (i : uuid) := find_by (λ r, (ApiKey.id r =? i)%N) (Db.api_keys d).
Definition find_deployment (d : Db.t) (i : uuid) :=
  find_by (λ r, (Deployment.id r =? i)%N) (Db.deployments d).
Definition find_instance (d : Db.t) (i : uuid) :=
  find_by (λ r, (ModelInstance.id r =? i)%N) (Db.instances d).

Definition uuid_eqb (a b : option uuid) : bool := bool_decide (a = b).

(** [Worker.gpus], ordered by index. *)
Definition gpus_of (d : Db.t) (worker_id : uuid) : list WorkerGPU.t :=
  sorted_by (λ a b, WorkerGPU.index a <=? WorkerGPU.index b)
    (where_ (λ g, (WorkerGPU.worker_id g =? worker_id)%N) (Db.worker_gpus d)).

(** [Deployment.instances], ordered by creation. *)
Definition instances_of (d : Db.t) (deployment_id : uuid) : list ModelInstance.t :=
  sorted_by (λ a b, ModelInstance.created_at a <=? ModelInstance.created_at b)
    (where_ (λ i, (ModelInstance.deployment_id i =? deployment_id)%N) (Db.instances d)).

(** ** Constraints *)
Definition one_of (s : string) (l : list string) : bool := existsb (String.eqb s) l.
Definition one_of_or_null (s : option string) (l : list string) : bool :=
  match s with None => true | Some s => one_of s l end.

Definition ck_user (u : User.t) : bool := one_of (User.role u) ["admin"; "user"].
Definition ck_worker (w : Worker.t) : bool := one_of (Worker.state w) ["connected"; "disconnected"].
Definition ck_gpu (g : WorkerGPU.t) : bool := one_of (WorkerGPU.vendor g) ["nvidia"; "amd"; "mock"].
Definition ck_model (m : Model.t) : bool :=
  one_of (Model.category m) ["llm"; "embedding"; "reranker"; "audio"; "multimodal"].
Definition ck_deployment (d : Deployment.t) : bool :=
  one_of (Deployment.engine d) ["vllm"; "sglang"]
  && one_of (Deployment.profile d) ["latency"; "throughput"]
  && ((1 <=? Deployment.min_replicas d) && (Deployment.min_replicas d <=? Deployment.max_replicas d)
      && (Deployment.max_replicas d <=? 8))
  && ((1 <=? Deployment.nodes_per_replica d) && (Deployment.nodes_per_replica d <=? 8))
  && one_of_or_null (Deployment.parallel_mode d) ["single"; "dp"; "pp"; "tp"; "pd"].
Definition ck_instance (i : ModelInstance.t) : bool :=
  one_of (ModelInstance.state i) ["scheduled"; "starting"; "running"; "stopped"; "error"]
  && one_of (ModelInstance.desired_state i) ["running"; "stopped"]
  && one_of (ModelInstance.engine i) ["vllm"; "sglang"]
  && one_of (ModelInstance.profile i) ["latency"; "throughput"].

(** The predicate of the partial unique index on (worker_id, port): a row
    reserves its port while it is desired to run or still live. *)
Definition port_reserved (i : ModelInstance.t) : bool :=
  String.eqb (ModelInstance.desired_state i) "running" || in_live_states (ModelInstance.state i).

(** The indexed keys; a NULL in a key exempts its row. *)
Definition worker_port_key (i : ModelInstance.t) : option (uuid * Z) :=
  match ModelInstance.worker_id i, ModelInstance.port i with
  | Some w, Some p => if port_reserved i then Some (w, p) else None
  | _, _ => None
  end.
Definition group_rank_key (i : ModelInstance.t) : option (uuid * Z) :=
  match ModelInstance.parallel_group_id i, ModelInstance.node_rank i with
  | Some g, Some r => Some (g, r)
  | _, _ => None
  end.

Definition unique_by {A K} `{EqDecision K} (key : A → K) (l : list A) : bool :=
  bool_decide (NoDup (map key l)).
Definition unique_by_opt {A K} `{EqDecision K} (key : A → option K) (l : list A) : bool :=
  bool_decide (NoDup (omap key l)).

Definition unique_worker_port (l : list ModelInstance.t) : bool := unique_by_opt worker_port_key l.
Definition unique_group_rank (l : list ModelInstance.t) : bool := unique_by_opt group_rank_key l.

(** CHECK constraints, then UNIQUE constraints and primary keys, then foreign keys. *)
Definition checks_ok (d : Db.t) : bool :=
  forallb ck_user (Db.users d) && forallb ck_worker (Db.workers d)
  && forallb ck_gpu (Db.worker_gpus d) && forallb ck_model (Db.models d)
  && forallb ck_deployment (Db.deployments d) && forallb ck_instance (Db.instances d).
Definition uniques_ok (d : Db.t) : bool :=
  unique_by User.id (Db.users d) && unique_by User.username (Db.users d)
  && unique_by Cluster.id (Db.clusters d) && unique_by Cluster.name (Db.clusters d)
  && unique_by Worker.id (Db.workers d)
  && unique_by (λ w, (Worker.cluster_id w, Worker.hostname w)) (Db.workers d)
  && unique_by (λ w, (Worker.cluster_id w, Worker.name w)) (Db.workers d)
  && unique_by (λ g, (WorkerGPU.worker_id g, WorkerGPU.index g)) (Db.worker_gpus d)
  && unique_by Model.id (Db.models d) && unique_by Model.name (Db.models d)
  && unique_by ApiKey.id (Db.api_keys d) && unique_by ApiKey.key_hash (Db.api_keys d)
  && unique_by Deployment.id (Db.deployments d)
  && unique_by ModelInstance.id (Db.instances d)
  && unique_worker_port (Db.instances d) && unique_group_rank (Db.instances d)
  && unique_by (λ u, (UsageRecord.user_id u, UsageRecord.api_key_id u, UsageRecord.model_id u,
                      UsageRecord.period_start u)) (Db.usage_records d)
  && unique_by (λ u, (GpuUsageRecord.model_id u, GpuUsageRecord.cluster_id u,
                      GpuUsageRecord.period_start u)) (Db.gpu_usage_records d).
Definition has {A} (o : option A) : bool := match o with Some _ => true | None => false end.
Definition fks_ok (d : Db.t) : bool :=
  forallb (λ w, has (find_cluster d (Worker.cluster_id w))) (Db.workers d)
  && forallb (λ g, has (find_worker d (WorkerGPU.worker_id g))) (Db.worker_gpus d)
  && forallb (λ k, has (find_user d (ApiKey.user_id k))) (Db.api_keys d)
  && forallb (λ r, has (find_model d (Deployment.model_id r))
                   && has (find_cluster d (Deployment.cluster_id r))) (Db.deployments d)
  && forallb (λ i, has (find_model d (ModelInstance.model_id i))
                   && has (find_cluster d (ModelInstance.cluster_id i))
                   && has (find_deployment d (ModelInstance.deployment_id i))
                   && match ModelInstance.worker_id i with
                      | Some w => has (find_worker d w) | None => true end) (Db.instances d)
  && forallb (λ u, has (find_user d (UsageRecord.user_id u))
                   && has (find_api_key d (UsageRecord.api_key_id u))
                   && has (find_model d (UsageRecord.model_id u))) (Db.usage_records d)
  && forallb (λ u, has (find_model d (GpuUsageRecord.model_id u))
                   && has (find_cluster d (GpuUsageRecord.cluster_id u))) (Db.gpu_usage_records d).
(** What a commit of the model checks.  What the columns can hold is [fits_ok] below. *)
Definition constraints_ok (d : Db.t) : bool := checks_ok d && uniques_ok d && fks_ok d.

(** ** Column widths

    PostgreSQL, unlike the SQLite of development and tests, also refuses a text longer
    than its column or with a NUL and an integer over four bytes, with a [DataError]
    when the statement runs.  The sessions of the model do not: what is proved of a
    commit holds on PostgreSQL for rows that fit. *)
Definition opt_fits {A} (f : A → bool) (o : option A) : bool := match o with Some x => f x | None => true end.
Definition fits_user (u : User.t) : bool :=
  str_fits 64 (User.username u) && opt_fits (str_fits 255) (User.email u) && str_fits 128 (User.password_hash u)
  && str_fits 16 (User.role u) && opt_fits int32 (User.token_limit u) && opt_fits int32 (User.request_limit u).
Definition fits_cluster (c : Cluster.t) : bool :=
  str_fits 64 (Cluster.name c) && opt_fits storable (Cluster.description c).
Definition fits_worker (w : Worker.t) : bool :=
  str_fits 64 (Worker.name w) && str_fits 255 (Worker.hostname w) && str_fits 16 (Worker.state w)
  && opt_fits (str_fits 64) (Worker.version w) && opt_fits (str_fits 64) (Worker.os w)
  && opt_fits int32 (Worker.cpu_cores w) && opt_fits int32 (Worker.memory_mb w) && str_fits 64 (Worker.token_hash w)
  && opt_fits (str_fits 255) (Worker.address w).
Definition fits_gpu (g : WorkerGPU.t) : bool :=
  int32 (WorkerGPU.index g) && str_fits 32 (WorkerGPU.vendor g) && str_fits 128 (WorkerGPU.name g)
  && int32 (WorkerGPU.vram_mb g) && int32 (WorkerGPU.used_vram_mb g) && int32 (WorkerGPU.utilization_pct g)
  && opt_fits (str_fits 128) (WorkerGPU.gpu_uuid g) && opt_fits (str_fits 64) (WorkerGPU.driver_version g).
Definition fits_model (m : Model.t) : bool :=
  str_fits 255 (Model.name m) && str_fits 255 (Model.display_name m) && str_fits 32 (Model.category m)
  && opt_fits storable (Model.description m) && int32 (Model.vram_required_mb m) && opt_fits (str_fits 64) (Model.license m).
Definition fits_api_key (k : ApiKey.t) : bool := str_fits 64 (ApiKey.name k) && str_fits 64 (ApiKey.key_hash k).
Definition fits_deployment (r : Deployment.t) : bool :=
  str_fits 16 (Deployment.engine r) && str_fits 16 (Deployment.profile r) && int32 (Deployment.min_replicas r)
  && int32 (Deployment.max_replicas r) && int32 (Deployment.nodes_per_replica r)
  && opt_fits (str_fits 16) (Deployment.parallel_mode r).
Definition fits_instance (i : ModelInstance.t) : bool :=
  str_fits 16 (ModelInstance.engine i) && str_fits 16 (ModelInstance.profile i) && str_fits 16 (ModelInstance.state i)
  && str_fits 16 (ModelInstance.desired_state i) && int32 (ModelInstance.generation i)
  && opt_fits int32 (ModelInstance.port i) && opt_fits storable (ModelInstance.error_detail i)
  && opt_fits storable (ModelInstance.log_tail i) && opt_fits int32 (ModelInstance.node_rank i)
  && opt_fits int32 (ModelInstance.world_size i) && opt_fits (str_fits 16) (ModelInstance.parallel_mode i)
  && opt_fits (str_fits 255) (ModelInstance.rendezvous i).
Definition fits_usage (u : UsageRecord.t) : bool :=
  int32 (UsageRecord.requests u) && int32 (UsageRecord.tokens_in u) && int32 (UsageRecord.tokens_out u)
  && int32 (UsageRecord.latency_ms_sum u).
Definition fits_ok (d : Db.t) : bool :=
  forallb fits_user (Db.users d) && forallb fits_cluster (Db.clusters d) && forallb fits_worker (Db.workers d)
  && forallb fits_gpu (Db.worker_gpus d) && forallb fits_model (Db.models d) && forallb fits_api_key (Db.api_keys d)
  && forallb fits_deployment (Db.deployments d) && forallb fits_instance (Db.instances d)
  && forallb fits_usage (Db.usage_records d).
Lemma fits_set_workers ws d : fits_ok d = true → forallb fits_worker ws = true → fits_ok (Db.set_workers ws d) = true.
Proof. unfold fits_ok. rewrite !andb_true_iff. tauto. Qed.
Lemma fits_workers d : fits_ok d = true → forallb fits_worker (Db.workers d) = true.
Proof. unfold fits_ok. rewrite !andb_true_iff. tauto. Qed.

(** ** The session

    [view] is what the handler's own queries see (the committed rows plus its
    uncommitted changes, autoflushed), [durable] what the database holds once
    the session is dropped.  A commit that violates a CHECK, UNIQUE or foreign key raises
    [IntegrityError] and leaves a session that refuses every statement until it
    is rolled back. *)
Module Session.
Record t := mk { view : Db.t; durable : Db.t; inactive : bool }.
Definition start (d : Db.t) : t := mk d d false.
End Session.

Definition DbM (A : Type) : Type := M Session.t A.

(** A SELECT (or [db.get]/[db.refresh]). *)
Definition query {A} (f : Db.t → A) : DbM A := λ s,
  if Session.inactive s then (Raise (RuntimeError "PendingRollbackError"), s)
  else (Ok (f (Session.view s)), s).
(** [db.add], an UPDATE/DELETE, or an assignment to a loaded row. *)
Definition execute (f : Db.t → Db.t) : DbM unit := λ s,
  if Session.inactive s then (Raise (RuntimeError "PendingRollbackError"), s)
  else (Ok tt, Session.mk (f (Session.view s)) (Session.durable s) false).
Definition commit : DbM unit := λ s,
  if Session.inactive s then (Raise (RuntimeError "PendingRollbackError"), s)
  else if constraints_ok (Session.view s)
       then (Ok tt, Session.mk (Session.view s) (Session.view s) false)
       else (Raise IntegrityError, Session.mk (Session.durable s) (Session.durable s) true).
Definition rollback : DbM unit := λ s,
  (Ok tt, Session.mk (Session.durable s) (Session.durable s) false).

(** A request: a fresh session on the database, dropped at the end. *)
Definition run_session {A} (m : DbM A) (d : Db.t) : result A * Db.t :=
  let '(r, s) := m (Session.start d) in (r, Session.durable s).

(** ** Consequences of the constraints *)
Lemma unique_by_NoDup {A K} `{EqDecision K} (key : A → K) l :
  unique_by key l = true ↔ NoDup (map key l).
Proof. apply bool_decide_eq_true. Qed.

Lemma unique_by_opt_NoDup {A K} `{EqDecision K} (key : A → option K) l :
  unique_by_opt key l = true ↔ NoDup (omap key l).
Proof. apply bool_decide_eq_true. Qed.

Ltac split_constraints H :=
  unfold constraints_ok, checks_ok, uniques_ok, fks_ok in H;
  repeat rewrite andb_true_iff in H; destruct_and! H;
  repeat match goal with
  | H : unique_by _ _ = true |- _ => apply unique_by_NoDup in H
  | H : unique_by_opt _ _ = true |- _ => apply unique_by_opt_NoDup in H
  end.

Lemma constraints_worker_ids d : constraints_ok d = true → NoDup (map Worker.id (Db.workers d)).
Proof. intros H. by split_constraints H. Qed.
Lemma constraints_gpus d :
  constraints_ok d = true →
  NoDup (map (λ g, (WorkerGPU.worker_id g, WorkerGPU.index g)) (Db.worker_gpus d)).
Proof. intros H. by split_constraints H. Qed.
Lemma constraints_instance_ids d :
  constraints_ok d = true → NoDup (map ModelInstance.id (Db.instances d)).
Proof. intros H. by split_constraints H. Qed.

Lemma uuid_eqb_true a b : uuid_eqb a b = true ↔ a = b.
Proof. apply bool_decide_eq_true. Qed.

Lemma elem_of_gpus_of d w g :
  g ∈ gpus_of d w ↔ g ∈ Db.worker_gpus d ∧ WorkerGPU.worker_id g = w.
Proof. unfold gpus_of. rewrite sorted_by_elem, elem_of_where. by rewrite N.eqb_eq. Qed.

Lemma elem_of_instances_of d i x :
  x ∈ instances_of d i ↔ x ∈ Db.instances d ∧ ModelInstance.deployment_id x = i.
Proof. unfold instances_of. rewrite sorted_by_elem, elem_of_where. by rewrite N.eqb_eq. Qed.

(** On a worker, an index names one GPU. *)
Lemma gpus_of_index_inj d w g1 g2 :
  constraints_ok d = true → g1 ∈ gpus_of d w → g2 ∈ gpus_of d w →
  WorkerGPU.index g1 = WorkerGPU.index g2 → g1 = g2.
Proof.
  intros Hd (H1 & Hw1)%elem_of_gpus_of (H2 & Hw2)%elem_of_gpus_of Hi.
  eapply (NoDup_map_inj_key (λ g, (WorkerGPU.worker_id g, WorkerGPU.index g)));
    [by apply constraints_gpus|done|done|]. by f_equal; [congruence|].
Qed.
#[export] Hint Resolve constraints_worker_ids constraints_gpus constraints_instance_ids : inferna.

(** ** Inversion of the session operations *)
Lemma query_Ok {A} (f : Db.t → A) s a s' :
  query f s = (Ok a, s') ↔ Session.inactive s = false ∧ s' = s ∧ a = f (Session.view s).
Proof. unfold query. destruct (Session.inactive s); naive_solver. Qed.
Lemma execute_Ok f s u s' :
  execute f s = (Ok u, s') ↔
  Session.inactive s = false ∧ s' = Session.mk (f (Session.view s)) (Session.durable s) false.
Proof. unfold execute. destruct (Session.inactive s), u; naive_solver. Qed.
Lemma commit_Ok s u s' :
  commit s = (Ok u, s') ↔
  Session.inactive s = false ∧ constraints_ok (Session.view s) = true ∧
  s' = Session.mk (Session.view s) (Session.view s) false.
Proof. unfold commit. destruct (Session.inactive s), u, (constraints_ok _); naive_solver. Qed.

(** Only a commit changes what the database holds. *)
Definition keeps_durable {A} (m : DbM A) : Prop := ∀ s, Session.durable (m s).2 = Session.durable s.
Lemma keeps_query {A} (f : Db.t → A) : keeps_durable (query f).
Proof. intros s. unfold query. by case_match. Qed.
Lemma keeps_execute f : keeps_durable (execute f).
Proof. intros s. unfold execute. by case_match. Qed.
Lemma keeps_lift {A} (r : result A) : keeps_durable (lift_result r).
Proof. done. Qed.
Lemma keeps_raise {A} e : keeps_durable (raise (A:=A) e).
Proof. done. Qed.
Lemma keeps_ret {A} (a : A) : keeps_durable (mret a).
Proof. done. Qed.
Lemma keeps_bind {A B} (m : DbM A) (f : A → DbM B) :
  keeps_durable m → (∀ a, keeps_durable (f a)) → keeps_durable (m ≫= f).
Proof.
  intros Hm Hf s. unfold mbind, M_bind. specialize (Hm s). destruct (m s) as [[a|e] s1]; simpl in *; [|done].
  by rewrite Hf.
Qed.
Lemma keeps_foldM {A B} (f : B → A → DbM B) l b :
  (∀ b x, keeps_durable (f b x)) → keeps_durable (foldM f b l).
Proof. intros Hf. revert b. induction l; intros; [apply keeps_ret|]. by apply keeps_bind. Qed.
#[export] Hint Resolve @keeps_query @keeps_execute @keeps_lift @keeps_raise @keeps_ret : inferna.
#[export] Hint Resolve @keeps_bind @keeps_foldM : inferna.

(** A handler is atomic when, if it raises, the database is what it was: so is
    one whose last step is its only commit. *)
Definition atomic {A} (m : DbM A) : Prop := ∀ s e s', m s = (Raise e, s') → Session.durable s' = Session.durable s.
Lemma atomic_keeps {A} (m : DbM A) : keeps_durable m → atomic m.
Proof. intros Hm s e s' H. specialize (Hm s). by rewrite H in Hm. Qed.
Lemma atomic_bind {A B} (m : DbM A) (f : A → DbM B) :
  keeps_durable m → (∀ a, atomic (f a)) → atomic (m ≫= f).
Proof.
  intros Hm Hf s e s' H. specialize (Hm s). unfold mbind, M_bind in H.
  destruct (m s) as [[a|e'] s1]; simpl in Hm; [rewrite <-Hm; by eapply Hf|by simplify_eq].
Qed.
Lemma atomic_commit : atomic commit.
Proof. intros s e s'. unfold commit. repeat case_match; intros; by simplify_eq. Qed.
#[export] Hint Resolve @atomic_keeps @atomic_bind atomic_commit : inferna.

(** ** Replacing the workers table *)
Lemma find_by_has {A} (p : A → bool) l : has (find_by p l) = true ↔ ∃ x, x ∈ l ∧ p x = true.
Proof.
  rewrite <-find_by_is_Some. destruct (find_by p l) as [x|]; by split.
Qed.

Lemma constraints_set_workers d ws :
  constraints_ok d = true → forallb ck_worker ws = true → NoDup (map Worker.id ws) →
  NoDup (map (λ w, (Worker.cluster_id w, Worker.hostname w)) ws) →
  NoDup (map (λ w, (Worker.cluster_id w, Worker.name w)) ws) →
  (∀ w, w ∈ ws → has (find_cluster d (Worker.cluster_id w)) = true) →
  (∀ w, w ∈ Db.workers d → Worker.id w ∈ map Worker.id ws) →
  constraints_ok (Db.set_workers ws d) = true.
Proof.
  intros Hd H1 H2 H3 H4 H5 H6.
  assert (∀ i, has (find_worker d i) = true → has (find_worker (Db.set_workers ws d) i) = true) as Hfind.
  { intros i. unfold find_worker. rewrite !find_by_has. intros (w & Hw & <-%N.eqb_eq).
    apply H6, list_elem_of_fmap in Hw as (w' & Hw & Hin). exists w'. split; [done|]. apply N.eqb_eq. by symmetry. }
  unfold constraints_ok, checks_ok, uniques_ok, fks_ok in Hd |- *.
  repeat rewrite andb_true_iff in Hd. destruct_and! Hd.
  repeat (apply andb_true_iff; split); try assumption; try (by apply unique_by_NoDup).
  - apply forallb_forall. intros w Hw%list_elem_of_In. by apply H5.
  - apply forallb_forall. intros g Hg. apply Hfind.
    match goal with H : forallb (λ g, has (find_worker d _)) _ = true |- _ => by apply (proj1 (forallb_forall _ _) H) end.
  - apply forallb_forall. intros i Hi.
    match goal with H : forallb _ (Db.instances d) = true, Hck : forallb ck_instance _ = true |- _ =>
      first [constr_eq H Hck; fail 1|pose proof (proj1 (forallb_forall _ _) H i Hi) as Hfk] end.
    simpl in Hfk. repeat rewrite andb_true_iff in Hfk |- *. destruct_and! Hfk.
    split_and!; try assumption. destruct (ModelInstance.worker_id i); [by apply Hfind|done].
Qed.

(** Changing a key of one row keeps the keys distinct when no other row has the
    new key. *)
Lemma NoDup_update_key {A K} (id : A → uuid) (key : A → K) (i : uuid) (f : A → A) l :
  NoDup (map id l) → NoDup (map key l) →
  (∀ x y, x ∈ l → y ∈ l → id x = i → id y ≠ i → key (f x) ≠ key y) →
  NoDup (map key (update_where (λ x, (id x =? i)%N) f l)).
Proof.
  intros Hid Hkey Hne. unfold update_where. rewrite map_map.
  assert (NoDup l) as Hl by (by eapply NoDup_fmap_1).
  eapply NoDup_fmap_2_strong; [|exact Hl]. intros x y Hx Hy. simpl.
  destruct (N.eqb_spec (id x) i) as [Ex|Ex], (N.eqb_spec (id y) i) as [Ey|Ey]; intros E.
  - apply (NoDup_map_inj_key id l); [done..|congruence].
  - by destruct (Hne x y).
  - by destruct (Hne y x Hy Hx Ey Ex).
  - by apply (NoDup_map_inj_key key l).
Qed.

Lemma update_where_twice_same {A} (p : A → bool) f g l :
  (∀ x, p x = true → p (f x) = true) →
  update_where p g (update_where p f l) = update_where p (λ x, g (f x)) l.
Proof.
  intros Hf. unfold update_where. rewrite map_map. apply map_ext. intros x.
  destruct (p x) eqn:E; [by rewrite (Hf _ E)|by rewrite E].
Qed.

(** ** Running a handler step by step in an active session *)
Lemma bind_execute {A} f (k : unit → DbM A) d dur :
  (execute f ≫= k) (Session.mk d dur false) = k tt (Session.mk (f d) dur false).
Proof. done. Qed.
Lemma bind_query {A B} (f : Db.t → B) (k : B → DbM A) d dur :
  (query f ≫= k) (Session.mk d dur false) = k (f d) (Session.mk d dur false).
Proof. done. Qed.
Lemma bind_ret {S A B} (a : A) (k : A → M S B) (s : S) : (mret a ≫= k) s = k a s.
Proof. done. Qed.
Lemma bind_Ok {S A B} (m : M S A) (k : A → M S B) s a s' : m s = (Ok a, s') → (m ≫= k) s = k a s'.
Proof. intros H. unfold mbind, M_bind. by rewrite H. Qed.

Lemma bind_commit {A} (k : unit → DbM A) d dur :
  constraints_ok d = true → (commit ≫= k) (Session.mk d dur false) = k tt (Session.mk d d false).
Proof. intros H. apply bind_Ok. apply commit_Ok. by split_and!. Qed.

(** A small cluster the witnesses and examples run on: worker 1 has 24 and 16 GB
    GPUs, worker 2 one 24 GB GPU; an 8 GB model already runs on GPU 0 of worker 1. *)
Module Sample.
Definition model : Model.t := Model.mk 7 "org/model" "Model" "llm" None 8000 false None false ["vllm"] 0.
Definition worker (i : uuid) (name : string) (addr : option string) : Worker.t :=
  Worker.mk i 1 name name "connected" (Some "0.2.0") None None None "" addr (Some 0) 0.
Definition gpu (w : uuid) (i vram : Z) : WorkerGPU.t :=
  WorkerGPU.mk w i "nvidia" "GPU" vram 0 0 None None.
Definition deployment : Deployment.t := Deployment.mk 50 7 1 "vllm" "latency" 1 4 1 (Some "single") 0 None.
Definition instance (i : uuid) (state desired : string) (w : uuid) (g port : Z) : ModelInstance.t :=
  ModelInstance.mk i 7 1 (Some w) 50 "vllm" "latency" [g] state desired 1 (Some port) None None
    None None None None None (Z.of_N i).
Definition with_instances (l : list ModelInstance.t) : Db.t :=
  Db.mk [] [] [Cluster.mk 1 "default" None 0]
    [worker 2 "w2" None; worker 1 "w1" (Some "http://10.0.0.1")]
    [gpu 1 0 24000; gpu 1 1 16000; gpu 2 0 24000] [model] [deployment] l [] [].
Definition db : Db.t := with_instances [instance 100 "running" "running" 1 0 8010].
End Sample.

(** ** Updating instances *)
Lemma NoDup_omap_update {A K} (key : A → option K) (p : A → bool) f l :
  (∀ x, p x = true → key (f x) = key x ∨ key (f x) = None) →
  NoDup (omap key l) → NoDup (omap key (update_where p f l)).
Proof.
  intros Hf. assert (∀ l k, k ∈ omap key (update_where p f l) → k ∈ omap key l) as Hsub.
  { intros l' k (y & (x & Hx & ->)%elem_of_update_where & Hk)%list_elem_of_omap. apply list_elem_of_omap.
    exists x. split; [done|]. destruct (p x) eqn:E; [|done]. destruct (Hf x E) as [<-|Hn]; [done|congruence]. }
  unfold update_where in *. induction l as [|x l IH]; [done|]. cbn [map omap list_omap]. intros H.
  assert (NoDup (omap key (map (λ x, if p x then f x else x) l))) as Hl.
  { apply IH. destruct (key x); [by apply NoDup_cons in H as [_ ?]|done]. }
  assert (∀ k, key (if p x then f x else x) = Some k → key x = Some k) as Hx.
  { destruct (p x) eqn:E; [|done]. intros k Hk. destruct (Hf x E) as [<-|Hn]; [done|congruence]. }
  destruct (key (if p x then f x else x)) as [k|]; [|done].
  rewrite (Hx k eq_refl) in H. apply NoDup_cons in H as [Hn _]. apply NoDup_cons. split; [|done].
  intros Hin. apply Hn. by apply (Hsub l).
Qed.

(** The columns an instance update must keep for the constraints to carry over:
    identity and references; the reserved port may only be released. *)
Definition same_refs (i j : ModelInstance.t) : Prop :=
  ModelInstance.id j = ModelInstance.id i ∧ ModelInstance.model_id j = ModelInstance.model_id i ∧
  ModelInstance.cluster_id j = ModelInstance.cluster_id i ∧ ModelInstance.deployment_id j = ModelInstance.deployment_id i ∧
  ModelInstance.worker_id j = ModelInstance.worker_id i ∧ group_rank_key j = group_rank_key i ∧
  (worker_port_key j = worker_port_key i ∨ worker_port_key j = None).

Lemma constraints_update_instances d (p : ModelInstance.t → bool) f :
  constraints_ok d = true →
  (∀ i, p i = true → ck_instance i = true → ck_instance (f i) = true ∧ same_refs i (f i)) →
  constraints_ok (Db.set_instances (update_where p f (Db.instances d)) d) = true.
Proof.
  intros Hd Hf.
  assert (∀ i, i ∈ Db.instances d → ck_instance i = true) as Hck.
  { intros i Hi%list_elem_of_In. pose proof Hd as H. split_constraints H.
    match goal with H : forallb ck_instance _ = true |- _ => by apply (proj1 (forallb_forall _ _) H) end. }
  assert (∀ i, i ∈ Db.instances d → p i = true → same_refs i (f i)) as Hrefs by (intros; by apply Hf, Hck).
  set (l := Db.instances d) in *.
  unfold constraints_ok, checks_ok, uniques_ok, fks_ok in Hd |- *.
  repeat rewrite andb_true_iff in Hd. destruct_and! Hd.
  repeat (apply andb_true_iff; split); try assumption; cbn [Db.instances Db.set_instances].
  - apply forallb_forall. intros j Hj%list_elem_of_In. apply elem_of_update_where in Hj as (i & Hi & ->).
    destruct (p i) eqn:E; [|by apply Hck]. by apply Hf; [|apply Hck].
  - apply unique_by_NoDup. match goal with H : unique_by ModelInstance.id _ = true |- _ => apply unique_by_NoDup in H end.
    enough (map ModelInstance.id (update_where p f l) = map ModelInstance.id l) as -> by done.
    unfold update_where. rewrite map_map. apply map_ext_in. intros i Hi%list_elem_of_In.
    destruct (p i) eqn:E; [|done]. by apply Hrefs.
  - unfold unique_worker_port in *. match goal with H : unique_by_opt worker_port_key _ = true |- _ => apply unique_by_opt_NoDup in H end.
    rewrite unique_by_opt_NoDup,  (update_where_guard p f l). apply NoDup_omap_update; [|done].
    intros i [Ep Hi%bool_decide_eq_true]%andb_true_iff. by apply Hrefs.
  - unfold unique_group_rank in *. match goal with H : unique_by_opt group_rank_key _ = true |- _ => apply unique_by_opt_NoDup in H end.
    rewrite unique_by_opt_NoDup,  (update_where_guard p f l). apply NoDup_omap_update; [|done].
    intros i [Ep Hi%bool_decide_eq_true]%andb_true_iff. left. by apply Hrefs.
  - apply forallb_forall. intros j Hj%list_elem_of_In. apply elem_of_update_where in Hj as (i & Hi & ->).
    match goal with H : forallb _ (Db.instances d) = true, Hc : forallb ck_instance _ = true |- _ =>
      first [constr_eq H Hc; fail 1|pose proof (proj1 (forallb_forall _ _) H i (proj1 (list_elem_of_In _ _) Hi)) as Hfk] end.
    destruct (p i) eqn:E; [|done]. destruct (Hrefs i Hi E) as (_ & Hm & Hc & Hdp & Hw & _).
    simpl. by rewrite Hm, Hc, Hdp, Hw.
Qed.
