(* ===== verification/Config.v ===== *)
(** * Settings ([server/inferna_server/config.py])

    The settings record with its defaults, the two start-up validators and the
    derived properties.  Floats are exact rationals. *)

From Stdlib Require Import QArith.
From S2P Require Import Prelude PyStr.
Local Open Scope Z_scope.

Module Settings.
Record t := mk {
  environment : string; database_url : string; jwt_secret : string; auth_enabled : bool;
  admin_password : string; registration_token : string; grpc_port : Z;
  grpc_tls_cert : string; grpc_tls_key : string; grpc_tls_ca : string;
  grpc_tls_require_client_cert : bool; cors_origins : string;
  instance_port_range_start : Z; instance_port_range_end : Z;
  autoscale_enabled : bool; autoscale_interval_seconds : Q; autoscale_cooldown_seconds : Q;
  autoscale_target_ttft_ms : Q; autoscale_target_queue : Q; autoscale_scale_down_ratio : Q;
  rendezvous_port_range_start : Z; rendezvous_port_range_end : Z;
  gateway_connect_timeout : Q; gateway_read_timeout : Q; gateway_enabled : bool;
  gateway_inject_stream_usage : bool; gateway_upstream_allowlist : string; log_level : string }.

Definition default : t := {|
  environment := "development"; database_url := "sqlite+aiosqlite:///./inferna.db";
  jwt_secret := "inferna-dev-secret"; auth_enabled := true; admin_password := "inferna";
  registration_token := "inferna-registration-token"; grpc_port := 9091;
  grpc_tls_cert := ""; grpc_tls_key := ""; grpc_tls_ca := "";
  grpc_tls_require_client_cert := false;
  cors_origins := "http://localhost:5173,http://localhost:8080";
  instance_port_range_start := 8010; instance_port_range_end := 8100;
  autoscale_enabled := false; autoscale_interval_seconds := 30; autoscale_cooldown_seconds := 300;
  autoscale_target_ttft_ms := 1000; autoscale_target_queue := 4;
  autoscale_scale_down_ratio := 1 # 2;
  rendezvous_port_range_start := 8110; rendezvous_port_range_end := 8199;
  gateway_connect_timeout := 5; gateway_read_timeout := 300; gateway_enabled := true;
  gateway_inject_stream_usage := true; gateway_upstream_allowlist := ""; log_level := "info" |}.
Definition eta (r : t) : t :=
  mk (environment r) (database_url r) (jwt_secret r) (auth_enabled r)
     (admin_password r) (registration_token r) (grpc_port r) (grpc_tls_cert r)
     (grpc_tls_key r) (grpc_tls_ca r) (grpc_tls_require_client_cert r) (cors_origins r)
     (instance_port_range_start r) (instance_port_range_end r) (autoscale_enabled r) (autoscale_interval_seconds r)
     (autoscale_cooldown_seconds r) (autoscale_target_ttft_ms r) (autoscale_target_queue r) (autoscale_scale_down_ratio r)
     (rendezvous_port_range_start r) (rendezvous_port_range_end r) (gateway_connect_timeout r) (gateway_read_timeout r)
     (gateway_enabled r) (gateway_inject_stream_usage r) (gateway_upstream_allowlist r) (log_level r).
Definition set_environment (v : string) (r : t) : t := ltac:(set_field eta environment v r).
Definition set_jwt_secret (v : string) (r : t) : t := ltac:(set_field eta jwt_secret v r).
Definition set_admin_password (v : string) (r : t) : t := ltac:(set_field eta admin_password v r).
Definition set_registration_token (v : string) (r : t) : t := ltac:(set_field eta registration_token v r).
Definition set_gateway_upstream_allowlist (v : string) (r : t) : t := ltac:(set_field eta gateway_upstream_allowlist v r).
(** Production settings with secrets of their own. *)
Definition production : t :=
  set_environment "production" (set_jwt_secret "jwt-1" (set_admin_password "admin-1"
    (set_registration_token "registration-1" default))).
End Settings.

Definition nonempty (s : string) : bool := negb (String.eqb s "").

(** A certificate without its key is a start-up error. *)
Definition _check_tls_material (s : Settings.t) : result Settings.t :=
  if xorb (nonempty (Settings.grpc_tls_cert s)) (nonempty (Settings.grpc_tls_key s)) then
    Raise (ValueError "INFERNA_GRPC_TLS_CERT and INFERNA_GRPC_TLS_KEY must be set together")
  else if Settings.grpc_tls_require_client_cert s && negb (nonempty (Settings.grpc_tls_ca s)) then
    Raise (ValueError "INFERNA_GRPC_TLS_REQUIRE_CLIENT_CERT needs INFERNA_GRPC_TLS_CA")
  else Ok s.

Definition production_problems (s : Settings.t) : list string :=
  (if String.eqb (Settings.jwt_secret s) "inferna-dev-secret" then ["INFERNA_JWT_SECRET"] else [])
  ++ (if String.eqb (Settings.admin_password s) "inferna" then ["INFERNA_ADMIN_PASSWORD"] else [])
  ++ (if String.eqb (Settings.registration_token s) "inferna-registration-token"
      then ["INFERNA_REGISTRATION_TOKEN"] else []).

Definition _check_production_secrets (s : Settings.t) : result Settings.t :=
  if String.eqb (Settings.environment s) "production" then
    match production_problems s with
    | [] => Ok s
    | problems =>
        Raise (ValueError ("production mode requires non-default values for: "
                           +:+ join ", " problems))
    end
  else Ok s.

(** [Settings()]: the validators run in declaration order. *)
Definition validate (s : Settings.t) : result Settings.t :=
  s ← _check_tls_material s; _check_production_secrets s.

Definition comma_list (s : string) : list string :=
  List.filter nonempty (map strip (split "," s)).
Definition cors_origin_list (s : Settings.t) : list string := comma_list (Settings.cors_origins s).
Definition gateway_upstream_allowlist_entries (s : Settings.t) : list string :=
  comma_list (Settings.gateway_upstream_allowlist s).

(** [range(start, end + 1)] *)
Definition py_range (first last : Z) : list Z := seqZ first (last + 1 - first).
Definition instance_port_range (s : Settings.t) : list Z :=
  py_range (Settings.instance_port_range_start s) (Settings.instance_port_range_end s).
Definition rendezvous_port_range (s : Settings.t) : list Z :=
  py_range (Settings.rendezvous_port_range_start s) (Settings.rendezvous_port_range_end s).
Definition grpc_tls_enabled (s : Settings.t) : bool :=
  nonempty (Settings.grpc_tls_cert s) && nonempty (Settings.grpc_tls_key s).

(** ** Properties *)
Lemma elem_of_py_range p first last : p ∈ py_range first last ↔ first <= p <= last.
Proof. unfold py_range. rewrite elem_of_seqZ. lia. Qed.

(** Every entry of a comma list is non-empty and carries no surrounding blanks
    the splitting left. *)
Lemma comma_list_nonempty s e : e ∈ comma_list s → e ≠ "".
Proof.
  unfold comma_list. rewrite list_elem_of_In, filter_In. intros [_ H].
  unfold nonempty in H. intros ->. done.
Qed.

(** Settings that validate carry a key with their certificate, and a CA where a
    client certificate is required. *)
Lemma validate_tls s s' :
  validate s = Ok s' →
  (Settings.grpc_tls_cert s = "" ↔ Settings.grpc_tls_key s = "") ∧
  (Settings.grpc_tls_require_client_cert s = true → Settings.grpc_tls_ca s ≠ "").
Proof.
  unfold validate. intros (s1 & H & _)%result_bind_Ok. revert H. unfold _check_tls_material, nonempty.
  destruct (String.eqb_spec (Settings.grpc_tls_cert s) ""), (String.eqb_spec (Settings.grpc_tls_key s) ""),
    (Settings.grpc_tls_require_client_cert s), (String.eqb_spec (Settings.grpc_tls_ca s) ""); naive_solver.
Qed.

(** Settings that validate in production hold no default secret, and their TLS
    material is consistent: the key comes with the certificate and a required
    client certificate comes with a CA. *)
Theorem validated_production_settings s s' :
  validate s = Ok s' → Settings.environment s = "production" →
  s' = s ∧ Settings.jwt_secret s ≠ "inferna-dev-secret" ∧ Settings.admin_password s ≠ "inferna" ∧
  Settings.registration_token s ≠ "inferna-registration-token" ∧
  (Settings.grpc_tls_cert s = "" ↔ Settings.grpc_tls_key s = "") ∧
  (Settings.grpc_tls_require_client_cert s = true → Settings.grpc_tls_ca s ≠ "").
Proof.
  unfold validate, _check_tls_material, _check_production_secrets, production_problems, nonempty.
  intros H He.
  destruct (String.eqb_spec (Settings.grpc_tls_cert s) ""),
    (String.eqb_spec (Settings.grpc_tls_key s) ""),
    (Settings.grpc_tls_require_client_cert s), (String.eqb_spec (Settings.grpc_tls_ca s) "");
    simpl in H; rewrite ?He in H; simpl in H; try done;
    destruct (String.eqb_spec (Settings.jwt_secret s) "inferna-dev-secret"),
      (String.eqb_spec (Settings.admin_password s) "inferna"),
      (String.eqb_spec (Settings.registration_token s) "inferna-registration-token");
    simpl in H; simplify_eq; naive_solver.
Qed.

Lemma validated_production_settings_witness :
  Settings.jwt_secret Settings.production ≠ "inferna-dev-secret".
Proof.
  apply (validated_production_settings Settings.production Settings.production); reflexivity.
Defined.
