(* ===== verification/UpstreamGuard.v ===== *)
(** * SSRF guard ([server/inferna_server/services/upstream_guard.py])

    Normalisation of a worker's registered address, and the policy that decides
    whether an upstream may be dialled, returning the address to pin.  Name
    resolution ([getaddrinfo]) is a parameter: any function from host names to
    the address texts it answers, [None] for an unresolvable name. *)

From S2P Require Import Prelude PyStr Uuid Ipaddr Config.
Local Open Scope Z_scope.

(** [_BLOCKED_NETWORKS] *)
Definition _BLOCKED_NETWORKS : list network :=
  [make_network V4 (127 * 2 ^ 24) 8;            (* 127.0.0.0/8 *)
   make_network V6 1 128;                       (* ::1/128 *)
   make_network V4 (169 * 2 ^ 24 + 254 * 2 ^ 16) 16;  (* 169.254.0.0/16 *)
   make_network V6 (0xfe80 * 2 ^ 112) 10;       (* fe80::/10 *)
   make_network V4 (10 * 2 ^ 24) 8;             (* 10.0.0.0/8 *)
   make_network V4 (172 * 2 ^ 24 + 16 * 2 ^ 16) 12;   (* 172.16.0.0/12 *)
   make_network V4 (192 * 2 ^ 24 + 168 * 2 ^ 16) 16;  (* 192.168.0.0/16 *)
   make_network V6 (0xfc00 * 2 ^ 112) 7;        (* fc00::/7 *)
   make_network V4 0 8;                         (* 0.0.0.0/8 *)
   make_network V6 0 128;                       (* ::/128 *)
   make_network V4 (2 ^ 32 - 1) 32;             (* 255.255.255.255/32 *)
   make_network V4 (224 * 2 ^ 24) 4;            (* 224.0.0.0/4 *)
   make_network V6 (0xff00 * 2 ^ 112) 8].       (* ff00::/8 *)

Definition value_error {A} (m : string) : result A := Raise (ValueError m).
(** [f"{s!r}"] of text without quotes or backslashes. *)
Definition quoted (s : string) : string := "'" +:+ s +:+ "'".

Definition normalize_worker_address (raw : string) : result string :=
  let s := strip raw in
  if String.eqb s "" then Ok ""
  else
    let s := if contains "://" s then s else "http://" +:+ s in
    match urlsplit s with
    | None => value_error ("invalid worker address " +:+ quoted raw)
    | Some parsed =>
        let scheme := lower (SplitResult.scheme parsed) in
        if negb (String.eqb scheme "http" || String.eqb scheme "https") then
          value_error ("unsupported scheme " +:+ quoted scheme +:+ "; only http and https are allowed")
        else match hostname_of parsed with
        | None => value_error "missing hostname in worker address"
        | Some hostname =>
            if truthy (userinfo parsed).1 || truthy (userinfo parsed).2 then
              value_error "username/password not allowed in worker address"
            else if negb (String.eqb (SplitResult.path parsed) "" || String.eqb (SplitResult.path parsed) "/") then
              value_error ("path not allowed in worker address: " +:+ quoted (SplitResult.path parsed))
            else if nonempty (SplitResult.query parsed) then
              value_error "query not allowed in worker address"
            else if nonempty (SplitResult.fragment parsed) then
              value_error "fragment not allowed in worker address"
            else
              port ← port_of parsed;
              match port with
              | Some _ => value_error "port not allowed in worker address; server allocates instance ports"
              | None => Ok (scheme +:+ "://" +:+ hostname)
              end
        end
    end.

Definition _unwrap_ipv4_mapped (a : ip) : ip := default a (ipv4_mapped a).
Definition _ip_is_blocked (a : ip) : bool :=
  existsb (in_network (_unwrap_ipv4_mapped a)) _BLOCKED_NETWORKS.

(** The last resort of [_extract_host], for texts [urlsplit] finds no host in. *)
Definition bare_candidate (raw : string) : string :=
  strip (match split1_str "://" raw with
         | Some (_, rest) => before "#" (before "?" (before "/" rest))
         | None => raw end).
Definition bracketed_ip (candidate : string) : option string :=
  if startswith "[" candidate then
    match split1 "]" (drop_str 1 candidate) with
    | Some (ip_part, _) => match ip_address ip_part with Some _ => Some ip_part | None => None end
    | None => None
    end
  else None.
Definition _extract_host (target : string) : result string :=
  let raw := strip target in
  if String.eqb raw "" then value_error "empty upstream target"
  else
    match urlsplit (if contains "://" raw then raw else "http://" +:+ raw) with
    | None => value_error ("invalid upstream target " +:+ quoted target)
    | Some parsed =>
        match hostname_of parsed with
        | Some host => Ok host
        | None =>
            let candidate := bare_candidate raw in
            match bracketed_ip candidate with
            | Some ip_part => Ok ip_part
            | None =>
                match ip_address candidate with
                | Some _ => Ok candidate
                | None =>
                    let '(host_part, _, port_part) := rpartition ":" candidate in
                    if (count_char ":" candidate =? 1) && isdigit port_part then Ok host_part
                    else value_error ("invalid upstream target " +:+ quoted target +:+ ": missing hostname")
                end
            end
        end
    end.

(** One entry of the allowlist against an address. *)
Definition entry_matches_ip (a : ip) (entry : string) : bool :=
  if contains_char "/" entry then
    match ip_network entry with Some net => in_network a net | None => false end
  else match ip_address entry with Some lit => bool_decide (a = lit) | None => false end.
Definition _ip_allowed_by_allowlist (a : ip) (allowlist : list string) : bool :=
  existsb (entry_matches_ip a) allowlist.

(** An entry that is a host name, compared without case and trailing dots. *)
Definition entry_is_host (host_norm entry : string) : bool :=
  negb (contains_char "/" entry)
  && match ip_address entry with Some _ => false | None => true end
  && String.eqb host_norm (rstrip_char "." (lower entry)).
Definition hostname_in_allowlist (host : string) (s : Settings.t) : bool :=
  existsb (entry_is_host (rstrip_char "." (lower host))) (gateway_upstream_allowlist_entries s).

Definition is_ipv4 (a : ip) : bool := match a with IPv4 _ => true | IPv6 _ _ => false end.
(** [_prefer_ipv4(ips)] of a non-empty list. *)
Definition _prefer_ipv4 (first : ip) (rest : list ip) : ip := default first (find_by is_ipv4 (first :: rest)).
Definition _ip_to_pin (a : ip) : string :=
  match a with IPv6 _ _ => "[" +:+ str_ip a +:+ "]" | IPv4 _ => str_ip a end.

Section guard.
Context (getaddrinfo : string → option (list string)).

(** Unique addresses, in the order of the answer. *)
Definition resolve_host_ips (host : string) : list ip :=
  match getaddrinfo host with
  | None => []
  | Some texts => foldl (λ out a, if bool_decide (a ∈ out) then out else out ++ [a]) [] (omap ip_address texts)
  end.

Definition check_literal (s : Settings.t) (host : string) (literal : ip) : result string :=
  let a := _unwrap_ipv4_mapped literal in
  match gateway_upstream_allowlist_entries s with
  | (_ :: _) as allowlist =>
      if _ip_allowed_by_allowlist a allowlist then Ok (_ip_to_pin a)
      else value_error ("upstream target " +:+ quoted host +:+ " not in allowlist")
  | [] =>
      if String.eqb (Settings.environment s) "development" then Ok (_ip_to_pin a)
      else if _ip_is_blocked a then
        value_error ("upstream target " +:+ quoted host +:+ " resolves to blocked address " +:+ str_ip a)
      else Ok (_ip_to_pin a)
  end.

(** Every resolved address must pass [ok]; the message names the first that does not. *)
Definition check_all (ok : ip → bool) (what : string) (host : string) (ips : list ip) : result unit :=
  foldR (λ _ raw, if ok (_unwrap_ipv4_mapped raw) then Ok tt
                  else value_error ("upstream target " +:+ quoted host +:+ what
                                    +:+ str_ip (_unwrap_ipv4_mapped raw))) tt ips.

Definition check_hostname (s : Settings.t) (host : string) : result string :=
  match gateway_upstream_allowlist_entries s with
  | (_ :: _) as allowlist =>
      if existsb (entry_is_host (rstrip_char "." (lower host))) allowlist then
        match resolve_host_ips host with
        | first :: rest => Ok (_ip_to_pin (_prefer_ipv4 first rest))
        | [] => if String.eqb (Settings.environment s) "production"
                then value_error ("upstream target " +:+ quoted host +:+ " unresolvable (allowlist hostname)")
                else Ok host
        end
      else
        match resolve_host_ips host with
        | [] => value_error ("upstream target " +:+ quoted host +:+ " not in allowlist (unresolvable)")
        | first :: rest =>
            _ ← check_all (λ a, _ip_allowed_by_allowlist a allowlist)
                  " resolves to non-allowlisted address " host (first :: rest);
            Ok (_ip_to_pin (_prefer_ipv4 first rest))
        end
  | [] =>
      if String.eqb (Settings.environment s) "development" then
        match resolve_host_ips host with
        | first :: rest => Ok (_ip_to_pin (_prefer_ipv4 first rest))
        | [] => Ok host
        end
      else
        match resolve_host_ips host with
        | [] => value_error ("upstream target " +:+ quoted host +:+ " unresolvable in production")
        | first :: rest =>
            _ ← check_all (λ a, negb (_ip_is_blocked a)) " resolves to blocked address " host (first :: rest);
            Ok (_ip_to_pin (_prefer_ipv4 first rest))
        end
  end.

Definition resolve_and_validate (target : string) (s : Settings.t) : result string :=
  host ← _extract_host target;
  match ip_address host with
  | Some literal => check_literal s host literal
  | None => check_hostname s host
  end.

Definition assert_upstream_allowed (target : string) (s : Settings.t) : result unit :=
  _ ← resolve_and_validate target s; Ok tt.

Definition validate_worker_address (raw : string) (s : Settings.t) : result string :=
  normalized ← normalize_worker_address raw;
  if String.eqb normalized "" then Ok normalized
  else _ ← assert_upstream_allowed normalized s; Ok normalized.
End guard.

(** ** Lemmas *)
Lemma unwrap_unwrap a : _unwrap_ipv4_mapped (_unwrap_ipv4_mapped a) = _unwrap_ipv4_mapped a.
Proof.
  destruct a as [n|n sc]; [done|]. unfold _unwrap_ipv4_mapped, ipv4_mapped.
  destruct (Z.shiftr n 32 =? 0xFFFF) eqn:E; cbn [default from_option]; [reflexivity|by rewrite E].
Qed.
Lemma blocked_unwrap a : _ip_is_blocked (_unwrap_ipv4_mapped a) = _ip_is_blocked a.
Proof. unfold _ip_is_blocked. by rewrite unwrap_unwrap. Qed.

Lemma prefer_ipv4_in first rest : _prefer_ipv4 first rest ∈ first :: rest.
Proof.
  unfold _prefer_ipv4. destruct (find_by _ _) as [a|] eqn:E; [by apply find_by_Some in E as [? _]|by constructor].
Qed.

Lemma check_all_Ok ok what host ips :
  check_all ok what host ips = Ok tt ↔ ∀ a, a ∈ ips → ok (_unwrap_ipv4_mapped a) = true.
Proof.
  unfold check_all. rewrite foldR_check. do 2 (apply forall_proper; intros).
  by destruct (ok _).
Qed.

(** Without an allowlist, only unblocked pinned addresses pass. *)
Lemma resolve_pinned dns target s pin :
  gateway_upstream_allowlist_entries s = [] → Settings.environment s ≠ "development" →
  resolve_and_validate dns target s = Ok pin →
  ∃ a, pin = _ip_to_pin a ∧ _ip_is_blocked a = false ∧ _ip_is_blocked (_unwrap_ipv4_mapped a) = false.
Proof.
  intros Hempty Henv H. unfold resolve_and_validate in H.
  apply result_bind_Ok in H as (host & _ & H).
  assert (String.eqb (Settings.environment s) "development" = false) as He by by apply String.eqb_neq.
  enough (∃ a, pin = _ip_to_pin a ∧ _ip_is_blocked a = false) as (a & ? & Ha).
  { exists a. by rewrite blocked_unwrap. }
  destruct (ip_address host) as [literal|].
  - unfold check_literal in H. rewrite Hempty, He in H.
    destruct (_ip_is_blocked (_unwrap_ipv4_mapped literal)) eqn:Eb; [done|]. simplify_eq. by eexists.
  - unfold check_hostname in H. rewrite Hempty, He in H.
    destruct (resolve_host_ips dns host) as [|first rest]; [done|].
    apply result_bind_Ok in H as ([] & Hall & ?). simplify_eq.
    rewrite check_all_Ok in Hall. eexists. split; [done|].
    specialize (Hall _ (prefer_ipv4_in first rest)). apply negb_true_iff in Hall. by rewrite blocked_unwrap in Hall.
Qed.

(** SSRF safety without an allowlist: outside development, a target is accepted
    only with a pinned address, written as a literal so that no later lookup
    happens, and that address (unwrapped when it is an IPv4-mapped one) is in no
    blocked network: whatever the resolver answers, and whatever the target text. *)
Theorem resolve_and_validate_safe dns target s pin :
  gateway_upstream_allowlist_entries s = [] → Settings.environment s ≠ "development" →
  resolve_and_validate dns target s = Ok pin →
  ∃ a, pin = _ip_to_pin a ∧ _ip_is_blocked a = false ∧ _ip_is_blocked (_unwrap_ipv4_mapped a) = false.
Proof. apply resolve_pinned. Qed.

(** With an allowlist, in production: an accepted target is a literal or resolved
    address all of whose answers match allowlist entries, or a host name listed
    verbatim, pinned to an address it resolves to. *)
Theorem resolve_and_validate_allowlist dns target s pin host :
  gateway_upstream_allowlist_entries s ≠ [] → Settings.environment s = "production" →
  _extract_host target = Ok host →
  resolve_and_validate dns target s = Ok pin →
  let allowlist := gateway_upstream_allowlist_entries s in
  ∃ a, pin = _ip_to_pin a ∧
    ((ip_address host = Some a ∨ (∃ lit, ip_address host = Some lit ∧ a = _unwrap_ipv4_mapped lit)) ∧
       _ip_allowed_by_allowlist a allowlist = true
     ∨ a ∈ resolve_host_ips dns host ∧
       (hostname_in_allowlist host s = true ∨
        ∀ b, b ∈ resolve_host_ips dns host → _ip_allowed_by_allowlist (_unwrap_ipv4_mapped b) allowlist = true)).
Proof.
  intros Hne Henv Hhost H allowlist. unfold resolve_and_validate in H. rewrite Hhost in H. simpl in H.
  unfold hostname_in_allowlist, check_literal, check_hostname in *. subst allowlist.
  destruct (gateway_upstream_allowlist_entries s) as [|e l]; [done|].
  destruct (ip_address host) as [literal|].
  - destruct (_ip_allowed_by_allowlist _ _) eqn:Ea; [|done]. simplify_eq.
    exists (_unwrap_ipv4_mapped literal). split; [done|]. left. split; [|exact Ea]. right. by exists literal.
  - destruct (existsb _ (e :: l)) eqn:Ex.
    + destruct (resolve_host_ips dns host) as [|first rest]; [by rewrite Henv in H|]. simplify_eq.
      exists (_prefer_ipv4 first rest). split; [done|]. right. split; [apply prefer_ipv4_in|by left].
    + destruct (resolve_host_ips dns host) as [|first rest]; [done|].
      apply result_bind_Ok in H as ([] & Hall & ?). simplify_eq. rewrite check_all_Ok in Hall.
      exists (_prefer_ipv4 first rest). split; [done|]. right. split; [apply prefer_ipv4_in|by right].
Qed.

(** *** The blocked ranges, as numbers *)
Lemma land_mask v k n :
  0 <= k <= max_prefixlen v → 0 <= n < 2 ^ max_prefixlen v →
  Z.land n (mask_of v (max_prefixlen v - k)) = n / 2 ^ k * 2 ^ k.
Proof.
  intros Hk Hn. unfold mask_of. replace (max_prefixlen v - (max_prefixlen v - k)) with k by lia.
  set (w := max_prefixlen v) in *.
  assert (2 ^ w - 2 ^ k = Z.shiftl (Z.ones (w - k)) k) as ->.
  { rewrite Z.shiftl_mul_pow2, Z.ones_equiv by lia. replace (2 ^ w) with (2 ^ (w - k) * 2 ^ k); [lia|].
    rewrite <-Z.pow_add_r by lia. f_equal. lia. }
  rewrite <-(Z.shiftr_div_pow2 n k), <-Z.shiftl_mul_pow2 by lia.
  apply Z.bits_inj'. intros i Hi. rewrite Z.land_spec.
  destruct (Z.lt_ge_cases i k).
  - rewrite !Z.shiftl_spec_low by lia. apply andb_false_r.
  - rewrite !Z.shiftl_spec, Z.shiftr_spec by lia. replace (i - k + k) with i by lia.
    destruct (Z.lt_ge_cases i w).
    + rewrite Z.ones_spec_low by lia. apply andb_true_r.
    + rewrite Z.ones_spec_high by lia. rewrite andb_false_r.
      symmetry. destruct (decide (n = 0)) as [->|]; [apply Z.bits_0|].
      apply Z.bits_above_log2; [lia|]. apply Z.log2_lt_pow2; [lia|].
      eapply Z.lt_le_trans; [apply Hn|]. apply Z.pow_le_mono_r; lia.
Qed.

Lemma in_network_prefix v n a p :
  0 <= p <= max_prefixlen v → 0 <= n < 2 ^ max_prefixlen v → 0 <= a < 2 ^ max_prefixlen v →
  (Z.land n (mask_of v p) =? Z.land a (mask_of v p)) =
  (n / 2 ^ (max_prefixlen v - p) =? a / 2 ^ (max_prefixlen v - p)).
Proof.
  intros Hp Hn Ha. set (k := max_prefixlen v - p).
  replace p with (max_prefixlen v - k) by lia. rewrite !land_mask by lia.
  assert (0 < 2 ^ k) by (apply Z.pow_pos_nonneg; lia).
  apply Bool.eq_iff_eq_true. rewrite !Z.eqb_eq. nia.
Qed.

Lemma in_network4 n a p : 0 <= p <= 32 → 0 <= n < 2 ^ 32 → 0 <= a < 2 ^ 32 →
  in_network (IPv4 n) (make_network V4 a p) = (n / 2 ^ (32 - p) =? a / 2 ^ (32 - p)).
Proof. intros. by apply (in_network_prefix V4). Qed.
Lemma in_network6 n sc a p : 0 <= p <= 128 → 0 <= n < 2 ^ 128 → 0 <= a < 2 ^ 128 →
  in_network (IPv6 n sc) (make_network V6 a p) = (n / 2 ^ (128 - p) =? a / 2 ^ (128 - p)).
Proof. intros. by apply (in_network_prefix V6). Qed.

(** Evaluates the arithmetic on constants in the goal, leaving divisions of [n]. *)
Ltac eval_const t := let v := eval vm_compute in t in change t with v.
Ltac closed_divisions n :=
  repeat match goal with |- context [Z.sub ?a ?b] => eval_const (Z.sub a b) end;
  repeat match goal with |- context [Z.pow ?a ?b] => eval_const (Z.pow a b) end;
  repeat match goal with |- context [Z.mul ?a ?b] => eval_const (Z.mul a b) end;
  repeat match goal with |- context [Z.add ?a ?b] => eval_const (Z.add a b) end;
  repeat match goal with |- context [Z.div ?a ?b] => lazymatch a with n => fail | _ => eval_const (Z.div a b) end end.

(** The blocked addresses, as ranges: an IPv4 address is blocked exactly when it
    is unspecified (0/8), private (10/8, 172.16/12, 192.168/16), loopback (127/8),
    link-local (169.254/16), multicast (224/4) or the broadcast address; an IPv6
    address that is not IPv4-mapped exactly when it is unspecified, loopback,
    unique-local (fc00::/7), link-local (fe80::/10) or multicast (ff00::/8); an
    IPv4-mapped address is judged as the IPv4 address it embeds. *)
Theorem ip_is_blocked_ranges n sc :
  (0 <= n < 2 ^ 32 → _ip_is_blocked (IPv4 n) = true ↔
     n / 2 ^ 24 = 0 ∨ n / 2 ^ 24 = 10 ∨ n / 2 ^ 24 = 127 ∨ n / 2 ^ 20 = 172 * 16 + 1 ∨
     n / 2 ^ 16 = 169 * 256 + 254 ∨ n / 2 ^ 16 = 192 * 256 + 168 ∨ n / 2 ^ 28 = 14 ∨ n = 2 ^ 32 - 1) ∧
  (0 <= n < 2 ^ 128 → n / 2 ^ 32 ≠ 0xFFFF → _ip_is_blocked (IPv6 n sc) = true ↔
     n = 0 ∨ n = 1 ∨ n / 2 ^ 121 = 0xfc00 / 2 ^ 9 ∨ n / 2 ^ 118 = 0xfe80 / 2 ^ 6 ∨ n / 2 ^ 120 = 0xff) ∧
  (0 <= n < 2 ^ 32 → _ip_is_blocked (IPv6 (0xFFFF * 2 ^ 32 + n) sc) = _ip_is_blocked (IPv4 n)).
Proof.
  split_and!.
  - intros Hn. unfold _ip_is_blocked. change (_unwrap_ipv4_mapped (IPv4 n)) with (IPv4 n).
    unfold _BLOCKED_NETWORKS. cbn [existsb]. rewrite !in_network4 by lia.
    cbn [in_network net_version make_network].
    rewrite !orb_true_iff, !Z.eqb_eq. closed_divisions n. rewrite Z.div_1_r. clear. split; intros H; destruct_or? H; try discriminate H; tauto.
  - intros Hn Hm. unfold _ip_is_blocked.
    assert (_unwrap_ipv4_mapped (IPv6 n sc) = IPv6 n sc) as ->.
    { unfold _unwrap_ipv4_mapped, ipv4_mapped. rewrite Z.shiftr_div_pow2 by lia.
      by rewrite (proj2 (Z.eqb_neq _ _) Hm). }
    unfold _BLOCKED_NETWORKS. cbn [existsb]. rewrite !in_network6 by lia.
    cbn [in_network net_version make_network].
    rewrite !orb_true_iff, !Z.eqb_eq. closed_divisions n. rewrite !Z.div_1_r. clear. split; intros H; destruct_or? H; try discriminate H; tauto.
  - intros Hn. unfold _ip_is_blocked. f_equal.
    unfold _unwrap_ipv4_mapped, ipv4_mapped. rewrite Z.shiftr_div_pow2 by lia.
    rewrite Z.div_add_l, Z.div_small by lia. change (65535 + 0 =? 65535) with true.
    cbn [default from_option]. change 0xFFFFFFFF with (Z.ones 32). rewrite Z.land_ones by lia.
    by rewrite Z.add_comm, Z.mod_add, Z.mod_small by lia.
Qed.

Definition production : Settings.t := Settings.production.
Definition sample_dns (host : string) : option (list string) :=
  if String.eqb host "gpu1.example" then Some ["2001:db8::5"; "93.184.216.34"]
  else if String.eqb host "evil.example" then Some ["93.184.216.34"; "169.254.169.254"] else None.

Example guard_examples :
  resolve_and_validate sample_dns "https://GPU1.example:8443/x" production = Ok "93.184.216.34" ∧
  resolve_and_validate sample_dns "evil.example" production
    = Raise (ValueError "upstream target 'evil.example' resolves to blocked address 169.254.169.254") ∧
  resolve_and_validate sample_dns "http://[::ffff:10.0.0.1]:80" production
    = Raise (ValueError "upstream target '::ffff:10.0.0.1' resolves to blocked address 10.0.0.1").
Proof. vm_compute. done. Qed.

Lemma resolve_and_validate_safe_witness : ∃ a, "93.184.216.34" = _ip_to_pin a ∧ _ip_is_blocked a = false.
Proof.
  destruct (resolve_and_validate_safe sample_dns "gpu1.example" production "93.184.216.34") as (a & H1 & H2 & _);
    [vm_compute; reflexivity|discriminate|vm_compute; reflexivity|].
  exists a. split; assumption.
Defined.

Definition listed : Settings.t := Settings.set_gateway_upstream_allowlist "gpu1.example, 10.1.0.0/16" production.
Lemma resolve_and_validate_allowlist_witness :
  ∃ a, "10.1.2.3" = _ip_to_pin a.
Proof.
  destruct (resolve_and_validate_allowlist sample_dns "10.1.2.3" listed "10.1.2.3" "10.1.2.3") as (a & H & _);
    [discriminate|reflexivity|vm_compute; reflexivity|vm_compute; reflexivity|].
  exists a. exact H.
Defined.

(** The normalised form of a bracketed IPv6 address loses its brackets: what is
    stored and later dialled for [2001:db8::5] is parsed as the host "2001". *)
Theorem normalize_drops_ipv6_brackets :
  normalize_worker_address "http://[2001:db8::5]" = Ok "http://2001:db8::5" ∧
  _extract_host "http://[2001:db8::5]" = Ok "2001:db8::5" ∧
  _extract_host "http://2001:db8::5" = Ok "2001" ∧
  validate_worker_address sample_dns "http://[2001:db8::5]" production
    = Raise (ValueError "upstream target '2001' unresolvable in production").
Proof. vm_compute. done. Qed.
