(* ===== verification/Proto.v ===== *)
(** * The worker protocol ([proto/cluster.proto])

    The messages of [WorkerService], as both sides see them.  Scalar fields have
    proto3 defaults (0, "" and false); a message field is an option. *)

From S2P Require Import Prelude.
Local Open Scope Z_scope.

Module RegisterRequest.
Record t := mk {
  cluster_token : string; hostname : string; worker_name : string; cluster_name : string;
  version : string; protocol_version : Z; address : string }.
End RegisterRequest.

Module RegisterResponse.
Record t := mk { worker_id : string; worker_token : string; sync_interval_seconds : Z }.
End RegisterResponse.

Module GPUInfo.
Record t := mk {
  index : Z; vendor : string; name : string; vram_mb : Z; used_vram_mb : Z; utilization_pct : Z;
  gpu_uuid : string; driver_version : string }.
#[global] Instance eq_dec : EqDecision t.
Proof. solve_decision. Defined.
End GPUInfo.

Module SystemInfo.
Record t := mk { cpu_cores : Z; memory_mb : Z; os : string; hostname : string }.
End SystemInfo.

Module InstanceStatus.
Record t := mk {
  instance_id : string; state : string; detail : string; port : Z; generation : Z; log_tail : string }.
#[global] Instance eq_dec : EqDecision t.
Proof. solve_decision. Defined.
End InstanceStatus.

Module Parallelism.
Record t := mk { mode : string; tensor_parallel : Z; pipeline_parallel : Z; world_size : Z }.
#[global] Instance eq_dec : EqDecision t.
Proof. solve_decision. Defined.
End Parallelism.

Module Rendezvous.
Record t := mk {
  master_address : string; master_port : Z; job_id : Z; node_rank : Z; num_nodes : Z;
  peers : list string; env : list string }.
#[global] Instance eq_dec : EqDecision t.
Proof. solve_decision. Defined.
End Rendezvous.

Module EngineConfig.
Record t := mk {
  engine : string; model_name : string; profile : string; gpu_indexes : list Z; vram_required_mb : Z;
  port : Z; requires_hf_token : bool; parallelism : option Parallelism.t;
  rendezvous : option Rendezvous.t; env : list string }.
#[global] Instance eq_dec : EqDecision t.
Proof. solve_decision. Defined.
End EngineConfig.

Module InstanceCommand.
Record t := mk {
  instance_id : string; action : string; config : option EngineConfig.t; generation : Z }.
#[global] Instance eq_dec : EqDecision t.
Proof. solve_decision. Defined.
End InstanceCommand.

Module SyncRequest.
Record t := mk {
  worker_id : string; worker_token : string; system : SystemInfo.t; gpus : list GPUInfo.t;
  instances : list InstanceStatus.t }.
End SyncRequest.
