(* ===== verification/WorkersSvc.v ===== *)
(** * Worker lifecycle ([server/inferna_server/services/workers_svc.py], [grpc_server.py])

    Registration, synchronisation, catalog seeding and the disconnect watchdog.
    What the code draws from outside (the random worker token, a new row's id,
    the clock, name resolution) is an argument. *)

From S2P Require Import Prelude PyStr Uuid Models Config UpstreamGuard Proto.
Local Open Scope Z_scope.

Definition SYNC_INTERVAL_SECONDS : Z := 5.
Definition DISCONNECT_AFTER_SECONDS : Z := 30.
Definition LOG_TAIL_MAX_CHARS : Z := 8192.
(** [inferna_server.version] *)
Definition PROTOCOL_VERSION : Z := 1.
Definition MIN_WORKER_VERSION : list Z := [0; 2; 0].

(** ** Parallelism of a rank *)
Definition _apply_parallelism (config : EngineConfig.t) (i : ModelInstance.t) : EngineConfig.t :=
  match ModelInstance.parallel_group_id i, ModelInstance.rendezvous i with
  | Some _, Some address =>
      let '(host, _, port) := rpartition ":" address in
      let node_rank := default 0 (ModelInstance.node_rank i) in
      let world_size := match ModelInstance.world_size i with
                        | Some n => if n =? 0 then 1 else n | None => 1 end in
      EngineConfig.mk (EngineConfig.engine config) (EngineConfig.model_name config)
        (EngineConfig.profile config) (EngineConfig.gpu_indexes config)
        (EngineConfig.vram_required_mb config) (EngineConfig.port config)
        (EngineConfig.requires_hf_token config)
        (Some (Parallelism.mk
           (if truthy (ModelInstance.parallel_mode i) then default "" (ModelInstance.parallel_mode i) else "single")
           (Z.of_nat (length (ModelInstance.gpu_indexes i)))
           (if bool_decide (ModelInstance.parallel_mode i = Some "pp") then world_size else 1)
           world_size))
        (Some (Rendezvous.mk host (if isdigit port then default 0 (py_int port) else 0) 0 node_rank world_size []
           ["MASTER_ADDR=" +:+ host; "MASTER_PORT=" +:+ port]))
        (EngineConfig.env config)
  | _, _ => config
  end.

(** ** Registration *)

(** [tuple(int(p) for p in version.split(".")[:3])], padded to three numbers. *)
Fixpoint ints (l : list string) : option (list Z) :=
  match l with
  | [] => Some []
  | s :: l' => n ← py_int s; ns ← ints l'; Some (n :: ns)
  end.
Definition version_tuple (version : string) : list Z :=
  match ints (take 3 (split "." (if nonempty version then version else "0.0.0"))) with
  | Some l => l ++ replicate (3 - length l) 0
  | None => [0; 0; 0]
  end.
(** Tuple order. *)
Fixpoint tuple_ltb (a b : list Z) : bool :=
  match a, b with
  | x :: a', y :: b' => if x =? y then tuple_ltb a' b' else x <? y
  | [], _ :: _ => true
  | _, [] => false
  end.

Inductive matched_by := By_both | By_hostname | By_name.

(** Identity resolution: the machine and the name, then the machine, then the name. *)
Definition find_registered (d : Db.t) (cluster_id : uuid) (name hostname : string) : option (Worker.t * matched_by) :=
  let in_cluster w := (Worker.cluster_id w =? cluster_id)%N in
  match find_by (λ w, in_cluster w && String.eqb (Worker.name w) name
                      && String.eqb (Worker.hostname w) hostname) (Db.workers d) with
  | Some w => Some (w, By_both)
  | None =>
      match find_by (λ w, in_cluster w && String.eqb (Worker.hostname w) hostname) (Db.workers d) with
      | Some w => Some (w, By_hostname)
      | None =>
          match find_by (λ w, in_cluster w && String.eqb (Worker.name w) name) (Db.workers d) with
          | Some w => Some (w, By_name)
          | None => None
          end
      end
  end.

(** [_available(field, value)]: no other row of the cluster has it. *)
Definition available (field : Worker.t → string) (value : string) (cluster_id worker_id : uuid) (d : Db.t) : bool :=
  negb (existsb (λ w, (Worker.cluster_id w =? cluster_id)%N && String.eqb (field w) value
                      && negb (Worker.id w =? worker_id)%N) (Db.workers d)).

Definition update_worker (id : uuid) (f : Worker.t → Worker.t) (d : Db.t) : Db.t :=
  Db.set_workers (update_where (λ w, (Worker.id w =? id)%N) f (Db.workers d)) d.

Definition grpc_error {S A} (code : grpc_code) (detail : string) : M S A := raise (AioRpcError code detail).

(** Refresh of an existing worker. *)
Definition refresh_worker (request : RegisterRequest.t) (cluster_id : uuid) (token : string)
    (address : option string) (now : datetime) (worker : Worker.t) (matched : matched_by) : DbM unit :=
  let id := Worker.id worker in
  _ ← execute (update_worker id (λ w,
        Worker.set_address address (Worker.set_last_seen_at (Some now)
          (Worker.set_state "connected" (Worker.set_token_hash (sha256_hex token) w)))));
  _ ← match matched with
      | By_name =>
          free ← query (available Worker.hostname (RegisterRequest.hostname request) cluster_id id);
          if (free : bool) then execute (update_worker id (Worker.set_hostname (RegisterRequest.hostname request)))
          else mret tt
      | _ => mret tt
      end;
  _ ← (if nonempty (RegisterRequest.worker_name request)
          && negb (String.eqb (RegisterRequest.worker_name request) (Worker.name worker)) then
         free ← query (available Worker.name (RegisterRequest.worker_name request) cluster_id id);
         if (free : bool) then execute (update_worker id (Worker.set_name (RegisterRequest.worker_name request)))
         else mret tt
       else mret tt);
  if nonempty (RegisterRequest.version request)
  then execute (update_worker id (Worker.set_version (Some (RegisterRequest.version request))))
  else mret tt.

Definition new_worker (request : RegisterRequest.t) (cluster_id : uuid) (name token : string)
    (address : option string) (id : uuid) (now : datetime) : Worker.t :=
  Worker.mk id cluster_id name (RegisterRequest.hostname request) "connected"
    (or_none (RegisterRequest.version request)) None None None (sha256_hex token) address (Some now) now.

Section register.
Context (s : Settings.t) (dns : string → option (list string)).
(** [generate_worker_token()], [uuid.uuid4()] of a new row, [utcnow()] *)
Context (token : string) (new_id : uuid) (now : datetime).

(** The address to store: a rejected one aborts the call. *)
Definition register_address (request : RegisterRequest.t) : DbM (option string) :=
  let raw := strip (RegisterRequest.address request) in
  if String.eqb raw "" then mret None
  else match validate_worker_address dns raw s with
       | Ok address => mret (Some address)
       | Raise (ValueError m) => grpc_error INVALID_ARGUMENT ("invalid worker address: " +:+ m)
       | Raise e => raise e
       end.

Definition register_worker (request : RegisterRequest.t) : DbM RegisterResponse.t :=
  if negb (String.eqb (RegisterRequest.cluster_token request) (Settings.registration_token s)) then
    grpc_error PERMISSION_DENIED "invalid cluster token"
  else if negb (RegisterRequest.protocol_version request =? PROTOCOL_VERSION) then
    grpc_error FAILED_PRECONDITION
      ("unsupported protocol version " +:+ str_Z (RegisterRequest.protocol_version request)
       +:+ "; server supports " +:+ str_Z PROTOCOL_VERSION)
  else if tuple_ltb (version_tuple (RegisterRequest.version request)) MIN_WORKER_VERSION then
    grpc_error FAILED_PRECONDITION
      ("worker version "
       +:+ (if nonempty (RegisterRequest.version request) then RegisterRequest.version request else "unknown")
       +:+ " is too old; minimum " +:+ join "." (map str_Z MIN_WORKER_VERSION))
  else
    let cluster_name := if nonempty (RegisterRequest.cluster_name request)
                        then RegisterRequest.cluster_name request else "default" in
    cluster ← query (λ d, find_by (λ c, String.eqb (Cluster.name c) cluster_name) (Db.clusters d));
    match cluster with
    | None => grpc_error NOT_FOUND ("cluster '" +:+ cluster_name +:+ "' not found")
    | Some cluster =>
        address ← register_address request;
        let name := if nonempty (RegisterRequest.worker_name request)
                    then RegisterRequest.worker_name request else RegisterRequest.hostname request in
        found ← query (λ d, find_registered d (Cluster.id cluster) name (RegisterRequest.hostname request));
        id ← match found with
             | None =>
                 _ ← execute (λ d, Db.set_workers (Db.workers d ++
                       [new_worker request (Cluster.id cluster) name token address new_id now]) d);
                 mret new_id
             | Some (worker, matched) =>
                 _ ← refresh_worker request (Cluster.id cluster) token address now worker matched;
                 mret (Worker.id worker)
             end;
        _ ← try_ commit (λ e,
              match e with
              | IntegrityError =>
                  _ ← rollback;
                  grpc_error ALREADY_EXISTS "another worker registered this name concurrently; retry"
              | _ => raise e
              end);
        mret (RegisterResponse.mk (str_uuid id) token SYNC_INTERVAL_SECONDS)
    end.
End register.

(** ** Synchronisation *)

Definition apply_system (system : SystemInfo.t) (now : datetime) (w : Worker.t) : Worker.t :=
  Worker.set_memory_mb (or_none_Z (SystemInfo.memory_mb system))
    (Worker.set_cpu_cores (or_none_Z (SystemInfo.cpu_cores system))
      (Worker.set_hostname (if nonempty (SystemInfo.hostname system) then SystemInfo.hostname system
                            else Worker.hostname w)
        (Worker.set_os (or_none (SystemInfo.os system))
          (Worker.set_last_seen_at (Some now) (Worker.set_state "connected" w))))).

Definition gpu_row (worker_id : uuid) (g : GPUInfo.t) : WorkerGPU.t :=
  WorkerGPU.mk worker_id (GPUInfo.index g) (GPUInfo.vendor g) (GPUInfo.name g) (GPUInfo.vram_mb g)
    (GPUInfo.used_vram_mb g) (GPUInfo.utilization_pct g) (or_none (GPUInfo.gpu_uuid g))
    (or_none (GPUInfo.driver_version g)).
Definition is_gpu (worker_id : uuid) (index : Z) (g : WorkerGPU.t) : bool :=
  (WorkerGPU.worker_id g =? worker_id)%N && (WorkerGPU.index g =? index).

(** A reported GPU updates the row that existed before the call, or adds one. *)
Definition upsert_gpu (worker_id : uuid) (existing : list Z) (rows : list WorkerGPU.t) (g : GPUInfo.t)
    : list WorkerGPU.t :=
  if bool_decide (GPUInfo.index g ∈ existing)
  then update_where (is_gpu worker_id (GPUInfo.index g)) (λ _, gpu_row worker_id g) rows
  else rows ++ [gpu_row worker_id g].
Definition sync_gpus (worker_id : uuid) (gpus : list GPUInfo.t) (d : Db.t) : Db.t :=
  let existing := map WorkerGPU.index (gpus_of d worker_id) in
  let reported := map GPUInfo.index gpus in
  let rows := foldl (upsert_gpu worker_id existing) (Db.worker_gpus d) gpus in
  let stale := where_ (λ i, negb (bool_decide (i ∈ reported))) existing in
  Db.set_worker_gpus (where_ (λ g, negb (existsb (λ i, is_gpu worker_id i g) stale)) rows) d.

(** [known]: the reported rows of this worker, by the text of their id. *)
Definition parsed_ids (statuses : list InstanceStatus.t) : list uuid :=
  omap (λ s, uuid_of_string (InstanceStatus.instance_id s)) statuses.
Definition known_rows (worker_id : uuid) (statuses : list InstanceStatus.t) (d : Db.t) : list ModelInstance.t :=
  where_ (λ i, uuid_eqb (ModelInstance.worker_id i) (Some worker_id)
               && bool_decide (ModelInstance.id i ∈ parsed_ids statuses)) (Db.instances d).
Definition known_ids (worker_id : uuid) (statuses : list InstanceStatus.t) (d : Db.t) : list string :=
  map (λ i, str_uuid (ModelInstance.id i)) (known_rows worker_id statuses d).

Definition apply_status (s : InstanceStatus.t) (i : ModelInstance.t) : ModelInstance.t :=
  let i := ModelInstance.set_error_detail (or_none (InstanceStatus.detail s))
             (ModelInstance.set_state (InstanceStatus.state s) i) in
  let i := if nonempty (InstanceStatus.log_tail s)
           then ModelInstance.set_log_tail (Some (last_chars (Z.to_nat LOG_TAIL_MAX_CHARS) (InstanceStatus.log_tail s))) i
           else i in
  if InstanceStatus.port s =? 0 then i else ModelInstance.set_port (Some (InstanceStatus.port s)) i.
Definition sync_statuses (worker_id : uuid) (statuses : list InstanceStatus.t) (d : Db.t) : Db.t :=
  let known := map ModelInstance.id (known_rows worker_id statuses d) in
  Db.set_instances (foldl (λ rows s,
      update_where (λ i, bool_decide (ModelInstance.id i ∈ known)
                         && String.eqb (str_uuid (ModelInstance.id i)) (InstanceStatus.instance_id s))
        (apply_status s) rows) (Db.instances d) statuses) d.

(** [reported.get(id)]: the last status of an id wins. *)
Definition reported (statuses : list InstanceStatus.t) (id : string) : option InstanceStatus.t :=
  find_by (λ s, String.eqb (InstanceStatus.instance_id s) id) (rev statuses).

Definition start_command (m : Model.t) (i : ModelInstance.t) : InstanceCommand.t :=
  InstanceCommand.mk (str_uuid (ModelInstance.id i)) "start"
    (Some (_apply_parallelism
       (EngineConfig.mk (ModelInstance.engine i) (Model.name m) (ModelInstance.profile i)
          (ModelInstance.gpu_indexes i) (Model.vram_required_mb m) (default 0 (ModelInstance.port i))
          (Model.requires_hf_token m) None None []) i))
    (ModelInstance.generation i).
Definition stop_command (i : ModelInstance.t) : InstanceCommand.t :=
  InstanceCommand.mk (str_uuid (ModelInstance.id i)) "stop" None 0.
Definition delete_command (s : InstanceStatus.t) : InstanceCommand.t :=
  InstanceCommand.mk (InstanceStatus.instance_id s) "delete" None 0.

(** The command an instance needs, given what the worker reported of it. *)
Definition needs_start (i : ModelInstance.t) (rep : option InstanceStatus.t) : bool :=
  let applied := match rep with Some s => InstanceStatus.generation s | None => 0 end in
  let obs := match rep with Some s => InstanceStatus.state s | None => "stopped" end in
  (applied <? ModelInstance.generation i) || String.eqb obs "stopped".
Definition needs_stop (rep : option InstanceStatus.t) : bool :=
  match rep with Some s => one_of (InstanceStatus.state s) ["starting"; "running"] | None => false end.
Definition command_for (d : Db.t) (statuses : list InstanceStatus.t) (i : ModelInstance.t)
    : result (option InstanceCommand.t) :=
  let rep := reported statuses (str_uuid (ModelInstance.id i)) in
  if String.eqb (ModelInstance.desired_state i) "running" then
    if needs_start i rep then
      match find_model d (ModelInstance.model_id i) with
      | Some m => Ok (Some (start_command m i))
      | None => Raise AttributeError
      end
    else Ok None
  else if String.eqb (ModelInstance.desired_state i) "stopped" then
    Ok (if needs_stop rep then Some (stop_command i) else None)
  else Ok None.

Definition build_commands (worker_id : uuid) (statuses : list InstanceStatus.t) (d : Db.t)
    : result (list InstanceCommand.t) :=
  foldR (λ cmds i, c ← command_for d statuses i;
                   Ok (match c with Some c => cmds ++ [c] | None => cmds end)) []
    (where_ (λ i, uuid_eqb (ModelInstance.worker_id i) (Some worker_id)) (Db.instances d)).

Definition sync_worker (now : datetime) (request : SyncRequest.t) : DbM (list InstanceCommand.t) :=
  match uuid_of_string (SyncRequest.worker_id request) with
  | None => grpc_error UNAUTHENTICATED "invalid worker id"
  | Some worker_id =>
      row ← query (λ d, find_worker d worker_id);
      match row with
      | None => grpc_error UNAUTHENTICATED "invalid worker token"
      | Some worker =>
          if negb (String.eqb (Worker.token_hash worker) (sha256_hex (SyncRequest.worker_token request)))
          then grpc_error UNAUTHENTICATED "invalid worker token"
          else
            let statuses := SyncRequest.instances request in
            _ ← execute (update_worker worker_id (apply_system (SyncRequest.system request) now));
            _ ← execute (sync_gpus worker_id (SyncRequest.gpus request));
            known ← query (known_ids worker_id statuses);
            _ ← execute (sync_statuses worker_id statuses);
            built ← query (build_commands worker_id statuses);
            commands ← lift_result built;
            let deletes := map delete_command
              (where_ (λ s, negb (bool_decide (InstanceStatus.instance_id s ∈ known))) statuses) in
            _ ← commit;
            mret (commands ++ deletes)
      end
  end.

(** ** Catalog seeding *)
Module CatalogEntry.
Record t := mk {
  name : string; display_name : string; category : string; description : option string;
  vram_required_mb : Z; requires_hf_token : bool; license : option string; engines : list string }.
End CatalogEntry.
Definition entry_model (e : CatalogEntry.t) (id : uuid) (created_at : datetime) : Model.t :=
  Model.mk id (CatalogEntry.name e) (CatalogEntry.display_name e) (CatalogEntry.category e)
    (CatalogEntry.description e) (CatalogEntry.vram_required_mb e) (CatalogEntry.requires_hf_token e)
    (CatalogEntry.license e) true (CatalogEntry.engines e) created_at.
(** One entry: insert, or overwrite every column the catalog names. *)
Definition seed_entry (ids : nat → uuid) (now : datetime) (models : list Model.t) (ke : nat * CatalogEntry.t) : list Model.t :=
  let '(k, e) := ke in
  match find_by (λ m, String.eqb (Model.name m) (CatalogEntry.name e)) models with
  | None => models ++ [entry_model e (ids k) now]
  | Some row => update_where (λ m, (Model.id m =? Model.id row)%N)
                  (λ m, entry_model e (Model.id m) (Model.created_at m)) models
  end.
Definition seed_catalog (ids : nat → uuid) (now : datetime) (catalog : list CatalogEntry.t) : DbM unit :=
  execute (λ d, Db.set_models (foldl (seed_entry ids now) (Db.models d) (imap pair catalog)) d).

(** ** The disconnect watchdog *)
Definition stale_worker (cutoff : datetime) (w : Worker.t) : bool :=
  String.eqb (Worker.state w) "connected"
  && match Worker.last_seen_at w with Some t => t <? cutoff | None => false end.
Definition disconnect_instance (i : ModelInstance.t) : ModelInstance.t :=
  ModelInstance.set_error_detail (Some "worker disconnected") (ModelInstance.set_state "error" i).
(** The live instances of a worker that are desired to run. *)
Definition lost_instance (worker_id : uuid) (i : ModelInstance.t) : bool :=
  uuid_eqb (ModelInstance.worker_id i) (Some worker_id)
  && String.eqb (ModelInstance.desired_state i) "running" && in_live_states (ModelInstance.state i).
Definition disconnect_worker (d : Db.t) (w : Worker.t) : Db.t :=
  Db.set_instances (update_where (lost_instance (Worker.id w)) disconnect_instance (Db.instances d))
    (update_worker (Worker.id w) (Worker.set_state "disconnected") d).
(** Microseconds. *)
Definition seconds (n : Z) : Z := n * 1000000.
Definition mark_disconnected (now : datetime) : DbM unit :=
  stale ← query (λ d, where_ (stale_worker (now - seconds DISCONNECT_AFTER_SECONDS)) (Db.workers d));
  match stale with
  | [] => mret tt
  | _ => _ ← execute (λ d, foldl disconnect_worker d stale); commit
  end.

(** ** The gRPC service: errors become status codes. *)
Definition grpc_status (e : exn) : grpc_code * string :=
  match e with
  | AioRpcError code detail => (code, detail)
  | _ => (INTERNAL, "internal error")
  end.
Definition abort_with (fallback : string) (e : exn) : exn :=
  let '(code, detail) := grpc_status e in
  AioRpcError code (if String.eqb detail "" then fallback else detail).
Definition serve {A} (fallback : string) (m : DbM A) (d : Db.t) : result A * Db.t :=
  let '(r, d') := run_session m d in
  (match r with Ok a => Ok a | Raise e => Raise (abort_with fallback e) end, d').
Definition Register (s : Settings.t) (dns : string → option (list string)) (token : string) (new_id : uuid)
    (now : datetime) (request : RegisterRequest.t) (d : Db.t) : result RegisterResponse.t * Db.t :=
  serve "register failed" (register_worker s dns token new_id now request) d.
Definition Sync (now : datetime) (request : SyncRequest.t) (d : Db.t) : result (list InstanceCommand.t) * Db.t :=
  serve "sync failed" (sync_worker now request) d.

(** ** Lemmas: registration *)
Section worker_update.
Context (d : Db.t) (Hd : constraints_ok d = true).

Lemma ck_workers : ∀ w, w ∈ Db.workers d → ck_worker w = true ∧ has (find_cluster d (Worker.cluster_id w)) = true.
Proof.
  intros w Hw%list_elem_of_In. pose proof Hd as H. split_constraints H. split.
  - match goal with H : forallb ck_worker _ = true |- _ => by apply (proj1 (forallb_forall _ _) H) end.
  - match goal with H : forallb _ (Db.workers d) = true, Hc : forallb ck_worker (Db.workers d) = true |- _ =>
      first [constr_eq H Hc; fail 1|by apply (proj1 (forallb_forall _ _) H)] end.
Qed.
Lemma workers_unique :
  NoDup (map Worker.id (Db.workers d)) ∧
  NoDup (map (λ w, (Worker.cluster_id w, Worker.hostname w)) (Db.workers d)) ∧
  NoDup (map (λ w, (Worker.cluster_id w, Worker.name w)) (Db.workers d)).
Proof. pose proof Hd as H. split_constraints H. done. Qed.

(** One worker's row rewritten: its id, cluster and a legal state kept, and its
    host name and name clash with no other row of the cluster. *)
Lemma update_worker_ok i f :
  (∀ w, Worker.id (f w) = Worker.id w ∧ Worker.cluster_id (f w) = Worker.cluster_id w ∧ Worker.state (f w) = "connected") →
  (∀ x y, x ∈ Db.workers d → y ∈ Db.workers d → Worker.id x = i → Worker.id y ≠ i →
     Worker.cluster_id x = Worker.cluster_id y → Worker.hostname (f x) ≠ Worker.hostname y ∧ Worker.name (f x) ≠ Worker.name y) →
  constraints_ok (update_worker i f d) = true.
Proof.
  intros Hf Hne. destruct workers_unique as (Hid & Hhost & Hname). apply constraints_set_workers; try done.
  - apply forallb_forall. intros w Hw%list_elem_of_In. apply elem_of_update_where in Hw as (x & Hx & ->).
    destruct (_ =? _)%N; [|by apply ck_workers]. unfold ck_worker. by destruct (Hf x) as (_ & _ & ->).
  - rewrite update_where_attr; [done|]. intros x. apply Hf.
  - apply (NoDup_update_key Worker.id); [done|done|]. intros x y Hx Hy Hi Hj [= Hc Hh].
    destruct (Hf x) as (_ & Hfc & _). by destruct (Hne x y Hx Hy Hi Hj ltac:(congruence)).
  - apply (NoDup_update_key Worker.id); [done|done|]. intros x y Hx Hy Hi Hj [= Hc Hh].
    destruct (Hf x) as (_ & Hfc & _). by destruct (Hne x y Hx Hy Hi Hj ltac:(congruence)).
  - intros w (x & Hx & ->)%elem_of_update_where. destruct (_ =? _)%N; [|by apply ck_workers].
    destruct (Hf x) as (_ & -> & _). by apply ck_workers.
  - intros w Hw. rewrite update_where_attr; [by apply list_elem_of_fmap; eauto|]. intros x. apply Hf.
Qed.
End worker_update.

(** The row a refresh leaves, by whether it moves the host name and the name. *)
Definition refreshed (request : RegisterRequest.t) (token : string) (address : option string) (now : datetime)
    (sethost setname : bool) (w : Worker.t) : Worker.t :=
  let w := Worker.set_address address (Worker.set_last_seen_at (Some now)
             (Worker.set_state "connected" (Worker.set_token_hash (sha256_hex token) w))) in
  let w := if sethost then Worker.set_hostname (RegisterRequest.hostname request) w else w in
  let w := if setname then Worker.set_name (RegisterRequest.worker_name request) w else w in
  if nonempty (RegisterRequest.version request)
  then Worker.set_version (Some (RegisterRequest.version request)) w else w.
Definition moves_host (request : RegisterRequest.t) (cluster_id id : uuid) (matched : matched_by) (d : Db.t) : bool :=
  match matched with
  | By_name => available Worker.hostname (RegisterRequest.hostname request) cluster_id id d
  | _ => false end.
Definition moves_name (request : RegisterRequest.t) (cluster_id : uuid) (worker : Worker.t) (d : Db.t) : bool :=
  nonempty (RegisterRequest.worker_name request)
  && negb (String.eqb (RegisterRequest.worker_name request) (Worker.name worker))
  && available Worker.name (RegisterRequest.worker_name request) cluster_id (Worker.id worker) d.

Lemma available_update field v c i g d :
  (∀ w, Worker.id (g w) = Worker.id w) →
  available field v c i (update_worker i g d) = available field v c i d.
Proof.
  intros Hg. unfold available, update_worker. simpl. f_equal.
  unfold update_where. induction (Db.workers d) as [|w l IH]; [done|]. cbn [map existsb]. rewrite IH. f_equal.
  destruct (Worker.id w =? i)%N eqn:E; [|by rewrite E]. rewrite Hg, E. simpl. by rewrite !andb_false_r.
Qed.

Lemma update_worker_twice i f g d :
  (∀ w, Worker.id (f w) = Worker.id w) →
  update_worker i g (update_worker i f d) = update_worker i (λ w, g (f w)) d.
Proof.
  intros Hf. apply (f_equal (λ ws, Db.set_workers ws d)), update_where_twice_same.
  intros w. by rewrite Hf.
Qed.

Lemma refresh_worker_eq request c token address now worker matched d dur :
  refresh_worker request c token address now worker matched (Session.mk d dur false) =
  (Ok tt, Session.mk (update_worker (Worker.id worker)
     (refreshed request token address now (moves_host request c (Worker.id worker) matched d)
        (moves_name request c worker d)) d) dur false).
Proof.
  unfold refresh_worker. rewrite bind_execute.
  set (f0 := λ w, Worker.set_address address _).
  set (sethost := moves_host request c (Worker.id worker) matched d).
  set (f1 := λ w, if sethost then Worker.set_hostname (RegisterRequest.hostname request) (f0 w) else f0 w).
  erewrite (bind_Ok _ _ _ tt (Session.mk (update_worker (Worker.id worker) f1 d) dur false)).
  2:{ unfold f1, sethost, moves_host. destruct matched; try done. rewrite bind_query, available_update by done.
      destruct (available _ _ _ _ d); [|done]. unfold execute. simpl. by rewrite update_worker_twice. }
  assert (∀ w, Worker.id (f1 w) = Worker.id w) as Hf1 by (intros w; unfold f1; by destruct sethost).
  set (setname := moves_name request c worker d).
  set (f2 := λ w, if setname then Worker.set_name (RegisterRequest.worker_name request) (f1 w) else f1 w).
  erewrite (bind_Ok _ _ _ tt (Session.mk (update_worker (Worker.id worker) f2 d) dur false)).
  2:{ unfold f2, setname, moves_name. destruct (nonempty _ && _); [|done].
      rewrite bind_query, available_update by done.
      destruct (available _ _ _ _ d); [|done]. unfold execute. simpl. by rewrite update_worker_twice. }
  assert (∀ w, Worker.id (f2 w) = Worker.id w) as Hf2 by (intros w; unfold f2; destruct setname; [apply Hf1|apply Hf1]).
  unfold refreshed. destruct (nonempty (RegisterRequest.version request)); [|done].
  unfold execute. simpl. by rewrite update_worker_twice.
Qed.

Lemma find_registered_Some d c name host w m :
  find_registered d c name host = Some (w, m) →
  w ∈ Db.workers d ∧ Worker.cluster_id w = c ∧
  match m with
  | By_both => Worker.name w = name ∧ Worker.hostname w = host
  | By_hostname => Worker.hostname w = host
  | By_name => Worker.name w = name ∧
      ∀ x, x ∈ Db.workers d → Worker.cluster_id x = c → Worker.hostname x ≠ host
  end.
Proof.
  intros H. unfold find_registered in H.
  case_match eqn:E1; [simplify_eq|case_match eqn:E2; [simplify_eq|case_match eqn:E3; simplify_eq]].
  - apply find_by_Some in E1 as [? E1]. rewrite !andb_true_iff, N.eqb_eq, !String.eqb_eq in E1. tauto.
  - apply find_by_Some in E2 as [? E2]. rewrite !andb_true_iff, N.eqb_eq, !String.eqb_eq in E2. tauto.
  - apply find_by_Some in E3 as [? E3]. rewrite !andb_true_iff, N.eqb_eq, !String.eqb_eq in E3. split_and!; try tauto.
    intros y Hy Hc Hh. pose proof (proj1 (find_by_None _ _) E2 y Hy) as Hn. simpl in Hn.
    by rewrite Hc, Hh, N.eqb_refl, String.eqb_refl in Hn.
Qed.
Lemma find_registered_None d c name host :
  find_registered d c name host = None → ∀ x, x ∈ Db.workers d → Worker.cluster_id x = c →
  Worker.hostname x ≠ host ∧ Worker.name x ≠ name.
Proof.
  intros H. unfold find_registered in H.
  case_match eqn:E1; [done|]. case_match eqn:E2; [done|]. case_match eqn:E3; [done|]. intros y Hy Hc.
  pose proof (proj1 (find_by_None _ _) E2 y Hy) as H2. pose proof (proj1 (find_by_None _ _) E3 y Hy) as H3.
  simpl in H2, H3. rewrite Hc, N.eqb_refl in H2, H3. simpl in H2, H3. by rewrite !String.eqb_neq in *.
Qed.

Lemma available_spec field v c i d :
  available field v c i d = true ↔
  ∀ w, w ∈ Db.workers d → Worker.cluster_id w = c → Worker.id w ≠ i → field w ≠ v.
Proof.
  unfold available. rewrite negb_true_iff, <-not_true_iff_false, existsb_exists. split.
  - intros H w Hw Hc Hi Hv. apply H. exists w. split; [by apply list_elem_of_In|].
    rewrite Hc, Hv, N.eqb_refl, String.eqb_refl. by apply negb_true_iff, N.eqb_neq.
  - intros H (w & Hw%list_elem_of_In & Hp). rewrite !andb_true_iff, negb_true_iff, N.eqb_eq, N.eqb_neq, String.eqb_eq in Hp.
    destruct_and! Hp. by apply (H w).
Qed.

Lemma refreshed_cols request token address now bh bn w :
  let w' := refreshed request token address now bh bn w in
  Worker.id w' = Worker.id w ∧ Worker.cluster_id w' = Worker.cluster_id w ∧
  Worker.hostname w' = (if bh then RegisterRequest.hostname request else Worker.hostname w) ∧
  Worker.name w' = (if bn then RegisterRequest.worker_name request else Worker.name w) ∧
  Worker.state w' = "connected" ∧ Worker.token_hash w' = sha256_hex token ∧
  Worker.address w' = address ∧ Worker.last_seen_at w' = Some now.
Proof. unfold refreshed. destruct bh, bn, (nonempty (RegisterRequest.version request)); done. Qed.

(** A refresh keeps the identity columns of every row distinct. *)
Lemma refreshed_unique request token address now d w m name x y :
  constraints_ok d = true →
  name = (if nonempty (RegisterRequest.worker_name request) then RegisterRequest.worker_name request
          else RegisterRequest.hostname request) →
  find_registered d (Worker.cluster_id w) name (RegisterRequest.hostname request) = Some (w, m) →
  x ∈ Db.workers d → y ∈ Db.workers d → Worker.id x = Worker.id w → Worker.id y ≠ Worker.id w →
  Worker.cluster_id x = Worker.cluster_id y →
  let f := refreshed request token address now (moves_host request (Worker.cluster_id w) (Worker.id w) m d)
             (moves_name request (Worker.cluster_id w) w d) in
  Worker.hostname (f x) ≠ Worker.hostname y ∧ Worker.name (f x) ≠ Worker.name y.
Proof.
  intros Hd Hname Hf Hx Hy Hxw Hyw Hxy f. destruct (workers_unique d Hd) as (Hid & Hhost & Hn).
  pose proof (find_registered_Some _ _ _ _ _ _ Hf) as (Hw & _ & Hm).
  assert (x = w) as -> by by apply (NoDup_map_inj_key Worker.id (Db.workers d)).
  assert (w ≠ y) as Hne by congruence.
  assert (Worker.hostname w ≠ Worker.hostname y) as H1.
  { intros E. apply Hne. apply (NoDup_map_inj_key (λ w, (Worker.cluster_id w, Worker.hostname w)) (Db.workers d)); [done..|].
    by f_equal. }
  assert (Worker.name w ≠ Worker.name y) as H2.
  { intros E. apply Hne. apply (NoDup_map_inj_key (λ w, (Worker.cluster_id w, Worker.name w)) (Db.workers d)); [done..|].
    by f_equal. }
  destruct (refreshed_cols request token address now (moves_host request (Worker.cluster_id w) (Worker.id w) m d)
    (moves_name request (Worker.cluster_id w) w d) w) as (_ & _ & Hfh & Hfn & _).
  fold f in Hfh, Hfn. rewrite Hfh, Hfn.
  split.
  - destruct (moves_host _ _ _ _ _) eqn:E; [|done]. unfold moves_host in E. destruct m; try done.
    intros Heq. rewrite available_spec in E. by apply (E y).
  - destruct (moves_name _ _ _ _) eqn:E; [|done]. unfold moves_name in E. apply andb_true_iff in E as [_ E].
    intros Heq. rewrite available_spec in E. by apply (E y).
Qed.

Lemma insert_worker_ok d w :
  constraints_ok d = true → ck_worker w = true → has (find_cluster d (Worker.cluster_id w)) = true →
  (∀ x, x ∈ Db.workers d → Worker.id x ≠ Worker.id w) →
  (∀ x, x ∈ Db.workers d → Worker.cluster_id x = Worker.cluster_id w →
     Worker.hostname x ≠ Worker.hostname w ∧ Worker.name x ≠ Worker.name w) →
  constraints_ok (Db.set_workers (Db.workers d ++ [w]) d) = true.
Proof.
  intros Hd Hck Hcl Hid Hkeys. destruct (workers_unique d Hd) as (H1 & H2 & H3).
  assert (∀ {K} (key : Worker.t → K), (∀ x, x ∈ Db.workers d → key x ≠ key w) → NoDup (map key (Db.workers d)) →
            NoDup (map key (Db.workers d ++ [w]))) as Hsnoc.
  { intros K key Hk Hnd. rewrite map_app. apply NoDup_app. split_and!; [done| |apply NoDup_singleton].
    intros k (x & -> & Hx)%list_elem_of_fmap ?%list_elem_of_singleton. by apply (Hk x). }
  apply constraints_set_workers; try done.
  - rewrite forallb_app. simpl. rewrite Hck. apply andb_true_iff. split; [|done].
    apply forallb_forall. intros x Hx%list_elem_of_In. by apply (ck_workers d Hd).
  - by apply Hsnoc.
  - apply Hsnoc; [|done]. intros x Hx [= Hc Hh]. by destruct (Hkeys x Hx Hc).
  - apply Hsnoc; [|done]. intros x Hx [= Hc Hh]. by destruct (Hkeys x Hx Hc).
  - intros x [Hx| ->%list_elem_of_singleton]%elem_of_app; [by apply (ck_workers d Hd)|done].
  - intros x Hx. rewrite map_app, elem_of_app. left. apply list_elem_of_fmap. eauto.
Qed.

(** The row a registration leaves for the worker it names. *)
Definition registered_row (token : string) (address : option string) (now : datetime) (c : uuid) (w : Worker.t) : Prop :=
  Worker.cluster_id w = c ∧ Worker.state w = "connected" ∧ Worker.token_hash w = sha256_hex token ∧
  Worker.address w = address ∧ Worker.last_seen_at w = Some now.

Lemma find_worker_update i f d w :
  (∀ w, Worker.id (f w) = Worker.id w) → find_worker d i = Some w → find_worker (update_worker i f d) i = Some (f w).
Proof.
  intros Hf. unfold find_worker, update_worker, update_where. simpl. induction (Db.workers d) as [|x l IH]; [done|].
  cbn [find_by map]. destruct (Worker.id x =? i)%N eqn:E.
  - intros [= <-]. by rewrite Hf, E.
  - by rewrite E.
Qed.
Lemma find_worker_unique d w : constraints_ok d = true → w ∈ Db.workers d → find_worker d (Worker.id w) = Some w.
Proof.
  intros Hd Hw. unfold find_worker. destruct (find_by _ _) as [x|] eqn:E.
  - apply find_by_Some in E as [Hx Hi%N.eqb_eq]. f_equal.
    by apply (NoDup_map_inj_key Worker.id (Db.workers d)); [apply constraints_worker_ids|..].
  - pose proof (proj1 (find_by_None _ _) E w Hw) as H. simpl in H. by rewrite N.eqb_refl in H.
Qed.

(** The two ways a registration ends: on the row it found, or on a new one. *)
Definition registered_as (request : RegisterRequest.t) (token : string) (address : option string) (now : datetime) (c id : uuid)
    (d d' : Db.t) : Prop :=
  constraints_ok d' = true ∧
  (∃ w, find_worker d' id = Some w ∧ registered_row token address now c w) ∧
  (∀ w, w ∈ Db.workers d → Worker.cluster_id w = c → Worker.hostname w = RegisterRequest.hostname request → Worker.id w = id) ∧
  (∀ w, w ∈ Db.workers d → Worker.id w ≠ id → w ∈ Db.workers d').
Lemma refreshed_registered request token address now c name d w m :
  constraints_ok d = true →
  name = (if nonempty (RegisterRequest.worker_name request) then RegisterRequest.worker_name request
          else RegisterRequest.hostname request) →
  find_registered d c name (RegisterRequest.hostname request) = Some (w, m) →
  registered_as request token address now c (Worker.id w) d
    (update_worker (Worker.id w)
       (refreshed request token address now (moves_host request c (Worker.id w) m d) (moves_name request c w d)) d).
Proof.
  intros Hd Hname Hf. pose proof (find_registered_Some _ _ _ _ _ _ Hf) as (Hw & Hwc & Hm). rewrite <-Hwc in Hf.
  set (f := refreshed request token address now (moves_host request c (Worker.id w) m d) (moves_name request c w d)).
  assert (∀ x, Worker.id (f x) = Worker.id x) as Hfid by (intros x; apply refreshed_cols).
  split_and!.
  - apply (update_worker_ok d Hd).
    + intros x. unfold f. split_and!; apply refreshed_cols.
    + intros x y Hx Hy Hxw Hyw Hxy. unfold f. rewrite <-Hwc. by eapply refreshed_unique.
  - exists (f w). split; [apply find_worker_update; [done|by apply find_worker_unique]|].
    destruct (refreshed_cols request token address now (moves_host request c (Worker.id w) m d) (moves_name request c w d) w)
      as (_ & Hc & _ & _ & ? & ? & ? & ?).
    split_and!; try done. unfold f. by rewrite Hc.
  - intros x Hx Hxc Hxh. destruct (workers_unique d Hd) as (_ & Hhost & _).
    assert (Worker.hostname w = RegisterRequest.hostname request) as Hwh.
    { destruct m; [by destruct Hm|done|]. destruct Hm as [_ Hm]. by destruct (Hm x Hx Hxc). }
    f_equal. apply (NoDup_map_inj_key (λ w, (Worker.cluster_id w, Worker.hostname w)) (Db.workers d)); [done..|].
    simpl. congruence.
  - intros x Hx Hxw. apply elem_of_update_where. exists x. split; [done|]. by rewrite (proj2 (N.eqb_neq _ _) Hxw).
Qed.
Lemma inserted_registered request token address now c name d new_id :
  constraints_ok d = true → has (find_cluster d c) = true → (∀ w, w ∈ Db.workers d → Worker.id w ≠ new_id) →
  find_registered d c name (RegisterRequest.hostname request) = None →
  registered_as request token address now c new_id d
    (Db.set_workers (Db.workers d ++ [new_worker request c name token address new_id now]) d).
Proof.
  intros Hd Hhas Hnew Hf. pose proof (find_registered_None _ _ _ _ Hf) as Hnone.
  set (w := new_worker request c name token address new_id now).
  assert (constraints_ok (Db.set_workers (Db.workers d ++ [w]) d) = true) as Hok.
  { apply insert_worker_ok; [done|done|done|exact Hnew|exact Hnone]. }
  split_and!; [done|..].
  - exists w. split; [|done].
    change new_id with (Worker.id w). apply find_worker_unique; [done|]. simpl. apply elem_of_app. right. by constructor.
  - intros x Hx Hxc Hxh. by destruct (Hnone x Hx Hxc).
  - intros x Hx _. simpl. apply elem_of_app. by left.
Qed.

(** What a registration stores fits its columns: the name, the host name, the version
    and the address. *)
Definition registered_name (request : RegisterRequest.t) : string :=
  if nonempty (RegisterRequest.worker_name request) then RegisterRequest.worker_name request
  else RegisterRequest.hostname request.
Definition register_fits (request : RegisterRequest.t) (address : option string) : bool :=
  str_fits 64 (registered_name request) && str_fits 255 (RegisterRequest.hostname request)
  && str_fits 64 (RegisterRequest.version request) && opt_fits (str_fits 255) address.
Lemma refreshed_fits request token address now sethost setname w :
  register_fits request address = true → (setname = true → nonempty (RegisterRequest.worker_name request) = true) →
  fits_worker w = true → fits_worker (refreshed request token address now sethost setname w) = true.
Proof.
  unfold register_fits, registered_name, fits_worker, refreshed. rewrite !andb_true_iff. intros [[[Hn Hh] Hv] Ha] Hset Hw.
  pose proof (sha256_hex_fits token) as Ht. destruct_and! Hw.
  destruct sethost, setname, (nonempty (RegisterRequest.version request)); cbn; rewrite ?(Hset eq_refl) in Hn;
    rewrite ?andb_true_iff; repeat split; assumption || reflexivity.
Qed.
Lemma new_worker_fits request c token address id now :
  register_fits request address = true → fits_worker (new_worker request c (registered_name request) token address id now) = true.
Proof.
  unfold register_fits, fits_worker, new_worker. rewrite !andb_true_iff. intros [[[Hn Hh] Hv] Ha].
  pose proof (sha256_hex_fits token) as Ht. cbn -[or_none]. unfold or_none.
  destruct (String.eqb (RegisterRequest.version request) ""); cbn; rewrite ?andb_true_iff; repeat split; assumption || reflexivity.
Qed.


Definition sample_register : RegisterRequest.t :=
  RegisterRequest.mk "inferna-registration-token" "w1" "gpu-one" "" "0.2.0" 1 "".
(** A host name of 65 characters without a worker name passes the gates and is no name
    the column of 64 holds. *)
Definition long_hostname : RegisterRequest.t :=
  RegisterRequest.mk "inferna-registration-token" "" (String.concat "" (replicate 65 "h")) "" "0.2.0" 1 "".
Lemma long_hostname_does_not_fit :
  let '(r, st) := register_worker Settings.default (λ _, None) "secret" 99 7 long_hostname (Session.start Sample.db) in
  r = Ok (RegisterResponse.mk (str_uuid 99) "secret" 5) ∧ constraints_ok (Session.durable st) = true ∧
  fits_ok Sample.db = true ∧ fits_ok (Session.durable st) = false.
Proof. by vm_compute. Qed.

(** ** Lemmas: synchronisation *)

(** Ids are of 128 bits. *)
Definition wide (d : Db.t) : Prop := ∀ i, i ∈ Db.instances d → (ModelInstance.id i < 2 ^ 128)%N.

(** What a synchronisation may do to an instance: the reporting worker's rows get
    the observed state, error, log tail and port; nothing else changes. *)
Definition observed_only (wid : uuid) (i i' : ModelInstance.t) : Prop :=
  ModelInstance.id i' = ModelInstance.id i ∧ ModelInstance.desired_state i' = ModelInstance.desired_state i ∧
  ModelInstance.generation i' = ModelInstance.generation i ∧ ModelInstance.worker_id i' = ModelInstance.worker_id i ∧
  ModelInstance.deployment_id i' = ModelInstance.deployment_id i ∧ ModelInstance.model_id i' = ModelInstance.model_id i ∧
  ModelInstance.gpu_indexes i' = ModelInstance.gpu_indexes i ∧
  ModelInstance.parallel_group_id i' = ModelInstance.parallel_group_id i ∧
  ModelInstance.node_rank i' = ModelInstance.node_rank i ∧
  (ModelInstance.worker_id i ≠ Some wid → i' = i) ∧
  (ModelInstance.log_tail i' = ModelInstance.log_tail i ∨
   ∃ t, ModelInstance.log_tail i' = Some t ∧ Z.of_nat (char_count t) <= LOG_TAIL_MAX_CHARS).

Lemma observed_only_refl wid i : observed_only wid i i.
Proof. unfold observed_only. split_and!; try done. by left. Qed.
Lemma observed_only_trans wid i j k : observed_only wid i j → observed_only wid j k → observed_only wid i k.
Proof.
  intros (H1 & H2 & H3 & H4 & H5 & H6 & H7 & H8 & H9 & H10 & H11)
    (G1 & G2 & G3 & G4 & G5 & G6 & G7 & G8 & G9 & G10 & G11).
  unfold observed_only. split_and!; try congruence.
  - intros Hne. rewrite <-H10 by done. apply G10. congruence.
  - destruct G11 as [->|G11]; [done|by right].
Qed.

Lemma apply_status_observed wid s i : ModelInstance.worker_id i = Some wid → observed_only wid i (apply_status s i).
Proof.
  intros Hw. unfold apply_status. set (t := last_chars _ _).
  assert (Z.of_nat (char_count t) <= LOG_TAIL_MAX_CHARS) as Ht.
  { pose proof (char_count_last (Z.to_nat LOG_TAIL_MAX_CHARS) (InstanceStatus.log_tail s)).
    unfold t, LOG_TAIL_MAX_CHARS in *. lia. }
  clearbody t.
  destruct (nonempty (InstanceStatus.log_tail s)), (InstanceStatus.port s =? 0); unfold observed_only; split_and!;
    try done; try (by left); right; exists t; (split; [reflexivity|exact Ht]).
Qed.

Lemma update_where_Forall2 {A} (R : A → A → Prop) (p : A → bool) f l :
  (∀ x, R x x) → (∀ x, x ∈ l → p x = true → R x (f x)) → Forall2 R l (update_where p f l).
Proof.
  intros Hr Hf. unfold update_where. induction l as [|x l IH]; [constructor|]. cbn [map]. constructor.
  - destruct (p x) eqn:E; [|done]. apply Hf; [by constructor|done].
  - apply IH. intros y Hy. apply Hf. by constructor.
Qed.

Lemma Forall2_compose {A} (R : A → A → Prop) l1 l2 l3 :
  (∀ x y z, R x y → R y z → R x z) → Forall2 R l1 l2 → Forall2 R l2 l3 → Forall2 R l1 l3.
Proof.
  intros Hr H. revert l3. induction H as [|x y l1 l2 Hxy H IH]; intros l3 H3; inversion H3; subst; constructor; eauto.
Qed.

Lemma sync_statuses_observed wid statuses d :
  NoDup (map ModelInstance.id (Db.instances d)) →
  Forall2 (observed_only wid) (Db.instances d) (Db.instances (sync_statuses wid statuses d)).
Proof.
  intros Hnd. unfold sync_statuses. cbn [Db.instances Db.set_instances]. set (known := map ModelInstance.id _).
  assert (∀ i, i ∈ Db.instances d → ModelInstance.id i ∈ known → ModelInstance.worker_id i = Some wid) as Hk.
  { intros i Hi (j & Hij & Hj)%list_elem_of_fmap. unfold known_rows in Hj.
    apply elem_of_where in Hj as [Hj [Hw%uuid_eqb_true _]%andb_true_iff].
    by rewrite (NoDup_map_inj_key ModelInstance.id (Db.instances d) i j). }
  enough (∀ ss rows, Forall2 (observed_only wid) (Db.instances d) rows →
    Forall2 (observed_only wid) (Db.instances d)
      (foldl (λ rows s, update_where (λ i, bool_decide (ModelInstance.id i ∈ known)
                 && String.eqb (str_uuid (ModelInstance.id i)) (InstanceStatus.instance_id s)) (apply_status s) rows) rows ss)) as H.
  { apply H. apply Forall_Forall2_diag, Forall_forall. intros. apply observed_only_refl. }
  induction ss as [|s ss IH]; intros rows Hrows; [exact Hrows|]. cbn [foldl]. apply IH.
  eapply Forall2_compose; [|exact Hrows|].
  - intros x y z. apply observed_only_trans.
  - apply update_where_Forall2; [intros; apply observed_only_refl|].
    intros i' Hi' [Hin%bool_decide_eq_true _]%andb_true_iff.
    apply list_elem_of_lookup in Hi' as [k Hk'].
    destruct (Forall2_lookup_r _ _ _ _ _ Hrows Hk') as (i & Hi & Hobs).
    apply apply_status_observed. destruct Hobs as (Hid & _ & _ & -> & _).
    apply Hk; [by eapply list_elem_of_lookup_2|]. by rewrite <-Hid.
Qed.

(** What a synchronisation leaves in a row: each observed column has the value of the
    last report that sets it, of those naming the row when it is the worker's own. *)
Definition reports (wid : uuid) (statuses : list InstanceStatus.t) (i : ModelInstance.t) : list InstanceStatus.t :=
  if uuid_eqb (ModelInstance.worker_id i) (Some wid)
  then where_ (λ s, String.eqb (InstanceStatus.instance_id s) (str_uuid (ModelInstance.id i))) statuses else [].
Definition latest {A} (old : A) (l : list A) : A := default old (last l).
Definition observed (wid : uuid) (statuses : list InstanceStatus.t) (i : ModelInstance.t) : ModelInstance.t :=
  let mine := reports wid statuses i in
  ModelInstance.set_port (latest (ModelInstance.port i)
    (map (λ s, Some (InstanceStatus.port s)) (where_ (λ s, negb (InstanceStatus.port s =? 0)) mine)))
  (ModelInstance.set_log_tail (latest (ModelInstance.log_tail i)
    (map (λ s, Some (last_chars (Z.to_nat 8192) (InstanceStatus.log_tail s)))
       (where_ (λ s, nonempty (InstanceStatus.log_tail s)) mine)))
  (ModelInstance.set_error_detail (latest (ModelInstance.error_detail i) (map (λ s, or_none (InstanceStatus.detail s)) mine))
  (ModelInstance.set_state (latest (ModelInstance.state i) (map InstanceStatus.state mine)) i))).

Lemma foldl_update {A B} (p : B → A → bool) (f : B → A → A) bs l :
  foldl (λ rows b, update_where (p b) (f b) rows) l bs = map (λ x, foldl (λ x b, if p b x then f b x else x) x bs) l.
Proof.
  revert l. induction bs as [|b bs IH]; intros l; cbn [foldl]; [by rewrite map_id|].
  rewrite IH. unfold update_where. by rewrite map_map.
Qed.
Lemma latest_snoc {A} (old : A) l x : latest old (l ++ [x]) = x.
Proof. unfold latest. by rewrite last_snoc. Qed.
Lemma apply_status_keys s i :
  ModelInstance.id (apply_status s i) = ModelInstance.id i ∧
  ModelInstance.worker_id (apply_status s i) = ModelInstance.worker_id i.
Proof. unfold apply_status. by repeat case_match. Qed.
Lemma fold_statuses wid ss i :
  ModelInstance.worker_id i = Some wid →
  foldl (λ x s, if String.eqb (str_uuid (ModelInstance.id x)) (InstanceStatus.instance_id s)
                then apply_status s x else x) i ss = observed wid ss i.
Proof.
  intros Hw. induction ss as [|s ss IH] using rev_ind.
  { unfold observed, reports. destruct (uuid_eqb _ _); by destruct i. }
  rewrite foldl_app, IH. cbn [foldl]. unfold observed, reports. rewrite (proj2 (uuid_eqb_true _ _) Hw).
  rewrite !where_app, String.eqb_sym. cbn.
  destruct (String.eqb (InstanceStatus.instance_id s) _); [|by rewrite !app_nil_r].
  unfold apply_status. change LOG_TAIL_MAX_CHARS with 8192. cbn.
  destruct (nonempty (InstanceStatus.log_tail s)), (InstanceStatus.port s =? 0); cbn [map negb];
    rewrite ?app_nil_r, ?map_app; cbn [map]; by rewrite !latest_snoc.
Qed.
Lemma sync_statuses_exact wid statuses d :
  NoDup (map ModelInstance.id (Db.instances d)) → wide d →
  Db.instances (sync_statuses wid statuses d) = map (observed wid statuses) (Db.instances d).
Proof.
  intros Hnd Hwide. unfold sync_statuses. cbn [Db.instances Db.set_instances]. rewrite foldl_update.
  apply map_ext_in. intros i Hi%list_elem_of_In. set (known := map ModelInstance.id _).
  assert (∀ s, s ∈ statuses → InstanceStatus.instance_id s = str_uuid (ModelInstance.id i) →
    ModelInstance.id i ∈ known ↔ ModelInstance.worker_id i = Some wid) as Hk.
  { intros s Hs Ht. unfold known, known_rows. rewrite list_elem_of_fmap. split.
    - intros (j & Hij & [Hj [Hw%uuid_eqb_true _]%andb_true_iff]%elem_of_where).
      by rewrite (NoDup_map_inj_key ModelInstance.id (Db.instances d) i j).
    - intros Hw. exists i. split; [done|]. apply elem_of_where. split; [done|].
      rewrite (proj2 (uuid_eqb_true _ _) Hw). apply bool_decide_eq_true. unfold parsed_ids. apply list_elem_of_omap.
      exists s. split; [done|]. rewrite Ht. by apply uuid_round_trip_holds, Hwide. }
  destruct (decide (ModelInstance.worker_id i = Some wid)) as [Hw|Hw].
  - rewrite <-(fold_statuses wid statuses i Hw).
    assert (∀ x, ModelInstance.id x = ModelInstance.id i → ∀ ss, (∀ s, s ∈ ss → s ∈ statuses) → 
      foldl (λ x b, if bool_decide (ModelInstance.id x ∈ known) && String.eqb (str_uuid (ModelInstance.id x)) (InstanceStatus.instance_id b) then apply_status b x else x) x ss
      = foldl (λ x s, if String.eqb (str_uuid (ModelInstance.id x)) (InstanceStatus.instance_id s) then apply_status s x else x) x ss) as H;
      [|by apply H].
    intros x Hx ss. revert x Hx. induction ss as [|s ss IH]; intros x Hx Hss; [done|]. cbn [foldl].
    assert (bool_decide (ModelInstance.id x ∈ known) && String.eqb (str_uuid (ModelInstance.id x)) (InstanceStatus.instance_id s)
      = String.eqb (str_uuid (ModelInstance.id x)) (InstanceStatus.instance_id s)) as ->.
    { destruct (String.eqb_spec (str_uuid (ModelInstance.id x)) (InstanceStatus.instance_id s)) as [E|]; [|apply andb_false_r].
      rewrite andb_true_r. apply bool_decide_eq_true. rewrite Hx in *. apply (Hk s); [apply Hss; by left|done|done]. }
    apply IH; [|intros; apply Hss; by right]. case_match; [|done]. by rewrite (proj1 (apply_status_keys _ _)).
  - assert (observed wid statuses i = i) as ->.
    { unfold observed, reports. destruct (uuid_eqb _ _) eqn:E; [by apply uuid_eqb_true in E|]. by destruct i. }
    assert (∀ ss, (∀ s, s ∈ ss → s ∈ statuses) → foldl (λ x b, if bool_decide (ModelInstance.id x ∈ known) && String.eqb (str_uuid (ModelInstance.id x)) (InstanceStatus.instance_id b) then apply_status b x else x) i ss = i) as H; [|by apply H].
    induction ss as [|s ss IH]; intros Hss; [done|]. cbn [foldl].
    destruct (String.eqb_spec (str_uuid (ModelInstance.id i)) (InstanceStatus.instance_id s)) as [E|];
      [|rewrite andb_false_r; apply IH; intros; apply Hss; by right].
    rewrite bool_decide_false; [apply IH; intros; apply Hss; by right|]. intros Hin.
    by apply Hw, (Hk s); [apply Hss; left| |].
Qed.

(** *** GPUs *)
Lemma is_gpu_true wid i g : is_gpu wid i g = true ↔ WorkerGPU.worker_id g = wid ∧ WorkerGPU.index g = i.
Proof. unfold is_gpu. by rewrite andb_true_iff, N.eqb_eq, Z.eqb_eq. Qed.

Lemma upsert_gpus_elem wid rows0 existing gpus row :
  (∀ i, i ∈ existing ↔ ∃ g, g ∈ rows0 ∧ is_gpu wid i g = true) →
  NoDup (map GPUInfo.index gpus) →
  row ∈ foldl (upsert_gpu wid existing) rows0 gpus ↔
  (row ∈ rows0 ∧ (WorkerGPU.worker_id row = wid → WorkerGPU.index row ∉ map GPUInfo.index gpus)) ∨
  ∃ g, g ∈ gpus ∧ row = gpu_row wid g.
Proof.
  intros Hex. revert row. induction gpus as [|g gpus IH] using rev_ind; intros row Hnd.
  { simpl. setoid_rewrite elem_of_nil. naive_solver. }
  rewrite map_app in Hnd. apply NoDup_app in Hnd as (Hnd & Hg & _). cbn [map] in Hg.
  assert (GPUInfo.index g ∉ map GPUInfo.index gpus) as Hgi.
  { intros H. apply (Hg _ H). by constructor. }
  rewrite foldl_app. cbn [foldl]. set (rows := foldl _ _ _) in *.
  assert (∀ row, row ∈ rows ↔ _) as IH' by (intros r; apply (IH r Hnd)). clear IH.
  assert (∀ r, is_gpu wid (GPUInfo.index g) r = true → r ∈ rows ↔ r ∈ rows0) as Hsame.
  { intros r [Hw Hi]%is_gpu_true. rewrite IH'. split.
    - intros [[? _]|(g' & Hg' & ->)]; [done|]. simpl in Hi. destruct Hgi. rewrite <-Hi. apply list_elem_of_fmap. eauto.
    - intros Hr. left. split; [done|]. intros _. by rewrite Hi. }
  setoid_rewrite elem_of_app. setoid_rewrite list_elem_of_singleton. rewrite map_app, not_elem_of_app. cbn [map].
  rewrite list_elem_of_singleton. unfold upsert_gpu. case_bool_decide as He.
  - rewrite elem_of_update_where. split.
    + intros (x & Hx & ->). destruct (is_gpu wid (GPUInfo.index g) x) eqn:Eg; [right; eauto|].
      apply IH' in Hx as [[Hx Hn]|(g' & Hg' & ->)]; [left|right; eauto]. split; [done|].
      intros Hw. split; [by apply Hn|]. intros Hi.
      assert (is_gpu wid (GPUInfo.index g) x = true) by (by apply is_gpu_true). congruence.
    + intros [[Hr Hn]|(g' & [Hg'| ->] & ->)].
      * exists row. split; [apply IH'; left; split; [done|]; intros Hw; by apply Hn|].
        destruct (is_gpu _ _ row) eqn:Eg; [|done]. apply is_gpu_true in Eg as [Hw Hi]. by destruct (Hn Hw).
      * exists (gpu_row wid g'). split; [apply IH'; right; eauto|].
        destruct (is_gpu _ _ _) eqn:Eg; [|done]. apply is_gpu_true in Eg as [_ Hi]. simpl in Hi.
        destruct Hgi. rewrite <-Hi. apply list_elem_of_fmap. eauto.
      * apply Hex in He as (x & Hx & Hxg). exists x. split; [by apply Hsame|]. by rewrite Hxg.
  - rewrite elem_of_app, list_elem_of_singleton. split.
    + intros [Hr| ->]; [|right; eauto]. apply IH' in Hr as [[Hr Hn]|(g' & Hg' & ->)]; [left|right; eauto].
      split; [done|]. intros Hw. split; [by apply Hn|]. intros Hi. apply He, Hex. exists row.
      split; [done|]. by apply is_gpu_true.
    + intros [[Hr Hn]|(g' & [Hg'| ->] & ->)]; [left|left|by right]; apply IH'; [left|right; eauto].
      split; [done|]. intros Hw. by apply Hn.
Qed.

Lemma sync_gpus_elem wid gpus d row :
  NoDup (map GPUInfo.index gpus) →
  row ∈ Db.worker_gpus (sync_gpus wid gpus d) ↔
  (row ∈ Db.worker_gpus d ∧ WorkerGPU.worker_id row ≠ wid) ∨ ∃ g, g ∈ gpus ∧ row = gpu_row wid g.
Proof.
  intros Hnd. unfold sync_gpus. cbn [Db.worker_gpus Db.set_worker_gpus]. set (existing := map WorkerGPU.index _).
  assert (∀ i, i ∈ existing ↔ ∃ g, g ∈ Db.worker_gpus d ∧ is_gpu wid i g = true) as Hex.
  { intros i. unfold existing. rewrite list_elem_of_fmap. setoid_rewrite elem_of_gpus_of.
    setoid_rewrite is_gpu_true. naive_solver. }
  rewrite elem_of_where, (upsert_gpus_elem _ _ _ _ _ Hex Hnd), negb_true_iff, <-not_true_iff_false, existsb_exists.
  setoid_rewrite <-list_elem_of_In. setoid_rewrite elem_of_where.
  setoid_rewrite negb_true_iff. setoid_rewrite bool_decide_eq_false. setoid_rewrite is_gpu_true. split.
  - intros [[[Hr Hn]|Hg] Hst]; [|by right]. left. split; [done|]. intros Hw. apply Hst.
    exists (WorkerGPU.index row). split_and!; [|by apply Hn|done|done]. apply Hex. exists row. split; [done|]. by apply is_gpu_true.
  - intros [[Hr Hw]|(g & Hg & ->)]; (split; [|intros (i & [He Hi] & Hw' & Hi')]).
    + left. done.
    + done.
    + right. eauto.
    + apply Hi. simpl in Hi'. subst i. apply list_elem_of_fmap. eauto.
Qed.

(** *** The handler *)
Lemma sync_worker_inv now request d cmds st :
  sync_worker now request (Session.start d) = (Ok cmds, st) →
  ∃ wid w cmds0,
    uuid_of_string (SyncRequest.worker_id request) = Some wid ∧ find_worker d wid = Some w ∧
    Worker.token_hash w = sha256_hex (SyncRequest.worker_token request) ∧
    let statuses := SyncRequest.instances request in
    let d2 := sync_gpus wid (SyncRequest.gpus request) (update_worker wid (apply_system (SyncRequest.system request) now) d) in
    let d3 := sync_statuses wid statuses d2 in
    build_commands wid statuses d3 = Ok cmds0 ∧ constraints_ok d3 = true ∧ st = Session.mk d3 d3 false ∧
    cmds = cmds0 ++ map delete_command
      (where_ (λ s, negb (bool_decide (InstanceStatus.instance_id s ∈ known_ids wid statuses d))) statuses).
Proof.
  intros H. unfold sync_worker in H. destruct (uuid_of_string _) as [wid|]; [|done].
  apply M_bind_Ok in H as (row & s1 & (_ & -> & ->)%query_Ok & H). change (Session.view (Session.start d)) with d in H.
  destruct (find_worker d wid) as [w|] eqn:Hw; [|done].
  destruct (String.eqb_spec (Worker.token_hash w) (sha256_hex (SyncRequest.worker_token request))) as [Ht|]; [|done].
  cbn [negb] in H. unfold Session.start in H. rewrite !bind_execute, bind_query, bind_execute, bind_query in H.
  set (d2 := sync_gpus wid _ _) in *. set (d3 := sync_statuses wid _ d2) in *.
  destruct (build_commands wid _ d3) as [cmds0|e] eqn:Hb; [|done].
  rewrite (bind_Ok _ _ _ cmds0 (Session.mk d3 d false)) in H by done.
  apply M_bind_Ok in H as ([] & s2 & (_ & Hok & ->)%commit_Ok & [= <- <-]).
  exists wid, w, cmds0. split_and!; [done|done|done|]. cbv zeta. fold d2 d3. split_and!; done.
Qed.

(** C16 What a synchronisation writes: the caller is the worker whose token hashes to
    the stored value; every row of the instances table is left as [observed] says, which
    gives each column: in a row of that worker the state and the error are those of
    the last report naming it, the log tail is the last 8192 characters of the last
    tail that is not empty and the port the last that is not zero, and every other
    column of it, and every row that no report names or that is another worker's,
    is unchanged; the worker's GPU rows
    become exactly the reported ones, the other workers and their GPUs stay as
    they were; the result satisfies every constraint. *)
Theorem sync_worker_effect now request d cmds st :
  constraints_ok d = true → wide d → NoDup (map GPUInfo.index (SyncRequest.gpus request)) →
  sync_worker now request (Session.start d) = (Ok cmds, st) →
  let d' := Session.durable st in
  ∃ wid w, uuid_of_string (SyncRequest.worker_id request) = Some wid ∧ find_worker d wid = Some w ∧
    Worker.token_hash w = sha256_hex (SyncRequest.worker_token request) ∧
    constraints_ok d' = true ∧
    Db.instances d' = map (observed wid (SyncRequest.instances request)) (Db.instances d) ∧
    (∀ row, row ∈ Db.worker_gpus d' ↔
       (row ∈ Db.worker_gpus d ∧ WorkerGPU.worker_id row ≠ wid) ∨
       ∃ g, g ∈ SyncRequest.gpus request ∧ row = gpu_row wid g) ∧
    Db.workers d' = update_where (λ x, (Worker.id x =? wid)%N) (apply_system (SyncRequest.system request) now) (Db.workers d) ∧
    Db.deployments d' = Db.deployments d ∧ Db.models d' = Db.models d ∧ Db.users d' = Db.users d ∧
    Db.api_keys d' = Db.api_keys d ∧ Db.clusters d' = Db.clusters d.
Proof.
  intros Hd Hwide Hg H d'. apply sync_worker_inv in H as (wid & w & cmds0 & Hp & Hw & Ht & _ & Hok & Hst & _).
  unfold d'. rewrite Hst. cbn [Session.durable]. exists wid, w. split_and!; try done.
  - exact (sync_statuses_exact wid (SyncRequest.instances request)
      (sync_gpus wid (SyncRequest.gpus request) (update_worker wid (apply_system (SyncRequest.system request) now) d))
      (constraints_instance_ids d Hd) Hwide).
  - intros row. exact (sync_gpus_elem wid _ (update_worker wid _ d) row Hg).
Qed.

Lemma known_ids_spec wid statuses d t :
  wide d →
  (∃ s, s ∈ statuses ∧ InstanceStatus.instance_id s = t) →
  t ∈ known_ids wid statuses d ↔
  ∃ i, i ∈ Db.instances d ∧ ModelInstance.worker_id i = Some wid ∧ str_uuid (ModelInstance.id i) = t.
Proof.
  intros Hwide (s & Hs & Ht). unfold known_ids, known_rows. rewrite list_elem_of_fmap.
  setoid_rewrite elem_of_where. setoid_rewrite andb_true_iff. setoid_rewrite uuid_eqb_true.
  setoid_rewrite bool_decide_eq_true. split.
  - intros (i & -> & Hi & Hw & _). eauto.
  - intros (i & Hi & Hw & Hit). exists i. split_and!; try done. unfold parsed_ids. apply list_elem_of_omap.
    exists s. split; [done|]. rewrite Ht, <-Hit. by apply uuid_round_trip_holds, Hwide.
Qed.

Lemma build_commands_spec wid statuses d cmds c :
  build_commands wid statuses d = Ok cmds →
  c ∈ cmds ↔ ∃ i, i ∈ Db.instances d ∧ ModelInstance.worker_id i = Some wid ∧
    command_for d statuses i = Ok (Some c).
Proof.
  intros H. unfold build_commands in H. set (rows := where_ _ _) in H.
  enough (∀ c, c ∈ cmds ↔ ∃ i, i ∈ rows ∧ command_for d statuses i = Ok (Some c)) as Hc.
  { rewrite Hc. unfold rows. setoid_rewrite elem_of_where. setoid_rewrite uuid_eqb_true. naive_solver. }
  refine (foldR_inv (λ l cmds, ∀ c, c ∈ cmds ↔ ∃ i, i ∈ l ∧ command_for d statuses i = Ok (Some c)) _ rows [] cmds _ _ H).
  - setoid_rewrite elem_of_nil. naive_solver.
  - intros l1 i b0 b1 _ Hb Hstep c'. apply result_bind_Ok in Hstep as (o & Ho & [= <-]).
    setoid_rewrite elem_of_app. setoid_rewrite list_elem_of_singleton.
    destruct o as [c1|]; [rewrite elem_of_app, list_elem_of_singleton, Hb|rewrite Hb]; split.
    + intros [(j & ? & ?)| ->]; eauto.
    + intros (j & [?| ->] & Hj); [left; eauto|right; congruence].
    + intros (j & ? & ?). eauto.
    + intros (j & [?| ->] & Hj); [eauto|congruence].
Qed.

Lemma needs_start_spec i rep :
  needs_start i rep = true ↔
  match rep with
  | None => True
  | Some s => InstanceStatus.state s = "stopped" ∨ InstanceStatus.generation s < ModelInstance.generation i
  end.
Proof. unfold needs_start. destruct rep; rewrite orb_true_iff, Z.ltb_lt, String.eqb_eq; naive_solver. Qed.
Lemma needs_stop_spec rep :
  needs_stop rep = true ↔
  ∃ s, rep = Some s ∧ (InstanceStatus.state s = "starting" ∨ InstanceStatus.state s = "running").
Proof.
  unfold needs_stop, one_of. destruct rep as [s|]; [|naive_solver]. cbn [existsb].
  rewrite orb_false_r, orb_true_iff, !String.eqb_eq. naive_solver.
Qed.

(** C10 The commands of a synchronisation are exactly the reconciliation of the
    committed desired state with the report: a start for each of the worker's
    instances desired to run that is unreported, reported stopped or reported at
    an older generation; a stop for each desired to stop that is reported
    starting or running; a delete for each reported id that names no instance of
    this worker. *)
Theorem sync_worker_commands now request d cmds st wid c :
  constraints_ok d = true → wide d →
  uuid_of_string (SyncRequest.worker_id request) = Some wid →
  sync_worker now request (Session.start d) = (Ok cmds, st) →
  let statuses := SyncRequest.instances request in
  let rep i := reported statuses (str_uuid (ModelInstance.id i)) in
  c ∈ cmds ↔
  (∃ i, i ∈ Db.instances (Session.durable st) ∧ ModelInstance.worker_id i = Some wid ∧
     ((ModelInstance.desired_state i = "running" ∧
         match rep i with
         | None => True
         | Some s => InstanceStatus.state s = "stopped" ∨ InstanceStatus.generation s < ModelInstance.generation i
         end ∧
         ∃ m, find_model d (ModelInstance.model_id i) = Some m ∧ c = start_command m i) ∨
      (ModelInstance.desired_state i = "stopped" ∧ c = stop_command i ∧
         ∃ s, rep i = Some s ∧ (InstanceStatus.state s = "starting" ∨ InstanceStatus.state s = "running")))) ∨
  (∃ s, s ∈ statuses ∧ c = delete_command s ∧
     ∀ i, i ∈ Db.instances d → ModelInstance.worker_id i = Some wid →
       str_uuid (ModelInstance.id i) ≠ InstanceStatus.instance_id s).
Proof.
  intros Hd Hwide Hp H statuses rep.
  apply sync_worker_inv in H as (wid' & w & cmds0 & Hp' & Hw & Ht & Hb & Hok & Hst & ->).
  rewrite Hp in Hp'. injection Hp' as <-. fold statuses in Hb, Hst |- *.
  rewrite elem_of_app, (build_commands_spec _ _ _ _ _ Hb). rewrite Hst. cbn [Session.durable].
  set (d3 := sync_statuses _ _ _) in *. apply or_iff_compat_iff.
  - apply exists_iff_compat. intros i. do 2 (apply and_iff_compat_l).
    rewrite <-needs_start_spec, <-needs_stop_spec. unfold command_for. fold (rep i). change (find_model d3) with (find_model d).
    destruct (String.eqb_spec (ModelInstance.desired_state i) "running") as [E|E].
    + rewrite E. destruct (needs_start i (rep i)); [|naive_solver].
      destruct (find_model d _); naive_solver.
    + destruct (String.eqb_spec (ModelInstance.desired_state i) "stopped") as [E2|E2]; [|naive_solver].
      destruct (needs_stop (rep i)); naive_solver.
  - rewrite list_elem_of_fmap. apply exists_iff_compat. intros s.
    rewrite elem_of_where, negb_true_iff, bool_decide_eq_false.
    split.
    + intros (-> & Hs & Hn). split_and!; [done|done|]. intros i Hi Hwi E. apply Hn.
      apply known_ids_spec; [done|by exists s|]. eauto.
    + intros (Hs & -> & Hn). split_and!; [done|done|]. intros (i & Hi & Hwi & E)%known_ids_spec; [|done|by exists s].
      by apply (Hn i).
Qed.

(** A worker whose token is "secret", with a running, an unknown and a finished
    instance to report. *)
Definition sync_db : Db.t :=
  Db.set_workers (update_where (λ w, (Worker.id w =? 1)%N) (Worker.set_token_hash (sha256_hex "secret"))
                    (Db.workers Sample.db))
    (Sample.with_instances [Sample.instance 100 "running" "stopped" 1 0 8010;
                            Sample.instance 101 "scheduled" "running" 1 1 8011]).
Definition sample_sync : SyncRequest.t :=
  SyncRequest.mk (str_uuid 1) "secret" (SystemInfo.mk 8 64000 "linux" "w1")
    [GPUInfo.mk 0 "nvidia" "GPU" 24000 100 5 "" ""; GPUInfo.mk 1 "nvidia" "GPU" 16000 0 0 "" ""]
    [InstanceStatus.mk (str_uuid 100) "running" "" 8010 1 "ready"; InstanceStatus.mk "ghost" "running" "" 9000 1 ""].
Definition sample_sync_run : result (list InstanceCommand.t) * Session.t :=
  sync_worker 5 sample_sync (Session.start sync_db).
Definition commands_of (r : result (list InstanceCommand.t)) : list InstanceCommand.t :=
  match r with Ok l => l | Raise _ => [] end.

Lemma sync_worker_effect_witness :
  ∃ wid w, uuid_of_string (SyncRequest.worker_id sample_sync) = Some wid ∧ find_worker sync_db wid = Some w ∧
    Worker.token_hash w = sha256_hex "secret" ∧
    map (λ i, (ModelInstance.state i, ModelInstance.log_tail i)) (Db.instances (Session.durable sample_sync_run.2)) =
      [("running", Some "ready"); ("scheduled", None)].
Proof.
  destruct (sync_worker_effect 5 sample_sync sync_db (commands_of sample_sync_run.1) sample_sync_run.2)
    as (wid & w & H1 & H2 & H3 & _ & H4 & _);
    [vm_compute; reflexivity| |vm_decide|vm_compute; reflexivity|].
  - intros i Hi. repeat (apply elem_of_cons in Hi as [->|Hi]; [reflexivity|]). by apply elem_of_nil in Hi.
  - exists wid, w. split_and!; [exact H1|exact H2|exact H3|]. rewrite H4. vm_compute in H1. injection H1 as <-.
    vm_compute. reflexivity.
Defined.

Lemma sync_worker_commands_witness :
  delete_command (InstanceStatus.mk "ghost" "running" "" 9000 1 "") ∈ commands_of sample_sync_run.1.
Proof.
  apply (sync_worker_commands 5 sample_sync sync_db (commands_of sample_sync_run.1) sample_sync_run.2 1);
    [vm_compute; reflexivity| |vm_compute; reflexivity|vm_compute; reflexivity|].
  - intros i Hi. repeat (apply elem_of_cons in Hi as [->|Hi]; [reflexivity|]). by apply elem_of_nil in Hi.
  - right. exists (InstanceStatus.mk "ghost" "running" "" 9000 1 ""). split_and!; [by right; left|done|].
    intros i Hi _. repeat (apply elem_of_cons in Hi as [->|Hi]; [vm_compute; discriminate|]). by apply elem_of_nil in Hi.
Defined.

(** Authentication of a synchronisation: it is refused, as UNAUTHENTICATED and
    before anything is written, unless the id names a worker whose stored hash is
    the hash of the presented token. *)
Theorem sync_worker_auth now request d :
  let auth := ∃ wid w, uuid_of_string (SyncRequest.worker_id request) = Some wid ∧ find_worker d wid = Some w ∧
                Worker.token_hash w = sha256_hex (SyncRequest.worker_token request) in
  (∃ detail, sync_worker now request (Session.start d) = (Raise (AioRpcError UNAUTHENTICATED detail), Session.start d)) ∨ auth.
Proof.
  unfold sync_worker. destruct (uuid_of_string _) as [wid|]; [|left; by eexists].
  unfold Session.start. rewrite bind_query. destruct (find_worker d wid) as [w|] eqn:Hw; [|left; by eexists].
  destruct (String.eqb_spec (Worker.token_hash w) (sha256_hex (SyncRequest.worker_token request))) as [Ht|Ht]; [|left; by eexists].
  right. by exists wid, w.
Qed.

(** *** Parallelism *)
(** Rank wiring: the rendezvous text stored on a rank splits back into the host
    and port every rank dials, whatever the host text (an IPv6 one included), and
    the worker receives them as MASTER_ADDR and MASTER_PORT; an instance outside
    a parallel group is started with the single-node configuration, unchanged. *)
Theorem apply_parallelism_rendezvous config i host port :
  0 <= port →
  (ModelInstance.parallel_group_id i = None → _apply_parallelism config i = config) ∧
  (is_Some (ModelInstance.parallel_group_id i) → ModelInstance.rendezvous i = Some (host +:+ ":" +:+ str_Z port) →
   let config' := _apply_parallelism config i in
   EngineConfig.port config' = EngineConfig.port config ∧
   ∃ r, EngineConfig.rendezvous config' = Some r ∧ Rendezvous.master_address r = host ∧
     Rendezvous.master_port r = port ∧ Rendezvous.node_rank r = default 0 (ModelInstance.node_rank i) ∧
     Rendezvous.env r = ["MASTER_ADDR=" +:+ host; "MASTER_PORT=" +:+ str_Z port]).
Proof.
  intros Hp. unfold _apply_parallelism. split; [by intros ->|]. intros [g ->] ->.
  change (host +:+ ":" +:+ str_Z port) with (host +:+ String ":" (str_Z port)).
  rewrite rpartition_app by by apply str_Z_no_colon. split; [done|]. eexists. split; [done|].
  rewrite str_Z_isdigit, py_int_str_Z by done. done.
Qed.

Lemma apply_parallelism_rendezvous_witness :
  let config := EngineConfig.mk "vllm" "org/model" "latency" [0] 8000 0 false None None [] in
  ∃ r, EngineConfig.rendezvous (_apply_parallelism config
    (ModelInstance.mk 5 7 1 (Some 2%N) 50 "vllm" "latency" [0] "scheduled" "running" 1 None None None
       (Some 9%N) (Some 1) (Some 2) (Some "pp") (Some "fd00::7:8110") 0)) = Some r ∧ Rendezvous.master_address r = "fd00::7".
Proof.
  pose (config := EngineConfig.mk "vllm" "org/model" "latency" [0] 8000 0 false None None []).
  pose (i := ModelInstance.mk 5 7 1 (Some 2%N) 50 "vllm" "latency" [0] "scheduled" "running" 1 None None None
       (Some 9%N) (Some 1) (Some 2) (Some "pp") (Some "fd00::7:8110") 0).
  destruct (apply_parallelism_rendezvous config i "fd00::7" 8110) as [_ H]; [lia|].
  destruct H as (_ & r & H1 & H2 & _); [by eexists|reflexivity|].
  exists r. split; [exact H1|exact H2].
Defined.

(** *** The watchdog *)
Lemma disconnect_all_workers ws d :
  Db.workers (foldl disconnect_worker d ws) =
  update_where (λ w, bool_decide (Worker.id w ∈ map Worker.id ws)) (Worker.set_state "disconnected") (Db.workers d).
Proof.
  revert d. induction ws as [|w ws IH]; intros d.
  - rewrite update_where_id; [done|]. intros x _. by apply bool_decide_eq_false, not_elem_of_nil.
  - cbn [foldl]. rewrite IH. unfold disconnect_worker, update_worker. cbn [Db.workers Db.set_workers Db.set_instances].
    unfold update_where. rewrite map_map. apply map_ext. intros x. cbn [map].
    destruct (N.eqb_spec (Worker.id x) (Worker.id w)) as [E|E].
    + rewrite (bool_decide_eq_true_2 (Worker.id x ∈ _ :: _)) by (rewrite E; by constructor). by case_match.
    + rewrite (bool_decide_ext (Worker.id x ∈ _ :: _) (Worker.id x ∈ map Worker.id ws)); [done|].
      rewrite elem_of_cons. naive_solver.
Qed.

Lemma disconnected_not_lost wid i : lost_instance wid (disconnect_instance i) = false.
Proof. unfold lost_instance. simpl. by rewrite andb_false_r. Qed.

Lemma disconnect_all_instances ws d :
  Db.instances (foldl disconnect_worker d ws) =
  update_where (λ i, existsb (λ w, lost_instance (Worker.id w) i) ws) disconnect_instance (Db.instances d).
Proof.
  revert d. induction ws as [|w ws IH]; intros d; [by rewrite update_where_id|].
  cbn [foldl]. rewrite IH. unfold disconnect_worker, update_worker. cbn [Db.instances Db.set_workers Db.set_instances].
  unfold update_where. rewrite map_map. apply map_ext. intros i. cbn [existsb].
  destruct (lost_instance (Worker.id w) i); [|done]. cbn [orb].
  assert (existsb (λ w, lost_instance (Worker.id w) (disconnect_instance i)) ws = false) as ->; [|done].
  clear. induction ws as [|w ws IH]; [done|]. cbn [existsb]. by rewrite disconnected_not_lost.
Qed.

(** Stale workers and the instances a watchdog pass gives up on. *)
Definition lost_with (cutoff : datetime) (d : Db.t) (i : ModelInstance.t) : bool :=
  existsb (λ w, stale_worker cutoff w && lost_instance (Worker.id w) i) (Db.workers d).

Lemma existsb_where {A} (p q : A → bool) l : existsb q (where_ p l) = existsb (λ x, p x && q x) l.
Proof. induction l as [|x l IH]; [done|]. simpl. destruct (p x); simpl; by rewrite IH. Qed.

(** The watchdog always completes on a consistent database: it marks exactly the
    connected workers silent for more than 30 seconds as disconnected, turns
    exactly their live instances that are desired to run into errors, leaves
    every other row alone, and afterwards no connected worker is stale. *)
Theorem mark_disconnected_effect now d :
  constraints_ok d = true →
  let cutoff := now - seconds DISCONNECT_AFTER_SECONDS in
  ∃ d', mark_disconnected now (Session.start d) = (Ok tt, Session.mk d' d' false) ∧
    constraints_ok d' = true ∧
    Db.workers d' = update_where (stale_worker cutoff) (Worker.set_state "disconnected") (Db.workers d) ∧
    Db.instances d' = update_where (lost_with cutoff d) disconnect_instance (Db.instances d) ∧
    (∀ w, w ∈ Db.workers d' → stale_worker cutoff w = false).
Proof.
  intros Hd cutoff. unfold mark_disconnected, Session.start. rewrite bind_query. fold cutoff.
  set (stale := where_ (stale_worker cutoff) (Db.workers d)).
  set (d' := foldl disconnect_worker d stale).
  assert (Db.workers d' = update_where (stale_worker cutoff) (Worker.set_state "disconnected") (Db.workers d)) as Hw.
  { unfold d'. rewrite disconnect_all_workers. apply update_where_ext. intros w Hw. apply Bool.eq_iff_eq_true.
    rewrite bool_decide_eq_true, list_elem_of_fmap. unfold stale. setoid_rewrite elem_of_where. split.
    - intros (x & Hid & Hx & Hs). by rewrite (NoDup_map_inj_key Worker.id (Db.workers d) w x (constraints_worker_ids d Hd)).
    - eauto. }
  assert (Db.instances d' = update_where (lost_with cutoff d) disconnect_instance (Db.instances d)) as Hi.
  { unfold d'. rewrite disconnect_all_instances. apply update_where_ext. intros i _. unfold stale, lost_with.
    apply existsb_where. }
  assert (∀ w, w ∈ Db.workers d' → stale_worker cutoff w = false) as Hns.
  { rewrite Hw. intros w (x & Hx & ->)%elem_of_update_where. by destruct (stale_worker cutoff x) eqn:E. }
  assert (constraints_ok d' = true) as Hok.
  { assert (d' = Db.set_workers (update_where (stale_worker cutoff) (Worker.set_state "disconnected") (Db.workers d))
                   (Db.set_instances (update_where (lost_with cutoff d) disconnect_instance (Db.instances d)) d)) as ->.
    { rewrite <-Hw, <-Hi. unfold d'. clear. induction stale as [|w ws IH] using rev_ind; [by destruct d|].
      rewrite !foldl_app. cbn [foldl]. unfold disconnect_worker at 1, update_worker at 1. rewrite IH. done. }
    assert (constraints_ok (Db.set_instances (update_where (lost_with cutoff d) disconnect_instance (Db.instances d)) d) = true) as Hoi.
    { apply constraints_update_instances; [done|]. intros i (w & _ & [_ Hl]%andb_true_iff)%existsb_exists Hck.
      unfold lost_instance in Hl. rewrite !andb_true_iff in Hl. destruct Hl as [[_ Hdes] Hlive]. split.
      - unfold ck_instance in *. simpl. rewrite !andb_true_iff in *. tauto.
      - unfold same_refs. split_and!; try done. left. unfold worker_port_key, port_reserved. simpl. by rewrite Hdes. }
    apply constraints_set_workers; [done|..]; cbn [Db.workers Db.set_instances].
    - apply forallb_forall. intros w Hin%list_elem_of_In. apply elem_of_update_where in Hin as (x & Hx & ->).
      destruct (stale_worker _ _); [done|]. by apply (ck_workers d Hd).
    - rewrite update_where_attr by done. by apply workers_unique.
    - rewrite update_where_attr by done. by apply workers_unique.
    - rewrite update_where_attr by done. by apply workers_unique.
    - intros w (x & Hx & ->)%elem_of_update_where.
      assert (Worker.cluster_id (if stale_worker cutoff x then Worker.set_state "disconnected" x else x) = Worker.cluster_id x) as -> by by case_match.
      by apply (ck_workers d Hd).
    - intros w Hin. rewrite update_where_attr by done. apply list_elem_of_fmap. eauto. }
  exists d'. split_and!; [|done..].
  destruct stale as [|w ws] eqn:Es; [done|]. rewrite bind_execute. unfold commit. cbn [Session.inactive Session.view].
  fold d'. by rewrite Hok.
Qed.

Definition stale_db : Db.t := Sample.with_instances
  [Sample.instance 100 "running" "running" 1 0 8010; Sample.instance 101 "running" "stopped" 1 1 8011].
Lemma mark_disconnected_effect_witness :
  ∃ d', mark_disconnected (seconds 31) (Session.start stale_db) = (Ok tt, Session.mk d' d' false) ∧ constraints_ok d' = true.
Proof.
  destruct (mark_disconnected_effect (seconds 31) stale_db) as (d' & H & Hok & _); [vm_compute; reflexivity|].
  exists d'. split; [exact H|exact Hok].
Defined.

(** An instance that is being stopped when its worker is lost keeps the state
    "running" and its port: the watchdog turns only instances desired to run
    into errors. *)
Theorem mark_disconnected_leaves_stopping_instances :
  let d' := Session.durable (mark_disconnected (seconds 31) (Session.start stale_db)).2 in
  map (λ i, (ModelInstance.id i, ModelInstance.state i, ModelInstance.port i)) (Db.instances d')
  = [(100%N, "error", Some 8010); (101%N, "running", Some 8011)] ∧
  map Worker.state (Db.workers d') = ["disconnected"; "disconnected"].
Proof. vm_compute. done. Qed.
