(* ===== verification/Scheduler.v ===== *)
(** * Scheduler ([server/inferna_server/services/scheduler.py])

    GPU best-fit allocation, anti-affinity placement of replicas, placement of a
    parallel group (one rank per host) and host port allocation.  The functions
    only read the database: they are pure in it and return or raise. *)

From S2P Require Import Prelude PyStr Models Config.
Local Open Scope Z_scope.

(** [services/compatibility.py] *)
Definition ENGINE_VENDORS : gmap string (list string) :=
  list_to_map [("vllm", ["nvidia"; "mock"]); ("sglang", ["nvidia"; "mock"])].
(** [ENGINE_VENDORS.get(engine, set())] *)
Definition vendors_of (engine : string) : list string :=
  match ENGINE_VENDORS !! engine with Some l => l | None => [] end.
Definition supports (supported : list string) (gpu : WorkerGPU.t) : bool :=
  one_of (WorkerGPU.vendor gpu) supported.

Definition http400 {A} (detail : string) : result A := Raise (HTTPException 400 detail).

(** An instance with its [selectinload]ed model; the foreign key guarantees the
    model row, so no instance is lost by the join. *)
Definition _live_instances (d : Db.t) (worker_id : uuid) : list (ModelInstance.t * Model.t) :=
  omap (λ i, m ← find_model d (ModelInstance.model_id i); Some (i, m))
    (where_ (λ i, uuid_eqb (ModelInstance.worker_id i) (Some worker_id)
                  && in_live_states (ModelInstance.state i)) (Db.instances d)).

Definition _port_instances (d : Db.t) (worker_id : uuid) : list ModelInstance.t :=
  where_ (λ i, uuid_eqb (ModelInstance.worker_id i) (Some worker_id) && port_reserved i)
    (Db.instances d).

(** [usage.get(index, 0)] *)
Definition get0 (usage : gmap Z Z) (index : Z) : Z := default 0 (usage !! index).

Definition _gpu_usage (instances : list (ModelInstance.t * Model.t)) : gmap Z Z :=
  foldl (λ usage '(inst, model),
      foldl (λ usage index, <[index := get0 usage index + Model.vram_required_mb model]> usage)
        usage (ModelInstance.gpu_indexes inst))
    ∅ instances.

(** [{i.port for i in instances if i.port}] *)
Definition ports_of (instances : list ModelInstance.t) : gset Z :=
  list_to_set (omap (λ i, match ModelInstance.port i with
                          | Some p => if p =? 0 then None else Some p
                          | None => None end) instances).

Definition first_free (range : list Z) (used : gset Z) : option Z :=
  find_by (λ port, negb (bool_decide (port ∈ used))) range.

Definition _alloc_port (s : Settings.t) (instances : list ModelInstance.t) (extra : gset Z) : result Z :=
  match first_free (instance_port_range s) (ports_of instances ∪ extra) with
  | Some port => Ok port
  | None => http400 "no free host port in instance port range"
  end.

(** ORDER BY name *)
Definition name_leb (a b : Worker.t) : bool := String.leb (Worker.name a) (Worker.name b).
Definition _connected_workers (d : Db.t) (cluster_id : uuid) : list Worker.t :=
  sorted_by name_leb
    (where_ (λ w, (Worker.cluster_id w =? cluster_id)%N && String.eqb (Worker.state w) "connected")
       (Db.workers d)).

(** A candidate placement: [(free_mb, worker, gpu_index)]. *)
Definition placement : Type := Z * Worker.t * Z.
Definition p_free (p : placement) : Z := p.1.1.
Definition p_worker (p : placement) : Worker.t := p.1.2.
Definition p_gpu (p : placement) : Z := p.2.
Definition p_key (p : placement) : uuid * Z := (Worker.id (p_worker p), p_gpu p).

(** [free < best[0]]: only a strictly tighter fit replaces the best so far. *)
Definition tighter (x b : placement) : bool := p_free x <? p_free b.
(** [free > best[0]] *)
Definition looser (x b : Z * Z) : bool := b.1 <? x.1.

(** The loop body of [allocate_auto]: skip, or keep the tighter fit. *)
Definition auto_gpu (supported : list string) (usage : gmap Z Z) (vram_required_mb : Z)
    (worker : Worker.t) (best : option placement) (gpu : WorkerGPU.t) : option placement :=
  if negb (supports supported gpu) then best
  else
    let free := WorkerGPU.vram_mb gpu - get0 usage (WorkerGPU.index gpu) in
    if vram_required_mb <=? free
    then keep_best tighter best (free, worker, WorkerGPU.index gpu)
    else best.

Definition allocate_auto (s : Settings.t) (d : Db.t) (cluster_id : uuid) (vram_required_mb : Z)
    (engine : string) : result (Worker.t * list Z * Z) :=
  match _connected_workers d cluster_id with
  | [] => http400 "no connected workers in cluster"
  | workers =>
      let best := foldl (λ best worker,
          foldl (auto_gpu (vendors_of engine) (_gpu_usage (_live_instances d (Worker.id worker)))
                   vram_required_mb worker)
            best (gpus_of d (Worker.id worker))) None workers in
      match best with
      | None => http400 "no GPU with enough free VRAM in cluster"
      | Some (_, worker, gpu_index) =>
          port ← _alloc_port s (_port_instances d (Worker.id worker)) ∅;
          Ok (worker, [gpu_index], port)
      end
  end.

Definition find_gpu (gpus : list WorkerGPU.t) (index : Z) : option WorkerGPU.t :=
  find_by (λ g, WorkerGPU.index g =? index) gpus.

(** The three validation loops of [allocate_manual], in order. *)
Definition check_known (gpus : list WorkerGPU.t) (gpu_indexes : list Z) : result unit :=
  foldR (λ _ index, match find_gpu gpus index with
                    | Some _ => Ok tt
                    | None => http400 ("worker has no GPU index " +:+ str_Z index)
                    end) tt gpu_indexes.
Definition check_vendor (gpus : list WorkerGPU.t) (engine : string) (gpu_indexes : list Z) : result unit :=
  foldR (λ _ index, match find_gpu gpus index with
                    | Some g =>
                        if supports (vendors_of engine) g then Ok tt
                        else http400 ("engine " +:+ engine +:+ " not supported on "
                                      +:+ WorkerGPU.vendor g +:+ " GPU")
                    | None => Raise KeyError
                    end) tt gpu_indexes.
Definition check_vram (gpus : list WorkerGPU.t) (usage : gmap Z Z) (vram_required_mb : Z)
    (gpu_indexes : list Z) : result unit :=
  foldR (λ _ index, match find_gpu gpus index with
                    | Some g =>
                        if WorkerGPU.vram_mb g - get0 usage index <? vram_required_mb
                        then http400 ("GPU " +:+ str_Z index +:+ " does not fit "
                                      +:+ str_Z vram_required_mb +:+ " MB")
                        else Ok tt
                    | None => Raise KeyError
                    end) tt gpu_indexes.

(** [sorted(set(l))] *)
Definition sorted_set (l : list Z) : list Z := sorted_by Z.leb (remove_dups l).

Definition allocate_manual (s : Settings.t) (d : Db.t) (cluster_id worker_id : uuid)
    (gpu_indexes : list Z) (vram_required_mb : Z) (engine : string)
    : result (Worker.t * list Z * Z) :=
  match find_worker d worker_id with
  | None => http400 "worker not found or not connected"
  | Some worker =>
      if negb (String.eqb (Worker.state worker) "connected")
      then http400 "worker not found or not connected"
      else if negb (Worker.cluster_id worker =? cluster_id)%N
      then http400 "worker does not belong to cluster"
      else
        let gpus := gpus_of d (Worker.id worker) in
        _ ← check_known gpus gpu_indexes;
        _ ← check_vendor gpus engine gpu_indexes;
        _ ← check_vram gpus (_gpu_usage (_live_instances d (Worker.id worker)))
              vram_required_mb gpu_indexes;
        port ← _alloc_port s (_port_instances d (Worker.id worker)) ∅;
        Ok (worker, sorted_set gpu_indexes, port)
  end.

(** ** [allocate_replicas] *)

(** The snapshot taken before the loop: [workers], [usage_by_worker] and
    [gpus_by_worker] (GPUs of a supported vendor). *)
Record snapshot := {
  workers : list Worker.t;
  usage_by_worker : uuid → gmap Z Z;
  gpus_by_worker : uuid → list WorkerGPU.t }.

Definition take_snapshot (d : Db.t) (engine : string) (ws : list Worker.t) : snapshot := {|
  workers := ws;
  usage_by_worker := λ w, _gpu_usage (_live_instances d w);
  gpus_by_worker := λ w, where_ (supports (vendors_of engine)) (gpus_of d w) |}.

(** What the call mutates: the caller's [used] set, [used_workers],
    [pending_vram], [call_ports] and [allocations]. *)
Record alloc_state := AllocState {
  used : gset (uuid * Z);
  used_workers : gset uuid;
  pending_vram : gmap (uuid * Z) Z;
  call_ports : gset Z;
  allocations : list (Worker.t * list Z * Z) }.

Definition pending0 (pending : gmap (uuid * Z) Z) (key : uuid * Z) : Z := default 0 (pending !! key).

Definition free_mb (sn : snapshot) (pending : gmap (uuid * Z) Z) (worker : Worker.t)
    (gpu : WorkerGPU.t) : Z :=
  WorkerGPU.vram_mb gpu
  - get0 (usage_by_worker sn (Worker.id worker)) (WorkerGPU.index gpu)
  - pending0 pending (Worker.id worker, WorkerGPU.index gpu).

(** [_best(allowed)]: the tightest fitting GPU among the allowed ones. *)
Definition best_gpu (sn : snapshot) (pending : gmap (uuid * Z) Z) (vram_required_mb : Z)
    (allowed : Worker.t → WorkerGPU.t → bool) (worker : Worker.t)
    (best : option placement) (gpu : WorkerGPU.t) : option placement :=
  if negb (allowed worker gpu) then best
  else
    let free := free_mb sn pending worker gpu in
    if vram_required_mb <=? free
    then keep_best tighter best (free, worker, WorkerGPU.index gpu)
    else best.

Definition _best (sn : snapshot) (pending : gmap (uuid * Z) Z) (vram_required_mb : Z)
    (allowed : Worker.t → WorkerGPU.t → bool) : option placement :=
  foldl (λ best worker,
      foldl (best_gpu sn pending vram_required_mb allowed worker) best
        (gpus_by_worker sn (Worker.id worker))) None (workers sn).

(** The three passes: fresh worker, fresh GPU, any fitting GPU. *)
Definition fresh_worker (st : alloc_state) (w : Worker.t) (_ : WorkerGPU.t) : bool :=
  negb (bool_decide (Worker.id w ∈ used_workers st)).
Definition fresh_gpu (st : alloc_state) (w : Worker.t) (g : WorkerGPU.t) : bool :=
  negb (bool_decide ((Worker.id w, WorkerGPU.index g) ∈ used st)).
Definition any_gpu (_ : Worker.t) (_ : WorkerGPU.t) : bool := true.

Definition three_passes (sn : snapshot) (vram_required_mb : Z) (st : alloc_state) : option placement :=
  match _best sn (pending_vram st) vram_required_mb (fresh_worker st) with
  | Some p => Some p
  | None =>
      match _best sn (pending_vram st) vram_required_mb (fresh_gpu st) with
      | Some p => Some p
      | None => _best sn (pending_vram st) vram_required_mb any_gpu
      end
  end.

Definition allocate_one (s : Settings.t) (d : Db.t) (sn : snapshot) (vram_required_mb count : Z)
    (st : alloc_state) (i : Z) : result alloc_state :=
  match three_passes sn vram_required_mb st with
  | None => http400 ("no GPU with enough free VRAM for replica " +:+ str_Z i +:+ " of " +:+ str_Z count)
  | Some p =>
      let worker := p_worker p in
      port ← _alloc_port s (_port_instances d (Worker.id worker)) (call_ports st);
      let key := p_key p in
      Ok (AllocState ({[key]} ∪ used st) ({[Worker.id worker]} ∪ used_workers st)
            (<[key := pending0 (pending_vram st) key + vram_required_mb]> (pending_vram st))
            ({[port]} ∪ call_ports st)
            (allocations st ++ [(worker, [p_gpu p], port)]))
  end.

Definition initial_alloc (used0 : gset (uuid * Z)) : alloc_state :=
  AllocState used0 (set_map fst used0) ∅ ∅ [].

Definition allocate_replicas (s : Settings.t) (d : Db.t) (cluster_id : uuid) (vram_required_mb : Z)
    (engine : string) (count : Z) (used0 : gset (uuid * Z)) : result (list (Worker.t * list Z * Z)) :=
  match _connected_workers d cluster_id with
  | [] => http400 "no connected workers in cluster"
  | ws =>
      st ← foldR (allocate_one s d (take_snapshot d engine ws) vram_required_mb count)
             (initial_alloc used0) (py_range 1 count);
      Ok (allocations st)
  end.

(** ** Parallel groups *)
Module ParallelAllocation.
Record t := mk {
  worker : Worker.t; gpu_indexes : list Z; node_rank : Z;
  instance_port : option Z; rendezvous_port : option Z }.
End ParallelAllocation.

(** [if raw.lower().startswith(prefix): raw = raw[len(prefix):]] *)
Definition drop_prefix_ci (prefix raw : string) : string :=
  if startswith prefix (lower raw) then drop_str (String.length prefix) raw else raw.

Definition rendezvous_host (address : option string) (fallback : string) : string :=
  let stripped := strip (default "" address) in
  let raw := if String.eqb stripped "" then strip fallback else stripped in
  let raw := drop_prefix_ci "https://" (drop_prefix_ci "http://" raw) in
  let raw := before "#" (before "?" (before "/" raw)) in
  if startswith "[" raw then before "]" (drop_str 1 raw)
  else
    let '(host, _, port) := rpartition ":" raw in
    if isdigit port && nonempty host && negb (contains_char ":" host) then host else raw.

(** The ports [_alloc_rendezvous_port] keeps clear of: those of the instances and
    those of their rendezvous addresses. *)
Definition rendezvous_port_of (i : ModelInstance.t) : option Z :=
  match ModelInstance.rendezvous i with
  | Some r =>
      if nonempty r && contains_char ":" r then
        let '(_, _, port) := rpartition ":" r in
        if isdigit port then py_int port else None
      else None
  | None => None
  end.

Definition _alloc_rendezvous_port (s : Settings.t) (instances : list ModelInstance.t)
    (extra : gset Z) : result Z :=
  let used := ports_of instances ∪ extra ∪ list_to_set (omap rendezvous_port_of instances) in
  match first_free (rendezvous_port_range s) used with
  | Some port => Ok port
  | None => http400 "no free rendezvous port in range"
  end.

Definition fitting_gpu (supported : list string) (usage : gmap Z Z) (vram_required_mb : Z)
    (best : option (Z * Z)) (gpu : WorkerGPU.t) : option (Z * Z) :=
  if negb (supports supported gpu) then best
  else
    let free := WorkerGPU.vram_mb gpu - get0 usage (WorkerGPU.index gpu) in
    if vram_required_mb <=? free then keep_best looser best (free, WorkerGPU.index gpu) else best.
Definition _best_fitting_gpu (gpus : list WorkerGPU.t) (supported : list string) (usage : gmap Z Z)
    (vram_required_mb : Z) : option (Z * Z) :=
  foldl (fitting_gpu supported usage vram_required_mb) None gpus.

Definition fitting_workers (d : Db.t) (engine : string) (vram_required_mb : Z)
    (ws : list Worker.t) : list placement :=
  omap (λ w, match _best_fitting_gpu (gpus_of d (Worker.id w)) (vendors_of engine)
                     (_gpu_usage (_live_instances d (Worker.id w))) vram_required_mb with
             | Some (free, gpu) => Some (free, w, gpu)
             | None => None
             end) ws.

(** [_order]: most free VRAM first, then by name. *)
Definition order_leb (a b : placement) : bool :=
  if p_free a =? p_free b then name_leb (p_worker a) (p_worker b) else p_free b <? p_free a.

(** [enumerate(chosen)] into ranks; only rank 0 gets the two ports. *)
Definition to_rank (instance_port rendezvous_port : Z) (node_rank : nat) (p : placement)
    : ParallelAllocation.t :=
  ParallelAllocation.mk (p_worker p) [p_gpu p] (Z.of_nat node_rank)
    (if (node_rank =? 0)%nat then Some instance_port else None)
    (if (node_rank =? 0)%nat then Some rendezvous_port else None).

Definition excluded_filter (exclude : gset uuid) (ws : list Worker.t) : list Worker.t :=
  where_ (λ w, negb (bool_decide (Worker.id w ∈ exclude))) ws.

Definition allocate_parallel_replicas (s : Settings.t) (d : Db.t) (cluster_id : uuid)
    (vram_required_mb : Z) (engine : string) (nodes_per_replica : Z) (exclude : gset uuid)
    : result (list ParallelAllocation.t) :=
  match _connected_workers d cluster_id with
  | [] => http400 "no connected workers in cluster"
  | ws0 =>
      let ws := if bool_decide (exclude = ∅) then ws0 else excluded_filter exclude ws0 in
      match ws with
      | [] => http400 "no free hosts left for another parallel group"
      | _ =>
          let fitting := fitting_workers d engine vram_required_mb ws in
          let heads := where_ (λ p, truthy (Worker.address (p_worker p))) fitting in
          match sorted_by order_leb heads with
          | [] => http400 "no connected worker with a routable address for the rendezvous head"
          | head :: _ =>
              if Z.of_nat (length fitting) <? nodes_per_replica
              then http400 ("multi-node deploy needs " +:+ str_Z nodes_per_replica +:+ " hosts with "
                     +:+ str_Z vram_required_mb +:+ " MB free, "
                     +:+ str_Z (Z.of_nat (length fitting)) +:+ " available")
              else
                let others := sorted_by order_leb
                  (where_ (λ p, negb (Worker.id (p_worker p) =? Worker.id (p_worker head))%N) fitting) in
                let chosen := head :: take (Z.to_nat (nodes_per_replica - 1)) others in
                let head_instances := _port_instances d (Worker.id (p_worker head)) in
                instance_port ← _alloc_port s head_instances ∅;
                rendezvous_port ← _alloc_rendezvous_port s head_instances ∅;
                Ok (imap (to_rank instance_port rendezvous_port) chosen)
          end
      end
  end.

(** ** Lemmas: ports *)
Lemma first_free_spec range used p :
  first_free range used = Some p ↔
  ∃ l1 l2, range = l1 ++ p :: l2 ∧ p ∉ used ∧ ∀ q, q ∈ l1 → q ∈ used.
Proof.
  unfold first_free. rewrite find_by_first. setoid_rewrite Forall_forall.
  setoid_rewrite negb_true_iff. setoid_rewrite negb_false_iff.
  setoid_rewrite bool_decide_eq_true. by setoid_rewrite bool_decide_eq_false.
Qed.

Lemma first_free_None range used :
  first_free range used = None ↔ ∀ q, q ∈ range → q ∈ used.
Proof.
  unfold first_free. rewrite find_by_None. setoid_rewrite negb_false_iff.
  by setoid_rewrite bool_decide_eq_true.
Qed.

Lemma elem_of_ports_of p l :
  p ∈ ports_of l ↔ p ≠ 0 ∧ ∃ i, i ∈ l ∧ ModelInstance.port i = Some p.
Proof.
  unfold ports_of. rewrite elem_of_list_to_set, list_elem_of_omap. split.
  - intros (i & Hi & H). repeat case_match; simplify_eq. split; [lia|eauto].
  - intros (Hp & i & Hi & Hport). exists i. rewrite Hport. case_match; [lia|done].
Qed.

Lemma alloc_port_Ok s l extra p :
  _alloc_port s l extra = Ok p →
  Settings.instance_port_range_start s <= p <= Settings.instance_port_range_end s ∧
  p ∉ ports_of l ∧ p ∉ extra.
Proof.
  unfold _alloc_port. destruct (first_free _ _) as [q|] eqn:E; intros; simplify_eq.
  apply first_free_spec in E as (l1 & l2 & Hr & Hp & _).
  rewrite <-elem_of_py_range. split; [|set_solver].
  unfold instance_port_range in Hr. rewrite Hr. set_solver.
Qed.

(** ** Lemmas: connected workers and usage *)
Lemma elem_of_connected d c w :
  w ∈ _connected_workers d c ↔
  w ∈ Db.workers d ∧ Worker.cluster_id w = c ∧ Worker.state w = "connected".
Proof.
  unfold _connected_workers. rewrite sorted_by_elem, elem_of_where, andb_true_iff, N.eqb_eq.
  by rewrite String.eqb_eq.
Qed.

Lemma connected_NoDup d c :
  NoDup (map Worker.id (Db.workers d)) → NoDup (map Worker.id (_connected_workers d c)).
Proof.
  intros H. unfold _connected_workers.
  rewrite sorted_by_perm. by apply NoDup_map_where.
Qed.

(** ** Lemmas: the best candidate

    Both best-fit loops are instances of one search: over the GPUs [gs w] of the
    workers [ws], among the allowed ones with at least [vram] free. *)
Lemma tighter_trans (x y z : placement) :
  tighter x y = false → tighter y z = false → tighter x z = false.
Proof. unfold tighter. lia. Qed.
Lemma tighter_asym (x y : placement) : tighter x y = true → tighter y x = false.
Proof. unfold tighter. lia. Qed.

Section search.
Context (free : Worker.t → WorkerGPU.t → Z) (allowed : Worker.t → WorkerGPU.t → bool)
        (vram : Z) (gs : Worker.t → list WorkerGPU.t) (ws : list Worker.t).

Definition cand (w : Worker.t) (g : WorkerGPU.t) : option placement :=
  if allowed w g && (vram <=? free w g) then Some (free w g, w, WorkerGPU.index g) else None.
Definition search : option placement :=
  foldl (λ best w, foldl (keep_cand tighter cand w) best (gs w)) None ws.

(** The specification of a best-fit choice. *)
Definition best_fit (p : placement) : Prop :=
  ∃ w g, w ∈ ws ∧ g ∈ gs w ∧ allowed w g = true ∧ vram <= free w g ∧
    p = (free w g, w, WorkerGPU.index g) ∧
    ∀ w' g', w' ∈ ws → g' ∈ gs w' → allowed w' g' = true → vram <= free w' g' →
      free w g <= free w' g'.

Lemma cand_Some w g p :
  cand w g = Some p ↔
  allowed w g = true ∧ vram <= free w g ∧ p = (free w g, w, WorkerGPU.index g).
Proof.
  unfold cand. destruct (allowed w g), (Z.leb_spec vram (free w g)); simpl; naive_solver lia.
Qed.

Lemma search_Some p : search = Some p → best_fit p.
Proof.
  unfold search. rewrite foldl_nested. intros H.
  apply (keep_best_spec _ tighter_trans tighter_asym) in H as [Hp Hmin].
  apply list_elem_of_bind in Hp as (w & (g & Hg & Hc)%list_elem_of_omap & Hw).
  apply cand_Some in Hc as (Ha & Hv & ->). exists w, g. split_and!; try done.
  intros w' g' Hw' Hg' Ha' Hv'.
  assert (tighter (free w' g', w', WorkerGPU.index g') (free w g, w, WorkerGPU.index g) = false) as Ht.
  { apply Hmin. apply list_elem_of_bind. exists w'. split; [|done]. apply list_elem_of_omap.
    exists g'. split; [done|]. by apply cand_Some. }
  unfold tighter, p_free in Ht. simpl in Ht. lia.
Qed.

Lemma search_None :
  search = None ↔ ∀ w g, w ∈ ws → g ∈ gs w → allowed w g = true → free w g < vram.
Proof.
  unfold search. rewrite foldl_nested, (keep_best_None _ tighter_trans tighter_asym). split.
  - intros H w g Hw Hg Ha. destruct (Z.lt_ge_cases (free w g) vram) as [|Hn]; [done|].
    assert ((free w g, w, WorkerGPU.index g) ∈ @nil placement) as Hin.
    { rewrite <-H. apply list_elem_of_bind. exists w. split; [|done]. apply list_elem_of_omap.
      exists g. split; [done|]. by apply cand_Some. }
    by apply elem_of_nil in Hin.
  - intros H. destruct (_ ≫= _) as [|p l] eqn:E; [done|].
    assert (p ∈ p :: l) as Hp by constructor. rewrite <-E in Hp.
    apply list_elem_of_bind in Hp as (w & (g & Hg & Hc)%list_elem_of_omap & Hw).
    apply cand_Some in Hc as (Ha & Hv & _). specialize (H w g Hw Hg Ha). lia.
Qed.
End search.

Lemma best_search sn pending vram allowed :
  _best sn pending vram allowed =
  search (free_mb sn pending) allowed vram (λ w, gpus_by_worker sn (Worker.id w)) (workers sn).
Proof.
  unfold _best, search. apply foldl_ext_In. intros b w _.
  apply foldl_ext_In. intros b' g _. unfold best_gpu, keep_cand, cand.
  destruct (allowed w g); simpl; [|done]. by destruct (vram <=? _).
Qed.

(** Free VRAM of a GPU before any placement: total minus what its live instances use. *)
Definition live_free (d : Db.t) (w : Worker.t) (g : WorkerGPU.t) : Z :=
  WorkerGPU.vram_mb g - get0 (_gpu_usage (_live_instances d (Worker.id w))) (WorkerGPU.index g).

Lemma auto_search d engine vram ws :
  foldl (λ best worker,
      foldl (auto_gpu (vendors_of engine) (_gpu_usage (_live_instances d (Worker.id worker)))
               vram worker) best (gpus_of d (Worker.id worker))) None ws =
  search (live_free d) (λ _ g, supports (vendors_of engine) g) vram
    (λ w, gpus_of d (Worker.id w)) ws.
Proof.
  unfold search. apply foldl_ext_In. intros b w _.
  apply foldl_ext_In. intros b' g _. unfold auto_gpu, keep_cand, cand, live_free.
  destruct (supports _ g); simpl; [|done]. by destruct (vram <=? _).
Qed.

Example sample_ok : constraints_ok Sample.db = true.
Proof. vm_compute. reflexivity. Qed.
Example sample_replicas :
  (λ l, map (λ a : Worker.t * list Z * Z, (Worker.name a.1.1, a.1.2, a.2)) l) <$>
    allocate_replicas Settings.default Sample.db 1 8000 "vllm" 5 ∅
  = Ok [("w1", [0], 8011); ("w2", [0], 8010); ("w1", [1], 8012); ("w1", [0], 8013); ("w1", [1], 8014)].
Proof. vm_compute. reflexivity. Qed.

(** ** The placement loop *)
Definition alloc_key (a : Worker.t * list Z * Z) : uuid * list Z := (Worker.id a.1.1, a.1.2).
(** Replicas of [l] placed on GPU [i] of worker [w]. *)
Definition placed_on (l : list (Worker.t * list Z * Z)) (w : uuid) (i : Z) : Z :=
  Z.of_nat (length (where_ (λ a, bool_decide (alloc_key a = (w, [i]))) l)).
Definition used_by (used0 : gset (uuid * Z)) (l : list (Worker.t * list Z * Z)) : gset uuid :=
  set_map fst used0 ∪ list_to_set (map (λ a, Worker.id a.1.1) l).

Lemma placed_on_app l1 l2 w i : placed_on (l1 ++ l2) w i = placed_on l1 w i + placed_on l2 w i.
Proof. unfold placed_on. rewrite where_app, length_app. lia. Qed.

Lemma three_passes_Some sn vram st p :
  three_passes sn vram st = Some p →
  ∃ allowed, best_fit (free_mb sn (pending_vram st)) allowed vram
               (λ w, gpus_by_worker sn (Worker.id w)) (workers sn) p ∧
    (Worker.id (p_worker p) ∈ used_workers st → ∀ w g, w ∈ workers sn →
       g ∈ gpus_by_worker sn (Worker.id w) → Worker.id w ∉ used_workers st →
       free_mb sn (pending_vram st) w g < vram) ∧
    (p_key p ∈ used st → ∀ w g, w ∈ workers sn →
       g ∈ gpus_by_worker sn (Worker.id w) → (Worker.id w, WorkerGPU.index g) ∉ used st →
       Worker.id (p_worker p) ∈ used_workers st →
       free_mb sn (pending_vram st) w g < vram).
Proof.
  unfold three_passes. rewrite !best_search.
  destruct (search _ (fresh_worker st) _ _ _) as [q|] eqn:E1.
  { intros ?; simplify_eq. apply search_Some in E1 as (w & g & Hw & Hg & Ha & Hv & -> & Hmin).
    exists (fresh_worker st). unfold fresh_worker in Ha.
    apply negb_true_iff, bool_decide_eq_false in Ha. unfold p_key, p_worker. simpl.
    split_and!; [|done|done].
    exists w, g. split_and!; try done. unfold fresh_worker. by apply negb_true_iff, bool_decide_eq_false. }
  pose proof (proj1 (search_None _ _ _ _ _) E1) as H1.
  assert (∀ w g, w ∈ workers sn → g ∈ gpus_by_worker sn (Worker.id w) → Worker.id w ∉ used_workers st →
       free_mb sn (pending_vram st) w g < vram) as H1'.
  { intros w g Hw Hg Hu. apply H1; try done. unfold fresh_worker. by apply negb_true_iff, bool_decide_eq_false. }
  destruct (search _ (fresh_gpu st) _ _ _) as [q|] eqn:E2.
  { intros ?; simplify_eq. apply search_Some in E2. exists (fresh_gpu st). split_and!; [done|auto|].
    destruct E2 as (w & g & _ & _ & Ha & _ & -> & _). unfold fresh_gpu in Ha.
    apply negb_true_iff, bool_decide_eq_false in Ha. done. }
  pose proof (proj1 (search_None _ _ _ _ _) E2) as H2.
  intros E3%search_Some. exists any_gpu. split_and!; [done|auto|].
  intros _ w g Hw Hg Hu _. apply H2; try done. unfold fresh_gpu. by apply negb_true_iff, bool_decide_eq_false.
Qed.

(** What holds of the state after the allocations [allocations st]. *)
Record alloc_inv (s : Settings.t) (d : Db.t) (sn : snapshot) (vram : Z) (used0 : gset (uuid * Z))
    (n : nat) (st : alloc_state) : Prop := {
  ai_len : length (allocations st) = n;
  ai_pending : ∀ w i, pending0 (pending_vram st) (w, i) = vram * placed_on (allocations st) w i;
  ai_workers : used_workers st = used_by used0 (allocations st);
  ai_ports : call_ports st = list_to_set (map snd (allocations st));
  ai_nodup : NoDup (map snd (allocations st));
  ai_fits : ∀ w gs port, (w, gs, port) ∈ allocations st →
    Settings.instance_port_range_start s <= port <= Settings.instance_port_range_end s ∧
    port ∉ ports_of (_port_instances d (Worker.id w)) ∧
    ∃ g, gs = [WorkerGPU.index g] ∧ w ∈ workers sn ∧ g ∈ gpus_by_worker sn (Worker.id w);
  ai_room : ∀ w g, w ∈ workers sn → g ∈ gpus_by_worker sn (Worker.id w) →
    0 < placed_on (allocations st) (Worker.id w) (WorkerGPU.index g) →
    0 <= free_mb sn (pending_vram st) w g;
  ai_spread : ∀ l1 w gs port l2, allocations st = l1 ++ (w, gs, port) :: l2 →
    Worker.id w ∈ used_by used0 l1 →
    ∀ w' g', w' ∈ workers sn → g' ∈ gpus_by_worker sn (Worker.id w') →
      Worker.id w' ∉ used_by used0 l1 → free_mb sn ∅ w' g' < vram }.

Lemma placed_on_fresh l w i : w ∉ list_to_set (C := gset uuid) (map (λ a : Worker.t * list Z * Z, Worker.id a.1.1) l) →
  placed_on l w i = 0.
Proof.
  intros Hw. unfold placed_on. destruct (where_ _ l) as [|a l'] eqn:E; [done|].
  assert (a ∈ a :: l') as Ha by constructor. rewrite <-E in Ha.
  apply elem_of_where in Ha as [Ha Hk%bool_decide_eq_true]. destruct Hw.
  rewrite elem_of_list_to_set, list_elem_of_fmap. exists a. unfold alloc_key in Hk. split; [congruence|done].
Qed.

Lemma alloc_inv_init s d sn vram used0 : alloc_inv s d sn vram used0 0 (initial_alloc used0).
Proof.
  split; simpl; try done.
  - intros w i. unfold pending0. rewrite lookup_empty. simpl. unfold placed_on. simpl. lia.
  - unfold used_by. set_solver.
  - constructor.
  - intros w gs port H. by apply elem_of_nil in H.
  - intros l1 w gs port l2 H. by destruct l1.
Qed.

Definition snapshot_wf (sn : snapshot) : Prop :=
  ∀ w g1 g2, g1 ∈ gpus_by_worker sn w → g2 ∈ gpus_by_worker sn w →
    WorkerGPU.index g1 = WorkerGPU.index g2 → g1 = g2.

Lemma take_snapshot_wf d engine ws : constraints_ok d = true → snapshot_wf (take_snapshot d engine ws).
Proof.
  intros Hd w g1 g2 [H1 _]%elem_of_where [H2 _]%elem_of_where. by eapply gpus_of_index_inj.
Qed.

Lemma placed_on_single w gs p w' i :
  placed_on [(w, gs, p)] w' i = if bool_decide ((Worker.id w, gs) = (w', [i])) then 1 else 0.
Proof. unfold placed_on, alloc_key. simpl. by case_bool_decide. Qed.

Lemma pending_insert pending key v k :
  pending0 (<[key := v]> pending) k = if bool_decide (key = k) then v else pending0 pending k.
Proof.
  unfold pending0. case_bool_decide as E; [subst; by rewrite lookup_insert_eq|by rewrite lookup_insert_ne].
Qed.

Lemma used_by_app used0 l w gs p :
  used_by used0 (l ++ [(w, gs, p)]) = {[Worker.id w]} ∪ used_by used0 l.
Proof. unfold used_by. rewrite map_app, list_to_set_app_L. simpl. set_solver. Qed.

Lemma alloc_inv_step s d sn vram count used0 n st st' i :
  snapshot_wf sn → 0 <= vram → alloc_inv s d sn vram used0 n st →
  allocate_one s d sn vram count st i = Ok st' → alloc_inv s d sn vram used0 (S n) st'.
Proof.
  intros Hwf Hv Hinv H. unfold allocate_one in H.
  destruct (three_passes sn vram st) as [p|] eqn:Ep; [|done].
  apply result_bind_Ok in H as (port & Hport & H). simplify_eq.
  apply three_passes_Some in Ep as (allowed & (w & g & Hw & Hg & _ & Hroom & -> & _) & Hspread & _).
  unfold p_key, p_worker, p_gpu in *. simpl in *.
  apply alloc_port_Ok in Hport as (Hrange & Hfree & Hextra).
  destruct Hinv as [Hlen Hpend Hused Hports Hnd Hfits Hcap Hspr].
  assert (∀ w' i', pending0 (<[(Worker.id w, WorkerGPU.index g) :=
      pending0 (pending_vram st) (Worker.id w, WorkerGPU.index g) + vram]> (pending_vram st)) (w', i')
    = vram * placed_on (allocations st ++ [(w, [WorkerGPU.index g], port)]) w' i') as Hpend'.
  { intros w' i'. rewrite pending_insert, placed_on_app, placed_on_single.
    do 2 case_bool_decide; simplify_eq; rewrite !Hpend; lia. }
  split; simpl.
  - rewrite length_app. simpl. lia.
  - done.
  - by rewrite Hused, used_by_app.
  - rewrite Hports, map_app, list_to_set_app_L. simpl. set_solver.
  - rewrite map_app. simpl. rewrite Hports in Hextra. apply NoDup_app. split_and!; [done| |apply NoDup_singleton].
    intros x Hx ->%list_elem_of_singleton. apply Hextra. by rewrite elem_of_list_to_set.
  - intros w' gs' port' [Hin|Hin%list_elem_of_singleton]%elem_of_app; [by apply Hfits|].
    simplify_eq. split_and!; [lia|lia|done|]. by exists g.
  - intros w' g' Hw' Hg' Hpos. unfold free_mb in *. rewrite pending_insert.
    case_bool_decide as Hk.
    + injection Hk as Hk1 Hk2. rewrite <-Hk1 in Hg'. assert (g' = g) as -> by (eapply Hwf; eauto).
      rewrite <-Hk1. lia.
    + apply Hcap; [done|done|]. rewrite placed_on_app, placed_on_single in Hpos.
      case_bool_decide; [simplify_eq; congruence|lia].
  - intros l1 w1 gs1 port1 l2 Hl Hu w' g' Hw' Hg' Hnu.
    destruct (decide (l2 = [])) as [->|Hl2].
    + apply app_inj_tail in Hl as [<- ?]. simplify_eq. rewrite <-Hused in Hu, Hnu.
      specialize (Hspread Hu w' g' Hw' Hg' Hnu). unfold free_mb in *.
      rewrite Hpend in Hspread. rewrite placed_on_fresh in Hspread by (rewrite Hused in Hnu; unfold used_by in Hnu; set_solver).
      unfold pending0. rewrite lookup_empty. simpl. lia.
    + destruct (exists_last Hl2) as (l2' & x & ->).
      rewrite app_comm_cons, app_assoc in Hl. apply app_inj_tail in Hl as [Hl _]. by eapply Hspr.
Qed.

Lemma allocate_replicas_inv s d c vram engine count used0 allocs :
  constraints_ok d = true → 0 <= vram →
  allocate_replicas s d c vram engine count used0 = Ok allocs →
  ∃ st, allocations st = allocs ∧
    alloc_inv s d (take_snapshot d engine (_connected_workers d c)) vram used0 (Z.to_nat count) st.
Proof.
  intros Hd Hv H. unfold allocate_replicas in H.
  destruct (_connected_workers d c) as [|w0 ws0]; [done|].
  apply result_bind_Ok in H as (st & H & ?). simplify_eq. exists st. split; [done|].
  assert (Z.to_nat count = length (py_range 1 count)) as ->.
  { unfold py_range, seqZ. rewrite length_fmap, length_seq. lia. }
  eapply (foldR_inv (λ l st, alloc_inv s d _ vram used0 (length l) st)); [..|exact H].
  - apply alloc_inv_init.
  - intros l1 x b0 b1 _ Hinv Hone. rewrite length_app, Nat.add_1_r.
    eapply alloc_inv_step; eauto using take_snapshot_wf.
Qed.

(** ** Properties: replicas *)


Definition allocs_of (r : result (list (Worker.t * list Z * Z))) : list (Worker.t * list Z * Z) :=
  match r with Ok l => l | Raise _ => [] end.
Definition sample_allocs : list (Worker.t * list Z * Z) :=
  allocs_of (allocate_replicas Settings.default Sample.db 1 8000 "vllm" 5 ∅).


(** C21 The ports one call hands out are pairwise distinct, lie in the configured
    range, and are free on their worker: no instance that reserves a port there
    (desired to run, or live) holds it. *)
Theorem allocate_replicas_ports s d c vram engine count used0 allocs :
  constraints_ok d = true → 0 <= vram →
  allocate_replicas s d c vram engine count used0 = Ok allocs →
  NoDup (map snd allocs) ∧
  ∀ w gs port, (w, gs, port) ∈ allocs →
    Settings.instance_port_range_start s <= port <= Settings.instance_port_range_end s ∧
    ∀ i, i ∈ Db.instances d → ModelInstance.worker_id i = Some (Worker.id w) →
      port_reserved i = true → port ≠ 0 → ModelInstance.port i ≠ Some port.
Proof.
  intros Hd Hv H. apply allocate_replicas_inv in H as (st & <- & Hinv); [|done|done].
  split; [apply Hinv|]. intros w gs port Hin.
  destruct (ai_fits _ _ _ _ _ _ _ Hinv _ _ _ Hin) as (Hr & Hp & _). split; [done|].
  intros i Hi Hw Hres Hnz Hport. apply Hp, elem_of_ports_of. split; [done|]. exists i.
  split; [|done]. apply elem_of_where. split; [done|]. rewrite Hres, andb_true_r.
  by apply uuid_eqb_true.
Qed.

Lemma allocate_replicas_ports_witness : NoDup (map snd sample_allocs).
Proof.
  apply (allocate_replicas_ports Settings.default Sample.db 1 8000 "vllm" 5 ∅);
    vm_compute; first [reflexivity | discriminate].
Defined.

(** Anti-affinity: a replica lands on a worker that already holds one (of the
    caller's [used] pairs or of this call) only when no GPU of an unused worker
    has room for it. *)
Theorem allocate_replicas_spread s d c vram engine count used0 allocs l1 w gs port l2 :
  constraints_ok d = true → 0 <= vram →
  allocate_replicas s d c vram engine count used0 = Ok allocs →
  allocs = l1 ++ (w, gs, port) :: l2 → Worker.id w ∈ used_by used0 l1 →
  ∀ w' g, w' ∈ _connected_workers d c → g ∈ gpus_of d (Worker.id w') →
    supports (vendors_of engine) g = true → Worker.id w' ∉ used_by used0 l1 →
    live_free d w' g < vram.
Proof.
  intros Hd Hv H Hl Hu w' g Hw' Hg Hs Hnu. apply allocate_replicas_inv in H as (st & <- & Hinv); [|done|done].
  assert (g ∈ gpus_by_worker (take_snapshot d engine (_connected_workers d c)) (Worker.id w')) as Hg'.
  { by apply elem_of_where. }
  pose proof (ai_spread _ _ _ _ _ _ _ Hinv _ _ _ _ _ Hl Hu w' g Hw' Hg' Hnu) as Hf.
  unfold free_mb, pending0 in Hf. rewrite lookup_empty in Hf. simpl in Hf.
  unfold live_free. lia.
Qed.

(** Worker 1 hosts one of the group's replicas already and worker 2 has no room
    for 30 GB: with 10 GB on GPU 0 the second replica stays on worker 1. *)
Lemma allocate_replicas_spread_witness :
  live_free Sample.db (Sample.worker 2 "w2" None) (Sample.gpu 2 0 24000) < 24001.
Proof.
  pose (d := Db.set_worker_gpus [Sample.gpu 1 1 40000; Sample.gpu 2 0 24000] Sample.db).
  pose (w := Sample.worker 1 "w1" (Some "http://10.0.0.1")).
  change (live_free d (Sample.worker 2 "w2" None) (Sample.gpu 2 0 24000) < 24001).
  apply (allocate_replicas_spread Settings.default d 1 24001 "vllm" 1 {[ (1%N, 1) ]}
           [(w, [1], 8011)] [] w [1] 8011 []); 
    first [vm_compute; reflexivity | vm_compute; discriminate | vm_decide].
Defined.

(** ** Properties: single placements *)

(** [allocate_auto] is best-fit: it returns the fitting GPU of a supported
    vendor with the least free VRAM over all connected workers of the cluster,
    with a free port of its worker; it fails exactly when no worker is
    connected, when no GPU fits, or when the chosen worker has no port left. *)
Theorem allocate_auto_best_fit s d c vram engine :
  let ok := best_fit (live_free d) (λ _ g, supports (vendors_of engine) g) vram
              (λ w, gpus_of d (Worker.id w)) (_connected_workers d c) in
  match allocate_auto s d c vram engine with
  | Ok (w, gs, port) =>
      ∃ i free, gs = [i] ∧ ok (free, w, i) ∧
        Settings.instance_port_range_start s <= port <= Settings.instance_port_range_end s ∧
        port ∉ ports_of (_port_instances d (Worker.id w))
  | Raise e =>
      (e = HTTPException 400 "no connected workers in cluster" ∧ _connected_workers d c = []) ∨
      (e = HTTPException 400 "no GPU with enough free VRAM in cluster" ∧
        ∀ w g, w ∈ _connected_workers d c → g ∈ gpus_of d (Worker.id w) →
          supports (vendors_of engine) g = true → live_free d w g < vram) ∨
      (e = HTTPException 400 "no free host port in instance port range" ∧
        ∃ p, ok p ∧ ∀ q, q ∈ instance_port_range s →
          q ∈ ports_of (_port_instances d (Worker.id (p_worker p))))
  end.
Proof.
  unfold allocate_auto. destruct (_connected_workers d c) as [|w0 ws0] eqn:Ews; [by left|].
  rewrite auto_search, <-Ews. destruct (search _ _ _ _ _) as [[[free w] i]|] eqn:E.
  - apply search_Some in E. destruct (_alloc_port _ _ _) as [port|e] eqn:Ep; simpl.
    + apply alloc_port_Ok in Ep as (? & ? & _). by exists i, free.
    + right; right. unfold _alloc_port, http400 in Ep.
      destruct (first_free _ _) eqn:Ef; simplify_eq. split; [done|]. eexists; split; [exact E|].
      intros q Hq. rewrite first_free_None in Ef. specialize (Ef q Hq). set_solver.
  - right; left. split; [done|]. by apply search_None.
Qed.

Lemma check_known_Ok gpus l :
  check_known gpus l = Ok tt ↔ ∀ i, i ∈ l → is_Some (find_gpu gpus i).
Proof.
  unfold check_known. rewrite foldR_check. do 2 (apply forall_proper; intros).
  by destruct (find_gpu gpus _).
Qed.
Lemma check_vendor_Ok gpus engine l :
  check_vendor gpus engine l = Ok tt ↔
  ∀ i, i ∈ l → ∃ g, find_gpu gpus i = Some g ∧ supports (vendors_of engine) g = true.
Proof.
  unfold check_vendor. rewrite foldR_check. do 2 (apply forall_proper; intros).
  destruct (find_gpu gpus _) as [g|]; [case_match|]; split; try done.
  - by exists g.
  - intros (g' & [= <-] & ?). congruence.
  - by intros (? & ? & ?).
Qed.
Lemma check_vram_Ok gpus usage vram l :
  check_vram gpus usage vram l = Ok tt ↔
  ∀ i, i ∈ l → ∃ g, find_gpu gpus i = Some g ∧ vram <= WorkerGPU.vram_mb g - get0 usage i.
Proof.
  unfold check_vram. rewrite foldR_check. do 2 (apply forall_proper; intros).
  destruct (find_gpu gpus _) as [g|]; [case_match|]; split; try done.
  - intros (g' & [= <-] & ?). lia.
  - intros _. exists g. split; [done|]. lia.
  - by intros (? & ? & ?).
Qed.

Lemma unit_Ok (r : result unit) : (∃ u, r = Ok u) ↔ r = Ok tt.
Proof. split; [by intros [[] ?]|eauto]. Qed.

(** [allocate_manual] accepts exactly the requests that name a connected worker
    of the cluster and GPUs it has, each of a supported vendor and each with room
    for the model; it returns the requested indexes sorted without repeats and a
    free port. *)
Theorem allocate_manual_spec s d c wid idxs vram engine w gs port :
  allocate_manual s d c wid idxs vram engine = Ok (w, gs, port) ↔
  find_worker d wid = Some w ∧ Worker.state w = "connected" ∧ Worker.cluster_id w = c ∧
  (∀ i, i ∈ idxs → ∃ g, find_gpu (gpus_of d (Worker.id w)) i = Some g ∧
     supports (vendors_of engine) g = true ∧
     vram <= WorkerGPU.vram_mb g - get0 (_gpu_usage (_live_instances d (Worker.id w))) i) ∧
  gs = sorted_set idxs ∧ _alloc_port s (_port_instances d (Worker.id w)) ∅ = Ok port.
Proof.
  unfold allocate_manual. destruct (find_worker d wid) as [w'|]; [|naive_solver].
  destruct (String.eqb_spec (Worker.state w') "connected") as [Hs|Hs]; simpl; [|naive_solver].
  destruct (N.eqb_spec (Worker.cluster_id w') c) as [Hc|Hc]; simpl; [|naive_solver].
  rewrite result_bind_Ok. setoid_rewrite result_bind_Ok. setoid_rewrite result_bind_Ok.
  setoid_rewrite result_bind_Ok. split.
  - intros ([] & _ & [] & Hv & [] & Hf & p & Hp & ?). simplify_eq.
    rewrite check_vendor_Ok in Hv. rewrite check_vram_Ok in Hf.
    split_and!; try done. intros i Hi.
    destruct (Hv i Hi) as (g & Hg & ?), (Hf i Hi) as (g' & Hg' & ?). simplify_eq. eauto.
  - intros (? & _ & _ & Hall & -> & Hp). simplify_eq. exists tt. split.
    { apply check_known_Ok. intros i Hi. destruct (Hall i Hi) as (g & -> & _). eauto. }
    exists tt. split; [apply check_vendor_Ok; naive_solver|].
    exists tt. split; [apply check_vram_Ok; naive_solver|]. eauto.
Qed.

(** ** Properties: parallel groups *)

Lemma allocate_replicas_length s d c vram engine count used0 l :
  0 <= count → allocate_replicas s d c vram engine count used0 = Ok l → Z.of_nat (length l) = count.
Proof.
  intros Hc H. unfold allocate_replicas in H. destruct (_connected_workers d c); [done|].
  apply result_bind_Ok in H as (st & H & ?). simplify_eq.
  eapply (foldR_inv (λ l st, length (allocations st) = length l)) in H; [|done|].
  - rewrite H. unfold py_range. rewrite length_seqZ. lia.
  - intros l1 x b0 b1 _ Hl Hs. unfold allocate_one in Hs. destruct (three_passes _ _ _); [|done].
    apply result_bind_Ok in Hs as (port & _ & ?). simplify_eq. simpl. rewrite !length_app, Hl. done.
Qed.

Lemma looser_trans x y z : looser x y = false → looser y z = false → looser x z = false.
Proof. unfold looser. lia. Qed.
Lemma looser_asym x y : looser x y = true → looser y x = false.
Proof. unfold looser. lia. Qed.

Lemma best_fitting_gpu_spec d engine vram w free i :
  _best_fitting_gpu (gpus_of d (Worker.id w)) (vendors_of engine)
    (_gpu_usage (_live_instances d (Worker.id w))) vram = Some (free, i) →
  ∃ g, g ∈ gpus_of d (Worker.id w) ∧ WorkerGPU.index g = i ∧ free = live_free d w g ∧
    vram <= free ∧ supports (vendors_of engine) g = true ∧
    ∀ g', g' ∈ gpus_of d (Worker.id w) → supports (vendors_of engine) g' = true →
      live_free d w g' <= free.
Proof.
  set (c := λ (_ : unit) g, if supports (vendors_of engine) g && (vram <=? live_free d w g)
                     then Some (live_free d w g, WorkerGPU.index g) else None).
  intros H. unfold _best_fitting_gpu in H.
  rewrite (foldl_ext_In _ (keep_cand looser c tt)) in H.
  2:{ intros b g _. unfold fitting_gpu, keep_cand, c, live_free.
      destruct (supports _ g); simpl; [|done]. by destruct (vram <=? _). }
  rewrite foldl_keep_cand in H.
  apply (keep_best_spec _ looser_trans looser_asym) in H as [Hin Hmax].
  apply list_elem_of_omap in Hin as (g & Hg & Hc). unfold c in Hc.
  destruct (supports _ g) eqn:Hs; [|done]. destruct (Z.leb_spec vram (live_free d w g)); [|done].
  simpl in Hc. simplify_eq. exists g. split_and!; try done. intros g' Hg' Hs'.
  destruct (Z.le_gt_cases vram (live_free d w g')) as [Hv|]; [|lia].
  assert (looser (live_free d w g', WorkerGPU.index g') (live_free d w g, WorkerGPU.index g) = false) as Hl.
  { apply Hmax, list_elem_of_omap. exists g'. split; [done|]. unfold c. rewrite Hs'.
    by rewrite (proj2 (Z.leb_le _ _) Hv). }
  unfold looser in Hl. simpl in Hl. lia.
Qed.

Lemma elem_of_fitting d engine vram ws p :
  p ∈ fitting_workers d engine vram ws →
  p_worker p ∈ ws ∧ ∃ g, g ∈ gpus_of d (Worker.id (p_worker p)) ∧ WorkerGPU.index g = p_gpu p ∧
    p_free p = live_free d (p_worker p) g ∧
    vram <= p_free p ∧ supports (vendors_of engine) g = true ∧
    ∀ g', g' ∈ gpus_of d (Worker.id (p_worker p)) → supports (vendors_of engine) g' = true →
      live_free d (p_worker p) g' <= p_free p.
Proof.
  unfold fitting_workers. rewrite list_elem_of_omap. intros (w & Hw & H).
  destruct (_best_fitting_gpu _ _ _ _) as [[free i]|] eqn:E; simplify_eq. split; [done|].
  by apply best_fitting_gpu_spec.
Qed.

Definition p_wid (p : placement) : uuid := Worker.id (p_worker p).
Lemma fitting_NoDup d engine vram ws :
  NoDup (map Worker.id ws) → NoDup (map p_wid (fitting_workers d engine vram ws)).
Proof.
  apply NoDup_omap_fst. intros w p H.
  destruct (_best_fitting_gpu _ _ _ _) as [[free i]|]; by simplify_eq.
Qed.

Lemma order_leb_free a b : order_leb a b = true → p_free b <= p_free a.
Proof. unfold order_leb. destruct (Z.eqb_spec (p_free a) (p_free b)); [lia|]. intros ?%Z.ltb_lt. lia. Qed.

(** What a successful call chose: the head and its followers. *)
Lemma allocate_parallel_inv s d c vram engine n exclude l :
  NoDup (map Worker.id (Db.workers d)) → 1 <= n →
  allocate_parallel_replicas s d c vram engine n exclude = Ok l →
  ∃ head others ip rp,
    let ws := excluded_filter exclude (_connected_workers d c) in
    let fitting := fitting_workers d engine vram ws in
    l = imap (to_rank ip rp) (head :: others) ∧
    length (head :: others) = Z.to_nat n ∧ NoDup (map p_wid (head :: others)) ∧
    (∀ p, p ∈ head :: others → p ∈ fitting) ∧
    truthy (Worker.address (p_worker head)) = true ∧
    _alloc_port s (_port_instances d (p_wid head)) ∅ = Ok ip ∧
    _alloc_rendezvous_port s (_port_instances d (p_wid head)) ∅ = Ok rp.
Proof.
  intros Hd Hn. unfold allocate_parallel_replicas.
  destruct (_connected_workers d c) as [|w0 ws0] eqn:Ews; [done|]. rewrite <-Ews.
  assert ((if bool_decide (exclude = ∅) then _connected_workers d c
           else excluded_filter exclude (_connected_workers d c))
          = excluded_filter exclude (_connected_workers d c)) as ->.
  { case_bool_decide as He; [|done]. unfold excluded_filter. subst exclude.
    symmetry. by apply where_all. }
  set (ws := excluded_filter _ _).
  assert (NoDup (map Worker.id ws)) as Hws by (apply NoDup_map_where, connected_NoDup, Hd).
  destruct ws as [|w1 ws1] eqn:E1; [done|]. rewrite <-E1 in *.
  set (fitting := fitting_workers d engine vram ws).
  pose proof (fitting_NoDup d engine vram ws Hws) as Hnd. fold fitting in Hnd.
  destruct (sorted_by order_leb _) as [|head rest] eqn:Eh; [done|].
  assert (head ∈ fitting ∧ truthy (Worker.address (p_worker head)) = true) as [Hhead Haddr].
  { apply (elem_of_where (λ p, truthy (Worker.address (p_worker p)))).
    apply (sorted_by_elem order_leb). rewrite Eh. by constructor. }
  destruct (Z.ltb_spec (Z.of_nat (length fitting)) n) as [|Hlen]; [done|].
  set (others := sorted_by order_leb _). intros H.
  apply result_bind_Ok in H as (ip & Hip & H). apply result_bind_Ok in H as (rp & Hrp & H).
  assert (head :: others ≡ₚ fitting) as Hperm.
  { apply elem_of_Permutation in Hhead as [k Hk]. unfold others. rewrite sorted_by_perm.
    assert (NoDup (map p_wid (head :: k))) as Hnk by by rewrite <-Hk.
    simpl in Hnk. apply NoDup_cons in Hnk as [Hni Hnk].
    rewrite (where_perm _ _ _ Hk). rewrite Hk. simpl. rewrite N.eqb_refl. simpl. constructor.
    rewrite where_all; [done|]. intros p Hp. apply negb_true_iff, N.eqb_neq. intros E. apply Hni.
    apply list_elem_of_fmap. by exists p. }
  exists head, (take (Z.to_nat (n - 1)) others), ip, rp.
  assert (head :: take (Z.to_nat (n - 1)) others = take (Z.to_nat n) (head :: others)) as Htake.
  { replace (Z.to_nat n) with (S (Z.to_nat (n - 1))) by lia. done. }
  split_and!; try done.
  - naive_solver.
  - rewrite Htake, length_take, (Permutation_length Hperm). lia.
  - rewrite Htake. rewrite <-Hperm in Hnd.
    apply (sublist_NoDup _ (map p_wid (head :: others))); [done|].
    rewrite <-(firstn_map p_wid). apply sublist_take.
  - intros p. rewrite Htake. intros Hp. rewrite <-Hperm. eapply elem_of_sublist; [done|apply sublist_take].
Qed.

(** C23 A placed parallel group has one rank per host: [nodes_per_replica] ranks,
    numbered in order, on distinct connected workers outside the excluded set,
    each on the most free GPU of its worker among those of a supported vendor,
    which has room for the model.  Only rank 0 publishes ports, each free on its
    worker, and its worker has an address the other ranks can dial. *)
Theorem allocate_parallel_group s d c vram engine n exclude l :
  constraints_ok d = true → 1 <= n →
  allocate_parallel_replicas s d c vram engine n exclude = Ok l →
  length l = Z.to_nat n ∧ NoDup (map (λ a, Worker.id (ParallelAllocation.worker a)) l) ∧
  ∀ (k : nat) a, l !! k = Some a →
    let w := ParallelAllocation.worker a in
    w ∈ _connected_workers d c ∧ Worker.id w ∉ exclude ∧
    ParallelAllocation.node_rank a = Z.of_nat k ∧
    (∃ g, g ∈ gpus_of d (Worker.id w) ∧ ParallelAllocation.gpu_indexes a = [WorkerGPU.index g] ∧
       supports (vendors_of engine) g = true ∧ vram <= live_free d w g ∧
       ∀ g', g' ∈ gpus_of d (Worker.id w) → supports (vendors_of engine) g' = true →
         live_free d w g' <= live_free d w g) ∧
    match k with
    | O => truthy (Worker.address w) = true ∧ ∃ ip rp,
        ParallelAllocation.instance_port a = Some ip ∧ ParallelAllocation.rendezvous_port a = Some rp ∧
        _alloc_port s (_port_instances d (Worker.id w)) ∅ = Ok ip ∧
        _alloc_rendezvous_port s (_port_instances d (Worker.id w)) ∅ = Ok rp
    | S _ => ParallelAllocation.instance_port a = None ∧ ParallelAllocation.rendezvous_port a = None
    end.
Proof.
  intros Hd%constraints_worker_ids Hn H.
  apply allocate_parallel_inv in H as (head & others & ip & rp & -> & Hlen & Hnd & Hin & Haddr & Hip & Hrp);
    [|done..].
  split_and!.
  - by rewrite length_imap.
  - replace (map _ (imap _ _)) with (map p_wid (head :: others)); [done|].
    apply list_eq. intros k. rewrite !list_lookup_fmap, list_lookup_imap.
    by destruct ((head :: others) !! k).
  - intros k a. rewrite list_lookup_imap. intros (p & Hp & ->)%fmap_Some.
    pose proof (Hin p (list_elem_of_lookup_2 _ _ _ Hp)) as Hf.
    apply elem_of_fitting in Hf as (Hw & g & Hg & Hi & Hfree & Hv & Hs & Hmax).
    unfold excluded_filter in Hw. apply elem_of_where in Hw as [Hw He]. simpl. split_and!; try done.
    + apply negb_true_iff, bool_decide_eq_false in He. done.
    + exists g. rewrite <-Hi, <-Hfree. by split_and!.
    + destruct k; [|done]. simpl in Hp. simplify_eq. split; [done|]. by exists ip, rp.
Qed.

Definition sample_group : list ParallelAllocation.t :=
  match allocate_parallel_replicas Settings.default Sample.db 1 16000 "vllm" 2 ∅ with
  | Ok l => l | Raise _ => [] end.

Lemma allocate_parallel_group_witness : length sample_group = 2%nat.
Proof.
  apply (allocate_parallel_group Settings.default Sample.db 1 16000 "vllm" 2 ∅);
    vm_compute; first [reflexivity | discriminate].
Defined.

(** *** The rendezvous address *)

(** A host name or IPv4 address: none of the characters that structure a URL. *)
Definition host_char (c : ascii) : bool :=
  negb (is_space c || Ascii.eqb c ":" || Ascii.eqb c "/" || Ascii.eqb c "?" || Ascii.eqb c "#"
        || Ascii.eqb c "[").
Definition hostname (h : string) : bool := nonempty h && forall_str host_char h.

Lemma hostname_no c h : hostname h = true → host_char c = false → contains_char c h = false.
Proof. intros [_ H]%andb_true_iff Hc. by eapply forall_str_not_contains. Qed.

(** The optional parts of a worker's address: scheme, port and path. *)
Inductive url_scheme := NoScheme | Http | Https.
Definition scheme_text (sc : url_scheme) : string :=
  match sc with NoScheme => "" | Http => "http://" | Https => "https://" end.
Definition port_text (port : option Z) : string :=
  match port with Some p => String ":" (str_Z p) | None => "" end.
Definition path_text (path : option string) : string :=
  match path with Some p => String "/" p | None => "" end.
Definition no_space (s : string) : bool := forall_str (λ c, negb (is_space c)) s.

Lemma no_space_app a b : no_space (a +:+ b) = no_space a && no_space b.
Proof. apply forall_str_app. Qed.
Lemma hostname_no_space h : hostname h = true → no_space h = true.
Proof.
  intros [_ H]%andb_true_iff. eapply forall_str_impl; [|exact H]. unfold host_char. intros c.
  by destruct (is_space c).
Qed.
Lemma port_text_no_space port : (∀ p, port = Some p → 0 <= p) → no_space (port_text port) = true.
Proof.
  destruct port as [p|]; intros H; [|done]. specialize (H p eq_refl).
  change (forall_str (λ c, negb (is_space c)) (str_Z p) = true).
  eapply forall_str_impl; [apply digit_not_space|]. by apply str_Z_digits.
Qed.

(** Up to its path, an address is left as host and port. *)
Lemma before_path h port path :
  hostname h = true → (∀ p, port = Some p → 0 <= p) →
  before "#" (before "?" (before "/" (h +:+ port_text port +:+ path_text path))) = h +:+ port_text port.
Proof.
  intros Hh Hp.
  assert (∀ c, host_char c = false → Ascii.eqb c ":" = false → is_digit c = false →
            contains_char c (h +:+ port_text port) = false) as Hno.
  { intros c Hc Hc1 Hc2. rewrite contains_char_app, (hostname_no _ _ Hh Hc). destruct port as [p|]; [|done].
    simpl. rewrite Hc1. simpl. eapply forall_str_not_contains; [exact Hc2|]. by apply str_Z_digits, Hp. }
  assert (before "/" (h +:+ port_text port +:+ path_text path) = h +:+ port_text port) as ->.
  { rewrite <-append_assoc_str. destruct path as [path|]; simpl.
    - rewrite before_app; [done|]. by apply Hno.
    - rewrite append_nil_r, before_id; [done|]. by apply Hno. }
  rewrite (before_id "?") by by apply Hno. rewrite (before_id "#"); [done|]. by apply Hno.
Qed.

Lemma rendezvous_tail h port path :
  hostname h = true → (∀ p, port = Some p → 0 <= p) →
  let raw := before "#" (before "?" (before "/" (h +:+ port_text port +:+ path_text path))) in
  (if startswith "[" raw then before "]" (drop_str 1 raw)
   else let '(host, _, prt) := rpartition ":" raw in
        if isdigit prt && nonempty host && negb (contains_char ":" host) then host else raw) = h.
Proof.
  intros Hh Hp. cbv zeta. rewrite before_path by done.
  pose proof (hostname_no ":" h Hh eq_refl) as Hc. pose proof (hostname_no "[" h Hh eq_refl) as Hb.
  pose proof Hh as [Hne _]%andb_true_iff.
  assert (startswith "[" (h +:+ port_text port) = false) as ->.
  { destruct h as [|c h]; [done|]. rewrite append_cons. unfold startswith.
    apply orb_false_iff in Hb as [Hb _]. apply Ascii.eqb_neq in Hb.
    cbn [String.prefix]. by destruct (Ascii.ascii_dec "[" c). }
  destruct port as [p|]; simpl.
  - rewrite rpartition_app by by apply str_Z_no_colon, Hp.
    by rewrite (str_Z_isdigit _ (Hp p eq_refl)), Hne, Hc.
  - rewrite append_nil_r. unfold rpartition. rewrite rsplit1_None by done. simpl.
    by rewrite andb_false_r.
Qed.

(** The text after the scheme does not begin with a scheme of its own. *)
Lemma drop_prefix_ci_tail q h port path :
  contains_char "/" q = false → hostname h = true → (∀ p, port = Some p → 0 <= p) →
  drop_prefix_ci (q +:+ "://") (h +:+ port_text port +:+ path_text path)
  = h +:+ port_text port +:+ path_text path.
Proof.
  intros Hq Hh Hp. unfold drop_prefix_ci. destruct (startswith _ _) eqn:E; [exfalso|done].
  apply startswith_split in E. set (rest := drop_str _ _) in E. clearbody rest.
  apply (f_equal (before "/")) in E.
  assert (q +:+ "://" +:+ rest = (q +:+ ":") +:+ String "/" (String "/" rest)) as Eq.
  { by rewrite !append_assoc_str. }
  rewrite append_assoc_str, Eq, before_app in E
    by (rewrite contains_char_app, Hq; done).
  assert (contains_char "/" (lower (h +:+ port_text port)) = false) as Hno.
  { apply contains_char_lower; [intros d; by apply lower_char_sep|]. rewrite contains_char_app.
    rewrite (hostname_no _ _ Hh) by done. destruct port as [p|]; [|done]. simpl.
    eapply forall_str_not_contains; [|by apply str_Z_digits, Hp]. done. }
  assert (lower (h +:+ port_text port) = q +:+ ":") as El.
  { rewrite <-E, <-append_assoc_str, (lower_app (h +:+ port_text port)). destruct path as [path|].
    - change (lower (path_text (Some path))) with (String "/" (lower path)). by rewrite before_app.
    - change (lower (path_text None)) with "". by rewrite append_nil_r, before_id. }
  assert (contains_char ":" (lower h) = false) as Hl.
  { apply contains_char_lower; [intros d; by apply lower_char_sep|]. by apply hostname_no. }
  rewrite lower_app in El. apply (f_equal (rsplit1 ":")) in El.
  rewrite (rsplit1_app ":" q "") in El by done.
  destruct port as [p|]; simpl in El.
  - destruct (str_Z_digits p (Hp p eq_refl)) as [Hd Hne].
    change (lower (String ":" (str_Z p))) with (String ":" (lower (str_Z p))) in El.
    rewrite rsplit1_app in El.
    + destruct (str_Z p); simplify_eq.
    + apply contains_char_lower; [intros d; by apply lower_char_sep|].
      by eapply forall_str_not_contains; [|exact Hd].
  - rewrite append_nil_r, rsplit1_None in El; done.
Qed.

(** [rendezvous_host] extracts the bare host of a worker's address, whatever
    its scheme, port and path: the rank 0 address every other rank dials never
    carries a scheme or a second port. *)
Theorem rendezvous_host_of_url sc h port path fallback :
  hostname h = true → (∀ p, port = Some p → 0 <= p) → (∀ p, path = Some p → no_space p = true) →
  rendezvous_host (Some (scheme_text sc +:+ h +:+ port_text port +:+ path_text path)) fallback = h.
Proof.
  intros Hh Hport Hpath. unfold rendezvous_host. simpl default.
  set (tail := h +:+ port_text port +:+ path_text path).
  assert (no_space (scheme_text sc +:+ tail) = true) as Hns.
  { unfold tail. rewrite !no_space_app, (hostname_no_space h), (port_text_no_space port) by done.
    assert (no_space (path_text path) = true) as -> by (destruct path; [by apply (Hpath s)|done]).
    by destruct sc. }
  rewrite (strip_id _ Hns).
  assert (String.eqb (scheme_text sc +:+ tail) "" = false) as ->.
  { destruct sc; [|done|done]. apply String.eqb_neq. unfold tail. by destruct h. }
  assert (drop_prefix_ci "https://" (drop_prefix_ci "http://" (scheme_text sc +:+ tail)) = tail) as ->.
  { assert (drop_prefix_ci "http://" tail = tail) as H1 by by apply (drop_prefix_ci_tail "http").
    assert (drop_prefix_ci "https://" tail = tail) as H2 by by apply (drop_prefix_ci_tail "https").
    destruct sc; simpl scheme_text.
    - by rewrite (H1 : drop_prefix_ci "http://" ("" +:+ tail) = tail).
    - assert (drop_prefix_ci "http://" ("http://" +:+ tail) = tail) as ->; [|done].
      unfold drop_prefix_ci. by rewrite lower_app, startswith_app, (drop_str_app "http://").
    - assert (drop_prefix_ci "http://" ("https://" +:+ tail) = "https://" +:+ tail) as -> by done.
      unfold drop_prefix_ci. by rewrite lower_app, startswith_app, (drop_str_app "https://"). }
  by apply rendezvous_tail.
Qed.

Lemma rendezvous_host_of_url_witness :
  rendezvous_host (Some "HTTPS"%string) "" = "HTTPS"%string.
Proof.
  apply (rendezvous_host_of_url NoScheme "HTTPS" None None "");
    [vm_compute; reflexivity|discriminate|discriminate].
Defined.
