(* ===== verification/Scaling.v ===== *)
(** * Scaling of replica groups ([server/inferna_server/services/scaling.py])

    Replica units, their classification, and [apply_scale]: stop the broken
    units, then allocate the missing ones or stop the surplus, and commit once. *)

From S2P Require Import Prelude PyStr Models Config Scheduler.
Local Open Scope Z_scope.

(** ** Replica units *)

(** A replica unit: one instance, or the ranks of one parallel group. *)
Definition unit_ : Type := list ModelInstance.t.

(** [inst.parallel_group_id or inst.id] *)
Definition group_key (i : ModelInstance.t) : uuid :=
  default (ModelInstance.id i) (ModelInstance.parallel_group_id i).

(** [groups.setdefault(k, []).append(x)] on a dict in insertion order. *)
Fixpoint setdefault_append {A} (k : uuid) (x : A) (groups : list (uuid * list A)) : list (uuid * list A) :=
  match groups with
  | [] => [(k, [x])]
  | (k', l) :: groups' =>
      if (k =? k')%N then (k', l ++ [x]) :: groups' else (k', l) :: setdefault_append k x groups'
  end.
Definition group_by {A} (key : A → uuid) (l : list A) : list (uuid * list A) :=
  foldl (λ groups x, setdefault_append (key x) x groups) [] l.

Definition _replica_units (nodes_per_replica : Z) (instances : list ModelInstance.t) : list unit_ :=
  if nodes_per_replica <=? 1 then map (λ i, [i]) instances
  else map snd (group_by group_key instances).

Definition replica_unit_count (nodes_per_replica : Z) (instances : list ModelInstance.t) : Z :=
  Z.of_nat (length (_replica_units nodes_per_replica instances)).

Definition desired_running (i : ModelInstance.t) : bool := String.eqb (ModelInstance.desired_state i) "running".
Definition in_state (s : string) (i : ModelInstance.t) : bool := String.eqb (ModelInstance.state i) s.

(** The four lists of [apply_scale] as predicates on a unit.  [unit not in
    serving] compares lists of row objects, so it is the negation of
    [serving_unit] (no two units share a row). *)
Definition live_unit (u : unit_) : bool := existsb desired_running u.
Definition serving_unit (u : unit_) : bool := live_unit u && forallb (in_state "running") u.
Definition pending_unit (u : unit_) : bool :=
  live_unit u && negb (forallb (in_state "running") u)
  && forallb (λ i, in_live_states (ModelInstance.state i)) u.
Definition broken_unit (u : unit_) : bool := live_unit u && existsb (in_state "error") u.

(** ** Row changes *)

(** What a stop writes on a row: the same three assignments as [POST /stop]. *)
Definition stop_row (i : ModelInstance.t) : ModelInstance.t :=
  ModelInstance.set_desired_state "stopped"
    (ModelInstance.set_generation (ModelInstance.generation i + 1)
       (ModelInstance.set_error_detail None i)).

Definition ids_of (us : list unit_) : list uuid := map ModelInstance.id (concat us).
Definition in_ids (l : list uuid) (i : ModelInstance.t) : bool := bool_decide (ModelInstance.id i ∈ l).
Definition stop_units (us : list unit_) (d : Db.t) : Db.t :=
  Db.set_instances (update_where (in_ids (ids_of us)) stop_row (Db.instances d)) d.

(** The column defaults a new row draws: [uuid.uuid4()] for its id, [utcnow()]
    for [created_at], and the group ids of [apply_scale]; indexed by row (by
    group) in the order they are created. *)
Module Fresh.
Record t := mk { ids : nat → uuid; times : nat → datetime; group_ids : nat → uuid }.
End Fresh.

Definition new_instance (dep : Deployment.t) (id : uuid) (now : datetime) (worker : Worker.t)
    (gpu_indexes : list Z) (port : Z) : ModelInstance.t := {|
  ModelInstance.id := id; ModelInstance.model_id := Deployment.model_id dep;
  ModelInstance.cluster_id := Deployment.cluster_id dep;
  ModelInstance.worker_id := Some (Worker.id worker);
  ModelInstance.deployment_id := Deployment.id dep; ModelInstance.engine := Deployment.engine dep;
  ModelInstance.profile := Deployment.profile dep; ModelInstance.gpu_indexes := gpu_indexes;
  ModelInstance.state := "scheduled"; ModelInstance.desired_state := "running";
  ModelInstance.generation := 1; ModelInstance.port := Some port;
  ModelInstance.error_detail := None; ModelInstance.log_tail := None;
  ModelInstance.parallel_group_id := None; ModelInstance.node_rank := None;
  ModelInstance.world_size := None; ModelInstance.parallel_mode := None;
  ModelInstance.rendezvous := None; ModelInstance.created_at := now |}.

Definition new_rank (dep : Deployment.t) (id : uuid) (now : datetime) (group_id : uuid)
    (rendezvous : string) (a : ParallelAllocation.t) : ModelInstance.t := {|
  ModelInstance.id := id; ModelInstance.model_id := Deployment.model_id dep;
  ModelInstance.cluster_id := Deployment.cluster_id dep;
  ModelInstance.worker_id := Some (Worker.id (ParallelAllocation.worker a));
  ModelInstance.deployment_id := Deployment.id dep; ModelInstance.engine := Deployment.engine dep;
  ModelInstance.profile := Deployment.profile dep;
  ModelInstance.gpu_indexes := ParallelAllocation.gpu_indexes a;
  ModelInstance.state := "scheduled"; ModelInstance.desired_state := "running";
  ModelInstance.generation := 1; ModelInstance.port := ParallelAllocation.instance_port a;
  ModelInstance.error_detail := None; ModelInstance.log_tail := None;
  ModelInstance.parallel_group_id := Some group_id;
  ModelInstance.node_rank := Some (ParallelAllocation.node_rank a);
  ModelInstance.world_size := Some (Deployment.nodes_per_replica dep);
  ModelInstance.parallel_mode := Deployment.parallel_mode dep;
  ModelInstance.rendezvous := Some rendezvous; ModelInstance.created_at := now |}.

(** [f"{host}:{port}"] of the head; [str(None)] is "None". *)
Definition str_opt_Z (z : option Z) : string := match z with Some z => str_Z z | None => "None" end.
Definition rendezvous_address (head : ParallelAllocation.t) : string :=
  rendezvous_host (Worker.address (ParallelAllocation.worker head))
    (Worker.hostname (ParallelAllocation.worker head))
  +:+ ":" +:+ str_opt_Z (ParallelAllocation.rendezvous_port head).

Definition add_instances (l : list ModelInstance.t) (d : Db.t) : Db.t :=
  Db.set_instances (Db.instances d ++ l) d.
Definition update_deployment (id : uuid) (f : Deployment.t → Deployment.t) (d : Db.t) : Db.t :=
  Db.set_deployments (update_where (λ r, (Deployment.id r =? id)%N) f (Db.deployments d)) d.

(** [worker_ids] of rows that have one. *)
Definition worker_ids_of (l : list ModelInstance.t) : gset uuid := list_to_set (omap ModelInstance.worker_id l).
Definition held_pairs (l : list ModelInstance.t) : gset (uuid * Z) :=
  list_to_set (l ≫= λ i, match ModelInstance.worker_id i with
                         | Some w => map (λ g, (w, g)) (ModelInstance.gpu_indexes i)
                         | None => [] end).

(** ** Scaling out *)

Section scale.
Context (s : Settings.t) (fr : Fresh.t).

(** One more parallel group; [st] is the set of occupied workers and the number
    of rows created so far. *)
Definition add_group (dep : Deployment.t) (vram : Z) (st : gset uuid * nat) (k : nat)
    : DbM (gset uuid * nat) :=
  let '(occupied, n) := st in
  d ← query id;
  allocations ← lift_result (allocate_parallel_replicas s d (Deployment.cluster_id dep) vram
                  (Deployment.engine dep) (Deployment.nodes_per_replica dep) occupied);
  match allocations with
  | [] => raise (RuntimeError "IndexError")
  | head :: _ =>
      let rows := imap (λ j a, new_rank dep (Fresh.ids fr (n + j)) (Fresh.times fr (n + j))
                                 (Fresh.group_ids fr k) (rendezvous_address head) a) allocations in
      _ ← execute (add_instances rows);
      mret (list_to_set (map (λ a, Worker.id (ParallelAllocation.worker a)) allocations) ∪ occupied,
            (n + length allocations)%nat)
  end.

Definition scale_out (dep : Deployment.t) (vram : Z) (units capacity_units : list unit_) (new_units : Z)
    : DbM unit :=
  if 1 <? Deployment.nodes_per_replica dep then
    _ ← foldM (add_group dep vram) (worker_ids_of (concat units), 0%nat) (seq 0 (Z.to_nat new_units));
    mret tt
  else
    d ← query id;
    allocations ← lift_result (allocate_replicas s d (Deployment.cluster_id dep) vram
                    (Deployment.engine dep) new_units (held_pairs (concat capacity_units)));
    execute (add_instances (imap (λ k '(worker, gpu_indexes, port),
      new_instance dep (Fresh.ids fr k) (Fresh.times fr k) worker gpu_indexes port) allocations)).

(** ** Scaling in: partial units first, then the oldest. *)
Definition unit_created (u : unit_) : datetime :=
  match map ModelInstance.created_at u with [] => 0 | t :: ts => foldl Z.min t ts end.
Definition stop_leb (a b : unit_) : bool :=
  let ra := forallb (in_state "running") a in
  let rb := forallb (in_state "running") b in
  if Bool.eqb ra rb then unit_created a <=? unit_created b else negb ra.
Definition units_to_stop (candidates : list unit_) (surplus : Z) : list unit_ :=
  take (Z.to_nat surplus) (sorted_by stop_leb candidates).

(** ** The operation *)

(** [utcnow()] at the end of the call. *)
Context (now : datetime).

Definition clamp (dep : Deployment.t) (replicas : Z) : Z :=
  Z.max (Deployment.min_replicas dep) (Z.min (Deployment.max_replicas dep) replicas).

Definition finish_scale (dep_id : uuid) (replicas : Z) (set_range : bool) (r : Deployment.t) : Deployment.t :=
  Deployment.set_last_scaled_at (Some now)
    (if set_range then Deployment.set_max_replicas replicas (Deployment.set_min_replicas replicas r) else r).

Definition apply_scale (dep_id : uuid) (replicas0 : Z) (set_range : bool) : DbM unit :=
  row ← query (λ d, find_deployment d dep_id);
  dep ← match row with Some dep => mret dep | None => raise (RuntimeError "InvalidRequestError") end;
  instances ← query (λ d, instances_of d dep_id);
  let replicas := if set_range then replicas0 else clamp dep replicas0 in
  let units := _replica_units (Deployment.nodes_per_replica dep) instances in
  let serving := where_ serving_unit units in
  let pending := where_ pending_unit units in
  let broken := where_ broken_unit units in
  _ ← execute (stop_units broken);
  let effective_capacity := Z.of_nat (length serving) + Z.of_nat (length pending) in
  _ ← (if effective_capacity <? replicas then
         model ← query (λ d, find_model d (Deployment.model_id dep));
         match model with
         | None => raise AttributeError
         | Some model =>
             scale_out dep (Model.vram_required_mb model) units (serving ++ pending)
               (replicas - effective_capacity)
         end
       else if replicas <? effective_capacity then
         execute (stop_units (units_to_stop (serving ++ pending) (effective_capacity - replicas)))
       else mret tt);
  _ ← execute (update_deployment dep_id (finish_scale dep_id replicas set_range));
  commit.
End scale.

(** ** Lemmas: grouping *)
Definition first_keys (ks : list uuid) : list uuid :=
  foldl (λ acc k, if bool_decide (k ∈ acc) then acc else acc ++ [k]) [] ks.

Lemma first_keys_snoc ks k :
  first_keys (ks ++ [k]) = if bool_decide (k ∈ first_keys ks) then first_keys ks else first_keys ks ++ [k].
Proof. unfold first_keys. by rewrite foldl_app. Qed.
Lemma elem_of_first_keys ks k : k ∈ first_keys ks ↔ k ∈ ks.
Proof.
  revert k. induction ks as [|k' ks IH] using rev_ind; intros k; [done|].
  rewrite first_keys_snoc, elem_of_app, list_elem_of_singleton.
  case_bool_decide as H; [|rewrite elem_of_app, list_elem_of_singleton, IH; done].
  rewrite IH in *. naive_solver.
Qed.
Lemma first_keys_NoDup ks : NoDup (first_keys ks).
Proof.
  induction ks as [|k ks IH] using rev_ind; [constructor|]. rewrite first_keys_snoc.
  case_bool_decide; [done|]. apply NoDup_app. split_and!; [done| |apply NoDup_singleton].
  intros x Hx ->%list_elem_of_singleton. done.
Qed.
Lemma first_keys_id ks : NoDup ks → first_keys ks = ks.
Proof.
  induction ks as [|k ks IH] using rev_ind; [done|]. intros (H1 & H2 & _)%NoDup_app.
  rewrite first_keys_snoc, IH by done. case_bool_decide as H; [|done]. exfalso. apply (H2 k); [done|].
  by apply list_elem_of_singleton.
Qed.

Section grouping.
Context {A : Type} (key : A → uuid).
Definition rows_of (k : uuid) (l : list A) : list A := where_ (λ x, (key x =? k)%N) l.

Lemma setdefault_append_map (l : list A) (x : A) ks :
  NoDup ks →
  setdefault_append (key x) x (map (λ k, (k, rows_of k l)) ks) =
  map (λ k, (k, if (key x =? k)%N then rows_of k l ++ [x] else rows_of k l)) ks ++
  (if bool_decide (key x ∈ ks) then [] else [(key x, [x])]).
Proof.
  induction ks as [|k ks IH]; [done|]. intros [Hk Hks]%NoDup_cons. simpl.
  destruct (N.eqb_spec (key x) k) as [E|E].
  - rewrite bool_decide_eq_true_2 by (rewrite E; by constructor). rewrite app_nil_r. f_equal.
    apply map_ext_in. intros k' Hk'%list_elem_of_In. destruct (N.eqb_spec (key x) k'); [congruence|done].
  - rewrite IH by done. simpl. do 2 f_equal. apply (f_equal (λ b : bool, if b then [] else _)).
    apply bool_decide_ext. rewrite elem_of_cons. naive_solver.
Qed.

Lemma group_by_spec l :
  group_by key l = map (λ k, (k, rows_of k l)) (first_keys (map key l)).
Proof.
  induction l as [|x l IH] using rev_ind; [done|].
  unfold group_by. rewrite foldl_app. simpl. fold (group_by key l). rewrite IH.
  rewrite setdefault_append_map by apply first_keys_NoDup. rewrite map_app. simpl. rewrite first_keys_snoc.
  assert (∀ k, rows_of k (l ++ [x]) = if (key x =? k)%N then rows_of k l ++ [x] else rows_of k l) as Hr.
  { intros k. unfold rows_of. rewrite where_app. simpl. case_match; [done|]. by rewrite app_nil_r. }
  case_bool_decide as H.
  - rewrite app_nil_r. apply map_ext. intros k. by rewrite Hr.
  - rewrite map_app. f_equal; [apply map_ext; intros k; by rewrite Hr|]. simpl.
    rewrite Hr, N.eqb_refl. do 2 f_equal. unfold rows_of.
    rewrite elem_of_first_keys in H. replace (where_ _ l) with (@nil A); [done|]. symmetry.
    destruct (where_ _ l) as [|y l'] eqn:E; [done|]. destruct H.
    assert (y ∈ y :: l') as Hy by constructor. rewrite <-E in Hy.
    apply elem_of_where in Hy as [Hy <-%N.eqb_eq]. apply list_elem_of_fmap. eauto.
Qed.
End grouping.

(** ** Capacity

    The key of a row's unit, and the units that count as capacity: those with a
    row desired to run and every row live. *)
Definition unit_key (nodes : Z) (i : ModelInstance.t) : uuid :=
  if nodes <=? 1 then ModelInstance.id i else group_key i.
Definition capacity_unit (u : unit_) : bool :=
  live_unit u && forallb (λ i, in_live_states (ModelInstance.state i)) u.
Definition capacity (nodes : Z) (l : list ModelInstance.t) : Z :=
  Z.of_nat (length (where_ capacity_unit (_replica_units nodes l))).

(** The keys of the capacity units, as a set. *)
Definition cap_keys (nodes : Z) (l : list ModelInstance.t) : gset uuid :=
  filter (λ k, capacity_unit (rows_of (unit_key nodes) k l) = true) (list_to_set (map (unit_key nodes) l)).

Lemma replica_units_spec nodes l :
  NoDup (map ModelInstance.id l) →
  _replica_units nodes l =
  map (λ k, rows_of (unit_key nodes) k l) (first_keys (map (unit_key nodes) l)).
Proof.
  intros Hnd. unfold _replica_units, unit_key. destruct (nodes <=? 1).
  - rewrite first_keys_id by done. rewrite map_map. apply map_ext_in.
    intros i Hi%list_elem_of_In. unfold rows_of.
    revert Hi Hnd. induction l as [|j l IH]; [by intros ?%elem_of_nil|]. simpl.
    rewrite elem_of_cons, NoDup_cons. intros [->|Hi] [Hj Hnd].
    + rewrite N.eqb_refl. f_equal. symmetry. clear IH. induction l as [|k l IH]; [done|]. simpl in *.
      apply not_elem_of_cons in Hj as [Hj Hjl]. apply NoDup_cons in Hnd as [_ Hnd].
      destruct (N.eqb_spec (ModelInstance.id k) (ModelInstance.id j)); [congruence|]. by apply IH.
    + destruct (N.eqb_spec (ModelInstance.id j) (ModelInstance.id i)) as [E|]; [|by apply IH].
      destruct Hj. rewrite E. apply list_elem_of_fmap. eauto.
  - by rewrite group_by_spec, map_map.
Qed.

Lemma elem_of_rows_of {A} (key : A → uuid) k l x : x ∈ rows_of key k l ↔ x ∈ l ∧ key x = k.
Proof. unfold rows_of. by rewrite elem_of_where, N.eqb_eq. Qed.

Lemma capacity_unit_true u :
  capacity_unit u = true ↔
  (∃ i, i ∈ u ∧ desired_running i = true) ∧ ∀ i, i ∈ u → in_live_states (ModelInstance.state i) = true.
Proof.
  unfold capacity_unit, live_unit. rewrite andb_true_iff, existsb_exists, forallb_forall.
  setoid_rewrite list_elem_of_In. done.
Qed.

Lemma elem_of_cap_keys nodes l k :
  k ∈ cap_keys nodes l ↔
  (∃ i, i ∈ l ∧ unit_key nodes i = k ∧ desired_running i = true) ∧
  ∀ i, i ∈ l → unit_key nodes i = k → in_live_states (ModelInstance.state i) = true.
Proof.
  unfold cap_keys. rewrite elem_of_filter, elem_of_list_to_set, capacity_unit_true, list_elem_of_fmap.
  setoid_rewrite elem_of_rows_of. naive_solver.
Qed.

Lemma capacity_size nodes l :
  NoDup (map ModelInstance.id l) → capacity nodes l = Z.of_nat (size (cap_keys nodes l)).
Proof.
  intros Hnd. unfold capacity. f_equal. rewrite replica_units_spec by done.
  set (ks := first_keys _).
  assert (cap_keys nodes l =
          list_to_set (where_ (λ k, capacity_unit (rows_of (unit_key nodes) k l)) ks)) as ->.
  { apply set_eq. intros k. unfold cap_keys. rewrite elem_of_filter, !elem_of_list_to_set, elem_of_where.
    unfold ks. rewrite elem_of_first_keys. naive_solver. }
  rewrite size_list_to_set by (apply NoDup_where, first_keys_NoDup).
  generalize ks. intros l'. induction l' as [|k l' IH]; [done|]. simpl. destruct (capacity_unit _); simpl; auto.
Qed.

(** [len(serving) + len(pending)] counts the capacity units. *)
Lemma effective_capacity_spec units :
  Z.of_nat (length (where_ serving_unit units)) + Z.of_nat (length (where_ pending_unit units)) =
  Z.of_nat (length (where_ capacity_unit units)).
Proof.
  rewrite <-Nat2Z.inj_add. f_equal. rewrite where_partition_length.
  - f_equal. apply where_ext. intros u _. unfold serving_unit, pending_unit, capacity_unit.
    destruct (live_unit u); simpl; [|done]. destruct (forallb (in_state "running") u) eqn:E; simpl; [|done].
    symmetry. apply forallb_forall. intros i Hi. rewrite forallb_forall in E. specialize (E i Hi).
    unfold in_state in E. apply String.eqb_eq in E. by rewrite E.
  - unfold serving_unit, pending_unit. intros u. destruct (live_unit u), (forallb _ _); done.
Qed.

(** Stopping whole units removes exactly their keys from the capacity. *)
Definition stop_keys (nodes : Z) (K : gset uuid) (l : list ModelInstance.t) : list ModelInstance.t :=
  update_where (λ i, bool_decide (unit_key nodes i ∈ K)) stop_row l.

Lemma unit_key_stop nodes i : unit_key nodes (stop_row i) = unit_key nodes i.
Proof. done. Qed.

Lemma cap_keys_stop nodes K l : cap_keys nodes (stop_keys nodes K l) = cap_keys nodes l ∖ K.
Proof.
  apply set_eq. intros k. rewrite elem_of_difference, !elem_of_cap_keys. unfold stop_keys.
  setoid_rewrite elem_of_update_where. split.
  - intros [(i & (j & Hj & ->) & Hk & Hd) Hall].
    case_bool_decide as HK; [by unfold desired_running in Hd|]. subst k. split_and!; [by eauto| |done].
    intros i Hi Hk. specialize (Hall _ (ex_intro _ i (conj Hi eq_refl))).
    rewrite Hk in Hall. rewrite bool_decide_eq_false_2 in Hall by done. auto.
  - intros [[(i & Hi & Hk & Hd) Hall] HK]. split.
    + exists i. split_and!; [|done|done]. exists i. split; [done|].
      by rewrite bool_decide_eq_false_2 by by rewrite Hk.
    + intros ? (j & Hj & ->) Hk'. case_bool_decide; [|by apply Hall].
      rewrite unit_key_stop in Hk'. destruct HK. by rewrite <-Hk'.
Qed.

(** New scheduled rows under new keys add exactly their keys. *)
Definition scheduled_row (i : ModelInstance.t) : Prop :=
  ModelInstance.state i = "scheduled" ∧ ModelInstance.desired_state i = "running".

Lemma cap_keys_app nodes l new :
  Forall scheduled_row new →
  (∀ i j, i ∈ l → j ∈ new → unit_key nodes i ≠ unit_key nodes j) →
  cap_keys nodes (l ++ new) = cap_keys nodes l ∪ list_to_set (map (unit_key nodes) new).
Proof.
  intros Hnew Hdisj. rewrite Forall_forall in Hnew. apply set_eq. intros k.
  rewrite elem_of_union, !elem_of_cap_keys, elem_of_list_to_set, list_elem_of_fmap.
  setoid_rewrite elem_of_app. split.
  - intros [(i & [Hi|Hi] & Hk & Hd) Hall]; [left|right; by exists i]. split; [eauto|]. auto.
  - intros [[(i & Hi & Hk & Hd) Hall]|(i & -> & Hi)]; (split; [exists i|]).
    + by split_and!; [left| |].
    + intros j [Hj|Hj] Hkj; [by apply Hall|]. destruct (Hdisj i j Hi Hj). congruence.
    + destruct (Hnew i Hi) as [_ Hd]. split_and!; [by right|done|]. unfold desired_running. by rewrite Hd.
    + intros j [Hj|Hj] Hkj; [by destruct (Hdisj j i Hj Hi)|]. destruct (Hnew j Hj) as [-> _]. done.
Qed.

Lemma cap_keys_perm nodes l1 l2 : l1 ≡ₚ l2 → cap_keys nodes l1 = cap_keys nodes l2.
Proof. intros H. apply set_eq. intros k. rewrite !elem_of_cap_keys. by setoid_rewrite H. Qed.

(** ** Lemmas: the effect of a stop and of new rows on a deployment *)

Lemma in_ids_units nodes l K i :
  NoDup (map ModelInstance.id l) → i ∈ l →
  in_ids (ids_of (map (λ k, rows_of (unit_key nodes) k l) K)) i = bool_decide (unit_key nodes i ∈ K).
Proof.
  intros Hnd Hi. unfold in_ids, ids_of. apply bool_decide_ext.
  rewrite list_elem_of_fmap. setoid_rewrite <-flat_map_concat_map. setoid_rewrite list_elem_of_In.
  setoid_rewrite in_flat_map. setoid_rewrite <-list_elem_of_In. setoid_rewrite elem_of_rows_of. split.
  - intros (j & Hij & k & Hk & Hj & <-).
    by rewrite (NoDup_map_inj_key ModelInstance.id l i j).
  - intros Hk. exists i. eauto.
Qed.

Lemma instances_of_stop us d dep :
  instances_of (stop_units us d) dep = update_where (in_ids (ids_of us)) stop_row (instances_of d dep).
Proof.
  unfold instances_of, stop_units. simpl.
  rewrite where_update by done. by rewrite sorted_by_update.
Qed.

Lemma instances_of_add new d dep :
  Forall (λ i, ModelInstance.deployment_id i = dep) new →
  instances_of (add_instances new d) dep ≡ₚ instances_of d dep ++ new.
Proof.
  intros Hnew. unfold instances_of, add_instances. simpl. rewrite !sorted_by_perm, where_app.
  rewrite (where_all _ new); [done|]. rewrite Forall_forall in Hnew.
  intros i Hi. by apply N.eqb_eq, Hnew.
Qed.

Lemma instances_of_ids d dep :
  NoDup (map ModelInstance.id (Db.instances d)) → NoDup (map ModelInstance.id (instances_of d dep)).
Proof. intros H. unfold instances_of. rewrite sorted_by_perm. by apply NoDup_map_where. Qed.

(** Stopping the units of keys [K], as the deployment sees it. *)
Lemma instances_of_stop_keys nodes K d dep :
  NoDup (map ModelInstance.id (Db.instances d)) →
  instances_of (stop_units (map (λ k, rows_of (unit_key nodes) k (instances_of d dep)) K) d) dep
  = stop_keys nodes (list_to_set K) (instances_of d dep).
Proof.
  intros Hnd. rewrite instances_of_stop. apply update_where_ext. intros i Hi.
  rewrite in_ids_units by (done || by apply instances_of_ids).
  apply bool_decide_ext. by rewrite elem_of_list_to_set.
Qed.

(** The units satisfying [P], by their keys. *)
Definition keys_where (P : unit_ → bool) (nodes : Z) (l : list ModelInstance.t) : list uuid :=
  where_ (λ k, P (rows_of (unit_key nodes) k l)) (first_keys (map (unit_key nodes) l)).
Lemma units_where P nodes l :
  NoDup (map ModelInstance.id l) →
  where_ P (_replica_units nodes l) = map (λ k, rows_of (unit_key nodes) k l) (keys_where P nodes l).
Proof. intros Hnd. by rewrite replica_units_spec, where_fmap. Qed.

Lemma cap_keys_where nodes l : cap_keys nodes l = list_to_set (keys_where capacity_unit nodes l).
Proof.
  apply set_eq. intros k. unfold cap_keys, keys_where.
  rewrite elem_of_filter, !elem_of_list_to_set, elem_of_where, elem_of_first_keys. naive_solver.
Qed.

(** A broken unit is no capacity. *)
Lemma broken_not_capacity u : broken_unit u = true → capacity_unit u = false.
Proof.
  unfold broken_unit, capacity_unit. intros [-> (i & Hi & He)%existsb_exists]%andb_true_iff. simpl.
  destruct (forallb _ u) eqn:E; [|done]. rewrite forallb_forall in E. specialize (E i Hi).
  apply String.eqb_eq in He. by rewrite He in E.
Qed.

(** ** What a successful call did *)

Definition fresh_row (dep : Deployment.t) (i : ModelInstance.t) : Prop :=
  scheduled_row i ∧ ModelInstance.deployment_id i = Deployment.id dep ∧ ModelInstance.generation i = 1.

(** The rows a scale-out created: [n] new units, each under a key of its own. *)
Definition new_units (fr : Fresh.t) (dep : Deployment.t) (n : Z) (new : list ModelInstance.t) : Prop :=
  Forall (fresh_row dep) new ∧
  list_to_set (map (unit_key (Deployment.nodes_per_replica dep)) new) =@{gset uuid}
    list_to_set (map (if Deployment.nodes_per_replica dep <=? 1 then Fresh.ids fr else Fresh.group_ids fr)
                   (seq 0 (Z.to_nat n))).

Section scale_lemmas.
Context (s : Settings.t) (fr : Fresh.t).

Lemma new_rank_fresh dep id now g r a : fresh_row dep (new_rank dep id now g r a).
Proof. done. Qed.
Lemma new_instance_fresh dep id now w gs p : fresh_row dep (new_instance dep id now w gs p).
Proof. done. Qed.

Lemma list_to_set_map_seq_S (f : nat → uuid) n :
  (list_to_set (map f (seq 0 (S n))) : gset uuid) = list_to_set (map f (seq 0 n)) ∪ {[ f n ]}.
Proof. rewrite seq_S, map_app, list_to_set_app_L. simpl. set_solver. Qed.

Lemma map_imap_const {A B C} (g : B → C) (f : nat → A → B) (c : C) l :
  (∀ j a, g (f j a) = c) → map g (imap f l) = replicate (length l) c.
Proof.
  intros H. revert f H. induction l as [|a l IH]; intros f H; [done|]. cbn. f_equal; [done|]. apply (IH (f ∘ S)). intros. apply H.
Qed.

Lemma add_group_Ok dep vram occ n k st occ' n' st' :
  1 < Deployment.nodes_per_replica dep →
  NoDup (map Worker.id (Db.workers (Session.view st))) →
  add_group s fr dep vram (occ, n) k st = (Ok (occ', n'), st') →
  ∃ rows, st' = Session.mk (add_instances rows (Session.view st)) (Session.durable st) false ∧
    Forall (fresh_row dep) rows ∧
    map (unit_key (Deployment.nodes_per_replica dep)) rows = replicate (Z.to_nat (Deployment.nodes_per_replica dep)) (Fresh.group_ids fr k) ∧
    NoDup (omap ModelInstance.worker_id rows) ∧
    (∀ w, w ∈ omap ModelInstance.worker_id rows → w ∉ occ) ∧
    occ' = list_to_set (omap ModelInstance.worker_id rows) ∪ occ.
Proof.
  intros Hn Hw H. unfold add_group in H.
  apply M_bind_Ok in H as (d & st1 & (Hact & -> & ->)%query_Ok & H).
  apply M_bind_Ok in H as (l & st1 & (Hl & ->)%lift_result_Ok & H).
  apply allocate_parallel_inv in Hl as (head & others & ip & rp & -> & Hlen & Hnd & Hin & _); [|done|lia].
  destruct (imap (to_rank ip rp) (head :: others)) as [|h0 t0] eqn:Hranks; [done|].
  set (ranks := h0 :: t0) in *.
  set (rows := imap _ ranks) in H.
  apply M_bind_Ok in H as ([] & st1 & (_ & ->)%execute_Ok & H).
  injection H as <- _ <-. exists rows.
  assert (omap ModelInstance.worker_id rows = map p_wid (head :: others)) as Hwid.
  { unfold rows. rewrite <-Hranks. generalize (head :: others). intros l. clear.
    enough (∀ (g : nat → ParallelAllocation.t → ModelInstance.t) (h : nat → placement → ParallelAllocation.t) ,
      (∀ j a, ModelInstance.worker_id (g j a) = Some (Worker.id (ParallelAllocation.worker a))) →
      (∀ j p, ParallelAllocation.worker (h j p) = p_worker p) →
      omap ModelInstance.worker_id (imap g (imap h l)) = map p_wid l) as He by by apply He.
    induction l as [|p l IH]; intros g h Hg Hh; [done|]. cbn. rewrite Hg, Hh. f_equal.
    apply (IH (g ∘ S) (h ∘ S)); intros; [apply Hg|apply Hh]. }
  assert (map (λ a, Worker.id (ParallelAllocation.worker a)) ranks = map p_wid (head :: others)) as Hwr.
  { rewrite <-Hranks. apply list_eq. intros j. rewrite !list_lookup_fmap, list_lookup_imap.
    by destruct ((head :: others) !! j). }
  split_and!.
  - done.
  - unfold rows. apply Forall_forall. intros i (j & a & -> & _)%elem_of_lookup_imap. apply new_rank_fresh.
  - unfold rows. rewrite (map_imap_const _ _ (Fresh.group_ids fr k)).
    + by rewrite <-Hranks, length_imap, Hlen.
    + intros j a. unfold unit_key. by destruct (Z.leb_spec (Deployment.nodes_per_replica dep) 1); [lia|].
  - by rewrite Hwid.
  - rewrite Hwid. intros w (p & -> & Hp)%list_elem_of_fmap Hocc.
    apply Hin, elem_of_fitting in Hp as [Hp _]. unfold excluded_filter in Hp.
    apply elem_of_where in Hp as [_ Hp]. apply negb_true_iff, bool_decide_eq_false in Hp. done.
  - by rewrite Hwid, <-Hwr.
Qed.

Lemma add_instances_app l1 l2 d : add_instances l2 (add_instances l1 d) = add_instances (l1 ++ l2) d.
Proof. unfold add_instances. simpl. by rewrite app_assoc. Qed.
Lemma add_instances_nil d : add_instances [] d = d.
Proof. unfold add_instances. rewrite app_nil_r. by destruct d. Qed.

Lemma list_to_set_replicate (x : uuid) n : (0 < n)%nat → (list_to_set (replicate n x) : gset uuid) = {[ x ]}.
Proof.
  intros Hn. apply set_eq. intros y. rewrite elem_of_list_to_set, elem_of_replicate, elem_of_singleton.
  split; [by intros [-> _]|intros ->; split; [done|lia]].
Qed.

(** Every group of one call lives on hosts of its own: no two new ranks share a
    worker, and none lands on a worker of an existing unit. *)
Definition own_hosts (units : list unit_) (new : list ModelInstance.t) : Prop :=
  NoDup (omap ModelInstance.worker_id new) ∧
  ∀ w, w ∈ omap ModelInstance.worker_id new → w ∉ worker_ids_of (concat units).

Lemma add_groups_Ok dep vram units n st r st' :
  1 < Deployment.nodes_per_replica dep → Session.inactive st = false →
  NoDup (map Worker.id (Db.workers (Session.view st))) →
  foldM (add_group s fr dep vram) (worker_ids_of (concat units), 0%nat) (seq 0 (Z.to_nat n)) st = (Ok r, st') →
  ∃ new, st' = Session.mk (add_instances new (Session.view st)) (Session.durable st) false ∧
    new_units fr dep n new ∧ own_hosts units new.
Proof.
  intros Hn Hact Hw H.
  eapply (foldM_inv (λ l b st', ∃ new,
    st' = Session.mk (add_instances new (Session.view st)) (Session.durable st) false ∧
    new_units fr dep (Z.of_nat (length l)) new ∧ own_hosts units new ∧
    b.1 = list_to_set (omap ModelInstance.worker_id new) ∪ worker_ids_of (concat units))) in H.
  - destruct H as (new & -> & Hnew & Hown & _). exists new. rewrite length_seq in Hnew.
    split_and!; [done| |done]. unfold new_units in *. by rewrite Nat2Z.id in Hnew.
  - exists []. split_and!; [rewrite add_instances_nil; by destruct st; simpl in *; subst|split; [constructor|done]|split; [constructor|by intros ? ?%elem_of_nil]|simpl; set_solver].
  - intros l1 k [occ m] st1 [occ' m'] st2 Hpre (new & -> & [Hf Hk] & [Hnd Hocc] & Hb) H1. simpl in *. subst occ.
    assert (k = length l1) as ->.
    { destruct Hpre as [l2 Hl]. apply (f_equal (λ l, l !! length l1)) in Hl.
      rewrite <-app_assoc, lookup_app_r, Nat.sub_diag in Hl by done. simpl in Hl.
      apply lookup_seq in Hl as [-> _]. done. }
    apply add_group_Ok in H1 as (rows & -> & Hrf & Hrk & Hrn & Hro & ->); [|done|done]. simpl.
    exists (new ++ rows). rewrite add_instances_app. split_and!; [done|split|split|].
    + by apply Forall_app.
    + rewrite map_app, list_to_set_app_L, Hk, Hrk, list_to_set_replicate by lia.
      rewrite length_app, Nat.add_1_r, !Nat2Z.id, list_to_set_map_seq_S.
      by destruct (Z.leb_spec (Deployment.nodes_per_replica dep) 1); [lia|].
    + rewrite omap_app. apply NoDup_app. split_and!; [done| |done].
      intros w Hw1 Hw2. apply (Hro w Hw2). rewrite elem_of_union, elem_of_list_to_set. by left.
    + rewrite omap_app. intros w [Hw1|Hw2]%elem_of_app; [by apply Hocc|].
      intros ?. apply (Hro w Hw2). rewrite elem_of_union. by right.
    + rewrite omap_app, list_to_set_app_L. set_solver.
Qed.

Lemma scale_out_Ok dep vram units cu n st u st' :
  0 <= n → Session.inactive st = false → NoDup (map Worker.id (Db.workers (Session.view st))) →
  scale_out s fr dep vram units cu n st = (Ok u, st') →
  ∃ new, st' = Session.mk (add_instances new (Session.view st)) (Session.durable st) false ∧
    new_units fr dep n new ∧ (1 < Deployment.nodes_per_replica dep → own_hosts units new).
Proof.
  intros Hn0 Hact Hw H. unfold scale_out in H. destruct (Z.ltb_spec 1 (Deployment.nodes_per_replica dep)) as [Hn|Hn].
  - apply M_bind_Ok in H as (r & st1 & H & [= <- <-]).
    apply add_groups_Ok in H as (new & -> & ? & ?); [|done..]. by exists new.
  - apply M_bind_Ok in H as (d & st1 & (_ & -> & ->)%query_Ok & H).
    apply M_bind_Ok in H as (l & st1 & (Hl & ->)%lift_result_Ok & H).
    apply execute_Ok in H as (_ & ->). eexists. split_and!; [done| |lia].
    apply allocate_replicas_length in Hl; [|done]. subst n. split.
    + apply Forall_forall. intros i (j & [[w gs] p] & -> & _)%elem_of_lookup_imap. apply new_instance_fresh.
    + f_equal. rewrite Nat2Z.id. unfold unit_key. destruct (Z.leb_spec (Deployment.nodes_per_replica dep) 1); [|lia].
      apply list_eq. intros j. rewrite !list_lookup_fmap, list_lookup_imap.
      destruct (l !! j) as [[[w gs] p]|] eqn:E; simpl.
      * rewrite lookup_seq_lt by (by eapply lookup_lt_Some). done.
      * rewrite lookup_seq_ge; [done|]. by apply lookup_ge_None.
Qed.
End scale_lemmas.

Lemma stop_units_nil d : stop_units [] d = d.
Proof.
  unfold stop_units. rewrite update_where_id; [by destruct d|]. intros i _. by apply bool_decide_eq_false, not_elem_of_nil.
Qed.

(** The stop order on the keys of units. *)
Definition key_leb (nodes : Z) (l : list ModelInstance.t) (a b : uuid) : bool :=
  stop_leb (rows_of (unit_key nodes) a l) (rows_of (unit_key nodes) b l).
Definition candidate_keys (nodes : Z) (l : list ModelInstance.t) : list uuid :=
  keys_where serving_unit nodes l ++ keys_where pending_unit nodes l.
Definition surplus_keys (nodes : Z) (l : list ModelInstance.t) (surplus : Z) : list uuid :=
  take (Z.to_nat surplus) (sorted_by (key_leb nodes l) (candidate_keys nodes l)).

Lemma units_to_stop_keys nodes l surplus :
  NoDup (map ModelInstance.id l) →
  units_to_stop (where_ serving_unit (_replica_units nodes l) ++ where_ pending_unit (_replica_units nodes l)) surplus
  = map (λ k, rows_of (unit_key nodes) k l) (surplus_keys nodes l surplus).
Proof.
  intros Hnd. unfold units_to_stop, surplus_keys, candidate_keys.
  rewrite !units_where, <-map_app, sorted_by_map, firstn_map by done. done.
Qed.

Lemma capacity_candidates nodes l :
  NoDup (map ModelInstance.id l) → capacity nodes l = Z.of_nat (length (candidate_keys nodes l)).
Proof.
  intros Hnd. unfold capacity. rewrite <-effective_capacity_spec, !units_where by done.
  unfold candidate_keys. rewrite !length_map, length_app. lia.
Qed.

Lemma candidate_keys_NoDup nodes l : NoDup (candidate_keys nodes l).
Proof.
  unfold candidate_keys, keys_where. apply NoDup_app.
  split_and!; [apply NoDup_where, first_keys_NoDup| |apply NoDup_where, first_keys_NoDup].
  intros k [_ H1]%elem_of_where [_ H2]%elem_of_where. unfold serving_unit, pending_unit in *.
  destruct (live_unit _), (forallb (in_state "running") _); done.
Qed.

Lemma candidate_keys_cap nodes l k : k ∈ candidate_keys nodes l ↔ k ∈ cap_keys nodes l.
Proof.
  rewrite cap_keys_where, elem_of_list_to_set. unfold candidate_keys, keys_where.
  rewrite elem_of_app, !elem_of_where. unfold serving_unit, pending_unit, capacity_unit.
  destruct (live_unit _) eqn:E1, (forallb (in_state "running") _) eqn:E2; simpl; try naive_solver.
  assert (forallb (λ i, in_live_states (ModelInstance.state i)) (rows_of (unit_key nodes) k l) = true) as ->; [|naive_solver].
  apply forallb_forall. intros i Hi. rewrite forallb_forall in E2. specialize (E2 i Hi).
  unfold in_state in E2. apply String.eqb_eq in E2. by rewrite E2.
Qed.

Section scale_inv.
Context (s : Settings.t) (fr : Fresh.t) (now : datetime).

(** The database a successful call leaves. *)
Definition scaled_db (dep : Deployment.t) (replicas : Z) (set_range : bool) (l : list ModelInstance.t)
    (K : list uuid) (new : list ModelInstance.t) (d : Db.t) : Db.t :=
  let rows k := rows_of (unit_key (Deployment.nodes_per_replica dep)) k l in
  update_deployment (Deployment.id dep) (finish_scale now (Deployment.id dep) replicas set_range)
    (add_instances new (stop_units (map rows K)
       (stop_units (map rows (keys_where broken_unit (Deployment.nodes_per_replica dep) l)) d))).

(** The three outcomes: new units, surplus units, or neither. *)
Definition scale_case (dep : Deployment.t) (replicas : Z) (l : list ModelInstance.t) (K : list uuid)
    (new : list ModelInstance.t) : Prop :=
  let nodes := Deployment.nodes_per_replica dep in
  let cap := capacity nodes l in
  (cap <= replicas ∧ K = [] ∧ new_units fr dep (replicas - cap) new ∧
     (1 < nodes → own_hosts (_replica_units nodes l) new)) ∨
  (replicas < cap ∧ new = [] ∧ K = surplus_keys nodes l (cap - replicas)).

Lemma apply_scale_inv d dep_id dep replicas0 set_range u st :
  NoDup (map ModelInstance.id (Db.instances d)) → NoDup (map Worker.id (Db.workers d)) →
  find_deployment d dep_id = Some dep →
  apply_scale s fr now dep_id replicas0 set_range (Session.start d) = (Ok u, st) →
  let replicas := if set_range then replicas0 else clamp dep replicas0 in
  let l := instances_of d dep_id in
  ∃ K new, Session.view st = scaled_db dep replicas set_range l K new d ∧
    Session.durable st = Session.view st ∧ constraints_ok (Session.view st) = true ∧
    scale_case dep replicas l K new.
Proof.
  intros Hi Hw Hdep H. cbv zeta. unfold apply_scale in H.
  assert (Deployment.id dep = dep_id) as Hid by (apply find_by_Some in Hdep as [_ ?%N.eqb_eq]; done).
  apply M_bind_Ok in H as (row & st1 & (_ & -> & ->)%query_Ok & H).
  change (Session.view (Session.start d)) with d in H. rewrite Hdep in H.
  apply M_bind_Ok in H as (dep' & st1 & [= <- <-] & H).
  apply M_bind_Ok in H as (l & st1 & (_ & -> & ->)%query_Ok & H).
  change (Session.view (Session.start d)) with d in H. set (l := instances_of d dep_id) in *.
  assert (NoDup (map ModelInstance.id l)) as Hl by by apply instances_of_ids.
  set (replicas := if set_range then replicas0 else clamp dep replicas0) in *. clearbody replicas.
  set (nodes := Deployment.nodes_per_replica dep) in *.
  rewrite effective_capacity_spec in H. fold (capacity nodes l) in H.
  rewrite (units_where broken_unit), units_to_stop_keys in H by done.
  apply M_bind_Ok in H as ([] & st1 & (_ & ->)%execute_Ok & H). simpl in H.
  set (d1 := stop_units _ d) in H.
  apply M_bind_Ok in H as ([] & st2 & Hmid & H).
  assert (∃ K new, st2 = Session.mk (add_instances new (stop_units (map (λ k, rows_of (unit_key nodes) k l) K) d1)) d false ∧
            scale_case dep replicas l K new) as (K & new & -> & Hcase).
  { destruct (Z.ltb_spec (capacity nodes l) replicas) as [Hlt|Hge];
      [|destruct (Z.ltb_spec replicas (capacity nodes l)) as [Hlt|Hge']].
    - apply M_bind_Ok in Hmid as (m & st3 & (_ & -> & ->)%query_Ok & Hmid).
      destruct (find_model _ _) as [m|]; [|done].
      apply scale_out_Ok in Hmid as (new & -> & Hnew & Hown); [|lia|done|done].
      exists [], new. simpl. rewrite stop_units_nil. split; [done|]. unfold scale_case; fold nodes; cbv zeta; left. split_and!; [lia|done..].
    - apply execute_Ok in Hmid as [_ ->]. eexists _, []. rewrite add_instances_nil. split; [done|].
      right. done.
    - injection Hmid as <-. exists [], []. simpl. rewrite stop_units_nil, add_instances_nil.
      split; [done|]. unfold scale_case; fold nodes; cbv zeta; left. assert (replicas - capacity nodes l = 0) as E by lia.
      split_and!; [lia|done| |].
      + unfold scale_case, new_units. fold nodes. rewrite E. done.
      + intros _. split; [constructor|]. by intros ? ?%elem_of_nil. }
  apply M_bind_Ok in H as ([] & st3 & (_ & ->)%execute_Ok & H).
  apply commit_Ok in H as (_ & Hok & ->). simpl in *. exists K, new.
  unfold scaled_db. fold nodes. rewrite Hid. done.
Qed.
End scale_inv.

Lemma instances_of_scaled now dep replicas sr l K new d :
  NoDup (map ModelInstance.id (Db.instances d)) → l = instances_of d (Deployment.id dep) →
  Forall (fresh_row dep) new →
  let nodes := Deployment.nodes_per_replica dep in
  instances_of (scaled_db now dep replicas sr l K new d) (Deployment.id dep) ≡ₚ
  stop_keys nodes (list_to_set K) (stop_keys nodes (list_to_set (keys_where broken_unit nodes l)) l) ++ new.
Proof.
  intros Hnd -> Hnew nodes. set (l := instances_of d (Deployment.id dep)).
  unfold scaled_db. fold nodes.
  change (instances_of (update_deployment ?i ?f ?x) ?j) with (instances_of x j).
  rewrite instances_of_add.
  2:{ eapply Forall_impl; [exact Hnew|]. by intros i (_ & ? & _). }
  apply reflexive_eq. f_equal.
  rewrite instances_of_stop. unfold l at 2. rewrite (instances_of_stop_keys nodes) by done. fold l.
  apply update_where_ext. intros i (j & Hj & ->)%elem_of_update_where.
  assert (in_ids (ids_of (map (λ k, rows_of (unit_key nodes) k l) K)) j = bool_decide (unit_key nodes j ∈ K)) as Hin.
  { apply in_ids_units; [by apply instances_of_ids|done]. }
  transitivity (bool_decide (unit_key nodes j ∈ K)); [by case_match|].
  transitivity (bool_decide (unit_key nodes j ∈ (list_to_set K : gset uuid))).
  - apply bool_decide_ext. by rewrite elem_of_list_to_set.
  - by case_match.
Qed.

(** The identifiers a call draws are new: no row has them, and no two are equal. *)
Definition fresh_for (fr : Fresh.t) (d : Db.t) : Prop :=
  (∀ n i, i ∈ Db.instances d → ModelInstance.id i ≠ Fresh.ids fr n ∧ group_key i ≠ Fresh.group_ids fr n) ∧
  (∀ n m, Fresh.ids fr n = Fresh.ids fr m → n = m) ∧
  (∀ n m, Fresh.group_ids fr n = Fresh.group_ids fr m → n = m).

Lemma size_list_to_set_seq (f : nat → uuid) n :
  (∀ i j, f i = f j → i = j) → size (list_to_set (map f (seq 0 n)) : gset uuid) = n.
Proof.
  intros Hf. rewrite size_list_to_set; [by rewrite length_map, length_seq|].
  apply NoDup_fmap_2; [done|apply NoDup_seq].
Qed.

Lemma new_units_disjoint fr dep n new d i j :
  fresh_for fr d → new_units fr dep n new → i ∈ Db.instances d → j ∈ new →
  unit_key (Deployment.nodes_per_replica dep) i ≠ unit_key (Deployment.nodes_per_replica dep) j.
Proof.
  intros (Hfr & _) [_ Hk] Hi Hj E. set (nodes := Deployment.nodes_per_replica dep) in *.
  assert (unit_key nodes j ∈ (list_to_set (map (unit_key nodes) new) : gset uuid)) as Hin.
  { rewrite elem_of_list_to_set, list_elem_of_fmap. eauto. }
  rewrite Hk, elem_of_list_to_set, list_elem_of_fmap in Hin. destruct Hin as (m & Hm & _).
  rewrite <-E in Hm. destruct (Hfr m i Hi). unfold unit_key in Hm. by destruct (nodes <=? 1).
Qed.

(** Adding [n] new units raises the capacity by [n]. *)
Lemma cap_keys_new_units fr dep n new d l :
  fresh_for fr d → new_units fr dep n new → (∀ i, i ∈ l → ∃ j, j ∈ Db.instances d ∧
    unit_key (Deployment.nodes_per_replica dep) i = unit_key (Deployment.nodes_per_replica dep) j) → 0 <= n →
  Z.of_nat (size (cap_keys (Deployment.nodes_per_replica dep) (l ++ new)))
  = Z.of_nat (size (cap_keys (Deployment.nodes_per_replica dep) l)) + n.
Proof.
  intros Hfr Hnew Hl Hn.
  assert (∀ i j, i ∈ l → j ∈ new → unit_key (Deployment.nodes_per_replica dep) i
            ≠ unit_key (Deployment.nodes_per_replica dep) j) as Hdisj.
  { intros i j Hi Hj. destruct (Hl i Hi) as (i' & Hi' & ->). by eapply new_units_disjoint. }
  rewrite cap_keys_app; [|eapply Forall_impl; [apply Hnew|]; by intros ? [? _]|done].
  rewrite size_union.
  - destruct Hnew as [_ ->]. destruct Hfr as (_ & H1 & H2).
    rewrite size_list_to_set_seq; [lia|]. by destruct (_ <=? 1).
  - intros k [(i & Hi & <- & _) _]%elem_of_cap_keys.
    rewrite elem_of_list_to_set, list_elem_of_fmap. intros (j & Hj & Hj'). by apply (Hdisj i j).
Qed.

Lemma stop_keys_key nodes K l i :
  i ∈ stop_keys nodes K l → ∃ j, j ∈ l ∧ unit_key nodes i = unit_key nodes j.
Proof. intros (j & Hj & ->)%elem_of_update_where. exists j. split; [done|]. by case_match. Qed.

Lemma broken_keys_disjoint nodes l : cap_keys nodes l ## list_to_set (keys_where broken_unit nodes l).
Proof.
  intros k. rewrite cap_keys_where, !elem_of_list_to_set. unfold keys_where. rewrite !elem_of_where.
  intros [_ H1] [_ H2%broken_not_capacity]. congruence.
Qed.

(** The capacity left by each of the three outcomes. *)
Lemma size_stop_keys nodes K l :
  size (cap_keys nodes (stop_keys nodes K (stop_keys nodes (list_to_set (keys_where broken_unit nodes l)) l)))
  = size (cap_keys nodes l ∖ K).
Proof. rewrite !cap_keys_stop. f_equal. pose proof (broken_keys_disjoint nodes l). set_solver. Qed.

Lemma size_surplus nodes l n :
  NoDup (map ModelInstance.id l) → 0 <= n <= capacity nodes l →
  Z.of_nat (size (cap_keys nodes l ∖ list_to_set (surplus_keys nodes l n))) = capacity nodes l - n.
Proof.
  intros Hl Hn. pose proof (capacity_size nodes l Hl) as Hcap. pose proof (capacity_candidates nodes l Hl) as Hlen.
  rewrite size_difference, size_list_to_set.
  - unfold surplus_keys. rewrite length_take, length_sorted_by. lia.
  - unfold surplus_keys. eapply sublist_NoDup; [|apply sublist_take].
    rewrite sorted_by_perm. apply candidate_keys_NoDup.
  - intros k. rewrite elem_of_list_to_set, <-candidate_keys_cap. unfold surplus_keys.
    intros Hk. rewrite <-(sorted_by_elem (key_leb nodes l)). eapply elem_of_sublist; [exact Hk|apply sublist_take].
Qed.

Lemma capacity_scaled fr dep target l K new d :
  fresh_for fr d → NoDup (map ModelInstance.id l) → (∀ i, i ∈ l → i ∈ Db.instances d) → 0 <= target →
  scale_case fr dep target l K new →
  let nodes := Deployment.nodes_per_replica dep in
  Z.of_nat (size (cap_keys nodes
    (stop_keys nodes (list_to_set K) (stop_keys nodes (list_to_set (keys_where broken_unit nodes l)) l) ++ new)))
  = target.
Proof.
  intros Hfr Hl Hld Ht Hcase nodes. pose proof (capacity_size nodes l Hl) as Hcap.
  unfold scale_case in Hcase. fold nodes in Hcase. destruct Hcase as [(Hge & -> & Hnu & _)|(Hlt & -> & ->)].
  - unfold nodes at 1. rewrite (cap_keys_new_units fr dep (target - capacity nodes l) new d); [|done|done| |lia].
    + fold nodes. rewrite size_stop_keys.
      replace (cap_keys nodes l ∖ list_to_set []) with (cap_keys nodes l) by set_solver. lia.
    + fold nodes. intros i (i1 & Hi1 & ->)%stop_keys_key.
      apply stop_keys_key in Hi1 as (i2 & Hi2 & ->). exists i2. auto.
  - rewrite app_nil_r, size_stop_keys, size_surplus by (done || lia). lia.
Qed.

(** The window of a stored deployment. *)
Lemma deployment_window d dep_id dep :
  constraints_ok d = true → find_deployment d dep_id = Some dep →
  1 <= Deployment.min_replicas dep <= Deployment.max_replicas dep.
Proof.
  intros Hd [Hdep _]%find_by_Some. split_constraints Hd.
  match goal with H : forallb ck_deployment _ = true |- _ => rewrite forallb_forall in H;
    specialize (H dep (proj1 (list_elem_of_In _ _) Hdep)); unfold ck_deployment in H;
    rewrite !andb_true_iff in H; destruct_and! H end. lia.
Qed.

(** ** Properties *)

(** C11 A successful scale reaches its target: the committed deployment has exactly
    [replicas] units of capacity (units desired to run, all of whose rows are
    live), where an unpinned request is first clamped into the window; the window
    is pinned to [replicas] by a manual scale and kept otherwise. *)
Theorem apply_scale_reaches_target s fr now d dep_id dep replicas0 set_range st :
  constraints_ok d = true → fresh_for fr d → find_deployment d dep_id = Some dep →
  0 <= replicas0 →
  apply_scale s fr now dep_id replicas0 set_range (Session.start d) = (Ok tt, st) →
  let target := if set_range then replicas0 else clamp dep replicas0 in
  let d' := Session.durable st in
  capacity (Deployment.nodes_per_replica dep) (instances_of d' dep_id) = target ∧
  constraints_ok d' = true ∧
  (set_range = false → Deployment.min_replicas dep <= target <= Deployment.max_replicas dep).
Proof.
  intros Hd Hfr Hdep Hr H target d'.
  assert (Deployment.id dep = dep_id) as Hid by (apply find_by_Some in Hdep as [_ ?%N.eqb_eq]; done).
  pose proof (deployment_window _ _ _ Hd Hdep) as Hwin.
  pose proof (constraints_instance_ids _ Hd) as Hids. pose proof (constraints_worker_ids _ Hd) as Hw.
  destruct (apply_scale_inv s fr now d dep_id dep replicas0 set_range tt st Hids Hw Hdep H)
    as (K & new & Hview & Hdur & Hok & Hcase).
  fold target in Hview, Hcase. unfold d'. rewrite Hdur. split_and!; [|done|].
  2:{ unfold target, clamp. intros ->. lia. }
  assert (0 <= target) as Ht by (unfold target, clamp; destruct set_range; lia).
  rewrite capacity_size by by apply instances_of_ids, constraints_instance_ids.
  assert (Forall (fresh_row dep) new) as Hnew.
  { destruct Hcase as [(_ & _ & [? _] & _)|(_ & -> & _)]; [done|constructor]. }
  rewrite Hview, <-Hid in *.
  rewrite (cap_keys_perm _ _ _ (instances_of_scaled now dep target set_range _ K new d Hids eq_refl Hnew)).
  apply (capacity_scaled fr dep target _ K new d); [done|by apply instances_of_ids| |done|done].
  by intros i [? _]%elem_of_instances_of.
Qed.

(** A deployment of three replicas on [Sample]'s cluster: one running, one
    starting, one in error. *)
Definition sample_db : Db.t := Sample.with_instances
  [Sample.instance 100 "running" "running" 1 0 8010; Sample.instance 101 "starting" "running" 2 0 8010;
   Sample.instance 102 "error" "running" 1 1 8011].
Definition sample_fresh : Fresh.t :=
  Fresh.mk (λ n, (1000 + N.of_nat n)%N) (λ n, Z.of_nat n + 500) (λ n, (2000 + N.of_nat n)%N).

Lemma sample_fresh_ok : fresh_for sample_fresh sample_db.
Proof.
  split_and!.
  - intros n i Hi. unfold sample_fresh. simpl.
    repeat (apply elem_of_cons in Hi as [->|Hi]; [cbn; split; lia|]). by apply elem_of_nil in Hi.
  - simpl. lia.
  - simpl. lia.
Qed.

Definition scaled_session (replicas : Z) (set_range : bool) : Session.t :=
  (apply_scale Settings.default sample_fresh 900 50 replicas set_range (Session.start sample_db)).2.

Lemma apply_scale_reaches_target_witness :
  capacity 1 (instances_of (Session.durable (scaled_session 3 true)) 50) = 3.
Proof.
  apply (apply_scale_reaches_target Settings.default sample_fresh 900 sample_db 50 Sample.deployment 3 true).
  - vm_compute. reflexivity.
  - apply sample_fresh_ok.
  - vm_compute. reflexivity.
  - lia.
  - vm_compute. reflexivity.
Defined.

(** *** The rows a scale changes *)
Lemma update_where_twice {A} (p q : A → bool) f l :
  (∀ x, p (f x) = p x) → (∀ x, x ∈ l → p x = true → q x = false) →
  update_where p f (update_where q f l) = update_where (λ x, q x || p x) f l.
Proof.
  intros Hf Hpq. unfold update_where. rewrite map_map. apply map_ext_in. intros x Hx%list_elem_of_In.
  specialize (Hpq x Hx). destruct (q x), (p x) eqn:E; rewrite ?Hf, ?E; simpl; try done.
  discriminate (Hpq eq_refl).
Qed.

(** In the whole table, the rows of the units of keys [K]. *)
Definition row_in (nodes : Z) (dep_id : uuid) (K : list uuid) (i : ModelInstance.t) : bool :=
  (ModelInstance.deployment_id i =? dep_id)%N && bool_decide (unit_key nodes i ∈ K).

Lemma in_ids_table nodes d dep_id K i :
  NoDup (map ModelInstance.id (Db.instances d)) → i ∈ Db.instances d →
  in_ids (ids_of (map (λ k, rows_of (unit_key nodes) k (instances_of d dep_id)) K)) i = row_in nodes dep_id K i.
Proof.
  intros Hnd Hi. unfold row_in. destruct (N.eqb_spec (ModelInstance.deployment_id i) dep_id) as [E|E]; simpl.
  - apply in_ids_units; [by apply instances_of_ids|]. by apply elem_of_instances_of.
  - apply bool_decide_eq_false. unfold ids_of. rewrite <-flat_map_concat_map, list_elem_of_fmap.
    intros (j & Hij & Hj). apply list_elem_of_In, in_flat_map in Hj as (k & _ & Hj).
    apply list_elem_of_In, elem_of_rows_of in Hj as [[Hj Hdep]%elem_of_instances_of _].
    apply E. by rewrite (NoDup_map_inj_key ModelInstance.id (Db.instances d) i j).
Qed.

Lemma scaled_db_instances now dep replicas sr K new d :
  NoDup (map ModelInstance.id (Db.instances d)) →
  let nodes := Deployment.nodes_per_replica dep in
  let l := instances_of d (Deployment.id dep) in
  let KB := keys_where broken_unit nodes l in
  (∀ k, k ∈ K → k ∉ KB) →
  Db.instances (scaled_db now dep replicas sr l K new d) =
  update_where (row_in nodes (Deployment.id dep) (KB ++ K)) stop_row (Db.instances d) ++ new.
Proof.
  intros Hnd nodes l KB Hdisj. unfold scaled_db, add_instances, stop_units. fold nodes. fold KB. simpl. f_equal.
  rewrite (update_where_ext (in_ids (ids_of (map _ KB))) (row_in nodes (Deployment.id dep) KB) stop_row (Db.instances d))
    by (intros; by apply in_ids_table).
  transitivity (update_where (row_in nodes (Deployment.id dep) K) stop_row
                  (update_where (row_in nodes (Deployment.id dep) KB) stop_row (Db.instances d))).
  - apply update_where_ext. intros i (j & Hj & ->)%elem_of_update_where.
    transitivity (in_ids (ids_of (map (λ k, rows_of (unit_key nodes) k l) K)) j); [by case_match|].
    unfold l. rewrite in_ids_table by done. by case_match.
  - rewrite update_where_twice; [|done|].
    + apply update_where_ext. intros i _. unfold row_in.
      destruct (ModelInstance.deployment_id i =? Deployment.id dep)%N; simpl; [|done].
      rewrite <-bool_decide_or. apply bool_decide_ext. by rewrite elem_of_app.
    + intros i _. unfold row_in. destruct (ModelInstance.deployment_id i =? Deployment.id dep)%N; simpl; [|done].
      rewrite bool_decide_eq_true, bool_decide_eq_false. apply Hdisj.
Qed.

Lemma surplus_keys_cap nodes l n k : k ∈ surplus_keys nodes l n → k ∈ cap_keys nodes l.
Proof.
  unfold surplus_keys. intros Hk. rewrite <-candidate_keys_cap, <-(sorted_by_elem (key_leb nodes l)).
  eapply elem_of_sublist; [exact Hk|apply sublist_take].
Qed.

Lemma scale_case_keys fr dep target l K new :
  scale_case fr dep target l K new → let nodes := Deployment.nodes_per_replica dep in
  (∀ k, k ∈ K → k ∈ cap_keys nodes l ∧ target < capacity nodes l) ∧ Forall (fresh_row dep) new ∧
  (1 < nodes → own_hosts (_replica_units nodes l) new).
Proof.
  intros [(Hge & -> & [Hf Hk] & Hown)|(Hlt & -> & ->)] nodes; split_and!; try done.
  - by intros k ?%elem_of_nil.
  - intros k Hk. split; [by eapply surplus_keys_cap|done].
  - intros _. split; [constructor|by intros ? ?%elem_of_nil].
Qed.

(** A successful scale touches only the deployment's own rows, in whole units:
    it stops (as [POST /stop] does: desired state, generation bump, error cleared)
    every broken unit and, only when there is a surplus, some capacity units; it
    appends scheduled rows of generation 1; every other row of the table is
    unchanged.  No two ranks of new groups share a host, and none takes a host
    of an existing unit. *)
Theorem apply_scale_rows s fr now d dep_id dep replicas0 set_range st :
  constraints_ok d = true → find_deployment d dep_id = Some dep →
  apply_scale s fr now dep_id replicas0 set_range (Session.start d) = (Ok tt, st) →
  let target := if set_range then replicas0 else clamp dep replicas0 in
  let nodes := Deployment.nodes_per_replica dep in
  let l := instances_of d dep_id in
  ∃ surplus new,
    Db.instances (Session.durable st) =
      update_where (row_in nodes dep_id (keys_where broken_unit nodes l ++ surplus)) stop_row (Db.instances d) ++ new ∧
    (∀ k, k ∈ surplus → k ∈ cap_keys nodes l ∧ target < capacity nodes l) ∧
    Forall (fresh_row dep) new ∧ (1 < nodes → own_hosts (_replica_units nodes l) new).
Proof.
  intros Hd Hdep H target nodes l.
  assert (Deployment.id dep = dep_id) as Hid by (apply find_by_Some in Hdep as [_ ?%N.eqb_eq]; done).
  pose proof (constraints_instance_ids _ Hd) as Hids. pose proof (constraints_worker_ids _ Hd) as Hw.
  destruct (apply_scale_inv s fr now d dep_id dep replicas0 set_range tt st Hids Hw Hdep H)
    as (K & new & Hview & -> & _ & Hcase). fold target l in Hview, Hcase.
  destruct (scale_case_keys _ _ _ _ _ _ Hcase) as (HK & Hnew & Hown).
  exists K, new. split_and!; [|done..]. rewrite Hview. unfold l. rewrite <-Hid.
  apply scaled_db_instances; [done|]. rewrite Hid. fold l nodes. intros k Hk HB.
  destruct (broken_keys_disjoint nodes l k); [by apply HK|by rewrite elem_of_list_to_set].
Qed.

Lemma apply_scale_rows_witness :
  ∃ surplus new, Db.instances (Session.durable (scaled_session 1 true)) =
      update_where (row_in 1 50 ([102%N] ++ surplus)) stop_row (Db.instances sample_db) ++ new ∧ Forall (fresh_row Sample.deployment) new.
Proof.
  destruct (apply_scale_rows Settings.default sample_fresh 900 sample_db 50 Sample.deployment 1 true
              (scaled_session 1 true)) as (surplus & new & H & _ & Hf & _);
    [vm_compute; reflexivity..|].
  exists surplus, new. split; [exact H|exact Hf].
Defined.

(** *** The order of a scale-in *)
Lemma stop_leb_total a b : stop_leb a b = false → stop_leb b a = true.
Proof. unfold stop_leb. destruct (forallb _ a), (forallb _ b); simpl; lia || done. Qed.
Lemma stop_leb_trans a b c : stop_leb a b = true → stop_leb b c = true → stop_leb a c = true.
Proof. unfold stop_leb. destruct (forallb _ a), (forallb _ b), (forallb _ c); simpl; lia || done. Qed.

Lemma take_sorted {A} (leb : A → A → bool) (n : nat) l x y :
  StronglySorted leb l → x ∈ take n l → y ∈ drop n l → leb x y = true.
Proof.
  revert n. induction l as [|z l IH]; intros n Hs Hx Hy; [by destruct n; apply elem_of_nil in Hx|].
  destruct n as [|n]; [by apply elem_of_nil in Hx|]. simpl in *. inversion Hs as [|?? Hs' Hall]; subst.
  apply elem_of_cons in Hx as [->|Hx]; [|by eapply IH].
  rewrite Forall_forall in Hall. apply Is_true_true, Hall.
  eapply elem_of_sublist; [exact Hy|apply sublist_drop].
Qed.

(** A scale-in stops partially started units before serving ones and older
    units before newer ones: a capacity unit it stops comes, in that order, no
    later than any unit it keeps. *)
Theorem apply_scale_stop_order s fr now d dep_id dep replicas0 set_range st a b :
  constraints_ok d = true → fresh_for fr d → find_deployment d dep_id = Some dep →
  apply_scale s fr now dep_id replicas0 set_range (Session.start d) = (Ok tt, st) →
  let nodes := Deployment.nodes_per_replica dep in
  let l := instances_of d dep_id in
  let l' := instances_of (Session.durable st) dep_id in
  a ∈ cap_keys nodes l → a ∉ cap_keys nodes l' → b ∈ cap_keys nodes l → b ∈ cap_keys nodes l' →
  stop_leb (rows_of (unit_key nodes) a l) (rows_of (unit_key nodes) b l) = true.
Proof.
  intros Hd Hfr Hdep H nodes l l' Ha Ha' Hb Hb'.
  assert (Deployment.id dep = dep_id) as Hid by (apply find_by_Some in Hdep as [_ ?%N.eqb_eq]; done).
  pose proof (constraints_instance_ids _ Hd) as Hids. pose proof (constraints_worker_ids _ Hd) as Hw.
  destruct (apply_scale_inv s fr now d dep_id dep replicas0 set_range tt st Hids Hw Hdep H)
    as (K & new & Hview & Hdur & _ & Hcase).
  destruct (scale_case_keys _ _ _ _ _ _ Hcase) as (_ & Hnew & _).
  assert (∀ k, k ∈ cap_keys nodes l → k ∈ cap_keys nodes l' ↔ k ∉ K) as Hkeep.
  { intros k Hk. unfold l', l, nodes in *. rewrite Hdur, Hview, <-Hid in *.
    rewrite (cap_keys_perm _ _ _ (instances_of_scaled now dep _ set_range _ K new d Hids eq_refl Hnew)).
    assert (k ∈ cap_keys (Deployment.nodes_per_replica dep)
              (stop_keys (Deployment.nodes_per_replica dep) (list_to_set K)
                (stop_keys (Deployment.nodes_per_replica dep)
                   (list_to_set (keys_where broken_unit (Deployment.nodes_per_replica dep) (instances_of d (Deployment.id dep))))
                   (instances_of d (Deployment.id dep)))) ↔ k ∉ K) as Hold.
    { rewrite !cap_keys_stop, !elem_of_difference, !elem_of_list_to_set.
      pose proof (broken_keys_disjoint _ _ k Hk) as Hnb. rewrite elem_of_list_to_set in Hnb. tauto. }
    destruct Hcase as [(_ & -> & Hnu & _)|(_ & -> & _)]; [|by rewrite app_nil_r].
    rewrite cap_keys_app, elem_of_union, Hold; [|eapply Forall_impl; [apply Hnew|]; by intros ? [? _]|].
    - split; [by intros _ ?%elem_of_nil|]. intros ?. by left.
    - intros i j (i1 & Hi1 & ->)%stop_keys_key Hj. apply stop_keys_key in Hi1 as (i2 & Hi2 & ->).
      eapply new_units_disjoint; [exact Hfr|exact Hnu| |done]. by apply elem_of_instances_of in Hi2 as [? _]. }
  rewrite Hkeep in Ha', Hb' by done. apply dec_stable in Ha'.
  destruct Hcase as [(_ & -> & _)|(_ & _ & ->)]; [by apply elem_of_nil in Ha'|]. fold nodes l in Ha', Hb'.
  unfold surplus_keys in Ha', Hb'.
  apply (take_sorted (key_leb nodes l) (Z.to_nat (capacity nodes l - (if set_range then replicas0 else clamp dep replicas0)))
           (sorted_by (key_leb nodes l) (candidate_keys nodes l))); [|done|].
  - apply sorted_by_sorted; intros; [by apply stop_leb_total|by eapply stop_leb_trans].
  - rewrite <-candidate_keys_cap, <-(sorted_by_elem (key_leb nodes l)) in Hb.
    rewrite <-(take_drop (Z.to_nat (capacity nodes l - (if set_range then replicas0 else clamp dep replicas0))) (sorted_by _ _)) in Hb.
    apply elem_of_app in Hb as [Hb|Hb]; done.
Qed.

Lemma apply_scale_stop_order_witness :
  stop_leb [Sample.instance 101 "starting" "running" 2 0 8010] [Sample.instance 100 "running" "running" 1 0 8010] = true.
Proof.
  apply (apply_scale_stop_order Settings.default sample_fresh 900 sample_db 50 Sample.deployment 1 true
           (scaled_session 1 true) 101%N 100%N);
    first [apply sample_fresh_ok | vm_compute; reflexivity | vm_decide].
Defined.

(** *** Failure *)
Lemma keeps_add_group s fr dep vram st k : keeps_durable (add_group s fr dep vram st k).
Proof.
  destruct st as [occ n]. unfold add_group.
  apply keeps_bind; [apply keeps_query|intros d]. apply keeps_bind; [apply keeps_lift|intros l].
  destruct l; auto with inferna.
Qed.
Lemma keeps_scale_out s fr dep vram units cu n : keeps_durable (scale_out s fr dep vram units cu n).
Proof.
  unfold scale_out. case_match.
  - apply keeps_bind; [apply keeps_foldM; intros; apply keeps_add_group|intros; apply keeps_ret].
  - apply keeps_bind; [apply keeps_query|intros d]. apply keeps_bind; auto with inferna.
Qed.

(** C20 A scale commits once: when it raises (no room, a conflicting commit), the
    database is what it was. *)
Theorem apply_scale_atomic s fr now dep_id replicas set_range d e st :
  apply_scale s fr now dep_id replicas set_range (Session.start d) = (Raise e, st) →
  Session.durable st = d.
Proof.
  enough (atomic (apply_scale s fr now dep_id replicas set_range)) as Hat by apply Hat.
  unfold apply_scale. apply atomic_bind; [apply keeps_query|intros row].
  apply atomic_bind; [destruct row; auto with inferna|intros dep].
  apply atomic_bind; [apply keeps_query|intros l].
  apply atomic_bind; [apply keeps_execute|intros _].
  apply atomic_bind; [|intros _; apply atomic_bind; auto with inferna].
  repeat case_match; auto using keeps_execute, keeps_ret;
    (apply keeps_bind; [apply keeps_query|intros [m|]; [apply keeps_scale_out|apply keeps_raise]]).
Qed.

Lemma apply_scale_atomic_witness : Session.durable (scaled_session 9 true) = sample_db.
Proof.
  apply (apply_scale_atomic Settings.default sample_fresh 900 50 9 true sample_db
           (HTTPException 400 "no GPU with enough free VRAM for replica 7 of 7")).
  vm_compute. reflexivity.
Defined.
