(* ===== verification/Autoscaling.v ===== *)
(** * Autoscaling ([server/inferna_server/services/autoscaling.py])

    The signal read from the metrics registry, the one-step policy, and the tick
    that applies it to every deployment with a window.  Floats are exact
    rationals; [None] stands for a missing measurement. *)

From Stdlib Require Import QArith Lqa.
From S2P Require Import Prelude PyStr Models Config Scheduler Scaling.
Local Open Scope Z_scope.

(** ** Floats *)

(** [x > y], [x < y] and [x >= y] on floats. *)
Definition Qgt_bool (x y : Q) : bool := negb (Qle_bool x y).
Definition Qlt_bool (x y : Q) : bool := negb (Qle_bool y x).
Definition Qge_bool (x y : Q) : bool := Qle_bool y x.

(** [float(s)]: sign, digits with an optional fraction and exponent; "inf" and
    "nan" in any case. *)
Inductive py_float_result := Finite (q : Q) | Infinite | NaN.
Definition frac_value (frac : string) : option Q :=
  if String.eqb frac "" then Some 0%Q
  else if isdigit frac then
    match py_int frac with
    | Some n => Some (inject_Z n / inject_Z (10 ^ Z.of_nat (String.length frac)))%Q
    | None => None end
  else None.
Definition decimal_value (s : string) : option Q :=
  match split1 "." s with
  | None => if isdigit s then (λ n, inject_Z n) <$> py_int s else None
  | Some (int, frac) =>
      if String.eqb int "" && String.eqb frac "" then None
      else
        i ← (if String.eqb int "" then Some 0 else if isdigit int then py_int int else None);
        f ← frac_value frac;
        Some (inject_Z i + f)%Q
  end.
Definition unsigned_float (s : string) : option py_float_result :=
  if String.eqb s "inf" || String.eqb s "infinity" then Some Infinite
  else if String.eqb s "nan" then Some NaN
  else match split1 "e" s with
       | None => Finite <$> decimal_value s
       | Some (m, e) =>
           q ← decimal_value m;
           k ← py_int e;
           Some (Finite (q * Qpower (inject_Z 10) k)%Q)
       end.
Definition py_float (s : string) : option py_float_result :=
  let s := lower (strip s) in
  match s with
  | String c s' =>
      if Ascii.eqb c "-" then
        match unsigned_float s' with Some (Finite q) => Some (Finite (- q)%Q) | r => r end
      else if Ascii.eqb c "+" then unsigned_float s'
      else unsigned_float s
  | "" => None
  end.

(** ** The metrics registry

    [prometheus_client.REGISTRY], as the functions that read it: the collected
    metric families, and the lookup of one sample by name and labels. *)
Definition labels : Type := list (string * string).
Definition label (l : labels) (k : string) : option string := snd <$> find_by (λ kv, String.eqb kv.1 k) l.
Record sample := Sample_ { sample_name : string; sample_labels : labels; sample_value : Q }.
Record metric := Metric { metric_name : string; metric_samples : list sample }.
Record registry := Registry {
  collect : list metric;
  get_sample_value : string → labels → option Q }.

(** The bucket bounds, each with its [str]. *)
Definition TTFT_BUCKETS_str : list (Q * string) :=
  [(1 # 100, "0.01"); (1 # 40, "0.025"); (1 # 20, "0.05"); (1 # 10, "0.1"); (1 # 4, "0.25");
   (1 # 2, "0.5"); (3 # 4, "0.75"); (1 # 1, "1.0"); (3 # 2, "1.5"); (5 # 2, "2.5");
   (5 # 1, "5.0"); (10 # 1, "10.0")].
Definition TTFT_BUCKETS : list Q := map fst TTFT_BUCKETS_str.

Module Signal.
Record t := mk { ttft_p95_ms : option Q; queue_per_replica : option Q; serving_replicas : Z }.
End Signal.

(** The loop of [hist_p95] over [zip(buckets, counts)]. *)
Fixpoint p95_loop (target : Q) (previous_bound previous_count : Q) (l : list (Q * Q)) : option Q :=
  match l with
  | [] => None
  | (bound, count) :: l' =>
      if Qge_bool count target then
        Some (if Qeq_bool count previous_count then bound * 1000
              else (previous_bound + (bound - previous_bound) * ((target - previous_count) / (count - previous_count)))
                   * 1000)%Q
      else p95_loop target bound count l'
  end.

Definition hist_p95 (buckets counts : list Q) : option Q :=
  match last counts with
  | None => None
  | Some total =>
      if Qle_bool total 0 then None
      else match p95_loop ((95 # 100) * total)%Q 0%Q 0%Q (combine buckets counts) with
           | Some v => Some v
           | None => Some (default 0 (last buckets) * 1000)%Q
           end
  end.

(** [totals[upper] += sample.value], for an upper bound that is a bucket. *)
Definition add_total (upper value : Q) (totals : list (Q * Q)) : list (Q * Q) :=
  map (λ '(b, t), if Qeq_bool b upper then (b, t + value)%Q else (b, t)) totals.
Definition scan_sample (model_name : string) (st : list (Q * Q) * bool) (s : sample) : list (Q * Q) * bool :=
  if negb (String.eqb (sample_name s) "inferna_ttft_seconds_bucket") then st
  else if negb (bool_decide (label (sample_labels s) "model" = Some model_name)) then st
  else match py_float (default "" (label (sample_labels s) "le")) with
       | Some (Finite upper) =>
           if existsb (λ bt, Qeq_bool bt.1 upper) st.1 then (add_total upper (sample_value s) st.1, true) else st
       | _ => st
       end.
Definition _scan_ttft (reg : registry) (model_name : string) : option Q :=
  let '(totals, seen) :=
    foldl (λ st m,
      if negb (String.eqb (metric_name m) "inferna_ttft_seconds") then st
      else foldl (scan_sample model_name) st (metric_samples m))
      (map (λ b, (b, 0%Q)) TTFT_BUCKETS, false) (collect reg) in
  if seen then hist_p95 TTFT_BUCKETS (map snd totals) else None.

(** The counts read bucket by bucket; the first missing one falls back to the scan. *)
Fixpoint read_counts (reg : registry) (model_name : string) (l : list (Q * string)) : option (list Q) :=
  match l with
  | [] => Some []
  | (_, le) :: l' =>
      v ← get_sample_value reg "inferna_ttft_seconds_bucket"
            [("model", model_name); ("engine", "vllm"); ("parallelism", "single"); ("le", le)];
      vs ← read_counts reg model_name l';
      Some (v :: vs)
  end.
Definition _ttft_p95_ms (reg : registry) (model_name : string) : option Q :=
  match read_counts reg model_name TTFT_BUCKETS_str with
  | None => _scan_ttft reg model_name
  | Some counts => hist_p95 TTFT_BUCKETS counts
  end.

Definition _scan_active (reg : registry) (instance_id : string) : option Q :=
  sample_value <$>
    find_by (λ s, bool_decide (label (sample_labels s) "instance_id" = Some instance_id))
      (concat (map metric_samples
        (where_ (λ m, String.eqb (metric_name m) "inferna_instance_active_requests") (collect reg)))).

(** [str(uuid)] of an instance id is the label of its gauge; a parameter here. *)
Section signal.
Context (str_uuid : uuid → string) (reg : registry).

Definition active_requests (model_name : string) (instance : ModelInstance.t) : option Q :=
  match get_sample_value reg "inferna_instance_active_requests"
          [("instance_id", str_uuid (ModelInstance.id instance)); ("model", model_name)] with
  | Some v => Some v
  | None => _scan_active reg (str_uuid (ModelInstance.id instance))
  end.

Definition read_signal (model_name : string) (instances : list ModelInstance.t) : Signal.t :=
  let serving := where_ (in_state "running") instances in
  let seen := omap (active_requests model_name) serving in
  Signal.mk (_ttft_p95_ms reg model_name)
    (match serving, seen with
     | _ :: _, _ :: _ => Some (foldl Qplus 0 seen / inject_Z (Z.of_nat (length serving)))%Q
     | _, _ => None
     end)
    (Z.of_nat (length serving)).
End signal.

(** ** The policy *)
Definition over (value : option Q) (bound : Q) : bool :=
  match value with Some v => Qgt_bool v bound | None => false end.
Definition under (value : option Q) (bound : Q) : bool :=
  match value with Some v => Qlt_bool v bound | None => true end.

Definition busy (signal : Signal.t) (settings : Settings.t) : bool :=
  over (Signal.ttft_p95_ms signal) (Settings.autoscale_target_ttft_ms settings)
  || over (Signal.queue_per_replica signal) (Settings.autoscale_target_queue settings).
Definition idle (minimum : Z) (signal : Signal.t) (settings : Settings.t) : bool :=
  let ratio := Settings.autoscale_scale_down_ratio settings in
  under (Signal.ttft_p95_ms signal) (Settings.autoscale_target_ttft_ms settings * ratio)%Q
  && under (Signal.queue_per_replica signal) (Settings.autoscale_target_queue settings * ratio)%Q
  && (minimum <=? Signal.serving_replicas signal).

Definition desired_replicas (current minimum maximum : Z) (signal : Signal.t) (settings : Settings.t) : Z :=
  match Signal.ttft_p95_ms signal, Signal.queue_per_replica signal with
  | None, None => current
  | _, _ =>
      if busy signal settings && (current <? maximum) then Z.min maximum (current + 1)
      else if idle minimum signal settings && (minimum <? current) then Z.max minimum (current - 1)
      else current
  end.

Definition _unit_count (nodes_per_replica : Z) (instances : list ModelInstance.t) : Z :=
  let live := where_ desired_running instances in
  if nodes_per_replica <=? 1 then Z.of_nat (length live)
  else Z.of_nat (size (list_to_set (map group_key live) : gset uuid)).

Definition live_instances (instances : list ModelInstance.t) : list ModelInstance.t :=
  where_ (λ i, in_live_states (ModelInstance.state i)) instances.

(** The gauges [inferna_autoscale_signal_ratio] a policy decision sets. *)
Definition ratio_to (value target : Q) : Q := if Qeq_bool target 0 then 0%Q else (value / target)%Q.
Definition signal_ratios (signal : Signal.t) (settings : Settings.t) : list (string * Q) :=
  match Signal.ttft_p95_ms signal with
  | Some v => [("ttft", ratio_to v (Settings.autoscale_target_ttft_ms settings))]
  | None => [] end
  ++ match Signal.queue_per_replica signal with
     | Some v => [("queue", ratio_to v (Settings.autoscale_target_queue settings))]
     | None => [] end.

(** ** The tick

    Its state: the session, the loop's cooldown dict, the rows it returns, and
    the action counter [inferna_autoscale_actions_total] as the log of its
    increments. *)
Module Tick.
Record t := mk {
  session : Session.t; cooldown : gmap uuid Q; actions : list (uuid * string * Z);
  counted : list (uuid * string) }.
End Tick.
Definition TickM (A : Type) : Type := M Tick.t A.

Definition on_session {A} (m : DbM A) : TickM A := λ t,
  let '(r, s) := m (Tick.session t) in
  (r, Tick.mk s (Tick.cooldown t) (Tick.actions t) (Tick.counted t)).
Definition count_action (id : uuid) (action : string) : TickM unit :=
  modify (λ t, Tick.mk (Tick.session t) (Tick.cooldown t) (Tick.actions t) (Tick.counted t ++ [(id, action)])).
Definition record_action (id : uuid) (action : string) (target : Z) (now : Q) : TickM unit :=
  modify (λ t, Tick.mk (Tick.session t) (<[id := now]> (Tick.cooldown t))
                 (Tick.actions t ++ [(id, action, target)]) (Tick.counted t ++ [(id, action)])).

Definition cooling (s : Settings.t) (last : option Q) (now : Q) : bool :=
  match last with Some t => Qlt_bool (now - t)%Q (Settings.autoscale_cooldown_seconds s) | None => false end.

Section tick.
(** [fresh id]: the row identifiers a scale of deployment [id] draws; [wall] the
    wall clock, [now] the monotonic clock of the tick. *)
Context (s : Settings.t) (str_uuid : uuid → string) (reg : registry)
        (fresh : uuid → Fresh.t) (wall : datetime) (now : Q).

(** One deployment: what the policy wants, against what it has. *)
Definition proposal (d : Db.t) (dep : Deployment.t) : Z * Z :=
  let instances := instances_of d (Deployment.id dep) in
  let units := _unit_count (Deployment.nodes_per_replica dep) instances in
  let name := match find_model d (Deployment.model_id dep) with Some m => Model.name m | None => "" end in
  (units, desired_replicas units (Deployment.min_replicas dep) (Deployment.max_replicas dep)
            (read_signal str_uuid reg name instances) s).

Definition tick_one (dep_id : uuid) : TickM unit :=
  row ← on_session (query (λ d, (λ dep, (dep, proposal d dep)) <$> find_deployment d dep_id));
  match row with
  | None => raise (RuntimeError "ObjectDeletedError")
  | Some (dep, (units, target)) =>
      cd ← gets Tick.cooldown;
      if (target =? units) || cooling s (cd !! dep_id) now then count_action dep_id "none"
      else
        failed ← try_ (_ ← on_session (apply_scale s (fresh dep_id) wall dep_id target false); mret false)
                      (λ _, mret true);
        if (failed : bool) then count_action dep_id "failed"
        else record_action dep_id (if units <? target then "up" else "down") target now
  end.

(** SELECT ... WHERE max_replicas > min_replicas *)
Definition windowed (d : Db.t) : list uuid :=
  map Deployment.id (where_ (λ r, Deployment.min_replicas r <? Deployment.max_replicas r) (Db.deployments d)).

Definition autoscale_tick : TickM (list (uuid * string * Z)) :=
  ids ← on_session (query windowed);
  _ ← foldM (λ _ id, tick_one id) tt ids;
  gets Tick.actions.

(** A tick of the loop: a fresh session, the cooldown kept from tick to tick. *)
Definition run_tick (cooldown : gmap uuid Q) (d : Db.t) : result (list (uuid * string * Z)) * Tick.t :=
  autoscale_tick (Tick.mk (Session.start d) cooldown [] []).
End tick.

(** The background loop's body after its sleep: nothing unless enabled; an
    exception (other than a cancellation) is logged and the loop goes on. *)
Definition loop_body (s : Settings.t) (str_uuid : uuid → string) (reg : registry) (fresh : uuid → Fresh.t)
    (wall : datetime) (now : Q) (st : gmap uuid Q * Db.t) : result (gmap uuid Q * Db.t) :=
  let '(cooldown, d) := st in
  if negb (Settings.autoscale_enabled s) then Ok (cooldown, d)
  else
    let '(r, t) := run_tick s str_uuid reg fresh wall now cooldown d in
    match r with
    | Raise CancelledError => Raise CancelledError
    | _ => Ok (Tick.cooldown t, Session.durable (Tick.session t))
    end.

(** ** Properties: the policy *)
Lemma desired_replicas_change current minimum maximum signal settings :
  let target := desired_replicas current minimum maximum signal settings in
  target = current ∨ target = current + 1 ∨ target = current - 1.
Proof.
  unfold desired_replicas.
  destruct (Signal.ttft_p95_ms signal), (Signal.queue_per_replica signal); auto; repeat case_match; lia.
Qed.

(** C31 The policy moves at most one replica per tick, never acts on missing data,
    keeps a count inside the window inside it, moves up only when busy and down
    only when idle with the minimum serving. *)
Theorem desired_replicas_step current minimum maximum signal settings :
  let target := desired_replicas current minimum maximum signal settings in
  (target = current ∨
   (target = current + 1 ∧ busy signal settings = true ∧ current < maximum) ∨
   (target = current - 1 ∧ idle minimum signal settings = true ∧ minimum < current)) ∧
  (minimum <= current <= maximum → minimum <= target <= maximum) ∧
  (Signal.ttft_p95_ms signal = None → Signal.queue_per_replica signal = None → target = current).
Proof.
  intros target. unfold target, desired_replicas. split_and!.
  - destruct (Signal.ttft_p95_ms signal), (Signal.queue_per_replica signal); auto;
      (destruct (busy signal settings) eqn:Hb, (Z.ltb_spec current maximum), (idle minimum signal settings) eqn:Hi,
        (Z.ltb_spec minimum current); simpl; lia || auto; try (right; left; split_and!; [lia|done|done]);
        (right; right; split_and!; [lia|done|done])).
  - intros. repeat case_match; lia.
  - by intros -> ->.
Qed.

(** ** Properties: the p95 of a histogram *)
Lemma Qge_bool_true x y : Qge_bool x y = true ↔ (y <= x)%Q.
Proof. apply Qle_bool_iff. Qed.
Lemma Qge_bool_false x y : Qge_bool x y = false ↔ (x < y)%Q.
Proof.
  unfold Qge_bool. rewrite <-not_true_iff_false, Qle_bool_iff. split; [apply Qnot_le_lt|apply Qlt_not_le].
Qed.

(** Bucket bounds increase from [lo]. *)
Fixpoint increasing (lo : Q) (l : list Q) : Prop :=
  match l with [] => True | b :: l' => (lo <= b)%Q ∧ increasing b l' end.
Definition lower_bound (lo : Q) (l : list (Q * Q)) : Q := default lo (last (map fst l)).

(** Interpolating inside a bucket stays inside it. *)
Lemma interpolate_bounds (pb pc b c target : Q) :
  (pb <= b)%Q → (pc < target)%Q → (target <= c)%Q →
  (pb <= pb + (b - pb) * ((target - pc) / (c - pc)))%Q ∧
  (pb + (b - pb) * ((target - pc) / (c - pc)) <= b)%Q.
Proof.
  intros Hb Hp Hc.
  assert (0 < c - pc)%Q as Hpos by lra.
  assert (0 <= (target - pc) / (c - pc))%Q as H0.
  { apply Qle_shift_div_l; [done|]. lra. }
  assert ((target - pc) / (c - pc) <= 1)%Q as H1.
  { apply Qle_shift_div_r; [done|]. lra. }
  split; nra.
Qed.

Lemma p95_loop_spec target l pb pc v :
  (pc < target)%Q → increasing pb (map fst l) →
  p95_loop target pb pc l = Some v →
  ∃ l1 b c l2, l = l1 ++ (b, c) :: l2 ∧ (target <= c)%Q ∧ Forall (λ bc, (bc.2 < target)%Q) l1 ∧
    (lower_bound pb l1 * 1000 <= v)%Q ∧ (v <= b * 1000)%Q.
Proof.
  revert pb pc. induction l as [|[b c] l IH]; intros pb pc Hpc Hinc H; [done|]. simpl in H, Hinc.
  destruct Hinc as [Hb Hinc]. destruct (Qge_bool c target) eqn:E.
  - apply Qge_bool_true in E. exists [], b, c, l. split_and!; [done|done|constructor|..]; simplify_eq.
    all: assert (Qeq_bool c pc = false) as -> by (apply not_true_iff_false; rewrite Qeq_bool_iff; lra).
    all: destruct (interpolate_bounds pb pc b c target Hb Hpc E); cbn; lra.
  - apply Qge_bool_false in E. destruct (IH b c E Hinc H) as (l1 & b' & c' & l2 & -> & Hc & Hl1 & Hlo & Hhi).
    exists ((b, c) :: l1), b', c', l2. split_and!; [done|done|by constructor| |done].
    unfold lower_bound in *. cbn [map fst]. rewrite last_cons. by destruct (last (map fst l1)).
Qed.

Lemma p95_loop_None target l pb pc : p95_loop target pb pc l = None → Forall (λ bc, (bc.2 < target)%Q) l.
Proof.
  revert pb pc. induction l as [|[b c] l IH]; intros pb pc H; [constructor|]. simpl in H.
  destruct (Qge_bool c target) eqn:E; [done|]. apply Qge_bool_false in E. constructor; [done|]. by eapply IH.
Qed.

(** [hist_p95] on cumulative bucket counts answers nothing exactly when there is
    no observation; otherwise its answer (in milliseconds) lies in the first
    bucket whose cumulative count reaches 95 percent of the total. *)
Theorem hist_p95_bucket buckets counts :
  length buckets = length counts → increasing 0 buckets →
  match hist_p95 buckets counts with
  | None => ∀ total, last counts = Some total → (total <= 0)%Q
  | Some v => ∃ total l1 b c l2, last counts = Some total ∧ (0 < total)%Q ∧
      combine buckets counts = l1 ++ (b, c) :: l2 ∧
      ((95 # 100) * total <= c)%Q ∧ Forall (λ bc, (bc.2 < (95 # 100) * total)%Q) l1 ∧
      (lower_bound 0 l1 * 1000 <= v)%Q ∧ (v <= b * 1000)%Q
  end.
Proof.
  intros Hlen Hinc. unfold hist_p95. destruct (last counts) as [total|] eqn:Hlast; [|done].
  destruct (Qle_bool total 0) eqn:E.
  { apply Qle_bool_iff in E. intros ? [= <-]. done. }
  assert (0 < total)%Q as Hpos.
  { apply Qnot_le_lt. intros ?%Qle_bool_iff. congruence. }
  destruct (p95_loop _ _ _ _) as [v|] eqn:Hl.
  - exists total. apply p95_loop_spec in Hl as (l1 & b & c & l2 & ? & ? & ? & ? & ?).
    + exists l1, b, c, l2. done.
    + lra.
    + enough (map fst (combine buckets counts) = buckets) as -> by done.
      clear -Hlen. revert counts Hlen. induction buckets as [|b l IH]; intros [|c cs] H; simplify_eq/=; [done|].
      f_equal. by apply IH.
  - exfalso. apply p95_loop_None in Hl. apply last_Some in Hlast as [cs ->].
    rewrite length_app in Hlen. simpl in Hlen.
    destruct buckets as [|b0 bs] using rev_ind; [simpl in Hlen; lia|].
    rewrite length_app in Hlen. simpl in Hlen.
    assert (combine (bs ++ [b0]) (cs ++ [total]) = combine bs cs ++ [(b0, total)]) as Ec.
    { assert (length bs = length cs) as H by lia. clear -H. revert cs H.
      induction bs as [|b l IH]; intros [|c cs] H; simplify_eq/=; [done|]. f_equal. by apply IH. }
    rewrite Ec in Hl. apply Forall_app in Hl as [_ Hl]. inversion Hl as [|? ? Ht _]; subst. simpl in Ht. lra.
Qed.

Lemma hist_p95_bucket_witness :
  ∃ l1 b c l2, combine TTFT_BUCKETS [0; 0; 1; 5; 19; 20; 20; 20; 20; 20; 20; 20]%Q = l1 ++ (b, c) :: l2 ∧ (19 <= c)%Q.
Proof.
  destruct (hist_p95_bucket TTFT_BUCKETS [0; 0; 1; 5; 19; 20; 20; 20; 20; 20; 20; 20]%Q eq_refl)
    as (total & l1 & b & c & l2 & Ht & _ & H & Hc & _).
  - simpl. repeat split; discriminate.
  - exists l1, b, c, l2. split; [exact H|]. simpl in Ht. injection Ht as <-.
    eapply Qle_trans; [|exact Hc]. discriminate.
Defined.

(** ** Properties: the tick *)
Lemma on_session_Ok {A} (m : DbM A) t a t' :
  on_session m t = (Ok a, t') ↔
  ∃ s', m (Tick.session t) = (Ok a, s') ∧ t' = Tick.mk s' (Tick.cooldown t) (Tick.actions t) (Tick.counted t).
Proof. unfold on_session. destruct (m (Tick.session t)) as [[b|e] s']; naive_solver. Qed.

Definition action_id (a : uuid * string * Z) : uuid := a.1.1.

Section tick_spec.
Context (s : Settings.t) (str_uuid : uuid → string) (reg : registry)
        (fresh : uuid → Fresh.t) (wall : datetime) (now : Q).

(** What justifies an action: a proposal one replica away from the unit count,
    out of its cooldown, whose scale succeeded. *)
Definition justified (cd : gmap uuid Q) (a : uuid * string * Z) : Prop :=
  let '(id, action, target) := a in
  cooling s (cd !! id) now = false ∧
  ∃ s1 s2 dep units, find_deployment (Session.view s1) id = Some dep ∧
    proposal s str_uuid reg (Session.view s1) dep = (units, target) ∧
    ((action = "up" ∧ target = units + 1) ∨ (action = "down" ∧ target = units - 1)) ∧
    apply_scale s (fresh id) wall id target false s1 = (Ok tt, s2).

(** One deployment: it is counted, and at most one action is taken and stamped. *)
Definition step_effect (id : uuid) (t t' : Tick.t) : Prop :=
  (∃ action, Tick.counted t' = Tick.counted t ++ [(id, action)]) ∧
  ((Tick.actions t' = Tick.actions t ∧ Tick.cooldown t' = Tick.cooldown t) ∨
   (∃ action target, Tick.actions t' = Tick.actions t ++ [(id, action, target)] ∧
      Tick.cooldown t' = <[id := now]> (Tick.cooldown t) ∧ justified (Tick.cooldown t) (id, action, target))).

Lemma proposal_step d dep units target :
  proposal s str_uuid reg d dep = (units, target) → target ≠ units → target = units + 1 ∨ target = units - 1.
Proof.
  intros H Hne. unfold proposal in H. injection H as Hu <-. rewrite Hu in *.
  pose proof (desired_replicas_change units (Deployment.min_replicas dep) (Deployment.max_replicas dep)
    (read_signal str_uuid reg match find_model d (Deployment.model_id dep) with Some m => Model.name m | None => "" end
       (instances_of d (Deployment.id dep))) s) as Hc. simpl in Hc. tauto.
Qed.

Lemma tick_one_effect id t u t' :
  tick_one s str_uuid reg fresh wall now id t = (Ok u, t') → step_effect id t t'.
Proof.
  intros H. unfold tick_one in H.
  apply M_bind_Ok in H as (row & t1 & (s1 & (_ & -> & ->)%query_Ok & ->)%on_session_Ok & H).
  destruct (find_deployment _ id) as [dep|] eqn:Hdep; [|done]. cbn -[proposal] in H.
  destruct (proposal s str_uuid reg (Session.view (Tick.session t)) dep) as [units target] eqn:Hprop.
  unfold gets, mbind, M_bind, count_action, record_action, modify in H. simpl in H.
  destruct ((target =? units) || cooling s (Tick.cooldown t !! id) now) eqn:Hskip.
  { injection H as _ <-. split; [by eexists|]. by left. }
  apply orb_false_iff in Hskip as [Hne%Z.eqb_neq Hcool].
  pose proof (proposal_step _ _ _ _ Hprop Hne) as Hstep. unfold try_, on_session in H. simpl in H.
  destruct (apply_scale s (fresh id) wall id target false (Tick.session t)) as [r s2] eqn:Happ.
  destruct r as [[]|e]; simpl in H; injection H as _ <-.
  - split; [by eexists|]. right. eexists _, target. split_and!; [done|done|]. split; [done|].
    exists (Tick.session t), s2, dep, units. split_and!; [done|done| |done].
    destruct (Z.ltb_spec units target); [left|right]; (split; [done|lia]).
  - split; [by eexists|]. by left.
Qed.

End tick_spec.

(** *** Concrete ticks *)

(** A registry where every running instance has ten active requests and no TTFT
    was observed. *)
Definition busy_registry : registry :=
  Registry [] (λ name _, if String.eqb name "inferna_instance_active_requests" then Some 10%Q else None).
Definition sample_tick : result (list (uuid * string * Z)) * Tick.t :=
  run_tick Settings.default (λ u, pretty u) busy_registry (λ _, sample_fresh) 900 0 ∅ sample_db.


(** Two deployments on [Sample]'s cluster: 50 serves a model no GPU has room for
    any more and has one replica in error, 51 serves a small model. *)
Definition leak_db : Db.t :=
  let big := Model.mk 8 "org/big" "Big" "llm" None 99000 false None false ["vllm"] 0 in
  let dep (id m : uuid) := Deployment.mk id m 1 "vllm" "latency" 1 4 1 (Some "single") 0 None in
  let inst (i dep m : uuid) (state : string) (w : uuid) (port : Z) :=
    ModelInstance.mk i m 1 (Some w) dep "vllm" "latency" [0] state "running" 1 (Some port) None None
      None None None None None (Z.of_N i) in
  Db.set_models [Sample.model; big]
    (Db.set_deployments [dep 50 8; dep 51 7]%N
      (Sample.with_instances
         [inst 100%N 50%N 8%N "running" 1%N 8010; inst 101%N 50%N 8%N "error" 1%N 8011;
          inst 102%N 51%N 7%N "running" 2%N 8010])).
Definition leak_tick : result (list (uuid * string * Z)) * Tick.t :=
  run_tick Settings.default (λ u, pretty u) busy_registry (λ _, sample_fresh) 900 0 ∅ leak_db.

(** A failed scale is not undone inside a tick: deployment 50's scale raises
    (counted "failed", no replacement placed), yet the stop it had already
    written on its errored replica is committed by the scale of deployment 51
    that follows in the same session. *)
Theorem autoscale_failed_scale_is_committed :
  leak_tick.1 = Ok [(51%N, "up", 2)] ∧
  Tick.counted leak_tick.2 = [(50%N, "failed"); (51%N, "up")] ∧
  let d := Session.durable (Tick.session leak_tick.2) in
  ModelInstance.desired_state <$> find_instance leak_db 101 = Some "running" ∧
  ModelInstance.desired_state <$> find_instance d 101 = Some "stopped" ∧
  length (instances_of d 50) = length (instances_of leak_db 50).
Proof. vm_compute. done. Qed.

(** *** What the histogram does not show *)
(** A registry whose buckets, for the engine and topology given, hold [counts];
    [slower] observations are above the last bound (only "+Inf" counts them). *)
Definition ttft_registry (series : list (string * string * list Q)) (slower : Q) : registry :=
  let samples := concat (map (λ '(engine, parallelism, counts),
    map (λ '(le, n), Sample_ "inferna_ttft_seconds_bucket"
                       [("model", "m"); ("engine", engine); ("parallelism", parallelism); ("le", le)] n)
      (combine (map snd TTFT_BUCKETS_str) counts
       ++ [("+Inf", (default 0 (last counts) + slower)%Q)])) series) in
  Registry [Metric "inferna_ttft_seconds" samples]
    (λ name l, sample_value <$> find_by (λ x, String.eqb (sample_name x) name
       && forallb (λ kv, bool_decide (label (sample_labels x) kv.1 = Some kv.2)) l) samples).
(** Every first token came after more than ten seconds: the policy is given no
    measurement at all. *)
Lemma slow_requests_are_not_measured :
  _ttft_p95_ms (ttft_registry [("vllm", "single", replicate 12 0%Q)] 1000) "m" = None.
Proof. by vm_compute. Qed.
(** With a series of the plain engine the others are not summed: a thousand slow
    requests on another engine do not move the percentile of one fast request. *)
Lemma other_engines_are_not_summed :
  let fast := replicate 12 1%Q in
  let slow := (replicate 11 0 ++ [1000])%Q in
  _ttft_p95_ms (ttft_registry [("vllm", "single", fast); ("sglang", "single", slow)] 0) "m" =
  _ttft_p95_ms (ttft_registry [("vllm", "single", fast)] 0) "m" ∧
  (∃ v, _scan_ttft (ttft_registry [("vllm", "single", fast); ("sglang", "single", slow)] 0) "m" = Some v ∧ (9000 <= v)%Q) ∧
  ∃ v, _ttft_p95_ms (ttft_registry [("vllm", "single", fast)] 0) "m" = Some v ∧ (v <= 10)%Q.
Proof. split; [by vm_compute|]. split; (eexists; split; [vm_compute; reflexivity|by vm_compute]). Qed.
