(* ===== verification/GrpcServer.v ===== *)
(** * The gRPC server's start and transport ([server/inferna_server/grpc_server.py])

    The credentials of the port from the configured files, and [serve_grpc] from
    its start to its end.  The files, and binding and starting the [grpc] server,
    are arguments; the handlers are in [WorkersSvc]. *)

From S2P Require Import Prelude PyStr Config.
Local Open Scope Z_scope.

(** What [ssl_server_credentials] is given. *)
Module ServerCredentials.
Record t := mk {
  private_key : string; certificate_chain : string; root_certificates : option string; require_client_auth : bool }.
End ServerCredentials.
Inductive server_port := InsecurePort (address : string) | SecurePort (address : string) (credentials : ServerCredentials.t).

(** The part of [app.state] the server keeps: what [readiness_loop] reads, and
    whether the disconnect watchdog runs. *)
Module GrpcApp.
Record t := mk { grpc_ready : bool; watchdog : bool }.
Definition starting : t := mk false false.
End GrpcApp.

Section server.
Context (str_exn : exn → string) (s : Settings.t) (read_file : string → result string).

(** [except OSError as exc: raise RuntimeError(...) from exc] *)
Definition or_unreadable {A} (r : result A) : result A :=
  match r with
  | Raise (OSError m) => Raise (RuntimeError ("cannot read the gRPC TLS material: " +:+ str_exn (OSError m)))
  | r => r
  end.
Definition _grpc_credentials : result (option ServerCredentials.t) :=
  if negb (grpc_tls_enabled s) then Ok None
  else
    or_unreadable
      (private_key ← read_file (Settings.grpc_tls_key s);
       certificate_chain ← read_file (Settings.grpc_tls_cert s);
       root_certificates ← (if nonempty (Settings.grpc_tls_ca s)
                            then pem ← read_file (Settings.grpc_tls_ca s); Ok (Some pem) else Ok None);
       Ok (Some (ServerCredentials.mk private_key certificate_chain root_certificates
                   (Settings.grpc_tls_require_client_cert s)))).

(** [add_port] and [start]: what the [grpc] server answers to a port and to its start. *)
Context (add_port : server_port → result unit) (start : result unit).
Definition listen_address : string := "[::]:" +:+ str_Z (Settings.grpc_port s).
Definition served_port (credentials : option ServerCredentials.t) : server_port :=
  match credentials with
  | None => InsecurePort listen_address
  | Some c => SecurePort listen_address c
  end.
(** Up to [wait_for_termination]. *)
Definition serve_grpc_begin : M GrpcApp.t server_port :=
  credentials ← lift_result _grpc_credentials;
  _ ← lift_result (add_port (served_port credentials));
  _ ← lift_result start;
  _ ← modify (λ _, GrpcApp.mk true true);
  mret (served_port credentials).
(** [finally] *)
Definition serve_grpc_end : M GrpcApp.t unit := modify (λ _, GrpcApp.mk false false).
(** [ended]: what [wait_for_termination] returns or raises. *)
Definition serve_grpc (ended : result unit) : M GrpcApp.t unit :=
  _ ← serve_grpc_begin; _ ← serve_grpc_end; lift_result ended.

(** ** Properties *)
Lemma or_unreadable_Ok {A} (r : result A) a : or_unreadable r = Ok a ↔ r = Ok a.
Proof. unfold or_unreadable. by destruct r as [|[]]. Qed.
Lemma grpc_tls_enabled_spec :
  grpc_tls_enabled s = true ↔ Settings.grpc_tls_cert s ≠ "" ∧ Settings.grpc_tls_key s ≠ "".
Proof.
  unfold grpc_tls_enabled, nonempty. rewrite andb_true_iff, !negb_true_iff, !String.eqb_neq. done.
Qed.

(** With TLS configured the credentials hold what the files contain. *)
Lemma grpc_credentials_secure c :
  grpc_tls_enabled s = true → _grpc_credentials = Ok c →
  ∃ key chain roots, read_file (Settings.grpc_tls_key s) = Ok key ∧ read_file (Settings.grpc_tls_cert s) = Ok chain ∧
    (Settings.grpc_tls_ca s ≠ "" → ∃ pem, roots = Some pem ∧ read_file (Settings.grpc_tls_ca s) = Ok pem) ∧
    c = Some (ServerCredentials.mk key chain roots (Settings.grpc_tls_require_client_cert s)).
Proof.
  unfold _grpc_credentials. intros ->. cbn [negb]. rewrite or_unreadable_Ok. setoid_rewrite result_bind_Ok.
  intros (key & Hk & (chain & Hc & (roots & Hr & [= <-])%result_bind_Ok)%result_bind_Ok).
  exists key, chain, roots. split_and!; [done..| |done]. intros Hca%String.eqb_neq. unfold nonempty in Hr.
  rewrite Hca in Hr. apply result_bind_Ok in Hr as (pem & Hp & [= <-]). by exists pem.
Qed.
(** The port is plaintext exactly when TLS is not configured: a file that cannot
    be read stops the server, it never lets it fall back to plaintext. *)
Lemma grpc_credentials_never_downgrade c :
  _grpc_credentials = Ok c → (c = None ↔ grpc_tls_enabled s = false).
Proof.
  destruct (grpc_tls_enabled s) eqn:E.
  - intros (? & ? & ? & _ & _ & _ & ->)%grpc_credentials_secure; done.
  - unfold _grpc_credentials. rewrite E. by intros [= <-].
Qed.
(** Settings that validate never ask [ssl_server_credentials] for client
    certificates without roots to check them against. *)
Lemma grpc_credentials_have_roots s' c :
  validate s = Ok s' → _grpc_credentials = Ok (Some c) → ServerCredentials.require_client_auth c = true →
  is_Some (ServerCredentials.root_certificates c).
Proof.
  intros [_ Hv]%validate_tls Hc. assert (grpc_tls_enabled s = true) as Ht.
  { destruct (grpc_tls_enabled s) eqn:E; [done|]. by apply (grpc_credentials_never_downgrade _ Hc) in E. }
  apply grpc_credentials_secure in Hc as (key & chain & roots & _ & _ & Hr & [= ->]); [|done].
  cbn. intros (pem & -> & _)%Hv%Hr. by eexists.
Qed.

(** The application is ready only while the server listens: a start that raises
    leaves it as it was, and the end of [serve_grpc] resets it. *)
Lemma serve_grpc_ready ended app :
  match serve_grpc_begin app with
  | (Ok p, app') => app' = GrpcApp.mk true true ∧ add_port p = Ok tt ∧ start = Ok tt
                    ∧ serve_grpc ended app = (ended, GrpcApp.mk false false)
  | (Raise e, app') => app' = app ∧ serve_grpc ended app = (Raise e, app)
  end.
Proof.
  unfold serve_grpc, serve_grpc_begin, mbind, M_bind, lift_result, modify, mret, M_ret, serve_grpc_end.
  destruct _grpc_credentials as [c|e]; [|done].
  destruct (add_port (served_port c)) as [[]|e] eqn:E; [|done]. by destruct start as [[]|e].
Qed.
End server.
