(* ===== verification/Usage.v ===== *)
(** * Usage accounting ([server/inferna_server/services/usage.py])

    The in-memory buffer the gateway appends to, the flusher that folds it into
    [usage_records], the daily quota and the GPU-occupancy sampler.  The flusher
    awaits the database while requests keep arriving: what they record meanwhile
    is an argument of the flush, and so is how its awaits end ([Fate]): answered,
    with an error, or with the cancellation of the task, which [except Exception]
    does not catch. *)

From S2P Require Import Prelude PyStr Models.
Local Open Scope Z_scope.

(** 10_000 distinct (user, key, model, day) tuples. *)
Definition MAX_PENDING_KEYS : Z := 10000.
(** 30.0 s, in thousandths. *)
Definition USAGE_FLUSH_INTERVAL_MS : Z := 30000.

(** [started] is the monotonic clock, in microseconds. *)
Module UsageContext.
Record t := mk {
  user_id : uuid; api_key_id : uuid; model_id : uuid; model_name : string; instance_id : uuid;
  started : Z; engine : string; parallelism : string; prefix_digests : list string }.
End UsageContext.

Module Accum.
Record t := mk { requests : Z; tokens_in : Z; tokens_out : Z; latency_ms_sum : Z }.
#[global] Instance eq_dec : EqDecision t.
Proof. solve_decision. Defined.
Definition zero : t := mk 0 0 0 0.
Definition add (a b : t) : t :=
  mk (requests a + requests b) (tokens_in a + tokens_in b) (tokens_out a + tokens_out b)
     (latency_ms_sum a + latency_ms_sum b).
Lemma add_comm a b : add a b = add b a.
Proof. unfold add. f_equal; lia. Qed.
Lemma add_assoc a b c : add a (add b c) = add (add a b) c.
Proof. unfold add. simpl. f_equal; lia. Qed.
Lemma add_zero a : add a zero = a.
Proof. destruct a. unfold add, zero. simpl. f_equal; lia. Qed.
End Accum.

(** (user, key, model, day) *)
Definition usage_key : Type := uuid * uuid * uuid * Z.
Definition pending_t : Type := list (usage_key * Accum.t).

(** [_PENDING], and the counter [inferna_usage_events_total] as the log of its
    increments. *)
Module Buffer.
Record t := mk { pending : pending_t; events : list (string * string) }.
Definition empty : t := mk [] [].
End Buffer.

Definition ctx_key (ctx : UsageContext.t) (today : Z) : usage_key :=
  (UsageContext.user_id ctx, UsageContext.api_key_id ctx, UsageContext.model_id ctx, today).

Definition record_request (today : Z) (ctx : UsageContext.t) (tokens_in tokens_out latency_ms : Z)
    (outcome : string) (b : Buffer.t) : Buffer.t :=
  let name := UsageContext.model_name ctx in
  let events := Buffer.events b ++ [(name, outcome)] in
  let key := ctx_key ctx today in
  let delta := Accum.mk 1 (Z.max tokens_in 0) (Z.max tokens_out 0) (Z.max latency_ms 0) in
  match dict_get key (Buffer.pending b) with
  | None =>
      if MAX_PENDING_KEYS <=? Z.of_nat (length (Buffer.pending b))
      then Buffer.mk (Buffer.pending b) (events ++ [(name, "dropped")])
      else Buffer.mk (dict_set key (Accum.add Accum.zero delta) (Buffer.pending b)) events
  | Some accum => Buffer.mk (dict_set key (Accum.add accum delta) (Buffer.pending b)) events
  end.

Definition pending_snapshot (b : Buffer.t) : pending_t := Buffer.pending b.

(** A request the gateway accounts while something else awaits. *)
Module Arrival.
Record t := mk {
  today : Z; ctx : UsageContext.t; tokens_in : Z; tokens_out : Z; latency_ms : Z; outcome : string }.
End Arrival.
Definition record_arrival (b : Buffer.t) (a : Arrival.t) : Buffer.t :=
  record_request (Arrival.today a) (Arrival.ctx a) (Arrival.tokens_in a) (Arrival.tokens_out a)
    (Arrival.latency_ms a) (Arrival.outcome a) b.
Definition record_all (l : list Arrival.t) (b : Buffer.t) : Buffer.t := foldl record_arrival b l.

(** The buffer and the session of the flusher. *)
Module Ledger.
Record t := mk { buffer : Buffer.t; session : Session.t }.
End Ledger.
Definition LedgerM (A : Type) : Type := M Ledger.t A.
Definition on_db {A} (m : DbM A) : LedgerM A := λ l,
  let '(r, s) := m (Ledger.session l) in (r, Ledger.mk (Ledger.buffer l) s).
Definition on_buffer (f : Buffer.t → Buffer.t) : LedgerM unit :=
  modify (λ l, Ledger.mk (f (Ledger.buffer l)) (Ledger.session l)).

(** ** The flush *)
Definition row_key (r : UsageRecord.t) : usage_key :=
  (UsageRecord.user_id r, UsageRecord.api_key_id r, UsageRecord.model_id r, UsageRecord.period_start r).
Definition row_accum (r : UsageRecord.t) : Accum.t :=
  Accum.mk (UsageRecord.requests r) (UsageRecord.tokens_in r) (UsageRecord.tokens_out r)
           (UsageRecord.latency_ms_sum r).
Definition usage_row (k : usage_key) (a : Accum.t) : UsageRecord.t :=
  let '(user_id, api_key_id, model_id, period_start) := k in
  UsageRecord.mk user_id api_key_id model_id period_start (Accum.requests a) (Accum.tokens_in a)
    (Accum.tokens_out a) (Accum.latency_ms_sum a).
Definition row_add (a : Accum.t) (r : UsageRecord.t) : UsageRecord.t :=
  usage_row (row_key r) (Accum.add (row_accum r) a).
Definition has_key (k : usage_key) (r : UsageRecord.t) : bool := bool_decide (row_key r = k).

(** One aggregate: a new row, or added to the day's row. *)
Definition upsert_rows (rows : list UsageRecord.t) (ka : usage_key * Accum.t) : list UsageRecord.t :=
  match find_by (has_key ka.1) rows with
  | None => rows ++ [usage_row ka.1 ka.2]
  | Some _ => update_where (has_key ka.1) (row_add ka.2) rows
  end.
Definition upsert_usage (ka : usage_key * Accum.t) : DbM unit :=
  execute (λ d, Db.set_usage_records (upsert_rows (Db.usage_records d) ka) d).

(** Merging the swapped aggregates back after a failure. *)
Definition merge_back (pending : pending_t) (b : Buffer.t) : Buffer.t :=
  Buffer.mk
    (foldl (λ p ka, match dict_get ka.1 p with
                    | None => dict_set ka.1 ka.2 p
                    | Some existing => dict_set ka.1 (Accum.add existing ka.2) p end)
       (Buffer.pending b) pending)
    (Buffer.events b).

(** How the awaits of a flush end.  The statements and the commit are answered;
    or the connection breaks, or the task is cancelled, before the server applied
    the commit or ([applied]) after it did, with the answer still under way.
    [rolls_back]: the rollback of the handler goes through; else it raises. *)
Module Fate.
Inductive ending := Answered | Broken (applied : bool) | Cancelled (applied : bool).
Record t := mk { ends : ending; rolls_back : bool }.
Definition holds : t := mk Answered true.
End Fate.

(** What the server does with a commit whose answer nobody reads. *)
Definition unanswered (applied : bool) : DbM unit :=
  if applied then try_ commit (λ _, mret tt) else mret tt.
Definition commit_under (f : Fate.t) : DbM unit :=
  match Fate.ends f with
  | Fate.Answered => commit
  | Fate.Broken applied => _ ← unanswered applied; raise (RuntimeError "OperationalError")
  | Fate.Cancelled applied => _ ← unanswered applied; raise CancelledError
  end.
Definition rollback_under (f : Fate.t) : DbM unit :=
  if Fate.rolls_back f then rollback else raise (RuntimeError "InterfaceError").

(** [arrivals]: what the gateway records between the swap and the end of the
    awaits (the buffer is not read in between, so their exact moments do not
    matter). *)
Definition flush_usage (f : Fate.t) (arrivals : list Arrival.t) : LedgerM Z :=
  pending ← gets (λ l, Buffer.pending (Ledger.buffer l));
  _ ← on_buffer (λ b, Buffer.mk [] (Buffer.events b));
  match pending with
  | [] => mret 0
  | _ :: _ =>
      try_
        (written ← foldM (λ written ka, _ ← on_db (upsert_usage ka); mret (written + 1)) 0 pending;
         _ ← on_buffer (record_all arrivals);
         _ ← on_db (commit_under f);
         mret written)
        (λ e, match e with
              | CancelledError => raise e
              | _ => _ ← on_db (rollback_under f);
                     _ ← on_buffer (merge_back pending);
                     raise e
              end)
  end.

(** ** Quotas *)
Definition sum_by {A} (f : A → Z) (l : list A) : Z := foldr (λ x n, f x + n) 0 l.

Definition user_day (user_id : uuid) (period : Z) (k : usage_key) : bool :=
  let '(u, _, _, day) := k in (u =? user_id)%N && (day =? period).
Definition accum_tokens (a : Accum.t) : Z := Accum.tokens_in a + Accum.tokens_out a.

Definition usage_today (today : Z) (user_id : uuid) (p : pending_t) (d : Db.t) : Z * Z :=
  let rows := where_ (λ r, user_day user_id today (row_key r)) (Db.usage_records d) in
  let buffered := where_ (λ ka, user_day user_id today ka.1) p in
  (sum_by UsageRecord.requests rows + sum_by (λ ka, Accum.requests ka.2) buffered,
   sum_by (λ r, UsageRecord.tokens_in r + UsageRecord.tokens_out r) rows
   + sum_by (λ ka, accum_tokens ka.2) buffered).

Definition over_limit (used : Z) (limit : option Z) : option (Z * Z) :=
  match limit with
  | Some n => if n <=? used then Some (used, n) else None
  | None => None
  end.
Definition check_quota (today : Z) (user : User.t) (p : pending_t) (d : Db.t) : option (Z * Z) :=
  match User.token_limit user, User.request_limit user with
  | None, None => None
  | _, _ =>
      let '(requests, tokens) := usage_today today (User.id user) p d in
      match over_limit requests (User.request_limit user) with
      | Some r => Some r
      | None => over_limit tokens (User.token_limit user)
      end
  end.

(** ** GPU occupancy *)
Definition gpu_count (i : ModelInstance.t) : Z := Z.of_nat (length (ModelInstance.gpu_indexes i)).
Definition occupied (per_key : list (uuid * uuid * Z)) (interval_ms : Z) (i : ModelInstance.t)
  : list (uuid * uuid * Z) :=
  if gpu_count i =? 0 then per_key
  else
    let key := (ModelInstance.model_id i, ModelInstance.cluster_id i) in
    dict_set key (default 0 (dict_get key per_key) + interval_ms * gpu_count i) per_key.
Definition occupancy (interval_ms : Z) (d : Db.t) : list (uuid * uuid * Z) :=
  foldl (λ acc i, occupied acc interval_ms i) []
    (where_ (λ i, in_live_states (ModelInstance.state i)) (Db.instances d)).

Definition gpu_key (r : GpuUsageRecord.t) : uuid * uuid * Z :=
  (GpuUsageRecord.model_id r, GpuUsageRecord.cluster_id r, GpuUsageRecord.period_start r).
Definition upsert_gpu_rows (period : Z) (rows : list GpuUsageRecord.t) (ks : uuid * uuid * Z)
  : list GpuUsageRecord.t :=
  let '(model_id, cluster_id, seconds) := ks in
  let is_row r := bool_decide (gpu_key r = (model_id, cluster_id, period)) in
  match find_by is_row rows with
  | None => rows ++ [GpuUsageRecord.mk model_id cluster_id period seconds]
  | Some _ => update_where is_row (λ r, GpuUsageRecord.mk model_id cluster_id period
                                          (GpuUsageRecord.gpu_seconds r + seconds)) rows
  end.
Definition sample_occupancy (today : Z) (interval_ms : Z) : DbM Z :=
  per_key ← query (occupancy interval_ms);
  match per_key with
  | [] => mret 0
  | _ :: _ =>
      _ ← foldM (λ _ ks, execute (λ d, Db.set_gpu_usage_records
                                   (upsert_gpu_rows today (Db.gpu_usage_records d) ks) d)) tt per_key;
      _ ← commit;
      mret (Z.of_nat (length per_key))
  end.

(** One pass of the background loop: a fresh session, an exception ends the pass. *)
Definition usage_flush_pass (f : Fate.t) (arrivals : list Arrival.t) (today : Z) (b : Buffer.t) (d : Db.t)
  : Buffer.t * Db.t :=
  let '(_, l) := (_ ← flush_usage f arrivals;
                  on_db (sample_occupancy today USAGE_FLUSH_INTERVAL_MS)) (Ledger.mk b (Session.start d)) in
  (Ledger.buffer l, Session.durable (Ledger.session l)).

(** [int((time.monotonic() - started) * 1000)], the clock in microseconds. *)
Definition monotonic_ms (now started : Z) : Z := Z.quot (now - started) 1000.

(** ** Totals

    [ledger_total P]: everything accounted, in the table and in the buffer,
    under the keys [P] selects. *)
Definition acc_sum (l : list Accum.t) : Accum.t := foldr Accum.add Accum.zero l.
Definition rows_total (P : usage_key → bool) (rows : list UsageRecord.t) : Accum.t :=
  acc_sum (map row_accum (where_ (λ r, P (row_key r)) rows)).
Definition pending_total (P : usage_key → bool) (p : pending_t) : Accum.t :=
  acc_sum (map snd (where_ (λ ka, P ka.1) p)).
Definition ledger_total (P : usage_key → bool) (p : pending_t) (d : Db.t) : Accum.t :=
  Accum.add (rows_total P (Db.usage_records d)) (pending_total P p).
Definition if_acc (b : bool) (a : Accum.t) : Accum.t := if b then a else Accum.zero.

Lemma if_acc_add b x y : if_acc b (Accum.add x y) = Accum.add (if_acc b x) (if_acc b y).
Proof. by destruct b. Qed.
Lemma acc_swap x y z : Accum.add x (Accum.add y z) = Accum.add y (Accum.add x z).
Proof. rewrite !Accum.add_assoc. f_equal. apply Accum.add_comm. Qed.
Lemma acc_sum_app l1 l2 : acc_sum (l1 ++ l2) = Accum.add (acc_sum l1) (acc_sum l2).
Proof.
  induction l1 as [|x l1 IH]; simpl; [by rewrite Accum.add_comm, Accum.add_zero|].
  by rewrite IH, Accum.add_assoc.
Qed.

Lemma rows_total_cons P r rows :
  rows_total P (r :: rows) = Accum.add (if_acc (P (row_key r)) (row_accum r)) (rows_total P rows).
Proof.
  unfold rows_total. simpl. destruct (P (row_key r)); simpl; [done|]. by rewrite Accum.add_comm, Accum.add_zero.
Qed.
Lemma pending_total_cons P ka p :
  pending_total P (ka :: p) = Accum.add (if_acc (P ka.1) ka.2) (pending_total P p).
Proof.
  unfold pending_total. simpl. destruct (P ka.1); simpl; [done|]. by rewrite Accum.add_comm, Accum.add_zero.
Qed.

Lemma row_key_usage_row k a : row_key (usage_row k a) = k.
Proof. by destruct k as [[[u ak] m] d]. Qed.
Lemma row_accum_usage_row k a : row_accum (usage_row k a) = a.
Proof. destruct k as [[[u ak] m] d]. by destruct a. Qed.
Lemma row_key_add a r : row_key (row_add a r) = row_key r.
Proof. apply row_key_usage_row. Qed.
Lemma row_accum_add a r : row_accum (row_add a r) = Accum.add (row_accum r) a.
Proof. apply row_accum_usage_row. Qed.

Lemma upsert_keys rows ka :
  map row_key (upsert_rows rows ka) =
  match find_by (has_key ka.1) rows with Some _ => map row_key rows | None => map row_key rows ++ [ka.1] end.
Proof.
  unfold upsert_rows. destruct (find_by _ rows).
  - apply update_where_attr. apply row_key_add.
  - rewrite map_app. simpl. by rewrite row_key_usage_row.
Qed.
Lemma upsert_NoDup rows ka : NoDup (map row_key rows) → NoDup (map row_key (upsert_rows rows ka)).
Proof.
  intros H. rewrite upsert_keys. destruct (find_by _ rows) eqn:E; [done|].
  apply NoDup_app. split_and!; [done| |apply NoDup_singleton].
  intros k (r & -> & Hr)%list_elem_of_fmap Hk%list_elem_of_singleton.
  rewrite find_by_None in E. specialize (E r Hr). by apply bool_decide_eq_false in E.
Qed.

(** An upsert adds the aggregate to the totals that count its key. *)
Lemma upsert_total P rows ka :
  NoDup (map row_key rows) →
  rows_total P (upsert_rows rows ka) = Accum.add (rows_total P rows) (if_acc (P ka.1) ka.2).
Proof.
  destruct ka as [k a]. unfold upsert_rows. cbn [fst snd]. intros Hnd. destruct (find_by _ rows) eqn:E.
  2: { unfold rows_total, where_. rewrite List.filter_app, map_app, acc_sum_app. simpl. rewrite row_key_usage_row. f_equal.
       destruct (P k); [|done]. simpl. by rewrite row_accum_usage_row, Accum.add_zero. }
  revert E Hnd. induction rows as [|r rows IH]; [done|].
  change (update_where ?p ?f (r :: rows)) with ((if p r then f r else r) :: update_where p f rows).
  cbn [find_by map]. rewrite NoDup_cons. intros E [Hr Hnd]. unfold has_key in E |- * at 1.
  destruct (bool_decide_reflect (row_key r = k)) as [<-|Hk].
  - rewrite update_where_id.
    + rewrite !rows_total_cons, row_key_add, row_accum_add, if_acc_add, <-!Accum.add_assoc. f_equal.
      apply Accum.add_comm.
    + intros r' Hr'. apply bool_decide_eq_false. intros Hk. apply Hr. rewrite <-Hk. apply list_elem_of_fmap. eauto.
  - rewrite !rows_total_cons, IH by done. by rewrite Accum.add_assoc.
Qed.

Lemma dict_set_total P k a p :
  pending_total P (dict_set k (Accum.add (default Accum.zero (dict_get k p)) a) p) =
  Accum.add (pending_total P p) (if_acc (P k) a).
Proof.
  induction p as [|[k' a'] p IH]; simpl.
  - rewrite pending_total_cons. cbn [fst snd]. unfold pending_total. simpl.
    rewrite (Accum.add_comm Accum.zero a), !Accum.add_zero, Accum.add_comm. by rewrite Accum.add_zero.
  - destruct (decide (k = k')) as [<-|]; cbn [default]; rewrite !pending_total_cons; cbn [fst snd].
    + rewrite if_acc_add, <-!Accum.add_assoc. f_equal. apply Accum.add_comm.
    + by rewrite IH, Accum.add_assoc.
Qed.

Lemma merge_back_total P pending b :
  pending_total P (Buffer.pending (merge_back pending b)) =
  Accum.add (pending_total P (Buffer.pending b)) (pending_total P pending).
Proof.
  unfold merge_back. cbn [Buffer.pending]. generalize (Buffer.pending b) as p.
  induction pending as [|[k a] l IH]; intros p; cbn [foldl]; [by rewrite Accum.add_zero|].
  rewrite IH, pending_total_cons, Accum.add_assoc. f_equal. rewrite <-dict_set_total. cbn [fst snd].
  destruct (dict_get k p); [done|]. simpl. by rewrite (Accum.add_comm Accum.zero), Accum.add_zero.
Qed.

Lemma upsert_all_total P l rows :
  NoDup (map row_key rows) →
  rows_total P (foldl upsert_rows rows l) = Accum.add (rows_total P rows) (pending_total P l) ∧
  NoDup (map row_key (foldl upsert_rows rows l)).
Proof.
  revert rows. induction l as [|ka l IH]; intros rows H; simpl; [by rewrite Accum.add_zero|].
  destruct (IH (upsert_rows rows ka)) as [-> ?]; [by apply upsert_NoDup|]. split; [|done].
  by rewrite upsert_total, pending_total_cons, Accum.add_assoc.
Qed.

(** ** What a flush does *)
Definition flushed (p : pending_t) (d : Db.t) : Db.t :=
  Db.set_usage_records (foldl upsert_rows (Db.usage_records d) p) d.
Definition fresh_buffer (b : Buffer.t) : Buffer.t := Buffer.mk [] (Buffer.events b).

Lemma upsert_loop p n b v dur :
  foldM (λ written ka, _ ← on_db (upsert_usage ka); mret (written + 1)) n p (Ledger.mk b (Session.mk v dur false))
  = (Ok (n + Z.of_nat (length p)), Ledger.mk b (Session.mk (flushed p v) dur false)).
Proof.
  revert n v. induction p as [|ka p IH]; intros n v.
  - cbn. unfold mret, M_ret. do 2 f_equal; [lia|]. by destruct v.
  - etrans; [exact (IH (n + 1) (Db.set_usage_records (upsert_rows (Db.usage_records v) ka) v))|].
    cbn [length]. do 2 f_equal. lia.
Qed.

(** When the rows of a flush are in the table although nobody may know, and when
    the handler puts the aggregates back. *)
Definition applied (f : Fate.t) : bool :=
  match Fate.ends f with Fate.Answered => true | Fate.Broken a | Fate.Cancelled a => a end.
Definition merges (f : Fate.t) (accepted : bool) : bool :=
  match Fate.ends f with
  | Fate.Answered => negb accepted && Fate.rolls_back f
  | Fate.Broken _ => Fate.rolls_back f
  | Fate.Cancelled _ => false
  end.

(** The whole flush of a non-empty buffer, on a fresh session. *)
Lemma flush_usage_run f arrivals b d p0 p :
  Buffer.pending b = p0 :: p →
  let after := record_all arrivals (fresh_buffer b) in
  let accepted := constraints_ok (flushed (p0 :: p) d) in
  let '(r, l') := flush_usage f arrivals (Ledger.mk b (Session.start d)) in
  (∀ n, r = Ok n ↔ Fate.ends f = Fate.Answered ∧ accepted = true ∧ n = Z.of_nat (length (p0 :: p))) ∧
  Session.durable (Ledger.session l') = (if accepted && applied f then flushed (p0 :: p) d else d) ∧
  Ledger.buffer l' = (if merges f accepted then merge_back (p0 :: p) after else after) ∧
  (f = Fate.holds → Ledger.session l' = Session.start (if accepted then flushed (p0 :: p) d else d)).
Proof.
  intros Hp after accepted. unfold flush_usage.
  rewrite (bind_Ok _ _ _ (p0 :: p) (Ledger.mk b (Session.start d))) by (unfold gets; cbn; by rewrite Hp).
  rewrite (bind_Ok _ _ _ tt (Ledger.mk (fresh_buffer b) (Session.start d))) by done.
  cbv beta iota. unfold try_ at 1.
  rewrite (bind_Ok _ _ _ _ _ (upsert_loop (p0 :: p) 0 (fresh_buffer b) d d)).
  rewrite (bind_Ok _ _ _ tt (Ledger.mk after (Session.mk (flushed (p0 :: p) d) d false))) by done.
  destruct f as [ends back]. unfold merges, applied, commit_under, unanswered, commit, rollback_under, rollback.
  cbn [Fate.ends Fate.rolls_back].
  unfold mbind, M_bind, on_db, try_, raise, mret, M_ret. cbn [Ledger.session Ledger.buffer Session.inactive Session.view].
  subst accepted. clearbody after. destruct (constraints_ok (flushed (p0 :: p) d)) eqn:E;
    destruct ends as [|[]|[]], back; cbn -[flushed length constraints_ok];
    rewrite ?E; cbn -[flushed length constraints_ok]; split_and!; try done; intros; naive_solver.
Qed.

Lemma constraints_usage_keys d : constraints_ok d = true → NoDup (map row_key (Db.usage_records d)).
Proof. intros H. by split_constraints H. Qed.

(** Whether the rows a key names exist. *)
Definition key_refs (d : Db.t) (k : usage_key) : bool :=
  let '(u, ak, m, _) := k in has (find_user d u) && has (find_api_key d ak) && has (find_model d m).

Lemma upsert_all_keys l rows k :
  k ∈ map row_key (foldl upsert_rows rows l) ↔ k ∈ map row_key rows ∨ k ∈ map fst l.
Proof.
  revert rows. induction l as [|ka l IH]; intros rows; cbn [foldl map].
  - rewrite elem_of_nil. tauto.
  - rewrite IH, upsert_keys, elem_of_cons. destruct (find_by _ rows) as [r|] eqn:E.
    + apply find_by_Some in E as [Hr Hk%bool_decide_eq_true]. split; [tauto|]. intros [?|[->|?]]; [tauto| |tauto].
      left. rewrite <-Hk. apply list_elem_of_fmap. eauto.
    + rewrite elem_of_app, list_elem_of_singleton. tauto.
Qed.

Lemma constraints_flushed p d :
  constraints_ok d = true →
  constraints_ok (flushed p d) = forallb (key_refs d) (map fst p).
Proof.
  intros Hd. pose proof (constraints_usage_keys d Hd) as Hk.
  assert (∀ r, r ∈ Db.usage_records d → key_refs d (row_key r) = true) as Hrefs.
  { intros r Hr%list_elem_of_In. unfold constraints_ok, fks_ok in Hd. repeat rewrite andb_true_iff in Hd. destruct_and! Hd.
    match goal with H : forallb _ (Db.usage_records d) = true |- _ => by apply (proj1 (forallb_forall _ _) H) end. }
  assert (∀ rows, forallb (λ u, has (find_user d (UsageRecord.user_id u)) && has (find_api_key d (UsageRecord.api_key_id u))
            && has (find_model d (UsageRecord.model_id u))) rows = forallb (key_refs d) (map row_key rows)) as Hmap.
  { intros rows. induction rows as [|r rows IH]; [done|]. simpl. by rewrite IH. }
  apply Bool.eq_iff_eq_true.
  unfold constraints_ok, checks_ok, uniques_ok, fks_ok in Hd |- *.
  repeat rewrite andb_true_iff in Hd |- *. destruct_and! Hd.
  cbn [flushed Db.set_usage_records Db.usage_records]. 
  change (find_user (flushed p d)) with (find_user d). change (find_api_key (flushed p d)) with (find_api_key d).
  change (find_model (flushed p d)) with (find_model d). rewrite Hmap.
  split.
  - intros Hall. destruct_and! Hall. apply forallb_forall. intros k Hin%list_elem_of_In.
    match goal with H : forallb (key_refs d) _ = true |- _ => apply (proj1 (forallb_forall _ _) H) end.
    apply list_elem_of_In, upsert_all_keys. by right.
  - intros Hall. split_and!; try assumption.
    + apply unique_by_NoDup. by apply (upsert_all_total (λ _, true)).
    + apply forallb_forall. intros k Hk'%list_elem_of_In.
      apply upsert_all_keys in Hk' as [(r & -> & Hr)%list_elem_of_fmap|Hin]; [auto|].
      by apply (proj1 (forallb_forall _ _) Hall), list_elem_of_In.
Qed.


(** The deleted-user hazard: the buffer below holds usage of user 9, whose row is gone. *)
Module UsageSample.
Definition user : User.t := User.mk 3 "ann" None "" "user" true (Some 100) (Some 3).
Definition key : ApiKey.t := ApiKey.mk 4 3 "k" "h" ["inference"] None None 0.
Definition d : Db.t := Db.set_users [user] (Db.set_api_keys [key] Sample.db).
Definition ctx (u : uuid) : UsageContext.t := UsageContext.mk u 4 7 "org/model" 100 0 "vllm" "single" [].
Definition arrival (u : uuid) : Arrival.t := Arrival.mk 20 (ctx u) 10 5 200 "ok".
Definition buffer (us : list uuid) : Buffer.t := record_all (map arrival us) Buffer.empty.
Definition flush (us arriving : list uuid) : result Z * Ledger.t :=
  flush_usage Fate.holds (map arrival arriving) (Ledger.mk (buffer us) (Session.start d)).
(** The requests accounted for after a flush of [us] under [f]. *)
Definition requests_after (f : Fate.t) (us : list uuid) : Z :=
  let l' := (flush_usage f [] (Ledger.mk (buffer us) (Session.start d))).2 in
  Accum.requests (ledger_total (λ _, true) (Buffer.pending (Ledger.buffer l')) (Session.durable (Ledger.session l'))).
End UsageSample.

(** Three requests are buffered.  Cancelling the flush loses them (at shutdown
    [main.py] cancels the task whatever it awaits); losing the answer of the commit
    counts them twice; a rollback that fails too loses them. *)
Lemma cancelled_flush_loses_usage :
  UsageSample.requests_after (Fate.mk (Fate.Cancelled false) true) [3; 3; 3]%N = 0 ∧
  UsageSample.requests_after (Fate.mk (Fate.Broken true) true) [3; 3; 3]%N = 6 ∧
  UsageSample.requests_after (Fate.mk (Fate.Broken false) false) [3; 3; 3]%N = 0 ∧
  UsageSample.requests_after Fate.holds [3; 3; 3]%N = 3.
Proof. by vm_compute. Qed.


(** When a flush goes through: a non-empty buffer is written, and the flusher
    knows it, exactly when its awaits are answered and every buffered key still
    names an existing user, API key and model. *)
Theorem flush_usage_outcome f arrivals b d :
  constraints_ok d = true → Buffer.pending b ≠ [] →
  (∃ n l', flush_usage f arrivals (Ledger.mk b (Session.start d)) = (Ok n, l')) ↔
  Fate.ends f = Fate.Answered ∧ ∀ k, k ∈ map fst (Buffer.pending b) → key_refs d k = true.
Proof.
  intros Hd Hne. destruct (Buffer.pending b) as [|p0 p] eqn:Hp; [done|].
  pose proof (flush_usage_run f arrivals b d p0 p Hp) as Hrun. cbv zeta in Hrun.
  rewrite (constraints_flushed (p0 :: p) d Hd) in Hrun.
  destruct (flush_usage _ _ _) as [r l'], Hrun as (Hr & _). rewrite <-forallb_elem. split.
  - intros (n & l & [= -> ->]). by destruct (proj1 (Hr n) eq_refl) as (? & ? & _).
  - intros [? ?]. eexists _, _. f_equal. by apply Hr.
Qed.

Lemma flush_usage_outcome_witness :
  (∃ n l', UsageSample.flush [3%N] [] = (Ok n, l')) ∧ ¬ (∃ n l', UsageSample.flush [3; 9]%N [] = (Ok n, l')).
Proof.
  split; [apply flush_usage_outcome; [by vm_compute|by vm_compute|]|].
  - split; [done|]. intros k Hk. vm_compute in Hk. apply list_elem_of_singleton in Hk as ->. by vm_compute.
  - intros H. apply flush_usage_outcome in H as [_ H]; [|by vm_compute|by vm_compute].
    specialize (H (9%N, 4%N, 7%N, 20)). vm_compute in H. discriminate H. repeat constructor.
Defined.

(** The keys stay in the buffer across a merge. *)
Lemma merge_back_keys k pending b :
  k ∈ (Buffer.pending (merge_back pending b)).*1 ↔ k ∈ (Buffer.pending b).*1 ∨ k ∈ pending.*1.
Proof.
  unfold merge_back. cbn [Buffer.pending]. generalize (Buffer.pending b) as p.
  induction pending as [|[k' a] l IH]; intros p; [set_solver|]. cbn [foldl]. rewrite IH.
  assert (k ∈ (dict_set k' (Accum.add (default Accum.zero (dict_get k' p)) a) p).*1 ↔ k ∈ p.*1 ∨ k = k') as Hset.
  { rewrite dict_set_keys. destruct (dict_get k' p) eqn:E; [|set_solver].
    split; [tauto|]. intros [?| ->]; [done|]. apply dict_get_Some_elem in E. apply list_elem_of_fmap. eexists (_, _). by split; [|exact E]. }
  csimpl. rewrite elem_of_cons. cbn [fst snd]. destruct (dict_get k' p) eqn:E; [cbn [default] in Hset; rewrite Hset; tauto|].
  rewrite dict_set_keys, E in Hset |- *. rewrite Hset. tauto.
Qed.

(** One buffered key whose user, API key or model has been deleted stops all
    accounting: the flush fails, writes nothing for any key, and puts the same
    key back, so every later flush (whatever arrives) fails as well. *)
Theorem flush_usage_blocked arrivals b d k :
  constraints_ok d = true → k ∈ map fst (Buffer.pending b) → key_refs d k = false →
  ∃ e b', flush_usage Fate.holds arrivals (Ledger.mk b (Session.start d)) = (Raise e, Ledger.mk b' (Session.start d)) ∧
          k ∈ map fst (Buffer.pending b').
Proof.
  intros Hd Hk Href. destruct (Buffer.pending b) as [|p0 p] eqn:Hp; [by apply elem_of_nil in Hk|].
  pose proof (flush_usage_run Fate.holds arrivals b d p0 p Hp) as Hrun. cbv zeta in Hrun.
  assert (constraints_ok (flushed (p0 :: p) d) = false) as Hno.
  { rewrite (constraints_flushed (p0 :: p) d Hd). apply not_true_iff_false. intros Hall.
    rewrite (proj1 (forallb_elem _ _) Hall k Hk) in Href. done. }
  destruct (flush_usage _ _ _) as [r [b' s']], Hrun as (Hr & _ & Hb & Hs). rewrite Hno in *.
  cbn [Ledger.buffer Ledger.session merges Fate.ends Fate.holds Fate.rolls_back negb andb] in Hb, Hs.
  destruct r as [n|e]; [by destruct (proj1 (Hr n) eq_refl) as (_ & ? & _)|].
  exists e, b'. rewrite Hs by done. split; [done|]. rewrite Hb. apply merge_back_keys. by right.
Qed.

Lemma flush_usage_blocked_witness :
  ∃ e b', UsageSample.flush [3; 9]%N [3%N] = (Raise e, Ledger.mk b' (Session.start UsageSample.d)) ∧
          (9%N, 4%N, 7%N, 20) ∈ map fst (Buffer.pending b').
Proof. apply flush_usage_blocked; [by vm_compute| |by vm_compute]. vm_compute. repeat constructor. Defined.

(** ** Quotas *)
Lemma usage_today_total today u p d :
  let T := ledger_total (user_day u today) p d in
  usage_today today u p d = (Accum.requests T, accum_tokens T).
Proof.
  unfold usage_today, ledger_total, rows_total, pending_total, accum_tokens at 2.
  cbn [Accum.add Accum.requests Accum.tokens_in Accum.tokens_out].
  generalize (where_ (λ r, user_day u today (row_key r)) (Db.usage_records d)) as rows.
  generalize (where_ (λ ka, user_day u today ka.1) p) as buf. intros buf rows.
  assert (sum_by UsageRecord.requests rows = Accum.requests (acc_sum (map row_accum rows))) as ->
    by (induction rows; simpl; lia).
  assert (sum_by (λ r, UsageRecord.tokens_in r + UsageRecord.tokens_out r) rows =
          accum_tokens (acc_sum (map row_accum rows))) as ->
    by (unfold accum_tokens; induction rows; simpl in *; lia).
  assert (sum_by (λ ka : usage_key * Accum.t, Accum.requests ka.2) buf = Accum.requests (acc_sum (map snd buf))) as ->
    by (induction buf; simpl; lia).
  assert (sum_by (λ ka : usage_key * Accum.t, accum_tokens ka.2) buf = accum_tokens (acc_sum (map snd buf))) as ->
    by (unfold accum_tokens; induction buf; simpl in *; lia).
  unfold accum_tokens. f_equal. lia.
Qed.

(** [exceeds T user]: the user's accounted usage reached one of its limits. *)
Definition exceeds (T : Accum.t) (user : User.t) : Prop :=
  (∃ n, User.request_limit user = Some n ∧ n <= Accum.requests T) ∨
  (∃ n, User.token_limit user = Some n ∧ n <= accum_tokens T).

(** C26 The quota check: a user is rejected exactly when the requests or the
    tokens accounted to them for the day (rows and buffer together) reached a
    limit they have, the request limit being reported first; a flush of the
    buffer does not change the answer. *)
Theorem check_quota_spec today user p d :
  constraints_ok d = true →
  let T := ledger_total (user_day (User.id user) today) p d in
  (is_Some (check_quota today user p d) ↔ exceeds T user) ∧
  (∀ used limit, check_quota today user p d = Some (used, limit) →
     limit <= used ∧ ((used, Some limit) = (Accum.requests T, User.request_limit user) ∨
                      (used, Some limit) = (accum_tokens T, User.token_limit user))) ∧
  (∀ f b n l', Buffer.pending b = p → p ≠ [] →
     flush_usage f [] (Ledger.mk b (Session.start d)) = (Ok n, l') →
     check_quota today user (Buffer.pending (Ledger.buffer l')) (Session.durable (Ledger.session l')) =
     check_quota today user p d).
Proof.
  intros Hd T. unfold check_quota. rewrite !usage_today_total. fold T. unfold over_limit, exceeds. split_and!.
  - destruct (User.token_limit user) as [tl|], (User.request_limit user) as [rl|]; 
      repeat (case_match; simplify_eq/=); rewrite ?Z.leb_le, ?Z.leb_gt in *; split; intros H'; 
      try (by destruct H'); try (destruct H' as [(n & ? & ?)|(n & ? & ?)]; simplify_eq; lia); try eauto.
  - intros used limit. destruct (User.token_limit user) as [tl|], (User.request_limit user) as [rl|];
      repeat (case_match; simplify_eq/=); rewrite ?Z.leb_le, ?Z.leb_gt in *; intros; simplify_eq; auto.
  - intros f b n l' Hp Hne Hf. destruct p as [|p0 p]; [done|].
    pose proof (flush_usage_run f [] b d p0 p Hp) as Hrun. cbv zeta in Hrun. rewrite Hf in Hrun.
    destruct Hrun as (Hr & Hdur & Hbuf & _), (proj1 (Hr n) eq_refl) as (Hend & Hok & _).
    unfold applied, merges in Hdur, Hbuf. rewrite Hend, Hok in Hdur, Hbuf. rewrite Hdur, Hbuf.
    cbn [andb negb record_all foldl fresh_buffer Buffer.pending]. rewrite usage_today_total.
    enough (ledger_total (user_day (User.id user) today) [] (flushed (p0 :: p) d) = T) as -> by done.
    unfold T, ledger_total. unfold pending_total at 1. cbn [where_ List.filter map acc_sum foldr].
    rewrite Accum.add_zero. by apply upsert_all_total, constraints_usage_keys.
Qed.

Lemma check_quota_spec_witness :
  let p := Buffer.pending (UsageSample.buffer [3; 3; 3]%N) in
  check_quota 20 UsageSample.user p UsageSample.d = Some (3, 3) ∧
  exceeds (ledger_total (user_day 3 20) p UsageSample.d) UsageSample.user.
Proof.
  intros p. split; [by vm_compute|].
  apply (check_quota_spec 20 UsageSample.user p UsageSample.d); [by vm_compute|]. vm_compute. by eexists.
Defined.

(** ** Recording *)

(** Recording a request: unless the buffer is full and the key is new, the
    request and its (non-negative) tokens and latency are added under its key and
    nowhere else; a dropped request leaves the buffer as it was and is counted as
    dropped; the buffer never grows past its bound by recording. *)
Theorem record_request_accounts today ctx ti to_ lat outcome b :
  let k := ctx_key ctx today in
  let delta := Accum.mk 1 (Z.max ti 0) (Z.max to_ 0) (Z.max lat 0) in
  let dropped := dict_get k (Buffer.pending b) = None ∧ MAX_PENDING_KEYS <= Z.of_nat (length (Buffer.pending b)) in
  let b' := record_request today ctx ti to_ lat outcome b in
  Z.of_nat (length (Buffer.pending b')) <= Z.max (Z.of_nat (length (Buffer.pending b))) MAX_PENDING_KEYS ∧
  ((¬ dropped ∧ (∀ P, pending_total P (Buffer.pending b') =
                     Accum.add (pending_total P (Buffer.pending b)) (if_acc (P k) delta)) ∧
     Buffer.events b' = Buffer.events b ++ [(UsageContext.model_name ctx, outcome)]) ∨
  (dropped ∧ Buffer.pending b' = Buffer.pending b ∧
     Buffer.events b' = Buffer.events b ++ [(UsageContext.model_name ctx, outcome); (UsageContext.model_name ctx, "dropped")])).
Proof.
  intros k delta dropped b'. unfold b', record_request. fold k. fold delta. split.
  { destruct (dict_get k (Buffer.pending b)) as [a|] eqn:E; cbn [Buffer.pending].
    - rewrite dict_set_length, E. lia.
    - destruct (Z.leb_spec MAX_PENDING_KEYS (Z.of_nat (length (Buffer.pending b)))); cbn [Buffer.pending]; [lia|].
      rewrite dict_set_length, E. lia. }
  destruct (dict_get k (Buffer.pending b)) as [a|] eqn:E.
  - left. split_and!; [intros [? _]; congruence| |done]. intros P. rewrite <-dict_set_total, E. done.
  - destruct (Z.leb_spec MAX_PENDING_KEYS (Z.of_nat (length (Buffer.pending b)))) as [Hf|Hf].
    + right. split_and!; [done|done|]. cbn [Buffer.events]. by rewrite <-app_assoc.
    + left. split_and!; [intros [_ ?]; lia| |done]. intros P. rewrite <-dict_set_total, E. done.
Qed.

(** ** Occupancy *)
Definition gpu_total (m c : uuid) (day : Z) (rows : list GpuUsageRecord.t) : Z :=
  sum_by GpuUsageRecord.gpu_seconds (where_ (λ r, bool_decide (gpu_key r = (m, c, day))) rows).
(** GPUs the live instances of a model hold in a cluster. *)
Definition live_gpus (m c : uuid) (d : Db.t) : Z :=
  sum_by gpu_count
    (where_ (λ i, in_live_states (ModelInstance.state i) &&
                  bool_decide ((ModelInstance.model_id i, ModelInstance.cluster_id i) = (m, c))) (Db.instances d)).

Lemma sum_by_app {A} (f : A → Z) l1 l2 : sum_by f (l1 ++ l2) = sum_by f l1 + sum_by f l2.
Proof. induction l1; simpl; lia. Qed.

Lemma sum_by_cons {A} (f : A → Z) x l : sum_by f (x :: l) = f x + sum_by f l.
Proof. done. Qed.

Lemma gpu_count_nonneg i : 0 <= gpu_count i.
Proof. unfold gpu_count. lia. Qed.

Lemma occupied_fold interval l acc m c :
  default 0 (dict_get (m, c) (foldl (λ acc i, occupied acc interval i) acc l)) =
  default 0 (dict_get (m, c) acc) +
  interval * sum_by gpu_count
    (where_ (λ i, bool_decide ((ModelInstance.model_id i, ModelInstance.cluster_id i) = (m, c))) l).
Proof.
  revert acc. induction l as [|i l IH]; intros acc; cbn [foldl]; [simpl; lia|]. rewrite IH. clear IH.
  cbn [where_ List.filter]. fold (where_ (λ i, bool_decide ((ModelInstance.model_id i, ModelInstance.cluster_id i) = (m, c))) l).
  unfold occupied. destruct (Z.eqb_spec (gpu_count i) 0) as [E|E].
  - case_bool_decide; [rewrite sum_by_cons, E|]; lia.
  - rewrite dict_get_set. case_bool_decide as Hk; case_decide as Hk'; try congruence.
    + rewrite sum_by_cons, Hk. cbn [from_option]. unfold id. lia.
Qed.

Lemma occupancy_get interval d m c :
  default 0 (dict_get (m, c) (occupancy interval d)) = interval * live_gpus m c d.
Proof. unfold occupancy. rewrite occupied_fold. simpl. unfold live_gpus. by rewrite where_where. Qed.

Lemma occupancy_keys interval d :
  NoDup (occupancy interval d).*1 ∧
  ∀ mc, mc ∈ (occupancy interval d).*1 →
    ∃ i, i ∈ Db.instances d ∧ mc = (ModelInstance.model_id i, ModelInstance.cluster_id i).
Proof.
  unfold occupancy.
  assert (∀ i, i ∈ where_ (λ i, in_live_states (ModelInstance.state i)) (Db.instances d) → i ∈ Db.instances d) as Hsub
    by (intros i [? _]%elem_of_where; done).
  revert Hsub. generalize (where_ (λ i, in_live_states (ModelInstance.state i)) (Db.instances d)) as l. intros l.
  induction l as [|i l IH] using rev_ind; intros Hsub.
  { split; [constructor|]. intros mc Hmc. by apply elem_of_nil in Hmc. }
  destruct IH as [Hnd Hin]; [intros; apply Hsub, elem_of_app; by left|].
  rewrite foldl_snoc. unfold occupied at 1 3. destruct (gpu_count i =? 0); [done|].
  split; [by apply dict_set_NoDup|]. intros mc. rewrite dict_set_keys. destruct (dict_get _ _); [by apply Hin|].
  rewrite elem_of_app, list_elem_of_singleton. intros [?| ->]; [by apply Hin|].
  exists i. split; [|done]. apply Hsub, elem_of_app. right. by constructor.
Qed.

Lemma upsert_gpu_keys period rows ks :
  map gpu_key (upsert_gpu_rows period rows ks) =
  if bool_decide ((ks.1, period) ∈ map gpu_key rows) then map gpu_key rows else map gpu_key rows ++ [(ks.1, period)].
Proof.
  destruct ks as [[m c] sec]. unfold upsert_gpu_rows. cbn [fst]. destruct (find_by _ rows) as [r|] eqn:E.
  - apply find_by_Some in E as [Hr Hk%bool_decide_eq_true]. rewrite bool_decide_eq_true_2.
    2: { rewrite <-Hk. apply list_elem_of_fmap. eauto. }
    unfold update_where. rewrite map_map. apply map_ext. intros r'. by case_bool_decide.
  - rewrite bool_decide_eq_false_2; [by rewrite map_app|]. intros (r & Hk & Hr)%list_elem_of_fmap.
    rewrite find_by_None in E. specialize (E r Hr). by apply bool_decide_eq_false in E.
Qed.

Lemma upsert_gpu_total period rows ks m c day :
  NoDup (map gpu_key rows) →
  gpu_total m c day (upsert_gpu_rows period rows ks) =
  gpu_total m c day rows + (if bool_decide ((ks.1, period) = (m, c, day)) then ks.2 else 0).
Proof.
  destruct ks as [[m' c'] sec]. unfold upsert_gpu_rows, gpu_total. cbn [fst snd]. intros Hnd.
  destruct (find_by _ rows) as [r|] eqn:E.
  2: { rewrite where_app, sum_by_app. f_equal. unfold where_, gpu_key. simpl.
       destruct (bool_decide _); simpl; lia. }
  revert E Hnd. induction rows as [|r0 rows IH]; [done|].
  cbn [find_by map update_where where_ List.filter]. rewrite NoDup_cons. intros E [Hr Hnd].
  destruct (bool_decide_reflect (gpu_key r0 = (m', c', period))) as [Hk|Hk].
  - rewrite <-Hk. fold (where_ (λ r, bool_decide (gpu_key r = (m, c, day)))) .
    match goal with |- context [map ?f rows] => assert (map f rows = rows) as -> end.
    { rewrite <-(map_id rows) at 2. apply map_ext_in. intros r' Hr'%list_elem_of_In.
      destruct (bool_decide_reflect (gpu_key r' = gpu_key r0)) as [Hk'|]; [|done].
      destruct Hr. rewrite <-Hk'. apply list_elem_of_fmap. eauto. }
    assert (gpu_key (GpuUsageRecord.mk m' c' period (GpuUsageRecord.gpu_seconds r0 + sec)) = gpu_key r0) as -> by done.
    destruct (bool_decide (gpu_key r0 = (m, c, day))); rewrite ?sum_by_cons; cbn [GpuUsageRecord.gpu_seconds]; lia.
  - specialize (IH E Hnd). unfold update_where, where_ in IH |- *.
    destruct (bool_decide (gpu_key r0 = (m, c, day))); rewrite ?sum_by_cons, IH; lia.
Qed.

Definition sampled (period : Z) (per_key : list (uuid * uuid * Z)) (rows : list GpuUsageRecord.t) :=
  foldl (upsert_gpu_rows period) rows per_key.

Lemma sampled_spec period per_key rows :
  NoDup (map gpu_key rows) → NoDup per_key.*1 →
  NoDup (map gpu_key (sampled period per_key rows)) ∧
  (∀ k, k ∈ map gpu_key (sampled period per_key rows) → k ∈ map gpu_key rows ∨ (k.1 ∈ per_key.*1)) ∧
  ∀ m c day, gpu_total m c day (sampled period per_key rows) =
    gpu_total m c day rows + (if day =? period then default 0 (dict_get (m, c) per_key) else 0).
Proof.
  revert rows. induction per_key as [|[mc sec] l IH]; intros rows Hnd Hk.
  { split_and!; [done|auto|]. intros. simpl. case_match; lia. }
  apply NoDup_cons in Hk as [Hmc Hk]. cbn [sampled foldl]. fold (sampled period l).
  assert (NoDup (map gpu_key (upsert_gpu_rows period rows (mc, sec)))) as Hnd'.
  { rewrite upsert_gpu_keys. case_bool_decide as Hin; [done|]. apply NoDup_app. split_and!; [done| |apply NoDup_singleton].
    by intros x Hx ->%list_elem_of_singleton. }
  destruct (IH (upsert_gpu_rows period rows (mc, sec)) Hnd' Hk) as (H1 & H2 & H3). split_and!; [done| |].
  - intros k [Hin|Hin]%H2; [|right; by constructor]. rewrite upsert_gpu_keys in Hin. case_bool_decide; [by left|].
    apply elem_of_app in Hin as [?| ->%list_elem_of_singleton]; [by left|]. right. by constructor.
  - intros m c day. rewrite H3, (upsert_gpu_total period rows (mc, sec) m c day Hnd). cbn [fst snd dict_get].
    destruct (Z.eqb_spec day period) as [->|Hday].
    2: { rewrite bool_decide_eq_false_2; [lia|]. congruence. }
    destruct (decide ((m, c) = mc)) as [<-|Hne].
    + rewrite bool_decide_eq_true_2 by done. rewrite (proj2 (dict_get_None (m, c) l) Hmc). simpl. lia.
    + rewrite bool_decide_eq_false_2; [lia|]. congruence.
Qed.

Lemma sample_loop period l v dur :
  foldM (λ _ ks, execute (λ d, Db.set_gpu_usage_records (upsert_gpu_rows period (Db.gpu_usage_records d) ks) d)) tt l
    (Session.mk v dur false)
  = (Ok tt, Session.mk (Db.set_gpu_usage_records (sampled period l (Db.gpu_usage_records v)) v) dur false).
Proof.
  revert v. induction l as [|ks l IH]; intros v; [by destruct v|].
  exact (IH (Db.set_gpu_usage_records (upsert_gpu_rows period (Db.gpu_usage_records v) ks) v)).
Qed.

Lemma constraints_gpu_keys d : constraints_ok d = true → NoDup (map gpu_key (Db.gpu_usage_records d)).
Proof. intros H. by split_constraints H. Qed.
Lemma constraints_instance_refs d i :
  constraints_ok d = true → i ∈ Db.instances d →
  has (find_model d (ModelInstance.model_id i)) = true ∧ has (find_cluster d (ModelInstance.cluster_id i)) = true.
Proof.
  intros H Hi%list_elem_of_In. unfold constraints_ok, fks_ok in H. repeat rewrite andb_true_iff in H. destruct_and! H.
  match goal with H : forallb _ (Db.instances d) = true |- _ =>
    pose proof (proj1 (forallb_forall _ _) H i Hi) as Hfk; cbv beta in Hfk end.
  repeat rewrite andb_true_iff in Hfk. tauto.
Qed.

Lemma constraints_sampled period per_key d :
  constraints_ok d = true → NoDup per_key.*1 →
  (∀ mc, mc ∈ per_key.*1 → has (find_model d mc.1) = true ∧ has (find_cluster d mc.2) = true) →
  constraints_ok (Db.set_gpu_usage_records (sampled period per_key (Db.gpu_usage_records d)) d) = true.
Proof.
  intros Hd Hnd Href. pose proof (constraints_gpu_keys d Hd) as Hk.
  destruct (sampled_spec period per_key _ Hk Hnd) as (H1 & H2 & _).
  unfold constraints_ok, checks_ok, uniques_ok, fks_ok in Hd |- *.
  repeat rewrite andb_true_iff in Hd. destruct_and! Hd.
  repeat (apply andb_true_iff; split); try assumption; [by apply unique_by_NoDup|].
  cbn [Db.gpu_usage_records Db.set_gpu_usage_records]. apply forallb_forall. intros r Hr%list_elem_of_In.
  destruct (H2 (gpu_key r)) as [(r0 & Hr0 & Hin%list_elem_of_In)%list_elem_of_fmap|Hin].
  - apply list_elem_of_fmap. eauto.
  - match goal with H : forallb _ (Db.gpu_usage_records d) = true |- _ =>
      pose proof (proj1 (forallb_forall _ _) H r0 Hin) as Hfk; cbv beta in Hfk end.
    unfold gpu_key in Hr0. injection Hr0 as E1 E2 _. by rewrite E1, E2.
  - destruct (Href _ Hin) as [Hm Hc]. apply andb_true_iff. by split.
Qed.

(** The occupancy sampler always commits, and what it commits is right: per
    model, cluster and day, the recorded GPU time grows by the interval times the
    GPUs held by the live instances of that model in that cluster, for the
    current day only. *)
Theorem sample_occupancy_effect today interval d :
  constraints_ok d = true →
  ∃ n d', run_session (sample_occupancy today interval) d = (Ok n, d') ∧ constraints_ok d' = true ∧
    Db.set_gpu_usage_records (Db.gpu_usage_records d) d' = d ∧
    ∀ m c day, gpu_total m c day (Db.gpu_usage_records d') =
      gpu_total m c day (Db.gpu_usage_records d) + (if day =? today then interval * live_gpus m c d else 0).
Proof.
  intros Hd. unfold run_session, sample_occupancy, Session.start. rewrite bind_query.
  destruct (occupancy_keys interval d) as [Hnd Hkeys].
  destruct (sampled_spec today _ _ (constraints_gpu_keys d Hd) Hnd) as (_ & _ & Htot).
  assert (constraints_ok (Db.set_gpu_usage_records (sampled today (occupancy interval d) (Db.gpu_usage_records d)) d) = true)
    as Hd'.
  { apply constraints_sampled; [done|done|]. intros mc (i & Hi & ->)%Hkeys. by apply constraints_instance_refs. }
  destruct (occupancy interval d) as [|ks l] eqn:Eo.
  - exists 0, d. split_and!; [done|done|by destruct d|]. intros m c day.
    rewrite <-occupancy_get, Eo. simpl. case_match; lia.
  - rewrite (bind_Ok _ _ _ _ _ (sample_loop today (ks :: l) d d)).
    rewrite bind_commit by exact Hd'.
    eexists _, _. split_and!; [done|exact Hd'|by destruct d|]. intros m c day.
    cbn [Db.gpu_usage_records Db.set_gpu_usage_records]. by rewrite Htot, <-occupancy_get, Eo.
Qed.

Lemma sample_occupancy_effect_witness :
  ∃ n d', run_session (sample_occupancy 20 30000) Sample.db = (Ok n, d') ∧
          gpu_total 7 1 20 (Db.gpu_usage_records d') = 30000.
Proof.
  destruct (sample_occupancy_effect 20 30000 Sample.db) as (n & d' & H1 & _ & _ & H2); [by vm_compute|].
  exists n, d'. split; [done|]. rewrite H2. by vm_compute.
Defined.
