(* ===== verification/Json.v ===== *)
(** * JSON values and [json.loads]

    The decoder of the Python standard library as the gateway uses it: a text or
    a UTF-8 body to a value, [None] for a [JSONDecodeError] or a
    [UnicodeDecodeError].  Strings are UTF-8 byte strings.  A number with a
    fraction or an exponent is kept as its literal. *)

From S2P Require Import Prelude PyStr Uuid.
Local Open Scope Z_scope.

Inductive json :=
  | JNull
  | JBool (b : bool)
  | JInt (z : Z)
  | JFloat (literal : string)
  | JStr (s : string)
  | JList (l : list json)
  | JObj (kvs : list (string * json)).

(** [payload.get(k)] *)
Definition jget (k : string) (kvs : list (string * json)) : option json := dict_get k kvs.
(** [bool(v)]; a float is truthy unless all its mantissa digits are zero (an
    underflow to zero, as of [1e-999], is not modelled). *)
Definition nonzero_digit (c : ascii) : bool := (49 <=? code c) && (code c <=? 57).
Fixpoint exists_str (p : ascii → bool) (s : string) : bool :=
  match s with "" => false | String c s => p c || exists_str p s end.
Definition mantissa (s : string) : string := before "e" (before "E" s).
Definition json_truthy (v : json) : bool :=
  match v with
  | JNull => false
  | JBool b => b
  | JInt z => negb (z =? 0)
  | JFloat s => exists_str nonzero_digit (mantissa s) || contains_char "N" s || contains_char "I" s
  | JStr s => negb (String.eqb s "")
  | JList l => match l with [] => false | _ => true end
  | JObj l => match l with [] => false | _ => true end
  end.

(** [int(v)]; [float_int]: of a float, from its literal. *)
Definition json_int (float_int : string → result Z) (v : json) : result Z :=
  match v with
  | JInt z => Ok z
  | JBool b => Ok (if b then 1 else 0)
  | JFloat s => float_int s
  | JStr s => match py_int s with Some z => Ok z | None => Raise (ValueError "invalid literal for int()") end
  | _ => Raise TypeError
  end.

(** ** Lexing *)
Definition is_json_ws (c : ascii) : bool :=
  (code c =? 32) || (code c =? 9) || (code c =? 10) || (code c =? 13).
Definition skip_ws (s : string) : string := lstrip_by is_json_ws s.

(** UTF-8 encoding of a code point (a lone surrogate takes three bytes). *)
Definition chr_str (n : Z) : string := String (ascii_of_N (Z.to_N n)) "".
Definition utf8 (n : Z) : string :=
  if n <? 128 then chr_str n
  else if n <? 2048 then chr_str (192 + n / 64) +:+ chr_str (128 + n mod 64)
  else if n <? 65536 then chr_str (224 + n / 4096) +:+ chr_str (128 + (n / 64) mod 64) +:+ chr_str (128 + n mod 64)
  else chr_str (240 + n / 262144) +:+ chr_str (128 + (n / 4096) mod 64)
       +:+ chr_str (128 + (n / 64) mod 64) +:+ chr_str (128 + n mod 64).

Definition hex4 (s : string) : option (Z * string) :=
  match s with
  | String a (String b (String c (String d r))) =>
      a' ← digit_in 16 a; b' ← digit_in 16 b; c' ← digit_in 16 c; d' ← digit_in 16 d;
      Some (((a' * 16 + b') * 16 + c') * 16 + d', r)
  | _ => None
  end.

Definition escape_char (c : ascii) : option ascii :=
  if Ascii.eqb c "034" then Some "034"%char
  else if Ascii.eqb c "\" then Some "\"%char
  else if Ascii.eqb c "/" then Some "/"%char
  else if Ascii.eqb c "b" then Some "008"%char
  else if Ascii.eqb c "f" then Some "012"%char
  else if Ascii.eqb c "n" then Some "010"%char
  else if Ascii.eqb c "r" then Some "013"%char
  else if Ascii.eqb c "t" then Some "009"%char
  else None.

(** The rest of a string after its opening quote; control characters are refused. *)
Fixpoint scan_string (fuel : nat) (s acc : string) : option (string * string) :=
  match fuel, s with
  | S fuel, String c r =>
      if Ascii.eqb c "034" then Some (rev_str acc, r)
      else if code c <? 32 then None
      else if Ascii.eqb c "\" then
        match r with
        | String "u" r' =>
            match hex4 r' with
            | None => None
            | Some (hi, r1) =>
                match (if (55296 <=? hi) && (hi <=? 56319) && startswith "\u" r1
                       then hex4 (drop_str 2 r1) else None) with
                | Some (lo, r2) =>
                    if (56320 <=? lo) && (lo <=? 57343)
                    then scan_string fuel r2 (rev_append_str (utf8 (65536 + (hi - 55296) * 1024 + (lo - 56320))) acc)
                    else scan_string fuel r1 (rev_append_str (utf8 hi) acc)
                | None => scan_string fuel r1 (rev_append_str (utf8 hi) acc)
                end
            end
        | String e r' =>
            match escape_char e with Some x => scan_string fuel r' (String x acc) | None => None end
        | "" => None
        end
      else scan_string fuel r (String c acc)
  | _, _ => None
  end.

Fixpoint span_digits (s : string) : string * string :=
  match s with
  | String c r => if is_digit c then let '(d, rest) := span_digits r in (String c d, rest) else ("", s)
  | "" => ("", "")
  end.
(** 0 or digits that do not start with 0 *)
Definition scan_int (s : string) : option (string * string) :=
  match s with
  | String "0" r => Some ("0", r)
  | String c _ => if is_digit c then Some (span_digits s) else None
  | "" => None
  end.
(** an optional fraction *)
Definition scan_frac (s : string) : string * string :=
  match s with
  | String "." r => match span_digits r with ("", _) => ("", s) | (d, rest) => (String "." d, rest) end
  | _ => ("", s)
  end.
(** an optional exponent *)
Definition scan_exp (s : string) : string * string :=
  match s with
  | String c r =>
      if Ascii.eqb c "e" || Ascii.eqb c "E" then
        let '(sign, r') := match r with
                           | String "-" r' => ("-", r') | String "+" r' => ("+", r') | _ => ("", r) end in
        match span_digits r' with ("", _) => ("", s) | (d, rest) => (String c (sign +:+ d), rest) end
      else ("", s)
  | "" => ("", "")
  end.
Definition scan_number (s : string) : option (json * string) :=
  let '(sign, s1) := match s with String "-" r => ("-", r) | _ => ("", s) end in
  '(digits, s2) ← scan_int s1;
  let '(frac, s3) := scan_frac s2 in
  let '(exp, s4) := scan_exp s3 in
  if String.eqb frac "" && String.eqb exp ""
  then z ← py_int (sign +:+ digits); Some (JInt z, s4)
  else Some (JFloat (sign +:+ digits +:+ frac +:+ exp), s4).

Definition scan_word (s : string) : option (json * string) :=
  if startswith "null" s then Some (JNull, drop_str 4 s)
  else if startswith "true" s then Some (JBool true, drop_str 4 s)
  else if startswith "false" s then Some (JBool false, drop_str 5 s)
  else if startswith "NaN" s then Some (JFloat "NaN", drop_str 3 s)
  else if startswith "Infinity" s then Some (JFloat "Infinity", drop_str 8 s)
  else if startswith "-Infinity" s then Some (JFloat "-Infinity", drop_str 9 s)
  else None.

(** ** Values

    The fuel bounds nesting and the number of elements together; every step
    consumes a character, so the length of the text is enough. *)
Fixpoint parse_value (fuel : nat) (s : string) : option (json * string) :=
  match fuel with
  | O => None
  | S fuel =>
      match s with
      | "" => None
      | String c r =>
          if Ascii.eqb c "034" then
            '(x, rest) ← scan_string (S (String.length r)) r ""; Some (JStr x, rest)
          else if Ascii.eqb c "[" then
            match skip_ws r with
            | String "]" rest => Some (JList [], rest)
            | r' => '(l, rest) ← parse_elements fuel r'; Some (JList l, rest)
            end
          else if Ascii.eqb c "{" then
            match skip_ws r with
            | String "}" rest => Some (JObj [], rest)
            | r' => '(l, rest) ← parse_members fuel [] r'; Some (JObj l, rest)
            end
          else match scan_word s with Some x => Some x | None => scan_number s end
      end
  end
with parse_elements (fuel : nat) (s : string) : option (list json * string) :=
  match fuel with
  | O => None
  | S fuel =>
      '(v, r) ← parse_value fuel s;
      match skip_ws r with
      | String "]" rest => Some ([v], rest)
      | String "," rest => '(l, rest') ← parse_elements fuel (skip_ws rest); Some (v :: l, rest')
      | _ => None
      end
  end
with parse_members (fuel : nat) (acc : list (string * json)) (s : string)
  : option (list (string * json) * string) :=
  match fuel with
  | O => None
  | S fuel =>
      match s with
      | String "034" r =>
          '(k, r1) ← scan_string (S (String.length r)) r "";
          match skip_ws r1 with
          | String ":" r2 =>
              '(v, r3) ← parse_value fuel (skip_ws r2);
              let acc' := dict_set k v acc in
              match skip_ws r3 with
              | String "}" rest => Some (acc', rest)
              | String "," rest => parse_members fuel acc' (skip_ws rest)
              | _ => None
              end
          | _ => None
          end
      | _ => None
      end
  end.

(** [json.loads(text)] *)
Definition json_loads_str (s : string) : option json :=
  match parse_value (2 * String.length s + 1) (skip_ws s) with
  | Some (v, rest) => if String.eqb (skip_ws rest) "" then Some v else None
  | None => None
  end.

(** ** Bodies *)
(** [json.loads(body)] on UTF-8 bodies (the UTF-16 and UTF-32 bodies Python also
    detects are not modelled). *)
Definition json_loads (body : string) : option json :=
  if utf8_valid body then json_loads_str body else None.

(** ** [json.dumps] with its defaults: [", "] and [": "] separators, ASCII only *)
Definition u4 (n : Z) : string := "\u" +:+ to_hex 4 n "".
Definition dump_code (n : Z) : string :=
  if n <? 65536 then u4 n
  else let m := n - 65536 in u4 (55296 + m / 1024) +:+ u4 (56320 + m mod 1024).
Definition dump_char (c : ascii) : string :=
  if Ascii.eqb c "034" || Ascii.eqb c "\" then String "\" (String c "")
  else if code c =? 10 then "\n"
  else if code c =? 13 then "\r"
  else if code c =? 9 then "\t"
  else if code c =? 8 then "\b"
  else if code c =? 12 then "\f"
  else if (code c <? 32) || (code c =? 127) then u4 (code c)
  else String c "".
(** A multi-byte character is decoded to its code point first. *)
Fixpoint dump_go (need : nat) (point : Z) (s : string) : string :=
  match s with
  | "" => ""
  | String c r =>
      let n := code c in
      match need with
      | S O => dump_code (point * 64 + n mod 64) +:+ dump_go 0 0 r
      | S need => dump_go need (point * 64 + n mod 64) r
      | O => if n <? 128 then dump_char c +:+ dump_go 0 0 r
             else if n <? 224 then dump_go 1 (n mod 32) r
             else if n <? 240 then dump_go 2 (n mod 16) r
             else dump_go 3 (n mod 8) r
      end
  end.
Definition dump_str (s : string) : string := String "034" (dump_go 0 0 s +:+ String "034" "").

Section dumps.
(** [repr(float(literal))] of a finite number literal. *)
Context (float_repr : string → string).
Definition dump_float (s : string) : string :=
  if contains_char "N" s || contains_char "I" s then s else float_repr s.
(** [pad]: what follows the separators, [" "] by default and nothing with
    [separators=(",", ":")]. *)
Fixpoint json_text (pad : string) (v : json) : string :=
  match v with
  | JNull => "null"
  | JBool b => if b then "true" else "false"
  | JInt z => str_Z z
  | JFloat s => dump_float s
  | JStr s => dump_str s
  | JList l => "[" +:+ join (String "," pad) (map (json_text pad) l) +:+ "]"
  | JObj kvs =>
      "{" +:+ join (String "," pad) (map (λ kv, dump_str kv.1 +:+ String ":" pad +:+ json_text pad kv.2) kvs) +:+ "}"
  end.
Definition json_dumps : json → string := json_text " ".
Definition json_compact : json → string := json_text "".
End dumps.

Example json_loads_object :
  json_loads " {'a': [1, -2.5e3, true], 'b': {'c': 'x\u0041\n'}, 'a': null } " = None.
Proof. by vm_compute. Qed.
Definition q (s : string) : string := map_str (λ c, if Ascii.eqb c "'" then "034"%char else c) s.
Example json_loads_quoted :
  json_loads (q " {'a': [1, -2.5e3, true], 'b': {'c': 'x\u0041\n'}, 'a': null } ")
  = Some (JObj [("a", JNull); ("b", JObj [("c", JStr ("xA" +:+ chr_str 10))])]).
Proof. by vm_compute. Qed.
Example json_loads_trailing : json_loads "[1] x" = None ∧ json_loads "01" = None ∧ json_loads "[1,]" = None.
Proof. by vm_compute. Qed.
Example json_dumps_object :
  json_dumps id (JObj [("a", JList [JInt (-1); JFloat "2.5"; JNull]); ("b", JStr ("x" +:+ utf8 233 +:+ utf8 128512))])
  = q "{'a': [-1, 2.5, null], 'b': 'x\u00e9\ud83d\ude00'}".
Proof. by vm_compute. Qed.

Example json_compact_object :
  json_compact id (JObj [("a", JList [JInt (-1); JNull]); ("b", JObj [])]) = q "{'a':[-1,null],'b':{}}".
Proof. by vm_compute. Qed.

(** ** The fuel is enough *)
Notation len := String.length.
Lemma lstrip_by_len p s : (len (lstrip_by p s) <= len s)%nat.
Proof. induction s as [|c s IH]; cbn; [done|]. destruct (p c); cbn; lia. Qed.
Lemma skip_ws_len s : (len (skip_ws s) <= len s)%nat.
Proof. apply lstrip_by_len. Qed.
Lemma drop_str_len n s : (len (drop_str n s) <= len s)%nat.
Proof. revert s. induction n as [|n IH]; intros [|c s]; cbn; [lia..|]. specialize (IH s). lia. Qed.
Lemma hex4_len s n r : hex4 s = Some (n, r) → (len r < len s)%nat.
Proof.
  unfold hex4. do 4 (destruct s as [|? s]; [done|]).
  intros (? & _ & (? & _ & (? & _ & (? & _ & [= _ <-])%bind_Some)%bind_Some)%bind_Some)%bind_Some. cbn. lia.
Qed.
(** Each step of the scanner of strings consumes a character. *)
Lemma scan_string_step f g s acc :
  (len s < f)%nat → (len s < g)%nat → scan_string f s acc = scan_string g s acc.
Proof.
  revert g s acc. induction f as [|f IH]; intros [|g] s acc Hf Hg; try lia.
  destruct s as [|c r]; [done|]. cbn in Hf, Hg. cbn [scan_string]. destruct (Ascii.eqb c "034"); [done|].
  destruct (code c <? 32); [done|]. destruct (Ascii.eqb c "\"); [|apply IH; lia].
  destruct r as [|e r']; [done|]. cbn in Hf, Hg. destruct (decide (e = "u"%char)) as [->|Hne].
  - destruct (hex4 r') as [[hi r1]|] eqn:E; [|done]. apply hex4_len in E.
    destruct (_ && startswith "\u" r1); cbv iota; [|apply IH; lia].
    destruct (hex4 (drop_str 2 r1)) as [[lo r2]|] eqn:E2; [|apply IH; lia]. apply hex4_len in E2.
    pose proof (drop_str_len 2 r1). destruct (_ && _); apply IH; lia.
  - destruct e as [[] [] [] [] [] [] [] []]; try done; try (destruct (escape_char _); [apply IH; lia|done]).
Qed.
Lemma scan_string_len f s acc x rest : scan_string f s acc = Some (x, rest) → (len rest < len s)%nat.
Proof.
  revert s acc. induction f as [|f IH]; intros [|c r] acc; try done. cbn [scan_string].
  destruct (Ascii.eqb c "034"); [intros [= _ <-]; cbn; lia|]. destruct (code c <? 32); [done|].
  destruct (Ascii.eqb c "\"); [|intros H%IH; cbn; lia]. destruct r as [|e r']; [done|].
  destruct (decide (e = "u"%char)) as [->|Hne].
  - destruct (hex4 r') as [[hi r1]|] eqn:E; [|done]. apply hex4_len in E.
    destruct (_ && startswith "\u" r1); cbv iota; [|intros H%IH; cbn; lia].
    destruct (hex4 (drop_str 2 r1)) as [[lo r2]|] eqn:E2; [|intros H%IH; cbn; lia]. apply hex4_len in E2.
    pose proof (drop_str_len 2 r1). destruct (_ && _); intros H1%IH; cbn; lia.
  - destruct e as [[] [] [] [] [] [] [] []]; try done; (destruct (escape_char _); [intros H%IH; cbn in *; lia|done]).
Qed.
Lemma span_digits_len s d rest : span_digits s = (d, rest) → (len rest + len d = len s)%nat.
Proof.
  revert d rest. induction s as [|c s IH]; intros d rest; cbn; [by intros [= <- <-]|].
  destruct (is_digit c); [|intros [= <- <-]; cbn; lia]. destruct (span_digits s) as [d' r'] eqn:E.
  intros [= <- <-]. specialize (IH _ _ eq_refl). cbn. lia.
Qed.
Lemma scan_int_len s d rest : scan_int s = Some (d, rest) → (len rest < len s)%nat.
Proof.
  destruct s as [|c s]; [done|]. destruct (decide (c = "0"%char)) as [->|Hne]; [intros [= _ <-]; cbn; lia|].
  assert (scan_int (String c s) = if is_digit c then Some (span_digits (String c s)) else None) as ->
    by (destruct c as [[] [] [] [] [] [] [] []]; done).
  cbn. destruct (is_digit c); [|done]. destruct (span_digits s) as [d' r'] eqn:E. intros [= _ <-].
  apply span_digits_len in E. lia.
Qed.
Lemma scan_frac_len s f rest : scan_frac s = (f, rest) → (len rest <= len s)%nat.
Proof.
  unfold scan_frac. destruct s as [|c r]; [by intros [= _ <-]|].
  destruct (decide (c = "."%char)) as [->|Hne].
  - destruct (span_digits r) as [d r'] eqn:E. apply span_digits_len in E. destruct d; intros [= _ <-]; cbn in *; lia.
  - destruct c as [[] [] [] [] [] [] [] []]; try done; by intros [= _ <-].
Qed.
Lemma scan_exp_len s e rest : scan_exp s = (e, rest) → (len rest <= len s)%nat.
Proof.
  unfold scan_exp. destruct s as [|c r]; [by intros [= _ <-]|]. destruct (_ || _); [|by intros [= _ <-]].
  assert (∀ p : string * string, (len p.2 <= len r)%nat →
    (let '(sign, r') := p in match span_digits r' with ("", _) => ("" : string, String c r) | (d, rest) => (String c (sign +:+ d), rest) end)
      = (e, rest) → (len rest <= len (String c r))%nat) as H.
  { intros [sign r'] Hp. cbn in Hp. destruct (span_digits r') as [d r''] eqn:E. apply span_digits_len in E.
    destruct d; intros [= _ <-]; cbn in *; lia. }
  apply H. destruct r as [|x r]; [done|]. destruct x as [[] [] [] [] [] [] [] []]; cbn; lia.
Qed.
Lemma scan_number_len s v rest : scan_number s = Some (v, rest) → (len rest < len s)%nat.
Proof.
  unfold scan_number.
  assert (∀ p : string * string, (len p.2 <= len s)%nat →
    (let '(sign, s1) := p in
     '(digits, s2) ← scan_int s1;
     let '(frac, s3) := scan_frac s2 in
     let '(exp, s4) := scan_exp s3 in
     if String.eqb frac "" && String.eqb exp ""
     then z ← py_int (sign +:+ digits); Some (JInt z, s4)
     else Some (JFloat (sign +:+ digits +:+ frac +:+ exp), s4)) = Some (v, rest) → (len rest < len s)%nat) as H.
  { intros [sign s1] Hp. cbn in Hp. intros ([digits s2] & Ei & H)%bind_Some. apply scan_int_len in Ei.
    destruct (scan_frac s2) as [frac s3] eqn:Ef. apply scan_frac_len in Ef.
    destruct (scan_exp s3) as [exp s4] eqn:Ee. apply scan_exp_len in Ee.
    destruct (_ && _); [apply bind_Some in H as (z & _ & H)|]; injection H as _ <-; lia. }
  apply H. destruct s as [|c r]; [done|]. destruct c as [[] [] [] [] [] [] [] []]; cbn; lia.
Qed.
Lemma startswith_drop_len p s : startswith p s = true → (len (drop_str (len p) s) + len p = len s)%nat.
Proof.
  intros H%startswith_split. rewrite H at 2. generalize (drop_str (len p) s) as t. intros t. clear H.
  induction p as [|c p IH]; [by rewrite Nat.add_0_r|]. change (String c p +:+ t) with (String c (p +:+ t)). cbn [len]. lia.
Qed.
Lemma scan_word_len s v rest : scan_word s = Some (v, rest) → (len rest < len s)%nat.
Proof.
  unfold scan_word.
  assert (∀ p w, p ≠ "" → startswith p s = true → Some (w, drop_str (len p) s) = Some (v, rest) → (len rest < len s)%nat) as H.
  { intros p w Hp H [= _ <-]. apply startswith_drop_len in H. destruct p; [done|]. cbn in *. lia. }
  destruct (startswith "null" s) eqn:E1; [by apply (H "null" JNull)|].
  destruct (startswith "true" s) eqn:E2; [by apply (H "true" (JBool true))|].
  destruct (startswith "false" s) eqn:E3; [by apply (H "false" (JBool false))|].
  destruct (startswith "NaN" s) eqn:E4; [by apply (H "NaN" (JFloat "NaN"))|].
  destruct (startswith "Infinity" s) eqn:E5; [by apply (H "Infinity" (JFloat "Infinity"))|].
  destruct (startswith "-Infinity" s) eqn:E6; [by apply (H "-Infinity" (JFloat "-Infinity"))|done].
Qed.

(** Values consume at least a character, and the rests only shrink. *)
Lemma parse_len f :
  (∀ s v rest, parse_value f s = Some (v, rest) → (len rest < len s)%nat) ∧
  (∀ s l rest, parse_elements f s = Some (l, rest) → (len rest < len s)%nat) ∧
  (∀ s acc l rest, parse_members f acc s = Some (l, rest) → (len rest < len s)%nat).
Proof.
  induction f as [|f (IHv & IHe & IHm)]; [by split_and!|]. split_and!.
  - intros [|c r] v rest; [done|]. cbn [parse_value]. pose proof (skip_ws_len r) as Hw.
    destruct (Ascii.eqb c "034").
    { intros ([x r1] & E & [= _ <-])%bind_Some. apply scan_string_len in E. cbn. lia. }
    destruct (Ascii.eqb c "[").
    { assert (∀ s', (len s' <= len r)%nat → ('(l, rest) ← parse_elements f s'; Some (JList l, rest)) = Some (v, rest) →
                (len rest < len (String c r))%nat) as H.
      { intros s' Hs' ([l r1] & E & [= _ <-])%bind_Some. apply IHe in E. cbn. lia. }
      destruct (skip_ws r) as [|x r'] eqn:Ews; [by apply H|].
      destruct (decide (x = "]"%char)) as [->|Hne]; [intros [= _ <-]; cbn in *; lia|].
      destruct x as [[] [] [] [] [] [] [] []]; try done; by apply H. }
    destruct (Ascii.eqb c "{").
    { assert (∀ s', (len s' <= len r)%nat → ('(l, rest) ← parse_members f [] s'; Some (JObj l, rest)) = Some (v, rest) →
                (len rest < len (String c r))%nat) as H.
      { intros s' Hs' ([l r1] & E & [= _ <-])%bind_Some. apply IHm in E. cbn. lia. }
      destruct (skip_ws r) as [|x r'] eqn:Ews; [by apply H|].
      destruct (decide (x = "}"%char)) as [->|Hne]; [intros [= _ <-]; cbn in *; lia|].
      destruct x as [[] [] [] [] [] [] [] []]; try done; by apply H. }
    destruct (scan_word (String c r)) as [[w r1]|] eqn:E; [intros [= <- <-]; by eapply scan_word_len|]. apply scan_number_len.
  - intros s l rest. cbn [parse_elements]. intros ([v r] & E & H)%bind_Some. apply IHv in E. pose proof (skip_ws_len r) as Hw.
    destruct (skip_ws r) as [|x r'] eqn:Ews; [done|]. cbn in Hw.
    destruct (decide (x = "]"%char)) as [->|Hne]; [injection H as _ <-; lia|].
    destruct (decide (x = ","%char)) as [->|Hne2].
    + apply bind_Some in H as ([l' r2] & E2 & [= _ <-]). apply IHe in E2. pose proof (skip_ws_len r'). lia.
    + destruct x as [[] [] [] [] [] [] [] []]; done.
  - intros s acc l rest. cbn [parse_members]. destruct s as [|c r]; [done|].
    destruct (decide (c = "034"%char)) as [->|Hc]; [|destruct c as [[] [] [] [] [] [] [] []]; done].
    intros ([k r1] & Ek & H)%bind_Some. apply scan_string_len in Ek. pose proof (skip_ws_len r1) as Hw1.
    destruct (skip_ws r1) as [|x r2] eqn:E1; [done|]. cbn in Hw1.
    destruct (decide (x = ":"%char)) as [->|Hx]; [|destruct x as [[] [] [] [] [] [] [] []]; done].
    apply bind_Some in H as ([v r3] & Ev & H). apply IHv in Ev. pose proof (skip_ws_len r2). pose proof (skip_ws_len r3) as Hw3.
    cbn zeta in H. destruct (skip_ws r3) as [|y r4] eqn:E3; [done|]. cbn in Hw3.
    destruct (decide (y = "}"%char)) as [->|Hy]; [injection H as _ <-; cbn; lia|].
    destruct (decide (y = ","%char)) as [->|Hy2].
    + apply IHm in H. pose proof (skip_ws_len r4). cbn. lia.
    + destruct y as [[] [] [] [] [] [] [] []]; done.
Qed.
Lemma bind_ext_Some {A B} (m : option A) (f g : A → option B) : (∀ a, m = Some a → f a = g a) → m ≫= f = m ≫= g.
Proof. intros H. destruct m as [a|]; [by apply H|done]. Qed.
(** With more fuel than twice the length of the text the parser does not run out:
    any two such amounts agree. *)
Lemma parse_fuel n :
  (∀ s f g, (len s <= n)%nat → (2 * len s < f)%nat → (2 * len s < g)%nat → parse_value f s = parse_value g s) ∧
  (∀ s f g, (len s <= n)%nat → (2 * len s + 1 < f)%nat → (2 * len s + 1 < g)%nat → parse_elements f s = parse_elements g s) ∧
  (∀ s acc f g, (len s <= n)%nat → (2 * len s + 1 < f)%nat → (2 * len s + 1 < g)%nat →
     parse_members f acc s = parse_members g acc s).
Proof.
  induction n as [n IH] using lt_wf_ind.
  assert (∀ s f g, (len s <= n)%nat → (2 * len s < f)%nat → (2 * len s < g)%nat → parse_value f s = parse_value g s) as Hv.
  { intros [|c r] [|f] [|g] Hn Hf Hg; try (cbn in *; lia); [done|]. cbn in Hn, Hf, Hg. cbn [parse_value].
    destruct (IH (len r) ltac:(lia)) as (_ & IHe & IHm). pose proof (skip_ws_len r) as Hw.
    destruct (Ascii.eqb c "034"); [done|]. destruct (Ascii.eqb c "[").
    { assert (∀ s', (len s' <= len r)%nat → parse_elements f s' = parse_elements g s') as H by (intros; apply IHe; lia).
      destruct (skip_ws r) as [|[[] [] [] [] [] [] [] []] r']; try done; by rewrite H. }
    destruct (Ascii.eqb c "{"); [|done].
    assert (∀ s', (len s' <= len r)%nat → parse_members f [] s' = parse_members g [] s') as H by (intros; apply IHm; lia).
    destruct (skip_ws r) as [|[[] [] [] [] [] [] [] []] r']; try done; by rewrite H. }
  split; [done|]. split.
  - intros s [|f] [|g] Hn Hf Hg; try lia. cbn [parse_elements]. rewrite (Hv s f g) by lia. apply bind_ext_Some.
    intros [v r] E. apply parse_len in E. pose proof (skip_ws_len r) as Hw.
    destruct (skip_ws r) as [|x r'] eqn:Ews; [done|]. cbn in Hw. pose proof (skip_ws_len r').
    destruct (IH (len (skip_ws r')) ltac:(lia)) as (_ & IHe & _).
    rewrite (IHe (skip_ws r') f g) by lia. done.
  - intros s acc [|f] [|g] Hn Hf Hg; try lia. cbn [parse_members]. destruct s as [|c r]; [done|]. cbn in Hn, Hf, Hg.
    destruct (decide (c = "034"%char)) as [->|Hc]; [|destruct c as [[] [] [] [] [] [] [] []]; done].
    apply bind_ext_Some. intros [k r1] Ek. apply scan_string_len in Ek. pose proof (skip_ws_len r1) as Hw1.
    destruct (skip_ws r1) as [|x r2] eqn:E1; [done|]. cbn in Hw1. pose proof (skip_ws_len r2) as Hw2.
    destruct (decide (x = ":"%char)) as [->|Hx]; [|destruct x as [[] [] [] [] [] [] [] []]; done].
    rewrite (Hv (skip_ws r2) f g) by lia. apply bind_ext_Some. intros [v r3] Ev. apply parse_len in Ev.
    pose proof (skip_ws_len r3) as Hw3. cbn zeta. destruct (skip_ws r3) as [|y r4] eqn:E3; [done|]. cbn in Hw3.
    pose proof (skip_ws_len r4). destruct (IH (len (skip_ws r4)) ltac:(lia)) as (_ & _ & IHm).
    rewrite (IHm (skip_ws r4) (dict_set k v acc) f g) by lia. done.
Qed.
(** [json_loads_str] does not depend on its fuel. *)
Lemma json_loads_fuel s k :
  json_loads_str s =
  match parse_value (2 * len s + 1 + k) (skip_ws s) with
  | Some (v, rest) => if String.eqb (skip_ws rest) "" then Some v else None
  | None => None
  end.
Proof.
  unfold json_loads_str. pose proof (skip_ws_len s).
  by rewrite (proj1 (parse_fuel (len (skip_ws s))) (skip_ws s) (2 * len s + 1)%nat (2 * len s + 1 + k)%nat) by lia.
Qed.
