(* ===== verification/JsonText.v ===== *)
(** * [json.loads] after [json.dumps]

    The text [json_dumps] writes for a value is parsed back to the same value, up
    to the literal of its floats.  What a value must be for that is [json_wf]: its
    strings are sequences of code points without surrogates, its numbers are number
    literals, the keys of its objects are distinct. *)

From S2P Require Import Prelude PyStr Uuid Json.
Local Open Scope Z_scope.

(** ** Well-formed values *)
Definition is_ascii (c : ascii) : bool := code c <? 128.
(** The characters [json.dumps] writes. *)
Definition is_plain (c : ascii) : bool := (32 <=? code c) && (code c <? 127).
Definition scalar (n : Z) : Prop := 0 <= n < 1114112 ∧ ¬ (55296 <= n <= 57343).
(** The UTF-8 form of a sequence of code points. *)
Inductive text : string → Prop :=
  | text_nil : text ""
  | text_char n s : scalar n → text s → text (utf8 n +:+ s).
Definition is_number_word (s : string) : Prop := s = "NaN" ∨ s = "Infinity" ∨ s = "-Infinity".
(** A float as [json] reads and writes it. *)
Definition float_literal (s : string) : Prop :=
  is_number_word s ∨ (forall_str is_plain s = true ∧ scan_number s = Some (JFloat s, "")).
Fixpoint json_wf (v : json) : Prop :=
  match v with
  | JNull | JBool _ | JInt _ => True
  | JFloat s => float_literal s
  | JStr s => text s
  | JList l => foldr (λ v P, json_wf v ∧ P) True l
  | JObj kvs => NoDup kvs.*1 ∧ foldr (λ kv P, (text kv.1 ∧ json_wf kv.2) ∧ P) True kvs
  end.

Section json_ind.
Context (P : json → Prop) (Hnull : P JNull) (Hbool : ∀ b, P (JBool b)) (Hint_ : ∀ z, P (JInt z))
  (Hfloat : ∀ s, P (JFloat s)) (Hstr : ∀ s, P (JStr s)) (Hlist : ∀ l, Forall P l → P (JList l))
  (Hobj : ∀ kvs, Forall (λ kv, P kv.2) kvs → P (JObj kvs)).
Fixpoint json_nested_ind (v : json) : P v :=
  match v with
  | JNull => Hnull
  | JBool b => Hbool b
  | JInt z => Hint_ z
  | JFloat s => Hfloat s
  | JStr s => Hstr s
  | JList l => Hlist l ((fix go l := match l return Forall P l with
                                     | [] => Forall_nil_2 P
                                     | v :: l => Forall_cons_2 P v l (json_nested_ind v) (go l)
                                     end) l)
  | JObj kvs => Hobj kvs ((fix go l := match l return Forall (λ kv, P kv.2) l with
                                       | [] => Forall_nil_2 _
                                       | (k, v) :: l => Forall_cons_2 _ (k, v) l (json_nested_ind v) (go l)
                                       end) kvs)
  end.
End json_ind.

(** ** Numbers

    What follows a number in a document ends it. *)
Definition delimited (rest : string) : Prop :=
  match rest with "" => True | String c _ => c = ","%char ∨ c = "]"%char ∨ c = "}"%char end.
Lemma delimited_not_digit c r : delimited (String c r) →
  is_digit c = false ∧ c ≠ "."%char ∧ (Ascii.eqb c "e" || Ascii.eqb c "E") = false ∧ c ≠ "-"%char ∧ c ≠ "+"%char.
Proof. by intros [->|[->| ->]]. Qed.

Section stable.
Context (rest : string) (Hrest : delimited rest).
Lemma span_digits_app s d t : span_digits s = (d, t) → span_digits (s +:+ rest) = (d, t +:+ rest).
Proof.
  revert d t. induction s as [|c s IH]; intros d t.
  - intros [= <- <-]. change ("" +:+ rest) with rest. destruct rest as [|c r]; [done|].
    apply delimited_not_digit in Hrest as (Hd & _). cbn [span_digits]. by rewrite Hd.
  - rewrite append_cons. cbn [span_digits]. destruct (is_digit c); [|by intros [= <- <-]].
    destruct (span_digits s) as [d' t'] eqn:E. intros [= <- <-]. by rewrite (IH _ _ eq_refl).
Qed.
Lemma scan_int_cons c s : c ≠ "0"%char → scan_int (String c s) = if is_digit c then Some (span_digits (String c s)) else None.
Proof. intros H. by destruct c as [[] [] [] [] [] [] [] []]. Qed.
Lemma scan_int_app s d t : scan_int s = Some (d, t) → scan_int (s +:+ rest) = Some (d, t +:+ rest).
Proof.
  destruct s as [|c s]; [done|]. rewrite append_cons.
  destruct (decide (c = "0"%char)) as [->|Hne]; [by intros [= <- <-]|]. rewrite !scan_int_cons by done.
  destruct (is_digit c); [|done]. destruct (span_digits (String c s)) as [d' t'] eqn:E.
  apply span_digits_app in E. rewrite append_cons in E. rewrite E. by intros [= <- <-].
Qed.
Lemma scan_frac_cons c s : c ≠ "."%char → scan_frac (String c s) = ("", String c s).
Proof. intros H. by destruct c as [[] [] [] [] [] [] [] []]. Qed.
Lemma scan_frac_app s f t : scan_frac s = (f, t) → scan_frac (s +:+ rest) = (f, t +:+ rest).
Proof.
  destruct s as [|c s].
  - intros [= <- <-]. change ("" +:+ rest) with rest. destruct rest as [|c r]; [done|].
    apply delimited_not_digit in Hrest as (_ & Hd & _). by rewrite scan_frac_cons.
  - rewrite append_cons. destruct (decide (c = "."%char)) as [->|Hne]; [|rewrite !scan_frac_cons by done; by intros [= <- <-]].
    cbn [scan_frac]. destruct (span_digits s) as [d t'] eqn:E. rewrite (span_digits_app _ _ _ E).
    destruct d; by intros [= <- <-].
Qed.
(** The sign of an exponent. *)
Definition exp_sign (r : string) : string * string :=
  match r with String "-" r' => ("-", r') | String "+" r' => ("+", r') | _ => ("", r) end.
Lemma exp_sign_app s sign t : exp_sign s = (sign, t) → exp_sign (s +:+ rest) = (sign, t +:+ rest).
Proof.
  destruct s as [|c s].
  - intros [= <- <-]. change ("" +:+ rest) with rest. destruct rest as [|c r]; [done|].
    by destruct Hrest as [->|[->| ->]].
  - rewrite append_cons. by destruct c as [[] [] [] [] [] [] [] []]; intros [= <- <-].
Qed.
Lemma scan_exp_cons c r : scan_exp (String c r) =
  if Ascii.eqb c "e" || Ascii.eqb c "E" then
    let '(sign, r') := exp_sign r in
    match span_digits r' with ("", _) => ("", String c r) | (d, rest) => (String c (sign +:+ d), rest) end
  else ("", String c r).
Proof. done. Qed.
Lemma scan_exp_app s e t : scan_exp s = (e, t) → scan_exp (s +:+ rest) = (e, t +:+ rest).
Proof.
  destruct s as [|c s].
  - intros [= <- <-]. change ("" +:+ rest) with rest. destruct rest as [|c r]; [done|].
    apply delimited_not_digit in Hrest as (_ & _ & Hd & _). by rewrite scan_exp_cons, Hd.
  - rewrite append_cons, !scan_exp_cons. destruct (_ || _); [|by intros [= <- <-]].
    destruct (exp_sign s) as [sign r'] eqn:Es. rewrite (exp_sign_app _ _ _ Es).
    destruct (span_digits r') as [d t'] eqn:E. rewrite (span_digits_app _ _ _ E). destruct d; by intros [= <- <-].
Qed.
Definition number_sign (s : string) : string * string := match s with String "-" r => ("-", r) | _ => ("", s) end.
Lemma number_sign_cons c s : number_sign (String c s) = if Ascii.eqb c "-" then ("-", s) else ("", String c s).
Proof. by destruct c as [[] [] [] [] [] [] [] []]. Qed.
Lemma scan_number_app s v : scan_number s = Some (v, "") → scan_number (s +:+ rest) = Some (v, rest).
Proof.
  unfold scan_number. fold (number_sign s) (number_sign (s +:+ rest)).
  assert (number_sign (s +:+ rest) = ((number_sign s).1, (number_sign s).2 +:+ rest) ∨ s = "") as [->| ->]; [| |done].
  { destruct s as [|c s]; [by right|]. left. rewrite append_cons, !number_sign_cons. by destruct (Ascii.eqb c "-"). }
  destruct (number_sign s) as [sign s1]. cbn [fst snd]. intros ([digits s2] & Ei & H)%bind_Some.
  rewrite (scan_int_app _ _ _ Ei). cbn [mbind option_bind].
  destruct (scan_frac s2) as [frac s3] eqn:Ef. rewrite (scan_frac_app _ _ _ Ef).
  destruct (scan_exp s3) as [exp s4] eqn:Ee. rewrite (scan_exp_app _ _ _ Ee).
  destruct (_ && _).
  - apply bind_Some in H as (z & -> & [= <- ->]). done.
  - by injection H as <- ->.
Qed.
End stable.

(** A number starts with a digit, after its sign; no word does. *)
Lemma digit_no_word c s : is_digit c = true → scan_word (String c s) = None ∧ scan_word (String "-" (String c s)) = None.
Proof. intros H. by destruct c as [[] [] [] [] [] [] [] []]. Qed.
Lemma scan_int_digit s x : scan_int s = Some x → ∃ c r, s = String c r ∧ is_digit c = true.
Proof.
  destruct s as [|c r]; [done|]. intros H. exists c, r. split; [done|].
  destruct (decide (c = "0"%char)) as [->|Hne]; [done|]. rewrite scan_int_cons in H by done. by destruct (is_digit c).
Qed.
Lemma scan_number_no_word s x rest : scan_number s = Some x → scan_word (s +:+ rest) = None.
Proof.
  unfold scan_number. fold (number_sign s). destruct s as [|c s]; [done|]. rewrite number_sign_cons.
  destruct (Ascii.eqb_spec c "-") as [->|Hne]; intros ([d t] & H & _)%bind_Some;
    apply scan_int_digit in H as (c' & r & E & Hc).
  - rewrite E, !append_cons. by apply digit_no_word.
  - injection E as -> ->. rewrite append_cons. by apply digit_no_word.
Qed.
(** The value a number's text stands for, wherever the text is. *)
Lemma parse_number f s v rest :
  delimited rest → scan_number s = Some (v, "") → (0 < f)%nat → parse_value f (s +:+ rest) = Some (v, rest).
Proof.
  intros Hd H Hf. destruct f as [|f]; [lia|]. pose proof (scan_number_no_word _ _ rest H) as Hw.
  apply (scan_number_app rest Hd) in H. cbn [parse_value]. destruct (s +:+ rest) as [|c r] eqn:E; [done|].
  rewrite Hw, H. clear - H. unfold scan_number in H. fold (number_sign (String c r)) in H. rewrite number_sign_cons in H.
  destruct (Ascii.eqb_spec c "-") as [->|Hne]; [done|]. apply bind_Some in H as ([d t] & H & _).
  apply scan_int_digit in H as (c' & r' & [= <- <-] & Hc).
  by destruct c as [[] [] [] [] [] [] [] []].
Qed.
Lemma parse_number_word f s rest : is_number_word s → (0 < f)%nat → parse_value f (s +:+ rest) = Some (JFloat s, rest).
Proof. intros Hs Hf. destruct f as [|f]; [lia|]. by destruct Hs as [->|[->| ->]], rest. Qed.

Lemma span_digits_all s : forall_str is_digit s = true → span_digits s = (s, "").
Proof.
  induction s as [|c s IH]; [done|]. cbn [forall_str span_digits]. intros [-> H]%andb_true_iff. by rewrite IH.
Qed.
(** The decimal text of a positive number does not start with a zero. *)
Lemma pretty_N_go_head x s :
  (0 < x)%N → ∃ c t, pretty_N_go x s = String c t ∧ c ≠ "0"%char.
Proof.
  revert s. induction (N.lt_wf_0 x) as [x _ IH]; intros s Hx. rewrite pretty_N_go_step by lia.
  destruct (decide (x `div` 10 = 0)%N) as [E|Hne]; [|apply IH; [by apply N.div_lt|by apply N.neq_0_lt_0]].
  rewrite E, pretty_N_go_0. eexists _, _. split; [done|].
  assert (x < 10)%N as Hlt by (apply N.div_small_iff in E; lia). rewrite N.mod_small by done.
  assert (x ∈ [1; 2; 3; 4; 5; 6; 7; 8; 9]%N) as Hin by (rewrite !elem_of_cons; lia).
  repeat (apply elem_of_cons in Hin as [->|Hin]; [done|]). by apply elem_of_nil in Hin.
Qed.
Lemma scan_int_str_Z n : 0 <= n → scan_int (str_Z n) = Some (str_Z n, "").
Proof.
  intros Hn. pose proof (str_Z_digits n Hn) as [Hd _]. destruct n as [|p|]; [done| |lia].
  revert Hd. change (str_Z (Z.pos p)) with (pretty_N_go (N.pos p) "").
  destruct (pretty_N_go_head (N.pos p) "" ltac:(lia)) as (c & t & -> & Hc). intros Hd.
  rewrite scan_int_cons by done. pose proof Hd as Hd'. cbn [forall_str] in Hd'. apply andb_true_iff in Hd' as [-> _].
  by rewrite span_digits_all.
Qed.
Lemma digits_go_str_Z n : 0 < n → digits_go 10 0 false (str_Z n) = Some n.
Proof.
  intros Hn. destruct n as [|p|]; [lia| |lia]. change (str_Z (Z.pos p)) with (pretty_N_go (N.pos p) "").
  rewrite digits_go_pretty_N. by rewrite decide_False.
Qed.
Lemma scan_number_str_Z z : scan_number (str_Z z) = Some (JInt z, "").
Proof.
  unfold scan_number. fold (number_sign (str_Z z)). destruct (Z.leb_spec 0 z) as [Hz|Hz].
  - assert (number_sign (str_Z z) = ("", str_Z z)) as ->.
    { pose proof (scan_int_str_Z z Hz) as H. apply scan_int_digit in H as (c & r & E & Hc). rewrite E, number_sign_cons.
      by destruct (Ascii.eqb_spec c "-") as [->|]. }
    rewrite scan_int_str_Z by done. cbn [mbind option_bind scan_frac scan_exp String.eqb andb]. change ("" +:+ str_Z z) with (str_Z z).
    by rewrite py_int_str_Z.
  - assert (str_Z z = String "-" (str_Z (- z))) as E.
    { destruct z as [|p|p]; [lia|lia|]. done. }
    rewrite E, number_sign_cons. cbn [Ascii.eqb Bool.eqb]. rewrite scan_int_str_Z by lia.
    cbn [mbind option_bind scan_frac scan_exp String.eqb andb]. change ("-" +:+ str_Z (- z)) with (String "-" (str_Z (- z))).
    unfold py_int, py_int_base. rewrite strip_id.
    + change (Ascii.eqb "-" "-") with true. cbv iota. rewrite digits_go_str_Z by lia. cbn. do 3 f_equal. lia.
    + cbn [forall_str]. apply (forall_str_impl is_digit); [apply digit_not_space|]. apply str_Z_digits. lia.
Qed.

(** ** Strings *)
Lemma len_app (s t : string) : len (s +:+ t) = (len s + len t)%nat.
Proof. induction s as [|c s IH]; [done|]. rewrite append_cons. cbn [len]. by rewrite IH. Qed.
Lemma append_nil_l (s : string) : "" +:+ s = s.
Proof. done. Qed.
Lemma code_chr m : 0 <= m < 256 → code (ascii_of_N (Z.to_N m)) = m.
Proof. intros H. unfold code. rewrite N_ascii_embedding by lia. lia. Qed.
Lemma hex4_to_hex n t : 0 <= n < 65536 → hex4 (to_hex 4 n "" +:+ t) = Some (n, t).
Proof.
  intros Hn. cbn [to_hex]. rewrite !append_cons. cbn [hex4].
  assert (∀ m, digit_in 16 (hex_digit (m mod 16)) = Some (m mod 16)) as Hh.
  { intros m. apply hex_digit_spec. apply Z.mod_pos_bound. lia. }
  rewrite !Hh. cbn [mbind option_bind]. do 2 f_equal. Z.div_mod_to_equations. lia.
Qed.
(** What [dump_go] writes for a code point. *)
Definition dump_point (n : Z) : string := if n <? 128 then dump_char (ascii_of_N (Z.to_N n)) else dump_code n.
Lemma dump_go_mid need m r point :
  128 <= m < 256 → dump_go (S (S need)) point (String (ascii_of_N (Z.to_N m)) r) = dump_go (S need) (point * 64 + m mod 64) r.
Proof. intros H. cbn [dump_go]. by rewrite code_chr by lia. Qed.
Lemma dump_go_last m r point :
  128 <= m < 256 → dump_go 1 point (String (ascii_of_N (Z.to_N m)) r) = dump_code (point * 64 + m mod 64) +:+ dump_go 0 0 r.
Proof. intros H. cbn [dump_go]. by rewrite code_chr by lia. Qed.
Lemma dump_go_utf8 n r : scalar n → dump_go 0 0 (utf8 n +:+ r) = dump_point n +:+ dump_go 0 0 r.
Proof.
  intros [Hn _]. unfold utf8, dump_point, chr_str. destruct (Z.ltb_spec n 128) as [H1|H1].
  { rewrite append_cons. cbn [dump_go]. rewrite code_chr by lia. by destruct (Z.ltb_spec n 128); [|lia]. }
  assert (∀ m r, 128 <= m < 256 → dump_go 0 0 (String (ascii_of_N (Z.to_N m)) r) =
    if m <? 224 then dump_go 1 (m mod 32) r else if m <? 240 then dump_go 2 (m mod 16) r else dump_go 3 (m mod 8) r) as Hlead.
  { intros m r' Hm. cbn [dump_go]. rewrite code_chr by lia. by destruct (Z.ltb_spec m 128); [lia|]. }
  destruct (Z.ltb_spec n 2048) as [H2|H2]; [|destruct (Z.ltb_spec n 65536) as [H3|H3]];
    rewrite !append_assoc_str, !append_cons, !append_nil_l;
    rewrite Hlead by (Z.div_mod_to_equations; lia).
  - destruct (Z.ltb_spec (192 + n / 64) 224); [|Z.div_mod_to_equations; lia].
    rewrite dump_go_last by (Z.div_mod_to_equations; lia).
    f_equal. f_equal. Z.div_mod_to_equations. lia.
  - destruct (Z.ltb_spec (224 + n / 4096) 224); [Z.div_mod_to_equations; lia|].
    destruct (Z.ltb_spec (224 + n / 4096) 240); [|Z.div_mod_to_equations; lia].
    rewrite dump_go_mid by (Z.div_mod_to_equations; lia).
    rewrite dump_go_last by (Z.div_mod_to_equations; lia).
    f_equal. f_equal. Z.div_mod_to_equations. lia.
  - destruct (Z.ltb_spec (240 + n / 262144) 224); [Z.div_mod_to_equations; lia|].
    destruct (Z.ltb_spec (240 + n / 262144) 240); [Z.div_mod_to_equations; lia|].
    rewrite dump_go_mid by (Z.div_mod_to_equations; lia).
    rewrite dump_go_mid by (Z.div_mod_to_equations; lia).
    rewrite dump_go_last by (Z.div_mod_to_equations; lia).
    f_equal. f_equal. Z.div_mod_to_equations. lia.
Qed.

(** The scanner reads back each form of a character. *)
Lemma scan_u4 f n t acc :
  0 <= n < 65536 → ¬ (55296 <= n <= 57343) → scan_string (S f) (u4 n +:+ t) acc = scan_string f t (rev_append_str (utf8 n) acc).
Proof.
  intros Hn Hs. unfold u4. rewrite append_assoc_str, !append_cons, append_nil_l. cbn [scan_string].
  change (Ascii.eqb "\" "034") with false. change (code "\" <? 32) with false. change (Ascii.eqb "\" "\") with true. cbv iota.
  rewrite hex4_to_hex by done. destruct (Z.leb_spec 55296 n); [|done]. destruct (Z.leb_spec n 56319); [lia|done].
Qed.
Lemma scan_pair f n t acc :
  65536 <= n < 1114112 → scan_string (S f) (dump_code n +:+ t) acc = scan_string f t (rev_append_str (utf8 n) acc).
Proof.
  intros Hn. unfold dump_code. destruct (Z.ltb_spec n 65536); [lia|]. cbv zeta. unfold u4 at 1.
  set (lo := 56320 + (n - 65536) mod 1024). set (hi := 55296 + (n - 65536) / 1024).
  assert (55296 <= hi <= 56319 ∧ 56320 <= lo <= 57343 ∧ 65536 + (hi - 55296) * 1024 + (lo - 56320) = n) as (H1 & H2 & E).
  { subst lo hi. Z.div_mod_to_equations. lia. }
  clearbody lo hi. rewrite !append_assoc_str, !append_cons, !append_nil_l. cbn [scan_string].
  change (Ascii.eqb "\" "034") with false. change (code "\" <? 32) with false. change (Ascii.eqb "\" "\") with true. cbv iota.
  rewrite hex4_to_hex by lia. unfold u4. rewrite append_assoc_str, startswith_app.
  destruct (Z.leb_spec 55296 hi); [|lia]. destruct (Z.leb_spec hi 56319); [|lia]. cbn [andb].
  change 2%nat with (len "\u") at 1. rewrite drop_str_app, hex4_to_hex by lia.
  destruct (Z.leb_spec 56320 lo); [|lia]. destruct (Z.leb_spec lo 57343); [|lia]. cbn [andb]. by rewrite E.
Qed.
Lemma scan_dump_char f c t acc : code c < 128 → scan_string (S f) (dump_char c +:+ t) acc = scan_string f t (String c acc).
Proof. intros H. by destruct c as [[] [] [] [] [] [] [] []]; try (exfalso; vm_compute in H; discriminate). Qed.
Lemma scan_dump_point f n t acc :
  scalar n → scan_string (S f) (dump_point n +:+ t) acc = scan_string f t (rev_append_str (utf8 n) acc).
Proof.
  intros [Hn Hs]. unfold dump_point. destruct (Z.ltb_spec n 128) as [H|H].
  - rewrite scan_dump_char by (rewrite code_chr; lia). unfold utf8. by destruct (Z.ltb_spec n 128); [|lia].
  - destruct (Z.ltb_spec n 65536); [|apply scan_pair; lia]. unfold dump_code. destruct (Z.ltb_spec n 65536); [|lia].
    apply scan_u4; lia.
Qed.
Lemma dump_point_length n : scalar n → (1 <= len (dump_point n))%nat.
Proof.
  intros _. unfold dump_point, dump_code, u4. destruct (n <? 128); [|destruct (n <? 65536); cbv zeta; rewrite ?append_cons; cbn; lia].
  unfold dump_char, u4. repeat case_match; rewrite ?append_cons; cbn; lia.
Qed.

(** A string that is written is read back. *)
Lemma scan_dump_go f s rest acc :
  text s → (len (dump_go 0 0 s +:+ String "034" rest) < f)%nat →
  scan_string f (dump_go 0 0 s +:+ String "034" rest) acc = Some (rev_str acc +:+ s, rest).
Proof.
  intros Hs. revert f acc. induction Hs as [|n s Hn Hs IH]; intros f acc Hf; destruct f as [|f]; try (cbn in Hf; lia).
  - cbn. by rewrite append_nil_r.
  - rewrite dump_go_utf8, append_assoc_str in Hf |- * by done. rewrite scan_dump_point by done.
    pose proof (dump_point_length n Hn). rewrite len_app in Hf.
    rewrite IH by lia. by rewrite rev_append_str_spec, rev_str_app, rev_str_involutive, append_assoc_str.
Qed.
Lemma scan_dump_str s rest :
  text s → ∃ r, dump_str s +:+ rest = String "034" r ∧ scan_string (S (len r)) r "" = Some (s, rest).
Proof.
  intros Hs. unfold dump_str. rewrite append_cons. eexists. split; [done|].
  rewrite append_assoc_str, append_cons, append_nil_l. by rewrite scan_dump_go by (done || lia).
Qed.

(** ** Values *)
Section round_trip.
(** [float_repr]: [repr] of the float a literal stands for, as [json.dumps]
    spells it.  It is itself a float that [json.loads] reads. *)
Context (float_repr : string → string) (Hrepr : ∀ s, float_literal s → float_literal (float_repr s)).
Context (pad : string) (Hpad : pad = "" ∨ pad = " ").
Notation dumps := (json_text float_repr pad).

(** The value with the floats as they are written. *)
Fixpoint json_norm (v : json) : json :=
  match v with
  | JFloat s => JFloat (dump_float float_repr s)
  | JList l => JList (map json_norm l)
  | JObj kvs => JObj (map (λ kv, (kv.1, json_norm kv.2)) kvs)
  | v => v
  end.

Lemma dump_float_literal s : float_literal s → float_literal (dump_float float_repr s).
Proof. intros H. unfold dump_float. destruct (_ || _); auto. Qed.
Lemma parse_float f s rest :
  delimited rest → float_literal s → (0 < f)%nat → parse_value f (s +:+ rest) = Some (JFloat s, rest).
Proof. intros Hd [H|[_ H]] Hf; [by apply parse_number_word|by apply parse_number]. Qed.

(** What a value's text starts with: no blank, and no closing bracket. *)
Definition starts_value (s : string) : Prop := ∃ c r, s = String c r ∧ is_json_ws c = false ∧ c ≠ "]"%char ∧ c ≠ "}"%char.
Lemma scan_number_starts s x : scan_number s = Some x → starts_value s.
Proof.
  unfold scan_number. fold (number_sign s). destruct s as [|c s]; [done|]. rewrite number_sign_cons.
  destruct (Ascii.eqb_spec c "-") as [->|Hne]; intros ([d t] & H & _)%bind_Some; [by eexists _, _|].
  apply scan_int_digit in H as (c' & r & [= <- <-] & Hc). exists c, s. split; [done|].
  by destruct c as [[] [] [] [] [] [] [] []].
Qed.
Lemma dumps_starts v : json_wf v → starts_value (dumps v).
Proof.
  destruct v as [|[]|z|s|s|l|kvs]; cbn [json_wf json_text]; try (by eexists _, _).
  - intros _. eapply scan_number_starts, scan_number_str_Z.
  - intros [[->|[->| ->]]|[_ H]]%dump_float_literal; [by eexists _, _..|]. by eapply scan_number_starts.
Qed.
Lemma starts_value_app s t : starts_value s → starts_value (s +:+ t).
Proof. intros (c & r & -> & H). exists c, (r +:+ t). by rewrite append_cons. Qed.
Lemma skip_ws_starts s : starts_value s → skip_ws s = s.
Proof. intros (c & r & -> & H & _). unfold skip_ws. cbn. by rewrite H. Qed.

Definition reads_back (v : json) : Prop := json_wf v → ∀ rest f,
  delimited rest → (2 * len (dumps v +:+ rest) < f)%nat → parse_value f (dumps v +:+ rest) = Some (json_norm v, rest).

Lemma join_cons sep (x : string) l : join sep (x :: l) = match l with [] => x | _ => x +:+ sep +:+ join sep l end.
Proof. by destruct l. Qed.
Lemma skip_ws_space s : skip_ws (String " " s) = skip_ws s.
Proof. done. Qed.
Lemma skip_pad s : skip_ws (pad +:+ s) = skip_ws s.
Proof. destruct Hpad as [->| ->]; [done|]. apply skip_ws_space. Qed.

Lemma elements_read_back v l rest f :
  Forall reads_back (v :: l) → foldr (λ v P, json_wf v ∧ P) True (v :: l) →
  (2 * len (join (String "," pad) (map dumps (v :: l)) +:+ "]" +:+ rest) + 1 < f)%nat →
  parse_elements f (join (String "," pad) (map dumps (v :: l)) +:+ "]" +:+ rest) = Some (map json_norm (v :: l), rest).
Proof.
  revert v f. induction l as [|w l IH]; intros v f [Hv Hl]%Forall_cons [Hw Hws] Hf; (destruct f as [|f]; [lia|]);
    cbn [parse_elements map].
  - cbn [map join] in Hf |- *. rewrite Hv; [done|done| |lia]. by right; left.
  - cbn [map] in Hf |- *. rewrite join_cons, !append_assoc_str in Hf |- *.
    rewrite Hv; [|done|by left|lia]. cbn [mbind option_bind]. rewrite append_cons.
    change (skip_ws (String "," ?s)) with (String "," s). cbv iota. rewrite skip_pad.
    rewrite skip_ws_starts.
    + specialize (IH w f Hl Hws). cbn [map] in IH. rewrite IH; [done|].
      rewrite (len_app (dumps v)), (len_app (String "," pad)) in Hf. cbn [len] in Hf. lia.
    + destruct Hws as [Hw' _]. rewrite join_cons. destruct (map dumps l); repeat apply starts_value_app; by apply dumps_starts.
Qed.

Lemma dict_set_new (k : string) (v : json) l : k ∉ l.*1 → dict_set k v l = l ++ [(k, v)].
Proof.
  induction l as [|[k' v'] l IH]; [done|]. cbn [fmap list_fmap fst]. rewrite not_elem_of_cons. intros [Hne Hk].
  cbn [dict_set]. rewrite decide_False by done. by rewrite IH.
Qed.
Notation member kv := (dump_str kv.1 +:+ (String ":" pad) +:+ dumps kv.2).
(** One member, up to what follows its value. *)
Lemma member_read_back k v tail f acc :
  reads_back v → text k → json_wf v → k ∉ acc.*1 → delimited tail →
  (2 * len (member (k, v) +:+ tail) + 1 < S f)%nat →
  parse_members (S f) acc (member (k, v) +:+ tail) =
  (let acc' := acc ++ [(k, json_norm v)] in
   match skip_ws tail with
   | String "}" rest => Some (acc', rest)
   | String "," rest => parse_members f acc' (skip_ws rest)
   | _ => None
   end).
Proof.
  intros Hv Hk Hw Hnew Htail Hf. cbn [fst snd] in *. rewrite append_assoc_str in Hf |- *.
  pose proof (scan_dump_str k (((String ":" pad) +:+ dumps v) +:+ tail) Hk) as (r & E & Es).
  rewrite E in Hf |- *. cbn [parse_members]. rewrite Es. cbn [mbind option_bind].
  rewrite append_assoc_str, append_cons. change (skip_ws (String ":" ?s)) with (String ":" s). cbv iota.
  rewrite skip_pad, skip_ws_starts by (by apply starts_value_app, dumps_starts).
  apply scan_string_len in Es. cbn [len] in Hf. rewrite append_assoc_str, (len_app (String ":" pad)) in Es. cbn [len] in Es.
  rewrite Hv by (done || lia). cbn [mbind option_bind]. by rewrite dict_set_new.
Qed.
Lemma members_read_back kv l rest f acc :
  Forall (λ kv, reads_back kv.2) (kv :: l) → foldr (λ kv P, (text kv.1 ∧ json_wf kv.2) ∧ P) True (kv :: l) →
  NoDup (acc.*1 ++ (kv :: l).*1) →
  (2 * len (join (String "," pad) (map (λ kv, member kv) (kv :: l)) +:+ "}" +:+ rest) + 1 < f)%nat →
  parse_members f acc (join (String "," pad) (map (λ kv, member kv) (kv :: l)) +:+ "}" +:+ rest) =
  Some (acc ++ map (λ kv, (kv.1, json_norm kv.2)) (kv :: l), rest).
Proof.
  revert kv f acc. induction l as [|kv' l IH]; intros [k v] f acc [Hv Hl]%Forall_cons [[Hk Hw] Hws] Hnd Hf;
    (destruct f as [|f]; [lia|]); cbn [fst snd] in *.
  all: assert (k ∉ acc.*1) as Hnew by (intros Hin; apply NoDup_app in Hnd as (_ & Hd & _); apply (Hd k Hin); by left).
  - cbn [map join] in Hf |- *. rewrite member_read_back; [done|done..| |lia]. by right; right.
  - cbn [map] in Hf |- *. rewrite join_cons, !append_assoc_str in Hf |- *. cbn [fst snd] in Hf |- *.
    pose proof (member_read_back k v ((String "," pad) +:+ join (String "," pad) (member kv' :: map (λ kv, member kv) l) +:+ "}" +:+ rest) f acc) as Hm.
    cbn [fst snd] in Hm. rewrite !append_assoc_str in Hm. rewrite Hm; [|done..|by left|lia]. clear Hm. cbv zeta.
    rewrite append_cons. change (skip_ws (String "," ?s)) with (String "," s). cbv iota.
    rewrite skip_pad. rewrite skip_ws_starts.
    + specialize (IH kv' f (acc ++ [(k, json_norm v)]) Hl Hws). cbn [map] in IH. rewrite IH.
      * by rewrite <-app_assoc.
      * rewrite fmap_app, <-app_assoc. done.
      * rewrite (len_app (dump_str k)), (len_app (String ":" pad)), (len_app (dumps v)), (len_app (String "," pad)) in Hf. cbn [len] in Hf. lia.
    + rewrite join_cons. destruct (map _ l); rewrite !append_assoc_str; unfold dump_str; rewrite append_cons; by eexists _, _.
Qed.

Lemma json_reads_back v : reads_back v.
Proof.
  induction v as [|b|z|s|s|l Hl|kvs Hl] using json_nested_ind; intros Hw rest f Hd Hf; (destruct f as [|f]; [lia|]).
  - by destruct rest.
  - by destruct b, rest.
  - cbn [json_text json_norm]. apply parse_number; [done|apply scan_number_str_Z|lia].
  - cbn [json_text json_norm]. apply parse_float; [done|by apply dump_float_literal|lia].
  - cbn [json_text json_norm json_wf] in *. destruct (scan_dump_str s rest Hw) as (r & -> & E). cbn [parse_value].
    change (Ascii.eqb "034" "034") with true. cbv iota. by rewrite E.
  - cbn [json_text json_norm json_wf] in *. rewrite !append_assoc_str, append_cons, append_nil_l in Hf |- *. cbn [parse_value].
    change (Ascii.eqb "[" "034") with false. change (Ascii.eqb "[" "[") with true. cbv iota.
    destruct l as [|v l]; [done|]. pose proof (elements_read_back v l rest f Hl Hw) as E. cbn [map] in *.
    assert (starts_value (join (String "," pad) (dumps v :: map dumps l) +:+ "]" +:+ rest)) as Hs.
    { destruct Hw as [Hv _]. rewrite join_cons. destruct (map dumps l); repeat apply starts_value_app; by apply dumps_starts. }
    rewrite skip_ws_starts by done. cbn [len] in Hf. specialize (E ltac:(lia)).
    destruct Hs as (c & r & Es & _ & Hc & _). rewrite Es in E |- *.
    destruct c as [[] [] [] [] [] [] [] []]; try done; by rewrite E.
  - cbn [json_text json_norm json_wf] in *. destruct Hw as [Hnd Hw].
    rewrite !append_assoc_str, append_cons, append_nil_l in Hf |- *. cbn [parse_value].
    change (Ascii.eqb "{" "034") with false. change (Ascii.eqb "{" "[") with false. change (Ascii.eqb "{" "{") with true.
    cbv iota. destruct kvs as [|kv l]; [done|]. pose proof (members_read_back kv l rest f [] Hl Hw Hnd) as E. cbn [map] in *.
    assert (starts_value (join (String "," pad) (member kv :: map (λ kv, member kv) l) +:+ "}" +:+ rest)) as Hs.
    { rewrite join_cons. destruct (map _ l); rewrite !append_assoc_str; unfold dump_str; rewrite append_cons; by eexists _, _. }
    rewrite skip_ws_starts by done. cbn [len] in Hf. specialize (E ltac:(lia)).
    destruct Hs as (c & r & Es & _ & _ & Hc). rewrite Es in E |- *.
    destruct c as [[] [] [] [] [] [] [] []]; try done; by rewrite E.
Qed.

(** ** The text is plain: printable ASCII *)
Lemma plain_ascii s : forall_str is_plain s = true → forall_str is_ascii s = true.
Proof. apply forall_str_impl. intros c. unfold is_plain, is_ascii. lia. Qed.
Lemma ascii_utf8_valid s : forall_str is_ascii s = true → utf8_valid s = true.
Proof.
  unfold utf8_valid. induction s as [|c s IH]; [done|]. cbn [forall_str utf8_valid_go]. intros [Hc Hs]%andb_true_iff.
  unfold is_ascii in Hc. rewrite Hc. auto.
Qed.
Lemma u4_plain n : forall_str is_plain (u4 n) = true.
Proof.
  unfold u4. rewrite forall_str_app, andb_true_iff. split; [done|]. apply (forall_str_impl is_hex).
  - intros c H. unfold is_hex, is_digit, is_plain in *. lia.
  - by rewrite to_hex_forall.
Qed.
Lemma dump_char_plain c : code c < 128 → forall_str is_plain (dump_char c) = true.
Proof. intros H. by destruct c as [[] [] [] [] [] [] [] []]; try (exfalso; vm_compute in H; discriminate). Qed.
Lemma dump_point_plain n : 0 <= n → forall_str is_plain (dump_point n) = true.
Proof.
  intros Hn. unfold dump_point, dump_code. destruct (Z.ltb_spec n 128) as [H|H].
  - apply dump_char_plain. rewrite code_chr; lia.
  - destruct (n <? 65536); cbv zeta; rewrite ?forall_str_app, ?andb_true_iff; auto using u4_plain.
Qed.
Lemma dump_str_plain s : text s → forall_str is_plain (dump_str s) = true.
Proof.
  intros Hs. unfold dump_str. cbn [forall_str]. rewrite forall_str_app, andb_true_iff. split; [done|].
  apply andb_true_iff. split; [|done]. induction Hs as [|n s Hn Hs IH]; [done|].
  rewrite dump_go_utf8, forall_str_app, dump_point_plain, IH by (done || apply Hn). done.
Qed.
Lemma join_plain sep l :
  forall_str is_plain sep = true → Forall (λ s, forall_str is_plain s = true) l → forall_str is_plain (join sep l) = true.
Proof.
  intros Hsep. induction 1 as [|s l Hs Hl IH]; [done|]. rewrite join_cons. destruct l; [done|].
  by rewrite !forall_str_app, Hs, Hsep, IH.
Qed.
Lemma float_literal_plain s : float_literal s → forall_str is_plain s = true.
Proof. by intros [[->|[->| ->]]|[H _]]. Qed.
Lemma str_Z_plain z : forall_str is_plain (str_Z z) = true.
Proof.
  assert (∀ n, 0 <= n → forall_str is_plain (str_Z n) = true) as H.
  { intros n Hn. apply (forall_str_impl is_digit); [|by apply str_Z_digits]. intros c Hc. unfold is_digit, is_plain in *. lia. }
  destruct z as [|p|p]; [done|by apply H|]. change (str_Z (Z.neg p)) with (String "-" (str_Z (Z.pos p))).
  cbn [forall_str]. by rewrite H.
Qed.
Lemma json_text_plain v : json_wf v → forall_str is_plain (dumps v) = true.
Proof.
  induction v as [|b|z|s|s|l Hl|kvs Hl] using json_nested_ind; cbn [json_wf json_text].
  - done.
  - by destruct b.
  - intros _. apply str_Z_plain.
  - intros H%dump_float_literal. by apply float_literal_plain.
  - apply dump_str_plain.
  - intros Hw. rewrite !forall_str_app, !andb_true_iff. split; [done|]. split; [|done]. apply join_plain; [by destruct Hpad as [->| ->]|].
    induction Hl as [|v l Hv _ IH]; constructor; [apply Hv, Hw|apply IH, Hw].
  - intros [_ Hw]. rewrite !forall_str_app, !andb_true_iff. split; [done|]. split; [|done]. apply join_plain; [by destruct Hpad as [->| ->]|].
    induction Hl as [|kv l Hv _ IH]; constructor; [|apply IH, Hw]. destruct Hw as [[Hk Hw] _].
    rewrite !forall_str_app, dump_str_plain, Hv by done. by destruct Hpad as [->| ->].
Qed.

(** [json.loads(json.dumps(v)) == v], as a text and as a body, with either kind of
    separators. *)
Theorem json_text_round_trip v :
  json_wf v → json_loads_str (dumps v) = Some (json_norm v) ∧ json_loads (dumps v) = Some (json_norm v).
Proof.
  intros Hw. assert (json_loads_str (dumps v) = Some (json_norm v)) as E.
  { unfold json_loads_str. rewrite skip_ws_starts by by apply dumps_starts.
    pose proof (json_reads_back v Hw "" (2 * len (dumps v) + 1)%nat I) as H. rewrite append_nil_r in H. by rewrite H by lia. }
  split; [done|]. unfold json_loads. by rewrite ascii_utf8_valid by by apply plain_ascii, json_text_plain.
Qed.

(** Writing what was read back changes nothing more, where writing a float is
    idempotent. *)
Lemma json_norm_wf v : json_wf v → json_wf (json_norm v).
Proof.
  induction v as [|b|z|s|s|l Hl|kvs Hl] using json_nested_ind; cbn [json_wf json_norm]; try done.
  - apply dump_float_literal.
  - intros Hw. induction Hl as [|v l Hv _ IH]; [done|]. cbn in *. naive_solver.
  - intros [Hnd Hw]. split; [|clear Hnd; induction Hl as [|kv l Hv _ IH]; [done|]; cbn in *; naive_solver].
    by rewrite <-list_fmap_compose.
Qed.
End round_trip.
(** With the default separators, and with the compact ones. *)
Theorem json_round_trip fr : (∀ s, float_literal s → float_literal (fr s)) → ∀ v,
  json_wf v → json_loads_str (json_dumps fr v) = Some (json_norm fr v) ∧ json_loads (json_dumps fr v) = Some (json_norm fr v).
Proof. intros Hfr v. apply json_text_round_trip; [done|by right]. Qed.
Theorem json_compact_round_trip fr : (∀ s, float_literal s → float_literal (fr s)) → ∀ v,
  json_wf v → json_loads_str (json_compact fr v) = Some (json_norm fr v).
Proof. intros Hfr v Hw. by apply json_text_round_trip; [|left|]. Qed.
Lemma dumps_plain fr : (∀ s, float_literal s → float_literal (fr s)) → ∀ v, json_wf v → forall_str is_plain (json_dumps fr v) = true.
Proof. intros Hfr v. apply json_text_plain; [done|by right]. Qed.
Lemma compact_plain fr : (∀ s, float_literal s → float_literal (fr s)) → ∀ v, json_wf v → forall_str is_plain (json_compact fr v) = true.
Proof. intros Hfr v. apply json_text_plain; [done|by left]. Qed.

(** ** What is well-formed *)
Lemma ascii_text s : forall_str is_ascii s = true → text s.
Proof.
  induction s as [|c s IH]; [constructor|]. cbn [forall_str]. intros [Hc Hs]%andb_true_iff.
  assert (0 <= code c) as H0 by (unfold code; lia). unfold is_ascii in Hc.
  assert (utf8 (code c) = String c "") as E.
  { unfold utf8. rewrite Hc. unfold chr_str, code. by rewrite N2Z.id, ascii_N_embedding. }
  change (String c s) with (String c "" +:+ s). rewrite <-E. constructor; [split; lia|by apply IH].
Qed.
(** The parser never returns an object with a key twice. *)
Lemma parse_members_NoDup f s acc l rest : NoDup acc.*1 → parse_members f acc s = Some (l, rest) → NoDup l.*1.
Proof.
  revert s acc. induction f as [|f IH]; intros s acc Hacc; [done|]. cbn [parse_members]. destruct s as [|c r]; [done|].
  destruct (decide (c = "034"%char)) as [->|Hc]; [|destruct c as [[] [] [] [] [] [] [] []]; done].
  intros ([k r1] & _ & H)%bind_Some. destruct (skip_ws r1) as [|x r2]; [done|].
  destruct (decide (x = ":"%char)) as [->|Hx]; [|destruct x as [[] [] [] [] [] [] [] []]; done].
  apply bind_Some in H as ([v r3] & _ & H). cbn zeta in H. destruct (skip_ws r3) as [|y r4]; [done|].
  pose proof (dict_set_NoDup k v acc Hacc) as Hset.
  destruct (decide (y = "}"%char)) as [->|Hy]; [by injection H as <- _|].
  destruct (decide (y = ","%char)) as [->|Hy2]; [by apply IH in H|].
  destruct y as [[] [] [] [] [] [] [] []]; done.
Qed.

(** ** Documents line by line *)
Lemma splitlines_go_plain s cur rest :
  forall_str is_plain s = true → splitlines_go cur (s +:+ String "010" rest) = rev_str (rev_append_str s cur) :: splitlines rest.
Proof.
  revert cur. induction s as [|c s IH]; intros cur.
  - intros _. change ("" +:+ ?x) with x. cbn [splitlines_go rev_append_str]. change (is_line_break "010") with true. cbv iota.
    by destruct rest.
  - cbn [forall_str]. intros [Hc Hs]%andb_true_iff. rewrite append_cons.
    rewrite splitlines_go_char by (unfold is_line_break, is_plain in *; lia). by rewrite IH.
Qed.
Lemma splitlines_plain s rest : forall_str is_plain s = true → splitlines (s +:+ String "010" rest) = s :: splitlines rest.
Proof.
  intros H. unfold splitlines at 1. rewrite splitlines_go_plain by done. by rewrite rev_append_str_spec, append_nil_r, rev_str_involutive.
Qed.
Lemma strip_braces m : strip ("{" +:+ m +:+ "}") = "{" +:+ m +:+ "}".
Proof.
  unfold strip. rewrite append_cons, append_nil_l. change (lstrip_by is_space (String "{" ?s)) with (String "{" s). unfold rstrip_by.
  assert (lstrip_by is_space (rev_str (String "{" (m +:+ "}"))) = rev_str (String "{" (m +:+ "}"))) as ->.
  { rewrite rev_str_cons, rev_str_app. done. }
  apply rev_str_involutive.
Qed.
Lemma strip_object m : strip (String " " ("{" +:+ m +:+ "}")) = "{" +:+ m +:+ "}".
Proof. rewrite <-(strip_braces m) at 2. done. Qed.

(** Values made of well-formed ones. *)
Lemma wf_obj kvs : NoDup kvs.*1 → Forall (λ kv, text kv.1 ∧ json_wf kv.2) kvs → json_wf (JObj kvs).
Proof.
  intros Hn H. cbn [json_wf]. split; [done|]. clear Hn. induction H as [|kv l Hkv _ IH]; [done|]. by cbn.
Qed.
Lemma wf_list l : Forall json_wf l → json_wf (JList l).
Proof. induction 1 as [|v l Hv _ IH]; [done|]. by cbn in *. Qed.

(** *** A line of JSON per row *)
Definition json_lines (fr : string → string) (rows : list json) : string :=
  join "" (map (λ v, json_compact fr v +:+ String "010" "") rows).
(** Whatever the rows hold, line breaks included, there is one line per row, in order,
    and each is read back as its row. *)
Lemma json_lines_read_back fr rows :
  (∀ s, float_literal s → float_literal (fr s)) → Forall json_wf rows →
  map json_loads_str (splitlines (json_lines fr rows)) = map (λ v, Some (json_norm fr v)) rows.
Proof.
  intros Hfr. unfold json_lines. induction 1 as [|v rows Hv _ IH]; [done|]. cbn [map].
  assert (∀ x xs, join "" (x :: xs) = x +:+ join "" xs) as ->.
  { intros x [|y xs]; cbn [join]; [by rewrite append_nil_r|done]. }
  rewrite append_assoc_str, append_cons, append_nil_l, splitlines_plain by by apply compact_plain.
  cbn [map]. by rewrite json_compact_round_trip, IH.
Qed.
