(* ===== verification/PrefixCache.v ===== *)
(** * Prefix-cache awareness ([server/inferna_server/services/prefix_cache.py])

    The text and the block digests of a prompt, and the bounded, time-limited
    index of which instance recently served which prefix.  The clock is in
    microseconds. *)

From S2P Require Import Prelude PyStr Uuid Json.
Local Open Scope Z_scope.

Definition PREFIX_BLOCK_CHARS : nat := 512.
Definition PREFIX_TTL : Z := 600 * 1000000.
Definition MAX_PREFIXES_PER_INSTANCE : nat := 64.

(** ** [str(v)] of a decoded value *)
Section text.
(** [repr(float(literal))] of a number literal. *)
Context (float_repr : string → string).

Definition repr_char (quote : ascii) (c : ascii) : string :=
  if Ascii.eqb c quote || Ascii.eqb c "\" then String "\" (String c "")
  else if code c =? 10 then "\n"
  else if code c =? 13 then "\r"
  else if code c =? 9 then "\t"
  else if (code c <? 32) || (code c =? 127) then "\x" +:+ to_hex 2 (code c) ""
  else String c "".
Fixpoint flat_str (f : ascii → string) (s : string) : string :=
  match s with "" => "" | String c s => f c +:+ flat_str f s end.
Definition repr_str (s : string) : string :=
  let quote := if contains_char "'" s && negb (contains_char "034" s) then "034"%char else "'"%char in
  String quote (flat_str (repr_char quote) s +:+ String quote "").

Fixpoint py_repr (v : json) : string :=
  match v with
  | JNull => "None"
  | JBool b => if b then "True" else "False"
  | JInt z => str_Z z
  | JFloat s => float_repr s
  | JStr s => repr_str s
  | JList l => "[" +:+ join ", " (map py_repr l) +:+ "]"
  | JObj kvs => "{" +:+ join ", " (map (λ kv, repr_str kv.1 +:+ ": " +:+ py_repr kv.2) kvs) +:+ "}"
  end.
Definition py_str (v : json) : string := match v with JStr s => s | _ => py_repr v end.
(** [str(d.get(k, ""))] *)
Definition get_str (k : string) (kvs : list (string * json)) : string :=
  match jget k kvs with Some v => py_str v | None => "" end.

(** ** Prompts *)
Definition content_text (content : option json) : string :=
  match content with
  | Some (JStr s) => s
  | Some (JList parts) =>
      join " " (omap (λ p, match p with JObj kvs => Some (get_str "text" kvs) | _ => None end) parts)
  | _ => ""
  end.
Definition message_text (m : json) : option string :=
  match m with
  | JObj kvs => Some (get_str "role" kvs +:+ ":" +:+ content_text (jget "content" kvs))
  | _ => None
  end.
(** Iterating a string or an object yields no dict; iterating a number raises. *)
Definition prompt_text (messages : option json) : result string :=
  match messages with
  | None => Ok ""
  | Some v =>
      if negb (json_truthy v) then Ok ""
      else match v with
           | JList l => Ok (join (chr_str 10) (omap message_text l))
           | JStr _ | JObj _ => Ok ""
           | _ => Raise TypeError
           end
  end.
End text.

(** [hashlib.sha256(f"{previous}|{chunk}".encode()).hexdigest()[:16]] *)
Definition chain (previous chunk : string) : string :=
  take_str 16 (sha256_hex (previous +:+ "|" +:+ chunk)).
Section blocks.
(** The digest of a block, chained on the previous one. *)
Context (digest : string → string → string).

(** The loop over [range(0, len(text), block_chars)]; the fuel counts blocks, of at
    least a byte each. *)
Fixpoint blocks_go (fuel size : nat) (previous text : string) : list string :=
  match fuel, text with
  | S fuel, String _ _ =>
      let d := digest previous (take_chars size text) in
      d :: blocks_go fuel size d (drop_chars size text)
  | _, _ => []
  end.
Definition blocks_by (size : nat) (text : string) : list string :=
  blocks_go (String.length text) size "" text.
End blocks.
Definition digests_of (text : string) : list string := blocks_by chain PREFIX_BLOCK_CHARS text.
(** Encoding a chunk with a lone surrogate raises [UnicodeEncodeError]. *)
Definition blocks (text : string) : result (list string) :=
  if has_surrogate text then Raise (ValueError "surrogates not allowed") else Ok (digests_of text).

(** ** The index *)
Definition ring : Type := list (Z * gset string).
Module PrefixCacheIndex.
Record t := mk {
  ttl : Z; max_per_instance : nat; seen : gmap uuid ring; matches : Z; lookups : Z }.
Definition set_seen (v : gmap uuid ring) (x : t) : t :=
  mk (ttl x) (max_per_instance x) v (matches x) (lookups x).
Definition init : t := mk PREFIX_TTL MAX_PREFIXES_PER_INSTANCE ∅ 0 0.
End PrefixCacheIndex.
Import PrefixCacheIndex (seen, set_seen, ttl, max_per_instance, matches, lookups).

(** [deque(maxlen=m).append(x)]: the oldest entries fall off. *)
Definition ring_append (m : nat) (x : Z * gset string) (r : ring) : ring :=
  let r' := r ++ [x] in drop (length r' - m) r'.

Definition record (now : Z) (instance_id : uuid) (digests : list string) (x : PrefixCacheIndex.t)
  : PrefixCacheIndex.t :=
  match digests with
  | [] => x
  | _ :: _ =>
      let r := default [] (seen x !! instance_id) in
      set_seen (<[instance_id := ring_append (max_per_instance x) (now, list_to_set digests) r]> (seen x)) x
  end.

Fixpoint _expire (cutoff : Z) (r : ring) : ring :=
  match r with
  | (t, resident) :: r' => if t <? cutoff then _expire cutoff r' else r
  | [] => []
  end.

(** The leading run of digests the entry holds. *)
Fixpoint shared_run (resident : gset string) (digests : list string) : nat :=
  match digests with
  | d :: l => if bool_decide (d ∈ resident) then S (shared_run resident l) else O
  | [] => O
  end.
Fixpoint overlap_loop (digests : list string) (best : nat) (r : ring) : nat :=
  match r with
  | [] => best
  | (_, resident) :: r' =>
      let shared := shared_run resident digests in
      if (best <? shared)%nat
      then if (shared =? length digests)%nat then shared else overlap_loop digests shared r'
      else overlap_loop digests best r'
  end.

(** Returns the overlap and the index with the expired entries dropped. *)
Definition overlap (now : Z) (instance_id : uuid) (digests : list string) (x : PrefixCacheIndex.t)
  : nat * PrefixCacheIndex.t :=
  match digests with
  | [] => (O, x)
  | _ :: _ =>
      match seen x !! instance_id with
      | None | Some [] => (O, x)
      | Some r =>
          let r' := _expire (now - ttl x) r in
          (overlap_loop digests O r', set_seen (<[instance_id := r']> (seen x)) x)
      end
  end.

(** One pass over the candidates, threading the index. *)
Fixpoint best_loop (now : Z) (digests : list string) (best : option (uuid * nat)) (candidates : list uuid)
    (x : PrefixCacheIndex.t) : option (uuid * nat) * PrefixCacheIndex.t :=
  match candidates with
  | [] => (best, x)
  | c :: l =>
      let '(shared, x') := overlap now c digests x in
      let better := negb (shared =? 0)%nat
                    && match best with None => true | Some (_, b) => (b <? shared)%nat end in
      best_loop now digests (if better then Some (c, shared) else best) l x'
  end.
Definition best_instance (now : Z) (digests : list string) (candidates : list uuid) (x : PrefixCacheIndex.t)
  : option (uuid * nat) * PrefixCacheIndex.t :=
  match digests, candidates with
  | [], _ | _, [] => (None, x)
  | _, _ => best_loop now digests None candidates x
  end.

Definition note_lookup (matched : bool) (x : PrefixCacheIndex.t) : PrefixCacheIndex.t :=
  PrefixCacheIndex.mk (ttl x) (max_per_instance x) (seen x)
    (matches x + (if matched then 1 else 0)) (lookups x + 1).
(** The ratio as a numerator and a denominator. *)
Definition hit_ratio (x : PrefixCacheIndex.t) : option (Z * Z) :=
  if lookups x =? 0 then None else Some (matches x, lookups x).
Definition forget (instance_id : uuid) (x : PrefixCacheIndex.t) : PrefixCacheIndex.t :=
  set_seen (delete instance_id (seen x)) x.

(** ** Properties of the index *)
Lemma shared_run_spec res digests k :
  (k <= length digests)%nat →
  (k <= shared_run res digests)%nat ↔ ∀ d, d ∈ take k digests → d ∈ res.
Proof.
  revert k. induction digests as [|d l IH]; intros k Hk; simpl in *.
  - destruct k; [|lia]. split; [|simpl; lia]. intros _ d Hd. by apply elem_of_nil in Hd.
  - destruct k as [|k]; [split; [|lia]; intros _ d' Hd; by apply elem_of_nil in Hd|].
    simpl. setoid_rewrite elem_of_cons. case_bool_decide as Hin.
    + rewrite <-Nat.succ_le_mono, IH by lia. naive_solver.
    + split; [lia|]. intros H. destruct Hin. apply H. by left.
Qed.
Lemma shared_run_le res digests : (shared_run res digests <= length digests)%nat.
Proof. induction digests; simpl; [lia|]. case_bool_decide; lia. Qed.

Lemma overlap_loop_spec digests best r :
  (best <= length digests)%nat →
  let n := overlap_loop digests best r in
  (best <= n <= length digests)%nat ∧ (∀ e, e ∈ r → (shared_run e.2 digests <= n)%nat) ∧
  (n = best ∨ ∃ e, e ∈ r ∧ shared_run e.2 digests = n).
Proof.
  revert best. induction r as [|[t res] r IH]; intros best Hb.
  { simpl. split_and!; [lia|lia| |by left]. intros e He. by apply elem_of_nil in He. }
  cbn [overlap_loop]. pose proof (shared_run_le res digests) as Hle.
  setoid_rewrite elem_of_cons.
  destruct (Nat.ltb_spec best (shared_run res digests)) as [Hlt|Hlt];
    [destruct (Nat.eqb_spec (shared_run res digests) (length digests)) as [E|E]|].
  - split_and!; [lia|lia| |right; by exists (t, res); eauto].
    intros e _. rewrite E. apply shared_run_le.
  - destruct (IH (shared_run res digests)) as (H1 & H2 & H3); [done|]. split_and!; [lia|lia| |].
    + intros e [->|He]; [simpl; lia|by apply H2].
    + right. destruct H3 as [->|(e & ? & ?)]; [by exists (t, res); eauto|by exists e; eauto].
  - destruct (IH best) as (H1 & H2 & H3); [done|]. split_and!; [lia|lia| |].
    + intros e [->|He]; [simpl; lia|by apply H2].
    + destruct H3 as [?|(e & ? & ?)]; [by left|right; by exists e; eauto].
Qed.

(** Entries of a ring in the order of their time. *)
Definition ring_sorted (r : ring) : Prop := StronglySorted (λ a b, (a.1 <= b.1)) r.

Lemma expire_sorted cutoff r :
  ring_sorted r → ring_sorted (_expire cutoff r) ∧ ∀ e, e ∈ _expire cutoff r ↔ e ∈ r ∧ cutoff <= e.1.
Proof.
  induction 1 as [|[t res] r Hr IH Hall]; cbn [_expire].
  - split; [constructor|]. intros e. rewrite elem_of_nil. tauto.
  - destruct (Z.ltb_spec t cutoff) as [Ht|Ht].
    + destruct IH as [? IH]. split; [done|]. intros e. rewrite IH, elem_of_cons. split; [tauto|].
      intros [[->|?] ?]; [simpl in *; lia|done].
    + split; [by constructor|]. intros e. rewrite elem_of_cons. split; [|tauto].
      intros [->|He]; [by split; [left|]|]. split; [by right|].
      rewrite Forall_forall in Hall. specialize (Hall e He). simpl in Hall. lia.
Qed.
Lemma expire_length cutoff r : (length (_expire cutoff r) <= length r)%nat.
Proof. induction r as [|[t res] r IH]; simpl; [lia|]. destruct (t <? cutoff); simpl; lia. Qed.

(** The well-formed index at time [now]. *)
Definition index_wf (now : Z) (x : PrefixCacheIndex.t) : Prop :=
  (∀ id r, seen x !! id = Some r →
     (length r <= max_per_instance x)%nat ∧ ring_sorted r ∧ ∀ e, e ∈ r → e.1 <= now) ∧
  0 <= matches x <= lookups x.

(** An entry of an instance still inside its time to live. *)
Definition resident_at (now : Z) (x : PrefixCacheIndex.t) (id : uuid) (res : gset string) : Prop :=
  ∃ r t, seen x !! id = Some r ∧ (t, res) ∈ r ∧ now - ttl x <= t.

Lemma overlap_value now id digests x n x' :
  index_wf now x → overlap now id digests x = (n, x') →
  (∀ res, resident_at now x id res → (shared_run res digests <= n)%nat) ∧ (n <= length digests)%nat ∧
  (n = 0%nat ∨ ∃ res, resident_at now x id res ∧ shared_run res digests = n).
Proof.
  intros Hwf. unfold overlap. destruct digests as [|d l].
  { intros ?; simplify_eq. split_and!; [|simpl; lia|by left]. intros; simpl; lia. }
  set (digests := d :: l). unfold resident_at. destruct (seen x !! id) as [[|e0 r0]|] eqn:E.
  - intros ?; simplify_eq. split_and!; [|lia|by left]. intros res (r & t & ? & H & _). simplify_eq. by apply elem_of_nil in H.
  - set (r := e0 :: r0) in *. intros ?; simplify_eq.
    destruct (proj1 Hwf id r E) as (_ & Hs & _). destruct (expire_sorted (now - ttl x) r Hs) as [_ Hin].
    destruct (overlap_loop_spec digests 0 (_expire (now - ttl x) r)) as (H1 & H2 & H3); [lia|]. split_and!; [|lia|].
    + intros res (r' & t & ? & Hr & Ht). simplify_eq. apply (H2 (t, res)). by apply Hin.
    + destruct H3 as [?|([t res] & He & Hn)]; [by left|right]. exists res. split; [|done].
      apply Hin in He as [? ?]. by exists r, t.
  - intros ?; simplify_eq. split_and!; [|lia|by left]. by intros res (r & t & ? & _).
Qed.

(** The overlap of an instance with a prompt is the longest leading run of the
    prompt's digests held by one entry of that instance that is still inside its
    time to live: no unexpired entry holds a longer run, and an unexpired entry
    holds this one. *)
Theorem overlap_is_longest_run now id digests x n x' :
  index_wf now x → overlap now id digests x = (n, x') →
  (n <= length digests)%nat ∧
  (∀ res k, resident_at now x id res → (k <= length digests)%nat →
     (∀ d, d ∈ take k digests → d ∈ res) → (k <= n)%nat) ∧
  (n = 0%nat ∨ ∃ res, resident_at now x id res ∧ ∀ d, d ∈ take n digests → d ∈ res).
Proof.
  intros Hwf Ho. destruct (overlap_value _ _ _ _ _ _ Hwf Ho) as (H1 & H2 & H3). split_and!; [done| |].
  - intros res k Hres Hk Hall. apply shared_run_spec in Hall; [|done]. specialize (H1 res Hres). lia.
  - destruct H3 as [?|(res & Hres & Hn)]; [by left|right]. exists res. split; [done|].
    apply shared_run_spec; lia.
Qed.

(** ** Histories

    The operations the gateway performs on the index, each at a reading of the
    monotonic clock. *)
Inductive index_op :=
  | Record (id : uuid) (digests : list string)
  | Overlap (id : uuid) (digests : list string)
  | BestInstance (digests : list string) (candidates : list uuid)
  | NoteLookup (matched : bool)
  | Forget (id : uuid).
Definition index_step (x : PrefixCacheIndex.t) (op : Z * index_op) : PrefixCacheIndex.t :=
  match op.2 with
  | Record id digests => record op.1 id digests x
  | Overlap id digests => (overlap op.1 id digests x).2
  | BestInstance digests candidates => (best_instance op.1 digests candidates x).2
  | NoteLookup matched => note_lookup matched x
  | Forget id => forget id x
  end.
Definition index_run (ops : list (Z * index_op)) (x : PrefixCacheIndex.t) : PrefixCacheIndex.t :=
  foldl index_step x ops.

Lemma index_wf_later now now' x : now <= now' → index_wf now x → index_wf now' x.
Proof.
  intros Hle [H1 H2]. split; [|done]. intros id r Hr. destruct (H1 id r Hr) as (? & ? & H3).
  split_and!; [done|done|]. intros e He. specialize (H3 e He). lia.
Qed.

Lemma index_wf_insert now id r x :
  index_wf now x → (length r <= max_per_instance x)%nat → ring_sorted r → (∀ e, e ∈ r → e.1 <= now) →
  index_wf now (set_seen (<[id := r]> (seen x)) x).
Proof.
  intros [H1 H2] Hl Hs Hn. split; [|done]. simpl. intros id' r'.
  destruct (decide (id = id')) as [<-|Hne].
  - rewrite lookup_insert_eq. intros ?; simplify_eq. by split_and!.
  - rewrite lookup_insert_ne by done. apply H1.
Qed.

Lemma drop_sorted n (r : ring) : ring_sorted r → ring_sorted (drop n r).
Proof. revert r. induction n; intros r Hr; [done|]. destruct Hr; simpl; [constructor|auto]. Qed.
Lemma sorted_snoc (r : ring) now res :
  ring_sorted r → (∀ e, e ∈ r → e.1 <= now) → ring_sorted (r ++ [(now, res)]).
Proof.
  induction 1 as [|e r Hr IH Hall]; intros Hn; simpl; [repeat constructor|]. constructor.
  - apply IH. intros; apply Hn. by constructor.
  - apply Forall_app. split; [done|]. constructor; [|constructor]. simpl. apply Hn. by constructor.
Qed.

Lemma record_wf now id digests x : index_wf now x → index_wf now (record now id digests x).
Proof.
  intros Hwf. unfold record. destruct digests as [|d l]; [done|]. 
  assert (let r := default [] (seen x !! id) in ring_sorted r ∧ ∀ e, e ∈ r → e.1 <= now) as [Hs Hn].
  { destruct (seen x !! id) as [r|] eqn:E; simpl; [exact (proj2 (proj1 Hwf id r E))|].
    split; [constructor|]. intros e He. by apply elem_of_nil in He. }
  apply index_wf_insert; [done| | |]; unfold ring_append.
  - rewrite length_drop. lia.
  - by apply drop_sorted, sorted_snoc.
  - intros e He. assert (e ∈ default [] (seen x !! id) ++ [(now, list_to_set (d :: l) : gset string)]) as He'
      by (eapply elem_of_submseteq; [exact He|apply sublist_submseteq, sublist_drop]).
    apply elem_of_app in He' as [?| ->%list_elem_of_singleton]; [by apply Hn|simpl; lia].
Qed.

Lemma overlap_wf now id digests x : index_wf now x → index_wf now (overlap now id digests x).2.
Proof.
  intros Hwf. unfold overlap. destruct digests; [done|]. destruct (seen x !! id) as [[|e r]|] eqn:E; [done| |done].
  cbn [snd]. destruct (proj1 Hwf id (e :: r) E) as (Hl & Hs & Hn).
  destruct (expire_sorted (now - ttl x) _ Hs) as [Hs' Hin].
  apply index_wf_insert; [done| |done|].
  - pose proof (expire_length (now - ttl x) (e :: r)). lia.
  - intros e' [? _]%Hin. by apply Hn.
Qed.
Lemma best_loop_wf now digests best candidates x :
  index_wf now x → index_wf now (best_loop now digests best candidates x).2.
Proof.
  revert best x. induction candidates as [|c l IH]; intros best x Hwf; [done|]. cbn [best_loop].
  pose proof (overlap_wf now c digests x Hwf). destruct (overlap now c digests x). by apply IH.
Qed.

Lemma index_step_wf x op : index_wf op.1 x → index_wf op.1 (index_step x op).
Proof.
  destruct op as [now op]. cbn [fst snd]. intros Hwf. destruct op; unfold index_step; cbn [fst snd].
  - by apply record_wf.
  - by apply overlap_wf.
  - unfold best_instance. destruct digests, candidates; try done. by apply best_loop_wf.
  - destruct Hwf as [? [? ?]]. split; [done|]. simpl. destruct matched; lia.
  - destruct Hwf as [H1 H2]. split; [|done]. simpl. intros id' r [_ Hr]%lookup_delete_Some. by apply H1 in Hr.
Qed.

(** The bounds of the index never change. *)
Lemma overlap_params now id digests x :
  max_per_instance (overlap now id digests x).2 = max_per_instance x ∧ ttl (overlap now id digests x).2 = ttl x.
Proof. unfold overlap. by repeat case_match. Qed.
Lemma index_step_params x op :
  max_per_instance (index_step x op) = max_per_instance x ∧ ttl (index_step x op) = ttl x.
Proof.
  destruct op as [now op]. destruct op; unfold index_step; cbn [fst snd]; [|apply overlap_params| |done|done].
  - unfold record. by case_match.
  - unfold best_instance. destruct digests as [|s digests], candidates as [|u candidates]; try done.
    generalize (@None (uuid * nat)) as best. generalize (u :: candidates) as cs. intros cs. revert x. induction cs as [|c cs IH]; intros x best; [done|].
    cbn [best_loop]. pose proof (overlap_params now c (s :: digests) x) as Hp.
    destruct (overlap now c (s :: digests) x) as [n x']. cbn [snd] in Hp.
    destruct (IH x' (if negb (n =? 0)%nat && match best with None => true | Some (_, b) => (b <? n)%nat end
                     then Some (c, n) else best)) as [-> ->]. exact Hp.
Qed.

(** Operations at clock readings that never go back. *)
Definition clocked (ops : list (Z * index_op)) (now : Z) : Prop :=
  StronglySorted (λ a b : Z * index_op, a.1 <= b.1) ops ∧ ∀ op, op ∈ ops → op.1 <= now.

Lemma index_run_wf_from l now y t :
  clocked l now → t <= now → (∀ op, op ∈ l → t <= op.1) → index_wf t y →
  index_wf now (index_run l y) ∧ max_per_instance (index_run l y) = max_per_instance y.
Proof.
  intros [Hs Hle]. revert y t. induction Hs as [|op l Hl IH Hall]; intros y t Ht Hge Hwf;
    [by split; [eapply index_wf_later|]|].
  change (index_run (op :: l) y) with (index_run l (index_step y op)). rewrite Forall_forall in Hall.
  destruct (IH (λ op' Hop, Hle op' (proj2 (elem_of_cons l op' op) (or_intror Hop))) (index_step y op) op.1) as [H1 ->].
  - apply Hle. by constructor.
  - exact Hall.
  - apply index_step_wf. eapply index_wf_later; [|exact Hwf]. apply Hge. by constructor.
  - split; [done|]. apply index_step_params.
Qed.
Lemma index_init_wf t : index_wf t PrefixCacheIndex.init.
Proof. split; [intros id r Hr; cbn in Hr; by rewrite lookup_empty in Hr|done]. Qed.
Lemma index_run_wf ops now :
  clocked ops now →
  index_wf now (index_run ops PrefixCacheIndex.init) ∧
  max_per_instance (index_run ops PrefixCacheIndex.init) = MAX_PREFIXES_PER_INSTANCE.
Proof.
  intros Hc. destruct ops as [|op0 l]; [split; [apply index_init_wf|done]|].
  apply (index_run_wf_from (op0 :: l) now PrefixCacheIndex.init op0.1 Hc); [| |apply index_init_wf].
  - apply Hc. by constructor.
  - destruct Hc as [Hs _]. apply StronglySorted_inv in Hs as [_ Hall]. rewrite Forall_forall in Hall.
    intros op [->|Hop]%elem_of_cons; [lia|by apply Hall].
Qed.

(** C30 Whatever the gateway does with the index while the clock advances, each
    instance keeps at most 64 prefixes, in the order they were served, none in
    the future, and there are never more matches than lookups. *)
Theorem prefix_index_bounded ops now :
  clocked ops now →
  let x := index_run ops PrefixCacheIndex.init in
  (∀ id r, seen x !! id = Some r → (length r <= MAX_PREFIXES_PER_INSTANCE)%nat) ∧ index_wf now x.
Proof.
  intros Hc x. destruct (index_run_wf ops now Hc) as [Hwf Hm]. split; [|exact Hwf].
  intros id r Hr. destruct (proj1 Hwf id r Hr) as [Hl _]. by rewrite <-Hm.
Qed.

Definition sample_ops : list (Z * index_op) :=
  [(1, Record 5 ["a"; "b"]); (2, NoteLookup true); (3, Record 5 ["a"; "c"]); (600000003, Overlap 5 ["a"; "b"])].
Lemma sample_ops_clocked : clocked (take 3 sample_ops) 10 ∧ clocked sample_ops 600000003.
Proof.
  split; (split; [repeat first [apply Forall_nil_2|apply Forall_cons_2; [cbn; lia|]|constructor]|]);
    intros op Hop; cbn in Hop; repeat (apply elem_of_cons in Hop as [->|Hop]; [cbn; lia|]);
    by apply elem_of_nil in Hop.
Qed.
Lemma prefix_index_bounded_witness :
  let x := index_run sample_ops PrefixCacheIndex.init in
  (length <$> seen x !! 5%N) = Some 1%nat ∧ index_wf 600000003 x.
Proof. split; [by vm_compute|]. apply prefix_index_bounded, sample_ops_clocked. Defined.

Lemma overlap_is_longest_run_witness :
  let x := index_run (take 3 sample_ops) PrefixCacheIndex.init in
  (overlap 10 5 ["a"; "b"; "d"] x).1 = 2%nat ∧
  ∀ res k, resident_at 10 x 5 res → (k <= 3)%nat → (∀ d, d ∈ take k ["a"; "b"; "d"] → d ∈ res) → (k <= 2)%nat.
Proof.
  split; [by vm_compute|].
  destruct (overlap 10 5 ["a"; "b"; "d"] (index_run (take 3 sample_ops) PrefixCacheIndex.init)) as [n x'] eqn:E.
  assert (n = 2%nat) as -> by (vm_compute in E; congruence).
  refine (proj1 (proj2 (overlap_is_longest_run 10 5 ["a"; "b"; "d"] _ 2 x' _ E))).
  apply index_run_wf, sample_ops_clocked.
Defined.

(** ** Properties of the digests *)
Lemma take_str_length n s : String.length (take_str n s) = (n `min` String.length s)%nat.
Proof. revert s. induction n; intros [|c s]; simpl; [done..|]. by rewrite IHn. Qed.
Lemma drop_str_length n s : String.length (drop_str n s) = (String.length s - n)%nat.
Proof. revert s. induction n; intros [|c s]; simpl; [done..|]. by rewrite IHn. Qed.
Lemma append_inj_length a b c d : String.length a = String.length b → a +:+ c = b +:+ d → a = b ∧ c = d.
Proof.
  revert b. induction a as [|x a IH]; intros [|y b] Hl H; simpl in *; try done.
  injection H as -> H. injection Hl as Hl. destruct (IH b Hl H) as [-> ->]. done.
Qed.

Lemma chain_length p c : String.length (chain p c) = 16%nat.
Proof. unfold chain. by rewrite take_str_length, sha256_hex_length. Qed.

(** The texts hashed for the blocks of a prompt, and the digest of one. *)
Definition short_sha (x : string) : string := take_str 16 (sha256_hex x).
Fixpoint hashed_go (fuel : nat) (previous text : string) : list string :=
  match fuel, text with
  | S fuel, String _ _ =>
      let chunk := take_chars PREFIX_BLOCK_CHARS text in
      (previous +:+ "|" +:+ chunk) :: hashed_go fuel (chain previous chunk) (drop_chars PREFIX_BLOCK_CHARS text)
  | _, _ => []
  end.
Definition hashed (text : string) : list string := hashed_go (String.length text) "" text.
(** Two prompts collide when, at one block, different texts were hashed to the
    same digest. *)
Definition collide (l1 l2 : list string) : Prop :=
  ∃ i x y, l1 !! i = Some x ∧ l2 !! i = Some y ∧ x ≠ y ∧ short_sha x = short_sha y.
Lemma collide_cons x y l1 l2 : collide l1 l2 → collide (x :: l1) (y :: l2).
Proof. intros (i & a & b & H). by exists (S i), a, b. Qed.
Lemma collide_head x y l1 l2 : x ≠ y → short_sha x = short_sha y → collide (x :: l1) (y :: l2).
Proof. intros. by exists 0%nat, x, y. Qed.

Lemma blocks_go_step fuel previous text :
  text ≠ "" →
  blocks_go chain (S fuel) PREFIX_BLOCK_CHARS previous text =
    chain previous (take_chars PREFIX_BLOCK_CHARS text)
    :: blocks_go chain fuel PREFIX_BLOCK_CHARS (chain previous (take_chars PREFIX_BLOCK_CHARS text))
         (drop_chars PREFIX_BLOCK_CHARS text).
Proof. by destruct text. Qed.
Lemma hashed_go_step fuel previous text :
  text ≠ "" →
  hashed_go (S fuel) previous text =
    (previous +:+ "|" +:+ take_chars PREFIX_BLOCK_CHARS text)
    :: hashed_go fuel (chain previous (take_chars PREFIX_BLOCK_CHARS text)) (drop_chars PREFIX_BLOCK_CHARS text).
Proof. by destruct text. Qed.
(** The fuel is enough: from the length of the text on it makes no difference. *)
Lemma blocks_go_fuel digest f g size previous text :
  (0 < size)%nat → (String.length text <= f)%nat → (String.length text <= g)%nat →
  blocks_go digest f size previous text = blocks_go digest g size previous text.
Proof.
  intros Hs. revert g previous text. induction f as [|f IH]; intros [|g] previous [|c text] Hf Hg; cbn [String.length] in Hf, Hg;
    try done; try lia.
  cbn [blocks_go]. f_equal. pose proof (drop_chars_shorter size (String c text) Hs ltac:(done)). cbn [String.length] in *.
  apply IH; lia.
Qed.
Lemma blocks_go_lookup_nonempty fuel previous text k d :
  blocks_go chain fuel PREFIX_BLOCK_CHARS previous text !! k = Some d → ∃ f, fuel = S f ∧ text ≠ "".
Proof. destruct fuel, text; try done; by eauto. Qed.

(** Once the chains differ, a common digest later is a collision. *)
Lemma blocks_diverged k f1 f2 p1 p2 t1 t2 d :
  String.length p1 = String.length p2 → p1 ≠ p2 →
  blocks_go chain f1 PREFIX_BLOCK_CHARS p1 t1 !! k = Some d →
  blocks_go chain f2 PREFIX_BLOCK_CHARS p2 t2 !! k = Some d →
  collide (hashed_go f1 p1 t1) (hashed_go f2 p2 t2).
Proof.
  revert f1 f2 p1 p2 t1 t2. induction k as [|k IH]; intros f1 f2 p1 p2 t1 t2 Hl Hp H1 H2;
    destruct (blocks_go_lookup_nonempty _ _ _ _ _ H1) as (g1 & -> & Hn1);
    destruct (blocks_go_lookup_nonempty _ _ _ _ _ H2) as (g2 & -> & Hn2);
    rewrite blocks_go_step in H1, H2 by done; rewrite !hashed_go_step by done;
    set (c1 := take_chars PREFIX_BLOCK_CHARS t1) in *; set (c2 := take_chars PREFIX_BLOCK_CHARS t2) in *;
    assert (p1 +:+ "|" +:+ c1 ≠ p2 +:+ "|" +:+ c2) as Hne by (by intros [? _]%append_inj_length).
  - cbn [lookup list_lookup] in H1, H2. apply collide_head; [done|]. unfold short_sha. fold (chain p1 c1). fold (chain p2 c2). congruence.
  - cbn [lookup list_lookup] in H1, H2. destruct (decide (chain p1 c1 = chain p2 c2)) as [E|E].
    + by apply collide_head.
    + apply collide_cons. eapply IH; [by rewrite !chain_length|done|exact H1|exact H2].
Qed.

Lemma blocks_go_agree k f1 f2 p t1 t2 d :
  blocks_go chain f1 PREFIX_BLOCK_CHARS p t1 !! k = Some d →
  blocks_go chain f2 PREFIX_BLOCK_CHARS p t2 !! k = Some d →
  take_chars (S k * PREFIX_BLOCK_CHARS) t1 = take_chars (S k * PREFIX_BLOCK_CHARS) t2
  ∨ collide (hashed_go f1 p t1) (hashed_go f2 p t2).
Proof.
  revert f1 f2 p t1 t2. induction k as [|k IH]; intros f1 f2 p t1 t2 H1 H2;
    destruct (blocks_go_lookup_nonempty _ _ _ _ _ H1) as (g1 & -> & Hn1);
    destruct (blocks_go_lookup_nonempty _ _ _ _ _ H2) as (g2 & -> & Hn2);
    rewrite blocks_go_step in H1, H2 by done; rewrite !hashed_go_step by done;
    cbn [Nat.mul]; rewrite (take_chars_add _ _ t1), (take_chars_add _ _ t2);
    set (c1 := take_chars PREFIX_BLOCK_CHARS t1) in *; set (c2 := take_chars PREFIX_BLOCK_CHARS t2) in *;
    (destruct (decide (c1 = c2)) as [<-|Hc];
     [|assert (p +:+ "|" +:+ c1 ≠ p +:+ "|" +:+ c2) as Hne by (by intros [_ [= ?]]%append_inj_length)]).
  - left. by rewrite !take_chars_0_drop.
  - right. cbn [lookup list_lookup] in H1, H2. apply collide_head; [done|]. unfold short_sha. fold (chain p c1). fold (chain p c2). congruence.
  - cbn [lookup list_lookup] in H1, H2. destruct (IH _ _ _ _ _ H1 H2) as [E|E]; [left; cbn [Nat.mul] in E; by rewrite E|].
    right. by apply collide_cons.
  - right. cbn [lookup list_lookup] in H1, H2. destruct (decide (chain p c1 = chain p c2)) as [E|E].
    + by apply collide_head.
    + apply collide_cons. eapply blocks_diverged; [|exact E|exact H1|exact H2]. by rewrite !chain_length.
Qed.

(** More text never changes the digests of the blocks before it. *)
Lemma blocks_go_prefix n f1 f2 p t1 t2 :
  (String.length t1 <= f1)%nat → (String.length t2 <= f2)%nat →
  (n * PREFIX_BLOCK_CHARS <= char_count t1)%nat → (n * PREFIX_BLOCK_CHARS <= char_count t2)%nat →
  take_chars (n * PREFIX_BLOCK_CHARS) t1 = take_chars (n * PREFIX_BLOCK_CHARS) t2 →
  take n (blocks_go chain f1 PREFIX_BLOCK_CHARS p t1) = take n (blocks_go chain f2 PREFIX_BLOCK_CHARS p t2).
Proof.
  assert (0 < PREFIX_BLOCK_CHARS)%nat as Hpos by (unfold PREFIX_BLOCK_CHARS; lia).
  revert Hpos. generalize PREFIX_BLOCK_CHARS as size. intros size Hpos.
  revert f1 f2 p t1 t2. induction n as [|n IH]; intros f1 f2 p t1 t2 Hf1 Hf2 Hl1 Hl2 E; [done|].
  cbn [Nat.mul] in Hl1, Hl2, E.
  assert (t1 ≠ "") as Hn1 by (apply char_count_nonempty; lia). assert (t2 ≠ "") as Hn2 by (apply char_count_nonempty; lia).
  pose proof (f_equal (take_chars size) E) as E1. rewrite !take_take_chars in E1.
  pose proof (f_equal (drop_chars size) E) as E2. rewrite !drop_take_chars in E2.
  pose proof (drop_chars_shorter size t1 Hpos Hn1). pose proof (drop_chars_shorter size t2 Hpos Hn2).
  destruct f1 as [|f1], f2 as [|f2], t1 as [|x1 t1], t2 as [|x2 t2]; cbn [String.length] in *; try lia; try done.
  cbn [blocks_go take]. rewrite E1. f_equal.
  apply IH; rewrite ?char_count_drop; try lia. exact E2.
Qed.

(** Digests stand for prefixes.  Two prompts that share their first [n] whole
    blocks share their first [n] digests; conversely, if their [k]-th digests are
    equal, the prompts agree up to the end of that block, unless two different
    texts hashed at the same block of these very prompts have the same truncated
    SHA-256. *)
Theorem blocks_stand_for_prefixes t1 t2 :
  (∀ n, (n * PREFIX_BLOCK_CHARS <= char_count t1)%nat → (n * PREFIX_BLOCK_CHARS <= char_count t2)%nat →
     take_chars (n * PREFIX_BLOCK_CHARS) t1 = take_chars (n * PREFIX_BLOCK_CHARS) t2 →
     take n (digests_of t1) = take n (digests_of t2)) ∧
  (∀ k d, digests_of t1 !! k = Some d → digests_of t2 !! k = Some d →
     take_chars (S k * PREFIX_BLOCK_CHARS) t1 = take_chars (S k * PREFIX_BLOCK_CHARS) t2 ∨
     collide (hashed t1) (hashed t2)).
Proof.
  split.
  - intros n H1 H2 E. by apply blocks_go_prefix.
  - intros k d. apply blocks_go_agree.
Qed.
