(* ===== verification/AdminApi.v ===== *)
(** * How the scripts call the control plane ([bench/bench/parity.py],
    [scripts/soak_multinode.py], [scripts/usage-reconcile.py])

    The request each helper makes of its arguments, and what it makes of the reply.
    The connection is a parameter of the programs that use them: a [Reply]. *)

From S2P Require Import Prelude PyStr Json JsonText PrefixCache.
Local Open Scope Z_scope.

(** [urllib.request.Request] *)
Module HttpRequest.
Record t := mk { method : string; url : string; data : option string; headers : list (string * string) }.
End HttpRequest.
(** What [urlopen] comes to: an answer below 400 with its body, an [HTTPError] with its
    body, or another exception. *)
Module Reply.
Inductive t := Answered (status : Z) (payload : string) | HTTPError (code : Z) (payload : string) | Failed (e : exn).
End Reply.

(** [bytes.decode()]: UTF-8, without encoded surrogates. *)
Fixpoint no_surrogates (s : string) : bool :=
  match s with
  | String c (String d _ as r) => negb ((code c =? 237) && (160 <=? code d)) && no_surrogates r
  | _ => true
  end.
Definition decode (payload : string) : result string :=
  if utf8_valid payload && no_surrogates payload then Ok payload else Raise (ValueError "UnicodeDecodeError").

Section calls.
Context (float_repr : string → string).
Definition bearer (token : string) : list (string * string) := [("Authorization", "Bearer " +:+ token)].
Definition content_type (body : option json) : list (string * string) :=
  match body with Some _ => [("Content-Type", "application/json")] | None => [] end.

(** [parity._api] *)
Definition _api_request (method path base : string) (token : option string) (body : option json) : HttpRequest.t :=
  HttpRequest.mk method (rstrip_by (λ c, Ascii.eqb c "/") base +:+ path) (json_dumps float_repr <$> body)
    (content_type body ++ match token with Some t => if String.eqb t "" then [] else bearer t | None => [] end).
(** [Soak.call] *)
Definition call_request (api token method path : string) (body : option json) : HttpRequest.t :=
  HttpRequest.mk method (api +:+ path) (json_dumps float_repr <$> body) (content_type body ++ bearer token).
(** [_get] *)
Definition _get_request (url token : string) : HttpRequest.t :=
  let token := strip token in
  HttpRequest.mk "GET" url None (if String.eqb token "" then [] else bearer token).

Definition parsed (payload : string) : result json :=
  match json_loads payload with Some v => Ok v | None => Raise (ValueError "JSONDecodeError") end.
(** The status and the parsed body, or of an error that holds no JSON its first [limit]
    characters. *)
Definition read_reply (limit : nat) (reply : Reply.t) : result (Z * json) :=
  match reply with
  | Reply.Answered status payload =>
      if String.eqb payload "" then Ok (status, JNull) else v ← parsed payload; Ok (status, v)
  | Reply.HTTPError code payload =>
      text ← decode payload;
      Ok (code, match json_loads_str text with Some v => v | None => JStr (take_chars limit text) end)
  | Reply.Failed e => Raise e
  end.
Definition _api_reply : Reply.t → result (Z * json) := read_reply 200.
Definition call_reply : Reply.t → result (Z * json) := read_reply 400.
(** [_get]: an error of the server is not caught. *)
Definition _get_reply (reply : Reply.t) : result string :=
  match reply with
  | Reply.Answered _ payload => decode payload
  | Reply.HTTPError code _ => Raise (RuntimeError ("HTTP Error " +:+ str_Z code))
  | Reply.Failed e => Raise e
  end.

(** ** Properties *)
(** An error status is an answer, not an exception: whatever text the server or a proxy
    in front of it sent, the caller gets the status and a value. *)
Lemma error_is_an_answer limit code payload :
  decode payload = Ok payload → ∃ v, read_reply limit (Reply.HTTPError code payload) = Ok (code, v) ∧
    (json_loads_str payload = None → v = JStr (take_chars limit payload)).
Proof. intros H. cbn [read_reply]. rewrite H, result_bind_eq. eexists. split; [done|]. by intros ->. Qed.
(** A successful answer that is no JSON, a page of a proxy, raises. *)
Lemma page_raises limit : read_reply limit (Reply.Answered 200 "<html>") = Raise (ValueError "JSONDecodeError").
Proof. by vm_compute. Qed.
(** The server parses the body that was sent. *)
Lemma sent_body method path base token v :
  (∀ s, float_literal s → float_literal (float_repr s)) → json_wf v →
  ∃ data, HttpRequest.data (_api_request method path base token (Some v)) = Some data ∧
    json_loads data = Some (json_norm float_repr v).
Proof. intros Hf Hv. eexists. split; [done|]. by apply json_round_trip. Qed.
(** A token copied with the carriage return of a Windows shell: [_get] strips it, the
    other two send it in the header. *)
Lemma carriage_return_kept :
  HttpRequest.headers (_get_request "u" ("t" +:+ String "013" "")) = bearer "t" ∧
  HttpRequest.headers (call_request "a" ("t" +:+ String "013" "") "GET" "/" None) = bearer ("t" +:+ String "013" "") ∧
  HttpRequest.headers (_api_request "GET" "/" "a" (Some ("t" +:+ String "013" "")) None) = bearer ("t" +:+ String "013" "").
Proof. by vm_compute. Qed.
End calls.
