(* ===== verification/Gateway.v ===== *)
(** * The inference gateway ([server/inferna_server/api/gateway.py])

    API-key authentication and its usage stamps, the body limits, the choice of an
    instance with its slot reservation, the upstream target, the proxying of a
    request and the relay of its response.  The gateway's module-level dicts are
    one record; the request path only reads the database.  Not under [src/] and so
    arguments of the definitions: the resolver, the HTTP client, the multipart
    parser (as the callbacks it makes) and the response machinery.  The
    latency histograms are in [Telemetry]. *)

From S2P Require Import Prelude PyStr Uuid Ipaddr Models Config UpstreamGuard Usage Json JsonText PrefixCache.
Import PrefixCacheIndex (seen, set_seen, ttl, max_per_instance).
Local Open Scope Z_scope.

Definition LAST_USED_UPDATE_SECONDS : Z := 60.
Definition MAX_BODY_SIZE : Z := 100 * 1024 * 1024.
Definition MAX_JSON_BODY_SIZE : Z := 10 * 1024 * 1024.

(** ** State: the module-level dicts, the prefix index, the usage buffer, the
    counter [inferna_requests] as the log of its increments and the gauge
    [inferna_instance_active_requests]. *)
Module Gw.
Record t := mk {
  last_used_dirty : gmap uuid datetime; active : gmap uuid Z; last_assigned : gmap uuid Z;
  assign_seq : Z; cache : PrefixCacheIndex.t; usage : Buffer.t;
  counted : list (string * string); gauge : gmap (uuid * string) Z }.
Definition eta (r : t) : t :=
  mk (last_used_dirty r) (active r) (last_assigned r) (assign_seq r) (cache r) (usage r) (counted r) (gauge r).
Definition set_last_used_dirty (v : gmap uuid datetime) (r : t) : t := ltac:(set_field eta last_used_dirty v r).
Definition set_active (v : gmap uuid Z) (r : t) : t := ltac:(set_field eta active v r).
Definition set_last_assigned (v : gmap uuid Z) (r : t) : t := ltac:(set_field eta last_assigned v r).
Definition set_assign_seq (v : Z) (r : t) : t := ltac:(set_field eta assign_seq v r).
Definition set_cache (v : PrefixCacheIndex.t) (r : t) : t := ltac:(set_field eta cache v r).
Definition set_usage (v : Buffer.t) (r : t) : t := ltac:(set_field eta usage v r).
Definition set_counted (v : list (string * string)) (r : t) : t := ltac:(set_field eta counted v r).
Definition set_gauge (v : gmap (uuid * string) Z) (r : t) : t := ltac:(set_field eta gauge v r).
Definition init : t := mk ∅ ∅ ∅ 1 PrefixCacheIndex.init Buffer.empty [] ∅.
End Gw.
Definition GwM (A : Type) : Type := M Gw.t A.

Module Request.
Record t := mk {
  method : string; path : string; query : string; query_model : option string;
  content_type : option string; content_length : option string; chunks : list string }.
End Request.

Definition count_request (model status : string) : GwM unit :=
  modify (λ g, Gw.set_counted (Gw.counted g ++ [(model, status)]) g).

(** ** Errors *)
Definition unauthorized : exn := OpenAIError 401 "Invalid API key" "invalid_request_error" "invalid_api_key".
Definition missing_model : exn := OpenAIError 400 "missing 'model' field" "invalid_request_error" "missing_model".
Definition body_too_large : exn :=
  OpenAIError 413 "request body too large" "invalid_request_error" "body_too_large".
Definition no_instance (model_name : string) : exn :=
  OpenAIError 404 ("model '" +:+ model_name +:+ "' has no running instance") "invalid_request_error" "model_not_found".
Definition model_not_found (model_name : string) : exn :=
  OpenAIError 404 ("model '" +:+ model_name +:+ "' not found") "invalid_request_error" "model_not_found".

(** The rendered error: status, message, type, code. *)
Definition openai_error (status : Z) (message type_ code : string) : Z * string * string * string :=
  (status, message, type_, code).
Definition openai_error_handler (path : string) (exc : exn) : GwM (Z * string * string * string) :=
  match exc with
  | OpenAIError status message type_ code =>
      _ ← (if negb (status =? 502) && startswith "/v1" path then count_request "unknown" (str_Z status) else mret tt);
      mret (openai_error status message type_ code)
  | _ => raise exc
  end.

(** ** Authentication *)
Definition stale_stamp (now : datetime) (last : option datetime) : bool :=
  match last with None => true | Some t => LAST_USED_UPDATE_SECONDS * 1000000 <=? now - t end.
Definition get_api_key (d : Db.t) (now : datetime) (credentials : option string) : GwM (ApiKey.t * User.t) :=
  match credentials with
  | None => raise unauthorized
  | Some c =>
      match find_by (λ k, String.eqb (ApiKey.key_hash k) (sha256_hex c)) (Db.api_keys d) with
      | None => raise unauthorized
      | Some key =>
          match ApiKey.revoked_at key, find_user d (ApiKey.user_id key) with
          | None, Some user =>
              if negb (User.is_active user) then raise unauthorized
              else if negb (existsb (String.eqb "inference") (ApiKey.scopes key)) then
                raise (OpenAIError 403 "API key lacks inference scope" "invalid_request_error" "insufficient_scope")
              else
                _ ← (if stale_stamp now (ApiKey.last_used_at key)
                     then modify (λ g, Gw.set_last_used_dirty (<[ApiKey.id key := now]> (Gw.last_used_dirty g)) g)
                     else mret tt);
                mret (key, user)
          | _, _ => raise unauthorized
          end
      end
  end.

(** ** The stamp flusher: the dirty dict and its session.  [arriving]: the stamps
    set while the database is awaited; [fault]: the connection fails. *)
Module Stamps.
Record t := mk { dirty : gmap uuid datetime; session : Session.t }.
End Stamps.
Definition stamp_key (k : uuid) (t : datetime) (d : Db.t) : Db.t :=
  Db.set_api_keys (update_where (λ r, (ApiKey.id r =? k)%N) (ApiKey.set_last_used_at (Some t)) (Db.api_keys d)) d.
Definition on_stamps {A} (m : DbM A) : M Stamps.t A := λ s,
  let '(r, se) := m (Stamps.session s) in (r, Stamps.mk (Stamps.dirty s) se).
Definition flush_last_used_stamps (fault : bool) (arriving : gmap uuid datetime) : M Stamps.t Z :=
  pending ← gets Stamps.dirty;
  if bool_decide (pending = ∅) then mret 0
  else
    _ ← modify (λ s, Stamps.mk ∅ (Stamps.session s));
    _ ← try_
      (_ ← foldM (λ _ kt, on_stamps (execute (stamp_key kt.1 kt.2))) tt (map_to_list pending);
       _ ← modify (λ s, Stamps.mk (arriving ∪ Stamps.dirty s) (Stamps.session s));
       if fault then raise (RuntimeError "OperationalError") else on_stamps commit)
      (λ e, _ ← modify (λ s, Stamps.mk (Stamps.dirty s ∪ pending) (Stamps.session s)); raise e);
    mret (Z.of_nat (size pending)).

(** ** The HTTP client's view of a request, and the response handed to the server *)

(** How the upstream body ended after the chunks received.  A client that goes away
    closes the generator between two chunks ([GeneratorExit]), or cancels it while it
    waits for the next one ([CancelledError]). *)
Inductive stream_end := Finished | UpstreamFailed | ClientGone | ClientGoneWaiting.
Module Upstream.
Record request := mk_request { method : string; url : string; body : string; headers : list (string * string); stream : bool }.
Record response := mk_response { status : Z; content_type : option string; chunks : list string; ended : stream_end }.
Inductive outcome := Answered (r : response) | Unreachable | Cancelled.
End Upstream.
Module Response.
Record t := mk {
  status : Z; media_type : string; upstream : Upstream.response; path : string; ctx : UsageContext.t;
  slot : uuid; model_name : string }.
End Response.

(** ** The model a request names *)

(** What python-multipart calls back while it parses a body. *)
Inductive part_event :=
  | PartBegin
  | HeaderField (data : string)
  | HeaderValue (data : string)
  | HeaderEnd
  | HeadersFinished
  | PartData (data : string)
  | PartEnd.

(** The first quoted text after [name=], as the regular expression finds it. *)
Definition quote_char : ascii := "034"%char.
Fixpoint search_name (value : string) : option string :=
  match value with
  | "" => None
  | String _ rest =>
      match (if startswith ("name=" +:+ String quote_char "") value
             then split1 quote_char (drop_str 6 value) else None) with
      | Some (name, _) => Some name
      | None => search_name rest
      end
  end.

Module Parts.
Record t := mk {
  model : option string; field_name : option string; in_headers : bool; header_field : string;
  header_value : string; part_data : string }.
Definition init : t := mk None None true "" "" "".
End Parts.
Definition is_model_field (p : Parts.t) : bool :=
  match Parts.field_name p with Some f => String.eqb f "model" | None => false end.
Definition part_step (p : Parts.t) (e : part_event) : Parts.t :=
  let '(Parts.mk model field_name in_headers hf hv data) := p in
  match e with
  | PartBegin => Parts.mk model None true hf hv data
  | HeaderField x => Parts.mk model field_name in_headers (if in_headers then hf +:+ x else hf) hv data
  | HeaderValue x => Parts.mk model field_name in_headers hf (if in_headers then hv +:+ x else hv) data
  | HeaderEnd =>
      if negb in_headers then p
      else
        let name := if String.eqb (lower (strip hf)) "content-disposition" then search_name hv else None in
        Parts.mk model (match name with Some n => Some n | None => field_name end) in_headers "" "" data
  | HeadersFinished => Parts.mk model field_name false hf hv data
  | PartData x => Parts.mk model field_name in_headers hf hv (if is_model_field p then data +:+ x else data)
  | PartEnd => Parts.mk (if is_model_field p then Some data else model) field_name in_headers hf hv ""
  end.

Section gateway.
Context (s : Settings.t) (dns : string → option (list string)) (float_repr : string → string).
(** [parse_options_header]'s boundary parameter, and the parser on a body: its
    callbacks and whether it ended with an error. *)
Context (boundary_of : string → option string) (multipart : string → string → list part_event * bool).
(** The database, the UTC day, and the monotonic clock in microseconds. *)
Context (d : Db.t) (today now : Z).

Definition _extract_multipart_model (content_type raw_body : string) : result (option string) :=
  match boundary_of content_type with
  | None | Some "" => Ok None
  | Some boundary =>
      let '(events, failed) := multipart boundary raw_body in
      if (failed : bool)
      then Raise (OpenAIError 400 "invalid multipart body" "invalid_request_error" "invalid_request_error")
      else Ok (Parts.model (foldl part_step Parts.init events))
  end.

Definition _extract_model (request : Request.t) (raw_body : string) : result string :=
  let content_type := default "" (Request.content_type request) in
  let lowered := lower content_type in
  model ← (if startswith "application/json" lowered then
             match json_loads raw_body with
             | Some (JObj kvs) =>
                 match jget "model" kvs with
                 | None => Ok None
                 | Some (JStr m) => Ok (Some m)
                 | Some _ => Raise missing_model
                 end
             | _ => Ok None
             end
           else if startswith "multipart/form-data" lowered then _extract_multipart_model content_type raw_body
           else Ok None);
  match match model with Some m => Some m | None => Request.query_model request end with
  | None | Some "" => Raise missing_model
  | Some m => Ok m
  end.

(** ** Bodies *)
Fixpoint read_chunks (limit : Z) (body : string) (chunks : list string) : result string :=
  match chunks with
  | [] => Ok body
  | c :: l =>
      let body' := body +:+ c in
      if limit <? Z.of_nat (String.length body') then Raise body_too_large else read_chunks limit body' l
  end.
Definition declared_length (content_length : option string) : Z :=
  match content_length with Some h => default 0 (py_int h) | None => 0 end.
Definition _read_body_limited (request : Request.t) (limit : Z) : result string :=
  match Request.content_length request with
  | Some _ =>
      if limit <? declared_length (Request.content_length request) then Raise body_too_large
      else read_chunks limit "" (Request.chunks request)
  | None => read_chunks limit "" (Request.chunks request)
  end.

(** ** Choosing an instance *)
Definition routable (model_id : uuid) (i : ModelInstance.t) : bool :=
  (ModelInstance.model_id i =? model_id)%N && in_live_states (ModelInstance.state i)
  && match ModelInstance.port i with Some _ => true | None => false end
  && match ModelInstance.parallel_group_id i with
     | None => true
     | Some _ => bool_decide (ModelInstance.node_rank i = Some 0) end.
Definition candidates (model_id : uuid) : list ModelInstance.t :=
  sorted_by (λ a b, ModelInstance.created_at a <=? ModelInstance.created_at b)
    (where_ (routable model_id) (Db.instances d)).

(** The overlap of each row, in the order of the rows. *)
Fixpoint overlaps (digests : list string) (rows : list ModelInstance.t) (x : PrefixCacheIndex.t)
  : list (uuid * nat) * PrefixCacheIndex.t :=
  match rows with
  | [] => ([], x)
  | r :: l =>
      let '(n, x') := overlap now (ModelInstance.id r) digests x in
      let '(rest, x'') := overlaps digests l x' in
      ((ModelInstance.id r, n) :: rest, x'')
  end.
Definition best_of (l : list (uuid * nat)) : nat := foldr (λ kn m, Nat.max kn.2 m) 0%nat l.
Definition overlap_of (l : list (uuid * nat)) (i : ModelInstance.t) : nat :=
  default 0%nat (dict_get (ModelInstance.id i) l).

(** The routing key: active requests, then the last assignment. *)
Definition load (g : Gw.t) (i : ModelInstance.t) : Z * Z :=
  (default 0 (Gw.active g !! ModelInstance.id i), default 0 (Gw.last_assigned g !! ModelInstance.id i)).
Definition load_ltb (a b : Z * Z) : bool := (a.1 <? b.1) || ((a.1 =? b.1) && (a.2 <? b.2)).
Definition least_loaded (g : Gw.t) (pool : list ModelInstance.t) : option ModelInstance.t :=
  foldl (keep_best (λ a b, load_ltb (load g a) (load g b))) None pool.

Definition worker_of (i : ModelInstance.t) : option Worker.t := ModelInstance.worker_id i ≫= find_worker d.

(** The slot: stamp the assignment and count the request. *)
Definition reserve (model_name : string) (i : uuid) (g : Gw.t) : Gw.t :=
  let n := default 0 (Gw.active g !! i) + 1 in
  Gw.set_gauge (<[(i, model_name) := n]> (Gw.gauge g))
    (Gw.set_active (<[i := n]> (Gw.active g))
      (Gw.set_assign_seq (Gw.assign_seq g + 1)
        (Gw.set_last_assigned (<[i := Gw.assign_seq g]> (Gw.last_assigned g)) g))).

(** The critical section under [_active_lock]. *)
Definition select_instance (model_name : string) (digests : list string) (rows : list ModelInstance.t)
  : GwM (option (ModelInstance.t * Worker.t)) := λ g,
  let '(ov, cache) := overlaps digests rows (Gw.cache g) in
  let best_overlap := best_of ov in
  let pool := if (best_overlap =? 0)%nat then rows
              else where_ (λ r, (overlap_of ov r =? best_overlap)%nat) rows in
  let g1 := Gw.set_cache (note_lookup (0 <? best_overlap)%nat cache) g in
  match least_loaded g pool with
  | Some i => match worker_of i with
              | Some w => (Ok (Some (i, w)), reserve model_name (ModelInstance.id i) g1)
              | None => (Ok None, g1)
              end
  | None => (Ok None, g1)
  end.

Definition _release_instance (instance_id : uuid) (model_name : string) : GwM unit := modify (λ g,
  let n := default 1 (Gw.active g !! instance_id) - 1 in
  Gw.set_gauge (<[(instance_id, model_name) := Z.max n 0]> (Gw.gauge g))
    (Gw.set_active (if n <=? 0 then delete instance_id (Gw.active g)
                    else <[instance_id := n]> (Gw.active g)) g)).

(** ** The upstream target *)
(** [worker.address or worker.hostname] *)
Definition raw_host (w : Worker.t) : string :=
  match Worker.address w with
  | Some a => if String.eqb a "" then Worker.hostname w else a
  | None => Worker.hostname w
  end.
Definition scheme_of (raw : string) : string :=
  match split1_str "://" raw with Some (sch, _) => lower sch | None => "http" end.
Definition bracket_v6 (host : string) : string :=
  match ip_address host with
  | Some _ => if contains_char ":" host then "[" +:+ host +:+ "]" else host
  | None => host
  end.
Definition str_port (p : option Z) : string := match p with Some p => str_Z p | None => "None" end.

(** The address the connection goes to: the pinned one, or for https the host
    name when it is its own trust anchor. *)
Definition pinned_host (model_name raw : string) : GwM string :=
  validated ← try_ (lift_result (resolve_and_validate dns raw s))
    (λ e, match e with
          | ValueError _ =>
              _ ← count_request model_name "502";
              raise (OpenAIError 502 "upstream target not allowed" "api_error" "upstream_not_allowed")
          | _ => raise e
          end);
  fallback ← lift_result (_extract_host raw);
  if String.eqb (scheme_of raw) "https" && negb (String.eqb validated fallback) then
    if String.eqb (Settings.environment s) "development" || hostname_in_allowlist fallback s
    then mret (bracket_v6 fallback)
    else raise (OpenAIError 502 "https upstream requires an exact allowlist entry" "api_error" "upstream_not_allowed")
  else mret validated.

Definition target_url (request : Request.t) (raw host : string) (i : ModelInstance.t) : string :=
  let target := scheme_of raw +:+ "://" +:+ host +:+ ":" +:+ str_port (ModelInstance.port i) +:+ Request.path request in
  if String.eqb (Request.query request) "" then target else target +:+ "?" +:+ Request.query request.

(** [cancelled]: the client goes away while the resolver is awaited. *)
Definition _resolve_target (cancelled : bool) (model_name : string) (request : Request.t) (digests : list string)
  : GwM (string * ModelInstance.t * Worker.t * Model.t) :=
  match find_by (λ m, String.eqb (Model.name m) model_name) (Db.models d) with
  | None => raise (model_not_found model_name)
  | Some model =>
      chosen ← select_instance model_name digests (candidates (Model.id model));
      match chosen with
      | None => raise (no_instance model_name)
      | Some (i, w) =>
          try_
            (_ ← (if cancelled then raise CancelledError else mret tt);
             host ← pinned_host model_name (raw_host w);
             mret (target_url request (raw_host w) host i, i, w, model))
            (λ e, _ ← _release_instance (ModelInstance.id i) model_name; raise e)
      end
  end.

(** ** Token usage of a response *)

(** [\s*:\s*] after a key *)
Definition after_colon (r : string) : option string :=
  match lstrip_by is_space r with
  | String ":" r' => Some (lstrip_by is_space r')
  | _ => None
  end.
Definition quoted_key (k : string) : string := String quote_char (k +:+ String quote_char "").
(** At the head of the text: the key, a colon, and what [value] accepts. *)
Definition match_key {A} (k : string) (value : string → option A) (text : string) : option A :=
  if startswith (quoted_key k) text
  then after_colon (drop_str (String.length (quoted_key k)) text) ≫= value
  else None.
(** [re.search]: the first position where it matches. *)
Fixpoint search_key {A} (k : string) (value : string → option A) (text : string) : option A :=
  match match_key k value text with
  | Some x => Some x
  | None => match text with "" => None | String _ r => search_key k value r end
  end.
(** A brace, anything but a closing brace, a closing brace. *)
Definition braced (r : string) : option string :=
  match r with
  | String "{" r' => match split1 "}" r' with Some (inner, _) => Some inner | None => None end
  | _ => None
  end.
Definition number (r : string) : option Z :=
  match span_digits r with ("", _) => None | (ds, _) => py_int ds end.

(** The usage object is searched in the joined tail; the token counts inside the
    matched text (the braces hold no key, so the text between them is enough). *)
Definition _record_usage (tail : list string) : option (Z * Z) :=
  match search_key "usage" braced (join "" tail) with
  | None => None
  | Some inner =>
      match search_key "prompt_tokens" number inner, search_key "completion_tokens" number inner with
      | None, None => None
      | p, c => Some (default 0 p, default 0 c)
      end
  end.

Definition has_stream_options (kvs : list (string * json)) : bool :=
  match jget "stream_options" kvs with Some v => json_truthy v | None => false end.
Definition _with_stream_usage (raw_body : string) : string :=
  match json_loads raw_body with
  | Some (JObj kvs) =>
      if has_stream_options kvs then raw_body
      else json_dumps float_repr (JObj (dict_set "stream_options" (JObj [("include_usage", JBool true)]) kvs))
  | _ => raw_body
  end.

(** ** Content deltas *)
Definition content_of (o : option json) : option json :=
  match o with Some (JObj kvs) => jget "content" kvs | _ => None end.
Definition choice_delta (choice : json) : list string :=
  match choice with
  | JObj kvs =>
      let truthy_or (a b : option json) := match a with Some v => if json_truthy v then a else b | None => b end in
      match truthy_or (content_of (jget "delta" kvs)) (content_of (jget "message" kvs)) with
      | Some (JStr c) => if String.eqb c "" then [] else [c]
      | _ => []
      end
  | _ => []
  end.
Definition chunk_deltas (v : json) : result (list string) :=
  match v with
  | JObj kvs =>
      match jget "choices" kvs with
      | None => Ok []
      | Some cs =>
          if negb (json_truthy cs) then Ok []
          else match cs with
               | JList l => Ok (concat (map choice_delta l))
               | JStr _ | JObj _ => Ok []
               | _ => Raise TypeError
               end
      end
  | _ => Ok []
  end.
Definition line_deltas (line : string) : result (list string) :=
  if negb (startswith "data:" line) then Ok []
  else
    let payload := strip (drop_str 5 line) in
    if String.eqb payload "" || String.eqb payload "[DONE]" then Ok []
    else match json_loads_str payload with Some v => chunk_deltas v | None => Ok [] end.
Definition _content_deltas (text : string) : result (list string) :=
  foldR (λ acc line, l ← line_deltas line; Ok (acc ++ l)) [] (splitlines text).

(** ** The relay *)

Definition tail_size (tail : list string) : Z := sum_by (λ c, Z.of_nat (char_count c)) tail.
Fixpoint trim_tail (tail : list string) : list string :=
  match tail with
  | [] => []
  | _ :: rest =>
      if (8 <? Z.of_nat (length tail)) || (16384 <? tail_size tail) then trim_tail rest else tail
  end.
Definition tracked_path (path : string) : bool :=
  String.eqb path "/v1/chat/completions" || String.eqb path "/v1/embeddings".

(** The chunks handed to the client, the tail, and whether a chunk broke the
    delta parser (its exception ends the stream before the chunk is yielded). *)
Fixpoint relay_loop (path : string) (tail yielded : list string) (chunks : list string)
  : list string * list string * bool :=
  match chunks with
  | [] => (tail, yielded, false)
  | c :: l =>
      if tracked_path path then
        let text := decode_replace c in
        let tail' := trim_tail (tail ++ [text]) in
        match _content_deltas text with
        | Raise _ => (tail', yielded, true)
        | Ok _ => relay_loop path tail' (yielded ++ [c]) l
        end
      else relay_loop path tail (yielded ++ [c]) l
  end.
(** [finally]: usage, prefix record, accounting.  [ended]: the clock then. *)
Definition account (ended : Z) (ctx : UsageContext.t) (tokens : option (Z * Z)) (outcome : string) : GwM unit :=
  _ ← (match UsageContext.prefix_digests ctx with
       | [] => mret tt
       | ds => modify (λ g, Gw.set_cache (record ended (UsageContext.instance_id ctx) ds (Gw.cache g)) g)
       end);
  modify (λ g, Gw.set_usage
    (record_request today ctx (default 0 (fst <$> tokens)) (default 0 (snd <$> tokens))
       (monotonic_ms ended (UsageContext.started ctx)) outcome (Gw.usage g)) g).
(** The outcome accounted: a cancelled wait and a broken chunk are counted [ok]. *)
Definition relay_outcome (broken : bool) (fin : stream_end) (tokens : option (Z * Z)) : string :=
  if broken then "ok"
  else match fin with
       | Finished => match tokens with None => "no_usage_chunk" | Some _ => "ok" end
       | UpstreamFailed => "upstream_error"
       | ClientGone => "client_disconnect"
       | ClientGoneWaiting => "ok"
       end.
(** What the client was sent, and the exception the stream ended with. *)
Definition _relay (ended : Z) (path : string) (ctx : UsageContext.t) (chunks : list string) (fin : stream_end)
  : GwM (list string * option exn) :=
  let '(tail, yielded, broken) := relay_loop path [] [] chunks in
  let tokens := _record_usage tail in
  _ ← account ended ctx tokens (relay_outcome broken fin tokens);
  mret (yielded, if broken then Some TypeError else None).

(** ** Proxying *)
Definition is_json (request : Request.t) : bool :=
  startswith "application/json" (lower (default "" (Request.content_type request))).
Definition wants_stream (request : Request.t) (raw_body : string) : bool :=
  is_json request
  && match json_loads raw_body with
     | Some (JObj kvs) => match jget "stream" kvs with Some v => json_truthy v | None => false end
     | _ => false
     end.
Definition prompt_digests (request : Request.t) (raw_body : string) : result (list string) :=
  if negb (is_json request) then Ok []
  else match json_loads raw_body with
       | Some (JObj kvs) =>
           text ← prompt_text float_repr (jget "messages" kvs);
           digests ← blocks text;
           match digests, jget "input" kvs with
           | [], Some JNull | [], None => Ok []
           | [], Some v => blocks (py_str float_repr v)
           | ds, _ => Ok ds
           end
       | _ => Ok []
       end.

Definition host_header (raw : string) : result string :=
  h ← _extract_host raw;
  Ok (if contains_char ":" h && negb (startswith "[" h) then "[" +:+ h +:+ "]" else h).
Definition content_headers (request : Request.t) : list (string * string) :=
  match Request.content_type request with
  | Some c => if String.eqb c "" then [] else [("content-type", c)]
  | None => []
  end.
Definition quota_exceeded : exn := OpenAIError 429 "usage quota exceeded" "insufficient_quota" "quota_exceeded".
Definition upstream_error : exn := OpenAIError 502 "upstream unreachable" "api_error" "upstream_error".

(** [send]: the HTTP client; [failed_at]: the clock when it gives up. *)
Context (send : Upstream.request → Upstream.outcome) (failed_at : Z).

(** The part of the handler that owns the slot, up to the hand-off. *)
Definition forward (request : Request.t) (raw_body model_name : string) (stream : bool) (user : User.t)
    (ctx : UsageContext.t) (target : string) (i : ModelInstance.t) (w : Worker.t) : GwM Response.t :=
  buf ← gets (λ g, Buffer.pending (Gw.usage g));
  _ ← (match check_quota today user buf d with
       | Some _ =>
           _ ← modify (λ g, Gw.set_usage (Buffer.mk (Buffer.pending (Gw.usage g))
                              (Buffer.events (Gw.usage g) ++ [(model_name, "quota_rejected")])) g);
           raise quota_exceeded
       | None => mret tt
       end);
  host ← lift_result (host_header (raw_host w));
  let headers := content_headers request ++ [("host", host +:+ ":" +:+ str_port (ModelInstance.port i))] in
  match send (Upstream.mk_request (Request.method request) target raw_body headers stream) with
  | Upstream.Cancelled => raise CancelledError
  | Upstream.Unreachable =>
      _ ← count_request model_name "502";
      _ ← modify (λ g, Gw.set_usage
            (record_request today ctx 0 0 (monotonic_ms failed_at (UsageContext.started ctx)) "upstream_error"
               (Gw.usage g)) g);
      raise upstream_error
  | Upstream.Answered r =>
      _ ← count_request model_name (str_Z (Upstream.status r));
      let media := match Upstream.content_type r with
                   | Some c => if String.eqb c "" then "application/json" else c
                   | None => "application/json" end in
      mret (Response.mk (Upstream.status r) media r (Request.path request) ctx (ModelInstance.id i) model_name)
  end.

Definition usage_context (key : ApiKey.t) (model : Model.t) (model_name : string) (i : ModelInstance.t)
    (digests : list string) : UsageContext.t :=
  UsageContext.mk (ApiKey.user_id key) (ApiKey.id key) (Model.id model) model_name (ModelInstance.id i) now
    (ModelInstance.engine i)
    (match ModelInstance.parallel_mode i with
     | Some m => if String.eqb m "" then "single" else m | None => "single" end) digests.

Definition _proxy (cancelled : bool) (request : Request.t) (raw_body0 model_name : string) (key : ApiKey.t)
    (user : User.t) : GwM Response.t :=
  let stream := wants_stream request raw_body0 in
  let raw_body :=
    if stream && Settings.gateway_inject_stream_usage s && String.eqb (Request.path request) "/v1/chat/completions"
    then _with_stream_usage raw_body0 else raw_body0 in
  digests ← lift_result (prompt_digests request raw_body);
  '(target, i, w, model) ← _resolve_target cancelled model_name request digests;
  try_ (forward request raw_body model_name stream user (usage_context key model model_name i digests) target i w)
       (λ e, _ ← _release_instance (ModelInstance.id i) model_name; raise e).

(** Running the response: the relay, then the background task that releases the
    slot.  A client that leaves cancels the stream without an exception and the task
    still runs; when the stream raises, the response does and the task never runs. *)
Definition run_response (ended : Z) (r : Response.t) : GwM (list string * option exn) :=
  '(sent, error) ← _relay ended (Response.path r) (Response.ctx r) (Upstream.chunks (Response.upstream r))
                      (Upstream.ended (Response.upstream r));
  _ ← match error with
      | None => _release_instance (Response.slot r) (Response.model_name r)
      | Some _ => mret tt
      end;
  mret (sent, error).

(** ** Endpoints *)
Definition endpoint (limit : Z) (cancelled : bool) (wall : datetime) (credentials : option string)
    (request : Request.t) : GwM Response.t :=
  '(key, user) ← get_api_key d wall credentials;
  raw_body ← lift_result (_read_body_limited request limit);
  model_name ← lift_result (_extract_model request raw_body);
  _proxy cancelled request raw_body model_name key user.
Definition chat_completions := endpoint MAX_JSON_BODY_SIZE.
Definition embeddings := endpoint MAX_JSON_BODY_SIZE.
Definition audio_transcriptions := endpoint MAX_BODY_SIZE.

(** (id, created) of each distinct model with a live instance that has a port. *)
Definition served : list (ModelInstance.t * Model.t) :=
  sorted_by (λ a b, match String.compare (Model.display_name a.2) (Model.display_name b.2) with
                    | Lt => true | Gt => false
                    | Eq => ModelInstance.created_at a.1 <=? ModelInstance.created_at b.1 end)
    (omap (λ i, m ← find_model d (ModelInstance.model_id i); Some (i, m))
       (where_ (λ i, in_live_states (ModelInstance.state i)
                     && match ModelInstance.port i with Some _ => true | None => false end) (Db.instances d))).
Definition list_step (data : list (string * Z)) (im : ModelInstance.t * Model.t) : list (string * Z) :=
  if existsb (λ e, String.eqb e.1 (Model.name im.2)) data then data
  else data ++ [(Model.name im.2, ModelInstance.created_at im.1 / 1000000)].
Definition list_models (wall : datetime) (credentials : option string) : GwM (list (string * Z)) :=
  _ ← get_api_key d wall credentials;
  mret (foldl list_step [] served).
End gateway.

(** ** Slots *)
Definition slots_wf (g : Gw.t) : Prop := ∀ i n, Gw.active g !! i = Some n → 0 < n.
(** Requests counted on an instance. *)
Definition active_on (g : Gw.t) (i : uuid) : Z := default 0 (Gw.active g !! i).

(** Operations that leave the routing slots alone. *)
Definition keeps_slots {A} (m : GwM A) : Prop := ∀ g, Gw.active (m g).2 = Gw.active g.
Lemma keeps_slots_bind {A B} (m : GwM A) (f : A → GwM B) :
  keeps_slots m → (∀ a, keeps_slots (f a)) → keeps_slots (m ≫= f).
Proof.
  intros Hm Hf g. unfold mbind, M_bind. specialize (Hm g). destruct (m g) as [[a|e] g1]; simpl in *; [|done].
  by rewrite Hf.
Qed.
Lemma keeps_slots_try {A} (m : GwM A) h : keeps_slots m → (∀ e, keeps_slots (h e)) → keeps_slots (try_ m h).
Proof.
  intros Hm Hh g. unfold try_. specialize (Hm g). destruct (m g) as [[a|e] g1]; simpl in *; [done|]. by rewrite Hh.
Qed.
Lemma keeps_slots_ret {A} (a : A) : keeps_slots (mret a).
Proof. done. Qed.
Lemma keeps_slots_lift {A} (r : result A) : keeps_slots (lift_result r).
Proof. done. Qed.
Lemma keeps_slots_raise {A} e : keeps_slots (raise (A:=A) e).
Proof. done. Qed.
Lemma keeps_slots_gets {A} (f : Gw.t → A) : keeps_slots (gets f).
Proof. done. Qed.
Lemma keeps_slots_modify f : (∀ g, Gw.active (f g) = Gw.active g) → keeps_slots (modify f).
Proof. intros H g. apply H. Qed.
Create HintDb slots.
#[export] Hint Resolve @keeps_slots_bind @keeps_slots_try @keeps_slots_ret @keeps_slots_lift @keeps_slots_raise
  @keeps_slots_gets keeps_slots_modify : slots.

Lemma count_request_keeps m st : keeps_slots (count_request m st).
Proof. by apply keeps_slots_modify. Qed.
#[export] Hint Resolve count_request_keeps : slots.
Lemma get_api_key_keeps d now c : keeps_slots (get_api_key d now c).
Proof. unfold get_api_key. repeat case_match; auto with slots. Qed.
Lemma pinned_host_keeps s dns name raw : keeps_slots (pinned_host s dns name raw).
Proof.
  unfold pinned_host. apply keeps_slots_bind.
  - apply keeps_slots_try; [auto with slots|]. intros []; auto with slots.
  - intros. apply keeps_slots_bind; [auto with slots|]. intros. repeat case_match; auto with slots.
Qed.
Lemma account_keeps today ended ctx tokens outcome : keeps_slots (account today ended ctx tokens outcome).
Proof. unfold account. apply keeps_slots_bind; [case_match|]; auto with slots. Qed.
Lemma relay_keeps today ended path ctx chunks fin : keeps_slots (_relay today ended path ctx chunks fin).
Proof.
  unfold _relay. destruct (relay_loop path [] [] chunks) as [[tail yielded] broken].
  apply keeps_slots_bind; [apply account_keeps|auto with slots].
Qed.
Lemma forward_keeps d today send failed_at request raw_body name stream user ctx target i w :
  keeps_slots (forward d today send failed_at request raw_body name stream user ctx target i w).
Proof.
  unfold forward. apply keeps_slots_bind; [auto with slots|]. intros buf. apply keeps_slots_bind.
  { case_match; auto with slots. }
  intros []. apply keeps_slots_bind; [auto with slots|]. intros h. case_match; auto 6 with slots.
Qed.

Lemma forward_slot d today send failed_at request raw_body name stream user ctx target i w g resp g' :
  forward d today send failed_at request raw_body name stream user ctx target i w g = (Ok resp, g') →
  Response.slot resp = ModelInstance.id i ∧ Response.model_name resp = name.
Proof.
  unfold forward. intros (buf & g1 & _ & H)%M_bind_Ok. apply M_bind_Ok in H as ([] & g2 & _ & H).
  apply M_bind_Ok in H as (h & g3 & _ & H). destruct (send _) as [r| |]; [|apply M_bind_Ok in H as ([] & g4 & _ & H)|done].
  - apply M_bind_Ok in H as ([] & g4 & _ & H). unfold mret, M_ret in H. by simplify_eq.
  - by apply M_bind_Ok in H as ([] & g5 & _ & H).
Qed.

Lemma release_active i name g :
  Gw.active (_release_instance i name g).2 =
  let n := default 1 (Gw.active g !! i) - 1 in
  if n <=? 0 then delete i (Gw.active g) else <[i := n]> (Gw.active g).
Proof. done. Qed.
Lemma release_reserve i name name' g g1 :
  slots_wf g → Gw.active g1 = Gw.active (reserve name i g) →
  Gw.active (_release_instance i name' g1).2 = Gw.active g.
Proof.
  intros Hwf H1. rewrite release_active, H1. cbn [reserve Gw.set_gauge Gw.set_active Gw.active].
  rewrite lookup_insert_eq. cbn [from_option]. unfold id.
  destruct (Gw.active g !! i) as [n|] eqn:E; cbn [from_option].
  - pose proof (Hwf i n E). unfold id. replace (n + 1 - 1) with n by lia.
    destruct (Z.leb_spec n 0); [lia|]. rewrite insert_insert_eq. by apply insert_id.
  - rewrite delete_insert_eq. by apply delete_id.
Qed.

(** Lexicographic order of the routing key. *)
Lemma load_ltb_asym a b : load_ltb a b = true → load_ltb b a = false.
Proof. unfold load_ltb. destruct a, b; simpl. repeat case_match; rewrite ?orb_true_iff, ?orb_false_iff, ?andb_true_iff, ?andb_false_iff, ?Z.ltb_lt, ?Z.ltb_ge, ?Z.eqb_eq, ?Z.eqb_neq. lia. Qed.
Lemma load_ltb_trans a b c : load_ltb a b = false → load_ltb b c = false → load_ltb a c = false.
Proof. unfold load_ltb. destruct a, b, c; simpl. rewrite ?orb_false_iff, ?andb_false_iff, ?Z.ltb_ge, ?Z.eqb_neq. lia. Qed.

Lemma least_loaded_spec g pool i :
  least_loaded g pool = Some i →
  i ∈ pool ∧ ∀ j, j ∈ pool → load_ltb (load g j) (load g i) = false.
Proof.
  apply keep_best_spec; intros; [by eapply load_ltb_trans|by apply load_ltb_asym].
Qed.
Lemma least_loaded_None g pool : least_loaded g pool = None ↔ pool = [].
Proof.
  apply keep_best_None; intros; [by eapply load_ltb_trans|by apply load_ltb_asym].
Qed.

(** The overlaps recorded are those of the index, whatever rows were asked before. *)
Lemma overlap_other now i digests x j n x' :
  i ≠ j → overlap now i digests x = (n, x') →
  seen x' !! j = seen x !! j ∧ ttl x' = ttl x ∧ max_per_instance x' = max_per_instance x.
Proof.
  intros Hne. unfold overlap. repeat case_match; intros; simplify_eq; try done.
  cbn [set_seen seen ttl max_per_instance]. by rewrite lookup_insert_ne.
Qed.
Lemma overlap_ext now j digests x x' :
  seen x' !! j = seen x !! j → ttl x' = ttl x → (overlap now j digests x').1 = (overlap now j digests x).1.
Proof.
  intros H1 H2. unfold overlap. destruct digests as [|dg l]; [done|]. rewrite H2.
  change (list (Z * gset string)) with ring in *. rewrite H1.
  destruct (seen x !! j) as [[|e r]|]; done.
Qed.

Lemma overlaps_get now digests rows x l x' :
  NoDup (map ModelInstance.id rows) → overlaps now digests rows x = (l, x') →
  map fst l = map ModelInstance.id rows ∧
  ∀ i, i ∈ rows → dict_get (ModelInstance.id i) l = Some (overlap now (ModelInstance.id i) digests x).1.
Proof.
  revert x l x'. induction rows as [|r rows IH]; intros x l x' Hnd Ho; cbn [overlaps] in Ho.
  { simplify_eq. split; [done|]. intros i Hi. by apply elem_of_nil in Hi. }
  cbn [map] in Hnd. apply NoDup_cons in Hnd as [Hr Hnd].
  destruct (overlap now (ModelInstance.id r) digests x) as [n x1] eqn:E1.
  destruct (overlaps now digests rows x1) as [rest x2] eqn:E2. simplify_eq.
  destruct (IH x1 rest x' Hnd E2) as [Hk Hg]. split; [cbn [map fst]; by rewrite Hk|].
  intros i [->|Hi]%elem_of_cons; cbn [dict_get]; [rewrite decide_True by done; by rewrite E1|].
  assert (ModelInstance.id r ≠ ModelInstance.id i) as Hne.
  { intros E. apply Hr. rewrite E. apply list_elem_of_fmap. eauto. }
  rewrite decide_False by done. rewrite Hg by done. f_equal.
  destruct (overlap_other _ _ _ _ (ModelInstance.id i) _ _ Hne E1) as (? & ? & _). by apply overlap_ext.
Qed.
Lemma best_of_ge l k n : dict_get k l = Some n → (n <= best_of l)%nat.
Proof.
  induction l as [|[k' n'] l IH]; cbn [dict_get best_of foldr]; [done|]. fold (best_of l).
  case_decide; intros; simplify_eq; cbn [snd]; [lia|]. specialize (IH H0). lia.
Qed.
Lemma best_of_attained l : best_of l = 0%nat ∨ ∃ k n, (k, n) ∈ l ∧ n = best_of l.
Proof.
  induction l as [|[k n] l IH]; [by left|]. cbn [best_of foldr snd]. fold (best_of l). right.
  destruct (Nat.max_spec n (best_of l)) as [[? ->]|[? ->]].
  - destruct IH as [?|(k' & n' & ? & ?)]; [lia|]. exists k', n'. split; [by constructor|done].
  - exists k, n. split; [by left|done].
Qed.

(** How the prompt's overlap with a row compares. *)
Definition row_overlap (now : Z) (digests : list string) (g : Gw.t) (i : ModelInstance.t) : nat :=
  (overlap now (ModelInstance.id i) digests (Gw.cache g)).1.

Lemma select_instance_run d now name digests rows g r g' :
  NoDup (map ModelInstance.id rows) →
  select_instance d now name digests rows g = (r, g') →
  match r with
  | Ok (Some (i, w)) =>
      i ∈ rows ∧ worker_of d i = Some w ∧
      (∀ j, j ∈ rows → (row_overlap now digests g j <= row_overlap now digests g i)%nat) ∧
      (∀ j, j ∈ rows → row_overlap now digests g j = row_overlap now digests g i →
            load_ltb (load g j) (load g i) = false) ∧
      Gw.active g' = Gw.active (reserve name (ModelInstance.id i) g) ∧
      Gw.last_assigned g' = <[ModelInstance.id i := Gw.assign_seq g]> (Gw.last_assigned g) ∧
      Gw.assign_seq g' = Gw.assign_seq g + 1
  | Ok None => (rows = [] ∨ ∃ i, i ∈ rows ∧ worker_of d i = None) ∧ Gw.active g' = Gw.active g
  | Raise _ => False
  end.
Proof.
  intros Hnd. unfold select_instance. destruct (overlaps now digests rows (Gw.cache g)) as [ov cache] eqn:Eo.
  destruct (overlaps_get _ _ _ _ _ _ Hnd Eo) as [Hk Hget].
  set (pool := if (best_of ov =? 0)%nat then rows else where_ (λ r, (overlap_of ov r =? best_of ov)%nat) rows).
  assert (∀ j, j ∈ rows → overlap_of ov j = row_overlap now digests g j ∧ (overlap_of ov j <= best_of ov)%nat) as Hov.
  { intros j Hj. unfold overlap_of. rewrite (Hget j Hj). split; [done|]. by apply (best_of_ge _ (ModelInstance.id j)), Hget. }
  assert (∀ j, j ∈ pool ↔ j ∈ rows ∧ overlap_of ov j = best_of ov) as Hpool.
  { intros j. unfold pool. destruct (Nat.eqb_spec (best_of ov) 0) as [E|E].
    - split; [|tauto]. intros Hj. split; [done|]. destruct (Hov j Hj). lia.
    - by rewrite elem_of_where, Nat.eqb_eq. }
  assert (rows ≠ [] → pool ≠ []) as Hne.
  { intros Hr Hp. destruct (best_of_attained ov) as [E|(k & n & Hin & En)].
    - destruct rows as [|j rows]; [done|]. assert (j ∈ pool) as H; [|rewrite Hp in H; by apply elem_of_nil in H].
      apply Hpool. split; [by constructor|]. destruct (Hov j) as [_ ?]; [by constructor|]. lia.
    - assert (k ∈ map fst ov) as Hk' by (apply list_elem_of_fmap; by exists (k, n)).
      rewrite Hk in Hk'. apply list_elem_of_fmap in Hk' as (j & -> & Hj).
      assert (j ∈ pool) as H; [|rewrite Hp in H; by apply elem_of_nil in H].
      apply Hpool. split; [done|]. unfold overlap_of.
      rewrite (dict_get_elem (ModelInstance.id j) n ov); [done| |done].
      change (ov.*1) with (map fst ov). by rewrite Hk. }
  destruct (least_loaded g pool) as [i|] eqn:Ell.
  - apply least_loaded_spec in Ell as [Hi Hmin]. apply Hpool in Hi as [Hi Hbest].
    destruct (worker_of d i) as [w|] eqn:Ew; intros; simplify_eq; [|split; [right; by exists i|done]].
    split_and!; [done|done| | |done|done|done].
    + intros j Hj. rewrite <-(proj1 (Hov j Hj)), <-(proj1 (Hov i Hi)), Hbest. by apply Hov.
    + intros j Hj Ej. apply Hmin, Hpool. split; [done|].
      rewrite <-(proj1 (Hov j Hj)), <-(proj1 (Hov i Hi)) in Ej. congruence.
  - apply least_loaded_None in Ell. intros; simplify_eq. split; [|done]. left.
    destruct rows; [done|]. by destruct Hne.
Qed.

Lemma candidates_ids d m : constraints_ok d = true → NoDup (map ModelInstance.id (candidates d m)).
Proof.
  intros H. unfold candidates. eapply NoDup_map_perm; [by rewrite sorted_by_perm|].
  by apply NoDup_map_where, constraints_instance_ids.
Qed.
Lemma elem_of_candidates d m i : i ∈ candidates d m ↔ i ∈ Db.instances d ∧ routable m i = true.
Proof. unfold candidates. by rewrite sorted_by_elem, elem_of_where. Qed.

(** The [except BaseException] / [finally] guard around the owner of a slot. *)
Lemma guarded_release {A} (body : GwM A) i name g g1 r g' :
  slots_wf g → Gw.active g1 = Gw.active (reserve name i g) → keeps_slots body →
  try_ body (λ e, _ ← _release_instance i name; raise e) g1 = (r, g') →
  match r with
  | Ok a => Gw.active g' = Gw.active (reserve name i g) ∧ body g1 = (Ok a, g')
  | Raise _ => Gw.active g' = Gw.active g
  end.
Proof.
  intros Hwf Ha Hk. unfold try_. specialize (Hk g1). destruct (body g1) as [[a|e] g2]; simpl in Hk.
  - intros; simplify_eq. split; [congruence|done].
  - pose proof (release_reserve i name name g g2 Hwf) as Hrel.
    unfold mbind, M_bind, raise. destruct (_release_instance i name g2) as [[] g3] eqn:E; cbn [snd] in Hrel;
      intros; simplify_eq; apply Hrel; congruence.
Qed.

(** A request that did not reach its slot's owner left the slots as they were; one
    that did holds one slot of a routable instance. *)
Lemma resolve_target_slots s dns d now cancelled name request digests g r g' :
  constraints_ok d = true → slots_wf g →
  _resolve_target s dns d now cancelled name request digests g = (r, g') →
  match r with
  | Ok (t, i, w, m) => Gw.active g' = Gw.active (reserve name (ModelInstance.id i) g) ∧
      i ∈ candidates d (Model.id m) ∧ worker_of d i = Some w ∧ Model.name m = name ∧ m ∈ Db.models d ∧
      ∃ host g1 g2, pinned_host s dns name (raw_host w) g1 = (Ok host, g2) ∧ t = target_url request (raw_host w) host i
  | Raise _ => Gw.active g' = Gw.active g
  end.
Proof.
  intros Hd Hwf. unfold _resolve_target. destruct (find_by _ (Db.models d)) as [m|] eqn:Em;
    [|unfold raise; by intros; simplify_eq]. apply find_by_Some in Em as [Hm Hname%String.eqb_eq].
  unfold mbind at 1, M_bind at 1. destruct (select_instance _ _ _ _ _ g) as [r1 g1] eqn:E1.
  pose proof (select_instance_run _ _ _ _ _ _ _ _ (candidates_ids d (Model.id m) Hd) E1) as Hsel.
  destruct r1 as [[[i w]|]|e]; [| |done].
  2: { destruct Hsel as [_ Ha]. unfold raise. intros; by simplify_eq. }
  destruct Hsel as (Hi & Hw & _ & _ & Ha & _). intros Htry.
  apply (guarded_release _ (ModelInstance.id i) name g g1) in Htry; [|done|done|].
  2: { apply keeps_slots_bind; [by destruct cancelled|]. intros _.
       apply keeps_slots_bind; [apply pinned_host_keeps|auto with slots]. }
  destruct r as [x|e]; [|done]. destruct Htry as [Ha' Hb].
  apply M_bind_Ok in Hb as ([] & g2 & Hc & Hb). apply M_bind_Ok in Hb as (host & g3 & Hp & Hb).
  unfold mret, M_ret in Hb. simplify_eq. split_and!; try done. by exists host, g2, g'.
Qed.

(** A chunk that the delta parser cannot iterate: on a tracked path, JSON whose
    [choices] is a number or [true]. *)
Definition breaks (path c : string) : Prop := tracked_path path = true ∧ _content_deltas (decode_replace c) = Raise TypeError.
Lemma line_deltas_raise line e : line_deltas line = Raise e → e = TypeError.
Proof. unfold line_deltas, chunk_deltas. repeat case_match; congruence. Qed.
Lemma content_deltas_raise text e : _content_deltas text = Raise e → e = TypeError.
Proof.
  unfold _content_deltas. generalize (@nil string). induction (splitlines text) as [|line l IH]; intros acc; cbn [foldR]; [done|].
  destruct (line_deltas line) as [ds|e'] eqn:E; [apply IH|]. intros [= <-]. by eapply line_deltas_raise.
Qed.
Lemma relay_loop_sent path tail yielded chunks tail' yielded' broken :
  relay_loop path tail yielded chunks = (tail', yielded', broken) →
  ∃ sent rest, chunks = sent ++ rest ∧ yielded' = yielded ++ sent ∧ Forall (λ c, ¬ breaks path c) sent ∧
    if broken then ∃ c l, rest = c :: l ∧ breaks path c else rest = [].
Proof.
  revert tail yielded. induction chunks as [|c l IH]; intros tail yielded Hr; cbn [relay_loop] in Hr.
  { simplify_eq. exists [], []. rewrite !app_nil_r. split_and!; [done|done|constructor|done]. }
  assert (∀ tail0, ¬ breaks path c → relay_loop path tail0 (yielded ++ [c]) l = (tail', yielded', broken) → ∃ sent rest,
    c :: l = sent ++ rest ∧ yielded' = yielded ++ sent ∧ Forall (λ c, ¬ breaks path c) sent ∧
    if broken then ∃ c l, rest = c :: l ∧ breaks path c else rest = []) as Hstep.
  { intros tail0 Hc H. apply IH in H as (sent & rest & -> & -> & Hs & Hb). exists (c :: sent), rest.
    rewrite <-app_assoc. split_and!; [done|done|by constructor|done]. }
  destruct (tracked_path path) eqn:Ep; [|apply (Hstep _ ltac:(intros [? _]; congruence) Hr)].
  destruct (_content_deltas (decode_replace c)) as [ds|e] eqn:Ec; [apply (Hstep _ ltac:(intros [_ ?]; congruence) Hr)|].
  simplify_eq. exists [], (c :: l). rewrite app_nil_r. apply content_deltas_raise in Ec as E. subst e.
  split_and!; [done|done|constructor|]. by exists c, l.
Qed.
Lemma account_run today ended ctx tokens outcome g :
  ∃ g1, account today ended ctx tokens outcome g = (Ok tt, g1) ∧ Gw.active g1 = Gw.active g ∧
    Gw.usage g1 = record_request today ctx (default 0 (fst <$> tokens)) (default 0 (snd <$> tokens))
                    (monotonic_ms ended (UsageContext.started ctx)) outcome (Gw.usage g).
Proof. unfold account, mbind, M_bind, modify, mret, M_ret. destruct (UsageContext.prefix_digests ctx); by eexists. Qed.
Lemma relay_run today ended path ctx chunks fin g :
  let '(tail, sent, broken) := relay_loop path [] [] chunks in
  let tokens := _record_usage tail in
  ∃ g1, _relay today ended path ctx chunks fin g = (Ok (sent, if broken then Some TypeError else None), g1) ∧
    Gw.active g1 = Gw.active g ∧
    Gw.usage g1 = record_request today ctx (default 0 (fst <$> tokens)) (default 0 (snd <$> tokens))
                    (monotonic_ms ended (UsageContext.started ctx)) (relay_outcome broken fin tokens) (Gw.usage g).
Proof.
  unfold _relay. destruct (relay_loop path [] [] chunks) as [[tail sent] broken]. cbv zeta.
  destruct (account_run today ended ctx (_record_usage tail) (relay_outcome broken fin (_record_usage tail)) g) as (g1 & E & H).
  exists g1. split; [|done]. unfold mbind, M_bind. by rewrite E.
Qed.


(** ** Concurrent requests

    Requests interleave at their awaits; what they do to the slots happens in the
    critical sections of [_active_lock].  A state of the system is the gateway's
    state and the slots held by the requests in flight. *)
Definition held_t : Type := list uuid.
Inductive slot_step : Gw.t * held_t → Gw.t * held_t → Prop :=
  | step_select d now name digests m g g' held i w :
      constraints_ok d = true →
      select_instance d now name digests (candidates d m) g = (Ok (Some (i, w)), g') →
      slot_step (g, held) (g', ModelInstance.id i :: held)
  | step_reject d now name digests m g g' held :
      constraints_ok d = true →
      select_instance d now name digests (candidates d m) g = (Ok None, g') → slot_step (g, held) (g', held)
  | step_release g i name held1 held2 :
      slot_step (g, held1 ++ i :: held2) ((_release_instance i name g).2, held1 ++ held2)
  | step_elsewhere (m : GwM unit) g held : keeps_slots m → slot_step (g, held) ((m g).2, held).
Definition holders (i : uuid) (held : held_t) : Z := Z.of_nat (length (where_ (N.eqb i) held)).
Definition slots_inv (st : Gw.t * held_t) : Prop :=
  slots_wf st.1 ∧ ∀ i, active_on st.1 i = holders i st.2.

Lemma holders_cons i j held : holders i (j :: held) = (if (i =? j)%N then 1 else 0) + holders i held.
Proof. unfold holders. cbn [where_ List.filter]. destruct (i =? j)%N; cbn [length]; unfold where_; lia. Qed.
Lemma holders_app i h1 h2 : holders i (h1 ++ h2) = holders i h1 + holders i h2.
Proof. unfold holders. rewrite where_app, length_app. lia. Qed.

Lemma reserve_inv g g' i name held :
  slots_inv (g, held) → Gw.active g' = Gw.active (reserve name i g) → slots_inv (g', i :: held).
Proof.
  intros [Hwf Hc] Ha. cbn [fst snd] in *. unfold slots_inv, slots_wf, active_on in *. cbn [fst snd]. rewrite Ha.
  cbn [reserve Gw.set_gauge Gw.set_active Gw.active]. split.
  - intros j n. destruct (decide (i = j)) as [<-|Hne].
    + rewrite lookup_insert_eq. intros; simplify_eq. rewrite Hc. unfold holders. lia.
    + rewrite lookup_insert_ne by done. apply Hwf.
  - intros j. rewrite holders_cons. destruct (N.eqb_spec j i) as [->|Hne].
    + rewrite lookup_insert_eq. cbn [from_option]. unfold id. rewrite Hc. lia.
    + rewrite lookup_insert_ne by done. rewrite Hc. lia.
Qed.
Lemma release_inv g i name h1 h2 :
  slots_inv (g, h1 ++ i :: h2) → slots_inv ((_release_instance i name g).2, h1 ++ h2).
Proof.
  intros [Hwf Hc]. cbn [fst snd] in *. unfold slots_inv, slots_wf, active_on in *. cbn [fst snd]. rewrite release_active.
  assert (∀ j, holders j (h1 ++ i :: h2) = (if (j =? i)%N then 1 else 0) + holders j (h1 ++ h2)) as Hh.
  { intros j. rewrite !holders_app, holders_cons. lia. }
  assert (0 <= holders i (h1 ++ h2)) as Hpos by (unfold holders; lia).
  pose proof (Hc i) as Hci. rewrite Hh, N.eqb_refl in Hci.
  destruct (Gw.active g !! i) as [n|] eqn:E; cbn [from_option] in *; unfold id in *; [|lia].
  destruct (Z.leb_spec (n - 1) 0); split.
  - intros j n' [_ Hj]%lookup_delete_Some. by apply (Hwf j).
  - intros j. pose proof (Hc j) as Hcj. rewrite Hh in Hcj. destruct (N.eqb_spec j i) as [Ej|Hne].
    + rewrite Ej, lookup_delete_eq. cbn. lia.
    + rewrite lookup_delete_ne by done. rewrite Hcj. lia.
  - intros j n'. destruct (decide (i = j)) as [<-|Hne].
    + rewrite lookup_insert_eq. intros; simplify_eq. lia.
    + rewrite lookup_insert_ne by done. apply Hwf.
  - intros j. pose proof (Hc j) as Hcj. rewrite Hh in Hcj. destruct (N.eqb_spec j i) as [Ej|Hne].
    + rewrite Ej, lookup_insert_eq. cbn. lia.
    + rewrite lookup_insert_ne by done. rewrite Hcj. lia.
Qed.

(** C17 Under any interleaving of concurrent requests, in any order of their
    completions, the active count of every instance is the number of requests in
    flight that hold its slot; when none is in flight the counts are all gone. *)
Theorem active_counts_in_flight g held :
  rtc slot_step (Gw.init, []) (g, held) →
  (∀ i, active_on g i = holders i held) ∧ (held = [] → Gw.active g = ∅).
Proof.
  intros Hr. assert (slots_inv (g, held)) as [Hwf Hc].
  { remember (Gw.init, []) as st0 eqn:E0. remember (g, held) as st1 eqn:E1. clear E1.
    assert (slots_inv st0) as H0 by (rewrite E0; split; [|done]; intros i n Hi; cbn in Hi; by rewrite lookup_empty in Hi).
    clear E0. induction Hr as [|x y z Hxy _ IH]; [done|]. apply IH. clear IH z.
    destruct Hxy as [d now name digests m g1 g2 h i w Hd Hs|d now name digests m g1 g2 h Hd Hs|g1 i name h1 h2|m g1 h Hk].
    - pose proof (select_instance_run _ _ _ _ _ _ _ _ (candidates_ids d m Hd) Hs) as (_ & _ & _ & _ & Ha & _).
      by eapply reserve_inv.
    - pose proof (select_instance_run _ _ _ _ _ _ _ _ (candidates_ids d m Hd) Hs) as [_ Ha].
      destruct H0 as [H1 H2]. unfold slots_inv, slots_wf, active_on in *. cbn [fst snd] in *. by rewrite Ha.
    - by apply release_inv.
    - destruct H0 as [H1 H2]. unfold slots_inv, slots_wf, active_on in *. cbn [fst snd] in *. by rewrite Hk. }
  cbn [fst snd] in *. split; [done|]. intros ->. apply map_eq. intros i. rewrite lookup_empty.
  destruct (Gw.active g !! i) as [n|] eqn:E; [|done]. specialize (Hwf i n E). specialize (Hc i).
  unfold active_on in Hc. rewrite E in Hc. change (n = 0) in Hc. lia.
Qed.

(** C22 Routing.  The chosen instance serves the requested model: it is live, has a
    port and is the head of its group if it has one; no other such instance
    overlaps the prompt more, and among those that overlap as much none has fewer
    active requests, or as many and was assigned less recently.  It is then
    stamped as the latest assigned. *)
Theorem select_instance_policy d now name digests m g i w g' :
  constraints_ok d = true →
  select_instance d now name digests (candidates d m) g = (Ok (Some (i, w)), g') →
  (i ∈ Db.instances d ∧ routable m i = true ∧ worker_of d i = Some w) ∧
  (∀ j, j ∈ Db.instances d → routable m j = true →
     (row_overlap now digests g j < row_overlap now digests g i)%nat ∨
     row_overlap now digests g j = row_overlap now digests g i ∧
     (load g i = load g j ∨ (load g i).1 < (load g j).1 ∨
      (load g i).1 = (load g j).1 ∧ (load g i).2 <= (load g j).2)) ∧
  active_on g' (ModelInstance.id i) = active_on g (ModelInstance.id i) + 1 ∧
  Gw.last_assigned g' !! ModelInstance.id i = Some (Gw.assign_seq g) ∧ Gw.assign_seq g' = Gw.assign_seq g + 1.
Proof.
  intros Hd Hs.
  pose proof (select_instance_run _ _ _ _ _ _ _ _ (candidates_ids d m Hd) Hs) as (Hi & Hw & Hov & Hload & Ha & Hl & Hq).
  apply elem_of_candidates in Hi as [Hi Hr]. split_and!; [done|done|done| | |by rewrite Hl, lookup_insert_eq|done].
  - intros j Hj Hrj. pose proof (proj2 (elem_of_candidates d m j) (conj Hj Hrj)) as Hc.
    specialize (Hov j Hc). specialize (Hload j Hc).
    destruct (Nat.eq_dec (row_overlap now digests g j) (row_overlap now digests g i)) as [E|E]; [right|left; lia].
    split; [done|]. specialize (Hload E). unfold load_ltb in Hload. apply orb_false_iff in Hload as [H1 H2].
    apply Z.ltb_ge in H1. apply andb_false_iff in H2. right. rewrite Z.eqb_neq, Z.ltb_ge in H2. lia.
  - unfold active_on. rewrite Ha. cbn [reserve Gw.set_gauge Gw.set_active Gw.active]. by rewrite lookup_insert_eq.
Qed.

(** ** The upstream *)

(** C9 Server-side request forgery is shut out end to end.  Outside development
    and with no allowlist, any URL the gateway connects to for a request is made of
    the worker's scheme, a literal address that is in no blocked network (and
    not an IPv4-mapped form of one), the instance's port and the request's own path
    and query: no name is left to be resolved again at connect time. *)
Theorem resolve_target_is_pinned s dns d now cancelled name request digests g target i w m g' :
  constraints_ok d = true → slots_wf g →
  gateway_upstream_allowlist_entries s = [] → Settings.environment s ≠ "development" →
  _resolve_target s dns d now cancelled name request digests g = (Ok (target, i, w, m), g') →
  ∃ a, target = target_url request (raw_host w) (_ip_to_pin a) i ∧
       _ip_is_blocked a = false ∧ _ip_is_blocked (_unwrap_ipv4_mapped a) = false.
Proof.
  intros Hd Hwf Hempty Henv H. apply resolve_target_slots in H as (_ & _ & _ & _ & _ & host & g1 & g2 & Hp & ->); [|done|done].
  unfold pinned_host in Hp. apply M_bind_Ok in Hp as (v & g3 & Hv & Hp).
  assert (resolve_and_validate dns (raw_host w) s = Ok v) as Hres.
  { unfold try_, lift_result in Hv. destruct (resolve_and_validate _ _ _) as [v'|e]; [by simplify_eq|].
    unfold raise in Hv. destruct e; by simplify_eq. }
  apply M_bind_Ok in Hp as (fb & g4 & _ & Hp).
  assert (v = host) as ->.
  { destruct (String.eqb (scheme_of (raw_host w)) "https" && negb (String.eqb v fb)).
    - rewrite (proj2 (String.eqb_neq _ _) Henv) in Hp. unfold hostname_in_allowlist in Hp. by rewrite Hempty in Hp.
    - unfold mret, M_ret in Hp. by simplify_eq. }
  destruct (resolve_pinned dns (raw_host w) s host Hempty Henv Hres) as (a & -> & ? & ?). by exists a.
Qed.

(** ** Authentication *)

(** C27 Who may call the gateway: exactly a bearer whose SHA-256 is the hash of a
    stored key that is not revoked, belongs to an active user and has the
    inference scope.  A refused caller changes nothing; for an accepted one, the
    key's use is stamped unless it was stamped within the last minute. *)
Theorem get_api_key_spec d now credentials g key user g' :
  constraints_ok d = true →
  get_api_key d now credentials g = (Ok (key, user), g') ↔
  (∃ c, credentials = Some c ∧ ApiKey.key_hash key = sha256_hex c ∧ key ∈ Db.api_keys d ∧
        ApiKey.revoked_at key = None ∧ find_user d (ApiKey.user_id key) = Some user ∧
        User.is_active user = true ∧ "inference" ∈ ApiKey.scopes key) ∧
  g' = (if stale_stamp now (ApiKey.last_used_at key)
        then Gw.set_last_used_dirty (<[ApiKey.id key := now]> (Gw.last_used_dirty g)) g else g).
Proof.
  intros Hd. assert (NoDup (map ApiKey.key_hash (Db.api_keys d))) as Hh by (by split_constraints Hd).
  assert (∀ l : list string, existsb (String.eqb "inference") l = true ↔ "inference" ∈ l) as Hex.
  { intros l. rewrite existsb_exists. setoid_rewrite <-list_elem_of_In. setoid_rewrite String.eqb_eq.
    split; [by intros (x & ? & <-)|by exists "inference"]. }
  unfold get_api_key. split.
  - destruct credentials as [c|]; [|done]. destruct (find_by _ _) as [k|] eqn:Ek; [|done].
    apply find_by_Some in Ek as [Hk Hc%String.eqb_eq].
    destruct (ApiKey.revoked_at k) eqn:Er; [done|]. destruct (find_user d (ApiKey.user_id k)) as [u|] eqn:Eu; [|done].
    destruct (User.is_active u) eqn:Ea; [|done]. destruct (existsb _ _) eqn:Es; [|done]. simpl.
    intros H. apply M_bind_Ok in H as ([] & g1 & H1 & H2). unfold mret, M_ret in H2. simplify_eq.
    split; [exists c; split_and!; try done; by apply Hex|].
    destruct (stale_stamp _ _); unfold modify, mret, M_ret in H1; by simplify_eq.
  - intros [(c & -> & Hc & Hk & Hr & Hu & Ha & Hs) ->].
    assert (find_by (λ k, String.eqb (ApiKey.key_hash k) (sha256_hex c)) (Db.api_keys d) = Some key) as ->.
    { destruct (find_by _ _) as [k|] eqn:E.
      - apply find_by_Some in E as [Hk' Hc'%String.eqb_eq]. f_equal.
        apply (NoDup_map_inj_key ApiKey.key_hash (Db.api_keys d)); [done|done|done|congruence].
      - rewrite find_by_None in E. specialize (E key Hk). by apply String.eqb_neq in E. }
    rewrite Hr, Hu, Ha, (proj2 (Hex _) Hs). simpl. by destruct (stale_stamp _ _).
Qed.

(** ** Bodies *)
Lemma append_length (a b : string) : String.length (a +:+ b) = (String.length a + String.length b)%nat.
Proof. induction a; simpl; [done|]. by rewrite IHa. Qed.
Lemma read_chunks_spec limit body chunks :
  Z.of_nat (String.length body) <= limit →
  read_chunks limit body chunks =
  if limit <? Z.of_nat (String.length (body +:+ join "" chunks)) then Raise body_too_large
  else Ok (body +:+ join "" chunks).
Proof.
  assert (∀ c l, join "" (c :: l) = c +:+ join "" l) as Hj.
  { intros c [|x l]; simpl; [by rewrite append_nil_r|done]. }
  revert body. induction chunks as [|c l IH]; intros body Hb; cbn [read_chunks].
  - cbn [join]. rewrite append_nil_r. by destruct (Z.ltb_spec limit (Z.of_nat (String.length body))); [lia|].
  - rewrite Hj, <-append_assoc_str. destruct (Z.ltb_spec limit (Z.of_nat (String.length (body +:+ c)))) as [H|H].
    + destruct (Z.ltb_spec limit (Z.of_nat (String.length ((body +:+ c) +:+ join "" l)))) as [H'|H']; [done|].
      rewrite (append_length (body +:+ c)) in H'. lia.
    + by apply IH.
Qed.

(** The body limit: a request is read exactly when neither its declared length
    nor what it streams exceeds the limit, and what is read is what was streamed;
    otherwise it is refused with 413. *)
Theorem read_body_limited_spec request limit :
  0 <= limit →
  let body := join "" (Request.chunks request) in
  _read_body_limited request limit =
  if (limit <? declared_length (Request.content_length request)) || (limit <? Z.of_nat (String.length body))
  then Raise body_too_large else Ok body.
Proof.
  intros Hl body. unfold _read_body_limited, declared_length. rewrite read_chunks_spec by (simpl; lia).
  change ("" +:+ join "" (Request.chunks request)) with body.
  destruct (Request.content_length request); [|by destruct (Z.ltb_spec limit 0); [lia|]].
  by destruct (limit <? _).
Qed.

(** ** The relay *)
Definition tail_fits (tail : list string) : Prop := (length tail <= 8)%nat ∧ tail_size tail <= 16384.
Lemma trim_tail_fits tail : tail_fits (trim_tail tail) ∧ ∃ dropped, tail = dropped ++ trim_tail tail.
Proof.
  induction tail as [|c tail IH]; [split; [split; [simpl; lia|done]|by exists []]|]. cbn [trim_tail].
  destruct (Z.ltb_spec 8 (Z.of_nat (length (c :: tail)))) as [H|H]; cbn [orb];
    [|destruct (Z.ltb_spec 16384 (tail_size (c :: tail))) as [H'|H']].
  1,2: destruct IH as [? [dr E]]; split; [done|]; exists (c :: dr); exact (f_equal (cons c) E).
  split; [split; [lia|done]|by exists []].
Qed.

(** [tail] is the longest end of [seen] that fits. *)
Definition longest_fitting_end (seen tail : list string) : Prop :=
  ∃ dropped, seen = dropped ++ tail ∧ tail_fits tail ∧ ∀ before c, dropped = before ++ [c] → ¬ tail_fits (c :: tail).
Lemma tail_size_app a b : tail_size (a ++ b) = tail_size a + tail_size b.
Proof. unfold tail_size, sum_by. induction a as [|x a IH]; [done|]. cbn in *. lia. Qed.
Lemma tail_fits_app a b : tail_fits (a ++ b) → tail_fits a ∧ tail_fits b.
Proof.
  unfold tail_fits. rewrite tail_size_app, length_app.
  assert (∀ l, 0 <= tail_size l) as Hpos; [|pose proof (Hpos a); pose proof (Hpos b); lia].
  unfold tail_size, sum_by. induction l as [|x l IH]; cbn in *; lia.
Qed.
Lemma trim_tail_longest tail : longest_fitting_end tail (trim_tail tail).
Proof.
  induction tail as [|c tail IH]; [exists []; split_and!; [done|split; [simpl; lia|done]|by intros [|? ?]]|]. cbn [trim_tail].
  destruct ((8 <? Z.of_nat (length (c :: tail))) || (16384 <? tail_size (c :: tail))) eqn:E.
  - destruct IH as (dr & E1 & Hf & Hm). exists (c :: dr). split; [exact (f_equal (cons c) E1)|]. split; [done|].
    intros [|x bf] c' [= <- Hd]; [|by apply (Hm bf c')]. subst dr. intros Hfit. cbn [app] in E1. rewrite <-E1 in Hfit.
    unfold tail_fits in Hfit. apply orb_true_iff in E as [E|E]; lia.
  - exists []. split; [done|]. apply orb_false_iff in E as [E1 E2]. split; [unfold tail_fits; lia|by intros [|? ?]].
Qed.
Lemma longest_step seen tail text :
  longest_fitting_end seen tail → longest_fitting_end (seen ++ [text]) (trim_tail (tail ++ [text])).
Proof.
  intros (dr & -> & Hf & Hm). destruct (trim_tail_longest (tail ++ [text])) as (dr' & E & Hf' & Hm').
  exists (dr ++ dr'). split; [rewrite <-!app_assoc; f_equal; exact E|]. split; [done|]. intros bf c Hbf.
  destruct dr' as [|x dr' _] using rev_ind.
  - rewrite app_nil_r in Hbf. rewrite app_nil_l in E. rewrite <-E. intros Hfit.
    apply (Hm bf c Hbf). exact (proj1 (tail_fits_app (c :: tail) [text] Hfit)).
  - rewrite app_assoc in Hbf. apply app_inj_tail in Hbf as [_ ->]. by apply (Hm' dr' c).
Qed.

(** The texts the relay looks at: those of the chunks it sent and of one that broke. *)
Definition texts_seen (path : string) (chunks : list string) : list string :=
  if tracked_path path then map decode_replace chunks else [].
Lemma relay_loop_tail path seen tail yielded chunks tail' yielded' broken :
  longest_fitting_end seen tail → relay_loop path tail yielded chunks = (tail', yielded', broken) →
  ∃ taken rest, chunks = taken ++ rest ∧ longest_fitting_end (seen ++ texts_seen path taken) tail' ∧
    if broken then ∃ sent c, taken = sent ++ [c] ∧ yielded' = yielded ++ sent else rest = [] ∧ yielded' = yielded ++ chunks.
Proof.
  unfold texts_seen. revert seen tail yielded. induction chunks as [|c l IH]; intros seen tail yielded Ht Hr; cbn [relay_loop] in Hr.
  { simplify_eq. exists [], []. rewrite !app_nil_r. split_and!; [done| |done..]. by destruct (tracked_path path); rewrite ?app_nil_r. }
  destruct (tracked_path path) eqn:Ep.
  - pose proof (longest_step _ _ (decode_replace c) Ht) as Ht'. destruct (_content_deltas _) as [ds|e] eqn:Ec.
    + apply (IH _ _ _ Ht') in Hr as (taken & rest & -> & H1 & H2). exists (c :: taken), rest. rewrite <-app_assoc in H1.
      split_and!; [done|exact H1|]. destruct broken; [|by rewrite <-app_assoc in H2].
      destruct H2 as (sent & c' & -> & ->). exists (c :: sent), c'. by rewrite <-app_assoc.
    + simplify_eq. exists [c], l. split_and!; [done|exact Ht'|]. exists [], c. by rewrite app_nil_r.
  - apply (IH seen) in Hr as (taken & rest & -> & H1 & H2); [|done]. exists (c :: taken), rest.
    split_and!; [done|done|]. destruct broken; [|by rewrite <-app_assoc in H2].
    destruct H2 as (sent & c' & -> & ->). exists (c :: sent), c'. by rewrite <-app_assoc.
Qed.

(** C28 The relay is transparent and accounts once.  The client is sent the upstream's
    chunks, all of them and in order, unless one breaks the delta parser, in which case
    it is sent the chunks before it and the stream raises.  However the stream ends,
    the request is recorded exactly once: with the tokens found in the longest end of
    the decoded chunks, the broken one included, that has at most 8 chunks and 16384
    characters; and with the outcome that names the end: a failed upstream, a client
    that left between two chunks, a complete stream with or without usage.  A client
    that leaves while the next chunk is awaited, and a chunk that breaks the parser, are
    counted as ok. *)
Theorem relay_transparent today ended path ctx chunks fin g r g' :
  _relay today ended path ctx chunks fin g = (r, g') →
  ∃ sent rest error tail, r = Ok (sent, error) ∧ chunks = sent ++ rest ∧ Forall (λ c, ¬ breaks path c) sent ∧
    longest_fitting_end (texts_seen path (sent ++ take 1 rest)) tail ∧
    match error with
    | None => rest = []
    | Some e => e = TypeError ∧ ∃ c l, rest = c :: l ∧ breaks path c
    end ∧
    let usage := _record_usage tail in
    let outcome := match error, fin, usage with
                   | Some _, _, _ => "ok"
                   | None, UpstreamFailed, _ => "upstream_error"
                   | None, ClientGone, _ => "client_disconnect"
                   | None, ClientGoneWaiting, _ => "ok"
                   | None, Finished, Some _ => "ok"
                   | None, Finished, None => "no_usage_chunk"
                   end in
    Gw.usage g' = record_request today ctx (default (0, 0) usage).1 (default (0, 0) usage).2
                    (monotonic_ms ended (UsageContext.started ctx)) outcome (Gw.usage g) ∧
    Gw.active g' = Gw.active g.
Proof.
  intros H. pose proof (relay_run today ended path ctx chunks fin g) as Hr.
  destruct (relay_loop path [] [] chunks) as [[tail yielded] broken] eqn:El. destruct Hr as (g1 & E & Ha & Hu).
  rewrite E in H. injection H as <- <-.
  pose proof (relay_loop_sent _ _ _ _ _ _ _ El) as (sent & rest & Hc & -> & Hs & Hb).
  apply (relay_loop_tail _ []) in El as (taken & rest' & Hc' & Ht & Hb');
    [|exists []; split_and!; [done|split; [simpl; lia|done]|by intros [|? ?]]].
  rewrite app_nil_l in *. exists sent, rest, (if broken then Some TypeError else None), tail.
  assert (taken = sent ++ take 1 rest) as <-.
  { destruct broken.
    - destruct Hb as (c & l & -> & _), Hb' as (sent' & c' & -> & Es). cbn [app] in Es. subst sent'. rewrite Hc, <-app_assoc in Hc'.
      apply app_inv_head in Hc' as [= -> _]. done.
    - destruct Hb' as [-> _]. subst rest. rewrite !app_nil_r in Hc, Hc'. change (take 1 (@nil string)) with (@nil string). rewrite app_nil_r. congruence. }
  split; [done|]. split; [done|]. split; [done|]. split; [done|]. split; [by destruct broken|]. split; [|done].
  rewrite Hu. unfold relay_outcome.
  destruct (_record_usage tail) as [[ti to_]|], broken, fin; done.
Qed.

(** ** The rewritten body *)
Lemma json_norm_get fr k kvs : jget k (map (λ kv, (kv.1, json_norm fr kv.2)) kvs) = json_norm fr <$> jget k kvs.
Proof.
  unfold jget. induction kvs as [|[k' v] l IH]; [done|]. cbn [map dict_get fst snd]. by case_decide.
Qed.
Lemma dict_set_wf k v kvs : text k → json_wf v → json_wf (JObj kvs) → json_wf (JObj (dict_set k v kvs)).
Proof.
  intros Hk Hv [Hnd Hw]. split; [by apply dict_set_NoDup|]. clear Hnd. induction kvs as [|[k' v'] l IH]; cbn in *; [naive_solver|].
  case_decide; cbn; naive_solver.
Qed.
Definition include_usage : json := JObj [("include_usage", JBool true)].
(** What the upstream is sent instead of a streamed chat request.  A body that is
    no JSON object, or that carries stream options of its own, goes through byte for
    byte.  Any other is replaced by the text of the same object with
    [stream_options.include_usage] set: read back, every other field has the value
    the client sent, its floats respelled by [repr].  Rewriting a second time changes
    nothing. *)
Theorem with_stream_usage_preserves fr raw_body :
  (∀ s, float_literal s → float_literal (fr s)) →
  let sent := _with_stream_usage fr raw_body in
  match json_loads raw_body with
  | Some (JObj kvs) =>
      has_stream_options kvs = true ∧ sent = raw_body
      ∨ (json_wf (JObj kvs) →
         (∃ kvs', json_loads sent = Some (JObj kvs') ∧ jget "stream_options" kvs' = Some include_usage ∧
            ∀ k, k ≠ "stream_options" → jget k kvs' = json_norm fr <$> jget k kvs) ∧
         _with_stream_usage fr sent = sent)
  | _ => sent = raw_body
  end.
Proof.
  intros Hfr sent. destruct (json_loads raw_body) as [[| | | | | |kvs]|] eqn:E;
    try by (unfold sent, _with_stream_usage; rewrite E).
  destruct (has_stream_options kvs) eqn:Et; [left; unfold sent, _with_stream_usage; by rewrite E, Et|]. right. intros Hw.
  fold include_usage. set (kvs1 := dict_set "stream_options" include_usage kvs).
  assert (json_wf (JObj kvs1)) as Hw1.
  { apply dict_set_wf; [by apply ascii_text| |done]. split; [by apply NoDup_singleton|].
    cbn. split; [|done]. split; [by apply ascii_text|done]. }
  pose proof (proj2 (json_round_trip fr Hfr (JObj kvs1) Hw1)) as Hr.
  assert (sent = json_dumps fr (JObj kvs1)) as Es by (unfold sent, _with_stream_usage; by rewrite E, Et).
  cbn [json_norm] in Hr.
  assert (∀ k, jget k (map (λ kv, (kv.1, json_norm fr kv.2)) kvs1) =
            if decide (k = "stream_options") then Some include_usage else json_norm fr <$> jget k kvs) as Hget.
  { intros k. rewrite json_norm_get. unfold kvs1, jget. rewrite dict_get_set. by case_decide. }
  split.
  - eexists. split; [rewrite Es; exact Hr|]. split; [by rewrite Hget, decide_True|]. intros k Hk. by rewrite Hget, decide_False.
  - unfold _with_stream_usage at 1. rewrite Es, Hr. unfold has_stream_options. by rewrite Hget, decide_True.
Qed.

(** A response longer than the tail in one chunk: its usage is not found. *)
Definition padded_response (n : nat) : string :=
  q "{'data': '" +:+ String.concat "" (replicate n "a") +:+ q "', 'usage': {'prompt_tokens': 7, 'completion_tokens': 0}}".
Lemma long_chunk_loses_usage :
  _record_usage [padded_response 10] = Some (7, 0) ∧
  relay_loop "/v1/embeddings" [] [] [padded_response 10] = ([padded_response 10], [padded_response 10], false) ∧
  (let '(tail, yielded, _) := relay_loop "/v1/embeddings" [] [] [padded_response 16400] in
   bool_decide (yielded = [padded_response 16400]) = true ∧ tail = [] ∧ _record_usage tail = None).
Proof. vm_compute. done. Qed.

(** A JSON request on one of the gateway's paths. *)
Definition json_request (path body : string) : Request.t :=
  Request.mk "POST" path "" None (Some "application/json") None [body].
(** A prompt with a lone surrogate, as JSON may spell it, cannot be encoded. *)
Lemma surrogate_prompt_raises fr :
  prompt_digests fr (json_request "/v1/chat/completions" "")
    (q "{'model': 'm', 'messages': [{'role': 'user', 'content': '\ud800'}]}") = Raise (ValueError "surrogates not allowed").
Proof. by vm_compute. Qed.
(** A request whose [messages] is a number escapes the handler's error mapping. *)
Lemma numeric_messages_raise fr :
  prompt_digests fr (json_request "/v1/chat/completions" "") (q "{'model': 'm', 'messages': 5}") = Raise TypeError.
Proof. vm_compute. done. Qed.

(** ** Witnesses *)
Module GwSample.
Definition key : ApiKey.t := ApiKey.mk 4 3 "k" (sha256_hex "inf-abc") ["inference"] None None 0.
Definition d : Db.t := Db.set_users [User.mk 3 "ann" None "" "user" true None None] (Db.set_api_keys [key] Sample.db).
(** A public worker, for the production settings. *)
Definition d_public : Db.t :=
  Db.set_workers (update_where (λ w, (Worker.id w =? 1)%N) (Worker.set_address (Some "http://93.184.216.34")) (Db.workers d)) d.
Definition body : string :=
  q "{'model': 'org/model', 'stream': true, 'messages': [{'role': 'user', 'content': 'hi'}]}".
Definition request : Request.t := json_request "/v1/chat/completions" body.
Definition chunk : string := q "data: {'choices': [{'delta': {'content': 'hey'}}], 'usage': {'prompt_tokens': 7, 'completion_tokens': 2}}".
Definition send (r : Upstream.request) : Upstream.outcome :=
  Upstream.Answered (Upstream.mk_response 200 (Some "text/event-stream") [chunk] ClientGone).
Definition user : User.t := User.mk 3 "ann" None "" "user" true None None.
Definition dns (_ : string) : option (list string) := None.
Definition proxy (cancelled : bool) : result Response.t * Gw.t :=
  _proxy Settings.default dns id d 20 1000 send 1000 cancelled request body "org/model" key user Gw.init.
End GwSample.

Lemma slots_wf_init : slots_wf Gw.init.
Proof. intros i n Hi. cbn in Hi. by rewrite lookup_empty in Hi. Qed.

(** One malformed chunk and the instance carries the request for ever. *)
Definition numeric_choices (_ : Upstream.request) : Upstream.outcome :=
  Upstream.Answered (Upstream.mk_response 200 (Some "text/event-stream") [q "data: {'choices': 5}"] Finished).
Lemma broken_chunk_leaks_slot :
  match _proxy Settings.default GwSample.dns id GwSample.d 20 1000 numeric_choices 1000 false GwSample.request
          GwSample.body "org/model" GwSample.key GwSample.user Gw.init with
  | (Ok resp, g) =>
      let '(out, g') := run_response 20 5000 resp g in out = Ok ([], Some TypeError) ∧ active_on g' 100 = 1
  | _ => False
  end.
Proof. by vm_compute. Qed.

Definition sample_select : result (option (ModelInstance.t * Worker.t)) * Gw.t :=
  select_instance GwSample.d 10 "org/model" ["a"] (candidates GwSample.d 7) Gw.init.
Lemma active_counts_in_flight_witness :
  active_on sample_select.2 100 = 1 ∧ Gw.active (_release_instance 100 "org/model" sample_select.2).2 = ∅.
Proof.
  assert (rtc slot_step (Gw.init, []) (sample_select.2, [100%N])) as H1.
  { apply rtc_once. destruct sample_select as [[[[i w]|]|e] g] eqn:E; [|exfalso..].
    2, 3: apply (f_equal fst) in E; vm_compute in E; congruence.
    assert (ModelInstance.id i = 100%N) as <-.
    { apply (f_equal (λ x, match x.1 with Ok (Some (i, _)) => ModelInstance.id i | _ => 0%N end)) in E.
      cbn [fst] in E. rewrite <-E. by vm_compute. }
    apply (step_select GwSample.d 10 "org/model" ["a"] 7 Gw.init g [] i w); [by vm_compute|exact E]. }
  split; [by apply (proj1 (active_counts_in_flight _ _ H1) 100%N)|].
  apply (active_counts_in_flight (_release_instance 100 "org/model" sample_select.2).2 []); [|done].
  eapply rtc_r; [exact H1|]. apply (step_release sample_select.2 100 "org/model" [] []).
Defined.

Lemma select_instance_policy_witness :
  ∃ i w g', sample_select = (Ok (Some (i, w)), g') ∧ active_on g' (ModelInstance.id i) = 1.
Proof.
  destruct sample_select as [[[[i w]|]|e] g] eqn:E; [|exfalso..].
  2, 3: apply (f_equal fst) in E; vm_compute in E; congruence.
  exists i, w, g. split; [done|].
  destruct (select_instance_policy GwSample.d 10 "org/model" ["a"] 7 Gw.init i w g) as (_ & _ & H & _);
    [by vm_compute|exact E|]. rewrite H. unfold active_on. cbn [Gw.init Gw.active]. by rewrite lookup_empty.
Defined.

Definition sample_resolve : result (string * ModelInstance.t * Worker.t * Model.t) * Gw.t :=
  _resolve_target Settings.production GwSample.dns GwSample.d_public 10 false "org/model" GwSample.request [] Gw.init.
Lemma resolve_target_is_pinned_witness :
  ∃ i w m g', sample_resolve = (Ok ("http://93.184.216.34:8010/v1/chat/completions", i, w, m), g') ∧
    ∃ a, "http://93.184.216.34:8010/v1/chat/completions" = target_url GwSample.request (raw_host w) (_ip_to_pin a) i ∧
         _ip_is_blocked a = false.
Proof.
  destruct sample_resolve as [[[[[t i] w] m]|e] g] eqn:E.
  - assert (t = "http://93.184.216.34:8010/v1/chat/completions") as ->.
    { apply (f_equal (λ x, match x.1 with Ok (t, _, _, _) => t | _ => "" end)) in E. cbn [fst] in E. rewrite <-E.
      by vm_compute. }
    exists i, w, m, g. split; [done|].
    destruct (resolve_target_is_pinned Settings.production GwSample.dns GwSample.d_public 10 false "org/model"
      GwSample.request [] Gw.init _ i w m g ltac:(by vm_compute) slots_wf_init
      ltac:(by vm_compute) ltac:(by vm_compute) E) as (a & ? & ? & _). by exists a.
  - exfalso. apply (f_equal fst) in E. vm_compute in E. congruence.
Defined.

Lemma get_api_key_spec_witness :
  ∃ g', get_api_key GwSample.d 100000000 (Some "inf-abc") Gw.init = (Ok (GwSample.key, GwSample.user), g') ∧
        Gw.last_used_dirty g' !! 4%N = Some 100000000.
Proof.
  eexists. split.
  - apply get_api_key_spec; [by vm_compute|]. split; [|reflexivity]. exists "inf-abc".
    split_and!; try reflexivity; vm_compute; constructor.
  - by vm_compute.
Defined.

Lemma read_body_limited_spec_witness :
  _read_body_limited (Request.mk "POST" "/" "" None None (Some "3") ["ab"; "cd"]) 4 = Ok "abcd" ∧
  _read_body_limited (Request.mk "POST" "/" "" None None None ["ab"; "cd"]) 3 = Raise body_too_large.
Proof. split; rewrite read_body_limited_spec by lia; by vm_compute. Defined.

Definition sample_relay : result (list string * option exn) * Gw.t :=
  _relay 20 5000 "/v1/chat/completions" (usage_context 1000 GwSample.key Sample.model "org/model"
    (Sample.instance 100 "running" "running" 1 0 8010) []) [GwSample.chunk] ClientGone Gw.init.
Lemma relay_transparent_witness :
  ∃ tail, sample_relay.1 = Ok ([GwSample.chunk], None) ∧ longest_fitting_end [GwSample.chunk] tail ∧
    dict_get (3%N, 4%N, 7%N, 20) (Buffer.pending (Gw.usage sample_relay.2)) = Some (Accum.mk 1 7 2 4).
Proof.
  destruct sample_relay as [r g] eqn:E.
  destruct (relay_transparent _ _ _ _ _ _ _ _ _ E) as (sent & rest & error & tail & -> & Hc & Hs & Ht & He & _).
  exists tail. pose proof E as E1. apply (f_equal fst) in E1. vm_compute in E1. injection E1 as <- <-.
  cbn [fst]. subst rest. split; [done|]. split.
  - rewrite app_nil_r in Ht. exact Ht.
  - apply (f_equal (λ x, Gw.usage x.2)) in E. cbn [snd] in E. cbn [snd]. rewrite <-E. by vm_compute.
Defined.

Lemma with_stream_usage_preserves_witness :
  let sent := _with_stream_usage id GwSample.body in
  (∃ kvs', json_loads sent = Some (JObj kvs') ∧ jget "stream_options" kvs' = Some include_usage ∧
     jget "model" kvs' = Some (JStr "org/model")) ∧ _with_stream_usage id sent = sent.
Proof.
  pose proof (with_stream_usage_preserves id GwSample.body ltac:(done)) as H.
  destruct (json_loads GwSample.body) as [v|] eqn:E; [|by vm_compute in E].
  vm_compute in E. injection E as <-. destruct H as [[H _]|H]; [by vm_compute in H|].
  destruct H as [(kvs' & Hl & Hs & Hk) Hid].
  - cbn. split; [vm_decide|]. repeat split; try (by apply ascii_text). vm_decide.
  - split; [|done]. exists kvs'. split; [done|]. split; [done|]. by rewrite Hk.
Defined.
