(* ===== verification/OpenApi.v ===== *)
(** * The gateway's contract ([server/inferna_server/api/gateway.py],
    [scripts/export-openapi.py])

    The OpenAPI tables the gateway's routes declare, what the export script makes of
    the specification FastAPI generates from them, and the script with its [--check].
    The theorems say that the export is idempotent, and that every error a gateway
    endpoint raises for its client is in the contract, in code and in shape, but for
    one. *)

From S2P Require Import Prelude PyStr Uuid Models Config UpstreamGuard Json PrefixCache Usage Gateway.
Local Open Scope Z_scope.

(** ** The tables *)
Definition describe (text : string) : json := JObj [("description", JStr text)].
Definition string_type : json := JObj [("type", JStr "string")].
Definition reference (name : string) : json := JObj [("$ref", JStr ("#/components/schemas/" +:+ name))].
Definition json_content (schema : json) : json := JObj [("application/json", JObj [("schema", schema)])].
Definition validation_error : json := JObj [("description", JStr "Validation error"); ("content", json_content (reference "HTTPValidationError"))].
Definition bad_request : json := describe "Bad request — missing or invalid model".
Definition bad_key : json := describe "Missing/invalid/revoked/inactive API key".
Definition no_scope : json := describe "API key lacks inference scope".
Definition unknown_model : json := describe "Model unknown or no running instance".
Definition too_large : json := describe "Request body exceeds size limit".
Definition unreachable : json := describe "Upstream unreachable or target not allowed".
Definition responses_with (success : json) : list (Z * json) :=
  [(200, success); (400, bad_request); (401, bad_key); (403, no_scope); (404, unknown_model); (422, validation_error);
   (413, too_large); (502, unreachable)].
Definition _CHAT_RESPONSES : list (Z * json) :=
  responses_with (JObj [("description", JStr "Success (SSE stream when stream=true)");
    ("content", JObj [("application/json", JObj [("schema", JObj [])]);
                      ("text/event-stream",
                         JObj [("schema", JObj [("type", JStr "string"); ("description", JStr "SSE stream of JSON chunks")])])])]).
Definition _EMBEDDING_RESPONSES : list (Z * json) := responses_with (describe "Success").
Definition _TRANSCRIPTION_RESPONSES : list (Z * json) := responses_with (describe "Success").
Definition _LIST_MODELS_RESPONSES : list (Z * json) := [(200, describe "Success"); (401, bad_key); (403, no_scope)].

Definition object_schema (properties : list (string * json)) (required : list string) : json :=
  JObj [("type", JStr "object"); ("properties", JObj properties); ("required", JList (map JStr required))].
Definition request_body (content : list (string * json)) : json := JObj [("required", JBool true); ("content", JObj content)].
Definition media (schema : json) : json := JObj [("schema", schema)].
Definition binary : json := JObj [("type", JStr "string"); ("format", JStr "binary")].
Definition _CHAT_REQUEST_BODY : json :=
  request_body [("application/json", media (object_schema
    [("model", string_type); ("messages", JObj [("type", JStr "array"); ("items", JObj [])]); ("stream", JObj [("type", JStr "boolean")])]
    ["model"; "messages"]))].
Definition _EMBEDDINGS_REQUEST_BODY : json :=
  request_body [("application/json", media (object_schema
    [("model", string_type); ("input", string_type); ("encoding_format", string_type)] ["model"; "input"]))].
Definition _TRANSCRIPTION_REQUEST_BODY : json :=
  request_body [("multipart/form-data", media (object_schema [("model", string_type); ("file", binary)] ["model"; "file"]));
                ("application/octet-stream", media binary)].

(** ** The export *)
Definition GATEWAY_ERROR_CODES : list string := ["400"; "401"; "403"; "404"; "413"; "502"].
Definition TRANSCRIPTIONS : string := "/v1/audio/transcriptions".
Definition GATEWAY_PATHS : list string := ["/v1/chat/completions"; "/v1/embeddings"; TRANSCRIPTIONS; "/v1/models"].
Definition gateway_error_content : json := json_content (reference "GatewayError").
Definition model_parameter : json :=
  JObj [("name", JStr "model"); ("in", JStr "query"); ("required", JBool false); ("schema", string_type);
        ("description", JStr "Required for application/octet-stream bodies")].
Definition GatewayError : json :=
  JObj [("title", JStr "GatewayError"); ("type", JStr "object");
        ("description", JStr "OpenAI-style error envelope returned by /v1/* gateway routes."); ("required", JList [JStr "error"]);
        ("properties", JObj [("error",
           JObj [("type", JStr "object"); ("required", JList [JStr "message"; JStr "type"; JStr "code"]);
                 ("properties", JObj [("message", string_type); ("type", string_type); ("code", string_type)])])])].

(** A value used as a dict. *)
Definition as_dict (v : json) : result (list (string * json)) := match v with JObj kvs => Ok kvs | _ => Raise AttributeError end.
(** [response["content"] = ...], of a code that has a dict *)
Definition fix_code (rs : list (string * json)) (code : string) : list (string * json) :=
  match jget code rs with
  | Some (JObj r) => dict_set code (JObj (dict_set "content" gateway_error_content r)) rs
  | _ => rs
  end.
Definition fix_responses (rs : list (string * json)) : list (string * json) := dict_del "422" (foldl fix_code rs GATEWAY_ERROR_CODES).
Definition fix_operation (operation : json) : result json :=
  match operation with
  | JObj kvs =>
      match jget "responses" kvs with
      | None => Ok operation
      | Some rs => rs ← as_dict rs; Ok (JObj (dict_set "responses" (JObj (fix_responses rs)) kvs))
      end
  | _ => Ok operation
  end.
Definition fix_values (kvs : list (string * json)) : result (list (string * json)) :=
  mapR (λ kv, v ← fix_operation kv.2; Ok (kv.1, v)) kvs.
(** [spec["paths"].get(path, {}).values()] *)
Definition fix_path (paths : list (string * json)) (path : string) : result (list (string * json)) :=
  match jget path paths with
  | None => Ok paths
  | Some p => kvs ← as_dict p; kvs ← fix_values kvs; Ok (dict_set path (JObj kvs) paths)
  end.
Definition names_model (p : json) : result bool :=
  kvs ← as_dict p;
  Ok (match jget "name" kvs, jget "in" kvs with Some (JStr "model"), Some (JStr "query") => true | _, _ => false end).
Fixpoint any_names_model (ps : list json) : result bool :=
  match ps with [] => Ok false | p :: ps => b ← names_model p; if b : bool then Ok true else any_names_model ps end.
(** [_transcriptions.setdefault("parameters", [])], then the model parameter unless it
    is there. *)
Definition add_parameter (post : list (string * json)) : result (list (string * json)) :=
  match default (JList []) (jget "parameters" post) with
  | JList ps => b ← any_names_model ps; Ok (dict_set "parameters" (JList (if b : bool then ps else ps ++ [model_parameter])) post)
  | _ => Raise AttributeError
  end.
Definition fix_transcriptions (paths : list (string * json)) : result (list (string * json)) :=
  match jget TRANSCRIPTIONS paths with
  | None => Ok paths
  | Some p =>
      kvs ← as_dict p;
      match jget "post" kvs with
      | None => Ok paths
      | Some post =>
          if negb (json_truthy post) then Ok paths
          else post ← as_dict post; post ← add_parameter post; Ok (dict_set TRANSCRIPTIONS (JObj (dict_set "post" (JObj post) kvs)) paths)
      end
  end.
(** [spec.setdefault("components", {}).setdefault("schemas", {})["GatewayError"] = ...] *)
Definition add_error_schema (spec : list (string * json)) : result (list (string * json)) :=
  components ← as_dict (default (JObj []) (jget "components" spec));
  schemas ← match default (JObj []) (jget "schemas" components) with JObj kvs => Ok kvs | _ => Raise TypeError end;
  Ok (dict_set "components" (JObj (dict_set "schemas" (JObj (dict_set "GatewayError" GatewayError schemas)) components)) spec).
Definition shape_spec (spec : list (string * json)) : result (list (string * json)) :=
  paths ← match jget "paths" spec with Some p => as_dict p | None => Raise KeyError end;
  paths ← foldR fix_path paths GATEWAY_PATHS;
  paths ← fix_transcriptions paths;
  add_error_schema (dict_set "paths" (JObj paths) spec).

(** The script: [fresh], the text a generation writes or what it raises; [out], the
    document in the repository.  The exit code and the document left behind. *)
Definition export_main (check : bool) (fresh : result string) (out : option string) : result Z * option string :=
  match fresh with
  | Raise e => (Raise e, out)
  | Ok text =>
      if check then (Ok (match out with Some t => if String.eqb t text then 0 else 1 | None => 1 end), out)
      else (Ok 0, Some text)
  end.

(** ** The export settles

    What a fixed operation is, and that the script makes it so. *)
Definition code_ok (rs : list (string * json)) (code : string) : Prop :=
  match jget code rs with Some (JObj r) => jget "content" r = Some gateway_error_content | _ => True end.
Definition responses_ok (rs : list (string * json)) : Prop := jget "422" rs = None ∧ Forall (code_ok rs) GATEWAY_ERROR_CODES.
Definition operation_ok (v : json) : Prop :=
  match v with
  | JObj kvs => match jget "responses" kvs with Some (JObj rs) => responses_ok rs | Some _ => False | None => True end
  | _ => True
  end.
Definition path_ok (paths : list (string * json)) (path : string) : Prop :=
  match jget path paths with Some (JObj kvs) => Forall (λ kv, operation_ok kv.2) kvs | Some _ => False | None => True end.

Lemma jget_set k k' v l : jget k (dict_set k' v l) = if decide (k = k') then Some v else jget k l.
Proof. apply dict_get_set. Qed.
Lemma dict_set_same (k : string) (v : json) l : jget k l = Some v → dict_set k v l = l.
Proof.
  induction l as [|[k' v'] l IH]; [done|]. unfold jget in *. cbn [dict_get dict_set]. case_decide as E; [by intros [= ->]|].
  intros H. by rewrite IH.
Qed.
Lemma dict_set_set (k : string) (v v' : json) l : dict_set k v (dict_set k v' l) = dict_set k v l.
Proof.
  induction l as [|[k' w] l IH]; cbn [dict_set]; [by rewrite decide_True|]. case_decide as E; cbn [dict_set].
  - by rewrite decide_True.
  - by rewrite decide_False, IH.
Qed.
Lemma dict_del_absent (k : string) (l : list (string * json)) : jget k l = None → dict_del k l = l.
Proof.
  unfold jget, dict_del. induction l as [|[k' v] l IH]; [done|]. cbn [dict_get]. case_decide as E; [done|]. intros H. cbn.
  rewrite bool_decide_eq_false_2 by congruence. cbn. f_equal. by apply IH.
Qed.
Lemma dict_set_elem (k : string) (v : json) l kv : kv ∈ dict_set k v l → kv.2 = v ∨ kv ∈ l.
Proof.
  induction l as [|[k' w] l IH]; cbn [dict_set].
  - intros ->%list_elem_of_singleton. by left.
  - case_decide; rewrite !elem_of_cons; intros [->|H']; [by left|by right; right|by right; left|].
    destruct (IH H'); [by left|by right; right].
Qed.

Lemma fix_code_ok rs code : code_ok (fix_code rs code) code.
Proof.
  unfold code_ok, fix_code. destruct (jget code rs) as [[| | | | | |r]|] eqn:E; rewrite ?E; try done.
  rewrite jget_set, decide_True by done. rewrite jget_set. by rewrite decide_True.
Qed.
Lemma fix_code_other rs code code' : code_ok rs code' → code_ok (fix_code rs code) code'.
Proof.
  unfold code_ok, fix_code. destruct (jget code rs) as [[| | | | | |r]|] eqn:E; try done. intros H. rewrite jget_set.
  case_decide as Ec; [|done]. rewrite jget_set. by rewrite decide_True.
Qed.
Lemma fix_code_same rs code : code_ok rs code → fix_code rs code = rs.
Proof.
  unfold code_ok, fix_code. destruct (jget code rs) as [[| | | | | |r]|] eqn:E; try done. intros H.
  rewrite (dict_set_same "content") by done. by apply dict_set_same.
Qed.
Lemma fix_codes_ok codes rs : Forall (code_ok (foldl fix_code rs codes)) codes.
Proof.
  assert (∀ codes rs c, code_ok rs c → code_ok (foldl fix_code rs codes) c) as Hkeep.
  { clear. induction codes as [|c' codes IH]; intros rs c H; [done|]. by apply IH, fix_code_other. }
  revert rs. induction codes as [|c codes IH]; intros rs; [constructor|]. cbn [foldl]. constructor; [by apply Hkeep, fix_code_ok|apply IH].
Qed.
Lemma fix_responses_ok rs : responses_ok (fix_responses rs).
Proof.
  unfold fix_responses. split; [unfold jget; by rewrite dict_get_del, decide_True|].
  eapply Forall_impl; [apply fix_codes_ok|]. intros c H. unfold code_ok, jget in *. rewrite dict_get_del. by case_decide.
Qed.
Lemma fix_responses_same rs : responses_ok rs → fix_responses rs = rs.
Proof.
  intros [H422 H]. unfold fix_responses. assert (foldl fix_code rs GATEWAY_ERROR_CODES = rs) as ->; [|by apply dict_del_absent].
  induction H as [|c codes Hc _ IH]; [done|]. cbn [foldl]. by rewrite fix_code_same.
Qed.
Lemma fix_operation_ok v v' : fix_operation v = Ok v' → operation_ok v'.
Proof.
  unfold fix_operation. destruct v as [| | | | | |kvs]; try by intros [= <-].
  destruct (jget "responses" kvs) as [rs|] eqn:E; [|intros [= <-]; cbn; by rewrite E].
  intros (rs' & Hr & [= <-])%result_bind_Ok. unfold operation_ok. rewrite jget_set, decide_True by done. apply fix_responses_ok.
Qed.
Lemma fix_operation_same v : operation_ok v → fix_operation v = Ok v.
Proof.
  unfold fix_operation, operation_ok. destruct v as [| | | | | |kvs]; try done.
  destruct (jget "responses" kvs) as [[| | | | | |rs]|] eqn:E; try done. intros H. cbn [as_dict]. rewrite result_bind_eq.
  rewrite fix_responses_same by done. by rewrite dict_set_same.
Qed.
Lemma fix_values_ok kvs kvs' : fix_values kvs = Ok kvs' → Forall (λ kv, operation_ok kv.2) kvs'.
Proof.
  unfold fix_values. revert kvs'. induction kvs as [|kv kvs IH]; intros kvs'; cbn [mapR]; [intros [= <-]; constructor|].
  intros (y & Hy & (ys & Hys & [= <-])%result_bind_Ok)%result_bind_Ok.
  apply result_bind_Ok in Hy as (v & Hv & [= <-]). constructor; [by eapply fix_operation_ok|by apply IH].
Qed.
Lemma fix_values_same kvs : Forall (λ kv, operation_ok kv.2) kvs → fix_values kvs = Ok kvs.
Proof.
  unfold fix_values. induction 1 as [|[k v] kvs Hv _ IH]; [done|]. cbn [mapR fst snd] in *.
  rewrite fix_operation_same by done. cbn [mbind result_bind]. by rewrite IH.
Qed.
Lemma fix_path_same paths path : path_ok paths path → fix_path paths path = Ok paths.
Proof.
  unfold path_ok, fix_path. destruct (jget path paths) as [[| | | | | |kvs]|] eqn:E; try done. intros H.
  cbn [as_dict]. rewrite result_bind_eq, fix_values_same by done. rewrite result_bind_eq. by rewrite dict_set_same.
Qed.
(** One path: it is fixed, and the others are left as they were. *)
Lemma fix_path_spec paths path paths' :
  fix_path paths path = Ok paths' → path_ok paths' path ∧ ∀ p, p ≠ path → jget p paths' = jget p paths.
Proof.
  unfold fix_path, path_ok. destruct (jget path paths) as [p|] eqn:E; [|intros [= <-]; by rewrite E].
  intros (kvs & _ & (kvs' & Hv & [= <-])%result_bind_Ok)%result_bind_Ok. split.
  - rewrite jget_set, decide_True by done. by eapply fix_values_ok.
  - intros p' Hp. by rewrite jget_set, decide_False.
Qed.
Lemma fix_paths_spec l paths paths' :
  NoDup l → foldR fix_path paths l = Ok paths' → Forall (path_ok paths') l ∧ ∀ p, p ∉ l → jget p paths' = jget p paths.
Proof.
  intros Hl. revert paths. induction Hl as [|path l Hn Hl IH]; intros paths; cbn [foldR]; [by intros [= <-]|].
  intros (p1 & [Hp Ho]%fix_path_spec & [Hl' Ho']%IH)%result_bind_Ok. split.
  - constructor; [|done]. unfold path_ok. by rewrite Ho'.
  - intros p [Hne Hnl]%not_elem_of_cons. by rewrite Ho', Ho.
Qed.
Lemma fix_paths_same l paths : Forall (path_ok paths) l → foldR fix_path paths l = Ok paths.
Proof. induction 1 as [|path l Hp _ IH]; [done|]. cbn [foldR]. by rewrite fix_path_same. Qed.

Lemma any_names_model_app ps p : any_names_model ps = Ok false → any_names_model (ps ++ [p]) = (b ← names_model p; Ok b).
Proof.
  induction ps as [|q ps IH]; cbn [any_names_model app]; [intros _; by destruct (names_model p) as [[]|]|].
  intros (b & Hb & H)%result_bind_Ok. rewrite Hb, result_bind_eq. destruct b; [done|]. by apply IH.
Qed.
(** A post operation that has its parameter; adding it again changes nothing, and it
    leaves the responses alone. *)
Lemma add_parameter_same post post' : add_parameter post = Ok post' → add_parameter post' = Ok post'.
Proof.
  unfold add_parameter. destruct (default (JList []) (jget "parameters" post)) as [| | | | |ps|] eqn:E; try done.
  intros (b & Hb & [= <-])%result_bind_Ok. rewrite jget_set, decide_True by done. cbn [default from_option id]. destruct b.
  - rewrite Hb, result_bind_eq. by rewrite dict_set_set.
  - rewrite any_names_model_app by done. cbn. by rewrite dict_set_set.
Qed.
Lemma add_parameter_ok post post' : add_parameter post = Ok post' → operation_ok (JObj post) → operation_ok (JObj post').
Proof.
  unfold add_parameter, operation_ok. destruct (default _ _) as [| | | | |ps|]; try done. intros (b & _ & [= <-])%result_bind_Ok.
  by rewrite jget_set, decide_False.
Qed.
Lemma add_parameter_nonempty post post' : add_parameter post = Ok post' → post' ≠ [].
Proof.
  unfold add_parameter. destruct (default _ _) as [| | | | |ps|]; try done. intros (b & _ & [= <-])%result_bind_Ok. by destruct post as [|[]]; cbn; [|case_decide].
Qed.
Lemma fix_transcriptions_spec paths paths' :
  fix_transcriptions paths = Ok paths' → fix_transcriptions paths' = Ok paths' ∧
  (path_ok paths TRANSCRIPTIONS → path_ok paths' TRANSCRIPTIONS) ∧ ∀ p, p ≠ TRANSCRIPTIONS → jget p paths' = jget p paths.
Proof.
  unfold fix_transcriptions at 1. destruct (jget TRANSCRIPTIONS paths) as [p|] eqn:E.
  2:{ intros [= <-]. unfold fix_transcriptions. by rewrite E. }
  intros (kvs & Hk & H)%result_bind_Ok. destruct p as [| | | | | |kvs']; try done. injection Hk as ->.
  destruct (jget "post" kvs) as [post|] eqn:Ep; [|injection H as <-; unfold fix_transcriptions; by rewrite E; cbn; rewrite Ep].
  destruct (json_truthy post) eqn:Et; cbn [negb] in H.
  2:{ injection H as <-. unfold fix_transcriptions. rewrite E. cbn [as_dict]. rewrite result_bind_eq, Ep. by rewrite Et. }
  apply result_bind_Ok in H as (pkvs & Hp & (post' & Ha & [= <-])%result_bind_Ok).
  destruct post as [| | | | | |post]; try done. injection Hp as ->. split_and!.
  - unfold fix_transcriptions. rewrite jget_set, decide_True by done. cbn [as_dict]. rewrite result_bind_eq, jget_set, decide_True by done.
    assert (json_truthy (JObj post') = true) as ->.
    { pose proof (add_parameter_nonempty _ _ Ha). by destruct post'. }
    cbn [negb as_dict]. rewrite result_bind_eq, (add_parameter_same _ _ Ha), result_bind_eq. by rewrite !dict_set_set.
  - unfold path_ok. rewrite E, jget_set, decide_True by done. rewrite !Forall_forall. intros Hf kv [Hv|Hv]%dict_set_elem; [|by apply Hf].
    rewrite Hv. apply (add_parameter_ok _ _ Ha). apply (Hf ("post", JObj pkvs)). by apply dict_get_Some_elem.
  - intros q Hq. by rewrite jget_set, decide_False.
Qed.
Lemma add_error_schema_same spec spec' : add_error_schema spec = Ok spec' → add_error_schema spec' = Ok spec'.
Proof.
  unfold add_error_schema. intros (cs & _ & (ss & Hs & [= <-])%result_bind_Ok)%result_bind_Ok.
  rewrite jget_set, decide_True by done. cbn [default from_option id as_dict]. rewrite result_bind_eq, jget_set, decide_True by done.
  cbn [default from_option id]. rewrite result_bind_eq. by rewrite !dict_set_set.
Qed.
Lemma add_error_schema_other spec spec' k : add_error_schema spec = Ok spec' → k ≠ "components" → jget k spec' = jget k spec.
Proof.
  unfold add_error_schema. intros (cs & _ & (ss & _ & [= <-])%result_bind_Ok)%result_bind_Ok Hk. by rewrite jget_set, decide_False.
Qed.

(** C39 The export shapes the contract and settles.  On any specification it accepts, a
    second run changes nothing; afterwards no operation of a gateway path has a 422,
    and each of the six error codes it lists refers to the error envelope; every other
    path and every other part of the specification is as it was. *)
Theorem export_settles spec spec' :
  shape_spec spec = Ok spec' →
  shape_spec spec' = Ok spec' ∧
  ∃ paths paths', jget "paths" spec = Some (JObj paths) ∧ jget "paths" spec' = Some (JObj paths') ∧
    Forall (path_ok paths') GATEWAY_PATHS ∧ (∀ p, p ∉ GATEWAY_PATHS → jget p paths' = jget p paths) ∧
    ∀ k, k ≠ "paths" → k ≠ "components" → jget k spec' = jget k spec.
Proof.
  unfold shape_spec at 1. destruct (jget "paths" spec) as [[| | | | | |paths]|] eqn:E; try done. cbn [as_dict]. rewrite result_bind_eq.
  intros (p1 & H1 & (p2 & H2 & H3)%result_bind_Ok)%result_bind_Ok.
  apply fix_paths_spec in H1 as [Hok Hother]; [|vm_decide]. pose proof (fix_transcriptions_spec _ _ H2) as (Hsame & Hkeep & Hother').
  assert (jget "paths" spec' = Some (JObj p2)) as Hp.
  { rewrite (add_error_schema_other _ _ _ H3) by done. by rewrite jget_set, decide_True. }
  assert (Forall (path_ok p2) GATEWAY_PATHS) as Hok'.
  { apply Forall_forall. intros p Hin. rewrite Forall_forall in Hok. destruct (decide (p = TRANSCRIPTIONS)) as [->|Hne].
    - by apply Hkeep, Hok.
    - unfold path_ok. rewrite Hother' by done. by apply Hok. }
  split; [|exists paths, p2; split_and!; try done].
  - unfold shape_spec. rewrite Hp. cbn [as_dict]. rewrite result_bind_eq, fix_paths_same by done. rewrite result_bind_eq, Hsame, result_bind_eq.
    rewrite dict_set_same by done. by apply (add_error_schema_same (dict_set "paths" (JObj p2) spec)).
  - intros p Hp'. rewrite Hother'; [by apply Hother|]. intros ->. apply Hp'. vm_decide.
  - intros k Hk1 Hk2. rewrite (add_error_schema_other _ _ _ H3) by done. by rewrite jget_set, decide_False.
Qed.
(** A specification with two of the gateway's paths, as FastAPI generates it. *)
Definition generated_responses (l : list (Z * json)) : json := JObj (map (λ cr, (str_Z cr.1, cr.2)) l).
Definition sample_spec : list (string * json) :=
  [("openapi", JStr "3.1.0");
   ("paths", JObj [("/api/v1/auth/me", JObj [("get", JObj [("responses", JObj [("422", validation_error)])])]);
                   ("/v1/models", JObj [("get", JObj [("responses", generated_responses _LIST_MODELS_RESPONSES)])]);
                   (TRANSCRIPTIONS, JObj [("post", JObj [("responses", generated_responses _TRANSCRIPTION_RESPONSES)])])])].
Definition sample_exported : list (string * json) := match shape_spec sample_spec with Ok s => s | Raise _ => [] end.
Lemma export_settles_witness :
  shape_spec sample_exported = Ok sample_exported ∧ sample_exported ≠ sample_spec ∧ jget "openapi" sample_exported = Some (JStr "3.1.0").
Proof.
  assert (shape_spec sample_spec = Ok sample_exported) as H by (vm_compute; reflexivity).
  destruct (export_settles sample_spec sample_exported H) as (Hs & paths & paths' & _ & _ & _ & _ & Ho).
  split; [exact Hs|]. split; [vm_compute; discriminate|]. rewrite Ho by done. reflexivity.
Defined.

(** ** What a gateway endpoint raises *)
Section raises.
Context (P : exn → Prop).
Definition raises_onlyR {A} (r : result A) : Prop := ∀ e, r = Raise e → P e.
Definition raises_only {S A} (m : M S A) : Prop := ∀ s e, (m s).1 = Raise e → P e.
Lemma onlyR_bind {A B} (m : result A) (f : A → result B) :
  raises_onlyR m → (∀ a, raises_onlyR (f a)) → raises_onlyR (m ≫= f).
Proof. intros Hm Hf e [H|(a & _ & H)]%result_bind_Raise; [by apply Hm|by apply (Hf a)]. Qed.
Lemma onlyR_Ok {A} (a : A) : raises_onlyR (Ok a).
Proof. by intros e. Qed.
Lemma onlyR_Raise {A} e : P e → raises_onlyR (Raise (A:=A) e).
Proof. by intros H e' [= <-]. Qed.
Lemma onlyR_foldR {A B} (f : B → A → result B) b l : (∀ b x, raises_onlyR (f b x)) → raises_onlyR (foldR f b l).
Proof. intros Hf. revert b. induction l as [|x l IH]; intros b; cbn [foldR]; [apply onlyR_Ok|by apply onlyR_bind]. Qed.
Context {S : Type}.
Lemma only_bind {A B} (m : M S A) (f : A → M S B) : raises_only m → (∀ a, raises_only (f a)) → raises_only (m ≫= f).
Proof.
  intros Hm Hf s e. unfold mbind, M_bind. specialize (Hm s). destruct (m s) as [[a|e'] s']; [apply Hf|]. intros [= <-]. by apply Hm.
Qed.
Lemma only_ret {A} (a : A) : raises_only (mret a : M S A).
Proof. by intros s e. Qed.
Lemma only_gets {A} (f : S → A) : raises_only (gets f).
Proof. by intros s e. Qed.
Lemma only_modify (f : S → S) : raises_only (modify f).
Proof. by intros s e. Qed.
Lemma only_raise {A} e : P e → raises_only (raise e : M S A).
Proof. by intros H s e' [= <-]. Qed.
Lemma only_lift {A} (r : result A) : raises_onlyR r → raises_only (lift_result r : M S A).
Proof. intros H s e E. by apply H. Qed.
(** The handler runs on what the body raises. *)
Lemma only_try {A} (m : M S A) h : raises_only m → (∀ e, P e → raises_only (h e)) → raises_only (try_ m h).
Proof.
  intros Hm Hh s e. unfold try_. specialize (Hm s). destruct (m s) as [[a|e'] s']; [done|]. apply Hh. by apply Hm.
Qed.
End raises.
Create HintDb errors.
#[export] Hint Resolve onlyR_Ok only_ret only_gets only_modify : errors.
Ltac errors_step :=
  lazymatch goal with
  | |- raises_onlyR _ (_ ≫= _) => apply onlyR_bind; [|intros ?]
  | |- raises_onlyR _ (foldR _ _ _) => apply onlyR_foldR; intros
  | |- raises_only _ (_ ≫= _) => apply only_bind; [|intros ?]
  | |- raises_only _ (try_ _ _) => apply only_try; [|intros ? ?]
  | |- raises_only _ (lift_result _) => apply only_lift
  | |- raises_only _ (raise _) => apply only_raise
  | |- raises_onlyR _ (Raise _) => apply onlyR_Raise
  | |- raises_only _ (if ?b then _ else _) => destruct b
  | |- raises_onlyR _ (if ?b then _ else _) => destruct b
  | |- raises_only _ (match ?x with _ => _ end) => destruct x eqn:?
  | |- raises_onlyR _ (match ?x with _ => _ end) => destruct x eqn:?
  | |- raises_only _ (let _ := _ in _) => cbv zeta
  | |- raises_onlyR _ (let _ := _ in _) => cbv zeta
  | |- _ => solve [eauto with errors nocore]
  end.
Ltac errors := repeat errors_step.

(** What an endpoint raises: an answer that its table describes and the export
    documents; the 429 of a used-up quota; no answer at all, since the client has
    [gone]; or an exception nothing handles, a [crash] that the server turns into a
    bare 500. *)
Definition documented (table : list (Z * json)) (status : Z) : bool := existsb (λ cr, cr.1 =? status) table.
Definition outcome_ok (table : list (Z * json)) (gone : Prop) (crash : exn → Prop) (e : exn) : Prop :=
  match e with
  | OpenAIError status _ _ _ => documented table status = true ∧ str_Z status ∈ GATEWAY_ERROR_CODES ∨ e = quota_exceeded
  | CancelledError => gone
  | _ => crash e
  end.

(** The envelope, and what a value must be to satisfy the keywords the schema uses. *)
Definition error_body (message type_ code : string) : json :=
  JObj [("error", JObj [("message", JStr message); ("type", JStr type_); ("code", JStr code)])].
Definition has_type (v : json) (name : option json) : bool :=
  match name with
  | Some (JStr "object") => match v with JObj _ => true | _ => false end
  | Some (JStr "string") => match v with JStr _ => true | _ => false end
  | _ => true
  end.
Definition has_required (v : json) (names : option json) : bool :=
  match v, names with
  | JObj kvs, Some (JList l) => forallb (λ n, match n with JStr k => match jget k kvs with Some _ => true | None => false end | _ => false end) l
  | _, _ => true
  end.
(** [fuel]: the depth of the schema. *)
Fixpoint conforms (fuel : nat) (schema v : json) : bool :=
  match fuel, schema with
  | S fuel, JObj kvs =>
      has_type v (jget "type" kvs) && has_required v (jget "required" kvs) &&
      match v, jget "properties" kvs with
      | JObj fields, Some (JObj ps) =>
          forallb (λ p, match jget p.1 fields with Some w => conforms fuel p.2 w | None => true end) ps
      | _, _ => true
      end
  | _, _ => false
  end.

Definition is_ValueError (e : exn) : Prop := ∃ m, e = ValueError m.
#[local] Hint Extern 1 (is_ValueError _) => (eexists; reflexivity) : errors.
Lemma extract_host_only raw : raises_onlyR is_ValueError (_extract_host raw).
Proof. unfold _extract_host, value_error. errors. Qed.
#[export] Hint Resolve extract_host_only : errors.
Lemma resolve_only dns s raw : raises_onlyR is_ValueError (resolve_and_validate dns raw s).
Proof. unfold resolve_and_validate, check_literal, check_hostname, check_all, value_error. errors. Qed.
(** A target that was validated has a host. *)
Lemma resolve_has_host dns s raw a : resolve_and_validate dns raw s = Ok a → ∃ h, _extract_host raw = Ok h.
Proof. unfold resolve_and_validate. intros (h & Hh & _)%result_bind_Ok. by exists h. Qed.
Lemma pinned_has_host s dns name raw g a g' : pinned_host s dns name raw g = (Ok a, g') → ∃ h, _extract_host raw = Ok h.
Proof.
  unfold pinned_host. intros (v & g1 & H & _)%M_bind_Ok. unfold try_, lift_result in H.
  destruct (resolve_and_validate dns raw s) as [a'|e] eqn:E; [by eapply resolve_has_host|].
  destruct (resolve_only dns s raw e E) as [m ->]. by apply M_bind_Ok in H as ([] & g2 & _ & H).
Qed.
Lemma target_has_host s dns d now cancelled name request digests g t i w m g' :
  _resolve_target s dns d now cancelled name request digests g = (Ok (t, i, w, m), g') → ∃ h, _extract_host (raw_host w) = Ok h.
Proof.
  unfold _resolve_target. destruct (find_by _ _) as [model|]; [|done].
  intros ([[i' w']|] & g1 & _ & H)%M_bind_Ok; [|done]. unfold try_ in H.
  match type of H with context [match ?m g1 with _ => _ end] => destruct (m g1) as [[x|e] g2] eqn:E end;
    [|by apply M_bind_Ok in H as ([] & g3 & _ & H)].
  apply M_bind_Ok in E as ([] & g3 & _ & E). apply M_bind_Ok in E as (host & g4 & Hp & E).
  unfold mret, M_ret in E. simplify_eq. by eapply pinned_has_host.
Qed.

Lemma only_bind_with {S A B} (P : exn → Prop) (m : M S A) (f : A → M S B) :
  raises_only P m → (∀ st a st', m st = (Ok a, st') → raises_only P (f a)) → raises_only P (m ≫= f).
Proof.
  intros Hm Hf st e. unfold mbind, M_bind. pose proof (Hm st) as H. destruct (m st) as [[a|e'] st'] eqn:E; [|intros [= <-]; by apply H].
  by apply (Hf st a st' E).
Qed.

Section contract.
Context (s : Settings.t) (dns : string → option (list string)) (float_repr : string → string)
  (boundary_of : string → option string) (multipart : string → string → list part_event * bool).
Context (d : Db.t) (today now : Z) (send : Upstream.request → Upstream.outcome) (failed_at : Z).
Context (table : list (Z * json))
  (Htable : Forall (λ st, documented table st = true) [400; 401; 403; 404; 413; 502]).
Context (gone : Prop) (crash : exn → Prop).
Notation ok := (outcome_ok table gone crash).

Ltac in_contract := solve [left; split; [by (rewrite Forall_forall in Htable; apply Htable; vm_decide)|vm_decide] | by right].
#[local] Hint Extern 1 (outcome_ok _ _ _ _) => in_contract : errors.
Lemma key_only wall credentials : raises_only ok (get_api_key d wall credentials).
Proof. unfold get_api_key. errors. Qed.
Lemma chunks_only limit body chunks : raises_onlyR ok (read_chunks limit body chunks).
Proof. revert body. induction chunks as [|c l IH]; intros body; cbn [read_chunks]; errors. Qed.
#[local] Hint Resolve key_only chunks_only : errors.
Lemma body_only request limit : raises_onlyR ok (_read_body_limited request limit).
Proof. unfold _read_body_limited. errors. Qed.
Lemma model_only request raw_body : raises_onlyR ok (_extract_model boundary_of multipart request raw_body).
Proof. unfold _extract_model, _extract_multipart_model. errors. Qed.
Lemma select_only model_name digests rows : raises_only ok (select_instance d now model_name digests rows).
Proof. intros g e. unfold select_instance. destruct (overlaps _ _ _ _) as [ov cache]. destruct (least_loaded _ _); [|done]. by destruct (worker_of _ _). Qed.
#[local] Hint Resolve body_only model_only select_only : errors.
Lemma pinned_only name raw : raises_only ok (pinned_host s dns name raw).
Proof.
  intros g e. unfold pinned_host, try_, lift_result, mbind, M_bind.
  destruct (resolve_and_validate dns raw s) as [a|e'] eqn:E.
  - destruct (resolve_has_host dns s raw a E) as [h ->]. repeat case_match; unfold raise, mret, M_ret; cbn; intros [= <-]; in_contract.
  - destruct (resolve_only dns s raw e' E) as [m ->]. cbn. intros [= <-]. in_contract.
Qed.
#[local] Hint Resolve pinned_only : errors.
Lemma target_only cancelled model_name request digests :
  (cancelled = true → gone) → raises_only ok (_resolve_target s dns d now cancelled model_name request digests).
Proof. intros Hg. unfold _resolve_target, _release_instance. destruct cancelled; errors. by apply Hg. Qed.
Lemma forward_only request raw_body model_name stream user ctx target i w :
  ((∃ r, send r = Upstream.Cancelled) → gone) → (∃ h, _extract_host (raw_host w) = Ok h) →
  raises_only ok (forward d today send failed_at request raw_body model_name stream user ctx target i w).
Proof.
  intros Hg [h Hh]. unfold forward, host_header, count_request. rewrite Hh. errors. apply Hg. eauto.
Qed.
(** The body the upstream is sent. *)
Definition forwarded_body (request : Request.t) (raw_body : string) : string :=
  if wants_stream request raw_body && Settings.gateway_inject_stream_usage s
     && String.eqb (Request.path request) "/v1/chat/completions"
  then _with_stream_usage float_repr raw_body else raw_body.
Lemma endpoint_only limit cancelled wall credentials request :
  (cancelled = true ∨ (∃ r, send r = Upstream.Cancelled) → gone) →
  (∀ raw_body e, _read_body_limited request limit = Ok raw_body →
     prompt_digests float_repr request (forwarded_body request raw_body) = Raise e → crash e ∧ (e = TypeError ∨ is_ValueError e)) →
  raises_only ok
    (endpoint s dns float_repr boundary_of multipart d today now send failed_at limit cancelled wall credentials request).
Proof.
  intros Hg Hc. unfold endpoint. apply only_bind; [errors|]. intros [key user].
  apply only_bind_with; [errors|]. intros g0 raw_body g0' Hb. unfold lift_result in Hb. injection Hb as Hb _.
  apply only_bind; [errors|]. intros name. unfold _proxy. cbv zeta. fold (forwarded_body request raw_body).
  apply only_bind.
  - apply only_lift. intros e He. destruct (Hc raw_body e Hb He) as [H [->|[m ->]]]; exact H.
  - intros digests. apply only_bind_with; [apply target_only; tauto|]. intros g [[[t i] w] m] g' Ht.
    apply target_has_host in Ht. unfold _release_instance. apply only_try; [by apply forward_only; tauto|].
    intros e He. by errors.
Qed.
End contract.
Lemma digests_raise fr request body e : prompt_digests fr request body = Raise e → e = TypeError ∨ is_ValueError e.
Proof.
  assert (raises_onlyR (λ e, e = TypeError ∨ is_ValueError e) (prompt_digests fr request body)) as H; [|apply H].
  unfold prompt_digests, prompt_text, blocks. errors; first [by left|right; by eexists].
Qed.
Lemma envelope_conforms message type_ code : conforms 4 GatewayError (error_body message type_ code) = true.
Proof. reflexivity. Qed.

(** A request without a key. *)
Definition no_request : Request.t := Request.mk "POST" "/v1/embeddings" "" None None None [].
(** The quota's 429 is in no table. *)
Lemma quota_is_undocumented :
  Forall (λ t, documented t 429 = false) [_CHAT_RESPONSES; _EMBEDDING_RESPONSES; _TRANSCRIPTION_RESPONSES] ∧
  "429" ∉ GATEWAY_ERROR_CODES.
Proof. split; [vm_decide|vm_decide]. Qed.
