(* ===== verification/Engine.v ===== *)
(** * Engine commands ([worker/inferna_worker/engines/base.py], [config.py])

    The worker's settings, the topology of a rank, and the container command and
    environment of an engine. *)

From S2P Require Import Prelude PyStr Proto.
Local Open Scope Z_scope.

(** ** Worker settings ([mn_rank_ready_seconds] in microseconds) *)
Module WSettings.
Record t := mk {
  environment : string; server_url : string; registration_token : string; worker_name : string;
  worker_hostname : string; server_tls_ca : string; server_tls_authority : string;
  mn_rank_ready : Z; netif : string; cluster_name : string; mock_engine : bool; models_dir : string;
  vllm_image : string; sglang_image : string; hf_token : string; worker_address : string; log_level : string }.
(** The defaults; the host name is the machine's. *)
Definition default (node : string) : t :=
  mk "development" "localhost:9091" "inferna-registration-token" "" node "" "" 20000000 "eth0" "" false
     "./models" "vllm/vllm-openai:v0.8.5" "lmsysorg/sglang:v0.4.6.post1" "" "" "info".
End WSettings.

Definition worker_check_production_secrets (s : WSettings.t) : result WSettings.t :=
  if String.eqb (WSettings.environment s) "production"
     && String.eqb (WSettings.registration_token s) "inferna-registration-token"
  then Raise (ValueError "production mode requires a non-default INFERNA_REGISTRATION_TOKEN")
  else Ok s.

(** ** Flag tables.  A part is literal or formatted with the model or the
    tensor-parallel degree. *)
Definition CONTAINER_PORT : Z := 8000.
Inductive part := Lit (s : string) | ModelPart | TpPart.
Definition VLLM_BASE : list part :=
  [Lit "vllm"; Lit "serve"; ModelPart; Lit "--port"; Lit (str_Z CONTAINER_PORT);
   Lit "--gpu-memory-utilization"; Lit "0.9"; Lit "--tensor-parallel-size"; TpPart].
Definition SGLANG_BASE : list part :=
  [Lit "python3"; Lit "-m"; Lit "sglang.launch_server"; Lit "--model-path"; ModelPart;
   Lit "--port"; Lit (str_Z CONTAINER_PORT); Lit "--tp"; TpPart; Lit "--mem-fraction-static"; Lit "0.85"].
Definition PROFILE_FLAGS (engine profile : string) : list (string * string) :=
  if String.eqb engine "vllm" then
    if String.eqb profile "latency" then [("--max-num-seqs", "32")]
    else if String.eqb profile "throughput" then [("--max-num-seqs", "256")] else []
  else if String.eqb engine "sglang" then
    if String.eqb profile "latency" then [("--max-running-requests", "32")]
    else if String.eqb profile "throughput" then [("--max-running-requests", "256")] else []
  else [].

(** ** Topology *)
Module MultiNodeSpec.
Record t := mk { mode : string; world_size : Z; node_rank : Z; master_host : string; master_port : Z }.
#[global] Instance eq_dec : EqDecision t.
Proof. solve_decision. Defined.
End MultiNodeSpec.

(** An absent message reads as its defaults. *)
Definition no_rendezvous : Rendezvous.t := Rendezvous.mk "" 0 0 0 0 [] [].
Definition from_config (config : EngineConfig.t) : option MultiNodeSpec.t :=
  match EngineConfig.parallelism config with
  | None => None
  | Some p =>
      if String.eqb (Parallelism.mode p) "" || String.eqb (Parallelism.mode p) "single" then None
      else
        let r := default no_rendezvous (EngineConfig.rendezvous config) in
        Some (MultiNodeSpec.mk (Parallelism.mode p) (Z.max 1 (Parallelism.world_size p))
                (Rendezvous.node_rank r) (Rendezvous.master_address r) (Rendezvous.master_port r))
  end.

Definition multi_node_env (spec : option MultiNodeSpec.t) (advertise_host netif : string) : list (string * string) :=
  match spec with
  | None => []
  | Some _ =>
      ("NCCL_SOCKET_IFNAME", netif)
      :: (if String.eqb advertise_host "" then [] else [("VLLM_HOST_IP", advertise_host)])
  end.

Definition _multinode_flags (engine : string) (spec : MultiNodeSpec.t) : list string :=
  let world := Z.max 1 (MultiNodeSpec.world_size spec) in
  let rank := str_Z (MultiNodeSpec.node_rank spec) in
  if String.eqb engine "vllm" then
    (if String.eqb (MultiNodeSpec.mode spec) "tp" then ["--distributed-executor-backend"; "mp"]
     else ["--pipeline-parallel-size"; str_Z world])
    ++ ["--nnodes"; str_Z world; "--node-rank"; rank; "--master-addr"; MultiNodeSpec.master_host spec;
        "--master-port"; str_Z (MultiNodeSpec.master_port spec)]
  else if String.eqb engine "sglang" then
    (if String.eqb (MultiNodeSpec.mode spec) "tp" then [] else ["--pipeline-parallel-size"; str_Z world])
    ++ ["--nnodes"; str_Z world; "--node-rank"; rank; "--dist-init-addr";
        MultiNodeSpec.master_host spec +:+ ":" +:+ str_Z (MultiNodeSpec.master_port spec)]
  else [].

(** ** Commands *)
(** [command.index(x)] *)
Fixpoint index_of (x : string) (l : list string) : option nat :=
  match l with
  | [] => None
  | y :: l' => if String.eqb x y then Some O else S <$> index_of x l'
  end.
Definition format_part (model : string) (tp : Z) (p : part) : string :=
  match p with Lit s => s | ModelPart => model | TpPart => str_Z tp end.
Definition engine_base (engine : string) : result (list part) :=
  if String.eqb engine "vllm" then Ok VLLM_BASE
  else if String.eqb engine "sglang" then Ok SGLANG_BASE
  else Raise (ValueError ("unknown engine: " +:+ engine)).
Definition list_index (x : string) (l : list string) : result nat :=
  match index_of x l with Some n => Ok n | None => Raise (ValueError (x +:+ " is not in list")) end.
(** [del l[i:i+2]] and [l[i] = x] for an index that may be one past the end. *)
Definition delete_pair (i : nat) (l : list string) : list string := take i l ++ drop (i + 2) l.
Definition set_item (i : nat) (x : string) (l : list string) : result (list string) :=
  if (i <? length l)%nat then Ok (<[i := x]> l) else Raise (RuntimeError "IndexError").

Definition tensor_parallel (config : EngineConfig.t) : Z :=
  Z.max 1 (Z.of_nat (length (EngineConfig.gpu_indexes config))).
Definition build_command (config : EngineConfig.t) (spec : option MultiNodeSpec.t) (serve_port : Z)
  : result (list string) :=
  let engine := EngineConfig.engine config in
  let tp := tensor_parallel config in
  base ← engine_base engine;
  let command := map (format_part (EngineConfig.model_name config) tp) base
                 ++ concat (map (λ fv, [fv.1; fv.2]) (PROFILE_FLAGS engine (EngineConfig.profile config))) in
  match spec with
  | None => Ok command
  | Some spec =>
      port_index ← list_index "--port" command;
      command1 ← (if 0 <? MultiNodeSpec.node_rank spec then Ok (delete_pair port_index command)
                  else set_item (port_index + 1) (str_Z serve_port) command);
      command2 ← (if String.eqb (MultiNodeSpec.mode spec) "tp" then
                    tp_index ← list_index (if String.eqb engine "vllm" then "--tensor-parallel-size" else "--tp") command1;
                    set_item (tp_index + 1) (str_Z (tp * Z.max 1 (MultiNodeSpec.world_size spec))) command1
                  else Ok command1);
      Ok (command2 ++ _multinode_flags engine spec)
  end.

Definition image_for (engine : string) (s : WSettings.t) : result string :=
  if String.eqb engine "vllm" then Ok (WSettings.vllm_image s)
  else if String.eqb engine "sglang" then Ok (WSettings.sglang_image s)
  else Raise (ValueError ("unknown engine: " +:+ engine)).

(** ** Properties *)

(** The value given to a flag, and the flags of a command. *)
Definition flag_value (flag : string) (command : list string) : option string :=
  n ← index_of flag command; command !! S n.
Definition is_flag (s : string) : bool := startswith "--" s.
Definition flags (command : list string) : list string := where_ is_flag command.

Definition known_engine (e : string) : Prop := e = "vllm" ∨ e = "sglang".
Definition tp_flag (e : string) : string := if String.eqb e "vllm" then "--tensor-parallel-size" else "--tp".

Lemma eqb_not_flag s f : is_flag s = false → is_flag f = true → String.eqb f s = false.
Proof. intros Hs Hf. apply String.eqb_neq. intros ->. congruence. Qed.
Lemma str_Z_not_flag n : 0 <= n → is_flag (str_Z n) = false.
Proof.
  intros Hn. destruct (str_Z_digits n Hn) as [Hd _]. apply not_true_iff_false. intros Hf.
  rewrite (startswith_split _ _ Hf) in Hd. by vm_compute in Hd.
Qed.
Lemma host_port_not_flag h p : is_flag h = false → is_flag (h +:+ ":" +:+ p) = false.
Proof.
  intros Hh. apply not_true_iff_false. intros Hf. apply startswith_split in Hf.
  destruct h as [|a [|b h]]; [done|simplify_eq|]. injection Hf as -> ->.
  by rewrite (startswith_app "--" h : is_flag (String "-" (String "-" h)) = true) in Hh.
Qed.

Lemma flags_cons x l : flags (x :: l) = (if is_flag x then [x] else []) ++ flags l.
Proof. unfold flags, where_. cbn [List.filter]. by destruct (is_flag x). Qed.

(** Runs the list operations of a command: closed comparisons are evaluated, and
    a flag never equals a word that is known not to be one. *)
Ltac unfold_words :=
  cbv beta iota zeta delta
    [index_of list_index delete_pair set_item fmap option_fmap option_map take drop app length Nat.add Nat.ltb
     Nat.leb mbind result_bind option_bind lookup list_lookup insert list_insert map concat
     fst snd flag_value].
Ltac flag_step :=
  match goal with
  | H : is_flag ?x = false |- context [String.eqb ?f ?x] => rewrite (eqb_not_flag x f H eq_refl)
  | H : is_flag ?x = false |- context [is_flag ?x] => rewrite H
  | |- context [String.eqb (String ?a ?f) (String ?b ?x)] =>
      let r := eval vm_compute in (String.eqb (String a f) (String b x)) in
      change (String.eqb (String a f) (String b x)) with r
  | |- context [is_flag (String ?a ?x)] =>
      let r := eval vm_compute in (is_flag (String a x)) in change (is_flag (String a x)) with r
  end.
Ltac run_flags := rewrite ?flags_cons; unfold_words; repeat (flag_step; unfold_words).

(** The base command, with the words that vary as variables. *)
Definition base_words (vllm : bool) (model stp : string) : list string :=
  if vllm
  then ["vllm"; "serve"; model; "--port"; "8000"; "--gpu-memory-utilization"; "0.9"; "--tensor-parallel-size"; stp]
  else ["python3"; "-m"; "sglang.launch_server"; "--model-path"; model; "--port"; "8000"; "--tp"; stp;
        "--mem-fraction-static"; "0.85"].
Lemma base_words_spec config vllm :
  EngineConfig.engine config = (if vllm : bool then "vllm" else "sglang") →
  map (format_part (EngineConfig.model_name config) (tensor_parallel config))
    (if vllm : bool then VLLM_BASE else SGLANG_BASE)
  = base_words vllm (EngineConfig.model_name config) (str_Z (tensor_parallel config)).
Proof. by destruct vllm. Qed.

(** What a rank's command says.  For a known engine (and a model name and host
    that are not themselves flags) the command is built, no flag occurs twice, the
    head listens on the allocated port and a follower on none, and the topology the
    engine is given is the rank's: node count, node rank, rendezvous address, and
    the world size as tensor or as pipeline parallelism according to the mode. *)
Theorem build_command_rank config spec port :
  known_engine (EngineConfig.engine config) → is_flag (EngineConfig.model_name config) = false →
  is_flag (MultiNodeSpec.master_host spec) = false →
  0 <= port → 0 <= MultiNodeSpec.node_rank spec → 0 <= MultiNodeSpec.master_port spec →
  let e := EngineConfig.engine config in
  let world := Z.max 1 (MultiNodeSpec.world_size spec) in
  let is_tp := String.eqb (MultiNodeSpec.mode spec) "tp" in
  let host := MultiNodeSpec.master_host spec in
  let mport := str_Z (MultiNodeSpec.master_port spec) in
  ∃ cmd, build_command config (Some spec) port = Ok cmd ∧ NoDup (flags cmd) ∧
    flag_value "--port" cmd = (if 0 <? MultiNodeSpec.node_rank spec then None else Some (str_Z port)) ∧
    flag_value (tp_flag e) cmd = Some (str_Z (if is_tp then tensor_parallel config * world else tensor_parallel config)) ∧
    flag_value "--pipeline-parallel-size" cmd = (if is_tp then None else Some (str_Z world)) ∧
    flag_value "--nnodes" cmd = Some (str_Z world) ∧
    flag_value "--node-rank" cmd = Some (str_Z (MultiNodeSpec.node_rank spec)) ∧
    (if String.eqb e "vllm"
     then flag_value "--master-addr" cmd = Some host ∧ flag_value "--master-port" cmd = Some mport
     else flag_value "--dist-init-addr" cmd = Some (host +:+ ":" +:+ mport)).
Proof.
  intros He Hm Hh Hp Hr Hmp e world is_tp host mport.
  assert (∃ vllm : bool, e = (if vllm then "vllm" else "sglang")) as [vllm Ee]
    by (destruct He as [E|E]; [exists true|exists false]; exact E).
  pose proof (base_words_spec config vllm Ee) as Hbase.
  assert (is_flag (str_Z (tensor_parallel config)) = false) as Htp by (apply str_Z_not_flag; unfold tensor_parallel; lia).
  assert (is_flag (str_Z world) = false) as Hw by (apply str_Z_not_flag; lia).
  assert (is_flag (str_Z (tensor_parallel config * world)) = false) as Htw
    by (apply str_Z_not_flag; unfold tensor_parallel; nia).
  pose proof (str_Z_not_flag _ Hr) as Hrk. pose proof (str_Z_not_flag _ Hp) as Hpt.
  pose proof (str_Z_not_flag _ Hmp) as Hmpt. fold mport in Hmpt.
  pose proof (host_port_not_flag _ mport Hh) as Hhp. fold host in Hhp, Hh.
  unfold build_command, _multinode_flags. fold e is_tp world host mport. rewrite Ee in *. clearbody host mport.
  unfold PROFILE_FLAGS, engine_base, tp_flag.
  destruct vllm; cbn [String.eqb Ascii.eqb Bool.eqb mbind result_bind]; rewrite Hbase; clear Hbase; unfold base_words;
    (destruct (String.eqb (EngineConfig.profile config) "latency");
      [|destruct (String.eqb (EngineConfig.profile config) "throughput")]);
    destruct (0 <? MultiNodeSpec.node_rank spec), is_tp;
    eexists; (split; [run_flags; reflexivity|]); split_and!;
    (run_flags; first [reflexivity|vm_decide]).
Qed.

Definition sample_config (engine : string) (rank : Z) : EngineConfig.t :=
  EngineConfig.mk engine "org/model" "latency" [0; 1] 8000 8010 false
    (Some (Parallelism.mk "pp" 2 2 2)) (Some (Rendezvous.mk "10.0.0.1" 8110 0 rank 2 [] [])) [].
Example single_node_command :
  build_command (sample_config "vllm" 0) None 8010
  = Ok ["vllm"; "serve"; "org/model"; "--port"; "8000"; "--gpu-memory-utilization"; "0.9";
        "--tensor-parallel-size"; "2"; "--max-num-seqs"; "32"].
Proof. by vm_compute. Qed.
Lemma build_command_rank_witness :
  ∃ cmd, build_command (sample_config "sglang" 1) (from_config (sample_config "sglang" 1)) 8010 = Ok cmd ∧
    flag_value "--port" cmd = None ∧ flag_value "--dist-init-addr" cmd = Some "10.0.0.1:8110".
Proof.
  destruct (build_command_rank (sample_config "sglang" 1) (MultiNodeSpec.mk "pp" 2 1 "10.0.0.1" 8110) 8010)
    as (cmd & Hc & _ & Hp & _ & _ & _ & _ & Hd);
    [by right|by vm_compute|by vm_compute|by vm_compute|by vm_compute|by vm_compute|].
  exists cmd. by split_and!.
Defined.
