(* ===== verification/Manager.v ===== *)
(** * The worker's instance manager ([worker/inferna_worker/engines/manager.py])

    Reconciliation of commands with containers, in mock mode and against Docker,
    the batches and their coalescing, adoption, probes and status reports.  The
    Docker daemon is a record of operations on an unspecified world, each of
    which may fail in any way; times are microseconds of the monotonic clock.
    The blocking helpers run in threads one at a time: each is one step here. *)

From S2P Require Import Prelude PyStr Proto Engine.
Local Open Scope Z_scope.

Definition CONTAINER_PREFIX : string := "inferna-instance-".
Definition LABEL_MANAGED : string := "inferna.managed".
Definition LABEL_INSTANCE_ID : string := "inferna.instance_id".
Definition LABEL_GENERATION : string := "inferna.generation".
Definition LABEL_PORT : string := "inferna.port".
Definition HEALTH_PROBE_INTERVAL : Z := 10 * 1000000.
Definition HEALTH_PROBE_TIMEOUT : Z := 2400 * 1000000.
Definition MOCK_START_DELAY : Z := 2 * 1000000.

(** ** Docker *)
Module Container.
Record t := mk { name : string; labels : list (string * string); status : string }.
End Container.
Module CreateArgs.
Record t := mk {
  image : string; name : string; labels : list (string * string); device_ids : list string;
  host_network : bool; published_port : option Z; environment : list (string * string);
  models_dir : string; command : list string }.
End CreateArgs.
(** The outcome of a pull: done, out of time, or failed. *)
Inductive pull_outcome := Pulled | PullTimeout | PullFailed (detail : string).
Module Docker.
Record t (W : Type) := mk {
  list_managed : W -> result (list Container.t) * W;
  list_all : W -> result (list Container.t) * W;
  get_ : string -> W -> result Container.t * W;
  remove : Container.t -> W -> result unit * W;
  stop : Container.t -> W -> result unit * W;
  create : CreateArgs.t -> W -> result Container.t * W;
  start : Container.t -> W -> result unit * W;
  pull : string -> W -> pull_outcome * W;
  logs : Container.t -> W -> result string * W }.
Arguments list_managed {W}. Arguments list_all {W}. Arguments get_ {W}. Arguments remove {W}.
Arguments stop {W}. Arguments create {W}. Arguments start {W}. Arguments pull {W}. Arguments logs {W}.
End Docker.

(** ** State

    [batch] is the running batch task's commands, if there is one. *)

(** A tracked instance.  [node_rank] is [None] both for a single-node instance and
    where the entry does not record it. *)
Module Info.
Record t := mk {
  state : string; port : Z; detail : string; started_at : Z; generation : Z; node_rank : option Z;
  log_tail : string }.
Definition eta (r : t) : t :=
  mk (state r) (port r) (detail r) (started_at r) (generation r) (node_rank r) (log_tail r).
Definition set_state (v : string) (r : t) : t := ltac:(set_field eta state v r).
Definition set_detail (v : string) (r : t) : t := ltac:(set_field eta detail v r).
Definition set_log_tail (v : string) (r : t) : t := ltac:(set_field eta log_tail v r).
#[global] Instance eq_dec : EqDecision t.
Proof. solve_decision. Defined.
End Info.

Inductive probe := HealthProbe (port : Z) | FollowerProbe.

Module Manager.
Record t (W : Type) := mk {
  instances : list (string * Info.t); probe_tasks : gmap string probe;
  pending_probes : list (string * Z); batch : option (list InstanceCommand.t);
  pending : list (string * InstanceCommand.t); pulled_images : gset string; world : W }.
Arguments mk {W}. Arguments instances {W}. Arguments probe_tasks {W}. Arguments pending_probes {W}.
Arguments batch {W}. Arguments pending {W}. Arguments pulled_images {W}. Arguments world {W}.
Section setters.
Context {W : Type}.
Implicit Types r : t W.
Definition eta r : t W :=
  mk (instances r) (probe_tasks r) (pending_probes r) (batch r) (pending r) (pulled_images r) (world r).
Definition set_instances v r : t W := ltac:(set_field (@eta) (@instances W) v r).
Definition set_probe_tasks v r : t W := ltac:(set_field (@eta) (@probe_tasks W) v r).
Definition set_pending_probes v r : t W := ltac:(set_field (@eta) (@pending_probes W) v r).
Definition set_batch v r : t W := ltac:(set_field (@eta) (@batch W) v r).
Definition set_pending v r : t W := ltac:(set_field (@eta) (@pending W) v r).
Definition set_pulled_images v r : t W := ltac:(set_field (@eta) (@pulled_images W) v r).
Definition set_world v r : t W := ltac:(set_field (@eta) (@world W) v r).
Definition init (w : W) : t W := mk [] ∅ [] None [] ∅ w.
End setters.
End Manager.

(** ** Commands *)
Definition no_config : EngineConfig.t := EngineConfig.mk "" "" "" [] 0 0 false None None [].
(** [command.config] *)
Definition config_of (c : InstanceCommand.t) : EngineConfig.t := default no_config (InstanceCommand.config c).
Definition _spec_of (c : InstanceCommand.t) : option MultiNodeSpec.t :=
  match InstanceCommand.config c with None => None | Some config => from_config config end.
Definition container_name (id : string) : string := CONTAINER_PREFIX +:+ id.
Definition needs_token (s : WSettings.t) (config : EngineConfig.t) : bool :=
  EngineConfig.requires_hf_token config && String.eqb (WSettings.hf_token s) "".

Definition new_info (state : string) (detail : string) (now : Z) (rank : option Z) (c : InstanceCommand.t) : Info.t :=
  Info.mk state (EngineConfig.port (config_of c)) detail now (InstanceCommand.generation c) rank "".

(** [key, _, value = entry.partition("=")], kept when the key is not empty. *)
Definition env_entry (env : list (string * string)) (entry : string) : list (string * string) :=
  let '(k, v) := match split1 "=" entry with Some kv => kv | None => (entry, "") end in
  if String.eqb k "" then env else dict_set k v env.
Definition dict_update (env new : list (string * string)) : list (string * string) :=
  foldl (λ e kv, dict_set kv.1 kv.2 e) env new.
Definition environment_for (s : WSettings.t) (spec : option MultiNodeSpec.t) (config : EngineConfig.t)
  : list (string * string) :=
  let env := if String.eqb (WSettings.hf_token s) "" then [] else [("HF_HUB_TOKEN", WSettings.hf_token s)] in
  match spec with
  | None => env
  | Some _ =>
      foldl env_entry (dict_update env (multi_node_env spec (WSettings.worker_hostname s) (WSettings.netif s)))
        (Rendezvous.env (default no_rendezvous (EngineConfig.rendezvous config)))
  end.

Section manager.
(** The settings, [str(exc)], and the daemon. *)
Context {W : Type} (s : WSettings.t) (str_exn : exn → string) (dk : Docker.t W).
Notation MM := (M (Manager.t W)).

Definition docker_call {A} (f : W → result A * W) : MM A := λ m,
  let '(r, w) := f (Manager.world m) in (r, Manager.set_world w m).
Definition track (id : string) (i : Info.t) : MM unit :=
  modify (λ m, Manager.set_instances (dict_set id i (Manager.instances m)) m).
(** Writing into the tracked entry, if there still is one. *)
Definition amend (id : string) (f : Info.t → Info.t) : MM unit :=
  modify (λ m, match dict_get id (Manager.instances m) with
               | Some i => Manager.set_instances (dict_set id (f i) (Manager.instances m)) m
               | None => m end).
Definition cancel_probe (id : string) : MM unit :=
  modify (λ m, Manager.set_probe_tasks (delete id (Manager.probe_tasks m)) m).
(** [try: ... except Exception: pass] *)
Definition suppress (m : MM unit) : MM unit := try_ m (λ _, mret tt).

(** *** Mock mode *)
Definition _start_mock (now : Z) (c : InstanceCommand.t) : MM unit :=
  let rank := MultiNodeSpec.node_rank <$> _spec_of c in
  if needs_token s (config_of c)
  then track (InstanceCommand.instance_id c) (new_info "error" "model requires HF token" now rank c)
  else track (InstanceCommand.instance_id c) (new_info "starting" "" now rank c).
Definition mock_command (now : Z) (c : InstanceCommand.t) : MM unit :=
  let id := InstanceCommand.instance_id c in
  if String.eqb (InstanceCommand.action c) "start" then _start_mock now c
  else if String.eqb (InstanceCommand.action c) "stop" then
    amend id (λ i, Info.set_detail "" (Info.set_state "stopped" i))
  else if String.eqb (InstanceCommand.action c) "delete" then
    modify (λ m, Manager.set_instances (dict_del id (Manager.instances m)) m)
  else mret tt.

(** *** Starting a container *)
Definition up_to_date (tracked : option Info.t) (c : InstanceCommand.t) : bool :=
  match tracked with
  | Some i => existsb (String.eqb (Info.state i)) ["starting"; "running"]
              && (InstanceCommand.generation c <=? Info.generation i)
  | None => false
  end.
Definition replaces_old (tracked : option Info.t) (c : InstanceCommand.t) : bool :=
  match tracked with
  | Some i => (Info.generation i <? InstanceCommand.generation c)
              || existsb (String.eqb (Info.state i)) ["stopped"; "error"]
  | None => false
  end.
Definition remove_container (id : string) : MM unit :=
  c ← docker_call (Docker.get_ dk (container_name id)); docker_call (Docker.remove dk c).

Definition create_args (image : string) (command : list string) (c : InstanceCommand.t) : CreateArgs.t :=
  let config := config_of c in
  let spec := _spec_of c in
  let multi := match spec with Some _ => true | None => false end in
  CreateArgs.mk image (container_name (InstanceCommand.instance_id c))
    [(LABEL_MANAGED, "true"); (LABEL_INSTANCE_ID, InstanceCommand.instance_id c);
     (LABEL_GENERATION, str_Z (InstanceCommand.generation c)); (LABEL_PORT, str_Z (EngineConfig.port config))]
    (map str_Z (EngineConfig.gpu_indexes config)) multi
    (if multi then None else Some (EngineConfig.port config)) (environment_for s spec config)
    (WSettings.models_dir s) command.

(** The image is pulled once; [false] when the pull ran out of time. *)
Definition ensure_image (image : string) : MM bool := λ m,
  if bool_decide (image ∈ Manager.pulled_images m) then (Ok true, m)
  else
    let '(r, w) := Docker.pull dk image (Manager.world m) in
    let m' := Manager.set_world w m in
    match r with
    | Pulled => (Ok true, Manager.set_pulled_images ({[image]} ∪ Manager.pulled_images m) m')
    | PullTimeout => (Ok false, m')
    | PullFailed detail => (Raise (RuntimeError detail), m')
    end.

Definition launch (now : Z) (c : InstanceCommand.t) : MM unit :=
  let id := InstanceCommand.instance_id c in
  let config := config_of c in
  let spec := _spec_of c in
  _ ← cancel_probe id;
  image ← lift_result (image_for (EngineConfig.engine config) s);
  ready ← ensure_image image;
  if negb ready then track id (new_info "error" "image pull timed out" now None c)
  else
    command ← lift_result (build_command config spec (EngineConfig.port config));
    container ← docker_call (Docker.create dk (create_args image command c));
    _ ← docker_call (Docker.start dk container);
    _ ← track id (new_info "starting" "" now (MultiNodeSpec.node_rank <$> spec) c);
    modify (λ m, Manager.set_pending_probes (Manager.pending_probes m ++ [(id, EngineConfig.port config)]) m).

Definition _start_sync (now : Z) (c : InstanceCommand.t) : MM unit :=
  let id := InstanceCommand.instance_id c in
  tracked ← gets (λ m, dict_get id (Manager.instances m));
  if up_to_date tracked c then mret tt
  else
    _ ← (if replaces_old tracked c then suppress (remove_container id) else mret tt);
    if needs_token s (config_of c) then track id (new_info "error" "model requires HF token" now None c)
    else try_ (launch now c)
           (λ e, track id (new_info "error" ("docker unavailable: " +:+ str_exn e) now None c)).

Definition _stop_sync (id : string) : MM unit :=
  _ ← cancel_probe id;
  _ ← suppress (c ← docker_call (Docker.get_ dk (container_name id)); docker_call (Docker.stop dk c));
  amend id (λ i, Info.set_detail "" (Info.set_state "stopped" i)).

Definition _delete_sync (id : string) : MM unit :=
  _ ← cancel_probe id;
  _ ← suppress (remove_container id);
  modify (λ m, Manager.set_instances (dict_del id (Manager.instances m)) m).

Definition _apply_docker_command (now : Z) (c : InstanceCommand.t) : MM unit :=
  let id := InstanceCommand.instance_id c in
  try_
    (if String.eqb (InstanceCommand.action c) "start" then _start_sync now c
     else if String.eqb (InstanceCommand.action c) "stop" then _stop_sync id
     else if String.eqb (InstanceCommand.action c) "delete" then _delete_sync id
     else mret tt)
    (λ e, track id (new_info "error" (str_exn e) now None c)).

(** *** Sweeps over containers *)
Definition is_managed (c : Container.t) : bool :=
  bool_decide (dict_get LABEL_MANAGED (Container.labels c) = Some "true").
(** Filtering by label, with the fallback for a client without filters. *)
Definition managed_containers : MM (list Container.t) :=
  try_ (docker_call (Docker.list_managed dk))
    (λ e, match e with
          | TypeError => l ← docker_call (Docker.list_all dk); mret (where_ is_managed l)
          | _ => raise e end).
Definition instance_of (c : Container.t) : option string :=
  if startswith CONTAINER_PREFIX (Container.name c)
  then Some (drop_str (String.length CONTAINER_PREFIX) (Container.name c)) else None.

Definition sweep_one (c : Container.t) : MM unit :=
  match instance_of c with
  | None => mret tt
  | Some id =>
      tracked ← gets (λ m, dict_get id (Manager.instances m));
      match tracked with Some _ => mret tt | None => docker_call (Docker.remove dk c) end
  end.
Definition _remove_stale_containers_sync : MM unit :=
  suppress (l ← managed_containers; foldM (λ _ c, sweep_one c) tt l).

Definition label_int (k : string) (c : Container.t) : Z :=
  match dict_get k (Container.labels c) with
  | Some v => if String.eqb v "" then 0 else default 0 (py_int v)
  | None => 0
  end.
Definition adopt_one (now : Z) (c : Container.t) : MM unit :=
  match instance_of c with
  | None => mret tt
  | Some id =>
      track id (Info.mk (if String.eqb (Container.status c) "running" then "running" else "stopped")
                  (label_int LABEL_PORT c) "" now (label_int LABEL_GENERATION c) None "")
  end.
Definition remove_legacy (c : Container.t) : MM unit :=
  match instance_of c with
  | None => mret tt
  | Some _ => if is_managed c then mret tt else suppress (docker_call (Docker.remove dk c))
  end.
Definition _adopt_existing_sync (now : Z) : MM unit :=
  suppress (l ← managed_containers;
            _ ← foldM (λ _ c, adopt_one now c) tt l;
            all ← docker_call (Docker.list_all dk);
            foldM (λ _ c, remove_legacy c) tt all).
Definition adopt_existing (now : Z) : MM unit :=
  if WSettings.mock_engine s then mret tt else _adopt_existing_sync now.

(** *** Batches *)
Definition rank_of (m : Manager.t W) (id : string) : Z :=
  match dict_get id (Manager.instances m) with Some i => default 0 (Info.node_rank i) | None => 0 end.
(** The sort key: starts first, then higher ranks first. *)
Definition batch_key (m : Manager.t W) (c : InstanceCommand.t) : Z * Z :=
  (if String.eqb (InstanceCommand.action c) "start" then 0 else 1, - rank_of m (InstanceCommand.instance_id c)).
Definition key_leb (a b : Z * Z) : bool := (a.1 <? b.1) || ((a.1 =? b.1) && (a.2 <=? b.2)).
Definition batch_order (m : Manager.t W) (l : list InstanceCommand.t) : list InstanceCommand.t :=
  sorted_by (λ a b, key_leb (batch_key m a) (batch_key m b)) l.

Definition schedule_one (id : string) (port : Z) (m : Manager.t W) : Manager.t W :=
  if 0 <? rank_of m id then
    if WSettings.mock_engine s then m
    else Manager.set_probe_tasks (<[id := FollowerProbe]> (Manager.probe_tasks m)) m
  else if port <=? 0 then m
  else Manager.set_probe_tasks (<[id := HealthProbe port]> (Manager.probe_tasks m)) m.
Definition _schedule_pending_probes : MM unit := modify (λ m,
  Manager.set_pending_probes [] (foldl (λ m ip, schedule_one ip.1 ip.2 m) m (Manager.pending_probes m))).

(** [clock n]: the clock when the [n]-th command of the batch runs. *)
Fixpoint run_commands (clock : nat → Z) (n : nat) (l : list InstanceCommand.t) : MM unit :=
  match l with
  | [] => mret tt
  | c :: l =>
      _ ← try_ (_apply_docker_command (clock n) c)
            (λ e, track (InstanceCommand.instance_id c) (new_info "error" (str_exn e) (clock n) None c));
      run_commands clock (S n) l
  end.
Definition _apply_batch (clock : nat → Z) (commands : list InstanceCommand.t) : MM unit :=
  ordered ← gets (λ m, batch_order m commands);
  _ ← try_ (_ ← run_commands clock 0 ordered;
            _ ← _remove_stale_containers_sync;
            _schedule_pending_probes)
        (λ _, mret tt);
  modify (λ m, match Manager.pending m with
               | [] => Manager.set_batch None m
               | _ => Manager.set_batch (Some (map snd (Manager.pending m))) (Manager.set_pending [] m)
               end).
(** The batch task runs. *)
Definition batch_step (clock : nat → Z) : MM unit :=
  b ← gets Manager.batch;
  match b with Some commands => _apply_batch clock commands | None => mret tt end.

(** *** Status reports *)
Definition _container_log_tail (id : string) : MM string :=
  if WSettings.mock_engine s then mret ""
  else try_ (c ← docker_call (Docker.get_ dk (container_name id)); l ← docker_call (Docker.logs dk c); mret (strip l))
         (λ _, mret "").
Definition _mock_log_tail (state : string) (i : Info.t) : string :=
  join (String "010" "")
    ["mock: resolving model weights"; "mock: loading model into GPU memory";
     if String.eqb state "running" then "mock: engine ready on port " +:+ str_Z (Info.port i)
     else if String.eqb state "error" then
       "mock: error — " +:+ (if String.eqb (Info.detail i) "" then "unknown" else Info.detail i)
     else "mock: starting engine"].
(** The promotion a mock instance gets once its delay has passed. *)
Definition promote (now : Z) (i : Info.t) : Info.t :=
  if String.eqb (Info.state i) "starting" && (MOCK_START_DELAY <=? now - Info.started_at i)
  then Info.set_state "running" i else i.
Definition status_of (id : string) (i : Info.t) : InstanceStatus.t :=
  InstanceStatus.mk id (Info.state i) (Info.detail i) (Info.port i) (Info.generation i) (Info.log_tail i).
(** The refreshed entry; reading the logs awaits, and [during] is what the batch
    thread does to the manager meanwhile. *)
Definition refresh_info (now : Z) (during : Manager.t W → Manager.t W) (id : string) (i : Info.t) : MM Info.t :=
  if WSettings.mock_engine s then
    let i' := promote now i in mret (Info.set_log_tail (_mock_log_tail (Info.state i') i') i')
  else if existsb (String.eqb (Info.state i)) ["starting"; "running"; "error"] then
    tail ← _container_log_tail id;
    _ ← modify during;
    mret (if String.eqb tail "" then i else Info.set_log_tail tail i)
  else mret i.
(** Iterating over the dict itself: Python raises when its size changed.  What is
    written to an entry that was replaced meanwhile is lost. *)
Fixpoint report_loop (now : Z) (during : nat → Manager.t W → Manager.t W) (size fuel k : nat)
    (acc : list InstanceStatus.t) : MM (list InstanceStatus.t) :=
  match fuel with
  | O => mret acc
  | S fuel =>
      l ← gets Manager.instances;
      if negb (length l =? size)%nat then raise (RuntimeError "dictionary changed size during iteration")
      else match l !! k with
           | None => mret acc
           | Some (id, i) =>
               i' ← refresh_info now (during k) id i;
               _ ← amend id (λ cur, if bool_decide (cur = i) then i' else cur);
               report_loop now during size fuel (S k) (acc ++ [status_of id i'])
           end
  end.
Definition statuses (now : Z) (during : nat → Manager.t W → Manager.t W) : MM (list InstanceStatus.t) :=
  l ← gets Manager.instances; report_loop now during (length l) (S (length l)) 0 [].

Definition reconcile (now : Z) (during : nat → Manager.t W → Manager.t W) (commands : list InstanceCommand.t)
  : MM (list InstanceStatus.t) :=
  if WSettings.mock_engine s then
    _ ← foldM (λ _ c, mock_command now c) tt commands; statuses now during
  else
    b ← gets Manager.batch;
    _ ← (match b with
         | Some _ => modify (λ m, Manager.set_pending
                       (foldl (λ p c, dict_set (InstanceCommand.instance_id c) c p) (Manager.pending m) commands) m)
         | None => modify (Manager.set_batch (Some commands))
         end);
    statuses now during.

(** *** Probes *)
Definition exited (status : string) : bool := existsb (String.eqb status) ["exited"; "dead"].
Definition container_status (id : string) : MM (option string) :=
  try_ (c ← docker_call (Docker.get_ dk (container_name id)); mret (Some (Container.status c))) (λ _, mret None).
Definition fail_instance (id : string) (detail : string) : MM unit :=
  tracked ← gets (λ m, dict_get id (Manager.instances m));
  match tracked with
  | None => mret tt
  | Some _ =>
      tail ← _container_log_tail id;
      amend id (λ i, Info.set_detail (if String.eqb tail "" then detail else tail) (Info.set_state "error" i))
  end.
Definition mark_running (id : string) : MM unit :=
  amend id (λ i, Info.set_detail "" (Info.set_state "running" i)).
(** Whether the container is gone; its instance then failed. *)
Definition check_exited (id : string) : MM bool :=
  if WSettings.mock_engine s then mret false else
  st ← container_status id;
  match st with
  | Some status => if exited status then _ ← fail_instance id ("container " +:+ status); mret true else mret false
  | None => mret false
  end.
(** One attempt; [http] is the status of the response, if one came in time. *)
Definition health_attempt (id : string) (http : option Z) : MM bool :=
  gone ← check_exited id;
  if (gone : bool) then mret true
  else if bool_decide (http = Some 200) then _ ← mark_running id; mret true
  else check_exited id.
(** [ticks]: the clock at the head of each iteration and the answer of its
    attempt.  [Ok false] when the probe is still going after them. *)
Fixpoint _health_probe (id : string) (deadline : Z) (ticks : list (Z * option Z)) : MM bool :=
  match ticks with
  | [] => mret false
  | (now, http) :: l =>
      if now <? deadline then
        finished ← health_attempt id http;
        if (finished : bool) then mret true else _health_probe id deadline l
      else _ ← fail_instance id "health probe timed out"; mret true
  end.

(** A follower: ready once its container has stayed up.  Each iteration reads the
    clock at its head and after the container's status. *)
Fixpoint _follower_probe (id : string) (deadline : Z) (stable_since : option Z) (ticks : list (Z * Z)) : MM bool :=
  match ticks with
  | [] => mret false
  | (now, after) :: l =>
      if now <? deadline then
        st ← container_status id;
        match st with
        | Some status =>
            if exited status then _ ← fail_instance id ("container " +:+ status); mret true
            else if String.eqb status "running" then
              match stable_since with
              | None => _follower_probe id deadline (Some after) l
              | Some t => if WSettings.mn_rank_ready s <=? after - t
                          then _ ← mark_running id; mret true
                          else _follower_probe id deadline stable_since l
              end
            else _follower_probe id deadline stable_since l
        | None => _follower_probe id deadline stable_since l
        end
      else
        _ ← amend id (λ i, Info.set_detail "follower rank did not become ready" (Info.set_state "error" i)); mret true
  end.
Definition health_deadline (now : Z) : Z := now + HEALTH_PROBE_TIMEOUT.
Definition follower_deadline (now : Z) : Z := now + Z.max (4 * WSettings.mn_rank_ready s) HEALTH_PROBE_TIMEOUT.

(** Cancelling a running batch runs its [finally]: pending commands start a new one. *)
Definition shutdown : MM unit :=
  modify (λ m,
    let m := match Manager.batch m, Manager.pending m with
             | Some _, _ :: _ => Manager.set_batch (Some (map snd (Manager.pending m))) (Manager.set_pending [] m)
             | _, _ => Manager.set_batch None m
             end in
    Manager.set_pending_probes [] (Manager.set_probe_tasks ∅ m)).
End manager.

(** ** What commands do to the tracked instances, whatever the daemon does *)
Section settled.
Context {W : Type} (s : WSettings.t) (str_exn : exn → string) (dk : Docker.t W).
Notation MM := (M (Manager.t W)).

(** Steps that leave the tracked instances and the batches alone. *)
Definition same_tracking (m m' : Manager.t W) : Prop :=
  Manager.instances m' = Manager.instances m ∧ Manager.batch m' = Manager.batch m ∧
  Manager.pending m' = Manager.pending m.
Definition keeps_tracking {A} (x : MM A) : Prop := ∀ m, same_tracking m (x m).2.

Lemma same_tracking_refl m : same_tracking m m.
Proof. done. Qed.
Lemma same_tracking_trans m1 m2 m3 : same_tracking m1 m2 → same_tracking m2 m3 → same_tracking m1 m3.
Proof. intros (? & ? & ?) (? & ? & ?). split_and!; congruence. Qed.
Lemma kt_bind {A B} (x : MM A) (f : A → MM B) :
  keeps_tracking x → (∀ a, keeps_tracking (f a)) → keeps_tracking (x ≫= f).
Proof.
  intros Hx Hf m. unfold mbind, M_bind. specialize (Hx m). destruct (x m) as [[a|e] m1]; cbn [snd] in *; [|done].
  eapply same_tracking_trans; [exact Hx|apply Hf].
Qed.
Lemma kt_try {A} (x : MM A) h : keeps_tracking x → (∀ e, keeps_tracking (h e)) → keeps_tracking (try_ x h).
Proof.
  intros Hx Hh m. unfold try_. specialize (Hx m). destruct (x m) as [[a|e] m1]; cbn [snd] in *; [done|].
  eapply same_tracking_trans; [exact Hx|apply Hh].
Qed.
Lemma kt_docker {A} (f : W → result A * W) : keeps_tracking (docker_call f).
Proof. intros m. unfold docker_call. by destruct (f (Manager.world m)). Qed.
Lemma kt_ret {A} (a : A) : keeps_tracking (mret a).
Proof. done. Qed.
Lemma kt_raise {A} e : keeps_tracking (raise (A:=A) e).
Proof. done. Qed.
Lemma kt_lift {A} (r : result A) : keeps_tracking (lift_result r).
Proof. done. Qed.
Lemma kt_gets {A} (f : Manager.t W → A) : keeps_tracking (gets f).
Proof. done. Qed.
Lemma kt_modify f : (∀ m, same_tracking m (f m)) → keeps_tracking (modify f).
Proof. intros H m. apply H. Qed.
Lemma kt_cancel id : keeps_tracking (cancel_probe id).
Proof. done. Qed.
Lemma kt_foldM {A} (f : A → MM unit) l : (∀ x, keeps_tracking (f x)) → keeps_tracking (foldM (λ _ x, f x) tt l).
Proof. intros Hf. induction l as [|x l IH]; [apply kt_ret|]. apply kt_bind; [apply Hf|]. by intros []. Qed.
Create HintDb tracking.
Hint Resolve kt_bind kt_try kt_docker kt_ret kt_raise kt_lift kt_gets kt_modify kt_cancel kt_foldM : tracking.

Lemma kt_suppress x : keeps_tracking x → keeps_tracking (suppress x).
Proof. unfold suppress. auto with tracking. Qed.
Lemma kt_remove id : keeps_tracking (remove_container dk id).
Proof. unfold remove_container. auto with tracking. Qed.
Lemma kt_image image : keeps_tracking (ensure_image dk image).
Proof. intros m. unfold ensure_image. by repeat case_match. Qed.
Lemma kt_managed : keeps_tracking (managed_containers dk).
Proof. unfold managed_containers. apply kt_try; [auto with tracking|]. intros []; auto with tracking. Qed.
Hint Resolve kt_suppress kt_remove kt_image kt_managed : tracking.
Lemma kt_sweep : keeps_tracking (_remove_stale_containers_sync dk).
Proof.
  unfold _remove_stale_containers_sync. apply kt_suppress, kt_bind; [auto with tracking|]. intros l. apply kt_foldM.
  intros c. unfold sweep_one. destruct (instance_of c); [|auto with tracking].
  apply kt_bind; [auto with tracking|]. intros []; auto with tracking.
Qed.
Lemma kt_schedule : keeps_tracking (_schedule_pending_probes s (W:=W)).
Proof.
  apply kt_modify. intros m. assert (∀ l m, same_tracking m (foldl (λ m ip, schedule_one s ip.1 ip.2 m) m l)) as H.
  { induction l as [|[id port] l IH]; intros m0; [done|]. cbn [foldl]. eapply same_tracking_trans; [|apply IH].
    unfold schedule_one. by repeat case_match. }
  destruct (H (Manager.pending_probes m) m) as (? & ? & ?). by split_and!.
Qed.

(** The tracked entry of an instance once a command for it has run. *)
Definition stop_info (i : Info.t) : Info.t := Info.set_detail "" (Info.set_state "stopped" i).
Definition settled (c : InstanceCommand.t) (before after : option Info.t) : Prop :=
  (InstanceCommand.action c = "start" →
     up_to_date before c = true ∧ after = before ∨
     ∃ i, after = Some i ∧ Info.generation i = InstanceCommand.generation c ∧
          (Info.state i = "starting" ∨ Info.state i = "error")) ∧
  (InstanceCommand.action c = "stop" → after = stop_info <$> before) ∧
  (InstanceCommand.action c = "delete" → after = None).
(** A command changes its own instance only, and the batches not at all. *)
Definition runs (c : InstanceCommand.t) (m m' : Manager.t W) : Prop :=
  let id := InstanceCommand.instance_id c in
  settled c (dict_get id (Manager.instances m)) (dict_get id (Manager.instances m')) ∧
  (∀ j, j ≠ id → dict_get j (Manager.instances m') = dict_get j (Manager.instances m)) ∧
  (NoDup (Manager.instances m).*1 → NoDup (Manager.instances m').*1) ∧
  Manager.batch m' = Manager.batch m ∧ Manager.pending m' = Manager.pending m.

Lemma kt_bind_case {A B} (x : MM A) (f : A → MM B) m r m' :
  keeps_tracking x → (x ≫= f) m = (r, m') →
  (∃ e, r = Raise e ∧ same_tracking m m') ∨ ∃ a m1, same_tracking m m1 ∧ f a m1 = (r, m').
Proof.
  intros Hx. unfold mbind, M_bind. specialize (Hx m). destruct (x m) as [[a|e] m1]; cbn [snd] in Hx.
  - intros. right. by exists a, m1.
  - intros; simplify_eq. left. by exists e.
Qed.

(** The entry [i] was put in place for [id], over tracking [m]. *)
Definition put (m : Manager.t W) (id : string) (i : Info.t) (m' : Manager.t W) : Prop :=
  Manager.instances m' = dict_set id i (Manager.instances m) ∧ Manager.batch m' = Manager.batch m ∧
  Manager.pending m' = Manager.pending m.
Lemma put_track m m1 id i : same_tracking m m1 → put m id i (track id i m1).2.
Proof. intros (H1 & H2 & H3). unfold put, track, modify. cbn. rewrite H1. by split_and!. Qed.
Definition fresh_info (c : InstanceCommand.t) (i : Info.t) : Prop :=
  Info.generation i = InstanceCommand.generation c ∧ (Info.state i = "starting" ∨ Info.state i = "error").

Lemma launch_spec now c m r m' :
  launch s dk now c m = (r, m') →
  match r with
  | Raise _ => same_tracking m m'
  | Ok _ => ∃ i, fresh_info c i ∧ put m (InstanceCommand.instance_id c) i m'
  end.
Proof.
  intros H. unfold launch in H.
  apply kt_bind_case in H as [(e & -> & ?)|([] & m1 & H1 & H)]; [done| |auto with tracking].
  apply kt_bind_case in H as [(e & -> & ?)|(image & m2 & H2 & H)]; [by eapply same_tracking_trans| |auto with tracking].
  apply kt_bind_case in H as [(e & -> & ?)|(ready & m3 & H3 & H)];
    [by do 2 (eapply same_tracking_trans; [eassumption|])| |auto with tracking].
  assert (same_tracking m m3) as Hm by (by do 2 (eapply same_tracking_trans; [eassumption|])). clear H1 H2 H3.
  destruct ready; cbn [negb] in H.
  2: { injection H as <- <-. eexists. split; [|by apply put_track]. split; [done|by right]. }
  apply kt_bind_case in H as [(e & -> & ?)|(command & m4 & H4 & H)]; [by eapply same_tracking_trans| |auto with tracking].
  apply kt_bind_case in H as [(e & -> & ?)|(cont & m5 & H5 & H)];
    [by do 2 (eapply same_tracking_trans; [eassumption|])| |auto with tracking].
  apply kt_bind_case in H as [(e & -> & ?)|([] & m6 & H6 & H)];
    [by do 3 (eapply same_tracking_trans; [eassumption|])| |auto with tracking].
  injection H as <- <-. eexists. split; [|].
  2: { destruct (put_track m m6 (InstanceCommand.instance_id c)
         (new_info "starting" "" now (MultiNodeSpec.node_rank <$> _spec_of c) c)) as (? & ? & ?).
       { by do 3 (eapply same_tracking_trans; [eassumption|]). } by split_and!. }
  split; [done|by left].
Qed.

Lemma start_sync_spec now c m :
  let id := InstanceCommand.instance_id c in
  ∃ m', _start_sync s str_exn dk now c m = (Ok tt, m') ∧
    (up_to_date (dict_get id (Manager.instances m)) c = true ∧ m' = m ∨ ∃ i, fresh_info c i ∧ put m id i m').
Proof.
  intros id. unfold _start_sync. unfold mbind at 1, M_bind at 1, gets. fold id.
  destruct (up_to_date _ c); [by exists m; split; [|left]|].
  set (clean := if replaces_old _ _ then _ else _).
  assert (∃ m1, clean m = (Ok tt, m1) ∧ same_tracking m m1) as (m1 & Ec & H1).
  { unfold clean. destruct (replaces_old _ _); [|by exists m].
    pose proof (kt_suppress _ (kt_remove id) m) as Hk. unfold suppress, try_ in *.
    destruct (remove_container dk id m) as [[[]|e] m1]; by exists m1. }
  unfold mbind, M_bind. rewrite Ec. destruct (needs_token s (config_of c)).
  { eexists. split; [done|]. right. eexists. split; [|by apply put_track]. split; [done|by right]. }
  unfold try_. destruct (launch s dk now c m1) as [[[]|e] m2] eqn:El; apply launch_spec in El.
  - exists m2. split; [done|]. right. destruct El as (i & Hi & Hp1 & Hp2 & Hp3). exists i. split; [done|].
    destruct H1 as (E1 & E2 & E3). unfold put. rewrite Hp1, Hp2, Hp3, E1, E2, E3. by split_and!.
  - eexists. split; [done|]. right. eexists. split; [|apply put_track; by eapply same_tracking_trans].
    split; [done|by right].
Qed.

Lemma put_runs c m i m' :
  InstanceCommand.action c = "start" → fresh_info c i → put m (InstanceCommand.instance_id c) i m' → runs c m m'.
Proof.
  intros Ha [Hg Hs] (H1 & H2 & H3). unfold runs, settled. rewrite H1, dict_get_set, decide_True by done.
  split_and!; try done.
  - intros _. right. by exists i.
  - rewrite Ha. by intros.
  - rewrite Ha. by intros.
  - intros j Hj. by rewrite dict_get_set, decide_False.
  - apply dict_set_NoDup.
Qed.
Lemma amend_runs c m m1 :
  InstanceCommand.action c = "stop" → same_tracking m m1 → runs c m (amend (InstanceCommand.instance_id c) stop_info m1).2.
Proof.
  intros Ha (H1 & H2 & H3). unfold runs, settled, amend, modify. cbn [snd]. rewrite H1, Ha.
  destruct (dict_get _ (Manager.instances m)) as [i|] eqn:E.
  - cbn [Manager.set_instances Manager.instances Manager.batch Manager.pending]. rewrite dict_get_set, decide_True by done.
    split_and!; try done. { intros j Hj. by rewrite dict_get_set, decide_False. } apply dict_set_NoDup.
  - rewrite H1, E. by split_and!.
Qed.
Lemma delete_runs c m m1 :
  InstanceCommand.action c = "delete" → same_tracking m m1 →
  runs c m (Manager.set_instances (dict_del (InstanceCommand.instance_id c) (Manager.instances m1)) m1).
Proof.
  intros Ha (H1 & H2 & H3). unfold runs, settled.
  cbn [Manager.set_instances Manager.instances Manager.batch Manager.pending]. rewrite H1, Ha, dict_get_del, decide_True by done.
  split_and!; try done. { intros j Hj. by rewrite dict_get_del, decide_False. } apply dict_del_NoDup.
Qed.
Lemma skip_runs c m :
  InstanceCommand.action c ≠ "start" → InstanceCommand.action c ≠ "stop" → InstanceCommand.action c ≠ "delete" → runs c m m.
Proof. intros. unfold runs, settled. by split_and!. Qed.

Lemma suppress_kt (x : MM unit) m : keeps_tracking x → ∃ m1, suppress x m = (Ok tt, m1) ∧ same_tracking m m1.
Proof.
  intros Hx. pose proof (kt_suppress _ Hx m) as Hk. unfold suppress, try_ in *.
  destruct (x m) as [[[]|e] m1]; by exists m1.
Qed.

(** A command never fails, whatever the daemon answers. *)
Lemma docker_command_runs now c m :
  ∃ m', _apply_docker_command s str_exn dk now c m = (Ok tt, m') ∧ runs c m m'.
Proof.
  unfold _apply_docker_command, try_.
  destruct (String.eqb_spec (InstanceCommand.action c) "start") as [Ea|Ea];
    [|destruct (String.eqb_spec (InstanceCommand.action c) "stop") as [Eb|Eb];
      [|destruct (String.eqb_spec (InstanceCommand.action c) "delete") as [Ec|Ec]]].
  - destruct (start_sync_spec now c m) as (m' & -> & H). exists m'. split; [done|].
    destruct H as [[Hu ->]|(i & Hi & Hp)]; [|by eapply put_runs].
    unfold runs, settled. split_and!; try done; [by left|rewrite Ea; by intros..].
  - unfold _stop_sync. unfold mbind, M_bind. cbn [cancel_probe modify].
    destruct (suppress_kt (c0 ← docker_call (Docker.get_ dk (container_name (InstanceCommand.instance_id c)));
      docker_call (Docker.stop dk c0)) (cancel_probe (InstanceCommand.instance_id c) m).2) as (m1 & E & H1);
      [auto with tracking|]. unfold mbind, M_bind in E. cbn [cancel_probe modify snd] in E. rewrite E.
    eexists. split; [done|]. apply amend_runs; [done|]. eapply same_tracking_trans; [|exact H1]. done.
  - unfold _delete_sync. unfold mbind, M_bind. cbn [cancel_probe modify].
    destruct (suppress_kt (remove_container dk (InstanceCommand.instance_id c))
      (cancel_probe (InstanceCommand.instance_id c) m).2) as (m1 & E & H1);
      [auto with tracking|]. cbn [cancel_probe modify snd] in E. rewrite E.
    eexists. split; [done|]. apply delete_runs; [done|]. eapply same_tracking_trans; [|exact H1]. done.
  - exists m. split; [done|by apply skip_runs].
Qed.

Lemma mock_command_runs now c m :
  ∃ m', mock_command s now c m = (Ok tt, m') ∧ runs c m m'.
Proof.
  unfold mock_command.
  destruct (String.eqb_spec (InstanceCommand.action c) "start") as [Ea|Ea];
    [|destruct (String.eqb_spec (InstanceCommand.action c) "stop") as [Eb|Eb];
      [|destruct (String.eqb_spec (InstanceCommand.action c) "delete") as [Ec|Ec]]].
  - unfold _start_mock. destruct (needs_token _ _); (eexists; split; [done|]);
      (eapply put_runs; [done| |by apply put_track]); (split; [done|]); [by right|by left].
  - eexists. split; [done|]. by apply amend_runs.
  - eexists. split; [done|]. by apply delete_runs.
  - exists m. split; [done|by apply skip_runs].
Qed.

(** ** Sequences of commands *)
Definition get_info (m : Manager.t W) (id : string) : option Info.t := dict_get id (Manager.instances m).
Definition command_ids (l : list InstanceCommand.t) : list string := map InstanceCommand.instance_id l.
Definition all_settled (l : list InstanceCommand.t) (m m' : Manager.t W) : Prop :=
  (∀ c, c ∈ l → settled c (get_info m (InstanceCommand.instance_id c)) (get_info m' (InstanceCommand.instance_id c))) ∧
  (∀ j, j ∉ command_ids l → get_info m' j = get_info m j) ∧
  (NoDup (Manager.instances m).*1 → NoDup (Manager.instances m').*1).

Inductive runs_all : list InstanceCommand.t → Manager.t W → Manager.t W → Prop :=
  | runs_nil m : runs_all [] m m
  | runs_cons c l m m1 m' : runs c m m1 → runs_all l m1 m' → runs_all (c :: l) m m'.

Lemma runs_all_settled l m m' :
  NoDup (command_ids l) → runs_all l m m' →
  all_settled l m m' ∧ Manager.batch m' = Manager.batch m ∧ Manager.pending m' = Manager.pending m.
Proof.
  intros Hnd H. induction H as [m|c l m m1 m' Hc Hl IH].
  { split; [|done]. unfold all_settled. split_and!; try done. intros c Hc. by apply elem_of_nil in Hc. }
  apply NoDup_cons in Hnd as [Hc' Hnd]. destruct (IH Hnd) as ((H1 & H2 & H3) & H4 & H5). clear IH.
  destruct Hc as (C1 & C2 & C3 & C4 & C5). unfold all_settled. split_and!; [| |auto|congruence|congruence].
  - intros c0 [->|Hin]%elem_of_cons.
    + unfold get_info in *. by rewrite (H2 _ Hc').
    + specialize (H1 c0 Hin). unfold get_info in *. rewrite C2 in H1; [done|].
      intros E. apply Hc'. rewrite <-E. by apply (list_elem_of_fmap_2 InstanceCommand.instance_id).
  - intros j Hj. unfold command_ids in Hj. cbn [map] in Hj. apply not_elem_of_cons in Hj as [Hne Hj].
    unfold get_info in *. rewrite (H2 j Hj). by apply C2.
Qed.

Lemma run_commands_runs clock n l m :
  ∃ m', run_commands s str_exn dk clock n l m = (Ok tt, m') ∧ runs_all l m m'.
Proof.
  revert n m. induction l as [|c l IH]; intros n m; [exists m; split; [done|constructor]|].
  cbn [run_commands]. destruct (docker_command_runs (clock n) c m) as (m1 & E1 & H1).
  destruct (IH (S n) m1) as (m' & E2 & H2). exists m'. split; [|by econstructor].
  unfold mbind, M_bind, try_. by rewrite E1.
Qed.
Lemma mock_commands_run now l m :
  ∃ m', foldM (λ _ c, mock_command s now c) tt l m = (Ok tt, m') ∧ runs_all l m m'.
Proof.
  revert m. induction l as [|c l IH]; intros m; [exists m; split; [done|constructor]|].
  cbn [foldM]. destruct (mock_command_runs now c m) as (m1 & E1 & H1).
  destruct (IH m1) as (m' & E2 & H2). exists m'. split; [|by econstructor].
  unfold mbind, M_bind. by rewrite E1.
Qed.

Lemma all_settled_perm l1 l2 m m' : l1 ≡ₚ l2 → all_settled l1 m m' → all_settled l2 m m'.
Proof.
  intros Hp (H1 & H2 & H3). unfold all_settled. split_and!; [| |done].
  - intros c Hc. apply H1. by rewrite Hp.
  - intros j Hj. apply H2. unfold command_ids in *. by rewrite Hp.
Qed.
Lemma all_settled_tracking l m m1 m2 : all_settled l m m1 → same_tracking m1 m2 → all_settled l m m2.
Proof.
  intros (H1 & H2 & H3) (E & _ & _). unfold all_settled, get_info in *. rewrite E. by split_and!.
Qed.

(** C38 A batch always completes, whatever the Docker daemon does (absent
    containers, failing pulls, creations and removals, timeouts), and settles
    every one of its commands: a started instance is recorded with the command's
    generation, as starting or as failed, unless it already was up at that
    generation; a stopped one is recorded as stopped; a deleted one is forgotten;
    the others are untouched.  The commands coalesced meanwhile become the next
    batch. *)
Theorem apply_batch_settles clock commands m :
  NoDup (command_ids commands) →
  ∃ m', _apply_batch s str_exn dk clock commands m = (Ok tt, m') ∧ all_settled commands m m' ∧
    Manager.pending m' = [] ∧
    Manager.batch m' = match Manager.pending m with [] => None | p => Some (map snd p) end.
Proof.
  intros Hnd. unfold _apply_batch. rewrite (M_bind_step _ _ m (batch_order m commands) m) by done.
  set (ordered := batch_order m commands).
  assert (ordered ≡ₚ commands) as Hp by apply sorted_by_perm.
  destruct (run_commands_runs clock 0 ordered m) as (m1 & E1 & H1).
  apply runs_all_settled in H1 as (Hs & Hb & Hpd); [|unfold command_ids; by rewrite Hp].
  assert (keeps_tracking (_ ← _remove_stale_containers_sync dk; _schedule_pending_probes s)) as Hk.
  { apply kt_bind; [apply kt_sweep|]. intros []. apply kt_schedule. }
  specialize (Hk m1).
  set (rest := (_ ← _remove_stale_containers_sync dk; _schedule_pending_probes s)) in *.
  assert (∃ m2, try_ (_ ← run_commands s str_exn dk clock 0 ordered; rest) (λ _, mret tt) m = (Ok tt, m2) ∧
                same_tracking m1 m2) as (m2 & E2 & H2).
  { unfold try_. unfold mbind at 1, M_bind at 1. rewrite E1. destruct (rest m1) as [[[]|e] m2]; by exists m2. }
  rewrite (M_bind_step _ _ _ _ _ E2). eexists. split; [done|].
  pose proof (all_settled_tracking _ _ _ _ Hs H2) as Hs2. apply (all_settled_perm _ commands) in Hs2; [|done].
  destruct H2 as (Ei & Eb & Ep). rewrite Ep, Hpd. destruct (Manager.pending m) as [|p0 p] eqn:Epm.
  - split_and!; [done|cbn; congruence|done].
  - split_and!; done.
Qed.

(** The order of a batch: it is a permutation of the commands in which starts
    come before everything else and, of two teardowns, the one of the higher rank
    comes first, so the followers of a group stop before its head; commands of one
    kind and rank keep the server's order. *)
Theorem batch_order_teardown (m : Manager.t W) commands :
  let ordered := batch_order m commands in
  ordered ≡ₚ commands ∧
  (∀ l1 a l2 b l3, ordered = l1 ++ a :: l2 ++ b :: l3 →
     (InstanceCommand.action b = "start" → InstanceCommand.action a = "start") ∧
     (InstanceCommand.action a ≠ "start" →
        rank_of m (InstanceCommand.instance_id b) <= rank_of m (InstanceCommand.instance_id a))) ∧
  (∀ k, where_ (λ c, bool_decide (batch_key m c = k)) ordered =
        where_ (λ c, bool_decide (batch_key m c = k)) commands).
Proof.
  intros ordered. split_and!; [apply sorted_by_perm| |].
  2: { intros k. apply sorted_by_stable. intros a b ->%bool_decide_eq_true ->%bool_decide_eq_true.
       unfold key_leb. by rewrite Z.eqb_refl, Z.leb_refl, orb_true_r. }
  intros l1 a l2 b l3 E.
  assert (StronglySorted (λ a b, key_leb (batch_key m a) (batch_key m b)) ordered) as Hs.
  { apply sorted_by_sorted; unfold key_leb; intros *;
      rewrite ?orb_true_iff, ?orb_false_iff, ?andb_true_iff, ?andb_false_iff, ?Z.ltb_lt, ?Z.ltb_ge, ?Z.eqb_eq, ?Z.eqb_neq,
        ?Z.leb_le, ?Z.leb_gt; lia. }
  rewrite E in Hs. assert (key_leb (batch_key m a) (batch_key m b) = true) as Hk.
  { clear E. induction l1 as [|x l1 IH]; cbn in Hs; apply StronglySorted_inv in Hs as [Hs Hall]; [|by apply IH].
    rewrite Forall_forall in Hall. apply Is_true_true, Hall. apply elem_of_app. right. by constructor. }
  unfold key_leb, batch_key in Hk. cbn [fst snd] in Hk.
  rewrite orb_true_iff, andb_true_iff, Z.ltb_lt, Z.eqb_eq, Z.leb_le in Hk.
  destruct (String.eqb_spec (InstanceCommand.action a) "start"), (String.eqb_spec (InstanceCommand.action b) "start");
    split; intros; try done; lia.
Qed.

(** ** Status reports *)
Ltac split_outcome H :=
  match type of H with context [match ?x with (_, _) => _ end] => destruct x as [[?|?] ?] end; by eexists _, _.
Definition keeps_keys {A} (x : MM A) : Prop := ∀ m, (Manager.instances (x m).2).*1 = (Manager.instances m).*1.
Lemma tracking_keys {A} (x : MM A) : keeps_tracking x → keeps_keys x.
Proof. intros H m. by destruct (H m) as (-> & _). Qed.
Lemma kt_log_tail id : keeps_tracking (_container_log_tail s dk id).
Proof. unfold _container_log_tail. destruct (WSettings.mock_engine s); auto with tracking. Qed.
Lemma amend_keys id f : keeps_keys (amend (W:=W) id f).
Proof.
  intros m. unfold amend, modify. cbn. destruct (dict_get id (Manager.instances m)) eqn:E; [|done].
  cbn. by rewrite dict_set_keys, E.
Qed.

(** Without interference on the set of instances, reading an entry returns. *)
Lemma refresh_info_ok now during id i m :
  (∀ m, (Manager.instances (during m)).*1 = (Manager.instances m).*1) →
  ∃ i' m', refresh_info s dk now during id i m = (Ok i', m') ∧ (Manager.instances m').*1 = (Manager.instances m).*1.
Proof.
  intros Hd. unfold refresh_info. destruct (WSettings.mock_engine s) eqn:Em; [by eexists _, _|].
  destruct (existsb _ _); [|by eexists _, _].
  assert (∃ tl m1, _container_log_tail s dk id m = (Ok tl, m1) ∧
            (Manager.instances m1).*1 = (Manager.instances m).*1) as (tl & m1 & E & H1).
  { pose proof (tracking_keys _ (kt_log_tail id) m) as Hk. unfold _container_log_tail in *. rewrite Em in *.
    unfold try_ in *. split_outcome Hk. }
  rewrite (M_bind_step _ _ _ _ _ E). eexists _, _. split; [done|]. cbn. by rewrite Hd.
Qed.

Lemma report_loop_spec now during size fuel k acc m :
  (∀ k m, (Manager.instances (during k m)).*1 = (Manager.instances m).*1) →
  size = length (Manager.instances m) → (k <= size)%nat → (size < k + fuel)%nat →
  map InstanceStatus.instance_id acc = take k (Manager.instances m).*1 →
  ∃ rs m', report_loop s dk now during size fuel k acc m = (Ok rs, m') ∧
    map InstanceStatus.instance_id rs = (Manager.instances m).*1 ∧
    (Manager.instances m').*1 = (Manager.instances m).*1.
Proof.
  intros Hd. revert k acc m. induction fuel as [|fuel IH]; intros k acc m Hs Hk Hf Hacc; [lia|].
  cbn [report_loop]. rewrite (M_bind_step _ _ m (Manager.instances m) m) by done.
  rewrite <-Hs, Nat.eqb_refl. cbn [negb].
  destruct (Manager.instances m !! k) as [[id i]|] eqn:Ek.
  2: { apply lookup_ge_None in Ek. eexists _, _. split; [done|]. split; [|done].
       rewrite Hacc. apply take_ge. rewrite length_fmap. lia. }
  destruct (refresh_info_ok now (during k) id i m (Hd k)) as (i' & m1 & E1 & K1).
  rewrite (M_bind_step _ _ _ _ _ E1).
  set (f := λ cur : Info.t, if bool_decide (cur = i) then i' else cur).
  pose proof (amend_keys id f m1) as K2. destruct (amend id f m1) as [[[]|?] m2] eqn:E2; [|done].
  rewrite (M_bind_step _ _ _ _ _ E2). cbn [snd] in K2.
  apply lookup_lt_Some in Ek as Hlt.
  destruct (IH (S k) (acc ++ [status_of id i']) m2) as (rs & m' & E & R1 & R2).
  - rewrite <-(length_fmap fst (Manager.instances m2)), K2, K1, length_fmap. done.
  - lia.
  - lia.
  - rewrite map_app, Hacc, K2, K1. symmetry. apply take_S_r. by rewrite list_lookup_fmap, Ek.
  - exists rs, m'. split; [done|]. by rewrite R1, R2, K2, K1.
Qed.

(** A status report lists every tracked instance exactly once, in the order
    they were first tracked, and keeps tracking the same ones, whatever the daemon
    answers and whatever the batch thread writes into the entries meanwhile, as
    long as it neither starts tracking an instance nor forgets one. *)
Theorem statuses_report now during m :
  (∀ k m, (Manager.instances (during k m)).*1 = (Manager.instances m).*1) →
  ∃ rs m', statuses s dk now during m = (Ok rs, m') ∧
    map InstanceStatus.instance_id rs = (Manager.instances m).*1 ∧
    (Manager.instances m').*1 = (Manager.instances m).*1.
Proof.
  intros Hd. unfold statuses. rewrite (M_bind_step _ _ m (Manager.instances m) m) by done.
  apply report_loop_spec; [done|done|lia|lia|done].
Qed.

(** ** Probes *)
Lemma kt_container_status id : keeps_tracking (container_status dk id).
Proof. unfold container_status. auto with tracking. Qed.
Lemma container_status_ok id m : ∃ st m', container_status dk id m = (Ok st, m') ∧ same_tracking m m'.
Proof.
  pose proof (kt_container_status id m) as Hk. unfold container_status, try_ in *. split_outcome Hk.
Qed.
Lemma log_tail_ok id m : ∃ tl m', _container_log_tail s dk id m = (Ok tl, m') ∧ same_tracking m m'.
Proof.
  pose proof (kt_log_tail id m) as Hk. unfold _container_log_tail in *.
  destruct (WSettings.mock_engine s); [by eexists _, _|].
  unfold try_ in *. split_outcome Hk.
Qed.

(** What a probe of [id] may do to the tracked entry: nothing, or settle it. *)
Definition entry_settled (P : string → Prop) (before after : option Info.t) : Prop :=
  match before, after with
  | None, None => True
  | Some i, Some i' => P (Info.state i') ∧ Info.generation i' = Info.generation i ∧ Info.port i' = Info.port i
  | _, _ => False
  end.
Definition others_kept (id : string) (m m' : Manager.t W) : Prop := ∀ j, j ≠ id → get_info m' j = get_info m j.

Lemma amend_settled id f (P : string → Prop) m :
  (∀ i, P (Info.state (f i)) ∧ Info.generation (f i) = Info.generation i ∧ Info.port (f i) = Info.port i) →
  ∃ m', amend id f m = (Ok tt, m') ∧ others_kept id m m' ∧ entry_settled P (get_info m id) (get_info m' id).
Proof.
  intros Hf. unfold amend, modify, others_kept, get_info. eexists. split; [done|].
  destruct (dict_get id (Manager.instances m)) as [i|] eqn:E; [|by rewrite E].
  cbn. split; [intros j Hj; by rewrite dict_get_set, decide_False|]. rewrite dict_get_set, decide_True by done.
  cbn. apply Hf.
Qed.
Lemma tracking_get m m1 j : same_tracking m m1 → get_info m1 j = get_info m j.
Proof. intros (E & _). unfold get_info. by rewrite E. Qed.

Lemma fail_instance_spec id detail m :
  ∃ m', fail_instance s dk id detail m = (Ok tt, m') ∧ others_kept id m m' ∧
    entry_settled (λ st, st = "error") (get_info m id) (get_info m' id).
Proof.
  unfold fail_instance. rewrite (M_bind_step _ _ m (get_info m id) m) by done.
  destruct (get_info m id) as [i|] eqn:E; [|exists m; by rewrite E].
  destruct (log_tail_ok id m) as (tl & m1 & E1 & H1). rewrite (M_bind_step _ _ _ _ _ E1).
  destruct (amend_settled id (λ i, Info.set_detail (if String.eqb tl "" then detail else tl) (Info.set_state "error" i))
              (λ st, st = "error") m1) as (m2 & E2 & Ho & He); [done|].
  exists m2. split; [done|]. rewrite (tracking_get m m1 id H1), E in He.
  split; [|done]. intros j Hj. rewrite (Ho j Hj). by apply tracking_get.
Qed.

Lemma check_exited_spec id m :
  ∃ b m', check_exited s dk id m = (Ok b, m') ∧ others_kept id m m' ∧
    if b : bool then entry_settled (λ st, st = "error") (get_info m id) (get_info m' id)
    else get_info m' id = get_info m id.
Proof.
  unfold check_exited. destruct (WSettings.mock_engine s); [by exists false, m|].
  destruct (container_status_ok id m) as (st & m1 & E1 & H1).
  rewrite (M_bind_step _ _ _ _ _ E1).
  assert (others_kept id m m1) as Ho1 by (intros j _; by apply tracking_get).
  pose proof (tracking_get m m1 id H1) as Hg.
  destruct st as [status|]; [|by exists false, m1].
  destruct (exited status); [|by exists false, m1].
  destruct (fail_instance_spec id ("container " +:+ status) m1) as (m2 & E2 & Ho & He).
  rewrite (M_bind_step _ _ _ _ _ E2). exists true, m2. rewrite Hg in He.
  split; [done|]. split; [|done]. intros j Hj. by rewrite (Ho j Hj), (Ho1 j Hj).
Qed.

Lemma health_attempt_spec id http m :
  ∃ b m', health_attempt s dk id http m = (Ok b, m') ∧ others_kept id m m' ∧
    if b : bool then
      entry_settled (λ st, st = "running" ∧ http = Some 200 ∨ st = "error") (get_info m id) (get_info m' id)
    else get_info m' id = get_info m id.
Proof.
  assert (∀ a b, entry_settled (λ st, st = "error") a b →
            entry_settled (λ st, st = "running" ∧ http = Some 200 ∨ st = "error") a b) as Hw.
  { intros [i|] [i'|]; cbn; try done. intros (-> & ?). split; [by right|done]. }
  unfold health_attempt. destruct (check_exited_spec id m) as (b & m1 & E1 & Ho1 & H1).
  rewrite (M_bind_step _ _ _ _ _ E1). destruct b; [exists true, m1; auto|].
  destruct (bool_decide_reflect (http = Some 200)) as [->|Hh].
  - destruct (amend_settled id (λ i, Info.set_detail "" (Info.set_state "running" i))
                (λ st, st = "running" ∧ Some 200 = Some 200 ∨ st = "error") m1) as (m2 & E2 & Ho & He).
    { intros i. cbn. auto. }
    unfold mark_running. rewrite (M_bind_step _ _ _ _ _ E2). exists true, m2. rewrite H1 in He.
    split; [done|]. split; [|done]. intros j Hj. by rewrite (Ho j Hj), (Ho1 j Hj).
  - destruct (check_exited_spec id m1) as (b & m2 & E2 & Ho & He). exists b, m2. rewrite H1 in He.
    split; [done|]. split; [intros j Hj; by rewrite (Ho j Hj), (Ho1 j Hj)|]. destruct b; auto.
Qed.

(** C40 The health probe of an instance never raises, touches no other instance,
    and ends at the latest with the first iteration at its deadline.  While it has
    not ended the entry is untouched; when it ends, an entry that is still tracked
    has kept its generation and port and is either running, and then the engine
    answered 200 before the deadline, or in error. *)
Theorem health_probe_outcome id deadline ticks m :
  ∃ b m', _health_probe s dk id deadline ticks m = (Ok b, m') ∧ others_kept id m m' ∧
    ((∃ tick, tick ∈ ticks ∧ deadline <= tick.1) → b = true) ∧
    if b : bool then
      entry_settled (λ st, (st = "running" ∧ ∃ tick, tick ∈ ticks ∧ tick.1 < deadline ∧ tick.2 = Some 200) ∨
                           st = "error") (get_info m id) (get_info m' id)
    else get_info m' id = get_info m id.
Proof.
  revert m. induction ticks as [|[now http] ticks IH]; intros m; cbn [_health_probe].
  { exists false, m. split_and!; try done. intros (t & Ht & _). by apply elem_of_nil in Ht. }
  destruct (Z.ltb_spec now deadline) as [Hlt|Hge].
  - destruct (health_attempt_spec id http m) as (b & m1 & E1 & Ho1 & H1). rewrite (M_bind_step _ _ _ _ _ E1).
    destruct b.
    + exists true, m1. split_and!; try done.
      destruct (get_info m id), (get_info m1 id); cbn in *; try done.
      destruct H1 as ([[? ->]|?] & ?); [|by auto]. split; [|done]. left. split; [done|].
      exists (now, Some 200). by split; [left|].
    + destruct (IH m1) as (b & m2 & E2 & Ho2 & Ht & H2). exists b, m2. rewrite H1 in H2. split_and!.
      * done.
      * intros j Hj. by rewrite (Ho2 j Hj), (Ho1 j Hj).
      * intros (tick & [->|Hin]%elem_of_cons & Hd); [cbn in Hd; lia|]. apply Ht. by exists tick.
      * destruct b; [|done]. destruct (get_info m id), (get_info m2 id); cbn in *; try done.
        destruct H2 as ([(? & tick & ? & ?)|?] & ?); [|by auto]. split; [|done]. left. split; [done|].
        exists tick. by split; [right|].
  - destruct (fail_instance_spec id "health probe timed out" m) as (m1 & E1 & Ho1 & H1).
    rewrite (M_bind_step _ _ _ _ _ E1). exists true, m1. split_and!; try done.
    destruct (get_info m id), (get_info m1 id); cbn in *; try done. destruct H1 as (-> & ?). by split; [right|].
Qed.

End settled.

(** ** A small daemon: the containers it has, each started one running *)
Definition find_container (n : string) (w : list Container.t) : option Container.t :=
  find_by (λ c, String.eqb (Container.name c) n) w.
Definition without (n : string) (w : list Container.t) : list Container.t :=
  where_ (λ c, negb (String.eqb (Container.name c) n)) w.
Definition with_status (status n : string) (w : list Container.t) : list Container.t :=
  update_where (λ c, String.eqb (Container.name c) n) (λ c, Container.mk (Container.name c) (Container.labels c) status) w.
Definition sample_docker : Docker.t (list Container.t) :=
  Docker.mk _ (λ w, (Ok (where_ is_managed w), w)) (λ w, (Ok w, w))
    (λ n w, (match find_container n w with Some c => Ok c | None => Raise (RuntimeError "404") end, w))
    (λ c w, (Ok tt, without (Container.name c) w))
    (λ c w, (Ok tt, with_status "exited" (Container.name c) w))
    (λ a w, let c := Container.mk (CreateArgs.name a) (CreateArgs.labels a) "created" in
            match find_container (Container.name c) w with
            | Some _ => (Raise (RuntimeError "409"), w)
            | None => (Ok c, w ++ [c])
            end)
    (λ c w, (Ok tt, with_status "running" (Container.name c) w))
    (λ image w, (if String.eqb image "" then PullFailed "no such image" else Pulled, w))
    (λ _ w, (Ok "loading", w)).
Definition sample_settings : WSettings.t := WSettings.default "node".
Definition sample_engine_config (engine : string) (port : Z) : EngineConfig.t :=
  EngineConfig.mk engine "m" "balanced" [0] 1000 port false None None [].
Definition sample_start (id engine : string) (generation : Z) : InstanceCommand.t :=
  InstanceCommand.mk id "start" (Some (sample_engine_config engine 8001)) generation.
Definition plain_command (action id : string) : InstanceCommand.t := InstanceCommand.mk id action None 0.
Definition shown_exn (e : exn) : string := match e with RuntimeError m => m | _ => "error" end.
Definition tracked_states {W} (m : Manager.t W) : list (string * string * Z) :=
  map (λ ii, (ii.1, Info.state ii.2, Info.generation ii.2)) (Manager.instances m).

Definition probe_tasks_of {W} (m : Manager.t W) : list (string * probe) := map_to_list (Manager.probe_tasks m).

(** A start, a failing one and the stop of an instance never seen; a delete waits. *)
Definition sample_batch : list InstanceCommand.t :=
  [plain_command "stop" "c"; sample_start "b" "unknown" 2; sample_start "a" "vllm" 1].
Definition sample_manager : Manager.t (list Container.t) :=
  Manager.set_pending [("a", plain_command "delete" "a")] (Manager.set_batch (Some sample_batch) (Manager.init [])).

Lemma apply_batch_settles_witness :
  NoDup (command_ids sample_batch) ∧
  ∃ m', _apply_batch sample_settings shown_exn sample_docker (λ _, 0) sample_batch sample_manager = (Ok tt, m') ∧
    tracked_states m' = [("b", "error", 2); ("a", "starting", 1)] ∧
    probe_tasks_of m' = [("a", HealthProbe 8001)] ∧
    Manager.batch m' = Some [plain_command "delete" "a"].
Proof.
  assert (NoDup (command_ids sample_batch)) as Hnd by vm_decide.
  split; [exact Hnd|].
  destruct (apply_batch_settles sample_settings shown_exn sample_docker (λ _, 0) sample_batch sample_manager Hnd)
    as (m' & E & _ & _ & Hb).
  exists m'. split; [exact E|].
  assert (m' = (_apply_batch sample_settings shown_exn sample_docker (λ _, 0) sample_batch sample_manager).2) as ->
    by (by rewrite E).
  split_and!; by vm_compute.
Defined.

(** Two instances, one up; while its logs are read the batch marks the other failed. *)
Definition tracked_info (state : string) : Info.t := Info.mk state 8001 "" 0 1 None "".
Definition two_instances : Manager.t (list Container.t) :=
  Manager.set_instances [("a", tracked_info "running"); ("b", tracked_info "starting")]
    (Manager.init [Container.mk "inferna-instance-a" [] "running"]).
Definition batch_fails_b (_ : nat) (m : Manager.t (list Container.t)) : Manager.t (list Container.t) :=
  (amend "b" (Info.set_state "error") m).2.

Lemma statuses_report_witness :
  (∀ k m, (Manager.instances (batch_fails_b k m)).*1 = (Manager.instances m).*1) ∧
  ∃ rs m', statuses sample_settings sample_docker 5 batch_fails_b two_instances = (Ok rs, m') ∧
    map (λ r, (InstanceStatus.instance_id r, InstanceStatus.state r, InstanceStatus.log_tail r)) rs =
      [("a", "running", "loading"); ("b", "error", "")].
Proof.
  assert (∀ k m, (Manager.instances (batch_fails_b k m)).*1 = (Manager.instances m).*1) as Hd
    by (intros k m; apply amend_keys).
  split; [exact Hd|].
  destruct (statuses_report sample_settings sample_docker 5 batch_fails_b two_instances Hd) as (rs & m' & E & _).
  exists rs, m'. split; [exact E|].
  assert (rs = match (statuses sample_settings sample_docker 5 batch_fails_b two_instances).1 with
               | Ok rs => rs | Raise _ => [] end) as -> by (by rewrite E).
  by vm_compute.
Defined.

(** The report fails when the batch thread starts tracking an instance while the
    logs of another are being read. *)
Lemma statuses_raises_when_batch_tracks :
  (statuses sample_settings sample_docker 5 (λ _ m, (track "c" (tracked_info "starting") m).2) two_instances).1 =
    Raise (RuntimeError "dictionary changed size during iteration").
Proof. by vm_compute. Qed.

(** Starts of instances with a recorded rank do not keep the server's order. *)
Definition group_manager : Manager.t (list Container.t) :=
  Manager.set_instances
    [("head", Info.mk "error" 8001 "" 0 1 (Some 0) ""); ("follower", Info.mk "error" 0 "" 0 1 (Some 1) "")]
    (Manager.init []).
Lemma restarts_do_not_keep_order :
  let commands := [sample_start "head" "vllm" 2; sample_start "follower" "vllm" 2] in
  batch_order group_manager commands = rev commands.
Proof. by vm_compute. Qed.

(** A batch cancelled at shutdown starts a new one with the pending commands. *)
Lemma shutdown_starts_pending_batch :
  Manager.batch (shutdown sample_manager).2 = Some [plain_command "delete" "a"].
Proof. by vm_compute. Qed.
