(* ===== verification/Schemas.v ===== *)
(** * Request bodies ([server/inferna_server/schemas.py])

    The bodies the handlers take, each with the field constraints FastAPI enforces
    before the handler runs (a body that fails them is answered with a 422), and the
    two responses that are computed.  The others are in [Responses]. *)

From S2P Require Import Prelude PyStr.
Local Open Scope Z_scope.

(** [len(s)]: the code points of a UTF-8 string, one per byte that is not a
    continuation byte. *)
Fixpoint py_len (s : string) : Z :=
  match s with
  | EmptyString => 0
  | String c s => (if (128 <=? code c) && (code c <? 192) then 0 else 1) + py_len s
  end.
(** [Field(min_length=lo, max_length=hi)] *)
Definition length_in (lo hi : Z) (s : string) : bool := (lo <=? py_len s) && (py_len s <=? hi).
Definition length_in_opt (hi : Z) (s : option string) : bool :=
  match s with Some s => py_len s <=? hi | None => true end.
(** [Field(ge=lo, le=hi)] *)
Definition between (lo hi n : Z) : bool := (lo <=? n) && (n <=? hi).
Definition literal (l : list string) (s : string) : bool := existsb (String.eqb s) l.
Definition ge0_opt (n : option Z) : bool := match n with Some n => 0 <=? n | None => true end.

Module LoginRequest.
Record t := mk { username : string; password : string }.
End LoginRequest.

Module UserCreate.
Record t := mk { username : string; password : string; role : string }.
Definition valid (b : t) : bool := length_in 1 64 (username b) && length_in 6 128 (password b).
End UserCreate.

Module PasswordChange.
Record t := mk { password : string }.
Definition valid (b : t) : bool := length_in 6 128 (password b).
End PasswordChange.

Module ApiKeyCreate.
Record t := mk { name : string }.
Definition valid (b : t) : bool := length_in 1 64 (name b).
End ApiKeyCreate.

Module ClusterCreate.
Record t := mk { name : string; description : option string }.
Definition valid (b : t) : bool := length_in 1 64 (name b).
End ClusterCreate.

Module ModelCreate.
Record t := mk {
  hf_repo_id : string; display_name : option string; category : string; vram_required_mb : Z;
  requires_hf_token : bool; license : option string; description : option string }.
Definition valid (b : t) : bool :=
  length_in 3 255 (hf_repo_id b) && length_in_opt 255 (display_name b)
  && literal ["llm"; "embedding"; "reranker"; "audio"; "multimodal"] (category b)
  && between 256 1000000 (vram_required_mb b) && length_in_opt 64 (license b) && length_in_opt 500 (description b).
End ModelCreate.

Module ManualGpuSelection.
Record t := mk { worker_id : uuid; gpu_indexes : list Z }.
Definition valid (b : t) : bool := match gpu_indexes b with [] => false | _ => true end.
End ManualGpuSelection.

(** [gpu_selection] is [None] for "auto". *)
Module DeployRequest.
Record t := mk {
  model_id : uuid; cluster_id : uuid; engine : string; profile : string; replicas : Z;
  gpu_selection : option ManualGpuSelection.t; nodes_per_replica : Z; parallel_mode : string }.
Definition valid (b : t) : bool :=
  literal ["vllm"; "sglang"] (engine b) && literal ["latency"; "throughput"] (profile b)
  && between 1 8 (replicas b)
  && match gpu_selection b with Some m => ManualGpuSelection.valid m | None => true end
  && between 1 8 (nodes_per_replica b) && literal ["single"; "dp"; "pp"; "tp"; "pd"] (parallel_mode b).
End DeployRequest.

Module DeploymentRange.
Record t := mk { min_replicas : Z; max_replicas : Z }.
Definition _check_order (b : t) : bool := negb (max_replicas b <? min_replicas b).
Definition valid (b : t) : bool :=
  between 1 8 (min_replicas b) && between 1 8 (max_replicas b) && _check_order b.
End DeploymentRange.

Module ScaleRequest.
Record t := mk { replicas : Z }.
Definition valid (b : t) : bool := between 1 8 (replicas b).
End ScaleRequest.

Module UserLimitsUpdate.
Record t := mk { token_limit : option Z; request_limit : option Z }.
Definition valid (b : t) : bool := ge0_opt (token_limit b) && ge0_opt (request_limit b).
End UserLimitsUpdate.

Lemma between_spec lo hi n : between lo hi n = true ↔ lo <= n <= hi.
Proof. unfold between. rewrite andb_true_iff, !Z.leb_le. done. Qed.
