(* ===== verification/Instances.v ===== *)
(** * Instances and deployments ([server/inferna_server/api/instances.py], [api/deployments.py], [services/logs.py])

    The handlers that deploy, stop, restart, scale and delete, on the session of a
    request, and the invariant all of them keep: the constraints hold and no
    deployment is without instances. *)

From S2P Require Import Prelude PyStr Models Config Schemas Scheduler Scaling.
Local Open Scope Z_scope.

Definition http_error {A} (code : Z) (detail : string) : DbM A := raise (HTTPException code detail).
Definition or_404 {A} (detail : string) (o : option A) : DbM A :=
  match o with Some a => mret a | None => http_error 404 detail end.
(** [except IntegrityError: rollback; raise HTTPException(409)] *)
Definition on_conflict {A} (m : DbM A) : DbM A :=
  try_ m (λ e, match e with
               | IntegrityError => _ ← rollback; http_error 409 "allocation conflict; retry"
               | _ => raise e end).

(** Rows with the name of their worker. *)
Definition worker_name (d : Db.t) (i : ModelInstance.t) : option string :=
  match ModelInstance.worker_id i with
  | Some w => Worker.name <$> find_worker d w
  | None => None
  end.
Definition _with_names (d : Db.t) (l : list ModelInstance.t) : list (ModelInstance.t * option string) :=
  map (λ i, (i, worker_name d i)) l.
Definition newest_first {A} (at_ : A → datetime) (l : list A) : list A :=
  sorted_by (λ a b, at_ b <=? at_ a) l.
Definition list_instances : DbM (list (ModelInstance.t * option string)) :=
  query (λ d, _with_names d (newest_first ModelInstance.created_at (Db.instances d))).

(** ** Deploying *)
Definition add_deployment (dep : Deployment.t) (d : Db.t) : Db.t :=
  Db.set_deployments (Db.deployments d ++ [dep]) d.
Definition set_instance (id : uuid) (f : ModelInstance.t → ModelInstance.t) (d : Db.t) : Db.t :=
  Db.set_instances (update_where (λ i, (ModelInstance.id i =? id)%N) f (Db.instances d)) d.

Definition check_request (body : DeployRequest.t) (model : Model.t) : DbM unit :=
  let multi := 1 <? DeployRequest.nodes_per_replica body in
  let manual := match DeployRequest.gpu_selection body with Some _ => true | None => false end in
  if negb (one_of (DeployRequest.engine body) (Model.supported_engines model)) then
    http_error 400 ("engine '" +:+ DeployRequest.engine body +:+ "' does not support category '"
                    +:+ Model.category model +:+ "'")
  else if manual && (negb (DeployRequest.replicas body =? 1) || multi) then
    http_error 400 "manual gpu selection supports a single replica"
  else if multi && String.eqb (DeployRequest.parallel_mode body) "single" then
    http_error 400 "parallel_mode must be dp, pp, tp or pd for a multi-node deploy"
  else if negb multi && negb (String.eqb (DeployRequest.parallel_mode body) "single") then
    http_error 400 "parallel_mode requires nodes_per_replica > 1"
  else if multi && negb (DeployRequest.replicas body =? 1) then
    http_error 400 "multi-node deploy supports one replica group for now"
  else mret tt.

Definition deployment_of (body : DeployRequest.t) (id : uuid) (created_at : datetime) : Deployment.t :=
  Deployment.mk id (DeployRequest.model_id body) (DeployRequest.cluster_id body)
    (DeployRequest.engine body) (DeployRequest.profile body)
    (DeployRequest.replicas body) (DeployRequest.replicas body) (DeployRequest.nodes_per_replica body)
    (Some (DeployRequest.parallel_mode body)) created_at None.

Section deploy.
(** The identifiers and times the new rows draw, and those of the deployment. *)
Context (s : Settings.t) (fr : Fresh.t) (dep_id : uuid) (dep_created : datetime).

Definition new_ranks (dep : Deployment.t) (allocations : list ParallelAllocation.t) : DbM (list ModelInstance.t) :=
  match allocations with
  | [] => raise (RuntimeError "IndexError")
  | head :: _ =>
      mret (imap (λ k a, new_rank dep (Fresh.ids fr k) (Fresh.times fr k) (Fresh.group_ids fr 0)
                           (rendezvous_address head) a) allocations)
  end.
Definition new_rows (body : DeployRequest.t) (model : Model.t) (dep : Deployment.t) : DbM (list ModelInstance.t) :=
  d ← query id;
  let c := DeployRequest.cluster_id body in
  let vram := Model.vram_required_mb model in
  if 1 <? DeployRequest.nodes_per_replica body then
    allocations ← lift_result (allocate_parallel_replicas s d c vram (DeployRequest.engine body)
                    (DeployRequest.nodes_per_replica body) ∅);
    new_ranks dep allocations
  else
    allocations ← lift_result
      (match DeployRequest.gpu_selection body with
       | Some m =>
           a ← allocate_manual s d c (ManualGpuSelection.worker_id m) (ManualGpuSelection.gpu_indexes m) vram
                 (DeployRequest.engine body);
           Ok [a]
       | None => allocate_replicas s d c vram (DeployRequest.engine body) (DeployRequest.replicas body) ∅
       end);
    mret (imap (λ k '(worker, gpu_indexes, port),
      new_instance dep (Fresh.ids fr k) (Fresh.times fr k) worker gpu_indexes port) allocations).

Definition deploy (body : DeployRequest.t) : DbM (list (ModelInstance.t * option string)) :=
  model ← query (λ d, find_model d (DeployRequest.model_id body)); model ← or_404 "model not found" model;
  cluster ← query (λ d, find_cluster d (DeployRequest.cluster_id body)); _ ← or_404 "cluster not found" cluster;
  _ ← check_request body model;
  let dep := deployment_of body dep_id dep_created in
  rows ← on_conflict (rows ← new_rows body model dep;
                      _ ← execute (λ d, add_instances rows (add_deployment dep d));
                      _ ← commit; mret rows);
  query (λ d, _with_names d rows).
End deploy.

(** ** Stopping, restarting and deleting an instance *)
Definition with_name (id : uuid) : DbM (ModelInstance.t * option string) :=
  i ← query (λ d, find_instance d id); i ← or_404 "instance not found" i;
  query (λ d, (i, worker_name d i)).

Definition stop_instance (id : uuid) : DbM (ModelInstance.t * option string) :=
  i ← query (λ d, find_instance d id); i ← or_404 "instance not found" i;
  _ ← (if String.eqb (ModelInstance.desired_state i) "stopped" then mret tt
       else _ ← execute (set_instance id stop_row); commit);
  with_name id.

Definition restart_row (i : ModelInstance.t) : ModelInstance.t :=
  ModelInstance.set_error_detail None
    (ModelInstance.set_generation (ModelInstance.generation i + 1)
       (ModelInstance.set_desired_state "running" i)).
Definition restart_instance (id : uuid) : DbM (ModelInstance.t * option string) :=
  i ← query (λ d, find_instance d id); _ ← or_404 "instance not found" i;
  _ ← execute (set_instance id restart_row);
  _ ← commit;
  with_name id.

(** Deleting a deployment deletes its rows (the ORM's cascade). *)
Definition drop_instance (id : uuid) (d : Db.t) : Db.t :=
  Db.set_instances (where_ (λ i, negb (ModelInstance.id i =? id)%N) (Db.instances d)) d.
Definition drop_deployment (id : uuid) (d : Db.t) : Db.t :=
  Db.set_deployments (where_ (λ r, negb (Deployment.id r =? id)%N) (Db.deployments d))
    (Db.set_instances (where_ (λ i, negb (ModelInstance.deployment_id i =? id)%N) (Db.instances d)) d).

Definition delete_instance (id : uuid) : DbM unit :=
  i ← query (λ d, find_instance d id); i ← or_404 "instance not found" i;
  dep ← query (λ d, find_deployment d (ModelInstance.deployment_id i));
  siblings ← query (λ d, instances_of d (ModelInstance.deployment_id i));
  _ ← (match dep with
       | Some dep => if (length siblings <=? 1)%nat then execute (drop_deployment (Deployment.id dep))
                     else execute (drop_instance id)
       | None => execute (drop_instance id)
       end);
  commit.

(** ** The log snapshot *)
Definition newline : ascii := Ascii.ascii_of_nat 10.
Definition tail_lines (text : option string) (lines : Z) : option string :=
  match text with
  | None => None
  | Some text =>
      if lines <=? 0 then Some ""
      else
        let l := splitlines (rstrip_char newline text) in
        Some (join (String newline "") (drop (length l - Z.to_nat lines) l))
  end.
Module InstanceLogsOut.
Record t := mk { instance_id : uuid; state : string; log_tail : option string; stale : bool; lines : Z }.
End InstanceLogsOut.

Definition fresher (before now : option datetime) : bool :=
  match now, before with
  | Some n, Some b => b <? n
  | Some _, None => true
  | None, _ => false
  end.
(** [polls]: what each poll before the deadline finds the committed rows to be. *)
Fixpoint wait_for_sync (worker_id : uuid) (before : option datetime) (polls : list Db.t) : DbM bool :=
  match polls with
  | [] => mret true
  | d :: polls =>
      _ ← execute (λ _, d);
      w ← query (λ d, find_worker d worker_id);
      match w with
      | None => raise (RuntimeError "InvalidRequestError")
      | Some w => if fresher before (Worker.last_seen_at w) then mret false else wait_for_sync worker_id before polls
      end
  end.
Definition instance_logs (id : uuid) (live : bool) (lines : Z) (polls : list Db.t) : DbM InstanceLogsOut.t :=
  i ← query (λ d, find_instance d id); i ← or_404 "instance not found" i;
  stale ← (if live then
             w ← query (λ d, match ModelInstance.worker_id i with Some w => find_worker d w | None => None end);
             match w with
             | None => mret true
             | Some w => wait_for_sync (Worker.id w) (Worker.last_seen_at w) polls
             end
           else mret false);
  i ← (if live then
         i ← query (λ d, find_instance d id);
         match i with Some i => mret i | None => raise (RuntimeError "InvalidRequestError") end
       else mret i);
  mret (InstanceLogsOut.mk (ModelInstance.id i) (ModelInstance.state i)
          (tail_lines (ModelInstance.log_tail i) lines) stale lines).

(** ** Deployments *)
Definition deployment_out (d : Db.t) (dep : Deployment.t)
  : Deployment.t * list (ModelInstance.t * option string) :=
  (dep, _with_names d (instances_of d (Deployment.id dep))).
Definition list_deployments : DbM (list (Deployment.t * list (ModelInstance.t * option string))) :=
  query (λ d, map (deployment_out d) (newest_first Deployment.created_at (Db.deployments d))).

Section scale_handlers.
Context (s : Settings.t) (fr : Fresh.t) (now : datetime).
Notation deployment_view := (Deployment.t * list (ModelInstance.t * option string))%type.

Definition reread (id : uuid) : DbM deployment_view :=
  dep ← query (λ d, find_deployment d id);
  dep ← (match dep with Some dep => mret dep | None => raise NoResultFound end);
  query (λ d, deployment_out d dep).

Definition scale_deployment (id : uuid) (body : ScaleRequest.t) : DbM deployment_view :=
  dep ← query (λ d, find_deployment d id); _ ← or_404 "deployment not found" dep;
  _ ← on_conflict (apply_scale s fr now id (ScaleRequest.replicas body) true);
  try_ (reread id) (λ e, match e with NoResultFound => http_error 404 "deployment not found" | _ => raise e end).

Definition set_window (body : DeploymentRange.t) (r : Deployment.t) : Deployment.t :=
  Deployment.set_max_replicas (DeploymentRange.max_replicas body)
    (Deployment.set_min_replicas (DeploymentRange.min_replicas body) r).
Definition set_deployment_range (id : uuid) (body : DeploymentRange.t) : DbM deployment_view :=
  dep ← query (λ d, find_deployment d id); dep ← or_404 "deployment not found" dep;
  _ ← execute (update_deployment id (set_window body));
  instances ← query (λ d, instances_of d id);
  let current := replica_unit_count (Deployment.nodes_per_replica dep) instances in
  _ ← on_conflict (apply_scale s fr now id
        (Z.max (DeploymentRange.min_replicas body) (Z.min (DeploymentRange.max_replicas body) current)) false);
  reread id.

Definition delete_deployment (id : uuid) : DbM unit :=
  dep ← query (λ d, find_deployment d id); _ ← or_404 "deployment not found" dep;
  _ ← execute (drop_deployment id);
  commit.
End scale_handlers.

(** ** Preserved properties of a session *)
Lemma preserves_query {A} R (f : Db.t → A) : preserves R (query f).
Proof. intros s H. unfold query. by case_match. Qed.
(** A query read at the start of a step. *)
Lemma preserves_query_at {A B} (R : Session.t → Prop) (f : Db.t → A) (k : A → DbM B) st :
  R st → (Session.inactive st = false → R (k (f (Session.view st)) st).2) → R ((query f ≫= k) st).2.
Proof. intros H Hk. unfold mbind, M_bind, query. destruct (Session.inactive st); [done|]. by apply Hk. Qed.
#[export] Hint Resolve preserves_query preserves_lift preserves_raise preserves_ret preserves_bind
  preserves_try preserves_foldM : preserve.

(** ** The invariant of the deployment tables

    Every deployment has an instance, and every instance belongs to a deployment
    of its model and cluster. *)
Definition member (dep : Deployment.t) (i : ModelInstance.t) : Prop :=
  ModelInstance.deployment_id i = Deployment.id dep ∧ ModelInstance.model_id i = Deployment.model_id dep ∧
  ModelInstance.cluster_id i = Deployment.cluster_id dep.
Definition consistent (d : Db.t) : Prop :=
  (∀ dep, dep ∈ Db.deployments d → ∃ i, i ∈ Db.instances d ∧ ModelInstance.deployment_id i = Deployment.id dep) ∧
  (∀ i, i ∈ Db.instances d → ∃ dep, dep ∈ Db.deployments d ∧ member dep i).
Definition good (d : Db.t) : Prop := constraints_ok d = true ∧ consistent d.
Definition memberb (i : ModelInstance.t) (dep : Deployment.t) : bool :=
  (ModelInstance.deployment_id i =? Deployment.id dep)%N && (ModelInstance.model_id i =? Deployment.model_id dep)%N &&
  (ModelInstance.cluster_id i =? Deployment.cluster_id dep)%N.
Definition consistentb (d : Db.t) : bool :=
  forallb (λ dep, existsb (λ i, (ModelInstance.deployment_id i =? Deployment.id dep)%N) (Db.instances d)) (Db.deployments d) &&
  forallb (λ i, existsb (memberb i) (Db.deployments d)) (Db.instances d).
Lemma memberb_true i dep : memberb i dep = true ↔ member dep i.
Proof. unfold memberb, member. rewrite !andb_true_iff, !N.eqb_eq. tauto. Qed.
Lemma consistentb_true d : consistentb d = true ↔ consistent d.
Proof.
  unfold consistentb, consistent. rewrite andb_true_iff, !forallb_forall. setoid_rewrite existsb_exists.
  setoid_rewrite <-list_elem_of_In. setoid_rewrite N.eqb_eq. by setoid_rewrite memberb_true.
Qed.
#[global] Instance consistent_dec d : Decision (consistent d).
Proof. refine (cast_if (decide (consistentb d = true))); by rewrite <-consistentb_true. Defined.
#[global] Instance good_dec d : Decision (good d).
Proof. unfold good. apply _. Defined.
(** Of a session that also has a deployment with [dep]'s references in view. *)
Definition has_dep (dep : Deployment.t) (d : Db.t) : Prop :=
  ∃ r, r ∈ Db.deployments d ∧ Deployment.id r = Deployment.id dep ∧
       Deployment.model_id r = Deployment.model_id dep ∧ Deployment.cluster_id r = Deployment.cluster_id dep.
Definition sane (s : Session.t) : Prop := good (Session.durable s) ∧ consistent (Session.view s).
Definition sane_dep (dep : Deployment.t) (s : Session.t) : Prop := sane s ∧ has_dep dep (Session.view s).

Lemma sane_commit : preserves sane commit.
Proof.
  intros s [H1 H2]. unfold commit. destruct (Session.inactive s); [done|].
  destruct (constraints_ok (Session.view s)) eqn:E; [done|]. split; [done|]. apply H1.
Qed.
Lemma sane_rollback : preserves sane rollback.
Proof. intros s [H1 H2]. split; [done|]. apply H1. Qed.
Lemma sane_execute f : (∀ d, consistent d → consistent (f d)) → preserves sane (execute f).
Proof. intros Hf s [H1 H2]. unfold execute. destruct (Session.inactive s); [done|]. split; [done|]. by apply Hf. Qed.
Lemma sane_dep_execute dep f :
  (∀ d, consistent d → has_dep dep d → consistent (f d) ∧ has_dep dep (f d)) → preserves (sane_dep dep) (execute f).
Proof.
  intros Hf s [[H1 H2] H3]. unfold execute. destruct (Session.inactive s); [done|].
  destruct (Hf _ H2 H3) as [??]. by split; [split|].
Qed.
#[export] Hint Resolve sane_commit sane_rollback : preserve.

Lemma sane_on_conflict {A} (m : DbM A) : preserves sane m → preserves sane (on_conflict m).
Proof.
  intros Hm. apply preserves_try; [done|]. intros []; try apply preserves_raise.
  apply preserves_bind; [apply sane_rollback|]. intros. apply preserves_raise.
Qed.
Lemma sane_or_404 {A} detail (o : option A) R : preserves R (or_404 detail o).
Proof. destruct o; [apply preserves_ret|apply preserves_raise]. Qed.
#[export] Hint Resolve sane_or_404 : preserve.

(** *** The changes to the tables keep it *)
Lemma consistent_update d p f :
  (∀ i, ModelInstance.deployment_id (f i) = ModelInstance.deployment_id i ∧
        ModelInstance.model_id (f i) = ModelInstance.model_id i ∧
        ModelInstance.cluster_id (f i) = ModelInstance.cluster_id i) →
  consistent d → consistent (Db.set_instances (update_where p f (Db.instances d)) d).
Proof.
  intros Hf [H1 H2]. split; cbn.
  - intros dep Hdep. destruct (H1 dep Hdep) as (i & Hi & E). exists (if p i then f i else i).
    split; [apply elem_of_update_where; eauto|]. destruct (p i); [|done]. by rewrite (proj1 (Hf i)).
  - intros j (i & Hi & ->)%elem_of_update_where. destruct (H2 i Hi) as (dep & Hdep & Hm). exists dep.
    split; [done|]. destruct (p i); [|done]. destruct (Hf i) as (E1 & E2 & E3). unfold member in *. by rewrite E1, E2, E3.
Qed.
Lemma consistent_update_deployment id f d :
  (∀ r, Deployment.id (f r) = Deployment.id r ∧ Deployment.model_id (f r) = Deployment.model_id r ∧
        Deployment.cluster_id (f r) = Deployment.cluster_id r) →
  consistent d → consistent (update_deployment id f d).
Proof.
  intros Hf [H1 H2]. split; cbn.
  - intros dep (r & Hr & ->)%elem_of_update_where. destruct (H1 r Hr) as (i & Hi & E). exists i. split; [done|].
    destruct (_ =? _)%N; [|done]. by rewrite (proj1 (Hf r)).
  - intros i Hi. destruct (H2 i Hi) as (r & Hr & Hm). exists (if (Deployment.id r =? id)%N then f r else r).
    split; [apply elem_of_update_where; eauto|]. destruct (_ =? _)%N; [|done].
    destruct (Hf r) as (E1 & E2 & E3). unfold member in *. by rewrite E1, E2, E3.
Qed.
Lemma consistent_add rows dep d :
  Forall (member dep) rows → has_dep dep d → consistent d → consistent (add_instances rows d).
Proof.
  intros Hr (r & Hr' & E1 & E2 & E3) [H1 H2]. rewrite Forall_forall in Hr. split; cbn.
  - intros dep' Hd. destruct (H1 dep' Hd) as (i & Hi & ?). exists i. split; [|done]. apply elem_of_app. by left.
  - intros i [Hi|Hi]%elem_of_app; [by apply H2|]. exists r. split; [done|].
    destruct (Hr i Hi) as (? & ? & ?). unfold member. by rewrite E1, E2, E3.
Qed.
Lemma consistent_add_deployment rows dep d :
  rows ≠ [] → Forall (member dep) rows → consistent d → consistent (add_instances rows (add_deployment dep d)).
Proof.
  intros Hne Hr [H1 H2]. pose proof Hr as Hr'. rewrite Forall_forall in Hr'. split; cbn.
  - intros dep' [Hd|Hd]%elem_of_app.
    + destruct (H1 dep' Hd) as (i & Hi & ?). exists i. split; [|done]. apply elem_of_app. by left.
    + apply list_elem_of_singleton in Hd as ->. destruct rows as [|i rows]; [done|]. exists i.
      split; [apply elem_of_app; right; by left|]. apply Hr'. by left.
  - intros i [Hi|Hi]%elem_of_app.
    + destruct (H2 i Hi) as (r & ? & ?). exists r. split; [|done]. apply elem_of_app. by left.
    + exists dep. split; [apply elem_of_app; right; by left|]. by apply Hr'.
Qed.
Lemma consistent_drop_deployment id d : consistent d → consistent (drop_deployment id d).
Proof.
  intros [H1 H2]. split; cbn.
  - intros dep [Hd Hn]%elem_of_where. destruct (H1 dep Hd) as (i & Hi & E). exists i. split; [|done].
    apply elem_of_where. split; [done|]. by rewrite E.
  - intros i [Hi Hn]%elem_of_where. destruct (H2 i Hi) as (r & Hr & Hm). exists r. split; [|done].
    apply elem_of_where. split; [done|]. destruct Hm as [E _]. by rewrite <-E.
Qed.
Lemma consistent_drop_instance d id i :
  NoDup (map ModelInstance.id (Db.instances d)) → find_instance d id = Some i →
  (1 < length (instances_of d (ModelInstance.deployment_id i)))%nat →
  consistent d → consistent (drop_instance id d).
Proof.
  intros Hnd Hi Hlen [H1 H2]. apply find_by_Some in Hi as [Hi <-%N.eqb_eq]. split; cbn.
  - intros dep Hdep. destruct (N.eq_dec (ModelInstance.deployment_id i) (Deployment.id dep)) as [E|E].
    + rewrite E in Hlen. set (l := instances_of d (Deployment.id dep)) in *.
      assert (NoDup (map ModelInstance.id l)) as Hl by by apply instances_of_ids.
      assert (∃ j, j ∈ l ∧ ModelInstance.id j ≠ ModelInstance.id i) as (j & Hj & Hne).
      { destruct l as [|a [|b l]]; [cbn in Hlen; lia..|]. cbn in Hl. apply NoDup_cons in Hl as [Hl _].
        destruct (N.eq_dec (ModelInstance.id a) (ModelInstance.id i)) as [Ea|Ea].
        - exists b. split; [right; by left|]. intros Eb. apply Hl. rewrite Ea, <-Eb. by left.
        - exists a. split; [by left|done]. }
      apply elem_of_instances_of in Hj as [Hj Ej]. exists j. split; [|done].
      apply elem_of_where. split; [done|]. by apply negb_true_iff, N.eqb_neq.
    + destruct (H1 dep Hdep) as (j & Hj & Ej). exists j. split; [|done]. apply elem_of_where. split; [done|].
      apply negb_true_iff, N.eqb_neq. intros E'. apply E.
      by rewrite <-Ej, (NoDup_map_inj_key ModelInstance.id _ j i Hnd Hj Hi E').
  - intros j [Hj _]%elem_of_where. by apply H2.
Qed.

(** *** The handlers keep it *)
Lemma allocate_parallel_ranks dep rdv ids times g (l : list ParallelAllocation.t) :
  Forall (member dep) (imap (λ k a, new_rank dep (ids k) (times k) g rdv a) l).
Proof. apply Forall_forall. intros i (k & a & -> & _)%elem_of_lookup_imap. done. Qed.
Lemma new_instances_member dep ids times (l : list (Worker.t * list Z * Z)) :
  Forall (member dep) (imap (λ k '(w, gs, p), new_instance dep (ids k) (times k) w gs p) l).
Proof. apply Forall_forall. by intros i (k & [[w gs] p] & -> & _)%elem_of_lookup_imap. Qed.

Section handlers.
Context (s : Settings.t) (fr : Fresh.t) (now : datetime).

Lemma add_group_sane dep vram st k : preserves (sane_dep dep) (add_group s fr dep vram st k).
Proof.
  destruct st as [occ n]. unfold add_group.
  apply preserves_bind; [auto with preserve|intros d]. apply preserves_bind; [auto with preserve|intros [|head l]];
    [auto with preserve|].
  apply preserves_bind; [|auto with preserve]. apply sane_dep_execute. intros d' Hd' Hdep. split; [|done].
  eapply consistent_add; [apply (allocate_parallel_ranks dep _ (λ j, Fresh.ids fr (n + j)) (λ j, Fresh.times fr (n + j)))|done..].
Qed.
Lemma scale_out_sane dep vram units cu n : preserves (sane_dep dep) (scale_out s fr dep vram units cu n).
Proof.
  unfold scale_out. destruct (1 <? Deployment.nodes_per_replica dep).
  - apply preserves_bind; [|auto with preserve]. apply preserves_foldM. intros. apply add_group_sane.
  - apply preserves_bind; [auto with preserve|intros d]. apply preserves_bind; [auto with preserve|intros l].
    apply sane_dep_execute. intros d' Hd' Hdep. split; [|done].
    eapply consistent_add; [apply new_instances_member|done..].
Qed.
Lemma stop_units_sane dep us : preserves (sane_dep dep) (execute (stop_units us)).
Proof. apply sane_dep_execute. intros d Hd Hdep. split; [|done]. by apply consistent_update. Qed.

Lemma sane_dep_bind {A B} dep (m : DbM A) (k : A → DbM B) st :
  sane_dep dep st → preserves (sane_dep dep) m → (∀ a st1, sane_dep dep st1 → sane (k a st1).2) →
  sane ((m ≫= k) st).2.
Proof.
  intros H Hm Hk. unfold mbind, M_bind. specialize (Hm st H). destruct (m st) as [[u|e] st1]; [by apply Hk|apply Hm].
Qed.
(** From a session in view of [dep], [apply_scale] ends in a sane one. *)
Lemma apply_scale_sane id replicas set_range : preserves sane (apply_scale s fr now id replicas set_range).
Proof.
  intros st H. unfold apply_scale. apply preserves_query_at; [done|intros _].
  destruct (find_deployment (Session.view st) id) as [dep|] eqn:E; [|done].
  match goal with |- sane ((_ ≫= ?k) _).2 => change (sane (k dep st).2) end.
  assert (sane_dep dep st) as Hd.
  { split; [done|]. apply find_by_Some in E as [E _]. by exists dep. }
  apply preserves_query_at; [done|intros _].
  apply (sane_dep_bind dep); [done|apply stop_units_sane|intros _ st1 H1].
  apply (sane_dep_bind dep); [done| |intros _ st2 [H2 _]].
  - destruct (_ <? _).
    + apply preserves_bind; [auto with preserve|intros [m|]]; [apply scale_out_sane|auto with preserve].
    + destruct (_ <? _); [apply stop_units_sane|auto with preserve].
  - revert st2 H2. apply preserves_bind; [|intros; apply sane_commit]. apply sane_execute. intros d'.
    apply consistent_update_deployment. intros r. unfold finish_scale. by destruct set_range.
Qed.

Lemma or_404_Ok {A} detail (o : option A) (st : Session.t) a st' : or_404 detail o st = (Ok a, st') ↔ o = Some a ∧ st' = st.
Proof. unfold or_404, http_error, raise, mret, M_ret. destruct o; naive_solver. Qed.

Definition multi_node (body : DeployRequest.t) : bool := 1 <? DeployRequest.nodes_per_replica body.
Definition request_ok (body : DeployRequest.t) (model : Model.t) : Prop :=
  one_of (DeployRequest.engine body) (Model.supported_engines model) = true ∧
  (DeployRequest.gpu_selection body ≠ None → DeployRequest.replicas body = 1 ∧ multi_node body = false) ∧
  (if multi_node body then DeployRequest.replicas body = 1 ∧ DeployRequest.parallel_mode body ≠ "single"
   else DeployRequest.parallel_mode body = "single").
Lemma check_request_Ok body model st u st' :
  check_request body model st = (Ok u, st') ↔ u = tt ∧ st' = st ∧ request_ok body model.
Proof.
  unfold check_request, request_ok, multi_node, http_error, raise, mret, M_ret. destruct (one_of _ _); cbn [negb]; [|naive_solver].
  destruct (DeployRequest.gpu_selection body) as [m|]; cbn [andb];
    destruct (Z.eqb_spec (DeployRequest.replicas body) 1), (1 <? DeployRequest.nodes_per_replica body),
      (String.eqb_spec (DeployRequest.parallel_mode body) "single"); cbn; destruct u; naive_solver.
Qed.

(** The rows of a deployment: as many as it asks for, each fresh, each under its
    own unit, or all under one group. *)
Definition rows_ok (body : DeployRequest.t) (dep : Deployment.t) (rows : list ModelInstance.t) : Prop :=
  Forall (member dep) rows ∧ Forall (fresh_row dep) rows ∧
  Z.of_nat (length rows) = (if multi_node body then DeployRequest.nodes_per_replica body else DeployRequest.replicas body) ∧
  map (unit_key (DeployRequest.nodes_per_replica body)) rows =
    if multi_node body then replicate (length rows) (Fresh.group_ids fr 0) else map (Fresh.ids fr) (seq 0 (length rows)).

Lemma fresh_imap {A} (f : nat → A → ModelInstance.t) dep l :
  (∀ k a, fresh_row dep (f k a)) → Forall (fresh_row dep) (imap f l).
Proof. intros Hf. apply Forall_forall. by intros i (k & a & -> & _)%elem_of_lookup_imap. Qed.
Lemma map_imap {A B C} (g : B → C) (f : nat → A → B) l : map g (imap f l) = imap (λ k a, g (f k a)) l.
Proof. apply fmap_imap. Qed.
Lemma map_seq_const {A} (c : A) k n : map (λ _, c) (seq k n) = replicate n c.
Proof. revert k. induction n as [|n IH]; intros k; [done|]. cbn. by rewrite IH. Qed.
Lemma map_imap_seq {A B} (f : nat → A → B) (g : nat → B) l : (∀ k a, f k a = g k) → imap f l = map g (seq 0 (length l)).
Proof.
  intros Hf. apply list_eq. intros k. rewrite list_lookup_imap, list_lookup_fmap.
  destruct (decide (k < length l)%nat) as [Hk|Hk].
  - destruct (lookup_lt_is_Some_2 l k Hk) as [a Ha]. rewrite Ha, lookup_seq_lt by lia. cbn. by rewrite Hf.
  - rewrite (lookup_ge_None_2 l), (lookup_ge_None_2 (seq _ _)); [done|rewrite length_seq; lia|lia].
Qed.

Lemma new_rows_Ok dep_id created body model st rows st' :
  constraints_ok (Session.view st) = true → 1 <= DeployRequest.replicas body → request_ok body model →
  let dep := deployment_of body dep_id created in
  new_rows s fr body model dep st = (Ok rows, st') → st' = st ∧ rows_ok body dep rows.
Proof.
  intros Hv Hr (_ & Hman & Hmulti) dep H. unfold new_rows in H.
  apply M_bind_Ok in H as (d & st1 & (_ & -> & ->)%query_Ok & H). unfold rows_ok, multi_node in *.
  destruct (1 <? DeployRequest.nodes_per_replica body) eqn:En; apply M_bind_Ok in H as (l & st2 & (Hl & ->)%lift_result_Ok & H).
  - unfold new_ranks in H. assert (length l = Z.to_nat (DeployRequest.nodes_per_replica body)) as Hlen.
    { apply allocate_parallel_inv in Hl as (head & others & ip & rp & -> & Hlen & _);
        [by rewrite length_imap|by apply constraints_worker_ids|lia]. }
    destruct l as [|head l0] eqn:El; [done|]. rewrite <-El in *. injection H as <- <-.
    rewrite length_imap. split_and!; [done|apply (allocate_parallel_ranks dep _ (Fresh.ids fr) (Fresh.times fr))
      |by apply fresh_imap; intros; apply new_rank_fresh|lia|].
    rewrite map_imap. unfold unit_key. destruct (Z.leb_spec (DeployRequest.nodes_per_replica body) 1); [lia|].
    rewrite (map_imap_seq _ (λ _, Fresh.group_ids fr 0)) by done. apply map_seq_const.
  - injection H as <- <-. rewrite length_imap.
    assert (Z.of_nat (length l) = DeployRequest.replicas body) as Hlen.
    { destruct (DeployRequest.gpu_selection body) as [m|].
      - apply result_bind_Ok in Hl as (a & _ & Hl). injection Hl as <-. destruct Hman; [done|]. cbn. lia.
      - eapply allocate_replicas_length; [|done]. lia. }
    split_and!; [done|apply new_instances_member|by apply fresh_imap; intros k [[w gs] p]; apply new_instance_fresh|done|].
    rewrite map_imap. unfold unit_key. destruct (Z.leb_spec (DeployRequest.nodes_per_replica body) 1); [|lia].
    by apply map_imap_seq; intros k [[w gs] p].
Qed.
End handlers.

(** ** Errors a handler answers with *)
Definition client_error (e : exn) : Prop := ∃ code detail, e = HTTPException code detail ∧ 400 <= code < 500.
Lemma http400_client {A} detail e : http400 (A:=A) detail = Raise e → client_error e.
Proof. intros [= <-]. by exists 400, detail. Qed.
#[local] Hint Resolve http400_client : core.
Definition fails_soft {A} (r : result A) : Prop := ∀ e, r = Raise e → client_error e.
Lemma soft_bind {A B} (r : result A) (f : A → result B) :
  fails_soft r → (∀ a, r = Ok a → fails_soft (f a)) → fails_soft (r ≫= f).
Proof. intros Hr Hf e [He|(a & Ha & He)]%result_bind_Raise; [by apply Hr|by eapply Hf]. Qed.
Lemma soft_Ok {A} (a : A) : fails_soft (Ok a).
Proof. by intros e. Qed.
Lemma soft_foldR {A B} (f : B → A → result B) b l : (∀ b x, x ∈ l → fails_soft (f b x)) → fails_soft (foldR f b l).
Proof.
  revert b. induction l as [|x l IH]; intros b Hf; [apply soft_Ok|]. apply soft_bind; [apply Hf; by left|].
  intros b' _. apply IH. intros. apply Hf. by right.
Qed.
Lemma alloc_port_soft s l extra : fails_soft (_alloc_port s l extra).
Proof. unfold _alloc_port. destruct (first_free _ _); [apply soft_Ok|]. intros e. apply http400_client. Qed.

Lemma allocate_replicas_soft s d c vram engine count used0 :
  fails_soft (allocate_replicas s d c vram engine count used0).
Proof.
  unfold allocate_replicas. destruct (_connected_workers d c); [intros e; apply http400_client|].
  apply soft_bind; [|intros; apply soft_Ok]. apply soft_foldR. intros b x _. unfold allocate_one.
  destruct (three_passes _ _ _); [|intros e; apply http400_client].
  apply soft_bind; [apply alloc_port_soft|intros; apply soft_Ok].
Qed.
Lemma allocate_parallel_soft s d c vram engine n exclude :
  fails_soft (allocate_parallel_replicas s d c vram engine n exclude).
Proof.
  unfold allocate_parallel_replicas. destruct (_connected_workers d c); [intros e; apply http400_client|].
  destruct (if bool_decide _ then _ else _); [intros e; apply http400_client|].
  destruct (sorted_by order_leb _); [intros e; apply http400_client|].
  destruct (_ <? _); [intros e; apply http400_client|].
  apply soft_bind; [apply alloc_port_soft|intros ip _]. apply soft_bind; [|intros; apply soft_Ok].
  unfold _alloc_rendezvous_port. destruct (first_free _ _); [apply soft_Ok|intros e; apply http400_client].
Qed.
Lemma allocate_manual_soft s d c wid idxs vram engine : fails_soft (allocate_manual s d c wid idxs vram engine).
Proof.
  unfold allocate_manual. destruct (find_worker d wid) as [w|]; [|intros e; apply http400_client].
  destruct (negb _); [intros e; apply http400_client|]. destruct (negb _); [intros e; apply http400_client|].
  apply soft_bind; [apply soft_foldR; intros b x _; case_match; [apply soft_Ok|intros e; apply http400_client]|].
  intros [] Hk. assert (∀ i, i ∈ idxs → ∃ g, find_gpu (gpus_of d (Worker.id w)) i = Some g) as Hg.
  { intros i Hi. unfold check_known in Hk. apply foldR_check with (x := i) in Hk; [|done]. case_match; [by eexists|done]. }
  assert (∀ (f : WorkerGPU.t → result unit) i, i ∈ idxs → (∀ g, fails_soft (f g)) →
            fails_soft (match find_gpu (gpus_of d (Worker.id w)) i with Some g => f g | None => Raise KeyError end)) as Hm.
  { intros f i Hi Hf. destruct (Hg i Hi) as (g & ->). apply Hf. }
  apply soft_bind; [|intros [] _; apply soft_bind; [|intros [] _; apply soft_bind;
    [apply alloc_port_soft|intros; apply soft_Ok]]].
  - apply soft_foldR. intros b i Hi. apply (Hm _ i Hi). intros g. case_match; [apply soft_Ok|intros e; apply http400_client].
  - apply soft_foldR. intros b i Hi.
    apply (Hm (λ g, if WorkerGPU.vram_mb g - _ <? vram then _ else _) i Hi). intros g.
    case_match; [intros e; apply http400_client|apply soft_Ok].
Qed.

Lemma bind_raise {S A B} (m : M S A) (k : A → M S B) st e st' : m st = (Raise e, st') → (m ≫= k) st = (Raise e, st').
Proof. intros H. unfold mbind, M_bind. by rewrite H. Qed.
(** The guarded step of a handler: its outcome, or a 409 on a conflict. *)
Lemma on_conflict_Ok {A} (m : DbM A) st a st' : m st = (Ok a, st') → on_conflict m st = (Ok a, st').
Proof. intros H. unfold on_conflict, try_. by rewrite H. Qed.
Lemma on_conflict_client {A} (m : DbM A) st e st' :
  m st = (Raise e, st') → client_error e → on_conflict m st = (Raise e, st').
Proof. intros H (code & detail & -> & _). unfold on_conflict, try_. by rewrite H. Qed.
Lemma on_conflict_Integrity {A} (m : DbM A) st st' :
  m st = (Raise IntegrityError, st') →
  on_conflict m st = (Raise (HTTPException 409 "allocation conflict; retry"),
                      Session.mk (Session.durable st') (Session.durable st') false).
Proof. intros H. unfold on_conflict, try_. by rewrite H. Qed.

Section deploy_properties.
Context (s : Settings.t) (fr : Fresh.t) (dep_id : uuid) (dep_created : datetime).

Lemma check_request_raise body model st e st' :
  check_request body model st = (Raise e, st') → st' = st ∧ client_error e.
Proof.
  unfold check_request, http_error, raise. repeat case_match; intros; simplify_eq; (split; [done|]); by eexists _, _.
Qed.
Lemma new_rows_raise body model st e st' :
  Session.inactive st = false →
  let dep := deployment_of body dep_id dep_created in
  new_rows s fr body model dep st = (Raise e, st') → 1 <= DeployRequest.nodes_per_replica body →
  constraints_ok (Session.view st) = true → st' = st ∧ client_error e.
Proof.
  intros Ha dep H Hn Hv. unfold new_rows in H. destruct st as [v du inact]. cbn in Ha. subst inact. rewrite bind_query in H.
  unfold mbind at 1, M_bind at 1, lift_result at 1 in H. unfold lift_result in H.
  destruct (1 <? DeployRequest.nodes_per_replica body) eqn:En.
  - unfold mbind, M_bind in H. destruct (allocate_parallel_replicas _ _ _ _ _ _ _) as [l|e'] eqn:El.
    + apply allocate_parallel_inv in El as (head & others & ip & rp & -> & _);
        [|by apply constraints_worker_ids|done]. done.
    + injection H as <- <-. split; [done|]. by eapply allocate_parallel_soft.
  - destruct (match DeployRequest.gpu_selection body with Some _ => _ | None => _ end) as [l|e'] eqn:El; [done|].
    injection H as <- <-. split; [done|]. destruct (DeployRequest.gpu_selection body) as [m|].
    + revert El. apply soft_bind; [apply allocate_manual_soft|intros; apply soft_Ok].
    + by eapply allocate_replicas_soft.
Qed.

(** Either the rows and their deployment are committed, or nothing is. *)
Lemma deploy_cases body d :
  constraints_ok d = true → DeployRequest.valid body = true →
  let '(r, st) := deploy s fr dep_id dep_created body (Session.start d) in
  match r with
  | Ok out => ∃ model rows, let dep := deployment_of body dep_id dep_created in
      find_model d (DeployRequest.model_id body) = Some model ∧
      has (find_cluster d (DeployRequest.cluster_id body)) = true ∧ request_ok body model ∧
      rows_ok fr body dep rows ∧ Session.durable st = add_instances rows (add_deployment dep d) ∧
      Session.view st = Session.durable st ∧
      constraints_ok (Session.durable st) = true ∧ out = _with_names (Session.durable st) rows
  | Raise e => Session.durable st = d ∧ Session.view st = d ∧ client_error e
  end.
Proof.
  intros Hd Hv. unfold DeployRequest.valid in Hv. rewrite !andb_true_iff, !between_spec in Hv. destruct_and! Hv.
  unfold deploy, Session.start. rewrite bind_query.
  destruct (find_model d _) as [model|] eqn:Em; [|by split_and!; [..|eexists _, _]].
  change (or_404 _ (Some model)) with (mret model : DbM _). rewrite (bind_Ok (mret model) _ _ model (Session.mk d d false)) by done.
  rewrite bind_query. destruct (find_cluster d _) as [cluster|] eqn:Ec; [|by split_and!; [..|eexists _, _]].
  rewrite (bind_Ok (or_404 _ (Some cluster)) _ _ cluster (Session.mk d d false)) by done.
  destruct (check_request body model (Session.mk d d false)) as [[u|e] st1] eqn:Er.
  2: { rewrite (bind_raise _ _ _ _ _ Er). by apply check_request_raise in Er as (-> & He). }
  rewrite (bind_Ok _ _ _ _ _ Er). apply check_request_Ok in Er as (-> & -> & Hreq).
  set (dep := deployment_of body dep_id dep_created). cbv zeta.
  destruct (new_rows s fr body model dep (Session.mk d d false)) as [[rows|e] st1] eqn:Erows.
  2: { pose proof Erows as Hrows. apply new_rows_raise in Hrows as (-> & He); [|done|lia|done].
       rewrite (bind_raise _ _ _ _ _ (on_conflict_client _ _ _ _ (bind_raise _ _ _ _ _ Erows) He)). done. }
  pose proof Erows as Hrows. apply new_rows_Ok in Hrows as (-> & Hrows); [|done|lia|done].
  set (d1 := add_instances rows (add_deployment dep d)).
  set (body_ := (rows0 ← new_rows s fr body model dep; _)).
  destruct (constraints_ok d1) eqn:Ed1.
  - assert (body_ (Session.mk d d false) = (Ok rows, Session.mk d1 d1 false)) as Eb.
    { unfold body_. rewrite (bind_Ok _ _ _ _ _ Erows), bind_execute. fold d1. by rewrite bind_commit. }
    rewrite (bind_Ok _ _ _ _ _ (on_conflict_Ok _ _ _ _ Eb)). exists model, rows. by split_and!.
  - assert (body_ (Session.mk d d false) = (Raise IntegrityError, Session.mk d d true)) as Eb.
    { unfold body_. rewrite (bind_Ok _ _ _ _ _ Erows), bind_execute. fold d1. apply bind_raise.
      unfold commit. cbn [Session.view Session.inactive Session.durable]. by rewrite Ed1. }
    rewrite (bind_raise _ _ _ _ _ (on_conflict_Integrity _ _ _ Eb)). split_and!; [done..|]. by eexists _, _.
Qed.

Lemma constraints_deployment_ids d : constraints_ok d = true → NoDup (map Deployment.id (Db.deployments d)).
Proof. intros H. by split_constraints H. Qed.
Lemma constraints_instance_deployment d i :
  constraints_ok d = true → i ∈ Db.instances d →
  ∃ dep, dep ∈ Db.deployments d ∧ Deployment.id dep = ModelInstance.deployment_id i.
Proof.
  intros H Hi%list_elem_of_In. split_constraints H.
  match goal with H : forallb _ (Db.instances d) = true, Hck : forallb ck_instance _ = true |- _ =>
    first [constr_eq H Hck; fail 1|pose proof (proj1 (forallb_forall _ _) H i Hi) as Hfk] end.
  simpl in Hfk. rewrite !andb_true_iff in Hfk. destruct_and! Hfk.
  match goal with H : has (find_deployment _ _) = true |- _ => apply find_by_has in H as (dep & ? & ?%N.eqb_eq) end. eauto.
Qed.

Lemma cap_keys_nil nodes : cap_keys nodes [] = ∅.
Proof. apply set_eq. intros k. rewrite elem_of_cap_keys. split; [|set_solver]. by intros [(i & Hi%elem_of_nil & _) _]. Qed.

(** A new deployment starts with exactly the capacity asked for. *)
Lemma deploy_capacity body d rows :
  let dep := deployment_of body dep_id dep_created in
  let d' := add_instances rows (add_deployment dep d) in
  constraints_ok d = true → constraints_ok d' = true → rows_ok fr body dep rows →
  1 <= DeployRequest.replicas body → (multi_node body = true → DeployRequest.replicas body = 1) →
  capacity (DeployRequest.nodes_per_replica body) (instances_of d' dep_id) = DeployRequest.replicas body.
Proof.
  intros dep d' Hd Hd' (_ & Hfresh & Hlen & Hkeys) Hr Hone.
  rewrite capacity_size by by apply instances_of_ids, constraints_instance_ids.
  assert (instances_of d' dep_id ≡ₚ [] ++ rows) as Hp.
  { unfold d'. rewrite instances_of_add.
    - apply Permutation_app; [|done].
      destruct (instances_of (add_deployment dep d) dep_id) as [|i l] eqn:E; [done|]. exfalso.
      assert (i ∈ i :: l) as Hi by by left. rewrite <-E in Hi. apply elem_of_instances_of in Hi as [Hi Hid].
      destruct (constraints_instance_deployment d i Hd Hi) as (r & Hr' & Er).
      apply constraints_deployment_ids in Hd'. cbn in Hd'. rewrite map_app in Hd'.
      apply NoDup_app in Hd' as (_ & Hdis & _). apply (Hdis dep_id); [|by left].
      apply list_elem_of_fmap. exists r. split; [|done]. congruence.
    - eapply Forall_impl; [exact Hfresh|]. by intros i (_ & ? & _). }
  rewrite (cap_keys_perm _ _ _ Hp), cap_keys_app; [|eapply Forall_impl; [exact Hfresh|by intros i [? _]]|by intros i j ?%elem_of_nil].
  rewrite Hkeys. apply constraints_instance_ids in Hd'. cbn in Hd'.
  destruct (multi_node body) eqn:Em.
  - rewrite Hone by done. assert (rows ≠ []) as Hne.
    { intros ->. cbn in Hlen. unfold multi_node in Em. lia. }
    rewrite list_to_set_replicate by (destruct rows; [done|cbn; lia]).
    by rewrite cap_keys_nil, union_empty_l_L, size_singleton.
  - rewrite <-Hlen, cap_keys_nil, union_empty_l_L. f_equal.
    rewrite size_list_to_set; [by rewrite length_map, length_seq|]. rewrite <-Hkeys.
    unfold multi_node in Em. rewrite map_app in Hd'. apply NoDup_app in Hd' as (_ & _ & Hnd).
    enough (map (unit_key (DeployRequest.nodes_per_replica body)) rows = map ModelInstance.id rows) as -> by done.
    apply map_ext. intros i. unfold unit_key. destruct (Z.leb_spec (DeployRequest.nodes_per_replica body) 1); [done|lia].
Qed.

(** C14 A deploy is all or nothing.  When it succeeds, the database has exactly one
    more deployment, pinned to the requested count, and its new rows, all scheduled
    and desired to run; the deployment has exactly the requested capacity and
    the constraints hold.  When it fails the database is what it was, and the
    error is a client error: no conflict, full cluster or bad request escapes as
    an internal error. *)
Theorem deploy_spec body d :
  constraints_ok d = true → DeployRequest.valid body = true →
  let '(r, st) := deploy s fr dep_id dep_created body (Session.start d) in
  let d' := Session.durable st in
  match r with
  | Ok out => ∃ rows, let dep := deployment_of body dep_id dep_created in
      d' = add_instances rows (add_deployment dep d) ∧ out = _with_names d' rows ∧
      Forall (fresh_row dep) rows ∧
      Z.of_nat (length rows) = DeployRequest.replicas body * DeployRequest.nodes_per_replica body ∧
      capacity (DeployRequest.nodes_per_replica body) (instances_of d' dep_id) = DeployRequest.replicas body ∧
      constraints_ok d' = true
  | Raise e => d' = d ∧ client_error e
  end.
Proof.
  intros Hd Hv. pose proof (deploy_cases body d Hd Hv) as H.
  destruct (deploy _ _ _ _ _ _) as [[out|e] st]; cbv zeta in *; [|destruct H as (? & _ & ?); done].
  destruct H as (model & rows & _ & _ & (_ & _ & Hm) & Hrows & Hdur & _ & Hok & ->).
  unfold DeployRequest.valid in Hv. rewrite !andb_true_iff, !between_spec in Hv. destruct_and! Hv.
  exists rows. pose proof Hrows as (Hmem & Hfresh & Hlen & Hk). rewrite Hdur in *. split_and!; try done.
  - unfold multi_node in *. destruct (1 <? DeployRequest.nodes_per_replica body) eqn:En; nia.
  - apply deploy_capacity; try done; try lia. intros Em. rewrite Em in Hm. apply Hm.
Qed.

Lemma deploy_keeps body d :
  DeployRequest.valid body = true → good d →
  good (Session.durable (deploy s fr dep_id dep_created body (Session.start d)).2).
Proof.
  intros Hv [Hd Hc]. pose proof (deploy_cases body d Hd Hv) as H.
  destruct (deploy _ _ _ _ _ _) as [[out|e] st]; cbn [snd]; [|by destruct H as (-> & _)].
  destruct H as (model & rows & _ & _ & _ & (Hmem & _ & Hlen & _) & Hdur & _ & Hok & _).
  split; [done|]. rewrite Hdur. apply consistent_add_deployment; [|done..]. intros ->. cbn in Hlen.
  unfold DeployRequest.valid in Hv. rewrite !andb_true_iff, !between_spec in Hv. destruct_and! Hv.
  destruct (multi_node body); lia.
Qed.
End deploy_properties.

(** ** The other handlers keep the invariant *)
Lemma sane_start d : sane (Session.start d) ↔ good d.
Proof. unfold sane, good. cbn. tauto. Qed.
Lemma preserves_keeps {A} (m : DbM A) d : preserves sane m → good d → good (Session.durable (m (Session.start d)).2).
Proof. intros Hm Hd. apply Hm. by apply sane_start. Qed.

Lemma with_name_sane id : preserves sane (with_name id).
Proof. unfold with_name. apply preserves_bind; [auto with preserve|intros o]. apply preserves_bind; auto with preserve. Qed.
Lemma set_instance_sane id f :
  (∀ i, ModelInstance.deployment_id (f i) = ModelInstance.deployment_id i ∧
        ModelInstance.model_id (f i) = ModelInstance.model_id i ∧
        ModelInstance.cluster_id (f i) = ModelInstance.cluster_id i) →
  preserves sane (execute (set_instance id f)).
Proof. intros Hf. apply sane_execute. intros d. by apply consistent_update. Qed.
Lemma stop_instance_sane id : preserves sane (stop_instance id).
Proof.
  unfold stop_instance. apply preserves_bind; [auto with preserve|intros o].
  apply preserves_bind; [auto with preserve|intros i]. apply preserves_bind; [|intros; apply with_name_sane].
  destruct (String.eqb _ _); [auto with preserve|]. apply preserves_bind; [by apply set_instance_sane|auto with preserve].
Qed.
Lemma restart_instance_sane id : preserves sane (restart_instance id).
Proof.
  unfold restart_instance. apply preserves_bind; [auto with preserve|intros o].
  apply preserves_bind; [auto with preserve|intros i]. apply preserves_bind; [by apply set_instance_sane|intros _].
  apply preserves_bind; [auto with preserve|intros; apply with_name_sane].
Qed.
Lemma drop_deployment_sane id : preserves sane (execute (drop_deployment id)).
Proof. apply sane_execute. intros d. apply consistent_drop_deployment. Qed.
Lemma delete_deployment_sane id : preserves sane (delete_deployment id).
Proof.
  unfold delete_deployment. apply preserves_bind; [auto with preserve|intros o].
  apply preserves_bind; [auto with preserve|intros i].
  apply preserves_bind; [apply drop_deployment_sane|auto with preserve].
Qed.
Lemma reread_sane id : preserves sane (reread id).
Proof.
  unfold reread. apply preserves_bind; [auto with preserve|intros o]. apply preserves_bind; [|auto with preserve].
  destruct o; auto with preserve.
Qed.
Lemma scale_deployment_sane s fr now id body : preserves sane (scale_deployment s fr now id body).
Proof.
  unfold scale_deployment. apply preserves_bind; [auto with preserve|intros o].
  apply preserves_bind; [auto with preserve|intros dep].
  apply preserves_bind; [apply sane_on_conflict, apply_scale_sane|intros _].
  apply preserves_try; [apply reread_sane|]. intros []; apply preserves_raise.
Qed.
Lemma set_deployment_range_sane s fr now id body : preserves sane (set_deployment_range s fr now id body).
Proof.
  unfold set_deployment_range. apply preserves_bind; [auto with preserve|intros o].
  apply preserves_bind; [auto with preserve|intros dep]. apply preserves_bind.
  { apply sane_execute. intros d. by apply consistent_update_deployment. }
  intros _. apply preserves_bind; [auto with preserve|intros l].
  apply preserves_bind; [apply sane_on_conflict, apply_scale_sane|intros; apply reread_sane].
Qed.

Lemma delete_instance_keeps id d : good d → good (Session.durable (delete_instance id (Session.start d)).2).
Proof.
  intros Hg. pose proof Hg as [Hd Hc]. unfold delete_instance, Session.start. rewrite bind_query.
  destruct (find_instance d id) as [i|] eqn:Ei; [|done].
  rewrite (bind_Ok (or_404 _ (Some i)) _ _ i (Session.mk d d false)) by done. rewrite !bind_query.
  assert (∀ f, consistent (f d) → good (Session.durable ((_ ← execute f; commit) (Session.mk d d false)).2)) as Hf.
  { intros f Hf. rewrite bind_execute. apply sane_commit. by split. }
  assert ((1 < length (instances_of d (ModelInstance.deployment_id i)))%nat → consistent (drop_instance id d)) as Hdrop.
  { intros Hlen. eapply consistent_drop_instance; [by apply constraints_instance_ids|done..]. }
  destruct (find_deployment d _) as [dep|] eqn:Edep.
  - destruct (Nat.leb_spec (length (instances_of d (ModelInstance.deployment_id i))) 1).
    + by apply Hf, consistent_drop_deployment.
    + by apply Hf, Hdrop.
  - exfalso. apply find_by_Some in Ei as [Hi _]. destruct (constraints_instance_deployment d i Hd Hi) as (dep & Hdep & E).
    pose proof (proj1 (find_by_None _ _) Edep dep Hdep) as Hn. cbn in Hn. by rewrite E, N.eqb_refl in Hn.
Qed.

(** ** Stopping *)
Lemma constraints_stop d id : constraints_ok d = true → constraints_ok (set_instance id stop_row d) = true.
Proof.
  intros Hd. apply constraints_update_instances; [done|]. intros i _ Hck. split.
  - unfold ck_instance in *. cbn. rewrite !andb_true_iff in *. tauto.
  - unfold same_refs. split_and!; try done. unfold worker_port_key, port_reserved.
    change (ModelInstance.state (stop_row i)) with (ModelInstance.state i).
    destruct (in_live_states (ModelInstance.state i)); rewrite ?orb_true_r, ?orb_false_r; [by left|right].
    cbn. by destruct (ModelInstance.worker_id i), (ModelInstance.port i).
Qed.
Lemma find_set_instance d id f i :
  find_instance d id = Some i → (∀ i, ModelInstance.id (f i) = ModelInstance.id i) →
  find_instance (set_instance id f d) id = Some (f i).
Proof.
  intros Hi Hf. unfold find_instance, set_instance in *. cbn. unfold update_where.
  induction (Db.instances d) as [|j l IH]; cbn in *; [done|].
  destruct (ModelInstance.id j =? id)%N eqn:E; [|by rewrite E; apply IH].
  rewrite Hf, E. by injection Hi as ->.
Qed.

(** Stopping an instance always succeeds: it records the wish and bumps the
    generation once; stopping it again changes nothing. *)
Theorem stop_instance_spec d id i :
  constraints_ok d = true → find_instance d id = Some i →
  let stopped := String.eqb (ModelInstance.desired_state i) "stopped" in
  let d' := if stopped then d else set_instance id stop_row d in
  let j := if stopped then i else stop_row i in
  stop_instance id (Session.start d) = (Ok (j, worker_name d i), Session.start d') ∧
  stop_instance id (Session.start d') = (Ok (j, worker_name d i), Session.start d') ∧
  constraints_ok d' = true.
Proof.
  intros Hd Hi stopped d' j.
  assert (∀ d i, find_instance d id = Some i → with_name id (Session.start d) = (Ok (i, worker_name d i), Session.start d)) as Hname.
  { intros d0 i0 H0. unfold with_name, Session.start. rewrite bind_query, H0. done. }
  assert (∀ d i, find_instance d id = Some i → ModelInstance.desired_state i = "stopped" →
            stop_instance id (Session.start d) = (Ok (i, worker_name d i), Session.start d)) as Hnoop.
  { intros d0 i0 H0 E0. rewrite <-(Hname d0 i0 H0). unfold stop_instance, Session.start. rewrite bind_query, H0.
    rewrite (bind_Ok (or_404 _ (Some i0)) _ _ i0 (Session.mk d0 d0 false)) by done. by rewrite E0. }
  unfold d', j, stopped. destruct (String.eqb_spec (ModelInstance.desired_state i) "stopped") as [E|E].
  { by rewrite (Hnoop d i Hi E). }
  pose proof (constraints_stop d id Hd) as Hok.
  pose proof (find_set_instance d id stop_row i Hi ltac:(done)) as Hi'.
  split_and!; [|by rewrite (Hnoop _ _ Hi')|done].
  unfold stop_instance, Session.start. rewrite bind_query, Hi.
  rewrite (bind_Ok (or_404 _ (Some i)) _ _ i (Session.mk d d false)) by done.
  destruct (String.eqb_spec (ModelInstance.desired_state i) "stopped"); [done|].
  rewrite (bind_Ok _ _ _ tt (Session.start (set_instance id stop_row d))).
  - by rewrite (Hname _ _ Hi').
  - rewrite bind_execute. unfold commit. cbn [Session.view Session.inactive]. by rewrite Hok.
Qed.

(** ** On a small cluster *)
Definition sample_deploy : DeployRequest.t := DeployRequest.mk 7 1 "vllm" "latency" 2 None 1 "single".
Lemma deploy_spec_witness :
  ∃ rows, Session.durable (deploy Settings.default sample_fresh 51 600 sample_deploy (Session.start Sample.db)).2 =
    add_instances rows (add_deployment (deployment_of sample_deploy 51 600) Sample.db) ∧
    map ModelInstance.port rows = [Some 8011; Some 8010] ∧ length rows = 2%nat.
Proof.
  assert (constraints_ok Sample.db = true) as Hd by (vm_compute; reflexivity).
  assert (DeployRequest.valid sample_deploy = true) as Hv by (vm_compute; reflexivity).
  pose proof (deploy_spec Settings.default sample_fresh 51 600 sample_deploy Sample.db Hd Hv) as H.
  destruct (deploy Settings.default sample_fresh 51 600 sample_deploy (Session.start Sample.db)) as [[out|e] st] eqn:E.
  - destruct H as (rows & Hd' & _ & _ & Hlen & _). exists rows.
    assert (st = (deploy Settings.default sample_fresh 51 600 sample_deploy (Session.start Sample.db)).2) as Hst
      by (rewrite E; reflexivity).
    assert (rows = drop 1 (Db.instances (Session.durable st))) as Hrows by (rewrite Hd'; reflexivity).
    split; [exact Hd'|]. rewrite Hrows, Hst. split; vm_compute; reflexivity.
  - exfalso. assert ((deploy Settings.default sample_fresh 51 600 sample_deploy (Session.start Sample.db)).1 = Raise e)
      as E1 by (rewrite E; reflexivity). vm_compute in E1. discriminate.
Defined.

Lemma stop_instance_spec_witness :
  let i := Sample.instance 100 "running" "running" 1 0 8010 in
    stop_instance 100 (Session.start Sample.db) =
      (Ok (stop_row i, Some "w1"), Session.start (set_instance 100 stop_row Sample.db)).
Proof.
  apply (stop_instance_spec Sample.db 100 (Sample.instance 100 "running" "running" 1 0 8010));
    vm_compute; reflexivity.
Defined.

(** Restarting an instance whose port was given away since it stopped fails with
    the constraint violation itself, which no handler turns into an answer. *)
Definition port_taken_db : Db.t := Sample.with_instances
  [Sample.instance 100 "stopped" "stopped" 1 0 8010; Sample.instance 101 "running" "running" 1 1 8010].
Lemma restart_after_port_reuse :
  constraints_ok port_taken_db = true ∧
  (restart_instance 100 (Session.start port_taken_db)).1 = Raise IntegrityError.
Proof. by vm_compute. Qed.

(** Widening the window of a deployment with one serving and two stopped replicas
    starts two more: the current count includes the stopped rows. *)
Definition stopped_rows_db : Db.t := Sample.with_instances
  [Sample.instance 100 "running" "running" 1 0 8010; Sample.instance 101 "stopped" "stopped" 1 1 8011;
   Sample.instance 102 "stopped" "stopped" 2 0 8012].
Lemma set_range_revives_stopped_count :
  let d' := Session.durable (set_deployment_range Settings.default sample_fresh 900 50 (DeploymentRange.mk 1 4)
                               (Session.start stopped_rows_db)).2 in
  capacity 1 (instances_of stopped_rows_db 50) = 1 ∧ capacity 1 (instances_of d' 50) = 3.
Proof. by vm_compute. Qed.
