(* ===== verification/Accounts.v ===== *)
(** * Accounts ([server/inferna_server/auth.py], [api/auth.py], [api/users.py], [api/keys.py])

    Login and tokens, the users and their passwords and limits, and the API keys.
    bcrypt and PyJWT are parameters: a hash may fail ([hashpw] rejects passwords of
    more than 72 bytes), a check may raise, a token decodes to the claim [sub] or
    not at all. *)

From S2P Require Import Prelude PyStr Uuid Models Config Schemas WorkersSvc Gateway Instances.
Local Open Scope Z_scope.

Definition SYNTHETIC_ADMIN_ID : uuid := 1%N.
Definition TOKEN_TTL : Z := 24 * 3600 * 1000000.

(** The claims of a token: [sub] and its expiry. *)
Module Claims.
Record t := mk { sub : option string; exp : datetime }.
End Claims.

Section accounts.
(** bcrypt: hashing (with a salt drawn by the call) and checking; PyJWT: encoding,
    and decoding to the claims of a valid, unexpired token. *)
Context (hashpw : string → result string) (checkpw : string → string → result bool)
        (jwt_encode : string → Claims.t → string) (jwt_decode : string → datetime → string → option Claims.t).
Context (s : Settings.t).

Definition hash_password (password : string) : result string := hashpw password.
Definition verify_password (password password_hash : string) : result bool :=
  match checkpw password password_hash with
  | Raise (ValueError _) => Ok false
  | r => r
  end.
Definition create_token (now : datetime) (user : User.t) : string :=
  jwt_encode (Settings.jwt_secret s) (Claims.mk (Some (str_uuid (User.id user))) (now + TOKEN_TTL)).

Definition _unauthorized : exn := HTTPException 401 "Invalid or expired token".
Definition synthetic_admin : User.t := User.mk SYNTHETIC_ADMIN_ID "admin" None "" "admin" true None None.
(** [uuid.UUID(payload["sub"])] *)
Definition token_subject (now : datetime) (token : string) : option uuid :=
  match jwt_decode (Settings.jwt_secret s) now token with
  | Some (Claims.mk (Some sub) _) => uuid_of_string sub
  | _ => None
  end.
Definition get_current_user (now : datetime) (token : string) : DbM User.t :=
  if negb (Settings.auth_enabled s) then mret synthetic_admin
  else match token_subject now token with
       | None => raise _unauthorized
       | Some user_id =>
           user ← query (λ d, find_user d user_id);
           match user with
           | Some user => if User.is_active user then mret user else raise _unauthorized
           | None => raise _unauthorized
           end
       end.
Definition is_admin (user : User.t) : bool := String.eqb (User.role user) "admin".
Definition require_admin (user : User.t) : DbM User.t :=
  if is_admin user then mret user else http_error 403 "Admin privileges required".
(** The dependencies of an endpoint. *)
Definition as_user {A} (now : datetime) (token : string) (handler : User.t → DbM A) : DbM A :=
  user ← get_current_user now token; handler user.
Definition as_admin {A} (now : datetime) (token : string) (handler : User.t → DbM A) : DbM A :=
  as_user now token (λ user, user ← require_admin user; handler user).

Definition login (now : datetime) (body : LoginRequest.t) : DbM string :=
  user ← query (λ d, find_by (λ u, String.eqb (User.username u) (LoginRequest.username body)) (Db.users d));
  match user with
  | None => http_error 401 "Invalid username or password"
  | Some user =>
      ok ← lift_result (verify_password (LoginRequest.password body) (User.password_hash user));
      if (ok : bool) && User.is_active user then mret (create_token now user)
      else http_error 401 "Invalid username or password"
  end.

(** ** Users *)
Definition username_leb (a b : User.t) : bool := String.leb (User.username a) (User.username b).
Definition list_users (_ : User.t) : DbM (list User.t) := query (λ d, sorted_by username_leb (Db.users d)).

Definition set_user (id : uuid) (f : User.t → User.t) (d : Db.t) : Db.t :=
  Db.set_users (update_where (λ u, (User.id u =? id)%N) f (Db.users d)) d.
Definition refresh_user (id : uuid) : DbM User.t :=
  user ← query (λ d, find_user d id);
  match user with Some user => mret user | None => raise (RuntimeError "InvalidRequestError") end.

Definition create_user (id : uuid) (body : UserCreate.t) (_ : User.t) : DbM User.t :=
  if negb (one_of (UserCreate.role body) ["admin"; "user"]) then http_error 422 "role must be 'admin' or 'user'"
  else
    existing ← query (λ d, find_by (λ u, String.eqb (User.username u) (UserCreate.username body)) (Db.users d));
    match existing with
    | Some _ => http_error 409 "username already taken"
    | None =>
        password_hash ← lift_result (hash_password (UserCreate.password body));
        _ ← execute (λ d, Db.set_users (Db.users d ++
              [User.mk id (UserCreate.username body) None password_hash (UserCreate.role body) true None None]) d);
        _ ← commit;
        refresh_user id
    end.

Definition active_admin (u : User.t) : bool := is_admin u && User.is_active u.
Definition admin_count (d : Db.t) : Z := Z.of_nat (length (where_ active_admin (Db.users d))).
(** ON DELETE CASCADE: the user's keys, and the usage of the user or of the keys. *)
Definition drop_user (id : uuid) (d : Db.t) : Db.t :=
  let owned k := match find_api_key d k with Some k => (ApiKey.user_id k =? id)%N | None => false end in
  Db.set_users (where_ (λ u, negb (User.id u =? id)%N) (Db.users d))
    (Db.set_api_keys (where_ (λ k, negb (ApiKey.user_id k =? id)%N) (Db.api_keys d))
       (Db.set_usage_records (where_ (λ r, negb ((UsageRecord.user_id r =? id)%N || owned (UsageRecord.api_key_id r)))
                                (Db.usage_records d)) d)).
Definition delete_user (user_id : uuid) (current : User.t) : DbM unit :=
  if (User.id current =? user_id)%N then http_error 400 "cannot delete yourself"
  else
    user ← query (λ d, find_user d user_id); user ← or_404 "user not found" user;
    n ← query admin_count;
    if is_admin user && (n <=? 1) then http_error 400 "cannot delete the last admin"
    else _ ← execute (drop_user user_id); commit.

Definition set_user_limits (user_id : uuid) (body : UserLimitsUpdate.t) (_ : User.t) : DbM User.t :=
  user ← query (λ d, find_user d user_id); _ ← or_404 "user not found" user;
  _ ← execute (set_user user_id (λ u, User.set_request_limit (UserLimitsUpdate.request_limit body)
                                        (User.set_token_limit (UserLimitsUpdate.token_limit body) u)));
  _ ← commit;
  refresh_user user_id.

Definition change_password (user_id : uuid) (body : PasswordChange.t) (current : User.t) : DbM User.t :=
  if negb (is_admin current) && negb (User.id current =? user_id)%N then http_error 403 "not allowed"
  else
    user ← query (λ d, find_user d user_id); _ ← or_404 "user not found" user;
    password_hash ← lift_result (hash_password (PasswordChange.password body));
    _ ← execute (set_user user_id (User.set_password_hash password_hash));
    _ ← commit;
    refresh_user user_id.
End accounts.

(** ** API keys *)

(** [secrets.token_hex(16)]: the 32 hexadecimal digits drawn. *)
Definition generate_api_key (token_hex : string) : string := "inf-" +:+ token_hex.
Definition create_key (id : uuid) (now : datetime) (token_hex : string) (body : ApiKeyCreate.t) (current : User.t)
  : DbM (ApiKey.t * string) :=
  let key := generate_api_key token_hex in
  _ ← execute (λ d, Db.set_api_keys (Db.api_keys d ++
        [ApiKey.mk id (User.id current) (ApiKeyCreate.name body) (sha256_hex key) ["inference"] None None now]) d);
  _ ← commit;
  row ← query (λ d, find_api_key d id);
  match row with Some row => mret (row, key) | None => raise (RuntimeError "InvalidRequestError") end.

Definition list_keys (current : User.t) : DbM (list ApiKey.t) :=
  query (λ d, newest_first ApiKey.created_at
    (where_ (λ k, is_admin current || (ApiKey.user_id k =? User.id current)%N) (Db.api_keys d))).

Definition set_key (id : uuid) (f : ApiKey.t → ApiKey.t) (d : Db.t) : Db.t :=
  Db.set_api_keys (update_where (λ k, (ApiKey.id k =? id)%N) f (Db.api_keys d)) d.
Definition revoke_key (now : datetime) (key_id : uuid) (current : User.t) : DbM ApiKey.t :=
  key ← query (λ d, find_api_key d key_id); key ← or_404 "API key not found" key;
  if negb (is_admin current) && negb (ApiKey.user_id key =? User.id current)%N then http_error 403 "not allowed"
  else match ApiKey.revoked_at key with
       | Some _ => mret key
       | None =>
           _ ← execute (set_key key_id (ApiKey.set_revoked_at (Some now)));
           _ ← commit;
           row ← query (λ d, find_api_key d key_id);
           match row with Some row => mret row | None => raise (RuntimeError "InvalidRequestError") end
       end.

(** ** Replacing users and keys under the constraints *)
Lemma forallb_where {A} (p q : A → bool) l : forallb p l = true → forallb p (where_ q l) = true.
Proof. rewrite !forallb_forall. intros H x [Hx _]%list_elem_of_In%elem_of_where. by apply H, list_elem_of_In. Qed.
Lemma unique_where {A K} `{EqDecision K} (key : A → K) (p : A → bool) l :
  unique_by key l = true → unique_by key (where_ p l) = true.
Proof. rewrite !unique_by_NoDup. apply NoDup_map_where. Qed.

Lemma drop_user_find_user id i d : i ≠ id → find_user (drop_user id d) i = find_user d i.
Proof.
  intros Hne. unfold find_user, drop_user. cbn. unfold where_. induction (Db.users d) as [|u l IH]; [done|]. cbn.
  destruct (N.eqb_spec (User.id u) id) as [E|E]; cbn.
  - rewrite IH. destruct (N.eqb_spec (User.id u) i); [congruence|done].
  - by rewrite IH.
Qed.
Lemma drop_user_find_key id d k key :
  find_api_key d k = Some key → ApiKey.user_id key ≠ id → find_api_key (drop_user id d) k = Some key.
Proof.
  unfold find_api_key, drop_user. cbn. unfold where_. induction (Db.api_keys d) as [|r l IH]; [done|]. cbn.
  destruct (N.eqb_spec (ApiKey.id r) k) as [E|E]; intros H Hne.
  - injection H as ->. destruct (N.eqb_spec (ApiKey.user_id key) id); [done|]. cbn. by rewrite E, N.eqb_refl.
  - destruct (negb _); cbn; [destruct (N.eqb_spec (ApiKey.id r) k); [done|]|]; by apply IH.
Qed.
(** Deleting a user with what depends on it breaks no constraint. *)
Lemma constraints_drop_user id d : constraints_ok d = true → constraints_ok (drop_user id d) = true.
Proof.
  intros Hd. unfold constraints_ok, checks_ok, uniques_ok, fks_ok in Hd |- *.
  repeat rewrite andb_true_iff in Hd. destruct_and! Hd.
  repeat (apply andb_true_iff; split); try assumption; try (by apply forallb_where); try (by apply unique_where).
  - apply forallb_elem. intros k [Hk Hn%negb_true_iff%N.eqb_neq]%elem_of_where.
    rewrite drop_user_find_user by done.
    match goal with H : forallb (λ k, has (find_user d _)) _ = true |- _ => by apply (proj1 (forallb_elem _ _) H) end.
  - apply forallb_elem. intros r [Hr Hn]%elem_of_where. apply negb_true_iff, orb_false_iff in Hn as [Hu%N.eqb_neq Ho].
    match goal with H : forallb _ (Db.usage_records d) = true |- _ => pose proof (proj1 (forallb_elem _ _) H r Hr) as Hf end.
    cbn in Hf. rewrite !andb_true_iff in Hf. destruct_and! Hf. rewrite !andb_true_iff. split_and!; [| |done].
    + by rewrite drop_user_find_user.
    + destruct (find_api_key d (UsageRecord.api_key_id r)) as [key|] eqn:E; [|done].
      by rewrite (drop_user_find_key id d _ key E ltac:(by apply N.eqb_neq)).
Qed.

(** ** Deleting users *)
Lemma admin_count_drop id u d :
  NoDup (map User.id (Db.users d)) → find_user d id = Some u →
  admin_count (drop_user id d) = admin_count d - (if active_admin u then 1 else 0).
Proof.
  unfold admin_count, find_user, drop_user. cbn. unfold where_. induction (Db.users d) as [|v l IH]; [done|].
  cbn. rewrite NoDup_cons. intros [Hv Hl]. destruct (N.eqb_spec (User.id v) id) as [<-|Hne]; cbn.
  - intros [= ->]. assert (List.filter (λ w, negb (User.id w =? User.id u)%N) l = l) as ->.
    { apply (where_all (λ w, negb (User.id w =? User.id u)%N)). intros w Hw. apply negb_true_iff, N.eqb_neq. intros E.
      apply Hv. apply list_elem_of_fmap. by exists w. }
    destruct (active_admin u); cbn [length]; lia.
  - intros Hu. specialize (IH Hl Hu). destruct (active_admin v); cbn [length]; lia.
Qed.

(** Deleting a user: it succeeds exactly for another existing user who is not an
    admin while at most one active admin is left, and then removes that user with
    their keys and usage, without breaking a constraint; a refusal is a client
    error and changes nothing.  Either way an active admin remains if there was
    one. *)
Theorem delete_user_spec user_id current d :
  constraints_ok d = true →
  let '(r, st) := delete_user user_id current (Session.start d) in
  let d' := Session.durable st in
  (r = Ok tt ↔ User.id current ≠ user_id ∧
     ∃ u, find_user d user_id = Some u ∧ (is_admin u = true → 1 < admin_count d)) ∧
  match r with
  | Ok _ => d' = drop_user user_id d ∧ constraints_ok d' = true
  | Raise e => d' = d ∧ client_error e
  end ∧
  (1 <= admin_count d → 1 <= admin_count d').
Proof.
  intros Hd. unfold delete_user, Session.start.
  destruct (N.eqb_spec (User.id current) user_id) as [E|E].
  { split_and!; [by split; [|intros []]|done|by eexists _, _|done]. }
  rewrite bind_query. destruct (find_user d user_id) as [u|] eqn:Eu.
  2: { split_and!; [split; [done|by intros (_ & ? & ? & _)]|done|by eexists _, _|done]. }
  rewrite (bind_Ok (or_404 _ (Some u)) _ _ u (Session.mk d d false)) by done. rewrite bind_query.
  destruct (is_admin u && (admin_count d <=? 1)) eqn:Ea.
  - apply andb_true_iff in Ea as [Ea Hn%Z.leb_le].
    split_and!; [|done|by eexists _, _|done]. split; [done|]. intros (_ & u' & [= <-] & H). specialize (H Ea). lia.
  - rewrite bind_execute. unfold commit. cbn [Session.view Session.inactive].
    pose proof (constraints_drop_user user_id d Hd) as Hok. rewrite Hok. cbn [Session.durable].
    assert (is_admin u = true → 1 < admin_count d) as Hn by (intros H; rewrite H in Ea; cbn in Ea; lia).
    split_and!; [split; [|done]|done|done|].
    + intros _. split; [done|]. by exists u.
    + intros H1. rewrite (admin_count_drop _ u); [|by split_constraints Hd|done].
      unfold active_admin. destruct (is_admin u); cbn; [|lia]. destruct (User.is_active u); specialize (Hn eq_refl); lia.
Qed.

Definition sample_user (id : uuid) (name role : string) : User.t := User.mk id name None "" role true None None.
Definition accounts_db : Db.t :=
  Db.set_api_keys [ApiKey.mk 31 3 "k" (sha256_hex "inf-k") ["inference"] None None 0]
    (Db.set_users [sample_user 2 "root" "admin"; sample_user 3 "dev" "user"] Sample.db).
Lemma delete_user_spec_witness :
  constraints_ok accounts_db = true ∧
  let d' := Session.durable (delete_user 3 (sample_user 2 "root" "admin") (Session.start accounts_db)).2 in
  Db.users d' = [sample_user 2 "root" "admin"] ∧ Db.api_keys d' = [] ∧ admin_count d' = 1.
Proof.
  assert (constraints_ok accounts_db = true) as Hd by (vm_compute; reflexivity).
  split; [exact Hd|].
  pose proof (delete_user_spec 3 (sample_user 2 "root" "admin") accounts_db Hd) as H.
  destruct (delete_user 3 (sample_user 2 "root" "admin") (Session.start accounts_db)) as [r st].
  destruct H as (Hr & Hcase & _).
  assert (r = Ok tt) as ->.
  { apply Hr. split; [vm_compute; discriminate|]. exists (sample_user 3 "dev" "user"). split; [vm_compute; reflexivity|].
    vm_compute. discriminate. }
  cbn [snd]. cbv zeta. destruct Hcase as [Hst _]. rewrite Hst. split_and!; vm_compute; reflexivity.
Defined.

(** ** The life of an API key *)
Lemma constraints_update_key id f d :
  (∀ k, ApiKey.id (f k) = ApiKey.id k ∧ ApiKey.user_id (f k) = ApiKey.user_id k ∧ ApiKey.key_hash (f k) = ApiKey.key_hash k) →
  constraints_ok d = true → constraints_ok (set_key id f d) = true.
Proof.
  intros Hf Hd.
  assert (∀ i, has (find_api_key d i) = true → has (find_api_key (set_key id f d) i) = true) as Hfind.
  { intros i. unfold find_api_key. rewrite !find_by_has. intros (k & Hk & E).
    exists (if (ApiKey.id k =? id)%N then f k else k). split; [apply elem_of_update_where; eauto|].
    destruct (ApiKey.id k =? id)%N; [|done]. by rewrite (proj1 (Hf k)). }
  unfold constraints_ok, checks_ok, uniques_ok, fks_ok in Hd |- *.
  repeat rewrite andb_true_iff in Hd. destruct_and! Hd.
  repeat (apply andb_true_iff; split); try assumption.
  - apply unique_by_NoDup. cbn. rewrite update_where_attr by apply Hf. by apply unique_by_NoDup.
  - apply unique_by_NoDup. cbn. rewrite update_where_attr by apply Hf. by apply unique_by_NoDup.
  - apply forallb_elem. intros k' (k & Hk & ->)%elem_of_update_where.
    match goal with H : forallb (λ k, has (find_user d _)) _ = true |- _ => pose proof (proj1 (forallb_elem _ _) H k Hk) as Hu end.
    destruct (ApiKey.id k =? id)%N; [|done]. by rewrite (proj1 (proj2 (Hf k))).
  - apply forallb_elem. intros r Hr.
    match goal with H : forallb _ (Db.usage_records d) = true |- _ => pose proof (proj1 (forallb_elem _ _) H r Hr) as Hk end.
    cbn in Hk |- *. rewrite !andb_true_iff in *. destruct_and! Hk. split_and!; [done|by apply Hfind|done].
Qed.

(** The row a secret unlocks. *)
Definition key_row (c : string) (d : Db.t) : option ApiKey.t :=
  find_by (λ k, String.eqb (ApiKey.key_hash k) (sha256_hex c)) (Db.api_keys d).
Lemma key_row_elem d k c :
  constraints_ok d = true → k ∈ Db.api_keys d → ApiKey.key_hash k = sha256_hex c → key_row c d = Some k.
Proof.
  intros Hd Hk Hc. assert (NoDup (map ApiKey.key_hash (Db.api_keys d))) as Hh by (by split_constraints Hd).
  unfold key_row. destruct (find_by _ _) as [k'|] eqn:E.
  - apply find_by_Some in E as [Hk' Hc'%String.eqb_eq]. f_equal.
    apply (NoDup_map_inj_key ApiKey.key_hash (Db.api_keys d)); [done|done|done|congruence].
  - rewrite find_by_None in E. specialize (E k Hk). by apply String.eqb_neq in E.
Qed.
Lemma get_api_key_accepts d now c g k u :
  key_row c d = Some k → ApiKey.revoked_at k = None → find_user d (ApiKey.user_id k) = Some u →
  User.is_active u = true → existsb (String.eqb "inference") (ApiKey.scopes k) = true →
  (get_api_key d now (Some c) g).1 = Ok (k, u).
Proof.
  unfold key_row. intros Hk Hr Hu Ha Hs. unfold get_api_key. rewrite Hk, Hr, Hu, Ha, Hs. cbn.
  by destruct (stale_stamp _ _).
Qed.
Lemma get_api_key_refuses d now c g k :
  key_row c d = Some k → ApiKey.revoked_at k ≠ None → get_api_key d now (Some c) g = (Raise unauthorized, g).
Proof. unfold key_row. intros Hk Hr. unfold get_api_key. rewrite Hk. by destruct (ApiKey.revoked_at k). Qed.

Definition add_key (k : ApiKey.t) (d : Db.t) : Db.t := Db.set_api_keys (Db.api_keys d ++ [k]) d.
Definition active_user (id : uuid) (d : Db.t) (u : User.t) : Prop := find_user d id = Some u ∧ User.is_active u = true.

Lemma create_key_Ok id now token_hex body current d row key st :
  create_key id now token_hex body current (Session.start d) = (Ok (row, key), st) →
  constraints_ok d = true →
  let k := ApiKey.mk id (User.id current) (ApiKeyCreate.name body) (sha256_hex key) ["inference"] None None now in
  st = Session.start (add_key k d) ∧ row = k ∧ constraints_ok (add_key k d) = true ∧ key = generate_api_key token_hex.
Proof.
  intros H Hd. unfold create_key, Session.start in H. rewrite bind_execute in H.
  set (k := ApiKey.mk id _ _ _ _ _ _ _) in H. fold (add_key k d) in H.
  destruct (constraints_ok (add_key k d)) eqn:Hok.
  2: { unfold mbind, M_bind, commit in H. cbn [Session.view Session.inactive] in H. by rewrite Hok in H. }
  rewrite bind_commit, bind_query in H by done.
  assert (find_api_key (add_key k d) id = Some k) as Hf.
  { assert (NoDup (map ApiKey.id (Db.api_keys (add_key k d)))) as Hnd by (by split_constraints Hok).
    destruct (find_api_key (add_key k d) id) as [k'|] eqn:E.
    - apply find_by_Some in E as [Hk' Hid%N.eqb_eq]. f_equal.
      apply (NoDup_map_inj_key ApiKey.id (Db.api_keys (add_key k d))); [done|done| |done].
      apply elem_of_app. right. by left.
    - unfold find_api_key in E. rewrite find_by_None in E. specialize (E k). cbn in E. rewrite N.eqb_refl in E.
      by discriminate E; apply elem_of_app; right; left. }
  rewrite Hf in H. unfold mret, M_ret in H. injection H as <- <- <-. by split_and!.
Qed.

(** With authentication off the current user is one the table does not hold, and
    the key it creates refers to it: the commit fails. *)
Lemma create_key_without_auth id now token_hex body d :
  find_user d SYNTHETIC_ADMIN_ID = None →
  (create_key id now token_hex body synthetic_admin (Session.start d)).1 = Raise IntegrityError.
Proof.
  intros Hu. unfold create_key, Session.start. rewrite bind_execute.
  set (k := ApiKey.mk id _ _ _ _ _ _ _). fold (add_key k d).
  assert (constraints_ok (add_key k d) = false) as Hno.
  { destruct (constraints_ok (add_key k d)) eqn:E; [|done]. split_constraints E.
    match goal with H : forallb (λ k, has (find_user _ (ApiKey.user_id k))) _ = true |- _ =>
      rewrite forallb_forall in H; specialize (H k) end.
    assert (In k (Db.api_keys (add_key k d))) as Hin by (cbn; apply in_or_app; right; by left).
    match goal with H : In k _ → _ |- _ => specialize (H Hin); rename H into Hf end.
    change (has (find_user d SYNTHETIC_ADMIN_ID) = true) in Hf. by rewrite Hu in Hf. }
  unfold mbind, M_bind, commit. cbn [Session.view Session.inactive]. by rewrite Hno.
Qed.

Lemma revoke_key_Ok later id current d k :
  constraints_ok d = true → k ∈ Db.api_keys d → ApiKey.id k = id → ApiKey.revoked_at k = None →
  is_admin current = true ∨ User.id current = ApiKey.user_id k →
  let d' := set_key id (ApiKey.set_revoked_at (Some later)) d in
  revoke_key later id current (Session.start d) = (Ok (ApiKey.set_revoked_at (Some later) k), Session.start d') ∧
  constraints_ok d' = true.
Proof.
  intros Hd Hk Hid Hr Hauth d'.
  assert (constraints_ok d' = true) as Hd' by by apply constraints_update_key.
  assert (∀ d k, constraints_ok d = true → k ∈ Db.api_keys d → ApiKey.id k = id → find_api_key d id = Some k) as Hfind.
  { clear. intros d k Hd Hk Hid. assert (NoDup (map ApiKey.id (Db.api_keys d))) as Hnd by (by split_constraints Hd).
    unfold find_api_key. destruct (find_by _ _) as [k'|] eqn:E.
    - apply find_by_Some in E as [Hk' Hid'%N.eqb_eq]. f_equal. by apply (NoDup_map_inj_key ApiKey.id (Db.api_keys d)); [..|congruence].
    - rewrite find_by_None in E. specialize (E k Hk). cbn in E. by rewrite Hid, N.eqb_refl in E. }
  split; [|done]. unfold revoke_key, Session.start. rewrite bind_query, (Hfind d k Hd Hk Hid).
  rewrite (bind_Ok (or_404 _ (Some k)) _ _ k (Session.mk d d false)) by done.
  assert (negb (is_admin current) && negb (ApiKey.user_id k =? User.id current)%N = false) as ->.
  { destruct Hauth as [->|E]; [done|]. rewrite E, N.eqb_refl. by rewrite andb_false_r. }
  rewrite Hr, bind_execute. fold d'. rewrite bind_commit, bind_query by done.
  rewrite (Hfind d' (ApiKey.set_revoked_at (Some later) k)); [done|done| |done].
  apply elem_of_update_where. exists k. split; [done|]. by rewrite Hid, N.eqb_refl.
Qed.

(** C32 The life of an API key.  The secret returned once by a successful creation
    opens the gateway for its owner, as long as the owner is an active user;
    revoking the key, by its owner or an admin, always succeeds, and from then on
    the same secret is refused; every other key is as it was. *)
Theorem api_key_lifecycle id now token_hex body current user d row key st later who :
  constraints_ok d = true → active_user (User.id current) d user →
  create_key id now token_hex body current (Session.start d) = (Ok (row, key), st) →
  is_admin who = true ∨ User.id who = User.id current →
  let d1 := Session.durable st in
  (∀ t g, (get_api_key d1 t (Some key) g).1 = Ok (row, user)) ∧
  let '(r, st2) := revoke_key later id who (Session.start d1) in
  let d2 := Session.durable st2 in
  r = Ok (ApiKey.set_revoked_at (Some later) row) ∧
  (∀ t g, get_api_key d2 t (Some key) g = (Raise unauthorized, g)) ∧
  (∀ k, k ∈ Db.api_keys d → k ∈ Db.api_keys d2) ∧ constraints_ok d2 = true.
Proof.
  intros Hd [Hu Ha] Hc Hauth. apply create_key_Ok in Hc as (-> & Hrow & Hd1 & Hkey); [|done]. cbv zeta in Hrow, Hd1.
  rewrite <-Hrow in *. cbn [Session.durable Session.start].
  assert (row ∈ Db.api_keys (add_key row d)) as Hin by (apply elem_of_app; right; by left).
  assert (ApiKey.id row = id) as Hid by (by subst row).
  assert (ApiKey.key_hash row = sha256_hex key) as Hh by (by subst row).
  split.
  - intros t g. apply get_api_key_accepts; [by apply key_row_elem|by subst row|by subst row|done|by subst row].
  - destruct (revoke_key_Ok later id who (add_key row d) row Hd1 Hin Hid) as [-> Hd2]; [by subst row| |].
    { destruct Hauth; [by left|right]. by subst row. }
    cbn [Session.durable Session.start]. split_and!; [done| | |done].
    + intros t g. apply (get_api_key_refuses _ _ _ _ (ApiKey.set_revoked_at (Some later) row)); [|done].
      apply key_row_elem; [done| |done]. apply elem_of_update_where. exists row. split; [done|]. by rewrite Hid, N.eqb_refl.
    + intros k Hk. apply elem_of_update_where. exists k. split; [apply elem_of_app; by left|].
      destruct (N.eqb_spec (ApiKey.id k) id) as [E|]; [|done]. exfalso.
      assert (NoDup (map ApiKey.id (Db.api_keys (add_key row d)))) as Hnd by (by split_constraints Hd1).
      cbn in Hnd. rewrite map_app in Hnd. apply NoDup_app in Hnd as (_ & Hdis & _). apply (Hdis (ApiKey.id k)).
      * apply list_elem_of_fmap. eauto.
      * cbn. rewrite Hid, E. by left.
Qed.

Lemma api_key_lifecycle_witness :
  ∃ row key st, create_key 40 100 "00ff" (ApiKeyCreate.mk "ci") (sample_user 3 "dev" "user") (Session.start accounts_db)
      = (Ok (row, key), st) ∧ key = "inf-00ff" ∧
    ∀ g, (get_api_key (Session.durable st) 200 (Some key) g).1 = Ok (row, sample_user 3 "dev" "user").
Proof.
  destruct (create_key 40 100 "00ff" (ApiKeyCreate.mk "ci") (sample_user 3 "dev" "user") (Session.start accounts_db))
    as [[[row key]|e] st] eqn:E.
  - exists row, key, st. split; [reflexivity|]. split.
    + assert (Ok (row, key) = (create_key 40 100 "00ff" (ApiKeyCreate.mk "ci") (sample_user 3 "dev" "user") (Session.start accounts_db)).1)
        as E1 by (rewrite E; reflexivity). vm_compute in E1. injection E1 as _ ->. reflexivity.
    + intros g. refine (proj1 (api_key_lifecycle 40 100 "00ff" (ApiKeyCreate.mk "ci") (sample_user 3 "dev" "user")
        (sample_user 3 "dev" "user") accounts_db row key st 300 (sample_user 3 "dev" "user") _ _ E _) 200 g).
      * vm_compute; reflexivity.
      * split; vm_compute; reflexivity.
      * right; reflexivity.
  - exfalso. assert (Raise e = (create_key 40 100 "00ff" (ApiKeyCreate.mk "ci") (sample_user 3 "dev" "user") (Session.start accounts_db)).1)
      as E1 by (rewrite E; reflexivity). vm_compute in E1. discriminate.
Defined.

(** ** Tokens *)
Section tokens.
Context (checkpw : string → string → result bool)
        (jwt_encode : string → Claims.t → string) (jwt_decode : string → datetime → string → option Claims.t).
Context (s : Settings.t).
(** PyJWT: a token decodes, under the secret it was made with, to its claims until
    it expires, and is refused from then on. *)
Context (decode_encode : ∀ secret now c, now < Claims.exp c → jwt_decode secret now (jwt_encode secret c) = Some c)
        (decode_expired : ∀ secret now c, Claims.exp c <= now → jwt_decode secret now (jwt_encode secret c) = None).

Lemma login_Ok now body d token st :
  login checkpw jwt_encode s now body (Session.start d) = (Ok token, st) →
  ∃ u, u ∈ Db.users d ∧ User.username u = LoginRequest.username body ∧ User.is_active u = true ∧
    checkpw (LoginRequest.password body) (User.password_hash u) = Ok true ∧
    token = create_token jwt_encode s now u ∧ st = Session.start d.
Proof.
  unfold login, Session.start. rewrite bind_query. destruct (find_by _ _) as [u|] eqn:E; [|done].
  apply find_by_Some in E as [Hu Hn%String.eqb_eq]. intros (ok & st1 & (Hok & ->)%lift_result_Ok & H)%M_bind_Ok.
  unfold verify_password in Hok. destruct ok; [|done]. destruct (User.is_active u) eqn:Ea; [|done].
  cbn in H. unfold mret, M_ret in H. injection H as <- <-. exists u. split_and!; try done.
  by destruct (checkpw _ _) as [b|[]].
Qed.

End tokens.

(** A codec that satisfies what is assumed of PyJWT: the claims as a binary number,
    in the clear, after the secret. *)
Fixpoint bits_of (p : positive) : string :=
  match p with xH => "" | xO p => String "0" (bits_of p) | xI p => String "1" (bits_of p) end.
Fixpoint of_bits (s : string) : positive :=
  match s with "" => 1%positive | String c s => if Ascii.eqb c "0" then xO (of_bits s) else xI (of_bits s) end.
Lemma of_bits_of p : of_bits (bits_of p) = p.
Proof. induction p; cbn; congruence. Qed.
#[local] Instance claims_eq_dec : EqDecision Claims.t.
Proof. solve_decision. Defined.
#[local] Program Instance claims_countable : Countable Claims.t :=
  inj_countable' (λ c, (Claims.sub c, Claims.exp c)) (λ p, Claims.mk p.1 p.2) _.
Next Obligation. by intros []. Qed.
Definition clear_encode (secret : string) (c : Claims.t) : string := bits_of (encode (secret, c)).
Definition clear_decode (secret : string) (now : datetime) (token : string) : option Claims.t :=
  match decode (of_bits token) with
  | Some (secret', c) => if String.eqb secret' secret && (now <? Claims.exp c) then Some c else None
  | None => None
  end.
Lemma clear_decode_encode secret now c :
  clear_decode secret now (clear_encode secret c) = if now <? Claims.exp c then Some c else None.
Proof. unfold clear_decode, clear_encode. by rewrite of_bits_of, decode_encode, String.eqb_refl. Qed.
Definition plain_checkpw (password password_hash : string) : result bool := Ok (String.eqb password password_hash).


(** A password of more than 72 bytes passes the body's validation and is then
    rejected by bcrypt with an error no handler turns into an answer. *)
Fixpoint repeat_str (n : nat) (c : ascii) : string := match n with O => "" | S n => String c (repeat_str n c) end.
Definition bcrypt5 (password : string) : result string :=
  if (72 <? String.length password)%nat
  then Raise (ValueError "password cannot be longer than 72 bytes, truncate manually if necessary (e.g. my_password[:72])")
  else Ok password.
Lemma long_password_raises :
  let body := UserCreate.mk "new" (repeat_str 100 "x") "user" in
  UserCreate.valid body = true ∧
  ∃ m, (create_user bcrypt5 9 body (sample_user 2 "root" "admin") (Session.start accounts_db)).1 = Raise (ValueError m).
Proof. split; [by vm_compute|]. eexists. vm_compute. reflexivity. Qed.
