(* ===== verification/Catalog.v ===== *)
(** * Clusters, workers, models and the dashboard ([server/inferna_server/api/clusters.py], [api/workers.py], [api/models.py], [api/dashboard.py], [api/compatibility.py])

    The handlers on the catalog, with what deleting a row does to the rows that
    reference it: the ORM sets the reference of loaded children to NULL where the
    relationship has no cascade of its own, the database applies ON DELETE. *)

From S2P Require Import Prelude PyStr Models Config Schemas Scheduler Scaling Usage Instances Accounts.
Local Open Scope Z_scope.

(** ** Clusters *)
Definition list_clusters : DbM (list Cluster.t) :=
  query (λ d, sorted_by (λ a b, String.leb (Cluster.name a) (Cluster.name b)) (Db.clusters d)).

Definition create_cluster (id : uuid) (now : datetime) (body : ClusterCreate.t) : DbM Cluster.t :=
  existing ← query (λ d, find_by (λ c, String.eqb (Cluster.name c) (ClusterCreate.name body)) (Db.clusters d));
  match existing with
  | Some _ => http_error 409 "cluster name already taken"
  | None =>
      let c := Cluster.mk id (ClusterCreate.name body) (ClusterCreate.description body) now in
      _ ← execute (λ d, Db.set_clusters (Db.clusters d ++ [c]) d);
      _ ← commit;
      mret c
  end.

Definition in_cluster (c : uuid) (i : ModelInstance.t) : bool := (ModelInstance.cluster_id i =? c)%N.
(** ON DELETE CASCADE of the rows that are not the ORM's: instances and GPU usage. *)
Definition drop_cluster (c : uuid) (d : Db.t) : Db.t :=
  Db.set_clusters (where_ (λ r, negb (Cluster.id r =? c)%N) (Db.clusters d))
    (Db.set_instances (where_ (λ i, negb (in_cluster c i)) (Db.instances d))
      (Db.set_gpu_usage_records (where_ (λ r, negb (GpuUsageRecord.cluster_id r =? c)%N) (Db.gpu_usage_records d)) d)).
(** A flush that sets a NOT NULL column to NULL. *)
Definition not_null_violation : DbM unit := λ s,
  if Session.inactive s then (Raise (RuntimeError "PendingRollbackError"), s)
  else (Raise IntegrityError, Session.mk (Session.durable s) (Session.durable s) true).
Definition cluster_deployments (c : uuid) (d : Db.t) : list Deployment.t :=
  where_ (λ r, (Deployment.cluster_id r =? c)%N) (Db.deployments d).

Definition delete_cluster (cluster_id : uuid) : DbM unit :=
  cluster ← query (λ d, find_cluster d cluster_id); _ ← or_404 "cluster not found" cluster;
  workers ← query (λ d, length (where_ (λ w, (Worker.cluster_id w =? cluster_id)%N) (Db.workers d)));
  if (0 <? workers)%nat then http_error 400 "cluster has workers"
  else
    live ← query (λ d, length (where_ (λ i, in_cluster cluster_id i && in_live_states (ModelInstance.state i)) (Db.instances d)));
    if (0 <? live)%nat then http_error 400 "cluster has live instances"
    else
      deployments ← query (cluster_deployments cluster_id);
      match deployments with
      | _ :: _ => not_null_violation
      | [] => _ ← execute (drop_cluster cluster_id); commit
      end.

(** ** Workers *)
Definition list_workers (cluster_id : option uuid)
  : DbM (list (Worker.t * list WorkerGPU.t * list (ModelInstance.t * option string))) :=
  query (λ d, map (λ w, (w, gpus_of d (Worker.id w),
                         map (λ i, (i, Some (Worker.name w)))
                           (where_ (λ i, uuid_eqb (ModelInstance.worker_id i) (Some (Worker.id w))) (Db.instances d))))
    (sorted_by name_leb
       (where_ (λ w, match cluster_id with Some c => (Worker.cluster_id w =? c)%N | None => true end) (Db.workers d)))).

Definition on_worker (w : uuid) (i : ModelInstance.t) : bool := uuid_eqb (ModelInstance.worker_id i) (Some w).
Definition removed_row (i : ModelInstance.t) : ModelInstance.t :=
  ModelInstance.set_error_detail (Some "worker removed")
    (ModelInstance.set_state "error" (ModelInstance.set_worker_id None i)).
(** The live instances fail; then the row goes, with its GPUs, and the other
    instances are detached. *)
Definition fail_live (w : uuid) (d : Db.t) : Db.t :=
  Db.set_instances (update_where (λ i, on_worker w i && in_live_states (ModelInstance.state i)) removed_row
                      (Db.instances d)) d.
Definition drop_worker (w : uuid) (d : Db.t) : Db.t :=
  Db.set_workers (where_ (λ r, negb (Worker.id r =? w)%N) (Db.workers d))
    (Db.set_worker_gpus (where_ (λ g, negb (WorkerGPU.worker_id g =? w)%N) (Db.worker_gpus d))
      (Db.set_instances (update_where (on_worker w) (ModelInstance.set_worker_id None) (Db.instances d)) d)).
Definition delete_worker (worker_id : uuid) : DbM unit :=
  worker ← query (λ d, find_worker d worker_id); _ ← or_404 "worker not found" worker;
  _ ← execute (fail_live worker_id);
  _ ← execute (drop_worker worker_id);
  commit.

(** ** Models *)
Definition CATEGORY_ENGINES (category : string) : option (list string) :=
  if literal ["llm"; "embedding"; "multimodal"] category then Some ["vllm"; "sglang"]
  else if String.eqb category "reranker" then Some ["sglang"]
  else if String.eqb category "audio" then Some []
  else None.

Definition catalog_list_models : DbM (list Model.t) :=
  query (λ d, sorted_by (λ a b, String.leb (Model.display_name a) (Model.display_name b)) (Db.models d)).
Definition get_model (model_id : uuid) : DbM Model.t :=
  model ← query (λ d, find_model d model_id); or_404 "model not found" model.

Definition model_of (body : ModelCreate.t) (id : uuid) (now : datetime) (engines : list string) : Model.t :=
  let name := strip (ModelCreate.hf_repo_id body) in
  let display := match ModelCreate.display_name body with
                 | Some n => if String.eqb n "" then name else n
                 | None => name end in
  Model.mk id name display (ModelCreate.category body) (ModelCreate.description body)
    (ModelCreate.vram_required_mb body) (ModelCreate.requires_hf_token body) (ModelCreate.license body) false engines now.
Definition create_model (id : uuid) (now : datetime) (body : ModelCreate.t) : DbM Model.t :=
  existing ← query (λ d, find_by (λ m, String.eqb (Model.name m) (strip (ModelCreate.hf_repo_id body))) (Db.models d));
  match existing with
  | Some m => http_error 409 (if Model.is_builtin m then "name is reserved by a builtin model" else "model already exists")
  | None =>
      match CATEGORY_ENGINES (ModelCreate.category body) with
      | None => raise KeyError
      | Some engines =>
          let model := model_of body id now engines in
          _ ← execute (λ d, Db.set_models (Db.models d ++ [model]) d);
          _ ← try_ commit (λ e, match e with
                                | IntegrityError => _ ← rollback; http_error 409 "model already exists"
                                | _ => raise e end);
          mret model
      end
  end.

(** ON DELETE: usage goes with the model; instances and deployments restrict it. *)
Definition drop_model (m : uuid) (d : Db.t) : Db.t :=
  Db.set_models (where_ (λ r, negb (Model.id r =? m)%N) (Db.models d))
    (Db.set_usage_records (where_ (λ r, negb (UsageRecord.model_id r =? m)%N) (Db.usage_records d))
      (Db.set_gpu_usage_records (where_ (λ r, negb (GpuUsageRecord.model_id r =? m)%N) (Db.gpu_usage_records d)) d)).
Definition has_deployment (m : uuid) (d : Db.t) : bool :=
  existsb (λ r, (Deployment.model_id r =? m)%N) (Db.deployments d).
Definition delete_model (model_id : uuid) : DbM unit :=
  model ← query (λ d, find_model d model_id); model ← or_404 "model not found" model;
  if Model.is_builtin model then http_error 409 "builtin models cannot be deleted"
  else
    used ← query (has_deployment model_id);
    if (used : bool) then http_error 409 "model has deployments"
    else _ ← execute (drop_model model_id); commit.

(** ** Dashboard and compatibility *)
Module DashboardOut.
Record t := mk {
  clusters : Z; workers_online : Z; gpus_total : Z; vram_used_mb : Z; vram_total_mb : Z;
  instances_running : Z; instances : list (ModelInstance.t * option string) }.
End DashboardOut.
Definition count {A} (p : A → bool) (l : list A) : Z := Z.of_nat (length (where_ p l)).

Definition dashboard : DbM DashboardOut.t :=
  query (λ d, DashboardOut.mk (Z.of_nat (length (Db.clusters d)))
    (count (λ w, String.eqb (Worker.state w) "connected") (Db.workers d))
    (Z.of_nat (length (Db.worker_gpus d)))
    (sum_by WorkerGPU.used_vram_mb (Db.worker_gpus d)) (sum_by WorkerGPU.vram_mb (Db.worker_gpus d))
    (count (λ i, String.eqb (ModelInstance.state i) "running") (Db.instances d))
    (_with_names d (take 10 (newest_first ModelInstance.created_at (Db.instances d))))).
Definition compatibility : list (string * list string) :=
  map (λ e, (e, sorted_by String.leb (vendors_of e))) ["vllm"; "sglang"].

(** ** Removing a worker *)
Definition detach_row (i : ModelInstance.t) : ModelInstance.t :=
  if in_live_states (ModelInstance.state i) then removed_row i else ModelInstance.set_worker_id None i.
Definition remove_worker (w : uuid) (d : Db.t) : Db.t :=
  Db.set_workers (where_ (λ r, negb (Worker.id r =? w)%N) (Db.workers d))
    (Db.set_worker_gpus (where_ (λ g, negb (WorkerGPU.worker_id g =? w)%N) (Db.worker_gpus d))
      (Db.set_instances (update_where (on_worker w) detach_row (Db.instances d)) d)).

Lemma remove_worker_steps w d : drop_worker w (fail_live w d) = remove_worker w d.
Proof.
  assert (update_where (on_worker w) (ModelInstance.set_worker_id None) (Db.instances (fail_live w d)) =
          update_where (on_worker w) detach_row (Db.instances d)) as E.
  2: { unfold drop_worker. rewrite E. done. }
  unfold fail_live. cbn [Db.instances Db.set_instances]. unfold update_where. rewrite map_map. apply map_ext. intros i. unfold on_worker, detach_row.
  destruct (uuid_eqb (ModelInstance.worker_id i) (Some w)) eqn:E; cbn [andb]; [|by rewrite E].
  destruct (in_live_states (ModelInstance.state i)); [done|]. by rewrite E.
Qed.

Lemma has_find_where {A} (p q : A → bool) l x :
  find_by p l = Some x → q x = true → has (find_by p (where_ q l)) = true.
Proof. intros [Hx Hp]%find_by_Some Hq. apply find_by_has. exists x. split; [by apply elem_of_where|done]. Qed.
Lemma has_Some {A} (o : option A) : has o = true ↔ ∃ x, o = Some x.
Proof. destruct o; split; try done; [eauto|by intros [? ?]]. Qed.

Lemma detach_refs i :
  ModelInstance.id (detach_row i) = ModelInstance.id i ∧ ModelInstance.model_id (detach_row i) = ModelInstance.model_id i ∧
  ModelInstance.cluster_id (detach_row i) = ModelInstance.cluster_id i ∧
  ModelInstance.deployment_id (detach_row i) = ModelInstance.deployment_id i ∧
  ModelInstance.worker_id (detach_row i) = None ∧ group_rank_key (detach_row i) = group_rank_key i.
Proof. unfold detach_row. by destruct (in_live_states _). Qed.
Lemma detach_ck i : ck_instance i = true → ck_instance (detach_row i) = true.
Proof.
  unfold detach_row. destruct (in_live_states _); [|done]. unfold ck_instance. cbn. rewrite !andb_true_iff. tauto.
Qed.

Lemma constraints_remove_worker w d : constraints_ok d = true → constraints_ok (remove_worker w d) = true.
Proof.
  intros Hd.
  assert (∀ i, i ≠ w → has (find_worker d i) = true → has (find_worker (remove_worker w d) i) = true) as Hw.
  { intros i Hi [r Hr]%has_Some. unfold find_worker in *. cbn. eapply has_find_where; [exact Hr|].
    apply find_by_Some in Hr as [_ ->%N.eqb_eq]. by apply negb_true_iff, N.eqb_neq. }
  unfold constraints_ok, checks_ok, uniques_ok, fks_ok in Hd |- *.
  repeat rewrite andb_true_iff in Hd. destruct_and! Hd.
  repeat (apply andb_true_iff; split); try assumption; try (by apply forallb_where); try (by apply unique_where);
    cbn [Db.instances remove_worker Db.set_workers Db.set_worker_gpus Db.set_instances].
  - apply forallb_elem. intros j (i & Hi & ->)%elem_of_update_where.
    match goal with H : forallb ck_instance _ = true |- _ => pose proof (proj1 (forallb_elem _ _) H i Hi) as Hck end.
    destruct (on_worker w i); [by apply detach_ck|done].
  - apply unique_by_NoDup. rewrite update_where_attr by apply detach_refs. by apply unique_by_NoDup.
  - unfold unique_worker_port in *. apply unique_by_opt_NoDup, NoDup_omap_update; [|by apply unique_by_opt_NoDup].
    intros i _. right. unfold worker_port_key. by rewrite (proj1 (proj2 (proj2 (proj2 (proj2 (detach_refs i)))))).
  - unfold unique_group_rank in *. apply unique_by_opt_NoDup, NoDup_omap_update; [|by apply unique_by_opt_NoDup].
    intros i _. left. apply detach_refs.
  - apply forallb_elem. intros g [Hg Hn%negb_true_iff%N.eqb_neq]%elem_of_where. apply Hw; [done|].
    match goal with H : forallb (λ g, has (find_worker d _)) _ = true |- _ => by apply (proj1 (forallb_elem _ _) H) end.
  - apply forallb_elem. intros j (i & Hi & ->)%elem_of_update_where.
    match goal with H : forallb _ (Db.instances d) = true, Hc : forallb ck_instance _ = true |- _ =>
      first [constr_eq H Hc; fail 1|pose proof (proj1 (forallb_elem _ _) H i Hi) as Hf] end.
    cbn in Hf |- *. rewrite !andb_true_iff in Hf |- *. destruct_and! Hf.
    destruct (on_worker w i) eqn:E.
    + destruct (detach_refs i) as (_ & -> & -> & -> & -> & _). by split_and!.
    + split_and!; try done. destruct (ModelInstance.worker_id i) as [w'|] eqn:Ew; [|done].
      apply Hw; [|done]. intros ->. unfold on_worker in E. by rewrite Ew, (proj2 (uuid_eqb_true _ _) eq_refl) in E.
Qed.



(** ** Deleting a model *)
Lemma where_empty {A} (p : A → bool) l : length (where_ p l) = 0%nat → ∀ x, x ∈ l → p x = false.
Proof. intros H%nil_length_inv%where_nil. by apply Forall_forall. Qed.
Lemma elem_rows d i : consistent d → i ∈ Db.instances d → ∃ dep, dep ∈ Db.deployments d ∧ member dep i.
Proof. intros [_ H]. apply H. Qed.

(** References that a removal keeps. *)
Lemma find_model_drop m d i : i ≠ m → has (find_model d i) = true → has (find_model (drop_model m d) i) = true.
Proof.
  intros Hi [r Hr]%has_Some. unfold find_model in *. cbn. eapply has_find_where; [exact Hr|].
  apply find_by_Some in Hr as [_ ->%N.eqb_eq]. by apply negb_true_iff, N.eqb_neq.
Qed.
Lemma find_cluster_drop c d i : i ≠ c → has (find_cluster d i) = true → has (find_cluster (drop_cluster c d) i) = true.
Proof.
  intros Hi [r Hr]%has_Some. unfold find_cluster in *. cbn. eapply has_find_where; [exact Hr|].
  apply find_by_Some in Hr as [_ ->%N.eqb_eq]. by apply negb_true_iff, N.eqb_neq.
Qed.

Lemma constraints_drop_model m d : good d → has_deployment m d = false → constraints_ok (drop_model m d) = true.
Proof.
  intros [Hd Hc] Hn.
  assert (∀ r, r ∈ Db.deployments d → Deployment.model_id r ≠ m) as Hdep.
  { intros r Hr E. apply not_true_iff_false in Hn. apply Hn, existsb_exists. exists r. split; [by apply list_elem_of_In|].
    by apply N.eqb_eq. }
  assert (∀ i, i ∈ Db.instances d → ModelInstance.model_id i ≠ m) as Hins.
  { intros i Hi. destruct (elem_rows d i Hc Hi) as (r & Hr & _ & E & _). rewrite E. by apply Hdep. }
  unfold constraints_ok, checks_ok, uniques_ok, fks_ok in Hd |- *.
  repeat rewrite andb_true_iff in Hd. destruct_and! Hd.
  repeat (apply andb_true_iff; split); try assumption; try (by apply forallb_where); try (by apply unique_where).
  - apply forallb_elem. intros r Hr.
    match goal with H : forallb _ (Db.deployments d) = true, Hk : forallb ck_deployment _ = true |- _ =>
      first [constr_eq H Hk; fail 1|pose proof (proj1 (forallb_elem _ _) H r Hr) as Hf] end.
    cbn in Hf |- *. rewrite !andb_true_iff in Hf |- *. destruct_and! Hf.
    split; [|done]. apply find_model_drop; [by apply Hdep|done].
  - apply forallb_elem. intros i Hi.
    match goal with H : forallb _ (Db.instances d) = true, Hk : forallb ck_instance _ = true |- _ =>
      first [constr_eq H Hk; fail 1|pose proof (proj1 (forallb_elem _ _) H i Hi) as Hf] end.
    cbn in Hf |- *. rewrite !andb_true_iff in Hf |- *. destruct_and! Hf.
    split_and!; try done. apply find_model_drop; [by apply Hins|done].
  - apply forallb_elem. intros r [Hr Hm%negb_true_iff%N.eqb_neq]%elem_of_where.
    match goal with H : forallb _ (Db.usage_records d) = true |- _ => pose proof (proj1 (forallb_elem _ _) H r Hr) as Hf end.
    cbn in Hf |- *. rewrite !andb_true_iff in Hf |- *. destruct_and! Hf. split_and!; try done. by apply find_model_drop.
  - apply forallb_elem. intros r [Hr Hm%negb_true_iff%N.eqb_neq]%elem_of_where.
    match goal with H : forallb _ (Db.gpu_usage_records d) = true |- _ => pose proof (proj1 (forallb_elem _ _) H r Hr) as Hf end.
    cbn in Hf |- *. rewrite !andb_true_iff in Hf |- *. destruct_and! Hf. split; [|done]. by apply find_model_drop.
Qed.

Lemma NoDup_omap_where {A B} (key : A → option B) (p : A → bool) l : NoDup (omap key l) → NoDup (omap key (where_ p l)).
Proof.
  intros H. refine (sublist_NoDup _ _ H _). clear H. unfold where_. induction l as [|x l IH]; [done|]. cbn.
  destruct (p x); cbn; destruct (key x); [by apply sublist_skip|done|by apply sublist_cons|done].
Qed.

Lemma constraints_drop_cluster c d :
  constraints_ok d = true → (∀ w, w ∈ Db.workers d → Worker.cluster_id w ≠ c) →
  (∀ r, r ∈ Db.deployments d → Deployment.cluster_id r ≠ c) → constraints_ok (drop_cluster c d) = true.
Proof.
  intros Hd Hw Hdep. unfold constraints_ok, checks_ok, uniques_ok, fks_ok in Hd |- *.
  repeat rewrite andb_true_iff in Hd. destruct_and! Hd.
  repeat (apply andb_true_iff; split); try assumption; try (by apply forallb_where); try (by apply unique_where).
  - unfold unique_worker_port in *. by apply unique_by_opt_NoDup, NoDup_omap_where, unique_by_opt_NoDup.
  - unfold unique_group_rank in *. by apply unique_by_opt_NoDup, NoDup_omap_where, unique_by_opt_NoDup.
  - apply forallb_elem. intros w Hw'. apply find_cluster_drop; [by apply Hw|].
    match goal with H : forallb (λ w, has (find_cluster d _)) _ = true |- _ => by apply (proj1 (forallb_elem _ _) H) end.
  - apply forallb_elem. intros r Hr.
    match goal with H : forallb _ (Db.deployments d) = true, Hk : forallb ck_deployment _ = true |- _ =>
      first [constr_eq H Hk; fail 1|pose proof (proj1 (forallb_elem _ _) H r Hr) as Hf] end.
    cbn in Hf |- *. rewrite !andb_true_iff in Hf |- *. destruct_and! Hf.
    split; [done|]. apply find_cluster_drop; [by apply Hdep|done].
  - apply forallb_elem. intros i [Hi Hn%negb_true_iff%N.eqb_neq]%elem_of_where.
    match goal with H : forallb _ (Db.instances d) = true, Hk : forallb ck_instance _ = true |- _ =>
      first [constr_eq H Hk; fail 1|pose proof (proj1 (forallb_elem _ _) H i Hi) as Hf] end.
    cbn in Hf |- *. rewrite !andb_true_iff in Hf |- *. destruct_and! Hf.
    split_and!; try done. by apply find_cluster_drop.
  - apply forallb_elem. intros r [Hr Hn%negb_true_iff%N.eqb_neq]%elem_of_where.
    match goal with H : forallb _ (Db.gpu_usage_records d) = true |- _ => pose proof (proj1 (forallb_elem _ _) H r Hr) as Hf end.
    cbn in Hf |- *. rewrite !andb_true_iff in Hf |- *. destruct_and! Hf. split; [done|]. by apply find_cluster_drop.
Qed.

Lemma consistent_remove_worker w d : consistent d → consistent (remove_worker w d).
Proof.
  intros [H1 H2]. refine (consistent_update d (on_worker w) detach_row _ (conj H1 H2)). intros i.
  destruct (detach_refs i) as (_ & ? & ? & ? & _). done.
Qed.
Lemma consistent_drop_model m d : consistent d → consistent (drop_model m d).
Proof. done. Qed.
(** With no deployment left in the cluster, no instance goes either. *)
Lemma drop_cluster_instances c d :
  consistent d → cluster_deployments c d = [] → Db.instances (drop_cluster c d) = Db.instances d.
Proof.
  intros [_ H2] Hn. cbn. apply where_all. intros i Hi. apply negb_true_iff.
  destruct (H2 i Hi) as (dep & Hdep & _ & _ & E). unfold in_cluster. rewrite E.
  apply (where_empty (λ r, (Deployment.cluster_id r =? c)%N) (Db.deployments d)); [|done].
  unfold cluster_deployments in Hn. by rewrite Hn.
Qed.

(** Deleting a model: refused with 404 or 409 and nothing changed when the model
    is unknown, built in or deployed; otherwise it goes, with its usage records,
    and every other row stays. *)
Lemma delete_model_spec model_id d :
  good d →
  let '(r, st) := delete_model model_id (Session.start d) in
  match find_model d model_id with
  | Some m =>
      if Model.is_builtin m || has_deployment model_id d then
        (∃ detail, r = Raise (HTTPException 409 detail)) ∧ Session.durable st = d
      else r = Ok tt ∧ Session.durable st = drop_model model_id d ∧ good (Session.durable st)
  | None => r = Raise (HTTPException 404 "model not found") ∧ Session.durable st = d
  end.
Proof.
  intros Hg. unfold delete_model, Session.start. rewrite bind_query.
  destruct (find_model d model_id) as [m|] eqn:E; [|done].
  rewrite (bind_Ok (or_404 _ (Some m)) _ _ m (Session.mk d d false)) by done.
  destruct (Model.is_builtin m); [by split; [eexists|]|]. rewrite bind_query. cbn [orb].
  destruct (has_deployment model_id d) eqn:Eh; [by split; [eexists|]|].
  rewrite bind_execute. pose proof (constraints_drop_model model_id d Hg Eh) as Hok.
  unfold commit. cbn [Session.view Session.inactive]. rewrite Hok. cbn [Session.durable].
  split_and!; [done..|]. split; [done|]. by apply consistent_drop_model, Hg.
Qed.

Definition cluster_workers (c : uuid) (d : Db.t) : list Worker.t := where_ (λ w, (Worker.cluster_id w =? c)%N) (Db.workers d).
Definition cluster_live (c : uuid) (d : Db.t) : list ModelInstance.t :=
  where_ (λ i, in_cluster c i && in_live_states (ModelInstance.state i)) (Db.instances d).

(** Deleting a cluster: refused when it is unknown (404) or still has workers
    or live instances (400).  A cluster with deployments left, all of them
    stopped or failed, is neither refused nor deleted: its deployments would lose
    their cluster, which the column forbids, and the error reaches no handler.
    Otherwise the cluster goes and no instance or deployment does. *)
Lemma delete_cluster_spec c d :
  good d →
  let '(r, st) := delete_cluster c (Session.start d) in
  match find_cluster d c, cluster_workers c d, cluster_live c d, cluster_deployments c d with
  | None, _, _, _ => r = Raise (HTTPException 404 "cluster not found") ∧ Session.durable st = d
  | Some _, _ :: _, _, _ => r = Raise (HTTPException 400 "cluster has workers") ∧ Session.durable st = d
  | Some _, [], _ :: _, _ => r = Raise (HTTPException 400 "cluster has live instances") ∧ Session.durable st = d
  | Some _, [], [], _ :: _ => r = Raise IntegrityError ∧ Session.durable st = d
  | Some _, [], [], [] =>
      r = Ok tt ∧ find_cluster (Session.durable st) c = None ∧ good (Session.durable st) ∧
      Db.instances (Session.durable st) = Db.instances d ∧ Db.deployments (Session.durable st) = Db.deployments d
  end.
Proof.
  intros Hg. unfold delete_cluster, Session.start. rewrite bind_query.
  destruct (find_cluster d c) as [k|] eqn:E; [|done].
  rewrite (bind_Ok (or_404 _ (Some k)) _ _ k (Session.mk d d false)) by done. rewrite bind_query.
  fold (cluster_workers c d). destruct (cluster_workers c d) as [|w ws] eqn:Ew; [|done]. cbn [length Nat.ltb Nat.leb].
  rewrite bind_query. fold (cluster_live c d). destruct (cluster_live c d) as [|i l] eqn:Ei; [|done].
  cbn [length Nat.ltb Nat.leb]. rewrite bind_query.
  destruct (cluster_deployments c d) as [|dep deps] eqn:Ed; [|done]. rewrite bind_execute.
  assert (constraints_ok (drop_cluster c d) = true) as Hok.
  { apply constraints_drop_cluster; [apply Hg|..].
    - intros w Hw. apply N.eqb_neq. apply (where_empty (λ w, (Worker.cluster_id w =? c)%N) (Db.workers d)); [|done].
      unfold cluster_workers in Ew. by rewrite Ew.
    - intros r Hr. apply N.eqb_neq. apply (where_empty (λ r, (Deployment.cluster_id r =? c)%N) (Db.deployments d)); [|done].
      unfold cluster_deployments in Ed. by rewrite Ed. }
  pose proof (drop_cluster_instances c d (proj2 Hg) Ed) as Hins.
  unfold commit. cbn [Session.view Session.inactive]. rewrite Hok. cbn [Session.durable].
  split_and!; [done| |split; [done|]|done|done].
  - apply find_by_None. intros r [_ Hr]%elem_of_where. by apply negb_true_iff.
  - destruct Hg as [_ [H1 H2]]. split; rewrite Hins; [apply H1|apply H2].
Qed.

Definition stopped_db : Db.t :=
  Db.set_workers [] (Db.set_worker_gpus []
    (Db.set_instances (map (λ i, ModelInstance.set_state "stopped" (ModelInstance.set_worker_id None i))
                         (Db.instances Sample.db)) Sample.db)).
Lemma delete_cluster_spec_witness :
  good Sample.db ∧ good stopped_db ∧
  (delete_cluster 1 (Session.start Sample.db)).1 = Raise (HTTPException 400 "cluster has workers") ∧
  (delete_cluster 1 (Session.start stopped_db)).1 = Raise IntegrityError.
Proof.
  assert (good Sample.db) as H1 by (apply (bool_decide_unpack _); vm_compute; exact I).
  assert (good stopped_db) as H2 by (apply (bool_decide_unpack _); vm_compute; exact I).
  split_and!; [done..| |].
  - pose proof (delete_cluster_spec 1 Sample.db H1) as H. destruct (delete_cluster 1 (Session.start Sample.db)) as [r st].
    cbn in H. apply H.
  - pose proof (delete_cluster_spec 1 stopped_db H2) as H. destruct (delete_cluster 1 (Session.start stopped_db)) as [r st].
    cbn in H. apply H.
Defined.

(** Deleting a cluster whose deployments are all stopped ends in an error the
    handler does not catch. *)
Lemma delete_cluster_with_deployments :
  good stopped_db ∧ cluster_live 1 stopped_db = [] ∧
  (delete_cluster 1 (Session.start stopped_db)).1 = Raise IntegrityError.
Proof. split; [apply (bool_decide_unpack _); vm_compute; exact I|]. split; vm_compute; reflexivity. Qed.

(** ** The handlers keep the invariant *)
Section keeps.
Context (d : Db.t) (Hg : good d).
Lemma delete_worker_keeps w : good (Session.durable (delete_worker w (Session.start d)).2).
Proof.
  unfold delete_worker, Session.start. rewrite bind_query.
  destruct (find_worker d w) as [r|]; [|done].
  rewrite (bind_Ok (or_404 _ (Some r)) _ _ r (Session.mk d d false)) by done. rewrite !bind_execute, remove_worker_steps.
  pose proof (constraints_remove_worker w d (proj1 Hg)) as Hok. unfold commit. cbn [Session.view Session.inactive].
  rewrite Hok. split; [done|]. by apply consistent_remove_worker, Hg.
Qed.
Lemma delete_cluster_keeps c : good (Session.durable (delete_cluster c (Session.start d)).2).
Proof.
  pose proof (delete_cluster_spec c d Hg) as H. destruct (delete_cluster c (Session.start d)) as [r st]. cbn.
  destruct (find_cluster d c), (cluster_workers c d), (cluster_live c d), (cluster_deployments c d);
    try (by destruct H as [_ ->]). apply H.
Qed.
Lemma delete_model_keeps m : good (Session.durable (delete_model m (Session.start d)).2).
Proof.
  pose proof (delete_model_spec m d Hg) as H. destruct (delete_model m (Session.start d)) as [r st]. cbn.
  destruct (find_model d m) as [x|]; [|destruct H as [_ ->]; done].
  destruct (_ || _); [destruct H as [_ ->]; done|]. apply H.
Qed.
Lemma create_cluster_keeps id now body : good (Session.durable (create_cluster id now body (Session.start d)).2).
Proof.
  unfold create_cluster, Session.start. rewrite bind_query. destruct (find_by _ _); [done|]. rewrite bind_execute.
  unfold mbind, M_bind, commit. cbn [Session.view Session.inactive]. destruct (constraints_ok _) eqn:E; [|done].
  split; [done|]. apply Hg.
Qed.
Lemma create_model_keeps id now body : good (Session.durable (create_model id now body (Session.start d)).2).
Proof.
  unfold create_model, Session.start. rewrite bind_query. destruct (find_by _ _); [done|].
  destruct (CATEGORY_ENGINES _) as [engines|]; [|done]. rewrite bind_execute.
  unfold mbind, M_bind, try_, commit. cbn [Session.view Session.inactive]. destruct (constraints_ok _) eqn:E; [|done].
  split; [done|]. apply Hg.
Qed.
End keeps.

(** A repository id of blanks passes the schema, which checks its length before
    the handler strips it, and is stored under the empty name. *)
Definition blank_model : ModelCreate.t := ModelCreate.mk "   " None "llm" 8000 false None None.
Lemma blank_repo_id_is_stored :
  ModelCreate.valid blank_model = true ∧
  let '(r, st) := create_model 90 0 blank_model (Session.start Sample.db) in
  r = Ok (model_of blank_model 90 0 ["vllm"; "sglang"]) ∧ map Model.name (Db.models (Session.durable st)) = ["org/model"; ""].
Proof. split; vm_compute; done. Qed.
