(* ===== verification/UsageApi.v ===== *)
(** * The usage report ([server/inferna_server/api/usage.py])

    Daily aggregates of the window, filtered by what the caller may see, with the
    GPU time of the models in them.  [gpu_hours] is the sum divided by 3600 and
    rounded to three digits for display; the report keeps the sum itself, in the
    thousandths of a second of [GpuUsageRecord]. *)

From S2P Require Import Prelude Models Schemas Usage Instances Accounts.
Local Open Scope Z_scope.

(** Python's [round(a / b)]: to the nearest, ties to even. *)
Definition round_div (a b : Z) : Z :=
  let q := a / b in
  let r := 2 * (a mod b) in
  if r <? b then q else if b <? r then q + 1 else if Z.even q then q else q + 1.

Module UsageRow.
Record t := mk {
  period_start : Z; model_id : uuid; model_name : string; user_id : uuid; username : string; api_key_id : uuid;
  requests : Z; tokens_in : Z; tokens_out : Z; avg_latency_ms : Z; gpu_seconds : Z }.
End UsageRow.
Module UsageTotals.
Record t := mk { requests : Z; tokens_in : Z; tokens_out : Z; avg_latency_ms : Z; gpu_seconds : Z }.
End UsageTotals.
Module UsageLimits.
Record t := mk { token_limit : option Z; request_limit : option Z; requests_used : Z; tokens_used : Z }.
End UsageLimits.
Module UsageOut.
Record t := mk { totals : UsageTotals.t; rows : list UsageRow.t; limits : UsageLimits.t }.
End UsageOut.

Definition gpu_day (r : GpuUsageRecord.t) : uuid * Z := (GpuUsageRecord.model_id r, GpuUsageRecord.period_start r).
Definition add_gpu (totals : list (uuid * Z * Z)) (r : GpuUsageRecord.t) : list (uuid * Z * Z) :=
  dict_set (gpu_day r) (default 0 (dict_get (gpu_day r) totals) + GpuUsageRecord.gpu_seconds r) totals.
Definition gpu_wanted (model_ids : list uuid) (period_from : Z) (r : GpuUsageRecord.t) : bool :=
  (period_from <=? GpuUsageRecord.period_start r) && bool_decide (GpuUsageRecord.model_id r ∈ model_ids).
Definition _gpu_seconds (model_ids : list uuid) (period_from : Z) : DbM (list (uuid * Z * Z)) :=
  match model_ids with
  | [] => mret []
  | _ => query (λ d, foldl add_gpu [] (where_ (gpu_wanted model_ids period_from) (Db.gpu_usage_records d)))
  end.

(** [ORDER BY period_start DESC, requests DESC] *)
Definition newest_busiest (a b : UsageRecord.t) : bool :=
  (UsageRecord.period_start b <? UsageRecord.period_start a)
  || (UsageRecord.period_start a =? UsageRecord.period_start b) && (UsageRecord.requests b <=? UsageRecord.requests a).

Definition optional (o : option uuid) (k : uuid) : bool := match o with Some x => (k =? x)%N | None => true end.
Definition usage_wanted (period_from : Z) (model_id key_id : option uuid) (current : User.t) (r : UsageRecord.t) : bool :=
  (period_from <=? UsageRecord.period_start r) && optional model_id (UsageRecord.model_id r)
  && (is_admin current || (UsageRecord.user_id r =? User.id current)%N) && optional key_id (UsageRecord.api_key_id r).

Definition check_key (key_id : option uuid) (current : User.t) : DbM unit :=
  match key_id with
  | Some k =>
      if is_admin current then mret tt
      else
        key ← query (λ d, find_api_key d k);
        match key with
        | Some key => if (ApiKey.user_id key =? User.id current)%N then mret tt else http_error 403 "not allowed"
        | None => http_error 403 "not allowed"
        end
  | None => mret tt
  end.

Definition report_row (d : Db.t) (gpu : list (uuid * Z * Z)) (r : UsageRecord.t) : UsageRow.t :=
  UsageRow.mk (UsageRecord.period_start r) (UsageRecord.model_id r)
    (match find_model d (UsageRecord.model_id r) with Some m => Model.name m | None => "unknown" end)
    (UsageRecord.user_id r)
    (match find_user d (UsageRecord.user_id r) with Some u => User.username u | None => "unknown" end)
    (UsageRecord.api_key_id r) (UsageRecord.requests r) (UsageRecord.tokens_in r) (UsageRecord.tokens_out r)
    (if UsageRecord.requests r =? 0 then 0 else round_div (UsageRecord.latency_ms_sum r) (UsageRecord.requests r))
    (default 0 (dict_get (UsageRecord.model_id r, UsageRecord.period_start r) gpu)).
Definition usage_totals (records : list UsageRecord.t) (rows : list UsageRow.t) (gpu : list (uuid * Z * Z)) : UsageTotals.t :=
  UsageTotals.mk (sum_by UsageRow.requests rows) (sum_by UsageRow.tokens_in rows) (sum_by UsageRow.tokens_out rows)
    (round_div (sum_by UsageRecord.latency_ms_sum records) (Z.max (sum_by UsageRecord.requests records) 1))
    (sum_by snd gpu).

(** [today] is the day the handler starts on, [now] the one its quota query runs
    on, [p] the buffer then. *)
Definition usage (days today now : Z) (model_id key_id : option uuid) (current : User.t) (p : pending_t) : DbM UsageOut.t :=
  let period_from := today - (days - 1) in
  _ ← check_key key_id current;
  records ← query (λ d, sorted_by newest_busiest (where_ (usage_wanted period_from model_id key_id current) (Db.usage_records d)));
  gpu_seconds ← _gpu_seconds (map UsageRecord.model_id records) period_from;
  rows ← query (λ d, map (report_row d gpu_seconds) records);
  used ← query (usage_today now (User.id current) p);
  mret (UsageOut.mk (usage_totals records rows gpu_seconds) rows
          (UsageLimits.mk (User.token_limit current) (User.request_limit current) used.1 used.2)).

(** ** Lemmas *)
Lemma round_div_nearest a b : 0 < b → 2 * Z.abs (round_div a b * b - a) <= b.
Proof.
  intros Hb. unfold round_div. pose proof (Z.div_mod a b ltac:(lia)). pose proof (Z.mod_pos_bound a b Hb).
  destruct (Z.ltb_spec (2 * (a mod b)) b); [nia|]. destruct (Z.ltb_spec b (2 * (a mod b))); [nia|].
  destruct (Z.even _); nia.
Qed.

Lemma sum_by_dict_set {K} `{EqDecision K} (k : K) v l :
  sum_by snd (dict_set k v l) = sum_by snd l - default 0 (dict_get k l) + v.
Proof.
  induction l as [|[k' v'] l IH]; cbn [dict_set dict_get]; [rewrite !sum_by_cons; cbn; lia|].
  destruct (decide (k = k')); rewrite !sum_by_cons; cbn [snd default from_option]; [unfold id; lia|]. rewrite IH. lia.
Qed.
Lemma gpu_fold_sum acc l : sum_by snd (foldl add_gpu acc l) = sum_by snd acc + sum_by GpuUsageRecord.gpu_seconds l.
Proof.
  revert acc. induction l as [|r l IH]; intros acc; cbn [foldl]; [cbn; lia|]. rewrite IH. unfold add_gpu.
  rewrite sum_by_dict_set, sum_by_cons. lia.
Qed.
Lemma gpu_fold_get acc l k :
  default 0 (dict_get k (foldl add_gpu acc l)) =
  default 0 (dict_get k acc) + sum_by GpuUsageRecord.gpu_seconds (where_ (λ r, bool_decide (gpu_day r = k)) l).
Proof.
  revert acc. induction l as [|r l IH]; intros acc; cbn [foldl]; [cbn; lia|]. rewrite IH. unfold add_gpu at 1, where_.
  rewrite dict_get_set. cbn [List.filter]. case_bool_decide as E; destruct (decide (k = gpu_day r)) as [E'|E'];
    try congruence; rewrite ?sum_by_cons; cbn [default from_option]; unfold id; subst; lia.
Qed.
(** The GPU time looked up for a set of models. *)
Definition gpu_of (ids : list uuid) (period_from : Z) (d : Db.t) : list (uuid * Z * Z) :=
  foldl add_gpu [] (where_ (gpu_wanted ids period_from) (Db.gpu_usage_records d)).
Lemma gpu_seconds_query {A} ids period_from (k : _ → DbM A) d dur :
  (_gpu_seconds ids period_from ≫= k) (Session.mk d dur false) = k (gpu_of ids period_from d) (Session.mk d dur false).
Proof.
  destruct ids as [|i ids]; [|done]. unfold gpu_of. enough (where_ (gpu_wanted [] period_from) (Db.gpu_usage_records d) = []) as -> by done.
  generalize (Db.gpu_usage_records d). intros l. unfold where_. induction l as [|r l IH]; [done|]. cbn [List.filter].
  rewrite IH. unfold gpu_wanted. rewrite bool_decide_eq_false_2 by apply not_elem_of_nil. by rewrite andb_false_r.
Qed.

Definition may_filter_by (key_id : option uuid) (current : User.t) (d : Db.t) : bool :=
  match key_id with
  | Some k => is_admin current
              || match find_api_key d k with Some key => (ApiKey.user_id key =? User.id current)%N | None => false end
  | None => true
  end.
Lemma check_key_spec key_id current {A} (k : unit → DbM A) d :
  (check_key key_id current ≫= k) (Session.start d) =
  if may_filter_by key_id current d then k tt (Session.start d) else (Raise (HTTPException 403 "not allowed"), Session.start d).
Proof.
  unfold check_key, may_filter_by. destruct key_id as [i|]; [|done]. destruct (is_admin current); [done|]. cbn [orb].
  unfold mbind at 1, M_bind, Session.start. rewrite bind_query. destruct (find_api_key d i) as [key|]; [|done].
  by destruct (_ =? _)%N.
Qed.
Lemma sum_by_map {A B} (f : B → Z) (g : A → B) l : sum_by f (map g l) = sum_by (λ x, f (g x)) l.
Proof. induction l as [|x l IH]; [done|]. cbn [map]. by rewrite !sum_by_cons, IH. Qed.
Lemma sum_by_perm {A} (f : A → Z) l1 l2 : l1 ≡ₚ l2 → sum_by f l1 = sum_by f l2.
Proof. induction 1; rewrite ?sum_by_cons; lia. Qed.

(** The record a row reports. *)
Definition reports (row : UsageRow.t) (r : UsageRecord.t) : Prop :=
  UsageRow.user_id row = UsageRecord.user_id r ∧ UsageRow.api_key_id row = UsageRecord.api_key_id r ∧
  UsageRow.model_id row = UsageRecord.model_id r ∧ UsageRow.period_start row = UsageRecord.period_start r ∧
  UsageRow.requests row = UsageRecord.requests r ∧ UsageRow.tokens_in row = UsageRecord.tokens_in r ∧
  UsageRow.tokens_out row = UsageRecord.tokens_out r ∧
  (0 < UsageRecord.requests r →
   2 * Z.abs (UsageRow.avg_latency_ms row * UsageRecord.requests r - UsageRecord.latency_ms_sum r) <= UsageRecord.requests r).

(** The usage report: refused when a user filters by a key that is not theirs;
    otherwise it writes nothing and reports each record of the window the caller
    may see exactly once, newest first, with their totals and with the average
    latency to the nearest millisecond.  The GPU time of a row is that of its model
    on its day over all clusters, and the total is that of the models reported, each
    counted once however many rows report them.  An ordinary user sees no record of
    another. *)
Theorem usage_spec days today now model_id key_id current p d :
  let '(r, st) := usage days today now model_id key_id current p (Session.start d) in
  let from := today - (days - 1) in
  let records := where_ (usage_wanted from model_id key_id current) (Db.usage_records d) in
  let ids := map UsageRecord.model_id records in
  let gpu_rows := where_ (gpu_wanted ids from) (Db.gpu_usage_records d) in
  Session.durable st = d ∧
  if may_filter_by key_id current d then
    ∃ out rs, r = Ok out ∧ rs ≡ₚ records ∧ StronglySorted newest_busiest rs ∧ Forall2 reports (UsageOut.rows out) rs ∧
    (∀ row, row ∈ UsageOut.rows out → (is_admin current = true ∨ UsageRow.user_id row = User.id current) ∧
       UsageRow.gpu_seconds row =
         sum_by GpuUsageRecord.gpu_seconds
           (where_ (λ g, bool_decide (gpu_day g = (UsageRow.model_id row, UsageRow.period_start row))) gpu_rows)) ∧
    UsageTotals.requests (UsageOut.totals out) = sum_by UsageRecord.requests records ∧
    UsageTotals.tokens_in (UsageOut.totals out) = sum_by UsageRecord.tokens_in records ∧
    UsageTotals.tokens_out (UsageOut.totals out) = sum_by UsageRecord.tokens_out records ∧
    UsageTotals.gpu_seconds (UsageOut.totals out) = sum_by GpuUsageRecord.gpu_seconds gpu_rows ∧
    (UsageLimits.requests_used (UsageOut.limits out), UsageLimits.tokens_used (UsageOut.limits out)) =
      usage_today now (User.id current) p d
  else r = Raise (HTTPException 403 "not allowed").
Proof.
  unfold usage. rewrite check_key_spec. destruct (may_filter_by key_id current d); [|done]. unfold Session.start.
  rewrite bind_query, gpu_seconds_query, !bind_query. cbn [mret M_ret Session.durable]. split; [done|].
  set (from := today - (days - 1)). set (records := where_ _ (Db.usage_records d)).
  set (rs := sorted_by newest_busiest records).
  assert (rs ≡ₚ records) as Hp by apply sorted_by_perm.
  assert (gpu_of (map UsageRecord.model_id rs) from d =
          foldl add_gpu [] (where_ (gpu_wanted (map UsageRecord.model_id records) from) (Db.gpu_usage_records d))) as Hg.
  { unfold gpu_of. f_equal. apply where_ext. intros g _. unfold gpu_wanted. f_equal. apply bool_decide_ext.
    by rewrite (Permutation_map UsageRecord.model_id Hp). }
  rewrite Hg. eexists _, rs. split_and!; [done|done| | | | | | |..].
  - apply sorted_by_sorted; unfold newest_busiest; intros *; rewrite ?orb_true_iff, ?orb_false_iff, ?andb_true_iff,
      ?andb_false_iff, ?Z.ltb_lt, ?Z.ltb_ge, ?Z.leb_le, ?Z.leb_gt, ?Z.eqb_eq, ?Z.eqb_neq; lia.
  - cbn [UsageOut.rows]. clear. induction rs as [|r l IH]; constructor; [|done].
    unfold reports. cbn. split_and!; [done..|]. intros Hr. destruct (Z.eqb_spec (UsageRecord.requests r) 0); [lia|].
    by apply round_div_nearest.
  - cbn [UsageOut.rows]. intros row (r & -> & Hr)%list_elem_of_fmap. rewrite Hp in Hr.
    apply elem_of_where in Hr as [_ Hw]. split.
    + unfold usage_wanted in Hw. cbn. destruct (is_admin current); [by left|right].
      apply andb_true_iff in Hw as [[_ Hw]%andb_true_iff _]. by apply N.eqb_eq.
    + cbn [report_row UsageRow.gpu_seconds UsageRow.model_id UsageRow.period_start]. by rewrite gpu_fold_get.
  - cbn. rewrite sum_by_map. by apply sum_by_perm.
  - cbn. rewrite sum_by_map. by apply sum_by_perm.
  - cbn. rewrite sum_by_map. by apply sum_by_perm.
  - cbn [UsageOut.totals usage_totals UsageTotals.gpu_seconds]. rewrite gpu_fold_sum. cbn [sum_by foldr]. unfold sum_by. cbn [foldr]. lia.
  - cbn [UsageOut.limits UsageLimits.requests_used UsageLimits.tokens_used]. by rewrite <-surjective_pairing.
Qed.
