(* ===== verification/Gpu.v ===== *)
(** * GPU detection ([worker/inferna_worker/gpu.py])

    NVIDIA through NVML, AMD through the JSON of rocm-smi, or two synthetic GPUs.
    NVML and the rocm-smi process are parameters; so are Python's [repr] of a
    float, a list or a dict, and [int()] of a float.  A decimal number in a memory
    value is an exact rational; digits are the ASCII ones. *)

From S2P Require Import Prelude PyStr Uuid Json Proto Models WorkersSvc.
Local Open Scope Z_scope.

Definition MOCK_VRAM_MB : Z := 24576.
Definition MIB : Z := 1024 * 1024.

(** ** Memory values *)
Definition is_num_char (c : ascii) : bool := is_digit c || Ascii.eqb c ".".
(** The longest leading run of digits and points. *)
Fixpoint take_digits (s : string) : string :=
  match s with
  | String c s' => if is_num_char c then String c (take_digits s') else ""
  | "" => ""
  end.
(** [float(digits)]: the digits without the point, and the power of ten to divide
    them by; [None] where Python raises [ValueError]. *)
Definition float_digits (digits : string) : option (Z * Z) :=
  match split1 "." digits with
  | None => n ← py_int digits; Some (n, 1)
  | Some (a, b) =>
      if contains_char "." b then None
      else n ← py_int (a +:+ b); Some (n, 10 ^ Z.of_nat (String.length b))
  end.
Definition number_unit (text : string) : option (Z * Z * string) :=
  let digits := take_digits text in
  '(n, d) ← float_digits digits;
  Some (n, d, upper (strip (drop_str (String.length digits) text))).
(** A suffixed text in MB. *)
Definition text_mb (text : string) : Z :=
  match number_unit (strip text) with
  | None => 0
  | Some (n, d, unit) =>
      if String.eqb unit "" || String.eqb unit "B" then n / (d * MIB)
      else if String.eqb unit "K" then n / (d * 1024)
      else if String.eqb unit "M" then n / d
      else if String.eqb unit "G" then n * 1024 / d
      else if String.eqb unit "T" then n * MIB / d
      else n / d
  end.

(** ** NVML *)
Module Nvml.
Record t := mk {
  init : result unit; shutdown : result unit; device_count : result Z; driver_version : result string;
  handle : Z → result unit; name : Z → result string; memory : Z → result (Z * Z); utilization : Z → result Z;
  uuid : Z → result string }.
End Nvml.

Definition finally_ {A} (m : result A) (f : result unit) : result A :=
  match f with Ok _ => m | Raise e => Raise e end.

Definition nvidia_gpu (nvml : Nvml.t) (driver : string) (index : Z) : result GPUInfo.t :=
  _ ← Nvml.handle nvml index;
  name ← Nvml.name nvml index;
  memory ← Nvml.memory nvml index;
  utilization ← Nvml.utilization nvml index;
  uuid ← Nvml.uuid nvml index;
  Ok (GPUInfo.mk index "nvidia" name (memory.1 / MIB) (memory.2 / MIB) utilization uuid driver).
Definition detect_nvidia (nvml : Nvml.t) : result (list GPUInfo.t) :=
  _ ← Nvml.init nvml;
  finally_
    (count ← Nvml.device_count nvml;
     if count =? 0 then Raise (RuntimeError "no NVIDIA devices")
     else
       driver ← Nvml.driver_version nvml;
       foldR (λ gpus k, g ← nvidia_gpu nvml driver (Z.of_nat k); Ok (gpus ++ [g])) [] (seq 0 (Z.to_nat count)))
    (Nvml.shutdown nvml).

(** ** rocm-smi *)
Section gpu.
Context (py_repr : json → string) (float_int : string → result Z).

Definition str_json (v : json) : string :=
  match v with
  | JNull => "None"
  | JBool b => if b then "True" else "False"
  | JInt z => str_Z z
  | JStr s => s
  | _ => py_repr v
  end.
Definition _to_mb (value : json) : result Z :=
  match value with
  | JInt z => Ok (z / MIB)
  | JBool b => Ok ((if b then 1 else 0) / MIB)
  | JFloat s => n ← float_int s; Ok (n / MIB)
  | v => Ok (text_mb (str_json v))
  end.

(** [x.items()] and [x.get(k)] on a value that is not a dict raise. *)
Definition as_dict (v : json) : result (list (string * json)) :=
  match v with JObj kvs => Ok kvs | _ => Raise AttributeError end.
Definition first_truthy (l : list (option json)) : option json :=
  head (omap (λ o, match o with Some v => if json_truthy v then Some v else None | None => None end) l).
Definition card_index (card_key : string) : result Z :=
  match py_int (drop_str 4 card_key) with
  | Some n => Ok n
  | None => Raise (ValueError "invalid literal for int() with base 10")
  end.
Definition amd_gpu (index : Z) (info : list (string * json)) : result GPUInfo.t :=
  vram ← as_dict (match jget "VRAM" info with Some v => if json_truthy v then v else JObj [] | None => JObj [] end);
  total ← _to_mb (default (JInt 0) (jget "total memory" vram));
  used ← _to_mb (default (JInt 0) (jget "used memory" vram));
  Ok (GPUInfo.mk index "amd"
        (match first_truthy [jget "Product Name" info; jget "GPU ID" info] with
         | Some v => str_json v
         | None => "AMD GPU " +:+ str_Z index end)
        total used 0 (str_json (default (JStr "") (jget "Unique ID" info)))
        (str_json (default (JStr "unknown") (jget "Driver version" info)))).
Definition parse_card (gpus : list GPUInfo.t) (card : string * json) : result (list GPUInfo.t) :=
  if negb (startswith "card" card.1) then Ok gpus
  else
    index ← card_index card.1;
    info ← as_dict card.2;
    g ← amd_gpu index info;
    Ok (gpus ++ [g]).
Definition index_leb (a b : GPUInfo.t) : bool := GPUInfo.index a <=? GPUInfo.index b.
Definition parse_amd_json (raw : string) : result (list GPUInfo.t) :=
  match json_loads_str raw with
  | None => Raise (ValueError "Expecting value")
  | Some data =>
      cards ← as_dict data;
      gpus ← foldR parse_card [] cards;
      Ok (sorted_by index_leb gpus)
  end.
(** [rocm_smi]: the output of the command, or its failure. *)
Definition detect_amd (windows : bool) (rocm_smi : result string) : result (list GPUInfo.t) :=
  if windows then Raise (RuntimeError "rocm-smi is Linux-only")
  else
    stdout ← rocm_smi;
    gpus ← parse_amd_json stdout;
    match gpus with [] => Raise (RuntimeError "no AMD devices reported") | _ => Ok gpus end.

(** ** Mock and dispatch *)
Definition mock_gpu (tick index : Z) : GPUInfo.t :=
  GPUInfo.mk index "mock" ("Mock GPU " +:+ (if index =? 0 then "A" else "B")) MOCK_VRAM_MB
    ((tick * 3 + index * 5) mod (MOCK_VRAM_MB / 4) + 1024) ((tick * 17 + index * 23) mod 100)
    ("mock-gpu-" +:+ str_Z index) "mock-1.0".
Definition detect_mock (tick : Z) : list GPUInfo.t := map (mock_gpu tick) [0; 1].
Definition detect (nvml : Nvml.t) (windows : bool) (rocm_smi : result string) (mock : bool) (tick : Z) : list GPUInfo.t :=
  if mock then detect_mock tick
  else
    match detect_nvidia nvml with
    | Ok gpus => gpus
    | Raise _ => match detect_amd windows rocm_smi with Ok gpus => gpus | Raise _ => [] end
    end.
End gpu.

(** ** Memory values *)
Lemma take_digits_app s t :
  forall_str is_num_char s = true → take_digits t = "" → take_digits (s +:+ t) = s.
Proof.
  intros Hs Ht. induction s as [|c s IH]; [done|]. cbn in Hs |- *. apply andb_true_iff in Hs as [Hc Hs].
  change (String.append (String c s) t) with (String c (s +:+ t)). cbn. by rewrite Hc, IH.
Qed.
Lemma str_Z_num n : 0 <= n → forall_str is_num_char (str_Z n) = true.
Proof.
  intros Hn. destruct (str_Z_digits n Hn) as [H _]. revert H. apply forall_str_impl. intros c H. unfold is_num_char.
  by rewrite H.
Qed.
(** A number followed by a unit: the number and the unit are separated. *)
Lemma number_unit_app n unit :
  0 <= n → take_digits unit = "" → number_unit (str_Z n +:+ unit) = Some (n, 1, upper (strip unit)).
Proof.
  intros Hn Hu. unfold number_unit. rewrite (take_digits_app _ _ (str_Z_num n Hn) Hu). unfold float_digits.
  rewrite split1_None.
  2: { apply (forall_str_not_contains is_digit); first [done|by apply str_Z_digits]. }
  rewrite py_int_str_Z by done. cbn. by rewrite drop_str_app.
Qed.
Definition spaceless (s : string) : bool := forall_str (λ c, negb (is_space c)) s.
Lemma str_Z_spaceless n : 0 <= n → spaceless (str_Z n) = true.
Proof. intros Hn. destruct (str_Z_digits n Hn) as [H _]. revert H. apply forall_str_impl. apply digit_not_space. Qed.

(** A memory value printed with its unit is read back in MB: a number of
    bytes, kilobytes, megabytes, gigabytes or terabytes, without a unit or with the
    one-letter unit in either case. *)
Theorem text_mb_units n :
  0 <= n →
  let read unit := text_mb (str_Z n +:+ unit) in
  read "" = n / MIB ∧ read "B" = n / MIB ∧ read "K" = n / 1024 ∧ read "M" = n ∧ read "G" = n * 1024 ∧
  read "T" = n * MIB ∧ read "m" = n ∧ read "g" = n * 1024.
Proof.
  intros Hn read.
  assert (∀ unit, take_digits unit = "" → spaceless unit = true → read unit =
    let u := upper unit in
    if String.eqb u "" || String.eqb u "B" then n / (1 * MIB)
    else if String.eqb u "K" then n / (1 * 1024) else if String.eqb u "M" then n / 1
    else if String.eqb u "G" then n * 1024 / 1 else if String.eqb u "T" then n * MIB / 1 else n / 1) as H.
  { intros unit Hu Hs. unfold read, text_mb. rewrite strip_id.
    - rewrite (number_unit_app n unit Hn Hu). by rewrite (strip_id unit).
    - rewrite forall_str_app. apply andb_true_iff. split; [by apply str_Z_spaceless|done]. }
  rewrite !H by done. cbn. by rewrite !Z.div_1_r.
Qed.
Lemma text_mb_units_witness : 0 <= 16 ∧ text_mb (str_Z 16 +:+ "G") = 16384.
Proof. split; [lia|]. apply (text_mb_units 16). lia. Defined.

Lemma text_mb_examples :
  text_mb "16368M" = 16368 ∧ text_mb "16G" = 16384 ∧ text_mb "0" = 0 ∧ text_mb "garbage" = 0 ∧
  text_mb "17163091968 B" = 16368 ∧ text_mb "1.5G" = 1536.
Proof. by vm_compute. Qed.
(** A unit of more than one letter is not recognised: gigabytes read as megabytes. *)
Lemma gib_reads_as_mb : text_mb "16 GB" = 16 ∧ text_mb "16 GiB" = 16.
Proof. by vm_compute. Qed.

(** ** What detection reports *)
Section detected.
Context (py_repr : json → string) (float_int : string → result Z).
Lemma nvidia_gpus nvml gpus :
  detect_nvidia nvml = Ok gpus →
  (∀ g, g ∈ gpus → GPUInfo.vendor g = "nvidia") ∧ map GPUInfo.index gpus = map Z.of_nat (seq 0 (length gpus)).
Proof.
  unfold detect_nvidia. intros ([] & _ & H)%result_bind_Ok. unfold finally_ in H. destruct (Nvml.shutdown nvml); [|done].
  apply result_bind_Ok in H as (count & _ & H). destruct (Z.eqb_spec count 0) as [|Hc]; [done|].
  apply result_bind_Ok in H as (driver & _ & H).
  unshelve epose proof (foldR_inv (λ l gpus, (∀ g, g ∈ gpus → GPUInfo.vendor g = "nvidia") ∧
                                     map GPUInfo.index gpus = map Z.of_nat l) _ _ _ _ _ _ H) as P.
  { split; [by intros g ?%elem_of_nil|done]. }
  { intros l1 k b0 b1 _ (E2 & E3) (g & Hg & [= <-])%result_bind_Ok.
    assert (GPUInfo.vendor g = "nvidia" ∧ GPUInfo.index g = Z.of_nat k) as [Ev Ei].
    { unfold nvidia_gpu in Hg. repeat (apply result_bind_Ok in Hg as (? & _ & Hg)). by injection Hg as <-. }
    rewrite !map_app, E3. cbn. rewrite Ei. split; [|done].
    intros g' [?| ->%list_elem_of_singleton]%elem_of_app; [by apply E2|done]. }
  destruct P as [H1 H2]. split; [done|]. rewrite H2. f_equal. f_equal.
  apply (f_equal length) in H2. rewrite !length_map, length_seq in H2. lia.
Qed.
Lemma amd_gpus raw gpus :
  parse_amd_json py_repr float_int raw = Ok gpus →
  (∀ g, g ∈ gpus → GPUInfo.vendor g = "amd") ∧ StronglySorted index_leb gpus.
Proof.
  unfold parse_amd_json. destruct (json_loads_str raw); [|done].
  intros (cards & _ & (l & H & [= <-])%result_bind_Ok)%result_bind_Ok. split.
  - setoid_rewrite sorted_by_elem. revert H.
    apply (foldR_inv (λ _ l, ∀ g, g ∈ l → GPUInfo.vendor g = "amd")); [by intros g ?%elem_of_nil|].
    intros _ [k v] b0 b1 _ IH H. unfold parse_card in H. destruct (negb _); [by injection H as <-|].
    apply result_bind_Ok in H as (index & _ & H). apply result_bind_Ok in H as (info & _ & H).
    apply result_bind_Ok in H as (g & Hg & [= <-]).
    intros g' [?| ->%list_elem_of_singleton]%elem_of_app; [by apply IH|].
    unfold amd_gpu in Hg. repeat (apply result_bind_Ok in Hg as (? & _ & Hg)). by injection Hg as <-.
  - apply sorted_by_sorted; unfold index_leb; intros *; rewrite ?Z.leb_le, ?Z.leb_gt; lia.
Qed.
Lemma mock_gpus_ok tick g :
  g ∈ detect_mock tick →
  GPUInfo.vendor g = "mock" ∧ 1024 <= GPUInfo.used_vram_mb g <= GPUInfo.vram_mb g ∧ 0 <= GPUInfo.utilization_pct g < 100.
Proof.
  assert (∀ i, GPUInfo.vendor (mock_gpu tick i) = "mock" ∧
    1024 <= GPUInfo.used_vram_mb (mock_gpu tick i) <= GPUInfo.vram_mb (mock_gpu tick i) ∧
    0 <= GPUInfo.utilization_pct (mock_gpu tick i) < 100) as H.
  { intros i. cbn. change (MOCK_VRAM_MB / 4) with 6144. unfold MOCK_VRAM_MB.
    pose proof (Z.mod_pos_bound (tick * 3 + i * 5) 6144 eq_refl). pose proof (Z.mod_pos_bound (tick * 17 + i * 23) 100 eq_refl).
    split_and!; (done || lia). }
  intros [->|[->|[]%elem_of_nil]%elem_of_cons]%elem_of_cons; apply H.
Qed.

End detected.
