(* ===== verification/Agent.v ===== *)
(** * The worker agent ([worker/inferna_worker/main.py])

    Registration with exponential backoff, then the loop: detect, report, sync,
    reconcile, sleep.  The server is a function from a request to its answer; an
    asynchronous sleep is the number of seconds slept.  [psutil] and [platform]
    are the system information the loop is given. *)

From S2P Require Import Prelude PyStr Json Proto Engine Manager Gpu.
Local Open Scope Z_scope.

Definition VERSION : string := "0.2.0".
Definition PROTOCOL_VERSION : Z := 1.
Definition DEFAULT_SYNC_INTERVAL_SECONDS : Z := 5.
Definition MAX_BACKOFF_SECONDS : Z := 60.

Definition system_info (s : WSettings.t) (cpu_count total_memory : Z) (system : string) : SystemInfo.t :=
  SystemInfo.mk cpu_count (total_memory / (1024 * 1024)) (lower system) (WSettings.worker_hostname s).

(** ** Registration *)
Definition register_request (s : WSettings.t) : RegisterRequest.t :=
  RegisterRequest.mk (WSettings.registration_token s) (WSettings.worker_hostname s) (WSettings.worker_name s)
    (WSettings.cluster_name s) VERSION PROTOCOL_VERSION (WSettings.worker_address s).
(** The channel to the server: plaintext unless a CA file is set. *)
Inductive channel := InsecureChannel (url : string) | SecureChannel (url pem : string) (target_name : option string).
Definition _channel_for (s : WSettings.t) (read_file : string → result string) : result channel :=
  if String.eqb (WSettings.server_tls_ca s) "" then Ok (InsecureChannel (WSettings.server_url s))
  else
    pem ← read_file (WSettings.server_tls_ca s);
    Ok (SecureChannel (WSettings.server_url s) pem
          (if String.eqb (WSettings.server_tls_authority s) "" then None else Some (WSettings.server_tls_authority s))).
Definition gpu_infos (gpus : list GPUInfo.t) : list GPUInfo.t :=
  map (λ gpu, GPUInfo.mk (GPUInfo.index gpu) (GPUInfo.vendor gpu) (GPUInfo.name gpu) (GPUInfo.vram_mb gpu)
                (GPUInfo.used_vram_mb gpu) (GPUInfo.utilization_pct gpu) (GPUInfo.gpu_uuid gpu) (GPUInfo.driver_version gpu)) gpus.
Definition next_backoff (backoff : Z) : Z := Z.min (backoff * 2) MAX_BACKOFF_SECONDS.

Module Registered.
Record t := mk { worker_id : string; worker_token : string; sync_interval : Z }.
End Registered.
Inductive registration := IsRegistered (r : Registered.t) | SystemExit | Crashed (e : exn) | StillTrying (backoff : Z).

Definition registered (r : RegisterResponse.t) : Registered.t :=
  Registered.mk (RegisterResponse.worker_id r) (RegisterResponse.worker_token r)
    (if RegisterResponse.sync_interval_seconds r =? 0 then DEFAULT_SYNC_INTERVAL_SECONDS
     else RegisterResponse.sync_interval_seconds r).
(** [answers]: what the server answers to each attempt; the seconds slept between
    them, and where the loop is after them. *)
Fixpoint register_loop (backoff : Z) (answers : list (result RegisterResponse.t)) : list Z * registration :=
  match answers with
  | [] => ([], StillTrying backoff)
  | Ok response :: _ => ([], IsRegistered (registered response))
  | Raise (AioRpcError FAILED_PRECONDITION _) :: _ => ([], SystemExit)
  | Raise (AioRpcError _ _) :: answers =>
      let '(slept, r) := register_loop (next_backoff backoff) answers in (backoff :: slept, r)
  | Raise e :: _ => ([], Crashed e)
  end.

(** ** The sync loop *)
Module Agent.
Record t (W : Type) := mk { tick : Z; backoff : Z; manager : Manager.t W }.
Arguments mk {W}. Arguments tick {W}. Arguments backoff {W}. Arguments manager {W}.
End Agent.

Section agent.
Context {W : Type} (s : WSettings.t) (dk : Docker.t W) (reg : Registered.t).

(** The request: the report of the instances is taken last. *)
Definition sync_request (now : Z) (during : nat → Manager.t W → Manager.t W) (system : SystemInfo.t)
    (gpus : list GPUInfo.t) : M (Manager.t W) SyncRequest.t :=
  instances ← statuses s dk now during;
  mret (SyncRequest.mk (Registered.worker_id reg) (Registered.worker_token reg) system gpus instances).

(** How an iteration of the loop ended: after a sleep, or with a cancellation. *)
Inductive iteration := Slept (seconds : Z) | Stopped.

(** The end of an iteration: an RPC error backs off and keeps the tick; any other
    exception is logged. *)
Definition after (r : result unit) (tick backoff : Z) : iteration * Z * Z :=
  match r with
  | Ok _ => (Slept (Registered.sync_interval reg), tick + 1, 5)
  | Raise (AioRpcError _ _) => (Slept backoff, tick, next_backoff backoff)
  | Raise CancelledError => (Stopped, tick, backoff)
  | Raise _ => (Slept (Registered.sync_interval reg), tick + 1, backoff)
  end.
(** [sync]: the server's answer; [now1], [now2]: the clock at the report and at the
    reconciliation. *)
Definition sync_iteration (now1 now2 : Z) (during : nat → Manager.t W → Manager.t W) (system : SystemInfo.t)
    (gpus : Z → list GPUInfo.t) (sync : SyncRequest.t → result (list InstanceCommand.t)) (a : Agent.t W)
    : iteration * Agent.t W :=
  let '(r, m) := (request ← sync_request now1 during system (gpus (Agent.tick a));
                  commands ← lift_result (sync request);
                  _ ← reconcile s dk now2 during commands;
                  mret tt) (Agent.manager a) in
  let '(it, tick, backoff) := after r (Agent.tick a) (Agent.backoff a) in
  (it, Agent.mk tick backoff m).
Definition agent_start (m : Manager.t W) : Agent.t W := Agent.mk 0 5 m.
End agent.

(** ** The process: adopt, register, loop, and shut down at a signal *)
Module Round.
(** What one iteration of the loop meets: the clock, the commands applied while it
    awaits, the machine, the GPU libraries and the server. *)
Record t (W : Type) := mk {
  report_clock : Z; reconcile_clock : Z; during : nat → Manager.t W → Manager.t W; system : SystemInfo.t;
  nvml : Nvml.t; windows : bool; rocm_smi : result string; sync : SyncRequest.t → result (list InstanceCommand.t) }.
Arguments mk {W}. Arguments report_clock {W}. Arguments reconcile_clock {W}. Arguments during {W}.
Arguments system {W}. Arguments nvml {W}. Arguments windows {W}. Arguments rocm_smi {W}. Arguments sync {W}.
End Round.

Section process.
Context {W : Type} (s : WSettings.t) (dk : Docker.t W) (py_repr : json → string) (float_int : string → result Z).

Definition one_round (reg : Registered.t) (r : Round.t W) (a : Agent.t W) : iteration * Agent.t W :=
  sync_iteration s dk reg (Round.report_clock r) (Round.reconcile_clock r) (Round.during r) (Round.system r)
    (λ tick, gpu_infos (detect py_repr float_int (Round.nvml r) (Round.windows r) (Round.rocm_smi r)
                          (WSettings.mock_engine s) tick)) (Round.sync r) a.
(** The loop until it is cancelled: by the end of [rounds] at the latest. *)
Fixpoint sync_loop (reg : Registered.t) (rounds : list (Round.t W)) (a : Agent.t W) : list Z * Agent.t W :=
  match rounds with
  | [] => ([], a)
  | r :: rounds =>
      match one_round reg r a with
      | (Slept seconds, a') => let '(slept, a'') := sync_loop reg rounds a' in (seconds :: slept, a'')
      | (Stopped, a') => ([], a')
      end
  end.
(** How the task of the loop ended. *)
Inductive loop_end := LoopCancelled | LoopExit | LoopRaised (e : exn).
Definition run_loop (read_file : string → result string) (answers : list (result RegisterResponse.t))
    (rounds : list (Round.t W)) (m : Manager.t W) : loop_end * Manager.t W :=
  match _channel_for s read_file with
  | Raise e => (LoopRaised e, m)
  | Ok _ =>
      match (register_loop 5 answers).2 with
      | IsRegistered reg => (LoopCancelled, Agent.manager (sync_loop reg rounds (agent_start m)).2)
      | StillTrying _ => (LoopCancelled, m)
      | SystemExit => (LoopExit, m)
      | Crashed e => (LoopRaised e, m)
      end
  end.
(** After the signal: the task is cancelled and awaited, then the manager shut
    down.  A [SystemExit] of the task ends the process at once; another exception is
    raised again by the [await]. *)
Inductive process_end := WorkerStopped | ProcessExit (code : Z) | MainRaised (e : exn).
Definition worker_main (now : Z) (read_file : string → result string) (answers : list (result RegisterResponse.t))
    (rounds : list (Round.t W)) (m : Manager.t W) : process_end * Manager.t W :=
  match adopt_existing s dk now m with
  | (Raise e, m) => (MainRaised e, m)
  | (Ok _, m) =>
      match run_loop read_file answers rounds m with
      | (LoopCancelled, m) =>
          match shutdown m with (Ok _, m) => (WorkerStopped, m) | (Raise e, m) => (MainRaised e, m) end
      | (LoopExit, m) => (ProcessExit 1, m)
      | (LoopRaised e, m) => (MainRaised e, m)
      end
  end.
End process.

(** ** Backoff *)
Definition backoff_ok (b : Z) : Prop := 5 <= b <= MAX_BACKOFF_SECONDS.
Lemma next_backoff_ok b : backoff_ok b → backoff_ok (next_backoff b).
Proof. unfold backoff_ok, next_backoff, MAX_BACKOFF_SECONDS. lia. Qed.
(** The [k]-th delay after a delay of [b]. *)
Definition delay (b : Z) (k : nat) : Z := Z.min (b * 2 ^ Z.of_nat k) MAX_BACKOFF_SECONDS.
Lemma delay_S b k : 0 <= b → delay (next_backoff b) k = delay b (S k).
Proof.
  intros Hb. unfold delay, next_backoff, MAX_BACKOFF_SECONDS. rewrite Nat2Z.inj_succ, Z.pow_succ_r by lia.
  pose proof (Z.pow_pos_nonneg 2 (Z.of_nat k) ltac:(lia) ltac:(lia)). nia.
Qed.

Definition retried (r : result RegisterResponse.t) : bool :=
  match r with Raise (AioRpcError FAILED_PRECONDITION _) => false | Raise (AioRpcError _ _) => true | _ => false end.

(** Registration: as long as the answers are RPC errors other than a refusal, the
    worker tries again, waiting 5, 10, 20, 40 and then 60 seconds each time; the
    first other answer decides: a response registers it with an interval that is
    never zero, a refusal ([FAILED_PRECONDITION]) makes it exit. *)
Theorem register_backoff retries answer rest :
  Forall (λ r, retried r = true) retries → retried answer = false →
  register_loop 5 (retries ++ answer :: rest) =
  (map (delay 5) (seq 0 (length retries)),
   match answer with
   | Ok response => IsRegistered (registered response)
   | Raise (AioRpcError _ _) => SystemExit
   | Raise e => Crashed e
   end) ∧
  ∀ response, Registered.sync_interval (registered response) ≠ 0.
Proof.
  intros Hr Ha. split.
  2: { intros response. unfold registered. cbn. destruct (Z.eqb_spec (RegisterResponse.sync_interval_seconds response) 0); done. }
  assert (∀ b, 0 <= b <= MAX_BACKOFF_SECONDS → register_loop b (retries ++ answer :: rest) =
    (map (delay b) (seq 0 (length retries)),
     match answer with
     | Ok response => IsRegistered (registered response)
     | Raise (AioRpcError _ _) => SystemExit
     | Raise e => Crashed e
     end)) as H; [|apply H; done].
  induction Hr as [|r retries Hr _ IH]; intros b Hb.
  - cbn. destruct answer as [|[]]; try done. by destruct code.
  - cbn [app register_loop length seq map].
    assert (0 <= next_backoff b <= MAX_BACKOFF_SECONDS) as Hn by (unfold next_backoff, MAX_BACKOFF_SECONDS in *; lia).
    assert (delay b 0 = b) as E0 by (unfold delay, MAX_BACKOFF_SECONDS in *; lia).
    rewrite E0, <-seq_shift, map_map. rewrite <-(map_ext _ _ (λ k, delay_S b k (proj1 Hb))).
    destruct r as [|[]]; try done. destruct code; try done; cbn; by rewrite (IH _ Hn).
Qed.
Lemma register_backoff_witness :
  register_loop 5 [Raise (AioRpcError INTERNAL ""); Raise (AioRpcError NOT_FOUND "");
                   Ok (RegisterResponse.mk "w" "t" 0)] =
  ([5; 10], IsRegistered (Registered.mk "w" "t" 5)).
Proof.
  destruct (register_backoff [Raise (AioRpcError INTERNAL ""); Raise (AioRpcError NOT_FOUND "")]
              (Ok (RegisterResponse.mk "w" "t" 0)) []) as [H _].
  - repeat constructor.
  - reflexivity.
  - exact H.
Defined.

(** ** The process *)
Section main.
Context {W : Type} (s : WSettings.t) (dk : Docker.t W) (py_repr : json → string) (float_int : string → result Z).

(** A failure outside the calls that are retried, such as a CA file that cannot be
    read, ends the loop's task with the exception: nothing awaits it before the
    signal, and then the manager is not shut down. *)
Lemma crashed_loop_skips_shutdown now read_file e answers rounds (m : Manager.t W) :
  WSettings.mock_engine s = true → _channel_for s read_file = Raise e →
  worker_main s dk py_repr float_int now read_file answers rounds m = (MainRaised e, m).
Proof. intros Hm He. unfold worker_main, adopt_existing, run_loop. by rewrite Hm, He. Qed.

Lemma sync_iteration_backoff reg r (a : Agent.t W) it a' :
  backoff_ok (Agent.backoff a) → one_round s dk py_repr float_int reg r a = (it, a') →
  backoff_ok (Agent.backoff a') ∧
  ∀ z, it = Slept z → z = Registered.sync_interval reg ∨ backoff_ok z.
Proof.
  unfold one_round, sync_iteration. intros Hb.
  lazymatch goal with |- context [?f (Agent.manager a)] => destruct (f (Agent.manager a)) as [res m] end.
  destruct res as [|[]]; cbn; intros [= <- <-]; cbn; (split; [first [done|by apply next_backoff_ok|unfold backoff_ok, MAX_BACKOFF_SECONDS; lia]|]);
    intros z [= <-]; auto.
Qed.
(** Whatever the server answers, the loop never spins: every pause is the interval
    the server set or a backoff between 5 and 60 seconds. *)
Lemma sync_loop_pauses reg rounds (a : Agent.t W) :
  backoff_ok (Agent.backoff a) →
  Forall (λ z, z = Registered.sync_interval reg ∨ backoff_ok z) (sync_loop s dk py_repr float_int reg rounds a).1.
Proof.
  revert a. induction rounds as [|r rounds IH]; intros a Hb; [constructor|]. cbn [sync_loop].
  destruct (one_round _ _ _ _ _ _ _) as [it a'] eqn:E. apply sync_iteration_backoff in E as [Hb' Hz]; [|done].
  destruct it as [z|]; [|constructor]. specialize (IH a' Hb'). destruct (sync_loop _ _ _ _ _ _ _) as [sl a''].
  cbn in *. constructor; [by apply Hz|done].
Qed.
Lemma gpu_infos_id gpus : gpu_infos gpus = gpus.
Proof. unfold gpu_infos. rewrite <-(map_id gpus) at 2. apply map_ext. by intros []. Qed.
End main.
