(* ===== verification/ControlLoop.v ===== *)
(** * The control loop: server and worker together

    One round of the loop is the worker's report, the server's synchronisation
    ([WorkersSvc]) and the worker's reconciliation ([Manager], in mock mode, where
    commands take effect at once).  After a round the two sides agree: the next
    report leaves the server nothing to command. *)

From S2P Require Import Prelude PyStr Uuid Models Config Proto WorkersSvc Engine Manager Agent.
Local Open Scope Z_scope.

(** ** Mock mode *)
Section mock.
Context {W : Type} (s : WSettings.t) (dk : Docker.t W) (Hmock : WSettings.mock_engine s = true).

(** The entry after a report at [now]. *)
Definition mock_refresh (now : Z) (i : Info.t) : Info.t :=
  let i' := promote now i in Info.set_log_tail (_mock_log_tail (Info.state i') i') i'.
Definition refresh_entry (now : Z) (e : string * Info.t) : string * Info.t := (e.1, mock_refresh now e.2).
Definition refreshed_all (now : Z) (m : Manager.t W) : Manager.t W :=
  Manager.set_instances (map (refresh_entry now) (Manager.instances m)) m.
Definition mock_status (now : Z) (e : string * Info.t) : InstanceStatus.t := status_of e.1 (mock_refresh now e.2).
Definition mock_report (now : Z) (m : Manager.t W) : list InstanceStatus.t := map (mock_status now) (Manager.instances m).

Lemma mock_report_loop now during size fuel acc pre suf m :
  NoDup (pre ++ suf).*1 → Manager.instances m = pre ++ suf → size = length (pre ++ suf) →
  (length suf < fuel)%nat →
  report_loop s dk now during size fuel (length pre) acc m =
  (Ok (acc ++ map (mock_status now) suf), Manager.set_instances (pre ++ map (refresh_entry now) suf) m).
Proof.
  revert fuel acc pre m. induction suf as [|[id i] suf IH]; intros fuel acc pre m Hn Hm Hs Hf.
  - destruct fuel as [|fuel]; [cbn in Hf; lia|]. cbn [report_loop]. rewrite (M_bind_step _ _ m (Manager.instances m) m) by done.
    rewrite Hm, Hs, Nat.eqb_refl. cbn [negb]. rewrite app_nil_r in *. rewrite lookup_ge_None_2 by lia.
    cbn [map]. rewrite !app_nil_r, <-Hm. by destruct m.
  - destruct fuel as [|fuel]; [cbn in Hf; lia|]. cbn [report_loop]. rewrite (M_bind_step _ _ m (Manager.instances m) m) by done.
    rewrite Hm, Hs, Nat.eqb_refl. cbn [negb]. rewrite list_lookup_middle by done.
    rewrite (M_bind_step _ _ m (mock_refresh now i) m) by (unfold refresh_info; by rewrite Hmock).
    assert (id ∉ pre.*1) as Hid.
    { rewrite fmap_app in Hn. apply NoDup_app in Hn as (_ & Hn & _). intros H. apply (Hn id H). by left. }
    set (m1 := Manager.set_instances ((pre ++ [(id, mock_refresh now i)]) ++ suf) m).
    rewrite (M_bind_step _ _ m tt m1).
    2: { unfold amend, modify. rewrite Hm, dict_get_mid, bool_decide_eq_true_2 by done. rewrite dict_set_mid by done.
         unfold m1. by rewrite <-app_assoc. }
    replace (S (length pre)) with (length (pre ++ [(id, mock_refresh now i)])) by (rewrite length_app; cbn; lia).
    rewrite <-Hs, (IH fuel _ (pre ++ [(id, mock_refresh now i)]) m1).
    + unfold m1. rewrite <-!app_assoc. by destruct m.
    + revert Hn. rewrite <-app_assoc, !fmap_app. done.
    + done.
    + rewrite Hs, !length_app. cbn. lia.
    + cbn in Hf. lia.
Qed.
Lemma mock_statuses now during m :
  NoDup (Manager.instances m).*1 →
  statuses s dk now during m = (Ok (mock_report now m), refreshed_all now m).
Proof.
  intros Hn. unfold statuses. rewrite (M_bind_step _ _ m (Manager.instances m) m) by done.
  by rewrite (mock_report_loop now during _ _ [] [] (Manager.instances m) m) by (done || lia).
Qed.

(** What a report shows of an entry, up to the promotion of a start. *)
Lemma mock_refresh_generation now i : Info.generation (mock_refresh now i) = Info.generation i.
Proof. unfold mock_refresh, promote. by destruct (_ && _). Qed.
Definition promoted (a b : string) : Prop := b = a ∨ a = "starting" ∧ b = "running".
Lemma mock_refresh_state now i : promoted (Info.state i) (Info.state (mock_refresh now i)).
Proof.
  unfold promoted, mock_refresh, promote. cbn zeta.
  destruct (String.eqb_spec (Info.state i) "starting") as [E|E]; cbn [andb].
  - destruct (_ <=? _); cbn; [by right|by left].
  - cbn. by left.
Qed.

(** *** Commands *)
Definition mock_effect (now : Z) (c : InstanceCommand.t) (o : option Info.t) : option Info.t :=
  if String.eqb (InstanceCommand.action c) "start" then
    Some (new_info (if needs_token s (config_of c) then "error" else "starting")
            (if needs_token s (config_of c) then "model requires HF token" else "") now
            (MultiNodeSpec.node_rank <$> _spec_of c) c)
  else if String.eqb (InstanceCommand.action c) "stop" then stop_info <$> o
  else if String.eqb (InstanceCommand.action c) "delete" then None
  else o.
Lemma mock_command_get now c (m : Manager.t W) :
  ∃ m', mock_command s now c m = (Ok tt, m') ∧ get_info m' (InstanceCommand.instance_id c) =
          mock_effect now c (get_info m (InstanceCommand.instance_id c)) ∧
        (∀ j, j ≠ InstanceCommand.instance_id c → get_info m' j = get_info m j) ∧
        (NoDup (Manager.instances m).*1 → NoDup (Manager.instances m').*1).
Proof.
  unfold mock_command, mock_effect, get_info.
  destruct (String.eqb _ "start").
  { unfold _start_mock, track, modify. destruct (needs_token s (config_of c)); (eexists; split; [done|]);
      cbn [Manager.instances Manager.set_instances]; (split; [by rewrite dict_get_set, decide_True|]);
      (split; [|apply dict_set_NoDup]); intros j Hj; by rewrite dict_get_set, decide_False. }
  destruct (String.eqb _ "stop").
  { unfold amend, modify. destruct (dict_get (InstanceCommand.instance_id c) (Manager.instances m)) as [i|] eqn:E.
    - eexists. split; [done|]. cbn [Manager.instances Manager.set_instances].
      split; [by rewrite dict_get_set, decide_True|]. split; [|apply dict_set_NoDup].
      intros j Hj. by rewrite dict_get_set, decide_False.
    - eexists. split; [done|]. by rewrite E. }
  destruct (String.eqb _ "delete").
  { eexists. split; [done|]. cbn [Manager.instances Manager.set_instances].
    split; [by rewrite dict_get_del, decide_True|]. split; [|apply dict_del_NoDup].
    intros j Hj. by rewrite dict_get_del, decide_False. }
  by eexists.
Qed.
Lemma mock_effect_idem now c o : mock_effect now c (mock_effect now c o) = mock_effect now c o.
Proof.
  unfold mock_effect. destruct (String.eqb (InstanceCommand.action c) "start"); [done|].
  destruct (String.eqb (InstanceCommand.action c) "stop"); [by destruct o|].
  by destruct (String.eqb (InstanceCommand.action c) "delete").
Qed.

Definition run_mock (now : Z) (cmds : list InstanceCommand.t) : M (Manager.t W) unit :=
  foldM (λ _ c, mock_command s now c) tt cmds.
(** After a batch, an instance that one command names, however often, is as that
    command leaves it; one that no command names is as it was. *)
Lemma run_mock_get now cmds (m : Manager.t W) :
  ∃ m', run_mock now cmds m = (Ok tt, m') ∧ (NoDup (Manager.instances m).*1 → NoDup (Manager.instances m').*1) ∧
    (∀ id, (∀ c, c ∈ cmds → InstanceCommand.instance_id c ≠ id) → get_info m' id = get_info m id) ∧
    (∀ id c, c ∈ cmds → InstanceCommand.instance_id c = id →
       (∀ c', c' ∈ cmds → InstanceCommand.instance_id c' = id → c' = c) →
       get_info m' id = mock_effect now c (get_info m id)).
Proof.
  revert m. induction cmds as [|c cmds IH]; intros m.
  - exists m. split_and!; [done|done|done|]. by intros id c ?%elem_of_nil.
  - destruct (mock_command_get now c m) as (m1 & E1 & Hc & Ho & Hn1). destruct (IH m1) as (m' & E & Hn & Hno & Hone).
    exists m'. unfold run_mock in *. cbn [foldM]. rewrite (M_bind_step _ _ _ _ _ E1). split_and!; [done|auto| |].
    + intros id Hid. rewrite Hno by (intros c' Hc'; apply Hid; by right). apply Ho. intros E'. by apply (Hid c); [left|].
    + intros id c0 Hc0 Hid Huniq. subst id.
      destruct (decide (Exists (λ c', InstanceCommand.instance_id c' = InstanceCommand.instance_id c0) cmds)) as [Hex|Hex].
      * apply Exists_exists in Hex as (c' & Hc' & E'). pose proof (Huniq c' (list_elem_of_further _ _ _ Hc') E') as ->.
        rewrite (Hone _ c0 Hc' eq_refl) by (intros c' ? ?; apply Huniq; [by right|done]).
        destruct (decide (InstanceCommand.instance_id c = InstanceCommand.instance_id c0)) as [Ec|Ec].
        -- pose proof (Huniq c (list_elem_of_here _ _) Ec) as ->. by rewrite Hc, mock_effect_idem.
        -- by rewrite Ho by congruence.
      * rewrite Hno by (intros c' Hc' E'; apply Hex, Exists_exists; eauto).
        apply elem_of_cons in Hc0 as [->|Hc0]; [done|]. destruct Hex. apply Exists_exists. eauto.
Qed.

(** *** Reports *)
Lemma refreshed_get now (m : Manager.t W) id : get_info (refreshed_all now m) id = mock_refresh now <$> get_info m id.
Proof.
  unfold get_info. cbn. induction (Manager.instances m) as [|[k i] l IH]; [done|]. cbn. by case_decide.
Qed.
Lemma refreshed_NoDup now (m : Manager.t W) :
  NoDup (Manager.instances m).*1 → NoDup (Manager.instances (refreshed_all now m)).*1.
Proof.
  cbn. enough ((map (refresh_entry now) (Manager.instances m)).*1 = (Manager.instances m).*1) as -> by done.
  induction (Manager.instances m) as [|e l IH]; [done|]. cbn. by rewrite IH.
Qed.
Lemma report_elem now (m : Manager.t W) st :
  NoDup (Manager.instances m).*1 → st ∈ mock_report now m ↔
  ∃ i, get_info m (InstanceStatus.instance_id st) = Some i ∧ st = status_of (InstanceStatus.instance_id st) (mock_refresh now i).
Proof.
  intros Hn. unfold mock_report, mock_status. rewrite list_elem_of_fmap. split.
  - intros ([id i] & -> & Hi). exists i. split; [by apply dict_get_elem|done].
  - intros (i & Hi & ->). exists (InstanceStatus.instance_id st, i). split; [done|]. by apply dict_get_Some_elem.
Qed.
(** The status the server finds for an id is the one of the entry tracked. *)
Lemma reported_mock now (m : Manager.t W) id :
  NoDup (Manager.instances m).*1 →
  reported (mock_report now m) id = (λ i, status_of id (mock_refresh now i)) <$> get_info m id.
Proof.
  intros Hn. unfold reported. destruct (find_by _ _) as [st|] eqn:E.
  - apply find_by_Some in E as [Hst Hid%String.eqb_eq]. rewrite list_elem_of_In, <-in_rev, <-list_elem_of_In in Hst.
    apply report_elem in Hst as (i & Hi & Hs); [|done]. rewrite Hid in Hi, Hs. by rewrite Hi, Hs.
  - destruct (get_info m id) as [i|] eqn:Ei; [|done]. exfalso.
    pose proof (proj1 (find_by_None _ _) E (status_of id (mock_refresh now i))) as H. cbn in H.
    rewrite String.eqb_refl in H. discriminate H. rewrite list_elem_of_In, <-in_rev, <-list_elem_of_In.
    apply report_elem; [done|]. by exists i.
Qed.
End mock.

(** ** The server's side *)
Lemma foldR_each {A B} (f : B → A → result B) l b b' x :
  foldR f b l = Ok b' → x ∈ l → ∃ b0 b1, f b0 x = Ok b1.
Proof.
  revert b. induction l as [|y l IH]; intros b H Hx; [by apply elem_of_nil in Hx|].
  cbn [foldR] in H. apply result_bind_Ok in H as (b1 & H1 & H). apply elem_of_cons in Hx as [->|Hx]; eauto.
Qed.
Lemma build_commands_total wid statuses d cmds i :
  build_commands wid statuses d = Ok cmds → i ∈ Db.instances d → ModelInstance.worker_id i = Some wid →
  ∃ o, command_for d statuses i = Ok o.
Proof.
  unfold build_commands. intros H Hi Hw.
  destruct (foldR_each _ _ _ _ i H) as (b0 & b1 & (o & Ho & _)%result_bind_Ok).
  - apply elem_of_where. by rewrite uuid_eqb_true.
  - eauto.
Qed.
Lemma build_commands_none wid statuses d :
  (∀ i, i ∈ Db.instances d → ModelInstance.worker_id i = Some wid → command_for d statuses i = Ok None) →
  build_commands wid statuses d = Ok [].
Proof.
  intros H. unfold build_commands. set (rows := where_ _ _).
  assert (∀ i, i ∈ rows → command_for d statuses i = Ok None) as Hr.
  { intros i [Hi Hw%uuid_eqb_true]%elem_of_where. by apply H. }
  clearbody rows. induction rows as [|i rows IH]; [done|]. cbn [foldR]. rewrite (Hr i) by by left.
  apply IH. intros j Hj. apply Hr. by right.
Qed.
(** An instance the report satisfies. *)
Definition satisfied (i : ModelInstance.t) (rep : option InstanceStatus.t) : Prop :=
  (ModelInstance.desired_state i = "running" → needs_start i rep = false) ∧
  (ModelInstance.desired_state i = "stopped" → needs_stop rep = false).
Lemma satisfied_no_command d statuses i :
  satisfied i (reported statuses (str_uuid (ModelInstance.id i))) → command_for d statuses i = Ok None.
Proof.
  intros [H1 H2]. unfold command_for. destruct (String.eqb_spec (ModelInstance.desired_state i) "running") as [E|E].
  { by rewrite H1. }
  destruct (String.eqb_spec (ModelInstance.desired_state i) "stopped") as [E2|E2]; [by rewrite H2|done].
Qed.

(** ** One round *)

(** The entry tracked for [i] leaves nothing to command. *)
Definition calm (i : ModelInstance.t) (o : option Info.t) : Prop := satisfied i (status_of "" <$> o).
Lemma needs_start_info i t x :
  needs_start i (Some (status_of t x)) = (Info.generation x <? ModelInstance.generation i) || String.eqb (Info.state x) "stopped".
Proof. done. Qed.
Lemma needs_stop_info t x :
  needs_stop (Some (status_of t x)) = String.eqb (Info.state x) "starting" || String.eqb (Info.state x) "running".
Proof. unfold needs_stop, one_of. cbn. by rewrite orb_false_r. Qed.
Lemma calm_reported i t o : calm i o ↔ satisfied i (status_of t <$> o).
Proof. unfold calm, satisfied. destruct o as [x|]; [|done]. cbn [fmap option_fmap option_map]. by rewrite !needs_start_info, !needs_stop_info. Qed.
Lemma calm_refresh i now o : calm i o → calm i (mock_refresh now <$> o).
Proof.
  unfold calm, satisfied. destruct o as [x|]; [|done]. cbn [fmap option_fmap option_map].
  rewrite !needs_start_info, !needs_stop_info, mock_refresh_generation.
  assert (promoted (Info.state x) (Info.state (mock_refresh now x))) as H by apply mock_refresh_state.
  intros [H1 H2]. split.
  - intros Hd. specialize (H1 Hd). apply orb_false_iff in H1 as [-> H1]. destruct H as [->|[_ ->]]; [done|done].
  - intros Hd. specialize (H2 Hd). destruct H as [->|[E _]]; [done|]. by rewrite E in H2.
Qed.

Section round.
Context {W : Type} (s : WSettings.t) (wid : uuid) (t1 t2 : Z) (m m2 : Manager.t W) (d1 : Db.t).
Context (cmds0 deletes : list InstanceCommand.t).
Notation st1 := (mock_report t1 m).
Definition ours (t : string) (i : ModelInstance.t) : Prop :=
  i ∈ Db.instances d1 ∧ ModelInstance.worker_id i = Some wid ∧ str_uuid (ModelInstance.id i) = t.
Context (Hkeys : NoDup (Manager.instances m).*1) (Hd1 : constraints_ok d1 = true) (Hwide : wide d1).
Context (Hbuild : build_commands wid st1 d1 = Ok cmds0).
Context (Hdel : ∀ c, c ∈ deletes ↔ ∃ st, st ∈ st1 ∧ c = delete_command st ∧ ¬ ∃ i, ours (InstanceStatus.instance_id st) i).
Context (Hnone : ∀ id, (∀ c, c ∈ cmds0 ++ deletes → InstanceCommand.instance_id c ≠ id) →
                   get_info m2 id = get_info (refreshed_all t1 m) id).
Context (Hone : ∀ id c, c ∈ cmds0 ++ deletes → InstanceCommand.instance_id c = id →
                  (∀ c', c' ∈ cmds0 ++ deletes → InstanceCommand.instance_id c' = id → c' = c) →
                  get_info m2 id = mock_effect s t2 c (get_info (refreshed_all t1 m) id)).

Lemma ours_unique t i j : ours t i → ours t j → i = j.
Proof.
  intros (Hi & _ & <-) (Hj & _ & E). apply (NoDup_map_inj_key ModelInstance.id (Db.instances d1)); [|done|done|].
  - by apply constraints_instance_ids.
  - assert (Some (ModelInstance.id i) = Some (ModelInstance.id j)) as [=]; [|done].
    rewrite <-(uuid_round_trip_holds _ (Hwide i Hi)), <-(uuid_round_trip_holds _ (Hwide j Hj)). by rewrite E.
Qed.
Lemma command_id d statuses i c :
  command_for d statuses i = Ok (Some c) → InstanceCommand.instance_id c = str_uuid (ModelInstance.id i).
Proof.
  unfold command_for. destruct (String.eqb _ _).
  - destruct (needs_start _ _); [|done]. destruct (find_model _ _); [|done]. by intros [= <-].
  - destruct (String.eqb _ _); [|done]. destruct (needs_stop _); [|done]. by intros [= <-].
Qed.
(** The commands for one of our instances. *)
Lemma our_commands t i c :
  ours t i → c ∈ cmds0 ++ deletes → InstanceCommand.instance_id c = t → command_for d1 st1 i = Ok (Some c).
Proof.
  intros Hi [Hc|Hc]%elem_of_app Ht.
  - apply (build_commands_spec _ _ _ _ _ Hbuild) in Hc as (j & Hj & Hw & Hcj).
    assert (i = j) as ->; [|done]. apply (ours_unique t); [done|]. split_and!; [done|done|].
    by rewrite <-(command_id _ _ _ _ Hcj).
  - apply Hdel in Hc as (st & _ & -> & Hn). destruct Hn. exists i. by cbn in Ht; rewrite Ht.
Qed.
Lemma our_command t i c : ours t i → command_for d1 st1 i = Ok (Some c) → c ∈ cmds0 ++ deletes.
Proof.
  intros (Hi & Hw & _) Hc. apply elem_of_app. left. apply (build_commands_spec _ _ _ _ _ Hbuild). eauto.
Qed.

Lemma mock_effect_start md i o :
  mock_effect s t2 (start_command md i) o =
  Some (new_info (if needs_token s (config_of (start_command md i)) then "error" else "starting")
          (if needs_token s (config_of (start_command md i)) then "model requires HF token" else "") t2
          (MultiNodeSpec.node_rank <$> _spec_of (start_command md i)) (start_command md i)).
Proof. done. Qed.
Lemma mock_effect_stop i o : mock_effect s t2 (stop_command i) o = stop_info <$> o.
Proof. done. Qed.
Lemma round_calm t i : ours t i → calm i (get_info m2 t).
Proof.
  intros Ho. pose proof Ho as (Hi & Hw & Ht). destruct (build_commands_total _ _ _ _ _ Hbuild Hi Hw) as (o & Hcmd).
  pose proof (reported_mock t1 m t Hkeys) as Hrep.
  assert (reported st1 t = status_of t <$> get_info (refreshed_all t1 m) t) as Hrep'.
  { rewrite Hrep, refreshed_get. by destruct (get_info m t). }
  destruct o as [c|].
  - pose proof (our_command t i c Ho Hcmd) as Hc.
    rewrite (Hone t c Hc); [|by rewrite (command_id _ _ _ _ Hcmd)|].
    2: { intros c' Hc' Et. pose proof (our_commands t i c' Ho Hc' Et). congruence. }
    unfold command_for in Hcmd. rewrite Ht, Hrep' in Hcmd.
    destruct (String.eqb_spec (ModelInstance.desired_state i) "running") as [Er|Er].
    + destruct (needs_start _ _); [|done]. destruct (find_model _ _) as [md|]; [|done]. injection Hcmd as <-.
      rewrite mock_effect_start. unfold calm, satisfied. cbn [fmap option_fmap option_map]. rewrite needs_start_info, Er.
      split; [|done]. intros _. unfold new_info. cbn [Info.generation Info.state InstanceCommand.generation start_command].
      rewrite Z.ltb_irrefl. by destruct (needs_token _ _).
    + destruct (String.eqb_spec (ModelInstance.desired_state i) "stopped") as [Es|Es]; [|done].
      destruct (needs_stop _); [|done]. injection Hcmd as <-.
      rewrite mock_effect_stop. split; [congruence|]. intros _. by destruct (get_info (refreshed_all t1 m) t).
  - rewrite Hnone by (intros c Hc Et; pose proof (our_commands t i c Ho Hc Et); congruence).
    apply (calm_reported i t). rewrite <-Hrep'. unfold command_for in Hcmd. rewrite Ht in Hcmd. split; intros E; rewrite E in Hcmd.
    + cbn [String.eqb Ascii.eqb Bool.eqb] in Hcmd. destruct (needs_start _ _); [|done]. by destruct (find_model _ _).
    + cbn [String.eqb Ascii.eqb Bool.eqb] in Hcmd. by destruct (needs_stop _).
Qed.

Lemma round_ours t x : get_info m2 t = Some x → ∃ i, ours t i.
Proof.
  intros Hx. destruct (decide (Exists (λ i, ModelInstance.worker_id i = Some wid ∧ str_uuid (ModelInstance.id i) = t) (Db.instances d1)))
    as [H|H]; [apply Exists_exists in H as (i & ? & ? & ?); by exists i|]. exfalso.
  assert (¬ ∃ i, ours t i) as Hno by (intros (i & ? & ? & ?); apply H, Exists_exists; eauto).
  assert (∀ c, c ∈ cmds0 ++ deletes → InstanceCommand.instance_id c = t → ∃ st, st ∈ st1 ∧ c = delete_command st) as Hc.
  { intros c [Hc|Hc]%elem_of_app Et.
    - apply (build_commands_spec _ _ _ _ _ Hbuild) in Hc as (j & Hj & Hw & Hcj). destruct Hno. exists j.
      split_and!; [done|done|]. by rewrite <-(command_id _ _ _ _ Hcj).
    - apply Hdel in Hc as (st & ? & ? & _). eauto. }
  destruct (get_info m t) as [y|] eqn:Ey.
  - assert (status_of t (mock_refresh t1 y) ∈ st1) as Hst by (apply report_elem; [done|by exists y]).
    assert (delete_command (status_of t (mock_refresh t1 y)) ∈ cmds0 ++ deletes) as Hdc.
    { apply elem_of_app. right. apply Hdel. eexists. split_and!; [done|done|done]. }
    rewrite (Hone t _ Hdc) in Hx; [done|done|]. intros c' Hc' Et. destruct (Hc c' Hc' Et) as (st & _ & ->).
    unfold delete_command in *. cbn in Et |- *. by rewrite Et.
  - rewrite Hnone in Hx.
    + by rewrite refreshed_get, Ey in Hx.
    + intros c Hcc Et. destruct (Hc c Hcc Et) as (st & Hst & ->). apply report_elem in Hst as (i & Hi & _); [|done].
      cbn in Et. congruence.
Qed.
End round.

(** ** Two rounds *)
Lemma sync_worker_quiet now request d wid w :
  uuid_of_string (SyncRequest.worker_id request) = Some wid → find_worker d wid = Some w →
  Worker.token_hash w = sha256_hex (SyncRequest.worker_token request) →
  let statuses := SyncRequest.instances request in
  let d2 := sync_gpus wid (SyncRequest.gpus request) (update_worker wid (apply_system (SyncRequest.system request) now) d) in
  let d3 := sync_statuses wid statuses d2 in
  (∀ i, i ∈ Db.instances d3 → ModelInstance.worker_id i = Some wid → command_for d3 statuses i = Ok None) →
  (∀ st, st ∈ statuses → InstanceStatus.instance_id st ∈ known_ids wid statuses d) →
  match (sync_worker now request (Session.start d)).1 with Ok cmds => cmds = [] | Raise e => e = IntegrityError end.
Proof.
  intros Hid Hw Ht statuses d2 d3 Hc Hk. unfold sync_worker, Session.start. rewrite Hid, bind_query, Hw, Ht, String.eqb_refl.
  cbn [negb]. rewrite !bind_execute, bind_query, bind_execute, bind_query. fold statuses d2 d3.
  rewrite (build_commands_none wid statuses d3 Hc). rewrite (bind_Ok _ _ _ [] (Session.mk d3 d false)) by done.
  assert (where_ (λ st, negb (bool_decide (InstanceStatus.instance_id st ∈ known_ids wid statuses d2))) statuses = []) as ->.
  { change (known_ids wid statuses d2) with (known_ids wid statuses d). clearbody d3. clear -Hk. unfold where_.
    assert (∀ l, (∀ st, st ∈ l → InstanceStatus.instance_id st ∈ known_ids wid statuses d) →
      List.filter (λ st, negb (bool_decide (InstanceStatus.instance_id st ∈ known_ids wid statuses d))) l = []) as H; [|by apply H].
    induction l as [|st l IH]; intros Hl; [done|]. cbn. rewrite bool_decide_eq_true_2 by (apply Hl; by left). cbn.
    apply IH. intros x Hx. apply Hl. by right. }
  unfold mbind, M_bind, commit. cbn [Session.inactive Session.view]. by destruct (constraints_ok d3).
Qed.

Section two_rounds.
Context {W : Type} (s : WSettings.t) (dk : Docker.t W) (Hmock : WSettings.mock_engine s = true) (reg : Registered.t).

Lemma reconcile_mock now during cmds (m : Manager.t W) m' :
  run_mock s now cmds m = (Ok tt, m') → NoDup (Manager.instances m').*1 →
  reconcile s dk now during cmds m = (Ok (mock_report now m'), refreshed_all now m').
Proof. intros H Hn. unfold reconcile. rewrite Hmock. fold (run_mock (W:=W) s now cmds). by rewrite (M_bind_step _ _ _ _ _ H), (mock_statuses s dk Hmock). Qed.
Lemma sync_request_mock now during system gpus (m : Manager.t W) :
  NoDup (Manager.instances m).*1 →
  sync_request s dk reg now during system gpus m =
  (Ok (SyncRequest.mk (Registered.worker_id reg) (Registered.worker_token reg) system gpus (mock_report now m)), refreshed_all now m).
Proof. intros Hn. unfold sync_request. by rewrite (M_bind_step _ _ _ _ _ (mock_statuses s dk Hmock now during m Hn)). Qed.

Lemma observed_ours wid l l' t :
  Forall2 (observed_only wid) l l' →
  (∃ i, i ∈ l ∧ ModelInstance.worker_id i = Some wid ∧ str_uuid (ModelInstance.id i) = t) ↔
  (∃ i, i ∈ l' ∧ ModelInstance.worker_id i = Some wid ∧ str_uuid (ModelInstance.id i) = t).
Proof.
  intros H. split; intros (i & Hi & Hw & Ht); apply list_elem_of_lookup in Hi as [k Hk].
  - destruct (Forall2_lookup_l _ _ _ _ _ H Hk) as (j & Hj & Ho). exists j. split; [by eapply list_elem_of_lookup_2|].
    destruct Ho as (E1 & _ & _ & E4 & _). by rewrite E1, E4.
  - destruct (Forall2_lookup_r _ _ _ _ _ H Hk) as (j & Hj & Ho). exists j. split; [by eapply list_elem_of_lookup_2|].
    destruct Ho as (E1 & _ & _ & E4 & _). by rewrite <-E1, <-E4.
Qed.
Lemma observed_wide wid d d' : Forall2 (observed_only wid) (Db.instances d) (Db.instances d') → wide d → wide d'.
Proof.
  intros H Hw i Hi. apply list_elem_of_lookup in Hi as [k Hk]. destruct (Forall2_lookup_r _ _ _ _ _ H Hk) as (j & Hj & Ho).
  rewrite (proj1 Ho). apply Hw. by eapply list_elem_of_lookup_2.
Qed.
Lemma observed_command wid d d' statuses :
  Forall2 (observed_only wid) (Db.instances d) (Db.instances d') →
  (∀ i, i ∈ Db.instances d → ModelInstance.worker_id i = Some wid →
        satisfied i (reported statuses (str_uuid (ModelInstance.id i)))) →
  ∀ i, i ∈ Db.instances d' → ModelInstance.worker_id i = Some wid → command_for d' statuses i = Ok None.
Proof.
  intros H Hs i Hi Hw. apply satisfied_no_command. apply list_elem_of_lookup in Hi as [k Hk].
  destruct (Forall2_lookup_r _ _ _ _ _ H Hk) as (j & Hj & Ho). apply list_elem_of_lookup_2 in Hj.
  destruct Ho as (E1 & E2 & E3 & E4 & _). specialize (Hs j Hj). rewrite <-E4 in Hs. specialize (Hs Hw).
  unfold satisfied, needs_start in *. by rewrite E1, E2, E3.
Qed.

(** The deletions are of what is reported and no instance of the worker's. *)
Lemma deletes_spec wid d d1 statuses :
  Forall2 (observed_only wid) (Db.instances d) (Db.instances d1) → wide d →
  ∀ c, c ∈ map delete_command (where_ (λ st, negb (bool_decide (InstanceStatus.instance_id st ∈ known_ids wid statuses d))) statuses) ↔
    ∃ st, st ∈ statuses ∧ c = delete_command st ∧ ¬ ∃ i, ours wid d1 (InstanceStatus.instance_id st) i.
Proof.
  intros Hobs Hwide c. rewrite list_elem_of_fmap. setoid_rewrite elem_of_where. setoid_rewrite negb_true_iff.
  setoid_rewrite bool_decide_eq_false. apply exists_iff_compat. intros x.
  assert (x ∈ statuses → InstanceStatus.instance_id x ∈ known_ids wid statuses d ↔
            ∃ i, ours wid d1 (InstanceStatus.instance_id x) i) as Hk; [|tauto].
  intros Hx. rewrite known_ids_spec by eauto. by apply observed_ours.
Qed.

End two_rounds.

(** A worker that tracks the instance to stop and one the server does not know,
    and has still to start the other one. *)
Definition mock_settings : WSettings.t :=
  WSettings.mk "development" "localhost:9091" "inferna-registration-token" "" "w1" "" "" 20000000 "eth0" "" true
    "./models" "vllm" "sglang" "" "" "info".
Definition sample_registration : Registered.t := Registered.mk (str_uuid 1) "secret" 5.
Definition sample_agent : Agent.t (list Container.t) :=
  agent_start (Manager.set_instances
    [(str_uuid 100, Info.mk "running" 8010 "" 0 1 None ""); ("ghost", Info.mk "running" 9000 "" 0 1 None "")]
    (Manager.init [])).
Definition sample_system : SystemInfo.t := SystemInfo.mk 8 64000 "linux" "w1".
Definition sample_gpus (tick : Z) : list GPUInfo.t := [GPUInfo.mk 0 "nvidia" "GPU" 24000 100 5 "" ""; GPUInfo.mk 1 "nvidia" "GPU" 16000 0 0 "" ""].
Definition no_change (k : nat) (m : Manager.t (list Container.t)) : Manager.t (list Container.t) := m.
Definition first_request : SyncRequest.t :=
  SyncRequest.mk (str_uuid 1) "secret" sample_system (sample_gpus 0) (mock_report 3000000 (Agent.manager sample_agent)).
Definition first_sync : result (list InstanceCommand.t) * Session.t := sync_worker 7 first_request (Session.start sync_db).

