(* ===== verification/Migrations.v ===== *)
(** * The schema migrations ([server/alembic/versions])

    The chain of revisions from the initial schema to the one the models declare,
    with what each does to the rows: phase 0 (checks, the de-duplication of workers
    and ports, the unique indexes), phase 2 (one deployment per instance) and the
    columns, tables and checks the others add.  Each revision runs in a
    transaction, so one that raises leaves the database as it was.

    A column that a revision adds to an otherwise unchanged table ([workers.address],
    [models.supported_engines], the limits of [users]) is in the row from the start
    and the revision assigns its default; [model_instances], whose columns change
    most, has a record per revision.  SQL leaves the order of a query without
    ORDER BY open; the order of the rows is taken.  [str] of a timestamp is a
    parameter.  The foreign keys that phase 0 re-creates held before, and the checks
    of the new table [deployments] are those of the instances it is filled from:
    they cannot fail and are not repeated.  The downgrades are in [Downgrades]. *)

From S2P Require Import Prelude PyStr Uuid Models.
Local Open Scope Z_scope.

(** ** Rows *)
(** [model_instances] of the initial schema ([3b491ceedb36]). *)
Module Instance0.
Record t := mk {
  id : uuid; model_id : uuid; cluster_id : uuid; worker_id : option uuid; engine : string; profile : string;
  gpu_indexes : list Z; state : string; port : option Z; error_detail : option string; created_at : datetime }.
End Instance0.
(** ... and after phase 0. *)
Module Instance1.
Record t := mk {
  id : uuid; model_id : uuid; cluster_id : uuid; worker_id : option uuid; engine : string; profile : string;
  gpu_indexes : list Z; state : string; desired_state : string; generation : Z; port : option Z;
  error_detail : option string; created_at : datetime }.
Definition eta (r : t) : t :=
  mk (id r) (model_id r) (cluster_id r) (worker_id r) (engine r) (profile r) (gpu_indexes r) (state r)
     (desired_state r) (generation r) (port r) (error_detail r) (created_at r).
Definition set_worker_id (v : option uuid) (r : t) : t := ltac:(set_field eta worker_id v r).
Definition set_desired_state (v : string) (r : t) : t := ltac:(set_field eta desired_state v r).
Definition set_state (v : string) (r : t) : t := ltac:(set_field eta state v r).
Definition set_port (v : option Z) (r : t) : t := ltac:(set_field eta port v r).
Definition set_error_detail (v : option string) (r : t) : t := ltac:(set_field eta error_detail v r).
End Instance1.

(** The database of a revision whose instances are [I]. *)
Module Old.
Record t (I : Type) := mk {
  users : list User.t; clusters : list Cluster.t; workers : list Worker.t; worker_gpus : list WorkerGPU.t;
  models : list Model.t; instances : list I }.
Arguments mk {I}. Arguments users {I}. Arguments clusters {I}. Arguments workers {I}.
Arguments worker_gpus {I}. Arguments models {I}. Arguments instances {I}.
Definition with_instances {I J} (l : list J) (d : t I) : t J :=
  mk (users d) (clusters d) (workers d) (worker_gpus d) (models d) l.
Definition with_workers {I} (ws : list Worker.t) (gs : list WorkerGPU.t) (d : t I) : t I :=
  mk (users d) (clusters d) ws gs (models d) (instances d).
Definition with_models {I} (l : list Model.t) (d : t I) : t I :=
  mk (users d) (clusters d) (workers d) (worker_gpus d) l (instances d).
End Old.
Notation Phase0 := (Old.t Instance1.t).

(** A constraint added to a table: it holds of the rows or the statement fails. *)
Definition add_check (ok : bool) : result unit := if ok then Ok tt else Raise IntegrityError.

(** ** Phase 0 ([d88ae166a92a]) *)
(** The values GROUP BY ... HAVING COUNT( * ) > 1 returns. *)
Definition repeated {K} `{EqDecision K} (l : list K) : list K :=
  where_ (λ k, (1 <? length (where_ (λ k', bool_decide (k' = k)) l))%nat) (remove_dups l).

(** The new columns with their defaults, then the backfill. *)
Definition add_desired_state (i : Instance0.t) : Instance1.t :=
  Instance1.mk (Instance0.id i) (Instance0.model_id i) (Instance0.cluster_id i) (Instance0.worker_id i)
    (Instance0.engine i) (Instance0.profile i) (Instance0.gpu_indexes i) (Instance0.state i)
    "running" 1 (Instance0.port i) (Instance0.error_detail i) (Instance0.created_at i).
Definition backfill_desired (l : list Instance1.t) : list Instance1.t :=
  update_where (λ i, String.eqb (Instance1.state i) "stopped") (Instance1.set_desired_state "stopped") l.
Definition active (i : Instance1.t) : bool :=
  String.eqb (Instance1.desired_state i) "running" || in_live_states (Instance1.state i).
Definition retire (detail : string) (i : Instance1.t) : Instance1.t :=
  Instance1.set_desired_state "stopped"
    (Instance1.set_error_detail (Some detail) (Instance1.set_state "error" (Instance1.set_port None i))).
Definition retire_row (detail : string) (iid : uuid) (d : Phase0) : Phase0 :=
  Old.with_instances (update_where (λ i, (Instance1.id i =? iid)%N) (retire detail) (Old.instances d)) d.

Section phase0.
Context (str_dt : datetime → string).

Definition sort_key (r : Worker.t) : list string :=
  let ls_s := match Worker.last_seen_at r with Some ls => str_dt ls | None => "" end in
  let ca_s := str_dt (Worker.created_at r) in
  [if String.eqb ls_s "" then ca_s else ls_s; ca_s; str_uuid (Worker.id r)].
(** Comparison of tuples of strings. *)
Fixpoint key_leb (a b : list string) : bool :=
  match a, b with
  | [], _ => true
  | _, [] => false
  | x :: a, y :: b => match String.compare x y with Lt => true | Gt => false | Eq => key_leb a b end
  end.
Definition newest_first (a b : Worker.t) : bool := key_leb (sort_key b) (sort_key a).

(** An instance of the worker merged that keeps a port the kept worker already uses. *)
Definition resolve_collision (kept : uuid) (d : Phase0) (inst : Instance1.t) : Phase0 :=
  if existsb (λ j, uuid_eqb (Instance1.worker_id j) (Some kept)
                   && bool_decide (Instance1.port j = Instance1.port inst) && active j) (Old.instances d)
  then retire_row "worker dedup port collision" (Instance1.id inst) d
  else d.
Definition has_port (i : Instance1.t) : bool := match Instance1.port i with Some _ => true | None => false end.
(** DELETE FROM workers: the GPUs go with it; an instance that refers to it blocks it. *)
Definition delete_worker_row (dup : uuid) (d : Phase0) : result Phase0 :=
  if existsb (λ i, uuid_eqb (Instance1.worker_id i) (Some dup)) (Old.instances d) then Raise IntegrityError
  else Ok (Old.with_workers (where_ (λ w, negb (Worker.id w =? dup)%N) (Old.workers d))
             (where_ (λ g, negb (WorkerGPU.worker_id g =? dup)%N) (Old.worker_gpus d)) d).
Definition move_instances (kept dup : uuid) (d : Phase0) : Phase0 :=
  Old.with_instances (update_where (λ i, uuid_eqb (Instance1.worker_id i) (Some dup))
                        (Instance1.set_worker_id (Some kept)) (Old.instances d)) d.
Definition merge_worker (kept : uuid) (d : Phase0) (dup : uuid) : result Phase0 :=
  let dup_active := where_ (λ i, uuid_eqb (Instance1.worker_id i) (Some dup) && active i && has_port i) (Old.instances d) in
  delete_worker_row dup (move_instances kept dup (foldl (resolve_collision kept) d dup_active)).
Definition group_key (key : Worker.t → string) (w : Worker.t) : uuid * string := (Worker.cluster_id w, key w).
Definition dedup_group (key : Worker.t → string) (d : Phase0) (grp : uuid * string) : result Phase0 :=
  match sorted_by newest_first (where_ (λ w, bool_decide (group_key key w = grp)) (Old.workers d)) with
  | [] => Raise (RuntimeError "list index out of range")
  | kept :: dups => foldR (merge_worker (Worker.id kept)) d (map Worker.id dups)
  end.
(** The loop over the groups of workers of a cluster with the same host or name. *)
Definition dedup_workers (key : Worker.t → string) (d : Phase0) : result Phase0 :=
  foldR (dedup_group key) d (repeated (map (group_key key) (Old.workers d))).

Definition known_worker {I} (d : Old.t I) (w : option uuid) : bool :=
  match w with Some w => existsb (λ r, (Worker.id r =? w)%N) (Old.workers d) | None => true end.
Definition orphan_check (d : Phase0) : result unit :=
  if forallb (λ i, known_worker d (Instance1.worker_id i)) (Old.instances d) then Ok tt
  else Raise (RuntimeError "orphaned model_instances.worker_id references after dedup").

(** The port an active instance occupies; a group whose worker is NULL matches no row. *)
Definition port_key (i : Instance1.t) : option (uuid * Z) :=
  match Instance1.worker_id i, Instance1.port i with
  | Some w, Some p => if active i then Some (w, p) else None
  | _, _ => None
  end.
Definition earliest_first (a b : Instance1.t) : bool :=
  (Instance1.created_at a <? Instance1.created_at b)
  || ((Instance1.created_at a =? Instance1.created_at b) && (Instance1.id a <=? Instance1.id b)%N).
Definition dedup_port (d : Phase0) (grp : uuid * Z) : Phase0 :=
  let insts := sorted_by earliest_first (where_ (λ i, bool_decide (port_key i = Some grp)) (Old.instances d)) in
  foldl (λ d i, retire_row "dedup duplicate port" (Instance1.id i) d) d (drop 1 insts).
Definition dedup_ports (d : Phase0) : Phase0 :=
  foldl dedup_port d (repeated (omap port_key (Old.instances d))).

Definition ck_instance1 (i : Instance1.t) : bool :=
  one_of (Instance1.state i) ["scheduled"; "starting"; "running"; "stopped"; "error"]
  && one_of (Instance1.desired_state i) ["running"; "stopped"]
  && one_of (Instance1.engine i) ["vllm"; "sglang"] && one_of (Instance1.profile i) ["latency"; "throughput"].
Definition add_supported_engines (m : Model.t) : Model.t :=
  Model.mk (Model.id m) (Model.name m) (Model.display_name m) (Model.category m) (Model.description m)
    (Model.vram_required_mb m) (Model.requires_hf_token m) (Model.license m) (Model.is_builtin m) []
    (Model.created_at m).

Definition upgrade_phase0 (d : Old.t Instance0.t) : result Phase0 :=
  let d := Old.with_instances (backfill_desired (map add_desired_state (Old.instances d))) d in
  _ ← add_check (forallb ck_instance1 (Old.instances d));
  _ ← add_check (unique_by (λ g, (WorkerGPU.worker_id g, WorkerGPU.index g)) (Old.worker_gpus d));
  _ ← add_check (forallb ck_gpu (Old.worker_gpus d));
  _ ← add_check (forallb ck_worker (Old.workers d));
  d ← dedup_workers Worker.hostname d;
  d ← dedup_workers Worker.name d;
  _ ← orphan_check d;
  let d := dedup_ports d in
  _ ← add_check (unique_by_opt port_key (Old.instances d));
  _ ← add_check (unique_by (λ w, (Worker.cluster_id w, Worker.hostname w)) (Old.workers d));
  _ ← add_check (unique_by (λ w, (Worker.cluster_id w, Worker.name w)) (Old.workers d));
  let d := Old.with_models (map add_supported_engines (Old.models d)) d in
  _ ← add_check (forallb ck_model (Old.models d));
  _ ← add_check (forallb ck_user (Old.users d));
  Ok d.
End phase0.

(** ** Phase 1 and phase 2 ([d18580a27109], [e8f2a6c41d93]) *)
Definition add_address (w : Worker.t) : Worker.t := Worker.set_address None w.
Definition upgrade_phase1 (d : Phase0) : Phase0 :=
  Old.with_workers (map add_address (Old.workers d)) (Old.worker_gpus d) d.

(** Every instance becomes a deployment of one replica; [fresh] are the ids drawn. *)
Definition backfill_deployment (dep_id : uuid) (row : Instance1.t) : Deployment.t :=
  Deployment.mk dep_id (Instance1.model_id row) (Instance1.cluster_id row) (Instance1.engine row)
    (Instance1.profile row) 1 1 1 None (Instance1.created_at row) None.
(** The instance with the columns of the later revisions NULL. *)
Definition current_instance (dep_id : uuid) (row : Instance1.t) : ModelInstance.t :=
  ModelInstance.mk (Instance1.id row) (Instance1.model_id row) (Instance1.cluster_id row) (Instance1.worker_id row)
    dep_id (Instance1.engine row) (Instance1.profile row) (Instance1.gpu_indexes row) (Instance1.state row)
    (Instance1.desired_state row) (Instance1.generation row) (Instance1.port row) (Instance1.error_detail row)
    None None None None None None (Instance1.created_at row).
Fixpoint backfill (fresh : list uuid) (rows : list Instance1.t) (deps : list Deployment.t)
    (insts : list ModelInstance.t) : result (list Deployment.t * list ModelInstance.t) :=
  match rows with
  | [] => Ok (deps, insts)
  | row :: rows =>
      match fresh with
      | [] => Raise (RuntimeError "no more identifiers")
      | dep_id :: fresh =>
          if existsb (λ d, (Deployment.id d =? dep_id)%N) deps then Raise IntegrityError
          else backfill fresh rows (deps ++ [backfill_deployment dep_id row]) (insts ++ [current_instance dep_id row])
      end
  end.

(** ** The whole chain *)
Definition add_limits (u : User.t) : User.t := User.set_request_limit None (User.set_token_limit None u).
(** [b4d7e91c2a58], [a5646d3ba245], [523ac0598aed], [392ee09252ef] and [8a89164e3de6]:
    the bound on the replicas, the empty tables, the limits and the parallel columns. *)
Definition max_replicas_check (d : Deployment.t) : bool :=
  (1 <=? Deployment.min_replicas d) && (Deployment.min_replicas d <=? Deployment.max_replicas d)
  && (Deployment.max_replicas d <=? 8).
Definition parallel_mode_check (d : Deployment.t) : bool :=
  one_of_or_null (Deployment.parallel_mode d) ["single"; "dp"; "pp"; "tp"; "pd"].
Definition upgrade_head (str_dt : datetime → string) (fresh : list uuid) (d : Old.t Instance0.t) : result Db.t :=
  d ← upgrade_phase0 str_dt d;
  let d := upgrade_phase1 d in
  '(deps, insts) ← backfill fresh (Old.instances d) [] [];
  _ ← add_check (forallb max_replicas_check deps);
  _ ← add_check (unique_group_rank insts);
  _ ← add_check (forallb parallel_mode_check deps);
  Ok (Db.mk (map add_limits (Old.users d)) [] (Old.clusters d) (Old.workers d) (Old.worker_gpus d) (Old.models d)
        deps insts [] []).

(** ** The initial schema ([3b491ceedb36]): keys and references *)
Definition initial_ok (d : Old.t Instance0.t) : bool :=
  unique_by User.id (Old.users d) && unique_by User.username (Old.users d)
  && unique_by Cluster.id (Old.clusters d) && unique_by Cluster.name (Old.clusters d)
  && unique_by Worker.id (Old.workers d) && unique_by Model.id (Old.models d) && unique_by Model.name (Old.models d)
  && unique_by Instance0.id (Old.instances d)
  && forallb (λ w, existsb (λ c, (Cluster.id c =? Worker.cluster_id w)%N) (Old.clusters d)) (Old.workers d)
  && forallb (λ g, known_worker d (Some (WorkerGPU.worker_id g))) (Old.worker_gpus d)
  && forallb (λ i, existsb (λ m, (Model.id m =? Instance0.model_id i)%N) (Old.models d)
                   && existsb (λ c, (Cluster.id c =? Instance0.cluster_id i)%N) (Old.clusters d)
                   && known_worker d (Instance0.worker_id i)) (Old.instances d).
(** The rows the new checks accept. *)
Definition ck_instance0 (i : Instance0.t) : bool :=
  one_of (Instance0.state i) ["scheduled"; "starting"; "running"; "stopped"; "error"]
  && one_of (Instance0.engine i) ["vllm"; "sglang"] && one_of (Instance0.profile i) ["latency"; "throughput"].
Definition domains_ok (d : Old.t Instance0.t) : bool :=
  forallb ck_user (Old.users d) && forallb ck_worker (Old.workers d) && forallb ck_gpu (Old.worker_gpus d)
  && unique_by (λ g, (WorkerGPU.worker_id g, WorkerGPU.index g)) (Old.worker_gpus d)
  && forallb ck_model (Old.models d) && forallb ck_instance0 (Old.instances d).

(** ** De-duplication *)
Lemma foldR_total {A B} (P : list A → B → Prop) (f : B → A → result B) l b :
  P [] b →
  (∀ l1 x l2 b1, l = l1 ++ x :: l2 → P l1 b1 → ∃ b2, f b1 x = Ok b2 ∧ P (l1 ++ [x]) b2) →
  ∃ b', foldR f b l = Ok b' ∧ P l b'.
Proof.
  intros Hb Hstep.
  enough (∀ l2 l1 b0, l = l1 ++ l2 → P l1 b0 → ∃ b', foldR f b0 l2 = Ok b' ∧ P l b') as H by by apply (H l []).
  induction l2 as [|x l2 IH]; intros l1 b0 Hl HP; cbn [foldR].
  - rewrite app_nil_r in Hl. subst. eauto.
  - destruct (Hstep _ _ _ _ Hl HP) as (b1 & -> & HP1). cbn. apply (IH (l1 ++ [x])); [by rewrite <-app_assoc|done].
Qed.
Lemma Forall2_map_r {A B} (R : A → B → Prop) (f : B → B) l k :
  Forall2 R l k → (∀ x y, y ∈ k → R x y → R x (f y)) → Forall2 R l (map f k).
Proof.
  intros H. induction H as [|x y l k Hxy _ IH]; intros Hf; constructor; [apply Hf; [by left|done]|].
  apply IH. intros a b Hb. apply Hf. by right.
Qed.
Lemma Forall2_map_eq {A B C} (R : A → B → Prop) (f : A → C) (g : B → C) l k :
  Forall2 R l k → (∀ x y, R x y → g y = f x) → map g k = map f l.
Proof. intros H Hf. induction H as [|x y l k Hxy _ IH]; [done|]. cbn. by rewrite IH, (Hf _ _ Hxy). Qed.
Lemma elem_of_repeated {K} `{EqDecision K} (k : K) l :
  k ∈ repeated l ↔ k ∈ l ∧ (1 < length (where_ (λ k', bool_decide (k' = k)) l))%nat.
Proof. unfold repeated. by rewrite elem_of_where, elem_of_remove_dups, Nat.ltb_lt. Qed.
Lemma NoDup_repeated {K} `{EqDecision K} (l : list K) : NoDup (repeated l).
Proof. apply NoDup_where, NoDup_remove_dups. Qed.
(** A value that is not repeated comes from one row. *)
Lemma not_repeated {A K} `{EqDecision K} (key : A → K) l x y :
  key x ∉ repeated (map key l) → x ∈ l → y ∈ l → key x = key y → x = y.
Proof.
  intros Hk Hx Hy E. rewrite elem_of_repeated in Hk.
  assert (¬ (1 < length (where_ (λ k', bool_decide (k' = key x)) (map key l)))%nat) as Hn.
  { intros H. apply Hk. split; [|done]. apply list_elem_of_fmap. by exists x. }
  rewrite where_fmap, length_map in Hn.
  assert (x ∈ where_ (λ z, bool_decide (key z = key x)) l) as Hx' by (apply elem_of_where; by rewrite bool_decide_eq_true).
  assert (y ∈ where_ (λ z, bool_decide (key z = key x)) l) as Hy' by (apply elem_of_where; by rewrite bool_decide_eq_true).
  destruct (where_ _ l) as [|a [|b r]]; [by apply elem_of_nil in Hx'| |cbn in Hn; lia].
  apply list_elem_of_singleton in Hx', Hy'. congruence.
Qed.

Definition cluster_of {I} (d : Old.t I) (w : uuid) : option uuid :=
  Worker.cluster_id <$> find_by (λ r, (Worker.id r =? w)%N) (Old.workers d).
Section dedup.
Context (d0 : Phase0).
(** What de-duplication may do to a row: move it to another worker of the same
    cluster, and stop it and free its port if it was active on one. *)
Definition retired (i i' : Instance1.t) : Prop :=
  active i = true ∧ has_port i = true ∧ Instance1.port i' = None ∧ Instance1.state i' = "error" ∧
  Instance1.desired_state i' = "stopped".
Definition untouched (i i' : Instance1.t) : Prop :=
  Instance1.port i' = Instance1.port i ∧ Instance1.state i' = Instance1.state i ∧
  Instance1.desired_state i' = Instance1.desired_state i ∧ Instance1.error_detail i' = Instance1.error_detail i.
Definition moved (i i' : Instance1.t) : Prop :=
  Instance1.id i' = Instance1.id i ∧ Instance1.model_id i' = Instance1.model_id i ∧
  Instance1.cluster_id i' = Instance1.cluster_id i ∧ Instance1.engine i' = Instance1.engine i ∧
  Instance1.profile i' = Instance1.profile i ∧ Instance1.gpu_indexes i' = Instance1.gpu_indexes i ∧
  Instance1.generation i' = Instance1.generation i ∧ Instance1.created_at i' = Instance1.created_at i ∧
  match Instance1.worker_id i, Instance1.worker_id i' with
  | Some w, Some w' => cluster_of d0 w' = cluster_of d0 w
  | None, None => True
  | _, _ => False
  end ∧ (untouched i i' ∨ retired i i').

Record inv (d : Phase0) : Prop := {
  inv_workers : Old.workers d `sublist_of` Old.workers d0;
  inv_gpus : Old.worker_gpus d `sublist_of` Old.worker_gpus d0;
  inv_gpu_refs : ∀ g, g ∈ Old.worker_gpus d → known_worker d (Some (WorkerGPU.worker_id g)) = true;
  inv_instances : Forall2 (λ i i', i ∈ Old.instances d0 ∧ moved i i') (Old.instances d0) (Old.instances d);
  inv_refs : ∀ i, i ∈ Old.instances d → known_worker d (Instance1.worker_id i) = true;
  inv_rest : Old.users d = Old.users d0 ∧ Old.clusters d = Old.clusters d0 ∧ Old.models d = Old.models d0 }.
Context (Hids : NoDup (map Worker.id (Old.workers d0))) (Hiids : NoDup (map Instance1.id (Old.instances d0))).

Lemma moved_refl i : moved i i.
Proof. unfold moved, untouched. destruct (Instance1.worker_id i); naive_solver. Qed.
Lemma inv_start :
  (∀ g, g ∈ Old.worker_gpus d0 → known_worker d0 (Some (WorkerGPU.worker_id g)) = true) →
  (∀ i, i ∈ Old.instances d0 → known_worker d0 (Instance1.worker_id i) = true) → inv d0.
Proof.
  intros Hg Hi. split; [reflexivity|reflexivity|done| |done|done]. clear.
  assert (∀ l, (∀ i, i ∈ l → i ∈ Old.instances d0) → Forall2 (λ i i', i ∈ Old.instances d0 ∧ moved i i') l l) as H.
  { induction l as [|i l IH]; intros H; constructor; [split; [apply H; by left|apply moved_refl]|].
    apply IH. intros j Hj. apply H. by right. }
  by apply H.
Qed.
(** A row that changes in a way the relation allows. *)
Lemma inv_update d p f :
  inv d →
  (∀ i0 i, i0 ∈ Old.instances d0 → i ∈ Old.instances d → moved i0 i → p i = true → moved i0 (f i)) →
  (∀ i, i ∈ Old.instances d → p i = true → known_worker d (Instance1.worker_id (f i)) = true) →
  inv (Old.with_instances (update_where p f (Old.instances d)) d).
Proof.
  intros [H1 H2 H3 H4 H5 H6] Hm Hr. split; [done|done|done| | |done].
  - apply (Forall2_map_r _ _ _ _ H4). intros i0 i Hi [Hi0 Hm0]. split; [done|].
    destruct (p i) eqn:E; [by apply Hm|done].
  - intros i [j [Hj ->]]%elem_of_update_where. destruct (p j) eqn:E; [by apply Hr|by apply H5].
Qed.
Lemma inv_row d i : inv d → i ∈ Old.instances d → ∃ i0, i0 ∈ Old.instances d0 ∧ moved i0 i.
Proof.
  intros [_ _ _ H _ _] Hi. apply list_elem_of_lookup in Hi as [k Hk].
  destruct (Forall2_lookup_r _ _ _ _ _ H Hk) as (i0 & _ & ?). eauto.
Qed.
Lemma inv_ids d : inv d → map Instance1.id (Old.instances d) = map Instance1.id (Old.instances d0).
Proof. intros [_ _ _ H _ _]. apply (Forall2_map_eq _ _ _ _ _ H). intros i0 i [_ Hm]. apply Hm. Qed.
Lemma moved_active i0 i : moved i0 i → active i = true → has_port i = true → active i0 = true ∧ has_port i0 = true.
Proof.
  intros (_ & _ & _ & _ & _ & _ & _ & _ & _ & [(E1 & E2 & E3 & _)|(? & ? & _)]); [|done].
  unfold active, has_port. by rewrite E1, E2, E3.
Qed.
Lemma retire_inv detail inst d d' :
  inv d → inv d' → inst ∈ Old.instances d' → active inst = true → has_port inst = true →
  inv (retire_row detail (Instance1.id inst) d).
Proof.
  intros Hd Hd' Hin Ha Hp. destruct (inv_row d' inst Hd' Hin) as (j0 & Hj0 & Hj).
  destruct (moved_active _ _ Hj Ha Hp) as [Ha0 Hp0]. apply inv_update; [done| |].
  - intros i0 i Hi0 Hi Hm Hid%N.eqb_eq.
    assert (i0 = j0) as ->.
    { apply (NoDup_map_inj_key Instance1.id (Old.instances d0)); [done..|].
      rewrite <-(proj1 Hm), <-(proj1 Hj). done. }
    destruct Hm as (? & ? & ? & ? & ? & ? & ? & ? & ? & _). unfold moved. cbn. repeat (split; [done|]).
    right. by unfold retired.
  - intros i Hi _. exact (inv_refs d Hd i Hi).
Qed.

(** *** Merging a worker *)
Lemma retire_workers detail iid (d : Phase0) : Old.workers (retire_row detail iid d) = Old.workers d.
Proof. done. Qed.
Lemma resolve_inv kept d l :
  inv d → (∀ i, i ∈ l → i ∈ Old.instances d ∧ active i = true ∧ has_port i = true) →
  inv (foldl (resolve_collision kept) d l) ∧ Old.workers (foldl (resolve_collision kept) d l) = Old.workers d.
Proof.
  intros Hd Hl.
  assert (∀ d', inv d' → inv (foldl (resolve_collision kept) d' l) ∧
                         Old.workers (foldl (resolve_collision kept) d' l) = Old.workers d') as H; [|by apply H].
  induction l as [|i l IH]; intros d' Hd'; [done|]. cbn [foldl].
  destruct (Hl i (list_elem_of_here _ _)) as (Hi & Ha & Hp).
  assert (inv (resolve_collision kept d' i) ∧ Old.workers (resolve_collision kept d' i) = Old.workers d') as [H1 H2].
  { unfold resolve_collision. destruct (existsb _ _); [|done]. split; [by apply (retire_inv _ i d' d)|done]. }
  destruct (IH (λ j Hj, Hl j (list_elem_of_further _ _ _ Hj)) _ H1) as [? ->]. done.
Qed.
Lemma known_worker_iff (d : Phase0) w : known_worker d (Some w) = true ↔ w ∈ map Worker.id (Old.workers d).
Proof.
  cbn. rewrite existsb_exists, list_elem_of_fmap. split.
  - intros (r & Hr & <-%N.eqb_eq). exists r. by rewrite list_elem_of_In.
  - intros (r & -> & Hr). exists r. by rewrite <-list_elem_of_In, N.eqb_refl.
Qed.
Lemma elem_of_deleted dup (ws : list Worker.t) w :
  w ∈ where_ (λ w, negb (Worker.id w =? dup)%N) ws ↔ w ∈ ws ∧ Worker.id w ≠ dup.
Proof. by rewrite elem_of_where, negb_true_iff, N.eqb_neq. Qed.
Lemma where_sublist {A} (p : A → bool) l : where_ p l `sublist_of` l.
Proof. induction l as [|x l IH]; cbn; [constructor|]. destruct (p x); by constructor. Qed.
Lemma uuid_eqb_false a b : uuid_eqb a b = false ↔ a ≠ b.
Proof. apply bool_decide_eq_false. Qed.

(** Merging succeeds: the worker merged goes, and nothing else does. *)
Lemma merge_worker_inv kept dup d :
  inv d → kept ∈ map Worker.id (Old.workers d) → kept ≠ dup → cluster_of d0 kept = cluster_of d0 dup →
  ∃ d', merge_worker kept d dup = Ok d' ∧ inv d' ∧
        Old.workers d' = where_ (λ w, negb (Worker.id w =? dup)%N) (Old.workers d).
Proof.
  intros Hd Hk Hne Hc. unfold merge_worker. cbn zeta. set (l := where_ _ _).
  destruct (resolve_inv kept d l Hd) as [Hd1 Hw1].
  { intros i. unfold l. rewrite elem_of_where, !andb_true_iff. naive_solver. }
  set (d1 := foldl (resolve_collision kept) d l) in *.
  assert (inv (move_instances kept dup d1)) as Hd2.
  { apply inv_update; [done| |].
    - intros i0 i _ _ Hm Hw%uuid_eqb_true. unfold moved in *. cbn. rewrite Hw in Hm. destruct Hm as (? & ? & ? & ? & ? & ? & ? & ? & Hw0 & ?).
      do 8 (split; [done|]). split; [|done]. destruct (Instance1.worker_id i0); [|done]. by rewrite Hc.
    - intros i _ _. apply known_worker_iff. by rewrite Hw1. }
  set (d2 := move_instances kept dup d1) in *.
  assert (∀ i, i ∈ Old.instances d2 → Instance1.worker_id i ≠ Some dup) as Hno.
  { intros i. unfold d2, move_instances. cbn. intros (j & _ & ->)%elem_of_update_where.
    destruct (uuid_eqb _ _) eqn:E; [cbn; congruence|by apply uuid_eqb_false in E]. }
  unfold delete_worker_row. destruct (existsb _ _) eqn:E.
  { apply existsb_exists in E as (i & Hi & Hw%uuid_eqb_true). rewrite <-list_elem_of_In in Hi. by destruct (Hno i Hi). }
  assert (Old.workers d2 = Old.workers d) as Hw2 by (by rewrite <-Hw1).
  clearbody d2. eexists. split; [done|]. cbn. rewrite Hw2. split; [|done]. destruct Hd2 as [H1 H2 H3 H4 H5 H6]. rewrite Hw2 in H1.
  split; cbn -[known_worker].
  - etrans; [apply where_sublist|done].
  - etrans; [apply where_sublist|done].
  - intros g [Hg Hgd%negb_true_iff%N.eqb_neq]%elem_of_where. apply known_worker_iff. cbn. apply H3, known_worker_iff in Hg.
    rewrite Hw2 in Hg. apply list_elem_of_fmap in Hg as (w & Eg & Hw). apply list_elem_of_fmap. exists w. split; [done|].
    apply elem_of_deleted. split; [done|congruence].
  - done.
  - intros i Hi. specialize (H5 i Hi). specialize (Hno i Hi). destruct (Instance1.worker_id i) as [x|]; [|done].
    apply known_worker_iff. cbn. apply known_worker_iff in H5. rewrite Hw2 in H5. apply list_elem_of_fmap in H5 as (w & -> & Hw).
    apply list_elem_of_fmap. exists w. split; [done|]. apply elem_of_deleted. split; [done|congruence].
  - done.
Qed.

(** *** The most recent worker of a group *)
Lemma str_compare_trans x y z : String.compare x y = Lt → String.compare y z = Lt → String.compare x z = Lt.
Proof.
  revert y z. induction x as [|a x IH]; intros [|b y] [|c z]; cbn; try done. unfold Ascii.compare.
  destruct (N.compare_spec (N_of_ascii a) (N_of_ascii b)) as [E|E|E], (N.compare_spec (N_of_ascii b) (N_of_ascii c)) as [E'|E'|E'];
    try done; intros H1 H2.
  1: rewrite E, E', N.compare_refl; by eapply IH.
  all: enough ((N_of_ascii a ?= N_of_ascii c)%N = Lt) as -> by done; apply N.compare_lt_iff; lia.
Qed.
Lemma key_leb_total a b : key_leb a b = false → key_leb b a = true.
Proof.
  revert b. induction a as [|x a IH]; intros [|y b]; cbn; try done. rewrite (String.compare_antisym y x).
  destruct (String.compare x y); cbn; auto; done.
Qed.
Lemma key_leb_trans a b c : key_leb a b = true → key_leb b c = true → key_leb a c = true.
Proof.
  revert b c. induction a as [|x a IH]; intros [|y b] [|z c]; cbn; try done.
  destruct (String.compare x y) eqn:E1, (String.compare y z) eqn:E2; try done; intros H1 H2.
  - apply String.compare_eq_iff in E1 as ->. rewrite E2. by eapply IH.
  - apply String.compare_eq_iff in E1 as ->. by rewrite E2.
  - apply String.compare_eq_iff in E2 as ->. by rewrite E1.
  - by rewrite (str_compare_trans _ _ _ E1 E2).
Qed.

Context (str_dt : datetime → string) (key : Worker.t → string).
Notation newest := (newest_first str_dt).
Lemma newest_sorted ws : StronglySorted newest (sorted_by newest ws).
Proof.
  apply sorted_by_sorted; unfold newest_first; [intros a b; apply key_leb_total|].
  intros a b c H1 H2. by eapply key_leb_trans.
Qed.
Lemma cluster_of_row w : w ∈ Old.workers d0 → cluster_of d0 (Worker.id w) = Some (Worker.cluster_id w).
Proof.
  intros Hw. unfold cluster_of. destruct (find_by _ _) as [r|] eqn:E.
  - apply find_by_Some in E as [Hr Hid%N.eqb_eq]. cbn. f_equal. f_equal.
    by apply (NoDup_map_inj_key Worker.id (Old.workers d0)).
  - pose proof (proj1 (find_by_None _ _) E w Hw) as H. cbn in H. by rewrite N.eqb_refl in H.
Qed.

(** A group is merged into its most recent worker. *)
Lemma dedup_group_inv grp d :
  inv d → (∃ w, w ∈ Old.workers d ∧ group_key key w = grp) →
  ∃ d' kept, dedup_group str_dt key d grp = Ok d' ∧ inv d' ∧ Old.workers d' `sublist_of` Old.workers d ∧
    kept ∈ Old.workers d ∧ group_key key kept = grp ∧
    (∀ w, w ∈ Old.workers d → group_key key w = grp → newest kept w = true) ∧
    (∀ w, w ∈ Old.workers d' ↔ w ∈ Old.workers d ∧ (group_key key w = grp → w = kept)).
Proof.
  intros Hd Hex. unfold dedup_group. set (rows := where_ _ _). pose proof (newest_sorted rows) as Hs.
  assert (NoDup (map Worker.id (sorted_by newest rows))) as Hn.
  { apply (NoDup_map_perm _ rows); [symmetry; apply sorted_by_perm|]. apply NoDup_map_where.
    eapply sublist_NoDup; [exact Hids|]. apply (fmap_sublist Worker.id), Hd. }
  assert (∀ w, w ∈ sorted_by newest rows ↔ w ∈ Old.workers d ∧ group_key key w = grp) as Hr.
  { intros w. unfold rows. by rewrite sorted_by_elem, elem_of_where, bool_decide_eq_true. }
  destruct (sorted_by newest rows) as [|kept dups] eqn:E.
  { destruct Hex as (w & Hw). apply Hr in Hw. by apply elem_of_nil in Hw. }
  assert (kept ∈ Old.workers d ∧ group_key key kept = grp) as [Hkd Hkg] by (apply Hr; by left).
  apply NoDup_cons in Hn as [Hkn Hdn]. apply StronglySorted_inv in Hs as [_ Hnew].
  assert (∀ w, w ∈ dups → w ∈ Old.workers d ∧ group_key key w = grp) as Hdups by (intros w Hw; apply Hr; by right).
  assert (∀ w, w ∈ Old.workers d → w ∈ Old.workers d0) as Hsub by (intros w Hw; by apply (elem_of_sublist _ _ _ Hw), Hd).
  edestruct (foldR_total (λ l b, inv b ∧ Old.workers b `sublist_of` Old.workers d ∧
               ∀ w, w ∈ Old.workers b ↔ w ∈ Old.workers d ∧ Worker.id w ∉ l)
               (merge_worker (Worker.id kept)) (map Worker.id dups) d) as (d' & E' & Hd' & Hsl & Hw').
  { split_and!; [done|done|]. intros w. split; [intros Hw; split; [done|apply not_elem_of_nil]|naive_solver]. }
  { intros l1 x l2 b Hl (Hb & Hbs & Hbw).
    assert (x ∈ map Worker.id dups) as (w & -> & Hw)%list_elem_of_fmap by (rewrite Hl; set_solver).
    destruct (Hdups w Hw) as [Hwd Hwg].
    assert (Worker.id kept ≠ Worker.id w) as Hne by (intros Hid; apply Hkn; rewrite Hid; by apply list_elem_of_fmap_2).
    destruct (merge_worker_inv (Worker.id kept) (Worker.id w) b) as (b' & Eb & Hb' & Hwb); [done| |done| |].
    - apply list_elem_of_fmap_2, Hbw. split; [done|]. intros Hin. apply Hkn. change (Worker.id kept ∈ map Worker.id dups). rewrite Hl. set_solver.
    - rewrite !cluster_of_row by auto. f_equal. rewrite <-Hwg in Hkg. by injection Hkg.
    - exists b'. split; [done|]. rewrite Hwb. split_and!; [done|etrans; [apply where_sublist|done]|].
      intros v. rewrite elem_of_deleted, Hbw, elem_of_app, list_elem_of_singleton. naive_solver. }
  exists d', kept. split_and!; [done|done|done|done|done| |].
  - intros w Hw Hg. assert (w ∈ kept :: dups) as [->|Hin]%elem_of_cons by by apply Hr.
    + unfold newest_first. destruct (key_leb _ _) eqn:Ek; [done|]. by rewrite (key_leb_total _ _ Ek) in Ek.
    + apply Is_true_true. by apply (proj1 (Forall_forall _ _) Hnew).
  - intros w. rewrite Hw'. split; intros [Hw H]; (split; [done|]).
    + intros Hg. assert (w ∈ kept :: dups) as [->|Hin]%elem_of_cons by (by apply Hr); [done|].
      destruct H. by apply list_elem_of_fmap_2.
    + intros (v & Hid & Hv)%list_elem_of_fmap. destruct (Hdups v Hv) as [Hvd Hvg].
      assert (w = v) as -> by (apply (NoDup_map_inj_key Worker.id (Old.workers d0)); auto).
      apply Hkn. rewrite <-(H Hvg). by apply list_elem_of_fmap_2.
Qed.

(** *** All groups *)
Lemma dedup_workers_inv d :
  inv d →
  ∃ d', dedup_workers str_dt key d = Ok d' ∧ inv d' ∧ Old.workers d' `sublist_of` Old.workers d ∧
    NoDup (map (group_key key) (Old.workers d')) ∧
    ∀ w, w ∈ Old.workers d →
      ∃ kept, kept ∈ Old.workers d' ∧ group_key key kept = group_key key w ∧ newest kept w = true.
Proof.
  intros Hd. unfold dedup_workers. set (groups := repeated _). pose proof (NoDup_repeated (map (group_key key) (Old.workers d))) as Hn.
  edestruct (foldR_total (λ l b, inv b ∧ Old.workers b `sublist_of` Old.workers d ∧
      (∀ w, w ∈ Old.workers d → group_key key w ∉ l → w ∈ Old.workers b) ∧
      (∀ w w', w ∈ Old.workers b → w' ∈ Old.workers b → group_key key w = group_key key w' → group_key key w ∈ l → w = w') ∧
      (∀ w, w ∈ Old.workers d → group_key key w ∈ l →
         ∃ kept, kept ∈ Old.workers b ∧ group_key key kept = group_key key w ∧ newest kept w = true))
      (dedup_group str_dt key) groups d) as (d' & E & Hd' & Hs & Ha & Hu & Hk).
  { split_and!; [done|done|done| |]; [by intros w w' _ _ _ ?%elem_of_nil|by intros w _ ?%elem_of_nil]. }
  { intros l1 x l2 b Hl (Hb & Hs & Ha & Hu & Hk).
    assert (x ∉ l1) as Hx. { fold groups in Hn. rewrite Hl in Hn. apply NoDup_app in Hn as (_ & Hn & _). intros Hin. apply (Hn x Hin). by left. }
    assert (x ∈ groups) as Hxg by (rewrite Hl; set_solver). apply elem_of_repeated in Hxg as [Hxg _].
    apply list_elem_of_fmap in Hxg as (v & Ev & Hv).
    destruct (dedup_group_inv x b Hb) as (b' & kept & Eb & Hb' & Hs' & Hkb & Hkx & Hnew & Hiff).
    { exists v. split; [apply Ha; [done|by rewrite <-Ev]|done]. }
    exists b'. split_and!; [done|done|by etrans| | |].
    - intros w Hw Hg. apply Hiff. split; [apply Ha; set_solver|]. intros Ewx. exfalso. apply Hg. rewrite Ewx. set_solver.
    - intros w w' [Hw Hwx]%Hiff [Hw' Hwx']%Hiff Eg Hg. apply elem_of_app in Hg as [Hg|Hg%list_elem_of_singleton].
      + by apply Hu.
      + rewrite Hwx by done. by rewrite Hwx' by by rewrite <-Eg.
    - intros w Hw Hg. destruct (decide (group_key key w = x)) as [Ewx|Ewx].
      + exists kept. split_and!; [by apply Hiff|congruence|]. apply Hnew; [|done]. apply Ha; [done|by rewrite Ewx].
      + destruct (Hk w Hw) as (kept' & Hk1 & Hk2 & Hk3); [set_solver|]. exists kept'. split_and!; [|done|done].
        apply Hiff. split; [done|]. congruence. }
  exists d'. split_and!; [done|done|done| |].
  - apply NoDup_fmap_2_strong.
    + intros w w' Hw Hw' Eg. destruct (decide (group_key key w ∈ groups)) as [Hg|Hg]; [by apply Hu|].
      by apply (not_repeated (group_key key) (Old.workers d)); [|eapply elem_of_sublist..|].
    + eapply sublist_NoDup; [|apply (inv_workers _ Hd')]. by eapply NoDup_fmap_1.
  - intros w Hw. destruct (decide (group_key key w ∈ groups)) as [Hg|Hg]; [by apply Hk|].
    exists w. split_and!; [by apply Ha|done|]. unfold newest_first. destruct (key_leb _ _) eqn:Ek; [done|].
    by rewrite (key_leb_total _ _ Ek) in Ek.
Qed.

(** *** Ports *)
Lemma retire_rows_elem detail l (d : Phase0) i :
  i ∈ Old.instances (foldl (λ d i, retire_row detail (Instance1.id i) d) d l) → port_key i ≠ None →
  i ∈ Old.instances d ∧ Instance1.id i ∉ map Instance1.id l.
Proof.
  revert d. induction l as [|j l IH]; intros d; cbn [foldl].
  - split; [done|apply not_elem_of_nil].
  - intros Hi Hp. destruct (IH _ Hi Hp) as [H Hl]. cbn in H. apply elem_of_update_where in H as (x & Hx & E).
    destruct (N.eqb_spec (Instance1.id x) (Instance1.id j)) as [Ej|Ej].
    + destruct Hp. rewrite E. unfold port_key. cbn. by destruct (Instance1.worker_id x).
    + rewrite E in *. split; [done|]. cbn. intros [?|?]%elem_of_cons; done.
Qed.
Lemma retire_rows_inv detail l (d d' : Phase0) :
  inv d → inv d' → (∀ i, i ∈ l → i ∈ Old.instances d' ∧ port_key i ≠ None) →
  inv (foldl (λ d i, retire_row detail (Instance1.id i) d) d l).
Proof.
  intros Hd Hd'. revert d Hd. induction l as [|i l IH]; intros d Hd Hl; [done|]. cbn [foldl]. apply IH.
  - destruct (Hl i (list_elem_of_here _ _)) as [Hi Hp]. apply (retire_inv _ i d d'); [done..| |].
    + unfold port_key in Hp. destruct (Instance1.worker_id i), (Instance1.port i); try done. by destruct (active i).
    + unfold port_key, has_port in *. by destruct (Instance1.worker_id i), (Instance1.port i).
  - intros j Hj. apply Hl. by right.
Qed.
Lemma retire_rows_workers detail l (d : Phase0) :
  Old.workers (foldl (λ d i, retire_row detail (Instance1.id i) d) d l) = Old.workers d.
Proof. revert d. induction l as [|i l IH]; intros d; [done|]. cbn [foldl]. by rewrite IH. Qed.
Lemma dedup_port_inv d k :
  inv d → inv (dedup_port d k) ∧ Old.workers (dedup_port d k) = Old.workers d ∧
  (∀ i, i ∈ Old.instances (dedup_port d k) → port_key i ≠ None → i ∈ Old.instances d) ∧
  ∀ i j, i ∈ Old.instances (dedup_port d k) → j ∈ Old.instances (dedup_port d k) →
    port_key i = Some k → port_key j = Some k → i = j.
Proof.
  intros Hd. unfold dedup_port. cbn zeta. set (insts := sorted_by _ _).
  assert (∀ i, i ∈ insts ↔ i ∈ Old.instances d ∧ port_key i = Some k) as Hi.
  { intros i. unfold insts. by rewrite sorted_by_elem, elem_of_where, bool_decide_eq_true. }
  split_and!.
  - apply (retire_rows_inv _ _ d d); [done|done|]. intros i Hin.
    apply (elem_of_sublist _ insts), Hi in Hin as [? E]; [|apply sublist_drop]. split; [done|congruence].
  - apply retire_rows_workers.
  - intros i Hin Hp. by apply retire_rows_elem in Hin as [? _].
  - intros i j Hin Hjn Ei Ej. apply retire_rows_elem in Hin as [Hin Hi1]; [|congruence].
    apply retire_rows_elem in Hjn as [Hjn Hj1]; [|congruence].
    assert (i ∈ insts) as Hii by by apply Hi. assert (j ∈ insts) as Hjj by by apply Hi.
    destruct insts as [|a l]; [by apply elem_of_nil in Hii|]. change (drop 1 (a :: l)) with l in Hi1, Hj1.
    apply elem_of_cons in Hii as [->|Hii]; [|by destruct Hi1; apply list_elem_of_fmap_2].
    apply elem_of_cons in Hjj as [->|Hjj]; [done|by destruct Hj1; apply list_elem_of_fmap_2].
Qed.
Lemma NoDup_omap_inj {A K} (f : A → option K) l :
  NoDup l → (∀ x y k, x ∈ l → y ∈ l → f x = Some k → f y = Some k → x = y) → NoDup (omap f l).
Proof.
  induction 1 as [|x l Hx _ IH]; intros Hf; [constructor|]. cbn.
  assert (NoDup (omap f l)) as Hl by (apply IH; intros; eapply Hf; [by right|by right|done|done]).
  destruct (f x) as [k|] eqn:E; [|done]. constructor; [|done].
  intros (y & Hy & Ey)%list_elem_of_omap. apply Hx. rewrite (Hf x y k); [done|by left|by right|done|done].
Qed.
Lemma where_omap_length {A K} `{EqDecision K} (f : A → option K) k l :
  length (where_ (λ x, bool_decide (f x = Some k)) l) = length (where_ (λ k', bool_decide (k' = k)) (omap f l)).
Proof.
  unfold where_. induction l as [|x l IH]; [done|]. cbn. destruct (f x) as [k'|]; cbn.
  - destruct (decide (k' = k)) as [->|Hne].
    + rewrite !bool_decide_eq_true_2 by done. cbn. by rewrite IH.
    + rewrite !bool_decide_eq_false_2 by congruence. done.
  - by rewrite bool_decide_eq_false_2 by done.
Qed.
Lemma inv_instances_NoDup d : inv d → NoDup (Old.instances d).
Proof. intros Hd. apply (NoDup_fmap_1 Instance1.id). change (NoDup (map Instance1.id (Old.instances d))). by rewrite inv_ids. Qed.

(** After the fix of the ports the unique index can be created. *)
Lemma dedup_ports_inv d :
  inv d → inv (dedup_ports d) ∧ Old.workers (dedup_ports d) = Old.workers d ∧
  NoDup (omap port_key (Old.instances (dedup_ports d))).
Proof.
  intros Hd. unfold dedup_ports. set (groups := repeated _).
  assert (∀ l2 l1 b, groups = l1 ++ l2 → inv b → Old.workers b = Old.workers d →
    (∀ i, i ∈ Old.instances b → port_key i ≠ None → i ∈ Old.instances d) →
    (∀ i j k, i ∈ Old.instances b → j ∈ Old.instances b → port_key i = Some k → port_key j = Some k → k ∈ l1 → i = j) →
    let b' := foldl dedup_port b l2 in
    inv b' ∧ Old.workers b' = Old.workers d ∧
    (∀ i, i ∈ Old.instances b' → port_key i ≠ None → i ∈ Old.instances d) ∧
    ∀ i j k, i ∈ Old.instances b' → j ∈ Old.instances b' → port_key i = Some k → port_key j = Some k → k ∈ groups → i = j) as H.
  { induction l2 as [|k l2 IH]; intros l1 b Hl Hb Hw Hin Hu; [rewrite app_nil_r in Hl; by subst|].
    cbn [foldl]. destruct (dedup_port_inv b k Hb) as (Hb' & Hw' & Hin' & Hk).
    apply (IH (l1 ++ [k])); [by rewrite <-app_assoc|done|congruence| |].
    - intros i Hi Hp. by apply Hin; [apply Hin'|].
    - intros i j k' Hi Hj Ei Ej [Hk'|Hk'%list_elem_of_singleton]%elem_of_app; [|subst k'; by apply Hk].
      apply (Hu i j k'); [apply Hin'; [done|congruence]|apply Hin'; [done|congruence]|done..]. }
  destruct (H groups [] d) as (H1 & H2 & H3 & H4); [done|done|done|done|by intros ????????%elem_of_nil|].
  split_and!; [done|done|]. apply NoDup_omap_inj; [by apply inv_instances_NoDup|].
  intros i j k Hi Hj Ei Ej. destruct (decide (k ∈ groups)) as [Hk|Hk]; [by eapply H4|].
  assert (i ∈ where_ (λ x, bool_decide (port_key x = Some k)) (Old.instances d)) as Hi'.
  { apply elem_of_where. rewrite bool_decide_eq_true. split; [apply H3; [done|congruence]|done]. }
  assert (j ∈ where_ (λ x, bool_decide (port_key x = Some k)) (Old.instances d)) as Hj'.
  { apply elem_of_where. rewrite bool_decide_eq_true. split; [apply H3; [done|congruence]|done]. }
  assert (length (where_ (λ x, bool_decide (port_key x = Some k)) (Old.instances d)) <= 1)%nat as Hlen.
  { destruct (decide (1 < length (where_ (λ k', bool_decide (k' = k)) (omap port_key (Old.instances d))))%nat) as [Hc|Hc].
    - destruct Hk. apply elem_of_repeated. split; [|done]. apply list_elem_of_omap. exists i. split; [apply H3; [done|congruence]|done].
    - rewrite where_omap_length. lia. }
  destruct (where_ _ _) as [|a [|b l]]; [by apply elem_of_nil in Hi'| |cbn in Hlen; lia].
  apply list_elem_of_singleton in Hi', Hj'. congruence.
Qed.
End dedup.

(** *** Phase 0 *)
Section upgrade.
Context (str_dt : datetime → string) (d : Old.t Instance0.t) (Hd : initial_ok d = true).

(** The database with the new columns filled. *)
Definition backfilled : Phase0 := Old.with_instances (backfill_desired (map add_desired_state (Old.instances d))) d.

Ltac split_initial H := unfold initial_ok in H; repeat rewrite andb_true_iff in H; destruct_and! H;
  repeat match goal with H : unique_by _ _ = true |- _ => apply unique_by_NoDup in H end.

Definition desired0 (i : Instance0.t) : string := if String.eqb (Instance0.state i) "stopped" then "stopped" else "running".
Lemma backfilled_row i1 :
  i1 ∈ Old.instances backfilled → ∃ i, i ∈ Old.instances d ∧ i1 = Instance1.set_desired_state (desired0 i) (add_desired_state i).
Proof.
  unfold backfilled, backfill_desired. cbn. intros (x & (i & -> & Hi)%list_elem_of_fmap & ->)%elem_of_update_where.
  exists i. split; [done|]. unfold desired0. cbn. by destruct (String.eqb _ _).
Qed.
Lemma backfilled_instances :
  Old.instances backfilled = map (λ i, Instance1.set_desired_state (desired0 i) (add_desired_state i)) (Old.instances d).
Proof.
  unfold backfilled, backfill_desired, update_where. cbn. rewrite map_map. apply map_ext. intros i. unfold desired0. cbn.
  by destruct (String.eqb _ _).
Qed.
Lemma backfilled_checks : forallb ck_instance1 (Old.instances backfilled) = forallb ck_instance0 (Old.instances d).
Proof.
  rewrite backfilled_instances. induction (Old.instances d) as [|i l IH]; [done|]. cbn [map forallb]. rewrite IH. f_equal.
  unfold ck_instance1, ck_instance0, desired0. cbn [Instance1.state Instance1.desired_state Instance1.engine Instance1.profile Instance1.set_desired_state add_desired_state].
  destruct (String.eqb _ "stopped"); by rewrite andb_true_r.
Qed.
Lemma backfilled_ids : NoDup (map Worker.id (Old.workers backfilled)) ∧ NoDup (map Instance1.id (Old.instances backfilled)).
Proof.
  pose proof Hd as H. split_initial H. split; [done|]. rewrite backfilled_instances, map_map. done.
Qed.
Lemma backfilled_inv : inv backfilled backfilled.
Proof.
  pose proof Hd as H. split_initial H. apply inv_start.
  - intros g Hg. match goal with H : forallb (λ g, known_worker d _) _ = true |- _ => rewrite forallb_forall in H; apply H end.
    by rewrite <-list_elem_of_In.
  - intros i1 (i & Hi & ->)%backfilled_row.
    match goal with H : forallb (λ i, _ && known_worker d _) _ = true |- _ => rewrite forallb_forall in H; specialize (H i) end.
    rewrite <-list_elem_of_In in *. match goal with H : _ → _ = true |- _ => specialize (H Hi); rewrite !andb_true_iff in H; apply H end.
Qed.
(** Every worker is survived by one of its cluster that was seen as recently. *)
Definition survivors {I} (d1 : Old.t I) : Prop :=
  ∀ w, w ∈ Old.workers d → ∃ w', w' ∈ Old.workers d1 ∧ Worker.cluster_id w' = Worker.cluster_id w ∧
                                 newest_first str_dt w' w = true.
(** The de-duplication always completes. *)
Lemma dedup_completes :
  ∃ d1, (d ← dedup_workers str_dt Worker.hostname backfilled; d ← dedup_workers str_dt Worker.name d;
         _ ← orphan_check d; Ok (dedup_ports d)) = Ok d1 ∧
    inv backfilled d1 ∧ NoDup (omap port_key (Old.instances d1)) ∧
    NoDup (map (group_key Worker.hostname) (Old.workers d1)) ∧ NoDup (map (group_key Worker.name) (Old.workers d1)) ∧ survivors d1.
Proof.
  destruct backfilled_ids as [H1 H2].
  destruct (dedup_workers_inv backfilled H1 H2 str_dt Worker.hostname backfilled backfilled_inv) as (da & -> & Ia & _ & Na & Ka).
  destruct (dedup_workers_inv backfilled H1 H2 str_dt Worker.name da Ia) as (db & Eb & Ib & Sb & Nb & Kb).
  cbn. rewrite Eb. cbn. unfold orphan_check. rewrite (proj2 (forallb_forall _ _)).
  2: { intros i Hi. apply (inv_refs _ _ Ib). by rewrite list_elem_of_In. }
  cbn. destruct (dedup_ports_inv backfilled H2 db Ib) as (Ic & Ew & Np). exists (dedup_ports db).
  split_and!; [done|done|done| |by rewrite Ew|].
  - rewrite Ew. eapply sublist_NoDup; [exact Na|]. by apply fmap_sublist.
  - intros w Hw. rewrite Ew. destruct (Ka w Hw) as (w1 & Hw1 & [= E1 _] & Hn1). destruct (Kb w1 Hw1) as (w2 & Hw2 & [= E2 _] & Hn2).
    exists w2. split_and!; [done|congruence|]. unfold newest_first in *. by eapply key_leb_trans.
Qed.
Lemma upgrade_phase0_eq :
  if domains_ok d then
    ∃ d1, upgrade_phase0 str_dt d = Ok (Old.with_models (map add_supported_engines (Old.models d)) d1) ∧
      inv backfilled d1 ∧ NoDup (omap port_key (Old.instances d1)) ∧
      NoDup (map (group_key Worker.hostname) (Old.workers d1)) ∧ NoDup (map (group_key Worker.name) (Old.workers d1)) ∧ survivors d1
  else upgrade_phase0 str_dt d = Raise IntegrityError.
Proof.
  destruct dedup_completes as (d1 & E & Hinv & Np & Nh & Nn & Hs).
  unfold upgrade_phase0, domains_ok. cbn zeta. fold backfilled. rewrite backfilled_checks.
  change (Old.worker_gpus backfilled) with (Old.worker_gpus d). change (Old.workers backfilled) with (Old.workers d).
  unfold add_check at 1. destruct (forallb ck_instance0 _); [|by rewrite andb_false_r].
  unfold add_check at 1. destruct (unique_by _ (Old.worker_gpus d)); [|by rewrite !andb_false_r].
  unfold add_check at 1. destruct (forallb ck_gpu _); [|by rewrite !andb_false_r].
  unfold add_check at 1. destruct (forallb ck_worker _); [|by rewrite !andb_false_r]. rewrite !andb_true_r.
  cbn [mbind result_bind]. revert E.
  destruct (dedup_workers str_dt Worker.hostname backfilled) as [da|e]; [|done]. cbn [mbind result_bind].
  destruct (dedup_workers str_dt Worker.name da) as [db|e]; [|done]. cbn [mbind result_bind].
  destruct (orphan_check db) as [[]|e]; [|done]. cbn [mbind result_bind]. intros [= E]. rewrite E.
  unfold add_check at 1. rewrite (proj2 (unique_by_opt_NoDup _ _) Np). cbn [mbind result_bind].
  unfold add_check at 1. rewrite (proj2 (unique_by_NoDup _ _) Nh). cbn [mbind result_bind].
  unfold add_check at 1. rewrite (proj2 (unique_by_NoDup _ _) Nn). cbn [mbind result_bind].
  destruct (inv_rest _ _ Hinv) as (Eu & _ & Em). cbn [Old.models Old.with_models Old.users]. rewrite Em, Eu.
  change (Old.models backfilled) with (Old.models d). change (Old.users backfilled) with (Old.users d).
  assert (forallb ck_model (map add_supported_engines (Old.models d)) = forallb ck_model (Old.models d)) as ->.
  { induction (Old.models d) as [|m l IH]; [done|]. cbn [map forallb]. by rewrite IH. }
  unfold add_check at 1. destruct (forallb ck_model _); [|by rewrite andb_false_r].
  unfold add_check at 1. destruct (forallb ck_user _); [|done]. cbn [mbind result_bind andb]. eauto 10.
Qed.

(** *** One deployment per instance *)
Lemma backfill_eq fresh rows deps insts :
  NoDup (map Deployment.id deps ++ fresh) → (length rows <= length fresh)%nat →
  backfill fresh rows deps insts =
  Ok (deps ++ zip_with backfill_deployment fresh rows, insts ++ zip_with current_instance fresh rows).
Proof.
  revert fresh deps insts. induction rows as [|row rows IH]; intros [|dep fresh] deps insts Hn Hl; cbn [backfill zip_with];
    rewrite ?app_nil_r; try done; [cbn in Hl; lia|].
  destruct (existsb _ _) eqn:E.
  - apply existsb_exists in E as (x & Hx & Hid%N.eqb_eq). rewrite <-list_elem_of_In in Hx. apply NoDup_app in Hn as (_ & Hn & _).
    exfalso. apply (Hn (Deployment.id x)); [by apply list_elem_of_fmap_2|]. rewrite Hid. by left.
  - rewrite IH; [by rewrite <-!app_assoc| |cbn in Hl; lia]. by rewrite map_app, <-app_assoc.
Qed.
(** What the whole chain does to an instance. *)
Definition carried (i : Instance0.t) (i' : ModelInstance.t) : Prop :=
  ModelInstance.id i' = Instance0.id i ∧ ModelInstance.model_id i' = Instance0.model_id i ∧
  ModelInstance.cluster_id i' = Instance0.cluster_id i ∧ ModelInstance.engine i' = Instance0.engine i ∧
  ModelInstance.profile i' = Instance0.profile i ∧ ModelInstance.gpu_indexes i' = Instance0.gpu_indexes i ∧
  ModelInstance.generation i' = 1 ∧ ModelInstance.created_at i' = Instance0.created_at i ∧
  match Instance0.worker_id i, ModelInstance.worker_id i' with
  | Some w, Some w' => cluster_of d w' = cluster_of d w
  | None, None => True
  | _, _ => False
  end ∧
  (ModelInstance.port i' = Instance0.port i ∧ ModelInstance.state i' = Instance0.state i ∧
   ModelInstance.desired_state i' = desired0 i ∧ ModelInstance.error_detail i' = Instance0.error_detail i
   ∨ Instance0.state i ≠ "stopped" ∧ Instance0.port i ≠ None ∧ ModelInstance.port i' = None ∧
     ModelInstance.state i' = "error" ∧ ModelInstance.desired_state i' = "stopped").
Lemma moved_carried dep i row :
  moved backfilled (Instance1.set_desired_state (desired0 i) (add_desired_state i)) row → carried i (current_instance dep row).
Proof.
  unfold moved, carried. cbn. intros (-> & -> & -> & -> & -> & -> & -> & -> & Hw & Hu).
  do 8 (split; [done|]). split; [done|]. destruct Hu as [(? & ? & ? & ?)|(Ha & Hp & H1 & H2 & H3)]; [by left|]. right. split_and!; [| |done..].
  - intros Hs. unfold active, desired0 in Ha. cbn in Ha. by rewrite Hs in Ha.
  - unfold has_port in Hp. cbn in Hp. by destruct (Instance0.port i).
Qed.
Lemma moved_checks i row :
  moved backfilled i row → ck_instance1 i = true → ck_instance1 row = true.
Proof.
  unfold moved, ck_instance1. rewrite !andb_true_iff. intros (_ & _ & _ & -> & -> & _ & _ & _ & _ & Hu) [[[H1 H2] H3] H4].
  destruct Hu as [(_ & -> & -> & _)|(_ & _ & _ & -> & ->)]; done.
Qed.
Lemma carried_rows fresh rows :
  (length rows <= length fresh)%nat →
  Forall2 (λ i i', i ∈ Old.instances backfilled ∧ moved backfilled i i') (Old.instances backfilled) rows →
  Forall2 carried (Old.instances d) (zip_with current_instance fresh rows).
Proof.
  rewrite backfilled_instances. intros Hl H%Forall2_fmap_l. revert fresh Hl.
  induction H as [|i row l rows [_ Hm] _ IH]; intros [|dep fresh] Hl; try constructor; cbn in Hl; try lia.
  - by apply moved_carried.
  - apply IH. lia.
Qed.

(** *** The head of the chain *)
Lemma zip_ids {A B} (g : uuid → A → B) (id : B → uuid) fresh l :
  (length l <= length fresh)%nat → (∀ k x, id (g k x) = k) → map id (zip_with g fresh l) = take (length l) fresh.
Proof.
  intros Hl Hid. revert fresh Hl. induction l as [|x l IH]; intros [|k fresh] Hl; cbn in *; try done; try lia.
  by rewrite Hid, IH by lia.
Qed.
Lemma zip_keys {A B K} (g : uuid → A → B) (key : B → K) (key0 : A → K) fresh l :
  (length l <= length fresh)%nat → (∀ k x, key (g k x) = key0 x) → map key (zip_with g fresh l) = map key0 l.
Proof.
  intros Hl Hk. revert fresh Hl. induction l as [|x l IH]; intros [|k fresh] Hl; cbn in *; try done; try lia.
  by rewrite Hk, IH by lia.
Qed.
Lemma zip_omap {A B K} (g : uuid → A → B) (key : B → option K) (key0 : A → option K) fresh l :
  (length l <= length fresh)%nat → (∀ k x, key (g k x) = key0 x) → omap key (zip_with g fresh l) = omap key0 l.
Proof.
  intros Hl Hk. revert fresh Hl. induction l as [|x l IH]; intros [|k fresh] Hl; cbn in *; try done; try lia.
  by rewrite Hk, IH by lia.
Qed.
Lemma elem_of_zip_with {A B} (g : uuid → A → B) fresh l y :
  y ∈ zip_with g fresh l → ∃ k x, k ∈ fresh ∧ x ∈ l ∧ y = g k x ∧ (k, x) ∈ zip fresh l.
Proof.
  revert fresh. induction l as [|x l IH]; intros [|k fresh]; cbn; try by intros ?%elem_of_nil.
  intros [->|(k' & x' & ? & ? & ? & ?)%IH]%elem_of_cons; [exists k, x|exists k', x']; split_and!; try done; by (left || right).
Qed.
Lemma zip_with_elem {A B} (g : uuid → A → B) fresh l k x : (k, x) ∈ zip fresh l → g k x ∈ zip_with g fresh l.
Proof.
  revert fresh. induction l as [|y l IH]; intros [|k' fresh]; cbn; try by intros ?%elem_of_nil.
  intros [[= -> ->]|?]%elem_of_cons; [by left|right; by apply IH].
Qed.

Section head.
Context (Hdom : domains_ok d = true) (d1 : Phase0) (Hinv : inv backfilled d1) (Hports : NoDup (omap port_key (Old.instances d1))).
Context (Hhost : NoDup (map (group_key Worker.hostname) (Old.workers d1))).
Context (Hname : NoDup (map (group_key Worker.name) (Old.workers d1))).
Context (fresh : list uuid) (Hfresh : NoDup fresh) (Hlen : (length (Old.instances d1) <= length fresh)%nat).
Definition head_db : Db.t :=
  Db.mk (map add_limits (Old.users d)) [] (Old.clusters d) (map add_address (Old.workers d1)) (Old.worker_gpus d1)
    (map add_supported_engines (Old.models d)) (zip_with backfill_deployment fresh (Old.instances d1))
    (zip_with current_instance fresh (Old.instances d1)) [] [].

Lemma dom_row {A} (p : A → bool) l x : forallb p l = true → x ∈ l → p x = true.
Proof. rewrite forallb_forall. intros H Hx. apply H. by rewrite <-list_elem_of_In. Qed.
Lemma forallb_rows {A} (p : A → bool) l : (∀ x, x ∈ l → p x = true) → forallb p l = true.
Proof. intros H. apply forallb_forall. intros x Hx. apply H. by rewrite list_elem_of_In. Qed.
Lemma head_row row : row ∈ Old.instances d1 →
  ck_instance1 row = true ∧ known_worker d1 (Instance1.worker_id row) = true ∧
  (∃ m, m ∈ Old.models d ∧ Model.id m = Instance1.model_id row) ∧
  ∃ c, c ∈ Old.clusters d ∧ Cluster.id c = Instance1.cluster_id row.
Proof.
  intros Hr. split; [|split; [by apply (inv_refs _ _ Hinv)|]].
  - destruct (inv_row _ _ row Hinv Hr) as (i & Hi & Hm). eapply moved_checks; [exact Hm|].
    apply (dom_row _ (Old.instances backfilled)); [|done]. rewrite backfilled_checks.
    unfold domains_ok in Hdom. rewrite !andb_true_iff in Hdom. tauto.
  - destruct (inv_row _ _ row Hinv Hr) as (i1 & (i & Hi & ->)%backfilled_row & Hm). destruct Hm as (_ & -> & -> & _).
    pose proof Hd as H. split_initial H.
    match goal with H : forallb (λ i, _ && known_worker d (Instance0.worker_id i)) _ = true |- _ =>
      pose proof (dom_row _ _ _ H Hi) as Hrefs end. cbn beta in Hrefs.
    rewrite !andb_true_iff in Hrefs. destruct Hrefs as [[(m & Hm%list_elem_of_In & Em%N.eqb_eq)%existsb_exists
      (c & Hc%list_elem_of_In & Ec%N.eqb_eq)%existsb_exists] _]. split; [by exists m|by exists c].
Qed.
Lemma head_worker_rows w : w ∈ Old.workers d1 → w ∈ Old.workers d.
Proof. intros Hw. exact (elem_of_sublist _ _ _ Hw (inv_workers _ _ Hinv)). Qed.
Lemma head_find_worker x : x ∈ map Worker.id (Old.workers d1) → has (find_worker head_db x) = true.
Proof.
  intros (w & -> & Hw)%list_elem_of_fmap. apply find_by_has. exists (add_address w). split; [by apply list_elem_of_fmap_2|]. apply N.eqb_refl.
Qed.
Lemma head_find_cluster c : c ∈ Old.clusters d → has (find_cluster head_db (Cluster.id c)) = true.
Proof. intros Hc. apply find_by_has. exists c. split; [done|]. apply N.eqb_refl. Qed.
Lemma head_find_model m : m ∈ Old.models d → has (find_model head_db (Model.id m)) = true.
Proof. intros Hm. apply find_by_has. exists (add_supported_engines m). split; [by apply list_elem_of_fmap_2|]. apply N.eqb_refl. Qed.

Lemma head_checks : checks_ok head_db = true.
Proof.
  pose proof Hdom as H. unfold domains_ok in H. rewrite !andb_true_iff in H. destruct H as [[[[[Hu Hw] Hg] _] Hm] _].
  unfold checks_ok. rewrite !andb_true_iff. cbn [Db.users Db.workers Db.worker_gpus Db.models Db.deployments Db.instances head_db].
  split_and!; apply forallb_rows.
  - intros u (x & -> & Hx)%list_elem_of_fmap. exact (dom_row _ _ _ Hu Hx).
  - intros w (x & -> & Hx)%list_elem_of_fmap. exact (dom_row _ _ _ Hw (head_worker_rows _ Hx)).
  - intros g Hx. apply (dom_row _ _ _ Hg). exact (elem_of_sublist _ _ _ Hx (inv_gpus _ _ Hinv)).
  - intros m (x & -> & Hx)%list_elem_of_fmap. exact (dom_row _ _ _ Hm Hx).
  - intros dep (k & row & _ & Hr & -> & _)%elem_of_zip_with. apply head_row in Hr as [Hck _].
    unfold ck_instance1 in Hck. rewrite !andb_true_iff in Hck. destruct Hck as [[_ He] Hp].
    unfold ck_deployment. cbn [Deployment.engine Deployment.profile backfill_deployment]. by rewrite He, Hp.
  - intros i (k & row & _ & Hr & -> & _)%elem_of_zip_with. apply head_row in Hr as [Hck _]. exact Hck.
Qed.
Lemma head_uniques : uniques_ok head_db = true.
Proof.
  pose proof Hd as H. split_initial H.
  assert (NoDup (map Worker.id (Old.workers d1))) as Hwid.
  { eapply sublist_NoDup; [|apply (fmap_sublist Worker.id), (inv_workers _ _ Hinv)]. done. }
  pose proof Hdom as Hg. unfold domains_ok in Hg. rewrite !andb_true_iff in Hg. destruct Hg as [[[_ Hg] _] _]. apply unique_by_NoDup in Hg.
  unfold uniques_ok, unique_worker_port, unique_group_rank. rewrite !andb_true_iff.
  cbn [Db.users Db.workers Db.worker_gpus Db.models Db.deployments Db.instances Db.clusters Db.api_keys Db.usage_records
       Db.gpu_usage_records head_db].
  split_and!; first [apply unique_by_NoDup|apply unique_by_opt_NoDup]; rewrite ?map_map; try (constructor; fail); try done.
  - eapply sublist_NoDup; [exact Hg|]. apply (fmap_sublist (λ g, (WorkerGPU.worker_id g, WorkerGPU.index g))), (inv_gpus _ _ Hinv).
  - rewrite (zip_ids _ _ _ _ Hlen) by done. exact (sublist_NoDup _ _ Hfresh (sublist_take _ _)).
  - rewrite (zip_keys _ _ Instance1.id _ _ Hlen) by done. rewrite (inv_ids _ _ Hinv). apply backfilled_ids.
  - by rewrite (zip_omap _ _ port_key _ _ Hlen) by done.
  - rewrite (zip_omap _ _ (λ _, None : option (uuid * Z)) _ _ Hlen) by done.
    clear. induction (Old.instances d1); [constructor|done].
Qed.
Lemma head_fks : fks_ok head_db = true.
Proof.
  unfold fks_ok. rewrite !andb_true_iff.
  split_and!; try done; apply forallb_rows.
  - intros w (x & -> & Hx)%list_elem_of_fmap. pose proof Hd as H. split_initial H.
    match goal with H : forallb (λ w, existsb _ (Old.clusters d)) _ = true |- _ =>
      pose proof (dom_row _ _ _ H (head_worker_rows _ Hx)) as Hc end. cbn beta in Hc.
    apply existsb_exists in Hc as (c & Hc%list_elem_of_In & Ec%N.eqb_eq). cbn [Worker.cluster_id add_address Worker.set_address].
    rewrite <-Ec. by apply head_find_cluster.
  - intros g Hx. apply head_find_worker, known_worker_iff. by apply (inv_gpu_refs _ _ Hinv).
  - intros dep (k & row & _ & Hr & -> & _)%elem_of_zip_with. apply head_row in Hr as (_ & _ & (m & Hm & Em) & c & Hc & Ec).
    cbn [Deployment.model_id Deployment.cluster_id backfill_deployment]. rewrite <-Em, <-Ec.
    by rewrite head_find_model, head_find_cluster.
  - intros i (k & row & _ & Hr & -> & Hz)%elem_of_zip_with. apply head_row in Hr as (_ & Hw & (m & Hm & Em) & c & Hc & Ec).
    cbn [ModelInstance.model_id ModelInstance.cluster_id ModelInstance.deployment_id ModelInstance.worker_id current_instance].
    rewrite <-Em, <-Ec, head_find_model, head_find_cluster by done.
    assert (has (find_deployment head_db k) = true) as ->.
    { apply find_by_has. exists (backfill_deployment k row). split; [by apply zip_with_elem|apply N.eqb_refl]. }
    destruct (Instance1.worker_id row); [|done]. by apply head_find_worker, known_worker_iff.
Qed.
End head.

(** What the chain leaves, where the new checks accept the rows. *)
Lemma upgrade_head_eq fresh :
  domains_ok d = true → NoDup fresh → (length (Old.instances d) <= length fresh)%nat →
  ∃ d1, upgrade_phase0 str_dt d = Ok (Old.with_models (map add_supported_engines (Old.models d)) d1) ∧
    upgrade_head str_dt fresh d = Ok (head_db d1 fresh) ∧ constraints_ok (head_db d1 fresh) = true ∧
    inv backfilled d1 ∧ survivors d1 ∧ (length (Old.instances d1) <= length fresh)%nat.
Proof.
  intros Hdom Hfresh Hlen. pose proof upgrade_phase0_eq as H. rewrite Hdom in H. destruct H as (d1 & E & Hinv & Np & Nh & Nn & Hs).
  assert (length (Old.instances d1) <= length fresh)%nat as Hlen1.
  { rewrite <-(Forall2_length _ _ _ (inv_instances _ _ Hinv)), backfilled_instances, length_map. done. }
  exists d1. split; [done|]. unfold upgrade_head. rewrite E. cbn [mbind result_bind upgrade_phase1 Old.with_workers Old.with_models Old.instances].
  rewrite backfill_eq by done. cbn [mbind result_bind]. rewrite !app_nil_l.
  pose proof (head_checks Hdom d1 Hinv fresh) as Hck. pose proof (head_uniques Hdom d1 Hinv Np Nh Nn fresh Hfresh Hlen1) as Hun.
  pose proof (head_fks Hdom d1 Hinv fresh) as Hfk.
  split; [|split; [by unfold constraints_ok; rewrite Hck, Hun, Hfk|done]].
  assert (∀ p, (∀ k row, p (backfill_deployment k row) = true) →
            forallb p (zip_with backfill_deployment fresh (Old.instances d1)) = true) as Hp.
  { intros p Hp. apply forallb_rows. intros dep (k & row & _ & _ & -> & _)%elem_of_zip_with. apply Hp. }
  unfold add_check. rewrite !Hp by done.
  assert (unique_group_rank (zip_with current_instance fresh (Old.instances d1)) = true) as ->.
  { unfold uniques_ok in Hun. rewrite !andb_true_iff in Hun. tauto. }
  cbn [mbind result_bind]. destruct (inv_rest _ _ Hinv) as (Eu & Ec & _). unfold head_db. cbn. by rewrite Eu, Ec.
Qed.

(** C3 The chain of migrations reaches the schema the models declare.  From any
    database of the initial schema, duplicated workers and ports included, it
    raises exactly when a row holds a value the new checks refuse (or a worker two
    GPUs of one index); otherwise the database it leaves satisfies every
    constraint, each instance is there with a deployment of its own, of one replica,
    on a worker of the same cluster, unchanged unless it was active on a port
    another instance keeps, in which case it is stopped with an error and without a
    port, and every worker is survived by one of its cluster seen as recently. *)
Theorem migrations_reach_head fresh :
  NoDup fresh → (length (Old.instances d) <= length fresh)%nat →
  if domains_ok d then
    ∃ d', upgrade_head str_dt fresh d = Ok d' ∧ constraints_ok d' = true ∧
      Forall2 carried (Old.instances d) (Db.instances d') ∧
      map ModelInstance.deployment_id (Db.instances d') = map Deployment.id (Db.deployments d') ∧
      (∀ dep, dep ∈ Db.deployments d' → Deployment.min_replicas dep = 1 ∧ Deployment.max_replicas dep = 1) ∧
      (∀ w, w ∈ Old.workers d → ∃ w', w' ∈ Db.workers d' ∧ Worker.cluster_id w' = Worker.cluster_id w ∧
                                      newest_first str_dt w' w = true)
  else upgrade_head str_dt fresh d = Raise IntegrityError.
Proof.
  intros Hfresh Hlen. destruct (domains_ok d) eqn:Hdom.
  2: { pose proof upgrade_phase0_eq as H. rewrite Hdom in H. unfold upgrade_head. by rewrite H. }
  destruct (upgrade_head_eq fresh Hdom Hfresh Hlen) as (d1 & _ & E & Hok & Hinv & Hs & Hlen1).
  exists (head_db d1 fresh). split_and!; [done|done| | | |].
  - by apply carried_rows; [|apply Hinv].
  - cbn [Db.instances Db.deployments head_db]. by rewrite !zip_ids.
  - intros dep (k & row & _ & _ & -> & _)%elem_of_zip_with. done.
  - intros w Hw. destruct (Hs w Hw) as (w' & Hw' & Ec & Hn). exists (add_address w'). split_and!; [by apply list_elem_of_fmap_2|done|done].
Qed.
End upgrade.

(** Two rows for one host, each with an active instance on port 8000. *)
Definition sample_old : Old.t Instance0.t :=
  let worker id name seen := Worker.mk id 1 name "host-a" "connected" None None None None "" None (Some seen) 1 in
  let row id w state := Instance0.mk id 5 1 (Some w) "vllm" "latency" [0] state (Some 8000) None (Z.of_N id) in
  Old.mk [User.mk 1 "admin" None "" "admin" true None None] [Cluster.mk 1 "default" None 0]
    [worker 10%N "a" 3; worker 11%N "b" 7] [WorkerGPU.mk 10 0 "nvidia" "GPU" 1 0 0 None None]
    [Model.mk 5 "m" "M" "llm" None 1 false None false [] 0]
    [row 100%N 10%N "running"; row 101%N 11%N "running"; row 102%N 10%N "stopped"].
Lemma migrations_reach_head_witness :
  domains_ok sample_old = true ∧
  ∃ d', upgrade_head str_Z [900; 901; 902]%N sample_old = Ok d' ∧ constraints_ok d' = true.
Proof.
  split; [by vm_compute|].
  pose proof (migrations_reach_head str_Z sample_old ltac:(by vm_compute) [900; 901; 902]%N) as H.
  destruct H as (d' & E & Hc & _); [| |exists d'; split; [exact E|exact Hc]].
  - apply (bool_decide_unpack _). vm_compute. exact I.
  - cbn. lia.
Defined.
(** The worker seen last is kept; of the two instances on its port the one that was
    moved there is stopped; a stopped instance keeps its port. *)
Lemma sample_migrated :
  match upgrade_head str_Z [900; 901; 902]%N sample_old with
  | Ok d' => map Worker.id (Db.workers d') = [11%N] ∧
      map (λ i, (ModelInstance.worker_id i, ModelInstance.port i, ModelInstance.state i)) (Db.instances d') =
      [(Some 11%N, None, "error"); (Some 11%N, Some 8000, "running"); (Some 11%N, Some 8000, "stopped")]
  | Raise _ => False
  end.
Proof. by vm_compute. Qed.
