(* ===== verification/Downgrades.v ===== *)
(** * Down the schema migrations ([server/alembic/versions])

    What the [downgrade] of each revision does to the rows, down to the initial schema,
    and the way back up.  A downgrade drops columns, tables and constraints and so never
    fails; a column of the model's record that a revision no longer has takes the value
    the upgrade would give it. *)

From S2P Require Import Prelude PyStr Uuid Models Migrations.
Local Open Scope Z_scope.

(** ** The revisions, from the head *)
(** [8a89164e3de6]: the parallel columns of deployments and instances. *)
Definition drop_group (i : ModelInstance.t) : ModelInstance.t :=
  ModelInstance.mk (ModelInstance.id i) (ModelInstance.model_id i) (ModelInstance.cluster_id i) (ModelInstance.worker_id i)
    (ModelInstance.deployment_id i) (ModelInstance.engine i) (ModelInstance.profile i) (ModelInstance.gpu_indexes i)
    (ModelInstance.state i) (ModelInstance.desired_state i) (ModelInstance.generation i) (ModelInstance.port i)
    (ModelInstance.error_detail i) (ModelInstance.log_tail i) None None None None None (ModelInstance.created_at i).
Definition drop_nodes (r : Deployment.t) : Deployment.t :=
  Deployment.mk (Deployment.id r) (Deployment.model_id r) (Deployment.cluster_id r) (Deployment.engine r) (Deployment.profile r)
    (Deployment.min_replicas r) (Deployment.max_replicas r) 1 None (Deployment.created_at r) (Deployment.last_scaled_at r).
Definition downgrade_multinode (d : Db.t) : Db.t :=
  Db.set_deployments (map drop_nodes (Db.deployments d)) (Db.set_instances (map drop_group (Db.instances d)) d).
(** [392ee09252ef]: the limits of users. *)
Definition downgrade_quotas (d : Db.t) : Db.t := Db.set_users (map add_limits (Db.users d)) d.
(** [523ac0598aed]: the two usage tables. *)
Definition downgrade_usage (d : Db.t) : Db.t := Db.set_usage_records [] (Db.set_gpu_usage_records [] d).
(** [a5646d3ba245]: the log of an instance; [b4d7e91c2a58] only weakens a check. *)
Definition downgrade_log_tail (d : Db.t) : Db.t :=
  Db.set_instances (map (ModelInstance.set_log_tail None) (Db.instances d)) d.
(** [e8f2a6c41d93]: the deployments, and the reference to them. *)
Definition without_deployment (i : ModelInstance.t) : Instance1.t :=
  Instance1.mk (ModelInstance.id i) (ModelInstance.model_id i) (ModelInstance.cluster_id i) (ModelInstance.worker_id i)
    (ModelInstance.engine i) (ModelInstance.profile i) (ModelInstance.gpu_indexes i) (ModelInstance.state i)
    (ModelInstance.desired_state i) (ModelInstance.generation i) (ModelInstance.port i) (ModelInstance.error_detail i)
    (ModelInstance.created_at i).
Definition downgrade_phase2 (d : Db.t) : Phase0 :=
  Old.mk (Db.users d) (Db.clusters d) (Db.workers d) (Db.worker_gpus d) (Db.models d) (map without_deployment (Db.instances d)).
(** [d18580a27109]: the API keys (no part of an old database) and the addresses. *)
Definition downgrade_phase1 (d : Phase0) : Phase0 :=
  Old.with_workers (map add_address (Old.workers d)) (Old.worker_gpus d) d.
(** [d88ae166a92a]: the checks, the unique indexes, and three columns. *)
Definition without_desired_state (i : Instance1.t) : Instance0.t :=
  Instance0.mk (Instance1.id i) (Instance1.model_id i) (Instance1.cluster_id i) (Instance1.worker_id i) (Instance1.engine i)
    (Instance1.profile i) (Instance1.gpu_indexes i) (Instance1.state i) (Instance1.port i) (Instance1.error_detail i)
    (Instance1.created_at i).
Definition downgrade_phase0 (d : Phase0) : Old.t Instance0.t :=
  Old.with_models (map add_supported_engines (Old.models d)) (Old.with_instances (map without_desired_state (Old.instances d)) d).
(** [alembic downgrade] to the initial revision. *)
Definition downgrade_initial (d : Db.t) : Old.t Instance0.t :=
  downgrade_phase0 (downgrade_phase1 (downgrade_phase2 (downgrade_log_tail (downgrade_usage (downgrade_quotas (downgrade_multinode d)))))).

(** ** The instances that share a port *)
(** Retiring the rows of a list, in place. *)
Lemma retire_rows_map detail l (d0 : Phase0) :
  Old.instances (foldl (λ d i, retire_row detail (Instance1.id i) d) d0 l) =
  map (λ i, if bool_decide (Instance1.id i ∈ map Instance1.id l) then retire detail i else i) (Old.instances d0).
Proof.
  revert d0. induction l as [|x l IH]; intros d0; cbn [foldl map].
  - symmetry. etrans; [|apply map_id]. apply map_ext. intros i. by rewrite bool_decide_eq_false_2 by apply not_elem_of_nil.
  - rewrite IH. cbn [retire_row Old.instances Old.with_instances]. unfold update_where. rewrite map_map. apply map_ext.
    intros i. destruct (N.eqb_spec (Instance1.id i) (Instance1.id x)) as [E|E].
    + rewrite (bool_decide_eq_true_2 (Instance1.id i ∈ Instance1.id x :: _)) by (rewrite E; by left).
      by destruct (bool_decide _).
    + rewrite (bool_decide_ext (Instance1.id i ∈ Instance1.id x :: map Instance1.id l) (Instance1.id i ∈ map Instance1.id l)); [done|].
      rewrite elem_of_cons. tauto.
Qed.
Lemma where_map_fixed {A} (p : A → bool) f l :
  (∀ x, x ∈ l → if p x then f x = x else p (f x) = false) → where_ p (map f l) = where_ p l.
Proof.
  unfold where_. induction l as [|x l IH]; intros H; [done|]. cbn.
  assert (List.filter p (map f l) = List.filter p l) as E by (apply IH; intros y Hy; apply H; by right).
  specialize (H x ltac:(by left)). destruct (p x) eqn:Ep; rewrite ?H, ?Ep, E; done.
Qed.
Lemma earliest_total a b : earliest_first a b = false → earliest_first b a = true.
Proof.
  unfold earliest_first. destruct (Z.ltb_spec (Instance1.created_at a) (Instance1.created_at b)); [done|].
  destruct (Z.eqb_spec (Instance1.created_at a) (Instance1.created_at b)) as [->|]; cbn.
  - intros Hid%N.leb_gt. rewrite Z.ltb_irrefl, Z.eqb_refl. apply N.leb_le. lia.
  - intros _. by rewrite (proj2 (Z.ltb_lt _ _)) by lia.
Qed.
Lemma earliest_trans a b c : earliest_first a b = true → earliest_first b c = true → earliest_first a c = true.
Proof. unfold earliest_first. rewrite !orb_true_iff, !andb_true_iff, !Z.ltb_lt, !Z.eqb_eq, !N.leb_le. lia. Qed.
Lemma earliest_antisym a b :
  earliest_first a b = true → earliest_first b a = true → Instance1.id a = Instance1.id b.
Proof. unfold earliest_first. rewrite !orb_true_iff, !andb_true_iff, !Z.ltb_lt, !Z.eqb_eq, !N.leb_le. lia. Qed.

Section ports.
Context (rows : list Instance1.t) (Hids : NoDup (map Instance1.id rows)).
(** Another row, earlier than this one, is on its port. *)
Definition loses (i : Instance1.t) : bool :=
  match port_key i with
  | Some k => existsb (λ j, bool_decide (port_key j = Some k) && negb (Instance1.id j =? Instance1.id i)%N && earliest_first j i) rows
  | None => false
  end.
Definition among (groups : list (uuid * Z)) (i : Instance1.t) : bool :=
  match port_key i with Some k => bool_decide (k ∈ groups) | None => false end.
Definition settled (groups : list (uuid * Z)) (i : Instance1.t) : Instance1.t :=
  if loses i && among groups i then retire "dedup duplicate port" i else i.

Lemma id_inj i j : i ∈ rows → j ∈ rows → Instance1.id i = Instance1.id j → i = j.
Proof. intros. by apply (NoDup_map_inj_key Instance1.id rows). Qed.
(** All the rows on a port but the first have another one before them. *)
Lemma port_losers g i :
  i ∈ rows →
  Instance1.id i ∈ map Instance1.id (drop 1 (sorted_by earliest_first (where_ (λ j, bool_decide (port_key j = Some g)) rows))) ↔
  port_key i = Some g ∧ loses i = true.
Proof.
  intros Hi. set (S := sorted_by _ _).
  assert (∀ j, j ∈ S ↔ j ∈ rows ∧ port_key j = Some g) as HS.
  { intros j. unfold S. by rewrite sorted_by_elem, elem_of_where, bool_decide_eq_true. }
  assert (StronglySorted earliest_first S) as Hsort.
  { apply sorted_by_sorted; [apply earliest_total|apply earliest_trans]. }
  assert (NoDup (map Instance1.id S)) as Hn.
  { apply (NoDup_map_perm _ (where_ (λ j, bool_decide (port_key j = Some g)) rows)); [symmetry; apply sorted_by_perm|].
    by apply NoDup_map_where. }
  clearbody S. split.
  - intros (x & Hx & Hxs)%list_elem_of_fmap. assert (x ∈ S) as HxS by (eapply elem_of_sublist; [exact Hxs|apply sublist_drop]).
    pose proof HxS as [Hxr Ek]%HS. assert (i = x) as -> by by apply id_inj.
    split; [done|]. unfold loses. rewrite Ek. apply existsb_exists.
    destruct S as [|a S]; [by apply elem_of_nil in HxS|]. change (drop 1 (a :: S)) with S in Hxs.
    assert (a ∈ a :: S) as [Har Ea]%HS by by left. exists a. split; [by apply list_elem_of_In|].
    inversion_clear Hsort as [|? ? _ Hall]. inversion_clear Hn as [|? ? Hna _].
    rewrite bool_decide_eq_true_2 by done. cbn [andb]. apply andb_true_iff. split.
    + apply negb_true_iff, N.eqb_neq. intros E. apply Hna. rewrite E. by apply list_elem_of_fmap_2.
    + rewrite Forall_forall in Hall. by apply Is_true_true, Hall.
  - intros [Ek Hl]. assert (i ∈ S) as HiS by by apply HS. unfold loses in Hl. rewrite Ek in Hl.
    apply existsb_exists in Hl as (j & Hj%list_elem_of_In & H). rewrite !andb_true_iff in H. destruct H as [[Hk%bool_decide_eq_true Hne] He].
    apply negb_true_iff, N.eqb_neq in Hne. assert (j ∈ S) as HjS by by apply HS.
    destruct S as [|a S]; [by apply elem_of_nil in HiS|]. change (drop 1 (a :: S)) with S.
    apply elem_of_cons in HiS as [->|HiS]; [|by apply list_elem_of_fmap_2].
    apply elem_of_cons in HjS as [->|HjS]; [done|]. inversion_clear Hsort as [|? ? _ Hall]. rewrite Forall_forall in Hall.
    destruct Hne. symmetry. apply earliest_antisym; [|done]. by apply Is_true_true, Hall.
Qed.
Lemma dedup_port_settled groups g (d0 : Phase0) :
  g ∉ groups → Old.instances d0 = map (settled groups) rows →
  Old.instances (dedup_port d0 g) = map (settled (groups ++ [g])) rows.
Proof.
  intros Hg E. unfold dedup_port. cbv zeta. rewrite E, where_map_fixed.
  2: { intros x _. unfold settled, among. case_bool_decide as Hk.
       - rewrite Hk, (bool_decide_eq_false_2 (g ∈ groups)) by done. by rewrite andb_false_r.
       - destruct (loses x && _); apply bool_decide_eq_false; [unfold port_key; cbn; by destruct (Instance1.worker_id x)|done]. }
  rewrite retire_rows_map, E, map_map. apply map_ext_in. intros i Hi%list_elem_of_In.
  assert (Instance1.id (settled groups i) = Instance1.id i) as -> by (unfold settled; by destruct (_ && _)).
  pose proof (port_losers g i Hi) as Hlose. unfold settled, among at 3.
  case_bool_decide as Hin; [apply Hlose in Hin as [Ek Hl]|].
  - unfold among. rewrite Ek, Hl, (bool_decide_eq_false_2 (g ∈ groups)), (bool_decide_eq_true_2 (g ∈ groups ++ [g])); [done| |done].
    apply elem_of_app. right. by left.
  - unfold among. destruct (loses i) eqn:El; [|done]. cbn [andb]. destruct (port_key i) as [k|] eqn:Ek; [|done].
    assert (k ≠ g) as Hkg by (intros ->; apply Hin, Hlose; done).
    rewrite (bool_decide_ext (k ∈ groups ++ [g]) (k ∈ groups)); [done|]. rewrite elem_of_app, list_elem_of_singleton. tauto.
Qed.
(** Phase 0 stops the rows that share a port with an earlier one, and no other. *)
Lemma dedup_ports_settled (d0 : Phase0) :
  Old.instances d0 = rows →
  Old.instances (dedup_ports d0) = map (λ i, if loses i then retire "dedup duplicate port" i else i) rows.
Proof.
  intros E. unfold dedup_ports. rewrite E.
  assert (∀ l2 l1 d1, repeated (omap port_key rows) = l1 ++ l2 → Old.instances d1 = map (settled l1) rows →
            Old.instances (foldl dedup_port d1 l2) = map (settled (l1 ++ l2)) rows) as Hloop.
  { induction l2 as [|g l2 IH]; intros l1 d1 El E1; [by rewrite app_nil_r|]. cbn [foldl].
    rewrite (IH (l1 ++ [g])); [by rewrite <-app_assoc|by rewrite <-app_assoc|]. apply dedup_port_settled; [|done].
    pose proof (NoDup_repeated (omap port_key rows)) as Hn. rewrite El in Hn. apply NoDup_app in Hn as (_ & Hn & _).
    intros Hg. apply (Hn g Hg). by left. }
  rewrite (Hloop _ [] d0 eq_refl).
  - apply map_ext_in. intros i Hi%list_elem_of_In. unfold settled. destruct (loses i) eqn:El; [|done]. cbn [app andb].
    unfold among, loses in *. destruct (port_key i) as [k|] eqn:Ek; [|done]. rewrite bool_decide_eq_true_2; [done|].
    apply existsb_exists in El as (j & Hj%list_elem_of_In & H). rewrite !andb_true_iff in H. destruct H as [[Hk%bool_decide_eq_true Hne] _].
    apply negb_true_iff, N.eqb_neq in Hne. apply elem_of_repeated. split; [apply list_elem_of_omap; eauto|].
    rewrite <-where_omap_length.
    assert (i ∈ where_ (λ x, bool_decide (port_key x = Some k)) rows) as Wi by (apply elem_of_where; by rewrite bool_decide_eq_true).
    assert (j ∈ where_ (λ x, bool_decide (port_key x = Some k)) rows) as Wj by (apply elem_of_where; by rewrite bool_decide_eq_true).
    destruct (where_ _ rows) as [|a [|b l]]; [by apply elem_of_nil in Wi| |cbn; lia].
    apply list_elem_of_singleton in Wi, Wj. congruence.
  - rewrite E. symmetry. etrans; [|apply map_id]. apply map_ext. intros i. unfold settled, among.
    destruct (port_key i); [rewrite bool_decide_eq_false_2 by apply not_elem_of_nil|]; by rewrite andb_false_r.
Qed.
End ports.

(** ** What is left satisfies the initial schema, and the checks of the way up *)
Section down.
Context (d : Db.t) (Hd : constraints_ok d = true).
Notation old := (downgrade_initial d).
Definition instance0 (i : ModelInstance.t) : Instance0.t := without_desired_state (without_deployment i).
Lemma old_instances : Old.instances old = map instance0 (Db.instances d).
Proof. cbn. by rewrite !map_map. Qed.

Lemma existsb_find {A} (p : A → bool) l : existsb p l = has (find_by p l).
Proof. induction l as [|x l IH]; [done|]. cbn. by destruct (p x). Qed.
Lemma existsb_map {A B} (f : A → B) p l : existsb p (map f l) = existsb (λ x, p (f x)) l.
Proof. induction l as [|x l IH]; [done|]. cbn. by rewrite IH. Qed.
Lemma known_worker_old w : known_worker old (Some w) = has (find_worker d w).
Proof. unfold known_worker, find_worker. rewrite <-existsb_find. cbn. by rewrite existsb_map. Qed.
Lemma known_model_old m : existsb (λ r, (Model.id r =? m)%N) (Old.models old) = has (find_model d m).
Proof. unfold find_model. rewrite <-existsb_find. cbn. by rewrite existsb_map. Qed.
Lemma known_cluster_old c : existsb (λ r, (Cluster.id r =? c)%N) (Old.clusters old) = has (find_cluster d c).
Proof. unfold find_cluster. by rewrite <-existsb_find. Qed.
Ltac split_constraints :=
  let H := fresh in
  pose proof Hd as H; unfold constraints_ok, checks_ok, uniques_ok, fks_ok in H; rewrite !andb_true_iff in H; destruct_and! H.

Lemma initial_ok_old : initial_ok old = true.
Proof.
  split_constraints. unfold initial_ok. rewrite old_instances, !andb_true_iff.
  split_and!; try (unfold unique_by in *; cbn; rewrite ?map_map; assumption); apply forallb_rows.
  - intros w (x & -> & Hx)%list_elem_of_fmap. rewrite known_cluster_old.
    match goal with H : forallb (λ w, has (find_cluster d (Worker.cluster_id w))) _ = true |- _ => exact (dom_row _ _ _ H Hx) end.
  - intros g Hg. rewrite known_worker_old.
    match goal with H : forallb (λ g, has (find_worker d (WorkerGPU.worker_id g))) _ = true |- _ => exact (dom_row _ _ _ H Hg) end.
  - intros i0 (i & -> & Hi)%list_elem_of_fmap. rewrite known_model_old, known_cluster_old.
    match goal with H : forallb (λ i, _ && match ModelInstance.worker_id i with Some _ => _ | None => _ end) _ = true |- _ =>
      pose proof (dom_row _ _ _ H Hi) as Hr end.
    cbn beta in Hr. rewrite !andb_true_iff in Hr. rewrite !andb_true_iff. cbn. destruct Hr as [[[-> ->] _] Hw].
    split; [done|]. destruct (ModelInstance.worker_id i) as [w|]; [|done]. by rewrite known_worker_old.
Qed.
Lemma domains_ok_old : domains_ok old = true.
Proof.
  split_constraints. unfold domains_ok. rewrite old_instances, !andb_true_iff.
  split_and!; try assumption; apply forallb_rows.
  - intros u (x & -> & Hx)%list_elem_of_fmap.
    match goal with H : forallb ck_user _ = true |- _ => exact (dom_row _ _ _ H Hx) end.
  - intros w (x & -> & Hx)%list_elem_of_fmap.
    match goal with H : forallb ck_worker _ = true |- _ => exact (dom_row _ _ _ H Hx) end.
  - intros m (x & -> & Hx)%list_elem_of_fmap.
    match goal with H : forallb ck_model _ = true |- _ => exact (dom_row _ _ _ H Hx) end.
  - intros i0 (i & -> & Hi)%list_elem_of_fmap.
    match goal with H : forallb ck_instance _ = true |- _ => pose proof (dom_row _ _ _ H Hi) as Hr end.
    unfold ck_instance, ck_instance0 in *. rewrite !andb_true_iff in Hr. rewrite !andb_true_iff. cbn. tauto.
Qed.

(** Workers of a database of the head have no duplicates left to merge. *)
Lemma repeated_none {K} `{EqDecision K} (l : list K) : NoDup l → repeated l = [].
Proof.
  intros Hn. unfold repeated. apply where_nil, Forall_forall. intros k Hk. apply Nat.ltb_ge.
  clear Hk. induction Hn as [|x l Hx Hn IH]; [cbn; lia|]. unfold where_ in *. cbn [List.filter].
  case_bool_decide as E; [|done]. subst x. cbn [length].
  assert (List.filter (λ k', bool_decide (k' = k)) l = []) as ->; [|done].
  apply where_nil, Forall_forall. intros y Hy. apply bool_decide_eq_false. by intros ->.
Qed.
Lemma dedup_workers_unique str_dt key (d0 : Phase0) :
  NoDup (map (group_key key) (Old.workers d0)) → dedup_workers str_dt key d0 = Ok d0.
Proof. intros H. unfold dedup_workers. by rewrite repeated_none. Qed.
(** Freeing ports changes no worker. *)
Lemma retire_rows_rest detail ids (d0 : Phase0) :
  let d1 := foldl (λ d i, retire_row detail (Instance1.id i) d) d0 ids in
  Old.workers d1 = Old.workers d0 ∧ Old.worker_gpus d1 = Old.worker_gpus d0.
Proof. revert d0. induction ids as [|i ids IH]; intros d0; [done|]. apply (IH (retire_row detail (Instance1.id i) d0)). Qed.
Lemma dedup_ports_rest (d0 : Phase0) :
  Old.workers (dedup_ports d0) = Old.workers d0 ∧ Old.worker_gpus (dedup_ports d0) = Old.worker_gpus d0.
Proof.
  unfold dedup_ports. generalize (repeated (omap port_key (Old.instances d0))) as groups. intros groups. revert d0.
  induction groups as [|grp groups IH]; intros d0; [done|]. cbn [foldl]. destruct (IH (dedup_port d0 grp)) as [-> ->].
  by apply retire_rows_rest.
Qed.

Lemma group_keys_old (key : Worker.t → string) :
  (∀ w, key (add_address w) = key w) → unique_by (λ w, (Worker.cluster_id w, key w)) (Db.workers d) = true →
  NoDup (map (group_key key) (Old.workers old)).
Proof.
  intros Hk Hu%unique_by_NoDup.
  assert (map (group_key key) (Old.workers old) = map (λ w, (Worker.cluster_id w, key w)) (Db.workers d)) as ->; [|done].
  cbn. rewrite map_map. apply map_ext. intros w. unfold group_key. by rewrite Hk.
Qed.
Lemma with_models_inj m m' (a b : Phase0) :
  Ok (Old.with_models m a) = Ok (Old.with_models m' b) →
  Old.workers b = Old.workers a ∧ Old.worker_gpus b = Old.worker_gpus a ∧ Old.instances b = Old.instances a.
Proof. destruct a, b. by intros [= -> -> -> -> -> ->]. Qed.
(** On the way up from workers without duplicates, phase 0 has only ports to free. *)
Lemma phase0_unique str_dt (o : Old.t Instance0.t) m d1 :
  NoDup (map (group_key Worker.hostname) (Old.workers o)) → NoDup (map (group_key Worker.name) (Old.workers o)) →
  NoDup (map Instance1.id (Old.instances (backfilled o))) →
  upgrade_phase0 str_dt o = Ok (Old.with_models m d1) →
  let rows := Old.instances (backfilled o) in
  Old.workers d1 = Old.workers o ∧ Old.worker_gpus d1 = Old.worker_gpus o ∧
  Old.instances d1 = map (λ i, if loses rows i then retire "dedup duplicate port" i else i) rows.
Proof.
  intros Hh Hn Hids E. unfold upgrade_phase0 in E. cbv zeta in E. fold (backfilled o) in E.
  apply result_bind_Ok in E as ([] & _ & ([] & _ & ([] & _ & ([] & _ & E)%result_bind_Ok)%result_bind_Ok)%result_bind_Ok).
  rewrite dedup_workers_unique in E by done. rewrite result_bind_eq, dedup_workers_unique in E by done.
  rewrite result_bind_eq in E.
  apply result_bind_Ok in E as ([] & _ & ([] & _ & ([] & _ & ([] & _ & ([] & _ & ([] & _ & E)%result_bind_Ok)%result_bind_Ok)%result_bind_Ok)%result_bind_Ok)%result_bind_Ok).
  apply with_models_inj in E as (-> & -> & ->). destruct (dedup_ports_rest (backfilled o)) as [Hw Hg].
  cbv zeta. rewrite Hw, Hg. split_and!; [done|done|]. by apply dedup_ports_settled.
Qed.

(** The port an instance would hold if it ran: a stopped one holds none. *)
Definition wanted_port (i : ModelInstance.t) : option (uuid * Z) :=
  if String.eqb (ModelInstance.state i) "stopped" then None
  else match ModelInstance.worker_id i, ModelInstance.port i with Some w, Some p => Some (w, p) | _, _ => None end.
(** Another instance that is not stopped has the same port of the same worker and was
    created before, or at the same time with a smaller id. *)
Definition outranked (i : ModelInstance.t) : bool :=
  match wanted_port i with
  | None => false
  | Some k => existsb (λ j, bool_decide (wanted_port j = Some k) && negb (ModelInstance.id j =? ModelInstance.id i)%N
      && ((ModelInstance.created_at j <? ModelInstance.created_at i)
          || ((ModelInstance.created_at j =? ModelInstance.created_at i) && (ModelInstance.id j <=? ModelInstance.id i)%N)))
      (Db.instances d)
  end.
(** What an instance is after the way down and back, in the deployment made for it. *)
Definition returned (dep_id : uuid) (i : ModelInstance.t) : ModelInstance.t :=
  let lost := outranked i in
  ModelInstance.mk (ModelInstance.id i) (ModelInstance.model_id i) (ModelInstance.cluster_id i) (ModelInstance.worker_id i)
    dep_id (ModelInstance.engine i) (ModelInstance.profile i) (ModelInstance.gpu_indexes i)
    (if lost then "error" else ModelInstance.state i)
    (if lost || String.eqb (ModelInstance.state i) "stopped" then "stopped" else "running") 1
    (if lost then None else ModelInstance.port i)
    (if lost then Some "dedup duplicate port" else ModelInstance.error_detail i)
    None None None None None None (ModelInstance.created_at i).
Definition replaced (dep_id : uuid) (i : ModelInstance.t) : Deployment.t :=
  Deployment.mk dep_id (ModelInstance.model_id i) (ModelInstance.cluster_id i) (ModelInstance.engine i)
    (ModelInstance.profile i) 1 1 1 None (ModelInstance.created_at i) None.

Definition row0 (i : ModelInstance.t) : Instance1.t :=
  Instance1.set_desired_state (desired0 (instance0 i)) (add_desired_state (instance0 i)).
Lemma rows_old : Old.instances (backfilled old) = map row0 (Db.instances d).
Proof. rewrite backfilled_instances, old_instances, map_map. done. Qed.
Lemma port_key_row0 i : port_key (row0 i) = wanted_port i.
Proof.
  unfold port_key, wanted_port, active, row0, desired0. cbn. destruct (String.eqb_spec (ModelInstance.state i) "stopped") as [->|]; cbn.
  - by destruct (ModelInstance.worker_id i), (ModelInstance.port i).
  - done.
Qed.
Lemma loses_row0 i : loses (map row0 (Db.instances d)) (row0 i) = outranked i.
Proof.
  unfold loses, outranked. rewrite port_key_row0. destruct (wanted_port i) as [k|]; [|done].
  rewrite existsb_map. induction (Db.instances d) as [|j l IH]; [done|]. cbn [existsb]. by rewrite IH, port_key_row0.
Qed.
Lemma returned_row dep i :
  current_instance dep (if outranked i then retire "dedup duplicate port" (row0 i) else row0 i) = returned dep i.
Proof. unfold returned. by destruct (outranked i), i. Qed.
Lemma replaced_row dep i :
  backfill_deployment dep (if outranked i then retire "dedup duplicate port" (row0 i) else row0 i) = replaced dep i.
Proof. by destruct (outranked i), i. Qed.
Lemma zip_with_map {A B C} (g : uuid → B → C) (f : A → B) fresh l :
  zip_with g fresh (map f l) = zip_with (λ k x, g k (f x)) fresh l.
Proof. revert fresh. induction l as [|x l IH]; intros [|k fresh]; [done..|]. cbn. by rewrite IH. Qed.
Lemma zip_with_eq {A C} (g h : uuid → A → C) fresh l :
  (∀ k x, g k x = h k x) → zip_with g fresh l = zip_with h fresh l.
Proof. intros H. revert fresh. induction l as [|x l IH]; intros [|k fresh]; [done..|]. cbn. by rewrite H, IH. Qed.

End down.

(** Two instances on port 8000 of a worker: one that failed and was stopped, and gave the
    port up; and one that runs on it since.  An API key, and what it was used for. *)
Definition sample_head : Db.t :=
  let row id state desired created :=
    ModelInstance.mk id 5 1 (Some 10%N) 7 "vllm" "latency" [0] state desired 2 (Some 8000) None None None None None None None created in
  Db.mk [User.mk 1 "admin" None "" "admin" true (Some 10) None] [ApiKey.mk 2 1 "ci" "h" ["inference"] None None 0] [Cluster.mk 1 "default" None 0]
    [Worker.mk 10 1 "a" "host-a" "connected" None None None None "" (Some "10.0.0.1") (Some 3) 1]
    [WorkerGPU.mk 10 0 "nvidia" "GPU" 1 0 0 None None] [Model.mk 5 "m" "M" "llm" None 1 false None false ["vllm"] 0]
    [Deployment.mk 7 5 1 "vllm" "latency" 1 2 1 None 0 None]
    [row 100%N "error" "stopped" 1; row 101%N "running" "running" 2] [UsageRecord.mk 1 2 5 20 3 30 15 600] [].
(** Phase 0 takes every instance that is not [stopped] for one that is to run, and of the
    instances on a port keeps the oldest: the one that failed gets the port back, and the
    one that runs is stopped. *)
Lemma running_instance_yields :
  match upgrade_head str_Z [900; 901]%N (downgrade_initial sample_head) with
  | Ok d' => map (λ i, (ModelInstance.id i, ModelInstance.state i, ModelInstance.desired_state i, ModelInstance.port i)) (Db.instances d') =
      [(100%N, "error", "running", Some 8000); (101%N, "error", "stopped", None)]
  | Raise _ => False
  end.
Proof. by vm_compute. Qed.
