(* ===== verification/Telemetry.v ===== *)
(** * Serving latencies ([server/inferna_server/api/gateway.py], [_relay] and [_observe_serving])

    The time to the first token, the intervals between tokens and the throughput
    that the gateway observes for a relayed request, and what the autoscaler reads
    of them.  [time.perf_counter()] is the sequence of its readings, in seconds. *)

From Stdlib Require Import QArith Qround Lqa.
From S2P Require Import Prelude PyStr Models Config Usage Json PrefixCache Gateway Autoscaling.
Local Open Scope Z_scope.

(** ** The deltas the relay meets

    [_content_deltas] is a generator: the deltas of the lines before one it cannot
    iterate have been yielded when it raises. *)
Fixpoint lines_deltas (lines : list string) : list string * option exn :=
  match lines with
  | [] => ([], None)
  | line :: lines =>
      match line_deltas line with
      | Raise e => ([], Some e)
      | Ok ds => let '(ds', e) := lines_deltas lines in (ds ++ ds', e)
      end
  end.
Fixpoint relay_deltas (path : string) (chunks : list string) : list string :=
  match chunks with
  | [] => []
  | c :: l =>
      if tracked_path path then
        let '(ds, e) := lines_deltas (splitlines (decode_replace c)) in
        match e with Some _ => ds | None => ds ++ relay_deltas path l end
      else relay_deltas path l
  end.

(** ** The relay's clock readings *)
Module Timing.
Record t := mk { first_content_at : option Q; last_content_at : option Q; itl_ms : list Q; readings : nat }.
Definition zero : t := mk None None [] 0.
End Timing.

(** The labels of the serving histograms: model, engine, parallelism. *)
Definition serving_labels : Type := string * string * string.
Inductive observation := ObserveTTFT (v : Q) | ObserveITL (v : Q) | ObserveTPS (v : Q).
Definition labels_of (ctx : UsageContext.t) : serving_labels :=
  (UsageContext.model_name ctx, UsageContext.engine ctx, UsageContext.parallelism ctx).
Definition seconds (micros : Z) : Q := micros # 1000000.

Section relay.
(** The readings of [time.perf_counter()] while the stream is relayed. *)
Context (clock : nat → Q).

Definition on_delta (t : Timing.t) : Timing.t :=
  let now := clock (Timing.readings t) in
  match Timing.first_content_at t with
  | None => Timing.mk (Some now) (Some now) (Timing.itl_ms t) (S (Timing.readings t))
  | Some first =>
      let interval := match Timing.last_content_at t with
                      | Some last => if Qeq_bool last 0 then 0%Q else ((now - last) * 1000)%Q
                      | None => 0%Q
                      end in
      Timing.mk (Some first) (Some now) (Timing.itl_ms t ++ [interval]) (S (Timing.readings t))
  end.
Definition relay_timing (path : string) (chunks : list string) : Timing.t :=
  foldl (λ t _, on_delta t) Timing.zero (relay_deltas path chunks).

(** [now]: the last reading, at the end of the stream. *)
Definition _observe_serving (now : Q) (ctx : UsageContext.t) (tokens : option (Z * Z)) (first_content_at : option Q)
    (itl_ms : list Q) : list (serving_labels * observation) :=
  let observe := pair (labels_of ctx) in
  (match first_content_at with
   | Some first => [observe (ObserveTTFT (first - seconds (UsageContext.started ctx))%Q)]
   | None => []
   end)
  ++ map (λ interval_ms, observe (ObserveITL (interval_ms / 1000)%Q)) itl_ms
  ++ match tokens, first_content_at with
     | Some (_, tokens_out), Some first =>
         let generation_seconds := (now - first)%Q in
         if (0 <? tokens_out) && negb (Qle_bool generation_seconds 0)
         then [observe (ObserveTPS (inject_Z tokens_out / generation_seconds)%Q)] else []
     | _, _ => []
     end.
(** What [finally] of [_relay] observes. *)
Definition relay_observations (now : Q) (path : string) (ctx : UsageContext.t) (chunks : list string)
    : list (serving_labels * observation) :=
  let '(tail, _, _) := relay_loop path [] [] chunks in
  let t := relay_timing path chunks in
  _observe_serving now ctx (_record_usage tail) (Timing.first_content_at t) (Timing.itl_ms t).
End relay.

(** The time to the first byte that [forward] observes: of a send that failed before
    it [started] it is zero; a cancelled one is not observed. *)
Definition first_byte (model_name : string) (started : option Q) (now : Q) (sent : Upstream.outcome) : list (string * Q) :=
  let elapsed := match started with Some started => (now - started)%Q | None => 0%Q end in
  match sent with
  | Upstream.Cancelled => []
  | Upstream.Unreachable | Upstream.Answered _ => [(model_name, elapsed)]
  end.

(** ** Reading a log of observations *)
Definition ttft_of (o : observation) : option Q := match o with ObserveTTFT v => Some v | _ => None end.
Definition itl_of (o : observation) : option Q := match o with ObserveITL v => Some v | _ => None end.
Definition tps_of (o : observation) : option Q := match o with ObserveTPS v => Some v | _ => None end.
Definition qsum (l : list Q) : Q := foldr Qplus 0%Q l.

(** ** Properties of the deltas *)
(** The parser that [relay_loop] runs on a chunk is this generator, run to its end. *)
Lemma foldR_deltas acc lines :
  foldR (λ acc line, l ← line_deltas line; Ok (acc ++ l)) acc lines =
  match lines_deltas lines with (ds, None) => Ok (acc ++ ds) | (_, Some e) => Raise e end.
Proof.
  revert acc. induction lines as [|line lines IH]; intros acc; cbn [foldR lines_deltas]; [by rewrite app_nil_r|].
  destruct (line_deltas line) as [ds|e]; [|done]. cbn. rewrite IH.
  destruct (lines_deltas lines) as [ds' [e|]]; [done|]. by rewrite <-app_assoc.
Qed.
Lemma content_deltas_lines text :
  _content_deltas text =
  match lines_deltas (splitlines text) with (ds, None) => Ok ds | (_, Some e) => Raise e end.
Proof. apply foldR_deltas. Qed.
Lemma untracked_no_deltas path chunks : tracked_path path = false → relay_deltas path chunks = [].
Proof. intros H. induction chunks as [|c l IH]; [done|]. cbn [relay_deltas]. by rewrite H. Qed.

(** ** Properties of the readings *)
Definition interval_at (clock : nat → Q) (i : nat) : Q := ((clock (S i) - clock i) * 1000)%Q.
Lemma relay_timing_readings {A} clock (ds : list A) k :
  (∀ i, 0 < clock i)%Q → length ds = S k →
  foldl (λ t _, on_delta clock t) Timing.zero ds =
  Timing.mk (Some (clock 0%nat)) (Some (clock k)) (map (interval_at clock) (seq 0 k)) (S k).
Proof.
  intros Hpos. revert k. induction ds as [|d ds IH] using rev_ind; intros k Hk; [done|].
  rewrite length_app in Hk. cbn in Hk. rewrite foldl_snoc.
  destruct k as [|k]; [by assert (ds = []) as -> by (apply nil_length_inv; lia)|].
  rewrite (IH k) by lia. unfold on_delta. cbn [Timing.first_content_at Timing.last_content_at Timing.itl_ms Timing.readings].
  assert (Qeq_bool (clock k) 0 = false) as ->.
  { apply not_true_iff_false. rewrite Qeq_bool_iff. specialize (Hpos k). lra. }
  by rewrite seq_S, (map_app _ (seq 0 k)).
Qed.
Lemma qsum_app l1 l2 : (qsum (l1 ++ l2) == qsum l1 + qsum l2)%Q.
Proof.
  unfold qsum. induction l1 as [|x l1 IH]; cbn [app foldr]; [symmetry; apply Qplus_0_l|]. rewrite IH. apply Qplus_assoc.
Qed.
(** The intervals telescope. *)
Lemma qsum_intervals clock k :
  (qsum (map (λ i, interval_at clock i / 1000) (seq 0 k)) == clock k - clock 0%nat)%Q.
Proof.
  induction k as [|k IH]; [cbn [seq map qsum foldr]; ring|]. rewrite seq_S, map_app, qsum_app, IH. unfold interval_at.
  cbn [map qsum foldr Nat.add]. field.
Qed.

Lemma omap_pairs_none {A B C D} (f : B → option C) (d : D) (g : A → B) l :
  (∀ x, f (g x) = None) → omap f (map (λ x, (d, g x)) l).*2 = [].
Proof. intros H. induction l as [|x l IH]; [done|]. cbn. by rewrite H. Qed.
Lemma omap_pairs_some {A B C D} (f : B → option C) (d : D) (g : A → B) (h : A → C) l :
  (∀ x, f (g x) = Some (h x)) → omap f (map (λ x, (d, g x)) l).*2 = map h l.
Proof. intros H. induction l as [|x l IH]; [done|]. cbn. rewrite H. f_equal. apply IH. Qed.
(** Each kind of observation, as [_observe_serving] makes it. *)
Lemma observe_serving_kinds now ctx tokens first itl_ms :
  let obs := (_observe_serving now ctx tokens first itl_ms).*2 in
  omap ttft_of obs = option_list ((λ f, f - seconds (UsageContext.started ctx))%Q <$> first) ∧
  omap itl_of obs = map (λ i, i / 1000)%Q itl_ms ∧
  ∀ v, v ∈ omap tps_of obs →
    ∃ f tokens_in tokens_out, first = Some f ∧ tokens = Some (tokens_in, tokens_out) ∧ 0 < tokens_out ∧
      (0 < now - f)%Q ∧ v = (inject_Z tokens_out / (now - f))%Q.
Proof.
  unfold _observe_serving. cbv zeta. set (tail := match tokens with Some _ => _ | None => _ end).
  assert (Ht : tail = [] ∨ ∃ f ti to_, first = Some f ∧ tokens = Some (ti, to_) ∧ 0 < to_ ∧ (0 < now - f)%Q ∧
    tail = [(labels_of ctx, ObserveTPS (inject_Z to_ / (now - f))%Q)]).
  { unfold tail. destruct tokens as [[ti to_]|], first as [f|]; [|by left..].
    destruct (Z.ltb_spec 0 to_), (Qle_bool (now - f) 0) eqn:E; [by left| |by left..]. right. exists f, ti, to_.
    split_and!; [done..| |done]. apply Qnot_le_lt. rewrite <-Qle_bool_iff. by rewrite E. }
  clearbody tail. rewrite !fmap_app, !omap_app.
  rewrite (omap_pairs_none ttft_of), (omap_pairs_none tps_of), (omap_pairs_some itl_of _ _ (λ i, i / 1000)%Q) by done.
  destruct Ht as [->|(f & ti & to_ & Hf & Htk & Hp & Hn & ->)], first as [f'|]; cbn; rewrite ?app_nil_r; split_and!; try done.
  all: try by intros v ?%elem_of_nil.
  intros v ->%list_elem_of_singleton. injection Hf as ->. by exists f, ti, to_.
Qed.

(** The latencies account for the whole stream.  With a clock that does not run
    backwards, a relayed request without a content delta observes nothing; one with
    deltas observes one time to the first token and one interval per further delta,
    none of them negative, whose sum is the time from the arrival of the request to
    its last delta; a throughput is observed only with a positive number of output
    tokens, and over the generation time gives that number. *)
Theorem relay_latencies clock now path ctx chunks :
  (∀ i, 0 < clock i ∧ clock i <= clock (S i))%Q → (seconds (UsageContext.started ctx) <= clock 0%nat)%Q →
  let obs := (relay_observations clock now path ctx chunks).*2 in
  let latencies := omap ttft_of obs ++ omap itl_of obs in
  match relay_deltas path chunks with
  | [] => obs = []
  | _ :: rest =>
      length (omap ttft_of obs) = 1%nat ∧ length (omap itl_of obs) = length rest ∧ Forall (λ v, 0 <= v)%Q latencies ∧
      (qsum latencies == clock (length rest) - seconds (UsageContext.started ctx))%Q ∧
      ∀ v, v ∈ omap tps_of obs → ∃ tokens_in tokens_out,
        _record_usage (relay_loop path [] [] chunks).1.1 = Some (tokens_in, tokens_out) ∧ 0 < tokens_out ∧
        (v * (now - clock 0%nat) == inject_Z tokens_out)%Q
  end.
Proof.
  intros Hc Hs obs latencies. subst latencies obs. unfold relay_observations, relay_timing.
  destruct (relay_loop path [] [] chunks) as [[tail yielded] broken]. cbn [fst].
  destruct (relay_deltas path chunks) as [|d rest]; [by destruct (_record_usage tail) as [[]|]|].
  rewrite (relay_timing_readings clock (d :: rest) (length rest)) by (naive_solver || done).
  cbn [Timing.first_content_at Timing.itl_ms].
  pose proof (observe_serving_kinds now ctx (_record_usage tail) (Some (clock 0%nat))
    (map (interval_at clock) (seq 0 (length rest)))) as (-> & -> & Hv).
  cbn [fmap option_fmap option_map option_list]. rewrite map_map, length_map, length_seq.
  split_and!; [done|done| | |].
  - apply Forall_app. split; [apply Forall_singleton; lra|]. apply Forall_forall.
    intros v (i & <- & _)%list_elem_of_In%in_map_iff. unfold interval_at.
    assert ((clock (S i) - clock i) * 1000 / 1000 == clock (S i) - clock i)%Q as -> by field.
    specialize (Hc i). lra.
  - rewrite qsum_app, qsum_intervals. unfold option_list, option_rect, qsum. cbn [foldr]. ring.
  - intros v (f & ti & to_ & [= <-] & -> & Hp & Hn & ->)%Hv. exists ti, to_. split_and!; [done..|]. field. lra.
Qed.

(** ** What the autoscaler reads of them

    The first-token times observed under the labels that satisfy [p], and how many of
    them are at most a bound; and what a Prometheus registry shows of their histogram:
    one series of buckets per label set observed. *)
Definition ttfts_where (p : serving_labels → bool) (log : list (serving_labels * observation)) : list Q :=
  omap (λ lo, if p lo.1 then ttft_of lo.2 else None) log.
Definition ttfts_of (series : serving_labels) : list (serving_labels * observation) → list Q :=
  ttfts_where (λ s, bool_decide (s = series)).
Definition of_model (model_name : string) (s : serving_labels) : bool := String.eqb s.1.1 model_name.
Definition observed (log : list (serving_labels * observation)) : list serving_labels :=
  omap (λ lo, (λ _, lo.1) <$> ttft_of lo.2) log.
Definition at_most (bound : Q) (l : list Q) : Q := inject_Z (Z.of_nat (length (List.filter (λ x, Qle_bool x bound) l))).
Definition series_labels (s : serving_labels) (le : string) : labels :=
  [("model", s.1.1); ("engine", s.1.2); ("parallelism", s.2); ("le", le)].
Definition bucket_name : string := "inferna_ttft_seconds_bucket".
Definition series_samples (value : Q → Q) (total : Q) (s : serving_labels) : list sample :=
  map (λ b, Sample_ bucket_name (series_labels s b.2) (value b.1)) TTFT_BUCKETS_str
  ++ [Sample_ bucket_name (series_labels s "+Inf") total].
Definition bucket_samples (reg : registry) : list sample :=
  where_ (λ s, String.eqb (sample_name s) bucket_name)
    (concat (map metric_samples (where_ (λ m, String.eqb (metric_name m) "inferna_ttft_seconds") (collect reg)))).
Record exposes (reg : registry) (log : list (serving_labels * observation)) : Prop := {
  exposes_lookup : ∀ s bound le, (bound, le) ∈ TTFT_BUCKETS_str →
    get_sample_value reg bucket_name (series_labels s le) =
    if bool_decide (s ∈ observed log) then Some (at_most bound (ttfts_of s log)) else None;
  exposes_samples : ∃ all, NoDup all ∧ (∀ s, s ∈ all ↔ s ∈ observed log) ∧
    bucket_samples reg =
    concat (map (λ s, series_samples (λ bound, at_most bound (ttfts_of s log)) (inject_Z (Z.of_nat (length (ttfts_of s log)))) s) all) }.

(** *** The scan sums the series of the model *)
Lemma inject_plus a b : (inject_Z a + inject_Z b)%Q = inject_Z (a + b).
Proof. unfold Qplus, inject_Z. cbn. by rewrite !Z.mul_1_r. Qed.
Lemma scan_other model_name st s : String.eqb (sample_name s) bucket_name = false → scan_sample model_name st s = st.
Proof. intros H. unfold scan_sample. unfold bucket_name in H. by rewrite H. Qed.
Lemma scan_metrics model_name ms st :
  foldl (λ st m, if negb (String.eqb (metric_name m) "inferna_ttft_seconds") then st
                 else foldl (scan_sample model_name) st (metric_samples m)) st ms =
  foldl (scan_sample model_name) st (where_ (λ s, String.eqb (sample_name s) bucket_name)
    (concat (map metric_samples (where_ (λ m, String.eqb (metric_name m) "inferna_ttft_seconds") ms)))).
Proof.
  revert st. induction ms as [|m ms IH]; intros st; [done|]. cbn [foldl where_ List.filter].
  destruct (String.eqb (metric_name m) _); cbn [negb map concat]; rewrite IH; [|done].
  rewrite where_app, foldl_app. f_equal. generalize (metric_samples m). clear. intros l. revert st.
  induction l as [|s l IH]; intros st; [done|]. cbn [foldl where_ List.filter].
  destruct (String.eqb (sample_name s) bucket_name) eqn:E; [cbn [foldl]; apply IH|]. rewrite scan_other by done. apply IH.
Qed.
Lemma scan_bucket model_name t seen s le upper v :
  py_float le = Some (Finite upper) → existsb (λ b, Qeq_bool b upper) TTFT_BUCKETS = true → of_model model_name s = true →
  scan_sample model_name (map (λ b, (b, t b)) TTFT_BUCKETS, seen) (Sample_ bucket_name (series_labels s le) v) =
  (map (λ b, (b, if Qeq_bool b upper then t b + v else t b))%Q TTFT_BUCKETS, true).
Proof.
  intros Hle Hin Hm%String.eqb_eq. unfold scan_sample. cbn [sample_name sample_labels sample_value fst].
  change (negb (String.eqb bucket_name _)) with false. cbv iota.
  change (label (series_labels s le) "model") with (Some s.1.1). change (label (series_labels s le) "le") with (Some le).
  rewrite Hm, bool_decide_true by done. cbn [negb default from_option id]. rewrite Hle.
  assert (∀ l, existsb (λ bt, Qeq_bool bt.1 upper) (map (λ b, (b, t b)) l) = existsb (λ b, Qeq_bool b upper) l) as ->.
  { induction l as [|b l IH]; [done|]. cbn. by rewrite IH. }
  rewrite Hin. f_equal. unfold add_total. rewrite map_map. apply map_ext. intros b. by destruct (Qeq_bool b upper).
Qed.
Lemma scan_elsewhere model_name st s le v :
  of_model model_name s = false → scan_sample model_name st (Sample_ bucket_name (series_labels s le) v) = st.
Proof.
  intros Hm%String.eqb_neq. unfold scan_sample. cbn [sample_name sample_labels].
  change (label (series_labels s le) "model") with (Some s.1.1). rewrite bool_decide_false by congruence. by case_match.
Qed.
Lemma scan_series model_name (value t : Q → Q) total s seen :
  foldl (scan_sample model_name) (map (λ b, (b, t b)) TTFT_BUCKETS, seen) (series_samples value total s) =
  if of_model model_name s then (map (λ b, (b, t b + value b)%Q) TTFT_BUCKETS, true)
  else (map (λ b, (b, t b)) TTFT_BUCKETS, seen).
Proof.
  unfold series_samples. rewrite foldl_app. cbn [foldl]. destruct (of_model model_name s) eqn:Hm.
  - unfold TTFT_BUCKETS_str. cbn [map foldl fst snd].
    do 12 (erewrite scan_bucket; [|vm_compute; reflexivity|vm_compute; reflexivity|exact Hm]).
    assert (∀ st, scan_sample model_name st (Sample_ bucket_name (series_labels s "+Inf") total) = st) as ->; [|vm_compute; reflexivity].
    intros st. unfold scan_sample. cbn [sample_name sample_labels]. by repeat case_match.
  - rewrite scan_elsewhere by done. induction TTFT_BUCKETS_str as [|b l IH]; [done|]. cbn [map foldl]. by rewrite scan_elsewhere.
Qed.
Lemma scan_all model_name (value : serving_labels → Q → Q) (total : serving_labels → Q) all (t : Q → Q) seen :
  foldl (scan_sample model_name) (map (λ b, (b, t b)) TTFT_BUCKETS, seen)
    (concat (map (λ s, series_samples (value s) (total s) s) all)) =
  (map (λ b, (b, foldl (λ n s, if of_model model_name s then n + value s b else n) (t b) all)%Q) TTFT_BUCKETS,
   seen || existsb (of_model model_name) all).
Proof.
  revert t seen. induction all as [|s all IH]; intros t seen; [by rewrite orb_false_r|]. cbn [map concat existsb].
  rewrite foldl_app, scan_series. destruct (of_model model_name s) eqn:E.
  - rewrite (IH (λ b, t b + value s b)%Q). cbn [foldl orb]. rewrite orb_true_r. f_equal. apply map_ext. intros b. by rewrite E.
  - rewrite IH. cbn [foldl orb]. f_equal. apply map_ext. intros b. by rewrite E.
Qed.
(** An observation is of exactly one series. *)
Definition counted (bound : Q) (l : list Q) : Z := Z.of_nat (length (List.filter (λ x, Qle_bool x bound) l)).
Definition total_over {A} (f : A → Z) (l : list A) : Z := foldr (λ x n, f x + n) 0 l.
Lemma total_over_cons {A} (f : A → Z) x l : total_over f (x :: l) = f x + total_over f l.
Proof. done. Qed.
Lemma total_over_add {A} (f g : A → Z) l : total_over (λ x, f x + g x) l = total_over f l + total_over g l.
Proof. induction l as [|x l IH]; [done|]. rewrite !total_over_cons, IH. lia. Qed.
Lemma total_over_ext {A} (f g : A → Z) l : (∀ x, f x = g x) → total_over f l = total_over g l.
Proof. intros H. induction l as [|x l IH]; [done|]. by rewrite !total_over_cons, H, IH. Qed.
Lemma total_over_once {A} `{EqDecision A} (x : A) k l :
  NoDup l → x ∈ l → total_over (λ y, if bool_decide (x = y) then k else 0) l = k.
Proof.
  assert (∀ l, x ∉ l → total_over (λ y, if bool_decide (x = y) then k else 0) l = 0) as Hno.
  { clear l. induction l as [|y l IH]; intros Hx; [done|]. apply not_elem_of_cons in Hx as [Hne Hx].
    rewrite total_over_cons, bool_decide_false by done. by apply IH. }
  induction 1 as [|y l Hy Hnd IH]; intros Hx; [by apply elem_of_nil in Hx|]. rewrite total_over_cons. case_bool_decide as E.
  - subst y. rewrite Hno by done. lia.
  - apply elem_of_cons in Hx as [->|Hx]; [done|]. by apply IH.
Qed.
Lemma counted_cons bound v l : counted bound (v :: l) = (if Qle_bool v bound then 1 else 0) + counted bound l.
Proof. unfold counted. cbn. destruct (Qle_bool v bound); cbn [length]; lia. Qed.
Lemma ttfts_where_cons p s o log :
  ttfts_where p ((s, o) :: log) =
  match ttft_of o with Some v => if p s then v :: ttfts_where p log else ttfts_where p log | None => ttfts_where p log end.
Proof. unfold ttfts_where. cbn. by destruct (p s), (ttft_of o). Qed.
Lemma counted_series model_name bound log all :
  NoDup all → (∀ s, s ∈ observed log → s ∈ all) →
  total_over (λ s, if of_model model_name s then counted bound (ttfts_of s log) else 0) all =
  counted bound (ttfts_where (of_model model_name) log).
Proof.
  intros Hnd. induction log as [|[s0 o] log IH]; intros Hall.
  { clear. induction all as [|s all IH]; [done|]. rewrite total_over_cons, IH. by destruct (of_model _ _). }
  assert (∀ s, s ∈ observed log → s ∈ all) as Hall'.
  { intros s Hs. apply Hall. unfold observed in *. cbn. destruct (ttft_of o); [by right|done]. }
  rewrite ttfts_where_cons. destruct (ttft_of o) as [v|] eqn:Eo.
  - assert (s0 ∈ all) as Hin by (apply Hall; unfold observed; cbn; rewrite Eo; by left).
    set (k := if of_model model_name s0 then if Qle_bool v bound then 1 else 0 else 0).
    transitivity (k + total_over (λ s, if of_model model_name s then counted bound (ttfts_of s log) else 0) all).
    + rewrite <-(total_over_once s0 k all Hnd Hin) at 1. rewrite <-total_over_add. apply total_over_ext. intros s.
      unfold ttfts_of. rewrite ttfts_where_cons, Eo. unfold k. case_bool_decide as E; [subst s|by destruct (of_model _ s)].
      rewrite counted_cons. by destruct (of_model _ s0).
    + rewrite (IH Hall'). unfold k. destruct (of_model model_name s0); [by rewrite counted_cons|done].
  - rewrite <-(IH Hall'). apply total_over_ext. intros s. unfold ttfts_of. by rewrite ttfts_where_cons, Eo.
Qed.
Lemma scan_ttft_counts reg model_name log :
  exposes reg log →
  _scan_ttft reg model_name =
  if existsb (of_model model_name) (observed log)
  then hist_p95 TTFT_BUCKETS (map (λ b, at_most b (ttfts_where (of_model model_name) log)) TTFT_BUCKETS) else None.
Proof.
  intros [_ (all & Hnd & Hall & Hs)]. unfold _scan_ttft. rewrite scan_metrics. fold (bucket_samples reg). rewrite Hs.
  rewrite (scan_all model_name (λ s bound, at_most bound (ttfts_of s log))
    (λ s, inject_Z (Z.of_nat (length (ttfts_of s log)))) all (λ _, 0%Q)). cbn [orb].
  assert (existsb (of_model model_name) all = existsb (of_model model_name) (observed log)) as ->.
  { apply eq_iff_eq_true. rewrite !existsb_exists. setoid_rewrite <-list_elem_of_In. by setoid_rewrite Hall. }
  destruct (existsb _ _); [|done]. f_equal. rewrite map_map. apply map_ext. intros b. cbn [snd].
  change (at_most b ?l) with (inject_Z (counted b l)). rewrite <-(counted_series model_name b log all Hnd) by (intros s; apply Hall).
  transitivity (inject_Z (0 + total_over (λ s, if of_model model_name s then counted b (ttfts_of s log) else 0) all)); [|done].
  change 0%Q with (inject_Z 0). generalize 0 at 1 2. clear.
  induction all as [|s all IH]; intros n; cbn [foldl]; [by rewrite Z.add_0_r|]. rewrite total_over_cons.
  destruct (of_model model_name s); [change (at_most b ?l) with (inject_Z (counted b l)); rewrite inject_plus|];
    rewrite IH; f_equal; lia.
Qed.

Lemma at_most_zero bound l : (at_most bound l <= 0)%Q → Forall (λ x, bound < x)%Q l.
Proof.
  unfold at_most. change 0%Q with (inject_Z 0). rewrite <-Zle_Qle. intros H. apply Forall_forall. intros x Hx.
  apply Qnot_le_lt. intros Hle%Qle_bool_iff.
  assert (In x (List.filter (λ x, Qle_bool x bound) l)) as Hin by (apply filter_In; by rewrite <-list_elem_of_In).
  destruct (List.filter _ _); [done|cbn in H; lia].
Qed.
Lemma combine_map {A B} (f : A → B) l : combine l (map f l) = map (λ x, (x, f x)) l.
Proof. induction l as [|x l IH]; [done|]. cbn. by f_equal. Qed.
(** The bounds around a split point of the buckets are consecutive. *)
Lemma consecutive {A} (x : A) l b l2 : (default x (last l), b) ∈ combine (x :: l ++ b :: l2) (l ++ b :: l2).
Proof.
  revert x. induction l as [|y l IH]; intros x; [by left|]. rewrite last_cons. right.
  specialize (IH y). by destruct (last l).
Qed.
Lemma read_counts_Some reg model_name (count : Q → Q) l :
  (∀ bound le, (bound, le) ∈ l →
     get_sample_value reg bucket_name (series_labels (model_name, "vllm", "single") le) = Some (count bound)) →
  read_counts reg model_name l = Some (map count (map fst l)).
Proof.
  induction l as [|[bound le] l IH]; intros H; [done|]. cbn [read_counts].
  pose proof (H bound le ltac:(by left)) as E. unfold series_labels, bucket_name in E. cbn [fst snd] in E. rewrite E.
  cbn [mbind option_bind]. rewrite IH; [done|]. intros b le' Hb. apply H. by right.
Qed.
(** The first-token times [_ttft_p95_ms] looks at. *)
Definition looked_at (model_name : string) (log : list (serving_labels * observation)) : list Q :=
  if bool_decide ((model_name, "vllm", "single") ∈ observed log)
  then ttfts_of (model_name, "vllm", "single") log else ttfts_where (of_model model_name) log.
Lemma ttft_p95_counts reg model_name log :
  exposes reg log →
  _ttft_p95_ms reg model_name =
  if existsb (of_model model_name) (observed log)
  then hist_p95 TTFT_BUCKETS (map (λ b, at_most b (looked_at model_name log)) TTFT_BUCKETS) else None.
Proof.
  intros Hx. unfold _ttft_p95_ms, looked_at. case_bool_decide as Hin.
  - rewrite (read_counts_Some _ _ (λ b, at_most b (ttfts_of (model_name, "vllm", "single") log))).
    + assert (existsb (of_model model_name) (observed log) = true) as ->; [|done]. apply existsb_exists.
      eexists. split; [by apply list_elem_of_In|]. apply String.eqb_refl.
    + intros bound le Hb. rewrite (exposes_lookup _ _ Hx _ bound) by done. by rewrite bool_decide_true.
  - assert (read_counts reg model_name TTFT_BUCKETS_str = None) as ->; [|by apply scan_ttft_counts].
    unfold TTFT_BUCKETS_str. cbn [read_counts].
    pose proof (exposes_lookup _ _ Hx (model_name, "vllm", "single") (1 # 100) "0.01" ltac:(by left)) as E.
    rewrite bool_decide_false in E by done. unfold series_labels, bucket_name in E. cbn [fst snd] in E. by rewrite E.
Qed.
Lemma unobserved_none model_name log : existsb (of_model model_name) (observed log) = false → ttfts_where (of_model model_name) log = [].
Proof.
  intros H. unfold ttfts_where. induction log as [|[s o] log IH]; [done|]. unfold observed in H. cbn in H |- *.
  destruct (ttft_of o) as [v|]; cbn in H.
  - apply orb_false_iff in H as [-> H]. by apply IH.
  - rewrite (IH H). by destruct (of_model model_name s).
Qed.


(** An SSE event the network splits is not seen: each half is no JSON of its own,
    so a stream of one such event has no first token. *)
Lemma split_event_has_no_first_token :
  relay_deltas "/v1/chat/completions" [GwSample.chunk] = ["hey"] ∧
  relay_deltas "/v1/chat/completions" [take_str 40 GwSample.chunk; drop_str 40 GwSample.chunk] = [].
Proof. by vm_compute. Qed.

(** ** Witnesses *)
Definition sample_ctx : UsageContext.t := UsageContext.mk 3 4 7 "m" 100 1000000 "vllm" "single" [].
(** The clock ticks every half second, from two seconds on. *)
Definition sample_clock (i : nat) : Q := Z.of_nat (4 + i) # 2.
Definition sample_chunks : list string := [GwSample.chunk; GwSample.chunk; GwSample.chunk].
Definition sample_observations : list (serving_labels * observation) :=
  relay_observations sample_clock 4 "/v1/chat/completions" sample_ctx sample_chunks.

Lemma relay_latencies_witness :
  (qsum (omap ttft_of sample_observations.*2 ++ omap itl_of sample_observations.*2) == 2)%Q ∧
  ∀ v, v ∈ omap tps_of sample_observations.*2 → (v * 2 == 2)%Q.
Proof.
  pose proof (relay_latencies sample_clock 4 "/v1/chat/completions" sample_ctx sample_chunks) as H.
  destruct H as (_ & _ & _ & Hs & Hv).
  - intros i. unfold sample_clock, Qlt, Qle. cbn [Qnum Qden]. lia.
  - discriminate.
  - split; [rewrite Hs; reflexivity|]. intros v (ti & to_ & E & _ & Ev)%Hv.
    vm_compute in E. injection E as <- <-. assert (4 - sample_clock 0 == 2)%Q as E by reflexivity. rewrite E in Ev. exact Ev.
Defined.

(** A registry that exposes the histogram of a log. *)
Definition histogram_registry (log : list (serving_labels * observation)) : registry :=
  Registry
    [Metric "inferna_ttft_seconds"
       (concat (map (λ s, series_samples (λ bound, at_most bound (ttfts_of s log))
                            (inject_Z (Z.of_nat (length (ttfts_of s log)))) s) (remove_dups (observed log))))]
    (λ _ l,
      m ← label l "model"; e ← label l "engine"; p ← label l "parallelism"; le ← label l "le";
      if bool_decide ((m, e, p) ∈ observed log) then
        b ← find_by (λ b, String.eqb b.2 le) TTFT_BUCKETS_str; Some (at_most b.1 (ttfts_of (m, e, p) log))
      else None).
Lemma histogram_registry_exposes log : exposes (histogram_registry log) log.
Proof.
  split.
  - intros [[m e] p] bound le Hb. unfold histogram_registry, series_labels. cbn [get_sample_value fst snd].
    cbn -[observed TTFT_BUCKETS_str]. repeat case_bool_decide; try done. unfold TTFT_BUCKETS_str in *.
    repeat (apply elem_of_cons in Hb as [[= -> ->]|Hb]; [reflexivity|]). by apply elem_of_nil in Hb.
  - exists (remove_dups (observed log)). split; [apply NoDup_remove_dups|]. split; [apply elem_of_remove_dups|].
    unfold bucket_samples, histogram_registry. cbn [collect where_ List.filter metric_name metric_samples map concat].
    change (String.eqb "inferna_ttft_seconds" "inferna_ttft_seconds") with true. cbv iota. cbn [map concat metric_samples].
    rewrite app_nil_r. apply where_all. intros s Hs. apply list_elem_of_In, in_concat in Hs as (l & Hl & Hs).
    apply in_map_iff in Hl as (ser & <- & _). unfold series_samples in Hs. apply in_app_iff in Hs as [Hs|[<-|[]]]; [|done].
    by apply in_map_iff in Hs as (b & <- & _).
Qed.
(** The docstring says the percentile is summed over engines and topologies; the scan
    does that only until the first token of a vllm/single request: one fast such
    request hides the slow ones of a pipeline. *)
Definition mixed_log (n : nat) : list (serving_labels * observation) :=
  replicate 5 (("m", "vllm", "pp"), ObserveTTFT 8) ++ replicate n (("m", "vllm", "single"), ObserveTTFT (1 # 100)).
Lemma vllm_single_hides_the_rest :
  (∃ v, _ttft_p95_ms (histogram_registry (mixed_log 0)) "m" = Some v ∧ 5000 < v)%Q ∧
  (∃ v, _ttft_p95_ms (histogram_registry (mixed_log 1)) "m" = Some v ∧ v <= 10)%Q.
Proof. split; (eexists; split; [vm_compute; reflexivity|by vm_compute]). Qed.
