(* ===== verification/Metrics.v ===== *)
(** * Gauges of the cluster ([server/inferna_server/services/metrics.py])

    [refresh_gauges], which the [Sync] RPC calls after each synchronisation: every
    gauge is cleared and set again from the rows.  A gauge is the map from the values of its labels
    to its value.  [cluster_id] is not nullable, so every worker is selected. *)

From S2P Require Import Prelude PyStr Models.
Local Open Scope Z_scope.

Notation gauge := (gmap (list string) Z).
(** [gauge.labels(k).set(v)], in order. *)
Definition write_all (m : gauge) (writes : list (list string * Z)) : gauge :=
  foldl (λ m kv, <[kv.1 := kv.2]> m) m writes.
(** [counter[k] += 1] for each [k]. *)
Definition count_keys (l : list (list string)) : gauge :=
  foldl (λ m k, <[k := default 0 (m !! k) + 1]> m) ∅ l.

Module Gauges.
Record t := mk {
  workers_online : gauge; gpus_total : gauge; vram_total_mb : gauge; vram_used_mb : gauge;
  gpu_utilization_pct : gauge; instances_total : gauge }.
Definition clear : t := mk ∅ ∅ ∅ ∅ ∅ ∅.
End Gauges.

Section refresh.
Context (d : Db.t).
Definition cluster_label (w : Worker.t) : string :=
  match find_cluster d (Worker.cluster_id w) with Some c => Cluster.name c | None => "unknown" end.
Definition worker_gpus (w : Worker.t) : list WorkerGPU.t :=
  where_ (λ g, (WorkerGPU.worker_id g =? Worker.id w)%N) (Db.worker_gpus d).
Definition sum_by {A} (f : A → Z) (l : list A) : Z := foldr (λ x n, f x + n) 0 l.
Definition gpu_writes (w : Worker.t) : list (list string * Z) :=
  (["" : string; Worker.name w; cluster_label w], Z.of_nat (length (worker_gpus w)))
  :: map (λ g, ([WorkerGPU.vendor g; Worker.name w; cluster_label w], 1)) (worker_gpus w).
Definition utilization_writes (w : Worker.t) : list (list string * Z) :=
  map (λ g, ([Worker.name w; str_Z (WorkerGPU.index g)], WorkerGPU.utilization_pct g)) (worker_gpus w).
Definition worker_gauges (g : Gauges.t) (w : Worker.t) : Gauges.t :=
  Gauges.mk (Gauges.workers_online g) (write_all (Gauges.gpus_total g) (gpu_writes w))
    (write_all (Gauges.vram_total_mb g) [([Worker.name w; cluster_label w], sum_by WorkerGPU.vram_mb (worker_gpus w))])
    (write_all (Gauges.vram_used_mb g) [([Worker.name w; cluster_label w], sum_by WorkerGPU.used_vram_mb (worker_gpus w))])
    (write_all (Gauges.gpu_utilization_pct g) (utilization_writes w)) (Gauges.instances_total g).
Definition online (w : Worker.t) : bool := String.eqb (Worker.state w) "connected".
Definition refresh_gauges : Gauges.t :=
  let g := foldl worker_gauges Gauges.clear (Db.workers d) in
  Gauges.mk (count_keys (map (λ w, [cluster_label w]) (where_ online (Db.workers d))))
    (Gauges.gpus_total g) (Gauges.vram_total_mb g) (Gauges.vram_used_mb g) (Gauges.gpu_utilization_pct g)
    (count_keys (map (λ i, [ModelInstance.state i]) (Db.instances d))).
End refresh.

(** ** Lemmas *)
Lemma write_all_app m l1 l2 : write_all m (l1 ++ l2) = write_all (write_all m l1) l2.
Proof. apply foldl_app. Qed.
Lemma write_all_other m l k : (∀ v, (k, v) ∉ l) → write_all m l !! k = m !! k.
Proof.
  revert m. induction l as [|[k' v'] l IH]; intros m H; [done|]. cbn. change (foldl _ ?m l) with (write_all m l).
  rewrite IH by (intros v Hv; apply (H v); by right). rewrite lookup_insert_ne; [done|].
  intros ->. apply (H v'). by left.
Qed.
(** A label set that only one value is written to has that value. *)
Lemma write_all_lookup m l k v : (k, v) ∈ l → (∀ v', (k, v') ∈ l → v' = v) → write_all m l !! k = Some v.
Proof.
  revert m. induction l as [|[k' v'] l IH]; intros m Hin Hu; [by apply elem_of_nil in Hin|].
  cbn. change (foldl _ ?m l) with (write_all m l).
  destruct (decide (Exists (λ kv, kv.1 = k) l)) as [Hex|Hno].
  - apply Exists_exists in Hex as ([k0 v0] & Hkv & Hk0). cbn in Hk0. subst k0. apply IH.
    + rewrite <-(Hu v0) by (by right). done.
    + intros v1 H1. apply Hu. by right.
  - rewrite write_all_other by (intros v1 H1; apply Hno, Exists_exists; by exists (k, v1)).
    apply elem_of_cons in Hin as [[= <- <-]|Hin]; [apply lookup_insert_eq|].
    destruct Hno. apply Exists_exists. by exists (k, v).
Qed.
Lemma write_all_concat {A} (f : A → list (list string * Z)) l m :
  foldl (λ m x, write_all m (f x)) m l = write_all m (concat (map f l)).
Proof. revert m. induction l as [|x l IH]; intros m; [done|]. cbn. by rewrite IH, write_all_app. Qed.
Lemma count_keys_lookup l k :
  count_keys l !! k = let n := length (where_ (λ k', bool_decide (k' = k)) l) in
                      if decide (n = 0%nat) then None else Some (Z.of_nat n).
Proof.
  unfold count_keys.
  assert (∀ m : gauge, foldl (λ m k, <[k := default 0 (m !! k) + 1]> m) m l !! k =
    let n := length (where_ (λ k', bool_decide (k' = k)) l) in
    if decide (n = 0%nat) then m !! k else Some (default 0 (m !! k) + Z.of_nat n)) as H.
  { induction l as [|k' l IH]; intros m; [done|]. cbn. rewrite IH. destruct (decide (k' = k)) as [->|Hne].
    - rewrite bool_decide_eq_true_2 by done. cbn. rewrite lookup_insert_eq. cbn. unfold where_ in *.
      case_decide; rewrite ?lookup_insert_eq; f_equal; cbn; lia.
    - rewrite bool_decide_eq_false_2 by done. by rewrite lookup_insert_ne. }
  rewrite H, lookup_empty. cbn zeta. case_decide; [done|]. done.
Qed.

Section spec.
Context (d : Db.t) (Hd : constraints_ok d = true).
Lemma folded_gauges ws g :
  let g' := foldl (worker_gauges d) g ws in
  Gauges.gpus_total g' = write_all (Gauges.gpus_total g) (concat (map (gpu_writes d) ws)) ∧
  Gauges.vram_total_mb g' = write_all (Gauges.vram_total_mb g)
    (concat (map (λ w, [([Worker.name w; cluster_label d w], sum_by WorkerGPU.vram_mb (worker_gpus d w))]) ws)) ∧
  Gauges.vram_used_mb g' = write_all (Gauges.vram_used_mb g)
    (concat (map (λ w, [([Worker.name w; cluster_label d w], sum_by WorkerGPU.used_vram_mb (worker_gpus d w))]) ws)) ∧
  Gauges.gpu_utilization_pct g' = write_all (Gauges.gpu_utilization_pct g) (concat (map (utilization_writes d) ws)).
Proof.
  cbn zeta. revert g. induction ws as [|w ws IH]; intros g; [done|]. cbn [foldl map concat].
  destruct (IH (worker_gauges d g w)) as (-> & -> & -> & ->). by rewrite !write_all_app.
Qed.
(** Workers are told apart by their name and the name of their cluster. *)
Lemma label_unique w w' :
  w ∈ Db.workers d → w' ∈ Db.workers d → Worker.name w = Worker.name w' → cluster_label d w = cluster_label d w' → w = w'.
Proof.
  intros Hw Hw' Hn Hc. pose proof Hd as H. split_constraints H.
  match goal with H : forallb (λ w, has (find_cluster d _)) _ = true |- _ => rewrite forallb_forall in H; rename H into Hf end.
  pose proof (Hf w) as F1. pose proof (Hf w') as F2. rewrite <-!list_elem_of_In in *. specialize (F1 Hw). specialize (F2 Hw').
  unfold cluster_label in Hc. destruct (find_cluster d (Worker.cluster_id w)) as [c|] eqn:E1; [|done].
  destruct (find_cluster d (Worker.cluster_id w')) as [c'|] eqn:E2; [|done].
  apply find_by_Some in E1 as [Hc1 Ei1%N.eqb_eq], E2 as [Hc2 Ei2%N.eqb_eq].
  assert (c = c') as -> by by apply (NoDup_map_inj_key Cluster.name (Db.clusters d)).
  apply (NoDup_map_inj_key (λ w, (Worker.cluster_id w, Worker.name w)) (Db.workers d)); [done..|]. congruence.
Qed.
Lemma elem_of_writes {A} (f : A → list (list string * Z)) l k v :
  (k, v) ∈ concat (map f l) ↔ ∃ x, x ∈ l ∧ (k, v) ∈ f x.
Proof.
  rewrite list_elem_of_In, in_concat. split.
  - intros (y & Hy & Hkv). apply in_map_iff in Hy as (x & <- & Hx). exists x. by rewrite !list_elem_of_In.
  - intros (x & Hx & Hkv). exists (f x). rewrite <-!list_elem_of_In. split; [by apply list_elem_of_fmap_2|done].
Qed.

Lemma list_label_eqb (a b : string) : bool_decide ([a] = [b]) = String.eqb a b.
Proof. destruct (String.eqb_spec a b) as [->|Hne]; [by apply bool_decide_eq_true|]. apply bool_decide_eq_false. congruence. Qed.

(** After a refresh the gauges show the database: for each worker the number
    of its GPUs and the sums of their memory, for each cluster the workers
    connected, for each state the instances in it, and no other value. *)
Theorem refresh_gauges_spec :
  let g := refresh_gauges d in
  (∀ w, w ∈ Db.workers d →
     Gauges.gpus_total g !! ["" : string; Worker.name w; cluster_label d w] = Some (Z.of_nat (length (gpus_of d (Worker.id w)))) ∧
     Gauges.vram_total_mb g !! [Worker.name w; cluster_label d w] = Some (sum_by WorkerGPU.vram_mb (worker_gpus d w)) ∧
     Gauges.vram_used_mb g !! [Worker.name w; cluster_label d w] = Some (sum_by WorkerGPU.used_vram_mb (worker_gpus d w))) ∧
  (∀ c, Gauges.workers_online g !! [c] =
     let n := length (where_ (λ w, online w && String.eqb (cluster_label d w) c) (Db.workers d)) in
     if decide (n = 0%nat) then None else Some (Z.of_nat n)) ∧
  (∀ s, Gauges.instances_total g !! [s] =
     let n := length (where_ (λ i, String.eqb (ModelInstance.state i) s) (Db.instances d)) in
     if decide (n = 0%nat) then None else Some (Z.of_nat n)).
Proof.
  unfold refresh_gauges. cbn zeta. cbn [Gauges.gpus_total Gauges.vram_total_mb Gauges.vram_used_mb Gauges.workers_online Gauges.instances_total].
  destruct (folded_gauges (Db.workers d) Gauges.clear) as (-> & -> & -> & _). split; [|split].
  - intros w Hw. unfold gpus_of. rewrite length_sorted_by. fold (worker_gpus d w). split_and!; apply write_all_lookup.
    + apply elem_of_writes. exists w. split; [done|by left].
    + intros v (w' & Hw' & [[= E1 E2 ->]|(g & [= E1 E2 E3 _] & Hg)%list_elem_of_fmap]%elem_of_cons)%elem_of_writes.
      * by rewrite (label_unique w w').
      * unfold worker_gpus in Hg. apply elem_of_where in Hg as [Hg _]. pose proof Hd as H. split_constraints H.
        match goal with H : forallb ck_gpu _ = true |- _ => rewrite forallb_forall in H; specialize (H g); rename H into Hck end.
        rewrite <-list_elem_of_In in Hck. specialize (Hck Hg). unfold ck_gpu in Hck. by rewrite <-E1 in Hck.
    + apply elem_of_writes. exists w. split; [done|by left].
    + intros v (w' & Hw' & [= E1 E2 ->]%list_elem_of_singleton)%elem_of_writes. by rewrite (label_unique w w').
    + apply elem_of_writes. exists w. split; [done|by left].
    + intros v (w' & Hw' & [= E1 E2 ->]%list_elem_of_singleton)%elem_of_writes. by rewrite (label_unique w w').
  - intros c. rewrite count_keys_lookup, where_fmap, length_map, where_where. cbn zeta.
    by rewrite (where_ext _ (λ w, online w && String.eqb (cluster_label d w) c)) by (intros w _; f_equal; apply list_label_eqb).
  - intros s. rewrite count_keys_lookup, where_fmap, length_map. cbn zeta.
    by rewrite (where_ext _ (λ i, String.eqb (ModelInstance.state i) s)) by (intros i _; apply list_label_eqb).
Qed.
End spec.

(** Two workers named alike in two clusters; the first has two GPUs. *)
Definition metrics_db : Db.t :=
  let worker id c seen := Worker.mk id c "gpu-01" "h" "connected" None None None None "" None seen 1 in
  Db.mk [] [] [Cluster.mk 1 "east" None 0; Cluster.mk 2 "west" None 0] [worker 10%N 1%N (Some 3); worker 11%N 2%N None]
    [WorkerGPU.mk 10 0 "nvidia" "A" 24000 1000 90 None None; WorkerGPU.mk 10 1 "nvidia" "A" 24000 2000 10 None None;
     WorkerGPU.mk 11 0 "amd" "B" 16000 0 5 None None] [] [] [] [] [].
Lemma refresh_gauges_spec_witness :
  constraints_ok metrics_db = true ∧
  Gauges.workers_online (refresh_gauges metrics_db) !! (["east"] : list string) = Some 1.
Proof.
  split; [by vm_compute|].
  destruct (refresh_gauges_spec metrics_db ltac:(by vm_compute)) as (_ & H & _). exact (H "east").
Defined.
(** The series of a vendor is 1 however many GPUs of it the worker has. *)
Lemma vendor_series_is_one : Gauges.gpus_total (refresh_gauges metrics_db) !! (["nvidia"; "gpu-01"; "east"] : list string) = Some 1.
Proof. by vm_compute. Qed.
(** The utilisation has no cluster label: of two workers named alike the last is shown. *)
Lemma utilization_series_collide :
  Gauges.gpu_utilization_pct (refresh_gauges metrics_db) !! (["gpu-01"; "0"] : list string) = Some 5.
Proof. by vm_compute. Qed.
