(* ===== verification/Bench.v ===== *)
(** * The benchmark harness ([bench/bench])

    The arithmetic of the harness: percentiles and throughput ([metrics.py]), what
    is measured on a streamed answer ([client.py]), the summary of a case
    ([report.py]), the replay of a trace ([trace.py], [__main__.py]) and the parity
    verdict ([parity.py]).  A float is an exact rational and [time.perf_counter]
    a reading in seconds; the text of a reason of the verdict is left out.  [pct]
    is defined for [p] between 0 and 100, as its callers use it. *)

From Stdlib Require Import QArith Qround Lqa.
From S2P Require Import Prelude PyStr Json PrefixCache Autoscaling.
Local Open Scope Z_scope.

(** ** Percentiles ([metrics.py]) *)
(** [int(q)]: towards zero. *)
Definition int_Q (q : Q) : Z := Z.quot (Qnum q) (Zpos (Qden q)).
Definition at_ (l : list Q) (i : Z) : Q := nth (Z.to_nat i) l 0%Q.
Definition interpolate (ordered : list Q) (rank : Q) : Q :=
  let low := int_Q rank in
  let high := Z.min (low + 1) (Z.of_nat (length ordered) - 1) in
  (at_ ordered low + (at_ ordered high - at_ ordered low) * (rank - inject_Z low))%Q.
Definition pct (values : list Q) (p : Q) : option Q :=
  match values with
  | [] => None
  | _ =>
      let ordered := sorted_by Qle_bool values in
      match ordered with
      | [x] => Some x
      | _ => Some (interpolate ordered ((p / 100) * inject_Z (Z.of_nat (length ordered) - 1))%Q)
      end
  end.
Definition sum_Q (l : list Q) : Q := foldl Qplus 0%Q l.
Definition mean (values : list Q) : option Q :=
  match values with [] => None | _ => Some (sum_Q values / inject_Z (Z.of_nat (length values)))%Q end.
Definition tps (tokens : option Z) (seconds : option Q) : option Q :=
  match tokens, seconds with
  | Some n, Some s => if Qle_bool s 0 then None else Some (inject_Z n / s)%Q
  | _, _ => None
  end.

Fixpoint hist_p95_loop (target : Q) (previous_bound : Q) (previous_count : Z) (pairs : list (Q * Z)) : option Q :=
  match pairs with
  | [] => None
  | (bound, count) :: pairs =>
      if Qge_bool (inject_Z count) target then
        Some (if count =? previous_count then bound
              else previous_bound + (bound - previous_bound) *
                     ((target - inject_Z previous_count) / inject_Z (count - previous_count)))%Q
      else hist_p95_loop target bound count pairs
  end.
Definition hist_p95 (buckets : list Q) (counts : list Z) : option Q :=
  let pairs := combine buckets counts in
  match last pairs with
  | None => None
  | Some (last_bound, total) =>
      if total <=? 0 then None
      else match hist_p95_loop ((95 # 100) * inject_Z total)%Q 0%Q 0 pairs with
           | Some v => Some v
           | None => Some last_bound
           end
  end.

(** ** A streamed answer ([client.py]) *)
Module RequestResult.
Record t := mk {
  status : Z; e2e_ms : Q; ttft_ms : option Q; itl_ms : list Q; prompt_tokens : option json;
  completion_tokens : option json; content_chunks : Z; content : string; error : option string }.
Definition generation_ms (r : t) : option Q :=
  match itl_ms r with
  | _ :: _ => Some (sum_Q (itl_ms r))
  | [] => t0 ← ttft_ms r; Some (e2e_ms r - t0)%Q
  end.
Definition ok (r : t) : bool := (status r =? 200) && bool_decide (error r = None).
End RequestResult.

(** [x.get(k)], [x or default], [x\[0\]] on a JSON value. *)
Definition get_ (k : string) (v : json) : result (option json) :=
  match v with JObj kvs => Ok (jget k kvs) | _ => Raise AttributeError end.
Definition or_empty (o : option json) (d : json) : json :=
  match o with Some v => if json_truthy v then v else d | None => d end.
Definition first_of (v : json) : result json :=
  match v with
  | JList (x :: _) => Ok x
  | JList [] | JStr "" => Raise IndexError
  | JStr s => Ok (JStr (take_chars 1 s))
  | JObj _ => Raise KeyError
  | _ => Raise TypeError
  end.
Definition _content_of (chunk : json) : result string :=
  choices ← get_ "choices" chunk;
  let choices := or_empty choices (JList []) in
  if negb (json_truthy choices) then Ok ""
  else
    choice ← first_of choices;
    let choice := or_empty (Some choice) (JObj []) in
    delta ← get_ "delta" choice;
    content ← get_ "content" (or_empty delta (JObj []));
    match content with
    | Some (JStr s) => Ok s
    | _ =>
        message ← get_ "message" choice;
        message_content ← get_ "content" (or_empty message (JObj []));
        match message_content with Some (JStr s) => Ok s | _ => Ok "" end
    end.

Module Stream.
(** The variables of the loop over the lines. *)
Record t := mk {
  first_at : option Q; last_at : option Q; itl : list Q; chunks : Z; collected : list string;
  prompt_tokens : option json; completion_tokens : option json }.
Definition start : t := mk None None [] 0 [] None None.
End Stream.
Definition note_usage (chunk : json) (st : Stream.t) : result Stream.t :=
  usage ← get_ "usage" chunk;
  let usage := or_empty usage (JObj []) in
  if negb (json_truthy usage) then Ok st
  else
    p ← get_ "prompt_tokens" usage;
    c ← get_ "completion_tokens" usage;
    Ok (Stream.mk (Stream.first_at st) (Stream.last_at st) (Stream.itl st) (Stream.chunks st) (Stream.collected st)
          (match p with Some _ => p | None => Stream.prompt_tokens st end)
          (match c with Some _ => c | None => Stream.completion_tokens st end)).
Definition note_text (text : string) (now : Q) (st : Stream.t) : Stream.t :=
  Stream.mk
    (match Stream.last_at st with None => Some now | Some _ => Stream.first_at st end) (Some now)
    (match Stream.last_at st with None => Stream.itl st | Some t => Stream.itl st ++ [((now - t) * 1000)%Q] end)
    (Stream.chunks st + 1) (Stream.collected st ++ [text]) (Stream.prompt_tokens st) (Stream.completion_tokens st).
(** The loop over the lines, each with the clock at its arrival. *)
Fixpoint read_lines (lines : list (string * Q)) (st : Stream.t) : result Stream.t :=
  match lines with
  | [] => Ok st
  | (line, now) :: lines =>
      if negb (startswith "data:" line) then read_lines lines st
      else
        let data := strip (drop_str 5 line) in
        if String.eqb data "[DONE]" then Ok st
        else match json_loads_str data with
             | None => read_lines lines st
             | Some chunk =>
                 st ← note_usage chunk st;
                 text ← _content_of chunk;
                 if String.eqb text "" then read_lines lines st else read_lines lines (note_text text now st)
             end
  end.
(** [chat] on a 200 answer that ends at [finished]. *)
Definition chat_result (started finished : Q) (lines : list (string * Q)) : result RequestResult.t :=
  st ← read_lines lines Stream.start;
  Ok (RequestResult.mk 200 ((finished - started) * 1000)%Q
        (match Stream.first_at st with Some t => Some ((t - started) * 1000)%Q | None => None end)
        (Stream.itl st) (Stream.prompt_tokens st) (Stream.completion_tokens st) (Stream.chunks st)
        (String.concat "" (Stream.collected st)) None).

(** What the HTTP client makes of the request: an error, an answer that is not a 200,
    or the lines of a stream and the error that ended it early, if one did. *)
Module Answer.
Inductive t := Failed (error : string) | Refused (status : Z) (body : string) | Streamed (lines : list (string * Q)) (broken : option string).
End Answer.
Definition is_done (line : string * Q) : bool := startswith "data:" line.1 && String.eqb (strip (drop_str 5 line.1)) "[DONE]".
(** [chat]: what is sent (URL, body, headers), and what is measured. *)
Definition chat_request (base_url api_key model_name : string) (messages : list json) (stream : bool) (max_tokens : Z)
    : string * json * list (string * string) :=
  (rstrip_by (λ c, Ascii.eqb c "/") base_url +:+ "/v1/chat/completions",
   JObj [("model", JStr model_name); ("messages", JList messages); ("temperature", JInt 0); ("max_tokens", JInt max_tokens);
         ("stream", JBool stream)],
   if String.eqb api_key "" then [] else [("Authorization", "Bearer " +:+ api_key)]).
Definition failed_result (status : Z) (started finished : Q) (error : string) : RequestResult.t :=
  RequestResult.mk status ((finished - started) * 1000)%Q None [] None None 0 "" (Some error).
Definition chat_outcome (started finished : Q) (answer : Answer.t) : result RequestResult.t :=
  match answer with
  | Answer.Failed error => Ok (failed_result 0 started finished error)
  | Answer.Refused status body =>
      Ok (failed_result status started finished ("HTTP " +:+ str_Z status +:+ ": " +:+ take_chars 400 body))
  | Answer.Streamed lines None => chat_result started finished lines
  | Answer.Streamed lines (Some error) =>
      if existsb is_done lines then chat_result started finished lines
      else _ ← read_lines lines Stream.start; Ok (failed_result 0 started finished error)
  end.
(** Only a complete stream counts as a success: a request whose stream broke before its
    end, however much of it had arrived, is an error without measurements. *)
Lemma chat_outcome_ok started finished answer r :
  chat_outcome started finished answer = Ok r → RequestResult.ok r = true →
  ∃ lines, (answer = Answer.Streamed lines None ∨ ∃ e, answer = Answer.Streamed lines (Some e) ∧ existsb is_done lines = true) ∧
    chat_result started finished lines = Ok r.
Proof.
  assert (∀ status error, RequestResult.ok (failed_result status started finished error) = true → False) as Hf.
  { intros status error. unfold RequestResult.ok. cbn. by rewrite andb_false_r. }
  destruct answer as [e|status body|lines [e|]]; cbn [chat_outcome].
  - by intros [= <-] ?%Hf.
  - by intros [= <-] ?%Hf.
  - destruct (existsb is_done lines) eqn:E; [intros H _; exists lines; split; [right; by exists e|done]|].
    by intros (st & _ & [= <-])%result_bind_Ok ?%Hf.
  - intros H _. exists lines. split; [by left|done].
Qed.

(** ** The summary of a case ([report.py]) *)
Definition MIN_MEASURABLE_GENERATION_MS : Q := 1%Q.
Module Summary.
Record t := mk {
  requests : Z; errors : Z; ttft_p50_ms : option Q; ttft_p95_ms : option Q; ttft_p99_ms : option Q;
  e2e_p50_ms : option Q; e2e_p95_ms : option Q; itl_p95_ms : option Q; mean_tps : option Q }.
End Summary.
Definition ok_results (results : list RequestResult.t) : list RequestResult.t := where_ RequestResult.ok results.
Definition tokens_int (v : option json) : option Z := match v with Some (JInt n) => Some n | _ => None end.
Definition throughput (r : RequestResult.t) : option Q :=
  window_ms ← RequestResult.generation_ms r;
  if negb (Qle_bool MIN_MEASURABLE_GENERATION_MS window_ms) then None
  else tps (tokens_int (RequestResult.completion_tokens r)) (Some (window_ms / 1000)%Q).
Definition summary (results : list RequestResult.t) : Summary.t :=
  let ok := ok_results results in
  let ttfts := omap RequestResult.ttft_ms ok in
  let e2es := map RequestResult.e2e_ms ok in
  let itls := concat (map RequestResult.itl_ms ok) in
  Summary.mk (Z.of_nat (length results)) (Z.of_nat (length results) - Z.of_nat (length ok))
    (pct ttfts 50) (pct ttfts 95) (pct ttfts 99) (pct e2es 50) (pct e2es 95) (pct itls 95)
    (mean (omap throughput ok)).

(** ** Traces ([trace.py], [_run_replay] of [__main__.py]) *)
Fixpoint replay_from (previous : option Q) (stamps : list Q) : list Q :=
  match stamps with
  | [] => []
  | ts :: stamps =>
      (match previous with None => 0 | Some p => if Qle_bool (ts - p) 0 then 0 else (ts - p) end)%Q :: replay_from (Some ts) stamps
  end.
Definition replay_schedule (stamps : list Q) : list Q := replay_from None stamps.
(** When each request of a replay is sent: the next one waits for the answer of the
    one before ([durations]), then for its delay. *)
Fixpoint run_replay (now : Q) (entries : list (Q * Q)) : list Q :=
  match entries with
  | [] => []
  | (delay, duration) :: entries => (now + delay)%Q :: run_replay (now + delay + duration)%Q entries
  end.

(** ** The parity verdict ([parity.py]) *)
Definition R_TPS_MIN : Q := 90 # 100.
Definition R_P95_MAX : Q := 125 # 100.
Definition TTFT_P95_COLD_MS : Q := 1000.
Definition ITL_P95_MS : Q := 50.
Definition MIN_TOKENS_PER_SECOND : Q := 20.
Definition MAX_ERROR_RATE : Q := 1 # 1000.
Module Cell.
Record t := mk {
  configuration : string; mode : string; nodes : Z; gpus : Z; environment : string;
  ttft_p50_ms : option Q; ttft_p95_ms : option Q; itl_p95_ms : option Q; e2e_p50_ms : option Q;
  tokens_per_second : option Q; requests : Z; errors : Z }.
Definition error_rate (c : t) : Q :=
  if requests c =? 0 then 1%Q else (inject_Z (errors c) / inject_Z (requests c))%Q.
End Cell.
Inductive value := VStr (s : string) | VInt (z : Z) | VFloat (q : option Q).
Definition as_dict (c : Cell.t) : list (string * value) :=
  [("configuration", VStr (Cell.configuration c)); ("mode", VStr (Cell.mode c)); ("nodes", VInt (Cell.nodes c));
   ("gpus", VInt (Cell.gpus c)); ("environment", VStr (Cell.environment c));
   ("ttft_p50_ms", VFloat (Cell.ttft_p50_ms c)); ("ttft_p95_ms", VFloat (Cell.ttft_p95_ms c));
   ("itl_p95_ms", VFloat (Cell.itl_p95_ms c)); ("e2e_p50_ms", VFloat (Cell.e2e_p50_ms c));
   ("tokens_per_second", VFloat (Cell.tokens_per_second c)); ("requests", VInt (Cell.requests c));
   ("errors", VInt (Cell.errors c)); ("error_rate", VFloat (Some (Cell.error_rate c)))].
Definition cell_fields : list string :=
  ["configuration"; "mode"; "nodes"; "gpus"; "environment"; "ttft_p50_ms"; "ttft_p95_ms"; "itl_p95_ms"; "e2e_p50_ms";
   "tokens_per_second"; "requests"; "errors"].
(** [Cell( ** d )]: the keywords must be the fields, no more and no fewer. *)
Definition accepts_keywords {A} (d : list (string * A)) : result unit :=
  if forallb (λ k, bool_decide (k ∈ cell_fields)) (map fst d) && forallb (λ f, bool_decide (f ∈ map fst d)) cell_fields
  then Ok tt else Raise TypeError.
Definition ratio (a b : option Q) : option Q :=
  match a, b with
  | Some x, Some y => if Qeq_bool x 0 || Qeq_bool y 0 then None else Some (x / y)%Q
  | _, _ => None
  end.
Definition ratios (cell baseline : Cell.t) : option Q * option Q :=
  (ratio (Cell.tokens_per_second cell) (Cell.tokens_per_second baseline),
   ratio (Cell.ttft_p95_ms cell) (Cell.ttft_p95_ms baseline)).
Inductive reason := NotOnHardware | ErrorRate | NoTtft | TtftAbove | ItlAbove | TooSlow | RTpsBelow | RP95Above.
Definition above (v : option Q) (limit : Q) : bool := match v with Some x => negb (Qle_bool x limit) | None => false end.
Definition below (v : option Q) (limit : Q) : bool := match v with Some x => negb (Qle_bool limit x) | None => false end.
Definition when_ (b : bool) (r : reason) : list reason := if b then [r] else [].
Definition verdict (cell : Cell.t) (baseline : option Cell.t) : string * list reason :=
  let off := negb (String.eqb (Cell.environment cell) "hardware") in
  let reasons :=
    when_ off NotOnHardware ++ when_ (negb (Qle_bool (Cell.error_rate cell) MAX_ERROR_RATE)) ErrorRate
    ++ match Cell.ttft_p95_ms cell with None => [NoTtft] | v => when_ (above v TTFT_P95_COLD_MS) TtftAbove end
    ++ when_ (above (Cell.itl_p95_ms cell) ITL_P95_MS) ItlAbove
    ++ when_ (below (Cell.tokens_per_second cell) MIN_TOKENS_PER_SECOND) TooSlow
    ++ match baseline with
       | None => []
       | Some base => let '(r_tps, r_p95) := ratios cell base in
                      when_ (below r_tps R_TPS_MIN) RTpsBelow ++ when_ (above r_p95 R_P95_MAX) RP95Above
       end in
  (if off then "harness-check" else match reasons with [] => "pass" | _ => "fail" end, reasons).
Definition _cell_from (label mode environment : string) (nodes gpus : Z) (results : list RequestResult.t) : Cell.t :=
  let s := summary results in
  Cell.mk label mode nodes gpus environment (Summary.ttft_p50_ms s) (Summary.ttft_p95_ms s) (Summary.itl_p95_ms s)
    (Summary.e2e_p50_ms s) (Summary.mean_tps s) (Summary.requests s) (Summary.errors s).
(** The exit code of [main] once every cell is measured. *)
Definition exit_code (cells : list Cell.t) : Z :=
  match cells with
  | [] => 2
  | _ => if existsb (λ c, negb (Qle_bool (Cell.error_rate c) MAX_ERROR_RATE)) cells then 1 else 0
  end.

(** ** The harness and the autoscaler compute the same percentile *)
Lemma p95_loop_same target pb pc pairs :
  p95_loop target pb (inject_Z pc) (map (λ bc, (bc.1, inject_Z bc.2)) pairs) =
  (λ v, (v * 1000)%Q) <$> hist_p95_loop target pb pc pairs.
Proof.
  revert pb pc. induction pairs as [|[b c] pairs IH]; intros pb pc; [done|]. cbn.
  destruct (Qge_bool _ _); [|apply IH]. cbn. f_equal.
  assert (Qeq_bool (inject_Z c) (inject_Z pc) = (c =? pc)) as ->.
  { apply eq_true_iff_eq. rewrite Qeq_bool_iff, Z.eqb_eq, inject_Z_injective. done. }
  destruct (c =? pc); [done|]. unfold Z.sub. by rewrite inject_Z_plus, inject_Z_opp.
Qed.
Lemma combine_map_r {A B C} (f : B → C) (l : list A) k : combine l (map f k) = map (λ x, (x.1, f x.2)) (combine l k).
Proof. revert k. induction l as [|a l IH]; intros [|b k]; cbn; try done. by rewrite IH. Qed.
Lemma last_map {A B} (f : A → B) l : last (map f l) = f <$> last l.
Proof. exact (fmap_last f l). Qed.
Lemma last_combine {A B} (l : list A) (k : list B) :
  (length k <= length l)%nat → snd <$> last (combine l k) = last k.
Proof.
  revert l. induction k as [|b k IH]; intros [|a l] H; cbn in H; try done; [lia|]. cbn [combine].
  destruct k as [|b' k]; [by destruct l|]. destruct l as [|a' l]; [cbn in H; lia|].
  rewrite !last_cons_cons. specialize (IH (a' :: l) ltac:(cbn in *; lia)). cbn [combine] in *. by rewrite last_cons_cons.
Qed.
Lemma hist_p95_reached target pb pc pairs b c :
  last pairs = Some (b, c) → (target <= inject_Z c)%Q → is_Some (hist_p95_loop target pb pc pairs).
Proof.
  revert pb pc. induction pairs as [|[b' c'] pairs IH]; intros pb pc Hl Ht; [done|]. cbn.
  destruct (Qge_bool _ _) eqn:E; [by eexists|]. destruct pairs as [|p pairs].
  - injection Hl as -> ->. unfold Qge_bool in E. by rewrite (proj2 (Qle_bool_iff _ _) Ht) in E.
  - rewrite last_cons_cons in Hl. by apply IH.
Qed.

(** The 95th percentile the benchmark reads off a histogram is the one the
    autoscaler computes from the same buckets and counts: equal, in seconds where
    the autoscaler's is in milliseconds, and both undefined when the last bucket
    counts nothing. *)
Theorem hist_p95_agrees buckets counts :
  (length counts <= length buckets)%nat →
  Autoscaling.hist_p95 buckets (map inject_Z counts) = (λ v, (v * 1000)%Q) <$> hist_p95 buckets counts.
Proof.
  intros Hl. unfold Autoscaling.hist_p95, hist_p95. cbn zeta. rewrite last_map, <-(last_combine buckets counts Hl).
  destruct (last (combine buckets counts)) as [[b total]|] eqn:E; [|done]. cbn.
  assert (Qle_bool (inject_Z total) 0 = (total <=? 0)) as ->.
  { apply eq_true_iff_eq. by rewrite Qle_bool_iff, Z.leb_le, (Zle_Qle total 0). }
  destruct (Z.leb_spec total 0) as [|Hpos]; [done|]. rewrite combine_map_r, (p95_loop_same _ _ 0).
  destruct (hist_p95_reached ((95 # 100) * inject_Z total)%Q 0%Q 0 _ b total E) as [v ->]; [|done].
  rewrite (Zlt_Qlt 0) in Hpos. change (inject_Z 0) with 0%Q in Hpos. lra.
Qed.
Lemma hist_p95_agrees_witness :
  (length [10; 90; 100] <= length [1 # 2; 1; 2]%Q)%nat ∧
  Autoscaling.hist_p95 [1 # 2; 1; 2]%Q (map inject_Z [10; 90; 100]) = (λ v, (v * 1000)%Q) <$> hist_p95 [1 # 2; 1; 2]%Q [10; 90; 100].
Proof. split; [cbn; lia|]. apply (hist_p95_agrees [1 # 2; 1; 2]%Q [10; 90; 100]). cbn. lia. Defined.

(** ** Percentiles *)
Lemma int_Q_floor q : (0 <= q)%Q → int_Q q = Qfloor q.
Proof.
  destruct q as [n d]. unfold int_Q, Qfloor, Qle. cbn. intros H. apply Z.quot_div_nonneg; lia.
Qed.
Lemma at_mono l i j :
  StronglySorted Qle_bool l → 0 <= i <= j → j < Z.of_nat (length l) → (at_ l i <= at_ l j)%Q.
Proof.
  intros Hs Hij Hj. unfold at_.
  assert (∀ a b, (a <= b < length l)%nat → (nth a l 0%Q <= nth b l 0%Q)%Q) as H; [|apply H; lia].
  clear -Hs. induction Hs as [|x l _ IH Hx]; intros a b Hab; [cbn in Hab; lia|].
  destruct a as [|a], b as [|b]; cbn in Hab |- *; [lra| |lia|apply IH; lia].
  apply Qle_bool_iff, Is_true_true. apply (proj1 (Forall_forall _ _) Hx). apply list_elem_of_In, nth_In. lia.
Qed.
(** Interpolation in a sorted list grows with the rank and stays between its
    neighbours. *)
Lemma interpolate_between l r :
  StronglySorted Qle_bool l → (0 <= r)%Q → (r <= inject_Z (Z.of_nat (length l) - 1))%Q →
  let low := Qfloor r in
  0 <= low < Z.of_nat (length l) ∧ (at_ l low <= interpolate l r)%Q ∧
  (interpolate l r <= at_ l (Z.min (low + 1) (Z.of_nat (length l) - 1)))%Q.
Proof.
  intros Hs Hr0 Hr. cbn zeta. unfold interpolate. rewrite int_Q_floor by done. set (low := Qfloor r).
  pose proof (Qfloor_le r) as F1. pose proof (Qlt_floor r) as F2. fold low in F1, F2.
  assert (0 <= low) as H0 by exact (Qfloor_resp_le 0 r Hr0).
  assert (low < Z.of_nat (length l)) as H1. { enough (low <= Z.of_nat (length l) - 1) by lia. rewrite Zle_Qle. lra. }
  pose proof (at_mono l low (Z.min (low + 1) (Z.of_nat (length l) - 1)) Hs ltac:(lia) ltac:(lia)) as Hm.
  rewrite inject_Z_plus in F2. change (inject_Z 1) with 1%Q in F2. cbn zeta. split; [lia|]. split; nra.
Qed.
Lemma interpolate_mono l r1 r2 :
  StronglySorted Qle_bool l → (0 <= r1)%Q → (r1 <= r2)%Q → (r2 <= inject_Z (Z.of_nat (length l) - 1))%Q →
  (interpolate l r1 <= interpolate l r2)%Q.
Proof.
  intros Hs H0 H12 H2. pose proof (Qfloor_resp_le r1 r2 H12) as Hf.
  destruct (interpolate_between l r1 Hs) as (B1 & L1 & U1); [lra..|].
  destruct (interpolate_between l r2 Hs) as (B2 & L2 & U2); [lra..|].
  destruct (Z.eq_dec (Qfloor r1) (Qfloor r2)) as [E|Hne].
  - unfold interpolate. rewrite !int_Q_floor by lra. rewrite E.
    pose proof (at_mono l (Qfloor r2) (Z.min (Qfloor r2 + 1) (Z.of_nat (length l) - 1)) Hs ltac:(lia) ltac:(lia)). nra.
  - apply (Qle_trans _ _ _ U1). refine (Qle_trans _ _ _ _ L2). apply at_mono; [done|lia..].
Qed.
Lemma sorted_Q l : StronglySorted Qle_bool (sorted_by Qle_bool l).
Proof.
  apply sorted_by_sorted.
  - intros a b H. apply Qle_bool_iff. apply Qlt_le_weak, Qnot_le_lt. intros H'%Qle_bool_iff. congruence.
  - intros a b c. rewrite !Qle_bool_iff. apply Qle_trans.
Qed.
Lemma at_elem l i : 0 <= i < Z.of_nat (length l) → at_ l i ∈ l.
Proof. intros H. unfold at_. apply list_elem_of_In, nth_In. lia. Qed.

(** A percentile of a sample that is not empty lies between two values of the
    sample, and grows with the percentage: p50, p95 and p99 come in that order. *)
Theorem pct_ordered values p q :
  values ≠ [] → (0 <= p)%Q → (p <= q)%Q → (q <= 100)%Q →
  ∃ a b, pct values p = Some a ∧ pct values q = Some b ∧ (a <= b)%Q ∧
    (∃ x y, x ∈ values ∧ y ∈ values ∧ (x <= a)%Q ∧ (a <= y)%Q).
Proof.
  intros Hv Hp Hpq Hq. destruct values as [|v0 vs]; [done|]. unfold pct. set (values := v0 :: vs).
  pose proof (sorted_Q values) as Hs. pose proof (length_sorted_by Qle_bool values) as Hlen.
  assert (∀ x, x ∈ sorted_by Qle_bool values → x ∈ values) as Hin by (intros x; by rewrite sorted_by_elem).
  destruct (sorted_by Qle_bool values) as [|x [|y l]] eqn:E; [cbn in Hlen; lia| |].
  - exists x, x. split_and!; [done|done|lra|]. exists x, x. split_and!; [apply Hin; by left|apply Hin; by left|lra|lra].
  - set (o := x :: y :: l) in *. set (n := inject_Z (Z.of_nat (length o) - 1)).
    assert (0 <= n)%Q as Hn by (unfold n; change 0%Q with (inject_Z 0); rewrite <-Zle_Qle; cbn; lia).
    assert (∀ r, (0 <= r)%Q → (r <= 100)%Q → (0 <= r / 100 * n)%Q ∧ (r / 100 * n <= n)%Q) as Hr.
    { intros r H0 H1. assert (0 <= r / 100)%Q by (unfold Qdiv; change (/ 100)%Q with (1 # 100)%Q; lra).
      assert (r / 100 <= 1)%Q by (unfold Qdiv; change (/ 100)%Q with (1 # 100)%Q; lra). nra. }
    destruct (Hr p ltac:(lra) ltac:(lra)) as [P0 P1]. destruct (Hr q ltac:(lra) ltac:(lra)) as [Q0 Q1].
    eexists _, _. split; [done|]. split; [done|]. split.
    + apply interpolate_mono; [done|done| |done]. unfold Qdiv. change (/ 100)%Q with (1 # 100)%Q. nra.
    + destruct (interpolate_between o (p / 100 * n)%Q Hs P0 P1) as (B & L & U).
      eexists _, _. split_and!; [apply Hin, at_elem, B| |exact L|exact U]. apply Hin, at_elem. lia.
Qed.
Lemma pct_ordered_witness :
  ∃ a b, pct [4; 1; 3; 2]%Q 50 = Some a ∧ pct [4; 1; 3; 2]%Q 95 = Some b ∧ (a <= b)%Q.
Proof.
  destruct (pct_ordered [4; 1; 3; 2]%Q 50 95 ltac:(done) ltac:(by vm_compute) ltac:(by vm_compute) ltac:(by vm_compute))
    as (a & b & Ha & Hb & Hab & _). exists a, b. split; [exact Ha|split; [exact Hb|exact Hab]].
Defined.

(** ** What is measured on a stream *)
Lemma sum_Q_snoc l x : (sum_Q (l ++ [x]) == sum_Q l + x)%Q.
Proof. unfold sum_Q. rewrite foldl_app. cbn. lra. Qed.
(** The gaps add up to the time from the first content chunk to the last. *)
Definition measured (started upto : Q) (st : Stream.t) : Prop :=
  length (Stream.collected st) = Z.to_nat (Stream.chunks st) ∧ 0 <= Stream.chunks st ∧
  match Stream.first_at st, Stream.last_at st with
  | Some f, Some l => (started <= f)%Q ∧ (f <= l)%Q ∧ (l <= upto)%Q ∧ (sum_Q (Stream.itl st) == (l - f) * 1000)%Q ∧
                      Z.of_nat (length (Stream.itl st)) = Stream.chunks st - 1
  | None, None => Stream.itl st = [] ∧ Stream.chunks st = 0
  | _, _ => False
  end.
Lemma note_text_measured started upto now text st :
  (started <= upto)%Q → (upto <= now)%Q → measured started upto st → measured started now (note_text text now st).
Proof.
  intros H1 H2 (Hl & H0 & H). unfold measured, note_text. cbn. rewrite length_app. cbn.
  split; [lia|]. split; [lia|]. destruct (Stream.first_at st) as [f|], (Stream.last_at st) as [l|]; try done.
  - destruct H as (? & ? & ? & E & Hn). split_and!; [lra..| |].
    + rewrite sum_Q_snoc, E. lra.
    + rewrite length_app. cbn. lia.
  - destruct H as [-> ->]. cbn. split_and!; try lra; try done.
Qed.
Lemma measured_later started upto now st : (upto <= now)%Q → measured started upto st → measured started now st.
Proof.
  intros H (Hl & H0 & Hm). split; [done|]. split; [done|].
  destruct (Stream.first_at st), (Stream.last_at st); try done. destruct Hm as (? & ? & ? & ? & ?). split_and!; (done || lra).
Qed.
Lemma note_usage_measured started upto chunk st st' :
  note_usage chunk st = Ok st' → measured started upto st → measured started upto st'.
Proof.
  unfold note_usage. intros (usage & _ & H)%result_bind_Ok. destruct (negb _); [by injection H as <-|].
  apply result_bind_Ok in H as (p & _ & (c & _ & [= <-])%result_bind_Ok). done.
Qed.
Lemma read_lines_measured started finished lines upto st st' :
  (started <= upto)%Q → Sorted Qle (upto :: map snd lines ++ [finished]) → measured started upto st →
  read_lines lines st = Ok st' → measured started finished st'.
Proof.
  revert upto st. induction lines as [|[line now] lines IH]; intros upto st Hu Hs Hm.
  - intros [= <-]. cbn in Hs. apply Sorted_inv in Hs as [_ Hh%HdRel_inv]. by eapply measured_later.
  - cbn [map app] in Hs. apply Sorted_inv in Hs as [Hs Hh%HdRel_inv]. cbn in Hh.
    assert (started <= now)%Q as Hn by lra. pose proof (measured_later _ _ _ _ Hh Hm) as Hm'.
    cbn [read_lines]. destruct (negb _); [by apply (IH now)|].
    destruct (String.eqb _ "[DONE]").
    { intros [= <-]. eapply measured_later; [|exact Hm']. clear -Hs. revert now Hs.
      induction lines as [|[l t] lines IH]; intros now Hs; cbn in Hs; apply Sorted_inv in Hs as [Hs Hh%HdRel_inv]; [done|].
      specialize (IH _ Hs). cbn in Hh. lra. }
    destruct (json_loads_str _) as [chunk|]; [|by apply (IH now)].
    intros (st1 & H1 & (text & _ & H)%result_bind_Ok)%result_bind_Ok.
    pose proof (note_usage_measured _ _ _ _ _ H1 Hm) as Hm1. revert H. destruct (String.eqb text "").
    + apply (IH now); [done|done|]. exact (measured_later _ _ _ _ Hh Hm1).
    + apply (IH now); [done|done|]. exact (note_text_measured _ _ _ _ _ Hu Hh Hm1).
Qed.
(** What a request reports fits in the time it took: the first content chunk and the
    gaps after it are within the end-to-end time, with one gap less than chunks. *)
Lemma chat_measures started finished lines r :
  Sorted Qle (started :: map snd lines ++ [finished]) → chat_result started finished lines = Ok r →
  match RequestResult.ttft_ms r with
  | Some t => (0 <= t)%Q ∧ (t + sum_Q (RequestResult.itl_ms r) <= RequestResult.e2e_ms r)%Q ∧
              Z.of_nat (length (RequestResult.itl_ms r)) = RequestResult.content_chunks r - 1
  | None => RequestResult.itl_ms r = [] ∧ RequestResult.content_chunks r = 0
  end.
Proof.
  intros Hs (st & Hr & [= <-])%result_bind_Ok. cbn.
  destruct (read_lines_measured started finished lines started Stream.start st) as (_ & _ & H); [lra|exact Hs|by unfold measured|exact Hr|].
  destruct (Stream.first_at st), (Stream.last_at st); try done. destruct H as (? & ? & ? & E & ?). split_and!; [lra| |done].
  rewrite E. lra.
Qed.

(** ** Replay *)
Lemma replay_schedule_delays stamps :
  length (replay_schedule stamps) = length stamps ∧ Forall (λ d, (0 <= d)%Q) (replay_schedule stamps).
Proof.
  unfold replay_schedule. generalize (None : option Q). induction stamps as [|ts stamps IH]; intros previous; [done|].
  destruct (IH (Some ts)) as [H1 H2]. cbn. split; [by rewrite H1|]. constructor; [|done].
  destruct previous as [p|]; [|lra]. destruct (Qle_bool (ts - p) 0) eqn:E; [lra|].
  apply Qlt_le_weak, Qnot_le_lt. intros H%Qle_bool_iff. congruence.
Qed.
(** The delays alone reproduce the recorded arrivals. *)
Lemma replay_schedule_arrivals ts stamps :
  Sorted Qle (ts :: stamps) →
  Forall2 Qeq (run_replay ts (map (λ d, (d, 0%Q)) (replay_schedule (ts :: stamps)))) (ts :: stamps).
Proof.
  intros Hs. cbn. constructor; [lra|].
  assert (∀ now, (now == ts)%Q → Forall2 Qeq (run_replay now (map (λ d, (d, 0%Q)) (replay_from (Some ts) stamps))) stamps) as H;
    [|apply H; lra].
  revert ts Hs. induction stamps as [|t stamps IH]; intros ts Hs now Hnow; cbn; [constructor|].
  apply Sorted_inv in Hs as [Hs Hh%HdRel_inv].
  assert ((now + (if Qle_bool (t - ts) 0 then 0 else t - ts) == t)%Q) as E.
  { destruct (Qle_bool (t - ts) 0) eqn:E; [apply Qle_bool_iff in E; lra|lra]. }
  constructor; [done|]. apply IH; [done|]. rewrite E. lra.
Qed.
(** But a replay waits for each answer before the next delay: with answers that take
    time the arrivals come later than recorded. *)
Lemma replay_stretches_arrivals :
  run_replay 0 (zip (replay_schedule [0; 1; 2]%Q) [5; 5; 5]%Q) = [0 + 0; 0 + 0 + 5 + (1 - 0); 0 + 0 + 5 + (1 - 0) + 5 + (2 - 1)]%Q.
Proof. by vm_compute. Qed.

(** ** The verdict *)
Lemma above_false v limit : above v limit = false ↔ ∀ x, v = Some x → (x <= limit)%Q.
Proof.
  unfold above. destruct v as [x|]; [|naive_solver]. rewrite negb_false_iff, Qle_bool_iff. naive_solver.
Qed.
Lemma below_false v limit : below v limit = false ↔ ∀ x, v = Some x → (limit <= x)%Q.
Proof.
  unfold below. destruct v as [x|]; [|naive_solver]. rewrite negb_false_iff, Qle_bool_iff. naive_solver.
Qed.
Lemma when_nil b r : when_ b r = [] ↔ b = false.
Proof. by destruct b. Qed.

(** The parity verdict: only a cell measured on hardware passes or fails, and it
    passes exactly when the error rate is at most 0.1 %, a time to first token was
    measured and is at most a second, and of the inter-token latency, the throughput
    and the two ratios to the baseline those that were measured keep their limits. *)
Theorem verdict_pass cell baseline :
  ((verdict cell baseline).1 = "harness-check" ↔ Cell.environment cell ≠ "hardware") ∧
  ((verdict cell baseline).1 = "pass" ↔
     Cell.environment cell = "hardware" ∧ (Cell.error_rate cell <= MAX_ERROR_RATE)%Q ∧
     (∃ t, Cell.ttft_p95_ms cell = Some t ∧ (t <= TTFT_P95_COLD_MS)%Q) ∧
     (∀ v, Cell.itl_p95_ms cell = Some v → (v <= ITL_P95_MS)%Q) ∧
     (∀ v, Cell.tokens_per_second cell = Some v → (MIN_TOKENS_PER_SECOND <= v)%Q) ∧
     ∀ base, baseline = Some base →
       (∀ r, (ratios cell base).1 = Some r → (R_TPS_MIN <= r)%Q) ∧
       (∀ r, (ratios cell base).2 = Some r → (r <= R_P95_MAX)%Q)).
Proof.
  unfold verdict. cbn zeta. destruct (String.eqb_spec (Cell.environment cell) "hardware") as [E|E]; cbn [negb fst].
  2: { split; [done|]. split; [done|naive_solver]. }
  split; [split; [|done]; by destruct (_ ++ _)|].
  match goal with |- context [match ?l with [] => "pass" | _ => _ end] =>
    assert (match l with [] => "pass" | _ :: _ => "fail" end = "pass" ↔ l = []) as -> by by destruct l end.
  rewrite !app_nil, !when_nil, above_false, below_false, negb_false_iff, Qle_bool_iff.
  assert (match Cell.ttft_p95_ms cell with None => [NoTtft] | Some t => when_ (above (Some t) TTFT_P95_COLD_MS) TtftAbove end = []
          ↔ ∃ t, Cell.ttft_p95_ms cell = Some t ∧ (t <= TTFT_P95_COLD_MS)%Q) as ->.
  { destruct (Cell.ttft_p95_ms cell) as [t|]; [|naive_solver]. rewrite when_nil, above_false. naive_solver. }
  destruct baseline as [base|]; [|naive_solver]. destruct (ratios cell base) as [r_tps r_p95] eqn:Er.
  rewrite app_nil, !when_nil, above_false, below_false. split.
  - intros (? & ? & ? & ? & ? & Hr1 & Hr2). repeat (split; [done|]). intros ? [= <-]. by rewrite Er.
  - intros (? & ? & ? & ? & ? & Hb). destruct (Hb base eq_refl) as [Hr1 Hr2]. rewrite Er in Hr1, Hr2. by repeat (split; [done|]).
Qed.
(** A cell on hardware whose throughput was never measured passes. *)
Lemma pass_without_throughput :
  verdict (Cell.mk "2x4" "pp" 2 4 "hardware" (Some 100%Q) (Some 200%Q) None (Some 300%Q) None 12 0) None = ("pass", []).
Proof. by vm_compute. Qed.
(** A baseline the harness recorded cannot be read back: it holds [error_rate],
    which is not a field. *)
Lemma recorded_baseline_rejected cell : accepts_keywords (as_dict cell) = Raise TypeError.
Proof. done. Qed.
