(* ===== verification/Fixture.v ===== *)
(** * The deterministic upstream ([bench/bench/fake_upstream.py]) and the way through

    The ASGI fixture that stands in for an engine, and what the benchmark's client
    and the gateway make of what it sends.  [asyncio.sleep] between chunks is left
    out: the clock is that of the reader. *)

From Stdlib Require Import QArith.
From S2P Require Import Prelude PyStr Json JsonText Gateway Telemetry Bench.
Local Open Scope Z_scope.

Definition DEFAULT_CHUNKS : Z := 8.
Module FakeUpstream.
Record t := mk { chunks : Z; model : string; require_auth : bool }.
Definition app : t := mk DEFAULT_CHUNKS "fake-model" true.
(** [FakeUpstream(require_auth=False)]: in the place of an engine. *)
Definition engine : t := mk DEFAULT_CHUNKS "fake-model" false.
End FakeUpstream.
Module AsgiScope.
Record t := mk { type_ : string; method : string; path : string; headers : list (string * string) }.
End AsgiScope.
(** The ASGI messages: the start of the response, and a part of its body. *)
Inductive message :=
  | ResponseStart (status : Z) (content_type : string)
  | ResponseBody (body : string) (more_body : bool).
Definition endswith (suffix s : string) : bool := startswith (rev_str suffix) (rev_str s).

Definition _authorized (scope : AsgiScope.t) : bool :=
  existsb (λ kv, String.eqb kv.1 "authorization" && startswith "Bearer " kv.2) (AsgiScope.headers scope).
(** The received parts, up to the last. *)
Fixpoint _read_body (messages : list (string * bool)) : string :=
  match messages with
  | [] => ""
  | (body, more) :: messages => body +:+ (if more then _read_body messages else "")
  end.
Definition _plain (status : Z) (body : string) : list message :=
  [ResponseStart status "application/json"; ResponseBody body false].

Section upstream.
Context (float_repr : string → string) (float_int : string → result Z) (a : FakeUpstream.t).

Definition event (v : json) : string :=
  "data: " +:+ json_dumps float_repr v +:+ String "010" (String "010" "").
Definition fake_chunk (choices : json) (usage : list (string * json)) : json :=
  JObj ([("id", JStr "fake-1"); ("object", JStr "chat.completion.chunk"); ("model", JStr (FakeUpstream.model a));
         ("choices", choices)] ++ usage).
Definition token (index : Z) : string := "token" +:+ str_Z index +:+ " ".
Definition content_chunk (index : Z) : json :=
  fake_chunk (JList [JObj [("index", JInt 0); ("delta", JObj [("content", JStr (token index))])]]) [].
Definition usage_chunk (chunks : Z) : json :=
  fake_chunk (JList []) [("usage", JObj [("prompt_tokens", JInt 16); ("completion_tokens", JInt chunks)])].
(** The bodies of a stream of [chunks] content chunks. *)
Definition stream_bodies (chunks : Z) : list string :=
  map (λ i, event (content_chunk i)) (seqZ 0 chunks) ++ [event (usage_chunk chunks); "data: [DONE]" +:+ String "010" (String "010" "")].
Definition stream_messages (chunks : Z) : list message :=
  ResponseStart 200 "text/event-stream" ::
  map (λ i, ResponseBody (event (content_chunk i)) true) (seqZ 0 chunks)
  ++ [ResponseBody (event (usage_chunk chunks)) true; ResponseBody ("data: [DONE]" +:+ String "010" (String "010" "")) false].

(** [__call__]: what is sent; [received]: the parts of the request's body. *)
Definition fake_call (scope : AsgiScope.t) (received : list (string * bool)) : result (list message) :=
  if negb (String.eqb (AsgiScope.type_ scope) "http") then Ok []
  else if negb (String.eqb (AsgiScope.method scope) "POST") || negb (endswith "/v1/chat/completions" (AsgiScope.path scope)) then
    Ok (_plain 404 (q "{'error':{'message':'not found'}}"))
  else if FakeUpstream.require_auth a && negb (_authorized scope) then
    Ok (_plain 401 (q "{'error':{'message':'unauthorized'}}"))
  else
    let body := _read_body received in
    let body := if String.eqb body "" then "{}" else body in
    if negb (utf8_valid body) then Raise (ValueError "invalid UTF-8")
    else match json_loads body with
         | None => Ok (_plain 400 (q "{'error':{'message':'invalid json'}}"))
         | Some payload =>
             max_tokens ← get_ "max_tokens" payload;
             max_tokens ← json_int float_int (or_empty max_tokens (JInt DEFAULT_CHUNKS));
             Ok (stream_messages (Z.max 1 (Z.min (FakeUpstream.chunks a) max_tokens)))
         end.
End upstream.
(** The body a client receives, part by part. *)
Definition body_parts (messages : list message) : list string :=
  omap (λ m, match m with ResponseBody body _ => Some body | ResponseStart _ _ => None end) messages.
Lemma body_parts_stream fr a n : body_parts (stream_messages fr a n) = stream_bodies fr a n.
Proof.
  unfold body_parts, stream_messages, stream_bodies. cbn [omap list_omap]. rewrite omap_app. f_equal.
  induction (seqZ 0 n) as [|i l IH]; [done|]. cbn. by f_equal.
Qed.

(** ** Reading the events *)

Section client.
Context (fr : string → string) (Hfr : ∀ s, float_literal s → float_literal (fr s)) (a : FakeUpstream.t)
  (Hmodel : text (FakeUpstream.model a)).
Notation dumps := (json_dumps fr).
Notation line_of v := ("data: " +:+ dumps v).

Lemma splitlines_event v rest : json_wf v → splitlines (event fr v +:+ rest) = line_of v :: "" :: splitlines rest.
Proof.
  intros Hw. unfold event. rewrite !append_assoc_str.
  change (String "010" (String "010" "") +:+ rest) with (String "010" (String "010" rest)).
  rewrite <-append_assoc_str, splitlines_plain.
  - f_equal. exact (splitlines_plain "" rest eq_refl).
  - rewrite forall_str_app, dumps_plain; done.
Qed.
(** What the client makes of an event that carries an object. *)
Lemma read_event v kvs now lines st :
  v = JObj kvs → json_wf v →
  read_lines ((line_of v, now) :: lines) st =
  (let chunk := json_norm fr v in
   st ← note_usage chunk st;
   text ← _content_of chunk;
   if String.eqb text "" then read_lines lines st else read_lines lines (note_text text now st)).
Proof.
  intros -> Hw. cbn [read_lines]. change (line_of (JObj kvs)) with ("data:" +:+ String " " (dumps (JObj kvs))).
  rewrite (startswith_app "data:"). cbn [negb]. rewrite (drop_str_app "data:").
  pose proof (strip_object (join ", " (map (λ kv, dump_str kv.1 +:+ ": " +:+ dumps kv.2) kvs))) as Es.
  change ("{" +:+ _ +:+ "}") with (dumps (JObj kvs)) in Es. rewrite Es.
  assert (String.eqb (dumps (JObj kvs)) "[DONE]" = false) as -> by done.
  by rewrite (proj1 (json_round_trip fr Hfr (JObj kvs) Hw)).
Qed.

Lemma token_text i : text (token i).
Proof.
  apply ascii_text, plain_ascii. unfold token. by rewrite !forall_str_app, str_Z_plain.
Qed.
Lemma content_chunk_wf i : json_wf (content_chunk a i).
Proof.
  cbn. split; [vm_decide|]. split_and!; try done; try (by apply ascii_text); try vm_decide. apply token_text.
Qed.
Lemma usage_chunk_wf n : json_wf (usage_chunk a n).
Proof. cbn. split; [vm_decide|]. split_and!; try done; try (by apply ascii_text); vm_decide. Qed.

(** The content chunks, read one by one. *)
Lemma read_tokens l lt rest st :
  lt.*1 = concat (map (λ i, [line_of (content_chunk a i); ""]) l) ++ rest →
  ∃ lt' st', lt'.*1 = rest ∧ read_lines lt st = read_lines lt' st' ∧
    Stream.chunks st' = Stream.chunks st + Z.of_nat (length l) ∧
    Stream.collected st' = Stream.collected st ++ map token l ∧
    Stream.prompt_tokens st' = Stream.prompt_tokens st ∧ Stream.completion_tokens st' = Stream.completion_tokens st.
Proof.
  revert lt st. induction l as [|i l IH]; intros lt st H.
  - exists lt, st. rewrite app_nil_r, Z.add_0_r. done.
  - destruct lt as [|[l1 t1] [|[l2 t2] lt]]; [done..|]. cbn [map concat app fmap list_fmap fst] in H.
    injection H as -> -> H. apply (IH lt (note_text (token i) t1 st)) in H as (lt' & st' & Hlt & E & Hc & Hl & Hp & Hk).
    exists lt', st'. split; [done|]. split; [|].
    + rewrite (read_event (content_chunk a i) _ _ _ _ eq_refl) by apply content_chunk_wf. exact E.
    + cbn in Hc, Hl, Hp, Hk. rewrite Hc, Hl, Hp, Hk. split; [cbn [length]; lia|]. by rewrite <-app_assoc.
Qed.
(** The client measures what the fixture sent: every content chunk once and in
    order, and the usage block's numbers. *)
Theorem fake_stream_measured n lt started finished :
  0 <= n → lt.*1 = splitlines (join "" (stream_bodies fr a n)) →
  ∃ r, chat_result started finished lt = Ok r ∧ RequestResult.ok r = true ∧
    RequestResult.content_chunks r = n ∧ RequestResult.content r = String.concat "" (map token (seqZ 0 n)) ∧
    RequestResult.prompt_tokens r = Some (JInt 16) ∧ RequestResult.completion_tokens r = Some (JInt n).
Proof.
  intros Hn Hlt.
  assert (splitlines (join "" (stream_bodies fr a n)) =
    concat (map (λ i, [line_of (content_chunk a i); ""]) (seqZ 0 n)) ++ [line_of (usage_chunk a n); ""; "data: [DONE]"; ""]) as E.
  { unfold stream_bodies. generalize (seqZ 0 n) as l. intros l. induction l as [|i l IH].
    - cbn [map app join]. rewrite append_nil_l, splitlines_event by apply usage_chunk_wf. done.
    - cbn [map app concat]. rewrite join_cons. destruct (map _ l ++ _) eqn:El; [by destruct l|]. rewrite <-El in IH |- *.
      rewrite append_nil_l, splitlines_event by apply content_chunk_wf. f_equal. f_equal. exact IH. }
  rewrite E in Hlt. apply (read_tokens _ _ _ Stream.start) in Hlt as (lt' & st' & Hlt' & Er & Hc & Hl & Hp & Hk).
  unfold chat_result. rewrite Er. destruct lt' as [|[l1 t1] [|[l2 t2] [|[l3 t3] lt']]]; [done..|].
  cbn [fmap list_fmap fst] in Hlt'. injection Hlt' as -> -> -> _.
  rewrite (read_event (usage_chunk a n) _ _ _ _ eq_refl) by apply usage_chunk_wf. eexists. split; [reflexivity|]. cbn.
  rewrite Hc, Hl. cbn. rewrite length_seqZ. split_and!; try done. lia.
Qed.
End client.

(** ** Through the gateway *)
Section gateway.
Context (fr : string → string).
Notation chat := "/v1/chat/completions".

(** The ways the network may hand on the parts: several as one chunk, none split. *)
Definition grouped (parts chunks : list string) : Prop :=
  ∃ gs, concat gs = parts ∧ Forall (λ g, g ≠ []) gs ∧ chunks = map (join "") gs.
Lemma join_cons_nil x l : join "" (x :: l) = x +:+ join "" l.
Proof. destruct l; [by rewrite append_nil_r|done]. Qed.
Lemma join_app_nil l l' : join "" (l ++ l') = join "" l +:+ join "" l'.
Proof. induction l as [|x l IH]; [done|]. cbn [app]. by rewrite !join_cons_nil, IH, append_assoc_str. Qed.
Lemma join_groups gs : join "" (map (join "") gs) = join "" (concat gs).
Proof. induction gs as [|g gs IH]; [done|]. cbn [map concat]. by rewrite join_cons_nil, IH, join_app_nil. Qed.

(** An event: a line of plain text and an empty one.  Whatever the events that a chunk
    holds, its lines are theirs. *)
Definition ended (line : string) : string := line +:+ String "010" (String "010" "").
Definition lines_ok (deltas : string → list string) (line : string) : Prop :=
  forall_str is_plain line = true ∧ line_deltas line = Ok (deltas line).
Lemma splitlines_events lines :
  Forall (λ l, forall_str is_plain l = true) lines → splitlines (join "" (map ended lines)) = flat_map (λ l, [l; ""]) lines.
Proof.
  induction 1 as [|l lines Hl _ IH]; [done|]. cbn [map flat_map app]. rewrite join_cons_nil. unfold ended at 1.
  rewrite append_assoc_str. change (String "010" (String "010" "") +:+ ?x) with (String "010" (String "010" x)).
  rewrite splitlines_plain by done. f_equal. rewrite <-IH. exact (splitlines_plain "" _ eq_refl).
Qed.
Lemma events_ascii lines :
  Forall (λ l, forall_str is_plain l = true) lines → forall_str (λ c, code c <? 128) (join "" (map ended lines)) = true.
Proof.
  induction 1 as [|l lines Hl _ IH]; [done|]. cbn [map]. rewrite join_cons_nil, forall_str_app, IH, andb_true_r. unfold ended.
  rewrite forall_str_app. apply andb_true_iff. split; [|done]. by apply plain_ascii.
Qed.
Lemma events_deltas deltas lines :
  Forall (lines_ok deltas) lines → lines_deltas (splitlines (decode_replace (join "" (map ended lines)))) = (concat (map deltas lines), None).
Proof.
  intros H. assert (Forall (λ l, forall_str is_plain l = true) lines) as Hp by (eapply Forall_impl; [exact H|by intros ? []]).
  rewrite decode_ascii, splitlines_events by first [by apply events_ascii|done]. clear Hp.
  induction H as [|l lines [_ Hl] _ IH]; [done|]. cbn [flat_map app lines_deltas map concat]. rewrite Hl.
  change (line_deltas "") with (Ok (A:=list string) []). cbv iota beta. by rewrite IH.
Qed.
(** Chunk by chunk. *)
Lemma events_relayed deltas tail sent gs :
  Forall (Forall (lines_ok deltas)) gs →
  let chunks := map (λ g, join "" (map ended g)) gs in
  (∃ tail', relay_loop chat tail sent chunks = (tail', sent ++ chunks, false)) ∧
  relay_deltas chat chunks = concat (map deltas (concat gs)).
Proof.
  intros H. cbv zeta. revert tail sent. induction H as [|g gs Hg _ IH]; intros tail sent.
  { split; [|done]. exists tail. cbn. by rewrite app_nil_r. }
  cbn [map relay_loop relay_deltas concat]. change (tracked_path chat) with true. cbv iota.
  pose proof (events_deltas deltas g Hg) as E. rewrite content_deltas_lines, E, map_app, concat_app.
  split; [|by rewrite (proj2 (IH [] []))].
  destruct (proj1 (IH (trim_tail (tail ++ [decode_replace (join "" (map ended g))])) (sent ++ [join "" (map ended g)]))) as [tail' ->].
  exists tail'. by rewrite <-app_assoc.
Qed.

(** The fixture's events, their deltas, and the usage block in any end of the stream
    that holds the last two. *)
Definition event_lines (n : Z) : list string :=
  map (λ i, "data: " +:+ json_dumps fr (content_chunk FakeUpstream.engine i)) (seqZ 0 n)
  ++ ["data: " +:+ json_dumps fr (usage_chunk FakeUpstream.engine n); "data: [DONE]"].
Definition deltas_of (line : string) : list string := match line_deltas line with Ok ds => ds | Raise _ => [] end.
Definition line_checked (line : string) : bool := forall_str is_plain line && match line_deltas line with Ok _ => true | Raise _ => false end.
Lemma line_checked_ok line : line_checked line = true → lines_ok deltas_of line.
Proof. unfold line_checked, lines_ok, deltas_of. intros [H1 H2]%andb_true_iff. split; [done|]. by destruct (line_deltas line). Qed.
Definition stream_checked (n : Z) : bool :=
  let lines := event_lines n in let bodies := map ended lines in
  bool_decide (stream_bodies fr FakeUpstream.engine n = bodies) && forallb line_checked lines
  && bool_decide (concat (map deltas_of lines) = map token (seqZ 0 n))
  && (Z.of_nat (String.length (join "" bodies)) <=? 16384)
  && forallb (λ k, bool_decide (_record_usage [join "" (drop k bodies)] = Some (16, n))) (seq 0 (S (Z.to_nat n))).
Lemma streams_checked : Forall (λ n, stream_checked n = true) [1; 2; 3; 4; 5; 6; 7; 8].
Proof. repeat (apply Forall_cons_2; [vm_compute; reflexivity|]). apply Forall_nil_2. Qed.

Lemma ungroup {A B} (f : A → B) gs l : concat gs = map f l → ∃ hs, gs = map (map f) hs ∧ concat hs = l.
Proof.
  revert l. induction gs as [|g gs IH]; intros l H; cbn in H; [exists []; by destruct l|].
  symmetry in H. apply map_eq_app in H as (l1 & l2 & -> & <- & H). destruct (IH l2 (eq_sym H)) as (hs & -> & <-). by exists (l1 :: hs).
Qed.
Lemma tail_size_length l : tail_size l <= Z.of_nat (String.length (join "" l)).
Proof.
  induction l as [|x l IH]; [done|]. rewrite join_cons_nil, append_length. pose proof (char_count_length x).
  change (tail_size (x :: l)) with (Z.of_nat (char_count x) + tail_size l). lia.
Qed.
(** What the tail holds: the chunks from one of the last eight on, so the last two
    events at least. *)
Lemma tail_is_end lines hs tail :
  Forall (λ l, forall_str is_plain l = true) lines → concat hs = lines → Forall (λ h, h ≠ []) hs → (2 <= length lines)%nat →
  Z.of_nat (String.length (join "" (map ended lines))) <= 16384 →
  let chunks := map (λ g, join "" (map ended g)) hs in
  longest_fitting_end (map decode_replace chunks) tail →
  ∃ k, (k + 2 <= length lines)%nat ∧ join "" tail = join "" (drop k (map ended lines)).
Proof.
  intros Hp Ec Hne H2 Hlen chunks (dropped & E & Hfit & Hmax).
  assert (map decode_replace chunks = chunks) as Ed.
  { unfold chunks. rewrite map_map. apply map_ext_in. intros g Hg%list_elem_of_In. apply decode_ascii, events_ascii.
    subst lines. apply Forall_concat in Hp. rewrite Forall_forall in Hp. by apply Hp. }
  rewrite Ed in E. apply map_eq_app in E as (hs1 & hs2 & -> & <- & <-).
  assert (∀ h, join "" (map (λ g, join "" (map ended g)) h) = join "" (map ended (concat h))) as Hj.
  { intros h. rewrite <-(map_map (map ended) (join "")), join_groups. by rewrite concat_map. }
  rewrite concat_app in Ec. exists (length (concat hs1)). subst lines. rewrite map_app, drop_app_length' by by rewrite length_map.
  rewrite Hj. split; [|done]. rewrite length_app.
  rewrite length_app in H2. destruct hs1 as [|h hs1 _] using rev_ind; [cbn [concat length] in *; lia|].
  assert (8 <= length hs2)%nat as H8.
  { destruct (decide (8 <= length hs2)%nat) as [|Hlt]; [done|]. exfalso. rewrite map_app in Hmax. apply (Hmax _ _ eq_refl).
    split; [cbn [length]; rewrite length_map; lia|]. etrans; [apply tail_size_length|]. etrans; [|exact Hlen].
    rewrite concat_app. cbn [concat]. rewrite app_nil_r, <-!app_assoc, (map_app _ (concat hs1)), (join_app_nil (map ended (concat hs1))).
    rewrite (append_length (join "" (map ended (concat hs1)))), join_cons_nil, Hj, <-join_app_nil, <-map_app. lia. }
  assert (length hs2 <= length (concat hs2))%nat; [|lia]. apply Forall_app in Hne as [_ Hne].
  clear -Hne. induction Hne as [|g hs2 Hg _ IH]; [done|]. cbn [concat length]. rewrite length_app. destruct g; [done|]. cbn [length]. lia.
Qed.
Lemma fixture_relayed n chunks :
  1 <= n <= DEFAULT_CHUNKS → grouped (stream_bodies fr FakeUpstream.engine n) chunks →
  ∃ tail, relay_loop chat [] [] chunks = (tail, chunks, false) ∧ _record_usage tail = Some (16, n) ∧
    relay_deltas chat chunks = map token (seqZ 0 n).
Proof.
  intros Hn (gs & Hc & Hg & ->). assert (n ∈ [1; 2; 3; 4; 5; 6; 7; 8]) as Hin by (unfold DEFAULT_CHUNKS in Hn; rewrite !elem_of_cons; lia).
  pose proof streams_checked as Hck. rewrite Forall_forall in Hck. specialize (Hck n Hin). unfold stream_checked in Hck.
  rewrite !andb_true_iff, !bool_decide_eq_true, Z.leb_le in Hck. destruct Hck as [[[[Eb Hl] Ed] Hlen] Hu].
  rewrite Eb in Hc. apply ungroup in Hc as (hs & -> & Ehs).
  assert (Forall (lines_ok deltas_of) (event_lines n)) as Hall.
  { apply Forall_forall. intros l Hlin. apply line_checked_ok. rewrite forallb_forall in Hl. by apply Hl, list_elem_of_In. }
  assert (Forall (Forall (lines_ok deltas_of)) hs) as Hok by (apply Forall_concat; by rewrite Ehs).
  rewrite map_map in *. destruct (events_relayed deltas_of [] [] hs Hok) as [[tail Hr] Hd].
  exists tail. split; [exact Hr|]. split; [|by rewrite Hd, Ehs].
  apply (relay_loop_tail _ []) in Hr as (taken & rest & Ht & Hend & [-> _]);
    [|exists []; split_and!; [done|split; [simpl; lia|done]|by intros [|? ?]]].
  rewrite app_nil_r in Ht. rewrite app_nil_l in Hend. subst taken.
  destruct (tail_is_end (event_lines n) hs tail) as (k & Hk & Ek); try done.
  - eapply Forall_impl; [exact Hall|by intros ? []].
  - apply Forall_forall. intros h Hh ->. rewrite Forall_forall in Hg. apply (Hg []); [|done]. apply list_elem_of_fmap. by exists [].
  - unfold event_lines. rewrite length_app, length_map, length_seqZ. cbn. lia.
  - unfold _record_usage. rewrite Ek. rewrite forallb_forall in Hu. specialize (Hu k). rewrite bool_decide_eq_true in Hu.
    apply Hu, in_seq. unfold event_lines in Hk. rewrite length_app, length_map, length_seqZ in Hk. cbn in Hk. lia.
Qed.

(** What [fake_call] sends, by cases. *)
Lemma fake_call_outcome float_int a scope received messages :
  fake_call fr float_int a scope received = Ok messages →
  (messages = [] ∧ AsgiScope.type_ scope ≠ "http") ∨
  (∃ status body, messages = _plain status body ∧ status ∈ [400; 401; 404]) ∨
  ∃ m, messages = stream_messages fr a (Z.max 1 (Z.min (FakeUpstream.chunks a) m)) ∧
    (FakeUpstream.require_auth a = true → _authorized scope = true).
Proof.
  unfold fake_call. destruct (String.eqb_spec (AsgiScope.type_ scope) "http") as [Ht|Ht]; [|intros [= <-]; by left].
  cbn [negb]. right. destruct (_ || _); [injection H as <-; left; eexists _, _; split; [done|vm_decide]|].
  destruct (FakeUpstream.require_auth a && negb (_authorized scope)) eqn:Ea;
    [injection H as <-; left; eexists _, _; split; [done|vm_decide]|].
  cbv zeta in H. destruct (negb (utf8_valid _)); [done|]. destruct (json_loads _) as [payload|];
    [|injection H as <-; left; eexists _, _; split; [done|vm_decide]].
  apply result_bind_Ok in H as (o & _ & H). apply result_bind_Ok in H as (m & _ & [= <-]). right. exists m.
  split; [done|]. intros Hr. rewrite Hr in Ea. by destruct (_authorized scope).
Qed.
End gateway.

(** The request as the fixture gets it from the gateway, which forwards no headers but
    these. *)
Definition gateway_scope (request : Request.t) (host : string) : AsgiScope.t :=
  AsgiScope.mk "http" (Request.method request) (Request.path request) (content_headers request ++ [("host", host)]).
Lemma gateway_unauthorized request host : _authorized (gateway_scope request host) = false.
Proof. unfold _authorized, gateway_scope, content_headers. cbn. destruct (Request.content_type request) as [c|]; [by destruct (String.eqb c "")|done]. Qed.
(** The fixture as it runs by default is no engine: it answers the gateway 401. *)
Lemma default_app_refuses_gateway fr float_int request host received :
  Request.method request = "POST" → Request.path request = "/v1/chat/completions" →
  fake_call fr float_int FakeUpstream.app (gateway_scope request host) received =
  Ok (_plain 401 (q "{'error':{'message':'unauthorized'}}")).
Proof.
  intros Hm Hp. unfold fake_call. rewrite gateway_unauthorized. unfold gateway_scope.
  cbn [AsgiScope.type_ AsgiScope.method AsgiScope.path]. by rewrite Hm, Hp.
Qed.


Definition sample_request : Request.t := json_request "/v1/chat/completions" (q "{'max_tokens': 3}").
Definition sample_messages : list message :=
  match fake_call id (λ _, Raise TypeError) FakeUpstream.engine (gateway_scope sample_request "10.0.0.5:8010")
          [(q "{'max_tok", true); (q "ens': 3}", false)] with
  | Ok messages => tail messages
  | Raise _ => []
  end.
(** The first two of the five parts as one chunk, the others alone. *)
Definition sample_chunks : list string :=
  map (join "") [take 2 (body_parts sample_messages); take 1 (drop 2 (body_parts sample_messages));
                 take 1 (drop 3 (body_parts sample_messages)); drop 4 (body_parts sample_messages)].
