(* ===== verification/Coding.v ===== *)
(** * The coding validation ([bench/bench/coding.py])

    The task file, the deterministic checks of an answer, the run over the tasks, its
    summary, the exit code and the raw file.  A check is the JSON object of the task
    file.  Parameters: [re], the pytest process, [repr] of a float and the comparison
    of floats.  The rendered table is in [Report]. *)

From Stdlib Require Import QArith Qround Lqa.
From S2P Require Import Prelude PyStr Json JsonText PrefixCache Bench.
Local Open Scope Z_scope.

Module Task.
Record t := mk {
  id : string; title : string; prompt : string; check : list (string * json); max_tokens : Z;
  requires_code_execution : bool }.
End Task.
Module TaskOutcome.
Record t := mk { task : Task.t; passed : bool; reason : string; result : RequestResult.t; detail : string }.
End TaskOutcome.

(** The arguments of the command line the tasks and the exit code depend on. *)
Module Args.
Record t := mk { only : option string; limit : Z; allow_code_execution : bool; environment : string; smoke : bool }.
End Args.

(** ** Python on JSON values *)
(** [check\[k\]] *)
Definition item (k : string) (kvs : list (string * json)) : result json :=
  match jget k kvs with Some v => Ok v | None => Raise KeyError end.
(** [v\[k\]] *)
Definition sub (k : string) (v : json) : result json :=
  match v with JObj kvs => item k kvs | _ => Raise TypeError end.
(** [not o] of an optional argument *)
Definition is_empty (o : option string) : bool := match o with Some s => String.eqb s "" | None => true end.
(** [for x in v]: the elements of a list, the characters of a string, the keys of an
    object. *)
Fixpoint chars_of (fuel : nat) (s : string) : list json :=
  match fuel with
  | O => []
  | S fuel => if String.eqb s "" then [] else JStr (take_chars 1 s) :: chars_of fuel (drop_chars 1 s)
  end.
Definition iterate (v : json) : result (list json) :=
  match v with
  | JList l => Ok l
  | JStr s => Ok (chars_of (String.length s) s)
  | JObj kvs => Ok (map (λ kv, JStr kv.1) kvs)
  | _ => Raise TypeError
  end.
Definition items (v : json) : result (list (string * json)) :=
  match v with JObj kvs => Ok kvs | _ => Raise AttributeError end.
(** [needle in text] *)
Definition in_text (text : string) (needle : json) : result bool :=
  match needle with JStr s => Ok (contains s text) | _ => Raise TypeError end.
(** [\[needle for needle in v if (needle in text) is keep\]] *)
Fixpoint filter_text (keep : bool) (text : string) (l : list json) : result (list string) :=
  match l with
  | [] => Ok []
  | needle :: l =>
      b ← in_text text needle;
      rest ← filter_text keep text l;
      Ok (match needle with JStr s => if Bool.eqb b keep then s :: rest else rest | _ => rest end)
  end.
Definition needles (keep : bool) (text : string) (o : option json) : result (list string) :=
  l ← iterate (default (JList []) o); filter_text keep text l.
(** Equality of JSON values, as [==] has it: booleans are the integers 0 and 1,
    objects are compared without their order. *)
Section equality.
Context (float_eq : string → string → bool) (float_eq_int : string → Z → bool).
Definition int_of_bool (b : bool) : Z := if b then 1 else 0.
Fixpoint py_eq (a b : json) : bool :=
  match a, b with
  | JNull, JNull => true
  | JStr x, JStr y => String.eqb x y
  | JBool x, JBool y => Bool.eqb x y
  | JInt x, JInt y => x =? y
  | JBool x, JInt y | JInt y, JBool x => int_of_bool x =? y
  | JFloat x, JFloat y => float_eq x y
  | JFloat x, JInt y | JInt y, JFloat x => float_eq_int x y
  | JFloat x, JBool y | JBool y, JFloat x => float_eq_int x (int_of_bool y)
  | JList l, JList l' =>
      (fix all l l' := match l, l' with
                       | [], [] => true
                       | x :: l, y :: l' => py_eq x y && all l l'
                       | _, _ => false
                       end) l l'
  | JObj kvs, JObj kvs' =>
      (length kvs =? length kvs')%nat
      && forallb (λ kv, match jget kv.1 kvs' with Some w => py_eq kv.2 w | None => false end) kvs
  | _, _ => false
  end.
End equality.

(** A [JSONDecodeError] is a [ValueError]; its message is left out. *)
Definition json_decode_error : exn := ValueError "".

(** ** The task file *)
Section tasks.
Context (float_int : string → result Z).
(** A task holds strings and an object where the file says so: another type, which
    Python would carry along, is refused here. *)
Definition as_str (v : json) : result string := match v with JStr s => Ok s | _ => Raise TypeError end.
Definition as_obj (v : json) : result (list (string * json)) := match v with JObj kvs => Ok kvs | _ => Raise TypeError end.
Definition load_task (raw : json) : result Task.t :=
  id ← sub "id" raw; id ← as_str id;
  title ← get_ "title" raw; title ← as_str (default (JStr id) title);
  prompt ← sub "prompt" raw; prompt ← as_str prompt;
  check ← sub "check" raw; check ← as_obj check;
  max_tokens ← get_ "max_tokens" raw; max_tokens ← json_int float_int (default (JInt 256) max_tokens);
  executes ← get_ "requires_code_execution" raw;
  Ok (Task.mk id title prompt check max_tokens (json_truthy (default (JBool false) executes))).
Definition load_tasks (text : string) : result (list Task.t) :=
  match json_loads_str text with
  | None => Raise json_decode_error
  | Some payload => raws ← sub "tasks" payload; raws ← iterate raws; mapR load_task raws
  end.
End tasks.

(** ** Checks *)
(** What pytest did on the answer. *)
Inductive pytest_run := TimedOut | Completed (returncode : Z) (output : string).
Definition CODE_EXECUTION_TIMEOUT_SECONDS : Z := 60.

Section checks.
Context (float_eq : string → string → bool) (float_eq_int : string → Z → bool) (float_int : string → result Z)
  (float_repr : string → string)
  (re_flag : json → result Z) (re_search : Z → json → string → result bool) (pytest : string → string → result pytest_run).

Definition check_contains_all (check : list (string * json)) (text : string) : result (bool * string) :=
  missing ← needles false text (jget "needles" check);
  forbidden ← needles true text (jget "forbid" check);
  Ok (match missing, forbidden with
      | _ :: _, _ => (false, "missing: " +:+ join ", " missing)
      | [], _ :: _ => (false, "forbidden: " +:+ join ", " forbidden)
      | [], [] => (true, "all required fragments present")
      end).
(** [text in allowed] *)
Definition text_in (text : string) (v : json) : result bool :=
  match v with
  | JList l => Ok (existsb (py_eq float_eq float_eq_int (JStr text)) l)
  | JStr s => Ok (contains text s)
  | JObj kvs => Ok (match jget text kvs with Some _ => true | None => false end)
  | _ => Raise TypeError
  end.
Definition check_one_of (check : list (string * json)) (text : string) : result (bool * string) :=
  allowed ← item "allowed" check;
  b ← text_in text allowed;
  Ok (if b : bool then (true, "answered " +:+ text)
      else (false, "expected one of " +:+ py_repr float_repr allowed +:+ ", got " +:+ repr_str (take_chars 40 text))).
Definition check_equals_normalized (check : list (string * json)) (text : string) : result (bool * string) :=
  expected ← item "expected" check;
  expected ← match expected with JStr s => Ok (strip s) | _ => Raise AttributeError end;
  Ok (if String.eqb text expected then (true, "exact match") else (false, "expected " +:+ repr_str expected)).
Definition check_regex (check : list (string * json)) (text : string) : result (bool * string) :=
  names ← iterate (default (JList []) (jget "flags" check));
  flags ← foldR (λ flags name, f ← re_flag name; Ok (Z.lor flags f)) 0 names;
  pattern ← item "pattern" check;
  found ← re_search flags pattern text;
  if negb found then Ok (false, "pattern not matched")
  else
    forbidden ← needles true text (jget "forbid" check);
    match forbidden with
    | _ :: _ => Ok (false, "forbidden: " +:+ join ", " forbidden)
    | [] =>
        let max_length := default JNull (jget "max_length" check) in
        if json_truthy max_length then
          n ← json_int float_int max_length;
          Ok (if n <? Z.of_nat (char_count text)
              then (false, "answer longer than " +:+ py_str float_repr max_length +:+ " chars")
              else (true, "pattern matched"))
        else Ok (true, "pattern matched")
    end.

(** [re.search(r"\{.*\}", text, re.DOTALL)]: from the first opening brace to the
    last closing one after it. *)
Definition braces (text : string) : option string :=
  match split1 "{" text with
  | Some (_, after) =>
      match rsplit1 "}" after with Some (inside, _) => Some ("{" +:+ inside +:+ "}") | None => None end
  | None => None
  end.
Definition is_instance (v : json) (type_name : json) : result bool :=
  match type_name with
  | JStr "int" => Ok (match v with JInt _ | JBool _ => true | _ => false end)
  | JStr "str" => Ok (match v with JStr _ => true | _ => false end)
  | JStr "float" => Ok (match v with JFloat _ => true | _ => false end)
  | JStr "bool" => Ok (match v with JBool _ => true | _ => false end)
  | JList _ | JObj _ => Raise TypeError
  | _ => Raise KeyError
  end.
(** The first key that is missing or has another type. *)
Fixpoint schema_fault (payload schema : list (string * json)) : result (option string) :=
  match schema with
  | [] => Ok None
  | (key, expected_type) :: schema =>
      match jget key payload with
      | None => Ok (Some ("missing key " +:+ key))
      | Some v =>
          b ← is_instance v expected_type;
          if b : bool then schema_fault payload schema else Ok (Some (key +:+ " is not " +:+ py_str float_repr expected_type))
      end
  end.
Fixpoint equals_fault (payload equals : list (string * json)) : option string :=
  match equals with
  | [] => None
  | (key, expected) :: equals =>
      let found := default JNull (jget key payload) in
      if py_eq float_eq float_eq_int found expected then equals_fault payload equals
      else Some (key +:+ " == " +:+ py_repr float_repr found +:+ ", expected " +:+ py_repr float_repr expected)
  end.
Definition check_payload (check : list (string * json)) (payload : json) : result (bool * string) :=
  match payload with
  | JObj kvs =>
      schema ← item "schema" check; schema ← items schema;
      fault ← schema_fault kvs schema;
      match fault with
      | Some reason => Ok (false, reason)
      | None =>
          equals ← items (default (JObj []) (jget "equals" check));
          Ok (match equals_fault kvs equals with
              | Some reason => (false, reason)
              | None => (true, "json schema satisfied")
              end)
      end
  | _ => Ok (false, "answer is not a JSON object")
  end.
Definition check_json_schema (check : list (string * json)) (text : string) : result (bool * string) :=
  match json_loads_str text with
  | Some payload => check_payload check payload
  | None =>
      match braces text with
      | None => Ok (false, "no JSON object in the answer")
      | Some inner =>
          match json_loads_str inner with
          | Some payload => check_payload check payload
          | None => Raise json_decode_error
          end
      end
  end.
Definition _run_pytest (test_source solution : string) : result (bool * string) :=
  run ← pytest test_source (solution +:+ String "010" "");
  Ok (match run with
      | TimedOut => (false, "pytest timed out after " +:+ str_Z CODE_EXECUTION_TIMEOUT_SECONDS +:+ "s")
      | Completed code output =>
          if code =? 0 then (true, "pytest passed")
          else (false, "pytest failed: " +:+ match last (splitlines (strip output)) with
                                             | Some line => take_chars 120 line
                                             | None => "unknown"
                                             end)
      end).

Definition check_answer (allow_code_execution : bool) (task : Task.t) (answer : string) : result (bool * string) :=
  let check := Task.check task in
  kind ← item "kind" check;
  let text := strip answer in
  match kind with
  | JStr "contains_all" => check_contains_all check text
  | JStr "one_of" => check_one_of check text
  | JStr "equals_normalized" => check_equals_normalized check text
  | JStr "regex" => check_regex check text
  | JStr "json_schema" => check_json_schema check text
  | JStr "pytest" =>
      if negb allow_code_execution then Ok (false, "skipped: code execution not allowed (--allow-code-execution)")
      else
        source ← item "test_source" check;
        match source with JStr s => _run_pytest s text | _ => Raise TypeError end
  | _ => Ok (false, "unknown check kind: " +:+ py_str float_repr kind)
  end.

(** ** The run *)
(** [chat]: the measured request of a task; it reports failures in its result. *)
Context (chat : Task.t → result RequestResult.t).
Definition failure (r : RequestResult.t) : string :=
  match RequestResult.error r with
  | Some e => if String.eqb e "" then str_Z (RequestResult.status r) else e
  | None => str_Z (RequestResult.status r)
  end.
Definition run_task (allow : bool) (task : Task.t) : result TaskOutcome.t :=
  r ← chat task;
  if negb (RequestResult.ok r) then Ok (TaskOutcome.mk task false ("request failed: " +:+ failure r) r "")
  else
    let answer := RequestResult.content r in
    '(passed, reason) ← check_answer allow task answer;
    Ok (TaskOutcome.mk task passed reason r (take_chars 400 answer)).
Fixpoint run_tasks (allow : bool) (tasks : list Task.t) : result (list TaskOutcome.t) :=
  match tasks with
  | [] => Ok []
  | task :: tasks =>
      outcome ← run_task allow task;
      outcomes ← run_tasks allow tasks;
      Ok (outcome :: outcomes)
  end.

Definition passed_count (outcomes : list TaskOutcome.t) : nat := length (where_ TaskOutcome.passed outcomes).
(** [int(round(q))]: halves go to the even neighbour. *)
Definition round_half_even (q : Q) : Z :=
  let f := Qfloor q in
  match Qcompare (q - inject_Z f) (1 # 2) with
  | Lt => f
  | Gt => f + 1
  | Eq => if Z.even f then f else f + 1
  end.
Definition by_p95 (attribute : RequestResult.t → option Q) (outcomes : list TaskOutcome.t) : option Q :=
  let values := sorted_by Qle_bool (omap (λ o, attribute (TaskOutcome.result o)) outcomes) in
  let n := Z.of_nat (length values) - 1 in
  values !! Z.to_nat (Z.min n (round_half_even ((95 # 100) * inject_Z n))).

(** [tasks\[:limit\]] *)
Definition slice_to (limit : Z) (l : list Task.t) : list Task.t :=
  if 0 <=? limit then take (Z.to_nat limit) l else take (length l - Z.to_nat (- limit)) l.
Definition select_tasks (args : Args.t) (tasks : list Task.t) : list Task.t :=
  let tasks := match Args.only args with
               | Some only => if String.eqb only "" then tasks
                              else where_ (λ t, bool_decide (Task.id t ∈ map strip (split "," only))) tasks
               | None => tasks
               end in
  let tasks := if Args.allow_code_execution args then tasks
               else where_ (λ t, negb (Task.requires_code_execution t)) tasks in
  if Args.limit args =? 0 then tasks else slice_to (Args.limit args) tasks.
Definition failed_requests (outcomes : list TaskOutcome.t) : list string :=
  map (λ o, Task.id (TaskOutcome.task o)) (where_ (λ o, negb (RequestResult.ok (TaskOutcome.result o))) outcomes).
Definition exit_code (args : Args.t) (outcomes : list TaskOutcome.t) : Z :=
  if Args.smoke args then match failed_requests outcomes with [] => 0 | _ => 2 end
  else if (passed_count outcomes =? length outcomes)%nat then 0
  else if String.eqb (Args.environment args) "hardware" then 1 else 2.
Definition main (args : Args.t) (tasks : list Task.t) : result Z :=
  match select_tasks args tasks with
  | [] => Ok 2
  | tasks => outcomes ← run_tasks (Args.allow_code_execution args) tasks; Ok (exit_code args outcomes)
  end.

(** ** Properties *)
Lemma filter_text_spec keep text l r :
  filter_text keep text l = Ok r →
  Forall (λ v, ∃ s, v = JStr s) l ∧ ∀ s, s ∈ r ↔ JStr s ∈ l ∧ contains s text = keep.
Proof.
  revert r. induction l as [|v l IH]; intros r; cbn [filter_text].
  - intros [= <-]. split; [constructor|]. intros s. split; [by intros ?%elem_of_nil|by intros [?%elem_of_nil _]].
  - intros (b & Hb & (rest & Hr & H)%result_bind_Ok)%result_bind_Ok. apply IH in Hr as [Hall Hrest].
    destruct v as [| | | |s0| |]; try done. injection Hb as <-. injection H as <-.
    split; [constructor; [by eexists|done]|]. intros s. rewrite elem_of_cons.
    destruct (Bool.eqb (contains s0 text) keep) eqn:E; rewrite ?elem_of_cons, Hrest.
    + apply eqb_prop in E. naive_solver.
    + apply eqb_false_iff in E. naive_solver.
Qed.
(** An answer passes [contains_all] when it has every needle and nothing forbidden. *)
Lemma contains_all_passes check text reason needles_ forbid_ :
  jget "needles" check = Some (JList needles_) → default (JList []) (jget "forbid" check) = JList forbid_ →
  check_contains_all check text = Ok (true, reason) →
  (∀ s, JStr s ∈ needles_ → contains s text = true) ∧ (∀ s, JStr s ∈ forbid_ → contains s text = false).
Proof.
  intros Hn Hf. unfold check_contains_all, needles. rewrite Hn, Hf. cbn [default iterate].
  change (Ok ?x ≫= ?f) with (f x). cbv beta.
  intros (missing & Hm & (forbidden & Hb & H)%result_bind_Ok)%result_bind_Ok. 
  apply filter_text_spec in Hm as [_ Hm]. apply filter_text_spec in Hb as [_ Hb].
  destruct missing; [|done]. destruct forbidden; [|done]. split; intros s Hs.
  - destruct (contains s text) eqn:E; [done|]. exfalso. exact (proj1 (elem_of_nil s) (proj2 (Hm s) (conj Hs E))).
  - destruct (contains s text) eqn:E; [|done]. exfalso. exact (proj1 (elem_of_nil s) (proj2 (Hb s) (conj Hs E))).
Qed.

(** What a passing answer of a [json_schema] check holds. *)
Lemma schema_fault_None payload schema :
  schema_fault payload schema = Ok None →
  Forall (λ kt, ∃ v, jget kt.1 payload = Some v ∧ is_instance v kt.2 = Ok true) schema.
Proof.
  induction schema as [|[key ty] schema IH]; [constructor|]. cbn [schema_fault].
  destruct (jget key payload) as [v|] eqn:E; [|done]. intros (b & Hb & H)%result_bind_Ok. destruct b; [|done].
  constructor; [by exists v|by apply IH].
Qed.
Lemma equals_fault_None payload equals :
  equals_fault payload equals = None →
  Forall (λ ke, py_eq float_eq float_eq_int (default JNull (jget ke.1 payload)) ke.2 = true) equals.
Proof.
  induction equals as [|[key e] equals IH]; [constructor|]. cbn [equals_fault]. destruct (py_eq _ _ _ _) eqn:E; [|done].
  constructor; [done|by apply IH].
Qed.
Lemma json_schema_passes check text reason :
  check_json_schema check text = Ok (true, reason) →
  ∃ kvs schema equals, (json_loads_str text = Some (JObj kvs) ∨
      ∃ inner, braces text = Some inner ∧ json_loads_str inner = Some (JObj kvs)) ∧
    jget "schema" check = Some (JObj schema) ∧ default (JObj []) (jget "equals" check) = JObj equals ∧
    Forall (λ kt, ∃ v, jget kt.1 kvs = Some v ∧ is_instance v kt.2 = Ok true) schema ∧
    Forall (λ ke, py_eq float_eq float_eq_int (default JNull (jget ke.1 kvs)) ke.2 = true) equals.
Proof.
  assert (∀ payload, check_payload check payload = Ok (true, reason) → ∃ kvs schema equals, payload = JObj kvs ∧
    jget "schema" check = Some (JObj schema) ∧ default (JObj []) (jget "equals" check) = JObj equals ∧
    Forall (λ kt, ∃ v, jget kt.1 kvs = Some v ∧ is_instance v kt.2 = Ok true) schema ∧
    Forall (λ ke, py_eq float_eq float_eq_int (default JNull (jget ke.1 kvs)) ke.2 = true) equals) as Hp.
  { intros [| | | | | |kvs]; try done. unfold check_payload, item. destruct (jget "schema" check) as [sc|]; [|done].
    change (Ok ?x ≫= ?f) with (f x). cbv beta. intros (schema & Hs & (fault & Hfault & H)%result_bind_Ok)%result_bind_Ok.
    destruct sc; try done. injection Hs as ->. destruct fault; [done|]. apply result_bind_Ok in H as (equals & He & H).
    destruct (default (JObj []) (jget "equals" check)) as [| | | | | |equals'] eqn:Eq; try done. injection He as ->.
    destruct (equals_fault kvs equals) eqn:Ee; [done|]. exists kvs, schema, equals.
    split_and!; [done..|by apply schema_fault_None|by apply equals_fault_None]. }
  unfold check_json_schema. destruct (json_loads_str text) as [payload|].
  - intros (kvs & schema & equals & -> & H)%Hp. exists kvs, schema, equals. split; [by left|done].
  - destruct (braces text) as [inner|]; [|done]. destruct (json_loads_str inner) as [payload|] eqn:E; [|done].
    intros (kvs & schema & equals & -> & H)%Hp. exists kvs, schema, equals. split; [right; by exists inner|done].
Qed.

(** *** The exit code *)
Definition task_counts (args : Args.t) (task : Task.t) : Prop :=
  ∃ r, chat task = Ok r ∧ RequestResult.ok r = true ∧
    ∃ passed reason, check_answer (Args.allow_code_execution args) task (RequestResult.content r) = Ok (passed, reason) ∧
      (Args.smoke args = false → passed = true).
Lemma run_tasks_Forall2 allow tasks outcomes :
  run_tasks allow tasks = Ok outcomes ↔ Forall2 (λ t o, run_task allow t = Ok o) tasks outcomes.
Proof.
  revert outcomes. induction tasks as [|t tasks IH]; intros outcomes; cbn [run_tasks].
  - split; [by intros [= <-]|by intros ->%Forall2_nil_inv_l].
  - split.
    + intros (o & Ho & (os & Hos & [= <-])%result_bind_Ok)%result_bind_Ok. constructor; [done|by apply IH].
    + intros (o & os & Ho & Hos%IH & ->)%Forall2_cons_inv_l. by rewrite Ho; cbn; rewrite Hos.
Qed.
Lemma run_task_counts args task :
  task_counts args task ↔ ∃ o, run_task (Args.allow_code_execution args) task = Ok o ∧
    RequestResult.ok (TaskOutcome.result o) = true ∧ (Args.smoke args = false → TaskOutcome.passed o = true).
Proof.
  unfold task_counts, run_task. split.
  - intros (r & -> & Hok & passed & reason & Hc & Hp). cbn. rewrite Hok. cbn. rewrite Hc. by eexists.
  - intros (o & (r & Hr & H)%result_bind_Ok & Hok & Hp). exists r. split; [done|].
    destruct (RequestResult.ok r) eqn:E; cbn [negb] in H; [|injection H as <-; cbn in *; congruence].
    split; [done|]. apply result_bind_Ok in H as ([passed reason] & Hc & [= <-]). by exists passed, reason.
Qed.

Lemma all_counted args tasks outcomes :
  Forall2 (λ t o, run_task (Args.allow_code_execution args) t = Ok o) tasks outcomes →
  exit_code args outcomes = 0 ↔ Forall (task_counts args) tasks.
Proof.
  intros H. assert (Forall (task_counts args) tasks ↔ Forall (λ o, RequestResult.ok (TaskOutcome.result o) = true ∧
    (Args.smoke args = false → TaskOutcome.passed o = true)) outcomes) as ->.
  { induction H as [|t o tasks outcomes Ht _ IH]; [done|]. rewrite !Forall_cons, IH, run_task_counts, Ht.
    apply and_iff_compat_r. split; [by intros (? & [= <-] & ?)|intros ?; by exists o]. }
  assert (Forall (λ o, TaskOutcome.passed o = true → RequestResult.ok (TaskOutcome.result o) = true) outcomes) as Hok.
  { apply Forall_forall. intros o Ho. apply list_elem_of_lookup in Ho as [k Hk].
    destruct (Forall2_lookup_r _ _ _ _ _ H Hk) as (t & _ & E). unfold run_task in E.
    apply result_bind_Ok in E as (r & _ & E). destruct (RequestResult.ok r) eqn:Er; cbn [negb] in E;
      [apply result_bind_Ok in E as ([] & _ & [= <-])|injection E as <-]; cbn; congruence. }
  unfold exit_code. destruct (Args.smoke args).
  - unfold failed_requests. split.
    + destruct (where_ _ outcomes) eqn:E; [|done]. intros _. apply where_nil in E. eapply Forall_impl; [exact E|].
      intros o Ho. cbn in Ho. apply negb_false_iff in Ho. done.
    + intros Hall. assert (where_ (λ o, negb (RequestResult.ok (TaskOutcome.result o))) outcomes = []) as ->; [|done].
      apply where_nil. eapply Forall_impl; [exact Hall|]. intros o [Ho _]. cbn. by rewrite Ho.
  - unfold passed_count. destruct (Nat.eqb_spec (length (where_ TaskOutcome.passed outcomes)) (length outcomes)) as [E|E].
    + split; [intros _|done]. apply length_where_all in E. rewrite Forall_forall in E, Hok |- *. naive_solver.
    + split; [by destruct (String.eqb _ _)|]. intros Hall. destruct E. apply length_where_all.
      eapply Forall_impl; [exact Hall|]. naive_solver.
Qed.

(** The exit code is the verdict.  The program exits with 0 exactly when a task was
    selected and each selected task was answered with status 200, its check could be
    evaluated and, unless the run is a smoke run, the answer passed it.  Nothing else
    counts: not the environment, and none of the measured latencies. *)
Theorem coding_exit_zero args tasks :
  main args tasks = Ok 0 ↔ select_tasks args tasks ≠ [] ∧ Forall (task_counts args) (select_tasks args tasks).
Proof.
  unfold main. destruct (select_tasks args tasks) as [|t l]; [split; [done|by intros [? _]]|].
  rewrite result_bind_Ok. split.
  - intros (outcomes & H%run_tasks_Forall2 & [= E]). split; [done|]. by apply (all_counted args _ _ H).
  - intros [_ Hall].
    assert (∃ outcomes, Forall2 (λ t o, run_task (Args.allow_code_execution args) t = Ok o) (t :: l) outcomes) as (outcomes & H).
    { clear -Hall. induction Hall as [|x xs Hx _ (os & IH)]; [by exists []|].
      apply run_task_counts in Hx as (o & Ho & _). exists (o :: os). by constructor. }
    exists outcomes. split; [by apply run_tasks_Forall2|]. f_equal. by apply (all_counted args _ _ H).
Qed.
(** A check that cannot be evaluated ends the run: no outcome of any task is left. *)
Lemma broken_check_ends_the_run args tasks t r e :
  t ∈ select_tasks args tasks → chat t = Ok r → RequestResult.ok r = true →
  check_answer (Args.allow_code_execution args) t (RequestResult.content r) = Raise e →
  ∃ e', main args tasks = Raise e'.
Proof.
  intros Ht Hr Hok Hc. unfold main. destruct (select_tasks args tasks) as [|t0 l] eqn:E; [by apply elem_of_nil in Ht|].
  clear E. destruct (run_tasks _ _) as [outcomes|e'] eqn:Eo; [|by exists e']. exfalso.
  apply run_tasks_Forall2 in Eo. apply list_elem_of_lookup in Ht as [k Hk].
  destruct (Forall2_lookup_l _ _ _ _ _ Eo Hk) as (o & _ & H). unfold run_task in H. rewrite Hr in H. cbn in H.
  rewrite Hok in H. cbn in H. by rewrite Hc in H.
Qed.

(** *** The percentile *)
Lemma round_half_even_bounds q n : (0 <= q)%Q → (q <= inject_Z n)%Q → 0 <= round_half_even q <= n.
Proof.
  intros H0 Hn. unfold round_half_even. pose proof (Qfloor_le q) as Hf. pose proof (Qlt_floor q) as Hc.
  assert (0 <= Qfloor q) as H0' by (apply (Qfloor_resp_le 0 q) in H0; exact H0).
  assert (Qfloor q <= n) as Hn' by (apply Qfloor_resp_le in Hn; by rewrite Qfloor_Z in Hn).
  assert ((1 # 2 <= q - inject_Z (Qfloor q))%Q → Qfloor q + 1 <= n) as Hup.
  { intros H. assert (inject_Z (Qfloor q) < inject_Z n)%Q as Hlt by lra. rewrite <-Zlt_Qlt in Hlt. lia. }
  destruct (Qcompare (q - inject_Z (Qfloor q)) (1 # 2)) eqn:E.
  - apply Qeq_alt in E. destruct (Z.even _); [lia|]. specialize (Hup ltac:(lra)). lia.
  - lia.
  - apply Qgt_alt in E. specialize (Hup ltac:(lra)). lia.
Qed.
(** A measured value, whenever there is one. *)
Lemma by_p95_elem attribute outcomes :
  match by_p95 attribute outcomes with
  | Some v => ∃ o, o ∈ outcomes ∧ attribute (TaskOutcome.result o) = Some v
  | None => ∀ o, o ∈ outcomes → attribute (TaskOutcome.result o) = None
  end.
Proof.
  unfold by_p95. set (values := sorted_by Qle_bool _).
  assert (∀ v, v ∈ values ↔ ∃ o, o ∈ outcomes ∧ attribute (TaskOutcome.result o) = Some v) as Hv.
  { intros v. unfold values. by rewrite sorted_by_elem, list_elem_of_omap. }
  destruct (values !! _) as [v|] eqn:E; [by apply Hv; eapply list_elem_of_lookup_2|].
  apply lookup_ge_None in E. intros o Ho. destruct (attribute (TaskOutcome.result o)) as [v|] eqn:Ea; [|done]. exfalso.
  assert (v ∈ values) as Hin by (apply Hv; by exists o). destruct values as [|x l] eqn:Ev; [by apply elem_of_nil in Hin|].
  set (n := Z.of_nat (length (x :: l)) - 1) in E. assert (0 <= n) as Hn by (subst n; cbn [length]; lia).
  assert (0 <= inject_Z n)%Q as HQ by (change 0%Q with (inject_Z 0); rewrite <-Zle_Qle; done).
  pose proof (round_half_even_bounds ((95 # 100) * inject_Z n) n ltac:(lra) ltac:(lra)). subst n. lia.
Qed.
End checks.

(** ** The task file, written and loaded

    A set of tasks written as the task file has them is loaded as it was: every field
    from its own key, in the order of the file. *)
Definition task_json (t : Task.t) : json :=
  JObj [("id", JStr (Task.id t)); ("title", JStr (Task.title t)); ("prompt", JStr (Task.prompt t)); ("check", JObj (Task.check t));
        ("max_tokens", JInt (Task.max_tokens t)); ("requires_code_execution", JBool (Task.requires_code_execution t))].
Definition tasks_json (tasks : list Task.t) : json := JObj [("tasks", JList (map task_json tasks))].
(** Texts of code points, and a check that is printed as it is held. *)
Definition writable (fr : string → string) (t : Task.t) : Prop :=
  text (Task.id t) ∧ text (Task.title t) ∧ text (Task.prompt t) ∧ json_wf (JObj (Task.check t)) ∧
  json_norm fr (JObj (Task.check t)) = JObj (Task.check t).
Lemma task_json_wf fr t : writable fr t → json_wf (task_json t).
Proof.
  intros (Hi & Ht & Hp & Hc & _). unfold task_json. split; [repeat constructor; cbn; set_solver|].
  cbn [foldr fst snd]. split_and!; try done; by apply ascii_text.
Qed.
Lemma task_json_norm fr t : writable fr t → json_norm fr (task_json t) = task_json t.
Proof. intros (_ & _ & _ & _ & E). unfold task_json. cbn [json_norm map fst snd] in *. by rewrite E. Qed.
Lemma load_task_json float_int t : load_task float_int (task_json t) = Ok t.
Proof. by destruct t as [id title prompt check m []]. Qed.
Lemma load_tasks_round_trip float_int fr tasks :
  (∀ s, float_literal s → float_literal (fr s)) → Forall (writable fr) tasks →
  load_tasks float_int (json_dumps fr (tasks_json tasks)) = Ok tasks.
Proof.
  intros Hfr Hw. unfold load_tasks. destruct (json_round_trip fr Hfr (tasks_json tasks)) as [-> _].
  - split; [repeat constructor; cbn; set_solver|]. cbn [foldr fst snd]. split_and!; [by apply ascii_text| |done].
    induction Hw as [|t l Ht _ IH]; [done|]. split; [by apply (task_json_wf fr)|done].
  - unfold tasks_json. cbn [json_norm map fst snd]. rewrite map_map. change (sub "tasks" (JObj [("tasks", ?v)])) with (Ok v).
    rewrite result_bind_eq. cbn [iterate]. rewrite result_bind_eq.
    induction Hw as [|t l Ht _ IH]; [done|]. cbn [map mapR]. rewrite task_json_norm by done. by rewrite load_task_json, result_bind_eq, IH.
Qed.

(** ** The raw outcomes

    [--out]: a line per outcome.  [repr]: the literal of a measured time. *)
Section raw.
Context (fr : string → string) (repr : Q → string).
Definition json_of_time (t : option Q) : json := match t with Some t => JFloat (repr t) | None => JNull end.
Definition outcome_row (environment : string) (o : TaskOutcome.t) : json :=
  let r := TaskOutcome.result o in
  JObj [("task", JStr (Task.id (TaskOutcome.task o))); ("passed", JBool (TaskOutcome.passed o)); ("reason", JStr (TaskOutcome.reason o));
        ("environment", JStr environment); ("ttft_ms", json_of_time (RequestResult.ttft_ms r));
        ("e2e_ms", json_of_time (Some (RequestResult.e2e_ms r)));
        ("completion_tokens", default JNull (RequestResult.completion_tokens r)); ("answer", JStr (TaskOutcome.detail o))].
Definition raw_file (environment : string) (outcomes : list TaskOutcome.t) : string :=
  json_lines fr (map (outcome_row environment) outcomes).
(** Whatever the answers hold, line breaks included, the file has one line per outcome,
    in the order of the run, and each is read back as the outcome's row. *)
Lemma raw_file_reads_back environment outcomes :
  (∀ s, float_literal s → float_literal (fr s)) → Forall (λ o, json_wf (outcome_row environment o)) outcomes →
  map json_loads_str (splitlines (raw_file environment outcomes)) = map (λ o, Some (json_norm fr (outcome_row environment o))) outcomes.
Proof.
  intros Hfr Hw. unfold raw_file. rewrite json_lines_read_back; [by rewrite map_map|done|by rewrite List.Forall_map].
Qed.
End raw.

(** ** Where the checks depart from what they mean to do *)
Definition schema_check : list (string * json) :=
  [("kind", JStr "json_schema"); ("schema", JObj [("n", JStr "int")])].
(** [isinstance(True, int)]: a boolean satisfies a schema that asks for an integer. *)
Lemma boolean_is_an_int feq feqi fr :
  check_json_schema feq feqi fr schema_check (q "{'n': true}") = Ok (true, "json schema satisfied").
Proof. by vm_compute. Qed.
(** Prose with braces that hold no JSON is no failed answer but an exception, which no
    caller catches. *)
Lemma prose_in_braces_raises feq feqi fr :
  check_json_schema feq feqi fr schema_check "the set {a, b}" = Raise json_decode_error.
Proof. by vm_compute. Qed.
(** The thresholds are printed, not enforced: a run on hardware whose only first token
    took ten seconds exits with 0. *)
Definition equals_task : Task.t :=
  Task.mk "t1" "t1" "say ok" [("kind", JStr "equals_normalized"); ("expected", JStr "ok")] 256 false.
Definition slow_answer : RequestResult.t := RequestResult.mk 200 12000 (Some 10000%Q) [] None None 1 "ok" None.
Lemma slow_run_exits_zero feq feqi fi fr flag search pytest :
  main feq feqi fi fr flag search pytest (λ _, Ok slow_answer) (Args.mk None 0 false "hardware" false) [equals_task] = Ok 0.
Proof. by vm_compute. Qed.
