(* ===== verification/Reconcile.v ===== *)
(** * Reconciling the counters with the records ([scripts/usage-reconcile.py])

    The script that compares the gateway's Prometheus counters with the usage
    records over a window of traffic.  The two HTTP reads, the clock and the traffic
    command are arguments; the printed table is left out. *)

From Stdlib Require Import QArith Qabs Qminmax Lqa.
From S2P Require Import Prelude PyStr Models Autoscaling Usage.
Local Open Scope Z_scope.

(** [line.rsplit(" ", 1)\[1\]], as a float; an infinite or undefined sample makes
    the sum useless and is not modelled. *)
Definition sample_of (line : string) : option Q :=
  match rsplit1 " " line with
  | Some (_, v) => match py_float v with Some (Finite x) => Some x | _ => None end
  | None => None
  end.
Definition counted (name : string) (extra_label : option string) (line : string) : bool :=
  negb (startswith "#" line || negb (startswith name line))
  && match extra_label with Some e => contains e line | None => true end.
Definition _counter (metrics_text name : string) (extra_label : option string) : Q :=
  foldl (λ total line, if counted name extra_label line
                       then match sample_of line with Some x => (total + x)%Q | None => total end
                       else total) 0%Q (splitlines metrics_text).

Module Totals.
(** [totals] of the usage report. *)
Record t := mk { requests : Z; tokens_in : Z; tokens_out : Z }.
End Totals.
Module Snap.
Record t := mk {
  gateway_requests : Q; gateway_tokens : Q; usage_events : Q; records_requests : Q; records_tokens : Q }.
End Snap.
Definition _snapshot (metrics_text : string) (usage : Totals.t) : Snap.t :=
  Snap.mk (_counter metrics_text "inferna_requests_total" None) (_counter metrics_text "inferna_tokens_total" None)
    (_counter metrics_text "inferna_usage_events_total" None) (inject_Z (Totals.requests usage))
    (inject_Z (Totals.tokens_in usage + Totals.tokens_out usage)).

(** ** Waiting for stable readings *)
(** Three of the five numbers are compared. *)
Definition same_reading (a b : Snap.t) : bool :=
  Qeq_bool (Snap.gateway_requests a) (Snap.gateway_requests b)
  && Qeq_bool (Snap.records_requests a) (Snap.records_requests b)
  && Qeq_bool (Snap.records_tokens a) (Snap.records_tokens b).
Inductive awaited := Stable (s : Snap.t) | Moving (s : Snap.t) | Waiting.
(** [rounds]: the clock at the head of each iteration, and the snapshot at its end. *)
Fixpoint await_loop (deadline : Q) (previous : option Snap.t) (stable : Z) (snapshot : Snap.t) (rounds : list (Q * Snap.t))
    : awaited :=
  match rounds with
  | [] => Waiting
  | (now, next) :: rounds =>
      if Qle_bool deadline now then Moving snapshot
      else
        let unchanged := match previous with Some p => same_reading snapshot p | None => false end in
        if unchanged then
          if 2 <=? stable + 1 then Stable snapshot else await_loop deadline (Some snapshot) (stable + 1) next rounds
        else await_loop deadline (Some snapshot) 0 next rounds
  end.
Definition _await_stable (started timeout : Q) (first : Snap.t) (rounds : list (Q * Snap.t)) : awaited :=
  await_loop (started + timeout)%Q None 0 first rounds.

(** ** The verdict *)
Definition delta (f : Snap.t → Q) (before after : Snap.t) : Q := (f after - f before)%Q.
Definition drift (observed recorded : Q) : Q := (Qabs (observed - recorded) / Qmax observed 1 * 100)%Q.
(** What [/metrics] counted against what the records hold. *)
Definition rows (before after : Snap.t) : list (Q * Q) :=
  [(delta Snap.gateway_requests before after, delta Snap.records_requests before after);
   (delta Snap.gateway_tokens before after, delta Snap.records_tokens before after);
   (delta Snap.usage_events before after, delta Snap.records_requests before after)].
Definition verdict (tolerance : Q) (before after : Snap.t) : Z :=
  let failed := existsb (λ r, negb (Qle_bool (drift r.1 r.2) tolerance)) (rows before after) in
  if Qeq_bool (delta Snap.gateway_requests before after) 0 then 2 else if failed then 1 else 0.
(** [traffic]: the exit code of the traffic command, when there is one. *)
Definition main (tolerance : Q) (traffic : option Z) (before after : Snap.t) : Z :=
  match traffic with
  | Some code => if code =? 0 then verdict tolerance before after else 2
  | None => verdict tolerance before after
  end.

(** ** Properties *)
Lemma same_reading_spec a b :
  same_reading a b = true ↔
  (Snap.gateway_requests a == Snap.gateway_requests b ∧ Snap.records_requests a == Snap.records_requests b ∧
   Snap.records_tokens a == Snap.records_tokens b)%Q.
Proof. unfold same_reading. rewrite !andb_true_iff, !Qeq_bool_iff. tauto. Qed.
(** What the loop knows of the readings so far. *)
Definition knows (history : list Snap.t) (previous : option Snap.t) (stable : Z) : Prop :=
  match previous with
  | None => history = [] ∧ stable = 0
  | Some p => (stable = 0 ∧ ∃ h, history = h ++ [p]) ∨
              (stable = 1 ∧ ∃ h pp, history = h ++ [pp; p] ∧ same_reading p pp = true)
  end.
Lemma await_loop_stable deadline history previous stable snapshot rounds s :
  knows history previous stable → await_loop deadline previous stable snapshot rounds = Stable s →
  ∃ a b l1 l2, history ++ snapshot :: map snd rounds = l1 ++ a :: b :: s :: l2 ∧
    same_reading b a = true ∧ same_reading s b = true.
Proof.
  revert history previous stable snapshot. induction rounds as [|[now next] rounds IH]; intros history previous stable snapshot Hk H; [done|].
  cbn [await_loop] in H. destruct (Qle_bool deadline now); [done|]. cbv zeta in H.
  assert (∀ st, knows (history ++ [snapshot]) (Some snapshot) st → await_loop deadline (Some snapshot) st next rounds = Stable s →
    ∃ a b l1 l2, history ++ snapshot :: map snd ((now, next) :: rounds) = l1 ++ a :: b :: s :: l2 ∧
      same_reading b a = true ∧ same_reading s b = true) as Hnext.
  { intros st Hst Hs. destruct (IH _ _ _ _ Hst Hs) as (a & b & l1 & l2 & E & H1 & H2). exists a, b, l1, l2.
    rewrite <-app_assoc in E. done. }
  destruct previous as [p|].
  - destruct (same_reading snapshot p) eqn:Es; [|apply (Hnext 0); [left; split; [done|by exists history]|done]].
    destruct Hk as [[-> [h ->]]|[-> (h & pp & -> & Hpp)]]; cbn [Z.add Z.leb] in H.
    + apply (Hnext 1); [|done]. right. split; [done|]. exists h, p. split; [by rewrite <-app_assoc|done].
    + injection H as <-. exists pp, p, h, (map snd ((now, next) :: rounds)). by rewrite <-app_assoc.
  - destruct Hk as [-> ->]. apply (Hnext 0); [left; split; [done|by exists []]|done].
Qed.
(** The wait ends once the clock has passed its deadline. *)
Lemma await_loop_ends deadline previous stable snapshot rounds :
  Exists (λ r, Qle_bool deadline r.1 = true) rounds → await_loop deadline previous stable snapshot rounds ≠ Waiting.
Proof.
  intros H. revert previous stable snapshot. induction H as [[now next] rounds H|[now next] rounds H IH]; intros previous stable snapshot;
    cbn [await_loop]; [cbn in H; by rewrite H|]. destruct (Qle_bool deadline now); [done|]. cbv zeta.
  destruct (match previous with Some p => _ | None => _ end); [destruct (2 <=? stable + 1)|]; [done|apply IH..].
Qed.

Lemma max_one_positive o : (1 <= Qmax o 1)%Q.
Proof. apply Q.le_max_r. Qed.
Lemma drift_within tolerance o r : Qle_bool (drift o r) tolerance = true ↔ (100 * Qabs (o - r) <= tolerance * Qmax o 1)%Q.
Proof.
  rewrite Qle_bool_iff. unfold drift. pose proof (max_one_positive o) as Hm. set (m := Qmax o 1) in *. clearbody m.
  set (x := Qabs (o - r)). clearbody x. assert (x / m * 100 == (100 * x) / m)%Q as -> by (field; lra).
  split; intros H.
  - apply (Qmult_le_r _ _ m) in H; [|lra]. assert (100 * x / m * m == 100 * x)%Q as E by (field; lra). lra.
  - apply Qle_shift_div_r; lra.
Qed.
(** The comparison passes exactly when there was traffic and each of the three pairs
    agrees within the tolerance. *)
Lemma verdict_zero tolerance before after :
  verdict tolerance before after = 0 ↔
  ¬ (delta Snap.gateway_requests before after == 0)%Q ∧
  Forall (λ r, 100 * Qabs (r.1 - r.2) <= tolerance * Qmax r.1 1)%Q (rows before after).
Proof.
  unfold verdict. destruct (Qeq_bool _ 0) eqn:E; [apply Qeq_bool_iff in E; split; [done|by intros [? _]]|].
  assert (¬ (delta Snap.gateway_requests before after == 0)%Q) as Hne by (rewrite <-Qeq_bool_iff; congruence).
  assert (existsb (λ r, negb (Qle_bool (drift r.1 r.2) tolerance)) (rows before after) = false ↔
    Forall (λ r, 100 * Qabs (r.1 - r.2) <= tolerance * Qmax r.1 1)%Q (rows before after)) as <-.
  { induction (rows before after) as [|r l IH]; [done|]. rewrite Forall_cons, <-IH. cbn [existsb].
    rewrite orb_false_iff, negb_false_iff, drift_within. done. }
  destruct (existsb _ _); naive_solver.
Qed.

(** The reconciliation can be trusted when it passes.  An exit code of 0 means that
    the traffic command succeeded, that both snapshots were each the third of three
    readings in a row with the same request and record counters, that requests were
    served in the window, and that the counters of requests, tokens and usage events
    each differ from the records by no more than the tolerance. *)
Theorem reconcile_passes tolerance traffic d0 d1 first0 first1 rounds0 rounds1 before after :
  await_loop d0 None 0 first0 rounds0 = Stable before → await_loop d1 None 0 first1 rounds1 = Stable after →
  main tolerance traffic before after = 0 →
  (∀ code, traffic = Some code → code = 0) ∧
  (∃ a b, a ∈ first0 :: map snd rounds0 ∧ b ∈ first0 :: map snd rounds0 ∧
     same_reading b a = true ∧ same_reading before b = true) ∧
  (∃ a b, a ∈ first1 :: map snd rounds1 ∧ b ∈ first1 :: map snd rounds1 ∧
     same_reading b a = true ∧ same_reading after b = true) ∧
  ¬ (Snap.gateway_requests before == Snap.gateway_requests after)%Q ∧
  Forall (λ r, 100 * Qabs (r.1 - r.2) <= tolerance * Qmax r.1 1)%Q (rows before after).
Proof.
  intros H0 H1 Hm. assert (∀ d f rs s, await_loop d None 0 f rs = Stable s →
    ∃ a b, a ∈ f :: map snd rs ∧ b ∈ f :: map snd rs ∧ same_reading b a = true ∧ same_reading s b = true) as Hst.
  { intros d f rs s Hs. destruct (await_loop_stable d [] None 0 f rs s) as (a & b & l1 & l2 & E & ? & ?); [done..|].
    cbn [app] in E. exists a, b. rewrite E, !elem_of_app, !elem_of_cons. tauto. }
  assert (verdict tolerance before after = 0 ∧ ∀ code, traffic = Some code → code = 0) as [[Hne Hr]%verdict_zero Ht].
  { unfold main in Hm. destruct traffic as [code|]; [|done]. destruct (Z.eqb_spec code 0); [|done]. split; [done|congruence]. }
  split; [done|]. split; [by eapply Hst|]. split; [by eapply Hst|]. split; [|done].
  intros E. apply Hne. unfold delta. lra.
Qed.

(** *** Witness and departures *)
Definition reading (requests tokens events records record_tokens : Z) : Snap.t :=
  Snap.mk (inject_Z requests) (inject_Z tokens) (inject_Z events) (inject_Z records) (inject_Z record_tokens).
Definition quiet (s : Snap.t) : list (Q * Snap.t) := [(0%Q, s); (3%Q, s); (6%Q, s)].
Lemma reconcile_passes_witness :
  let before := reading 10 100 10 10 100 in
  let after := reading 110 1100 110 110 1100 in
  Forall (λ r, 100 * Qabs (r.1 - r.2) <= 1 * Qmax r.1 1)%Q (rows before after).
Proof.
  intros before after. destruct (reconcile_passes 1 (Some 0) 120 120 before after (quiet before) (quiet after) before after)
    as (_ & _ & _ & _ & H); [reflexivity..|exact H].
Defined.
(** Requests rejected at the quota count as usage events and are no records, as they
    should: the script reports them as drift.  Here 100 requests were served and
    recorded, and two more rejected. *)
Lemma quota_rejections_are_drift :
  verdict 1 (reading 0 0 0 0 0) (reading 100 1000 100 100 1000) = 0 ∧
  verdict 1 (reading 0 0 0 0 0) (reading 100 1000 102 100 1000) = 1.
Proof. by vm_compute. Qed.
