(* ===== verification/Soak.v ===== *)
(** * The multi-node soak ([scripts/soak_multinode.py])

    One cycle of a parallel group's life, deployed, faulted, stopped and deleted
    through the REST API, the loop over the cycles, and the program around it, which
    chooses the model and the cluster and returns the exit code.  The
    world is what the script acts on: the API, the clock and the subprocesses are a
    record of operations on it.  A log row keeps its action and result. *)

From Stdlib Require Import QArith Lqa.
From S2P Require Import Prelude PyStr Json Bench Coding.
Local Open Scope Z_scope.

Definition FAULTS : list string := ["kill_head"; "kill_peer"; "restart_worker"; "netem_loss"].

Module World.
Record ops (W : Type) := Ops {
  call : string → string → option json → W → result (Z * json) * W;
  now : W → Q;
  sleep : Q → W → W;
  subprocess : list string → W → Z * W;
  exists_ : string → W → bool }.
Arguments call {W}. Arguments now {W}. Arguments sleep {W}. Arguments subprocess {W}. Arguments exists_ {W}.
End World.
Module SoakConfig.
Record t := mk { nodes : Z; mode : string; docker : bool }.
End SoakConfig.
Module SoakState.
Record t (W : Type) := mk { world : W; failures : Z; cycles : Z; log : list (string * string) }.
Arguments mk {W}. Arguments world {W}. Arguments failures {W}. Arguments cycles {W}. Arguments log {W}.
End SoakState.
(** [raise SystemExit(...)] *)
Definition system_exit : exn := RuntimeError "invariant violation: control plane answered 409/500".

Section soak.
Context {W : Type} (o : World.ops W) (c : SoakConfig.t) (feq : string → string → bool) (feqi : string → Z → bool)
  (float_repr : string → string).
Notation SM := (M (SoakState.t W)).
Notation eq := (py_eq feq feqi).

Definition set_world (w : W) (s : SoakState.t W) : SoakState.t W := SoakState.mk w (SoakState.failures s) (SoakState.cycles s) (SoakState.log s).
Definition call_ (method path : string) (body : option json) : SM (Z * json) := λ s,
  let '(r, w) := World.call o method path body (SoakState.world s) in (r, set_world w s).
Definition now_ : SM Q := gets (λ s, World.now o (SoakState.world s)).
Definition sleep_ (q : Q) : SM unit := modify (λ s, set_world (World.sleep o q (SoakState.world s)) s).
Definition subprocess_ (command : list string) : SM Z := λ s,
  let '(code, w) := World.subprocess o command (SoakState.world s) in (Ok code, set_world w s).
Definition log (action result : string) : SM unit :=
  modify (λ s, SoakState.mk (SoakState.world s) (SoakState.failures s) (SoakState.cycles s) (SoakState.log s ++ [(action, result)])).
(** [self.failures += 1] *)
Definition fail : SM unit :=
  modify (λ s, SoakState.mk (SoakState.world s) (SoakState.failures s + 1) (SoakState.cycles s) (SoakState.log s)).

(** [self.log(action, result)], then [self.failures += 1]. *)
Definition failed (action result : string) : SM unit := _ ← log action result; fail.

(** ** Primitives *)
Definition instances : SM (list json) :=
  '(status, payload) ← call_ "GET" "/api/v1/model-instances" None;
  mret (match payload with JList l => if status =? 200 then l else [] | _ => [] end).
Definition group (group_id : json) : SM (list json) :=
  rows ← instances;
  lift_result (filterR (λ row, v ← get_ "parallel_group_id" row; Ok (eq (default JNull v) group_id)) rows).
Definition str_leb (a b : string) : bool := match String.compare a b with Gt => false | _ => true end.
(** The states are strings, as the server writes them. *)
Definition state_of (row : json) : result string :=
  v ← sub "state" row; match v with JStr s => Ok s | _ => Raise TypeError end.
Definition group_states (group_id : json) : SM (list string) :=
  rows ← group group_id; states ← lift_result (mapR state_of rows); mret (sorted_by str_leb states).
(** [fuel]: the polls left. *)
Fixpoint wait_loop (fuel : nat) (group_id : json) (expected : list string) (deadline : Q) : SM (option bool) :=
  match fuel with
  | O => mret None
  | S fuel =>
      now ← now_;
      if Qle_bool deadline now then mret (Some false)
      else
        states ← group_states group_id;
        if bool_decide (states = expected) then mret (Some true)
        else _ ← sleep_ 10; wait_loop fuel group_id expected deadline
  end.
(** A poll takes at least the ten seconds it sleeps: one more than the polls that fit. *)
Definition polls (timeout : Z) : nat := S (Z.to_nat (timeout / 10 + 1)).
Definition wait_group (group_id : json) (expected : list string) (timeout : Z) : SM bool :=
  now ← now_;
  r ← wait_loop (polls timeout) group_id expected (now + inject_Z timeout)%Q;
  mret (default false r).

Definition str_of (v : json) : string := PrefixCache.py_str float_repr v.
Definition worker_container (instance_id : json) (action : string) : SM bool :=
  if negb (SoakConfig.docker c) then mret false
  else
    '(status, row) ← call_ "GET" ("/api/v1/model-instances/" +:+ str_of instance_id) None;
    match row with
    | JObj kvs =>
        if negb (status =? 200) then mret false
        else
          let host := "ssh://" +:+ str_of (default JNull (jget "worker_name" kvs)) in
          code ← subprocess_ (if String.eqb action "restart_worker" then ["docker"; "-H"; host; "restart"; "inferna-worker"]
                              else ["docker"; "-H"; host; action; "inferna-instance-" +:+ str_of instance_id]);
          mret (code =? 0)
    | _ => mret false
    end.

(** ** One cycle *)
Definition deploy_body (model_id cluster_id : json) : json :=
  JObj [("model_id", model_id); ("cluster_id", cluster_id); ("engine", JStr "vllm"); ("profile", JStr "latency");
        ("replicas", JInt 1); ("gpu_selection", JStr "auto"); ("nodes_per_replica", JInt (SoakConfig.nodes c));
        ("parallel_mode", JStr (SoakConfig.mode c))].
Definition iterM {A} (f : A → SM unit) (l : list A) : SM unit := foldM (λ _ x, f x) tt l.
Definition netem_loss : SM bool :=
  present ← gets (λ s, World.exists_ o "scripts/netem.sh" (SoakState.world s));
  if negb present then mret false
  else
    code ← subprocess_ ["scripts/netem.sh"; "apply"; "wan-25ms-1%"];
    if negb (code =? 0) then mret false
    else _ ← sleep_ 30; _ ← subprocess_ ["scripts/netem.sh"; "clear"]; mret true.
Definition inject (fault : string) (ranks : list json) (head_id : json) : SM bool :=
  if String.eqb fault "kill_head" then worker_container head_id "kill"
  else if String.eqb fault "kill_peer" then
    peer ← lift_result (findR (λ row, v ← sub "id" row; Ok (negb (eq v head_id))) ranks);
    match peer with
    | None => mret false
    | Some row => peer_id ← lift_result (sub "id" row); if json_truthy peer_id then worker_container peer_id "kill" else mret false
    end
  else if String.eqb fault "restart_worker" then worker_container head_id "restart_worker"
  else if String.eqb fault "netem_loss" then netem_loss
  else mret false.
(** [FAULTS\[(cycles // fault_every - 1) % len(FAULTS)\]] *)
Definition fault_of (cycles fault_every : Z) : string :=
  nth (Z.to_nat ((cycles / fault_every - 1) mod 4)) FAULTS "".
Definition fault_phase (fault_every : Z) (ranks : list json) (head_id : json) : SM unit :=
  cycles ← gets SoakState.cycles;
  if negb (fault_every =? 0) && (cycles mod fault_every =? 0) then
    applied ← inject (fault_of cycles fault_every) ranks head_id;
    log "fault" (if applied : bool then "injected" else "skipped")
  else mret tt.
(** [log(...)], and a failure unless [ok]. *)
Definition judge (action : string) (ok : bool) : SM unit :=
  if ok then log action "ok" else failed action "fail".
(** [f"states {self.group_states(group_id)}"] of a failed wait polls once more. *)
Definition wait_phase (action : string) (group_id : json) (state : string) (n : nat) (timeout : Z) : SM unit :=
  ok ← wait_group group_id (replicate n state) timeout;
  _ ← (if ok : bool then mret tt else _ ← group_states group_id; mret tt);
  judge action ok.
Definition instance_path (row : json) : SM string :=
  id ← lift_result (sub "id" row); mret ("/api/v1/model-instances/" +:+ str_of id).
Definition stop_rank (row : json) : SM unit :=
  path ← instance_path row; _ ← call_ "POST" (path +:+ "/stop") None; mret tt.
Definition delete_rank (row : json) : SM unit :=
  path ← instance_path row; _ ← call_ "DELETE" path None; mret tt.

(** The cycle after a deployment that named its group. *)
Definition exercise (fault_every : Z) (ranks : list json) (group_id head_id : json) : SM unit :=
  _ ← log "deploy" "ok";
  _ ← wait_phase "poll_running" group_id "running" (length ranks) 900;
  _ ← fault_phase fault_every ranks head_id;
  _ ← iterM stop_rank ranks;
  _ ← wait_phase "poll_stopped" group_id "stopped" (length ranks) 600;
  _ ← iterM delete_rank ranks;
  left ← group group_id;
  judge "delete" (bool_decide (left = [])).
Definition run_cycle (model_id cluster_id : json) (fault_every : Z) : SM unit :=
  _ ← modify (λ s, SoakState.mk (SoakState.world s) (SoakState.failures s) (SoakState.cycles s + 1) (SoakState.log s));
  '(status, created) ← call_ "POST" "/api/v1/model-instances" (Some (deploy_body model_id cluster_id));
  if 400 <=? status then
    let violation := (status =? 409) || (status =? 500) in
    _ ← failed "deploy" (if violation then "violation" else "fail");
    if violation then raise system_exit else mret tt
  else
    let ranks := match created with JList l => l | v => [v] end in
    first ← lift_result (match ranks with row :: _ => Ok row | [] => Raise IndexError end);
    group_id ← lift_result (get_ "parallel_group_id" first);
    found ← lift_result (findR (λ row, v ← get_ "node_rank" row; Ok (eq (default JNull v) (JInt 0))) ranks);
    let head := default first found in
    match group_id with
    | Some g =>
        if json_truthy g then head_id ← lift_result (sub "id" head); exercise fault_every ranks g head_id
        else judge "deploy" false
    | None => judge "deploy" false
    end.

(** ** The run *)
Fixpoint soak_loop (fuel : nat) (model_id cluster_id : json) (max_cycles fault_every : Z) (interval deadline : Q) : SM bool :=
  match fuel with
  | O => mret false
  | S fuel =>
      cycles ← gets SoakState.cycles;
      if negb (max_cycles =? 0) && (max_cycles <=? cycles) then mret true
      else
        now ← now_;
        if Qle_bool deadline now then mret true
        else
          _ ← run_cycle model_id cluster_id fault_every;
          cycles ← gets SoakState.cycles;
          if negb (max_cycles =? 0) && (max_cycles <=? cycles) then mret true
          else _ ← sleep_ (interval * 60); soak_loop fuel model_id cluster_id max_cycles fault_every interval deadline
  end.
Definition soak_exit (s : SoakState.t W) : Z := if SoakState.failures s =? 0 then 0 else 1.
(** [min(models, key=...)]: the first of the smallest.  The catalog's sizes are integers,
    as the server writes them. *)
Definition vram_of (row : json) : result Z :=
  v ← sub "vram_required_mb" row; match v with JInt n => Ok n | _ => Raise TypeError end.
Definition smaller (best row : Z * json) : Z * json := if row.1 <? best.1 then row else best.
Definition smallest (models : list json) : result json :=
  keyed ← mapR (λ row, n ← vram_of row; Ok (n, row)) models;
  match keyed with
  | [] => Raise (ValueError "min() arg is an empty sequence")
  | row :: rows => Ok (fold_left smaller rows row).2
  end.
Definition cluster_rows (clusters : json) : result json :=
  match clusters with
  | JList _ => Ok clusters
  | _ => rows ← get_ "items" (or_empty (Some clusters) (JObj [])); Ok (default (JList []) rows)
  end.
(** [rows\[0\]] of rows that are not empty *)
Definition first_row (rows : json) : result json :=
  match rows with JList (row :: _) => Ok row | JObj _ => Raise KeyError | _ => Raise TypeError end.
(** The model and the cluster of the run; [None]: [main] returns 2. *)
Definition choose (model : option string) : SM (option (json * json)) :=
  '(status, models) ← call_ "GET" "/api/v1/models" None;
  match models with
  | JList ((_ :: _) as models) =>
      if negb (status =? 200) then mret None
      else
        model_id ← lift_result (if is_empty model then row ← smallest models; sub "id" row else Ok (JStr (default "" model)));
        '(_, clusters) ← call_ "GET" "/api/v1/clusters" None;
        rows ← lift_result (cluster_rows clusters);
        if negb (json_truthy rows) then mret None
        else row ← lift_result (first_row rows); cluster_id ← lift_result (sub "id" row); mret (Some (model_id, cluster_id))
  | _ => mret None
  end.
(** The exit code; [None] when the fuel runs out.  The [SystemExit] of a cycle passes
    through. *)
Definition soak_main (fuel : nat) (model : option string) (hours interval_min : Q) (max_cycles fault_every : Z) : SM (option Z) :=
  chosen ← choose model;
  match chosen with
  | None => mret (Some 2)
  | Some (model_id, cluster_id) =>
      now ← now_;
      ended ← soak_loop fuel model_id cluster_id max_cycles fault_every interval_min (now + hours * 3600)%Q;
      code ← gets soak_exit;
      mret (if ended : bool then Some code else None)
  end.

(** ** Properties *)
(** A row that reports a failure. *)
Definition bad_row (row : string * string) : bool := String.eqb row.2 "fail" || String.eqb row.2 "violation".
Definition tallied (s : SoakState.t W) : Prop := SoakState.failures s = Z.of_nat (length (where_ bad_row (SoakState.log s))).
Lemma call_tallied method path body : preserves tallied (call_ method path body).
Proof. intros s H. unfold call_. by destruct (World.call _ _ _ _ _). Qed.
Lemma subprocess_tallied command : preserves tallied (subprocess_ command).
Proof. intros s H. unfold subprocess_. by destruct (World.subprocess _ _ _). Qed.
Lemma sleep_tallied q : preserves tallied (sleep_ q).
Proof. by apply preserves_modify. Qed.
Lemma log_tallied action result : bad_row (action, result) = false → preserves tallied (log action result).
Proof.
  intros Hb. apply preserves_modify. intros s H. unfold tallied in *. cbn. rewrite where_app. cbn [where_ List.filter].
  rewrite Hb, app_nil_r. done.
Qed.
Lemma failed_tallied action result : bad_row (action, result) = true → preserves tallied (failed action result).
Proof.
  intros Hb s H. unfold tallied, failed, log, fail, modify, mbind, M_bind in *. cbn. rewrite where_app, length_app. unfold where_ at 2.
  cbn [List.filter]. rewrite Hb, H. cbn [length]. lia.
Qed.
#[local] Hint Resolve call_tallied subprocess_tallied sleep_tallied : sane.
#[local] Hint Extern 1 (preserves tallied (log _ _)) => (apply log_tallied; repeat case_match; reflexivity) : sane.
#[local] Hint Extern 1 (preserves tallied (failed _ _)) => (apply failed_tallied; repeat case_match; reflexivity) : sane.
Lemma group_tallied group_id : preserves tallied (group group_id).
Proof. unfold group, instances. walk. Qed.
#[local] Hint Resolve group_tallied : sane.
Lemma group_states_tallied group_id : preserves tallied (group_states group_id).
Proof. unfold group_states. walk. Qed.
#[local] Hint Resolve group_states_tallied : sane.
Lemma wait_loop_tallied fuel group_id expected deadline : preserves tallied (wait_loop fuel group_id expected deadline).
Proof. induction fuel as [|fuel IH]; cbn [wait_loop]; unfold now_; walk. Qed.
#[local] Hint Resolve wait_loop_tallied : sane.
Lemma wait_group_tallied group_id expected timeout : preserves tallied (wait_group group_id expected timeout).
Proof. unfold wait_group, now_. walk. Qed.
#[local] Hint Resolve wait_group_tallied : sane.
Lemma worker_container_tallied instance_id action : preserves tallied (worker_container instance_id action).
Proof. unfold worker_container. walk. Qed.
#[local] Hint Resolve worker_container_tallied : sane.
Lemma inject_tallied fault ranks head_id : preserves tallied (inject fault ranks head_id).
Proof. unfold inject, netem_loss. walk. Qed.
#[local] Hint Resolve inject_tallied : sane.
Lemma exercise_tallied fault_every ranks group_id head_id : preserves tallied (exercise fault_every ranks group_id head_id).
Proof.
  unfold exercise, wait_phase, fault_phase, judge, iterM, stop_rank, delete_rank, instance_path. walk.
Qed.
#[local] Hint Resolve exercise_tallied : sane.
Lemma run_cycle_tallied model_id cluster_id fault_every : preserves tallied (run_cycle model_id cluster_id fault_every).
Proof.
  unfold run_cycle, judge. apply preserves_bind; [by apply preserves_modify|intros _]. walk.
Qed.
#[local] Hint Resolve run_cycle_tallied : sane.
(** Whatever the API answers and however the run ends, each failure it counts is a row
    of its log that says so, and it exits with 0 exactly when there is none. *)
Lemma soak_loop_tallied fuel model_id cluster_id max_cycles fault_every interval deadline s :
  tallied s →
  let s' := (soak_loop fuel model_id cluster_id max_cycles fault_every interval deadline s).2 in
  tallied s' ∧ (soak_exit s' = 0 ↔ Forall (λ row, bad_row row = false) (SoakState.log s')).
Proof.
  intros H s'. assert (tallied s') as H'.
  { revert s H s'. enough (preserves tallied (soak_loop fuel model_id cluster_id max_cycles fault_every interval deadline)) by done.
    induction fuel as [|fuel IH]; cbn [soak_loop]; unfold now_; walk. }
  split; [done|]. rewrite <-where_nil. unfold soak_exit. rewrite H'. destruct (where_ bad_row (SoakState.log s')); done.
Qed.

Lemma choose_keeps (P : SoakState.t W → Prop) model :
  (∀ method path body, preserves P (call_ method path body)) → preserves P (choose model).
Proof. intros Kcall. unfold choose. walk. Qed.
(** What the exit code of the program says: 2, no cycle was run, since there is no
    model or no cluster; otherwise whether a row of the log reports a failure. *)
Lemma soak_main_exit fuel model hours interval max_cycles fault_every s code s' :
  tallied s → soak_main fuel model hours interval max_cycles fault_every s = (Ok (Some code), s') →
  code = 2 ∧ SoakState.cycles s' = SoakState.cycles s ∧ SoakState.log s' = SoakState.log s ∨
  code = 0 ∧ Forall (λ row, bad_row row = false) (SoakState.log s') ∨
  code = 1 ∧ ¬ Forall (λ row, bad_row row = false) (SoakState.log s').
Proof.
  intros H. unfold soak_main. unfold mbind at 1, M_bind at 1.
  set (P s1 := tallied s1 ∧ SoakState.cycles s1 = SoakState.cycles s ∧ SoakState.log s1 = SoakState.log s).
  assert (P (choose model s).2) as Hk.
  { apply (choose_keeps P); [|done]. intros m p b s1 H1. unfold call_. by destruct (World.call _ _ _ _ _). }
  destruct (choose model s) as [[[[m c']|]|e] s1]; [|intros [= <- <-]; left; by destruct Hk|done].
  destruct Hk as (Ht & _ & _). unfold now_, gets. unfold mbind, M_bind. intros Hs. right.
  pose proof (soak_loop_tallied fuel m c' max_cycles fault_every interval (World.now o (SoakState.world s1) + hours * 3600)%Q s1 Ht) as [_ Hx].
  destruct (soak_loop _ _ _ _ _ _ _ _) as [[[]|e] s2]; [|done..]. injection Hs as <- <-. cbn [snd] in Hx.
  unfold soak_exit in *. destruct (SoakState.failures s2 =? 0); [left|right]; (split; [done|]); naive_solver.
Qed.

(** *** What a cycle keeps

    What every call, subprocess, wait and log row preserves, a cycle preserves. *)
Section keeps.
Context (P : SoakState.t W → Prop) (Kcall : ∀ method path body, preserves P (call_ method path body))
  (Ksub : ∀ command, preserves P (subprocess_ command)) (Ksleep : ∀ q, (0 <= q)%Q → preserves P (sleep_ q))
  (Klog : ∀ action result, preserves P (log action result)) (Kfail : preserves P fail).
#[local] Hint Resolve Kcall Ksub Klog Kfail : sane.
#[local] Hint Extern 1 (preserves P (sleep_ _)) => (apply Ksleep; done) : sane.
Lemma group_states_keeps group_id : preserves P (group_states group_id).
Proof. unfold group_states, group, instances. walk. Qed.
#[local] Hint Resolve group_states_keeps : sane.
Lemma wait_loop_keeps fuel group_id expected deadline : preserves P (wait_loop fuel group_id expected deadline).
Proof. induction fuel as [|fuel IH]; cbn [wait_loop]; unfold now_; walk. Qed.
#[local] Hint Resolve wait_loop_keeps : sane.
Lemma exercise_keeps fault_every ranks group_id head_id : preserves P (exercise fault_every ranks group_id head_id).
Proof.
  unfold exercise, wait_phase, wait_group, now_, fault_phase, inject, netem_loss, worker_container, judge, failed, iterM, stop_rank,
    delete_rank, instance_path, group, instances. walk.
Qed.
#[local] Hint Resolve exercise_keeps : sane.
(** From the cycle's number on. *)
Lemma run_cycle_keeps model_id cluster_id fault_every s :
  P (SoakState.mk (SoakState.world s) (SoakState.failures s) (SoakState.cycles s + 1) (SoakState.log s)) →
  P (run_cycle model_id cluster_id fault_every s).2.
Proof.
  unfold run_cycle, modify. unfold mbind at 1, M_bind at 1. cbv beta iota.
  generalize (SoakState.mk (SoakState.world s) (SoakState.failures s) (SoakState.cycles s + 1) (SoakState.log s)). clear s.
  match goal with |- ∀ s, _ → P (?m s).2 => change (preserves P m) end. unfold judge, failed. walk.
Qed.
End keeps.

(** *** A wait decides

    The clock does not run backwards, and a sleep lasts at least as long as asked. *)
Context (Hcall : ∀ method path body w, (World.now o w <= World.now o (World.call o method path body w).2)%Q)
  (Hsleep : ∀ q w, (World.now o w + q <= World.now o (World.sleep o q w))%Q).
Lemma call_clock t method path body : preserves (λ s, (t <= World.now o (SoakState.world s))%Q) (call_ method path body).
Proof.
  intros s H. unfold call_. specialize (Hcall method path body (SoakState.world s)).
  destruct (World.call _ _ _ _ _) as [r w]. cbn in *. lra.
Qed.
Lemma sleep_clock t q : (0 <= q)%Q → preserves (λ s, (t <= World.now o (SoakState.world s))%Q) (sleep_ q).
Proof. intros Hq. apply preserves_modify. intros s H. specialize (Hsleep q (SoakState.world s)). cbn in *. lra. Qed.
Lemma group_states_clock group_id s :
  (World.now o (SoakState.world s) <= World.now o (SoakState.world (group_states group_id s).2))%Q.
Proof. apply (group_states_keeps (λ s', World.now o (SoakState.world s) <= World.now o (SoakState.world s'))%Q), Qle_refl. apply call_clock. Qed.
Lemma wait_loop_decides fuel group_id expected deadline s r s' :
  (deadline - World.now o (SoakState.world s) <= 10 * inject_Z (Z.of_nat fuel - 1))%Q → (0 < fuel)%nat →
  wait_loop fuel group_id expected deadline s = (Ok r, s') → r ≠ None.
Proof.
  revert s. induction fuel as [|fuel IH]; intros s Hd Hf; [lia|]. cbn [wait_loop]. unfold now_, gets, mbind at 1, M_bind at 1.
  destruct (Qle_bool deadline (World.now o (SoakState.world s))) eqn:E; [by intros [= <- _]|].
  assert (World.now o (SoakState.world s) < deadline)%Q as Hlt.
  { apply Qnot_le_lt. rewrite <-Qle_bool_iff. by rewrite E. }
  unfold mbind, M_bind. pose proof (group_states_clock group_id s) as Hg.
  destruct (group_states group_id s) as [[states|e] s1]; [|done]. cbn in Hg. destruct (bool_decide _); [by intros [= <- _]|].
  unfold sleep_, modify. specialize (Hsleep 10 (SoakState.world s1)). rewrite Nat2Z.inj_succ in Hd.
  replace (Z.succ (Z.of_nat fuel) - 1) with (Z.of_nat fuel - 1 + 1) in Hd by lia. rewrite inject_Z_plus in Hd.
  destruct fuel as [|fuel].
  - change (inject_Z (Z.of_nat 0 - 1)) with (- (1))%Q in Hd. change (inject_Z 1) with 1%Q in Hd. lra.
  - apply IH; [|lia]. cbn [set_world SoakState.world]. change (inject_Z 1) with 1%Q in Hd. lra.
Qed.
(** The polls [wait_group] allows are enough: it returns because the group reached
    the states, or because its time is over. *)
Lemma wait_group_decides group_id expected timeout s b s' :
  0 <= timeout → wait_group group_id expected timeout s = (Ok b, s') →
  wait_loop (polls timeout) group_id expected (World.now o (SoakState.world s) + inject_Z timeout)%Q s = (Ok (Some b), s').
Proof.
  intros Ht. unfold wait_group, now_, gets, mbind at 1, M_bind at 1. unfold mbind, M_bind.
  destruct (wait_loop _ _ _ _ s) as [[r|e] s1] eqn:E; [|done]. intros [= <- <-].
  assert (r ≠ None) as Hr.
  { eapply wait_loop_decides; [| |exact E]; [|unfold polls; lia]. unfold polls.
    assert (inject_Z timeout <= 10 * inject_Z (Z.of_nat (S (Z.to_nat (timeout / 10 + 1))) - 1))%Q; [|lra].
    change 10%Q with (inject_Z 10). rewrite <-inject_Z_mult, <-Zle_Qle. Z.div_mod_to_equations. lia. }
  by destruct r.
Qed.
(** No fault that needs a container is injected when the instance cannot be read first.
    The API has no endpoint that reads one instance, so against it none ever is. *)
Lemma unreadable_instance_no_fault instance_id action s r w :
  World.call o "GET" ("/api/v1/model-instances/" +:+ str_of instance_id) None (SoakState.world s) = (Ok r, w) → r.1 ≠ 200 →
  (worker_container instance_id action s).1 = Ok false.
Proof.
  intros Hc Hr. unfold worker_container. destruct (SoakConfig.docker c); [|done]. cbn [negb]. unfold call_, mbind, M_bind.
  rewrite Hc. destruct r as [status row]. destruct row; try done. cbn in Hr. by destruct (Z.eqb_spec status 200).
Qed.
(** *** The run ends *)
Lemma run_cycle_counts model_id cluster_id fault_every s :
  SoakState.cycles s < SoakState.cycles (run_cycle model_id cluster_id fault_every s).2.
Proof.
  apply Z.le_succ_l. apply (run_cycle_keeps (λ s', Z.succ (SoakState.cycles s) <= SoakState.cycles s')); [| | | | |cbn; lia].
  - intros method path body s' H. unfold call_. by destruct (World.call _ _ _ _ _).
  - intros command s' H. unfold subprocess_. by destruct (World.subprocess _ _ _).
  - intros q _. by apply preserves_modify.
  - intros action result. by apply preserves_modify.
  - by apply preserves_modify.
Qed.
Lemma soak_loop_ends_by_cycles fuel model_id cluster_id max_cycles fault_every interval deadline s :
  0 < max_cycles → max_cycles - SoakState.cycles s < Z.of_nat fuel → (0 < fuel)%nat →
  (soak_loop fuel model_id cluster_id max_cycles fault_every interval deadline s).1 ≠ Ok false.
Proof.
  intros Hm. revert s. induction fuel as [|fuel IH]; intros s Hf H0; [lia|]. cbn [soak_loop]. unfold gets, now_, mbind, M_bind.
  destruct (negb (max_cycles =? 0) && _); [done|]. unfold gets. destruct (Qle_bool _ _); [done|].
  pose proof (run_cycle_counts model_id cluster_id fault_every s) as Hc.
  destruct (run_cycle model_id cluster_id fault_every s) as [[[]|e] s1]; [|done]. cbn in Hc.
  destruct (Z.eqb_spec max_cycles 0), (Z.leb_spec max_cycles (SoakState.cycles s1)); cbn [negb andb]; [lia..|done|].
  unfold sleep_, modify. apply IH; cbn; lia.
Qed.
Context (Hsub : ∀ command w, (World.now o w <= World.now o (World.subprocess o command w).2)%Q).
Lemma run_cycle_clock model_id cluster_id fault_every s :
  (World.now o (SoakState.world s) <= World.now o (SoakState.world (run_cycle model_id cluster_id fault_every s).2))%Q.
Proof.
  apply (run_cycle_keeps (λ s', World.now o (SoakState.world s) <= World.now o (SoakState.world s'))%Q); [| | | | |apply Qle_refl].
  - apply call_clock.
  - intros command s' H. unfold subprocess_. specialize (Hsub command (SoakState.world s')).
    destruct (World.subprocess _ _ _) as [code w]. cbn in *. lra.
  - apply sleep_clock.
  - intros action result. by apply preserves_modify.
  - by apply preserves_modify.
Qed.
Lemma soak_loop_ends_by_time fuel model_id cluster_id max_cycles fault_every interval deadline s :
  (0 < interval)%Q → (0 < fuel)%nat →
  (deadline - World.now o (SoakState.world s) <= interval * 60 * inject_Z (Z.of_nat fuel - 1))%Q →
  (soak_loop fuel model_id cluster_id max_cycles fault_every interval deadline s).1 ≠ Ok false.
Proof.
  intros Hi. revert s. induction fuel as [|fuel IH]; intros s H0 Hf; [lia|]. cbn [soak_loop]. unfold gets, now_, mbind, M_bind.
  destruct (_ && _); [done|]. unfold gets. destruct (Qle_bool deadline (World.now o (SoakState.world s))) eqn:E; [done|].
  assert (World.now o (SoakState.world s) < deadline)%Q as Hlt.
  { apply Qnot_le_lt. rewrite <-Qle_bool_iff. by rewrite E. }
  pose proof (run_cycle_clock model_id cluster_id fault_every s) as Hc.
  destruct (run_cycle model_id cluster_id fault_every s) as [[[]|e] s1]; [|done]. cbn [snd] in Hc. destruct (_ && _); [done|].
  unfold sleep_, modify. specialize (Hsleep (interval * 60) (SoakState.world s1)). rewrite Nat2Z.inj_succ in Hf.
  replace (Z.succ (Z.of_nat fuel) - 1) with (Z.of_nat fuel - 1 + 1) in Hf by lia. rewrite inject_Z_plus in Hf.
  change (inject_Z 1) with 1%Q in Hf. destruct fuel as [|fuel].
  - change (inject_Z (Z.of_nat 0 - 1)) with (- (1))%Q in Hf. lra.
  - apply IH; [lia|]. cbn [set_world SoakState.world]. lra.
Qed.
(** The soak ends, by the number of its cycles or, when it waits at all between them,
    by its hours: with that much fuel it returns an exit code or raises. *)
Lemma soak_main_ends fuel model hours interval max_cycles fault_every s :
  (0 < fuel)%nat →
  (0 < max_cycles ∧ max_cycles - SoakState.cycles s < Z.of_nat fuel) ∨
  ((0 < interval)%Q ∧ (hours * 3600 <= interval * 60 * inject_Z (Z.of_nat fuel - 1))%Q) →
  (soak_main fuel model hours interval max_cycles fault_every s).1 ≠ Ok None.
Proof.
  intros H0 Hf. unfold soak_main. unfold mbind at 1, M_bind at 1.
  pose proof (choose_keeps (λ s', SoakState.cycles s' = SoakState.cycles s) model) as Hk.
  specialize (Hk ltac:(by intros m p b s' H; unfold call_; destruct (World.call _ _ _ _ _)) s eq_refl).
  destruct (choose model s) as [[[[m c']|]|e] s1]; [|done..]. cbn in Hk. unfold now_, gets. unfold mbind, M_bind.
  assert ((soak_loop fuel m c' max_cycles fault_every interval (World.now o (SoakState.world s1) + hours * 3600)%Q s1).1 ≠ Ok false) as Hl.
  { destruct Hf as [[Hm Hf]|[Hi Hf]]; [apply soak_loop_ends_by_cycles; [done|by rewrite Hk|done]|].
    apply soak_loop_ends_by_time; [done..|]. lra. }
  by destruct (soak_loop _ _ _ _ _ _ _ _) as [[[]|e] s2].
Qed.
End soak.

(** ** Where the soak looks away

    A control plane that answers every stop and delete with 500, and every listing with
    503: the states are never seen, so the waits fail, but the deletion is logged as
    done, since a failed listing reads as an empty one, and the status of a stop or a
    delete is not looked at. *)
Definition dead_plane : World.ops Q :=
  World.Ops Q
    (λ method path _ w,
       (Ok (if String.eqb method "GET" then (503, JNull)
            else if String.eqb path "/api/v1/model-instances"
                 then (201, JList [JObj [("id", JStr "i1"); ("parallel_group_id", JStr "g1"); ("node_rank", JInt 0)]])
                 else (500, JNull)), w))
    id (λ q w, (w + q)%Q) (λ _ w, (1, w)) (λ _ _, false).
Lemma failed_listing_is_a_deletion :
  let '(r, s) := run_cycle dead_plane (SoakConfig.mk 2 "pp" false) (λ _ _, false) (λ _ _, false) id JNull JNull 0
                   (SoakState.mk 0%Q 0 0 []) in
  r = Ok tt ∧ SoakState.log s = [("deploy", "ok"); ("poll_running", "fail"); ("poll_stopped", "fail"); ("delete", "ok")].
Proof. by vm_compute. Qed.
