(* ===== verification/Harness.v ===== *)
(** * The benchmark's load shapes and runs ([bench/bench/scenarios.py], [__main__.py], [parity.py])

    The cases of a scenario, the run of a case, and the two programs' exit codes:
    the sweep of [__main__] and the parity matrix, which deploys each configuration
    first.  The requests of a batch are made one after the other: what a batch
    returns is in its order whatever the interleaving.  Files, tables and argument
    parsing are left out; what a run records, and its program, are in [Trace]. *)

From Stdlib Require Import QArith.
From S2P Require Import Prelude PyStr Json PrefixCache Bench Coding Soak.
Local Open Scope Z_scope.

(** ** Load shapes *)
Definition CONCURRENCY_SWEEP : list Z := [1; 4; 8; 16].
Definition LONG_CONTEXT_SIZES : list Z := [32000; 128000].
Definition AGENTIC_ITERATIONS : Z := 8.
Definition AGENTIC_PREFIX_TOKENS : Z := 4000.
Module Case.
Record t := mk { label : string; messages : list json; max_tokens : Z; concurrency : Z }.
End Case.
Definition newline : string := String "010" "".
Definition message (role content : string) : json := JObj [("role", JStr role); ("content", JStr content)].

Section scenarios.
(** [filler_tokens(tokens, seed=seed)]: a text drawn by [random.Random(seed)]. *)
Context (filler_tokens : Z → Z → string).
Definition single_cases (max_tokens : Z) : list Case.t :=
  map (λ conc, Case.mk ("single conc=" +:+ str_Z conc)
                 [message "user" "Summarise what a GPU cluster scheduler does in one sentence."] max_tokens conc) CONCURRENCY_SWEEP.
Fixpoint agentic_from (max_tokens : Z) (messages : list json) (iterations : list Z) : list Case.t :=
  match iterations with
  | [] => []
  | i :: iterations =>
      let messages := messages ++ [message "user" ("iteration " +:+ str_Z i +:+ ": summarise the change")] in
      Case.mk ("agentic-loop iter=" +:+ str_Z i) messages max_tokens 1 :: agentic_from max_tokens messages iterations
  end.
Definition agentic_cases (iterations max_tokens : Z) : list Case.t :=
  agentic_from max_tokens
    [message "system" ("Repository context:" +:+ newline +:+ filler_tokens AGENTIC_PREFIX_TOKENS 42);
     message "user" "Reply with a single word: ready."] (seqZ 0 iterations).
Definition long_context_cases (sizes : list Z) (max_tokens : Z) : list Case.t :=
  map (λ size, Case.mk ("long-context tokens=" +:+ str_Z size)
                 [message "user" (filler_tokens size 7 +:+ newline +:+ newline +:+ "Question: what is this about?")] max_tokens 1) sizes.
Definition ttft_cases (concurrency : Z) : list Case.t :=
  [Case.mk "ttft-only" [message "user" "Say OK."] 1 concurrency].
Definition build_cases (scenario : string) (concurrency max_tokens : Z) : result (list Case.t) :=
  if String.eqb scenario "single" then
    Ok (map (λ case, Case.mk (Case.label case) (Case.messages case) (Case.max_tokens case)
                       (if 0 <? concurrency then concurrency else Case.concurrency case)) (single_cases max_tokens))
  else if String.eqb scenario "agentic-loop" then Ok (agentic_cases AGENTIC_ITERATIONS max_tokens)
  else if String.eqb scenario "long-context" then Ok (long_context_cases LONG_CONTEXT_SIZES max_tokens)
  else if String.eqb scenario "ttft-only" then Ok (ttft_cases (if 0 <? concurrency then concurrency else 1))
  else Raise (ValueError ("unknown scenario: " +:+ scenario)).
End scenarios.

(** The arguments of the parity matrix. *)
Module ParityArgs.
Record t := mk {
  mode : string; admin_token : string; model : string; nodes : Z; gpus : Z; mode_flag : string; scenario : string;
  repeats : Z; warmup : Z; conc : Z; environment : string }.
End ParityArgs.
(** Label, nodes and parallel mode of each configuration to measure. *)
Definition configurations (args : ParityArgs.t) : list (string * Z * string) :=
  if String.eqb (ParityArgs.mode args) "smoke" then [("smoke", 1, "n/a")]
  else if String.eqb (ParityArgs.mode args) "single" then [("baseline", 1, "single")]
  else if String.eqb (ParityArgs.mode args) "multi" then
    [(str_Z (ParityArgs.nodes args) +:+ "x" +:+ str_Z (ParityArgs.gpus args), ParityArgs.nodes args, ParityArgs.mode_flag args)]
  else [("1x8", 1, "single"); ("2x4", 2, "pp"); ("2x4-tp", 2, "tp"); ("4x2", 4, "pp")].
Definition deploys (args : ParityArgs.t) : bool :=
  bool_decide (ParityArgs.mode args ∈ ["single"; "multi"; "full"]).

(** ** Runs *)
Section runs.
(** [chat]: one measured request for a model in the world. *)
Context {W : Type} (chat : string → list json → Z → M W RequestResult.t).

(** [\[await f() for _ in range(n)\]] *)
Fixpoint repeatM {A} (n : nat) (f : M W A) : M W (list A) :=
  match n with O => mret [] | S n => x ← f; l ← repeatM n f; mret (x :: l) end.
(** [while time.perf_counter() < deadline]: a reading at each head of the loop. *)
Fixpoint until {A} (deadline : Q) (readings : list Q) (f : M W A) : M W (list A) :=
  match readings with
  | [] => mret []
  | now :: readings => if Qle_bool deadline now then mret [] else x ← f; l ← until deadline readings f; mret (x :: l)
  end.
(** What is recorded of a request. *)
Definition trace_body (model : string) (case : Case.t) : list (string * json) :=
  [("model", JStr model); ("messages", JList (Case.messages case)); ("max_tokens", JInt (Case.max_tokens case))].
Definition one (write : option (list (string * json) → M W unit)) (model : string) (case : Case.t) (max_tokens : Z)
    : M W RequestResult.t :=
  _ ← match write with Some write => write (trace_body model case) | None => mret tt end;
  chat model (Case.messages case) (if Case.max_tokens case =? 0 then max_tokens else Case.max_tokens case).
(** [readings]: empty unless a duration is asked for. *)
Definition _run_case (write : option (list (string * json) → M W unit)) (model : string) (case : Case.t) (repeats warmup : Z)
    (duration started : Q) (readings : list Q) (max_tokens : Z) : M W (list RequestResult.t) :=
  _ ← repeatM (Z.to_nat warmup) (one write model case max_tokens);
  if negb (Qle_bool duration 0) then until (started + duration)%Q readings (one write model case max_tokens)
  else
    batches ← repeatM (Z.to_nat (Z.max 1 repeats)) (repeatM (Z.to_nat (Z.max 1 (Case.concurrency case))) (one write model case max_tokens));
    mret (concat batches).
(** The exit code of [_main] from the results of its cases. *)
Definition errors (cases : list (list RequestResult.t)) : Z :=
  foldr (λ results n, Z.of_nat (length results) - Z.of_nat (length (ok_results results)) + n) 0 cases.
Definition bench_exit (allow_errors : bool) (cases : list (list RequestResult.t)) : Z :=
  if negb (errors cases =? 0) && negb allow_errors then 1 else 0.

(** *** The parity matrix *)
Fixpoint measure_cases (model : string) (cases : list Case.t) (repeats warmup : Z) : M W (list RequestResult.t) :=
  match cases with
  | [] => mret []
  | case :: cases =>
      _ ← repeatM (Z.to_nat warmup) (chat model (Case.messages case) (Case.max_tokens case));
      results ← repeatM (Z.to_nat repeats) (chat model (Case.messages case) (Case.max_tokens case));
      rest ← measure_cases model cases repeats warmup;
      mret (results ++ rest)
  end.
Definition measure (filler_tokens : Z → Z → string) (model scenario : string) (repeats warmup concurrency : Z)
    : M W (list RequestResult.t) :=
  cases ← lift_result (build_cases filler_tokens scenario concurrency 128);
  measure_cases model cases repeats warmup.

(** [_api] and the sleeps of [_deploy]. *)
Context (api : string → string → option json → M W (Z * json)) (sleep : Q → M W unit)
  (feq : string → string → bool) (feqi : string → Z → bool) (float_repr : string → string).
Notation eq := (py_eq feq feqi).
Definition states_of (current : json) : result (list string) :=
  mapR (λ row, v ← sub "state" row; Ok (PrefixCache.py_str float_repr v)) (match current with JList l => l | _ => [] end).
(** [waited] runs from 0 to 300 in tens. *)
Fixpoint wait_ranks (polls : nat) (ranks : nat) : M W (bool * string) :=
  match polls with
  | O => mret (false, "ranks did not become ready in 300 s")
  | S polls =>
      _ ← sleep 10;
      '(_, current) ← api "GET" "/api/v1/model-instances" None;
      states ← lift_result (states_of current);
      if forallb (λ s, String.eqb s "running") states then mret (true, str_Z (Z.of_nat ranks) +:+ " ranks running")
      else if existsb (λ s, String.eqb s "error") states then mret (false, "a rank failed to start")
      else wait_ranks polls ranks
  end.
Definition cluster_rows (clusters : json) : json :=
  match clusters with
  | JList _ => clusters
  | JObj kvs => default (JList []) (jget "items" kvs)
  | _ => JList []
  end.
Definition parity_body (model_id cluster_id : json) (nodes : Z) (mode : string) : json :=
  JObj [("model_id", model_id); ("cluster_id", cluster_id); ("engine", JStr "vllm"); ("profile", JStr "latency");
        ("replicas", JInt 1); ("gpu_selection", JStr "auto"); ("nodes_per_replica", JInt nodes); ("parallel_mode", JStr mode)].
Definition _deploy (model : string) (nodes : Z) (mode : string) : M W (bool * string) :=
  '(status, models) ← api "GET" "/api/v1/models" None;
  match models with
  | JList models =>
      if negb (status =? 200) then mret (false, "cannot list models (" +:+ str_Z status +:+ ")")
      else
        match_ ← lift_result (findR (λ m, v ← sub "name" m; Ok (eq v (JStr model))) models);
        match match_ with
        | None => mret (false, "model " +:+ model +:+ " is not in the catalog")
        | Some m =>
            '(status, clusters) ← api "GET" "/api/v1/clusters" None;
            if negb (status =? 200) then mret (false, "cannot list clusters (" +:+ str_Z status +:+ ")")
            else
              cluster_id ← lift_result (row ← first_of (cluster_rows clusters); sub "id" row);
              model_id ← lift_result (sub "id" m);
              '(status, created) ← api "POST" "/api/v1/model-instances" (Some (parity_body model_id cluster_id nodes mode));
              if negb ((status =? 200) || (status =? 201))
              then mret (false, "deploy failed (" +:+ str_Z status +:+ "): " +:+ PrefixCache.py_str float_repr created)
              else if 1 <? nodes then wait_ranks 30 (match created with JList l => length l | _ => 1%nat end)
              else mret (true, "single-node deployment created")
        end
  | _ => mret (false, "cannot list models (" +:+ str_Z status +:+ ")")
  end.

(** The cells and the baseline, one configuration after the other; [None] when a
    configuration cannot be deployed. *)
Fixpoint matrix (filler_tokens : Z → Z → string) (args : ParityArgs.t) (configs : list (string * Z * string))
    (baseline : option Cell.t) (cells : list Cell.t) : M W (option (list Cell.t * option Cell.t)) :=
  match configs with
  | [] => mret (Some (cells, baseline))
  | (label, nodes, mode) :: configs =>
      '(ok, _) ← (if deploys args then _deploy (ParityArgs.model args) nodes mode else mret (true, ""));
      if negb ok then mret None
      else
        results ← measure filler_tokens (ParityArgs.model args) (ParityArgs.scenario args) (ParityArgs.repeats args) (ParityArgs.warmup args)
                    (ParityArgs.conc args);
        let cell := _cell_from label mode (ParityArgs.environment args) nodes (ParityArgs.gpus args) results in
        let first := String.eqb label "baseline"
                     || (String.eqb label "1x8" && match baseline with None => true | Some _ => false end) in
        matrix filler_tokens args configs (if first then Some cell else baseline) (cells ++ [cell])
  end.
Definition parity_main (filler_tokens : Z → Z → string) (args : ParityArgs.t) (baseline : option Cell.t) : M W Z :=
  if deploys args && String.eqb (ParityArgs.admin_token args) "" then mret 2
  else
    r ← matrix filler_tokens args (configurations args) baseline [];
    mret (match r with None => 2 | Some (cells, _) => Bench.exit_code cells end).
End runs.

(** ** Properties *)
(** The conversation of an agentic iteration starts with the whole conversation of each
    earlier one: what a prefix cache can reuse only grows. *)
Lemma agentic_from_prefix max_tokens messages iterations case :
  case ∈ agentic_from max_tokens messages iterations → messages `prefix_of` Case.messages case.
Proof.
  revert messages. induction iterations as [|i iterations IH]; intros messages; cbn [agentic_from]; [by intros ?%elem_of_nil|].
  intros [->|H]%elem_of_cons; [by eexists|]. etrans; [|by apply IH]. by eexists.
Qed.
Lemma agentic_cases_grow filler iterations max_tokens i j a b :
  (i <= j)%nat → agentic_cases filler iterations max_tokens !! i = Some a → agentic_cases filler iterations max_tokens !! j = Some b →
  Case.messages a `prefix_of` Case.messages b.
Proof.
  unfold agentic_cases. generalize ([message "system" ("Repository context:" +:+ newline +:+ filler AGENTIC_PREFIX_TOKENS 42);
     message "user" "Reply with a single word: ready."]) as messages. generalize (seqZ 0 iterations) as l.
  intros l messages Hij. revert i j messages Hij. induction l as [|k l IH]; intros i j messages Hij; [done|].
  destruct i as [|i], j as [|j]; cbn [agentic_from lookup list_lookup]; [by intros [= <-] [= <-]| |lia|].
  - intros [= <-] Hb. cbn. eapply agentic_from_prefix. by eapply list_elem_of_lookup_2.
  - apply IH. lia.
Qed.

Section properties.
Context {W : Type} (chat : string → list json → Z → M W RequestResult.t).
Lemma repeatM_length {A} n (f : M W A) w l w' : repeatM n f w = (Ok l, w') → length l = n.
Proof.
  revert w l w'. induction n as [|n IH]; intros w l w'; cbn [repeatM]; [by intros [= <- _]|].
  intros (x & w1 & _ & (r & w2 & Hr & [= <- _])%M_bind_Ok)%M_bind_Ok. cbn. by rewrite (IH _ _ _ Hr).
Qed.
Lemma repeatM_Forall {A} (P : A → Prop) n (f : M W A) w l w' :
  (∀ w x w', f w = (Ok x, w') → P x) → repeatM n f w = (Ok l, w') → Forall P l.
Proof.
  intros Hf. revert w l w'. induction n as [|n IH]; intros w l w'; cbn [repeatM]; [intros [= <- _]; constructor|].
  intros (x & w1 & Hx & (r & w2 & Hr & [= <- _])%M_bind_Ok)%M_bind_Ok. constructor; [by eapply Hf|by eapply IH].
Qed.
(** A case without a duration makes the requests it was asked for, at least one. *)
Lemma run_case_requests write model case repeats warmup started max_tokens w results w' :
  _run_case chat write model case repeats warmup 0 started [] max_tokens w = (Ok results, w') →
  Z.of_nat (length results) = Z.max 1 repeats * Z.max 1 (Case.concurrency case).
Proof.
  unfold _run_case. intros (warm & w1 & _ & H)%M_bind_Ok. cbn [Qle_bool negb] in H.
  apply M_bind_Ok in H as (batches & w2 & Hb & [= <- _]).
  pose proof (repeatM_length _ _ _ _ _ Hb) as Hl.
  assert (Forall (λ l, length l = Z.to_nat (Z.max 1 (Case.concurrency case))) batches) as Hall.
  { eapply repeatM_Forall; [|exact Hb]. intros ? l ? Hr. by eapply repeatM_length. }
  assert (length (concat batches) = length batches * Z.to_nat (Z.max 1 (Case.concurrency case)))%nat as ->.
  { clear -Hall. induction Hall as [|l batches Hl _ IH]; [done|]. cbn. rewrite length_app, IH. lia. }
  rewrite Hl. nia.
Qed.
(** The sweep exits with 0 exactly when no request failed, or failures are allowed. *)
Lemma bench_exit_zero allow_errors cases :
  bench_exit allow_errors cases = 0 ↔
  allow_errors = true ∨ Forall (Forall (λ r, RequestResult.ok r = true)) cases.
Proof.
  assert (0 <= errors cases ∧ (errors cases = 0 ↔ Forall (Forall (λ r, RequestResult.ok r = true)) cases)) as [Hp He].
  { unfold errors. induction cases as [|c cases [IHp IH]]; [split; [done|]; split; [constructor|done]|].
    cbn [foldr]. rewrite Forall_cons, <-IH, <-length_where_all. unfold ok_results in *. pose proof (where_length RequestResult.ok c).
    split; lia. }
  rewrite <-He. unfold bench_exit. destruct (Z.eqb_spec (errors cases) 0), allow_errors; naive_solver.
Qed.
End properties.

(** ** Where the harness looks away *)
(** A listing that cannot be read counts as a group that runs: there is no state that is
    not [running].  The same holds of a cluster without instances. *)
Definition blind_api (method path : string) (body : option json) : M unit (Z * json) := λ w,
  (Ok (if String.eqb path "/api/v1/models" then (200, JList [JObj [("id", JStr "m1"); ("name", JStr "m")]])
       else if String.eqb path "/api/v1/clusters" then (200, JList [JObj [("id", JStr "c1")]])
       else if String.eqb method "POST" then (201, JList [JObj [("id", JStr "i1")]; JObj [("id", JStr "i2")]])
       else (503, JNull)), w).
Lemma unread_listing_is_running :
  _deploy blind_api (λ _, mret tt) (λ _ _, false) (λ _ _, false) id "m" 2 "pp" tt = (Ok (true, "2 ranks running"), tt).
Proof. by vm_compute. Qed.
(** Warm-up and repeats of a parity cell are sequential: the concurrency asked for changes
    the cases' field and no request. *)
Lemma measure_ignores_concurrency {W} (chat : string → list json → Z → M W RequestResult.t) filler model repeats warmup c c' w :
  0 < c → 0 < c' →
  measure chat filler model "single" repeats warmup c w = measure chat filler model "single" repeats warmup c' w.
Proof.
  intros H H'. unfold measure, build_cases. cbn [String.eqb Ascii.eqb Bool.eqb].
  destruct (Z.ltb_spec 0 c); [|lia]. destruct (Z.ltb_spec 0 c'); [|lia].
  unfold lift_result, mbind, M_bind. reflexivity.
Qed.
