(* ===== verification/Trace.v ===== *)
(** * Traces, and the benchmark's program ([bench/bench/trace.py], [__main__.py])

    What a run records of its requests, how it is read back and replayed, and the
    program around both.  The trace file, the clock and the requests are operations
    on a world; the tables and the raw results are left out. *)

From Stdlib Require Import QArith.
From S2P Require Import Prelude PyStr Json JsonText PrefixCache Autoscaling Bench Coding Soak Harness.
Local Open Scope Z_scope.

Module TraceEntry.
Record t := mk { ts : Q; method : string; path : string; body : json }.
End TraceEntry.
Module BenchArgs.
Record t := mk {
  api : string; model : string; scenario : string; conc : Z; repeats : Z; warmup : Z; duration : Q; mode : string;
  direct_base : option string; replay : option string; trace : bool; max_tokens : Z; allow_errors : bool }.
End BenchArgs.

(** [float(v)]; an infinite or undefined value is not modelled. *)
Definition json_float (v : json) : result Q :=
  match v with
  | JInt z => Ok (inject_Z z)
  | JBool b => Ok (if b then 1 else 0)%Q
  | JFloat s | JStr s =>
      match py_float s with Some (Finite x) => Ok x | _ => Raise (ValueError "could not convert string to float") end
  | _ => Raise TypeError
  end.

Section trace.
Context (float_repr : string → string) (float_int : string → result Z).

(** [TraceWriter.write]: the line it appends; [ts]: the clock, as its literal. *)
Definition write_line (ts method path : string) (body : list (string * json)) : string :=
  json_compact float_repr (JObj [("ts", JFloat ts); ("method", JStr method); ("path", JStr path); ("body", JObj body)]) +:+ newline.

(** [or_default k d payload]: [str(payload.get(k, d))] *)
Definition str_field (k d : string) (payload : json) : result string :=
  v ← get_ k payload; Ok (py_str float_repr (default (JStr d) v)).
Definition read_entry (line : string) : result TraceEntry.t :=
  match json_loads_str line with
  | None => Raise json_decode_error
  | Some payload =>
      ts ← sub "ts" payload; ts ← json_float ts;
      method ← str_field "method" "POST" payload;
      path ← str_field "path" "/v1/chat/completions" payload;
      body ← get_ "body" payload;
      Ok (TraceEntry.mk ts method path (or_empty body (JObj [])))
  end.
Fixpoint read_lines_ (lines : list string) : result (list TraceEntry.t) :=
  match lines with
  | [] => Ok []
  | line :: lines =>
      let line := strip line in
      if String.eqb line "" then read_lines_ lines
      else entry ← read_entry line; entries ← read_lines_ lines; Ok (entry :: entries)
  end.
Definition read_trace (text : string) : result (list TraceEntry.t) := read_lines_ (splitlines text).

(** The request a replay makes of an entry: model, messages and cap. *)
Definition replay_request (model : string) (max_tokens : Z) (entry : TraceEntry.t) : result (string * list json * Z) :=
  let body := or_empty (Some (TraceEntry.body entry)) (JObj []) in
  m ← get_ "model" body;
  messages ← get_ "messages" body; messages ← iterate (or_empty messages (JList []));
  cap ← get_ "max_tokens" body; cap ← json_int float_int (or_empty cap (JInt max_tokens));
  Ok (py_str float_repr (or_empty m (JStr model)), messages, cap).

(** ** The program *)
Section main.
Context {W : Type} (chat : string → string → list json → Z → M W RequestResult.t) (sleep : Q → M W unit)
  (time : M W string) (append : string → M W unit) (read : string → M W string)
  (clock : Case.t → Q * list Q) (filler_tokens : Z → Z → string).

Fixpoint replay_entries (base_url model : string) (max_tokens : Z) (entries : list (TraceEntry.t * Q)) : M W (list RequestResult.t) :=
  match entries with
  | [] => mret []
  | (entry, delay) :: entries =>
      _ ← (if Qeq_bool delay 0 then mret tt else sleep delay);
      '(m, messages, cap) ← lift_result (replay_request model max_tokens entry);
      result ← chat base_url m messages cap;
      rest ← replay_entries base_url model max_tokens entries;
      mret (result :: rest)
  end.
Definition _run_replay (base_url model : string) (max_tokens : Z) (entries : list TraceEntry.t) : M W (list RequestResult.t) :=
  replay_entries base_url model max_tokens (zip entries (replay_schedule (map TraceEntry.ts entries))).

(** [writer.write("POST", "/v1/chat/completions", body)] *)
Definition write_request (body : list (string * json)) : M W unit :=
  ts ← time; append (write_line ts "POST" "/v1/chat/completions" body).
(** [raise SystemExit(...)] without the engine's address. *)
Definition _base_url (args : BenchArgs.t) : result string :=
  if String.eqb (BenchArgs.mode args) "direct" then
    if is_empty (BenchArgs.direct_base args)
    then Raise (RuntimeError "--mode direct requires --direct-base (e.g. http://host:8010)")
    else Ok (default "" (BenchArgs.direct_base args))
  else Ok (BenchArgs.api args).
Fixpoint mapM_ {A B} (f : A → M W B) (l : list A) : M W (list B) :=
  match l with [] => mret [] | x :: l => y ← f x; ys ← mapM_ f l; mret (y :: ys) end.
Definition run_cases (base_url : string) (args : BenchArgs.t) (cases : list Case.t) : M W (list (list RequestResult.t)) :=
  mapM_ (λ case, _run_case (chat base_url) (if BenchArgs.trace args then Some write_request else None) (BenchArgs.model args) case
                   (BenchArgs.repeats args) (BenchArgs.warmup args) (BenchArgs.duration args) (clock case).1 (clock case).2
                   (BenchArgs.max_tokens args)) cases.
Definition _main (args : BenchArgs.t) : M W Z :=
  base_url ← lift_result (_base_url args);
  if match BenchArgs.replay args with None => true | Some _ => false end
     && (BenchArgs.repeats args <=? 0) && Qle_bool (BenchArgs.duration args) 0 then mret 2
  else
    cases ← (if is_empty (BenchArgs.replay args) then
               built ← lift_result (build_cases filler_tokens (BenchArgs.scenario args) (BenchArgs.conc args) (BenchArgs.max_tokens args));
               run_cases base_url args built
             else
               text ← read (default "" (BenchArgs.replay args));
               entries ← lift_result (read_trace text);
               results ← _run_replay base_url (BenchArgs.model args) (BenchArgs.max_tokens args) entries;
               mret [results]);
    mret (bench_exit (BenchArgs.allow_errors args) cases).
End main.
End trace.

(** ** A recorded run, replayed *)
Section round_trip.
Context (fr : string → string) (Hfr : ∀ s, float_literal s → float_literal (fr s)) (float_int : string → result Z).
Notation path := "/v1/chat/completions".

(** The text a run leaves: a stamp and a case for each request it made. *)
Definition recorded (model : string) (runs : list (string * Case.t)) : string :=
  join "" (map (λ r, write_line fr r.1 "POST" path (trace_body model r.2)) runs).
(** What can be recorded: texts of code points, stamps that read as a number. *)
Definition recordable (model : string) (r : string * Case.t) : Prop :=
  text model ∧ Forall json_wf (Case.messages r.2) ∧ float_literal r.1.
Definition entry_of (model : string) (r : string * Case.t) (ts : Q) : TraceEntry.t :=
  TraceEntry.mk ts "POST" path (json_norm fr (JObj (trace_body model r.2))).

Lemma text_app s s' : text s → text s' → text (s +:+ s').
Proof. intros Hs Hs'. induction Hs as [|n s Hn Hs IH]; [done|]. rewrite append_assoc_str. by constructor. Qed.
Lemma read_entry_object line s m p kvs x :
  json_loads_str line = Some (JObj [("ts", JFloat s); ("method", JStr m); ("path", JStr p); ("body", JObj kvs)]) →
  py_float s = Some (Finite x) → read_entry fr line = Ok (TraceEntry.mk x m p (JObj kvs)).
Proof.
  intros El Ex. unfold read_entry. rewrite El. set (o := JObj [("ts", JFloat s); _; _; _]).
  change (sub "ts" o) with (Ok (JFloat s)). change (str_field fr "method" "POST" o) with (Ok m).
  change (str_field fr "path" path o) with (Ok p). change (get_ "body" o) with (Ok (Some (JObj kvs))).
  rewrite !result_bind_eq. cbn [json_float]. rewrite Ex, !result_bind_eq. by destruct kvs.
Qed.
Lemma write_line_read model r ts rest :
  recordable model r → py_float (dump_float fr r.1) = Some (Finite ts) →
  read_trace fr (write_line fr r.1 "POST" path (trace_body model r.2) +:+ rest) =
  (entries ← read_trace fr rest; Ok (entry_of model r ts :: entries)).
Proof.
  intros (Hm & Hc & Hs) Hts. unfold write_line. set (v := JObj _).
  assert (json_wf v) as Hw.
  { subst v. cbn. split; [vm_decide|]. split_and!; try done; try (by apply ascii_text); try vm_decide. by apply wf_list. }
  unfold read_trace. rewrite append_assoc_str. change (newline +:+ rest) with (String "010" rest).
  rewrite splitlines_plain by by apply compact_plain. cbn [read_lines_].
  assert (strip (json_compact fr v) = json_compact fr v) as -> by apply strip_braces.
  assert (String.eqb (json_compact fr v) "" = false) as -> by done.
  by rewrite (read_entry_object _ _ _ _ _ ts (json_compact_round_trip fr Hfr v Hw) Hts).
Qed.
(** The request an entry of a recorded run stands for. *)
Lemma replay_request_entry model r ts model' max_tokens :
  model ≠ "" →
  replay_request fr float_int model' max_tokens (entry_of model r ts) =
  Ok (model, map (json_norm fr) (Case.messages r.2),
      if Case.max_tokens r.2 =? 0 then max_tokens else Case.max_tokens r.2).
Proof.
  intros Hne. unfold replay_request. set (o := or_empty _ _).
  change (get_ "model" o) with (Ok (Some (JStr model))).
  change (get_ "messages" o) with (Ok (Some (JList (map (json_norm fr) (Case.messages r.2))))).
  change (get_ "max_tokens" o) with (Ok (Some (JInt (Case.max_tokens r.2)))). clear o.
  rewrite !result_bind_eq. assert (or_empty (Some (JStr model)) (JStr model') = JStr model) as ->.
  { unfold or_empty. cbn. by destruct (String.eqb_spec model ""). }
  assert (iterate (or_empty (Some (JList (map (json_norm fr) (Case.messages r.2)))) (JList [])) =
    Ok (map (json_norm fr) (Case.messages r.2))) as E by by destruct (map _ _).
  rewrite E, !result_bind_eq. unfold or_empty, json_truthy.
  by destruct (Case.max_tokens r.2 =? 0).
Qed.

End round_trip.

Definition sample_run : list (string * Case.t) :=
  [("1700000000.5", Case.mk "c0" [message "user" ("caf" +:+ utf8 233)] 128 1); ("1700000001.25", Case.mk "c1" [message "user" "b"] 0 4)].
