(* ===== verification/Report.v ===== *)
(** * The reports of the benchmark harness ([bench/bench/report.py], [parity.py],
    [coding.py], [__main__.py])

    Numbers as [f"{value:.1f}"] writes them, the markdown tables of a sweep, of the
    parity matrix and of the coding tasks, and the raw files they leave: one JSON line
    per request or cell.  Floats are the rationals they stand for, so a number is
    written from its exact value, halves going to the even neighbour. *)

From S2P Require Import Prelude PyStr Json JsonText Autoscaling Gateway Bench Coding Harness.
From Stdlib Require Import QArith Qround Qabs Lqa.
Local Open Scope Z_scope.

(** ** Numbers *)
(** The [k] last digits of a number. *)
Fixpoint last_digits (k : nat) (n : Z) (acc : string) : string :=
  match k with O => acc | S k => last_digits k (n `div` 10) (String (pretty_N_char (Z.to_N (n mod 10))) acc) end.
Definition scaled (digits : nat) (q : Q) : Z := round_half_even (q * inject_Z (10 ^ Z.of_nat digits)).
Definition fixed_magnitude (digits : nat) (q : Q) : string :=
  let n := scaled digits q in
  str_Z (n `div` 10 ^ Z.of_nat digits) +:+ match digits with O => "" | _ => String "." (last_digits digits n "") end.
(** [f"{q:.<digits>f}"] *)
Definition fixed (digits : nat) (q : Q) : string :=
  if Qle_bool 0 q then fixed_magnitude digits q else String "-" (fixed_magnitude digits (- q)).
(** [f"{q:.<digits>%}"] *)
Definition percent (digits : nat) (q : Q) : string := fixed digits (q * 100) +:+ "%".

Lemma round_half_even_near q : (Qabs (inject_Z (round_half_even q) - q) <= 1 # 2)%Q.
Proof.
  unfold round_half_even. pose proof (Qfloor_le q) as H1. pose proof (Qlt_floor q) as H2.
  rewrite inject_Z_plus in H2. change (inject_Z 1) with 1%Q in H2.
  assert (inject_Z (Qfloor q + 1) == inject_Z (Qfloor q) + 1)%Q as H3 by (rewrite inject_Z_plus; reflexivity).
  apply Qabs_Qle_condition. destruct (Qcompare_spec (q - inject_Z (Qfloor q)) (1 # 2)) as [E|E|E]; [destruct (Z.even _)|..]; split; lra.
Qed.
Lemma round_half_even_nonneg q : (0 <= q)%Q → 0 <= round_half_even q.
Proof.
  intros H. assert (0 <= Qfloor q) as Hf by (rewrite <-(Qfloor_Z 0); by apply Qfloor_resp_le).
  unfold round_half_even. destruct (_ ?= _)%Q; [destruct (Z.even _)|..]; lia.
Qed.
Lemma round_half_even_Z n : round_half_even (inject_Z n) = n.
Proof.
  unfold round_half_even. rewrite Qfloor_Z. destruct (Qcompare_spec (inject_Z n - inject_Z n) (1 # 2)) as [E|E|E]; [|done|]; exfalso; lra.
Qed.

(** Reading the digits back. *)
Lemma last_digit_bound n : (Z.to_N (n mod 10) < 10)%N.
Proof. pose proof (Z.mod_pos_bound n 10 ltac:(lia)). lia. Qed.
Lemma last_digits_form k n acc :
  forall_str is_digit (last_digits k n acc) = forall_str is_digit acc ∧
  String.length (last_digits k n acc) = (k + String.length acc)%nat.
Proof.
  revert n acc. induction k as [|k IH]; intros n acc; cbn [last_digits]; [done|].
  destruct (IH (n `div` 10) (String (pretty_N_char (Z.to_N (n mod 10))) acc)) as [-> ->].
  destruct (pretty_N_char_digit _ (last_digit_bound n)) as (_ & Hi & _). cbn [forall_str String.length]. rewrite Hi. split; [done|lia].
Qed.
Lemma last_digits_value k n acc a :
  digits_go 10 a true (last_digits k n acc) = digits_go 10 (a * 10 ^ Z.of_nat k + n mod 10 ^ Z.of_nat k) true acc.
Proof.
  revert n acc. induction k as [|k IH]; intros n acc; cbn [last_digits].
  - f_equal. change (10 ^ Z.of_nat 0) with 1. rewrite Z.mod_1_r. lia.
  - rewrite IH. destruct (pretty_N_char_digit _ (last_digit_bound n)) as (Hd & _ & Hu). cbn [digits_go]. rewrite Hu, Hd. f_equal.
    pose proof (Z.mod_pos_bound n 10 ltac:(lia)). rewrite Z2N.id by lia. rewrite Nat2Z.inj_succ, Z.pow_succ_r by lia.
    rewrite Z.rem_mul_r by lia. lia.
Qed.
Lemma digits_go_start a prev s :
  forall_str is_digit s = true → s ≠ "" → digits_go 10 a prev s = digits_go 10 a true s.
Proof.
  destruct s as [|c s]; [done|]. cbn [forall_str digits_go]. intros [Hc _]%andb_true_iff _.
  by destruct (Ascii.eqb_spec c "_") as [->|_].
Qed.
Lemma py_int_digits s :
  forall_str is_digit s = true → s ≠ "" → py_int s = digits_go 10 0 true s.
Proof.
  intros Hs Hne. unfold py_int, py_int_base. rewrite strip_id by (eapply forall_str_impl; [apply digit_not_space|done]).
  rewrite <-(digits_go_start 0 false) by done. destruct s as [|c s]; [done|]. cbn in Hs. apply andb_true_iff in Hs as [Hc _].
  destruct (Ascii.eqb_spec c "-") as [->|_]; [done|]. by destruct (Ascii.eqb_spec c "+") as [->|_].
Qed.
Lemma py_int_last_digits k n : py_int (last_digits (S k) n "") = Some (n mod 10 ^ Z.of_nat (S k)).
Proof.
  destruct (last_digits_form (S k) n "") as [Hd Hl]. rewrite py_int_digits; [|done|by intros E; rewrite E in Hl].
  rewrite last_digits_value. by cbn [digits_go].
Qed.

(** The number a magnitude stands for. *)
Lemma fixed_magnitude_value digits q :
  (0 <= q)%Q → ∃ x, decimal_value (fixed_magnitude digits q) = Some x ∧
    (x == inject_Z (scaled digits q) / inject_Z (10 ^ Z.of_nat digits))%Q.
Proof.
  intros Hq. unfold fixed_magnitude. assert (0 <= scaled digits q) as Hn.
  { apply round_half_even_nonneg, Qmult_le_0_compat; [done|]. change 0%Q with (inject_Z 0). rewrite <-Zle_Qle. lia. }
  set (n := scaled digits q) in *. set (p := 10 ^ Z.of_nat digits). assert (0 < p) as Hp by (unfold p; lia).
  assert (0 <= n `div` p) as Hdiv by (apply Z.div_pos; lia).
  assert (¬ inject_Z p == 0)%Q as Hp0 by (intros E; unfold Qeq in E; cbn in E; lia).
  unfold decimal_value. destruct digits as [|k].
  - rewrite append_nil_r, split1_None by (eapply forall_str_not_contains; [|by apply str_Z_digits]; done).
    rewrite str_Z_isdigit, py_int_str_Z by done. eexists. split; [done|]. change p with 1 in *. rewrite Z.div_1_r. field.
  - rewrite split1_app by (eapply forall_str_not_contains; [|by apply str_Z_digits]; done).
    destruct (str_Z_digits _ Hdiv) as [_ Hne]. rewrite (proj2 (String.eqb_neq _ _) Hne). cbn [andb].
    rewrite str_Z_isdigit, py_int_str_Z by done. cbn [mbind option_bind].
    destruct (last_digits_form (S k) n "") as [Hd Hl]. unfold frac_value.
    assert (last_digits (S k) n "" ≠ "") as Hl0 by (intros E; by rewrite E in Hl).
    rewrite (proj2 (String.eqb_neq _ _) Hl0). unfold isdigit. rewrite Hd, (proj2 (String.eqb_neq _ _) Hl0). cbn [negb andb].
    rewrite py_int_last_digits, Hl, Nat.add_0_r. cbn [mbind option_bind]. fold p. eexists. split; [done|].
    rewrite (Z.div_mod n p) at 3 by lia. rewrite inject_Z_plus, inject_Z_mult. field. done.
Qed.

Lemma fixed_magnitude_form digits q :
  (0 <= q)%Q → ∃ d s, fixed_magnitude digits q = String d s ∧ is_digit d = true ∧
    forall_str (λ c, is_digit c || Ascii.eqb c ".") (String d s) = true.
Proof.
  intros Hq. unfold fixed_magnitude. assert (0 <= scaled digits q) as Hn.
  { apply round_half_even_nonneg, Qmult_le_0_compat; [done|]. change 0%Q with (inject_Z 0). rewrite <-Zle_Qle. lia. }
  set (n := scaled digits q) in *. assert (0 <= n `div` 10 ^ Z.of_nat digits) as Hdiv by (apply Z.div_pos; lia).
  destruct (str_Z_digits _ Hdiv) as [Hd Hne].
  destruct (str_Z _) as [|d s]; [done|]. rewrite append_cons. exists d. eexists. split; [done|].
  assert (∀ s, forall_str is_digit s = true → forall_str (λ c, is_digit c || Ascii.eqb c ".") s = true) as Hall.
  { intros s' Hs'. eapply forall_str_impl; [|exact Hs']. intros c. by intros ->. }
  split; [by apply andb_true_iff in Hd as [? _]|]. rewrite <-append_cons, forall_str_app, (Hall (String d s)) by done.
  destruct digits as [|k]; [done|]. cbn [forall_str andb]. rewrite orb_true_r. apply Hall. by apply (last_digits_form (S k)).
Qed.
(** Such a text is plain: nothing of it is stripped or lowered. *)
Definition numeral (c : ascii) : bool := is_digit c || Ascii.eqb c ".".
Lemma numeral_cases c : numeral c = true → negb (is_space c) = true ∧ lower_char c = c ∧ Ascii.eqb c "e" = false.
Proof.
  unfold numeral. destruct (Ascii.eqb_spec c ".") as [->|_]; [done|]. rewrite orb_false_r. intros H.
  assert (c ∈ ["0";"1";"2";"3";"4";"5";"6";"7";"8";"9"]%char) as Hin.
  { revert H. destruct c as [[] [] [] [] [] [] [] []]; vm_compute; intros; try discriminate; set_solver. }
  repeat (apply elem_of_cons in Hin as [->|Hin]; [done|]). by apply elem_of_nil in Hin.
Qed.
Lemma py_float_numeral d s :
  is_digit d = true → forall_str numeral (String d s) = true →
  py_float (String d s) = Finite <$> decimal_value (String d s) ∧
  py_float (String "-" (String d s)) = (λ q, Finite (- q)) <$> decimal_value (String d s).
Proof.
  intros Hd Hs. assert (lower (String d s) = String d s) as Hl.
  { clear Hd. revert Hs. generalize (String d s). intros t. induction t as [|c t IH]; [done|]. cbn [forall_str]. intros [Hc Ht]%andb_true_iff.
    cbn. destruct (numeral_cases _ Hc) as (_ & -> & _). f_equal. by apply IH. }
  assert (forall_str (λ c, negb (is_space c)) (String d s) = true) as Hsp.
  { eapply forall_str_impl; [|exact Hs]. intros c Hc. by apply numeral_cases. }
  assert (contains_char "e" (String d s) = false) as He.
  { eapply forall_str_not_contains; [|exact Hs]. done. }
  assert (unsigned_float (String d s) = Finite <$> decimal_value (String d s)) as Hu.
  { unfold unsigned_float. rewrite split1_None by done.
    assert (String.eqb (String d s) "inf" = false ∧ String.eqb (String d s) "infinity" = false ∧ String.eqb (String d s) "nan" = false)
      as (-> & -> & ->) by (split_and!; apply String.eqb_neq; intros [= -> _]; done).
    done. }
  split.
  - unfold py_float. rewrite strip_id, Hl by done.
    destruct (Ascii.eqb_spec d "-") as [->|_]; [done|]. destruct (Ascii.eqb_spec d "+") as [->|_]; [done|]. exact Hu.
  - unfold py_float. rewrite strip_id by exact Hsp. change (lower (String "-" (String d s))) with (String "-" (lower (String d s))).
    rewrite Hl. cbn [Ascii.eqb]. change (Ascii.eqb "-" "-") with true. cbn iota. rewrite Hu. by destruct (decimal_value _).
Qed.

(** A printed number is the nearest to the printed precision: read back, it is a number
    that differs from the one written by at most half a unit of its last digit. *)
Theorem fixed_rounds digits q :
  ∃ x, py_float (fixed digits q) = Some (Finite x) ∧ (Qabs (x - q) <= (1 # 2) / inject_Z (10 ^ Z.of_nat digits))%Q.
Proof.
  assert (0 < inject_Z (10 ^ Z.of_nat digits))%Q as Hp by (change 0%Q with (inject_Z 0); rewrite <-Zlt_Qlt; lia).
  assert (∀ q x, (x == inject_Z (scaled digits q) / inject_Z (10 ^ Z.of_nat digits))%Q →
    (Qabs (x - q) <= (1 # 2) / inject_Z (10 ^ Z.of_nat digits))%Q) as Hnear.
  { intros r x ->. unfold scaled. set (p := inject_Z (10 ^ Z.of_nat digits)) in *. pose proof (round_half_even_near (r * p)) as H.
    set (n := inject_Z (round_half_even (r * p))) in *.
    assert (n / p - r == (n - r * p) / p)%Q as -> by (field; lra). unfold Qdiv. rewrite Qabs_Qmult.
    rewrite (Qabs_pos (/ p)) by (apply Qlt_le_weak, Qinv_lt_0_compat; done).
    apply Qmult_le_compat_r; [done|]. by apply Qlt_le_weak, Qinv_lt_0_compat. }
  unfold fixed. destruct (Qle_bool 0 q) eqn:E.
  - apply Qle_bool_iff in E. destruct (fixed_magnitude_form digits q E) as (d & s & Hf & Hd & Hs).
    destruct (fixed_magnitude_value digits q E) as (x & Hx & Heq). rewrite Hf in *. destruct (py_float_numeral d s Hd Hs) as [-> _].
    rewrite Hx. exists x. split; [done|]. by apply Hnear.
  - assert (0 <= - q)%Q as Hq. { destruct (Qlt_le_dec q 0) as [H|H%Qle_bool_iff]; [lra|congruence]. }
    destruct (fixed_magnitude_form digits (- q) Hq) as (d & s & Hf & Hd & Hs).
    destruct (fixed_magnitude_value digits (- q) Hq) as (x & Hx & Heq). rewrite Hf in *. destruct (py_float_numeral d s Hd Hs) as [_ ->].
    rewrite Hx. exists (- x)%Q. split; [done|]. specialize (Hnear _ _ Heq).
    assert (- x - q == - (x - - q))%Q as -> by ring. by rewrite Qabs_opp.
Qed.

(** Halves go to the even neighbour; a fraction keeps its zeros. *)
Lemma fixed_examples :
  fixed 1 (1 # 4) = "0.2" ∧ fixed 1 (3 # 4) = "0.8" ∧ fixed 0 (5 # 2) = "2" ∧ fixed 2 (100001 # 1000) = "100.00" ∧
  fixed 2 (- (1 # 3)) = "-0.33" ∧ percent 1 (1 # 64) = "1.6%".
Proof. by vm_compute. Qed.

(** ** Tables *)
Definition BAR : ascii := "|".
Definition NL : ascii := "010".
(** A row of a table, a document of lines. *)
Definition table_row (cells : list string) : string := "| " +:+ join " | " cells +:+ " |".
Definition document (lines : list string) : string := join (String NL "") lines.

(** Text that can stand in a cell, and the bars of a line. *)
Definition cell_char (c : ascii) : bool := negb (Ascii.eqb BAR c) && negb (Ascii.eqb NL c).
Definition clean (s : string) : bool := forall_str cell_char s.
Definition bars (s : string) : Z := count_char BAR s.
Definition line (s : string) : bool := negb (contains_char NL s).

Lemma bars_app s t : bars (s +:+ t) = bars s + bars t.
Proof. unfold bars. induction s as [|c s IH]; [done|]. rewrite append_cons. cbn [count_char]. rewrite IH. lia. Qed.
Lemma clean_bars s : clean s = true → bars s = 0 ∧ line s = true.
Proof.
  unfold clean, line, bars. induction s as [|c s IH]; [done|]. cbn [forall_str count_char contains_char]. unfold cell_char at 1.
  intros [[Hb Hn]%andb_true_iff Hs]%andb_true_iff. apply negb_true_iff in Hb, Hn. destruct (IH Hs) as [-> Hl].
  rewrite Hb, Hn. done.
Qed.
Lemma line_app s t : line (s +:+ t) = line s && line t.
Proof. unfold line. by rewrite contains_char_app, negb_orb. Qed.
Lemma clean_app s t : clean (s +:+ t) = clean s && clean t.
Proof. apply forall_str_app. Qed.
Lemma join_cons2 sep x y l : join sep (x :: y :: l) = x +:+ sep +:+ join sep (y :: l).
Proof. done. Qed.
(** A row of clean cells is one line with a bar around each cell. *)
Lemma table_row_spec cells :
  cells ≠ [] → Forall (λ s, clean s = true) cells → bars (table_row cells) = Z.of_nat (S (length cells)) ∧ line (table_row cells) = true.
Proof.
  intros Hne H. unfold table_row. rewrite !bars_app, !line_app.
  enough (bars (join " | " cells) = Z.of_nat (pred (length cells)) ∧ line (join " | " cells) = true) as [-> ->].
  { destruct cells as [|x l]; [done|]. cbn [length pred]. change (bars "| ") with 1. change (bars " |") with 1. split; [lia|done]. }
  clear Hne. induction H as [|x l Hx Hl IH]; [done|]. destruct (clean_bars _ Hx) as [Hb Hn]. destruct l as [|y l]; [by cbn [join]|].
  rewrite join_cons2, !bars_app, !line_app. destruct IH as [-> ->]. rewrite Hb, Hn. change (bars " | ") with 1. cbn [length pred]. split; [lia|done].
Qed.
(** A document is its lines. *)
Lemma split_document lines : lines ≠ [] → Forall (λ s, line s = true) lines → PyStr.split NL (document lines) = lines.
Proof.
  assert (∀ s, line s = true → PyStr.split NL s = [s]) as Hone.
  { unfold line. induction s as [|c s IH]; [done|]. cbn [contains_char PyStr.split]. intros H%negb_true_iff.
    apply orb_false_iff in H as [-> H]. rewrite IH by by rewrite H. done. }
  assert (∀ s t, line s = true → PyStr.split NL (s +:+ String NL t) = s :: PyStr.split NL t) as Happ.
  { unfold line. induction s as [|c s IH]; intros t; [done|]. rewrite append_cons. cbn [contains_char PyStr.split].
    intros H%negb_true_iff. apply orb_false_iff in H as [-> H]. rewrite IH by by rewrite H. done. }
  intros Hne H. unfold document. induction H as [|x l Hx Hl IH]; [done|]. destruct l as [|y l]; [by apply Hone|].
  rewrite join_cons2. change (String NL "" +:+ ?t) with (String NL t). rewrite Happ by done. by rewrite IH.
Qed.

(** Numbers are clean. *)
Lemma clean_digits s : forall_str is_digit s = true → clean s = true.
Proof.
  apply forall_str_impl. intros c H. unfold cell_char.
  assert (BAR ≠ c ∧ NL ≠ c) as [?%Ascii.eqb_neq ?%Ascii.eqb_neq] by (split; intros <-; discriminate).
  rewrite andb_true_iff, !negb_true_iff. done.
Qed.
Lemma clean_nat n : 0 <= n → clean (str_Z n) = true.
Proof. intros. by apply clean_digits, str_Z_digits. Qed.
Lemma clean_fixed digits q : clean (fixed digits q) = true.
Proof.
  assert (∀ r, (0 <= r)%Q → clean (fixed_magnitude digits r) = true) as Hm.
  { intros r (d & s & -> & _ & H)%(fixed_magnitude_form digits). eapply forall_str_impl; [|exact H]. intros c.
    rewrite orb_true_iff. intros [Hc|Hc%Ascii.eqb_eq]; [|by subst c]. 
    assert (BAR ≠ c ∧ NL ≠ c) as [?%Ascii.eqb_neq ?%Ascii.eqb_neq] by (split; intros <-; discriminate).
    unfold cell_char. rewrite andb_true_iff, !negb_true_iff. done. }
  unfold fixed. destruct (Qle_bool 0 q) eqn:E; [apply Hm; by apply Qle_bool_iff|]. unfold clean. cbn [forall_str]. apply Hm.
  destruct (Qlt_le_dec q 0) as [H|H%Qle_bool_iff]; [lra|congruence].
Qed.

(** ** The report of a sweep ([report.py]) *)
(** A [CaseResult]: its label and its results. *)
Definition case_result : Type := string * list RequestResult.t.
Inductive number := NInt (n : Z) | NFloat (q : Q).
Definition _fmt (value : option number) (digits : nat) : string :=
  match value with
  | None => "—"
  | Some (NInt n) => str_Z n
  | Some (NFloat q) => fixed digits q
  end.
Definition fmt_float (digits : nat) (q : option Q) : string := _fmt (NFloat <$> q) digits.
Definition case_cells (case : case_result) : list string :=
  let s := summary case.2 in
  [case.1; _fmt (Some (NInt (Summary.requests s))) 1; _fmt (Some (NInt (Summary.errors s))) 1;
   fmt_float 1 (Summary.ttft_p50_ms s); fmt_float 1 (Summary.ttft_p95_ms s); fmt_float 1 (Summary.ttft_p99_ms s);
   fmt_float 1 (Summary.e2e_p50_ms s); fmt_float 1 (Summary.e2e_p95_ms s); fmt_float 2 (Summary.itl_p95_ms s);
   fmt_float 1 (Summary.mean_tps s)].
Definition sweep_table : list string :=
  ["| case | requests | errors | TTFT p50 (ms) | TTFT p95 (ms) | TTFT p99 (ms) | e2e p50 (ms) | e2e p95 (ms) | ITL p95 (ms) | mean tok/s |";
   "|---|---|---|---|---|---|---|---|---|---|"].
Definition sweep_preamble (scenario mode base_url environment : string) : list string :=
  ["# Benchmark — " +:+ scenario +:+ " (" +:+ mode +:+ ")"; ""; "- target: `" +:+ base_url +:+ "`";
   "- environment: **" +:+ environment +:+ "**"; ""].
Definition render_markdown (cases : list case_result) (scenario mode base_url environment : string) : string :=
  document (sweep_preamble scenario mode base_url environment ++ sweep_table ++ map (λ case, table_row (case_cells case)) cases).

(** [repr]: the literal of a float. *)
Section json.
Context (fr : string → string) (repr : Q → string).
Definition json_of_float (q : option Q) : json := match q with Some q => JFloat (repr q) | None => JNull end.
Definition summary_json (s : Summary.t) : json :=
  JObj [("requests", JInt (Summary.requests s)); ("errors", JInt (Summary.errors s));
        ("ttft_p50_ms", json_of_float (Summary.ttft_p50_ms s)); ("ttft_p95_ms", json_of_float (Summary.ttft_p95_ms s));
        ("ttft_p99_ms", json_of_float (Summary.ttft_p99_ms s)); ("e2e_p50_ms", json_of_float (Summary.e2e_p50_ms s));
        ("e2e_p95_ms", json_of_float (Summary.e2e_p95_ms s)); ("itl_p95_ms", json_of_float (Summary.itl_p95_ms s));
        ("mean_tps", json_of_float (Summary.mean_tps s))].
Definition render_json (cases : list case_result) : json :=
  JObj [("cases", JList (map (λ case, JObj [("label", JStr case.1); ("summary", summary_json (summary case.2))]) cases))].

(** *** The raw results ([_write_raw]) *)
Definition raw_row (label : string) (index : nat) (r : RequestResult.t) : json :=
  JObj [("case", JStr label); ("index", JInt (Z.of_nat index)); ("status", JInt (RequestResult.status r));
        ("ttft_ms", json_of_float (RequestResult.ttft_ms r)); ("e2e_ms", JFloat (repr (RequestResult.e2e_ms r)));
        ("itl_ms", JList (map (λ q, JFloat (repr q)) (RequestResult.itl_ms r)));
        ("prompt_tokens", default JNull (RequestResult.prompt_tokens r));
        ("completion_tokens", default JNull (RequestResult.completion_tokens r));
        ("error", match RequestResult.error r with Some e => JStr e | None => JNull end)].
Definition raw_rows (cases : list case_result) : list json := flat_map (λ case, imap (raw_row case.1) case.2) cases.
Definition _write_raw (cases : list case_result) : string := json_lines fr (raw_rows cases).

(** *** The cells of the matrix, and the recorded baseline ([parity.py]) *)
Definition json_of_value (v : Bench.value) : json :=
  match v with Bench.VStr s => JStr s | Bench.VInt n => JInt n | Bench.VFloat q => json_of_float q end.
Definition cell_json (c : Cell.t) : json := JObj (map (λ kv, (kv.1, json_of_value kv.2)) (Bench.as_dict c)).
Definition write_cells (cells : list Cell.t) : string := json_lines fr (map cell_json cells).
Definition baseline_file (baseline : option Cell.t) : string :=
  match baseline with Some c => json_lines fr [cell_json c] | None => "" end.
(** [Cell( ** json.loads(line))] of the first line that is not blank: the keywords it is
    given. *)
Fixpoint read_baseline (lines : list string) : result (option (list (string * json))) :=
  match lines with
  | [] => Ok None
  | l :: lines =>
      if String.eqb (strip l) "" then read_baseline lines
      else match json_loads_str l with
           | Some (JObj kvs) => _ ← accepts_keywords kvs; Ok (Some kvs)
           | Some _ => Raise TypeError
           | None => Raise json_decode_error
           end
  end.
End json.

(** ** The parity matrix *)
Definition _ms (value : option Q) : string := match value with None => "—" | Some q => fixed 1 q end.
Definition coefficient (value : option Q) : string := match value with None => "—" | Some q => fixed 2 q end.
Definition or_zero (value : option Q) : Q := default 0%Q value.
(** The text of a reason; [r_tps], [r_p95]: the ratios. *)
Definition reason_text (cell : Cell.t) (r : option Q * option Q) (why : reason) : string :=
  match why with
  | NotOnHardware => "measured on `" +:+ Cell.environment cell +:+ "`, not on hardware — not a verdict"
  | ErrorRate => "error rate " +:+ percent 1 (Cell.error_rate cell) +:+ " above 0.1%"
  | NoTtft => "no TTFT measured"
  | TtftAbove => "TTFT p95 " +:+ fixed 0 (or_zero (Cell.ttft_p95_ms cell)) +:+ " ms above " +:+ fixed 0 TTFT_P95_COLD_MS +:+ " ms"
  | ItlAbove => "ITL p95 " +:+ fixed 0 (or_zero (Cell.itl_p95_ms cell)) +:+ " ms above " +:+ fixed 0 Bench.ITL_P95_MS +:+ " ms"
  | TooSlow => fixed 1 (or_zero (Cell.tokens_per_second cell)) +:+ " tok/s below " +:+ fixed 0 Bench.MIN_TOKENS_PER_SECOND +:+ " tok/s"
  | RTpsBelow => "R_tps " +:+ fixed 2 (or_zero r.1) +:+ " below " +:+ fixed 2 R_TPS_MIN
  | RP95Above => "R_p95 " +:+ fixed 2 (or_zero r.2) +:+ " above " +:+ fixed 2 R_P95_MAX
  end.
Definition cell_cells (baseline : option Cell.t) (cell : Cell.t) : list string :=
  let r := match baseline with Some b => ratios cell b | None => (None, None) end in
  let '(state, reasons) := verdict cell baseline in
  let note := match reasons with [] => "" | _ => " (" +:+ join "; " (map (reason_text cell r) reasons) +:+ ")" end in
  [Cell.configuration cell; Cell.environment cell; str_Z (Cell.nodes cell) +:+ "×" +:+ str_Z (Cell.gpus cell); Cell.mode cell;
   _ms (Cell.ttft_p50_ms cell); _ms (Cell.ttft_p95_ms cell); _ms (Cell.itl_p95_ms cell); _ms (Cell.tokens_per_second cell);
   str_Z (Cell.errors cell) +:+ "/" +:+ str_Z (Cell.requests cell); coefficient r.1; coefficient r.2; state +:+ note].
Definition parity_table : list string :=
  ["| configuration | env | nodes×gpus | mode | TTFT p50 | TTFT p95 | ITL p95 | tok/s | errors | R_tps | R_p95 | verdict |";
   "|---|---|---|---|---|---|---|---|---|---|---|---|"].
Definition render (cells : list Cell.t) (baseline : option Cell.t) : string :=
  document (parity_table ++ map (λ cell, table_row (cell_cells baseline cell)) cells).

(** ** The coding tasks *)
Definition TTFT_P95_MS : Q := 1000.
Definition ITL_P95_MS : Q := 50.
Definition MIN_TOKENS_PER_SECOND : Q := 20.
(** [f"{tokens / seconds:.1f}"] of the tokens an engine reported. *)
Definition rate (v : json) (seconds : Q) : result string :=
  match v with
  | JInt n => Ok (fixed 1 (inject_Z n / seconds))
  | JBool b => Ok (fixed 1 (inject_Z (int_of_bool b) / seconds))
  | JFloat s =>
      Ok match py_float s with
         | Some (Finite q) => fixed 1 (q / seconds)
         | Some Infinite => if startswith "-" s then "-inf" else "inf"
         | _ => "nan"
         end
  | _ => Raise TypeError
  end.
Definition task_tps (r : RequestResult.t) : result string :=
  match RequestResult.generation_ms r with
  | None => Ok "—"
  | Some window_ms =>
      if negb (Qle_bool 1 window_ms) then Ok "—"
      else match RequestResult.completion_tokens r with
           | None => Ok "—"
           | Some v => if json_truthy v then rate v (window_ms / 1000) else Ok "—"
           end
  end.
Definition task_row (o : TaskOutcome.t) : result string :=
  let r := TaskOutcome.result o in
  let ttft := match RequestResult.ttft_ms r with None => "—" | Some q => fixed 0 q end in
  tps ← task_tps r;
  Ok (table_row [Task.id (TaskOutcome.task o); if TaskOutcome.passed o then "pass" else "fail"; TaskOutcome.reason o; ttft; tps]).
Definition coding_head (outcomes : list TaskOutcome.t) (environment model : string) : list string :=
  ["# Coding validation — " +:+ model; ""; "- environment: **" +:+ environment +:+ "**";
   "- passed: **" +:+ str_Z (Z.of_nat (passed_count outcomes)) +:+ "/" +:+ str_Z (Z.of_nat (length outcomes)) +:+ "**"; "";
   "| task | result | reason | TTFT (ms) | tok/s |"; "|---|---|---|---|---|"].
Definition coding_tail (outcomes : list TaskOutcome.t) (environment : string) : list string :=
  [""; "TTFT p95 (approx): " +:+ match by_p95 RequestResult.ttft_ms outcomes with None => "—" | Some q => fixed 0 q +:+ " ms" end; "";
   "Thresholds (§5): TTFT p95 ≤ " +:+ fixed 0 TTFT_P95_MS +:+ " ms, ITL p95 ≤ " +:+ fixed 0 ITL_P95_MS +:+ " ms, ≥ "
   +:+ fixed 0 MIN_TOKENS_PER_SECOND +:+ " tok/s."]
  ++ if String.eqb environment "hardware" then []
     else [String NL ("**Not a verdict**: measured on `" +:+ environment +:+ "`, so this run proves the harness and the checks work, nothing about a configuration.")].
Definition render_coding (outcomes : list TaskOutcome.t) (environment model : string) : result string :=
  rows ← mapR task_row outcomes;
  Ok (document (coding_head outcomes environment model ++ rows ++ coding_tail outcomes environment)).

(** ** Properties *)
Lemma clean_fmt value digits : match value with Some (NInt n) => 0 <= n | _ => True end → clean (_fmt value digits) = true.
Proof. destruct value as [[n|q]|]; [apply clean_nat|intros _; apply clean_fixed|done]. Qed.
Lemma clean_float digits q : clean (fmt_float digits q) = true.
Proof. apply clean_fmt. by destruct q. Qed.
Lemma clean_ms q : clean (_ms q) = true ∧ clean (coefficient q) = true.
Proof. destruct q; [split; apply clean_fixed|done]. Qed.
Lemma errors_nonneg results : 0 <= Summary.errors (summary results).
Proof. unfold summary, ok_results. cbn. pose proof (where_length RequestResult.ok results). lia. Qed.
#[local] Hint Resolve clean_float clean_fixed clean_nat errors_nonneg : core.

(** The rows of a table, and its lines: each has a bar around each of its columns. *)
Definition table_of (columns : nat) (lines : list string) : Prop :=
  Forall (λ l, line l = true ∧ bars l = Z.of_nat (S columns)) lines.
Lemma table_rows {A} (cells : A → list string) columns (l : list A) :
  (0 < columns)%nat → Forall (λ x, length (cells x) = columns ∧ Forall (λ s, clean s = true) (cells x)) l →
  table_of columns (map (λ x, table_row (cells x)) l).
Proof.
  intros Hc H. unfold table_of. rewrite List.Forall_map. eapply Forall_impl; [exact H|]. intros x [<- Hx].
  destruct (table_row_spec (cells x)) as [Hb Hl]; [intros E; rewrite E in Hc; cbn in Hc; lia|done|]. done.
Qed.
Lemma table_lines columns l : table_of columns l → Forall (λ s, line s = true) l.
Proof. intros H. eapply Forall_impl; [exact H|]. by intros s []. Qed.
Lemma case_cells_clean case : clean case.1 = true → length (case_cells case) = 10%nat ∧ Forall (λ s, clean s = true) (case_cells case).
Proof.
  intros H. split; [done|]. unfold case_cells. rewrite !Forall_cons. split_and!; auto.
  - apply clean_fmt. cbn. lia.
  - by apply clean_fmt.
Qed.

(** The report of a sweep is its heading and one table: whatever was measured, a row of
    ten columns per case, in order, under a header of as many. *)
Theorem render_markdown_table cases scenario mode base_url environment :
  Forall (λ s, line s = true) [scenario; mode; base_url; environment] → Forall (λ case, clean case.1 = true) cases →
  PyStr.split NL (render_markdown cases scenario mode base_url environment) =
    sweep_preamble scenario mode base_url environment ++ sweep_table ++ map (λ case, table_row (case_cells case)) cases ∧
  table_of 10 (sweep_table ++ map (λ case, table_row (case_cells case)) cases).
Proof.
  intros Hh Hc. assert (table_of 10 (sweep_table ++ map (λ case, table_row (case_cells case)) cases)) as Ht.
  { apply Forall_app. split; [vm_decide|]. apply table_rows; [lia|]. eapply Forall_impl; [exact Hc|]. intros case. apply case_cells_clean. }
  split; [|done]. apply split_document; [done|]. apply Forall_app. split; [|by eapply table_lines].
  rewrite !Forall_cons in Hh. destruct Hh as (H1 & H2 & H3 & H4 & _). unfold sweep_preamble. rewrite !Forall_cons, !line_app, H1, H2, H3, H4.
  split_and!; done.
Qed.

(** The matrix: a row of twelve columns per cell, with the reasons of its verdict. *)
Lemma clean_join sep l : clean sep = true → Forall (λ s, clean s = true) l → clean (join sep l) = true.
Proof.
  intros Hs H. induction H as [|x l Hx Hl IH]; [done|]. destruct l as [|y l]; [done|]. by rewrite join_cons2, !clean_app, Hx, Hs, IH.
Qed.
Lemma clean_reason cell r why : clean (Cell.environment cell) = true → clean (reason_text cell r why) = true.
Proof. intros He. destruct why; unfold reason_text, percent; rewrite ?clean_app, ?clean_fixed, ?He; done. Qed.
Definition presentable (cell : Cell.t) : Prop :=
  clean (Cell.configuration cell) = true ∧ clean (Cell.environment cell) = true ∧ clean (Cell.mode cell) = true ∧
  0 <= Cell.nodes cell ∧ 0 <= Cell.gpus cell ∧ 0 <= Cell.errors cell ∧ 0 <= Cell.requests cell.
Lemma verdict_clean cell baseline : clean (verdict cell baseline).1 = true.
Proof. unfold verdict. cbn [fst]. by destruct (negb _); [|destruct (_ ++ _)]. Qed.
Lemma cell_cells_clean baseline cell :
  presentable cell → length (cell_cells baseline cell) = 12%nat ∧ Forall (λ s, clean s = true) (cell_cells baseline cell).
Proof.
  intros (Hc & He & Hm & Hn & Hg & Her & Hr). unfold cell_cells. pose proof (verdict_clean cell baseline) as Hv.
  destruct (verdict cell baseline) as [state reasons]. cbn [fst] in Hv. split; [done|].
  rewrite !Forall_cons, !clean_app, !clean_nat by done. split_and!; try done; try apply clean_ms. rewrite Hv.
  destruct reasons as [|why reasons]; [done|]. rewrite !clean_app, clean_join; [done|done|].
  rewrite Forall_map. apply Forall_forall. intros. by apply clean_reason.
Qed.
Theorem render_table cells baseline :
  Forall presentable cells →
  PyStr.split NL (render cells baseline) = parity_table ++ map (λ cell, table_row (cell_cells baseline cell)) cells ∧
  table_of 12 (parity_table ++ map (λ cell, table_row (cell_cells baseline cell)) cells).
Proof.
  intros Hp. assert (table_of 12 (parity_table ++ map (λ cell, table_row (cell_cells baseline cell)) cells)) as Ht.
  { apply Forall_app. split; [vm_decide|]. apply table_rows; [lia|]. eapply Forall_impl; [exact Hp|]. intros cell. apply cell_cells_clean. }
  split; [|done]. apply split_document; [done|]. by eapply table_lines.
Qed.

(** *** What is written is read back *)
Section raw.
Context (fr : string → string) (repr : Q → string).
Context (Hfr : ∀ s, float_literal s → float_literal (fr s)) (Hrepr : ∀ q, float_literal (repr q)).
Lemma wf_float q : json_wf (json_of_float repr q).
Proof. destruct q; [apply Hrepr|done]. Qed.
Ltac wf_fields := repeat (apply Forall_cons_2; [split; [by apply ascii_text|cbn [snd]]|]); [..|by apply Forall_nil_2].

(** What a result must be for its row to be one: its tokens and its error are text. *)
Definition writable_result (r : RequestResult.t) : Prop :=
  json_wf (default JNull (RequestResult.prompt_tokens r)) ∧ json_wf (default JNull (RequestResult.completion_tokens r)) ∧
  match RequestResult.error r with Some e => text e | None => True end.
Lemma raw_row_wf label index r : text label → writable_result r → json_wf (raw_row repr label index r).
Proof.
  intros Hl (Hp & Hc & He). unfold raw_row. apply wf_obj; [vm_decide|]. wf_fields; try done; try apply wf_float.
  - apply Hrepr.
  - apply wf_list. rewrite List.Forall_map. apply List.Forall_forall. intros q _. apply Hrepr.
  - by destruct (RequestResult.error r).
Qed.
Lemma raw_rows_wf cases :
  Forall (λ case, text case.1 ∧ Forall writable_result case.2) cases → Forall json_wf (raw_rows repr cases).
Proof.
  intros H. unfold raw_rows. apply Forall_flat_map. eapply Forall_impl; [exact H|]. intros [label results] [Hl Hr]. cbn [fst snd] in *.
  apply Forall_lookup. intros k v. rewrite list_lookup_imap. intros (r & Hk & ->)%fmap_Some. apply raw_row_wf; [done|].
  exact (Forall_lookup_1 _ _ _ _ Hr Hk).
Qed.
(** The raw file holds every request of the run: a line per result, case by case in the
    order of the run, and each line is read back as the row of its result. *)
Theorem raw_results_read_back cases :
  Forall (λ case, text case.1 ∧ Forall writable_result case.2) cases →
  map json_loads_str (splitlines (_write_raw fr repr cases)) = map (λ row, Some (json_norm fr row)) (raw_rows repr cases) ∧
  length (raw_rows repr cases) = sum_list (map (λ case, length case.2) cases).
Proof.
  intros H. split; [by apply json_lines_read_back, raw_rows_wf|]. clear H. unfold raw_rows. induction cases as [|case cases IH]; [done|].
  cbn [flat_map map]. by rewrite length_app, length_imap, IH.
Qed.

(** A recorded baseline is never read: the one line of the file parses, and its
    [error_rate] is no field of a cell. *)
Definition writable_cell (c : Cell.t) : Prop := text (Cell.configuration c) ∧ text (Cell.mode c) ∧ text (Cell.environment c).
Lemma cell_json_wf c : writable_cell c → json_wf (cell_json repr c).
Proof. intros (Hc & Hm & He). unfold cell_json. apply wf_obj; [vm_decide|]. cbn [map Bench.as_dict json_of_value fst snd]. wf_fields; try done; try apply wf_float. Qed.
Theorem baseline_never_read c :
  writable_cell c → read_baseline (splitlines (baseline_file fr repr (Some c))) = Raise TypeError.
Proof.
  intros Hc%cell_json_wf. cbn [baseline_file]. unfold json_lines. cbn [map join]. set (v := cell_json repr c) in *.
  rewrite splitlines_plain by by apply compact_plain. cbn [read_baseline].
  assert (strip (json_compact fr v) = json_compact fr v) as -> by apply strip_braces.
  assert (String.eqb (json_compact fr v) "" = false) as -> by done. by rewrite json_compact_round_trip.
Qed.
End raw.

(** An error page breaks the table of the coding tasks: the body of a refused request is
    in the reason as it came, line breaks included. *)
Lemma error_page_breaks_row task started finished :
  ∃ r, chat_outcome started finished (Answer.Refused 502 ("<html>" +:+ String NL "</html>")) = Ok r ∧
    ∃ row, task_row (TaskOutcome.mk task false ("request failed: " +:+ failure r) r "") = Ok row ∧ line row = false.
Proof.
  eexists. split; [reflexivity|]. eexists. split; [reflexivity|]. unfold table_row.
  rewrite !line_app. cbn [TaskOutcome.task TaskOutcome.reason join]. rewrite !line_app. change (line (failure _)) with false.
  by rewrite !andb_false_r.
Qed.
