(* ===== verification/Responses.v ===== *)
(** * Response bodies ([server/inferna_server/schemas.py])

    What the read endpoints answer with: each response schema as a record of its
    fields, and the columns of the row it selects ([from_attributes]).  [updated_at],
    [params_b] and the autoincrement key of a GPU are not columns of the model and
    are left out here too. *)

From S2P Require Import Prelude PyStr Models Schemas Instances Accounts Catalog.
Local Open Scope Z_scope.

Module TokenResponse.
Record t := mk { access_token : string; token_type : string }.
End TokenResponse.
Module UserOut.
Record t := mk {
  id : uuid; username : string; email : option string; role : string; is_active : bool; token_limit : option Z;
  request_limit : option Z }.
Definition view (u : User.t) : t :=
  mk (User.id u) (User.username u) (User.email u) (User.role u) (User.is_active u) (User.token_limit u) (User.request_limit u).
End UserOut.
Module ApiKeyOut.
Record t := mk {
  id : uuid; user_id : uuid; name : string; scopes : list string; created_at : datetime; last_used_at : option datetime;
  revoked_at : option datetime }.
Definition view (k : ApiKey.t) : t :=
  mk (ApiKey.id k) (ApiKey.user_id k) (ApiKey.name k) (ApiKey.scopes k) (ApiKey.created_at k) (ApiKey.last_used_at k)
     (ApiKey.revoked_at k).
End ApiKeyOut.
(** With the plaintext, on creation only. *)
Module ApiKeySecretOut.
Record t := mk { base : ApiKeyOut.t; key : string }.
Definition view (created : ApiKey.t * string) : t := mk (ApiKeyOut.view created.1) created.2.
End ApiKeySecretOut.
Module ClusterOut.
Record t := mk { id : uuid; name : string; description : option string; created_at : datetime }.
Definition view (c : Cluster.t) : t := mk (Cluster.id c) (Cluster.name c) (Cluster.description c) (Cluster.created_at c).
End ClusterOut.
Module GPUOut.
Record t := mk {
  index : Z; vendor : string; name : string; vram_mb : Z; used_vram_mb : Z; utilization_pct : Z; gpu_uuid : option string;
  driver_version : option string }.
Definition view (g : WorkerGPU.t) : t :=
  mk (WorkerGPU.index g) (WorkerGPU.vendor g) (WorkerGPU.name g) (WorkerGPU.vram_mb g) (WorkerGPU.used_vram_mb g)
     (WorkerGPU.utilization_pct g) (WorkerGPU.gpu_uuid g) (WorkerGPU.driver_version g).
End GPUOut.
Module ModelOut.
Record t := mk {
  id : uuid; name : string; display_name : string; category : string; description : option string; vram_required_mb : Z;
  requires_hf_token : bool; license : option string; is_builtin : bool; supported_engines : list string }.
Definition view (m : Model.t) : t :=
  mk (Model.id m) (Model.name m) (Model.display_name m) (Model.category m) (Model.description m) (Model.vram_required_mb m)
     (Model.requires_hf_token m) (Model.license m) (Model.is_builtin m) (Model.supported_engines m).
End ModelOut.
Module InstanceOut.
Record t := mk {
  id : uuid; deployment_id : uuid; model_id : uuid; cluster_id : uuid; worker_id : option uuid; engine : string;
  profile : string; gpu_indexes : list Z; state : string; desired_state : string; generation : Z; port : option Z;
  error_detail : option string; parallel_group_id : option uuid; node_rank : option Z; world_size : option Z;
  parallel_mode : option string; rendezvous : option string; created_at : datetime; model : option ModelOut.t;
  worker_name : option string }.
(** A row with the name of its worker, as the handlers return it. *)
Definition view (d : Db.t) (iw : ModelInstance.t * option string) : t :=
  let i := iw.1 in
  mk (ModelInstance.id i) (ModelInstance.deployment_id i) (ModelInstance.model_id i) (ModelInstance.cluster_id i)
     (ModelInstance.worker_id i) (ModelInstance.engine i) (ModelInstance.profile i) (ModelInstance.gpu_indexes i)
     (ModelInstance.state i) (ModelInstance.desired_state i) (ModelInstance.generation i) (ModelInstance.port i)
     (ModelInstance.error_detail i) (ModelInstance.parallel_group_id i) (ModelInstance.node_rank i)
     (ModelInstance.world_size i) (ModelInstance.parallel_mode i) (ModelInstance.rendezvous i) (ModelInstance.created_at i)
     (ModelOut.view <$> find_model d (ModelInstance.model_id i)) iw.2.
End InstanceOut.
Module WorkerOut.
Record t := mk {
  id : uuid; cluster_id : uuid; name : string; hostname : string; state : string; version : option string;
  os : option string; cpu_cores : option Z; memory_mb : option Z; last_seen_at : option datetime; gpus : list GPUOut.t;
  instances : list InstanceOut.t }.
Definition view (d : Db.t) (row : Worker.t * list WorkerGPU.t * list (ModelInstance.t * option string)) : t :=
  let '(w, gpus, rows) := row in
  mk (Worker.id w) (Worker.cluster_id w) (Worker.name w) (Worker.hostname w) (Worker.state w) (Worker.version w) (Worker.os w)
     (Worker.cpu_cores w) (Worker.memory_mb w) (Worker.last_seen_at w) (map GPUOut.view gpus) (map (InstanceOut.view d) rows).
End WorkerOut.
Module DeploymentOut.
Record t := mk {
  id : uuid; model_id : uuid; cluster_id : uuid; engine : string; profile : string; min_replicas : Z; max_replicas : Z;
  nodes_per_replica : Z; parallel_mode : option string; created_at : datetime; model : option ModelOut.t;
  instances : list InstanceOut.t }.
Definition view (d : Db.t) (row : Deployment.t * list (ModelInstance.t * option string)) : t :=
  let '(dep, rows) := row in
  mk (Deployment.id dep) (Deployment.model_id dep) (Deployment.cluster_id dep) (Deployment.engine dep) (Deployment.profile dep)
     (Deployment.min_replicas dep) (Deployment.max_replicas dep) (Deployment.nodes_per_replica dep)
     (Deployment.parallel_mode dep) (Deployment.created_at dep) (ModelOut.view <$> find_model d (Deployment.model_id dep))
     (map (InstanceOut.view d) rows).
End DeploymentOut.

(** ** What a session's read answers

    [answer render m d]: the body of the answer [m] gives on [d]. *)
Definition answer {A B} (render : Db.t → A → B) (m : DbM A) (d : Db.t) : result B := render d <$> (m (Session.start d)).1.
Definition each {A B} (view : A → B) (_ : Db.t) (l : list A) : list B := map view l.
(** Every listing the REST API offers. *)
Inductive listing :=
  | Users (l : list UserOut.t) | Keys (l : list ApiKeyOut.t) | Clusters (l : list ClusterOut.t) | Workers (l : list WorkerOut.t)
  | Models_ (l : list ModelOut.t) | Instances_ (l : list InstanceOut.t) | Deployments (l : list DeploymentOut.t).
Definition listings (current : User.t) (cluster_id : option uuid) (d : Db.t) : list (result listing) :=
  [Users <$> answer (each UserOut.view) (list_users current) d;
   Keys <$> answer (each ApiKeyOut.view) (list_keys current) d;
   Clusters <$> answer (each ClusterOut.view) list_clusters d;
   Workers <$> answer (λ d, map (WorkerOut.view d)) (list_workers cluster_id) d;
   Models_ <$> answer (each ModelOut.view) catalog_list_models d;
   Instances_ <$> answer (λ d, map (InstanceOut.view d)) list_instances d;
   Deployments <$> answer (λ d, map (DeploymentOut.view d)) list_deployments d].

(** ** Secrets stay inside *)
Definition ApiKey_blank (k : ApiKey.t) : ApiKey.t :=
  ApiKey.mk (ApiKey.id k) (ApiKey.user_id k) (ApiKey.name k) "" (ApiKey.scopes k) (ApiKey.last_used_at k) (ApiKey.revoked_at k)
            (ApiKey.created_at k).
(** A database without the hashes of its passwords, API keys and worker tokens, and
    without the addresses its workers are reached at. *)
Definition blank (d : Db.t) : Db.t :=
  Db.set_users (map (User.set_password_hash "") (Db.users d))
    (Db.set_api_keys (map ApiKey_blank (Db.api_keys d))
      (Db.set_workers (map (λ w, Worker.set_token_hash "" (Worker.set_address None w)) (Db.workers d)) d)).

Lemma find_by_map {A} (f : A → A) p l : (∀ x, p (f x) = p x) → find_by p (map f l) = f <$> find_by p l.
Proof. intros H. induction l as [|x l IH]; [done|]. cbn. rewrite H. by destruct (p x). Qed.
Lemma blank_worker_name d i : worker_name (blank d) i = worker_name d i.
Proof.
  unfold worker_name. destruct (ModelInstance.worker_id i) as [w|]; [|done]. unfold find_worker. cbn.
  rewrite find_by_map by done. by destruct (find_by _ _).
Qed.
Lemma blank_with_names d l : _with_names (blank d) l = _with_names d l.
Proof. unfold _with_names. apply map_ext. intros i. by rewrite blank_worker_name. Qed.
(** Each listing on its own. *)
Lemma blank_users current d : answer (each UserOut.view) (list_users current) (blank d) = answer (each UserOut.view) (list_users current) d.
Proof.
  unfold answer, each. cbn -[sorted_by]. by rewrite sorted_by_map, map_map.
Qed.
Lemma blank_keys current d : answer (each ApiKeyOut.view) (list_keys current) (blank d) = answer (each ApiKeyOut.view) (list_keys current) d.
Proof.
  unfold answer, each, list_keys, newest_first. cbn -[sorted_by where_]. rewrite where_map.
  by rewrite sorted_by_map, map_map.
Qed.
Lemma blank_workers cluster_id d :
  answer (λ d, map (WorkerOut.view d)) (list_workers cluster_id) (blank d) = answer (λ d, map (WorkerOut.view d)) (list_workers cluster_id) d.
Proof.
  unfold answer, list_workers. cbn -[sorted_by where_ gpus_of]. rewrite where_map.
  by rewrite sorted_by_map, !map_map.
Qed.
Lemma blank_instances d :
  answer (λ d, map (InstanceOut.view d)) list_instances (blank d) = answer (λ d, map (InstanceOut.view d)) list_instances d.
Proof. unfold answer, list_instances. cbn -[_with_names]. by rewrite blank_with_names. Qed.
Lemma blank_deployments d :
  answer (λ d, map (DeploymentOut.view d)) list_deployments (blank d) = answer (λ d, map (DeploymentOut.view d)) list_deployments d.
Proof.
  unfold answer, list_deployments. cbn -[deployment_out]. rewrite !map_map. f_equal. apply map_ext. intros dep.
  unfold deployment_out. by rewrite blank_with_names.
Qed.
(** The listings give no secret away.  Whoever reads, and with whatever filter,
    every listing of the REST API is the same on a database without its password
    hashes, API key hashes, worker token hashes and worker addresses: none of them
    has any influence on what is answered. *)
Theorem listings_hide_secrets current cluster_id d :
  listings current cluster_id (blank d) = listings current cluster_id d.
Proof.
  unfold listings. by rewrite blank_users, blank_keys, blank_workers, blank_instances, blank_deployments.
Qed.
