(* ===== verification/Ddl.v ===== *)
(** * Schemas and the statements that change them

    Tables, constraints and indexes by name, the boolean expressions of a CHECK and
    of a partial index with SQL's three truth values, and Alembic's operations
    ([op.create_table] and the others) as statements of a transaction.  A name the
    database chooses itself is [None]: it is no name a revision gives.  On PostgreSQL
    a statement that fails leaves the transaction failed: catching the exception
    does not repair it.  A batch issues its statements in place there; on SQLite, where
    Alembic reflects the table and rebuilds it, what a batch does is a parameter. *)

From S2P Require Import Prelude PyStr.
Local Open Scope Z_scope.

(** ** Expressions *)
(** What a column holds; [VAny]: a value that no constraint looks at and that every
    column takes (a generated key, a time, a flag, a document). *)
Inductive value := VNull | VStr (s : string) | VInt (z : Z) | VUuid (u : uuid) | VAny.
Inductive term := Col (c : string) | Lit (z : Z).
Inductive expr :=
  | IsNull (c : string)
  | IsNotNull (c : string)
  | In_ (c : string) (l : list string)
  | Equals (c s : string)
  | Ge (a b : term)
  | Le (a b : term)
  | And (p q : expr)
  | Or (p q : expr).

#[export] Instance term_eq_dec : EqDecision term.
Proof. solve_decision. Defined.
#[export] Instance expr_eq_dec : EqDecision expr.
Proof. solve_decision. Defined.

Definition term_columns (t : term) : list string := match t with Col c => [c] | Lit _ => [] end.
Fixpoint expr_columns (p : expr) : list string :=
  match p with
  | IsNull c | IsNotNull c | In_ c _ | Equals c _ => [c]
  | Ge a b | Le a b => term_columns a ++ term_columns b
  | And p q | Or p q => expr_columns p ++ expr_columns q
  end.

(** Truth values: [None] is unknown. *)
Definition and3 (a b : option bool) : option bool :=
  match a, b with
  | Some false, _ | _, Some false => Some false
  | Some true, Some true => Some true
  | _, _ => None
  end.
Definition or3 (a b : option bool) : option bool :=
  match a, b with
  | Some true, _ | _, Some true => Some true
  | Some false, Some false => Some false
  | _, _ => None
  end.
Section eval.
Context (row : string → value).
Definition eval_term (t : term) : option Z :=
  match t with Lit z => Some z | Col c => match row c with VInt z => Some z | _ => None end end.
Definition compare3 (leb : Z → Z → bool) (a b : term) : option bool :=
  x ← eval_term a; y ← eval_term b; Some (leb x y).
Fixpoint eval (p : expr) : option bool :=
  match p with
  | IsNull c => Some (match row c with VNull => true | _ => false end)
  | IsNotNull c => Some (match row c with VNull => false | _ => true end)
  | In_ c l => match row c with VStr s => Some (bool_decide (s ∈ l)) | _ => None end
  | Equals c s => match row c with VStr s' => Some (String.eqb s' s) | _ => None end
  | Ge a b => compare3 Z.geb a b
  | Le a b => compare3 Z.leb a b
  | And p q => and3 (eval p) (eval q)
  | Or p q => or3 (eval p) (eval q)
  end.
(** A CHECK refuses the rows that make it false; a partial index holds the rows that
    make its predicate true. *)
Definition check_holds (p : expr) : bool := match eval p with Some false => false | _ => true end.
Definition in_index (p : expr) : bool := match eval p with Some true => true | _ => false end.
End eval.

(** ** Schemas *)
Inductive column_type := Uuid | String_ (length : Z) | Text | DateTime | Date | Integer | Float | Boolean | JSON.
#[export] Instance column_type_eq_dec : EqDecision column_type.
Proof. solve_decision. Defined.
Module Column.
Record t := mk { ty : column_type; nullable : bool; server_default : option string }.
End Column.
#[export] Instance column_eq_dec : EqDecision Column.t.
Proof. solve_decision. Defined.

Inductive constraint :=
  | PrimaryKey (columns : list string)
  | Unique (columns : list string)
  | ForeignKey (columns : list string) (table : string) (referred : list string) (ondelete : option string)
  | Check_ (p : expr).
#[export] Instance constraint_eq_dec : EqDecision constraint.
Proof. solve_decision. Defined.
(** What a column of PostgreSQL can hold: a text of at most its length, a four-byte
    integer, NULL where it may. *)
Definition fits (c : Column.t) (v : value) : bool :=
  match v, Column.ty c with
  | VNull, _ => Column.nullable c
  | VAny, _ => true
  | VStr s, String_ n => str_fits n s
  | VStr s, Text => storable s
  | VInt z, Integer => int32 z
  | VInt _, Date => true
  | VUuid _, Uuid => true
  | _, _ => false
  end.

Module Table.
Record t := mk { columns : gmap string Column.t; constraints : list (option string * constraint) }.
End Table.
#[export] Instance table_eq_dec : EqDecision Table.t.
Proof. solve_decision. Defined.
Module Index.
Record t := mk { table : string; columns : list string; unique : bool; predicate : option expr }.
End Index.
#[export] Instance index_eq_dec : EqDecision Index.t.
Proof. solve_decision. Defined.
Module Schema.
Record t := mk { tables : gmap string Table.t; indexes : gmap string Index.t }.
Definition empty : t := mk ∅ ∅.
End Schema.

Definition index_columns (i : Index.t) : list string :=
  Index.columns i ++ match Index.predicate i with Some p => expr_columns p | None => [] end.
Definition constraint_columns (c : constraint) : list string :=
  match c with
  | PrimaryKey cols | Unique cols | ForeignKey cols _ _ _ => cols
  | Check_ p => expr_columns p
  end.
Definition has_columns (t : Table.t) (cols : list string) : bool :=
  forallb (λ c, bool_decide (is_Some (Table.columns t !! c))) cols.
(** What a foreign key can refer to. *)
Definition keys (t : Table.t) : list (list string) :=
  omap (λ nc, match nc.2 with PrimaryKey cols | Unique cols => Some cols | _ => None end) (Table.constraints t).
Definition target_ok (s : Schema.t) (c : constraint) : bool :=
  match c with
  | ForeignKey cols table referred _ =>
      (length cols =? length referred)%nat &&
      match Schema.tables s !! table with Some t => bool_decide (referred ∈ keys t) | None => false end
  | _ => true
  end.
Definition constraint_ok (s : Schema.t) (t : Table.t) (c : constraint) : bool :=
  has_columns t (constraint_columns c) && target_ok s c.
Definition table_ok (s : Schema.t) (t : Table.t) : bool := forallb (λ nc, constraint_ok s t nc.2) (Table.constraints t).
Definition index_ok (s : Schema.t) (i : Index.t) : bool :=
  match Schema.tables s !! Index.table i with Some t => has_columns t (index_columns i) | None => false end.
(** Nothing in the schema refers to what is not there. *)
Definition well_formed (s : Schema.t) : Prop :=
  map_Forall (λ _ t, table_ok s t = true) (Schema.tables s) ∧ map_Forall (λ _ i, index_ok s i = true) (Schema.indexes s).
#[export] Instance well_formed_dec s : Decision (well_formed s).
Proof. unfold well_formed. apply _. Defined.

(** ** Statements

    A statement that would leave a reference without its target is refused. *)
Definition missing (what name : string) : exn := ProgrammingError (what +:+ " " +:+ name +:+ " does not exist").
Definition duplicate (what name : string) : exn := ProgrammingError (what +:+ " " +:+ name +:+ " already exists").
Definition dependent : exn := ProgrammingError "other objects depend on it".
Definition guarded (s : Schema.t) : result Schema.t := if bool_decide (well_formed s) then Ok s else Raise dependent.

Definition set_tables (f : gmap string Table.t → gmap string Table.t) (s : Schema.t) : Schema.t :=
  Schema.mk (f (Schema.tables s)) (Schema.indexes s).
Definition set_indexes (f : gmap string Index.t → gmap string Index.t) (s : Schema.t) : Schema.t :=
  Schema.mk (Schema.tables s) (f (Schema.indexes s)).
Definition the_table (name : string) (s : Schema.t) : result Table.t :=
  match Schema.tables s !! name with Some t => Ok t | None => Raise (missing "table" name) end.
Definition named (n : option string) (t : Table.t) : bool :=
  match n with Some _ => bool_decide (n ∈ (Table.constraints t).*1) | None => false end.

Definition create_table (name : string) (columns : list (string * Column.t)) (constraints : list (option string * constraint))
    (s : Schema.t) : result Schema.t :=
  if bool_decide (is_Some (Schema.tables s !! name)) then Raise (duplicate "table" name)
  else guarded (set_tables <[name := Table.mk (list_to_map columns) constraints]> s).
(** The indexes of a table go with it. *)
Definition drop_table (name : string) (s : Schema.t) : result Schema.t :=
  t ← the_table name s;
  guarded (set_tables (delete name) (set_indexes (filter (λ ni, Index.table ni.2 ≠ name)) s)).
Definition add_column (table name : string) (c : Column.t) (s : Schema.t) : result Schema.t :=
  t ← the_table table s;
  if bool_decide (is_Some (Table.columns t !! name)) then Raise (duplicate "column" name)
  else guarded (set_tables <[table := Table.mk (<[name := c]> (Table.columns t)) (Table.constraints t)]> s).
(** The constraints and indexes of the table that involve a column go with it. *)
Definition drop_column (table name : string) (s : Schema.t) : result Schema.t :=
  t ← the_table table s;
  match Table.columns t !! name with
  | None => Raise (missing "column" name)
  | Some _ =>
      guarded (set_tables <[table := Table.mk (delete name (Table.columns t))
                                       (where_ (λ nc, bool_decide (name ∉ constraint_columns nc.2)) (Table.constraints t))]>
                 (set_indexes (filter (λ ni, ¬ (Index.table ni.2 = table ∧ name ∈ index_columns ni.2))) s))
  end.
Definition set_nullable (b : bool) (c : Column.t) : Column.t := Column.mk (Column.ty c) b (Column.server_default c).
Definition alter_nullable (table name : string) (b : bool) (s : Schema.t) : result Schema.t :=
  t ← the_table table s;
  match Table.columns t !! name with
  | None => Raise (missing "column" name)
  | Some c => guarded (set_tables <[table := Table.mk (<[name := set_nullable b c]> (Table.columns t)) (Table.constraints t)]> s)
  end.
(** [ALTER COLUMN ... SET DEFAULT], [... DROP DEFAULT] *)
Definition set_server_default (o : option string) (c : Column.t) : Column.t := Column.mk (Column.ty c) (Column.nullable c) o.
Definition alter_default (table name : string) (o : option string) (s : Schema.t) : result Schema.t :=
  t ← the_table table s;
  match Table.columns t !! name with
  | None => Raise (missing "column" name)
  | Some c => guarded (set_tables <[table := Table.mk (<[name := set_server_default o c]> (Table.columns t)) (Table.constraints t)]> s)
  end.
Definition with_constraints (table : string) (t : Table.t) (l : list (option string * constraint)) : Schema.t → Schema.t :=
  set_tables <[table := Table.mk (Table.columns t) l]>.
Definition create_constraint (table : string) (name : option string) (c : constraint) (s : Schema.t) : result Schema.t :=
  t ← the_table table s;
  if named name t then Raise (duplicate "constraint" (default "" name))
  else guarded (with_constraints table t (Table.constraints t ++ [(name, c)]) s).
Definition drop_constraint (table name : string) (s : Schema.t) : result Schema.t :=
  t ← the_table table s;
  if named (Some name) t
  then guarded (with_constraints table t (where_ (λ nc, bool_decide (nc.1 ≠ Some name)) (Table.constraints t)) s)
  else Raise (missing "constraint" name).
Definition create_index (name table : string) (columns : list string) (unique : bool) (predicate : option expr) (s : Schema.t) :
    result Schema.t :=
  if bool_decide (is_Some (Schema.indexes s !! name)) then Raise (duplicate "relation" name)
  else guarded (set_indexes <[name := Index.mk table columns unique predicate]> s).
Definition drop_index (name : string) (s : Schema.t) : result Schema.t :=
  match Schema.indexes s !! name with
  | Some _ => Ok (set_indexes (delete name) s)
  | None => Raise (missing "index" name)
  end.

(** ** Transactions *)
Definition operation : Type := Schema.t → result Schema.t.
Definition in_order (ops : list operation) : operation := λ s, foldR (λ s op, op s) s ops.
(** [rebuild]: what Alembic makes of the operations of a batch on SQLite. *)
Inductive dialect := PostgreSQL | SQLite (rebuild : list operation → operation).
Definition aborts (d : dialect) : bool := match d with PostgreSQL => true | SQLite _ => false end.
Module Tx.
Record t := mk { schema : Schema.t; failed : bool }.
Definition start (s : Schema.t) : t := mk s false.
End Tx.
Definition DdlM (A : Type) : Type := M Tx.t A.
Definition in_failed_transaction : exn := ProgrammingError "current transaction is aborted".

Section transactions.
Context (d : dialect).
Definition statement (f : Schema.t → result Schema.t) : DdlM unit := λ tx,
  if Tx.failed tx then (Raise in_failed_transaction, tx)
  else match f (Tx.schema tx) with
       | Ok s => (Ok tt, Tx.mk s false)
       | Raise e => (Raise e, Tx.mk (Tx.schema tx) (aborts d))
       end.
(** [try: ... except Exception: pass] *)
Definition suppressed (m : DdlM unit) : DdlM unit := try_ m (λ _, mret tt).
(** [with op.batch_alter_table(...)]: the operations take effect together. *)
Definition batch (ops : list operation) : DdlM unit :=
  statement (match d with PostgreSQL => in_order ops | SQLite rebuild => rebuild ops end).
End transactions.

(** ** Agreement

    Two schemas with the same indexes, whose tables are related name by name. *)
Section pointwise.
Context (P : option Table.t → option Table.t → Prop).
Definition pointwise (s s' : Schema.t) : Prop :=
  (∀ name, P (Schema.tables s !! name) (Schema.tables s' !! name)) ∧ Schema.indexes s = Schema.indexes s'.
#[export] Instance pointwise_equiv : Equivalence P → Equivalence pointwise.
Proof.
  intros HP. split.
  - intros s. split; [intros name; reflexivity|done].
  - intros s s' [Ht Hi]. split; [intros name; symmetry; apply Ht|done].
  - intros s s' s'' [Ht Hi] [Ht' Hi']. split; [intros name; etrans; [apply Ht|apply Ht']|congruence].
Qed.
End pointwise.
(** Tables with the same [f] of their columns and the same [g] of their constraints,
    in some order. *)
Definition tables_by {A} (f : Column.t → A) (g : option string * constraint → option string * constraint)
    (a b : option Table.t) : Prop :=
  match a, b with
  | Some t, Some t' =>
      f <$> Table.columns t = f <$> Table.columns t' ∧ map g (Table.constraints t) ≡ₚ map g (Table.constraints t')
  | None, None => True
  | _, _ => False
  end.
#[export] Instance tables_by_dec {A} `{EqDecision A} (f : Column.t → A) g : RelDecision (tables_by f g).
Proof. intros a b. destruct a, b; cbn; apply _. Defined.
#[export] Instance tables_by_equiv {A} (f : Column.t → A) g : Equivalence (tables_by f g).
Proof.
  split.
  - by intros [t|].
  - intros [t|] [t'|]; cbn; try done. intros [Hc Hl]. by split.
  - intros [t|] [t'|] [t''|]; cbn; try done. intros [Hc Hl] [Hc' Hl']. split; [congruence|by etrans].
Qed.
Definition column_shape (c : Column.t) : column_type * bool := (Column.ty c, Column.nullable c).
Definition constraint_shape (nc : option string * constraint) : option string * constraint :=
  match nc.2 with PrimaryKey _ | ForeignKey _ _ _ _ => (None, nc.2) | _ => nc end.
(** The same schema but for the order of the constraints of a table, ... *)
Definition tables_same : option Table.t → option Table.t → Prop := tables_by (λ c, c) (λ nc, nc).
Definition same_schema : Schema.t → Schema.t → Prop := pointwise tables_same.
(** ... but for that and the names of primary and foreign keys, ... *)
Definition tables_agree : option Table.t → option Table.t → Prop := tables_by (λ c, c) constraint_shape.
Definition agree : Schema.t → Schema.t → Prop := pointwise tables_agree.
(** ... and but for the defaults the server fills in, too. *)
Definition tables_alike : option Table.t → option Table.t → Prop := tables_by column_shape constraint_shape.
Definition alike : Schema.t → Schema.t → Prop := pointwise tables_alike.
#[export] Instance alike_equiv : Equivalence alike.
Proof. apply pointwise_equiv, _. Qed.
#[export] Instance tables_same_dec : RelDecision tables_same.
Proof. apply _. Defined.
#[export] Instance tables_agree_dec : RelDecision tables_agree.
Proof. apply _. Defined.
#[export] Instance tables_alike_dec : RelDecision tables_alike.
Proof. apply _. Defined.

(** Pointwise on the names either schema has. *)
Definition everywhere (P : option Table.t → option Table.t → Prop) `{!RelDecision P} (s s' : Schema.t) : bool :=
  forallb (λ name, bool_decide (P (Schema.tables s !! name) (Schema.tables s' !! name)))
    ((map_to_list (Schema.tables s)).*1 ++ (map_to_list (Schema.tables s')).*1).
Lemma everywhere_spec (P : option Table.t → option Table.t → Prop) `{!RelDecision P} s s' :
  P None None → everywhere P s s' = true ↔ ∀ name, P (Schema.tables s !! name) (Schema.tables s' !! name).
Proof.
  intros H0. unfold everywhere. rewrite <-Is_true_true, forallb_True. split.
  - intros H name. rewrite Forall_forall in H. destruct (Schema.tables s !! name) as [t|] eqn:E.
    + rewrite <-E. eapply bool_decide_unpack, H. rewrite elem_of_app, list_elem_of_fmap. left. exists (name, t).
      by rewrite elem_of_map_to_list.
    + destruct (Schema.tables s' !! name) as [t'|] eqn:E'; [|done]. rewrite <-E, <-E'. eapply bool_decide_unpack, H.
      rewrite elem_of_app, list_elem_of_fmap. right. rewrite list_elem_of_fmap. exists (name, t'). by rewrite elem_of_map_to_list.
  - intros H. apply Forall_forall. intros name _. apply bool_decide_pack, H.
Qed.
Definition pointwise_b (P : option Table.t → option Table.t → Prop) `{!RelDecision P} (s s' : Schema.t) : bool :=
  everywhere P s s' && bool_decide (Schema.indexes s = Schema.indexes s').
Lemma pointwise_spec (P : option Table.t → option Table.t → Prop) `{!RelDecision P} s s' :
  P None None → pointwise_b P s s' = true ↔ pointwise P s s'.
Proof. intros H. unfold pointwise_b, pointwise. by rewrite andb_true_iff, everywhere_spec, bool_decide_eq_true. Qed.
Lemma agree_spec s s' : pointwise_b tables_agree s s' = true ↔ agree s s'.
Proof. by apply pointwise_spec. Qed.
Lemma alike_spec s s' : pointwise_b tables_alike s s' = true ↔ alike s s'.
Proof. by apply pointwise_spec. Qed.
Lemma same_schema_spec s s' : pointwise_b tables_same s s' = true ↔ same_schema s s'.
Proof. by apply pointwise_spec. Qed.

(** ** What every statement keeps *)
Lemma guarded_Ok s s' : guarded s = Ok s' ↔ s' = s ∧ well_formed s.
Proof. unfold guarded. case_bool_decide; naive_solver. Qed.
Definition keeps_form (f : Schema.t → result Schema.t) : Prop := ∀ s s', well_formed s → f s = Ok s' → well_formed s'.
Ltac keeps_form_tac :=
  intros s s' Hs; repeat first
    [ intros (? & ? & H)%result_bind_Ok; revert H | case_match; [..|done] | case_match; [done|]
    | by intros [-> ?]%guarded_Ok ].
Lemma create_table_keeps name columns constraints : keeps_form (create_table name columns constraints).
Proof. unfold create_table. keeps_form_tac. Qed.
Lemma drop_table_keeps name : keeps_form (drop_table name).
Proof. unfold drop_table. keeps_form_tac. Qed.
Lemma add_column_keeps table name c : keeps_form (add_column table name c).
Proof. unfold add_column. keeps_form_tac. Qed.
Lemma drop_column_keeps table name : keeps_form (drop_column table name).
Proof. unfold drop_column. keeps_form_tac. Qed.
Lemma alter_default_keeps table name o : keeps_form (alter_default table name o).
Proof. unfold alter_default. keeps_form_tac. Qed.
Lemma alter_nullable_keeps table name b : keeps_form (alter_nullable table name b).
Proof. unfold alter_nullable. keeps_form_tac. Qed.
Lemma create_constraint_keeps table name c : keeps_form (create_constraint table name c).
Proof. unfold create_constraint. keeps_form_tac. Qed.
Lemma drop_constraint_keeps table name : keeps_form (drop_constraint table name).
Proof. unfold drop_constraint. keeps_form_tac. Qed.
Lemma create_index_keeps name table columns unique predicate : keeps_form (create_index name table columns unique predicate).
Proof. unfold create_index. keeps_form_tac. Qed.
(** Nothing refers to an index. *)
Lemma drop_index_keeps name : keeps_form (drop_index name).
Proof.
  intros s s' [Ht Hi]. unfold drop_index. case_match; [|done]. intros [= <-].
  split; [exact Ht|]. cbn. by apply map_Forall_delete.
Qed.
Create HintDb ddl.
#[export] Hint Resolve create_table_keeps drop_table_keeps add_column_keeps drop_column_keeps alter_nullable_keeps alter_default_keeps
  create_constraint_keeps drop_constraint_keeps create_index_keeps drop_index_keeps : ddl.
Definition tx_well_formed (tx : Tx.t) : Prop := well_formed (Tx.schema tx).
Lemma statement_keeps d f : keeps_form f → preserves tx_well_formed (statement d f).
Proof.
  intros Hf tx H. unfold statement. destruct (Tx.failed tx); [done|]. destruct (f (Tx.schema tx)) as [s|e] eqn:E; [|done].
  by apply (Hf _ _ H E).
Qed.
Lemma in_order_keeps ops : Forall keeps_form ops → keeps_form (in_order ops).
Proof.
  unfold in_order. induction 1 as [|op ops Hop _ IH]; intros s s' Hs; cbn; [by intros [= <-]|].
  intros (s1 & H1 & H2)%result_bind_Ok. by apply (IH s1 s' (Hop _ _ Hs H1)).
Qed.
(** A rebuild leaves nothing dangling either. *)
Definition dialect_ok (d : dialect) : Prop :=
  match d with PostgreSQL => True | SQLite rebuild => ∀ ops, Forall keeps_form ops → keeps_form (rebuild ops) end.
Lemma batch_keeps d ops : dialect_ok d → Forall keeps_form ops → preserves tx_well_formed (batch d ops).
Proof. intros Hd H. apply statement_keeps. destruct d; [by apply in_order_keeps|by apply Hd]. Qed.
