(* ===== verification/Revisions.v ===== *)
(** * The schema of the models and of the migrations ([server/inferna_server/models.py],
    [server/alembic/versions])

    What the ORM classes declare as a schema, and what each revision does to one:
    the DDL beside the rows of [Migrations] and [Downgrades].  The scripts are data,
    linked by [down_revision], and [upgrade_to] and [downgrade_to] walk them as
    Alembic does.  The theorems compare the two, on PostgreSQL.  The statements a script
    issues on SQLite are here as well, but not what Alembic's batches make of them. *)

From S2P Require Import Prelude PyStr Ddl.
Local Open Scope Z_scope.

(** ** The declared schema *)

(** [mapped_column(...)]: a single-column index is named after the table and the
    column, and [unique] with [index] is one unique index. *)
Module Mapped.
Record t := mk {
  name : string; ty : column_type; nullable : bool; primary_key : bool; unique : bool; index : bool;
  references : option (string * option string); server_default : option string }.
Definition eta (r : t) : t :=
  mk (name r) (ty r) (nullable r) (primary_key r) (unique r) (index r) (references r) (server_default r).
Definition set_nullable (v : bool) (r : t) : t := ltac:(set_field eta nullable v r).
Definition set_primary_key (v : bool) (r : t) : t := ltac:(set_field eta primary_key v r).
Definition set_unique (v : bool) (r : t) : t := ltac:(set_field eta unique v r).
Definition set_index (v : bool) (r : t) : t := ltac:(set_field eta index v r).
Definition set_references (v : option (string * option string)) (r : t) : t := ltac:(set_field eta references v r).
Definition set_server_default (v : option string) (r : t) : t := ltac:(set_field eta server_default v r).
End Mapped.
Definition mapped_column (name : string) (ty : column_type) : Mapped.t := Mapped.mk name ty false false false false None None.
Definition optional : Mapped.t → Mapped.t := Mapped.set_nullable true.
Definition unique : Mapped.t → Mapped.t := Mapped.set_unique true.
Definition indexed : Mapped.t → Mapped.t := Mapped.set_index true.
Definition defaults (s : string) : Mapped.t → Mapped.t := Mapped.set_server_default (Some s).
Definition id_column (ty : column_type) : Mapped.t := Mapped.set_primary_key true (mapped_column "id" ty).
(** [mapped_column(ForeignKey("table.id", ondelete=...), index=True)] *)
Definition foreign_key (name table ondelete : string) : Mapped.t :=
  indexed (Mapped.set_references (Some (table, Some ondelete)) (mapped_column name Uuid)).
(** [TimestampMixin] *)
Definition timestamps : list Mapped.t := [mapped_column "created_at" DateTime; mapped_column "updated_at" DateTime].

Module Mapping.
Record t := mk {
  tablename : string; columns : list Mapped.t; table_args : list (option string * constraint); indexes : list (string * Index.t) }.
End Mapping.
Definition column_of (m : Mapped.t) : string * Column.t :=
  (Mapped.name m, Column.mk (Mapped.ty m) (Mapped.nullable m) (Mapped.server_default m)).
Definition column_constraints (m : Mapped.t) : list (option string * constraint) :=
  (if Mapped.unique m && negb (Mapped.index m) then [(None, Unique [Mapped.name m])] else []) ++
  match Mapped.references m with
  | Some (table, ondelete) => [(None, ForeignKey [Mapped.name m] table ["id"] ondelete)]
  | None => []
  end.
Definition table_of (m : Mapping.t) : Table.t :=
  Table.mk (list_to_map (map column_of (Mapping.columns m)))
    ((None, PrimaryKey (map Mapped.name (where_ Mapped.primary_key (Mapping.columns m)))) ::
     flat_map column_constraints (Mapping.columns m) ++ Mapping.table_args m).
Definition indexes_of (m : Mapping.t) : list (string * Index.t) :=
  map (λ c, ("ix_" +:+ Mapping.tablename m +:+ "_" +:+ Mapped.name c, Index.mk (Mapping.tablename m) [Mapped.name c] (Mapped.unique c) None))
    (where_ Mapped.index (Mapping.columns m)) ++ Mapping.indexes m.
(** [Base.metadata] *)
Definition metadata (l : list Mapping.t) : Schema.t :=
  Schema.mk (list_to_map (map (λ m, (Mapping.tablename m, table_of m)) l)) (list_to_map (flat_map indexes_of l)).

Definition check (name : string) (p : expr) : option string * constraint := (Some name, Check_ p).
Definition unique_constraint (name : string) (cols : list string) : option string * constraint := (Some name, Unique cols).
Definition ENGINES : list string := ["vllm"; "sglang"].
Definition PROFILES : list string := ["latency"; "throughput"].
Definition live_predicate : expr := Or (Equals "desired_state" "running") (In_ "state" ["scheduled"; "starting"; "running"]).
Definition parallel_mode_check : expr :=
  Or (IsNull "parallel_mode") (In_ "parallel_mode" ["single"; "dp"; "pp"; "tp"; "pd"]).

Definition User : Mapping.t := Mapping.mk "users"
  ([id_column Uuid; indexed (unique (mapped_column "username" (String_ 64))); optional (mapped_column "email" (String_ 255));
    mapped_column "password_hash" (String_ 128); mapped_column "role" (String_ 16); mapped_column "is_active" Boolean;
    optional (mapped_column "token_limit" Integer); optional (mapped_column "request_limit" Integer)] ++ timestamps)
  [check "ck_users_role" (In_ "role" ["admin"; "user"])] [].
Definition Cluster : Mapping.t := Mapping.mk "clusters"
  [id_column Uuid; unique (mapped_column "name" (String_ 64)); optional (mapped_column "description" Text);
   mapped_column "created_at" DateTime] [] [].
Definition Worker : Mapping.t := Mapping.mk "workers"
  [id_column Uuid; foreign_key "cluster_id" "clusters" "CASCADE"; mapped_column "name" (String_ 64);
   mapped_column "hostname" (String_ 255); mapped_column "state" (String_ 16); optional (mapped_column "version" (String_ 64));
   optional (mapped_column "os" (String_ 64)); optional (mapped_column "cpu_cores" Integer); optional (mapped_column "memory_mb" Integer);
   mapped_column "token_hash" (String_ 64); optional (mapped_column "address" (String_ 255));
   optional (mapped_column "last_seen_at" DateTime); mapped_column "created_at" DateTime]
  [unique_constraint "uq_workers_cluster_hostname" ["cluster_id"; "hostname"];
   unique_constraint "uq_workers_cluster_name" ["cluster_id"; "name"];
   check "ck_workers_state" (In_ "state" ["connected"; "disconnected"])] [].
Definition WorkerGPU : Mapping.t := Mapping.mk "worker_gpus"
  [id_column Integer; foreign_key "worker_id" "workers" "CASCADE"; mapped_column "index" Integer; mapped_column "vendor" (String_ 32);
   mapped_column "name" (String_ 128); mapped_column "vram_mb" Integer; mapped_column "used_vram_mb" Integer;
   mapped_column "utilization_pct" Integer; optional (mapped_column "uuid" (String_ 128));
   optional (mapped_column "driver_version" (String_ 64))]
  [unique_constraint "uq_worker_gpus_worker_index" ["worker_id"; "index"];
   check "ck_worker_gpus_vendor" (In_ "vendor" ["nvidia"; "amd"; "mock"])] [].
Definition Model : Mapping.t := Mapping.mk "models"
  [id_column Uuid; unique (mapped_column "name" (String_ 255)); mapped_column "display_name" (String_ 255);
   mapped_column "category" (String_ 32); optional (mapped_column "description" Text); optional (mapped_column "params_b" Float);
   mapped_column "vram_required_mb" Integer; mapped_column "requires_hf_token" Boolean; optional (mapped_column "license" (String_ 64));
   mapped_column "is_builtin" Boolean; defaults "[]" (mapped_column "supported_engines" JSON); mapped_column "created_at" DateTime]
  [check "ck_models_category" (In_ "category" ["llm"; "embedding"; "reranker"; "audio"; "multimodal"])] [].
Definition ApiKey : Mapping.t := Mapping.mk "api_keys"
  ([id_column Uuid; foreign_key "user_id" "users" "CASCADE"; mapped_column "name" (String_ 64);
    indexed (unique (mapped_column "key_hash" (String_ 64))); defaults "[]" (mapped_column "scopes" JSON);
    optional (mapped_column "last_used_at" DateTime); optional (mapped_column "revoked_at" DateTime)] ++ timestamps) [] [].
Definition nodes_check : expr := And (Ge (Col "nodes_per_replica") (Lit 1)) (Le (Col "nodes_per_replica") (Lit 8)).
Definition min_max_check : expr :=
  And (And (Ge (Col "min_replicas") (Lit 1)) (Ge (Col "max_replicas") (Col "min_replicas"))) (Le (Col "max_replicas") (Lit 8)).
Definition Deployment : Mapping.t := Mapping.mk "deployments"
  [id_column Uuid; foreign_key "model_id" "models" "RESTRICT"; foreign_key "cluster_id" "clusters" "CASCADE";
   mapped_column "engine" (String_ 16); mapped_column "profile" (String_ 16); mapped_column "min_replicas" Integer;
   mapped_column "max_replicas" Integer; defaults "1" (mapped_column "nodes_per_replica" Integer);
   optional (mapped_column "parallel_mode" (String_ 16)); mapped_column "created_at" DateTime;
   optional (mapped_column "last_scaled_at" DateTime)]
  [check "ck_deployments_engine" (In_ "engine" ENGINES); check "ck_deployments_profile" (In_ "profile" PROFILES);
   check "ck_deployments_min_max" min_max_check; check "ck_deployments_nodes_per_replica" nodes_check;
   check "ck_deployments_parallel_mode" parallel_mode_check] [].
Definition ModelInstance : Mapping.t := Mapping.mk "model_instances"
  ([id_column Uuid; foreign_key "model_id" "models" "RESTRICT"; foreign_key "cluster_id" "clusters" "CASCADE";
    optional (foreign_key "worker_id" "workers" "SET NULL"); foreign_key "deployment_id" "deployments" "CASCADE";
    mapped_column "engine" (String_ 16); mapped_column "profile" (String_ 16); mapped_column "gpu_indexes" JSON;
    mapped_column "state" (String_ 16); defaults "running" (mapped_column "desired_state" (String_ 16));
    defaults "1" (mapped_column "generation" Integer); optional (mapped_column "port" Integer);
    optional (mapped_column "error_detail" Text); optional (mapped_column "log_tail" Text);
    indexed (optional (mapped_column "parallel_group_id" Uuid)); optional (mapped_column "node_rank" Integer);
    optional (mapped_column "world_size" Integer); optional (mapped_column "parallel_mode" (String_ 16));
    optional (mapped_column "rendezvous" (String_ 255))] ++ timestamps)
  [check "ck_model_instances_state" (In_ "state" ["scheduled"; "starting"; "running"; "stopped"; "error"]);
   check "ck_model_instances_desired_state" (In_ "desired_state" ["running"; "stopped"]);
   check "ck_model_instances_engine" (In_ "engine" ENGINES); check "ck_model_instances_profile" (In_ "profile" PROFILES)]
  [("uq_model_instances_worker_port_active", Index.mk "model_instances" ["worker_id"; "port"] true (Some live_predicate));
   ("uq_model_instances_group_rank",
      Index.mk "model_instances" ["parallel_group_id"; "node_rank"] true (Some (IsNotNull "parallel_group_id")))].
Definition UsageRecord : Mapping.t := Mapping.mk "usage_records"
  ([id_column Uuid; foreign_key "user_id" "users" "CASCADE"; foreign_key "api_key_id" "api_keys" "CASCADE";
    foreign_key "model_id" "models" "CASCADE"; indexed (mapped_column "period_start" Date); mapped_column "requests" Integer;
    mapped_column "tokens_in" Integer; mapped_column "tokens_out" Integer; mapped_column "latency_ms_sum" Integer] ++ timestamps)
  [unique_constraint "uq_usage_records_period" ["user_id"; "api_key_id"; "model_id"; "period_start"]] [].
Definition GpuUsageRecord : Mapping.t := Mapping.mk "gpu_usage_records"
  ([id_column Uuid; foreign_key "model_id" "models" "CASCADE"; foreign_key "cluster_id" "clusters" "CASCADE";
    indexed (mapped_column "period_start" Date); mapped_column "gpu_seconds" Float] ++ timestamps)
  [unique_constraint "uq_gpu_usage_period" ["model_id"; "cluster_id"; "period_start"]] [].
Definition declared : Schema.t :=
  metadata [User; Cluster; Worker; WorkerGPU; Model; ApiKey; Deployment; ModelInstance; UsageRecord; GpuUsageRecord].

Lemma declared_well_formed : well_formed declared.
Proof. vm_decide. Qed.

(** ** The revisions

    A script: its revision, the one it follows, and what it does either way. *)
Module Script.
Record t := mk { revision : string; down_revision : option string; upgrade : DdlM unit; downgrade : DdlM unit }.
End Script.
(** [sa.Column(name, type, nullable=..., server_default=...)] *)
Definition sa_column (name : string) (ty : column_type) (nullable : bool) : string * Column.t := (name, Column.mk ty nullable None).
Definition sa_default (s : string) (c : string * Column.t) : string * Column.t :=
  (c.1, Column.mk (Column.ty c.2) (Column.nullable c.2) (Some s)).
Definition primary_key : option string * constraint := (None, PrimaryKey ["id"]).
Definition references_id (column table : string) (ondelete : option string) : option string * constraint :=
  (None, ForeignKey [column] table ["id"] ondelete).
Definition fk_on (table column : string) (nc : option string * constraint) : bool :=
  match nc.2 with ForeignKey cols _ _ _ => bool_decide (cols = [column]) | _ => false end.

Section revisions.
Context (d : dialect).
Notation stmt := (statement d).
Definition ix (table column : string) : string := "ix_" +:+ table +:+ "_" +:+ column.
(** [op.create_index(op.f('ix_<table>_<column>'), table, [column], unique=...)] *)
Definition create_ix (table column : string) (unique : bool) : DdlM unit := stmt (create_index (ix table column) table [column] unique None).
Definition drop_ix (table column : string) : DdlM unit := stmt (drop_index (ix table column)).

(** *** [3b491ceedb36] *)
Definition schema_initial : DdlM unit :=
  _ ← stmt (create_table "clusters"
    [sa_column "id" Uuid false; sa_column "name" (String_ 64) false; sa_column "description" Text true;
     sa_column "created_at" DateTime false]
    [primary_key; (None, Unique ["name"])]);
  _ ← stmt (create_table "models"
    [sa_column "id" Uuid false; sa_column "name" (String_ 255) false; sa_column "display_name" (String_ 255) false;
     sa_column "category" (String_ 32) false; sa_column "description" Text true; sa_column "params_b" Float true;
     sa_column "vram_required_mb" Integer false; sa_column "requires_hf_token" Boolean false; sa_column "license" (String_ 64) true;
     sa_column "is_builtin" Boolean false; sa_column "created_at" DateTime false]
    [primary_key; (None, Unique ["name"])]);
  _ ← stmt (create_table "users"
    [sa_column "id" Uuid false; sa_column "username" (String_ 64) false; sa_column "email" (String_ 255) true;
     sa_column "password_hash" (String_ 128) false; sa_column "role" (String_ 16) false; sa_column "is_active" Boolean false;
     sa_column "created_at" DateTime false; sa_column "updated_at" DateTime false]
    [primary_key]);
  _ ← create_ix "users" "username" true;
  _ ← stmt (create_table "workers"
    [sa_column "id" Uuid false; sa_column "cluster_id" Uuid false; sa_column "name" (String_ 64) false;
     sa_column "hostname" (String_ 255) false; sa_column "state" (String_ 16) false; sa_column "version" (String_ 64) true;
     sa_column "os" (String_ 64) true; sa_column "cpu_cores" Integer true; sa_column "memory_mb" Integer true;
     sa_column "token_hash" (String_ 64) false; sa_column "last_seen_at" DateTime true; sa_column "created_at" DateTime false]
    [references_id "cluster_id" "clusters" (Some "CASCADE"); primary_key]);
  _ ← create_ix "workers" "cluster_id" false;
  _ ← stmt (create_table "model_instances"
    [sa_column "id" Uuid false; sa_column "model_id" Uuid false; sa_column "cluster_id" Uuid false; sa_column "worker_id" Uuid true;
     sa_column "engine" (String_ 16) false; sa_column "profile" (String_ 16) false; sa_column "gpu_indexes" JSON false;
     sa_column "state" (String_ 16) false; sa_column "port" Integer true; sa_column "error_detail" Text true;
     sa_column "created_at" DateTime false; sa_column "updated_at" DateTime false]
    [references_id "cluster_id" "clusters" None; references_id "model_id" "models" None; references_id "worker_id" "workers" None;
     primary_key]);
  _ ← create_ix "model_instances" "cluster_id" false;
  _ ← create_ix "model_instances" "model_id" false;
  _ ← create_ix "model_instances" "worker_id" false;
  _ ← stmt (create_table "worker_gpus"
    [sa_column "id" Integer false; sa_column "worker_id" Uuid false; sa_column "index" Integer false; sa_column "vendor" (String_ 32) false;
     sa_column "name" (String_ 128) false; sa_column "vram_mb" Integer false; sa_column "used_vram_mb" Integer false;
     sa_column "utilization_pct" Integer false; sa_column "uuid" (String_ 128) true; sa_column "driver_version" (String_ 64) true]
    [references_id "worker_id" "workers" (Some "CASCADE"); primary_key]);
  create_ix "worker_gpus" "worker_id" false.
Definition unschema_initial : DdlM unit :=
  _ ← drop_ix "worker_gpus" "worker_id"; _ ← stmt (drop_table "worker_gpus");
  _ ← drop_ix "model_instances" "worker_id"; _ ← drop_ix "model_instances" "model_id"; _ ← drop_ix "model_instances" "cluster_id";
  _ ← stmt (drop_table "model_instances");
  _ ← drop_ix "workers" "cluster_id"; _ ← stmt (drop_table "workers");
  _ ← drop_ix "users" "username"; _ ← stmt (drop_table "users");
  _ ← stmt (drop_table "models"); stmt (drop_table "clusters").

(** *** [d88ae166a92a] *)
(** In a batch on SQLite, in place elsewhere. *)
Definition on_table (op : Schema.t → result Schema.t) : DdlM unit := match d with SQLite _ => batch d [op] | PostgreSQL => stmt op end.
Definition _add_check (table name : string) (p : expr) : DdlM unit := on_table (create_constraint table (Some name) (Check_ p)).
Definition _add_unique (table name : string) (cols : list string) : DdlM unit := on_table (create_constraint table (Some name) (Unique cols)).
Definition _drop_check (table name : string) : DdlM unit := suppressed (on_table (drop_constraint table name)).
Definition _drop_unique (table name : string) : DdlM unit := suppressed (on_table (drop_constraint table name)).

(** The foreign key the inspector finds on a column, dropped by the name it has there:
    of several on a column the last. *)
Definition drop_last (p : option string * constraint → bool) (l : list (option string * constraint)) : list (option string * constraint) :=
  match find_by (λ knc, p knc.2) (reverse (zip (seq 0 (length l)) l)) with
  | Some (k, _) => take k l ++ drop (S k) l
  | None => l
  end.
Definition drop_inspected (table column : string) (s : Schema.t) : result Schema.t :=
  t ← the_table table s;
  guarded (with_constraints table t (drop_last (fk_on table column) (Table.constraints t)) s).
Definition inspected (table column : string) : DdlM bool :=
  gets (λ tx, match Schema.tables (Tx.schema tx) !! table with
              | Some t => existsb (fk_on table column) (Table.constraints t)
              | None => false
              end).
Definition instance_fk (column : string) : string := "fk_model_instances_" +:+ column.
Definition create_instance_fk (column table : string) (ondelete : option string) (name : option string) : Schema.t → result Schema.t :=
  create_constraint "model_instances" name (ForeignKey [column] table ["id"] ondelete).
Definition replace_fk (column : string) : DdlM unit :=
  found ← inspected "model_instances" column;
  if found : bool then stmt (drop_inspected "model_instances" column)
  else suppressed (stmt (drop_constraint "model_instances" ("model_instances_" +:+ column +:+ "_fkey"))).
Definition phase0_fks : list operation :=
  [create_instance_fk "model_id" "models" (Some "RESTRICT") (Some (instance_fk "model_id"));
   create_instance_fk "cluster_id" "clusters" (Some "CASCADE") (Some (instance_fk "cluster_id"));
   create_instance_fk "worker_id" "workers" (Some "SET NULL") (Some (instance_fk "worker_id"))].
Definition statements (ops : list operation) : DdlM unit := foldM (λ _ op, stmt op) tt ops.
Definition phase0_columns : DdlM unit :=
  _ ← stmt (add_column "model_instances" "desired_state" (Column.mk (String_ 16) false (Some "running")));
  _ ← stmt (add_column "model_instances" "generation" (Column.mk Integer false (Some "1")));
  _ ← _add_check "model_instances" "ck_model_instances_state" (In_ "state" ["scheduled"; "starting"; "running"; "stopped"; "error"]);
  _ ← _add_check "model_instances" "ck_model_instances_desired_state" (In_ "desired_state" ["running"; "stopped"]);
  _ ← _add_check "model_instances" "ck_model_instances_engine" (In_ "engine" ["vllm"; "sglang"]);
  _ ← _add_check "model_instances" "ck_model_instances_profile" (In_ "profile" ["latency"; "throughput"]);
  _ ← _add_unique "worker_gpus" "uq_worker_gpus_worker_index" ["worker_id"; "index"];
  _ ← _add_check "worker_gpus" "ck_worker_gpus_vendor" (In_ "vendor" ["nvidia"; "amd"; "mock"]);
  _add_check "workers" "ck_workers_state" (In_ "state" ["connected"; "disconnected"]).
Definition schema_phase0 : DdlM unit :=
  _ ← phase0_columns;
  _ ← stmt (create_index "uq_model_instances_worker_port_active" "model_instances" ["worker_id"; "port"] true
              (Some (Or (Equals "desired_state" "running") (In_ "state" ["scheduled"; "starting"; "running"]))));
  _ ← _add_unique "workers" "uq_workers_cluster_hostname" ["cluster_id"; "hostname"];
  _ ← _add_unique "workers" "uq_workers_cluster_name" ["cluster_id"; "name"];
  _ ← stmt (add_column "models" "supported_engines" (Column.mk JSON false (Some "[]")));
  _ ← _add_check "models" "ck_models_category" (In_ "category" ["llm"; "embedding"; "reranker"; "audio"; "multimodal"]);
  _ ← _add_check "users" "ck_users_role" (In_ "role" ["admin"; "user"]);
  match d with
  | SQLite _ => batch d phase0_fks
  | PostgreSQL =>
      _ ← replace_fk "model_id"; _ ← replace_fk "cluster_id"; _ ← replace_fk "worker_id";
      statements phase0_fks
  end.
(** [op.drop_column], and the batch when that raises. *)
Definition drop_column_or_batch (table name : string) : DdlM unit :=
  try_ (stmt (drop_column table name)) (λ _, batch d [drop_column table name]).
(** Within a batch the operations only run when it ends, so there no [try] catches. *)
Definition revert_fks : DdlM unit :=
  match d with
  | SQLite _ =>
      batch d [drop_constraint "model_instances" (instance_fk "model_id"); drop_constraint "model_instances" (instance_fk "cluster_id");
               drop_constraint "model_instances" (instance_fk "worker_id");
               create_instance_fk "model_id" "models" None (Some (instance_fk "model_id"));
               create_instance_fk "cluster_id" "clusters" None (Some (instance_fk "cluster_id"));
               create_instance_fk "worker_id" "workers" None (Some (instance_fk "worker_id"))]
  | PostgreSQL =>
      _ ← suppressed (stmt (drop_constraint "model_instances" (instance_fk "model_id")));
      _ ← suppressed (stmt (drop_constraint "model_instances" (instance_fk "cluster_id")));
      _ ← suppressed (stmt (drop_constraint "model_instances" (instance_fk "worker_id")));
      statements [create_instance_fk "model_id" "models" None None; create_instance_fk "cluster_id" "clusters" None None;
                  create_instance_fk "worker_id" "workers" None None]
  end.
Definition unschema_phase0 : DdlM unit :=
  _ ← revert_fks;
  _ ← _drop_check "users" "ck_users_role";
  _ ← _drop_check "models" "ck_models_category";
  _ ← drop_column_or_batch "models" "supported_engines";
  _ ← _drop_unique "workers" "uq_workers_cluster_name";
  _ ← _drop_unique "workers" "uq_workers_cluster_hostname";
  _ ← _drop_check "workers" "ck_workers_state";
  _ ← _drop_check "worker_gpus" "ck_worker_gpus_vendor";
  _ ← _drop_unique "worker_gpus" "uq_worker_gpus_worker_index";
  _ ← _drop_check "model_instances" "ck_model_instances_profile";
  _ ← _drop_check "model_instances" "ck_model_instances_engine";
  _ ← _drop_check "model_instances" "ck_model_instances_desired_state";
  _ ← _drop_check "model_instances" "ck_model_instances_state";
  _ ← suppressed (stmt (drop_index "uq_model_instances_worker_port_active"));
  _ ← drop_column_or_batch "model_instances" "generation";
  drop_column_or_batch "model_instances" "desired_state".

(** *** [d18580a27109], [7a3b9c1d5e2f] *)
(** [op.add_column], and a batch when the dialect cannot do it in place. *)
Definition add_in_place_or_batch (table name : string) (c : Column.t) : DdlM unit :=
  try_ (stmt (add_column table name c))
    (λ e, match e with NotImplementedError | OperationalError _ => batch d [add_column table name c] | e => raise e end).
Definition drop_in_place_or_batch (table name : string) : DdlM unit :=
  try_ (stmt (drop_column table name))
    (λ e, match e with NotImplementedError | OperationalError _ => batch d [drop_column table name] | e => raise e end).
Definition _add_address_column : DdlM unit := add_in_place_or_batch "workers" "address" (Column.mk (String_ 255) true None).
Definition _drop_address_column : DdlM unit := drop_in_place_or_batch "workers" "address".
Definition schema_phase1 : DdlM unit :=
  _ ← stmt (create_table "api_keys"
    [sa_column "id" Uuid false; sa_column "user_id" Uuid false; sa_column "name" (String_ 64) false; sa_column "key_hash" (String_ 64) false;
     sa_default "[]" (sa_column "scopes" JSON false); sa_column "last_used_at" DateTime true; sa_column "revoked_at" DateTime true;
     sa_column "created_at" DateTime false; sa_column "updated_at" DateTime false]
    [references_id "user_id" "users" (Some "CASCADE"); primary_key]);
  _ ← create_ix "api_keys" "user_id" false;
  _ ← create_ix "api_keys" "key_hash" true;
  _add_address_column.
Definition unschema_phase1 : DdlM unit :=
  _ ← _drop_address_column;
  _ ← drop_ix "api_keys" "key_hash"; _ ← drop_ix "api_keys" "user_id"; stmt (drop_table "api_keys").

(** *** [e8f2a6c41d93] *)
Definition fk_deployment : string := "fk_model_instances_deployment_id".
Definition deployment_fk : constraint := ForeignKey ["deployment_id"] "deployments" ["id"] (Some "CASCADE").
Definition _add_deployment_id_column : DdlM unit :=
  add_in_place_or_batch "model_instances" "deployment_id" (Column.mk Uuid true None).
Definition _drop_deployment_id_column : DdlM unit := drop_in_place_or_batch "model_instances" "deployment_id".
Definition unbounded_check : expr := And (Ge (Col "min_replicas") (Lit 1)) (Ge (Col "max_replicas") (Col "min_replicas")).
Definition deployments_table : DdlM unit :=
  _ ← stmt (create_table "deployments"
    [sa_column "id" Uuid false; sa_column "model_id" Uuid false; sa_column "cluster_id" Uuid false; sa_column "engine" (String_ 16) false;
     sa_column "profile" (String_ 16) false; sa_default "1" (sa_column "min_replicas" Integer false);
     sa_default "1" (sa_column "max_replicas" Integer false); sa_column "created_at" DateTime false; sa_column "last_scaled_at" DateTime true]
    [references_id "model_id" "models" (Some "RESTRICT"); references_id "cluster_id" "clusters" (Some "CASCADE"); primary_key;
     check "ck_deployments_engine" (In_ "engine" ["vllm"; "sglang"]);
     check "ck_deployments_profile" (In_ "profile" ["latency"; "throughput"]);
     check "ck_deployments_min_max" unbounded_check]);
  _ ← create_ix "deployments" "model_id" false;
  _ ← create_ix "deployments" "cluster_id" false;
  _add_deployment_id_column.
Definition schema_phase2 : DdlM unit :=
  _ ← deployments_table;
  _ ← match d with
      | SQLite _ => batch d [alter_nullable "model_instances" "deployment_id" false;
                           create_constraint "model_instances" (Some fk_deployment) deployment_fk]
      | PostgreSQL =>
          _ ← stmt (alter_nullable "model_instances" "deployment_id" false);
          stmt (create_constraint "model_instances" (Some fk_deployment) deployment_fk)
      end;
  create_ix "model_instances" "deployment_id" false.
Definition unschema_phase2 : DdlM unit :=
  _ ← drop_ix "model_instances" "deployment_id";
  _ ← suppressed (stmt (drop_constraint "model_instances" fk_deployment));
  _ ← _drop_deployment_id_column;
  _ ← _drop_check "deployments" "ck_deployments_min_max";
  _ ← _drop_check "deployments" "ck_deployments_profile";
  _ ← _drop_check "deployments" "ck_deployments_engine";
  _ ← drop_ix "deployments" "cluster_id"; _ ← drop_ix "deployments" "model_id"; stmt (drop_table "deployments").

(** *** [b4d7e91c2a58], [a5646d3ba245] *)
Definition _replace_check (table name : string) (p : expr) : DdlM unit :=
  match d with
  | SQLite _ => batch d [drop_constraint table name; create_constraint table (Some name) (Check_ p)]
  | PostgreSQL => _ ← stmt (drop_constraint table name); stmt (create_constraint table (Some name) (Check_ p))
  end.
Definition schema_max_replicas : DdlM unit := _replace_check "deployments" "ck_deployments_min_max" (And unbounded_check (Le (Col "max_replicas") (Lit 8))).
Definition unschema_max_replicas : DdlM unit := _replace_check "deployments" "ck_deployments_min_max" unbounded_check.
Definition schema_log_tail : DdlM unit := stmt (add_column "model_instances" "log_tail" (Column.mk Text true None)).
Definition unschema_log_tail : DdlM unit := batch d [drop_column "model_instances" "log_tail"].

(** *** [523ac0598aed], [392ee09252ef] *)
Definition schema_usage : DdlM unit :=
  _ ← stmt (create_table "usage_records"
    [sa_column "id" Uuid false; sa_column "user_id" Uuid false; sa_column "api_key_id" Uuid false; sa_column "model_id" Uuid false;
     sa_column "period_start" Date false; sa_default "0" (sa_column "requests" Integer false);
     sa_default "0" (sa_column "tokens_in" Integer false); sa_default "0" (sa_column "tokens_out" Integer false);
     sa_default "0" (sa_column "latency_ms_sum" Integer false); sa_column "created_at" DateTime false; sa_column "updated_at" DateTime false]
    [references_id "user_id" "users" (Some "CASCADE"); references_id "api_key_id" "api_keys" (Some "CASCADE");
     references_id "model_id" "models" (Some "CASCADE"); primary_key;
     unique_constraint "uq_usage_records_period" ["user_id"; "api_key_id"; "model_id"; "period_start"]]);
  _ ← create_ix "usage_records" "user_id" false;
  _ ← create_ix "usage_records" "api_key_id" false;
  _ ← create_ix "usage_records" "model_id" false;
  _ ← create_ix "usage_records" "period_start" false;
  _ ← stmt (create_table "gpu_usage_records"
    [sa_column "id" Uuid false; sa_column "model_id" Uuid false; sa_column "cluster_id" Uuid false; sa_column "period_start" Date false;
     sa_default "0" (sa_column "gpu_seconds" Float false); sa_column "created_at" DateTime false; sa_column "updated_at" DateTime false]
    [references_id "model_id" "models" (Some "CASCADE"); references_id "cluster_id" "clusters" (Some "CASCADE"); primary_key;
     unique_constraint "uq_gpu_usage_period" ["model_id"; "cluster_id"; "period_start"]]);
  _ ← create_ix "gpu_usage_records" "model_id" false;
  _ ← create_ix "gpu_usage_records" "cluster_id" false;
  create_ix "gpu_usage_records" "period_start" false.
Definition unschema_usage : DdlM unit :=
  _ ← drop_ix "gpu_usage_records" "period_start"; _ ← drop_ix "gpu_usage_records" "cluster_id";
  _ ← drop_ix "gpu_usage_records" "model_id"; _ ← stmt (drop_table "gpu_usage_records");
  _ ← drop_ix "usage_records" "period_start"; _ ← drop_ix "usage_records" "model_id";
  _ ← drop_ix "usage_records" "api_key_id"; _ ← drop_ix "usage_records" "user_id"; stmt (drop_table "usage_records").
Definition schema_quotas : DdlM unit :=
  _ ← stmt (add_column "users" "token_limit" (Column.mk Integer true None));
  stmt (add_column "users" "request_limit" (Column.mk Integer true None)).
Definition unschema_quotas : DdlM unit :=
  match d with
  | SQLite _ => batch d [drop_column "users" "request_limit"; drop_column "users" "token_limit"]
  | PostgreSQL => _ ← stmt (drop_column "users" "request_limit"); stmt (drop_column "users" "token_limit")
  end.

(** *** [8a89164e3de6] *)
Definition _create_parallel_check : DdlM unit :=
  on_table (create_constraint "deployments" (Some "ck_deployments_parallel_mode") (Check_ parallel_mode_check)).
Definition _drop_parallel_check : DdlM unit := on_table (drop_constraint "deployments" "ck_deployments_parallel_mode").
Definition schema_multinode : DdlM unit :=
  _ ← stmt (add_column "model_instances" "parallel_group_id" (Column.mk Uuid true None));
  _ ← stmt (add_column "model_instances" "node_rank" (Column.mk Integer true None));
  _ ← stmt (add_column "model_instances" "world_size" (Column.mk Integer true None));
  _ ← stmt (add_column "model_instances" "parallel_mode" (Column.mk (String_ 16) true None));
  _ ← stmt (add_column "model_instances" "rendezvous" (Column.mk (String_ 255) true None));
  _ ← create_ix "model_instances" "parallel_group_id" false;
  _ ← stmt (create_index "uq_model_instances_group_rank" "model_instances" ["parallel_group_id"; "node_rank"] true
              (Some (IsNotNull "parallel_group_id")));
  _ ← stmt (add_column "deployments" "nodes_per_replica" (Column.mk Integer false (Some "1")));
  _ ← stmt (add_column "deployments" "parallel_mode" (Column.mk (String_ 16) true None));
  _create_parallel_check.
Definition unschema_multinode : DdlM unit :=
  _ ← _drop_parallel_check;
  _ ← stmt (drop_column "deployments" "parallel_mode");
  _ ← stmt (drop_column "deployments" "nodes_per_replica");
  _ ← stmt (drop_index "uq_model_instances_group_rank");
  _ ← drop_ix "model_instances" "parallel_group_id";
  batch d [drop_column "model_instances" "rendezvous"; drop_column "model_instances" "parallel_mode";
           drop_column "model_instances" "world_size"; drop_column "model_instances" "node_rank";
           drop_column "model_instances" "parallel_group_id"].

(** ** The chain *)
Definition nothing : DdlM unit := mret tt.
Definition scripts : list Script.t :=
  [Script.mk "3b491ceedb36" None schema_initial unschema_initial;
   Script.mk "d88ae166a92a" (Some "3b491ceedb36") schema_phase0 unschema_phase0;
   Script.mk "d18580a27109" (Some "d88ae166a92a") schema_phase1 unschema_phase1;
   Script.mk "7a3b9c1d5e2f" (Some "d18580a27109") nothing nothing;
   Script.mk "e8f2a6c41d93" (Some "7a3b9c1d5e2f") schema_phase2 unschema_phase2;
   Script.mk "b4d7e91c2a58" (Some "e8f2a6c41d93") schema_max_replicas unschema_max_replicas;
   Script.mk "a5646d3ba245" (Some "b4d7e91c2a58") schema_log_tail unschema_log_tail;
   Script.mk "523ac0598aed" (Some "a5646d3ba245") schema_usage unschema_usage;
   Script.mk "392ee09252ef" (Some "523ac0598aed") schema_quotas unschema_quotas;
   Script.mk "8a89164e3de6" (Some "392ee09252ef") schema_multinode unschema_multinode].
(** [ScriptDirectory.get_heads]: the revisions none follows. *)
Definition heads : list string :=
  map Script.revision
    (where_ (λ r, negb (existsb (λ r', bool_decide (Script.down_revision r' = Some (Script.revision r))) scripts)) scripts).
Definition script (revision : string) : option Script.t := find_by (λ r, String.eqb (Script.revision r) revision) scripts.
(** The scripts from a revision down to the base, last first; [fuel]: their number. *)
Fixpoint lineage (fuel : nat) (revision : option string) : option (list Script.t) :=
  match revision, fuel with
  | None, _ => Some []
  | Some _, O => None
  | Some v, S fuel => r ← script v; rest ← lineage fuel (Script.down_revision r); Some (r :: rest)
  end.
Definition lineage_of (revision : option string) : option (list Script.t) := lineage (length scripts) revision.
(** [do_run_migrations]: every script in the one transaction of the run; [None] when a
    statement fails. *)
Definition do_run_migrations (m : DdlM unit) (s : Schema.t) : option Schema.t :=
  match m (Tx.start s) with (Ok tt, Tx.mk s' false) => Some s' | _ => None end.
(** [alembic upgrade revision] on an empty database. *)
Definition upgrades (l : list Script.t) : DdlM unit := foldM (λ _ r, Script.upgrade r) tt l.
Definition upgrade_to (revision : string) : option Schema.t :=
  l ← lineage_of (Some revision); do_run_migrations (upgrades (reverse l)) Schema.empty.
(** [alembic downgrade], down to a revision or, for [None], to the base. *)
Fixpoint above (l : list Script.t) (to : option string) : option (list Script.t) :=
  match l with
  | [] => match to with None => Some [] | Some _ => None end
  | r :: l => if bool_decide (to = Some (Script.revision r)) then Some [] else rest ← above l to; Some (r :: rest)
  end.
Definition downgrades (l : list Script.t) : DdlM unit := foldM (λ _ r, Script.downgrade r) tt l.
Definition downgrade_to (from : string) (to : option string) (s : Schema.t) : option Schema.t :=
  l ← lineage_of (Some from); l ← above l to; do_run_migrations (downgrades l) s.
End revisions.

(** ** Properties *)
(** *** No statement leaves a dangling reference *)
Lemma drop_inspected_keeps table column : keeps_form (drop_inspected table column).
Proof. unfold drop_inspected. keeps_form_tac. Qed.
Lemma statements_keep d ops : Forall keeps_form ops → preserves tx_well_formed (statements d ops).
Proof.
  induction 1 as [|op ops Hop _ IH]; [by intros tx|]. apply preserves_bind; [by apply statement_keeps|by intros []].
Qed.
Lemma suppressed_keeps m : preserves tx_well_formed m → preserves tx_well_formed (suppressed m).
Proof. intros H. by apply preserves_try; [|intros e tx]. Qed.
#[export] Hint Resolve drop_inspected_keeps List.Forall_nil List.Forall_cons : ddl.
#[export] Hint Resolve suppressed_keeps : sane.
#[export] Hint Extern 1 (preserves tx_well_formed (statement _ _)) => (apply statement_keeps; auto with ddl nocore) : sane.
#[export] Hint Extern 1 (preserves tx_well_formed (batch _ _)) => (apply batch_keeps; [assumption|auto 10 with ddl nocore]) : sane.
#[export] Hint Extern 1 (preserves tx_well_formed (statements _ _)) => (apply statements_keep; auto 10 with ddl nocore) : sane.
Lemma on_table_keeps d op : dialect_ok d → keeps_form op → preserves tx_well_formed (on_table d op).
Proof. intros Hd H. unfold on_table. destruct d; [by apply statement_keeps|apply batch_keeps; auto with ddl]. Qed.
#[export] Hint Extern 1 (preserves tx_well_formed (on_table _ _)) => (apply on_table_keeps; [assumption|auto with ddl nocore]) : sane.
Lemma replace_fk_keeps d column : preserves tx_well_formed (replace_fk d column).
Proof. unfold replace_fk, inspected. walk. Qed.
#[export] Hint Resolve replace_fk_keeps : sane.
Lemma scripts_keep d :
  dialect_ok d →
  Forall (λ r, preserves tx_well_formed (Script.upgrade r) ∧ preserves tx_well_formed (Script.downgrade r)) (scripts d).
Proof.
  intros Hd. unfold scripts. repeat apply Forall_cons_2; [split..|apply Forall_nil_2]; cbn [Script.upgrade Script.downgrade].
  all: unfold schema_initial, schema_phase0, schema_phase1, schema_phase2, deployments_table, schema_max_replicas, schema_log_tail, schema_usage,
    schema_quotas, schema_multinode, unschema_initial, unschema_phase0, unschema_phase1, unschema_phase2, unschema_max_replicas,
    unschema_log_tail, unschema_usage, unschema_quotas, unschema_multinode, nothing, create_ix, drop_ix, _add_check, _add_unique,
    _drop_check, _drop_unique, drop_column_or_batch, _add_address_column, _drop_address_column, _add_deployment_id_column,
    _drop_deployment_id_column, deployments_table, add_in_place_or_batch, drop_in_place_or_batch, _replace_check, _create_parallel_check,
    _drop_parallel_check, phase0_columns, revert_fks, phase0_fks, create_instance_fk, _add_check, _add_unique.
  all: walk.
Qed.
Lemma run_well_formed m s s' :
  preserves tx_well_formed m → well_formed s → do_run_migrations m s = Some s' → well_formed s'.
Proof.
  intros Hm Hs. unfold do_run_migrations. specialize (Hm (Tx.start s) Hs). destruct (m _) as [[[]|e] [s1 []]]; try done.
  by intros [= ->].
Qed.
Lemma upgrades_keep d l : dialect_ok d → (∀ r, r ∈ l → r ∈ scripts d) → preserves tx_well_formed (upgrades l).
Proof.
  intros Hd. pose proof (scripts_keep d Hd) as Hk. rewrite Forall_forall in Hk. unfold upgrades. induction l as [|r l IH]; intros Hl; [by intros tx|].
  apply preserves_bind; [apply Hk, Hl; by left|]. intros []. apply IH. intros r' Hr. apply Hl. by right.
Qed.
Lemma lineage_elem d fuel v l r : lineage d fuel v = Some l → r ∈ l → r ∈ scripts d.
Proof.
  revert v l. induction fuel as [|fuel IH]; intros [v|] l; cbn [lineage]; try done; try by intros [= <-] ?%elem_of_nil.
  intros (r' & Hr' & (rest & Hrest & [= <-])%bind_Some)%bind_Some. rewrite elem_of_cons. intros [->|H]; [|by eapply IH].
  unfold script in Hr'. by apply find_by_Some in Hr' as [? _].
Qed.
(** Whatever revision is asked for, on either dialect, if it is reached then nothing in
    the schema refers to a table, column or key that is not there. *)
Lemma upgrade_to_well_formed d v s : dialect_ok d → upgrade_to d v = Some s → well_formed s.
Proof.
  intros Hd. unfold upgrade_to. intros (l & Hl & H)%bind_Some. apply (run_well_formed (upgrades (reverse l)) Schema.empty); [|vm_decide|exact H]. apply (upgrades_keep d); [done|].
  intros r. rewrite elem_of_reverse. by apply (lineage_elem _ _ _ _ _ Hl).
Qed.

(** *** The migrations and the models *)
Definition result_or {A} (d : A) (r : result A) : A := match r with Ok x => x | Raise _ => d end.
Definition is_Ok {A} (r : result A) : bool := match r with Ok _ => true | Raise _ => false end.
Lemma Ok_result_or {A} (d : A) r : is_Ok r = true → r = Ok (result_or d r).
Proof. by destruct r. Qed.
Definition nodes_check_name : string := "ck_deployments_nodes_per_replica".
(** What the migrated schema differs in from the declared one: a CHECK that no revision
    creates, and server defaults that the revisions give and the models do not. *)
Definition exceptions : list operation :=
  drop_constraint "deployments" nodes_check_name ::
  map (λ tcd, alter_default tcd.1.1 tcd.1.2 (Some tcd.2))
    [("usage_records", "requests", "0"); ("usage_records", "tokens_in", "0"); ("usage_records", "tokens_out", "0");
     ("usage_records", "latency_ms_sum", "0"); ("gpu_usage_records", "gpu_seconds", "0");
     ("deployments", "min_replicas", "1"); ("deployments", "max_replicas", "1")].
Definition differing (ops : list operation) : Schema.t := result_or Schema.empty (in_order ops declared).
Definition head_revision : string := "8a89164e3de6".

Definition head_schema : Schema.t := default Schema.empty (upgrade_to PostgreSQL head_revision).
(** ... and what it takes to make the two agree. *)
Definition repair : result Schema.t :=
  create_constraint "deployments" (Some nodes_check_name) (Check_ nodes_check) head_schema.
Definition repaired : Schema.t := result_or Schema.empty repair.
Definition is_some {A} (o : option A) : bool := match o with Some _ => true | None => false end.
Lemma Some_default {A} (d : A) o : is_some o = true → o = Some (default d o).
Proof. by destruct o. Qed.
Lemma head_reached : upgrade_to PostgreSQL head_revision = Some head_schema.
Proof. apply Some_default. by vm_compute. Qed.

Lemma repaired_alike : alike repaired declared.
Proof. apply alike_spec. by vm_compute. Qed.


(** *** Down and up *)
(** The schema of a revision; [None]: no revision yet. *)
Definition schema_at (v : option string) : option Schema.t :=
  match v with Some v => upgrade_to PostgreSQL v | None => Some Schema.empty end.
(** Each step down ends at the schema of the revision below; [l]: the scripts left. *)
Fixpoint steps_undone (l : list Script.t) (s : Schema.t) : bool :=
  match l with
  | [] => true
  | r :: l =>
      match do_run_migrations (Script.downgrade r) s, schema_at (Script.down_revision r) with
      | Some t, Some sv => pointwise_b tables_same t sv && steps_undone l t
      | _, _ => false
      end
  end.
Fixpoint linked (v : option string) (l : list Script.t) : Prop :=
  match l with
  | [] => v = None
  | r :: l => v = Some (Script.revision r) ∧ linked (Script.down_revision r) l
  end.
Lemma head_steps_undone : steps_undone (reverse (scripts PostgreSQL)) head_schema = true.
Proof. by vm_compute. Qed.
Lemma head_linked : linked (Some head_revision) (reverse (scripts PostgreSQL)).
Proof. cbn. tauto. Qed.
(** A script that went through hands its schema to the rest of the run. *)
Lemma run_bind m (k : unit → DdlM unit) s s' :
  do_run_migrations m s = Some s' → do_run_migrations (m ≫= k) s = do_run_migrations (k tt) s'.
Proof. unfold do_run_migrations, mbind, M_bind, Tx.start. destruct (m _) as [[[]|e] [s1 []]]; try done. by intros [= ->]. Qed.
Lemma downgrades_to_stop l v sv s u :
  linked v l → schema_at v = Some sv → same_schema s sv → steps_undone l s = true → u ∈ v :: map Script.down_revision l →
  ∃ l' t su, above l u = Some l' ∧ do_run_migrations (downgrades l') s = Some t ∧ schema_at u = Some su ∧ same_schema t su.
Proof.
  revert v sv s. induction l as [|r l IH]; intros v sv s Hl Hv Hs Hu Hin.
  - cbn in Hl. subst v. apply list_elem_of_singleton in Hin as ->. by exists [], s, sv.
  - destruct Hl as [-> Hl]. cbn [above]. case_bool_decide as E; [subst u; by exists [], s, sv|].
    cbn [steps_undone] in Hu. destruct (do_run_migrations _ s) as [t|] eqn:Er; [|done].
    destruct (schema_at (Script.down_revision r)) as [sv'|] eqn:E'; [|done].
    apply andb_true_iff in Hu as [Ht%same_schema_spec Hu]. apply elem_of_cons in Hin as [->|Hin]; [done|].
    destruct (IH _ sv' t Hl E' Ht Hu Hin) as (l' & t' & su & Hl' & Hd & H). exists (r :: l'), t', su.
    rewrite Hl'. split; [done|]. split; [|done]. unfold downgrades. cbn [foldM]. by rewrite (run_bind _ _ _ t).
Qed.


(** *** Where they differ *)
Definition defaults_of (s : Schema.t) (table : string) : list (string * string) :=
  match Schema.tables s !! table with
  | Some t => omap (λ nc, d ← Column.server_default nc.2; Some (nc.1, d)) (map_to_list (Table.columns t))
  | None => []
  end.
(** Defaults the migrated database fills in and the models do not declare. *)
Lemma undeclared_defaults :
  defaults_of declared "usage_records" = [] ∧ length (defaults_of head_schema "usage_records") = 4%nat ∧
  defaults_of declared "gpu_usage_records" = [] ∧ defaults_of head_schema "gpu_usage_records" = [("gpu_seconds", "0")] ∧
  length (defaults_of declared "deployments") = 1%nat ∧ length (defaults_of head_schema "deployments") = 3%nat.
Proof. by vm_compute. Qed.
(** A drop that is allowed to fail is not: on PostgreSQL the failure is caught, and
    every later statement of the transaction is refused. *)
Lemma suppressed_failure_spoils op op' s e :
  op s = Raise e →
  let '(r, tx) := suppressed (statement PostgreSQL op) (Tx.start s) in
  r = Ok tt ∧ (statement PostgreSQL op' tx).1 = Raise in_failed_transaction.
Proof. intros H. unfold suppressed, try_, statement, Tx.start. cbn. by rewrite H. Qed.
