(* ===== verification/SchemaRows.v ===== *)
(** * What a schema means for the rows

    When the rows of a database fit the columns and satisfy the constraints and unique
    indexes of a schema, and the rows the records of [Models] stand for.
    [constraints_ok], on which every commit of the development rests, and [fits_ok]
    are shown to be what the declared schema, and up to one CHECK what the migrated
    one, asks of these rows on PostgreSQL. *)

From S2P Require Import Prelude PyStr Models Ddl Revisions.
Local Open Scope Z_scope.

Notation row := (string → value).
Definition rows := string → list row.

(** ** Satisfaction *)
(** A key; [None] when a column of it is NULL, which exempts the row, or a generated
    value, which clashes with none. *)
Fixpoint key_of (cols : list string) (r : row) : option (list value) :=
  match cols with
  | [] => Some []
  | c :: cols => match r c with VNull | VAny => None | v => vs ← key_of cols r; Some (v :: vs) end
  end.
Definition refers (rs : list row) (referred : list string) (key : option (list value)) : Prop :=
  match key with Some k => Exists (λ r, key_of referred r = Some k) rs | None => True end.
Definition satisfied (db : rows) (table : string) (c : constraint) : Prop :=
  match c with
  | PrimaryKey cols | Unique cols => NoDup (omap (key_of cols) (db table))
  | ForeignKey cols target referred _ => Forall (λ r, refers (db target) referred (key_of cols r)) (db table)
  | Check_ p => Forall (λ r, check_holds r p = true) (db table)
  end.
Definition indexed_key (i : Index.t) (r : row) : option (list value) :=
  if match Index.predicate i with Some p => in_index r p | None => true end then key_of (Index.columns i) r else None.
Definition index_satisfied (db : rows) (i : Index.t) : Prop :=
  Index.unique i = true → NoDup (omap (indexed_key i) (db (Index.table i))).
Definition table_satisfied (db : rows) (name : string) (t : Table.t) : Prop :=
  Forall (λ nc, satisfied db name nc.2) (Table.constraints t).
Definition columns_satisfied (db : rows) (name : string) (t : Table.t) : Prop :=
  Forall (λ r, map_Forall (λ c column, fits column (r c) = true) (Table.columns t)) (db name).
Definition satisfies (s : Schema.t) (db : rows) : Prop :=
  map_Forall (columns_satisfied db) (Schema.tables s) ∧ map_Forall (table_satisfied db) (Schema.tables s) ∧
  map_Forall (λ _ i, index_satisfied db i) (Schema.indexes s).

#[export] Instance value_eq_dec : EqDecision value.
Proof. solve_decision. Defined.
#[export] Instance refers_dec rs referred key : Decision (refers rs referred key).
Proof. destruct key; apply _. Defined.
#[export] Instance satisfied_dec db table c : Decision (satisfied db table c).
Proof. destruct c; apply _. Defined.
#[export] Instance index_satisfied_dec db i : Decision (index_satisfied db i).
Proof. unfold index_satisfied. apply _. Defined.
#[export] Instance satisfies_dec s db : Decision (satisfies s db).
Proof. unfold satisfies, table_satisfied, columns_satisfied. apply _. Defined.

(** Schemas that are alike ask the same of the rows. *)
Lemma shapes_satisfied db name t t' :
  tables_alike (Some t) (Some t') → table_satisfied db name t → table_satisfied db name t'.
Proof.
  intros [_ H] Ht. unfold table_satisfied in *. assert (∀ l, Forall (λ nc, satisfied db name nc.2) l ↔
    Forall (λ nc, satisfied db name nc.2) (map constraint_shape l)) as E.
  { intros l. rewrite List.Forall_map. apply Forall_proper; [|done]. intros [n []]; done. }
  by rewrite E, <-H, <-E.
Qed.
Lemma shapes_fit db name t t' :
  tables_alike (Some t) (Some t') → columns_satisfied db name t → columns_satisfied db name t'.
Proof.
  intros [H _] Hall. eapply Forall_impl; [exact Hall|]. intros r Hr c col' Hc. pose proof (f_equal (lookup c) H) as E.
  rewrite !lookup_fmap, Hc in E. destruct (Table.columns t !! c) as [col|] eqn:Ec; [|done].
  rewrite <-(Hr c col Ec). injection E as E1 E2. unfold fits. by rewrite E1, E2.
Qed.
Lemma alike_satisfies s s' db : alike s s' → satisfies s db → satisfies s' db.
Proof.
  intros [Ht Hi] (H0 & H1 & H2). split; [|split; [|by rewrite <-Hi]]; intros name t' E; specialize (Ht name); rewrite E in Ht;
    (destruct (Schema.tables s !! name) as [t|] eqn:Et; [|done]).
  - eapply shapes_fit; [exact Ht|by apply H0].
  - eapply shapes_satisfied; [exact Ht|by apply H1].
Qed.
#[export] Instance satisfies_proper : Proper (alike ==> eq ==> iff) satisfies.
Proof. intros s s' H db _ <-. split; apply alike_satisfies; [done|by symmetry]. Qed.

(** The declared schema, class by class. *)
Lemma map_Forall_list_to_map {A} (P : string → A → Prop) (l : list (string * A)) :
  NoDup l.*1 → map_Forall P (list_to_map l : gmap string A) ↔ Forall (λ kx, P kx.1 kx.2) l.
Proof.
  intros Hl. rewrite map_Forall_to_list, map_to_list_to_map by done. apply Forall_proper; [by intros []|done].
Qed.
Definition mapping_satisfied (db : rows) (m : Mapping.t) : Prop :=
  table_satisfied db (Mapping.tablename m) (table_of m) ∧ Forall (λ ni, index_satisfied db ni.2) (indexes_of m).
Definition columns_fit (m : Mapping.t) (r : row) : bool :=
  forallb (λ c, fits (column_of c).2 (r (Mapped.name c))) (Mapping.columns m).
Definition mapping_fits (db : rows) (m : Mapping.t) : Prop := Forall (λ r, columns_fit m r = true) (db (Mapping.tablename m)).
Definition columns_named (m : Mapping.t) : Prop := NoDup (map column_of (Mapping.columns m)).*1.
Lemma columns_of_mapping db m : columns_named m → columns_satisfied db (Mapping.tablename m) (table_of m) ↔ mapping_fits db m.
Proof.
  intros Hm. unfold columns_satisfied, mapping_fits. apply Forall_proper; [|done]. intros r. unfold table_of. cbn [Table.columns].
  rewrite map_Forall_list_to_map, List.Forall_map by done. unfold columns_fit. by rewrite forallb_forall, List.Forall_forall.
Qed.
Lemma satisfies_metadata l db :
  NoDup (map Mapping.tablename l) → NoDup (flat_map indexes_of l).*1 → Forall columns_named l →
  satisfies (metadata l) db ↔ Forall (mapping_fits db) l ∧ Forall (mapping_satisfied db) l.
Proof.
  intros Ht Hi Hc. unfold satisfies, metadata. cbn [Schema.tables Schema.indexes].
  rewrite !map_Forall_list_to_map; [|done|by rewrite <-list_fmap_compose..]. rewrite !List.Forall_map, Forall_flat_map.
  unfold mapping_satisfied. rewrite Forall_and. apply and_iff_compat_r.
  rewrite !Forall_forall. rewrite Forall_forall in Hc. apply forall_proper; intros m. split; intros H Hm.
  - apply columns_of_mapping; [by apply Hc|by apply H].
  - apply columns_of_mapping; [by apply Hc|by apply H].
Qed.

(** ** The rows of the records

    Every column; [updated_at], the generated ids of [worker_gpus] and of the usage
    tables and [params_b], which the records leave out, are [VAny], and so are times,
    flags, floats and documents. *)
Fixpoint cell (l : list (string * value)) : row := λ c,
  match l with [] => VNull | (k, v) :: l => if String.eqb k c then v else cell l c end.
Definition opt {A} (f : A → value) (o : option A) : value := match o with Some x => f x | None => VNull end.
Definition user_row (u : User.t) : row :=
  cell [("id", VUuid (User.id u)); ("username", VStr (User.username u)); ("email", opt VStr (User.email u));
        ("password_hash", VStr (User.password_hash u)); ("role", VStr (User.role u)); ("is_active", VAny);
        ("token_limit", opt VInt (User.token_limit u)); ("request_limit", opt VInt (User.request_limit u));
        ("created_at", VAny); ("updated_at", VAny)].
Definition cluster_row (c : Cluster.t) : row :=
  cell [("id", VUuid (Cluster.id c)); ("name", VStr (Cluster.name c));
        ("description", opt VStr (Cluster.description c)); ("created_at", VAny)].
Definition worker_row (w : Worker.t) : row :=
  cell [("id", VUuid (Worker.id w)); ("cluster_id", VUuid (Worker.cluster_id w)); ("name", VStr (Worker.name w));
        ("hostname", VStr (Worker.hostname w)); ("state", VStr (Worker.state w));
        ("version", opt VStr (Worker.version w)); ("os", opt VStr (Worker.os w));
        ("cpu_cores", opt VInt (Worker.cpu_cores w)); ("memory_mb", opt VInt (Worker.memory_mb w));
        ("token_hash", VStr (Worker.token_hash w)); ("address", opt VStr (Worker.address w));
        ("last_seen_at", opt (λ _, VAny) (Worker.last_seen_at w)); ("created_at", VAny)].
Definition gpu_row (g : WorkerGPU.t) : row :=
  cell [("id", VAny); ("worker_id", VUuid (WorkerGPU.worker_id g)); ("index", VInt (WorkerGPU.index g));
        ("vendor", VStr (WorkerGPU.vendor g)); ("name", VStr (WorkerGPU.name g));
        ("vram_mb", VInt (WorkerGPU.vram_mb g)); ("used_vram_mb", VInt (WorkerGPU.used_vram_mb g));
        ("utilization_pct", VInt (WorkerGPU.utilization_pct g)); ("uuid", opt VStr (WorkerGPU.gpu_uuid g));
        ("driver_version", opt VStr (WorkerGPU.driver_version g))].
Definition model_row (m : Model.t) : row :=
  cell [("id", VUuid (Model.id m)); ("name", VStr (Model.name m)); ("display_name", VStr (Model.display_name m));
        ("category", VStr (Model.category m)); ("description", opt VStr (Model.description m)); ("params_b", VAny);
        ("vram_required_mb", VInt (Model.vram_required_mb m)); ("requires_hf_token", VAny);
        ("license", opt VStr (Model.license m)); ("is_builtin", VAny); ("supported_engines", VAny);
        ("created_at", VAny)].
Definition api_key_row (k : ApiKey.t) : row :=
  cell [("id", VUuid (ApiKey.id k)); ("user_id", VUuid (ApiKey.user_id k)); ("name", VStr (ApiKey.name k));
        ("key_hash", VStr (ApiKey.key_hash k)); ("scopes", VAny);
        ("last_used_at", opt (λ _, VAny) (ApiKey.last_used_at k));
        ("revoked_at", opt (λ _, VAny) (ApiKey.revoked_at k)); ("created_at", VAny); ("updated_at", VAny)].
Definition deployment_row (r : Deployment.t) : row :=
  cell [("id", VUuid (Deployment.id r)); ("model_id", VUuid (Deployment.model_id r));
        ("cluster_id", VUuid (Deployment.cluster_id r)); ("engine", VStr (Deployment.engine r));
        ("profile", VStr (Deployment.profile r)); ("min_replicas", VInt (Deployment.min_replicas r));
        ("max_replicas", VInt (Deployment.max_replicas r));
        ("nodes_per_replica", VInt (Deployment.nodes_per_replica r));
        ("parallel_mode", opt VStr (Deployment.parallel_mode r)); ("created_at", VAny);
        ("last_scaled_at", opt (λ _, VAny) (Deployment.last_scaled_at r))].
Definition instance_row (i : ModelInstance.t) : row :=
  cell [("id", VUuid (ModelInstance.id i)); ("model_id", VUuid (ModelInstance.model_id i));
        ("cluster_id", VUuid (ModelInstance.cluster_id i)); ("worker_id", opt VUuid (ModelInstance.worker_id i));
        ("deployment_id", VUuid (ModelInstance.deployment_id i)); ("engine", VStr (ModelInstance.engine i));
        ("profile", VStr (ModelInstance.profile i)); ("gpu_indexes", VAny); ("state", VStr (ModelInstance.state i));
        ("desired_state", VStr (ModelInstance.desired_state i)); ("generation", VInt (ModelInstance.generation i));
        ("port", opt VInt (ModelInstance.port i)); ("error_detail", opt VStr (ModelInstance.error_detail i));
        ("log_tail", opt VStr (ModelInstance.log_tail i));
        ("parallel_group_id", opt VUuid (ModelInstance.parallel_group_id i));
        ("node_rank", opt VInt (ModelInstance.node_rank i)); ("world_size", opt VInt (ModelInstance.world_size i));
        ("parallel_mode", opt VStr (ModelInstance.parallel_mode i));
        ("rendezvous", opt VStr (ModelInstance.rendezvous i)); ("created_at", VAny); ("updated_at", VAny)].
Definition usage_row (u : UsageRecord.t) : row :=
  cell [("id", VAny); ("user_id", VUuid (UsageRecord.user_id u)); ("api_key_id", VUuid (UsageRecord.api_key_id u));
        ("model_id", VUuid (UsageRecord.model_id u)); ("period_start", VInt (UsageRecord.period_start u));
        ("requests", VInt (UsageRecord.requests u)); ("tokens_in", VInt (UsageRecord.tokens_in u));
        ("tokens_out", VInt (UsageRecord.tokens_out u)); ("latency_ms_sum", VInt (UsageRecord.latency_ms_sum u));
        ("created_at", VAny); ("updated_at", VAny)].
Definition gpu_usage_row (u : GpuUsageRecord.t) : row :=
  cell [("id", VAny); ("model_id", VUuid (GpuUsageRecord.model_id u));
        ("cluster_id", VUuid (GpuUsageRecord.cluster_id u)); ("period_start", VInt (GpuUsageRecord.period_start u));
        ("gpu_seconds", VAny); ("created_at", VAny); ("updated_at", VAny)].
Definition rows_of (d : Db.t) : rows := λ t,
  if String.eqb t "users" then map user_row (Db.users d)
  else if String.eqb t "clusters" then map cluster_row (Db.clusters d)
  else if String.eqb t "workers" then map worker_row (Db.workers d)
  else if String.eqb t "worker_gpus" then map gpu_row (Db.worker_gpus d)
  else if String.eqb t "models" then map model_row (Db.models d)
  else if String.eqb t "api_keys" then map api_key_row (Db.api_keys d)
  else if String.eqb t "deployments" then map deployment_row (Db.deployments d)
  else if String.eqb t "model_instances" then map instance_row (Db.instances d)
  else if String.eqb t "usage_records" then map usage_row (Db.usage_records d)
  else if String.eqb t "gpu_usage_records" then map gpu_usage_row (Db.gpu_usage_records d)
  else [].

(** ** The kinds of constraint, on encoded rows *)
Lemma unique_opt_rows {A K} `{EqDecision K} (g : row → option (list value)) (enc : A → row) (f : A → option K)
    (k : K → list value) l :
  Inj (=) (=) k → (∀ x, g (enc x) = k <$> f x) → NoDup (omap g (map enc l)) ↔ unique_by_opt f l = true.
Proof.
  intros Hk E. unfold unique_by_opt. rewrite bool_decide_eq_true.
  assert (omap g (map enc l) = map k (omap f l)) as ->.
  { induction l as [|x l IH]; [done|]. cbn. rewrite E. destruct (f x); cbn; by rewrite IH. }
  split; [apply NoDup_fmap_1|by apply NoDup_fmap_2].
Qed.
Lemma unique_rows {A K} `{EqDecision K} (g : row → option (list value)) (enc : A → row) (f : A → K) (k : K → list value) l :
  Inj (=) (=) k → (∀ x, g (enc x) = Some (k (f x))) → NoDup (omap g (map enc l)) ↔ unique_by f l = true.
Proof.
  intros Hk E. rewrite (unique_opt_rows g enc (Some ∘ f) k) by done. unfold unique_by, unique_by_opt.
  assert (omap (Some ∘ f) l = map f l) as ->; [|done]. induction l as [|x l IH]; [done|]. cbn. by rewrite <-IH.
Qed.
Lemma no_key_rows {A} (g : row → option (list value)) (enc : A → row) l :
  (∀ x, g (enc x) = None) → NoDup (omap g (map enc l)) ↔ True.
Proof.
  intros E. assert (omap g (map enc l) = []) as ->; [|split; [done|intros; constructor]].
  induction l as [|x l IH]; [done|]. cbn. by rewrite E.
Qed.
Lemma refers_opt_rows {A B} (enc : A → row) (enc' : B → row) (id : B → uuid) c (f : A → option uuid) l l' :
  (∀ x, enc x c = opt VUuid (f x)) → (∀ y, enc' y "id" = VUuid (id y)) →
  Forall (λ r, refers (map enc' l') ["id"] (key_of [c] r)) (map enc l) ↔
  forallb (λ x, match f x with Some u => has (find_by (λ y, (id y =? u)%N) l') | None => true end) l = true.
Proof.
  intros Ef Eid. rewrite List.Forall_map, forallb_forall, Forall_forall. setoid_rewrite list_elem_of_In.
  apply forall_proper; intros x. apply forall_proper; intros _. cbn [key_of]. rewrite Ef. destruct (f x) as [u|]; cbn; [|done].
  rewrite List.Exists_map, Exists_exists, find_by_has. apply exist_proper; intros y. rewrite Eid, N.eqb_eq. cbn. naive_solver.
Qed.
Lemma refers_rows {A B} (enc : A → row) (enc' : B → row) (id : B → uuid) c (f : A → uuid) l l' :
  (∀ x, enc x c = VUuid (f x)) → (∀ y, enc' y "id" = VUuid (id y)) →
  Forall (λ r, refers (map enc' l') ["id"] (key_of [c] r)) (map enc l) ↔
  forallb (λ x, has (find_by (λ y, (id y =? f x)%N) l')) l = true.
Proof. intros Ef Eid. by rewrite (refers_opt_rows enc enc' id c (Some ∘ f) l l'). Qed.
Lemma check_rows {A} (enc : A → row) (p : expr) (b : A → bool) l :
  (∀ x, check_holds (enc x) p = b x) → Forall (λ r, check_holds r p = true) (map enc l) ↔ forallb b l = true.
Proof.
  intros E. rewrite List.Forall_map, forallb_forall, Forall_forall. setoid_rewrite list_elem_of_In. by setoid_rewrite E.
Qed.

Lemma fits_opt {A} c (f : A → value) o :
  fits c (opt f o) = match o with Some x => fits c (f x) | None => Column.nullable c end.
Proof. by destruct o. Qed.
Lemma fitting_rows {A} db m (enc : A → row) (b : A → bool) l :
  db (Mapping.tablename m) = map enc l → (∀ x, columns_fit m (enc x) = b x) → mapping_fits db m ↔ forallb b l = true.
Proof.
  intros Hl E. unfold mapping_fits. rewrite Hl, List.Forall_map, forallb_forall, Forall_forall.
  setoid_rewrite list_elem_of_In. by setoid_rewrite E.
Qed.
(** Column by column. *)
Ltac fits_columns :=
  intros x; apply eq_iff_eq_true; unfold columns_fit; cbn -[fits opt]; rewrite !andb_true_iff, ?fits_opt;
  unfold fits_user, fits_cluster, fits_worker, fits_gpu, fits_model, fits_api_key, fits_deployment, fits_instance, fits_usage, opt_fits;
  rewrite ?andb_true_iff; cbn -[str_fits storable int32]; repeat case_match; tauto.

(** ** The constraints of the development *)
Lemma forallb_andb {A} (f g : A → bool) l :
  forallb (λ x, f x && g x) l = true ↔ forallb f l = true ∧ forallb g l = true.
Proof.
  induction l as [|x l IH]; [done|]. cbn [forallb]. rewrite !andb_true_iff, IH. tauto.
Qed.
Lemma one_of_in s l : bool_decide (s ∈ l) = one_of s l.
Proof.
  apply eq_bool_prop_intro. rewrite bool_decide_spec. unfold one_of. rewrite Is_true_true, existsb_exists. split.
  - intros H%list_elem_of_In. exists s. split; [done|]. apply String.eqb_refl.
  - intros (x & Hx%list_elem_of_In & ->%String.eqb_eq). done.
Qed.
Lemma in_check_rows {A} (enc : A → row) c vs (f : A → string) l :
  (∀ x, enc x c = VStr (f x)) → Forall (λ r, check_holds r (In_ c vs) = true) (map enc l) ↔ forallb (λ x, one_of (f x) vs) l = true.
Proof. intros E. apply check_rows. intros x. unfold check_holds. cbn [eval]. rewrite E, one_of_in. by destruct (one_of _ _). Qed.
Lemma true_implies (P : Prop) : (true = true → P) ↔ P.
Proof. tauto. Qed.
Lemma false_implies (P : Prop) : (false = true → P) ↔ True.
Proof. split; done. Qed.
Lemma and_True (P : Prop) : P ∧ True ↔ P.
Proof. tauto. Qed.
Lemma True_and (P : Prop) : True ∧ P ↔ P.
Proof. tauto. Qed.
(** The constraints of a class as a conjunction. *)
Ltac open_mapping :=
  unfold mapping_satisfied, table_satisfied; cbn -[omap]; rewrite !Forall_cons, !Forall_nil;
  unfold satisfied, index_satisfied; cbn -[omap key_of check_holds indexed_key];
  rewrite ?true_implies, ?false_implies, ?and_True, ?True_and.
Ltac injective := intros ? ?; repeat match goal with x : _ * _ |- _ => destruct x end; cbn; congruence.
Tactic Notation "unique_by" constr(f) constr(k) := rewrite (unique_rows _ _ f k) by (first [done|injective]).
Tactic Notation "refers_by" constr(enc) constr(id) constr(f) := rewrite (refers_rows _ enc id _ f) by done.
Tactic Notation "in_by" constr(f) := rewrite (in_check_rows _ _ _ f) by done.

Section tables.
Context (d : Db.t).
Notation db := (rows_of d).
Lemma user_rows :
  mapping_satisfied db Revisions.User ↔
  unique_by User.id (Db.users d) = true ∧ forallb ck_user (Db.users d) = true ∧ unique_by User.username (Db.users d) = true.
Proof.
  open_mapping. unique_by User.id (λ u, [VUuid u]). unique_by User.username (λ s, [VStr s]). in_by User.role. tauto.
Qed.
Lemma cluster_rows :
  mapping_satisfied db Revisions.Cluster ↔
  unique_by Cluster.id (Db.clusters d) = true ∧ unique_by Cluster.name (Db.clusters d) = true.
Proof. open_mapping. unique_by Cluster.id (λ u, [VUuid u]). unique_by Cluster.name (λ s, [VStr s]). done. Qed.
Lemma worker_rows :
  mapping_satisfied db Revisions.Worker ↔
  unique_by Worker.id (Db.workers d) = true ∧ forallb (λ w, has (find_cluster d (Worker.cluster_id w))) (Db.workers d) = true ∧
  unique_by (λ w, (Worker.cluster_id w, Worker.hostname w)) (Db.workers d) = true ∧
  unique_by (λ w, (Worker.cluster_id w, Worker.name w)) (Db.workers d) = true ∧ forallb ck_worker (Db.workers d) = true.
Proof.
  open_mapping. unique_by Worker.id (λ u, [VUuid u]). refers_by cluster_row Cluster.id Worker.cluster_id. in_by Worker.state.
  unique_by (λ w, (Worker.cluster_id w, Worker.hostname w)) (λ p : uuid * string, [VUuid p.1; VStr p.2]).
  unique_by (λ w, (Worker.cluster_id w, Worker.name w)) (λ p : uuid * string, [VUuid p.1; VStr p.2]). done.
Qed.
Lemma gpu_rows :
  mapping_satisfied db Revisions.WorkerGPU ↔
  forallb (λ g, has (find_worker d (WorkerGPU.worker_id g))) (Db.worker_gpus d) = true ∧
  unique_by (λ g, (WorkerGPU.worker_id g, WorkerGPU.index g)) (Db.worker_gpus d) = true ∧ forallb ck_gpu (Db.worker_gpus d) = true.
Proof.
  open_mapping. rewrite no_key_rows by done. rewrite True_and. refers_by worker_row Worker.id WorkerGPU.worker_id.
  unique_by (λ g, (WorkerGPU.worker_id g, WorkerGPU.index g)) (λ p : uuid * Z, [VUuid p.1; VInt p.2]). in_by WorkerGPU.vendor. done.
Qed.
Lemma model_rows :
  mapping_satisfied db Revisions.Model ↔
  unique_by Model.id (Db.models d) = true ∧ unique_by Model.name (Db.models d) = true ∧ forallb ck_model (Db.models d) = true.
Proof. open_mapping. unique_by Model.id (λ u, [VUuid u]). unique_by Model.name (λ s, [VStr s]). in_by Model.category. done. Qed.
Lemma api_key_rows :
  mapping_satisfied db Revisions.ApiKey ↔
  unique_by ApiKey.id (Db.api_keys d) = true ∧ forallb (λ k, has (find_user d (ApiKey.user_id k))) (Db.api_keys d) = true ∧
  unique_by ApiKey.key_hash (Db.api_keys d) = true.
Proof.
  open_mapping. unique_by ApiKey.id (λ u, [VUuid u]). refers_by user_row User.id ApiKey.user_id.
  unique_by ApiKey.key_hash (λ s, [VStr s]). tauto.
Qed.
(** The range of a deployment, and its number of nodes. *)
Definition range_ok (r : Deployment.t) : bool :=
  (1 <=? Deployment.min_replicas r) && (Deployment.min_replicas r <=? Deployment.max_replicas r) && (Deployment.max_replicas r <=? 8).
Definition nodes_ok (r : Deployment.t) : bool := (1 <=? Deployment.nodes_per_replica r) && (Deployment.nodes_per_replica r <=? 8).
Lemma and3_Some a b : and3 (Some a) (Some b) = Some (a && b).
Proof. by destruct a, b. Qed.
Lemma check_range r : check_holds (deployment_row r) min_max_check = range_ok r.
Proof.
  unfold check_holds, range_ok, min_max_check. cbn -[Z.leb Z.geb and3]. rewrite !and3_Some, !Z.geb_leb. by case_match.
Qed.
Lemma check_nodes r : check_holds (deployment_row r) nodes_check = nodes_ok r.
Proof.
  unfold check_holds, nodes_ok, nodes_check. cbn -[Z.leb Z.geb and3]. rewrite !and3_Some, !Z.geb_leb. by case_match.
Qed.
Lemma check_mode r :
  check_holds (deployment_row r) parallel_mode_check =
  one_of_or_null (Deployment.parallel_mode r) ["single"; "dp"; "pp"; "tp"; "pd"].
Proof.
  unfold check_holds, parallel_mode_check. cbn -[one_of bool_decide]. destruct (Deployment.parallel_mode r) as [m|]; [|done].
  cbn -[one_of bool_decide]. rewrite one_of_in. by destruct (one_of _ _).
Qed.
Lemma ck_deployment_rows l :
  forallb ck_deployment l = true ↔
  forallb (λ r, one_of (Deployment.engine r) ["vllm"; "sglang"]) l = true ∧
  forallb (λ r, one_of (Deployment.profile r) ["latency"; "throughput"]) l = true ∧
  forallb range_ok l = true ∧ forallb nodes_ok l = true ∧
  forallb (λ r, one_of_or_null (Deployment.parallel_mode r) ["single"; "dp"; "pp"; "tp"; "pd"]) l = true.
Proof. unfold ck_deployment. rewrite !forallb_andb. fold range_ok nodes_ok. unfold range_ok, nodes_ok. rewrite !forallb_andb. tauto. Qed.
Lemma deployment_rows :
  mapping_satisfied db Revisions.Deployment ↔
  unique_by Deployment.id (Db.deployments d) = true ∧
  forallb (λ r, has (find_model d (Deployment.model_id r)) && has (find_cluster d (Deployment.cluster_id r))) (Db.deployments d) = true ∧
  forallb ck_deployment (Db.deployments d) = true.
Proof.
  open_mapping. unique_by Deployment.id (λ u, [VUuid u]). refers_by model_row Model.id Deployment.model_id.
  refers_by cluster_row Cluster.id Deployment.cluster_id. in_by Deployment.engine. in_by Deployment.profile.
  rewrite (check_rows _ _ _ _ check_range), (check_rows _ _ _ _ check_nodes), (check_rows _ _ _ _ check_mode).
  rewrite ck_deployment_rows, forallb_andb. tauto.
Qed.

Lemma live_in_index i : in_index (instance_row i) live_predicate = port_reserved i.
Proof.
  change (in_index (instance_row i) live_predicate)
    with (match or3 (Some (String.eqb (ModelInstance.desired_state i) "running"))
                  (Some (bool_decide (ModelInstance.state i ∈ ["scheduled"; "starting"; "running"]))) with
          | Some true => true | _ => false end).
  rewrite one_of_in. unfold port_reserved. change (in_live_states ?s) with (one_of s ["scheduled"; "starting"; "running"]).
  by destruct (String.eqb _ _), (one_of _ _).
Qed.
Lemma worker_port_index i :
  indexed_key (Index.mk "model_instances" ["worker_id"; "port"] true (Some live_predicate)) (instance_row i) =
  (λ p : uuid * Z, [VUuid p.1; VInt p.2]) <$> worker_port_key i.
Proof.
  unfold indexed_key, worker_port_key. cbn [Index.predicate Index.columns]. rewrite live_in_index. cbn.
  by destruct (port_reserved i), (ModelInstance.worker_id i), (ModelInstance.port i).
Qed.
Lemma group_rank_index i :
  indexed_key (Index.mk "model_instances" ["parallel_group_id"; "node_rank"] true (Some (IsNotNull "parallel_group_id"))) (instance_row i) =
  (λ p : uuid * Z, [VUuid p.1; VInt p.2]) <$> group_rank_key i.
Proof.
  unfold indexed_key, group_rank_key. cbn. by destruct (ModelInstance.parallel_group_id i), (ModelInstance.node_rank i).
Qed.
Lemma instance_rows :
  mapping_satisfied db Revisions.ModelInstance ↔
  unique_by ModelInstance.id (Db.instances d) = true ∧
  forallb (λ i, has (find_model d (ModelInstance.model_id i)) && has (find_cluster d (ModelInstance.cluster_id i))
                && has (find_deployment d (ModelInstance.deployment_id i))
                && match ModelInstance.worker_id i with Some w => has (find_worker d w) | None => true end) (Db.instances d) = true ∧
  forallb ck_instance (Db.instances d) = true ∧
  unique_worker_port (Db.instances d) = true ∧ unique_group_rank (Db.instances d) = true.
Proof.
  open_mapping. unique_by ModelInstance.id (λ u, [VUuid u]). refers_by model_row Model.id ModelInstance.model_id.
  refers_by cluster_row Cluster.id ModelInstance.cluster_id. refers_by deployment_row Deployment.id ModelInstance.deployment_id.
  rewrite (refers_opt_rows _ worker_row Worker.id _ ModelInstance.worker_id) by done.
  in_by ModelInstance.state. in_by ModelInstance.desired_state. in_by ModelInstance.engine. in_by ModelInstance.profile.
  rewrite (unique_opt_rows _ _ worker_port_key (λ p, [VUuid p.1; VInt p.2])) by first [exact worker_port_index|injective].
  rewrite (unique_opt_rows _ _ group_rank_key (λ p, [VUuid p.1; VInt p.2])) by first [exact group_rank_index|injective].
  unfold ck_instance. rewrite !forallb_andb. tauto.
Qed.
Lemma usage_rows :
  mapping_satisfied db Revisions.UsageRecord ↔
  forallb (λ u, has (find_user d (UsageRecord.user_id u)) && has (find_api_key d (UsageRecord.api_key_id u))
                && has (find_model d (UsageRecord.model_id u))) (Db.usage_records d) = true ∧
  unique_by (λ u, (UsageRecord.user_id u, UsageRecord.api_key_id u, UsageRecord.model_id u, UsageRecord.period_start u))
    (Db.usage_records d) = true.
Proof.
  open_mapping. rewrite no_key_rows by done. refers_by user_row User.id UsageRecord.user_id.
  refers_by api_key_row ApiKey.id UsageRecord.api_key_id. refers_by model_row Model.id UsageRecord.model_id.
  unique_by (λ u, (UsageRecord.user_id u, UsageRecord.api_key_id u, UsageRecord.model_id u, UsageRecord.period_start u))
    (λ p : uuid * uuid * uuid * Z, [VUuid p.1.1.1; VUuid p.1.1.2; VUuid p.1.2; VInt p.2]).
  rewrite !forallb_andb. tauto.
Qed.
Lemma gpu_usage_rows :
  mapping_satisfied db Revisions.GpuUsageRecord ↔
  forallb (λ u, has (find_model d (GpuUsageRecord.model_id u)) && has (find_cluster d (GpuUsageRecord.cluster_id u)))
    (Db.gpu_usage_records d) = true ∧
  unique_by (λ u, (GpuUsageRecord.model_id u, GpuUsageRecord.cluster_id u, GpuUsageRecord.period_start u)) (Db.gpu_usage_records d) = true.
Proof.
  open_mapping. rewrite no_key_rows by done. refers_by model_row Model.id GpuUsageRecord.model_id.
  refers_by cluster_row Cluster.id GpuUsageRecord.cluster_id.
  unique_by (λ u, (GpuUsageRecord.model_id u, GpuUsageRecord.cluster_id u, GpuUsageRecord.period_start u))
    (λ p : uuid * uuid * Z, [VUuid p.1.1; VUuid p.1.2; VInt p.2]).
  rewrite !forallb_andb. tauto.
Qed.

(** Every row fits its columns. *)
Lemma columns_fitting :
  Forall (mapping_fits db) [Revisions.User; Revisions.Cluster; Revisions.Worker; Revisions.WorkerGPU; Revisions.Model;
    Revisions.ApiKey; Revisions.Deployment; Revisions.ModelInstance; Revisions.UsageRecord; Revisions.GpuUsageRecord] ↔
  fits_ok d = true.
Proof.
  rewrite !Forall_cons, Forall_nil.
  rewrite (fitting_rows _ _ user_row fits_user (Db.users d)), (fitting_rows _ _ cluster_row fits_cluster (Db.clusters d)),
    (fitting_rows _ _ worker_row fits_worker (Db.workers d)), (fitting_rows _ _ gpu_row fits_gpu (Db.worker_gpus d)),
    (fitting_rows _ _ model_row fits_model (Db.models d)), (fitting_rows _ _ api_key_row fits_api_key (Db.api_keys d)),
    (fitting_rows _ _ deployment_row fits_deployment (Db.deployments d)),
    (fitting_rows _ _ instance_row fits_instance (Db.instances d)), (fitting_rows _ _ usage_row fits_usage (Db.usage_records d)),
    (fitting_rows _ _ gpu_usage_row (λ _, true) (Db.gpu_usage_records d)) by first [done|fits_columns].
  assert (forallb (λ _, true) (Db.gpu_usage_records d) = true) as -> by by apply forallb_forall.
  unfold fits_ok. rewrite !andb_true_iff. tauto.
Qed.
(** The constraints every commit of the development is checked against, and the widths
    of the columns, are the ones the ORM classes declare. *)
Lemma declared_constraints : satisfies declared db ↔ constraints_ok d = true ∧ fits_ok d = true.
Proof.
  unfold declared. rewrite satisfies_metadata; [|vm_decide|vm_decide|vm_decide].
  rewrite columns_fitting, !Forall_cons, Forall_nil, user_rows, cluster_rows, worker_rows, gpu_rows, model_rows, api_key_rows,
    deployment_rows, instance_rows, usage_rows, gpu_usage_rows.
  unfold constraints_ok, checks_ok, uniques_ok, fks_ok. rewrite !andb_true_iff. tauto.
Qed.
End tables.

(** ** What the migrated schema enforces *)
Lemma map_Forall_update {A} (P : string → A → Prop) (m : gmap string A) i x y :
  m !! i = Some x → map_Forall P (<[i := y]> m) ↔ P i y ∧ map_Forall P (delete i m).
Proof. intros _. rewrite <-insert_delete_eq. apply map_Forall_insert, lookup_delete_eq. Qed.
Lemma create_constraint_satisfies table name c s s' db :
  create_constraint table name c s = Ok s' → satisfies s' db ↔ satisfies s db ∧ satisfied db table c.
Proof.
  unfold create_constraint, the_table. destruct (Schema.tables s !! table) as [t|] eqn:E; [|done]. rewrite result_bind_eq.
  destruct (named name t); [done|]. intros [-> _]%guarded_Ok. unfold satisfies. cbn [with_constraints set_tables Schema.tables Schema.indexes].
  rewrite !(map_Forall_update _ _ _ _ _ E). rewrite <-(insert_id _ _ _ E) at 3 4. rewrite !(map_Forall_update _ _ _ _ _ E).
  change (columns_satisfied db table (Table.mk (Table.columns t) (Table.constraints t ++ [(name, c)]))) with (columns_satisfied db table t).
  unfold table_satisfied at 1 3. cbn [Table.constraints]. rewrite Forall_app, Forall_singleton. cbn [snd]. tauto.
Qed.

Lemma head_constraints d :
  constraints_ok d = true ∧ fits_ok d = true ↔
  satisfies head_schema (rows_of d) ∧ forallb nodes_ok (Db.deployments d) = true.
Proof.
  rewrite <-declared_constraints. assert (repair = Ok repaired) as Hr by (apply Ok_result_or; by vm_compute).
  rewrite <-repaired_alike, (create_constraint_satisfies _ _ _ _ _ _ Hr). cbn [satisfied].
  change (rows_of d "deployments") with (map deployment_row (Db.deployments d)). by rewrite (check_rows _ _ _ _ check_nodes).
Qed.

(** C6 The migrated database enforces what the development rests on.  The schema the
    migrations build on PostgreSQL can hold the rows of a database exactly when
    [constraints_ok] and [fits_ok] hold of it, every CHECK, unique index, primary and
    foreign key and every width and NOT NULL of a column included, provided the
    deployments have one to eight nodes per replica, which nothing in the migrated
    database checks. *)
Theorem migrated_schema_enforces :
  ∃ head, upgrade_to PostgreSQL head_revision = Some head ∧
    ∀ d, constraints_ok d = true ∧ fits_ok d = true ↔
         satisfies head (rows_of d) ∧ forallb nodes_ok (Db.deployments d) = true.
Proof. exists head_schema. split; [apply head_reached|]. apply head_constraints. Qed.
(** A name of 65 characters breaks no constraint, and no column holds it. *)
Definition long_named : Db.t := Db.set_clusters [Cluster.mk 1 (String.concat "" (replicate 65 "c")) None 0] Db.empty.
Lemma head_refuses_long_name : constraints_ok long_named = true ∧ ¬ satisfies head_schema (rows_of long_named).
Proof. split; [by vm_compute|]. apply (bool_decide_unpack _). by vm_compute. Qed.
(** The gap: nine nodes per replica are accepted. *)
Definition nine_nodes : Db.t :=
  Db.set_models [Sample.model] (Db.set_clusters [Cluster.mk 1 "c" None 0]
    (Db.set_deployments [Deployment.mk 50 7 1 "vllm" "latency" 1 1 9 None 0 None] Db.empty)).
Lemma head_admits_nine_nodes : satisfies head_schema (rows_of nine_nodes) ∧ constraints_ok nine_nodes = false.
Proof.
  split; [|by vm_compute]. apply (bool_decide_unpack _). by vm_compute.
Qed.
