(* ===== verification/Api.v ===== *)
(** * The REST API as a whole ([server/inferna_server/api/__init__.py])

    The router over the handlers of [Accounts], [Catalog], [Instances] and
    [UsageApi] with the dependencies of each endpoint; that nothing is written
    without authority, and the invariants every call, worker RPC and background
    loop keeps. *)

From S2P Require Import Prelude PyStr Uuid Models Config Schemas Proto WorkersSvc Scheduler Scaling.
From S2P Require Import Autoscaling Usage Gateway Instances Accounts Catalog UsageApi.
Local Open Scope Z_scope.

(** ** The REST calls *)
Inductive call :=
  | Login (body : LoginRequest.t) | Me
  | ListUsers | CreateUser (body : UserCreate.t) | DeleteUser (id : uuid)
  | SetUserLimits (id : uuid) (body : UserLimitsUpdate.t) | ChangePassword (id : uuid) (body : PasswordChange.t)
  | CreateKey (body : ApiKeyCreate.t) | ListKeys | RevokeKey (id : uuid)
  | ListClusters | CreateCluster (body : ClusterCreate.t) | DeleteCluster (id : uuid)
  | ListWorkers (cluster_id : option uuid) | DeleteWorker (id : uuid)
  | ListModels | GetModel (id : uuid) | CreateModel (body : ModelCreate.t) | DeleteModel (id : uuid)
  | ListInstances | Deploy (body : DeployRequest.t) | StopInstance (id : uuid) | RestartInstance (id : uuid)
  | DeleteInstance (id : uuid) | InstanceLogs (id : uuid) (live : bool) (lines : Z)
  | ListDeployments | ScaleDeployment (id : uuid) (body : ScaleRequest.t)
  | SetDeploymentRange (id : uuid) (body : DeploymentRange.t) | DeleteDeployment (id : uuid)
  | Dashboard | GetUsage (days : Z) (model_id key_id : option uuid) | Compatibility.

(** What a call draws from its environment: the clock, new identifiers and random
    digits, what the log poll reads from the database, the usage buffer. *)
Module Env.
Record t := mk {
  now : datetime; today : Z; id : uuid; token_hex : string; dep_id : uuid; fresh : Fresh.t;
  polls : list Db.t; pending : pending_t }.
End Env.

(** FastAPI answers a body or a query that does not validate with a 422, after the
    dependencies of the endpoint. *)
Definition validated {A} (valid : bool) (m : DbM A) : DbM unit :=
  if valid then _ ← m; mret tt else http_error 422 "validation error".

Section api.
Context (hashpw : string → result string) (checkpw : string → string → result bool)
        (jwt_encode : string → Claims.t → string) (jwt_decode : string → datetime → string → option Claims.t)
        (s : Settings.t).

Definition me (user : User.t) : DbM User.t := mret user.

Definition api_router (e : Env.t) (token : string) (c : call) : DbM unit :=
  let now := Env.now e in
  let user valid {A} (h : User.t → DbM A) := as_user jwt_decode s now token (λ u, validated valid (h u)) in
  let admin valid {A} (h : User.t → DbM A) := as_admin jwt_decode s now token (λ u, validated valid (h u)) in
  match c with
  | Login body => validated true (login checkpw jwt_encode s now body)
  | Me => user true me
  | ListUsers => admin true list_users
  | CreateUser body => admin (UserCreate.valid body) (create_user hashpw (Env.id e) body)
  | DeleteUser id => admin true (delete_user id)
  | SetUserLimits id body => admin (UserLimitsUpdate.valid body) (set_user_limits id body)
  | ChangePassword id body => user (PasswordChange.valid body) (change_password hashpw id body)
  | CreateKey body => user (ApiKeyCreate.valid body) (create_key (Env.id e) now (Env.token_hex e) body)
  | ListKeys => user true list_keys
  | RevokeKey id => user true (revoke_key now id)
  | ListClusters => user true (λ _, list_clusters)
  | CreateCluster body => admin (ClusterCreate.valid body) (λ _, create_cluster (Env.id e) now body)
  | DeleteCluster id => admin true (λ _, delete_cluster id)
  | ListWorkers cluster_id => user true (λ _, list_workers cluster_id)
  | DeleteWorker id => admin true (λ _, delete_worker id)
  | ListModels => user true (λ _, catalog_list_models)
  | GetModel id => user true (λ _, get_model id)
  | CreateModel body => admin (ModelCreate.valid body) (λ _, create_model (Env.id e) now body)
  | DeleteModel id => admin true (λ _, delete_model id)
  | ListInstances => user true (λ _, list_instances)
  | Deploy body => user (DeployRequest.valid body) (λ _, deploy s (Env.fresh e) (Env.dep_id e) now body)
  | StopInstance id => user true (λ _, stop_instance id)
  | RestartInstance id => user true (λ _, restart_instance id)
  | DeleteInstance id => user true (λ _, delete_instance id)
  | InstanceLogs id live lines => user (between 1 1000 lines) (λ _, instance_logs id live lines (Env.polls e))
  | ListDeployments => user true (λ _, list_deployments)
  | ScaleDeployment id body => user (ScaleRequest.valid body) (λ _, scale_deployment s (Env.fresh e) now id body)
  | SetDeploymentRange id body => user (DeploymentRange.valid body) (λ _, set_deployment_range s (Env.fresh e) now id body)
  | DeleteDeployment id => user true (λ _, delete_deployment id)
  | Dashboard => user true (λ _, dashboard)
  | GetUsage days model_id key_id =>
      user (between 1 90 days) (λ u, usage days (Env.today e) (Env.today e) model_id key_id u (Env.pending e))
  | Compatibility => user true (λ _, mret compatibility)
  end.

(** The calls only an administrator may make. *)
Definition admin_only (c : call) : bool :=
  match c with
  | ListUsers | CreateUser _ | DeleteUser _ | SetUserLimits _ _ | CreateCluster _ | DeleteCluster _
  | DeleteWorker _ | CreateModel _ | DeleteModel _ => true
  | _ => false
  end.
(** The calls that may write. *)
Definition writes (c : call) : bool :=
  match c with
  | Login _ | Me | ListUsers | ListKeys | ListClusters | ListWorkers _ | ListModels | GetModel _ | ListInstances
  | InstanceLogs _ _ _ | ListDeployments | Dashboard | GetUsage _ _ _ | Compatibility => false
  | _ => true
  end.
(** What a caller may write through [c]: an administrator anything; another user
    any deployment, but only their own password and keys. *)
Definition may_write (u : User.t) (c : call) (d : Db.t) : bool :=
  writes c && (is_admin u ||
    negb (admin_only c) &&
    match c with
    | ChangePassword id _ => (User.id u =? id)%N
    | RevokeKey id => match find_api_key d id with Some k => (ApiKey.user_id k =? User.id u)%N | None => false end
    | _ => true
    end).
End api.

(** ** Authorisation *)
Section authorisation.
Context (hashpw : string → result string) (checkpw : string → string → result bool)
        (jwt_encode : string → Claims.t → string) (jwt_decode : string → datetime → string → option Claims.t)
        (s : Settings.t).
Notation router := (api_router hashpw checkpw jwt_encode jwt_decode s).
Notation current := (get_current_user jwt_decode s).

Lemma get_current_user_cases now token d :
  (∃ u, current now token (Session.start d) = (Ok u, Session.start d)) ∨
  current now token (Session.start d) = (Raise _unauthorized, Session.start d).
Proof.
  unfold get_current_user. destruct (negb _); [left; by eexists|]. destruct (token_subject _ _ _ _) as [i|]; [|by right].
  unfold Session.start. rewrite bind_query. destruct (find_user d i) as [u|]; [|by right].
  destruct (User.is_active u); [left; by eexists|by right].
Qed.
(** An endpoint either stops at its dependencies or runs its handler as a user. *)
Lemma as_user_cases {A} now token (h : User.t → DbM A) d :
  (∃ u, current now token (Session.start d) = (Ok u, Session.start d) ∧
        as_user jwt_decode s now token h (Session.start d) = h u (Session.start d)) ∨
  as_user jwt_decode s now token h (Session.start d) = (Raise _unauthorized, Session.start d).
Proof.
  unfold as_user. destruct (get_current_user_cases now token d) as [[u Hu]|Hu].
  - left. exists u. split; [done|]. by rewrite (bind_Ok _ _ _ _ _ Hu).
  - right. by rewrite (bind_raise _ _ _ _ _ Hu).
Qed.
Lemma as_admin_cases {A} now token (h : User.t → DbM A) d :
  (∃ u, current now token (Session.start d) = (Ok u, Session.start d) ∧ is_admin u = true ∧
        as_admin jwt_decode s now token h (Session.start d) = h u (Session.start d)) ∨
  ∃ e, as_admin jwt_decode s now token h (Session.start d) = (Raise e, Session.start d).
Proof.
  unfold as_admin. edestruct (as_user_cases (A:=A) now token) as [(u & Hu & ->)| ->]; [|right; by eexists].
  unfold require_admin. destruct (is_admin u) eqn:E; [|right; by eexists]. left. by exists u.
Qed.
Lemma validated_cases {A} b (m : DbM A) d :
  validated b m (Session.start d) = (_ ← m; mret tt) (Session.start d) ∧ b = true ∨
  validated b m (Session.start d) = (Raise (HTTPException 422 "validation error"), Session.start d).
Proof. destruct b; [by left|by right]. Qed.
Lemma durable_then {A B} (m : DbM A) (b : B) st :
  Session.durable ((_ ← m; mret b) st).2 = Session.durable (m st).2.
Proof. unfold mbind, M_bind. by destruct (m st) as [[a|e] st1]. Qed.
Lemma durable_validated {A} b (m : DbM A) d :
  Session.durable (validated b m (Session.start d)).2 = d ∨
  b = true ∧ Session.durable (validated b m (Session.start d)).2 = Session.durable (m (Session.start d)).2.
Proof. destruct b; [right; split; [done|apply durable_then]|by left]. Qed.

(** An endpoint whose handler does not write when [P] fails of the user. *)
Lemma as_user_writes {A} now token b (h : User.t → DbM A) (P : User.t → bool) d :
  (∀ u, P u = false → Session.durable (h u (Session.start d)).2 = d) →
  Session.durable (as_user jwt_decode s now token (λ u, validated b (h u)) (Session.start d)).2 ≠ d →
  ∃ u, current now token (Session.start d) = (Ok u, Session.start d) ∧ P u = true.
Proof.
  intros Hh H. edestruct (as_user_cases (A:=unit) now token) as [(u & Hu & E)|E]; rewrite E in H; [|done].
  exists u. split; [done|]. destruct (P u) eqn:EP; [done|]. destruct H.
  edestruct (durable_validated b (h u) d) as [->|[_ ->]]; [done|]. by apply Hh.
Qed.
Lemma as_admin_writes {A} now token b (h : User.t → DbM A) (P : User.t → bool) d :
  (∀ u, is_admin u = true → P u = true) →
  Session.durable (as_admin jwt_decode s now token (λ u, validated b (h u)) (Session.start d)).2 ≠ d →
  ∃ u, current now token (Session.start d) = (Ok u, Session.start d) ∧ P u = true.
Proof.
  intros HP H. edestruct (as_admin_cases (A:=unit) now token) as [(u & Hu & Ha & _)|(e & E)]; [|by rewrite E in H].
  exists u. eauto.
Qed.

Lemma as_admin_reads {A} now token b (h : User.t → DbM A) d :
  (∀ u, Session.durable (h u (Session.start d)).2 = d) →
  Session.durable (as_admin jwt_decode s now token (λ u, validated b (h u)) (Session.start d)).2 = d.
Proof.
  intros Hh. edestruct (as_admin_cases (A:=unit) now token) as [(u & _ & _ & ->)|(e & ->)]; [|done].
  by edestruct (durable_validated b (h u) d) as [->|[_ ->]].
Qed.
Lemma keeps_validated {A} b (m : DbM A) : keeps_durable m → keeps_durable (validated b m).
Proof. intros H. destruct b; [|by intros st]. by apply keeps_bind; [|intros x st]. Qed.
Lemma keeps_login now body : keeps_durable (login checkpw jwt_encode s now body).
Proof.
  unfold login. apply keeps_bind; [apply keeps_query|intros [u|]]; [|by intros st].
  apply keeps_bind; [apply keeps_lift|intros ok]. by destruct (_ && _).
Qed.
Lemma reads_durable {A} (m : DbM A) d : keeps_durable m → Session.durable (m (Session.start d)).2 = d.
Proof. intros H. apply H. Qed.
Lemma keeps_try {A} (m : DbM A) h : keeps_durable m → (∀ e, keeps_durable (h e)) → keeps_durable (try_ m h).
Proof.
  intros Hm Hh st. unfold try_. specialize (Hm st). destruct (m st) as [[a|e] st1]; cbn [snd] in *; [done|].
  by rewrite Hh.
Qed.
Lemma keeps_or_404 {A} detail (o : option A) : keeps_durable (or_404 detail o).
Proof. by destruct o. Qed.
Lemma keeps_get_model id : keeps_durable (get_model id).
Proof. unfold get_model. apply keeps_bind; [apply keeps_query|apply keeps_or_404]. Qed.
Lemma keeps_wait worker_id before polls : keeps_durable (wait_for_sync worker_id before polls).
Proof.
  induction polls as [|d l IH]; [by intros st|]. cbn [wait_for_sync].
  apply keeps_bind; [apply keeps_execute|intros _]. apply keeps_bind; [apply keeps_query|intros [w|]]; [|by intros st].
  destruct (fresher _ _); [by intros st|done].
Qed.
Lemma keeps_logs id live lines polls : keeps_durable (instance_logs id live lines polls).
Proof.
  unfold instance_logs. apply keeps_bind; [apply keeps_query|intros o]. apply keeps_bind; [apply keeps_or_404|intros i].
  apply keeps_bind; [|intros stale; apply keeps_bind; [|by intros j st]].
  - destruct live; [|by intros st]. apply keeps_bind; [apply keeps_query|intros [w|]]; [apply keeps_wait|by intros st].
  - destruct live; [|by intros st]. apply keeps_bind; [apply keeps_query|intros [j|]]; by intros st.
Qed.
Lemma keeps_usage days today now model_id key_id u p : keeps_durable (usage days today now model_id key_id u p).
Proof.
  unfold usage. apply keeps_bind.
  { unfold check_key. destruct key_id; [|by intros st]. destruct (is_admin u); [by intros st|].
    apply keeps_bind; [apply keeps_query|intros [k|]]; [|by intros st]. by destruct (_ =? _)%N. }
  intros _. apply keeps_bind; [apply keeps_query|intros records]. apply keeps_bind.
  { unfold _gpu_seconds. case_match; [by intros st|apply keeps_query]. }
  intros gpu. apply keeps_bind; [apply keeps_query|intros rows]. apply keeps_bind; [apply keeps_query|by intros used st].
Qed.
Lemma change_password_forbidden id body u d :
  is_admin u = false → (User.id u =? id)%N = false → Session.durable (change_password hashpw id body u (Session.start d)).2 = d.
Proof. intros H1 H2. unfold change_password. by rewrite H1, H2. Qed.
Lemma revoke_key_forbidden now id u d :
  is_admin u = false →
  match find_api_key d id with Some k => (ApiKey.user_id k =? User.id u)%N | None => false end = false →
  Session.durable (revoke_key now id u (Session.start d)).2 = d.
Proof.
  intros H1 H2. unfold revoke_key, Session.start. rewrite bind_query. destruct (find_api_key d id) as [k|]; [|done].
  rewrite (bind_Ok (or_404 _ (Some k)) _ _ k (Session.mk d d false)) by done. by rewrite H1, H2.
Qed.

(** C13 Nothing is written without credentials: a call that changes the database
    was made by a user the token names and the server knows as active (or with
    authentication switched off), and that user may write through it: an
    administrator anything, another user deployments and instances, their own
    password and keys they own, never users, clusters, workers or models. *)
Theorem api_writes_authorised e token c d :
  Session.durable (router e token c (Session.start d)).2 ≠ d →
  ∃ u, current (Env.now e) token (Session.start d) = (Ok u, Session.start d) ∧ may_write u c d = true.
Proof.
  intros H. destruct c; cbn [api_router] in H;
    try (eapply as_admin_writes; [|exact H]; intros u Hu; unfold may_write; cbn; by rewrite Hu);
    try (eapply as_user_writes; [|exact H]; intros u Hu; unfold may_write in Hu; cbn in Hu;
         rewrite ?orb_true_r in Hu; first [discriminate Hu|rewrite ?orb_false_iff in Hu;
         eauto using reads_durable, keeps_query, keeps_ret, keeps_logs, keeps_usage]).
  - destruct H. apply reads_durable, keeps_validated, keeps_login.
  - destruct H. by apply as_admin_reads.
  - by apply change_password_forbidden; destruct Hu.
  - by apply revoke_key_forbidden; destruct Hu.
  - by apply reads_durable, keeps_get_model.
Qed.
End authorisation.

(** Tokens that are the identifier they name. *)
Definition clear_token_decode (secret : string) (now : datetime) (token : string) : option Claims.t :=
  Some (Claims.mk (Some token) (now + 1)).
Definition sample_env : Env.t :=
  Env.mk 50 0 60 "00" 61 (Fresh.mk (λ k, N.of_nat (200 + k)) (λ _, 50) (λ k, N.of_nat (300 + k))) [] [].
Lemma api_writes_authorised_witness :
  ∃ u, get_current_user clear_token_decode Settings.default 50 (str_uuid 2) (Session.start accounts_db)
         = (Ok u, Session.start accounts_db) ∧
       may_write u (CreateCluster (ClusterCreate.mk "gpu" None)) accounts_db = true.
Proof.
  apply (api_writes_authorised Ok plain_checkpw clear_encode clear_token_decode Settings.default sample_env (str_uuid 2)).
  intros E. apply (f_equal (λ d, length (Db.clusters d))) in E. vm_compute in E. discriminate E.
Defined.

(** ** The database invariant *)
Definition keeps_good {A} (m : DbM A) : Prop := ∀ d, good d → good (Session.durable (m (Session.start d)).2).
Lemma keeps_good_sane {A} (m : DbM A) : preserves sane m → keeps_good m.
Proof. intros Hm d Hd. by apply preserves_keeps. Qed.
Lemma keeps_good_reads {A} (m : DbM A) : keeps_durable m → keeps_good m.
Proof. intros Hm d Hd. by rewrite Hm. Qed.
(** A statement that touches neither deployments nor instances. *)
Lemma sane_frame f :
  (∀ d, Db.deployments (f d) = Db.deployments d) → (∀ d, Db.instances (f d) = Db.instances d) → preserves sane (execute f).
Proof. intros H1 H2. apply sane_execute. intros d [Ha Hb]. split; rewrite H1, H2; assumption. Qed.
Lemma preserves_http {A} (R : Session.t → Prop) code detail : preserves R (http_error (A:=A) code detail).
Proof. apply preserves_raise. Qed.
Lemma preserves_grpc {A} (R : Session.t → Prop) code detail : preserves R (grpc_error (A:=A) code detail).
Proof. apply preserves_raise. Qed.
#[export] Hint Resolve preserves_http preserves_grpc preserves_query preserves_lift preserves_raise preserves_ret sane_commit sane_rollback sane_or_404 : sane.
#[export] Hint Extern 1 (preserves sane (execute _)) => (apply sane_frame; intros; reflexivity) : sane.

Section account_handlers.
Context (hashpw : string → result string).
Lemma refresh_user_sane id : preserves sane (refresh_user id).
Proof. unfold refresh_user. walk. Qed.
#[local] Hint Resolve refresh_user_sane : sane.
Lemma create_user_sane id body u : preserves sane (create_user hashpw id body u).
Proof. unfold create_user. walk. Qed.
Lemma delete_user_sane id u : preserves sane (delete_user id u).
Proof. unfold delete_user. walk. Qed.
Lemma set_user_limits_sane id body u : preserves sane (set_user_limits id body u).
Proof. unfold set_user_limits. walk. Qed.
Lemma change_password_sane id body u : preserves sane (change_password hashpw id body u).
Proof. unfold change_password. walk. Qed.
Lemma create_key_sane id now hex body u : preserves sane (create_key id now hex body u).
Proof. unfold create_key. walk. Qed.
Lemma revoke_key_sane now id u : preserves sane (revoke_key now id u).
Proof. unfold revoke_key. walk. Qed.
End account_handlers.

(** The handlers that only read. *)
Ltac read_only :=
  cbv delta [list_users list_keys list_clusters list_workers catalog_list_models list_instances list_deployments dashboard me];
  cbv beta;
  first [simple apply @keeps_query|simple apply @keeps_ret|simple apply keeps_logs|simple apply keeps_usage
        |simple apply keeps_login|simple apply keeps_get_model].
Create HintDb handler.
#[export] Hint Resolve create_user_sane delete_user_sane set_user_limits_sane change_password_sane create_key_sane
  revoke_key_sane stop_instance_sane restart_instance_sane delete_deployment_sane scale_deployment_sane
  set_deployment_range_sane : handler.

(** *** The calls *)
Section calls.
Context (hashpw : string → result string) (checkpw : string → string → result bool)
        (jwt_encode : string → Claims.t → string) (jwt_decode : string → datetime → string → option Claims.t)
        (s : Settings.t).
Notation router := (api_router hashpw checkpw jwt_encode jwt_decode s).

Lemma keeps_good_validated {A} b (m : DbM A) : (b = true → keeps_good m) → keeps_good (validated b m).
Proof.
  intros Hm d Hd. edestruct (durable_validated b m d) as [->|[Hb ->]]; [done|]. by apply Hm.
Qed.
Lemma keeps_good_as_user {A} now token (h : User.t → DbM A) :
  (∀ u, keeps_good (h u)) → keeps_good (as_user jwt_decode s now token h).
Proof.
  intros Hh d Hd. edestruct (as_user_cases jwt_decode s now token h d) as [(u & _ & ->)| ->]; [by apply Hh|done].
Qed.
Lemma keeps_good_as_admin {A} now token (h : User.t → DbM A) :
  (∀ u, keeps_good (h u)) → keeps_good (as_admin jwt_decode s now token h).
Proof.
  intros Hh d Hd. edestruct (as_admin_cases jwt_decode s now token h d) as [(u & _ & _ & ->)|(e & ->)]; [by apply Hh|done].
Qed.
Lemma router_keeps_good e token c : keeps_good (router e token c).
Proof.
  destruct c; cbn [api_router];
    
    lazymatch goal with
    | |- keeps_good (as_admin _ _ _ _ _) => apply keeps_good_as_admin; intros u
    | |- keeps_good (as_user _ _ _ _ _) => apply keeps_good_as_user; intros u
    | |- _ => idtac
    end; apply keeps_good_validated;
    intros Hv;
    first [apply keeps_good_reads; solve [read_only]|apply keeps_good_sane; solve [auto 2 with handler nocore]|idtac].
  all: intros d Hd;
    eauto using create_cluster_keeps, delete_cluster_keeps, delete_worker_keeps, create_model_keeps, delete_model_keeps,
      deploy_keeps, delete_instance_keeps.
Qed.
End calls.

(** *** The workers' calls and the loops *)
Definition keeps_refs (f : ModelInstance.t → ModelInstance.t) : Prop :=
  ∀ i, ModelInstance.deployment_id (f i) = ModelInstance.deployment_id i ∧
       ModelInstance.model_id (f i) = ModelInstance.model_id i ∧
       ModelInstance.cluster_id (f i) = ModelInstance.cluster_id i.
Lemma consistent_frame d d' :
  Db.deployments d' = Db.deployments d → Db.instances d' = Db.instances d → consistent d → consistent d'.
Proof. intros E1 E2 [H1 H2]. split; rewrite E1, E2; assumption. Qed.
Lemma consistent_updates {A} (p : A → ModelInstance.t → bool) (f : A → ModelInstance.t → ModelInstance.t) l d :
  (∀ a, keeps_refs (f a)) → consistent d →
  consistent (Db.set_instances (foldl (λ rows a, update_where (p a) (f a) rows) (Db.instances d) l) d).
Proof.
  intros Hf Hd. revert d Hd. induction l as [|a l IH]; intros d Hd; [by destruct d|]. cbn [foldl].
  specialize (IH _ (consistent_update d (p a) (f a) (Hf a) Hd)). eapply consistent_frame; [| |exact IH]; by destruct d.
Qed.
Lemma apply_status_refs st : keeps_refs (apply_status st).
Proof. intros i. unfold apply_status. by destruct (nonempty _), (_ =? _). Qed.
Lemma sync_statuses_sane w statuses : preserves sane (execute (sync_statuses w statuses)).
Proof. apply sane_execute. intros d Hd. unfold sync_statuses. apply consistent_updates; [apply apply_status_refs|done]. Qed.
#[export] Hint Resolve sync_statuses_sane : sane.

Lemma sync_worker_sane now request : preserves sane (sync_worker now request).
Proof. unfold sync_worker. walk. Qed.
Lemma register_worker_sane s dns token new_id now request : preserves sane (register_worker s dns token new_id now request).
Proof. unfold register_worker, register_address, refresh_worker. walk. Qed.
Lemma seed_catalog_sane ids now catalog : preserves sane (seed_catalog ids now catalog).
Proof. unfold seed_catalog. walk. Qed.
Lemma disconnect_workers_consistent ws d : consistent d → consistent (foldl disconnect_worker d ws).
Proof.
  revert d. induction ws as [|w ws IH]; intros d Hd; [done|]. cbn [foldl]. apply IH. unfold disconnect_worker.
  eapply consistent_frame; [| |apply (consistent_update d (lost_instance (Worker.id w)) disconnect_instance); done]; done.
Qed.
Lemma mark_disconnected_sane now : preserves sane (mark_disconnected now).
Proof.
  unfold mark_disconnected. apply preserves_bind; [auto with sane|intros l]. destruct l; [auto with sane|].
  apply preserves_bind; [|intros; auto with sane]. apply sane_execute. intros d. apply disconnect_workers_consistent.
Qed.
Lemma sample_occupancy_sane today interval : preserves sane (sample_occupancy today interval).
Proof. unfold sample_occupancy. walk. Qed.


(** The autoscaler's tick and the two flushers run database steps inside a state of
    their own: a property of the session that the steps keep, they keep. *)
Section lifted.
Context (R : Session.t → Prop) (Hcommit : preserves R commit) (Hrollback : preserves R rollback).

Lemma on_session_preserves {A} (m : DbM A) : preserves R m → preserves (λ t, R (Tick.session t)) (on_session m).
Proof. intros Hm t Ht. unfold on_session. specialize (Hm _ Ht). by destruct (m (Tick.session t)). Qed.
Lemma tick_one_preserves s str reg fresh wall now id :
  (∀ r b, preserves R (apply_scale s (fresh id) wall id r b)) →
  preserves (λ t, R (Tick.session t)) (tick_one s str reg fresh wall now id).
Proof.
  intros Hs. unfold tick_one.
  apply preserves_bind; [apply on_session_preserves, preserves_query|intros [[dep [units target]]|]]; [|apply preserves_raise].
  apply preserves_bind; [apply preserves_gets|intros cd]. destruct (_ || _); [by intros t|].
  apply preserves_bind; [|intros [|]; by intros t]. apply preserves_try; [|intros; apply preserves_ret].
  apply preserves_bind; [|intros; apply preserves_ret]. by apply on_session_preserves.
Qed.
Lemma autoscale_tick_preserves s str reg fresh wall now :
  (∀ id r b, preserves R (apply_scale s (fresh id) wall id r b)) →
  preserves (λ t, R (Tick.session t)) (autoscale_tick s str reg fresh wall now).
Proof.
  intros Hs. unfold autoscale_tick. apply preserves_bind; [apply on_session_preserves, preserves_query|intros ids].
  apply preserves_bind; [|intros; apply preserves_gets]. apply preserves_foldM. intros. by apply tick_one_preserves.
Qed.
Lemma on_db_preserves {A} (m : DbM A) : preserves R m → preserves (λ l, R (Ledger.session l)) (on_db m).
Proof. intros Hm t Ht. unfold on_db. specialize (Hm _ Ht). by destruct (m (Ledger.session t)). Qed.
Lemma flush_usage_preserves f arrivals :
  (∀ ka, preserves R (upsert_usage ka)) → preserves (λ l, R (Ledger.session l)) (flush_usage f arrivals).
Proof.
  intros Hu. unfold flush_usage. apply preserves_bind; [apply preserves_gets|intros pending].
  apply preserves_bind; [by intros l|intros _]. destruct pending as [|ka p]; [apply preserves_ret|]. apply preserves_try.
  - apply preserves_bind; [|intros n; apply preserves_bind; [by intros l|intros _; apply preserves_bind;
      [|intros; apply preserves_ret]]].
    + apply preserves_foldM. intros b x. apply preserves_bind; [|intros; apply preserves_ret]. by apply on_db_preserves.
    + apply on_db_preserves. unfold commit_under, unanswered.
      destruct (Fate.ends f) as [|[]|[]]; [done| | | |]; apply preserves_bind; auto using preserves_ret;
        try (intros; apply preserves_raise); apply preserves_try; [done|intros; apply preserves_ret|done|intros; apply preserves_ret].
  - intros e. assert (∀ m : LedgerM Z, preserves (λ l, R (Ledger.session l)) m →
      preserves (λ l, R (Ledger.session l)) (match e with CancelledError => raise e | _ => m end)) as He
      by (intros m Hm; destruct e; try exact Hm; apply preserves_raise).
    apply He, preserves_bind; [|intros _; apply preserves_bind; [by intros l|intros; apply preserves_raise]].
    apply on_db_preserves. unfold rollback_under. destruct (Fate.rolls_back f); [done|apply preserves_raise].
Qed.
Lemma on_stamps_preserves {A} (m : DbM A) : preserves R m → preserves (λ l, R (Stamps.session l)) (on_stamps m).
Proof. intros Hm t Ht. unfold on_stamps. specialize (Hm _ Ht). by destruct (m (Stamps.session t)). Qed.
Lemma flush_stamps_preserves fault arriving :
  (∀ k t, preserves R (execute (stamp_key k t))) →
  preserves (λ l, R (Stamps.session l)) (flush_last_used_stamps fault arriving).
Proof.
  intros Hk. unfold flush_last_used_stamps. apply preserves_bind; [apply preserves_gets|intros pending].
  case_bool_decide; [apply preserves_ret|]. apply preserves_bind; [by intros l|intros _].
  apply preserves_bind; [|intros; apply preserves_ret]. apply preserves_try.
  - apply preserves_bind; [|intros _; apply preserves_bind; [by intros l|intros _]].
    + apply preserves_foldM. intros. by apply on_stamps_preserves.
    + destruct fault; [apply preserves_raise|]. by apply on_stamps_preserves.
  - intros e. apply preserves_bind; [by intros l|intros; apply preserves_raise].
Qed.
End lifted.

(** ** An administrator remains *)
Definition users_are (U : list User.t) (st : Session.t) : Prop :=
  Db.users (Session.durable st) = U ∧ Db.users (Session.view st) = U.
Lemma users_frame U f : (∀ d, Db.users (f d) = Db.users d) → preserves (users_are U) (execute f).
Proof.
  intros Hf st [H1 H2]. unfold execute. destruct (Session.inactive st); [done|]. split; [done|]. cbn. by rewrite Hf.
Qed.
Lemma users_commit U : preserves (users_are U) commit.
Proof. intros st [H1 H2]. unfold commit. by destruct (Session.inactive st), (constraints_ok (Session.view st)). Qed.
Lemma users_rollback U : preserves (users_are U) rollback.
Proof. by intros st [H1 H2]. Qed.
Lemma users_not_null U : preserves (users_are U) not_null_violation.
Proof. intros st [H1 H2]. unfold not_null_violation. by destruct (Session.inactive st). Qed.
#[export] Hint Resolve users_commit users_rollback users_not_null : sane.
#[export] Hint Extern 1 (preserves (users_are _) (execute _)) => (apply users_frame; intros; reflexivity) : sane.

Section users_kept.
Context (U : list User.t).
Lemma create_key_users id now hex body u : preserves (users_are U) (create_key id now hex body u).
Proof. unfold create_key. walk. Qed.
Lemma revoke_key_users now id u : preserves (users_are U) (revoke_key now id u).
Proof. unfold revoke_key. walk. Qed.
Lemma create_cluster_users id now body : preserves (users_are U) (create_cluster id now body).
Proof. unfold create_cluster. walk. Qed.
Lemma delete_cluster_users id : preserves (users_are U) (delete_cluster id).
Proof. unfold delete_cluster. walk. Qed.
Lemma delete_worker_users id : preserves (users_are U) (delete_worker id).
Proof. unfold delete_worker. walk. Qed.
Lemma create_model_users id now body : preserves (users_are U) (create_model id now body).
Proof. unfold create_model. walk. Qed.
Lemma delete_model_users id : preserves (users_are U) (delete_model id).
Proof. unfold delete_model. walk. Qed.
Lemma on_conflict_users {A} (m : DbM A) : preserves (users_are U) m → preserves (users_are U) (on_conflict m).
Proof. intros Hm. unfold on_conflict. apply preserves_try; [done|]. intros e. walk. Qed.
Lemma with_name_users id : preserves (users_are U) (with_name id).
Proof. unfold with_name. walk. Qed.
Lemma reread_users id : preserves (users_are U) (reread id).
Proof. unfold reread. walk. Qed.
#[local] Hint Resolve with_name_users reread_users : sane.
Lemma deploy_users s fr id now body : preserves (users_are U) (deploy s fr id now body).
Proof.
  unfold deploy, check_request, new_rows, new_ranks. walk. apply on_conflict_users. walk.
Qed.
Lemma stop_instance_users id : preserves (users_are U) (stop_instance id).
Proof. unfold stop_instance. walk. Qed.
Lemma restart_instance_users id : preserves (users_are U) (restart_instance id).
Proof. unfold restart_instance. walk. Qed.
Lemma delete_instance_users id : preserves (users_are U) (delete_instance id).
Proof. unfold delete_instance. walk. Qed.
Lemma delete_deployment_users id : preserves (users_are U) (delete_deployment id).
Proof. unfold delete_deployment. walk. Qed.
Lemma apply_scale_users s fr now id r b : preserves (users_are U) (apply_scale s fr now id r b).
Proof. unfold apply_scale, scale_out, add_group. walk. Qed.
#[local] Hint Resolve apply_scale_users on_conflict_users : sane.
Lemma scale_deployment_users s fr now id body : preserves (users_are U) (scale_deployment s fr now id body).
Proof. unfold scale_deployment. walk. Qed.
Lemma set_deployment_range_users s fr now id body : preserves (users_are U) (set_deployment_range s fr now id body).
Proof. unfold set_deployment_range. walk. Qed.

Lemma sync_worker_users now request : preserves (users_are U) (sync_worker now request).
Proof. unfold sync_worker. walk. Qed.
Lemma register_worker_users s dns token new_id now request :
  preserves (users_are U) (register_worker s dns token new_id now request).
Proof. unfold register_worker, register_address, refresh_worker. walk. Qed.
Lemma disconnect_workers_users ws d : Db.users (foldl disconnect_worker d ws) = Db.users d.
Proof. revert d. induction ws as [|w ws IH]; intros d; [done|]. cbn [foldl]. by rewrite IH. Qed.
Lemma mark_disconnected_users now : preserves (users_are U) (mark_disconnected now).
Proof.
  unfold mark_disconnected. apply preserves_bind; [auto with sane|intros l]. destruct l; [auto with sane|].
  apply preserves_bind; [|intros; auto with sane]. apply users_frame. intros d. apply disconnect_workers_users.
Qed.
Lemma sample_occupancy_users today interval : preserves (users_are U) (sample_occupancy today interval).
Proof. unfold sample_occupancy. walk. Qed.
End users_kept.

Definition has_admin (d : Db.t) : Prop := 1 <= admin_count d.
(** What the process keeps of its database. *)
Definition sound (d : Db.t) : Prop := good d ∧ has_admin d.
Definition keeps_sound {A} (m : DbM A) : Prop := ∀ d, sound d → sound (Session.durable (m (Session.start d)).2).
Lemma has_admin_users d d' : Db.users d' = Db.users d → has_admin d → has_admin d'.
Proof. intros E. unfold has_admin, admin_count. by rewrite E. Qed.
Lemma keeps_sound_users {A} (m : DbM A) : keeps_good m → (∀ U, preserves (users_are U) m) → keeps_sound m.
Proof.
  intros Hg Hu d [Hd Ha]. split; [by apply Hg|]. eapply has_admin_users; [|exact Ha].
  apply (Hu (Db.users d) (Session.start d)). done.
Qed.
Lemma keeps_sound_admin {A} (m : DbM A) :
  keeps_good m → (∀ d, good d → has_admin d → has_admin (Session.durable (m (Session.start d)).2)) → keeps_sound m.
Proof. intros Hg Ha d [H1 H2]. split; [by apply Hg|by apply Ha]. Qed.
Lemma keeps_sound_reads {A} (m : DbM A) : keeps_durable m → keeps_sound m.
Proof. intros Hm d Hd. by rewrite Hm. Qed.

(** A commit writes what is in view or nothing. *)
Lemma commit_admin {A} (k : unit → DbM A) d d0 :
  (∀ u, keeps_durable (k u)) → has_admin d0 → has_admin d →
  has_admin (Session.durable ((_ ← commit; k ()) (Session.mk d d0 false)).2).
Proof.
  intros Hk H0 H. unfold mbind, M_bind, commit. cbn [Session.view Session.inactive Session.durable].
  destruct (constraints_ok d); [by rewrite Hk|done].
Qed.
Lemma where_length_app {A} (p : A → bool) l1 l2 :
  Z.of_nat (length (where_ p (l1 ++ l2))) = Z.of_nat (length (where_ p l1)) + Z.of_nat (length (where_ p l2)).
Proof. rewrite where_app, length_app. lia. Qed.
(** Updating users in place changes neither their role nor whether they are active. *)
Lemma set_user_admins id f d :
  (∀ u, active_admin (f u) = active_admin u) → admin_count (set_user id f d) = admin_count d.
Proof.
  intros Hf. unfold admin_count, set_user. cbn. unfold update_where, where_. induction (Db.users d) as [|u l IH]; [done|].
  cbn. assert (active_admin (if (User.id u =? id)%N then f u else u) = active_admin u) as E by (by destruct (_ =? _)%N).
  rewrite E. destruct (active_admin u); cbn [length]; lia.
Qed.

Section account_admins.
Context (hashpw : string → result string).
Lemma keeps_refresh_user id : keeps_durable (refresh_user id).
Proof. unfold refresh_user. apply keeps_bind; [apply keeps_query|by intros [u|] st]. Qed.
Lemma create_user_admin id body u d :
  has_admin d → has_admin (Session.durable (create_user hashpw id body u (Session.start d)).2).
Proof.
  intros H. unfold create_user, Session.start. destruct (negb _); [done|]. rewrite bind_query. destruct (find_by _ _); [done|].
  unfold lift_result. destruct (hash_password _ _) as [h|e]; [|done]. rewrite (bind_Ok _ _ _ h (Session.mk d d false)) by done.
  rewrite bind_execute. apply (commit_admin (λ _, refresh_user id)); [intros; apply keeps_refresh_user|done|].
  unfold has_admin, admin_count in *. cbn [Db.users Db.set_users]. rewrite where_length_app. lia.
Qed.
Lemma set_user_limits_admin id body u d :
  has_admin d → has_admin (Session.durable (set_user_limits id body u (Session.start d)).2).
Proof.
  intros H. unfold set_user_limits, Session.start. rewrite bind_query. destruct (find_user d id) as [v|]; [|done].
  rewrite (bind_Ok (or_404 _ (Some v)) _ _ v (Session.mk d d false)) by done. rewrite bind_execute.
  apply (commit_admin (λ _, refresh_user id)); [intros; apply keeps_refresh_user|done|].
  unfold has_admin. by rewrite set_user_admins.
Qed.
Lemma change_password_admin id body u d :
  has_admin d → has_admin (Session.durable (change_password hashpw id body u (Session.start d)).2).
Proof.
  intros H. unfold change_password, Session.start. destruct (_ && _); [done|]. rewrite bind_query.
  destruct (find_user d id) as [v|]; [|done].
  rewrite (bind_Ok (or_404 _ (Some v)) _ _ v (Session.mk d d false)) by done.
  unfold lift_result. destruct (hash_password _ _) as [h|e]; [|done]. rewrite (bind_Ok _ _ _ h (Session.mk d d false)) by done.
  rewrite bind_execute. apply (commit_admin (λ _, refresh_user id)); [intros; apply keeps_refresh_user|done|].
  unfold has_admin. by rewrite set_user_admins.
Qed.
Lemma delete_user_admin id u d :
  good d → has_admin d → has_admin (Session.durable (delete_user id u (Session.start d)).2).
Proof.
  intros [Hd _] H. unfold delete_user, Session.start. destruct (_ =? _)%N; [done|]. rewrite bind_query.
  destruct (find_user d id) as [v|] eqn:E; [|done].
  rewrite (bind_Ok (or_404 _ (Some v)) _ _ v (Session.mk d d false)) by done. rewrite bind_query.
  destruct (is_admin v && (admin_count d <=? 1)) eqn:Ea; [done|]. rewrite bind_execute.
  unfold commit. cbn [Session.view Session.inactive]. rewrite (constraints_drop_user id d Hd). cbn [snd Session.durable].
  unfold has_admin in *. rewrite (admin_count_drop _ v); [|by split_constraints Hd|done].
  unfold active_admin. destruct (is_admin v); cbn [andb] in *; [|lia]. apply Z.leb_gt in Ea. destruct (User.is_active v); lia.
Qed.
End account_admins.

Section calls_sound.
Context (hashpw : string → result string) (checkpw : string → string → result bool)
        (jwt_encode : string → Claims.t → string) (jwt_decode : string → datetime → string → option Claims.t)
        (s : Settings.t).
Notation router := (api_router hashpw checkpw jwt_encode jwt_decode s).

Definition keeps_admin {A} (m : DbM A) : Prop :=
  ∀ d, good d → has_admin d → has_admin (Session.durable (m (Session.start d)).2).
Lemma keeps_admin_users {A} (m : DbM A) : (∀ U, preserves (users_are U) m) → keeps_admin m.
Proof. intros Hu d _ Ha. eapply has_admin_users; [|exact Ha]. by apply (Hu (Db.users d) (Session.start d)). Qed.
Lemma keeps_admin_reads {A} (m : DbM A) : keeps_durable m → keeps_admin m.
Proof. intros Hm d _ Ha. by rewrite Hm. Qed.
Lemma keeps_admin_validated {A} b (m : DbM A) : keeps_admin m → keeps_admin (validated b m).
Proof. intros Hm d Hd Ha. edestruct (durable_validated b m d) as [->|[Hb ->]]; [done|]. by apply Hm. Qed.
Lemma keeps_admin_as_user {A} now token (h : User.t → DbM A) :
  (∀ u, keeps_admin (h u)) → keeps_admin (as_user jwt_decode s now token h).
Proof.
  intros Hh d Hd Ha. edestruct (as_user_cases jwt_decode s now token h d) as [(u & _ & ->)| ->]; [by apply Hh|done].
Qed.
Lemma keeps_admin_as_admin {A} now token (h : User.t → DbM A) :
  (∀ u, keeps_admin (h u)) → keeps_admin (as_admin jwt_decode s now token h).
Proof.
  intros Hh d Hd Ha. edestruct (as_admin_cases jwt_decode s now token h d) as [(u & _ & _ & ->)|(e & ->)]; [by apply Hh|done].
Qed.
Lemma router_keeps_admin e token c : keeps_admin (router e token c).
Proof.
  destruct c; cbn [api_router];
    
    lazymatch goal with
    | |- keeps_admin (as_admin _ _ _ _ _) => apply keeps_admin_as_admin; intros u
    | |- keeps_admin (as_user _ _ _ _ _) => apply keeps_admin_as_user; intros u
    | |- _ => idtac
    end; apply keeps_admin_validated;
    first [apply keeps_admin_reads; solve [read_only]|idtac];
    try (intros d Hd Ha; by auto using create_user_admin, delete_user_admin, set_user_limits_admin, change_password_admin);
    apply keeps_admin_users; intros U;
    auto using create_key_users, revoke_key_users, create_cluster_users, delete_cluster_users, delete_worker_users,
      create_model_users, delete_model_users, deploy_users, stop_instance_users, restart_instance_users,
      delete_instance_users, scale_deployment_users, set_deployment_range_users, delete_deployment_users.
Qed.
Lemma router_sound e token c : keeps_sound (router e token c).
Proof. apply keeps_sound_admin; [apply router_keeps_good|apply router_keeps_admin]. Qed.
End calls_sound.
