(* ===== verification/System.v ===== *)
(** * The server process ([server/inferna_server/main.py])

    Start-up, readiness and server_shutdown, and the process as a transition system: an
    HTTP call, a worker's RPC or a background loop each run in a session of their
    own on the shared database. *)

From S2P Require Import Prelude PyStr Uuid Models Config Proto WorkersSvc Scaling Autoscaling GrpcServer Usage Gateway.
From S2P Require Import Schemas Instances Accounts Catalog Api.
Local Open Scope Z_scope.

(** ** Start-up and readiness *)

(** [str] of a list of names, as it appears in a message. *)
Definition repr_list (l : list string) : string := "[" +:+ join ", " (map (λ x, "'" +:+ x +:+ "'") l) +:+ "]".

Section startup.
Context (str_exn : exn → string).
Definition upgrade : string := " — run `alembic upgrade head`".

(** [current]: the stored schema version, if the table has a row; [heads]: the
    revisions Alembic knows. *)
Definition _check_schema (current : result (option string)) (heads : result (list string)) : result unit :=
  match current with
  | Raise _ | Ok None => Raise (RuntimeError ("database schema missing" +:+ upgrade))
  | Ok (Some v) =>
      match heads with
      | Raise e => Raise (RuntimeError ("failed to read alembic heads: " +:+ str_exn e))
      | Ok heads =>
          if bool_decide (v ∈ heads) then Ok tt
          else Raise (RuntimeError ("database schema " +:+ v +:+ " is not up to date (heads: " +:+ repr_list heads
                                    +:+ ")" +:+ upgrade))
      end
  end.

(** One iteration of [readiness_loop]: what [/readyz] answers until the next. *)
Definition readiness (select_1 : result unit) (current : result (option string)) (heads : result (list string))
    (grpc_ready : bool) : bool * option string :=
  match select_1 with
  | Raise e => (false, Some ("db check failed: " +:+ str_exn e))
  | Ok _ =>
      match current ≫= λ v, heads ≫= λ hs, Ok (v, hs) with
      | Raise e => (false, Some ("schema check failed: " +:+ str_exn e))
      | Ok (v, hs) =>
          if match v with Some v => bool_decide (v ∈ hs) | None => false end
          then if grpc_ready then (true, None) else (false, Some "gRPC not ready")
          else (false, Some ("schema " +:+ default "None" v +:+ " not in heads " +:+ repr_list hs))
      end
  end.
Definition readyz (ready : bool * option string) : Z * option string :=
  if ready.1 then (200, None) else (503, ready.2).

Lemma readiness_ready select_1 current heads grpc_ready :
  (readyz (readiness select_1 current heads grpc_ready)).1 = 200 ↔
  select_1 = Ok tt ∧ _check_schema current heads = Ok tt ∧ grpc_ready = true.
Proof.
  unfold readyz, readiness, _check_schema. destruct select_1 as [[]|e]; [|naive_solver].
  destruct current as [[v|]|e]; cbn; [|destruct heads; naive_solver|naive_solver].
  destruct heads as [hs|e]; cbn; [|naive_solver]. case_bool_decide; [destruct grpc_ready; naive_solver|naive_solver].
Qed.
End startup.

Section seed.
Context (hashpw : string → result string) (s : Settings.t).
Definition default_cluster (id : uuid) (now : datetime) : Cluster.t := Cluster.mk id "default" (Some "Default cluster") now.
(** [_seed]: the administrator of an empty users table, the default cluster, the
    catalog of models. *)
Definition _seed (admin_id cluster_id : uuid) (ids : nat → uuid) (now : datetime) (catalog : list CatalogEntry.t) : DbM unit :=
  admin ← query (λ d, head (Db.users d));
  _ ← match admin with
      | None =>
          password_hash ← lift_result (hash_password hashpw (Settings.admin_password s));
          execute (λ d, Db.set_users (Db.users d ++
            [User.mk admin_id "admin" None password_hash "admin" true None None]) d)
      | Some _ => mret tt
      end;
  cluster ← query (λ d, find_by (λ c, String.eqb (Cluster.name c) "default") (Db.clusters d));
  _ ← match cluster with
      | None => execute (λ d, Db.set_clusters (Db.clusters d ++ [default_cluster cluster_id now]) d)
      | Some _ => mret tt
      end;
  _ ← seed_catalog ids now catalog;
  commit.
Lemma seed_sane admin_id cluster_id ids now catalog : preserves sane (_seed admin_id cluster_id ids now catalog).
Proof. unfold _seed, seed_catalog. walk. Qed.
(** Start-up on a database without users leaves one administrator. *)
Lemma seed_admin admin_id cluster_id ids now catalog d st :
  Db.users d = [] → _seed admin_id cluster_id ids now catalog (Session.start d) = (Ok tt, st) → has_admin (Session.durable st).
Proof.
  intros Hu H. unfold _seed in H. apply M_bind_Ok in H as (admin & st1 & (_ & -> & ->)%query_Ok & H).
  cbn [Session.view Session.start] in H. rewrite Hu in H. cbn [head] in H.
  apply M_bind_Ok in H as ([] & st2 & H2 & H).
  apply M_bind_Ok in H2 as (h & st3 & (_ & ->)%lift_result_Ok & (_ & ->)%execute_Ok).
  cbn [Session.view Session.durable Session.start] in H.
  apply M_bind_Ok in H as (c & st4 & (_ & -> & ->)%query_Ok & H). cbn [Session.view] in H.
  apply M_bind_Ok in H as ([] & st5 & H5 & H). apply M_bind_Ok in H as ([] & st6 & (_ & ->)%execute_Ok & H).
  apply commit_Ok in H as (_ & _ & ->). cbn [Session.durable Session.view].
  assert (Db.users (Session.view st5) = [User.mk admin_id "admin" None h "admin" true None None]) as E.
  { destruct (find_by _ _) in H5.
    - injection H5 as <-. cbn. by rewrite Hu.
    - apply execute_Ok in H5 as (_ & ->). cbn. by rewrite Hu. }
  unfold has_admin, admin_count. cbn [Db.users Db.set_models]. by rewrite E.
Qed.
End seed.

(** ** The process

    One server process: its database, the usage buffer, the dirty last-used
    stamps and the autoscaler's cooldowns. *)
Module Server.
Record t := mk { db : Db.t; buffer : Buffer.t; dirty : gmap uuid datetime; cooldown : gmap uuid QArith_base.Q }.
End Server.

Section process.
Context (hashpw : string → result string) (checkpw : string → string → result bool)
        (jwt_encode : string → Claims.t → string) (jwt_decode : string → datetime → string → option Claims.t)
        (dns : string → option (list string)) (s : Settings.t).

Definition with_db (d : Db.t) (sv : Server.t) : Server.t :=
  Server.mk d (Server.buffer sv) (Server.dirty sv) (Server.cooldown sv).
(** A handler in a session of its own. *)
Definition in_session {A} (m : DbM A) (sv : Server.t) : Server.t :=
  with_db (Session.durable (m (Session.start (Server.db sv))).2) sv.

(** The gateway's side of a request: the key used is stamped, and what was
    served is added to the buffer. *)
Definition stamp_used (k : uuid) (now : datetime) (sv : Server.t) : Server.t :=
  Server.mk (Server.db sv) (Server.buffer sv) (<[k := now]> (Server.dirty sv)) (Server.cooldown sv).
Definition account_request (a : Arrival.t) (sv : Server.t) : Server.t :=
  Server.mk (Server.db sv) (record_arrival (Server.buffer sv) a) (Server.dirty sv) (Server.cooldown sv).

(** The loops: one iteration each. *)
Definition flush_stamps_pass (fault : bool) (arriving : gmap uuid datetime) (sv : Server.t) : Server.t :=
  let st := (flush_last_used_stamps fault arriving (Stamps.mk (Server.dirty sv) (Session.start (Server.db sv)))).2 in
  Server.mk (Session.durable (Stamps.session st)) (Server.buffer sv) (Stamps.dirty st) (Server.cooldown sv).
Definition usage_pass (f : Fate.t) (arrivals : list Arrival.t) (today : Z) (sv : Server.t) : Server.t :=
  let '(b, d) := usage_flush_pass f arrivals today (Server.buffer sv) (Server.db sv) in
  Server.mk d b (Server.dirty sv) (Server.cooldown sv).
Definition autoscale_pass (reg : registry) (fresh : uuid → Fresh.t) (wall : datetime) (now : QArith_base.Q) (sv : Server.t) : Server.t :=
  match loop_body s str_uuid reg fresh wall now (Server.cooldown sv, Server.db sv) with
  | Ok (c, d) => Server.mk d (Server.buffer sv) (Server.dirty sv) c
  | Raise _ => sv
  end.
(** How a background task takes its cancellation at the end of [lifespan]: it had
    ended already, it is cancelled, or it does not end in 5 s. *)
Inductive task := Ended (r : result unit) | Cancelled | TimesOut.
(** [await asyncio.wait_for(t, timeout=5)] raises what the task had raised;
    [TimeoutError] and [CancelledError] are caught. *)
Definition stop_task (t : task) : result unit :=
  match t with
  | Ended (Raise CancelledError) | Ended (Ok _) | Cancelled | TimesOut => Ok tt
  | Ended (Raise e) => Raise e
  end.
(** The end of [lifespan]: the tasks are stopped in order, then both buffers are
    flushed, each in a session of its own, whatever happens to the other. *)
Definition final_flush (fault1 : bool) (fate : Fate.t) (sv : Server.t) : Server.t :=
  let sv := flush_stamps_pass fault1 ∅ sv in
  let l := (flush_usage fate [] (Ledger.mk (Server.buffer sv) (Session.start (Server.db sv)))).2 in
  Server.mk (Session.durable (Ledger.session l)) (Ledger.buffer l) (Server.dirty sv) (Server.cooldown sv).
Definition server_shutdown (tasks : list task) (fault1 : bool) (fate : Fate.t) (sv : Server.t) : result unit * Server.t :=
  match foldR (λ _ t, stop_task t) tt tasks with
  | Raise e => (Raise e, sv)
  | Ok _ => (Ok tt, final_flush fault1 fate sv)
  end.

Inductive step (sv : Server.t) : Server.t → Prop :=
  | step_call e token c : step sv (in_session (api_router hashpw checkpw jwt_encode jwt_decode s e token c) sv)
  | step_register token new_id now request :
      step sv (with_db (Register s dns token new_id now request (Server.db sv)).2 sv)
  | step_sync now request : step sv (with_db (Sync now request (Server.db sv)).2 sv)
  | step_stamp k now : step sv (stamp_used k now sv)
  | step_account a : step sv (account_request a sv)
  | step_watchdog now : step sv (in_session (mark_disconnected now) sv)
  | step_flush_stamps fault arriving : step sv (flush_stamps_pass fault arriving sv)
  | step_usage f arrivals today : step sv (usage_pass f arrivals today sv)
  | step_autoscale reg fresh wall now : step sv (autoscale_pass reg fresh wall now sv)
  | step_shutdown tasks fault1 fate : step sv (server_shutdown tasks fault1 fate sv).2.

(** A server started on an empty database. *)
Definition started (sv : Server.t) : Prop :=
  ∃ admin_id cluster_id ids now catalog,
    run_session (_seed hashpw s admin_id cluster_id ids now catalog) Db.empty = (Ok tt, Server.db sv).

(** *** Each step keeps the invariant *)
Lemma in_session_sound {A} (m : DbM A) sv : keeps_sound m → sound (Server.db sv) → sound (Server.db (in_session m sv)).
Proof. intros Hm. apply Hm. Qed.
Lemma serve_sound {A} fallback (m : DbM A) d : keeps_sound m → sound d → sound (serve fallback m d).2.
Proof.
  intros Hm Hd. unfold serve, run_session. specialize (Hm d Hd). by destruct (m (Session.start d)) as [r st].
Qed.
Lemma keeps_sound_both {A} (m : DbM A) :
  preserves sane m → (∀ U, preserves (users_are U) m) → keeps_sound m.
Proof. intros H1 H2. apply keeps_sound_users; [by apply keeps_good_sane|done]. Qed.
(** A state with a session inside, of which both are kept. *)
Lemma lifted_sound {S A} (session : S → Session.t) (m : M S A) st :
  preserves (λ t, sane (session t)) m → (∀ U, preserves (λ t, users_are U (session t)) m) →
  (∃ d, session st = Session.start d ∧ sound d) → sound (Session.durable (session (m st).2)).
Proof.
  intros Hs Hu (d & E & Hg & Ha). split.
  - apply Hs. rewrite E. by apply sane_start.
  - eapply has_admin_users; [|exact Ha]. apply (Hu (Db.users d)). by rewrite E.
Qed.
Lemma upsert_usage_both ka : preserves sane (upsert_usage ka) ∧ ∀ U, preserves (users_are U) (upsert_usage ka).
Proof. unfold upsert_usage. split; [|intros U]; walk. Qed.
Lemma flush_usage_sound f arrivals b d :
  sound d → sound (Session.durable (Ledger.session (flush_usage f arrivals (Ledger.mk b (Session.start d))).2)).
Proof.
  intros Hd. apply (lifted_sound Ledger.session); [| |by exists d].
  - apply flush_usage_preserves; auto with sane. intros ka. apply upsert_usage_both.
  - intros U. apply flush_usage_preserves; auto with sane. intros ka. apply upsert_usage_both.
Qed.
Lemma flush_stamps_sound fault arriving sv : sound (Server.db sv) → sound (Server.db (flush_stamps_pass fault arriving sv)).
Proof.
  intros Hd. apply (lifted_sound Stamps.session); [| |by exists (Server.db sv)].
  - apply flush_stamps_preserves; auto with sane.
  - intros U. apply flush_stamps_preserves; auto with sane.
Qed.
Lemma usage_pass_sound f arrivals today sv : sound (Server.db sv) → sound (Server.db (usage_pass f arrivals today sv)).
Proof.
  intros Hd. unfold usage_pass, usage_flush_pass.
  assert (sound (Session.durable (Ledger.session ((_ ← flush_usage f arrivals;
            on_db (sample_occupancy today USAGE_FLUSH_INTERVAL_MS)) (Ledger.mk (Server.buffer sv) (Session.start (Server.db sv)))).2))) as H.
  { apply (lifted_sound Ledger.session); [| |by exists (Server.db sv)].
    - apply preserves_bind; [|intros _; apply on_db_preserves, sample_occupancy_sane].
      apply flush_usage_preserves; auto with sane. intros ka. apply upsert_usage_both.
    - intros U. apply preserves_bind; [|intros _; apply on_db_preserves, sample_occupancy_users].
      apply flush_usage_preserves; auto with sane. intros ka. apply upsert_usage_both. }
  by destruct ((_ : LedgerM _) _) as [r l] in H |- *.
Qed.
Lemma autoscale_pass_sound reg fresh wall now sv :
  sound (Server.db sv) → sound (Server.db (autoscale_pass reg fresh wall now sv)).
Proof.
  intros Hd. unfold autoscale_pass, loop_body, run_tick. destruct (negb _); [done|].
  assert (sound (Session.durable (Tick.session (autoscale_tick s str_uuid reg fresh wall now
            (Tick.mk (Session.start (Server.db sv)) (Server.cooldown sv) [] [])).2))) as H.
  { apply (lifted_sound Tick.session); [| |by exists (Server.db sv)].
    - apply autoscale_tick_preserves. intros. apply apply_scale_sane.
    - intros U. apply autoscale_tick_preserves. intros. apply apply_scale_users. }
  destruct (autoscale_tick _ _ _ _ _ _ _) as [[a|[]] t]; done.
Qed.
Lemma step_sound sv sv' : step sv sv' → sound (Server.db sv) → sound (Server.db sv').
Proof.
  intros [] Hd.
  - apply in_session_sound; [apply router_sound|done].
  - apply serve_sound; [apply keeps_sound_both; [apply register_worker_sane|intros; apply register_worker_users]|done].
  - apply serve_sound; [apply keeps_sound_both; [apply sync_worker_sane|intros; apply sync_worker_users]|done].
  - done.
  - done.
  - apply in_session_sound; [apply keeps_sound_both; [apply mark_disconnected_sane|intros; apply mark_disconnected_users]|done].
  - by apply flush_stamps_sound.
  - by apply usage_pass_sound.
  - by apply autoscale_pass_sound.
  - unfold server_shutdown, final_flush. destruct (foldR _ _ _); [|done]. by apply flush_usage_sound, flush_stamps_sound.
Qed.
Lemma started_sound sv : started sv → sound (Server.db sv).
Proof.
  intros (a & c & ids & now & catalog & H). unfold run_session in H.
  destruct (_seed hashpw s a c ids now catalog (Session.start Db.empty)) as [r st] eqn:E. injection H as -> <-. split.
  - pose proof (preserves_keeps (_seed hashpw s a c ids now catalog) Db.empty (seed_sane _ _ _ _ _ _ _)) as H.
    rewrite E in H. apply H. split; [done|]. split; by intros x ?%elem_of_nil.
  - by eapply seed_admin; [|exact E].
Qed.

Lemma reachable_sound sv sv' : started sv → rtc step sv sv' → sound (Server.db sv').
Proof.
  intros H0%started_sound Hsteps. induction Hsteps as [|sv1 sv2 sv3 H12 _ IH]; [done|]. apply IH. by eapply step_sound.
Qed.

(** A reserved port belongs to one instance. *)
Lemma port_owner d i j k :
  constraints_ok d = true → i ∈ Db.instances d → j ∈ Db.instances d →
  worker_port_key i = Some k → worker_port_key j = Some k → i = j.
Proof.
  intros Hd Hi Hj Ei Ej. assert (NoDup (omap worker_port_key (Db.instances d))) as Hn.
  { unfold unique_worker_port in *. split_constraints Hd. unfold unique_worker_port in *.
    match goal with H : unique_by_opt worker_port_key _ = true |- _ => by apply unique_by_opt_NoDup in H end. }
  revert Hn Hi Hj. clear Hd. induction (Db.instances d) as [|x l IH]; [by intros _ ?%elem_of_nil|].
  assert (∀ y, y ∈ l → worker_port_key y = Some k → k ∈ omap worker_port_key l) as Hin
    by (intros y Hy Ey; apply list_elem_of_omap; by exists y).
  cbn [omap list_omap]. intros Hn [->|Hi]%elem_of_cons [->|Hj]%elem_of_cons; [done|..].
  - rewrite Ei in Hn. apply NoDup_cons in Hn as [Hn _]. destruct Hn. by eapply Hin.
  - rewrite Ej in Hn. apply NoDup_cons in Hn as [Hn _]. destruct Hn. by eapply Hin.
  - apply IH; [|done..]. destruct (worker_port_key x); [by apply NoDup_cons in Hn as [_ ?]|done].
Qed.
Lemma instance_refs d i :
  constraints_ok d = true → i ∈ Db.instances d →
  has (find_model d (ModelInstance.model_id i)) = true ∧ has (find_cluster d (ModelInstance.cluster_id i)) = true ∧
  ∀ w, ModelInstance.worker_id i = Some w → has (find_worker d w) = true.
Proof.
  intros Hd Hi. split_constraints Hd.
  match goal with H : forallb _ (Db.instances d) = true, Hk : forallb ck_instance _ = true |- _ =>
    first [constr_eq H Hk; fail 1|pose proof (proj1 (forallb_elem _ _) H i Hi) as Hf] end.
  cbn in Hf. rewrite !andb_true_iff in Hf. destruct_and! Hf. split_and!; [done..|]. intros w E. by rewrite E in *.
Qed.

(** C12 The invariant of the process: whatever calls, worker RPCs and loop
    iterations run after start-up on an empty database, in whatever order and with
    whatever outcome, every deployment has an instance and every instance belongs
    to a deployment of its model and cluster, which exist, as does its worker; a
    port of a worker is reserved by at most one instance; and an active
    administrator exists. *)
Theorem process_invariant sv sv' :
  started sv → rtc step sv sv' →
  let d := Server.db sv' in
  (∀ dep, dep ∈ Db.deployments d → ∃ i, i ∈ Db.instances d ∧ member dep i) ∧
  (∀ i, i ∈ Db.instances d → ∃ dep, dep ∈ Db.deployments d ∧ member dep i ∧
     has (find_model d (ModelInstance.model_id i)) = true ∧ has (find_cluster d (ModelInstance.cluster_id i)) = true ∧
     ∀ w, ModelInstance.worker_id i = Some w → has (find_worker d w) = true) ∧
  (∀ i j k, i ∈ Db.instances d → j ∈ Db.instances d → worker_port_key i = Some k → worker_port_key j = Some k → i = j) ∧
  ∃ u, u ∈ Db.users d ∧ is_admin u = true ∧ User.is_active u = true.
Proof.
  intros H0 Hsteps d. pose proof (reachable_sound _ _ H0 Hsteps) as [[Hd [Hc1 Hc2]] Ha]. fold d in Hd, Hc1, Hc2, Ha.
  assert (NoDup (map Deployment.id (Db.deployments d))) as Hnd by (by split_constraints Hd).
  split_and!.
  - intros dep Hdep. destruct (Hc1 dep Hdep) as (i & Hi & E). exists i. split; [done|].
    destruct (Hc2 i Hi) as (dep' & Hdep' & Hm).
    enough (dep = dep') as -> by done. apply (NoDup_map_inj_key Deployment.id _ dep dep' Hnd Hdep Hdep').
    destruct Hm as [Hm _]. congruence.
  - intros i Hi. destruct (Hc2 i Hi) as (dep & Hdep & Hm). exists dep. do 2 (split; [done|]). by apply instance_refs.
  - intros i j k. by apply port_owner.
  - unfold has_admin, admin_count in Ha. destruct (where_ active_admin (Db.users d)) as [|u l] eqn:E; [cbn in Ha; lia|].
    assert (u ∈ where_ active_admin (Db.users d)) as Hu by (rewrite E; by left).
    apply elem_of_where in Hu as [Hu [? ?]%andb_true_iff]. by exists u.
Qed.

(** The final flush runs exactly when no task had raised. *)
Lemma shutdown_flushes tasks fault1 fate sv :
  (∀ e, Ended (Raise e) ∈ tasks → e = CancelledError) →
  server_shutdown tasks fault1 fate sv = (Ok tt, final_flush fault1 fate sv).
Proof.
  unfold server_shutdown. intros H. induction tasks as [|t tasks IH]; [done|]. cbn [foldR].
  assert (stop_task t = Ok tt) as ->.
  { destruct t as [[u|e]| |]; [done| |done..]. by rewrite (H e) by left. }
  apply IH. intros e He. apply H. by right.
Qed.
(** A TLS file that cannot be read does not stop the start-up: [serve_grpc] raises in
    its task, the process runs on without ever being ready, and at shutdown the task's
    exception is raised again before the other tasks are stopped and the buffers flushed. *)
Lemma unreadable_certificate_skips_final_flush str_exn read_file m add_port start app tasks fault1 fate sv :
  grpc_tls_enabled s = true → read_file (Settings.grpc_tls_key s) = Raise (OSError m) →
  let e := RuntimeError ("cannot read the gRPC TLS material: " +:+ str_exn (OSError m)) in
  let '(r, app') := serve_grpc str_exn s read_file add_port start (Raise CancelledError) app in
  r = Raise e ∧ app' = app ∧
  (∀ select_1 current heads, GrpcApp.grpc_ready app = false →
     (readyz (readiness str_exn select_1 current heads (GrpcApp.grpc_ready app'))).1 ≠ 200) ∧
  server_shutdown (Ended r :: tasks) fault1 fate sv = (Raise e, sv).
Proof.
  intros Ht Hf e. unfold serve_grpc, serve_grpc_begin, mbind, M_bind, lift_result, _grpc_credentials.
  rewrite Ht, Hf. cbn -[e]. split_and!; [done..| |done].
  intros select_1 current heads Happ H%readiness_ready. destruct H as (_ & _ & H). congruence.
Qed.
End process.


(** ** A server on a small catalog: what the witnesses run on *)
Definition plain_hashpw (password : string) : result string := Ok password.
Definition sample_catalog : list CatalogEntry.t := [CatalogEntry.mk "org/model" "Model" "llm" None 8000 false None ["vllm"]].
Definition seeded : result unit * Db.t :=
  run_session (_seed plain_hashpw Settings.default 9 1 (λ k, N.of_nat (100 + k)) 0 sample_catalog) Db.empty.
Definition sample_server : Server.t := Server.mk seeded.2 (Buffer.mk [] []) ∅ ∅.
Definition sample_call : DbM unit :=
  api_router plain_hashpw plain_checkpw clear_encode clear_token_decode Settings.default sample_env (str_uuid 9)
    (CreateCluster (ClusterCreate.mk "gpu" None)).

Lemma process_invariant_witness :
  map Cluster.name (Db.clusters (Server.db (in_session sample_call sample_server))) = ["default"; "gpu"] ∧
  ∃ u, u ∈ Db.users (Server.db (in_session sample_call sample_server)) ∧ is_admin u = true ∧ User.is_active u = true.
Proof.
  split; [vm_compute; reflexivity|].
  refine (proj2 (proj2 (proj2 (process_invariant plain_hashpw plain_checkpw clear_encode clear_token_decode (λ _, None)
    Settings.default sample_server (in_session sample_call sample_server) _ _)))).
  - exists 9%N, 1%N, (λ k, N.of_nat (100 + k)), 0, sample_catalog. vm_compute. reflexivity.
  - apply rtc_once. exact (step_call _ _ _ _ _ _ _ sample_env (str_uuid 9) (CreateCluster (ClusterCreate.mk "gpu" None))).
Defined.
