(* ===== verification/Startup.v ===== *)
(** * Start-up and readiness of the application ([server/inferna_server/main.py])

    [lifespan] from the schema check to [yield], the application's wiring, and the
    state that [/readyz], [readiness_loop] and [serve_grpc] share afterwards.  The
    revisions Alembic knows are those of [Revisions]: the theorem says which databases
    a server starts on, and what an answer of 200 means; and neither the migrations nor
    the server leave rows that the migrated schema refuses. *)

From S2P Require Import Prelude PyStr Uuid Models Config WorkersSvc GrpcServer Gateway Migrations Ddl Revisions SchemaRows System.
Local Open Scope Z_scope.

(** ** The application *)
Inductive background := ServeGrpc | ReadinessLoop | LastUsedFlushLoop | UsageFlushLoop | AutoscaleLoop.
Module GatewayClient.
Record t := mk { timeout : QArith_base.Q; connect : QArith_base.Q }.
End GatewayClient.
(** [app.state]; [None]: the attribute is not set. *)
Module AppState.
Record t := mk {
  grpc : GrpcApp.t; ready : option (bool * option string); tasks : list background; gateway_client : option GatewayClient.t }.
Definition unset : t := mk GrpcApp.starting None [] None.
Definition set_ready (v : bool * option string) (a : t) : t := mk (grpc a) (Some v) (tasks a) (gateway_client a).
Definition set_grpc (v : GrpcApp.t) (a : t) : t := mk v (ready a) (tasks a) (gateway_client a).
End AppState.
Inductive router := ApiRouter | GatewayRouter.
(** [app]: the origins of the CORS middleware, the routers, and whether the gateway's
    errors have a handler. *)
Module App.
Record t := mk { allow_origins : list string; routers : list router; openai_errors : bool }.
End App.
Definition app (s : Settings.t) : App.t :=
  App.mk (cors_origin_list s) (ApiRouter :: if Settings.gateway_enabled s then [GatewayRouter] else []) (Settings.gateway_enabled s).

Definition get_gateway_client (a : AppState.t) : result GatewayClient.t :=
  match AppState.gateway_client a with
  | Some c => Ok c
  | None => Raise (RuntimeError "gateway client not configured (app.state.gateway_client)")
  end.
Definition healthz : Z := 200.
(** The handler of [/readyz]. *)
Definition answer (a : AppState.t) : Z * option string := readyz (default (false, Some "not initialized") (AppState.ready a)).

Section lifespan.
Context (str_exn : exn → string) (hashpw : string → result string) (s : Settings.t) (known : result (list string)).
(** [lifespan] up to [yield]; [current]: the version the database holds. *)
Definition lifespan (current : result (option string)) (admin_id cluster_id : uuid) (ids : nat → uuid) (now : datetime)
    (catalog : list CatalogEntry.t) (a : AppState.t) (d : Db.t) : result AppState.t * Db.t :=
  match _check_schema str_exn current known with
  | Raise e => (Raise e, d)
  | Ok _ =>
      match run_session (_seed hashpw s admin_id cluster_id ids now catalog) d with
      | (Raise e, d) => (Raise e, d)
      | (Ok _, d) =>
          (Ok (AppState.mk (GrpcApp.mk false (GrpcApp.watchdog (AppState.grpc a))) (Some (false, Some "starting"))
                 [ServeGrpc; ReadinessLoop; LastUsedFlushLoop; UsageFlushLoop; AutoscaleLoop]
                 (Some (GatewayClient.mk (Settings.gateway_read_timeout s) (Settings.gateway_connect_timeout s)))), d)
      end
  end.

(** What the tasks do to the state while the server runs: an iteration of
    [readiness_loop] with what the database answers it, the port opened and closed. *)
Inductive event :=
  | Checked (select_1 : result unit) (current : result (option string))
  | GrpcBegin (read_file : string → result string) (add_port : server_port → result unit) (start : result unit)
  | GrpcEnd.
Definition app_step (a : AppState.t) (ev : event) : AppState.t :=
  match ev with
  | Checked select_1 current =>
      AppState.set_ready (readiness str_exn select_1 current known (GrpcApp.grpc_ready (AppState.grpc a))) a
  | GrpcBegin read_file add_port start => AppState.set_grpc (serve_grpc_begin str_exn s read_file add_port start (AppState.grpc a)).2 a
  | GrpcEnd => AppState.set_grpc (serve_grpc_end (AppState.grpc a)).2 a
  end.
Definition after (evs : list event) (a : AppState.t) : AppState.t := foldl app_step a evs.
Definition is_check (ev : event) : bool := match ev with Checked _ _ => true | _ => false end.

(** ** Properties *)
Lemma lifespan_Ok current admin_id cluster_id ids now catalog a d a' d' :
  lifespan current admin_id cluster_id ids now catalog a d = (Ok a', d') ↔
  _check_schema str_exn current known = Ok tt ∧
  run_session (_seed hashpw s admin_id cluster_id ids now catalog) d = (Ok tt, d') ∧
  a' = AppState.mk (GrpcApp.mk false (GrpcApp.watchdog (AppState.grpc a))) (Some (false, Some "starting"))
         [ServeGrpc; ReadinessLoop; LastUsedFlushLoop; UsageFlushLoop; AutoscaleLoop]
         (Some (GatewayClient.mk (Settings.gateway_read_timeout s) (Settings.gateway_connect_timeout s))).
Proof.
  unfold lifespan. destruct (_check_schema _ _ _) as [[]|e]; [|naive_solver].
  destruct (run_session _ d) as [[[]|e] d1]; naive_solver.
Qed.
(** Only a check changes the answer. *)
Lemma quiet_answer evs a :
  Forall (λ ev, is_check ev = false) evs → AppState.ready (after evs a) = AppState.ready a.
Proof.
  revert a. induction evs as [|ev evs IH]; intros a; [done|]. intros [Hev H]%Forall_cons. unfold after in *. cbn [foldl].
  rewrite IH by done. by destruct ev.
Qed.
(** The answer after a run is that of its last check, or of its start. *)
Lemma last_check evs :
  Forall (λ ev, is_check ev = false) evs ∨
  ∃ pre select_1 current post, evs = pre ++ Checked select_1 current :: post ∧ Forall (λ ev, is_check ev = false) post.
Proof.
  induction evs as [|ev evs IH]; [by left|]. destruct IH as [IH|(pre & sel & cur & post & -> & H)].
  - destruct ev as [sel cur| |]; [right; by exists [], sel, cur, evs|left; by constructor..].
  - right. by exists (ev :: pre), sel, cur, post.
Qed.
Lemma answer_after pre select_1 current post a :
  Forall (λ ev, is_check ev = false) post →
  answer (after (pre ++ Checked select_1 current :: post) a) =
  readyz (readiness str_exn select_1 current known (GrpcApp.grpc_ready (AppState.grpc (after pre a)))).
Proof.
  intros H. assert (after (pre ++ Checked select_1 current :: post) a = after post (app_step (after pre a) (Checked select_1 current))) as ->
    by (unfold after; by rewrite foldl_app).
  unfold answer. by rewrite quiet_answer.
Qed.
End lifespan.

Lemma check_schema_heads str_exn current v : _check_schema str_exn current (Ok [v]) = Ok tt ↔ current = Ok (Some v).
Proof.
  unfold _check_schema. destruct current as [[w|]|e]; [|naive_solver..].
  case_bool_decide as E; rewrite list_elem_of_singleton in E; naive_solver.
Qed.

(** C19 A server serves the head revision only.  With the scripts of the repository, it
    starts exactly on a database that holds the last revision and can be seeded; on
    any other revision of the chain it stops and leaves the database as it is.  It
    answers 503 when it starts; whatever happens then, it answers 200 exactly when the
    last check found the database answering, at the last revision, with the worker
    port open. *)
Theorem serves_head_revision str_exn hashpw s admin_id cluster_id ids now catalog current a d :
  let start v d := lifespan str_exn hashpw s (Ok (heads PostgreSQL)) v admin_id cluster_id ids now catalog a d in
  ((∃ a', (start current d).1 = Ok a') ↔
     current = Ok (Some head_revision) ∧ (run_session (_seed hashpw s admin_id cluster_id ids now catalog) d).1 = Ok tt) ∧
  (∀ r, r ∈ scripts PostgreSQL → Script.revision r ≠ head_revision →
     ∃ m, start (Ok (Some (Script.revision r))) d = (Raise (RuntimeError m), d)) ∧
  ∀ a' evs, (start current d).1 = Ok a' →
    (answer a').1 = 503 ∧
    ((answer (after str_exn s (Ok (heads PostgreSQL)) evs a')).1 = 200 ↔
     ∃ pre post, evs = pre ++ Checked (Ok tt) (Ok (Some head_revision)) :: post ∧ Forall (λ ev, is_check ev = false) post ∧
       GrpcApp.grpc_ready (AppState.grpc (after str_exn s (Ok (heads PostgreSQL)) pre a')) = true).
Proof.
  intros start. unfold start. clear start.
  assert (heads PostgreSQL = [head_revision]) as -> by reflexivity. split_and!.
  - split.
    + intros (a' & H). destruct (lifespan _ _ _ _ _ _ _ _ _ _ _ _) as [r d'] eqn:E. cbn in H. subst r.
      apply lifespan_Ok in E as (Hc%check_schema_heads & Hs & _). by rewrite Hs.
    + intros [-> Hs]. destruct (run_session _ d) as [[[]|e] d'] eqn:E; [|done]. eexists.
      erewrite (proj2 (lifespan_Ok _ _ _ _ _ _ _ _ _ _ _ _ _ d')); [reflexivity|]. split; [by apply check_schema_heads|].
      split; [exact E|reflexivity].
  - intros r _ Hr. unfold lifespan, _check_schema. rewrite bool_decide_eq_false_2; [by eexists|].
    intros H. by apply list_elem_of_singleton in H.
  - intros a' evs H. destruct (lifespan _ _ _ _ _ _ _ _ _ _ _ _) as [r d'] eqn:E. cbn in H. subst r.
    apply lifespan_Ok in E as (_ & _ & ->). split; [done|]. split.
    + destruct (last_check evs) as [Hq|(pre & sel & cur & post & -> & Hq)].
      * unfold answer. by rewrite quiet_answer.
      * rewrite answer_after, readiness_ready, check_schema_heads by done. intros (-> & -> & Hg). by exists pre, post.
    + intros (pre & post & -> & Hq & Hg). rewrite answer_after, readiness_ready, check_schema_heads by done. by rewrite Hg.
Qed.
(** A seeded database at the head, checked once while the worker port is open. *)
Lemma serves_head_revision_witness :
  let start v := lifespan (λ _, "") plain_hashpw Settings.default (Ok (heads PostgreSQL)) v 9 1 (λ k, N.of_nat (100 + k)) 0
                   sample_catalog AppState.unset Db.empty in
  ∃ a', (start (Ok (Some head_revision))).1 = Ok a' ∧ (answer a').1 = 503 ∧
    (∃ m, start (Ok (Some "523ac0598aed")) = (Raise (RuntimeError m), Db.empty)) ∧
    (answer (after (λ _, "") Settings.default (Ok (heads PostgreSQL))
       [GrpcBegin (λ _, Ok "") (λ _, Ok tt) (Ok tt); Checked (Ok tt) (Ok (Some head_revision))] a')).1 = 200.
Proof.
  intros start. unfold start. clear start.
  destruct (serves_head_revision (λ _, "") plain_hashpw Settings.default 9 1 (λ k, N.of_nat (100 + k)) 0 sample_catalog
    (Ok (Some head_revision)) AppState.unset Db.empty) as (Hs & Hr & Ha).
  destruct (proj2 Hs) as [a' E]; [split; [reflexivity|vm_compute; reflexivity]|]. exists a'. split; [exact E|].
  destruct (Ha a' [GrpcBegin (λ _, Ok "") (λ _, Ok tt) (Ok tt); Checked (Ok tt) (Ok (Some head_revision))] E) as [H5 H2].
  split; [exact H5|]. split.
  - apply (Hr (Script.mk "523ac0598aed" (Some "a5646d3ba245") (schema_usage PostgreSQL) (unschema_usage PostgreSQL))); [|discriminate].
    do 7 right. left.
  - apply H2. exists [GrpcBegin (λ _, Ok "") (λ _, Ok tt) (Ok tt)], []. split; [reflexivity|]. split; [constructor|].
    reflexivity.
Defined.

(** ** Rows and schema

    Neither the migrations nor the server ever leave rows that the schema built by the
    migrations refuses, as long as their texts and numbers fit the columns. *)
Lemma migrated_rows_fit str_dt d fresh :
  initial_ok d = true → domains_ok d = true → NoDup fresh → (length (Old.instances d) <= length fresh)%nat →
  ∃ d', upgrade_head str_dt fresh d = Ok d' ∧ (fits_ok d' = true → satisfies head_schema (rows_of d')).
Proof.
  intros Hd Hdom Hf Hl. destruct (upgrade_head_eq str_dt d Hd fresh Hdom Hf Hl) as (d1 & _ & E & Hok & _).
  eexists. split; [exact E|]. intros Hfit. by apply head_constraints.
Qed.
Lemma process_rows_fit hashpw checkpw jwt_encode jwt_decode dns s sv sv' :
  started hashpw s sv → rtc (step hashpw checkpw jwt_encode jwt_decode dns s) sv sv' →
  fits_ok (Server.db sv') = true → satisfies head_schema (rows_of (Server.db sv')).
Proof. intros H0 H Hfit. destruct (reachable_sound _ _ _ _ _ _ _ _ H0 H) as [[Hd _] _]. by apply head_constraints. Qed.
